(* ===== verification/_CoqProject ===== *)
-Q . S2P
Prelude.v
Errors.v
GoStrings.v
Edition.v
JsonScan.v
Regexp.v
Domain.v
Json.v
Effects.v
Postgres.v
Outbox.v
Events.v
Tables.v
World.v
GovernanceStore.v
UseCase.v
CatalogStore.v
JsonDecode.v
Rfc3339.v
TimeRoundTrip.v
DescriptorStore.v
DescriptorTree.v
DescriptorRoundTrip.v
BufDescriptor.v
DependencyStore.v
DependencyGraph.v
RuntimeStore.v
RuntimeInventory.v
AuditLog.v
Identity.v
Policy.v
Approval.v
ApprovalSafety.v
ApprovalInvariant.v
Owners.v
Archive.v
Urls.v
Storage.v
Registry.v
BufWorkflow.v
GitLabReport.v
MergeRequestCheck.v
RegistrySafety.v
RegistryOperations.v
GitLabLink.v
RuntimeSafety.v
RegistryInvariant.v
RuntimeInvariant.v
ServerPolicy.v
HttpDto.v
HttpServer.v
HttpSafety.v
HttpInvariant.v
UiTypes.v
UiQuery.v
UiGraph.v
WebTypes.v
WebViews.v
WebPages.v
WebLinks.v
Config.v
Bootstrap.v
ApiTypes.v
ApiReads.v
ApiClient.v
ApiCalls.v
Packing.v
Flags.v
Shell.v
CliHelp.v
CliOutput.v
Commands.v
GitLabApi.v
MrCommand.v
CliVerdict.v
Observability.v
Lifecycle.v
Migrations.v
