(* ===== verification/Prelude.v ===== *)
(** * ProtoRadar: a verification library

    ProtoRadar is a registry of Protocol Buffers modules with a governance
    workflow for breaking changes, an inventory of what runs, web pages, and a
    command line that talks to the server and to GitLab.  The library models its Go
    code (the packages under [src/internal] and the two commands under [src/cmd])
    as executable functions and proves what makes it correct.

    ** The program

    The server keeps its state in PostgreSQL, and the artifacts of published
    versions in an object store.  A use case validates its input, reads through
    repositories, and writes its rows, an audit event and an outbox record in one
    transaction; a publisher loop later claims the outbox records and dispatches
    them.  Publishing a version unpacks the archive, runs [buf] on it, and stores
    two artifacts, the descriptor and the dependencies of the version.  A breaking
    report of a module starts an approval request: a policy turns the report into
    requirements, owners of the target modules approve or reject them, and the
    request is approved when all of them are.  Services report which versions they
    run, and are told how these drift.  The HTTP interface authenticates and
    authorizes a request, calls one use case and answers with JSON; the pages show
    projections of the same tables.  The command line packs directories, calls the
    interface, and runs the check of a merge request.

    ** The files

    Foundations:
    - [Prelude]: tables as lists of rows, stable sorting, 64-bit integers,
      tactics and hints.
    - [Errors]: Go errors; the sentinels of each package, [errors.Is].
    - [GoStrings], [Regexp]: bytes, UTF-8, the functions of package [strings]; the
      expressions of package [regexp] the code uses.
    - [Json], [JsonScan], [JsonDecode], [Rfc3339], [TimeRoundTrip]: [encoding/json]
      and the text of times, written and read.
    - [Urls]: the escapes and paths of [net/url].
    - [Effects]: functions with state and errors, and the rules to reason about
      them: inversion of successful runs ([minv]), preservation of a relation
      ([preserves]).
    - [Domain]: [domain/*.go].  [Edition]: [edition/edition.go], [version/version.go].

    The database:
    - [Postgres]: what the code relies on of the server ([Postgres]), sessions
      ([Session]) and [mapError] of [repository/postgres/db.go].
    - [Outbox]: [outbox/*.go] and [repository/postgres/outbox.go].
    - [Events]: [integration/protoradarevents/*.go].
    - [Tables], [World]: the rows of the catalogue; all the tables, faults of the
      connection, the clock, random identifiers, and [WithinTransaction].
    - [GovernanceStore], [CatalogStore], [DescriptorStore], [DependencyStore],
      [RuntimeStore]: the repositories, [repository/postgres/*.go].
    - [DescriptorTree], [DescriptorRoundTrip]: the tree of messages in rows, and that
      a descriptor is read back as it was saved.
    - [Migrations]: [repository/postgres/migrations.go].

    The use cases:
    - [UseCase]: the pieces every use case is made of.
    - [AuditLog]: [audit/audit.go].  [Identity]: [identity/*.go],
      [authorization/authorization.go], [usecase/governance/actor.go],
      [repository/postgres/api_tokens.go].
    - [Policy], [Approval], [Owners]: [usecase/governance/*.go]; [ApprovalSafety],
      [ApprovalInvariant]: what the service does to the tables, and the workflow as
      a transition system.
    - [DependencyGraph]: [usecase/dependencygraph/service.go], with a reference
      definition of the resolution.
    - [Archive]: [workspace/archive.go], with the paths of [path/filepath] and a
      file system whose symbolic links are followed.  [Storage]: [storage/*.go] and the S3 store of
      [infrastructure/objectstorage/s3].
    - [BufDescriptor], [BufWorkflow]: [infrastructure/bufcli/*.go].
    - [Registry], [GitLabLink]: [usecase/registry/*.go], [format/breaking/formatter.go]
      and the mapping of GitLab projects; [RegistrySafety], [RegistryOperations],
      [RegistryInvariant]: what the registry does to the tables and the store.
    - [RuntimeInventory], [RuntimeSafety], [RuntimeInvariant]:
      [usecase/runtimeinventory/*.go].
    - [ServerPolicy]: the approval workflow with the providers of the server.
    - [GitLabReport], [MergeRequestCheck]: [format/gitlabmr/renderer.go],
      [usecase/gitlabmr/runner.go].

    The interfaces:
    - [HttpDto], [HttpServer], [HttpSafety], [HttpInvariant]: [transport/http/*.go];
      [Observability]: [transport/http/observability.go].
    - [UiTypes], [UiQuery], [UiGraph]: [usecase/uiquery/*.go].  [WebTypes], [WebViews],
      [WebPages], [WebLinks]: [transport/web/*.go].
    - [Config], [Bootstrap], [Lifecycle]: [config/*.go], [app/bootstrap/*.go],
      [cmd/protoradar-server/main.go].

    The command line:
    - [ApiTypes], [ApiReads], [ApiClient], [ApiCalls]: [cli/api/client.go], alone and
      against the server.
    - [Packing], [Flags], [Shell], [CliHelp], [CliOutput], [Commands]: [cli/*.go],
      [cli/config/config.go], [cmd/protoradar/main.go].
    - [GitLabApi], [MrCommand]: [infrastructure/gitlabapi/client.go],
      [cli/gitlab_mr.go].  [CliVerdict]: the exit codes.

    ** How code becomes definitions

    A Go function is a definition of the same name; a method that shares its
    name with another carries the name of its receiver ([Owner_Add]).  A
    function that touches the database is a value of [M World A]: it maps a
    world to a result and a world, so that what happened before an error stays,
    as in Go.  An SQL statement is a function on the tables: it converts its
    parameters (a [uuid] in any spelling becomes canonical, a text must be
    valid UTF-8), checks the constraints of the migrations and updates the rows.
    Each statement is a step that may lose its connection, and then it is open
    whether the server applied it; inside a transaction nothing of it stays.
    [World.Env] says what happens at each step, and the theorems hold for every
    [Env].  The registry runs on the database, a file system and the store
    together ([Registry.Registry]); [zoom] runs the parts.  A handler maps a request
    and this state to a response and a state; a command maps its arguments, what it
    printed, the files and the state of the remote side ([Shell.Shell]).  The
    process of the server, whose parts run beside each other, is a step relation.

    The interfaces of the code are type classes: [PolicyEvaluator], [AuditSink],
    [ApprovalProviders], [PublisherEnv], [Session]; where a client relies on more
    than the type, a class of laws says what ([PolicyEvaluatorLaws],
    [AuditSinkLaws], [ApprovalProvidersLaws], [ArtifactStoreLaws]) and the
    implementation discharges it.  Code that is not of the program is a class as
    well: [Postgres], [Crypto], [Unicode], [OS], [Host], [Protobuf], [CommandRunner]
    and [Process] (running [buf]), [NetURL], [URLBase], [MultipartReader],
    [MultipartWriter], [ArchiveWriter], [Environ], [Quoting], [YAML], [Float64],
    [Goose], [GitLabNotes], with their documented laws where a theorem needs one
    ([HostLaws], [ArchiveWriterLaws], [Collation]); the class [HonestFaults] says
    that the failure of a statement is a lost connection, and what holds only while
    no statement is applied without being acknowledged says so ([unacknowledged]).

    Functions are total: loops over lists are structural.  The publisher loop
    [Outbox.Run], which does not terminate by design, takes the list of its wake-ups.
    [DescriptorStore.buildMessageTree] has one unit of fuel for each row, and
    [DescriptorTree] proves that it is enough; [Packing.walkDir] has the depth of the
    deepest directory, and [walkDir_enough] proves that a larger bound changes nothing;
    [Archive.follow] gives up after 40 symbolic links, as the system does;
    [Observability.base36] has more than the 13 digits of a 64-bit integer.

    ** What the theorems show

    - The outbox: a pass settles each claimed record by the outcome of its
      dispatch; a claim picks eligible records once, earliest first; concurrent
      claims are disjoint; no record is lost; backoff and options stay in range.
    - Transactions are all or nothing, whatever fails; a nested one is part of the
      one around it.
    - The policy equals a reference definition.
    - Approvals: a decision is made under all its guards with its whole effect,
      or not at all; the status of a request always follows from its
      requirements and decisions; decided requests stay; creation happens once
      per report.
    - Identity: only a stored, unexpired token authenticates.
    - The dependency graph: resolution equals a reference definition, its edges
      fit the unique key of the table, and a rebuild replaces exactly the entries
      of one version.
    - Descriptors: what [buf] built is well named, the recursion over its messages
      ends, and a saved descriptor is read back.
    - The registry: publication, deprecation, links and breaking checks have their
      whole effect or none; every artifact row keeps its object in the store as long
      as requests do not overlap and no commit is lost on the way back.
    - Runtime inventory: a report stores its deployment with the drift a reference
      definition gives, or nothing; a printed reference is read back.
    - [buf]: both workflows answer, whatever the process does, with one of their
      documented ends.
    - Archives: whatever an archive holds, its extraction writes only below the
      directory that the destination leads to, unless there are symbolic links inside
      it, and within the limit; [pull] restores what [push] packed.
    - Merge requests: the exit code is the verdict, the notes of GitLab, while they fit
      one page, hold the last report in one note, and no text with the form of a
      GitLab token or of [prr_...] is shown.
    - The HTTP interface: requests that read change nothing, only credentials act,
      failures are answered with fixed documents, and every invariant is kept over
      any sequence of requests; requests are counted, however they overlap.
    - Configuration: the server starts exactly with the configurations that are
      accepted, and its parts get their values.  The process stops in order, in every
      interleaving.
    - The pages of reports and of dependency graphs show exactly what is stored, and
      the links of all pages lead to the pages they name.
    - The client: every call whose arguments a path can hold is the operation of the
      server it names.  Flags can stand in any order; the exit code of a command is its verdict.
    - Defects of the code are theorems too, among them: lost status changes of
      concurrent decisions, identifiers that the API returns and does not accept,
      byte truncation of messages, a size limit that wraps around, a clean-up that
      deletes published objects, a rebuild that its own event forbids, an extraction
      that follows the links of its destination, a policy that finds no consumer in
      production, pages at the root that hide the API, a flag value with a dash that ends the flags.

    ** Not modelled

    The HTML templates and their escaping; the transports of HTTP, of the S3 client
    and of GitLab, and the drivers; the merging of defaults, YAML and environment
    into a configuration and the reading of durations, which libraries do; the
    application of migrations by [goose]; the calls of the handlers that count
    publications, checks and reports, the header [Allow] of a 405 and the redirects
    of paths that are not clean; the permissions and hard links of files.  A world
    holds one session: the transactions of two requests that overlap are modelled
    where a claim is about them, by the sequence of their steps.  Generated
    identifiers are drawn from a parameter.  The order of rows that a query does not
    order, and of rows that tie, is the order of the heap. *)

From Stdlib Require Export Ascii String ZArith Lia.
From stdpp Require Export base list strings gmap sorting.

(** ** Proof automation *)

Declare Scope go_scope.
Delimit Scope go_scope with go.

(** Case analysis on the innermost match or conditional of the goal, keeping
    the equation. *)
Ltac go_case :=
  match goal with
  | |- context [match ?x with _ => _ end] =>
      lazymatch x with
      | context [match _ with _ => _ end] => fail
      | _ => let E := fresh "E" in destruct x eqn:E
      end
  end.

(** The same on a hypothesis. *)
Ltac go_case_in H :=
  match type of H with
  | context [match ?x with _ => _ end] =>
      lazymatch x with
      | context [match _ with _ => _ end] => fail
      | _ => let E := fresh "E" in destruct x eqn:E
      end
  end.

(** Case analysis on the hypothesis until nothing is left to split. *)
Ltac go_cases H := repeat (go_case_in H; simplify_eq/=).

(** The record with one of its fields replaced: [eta] builds the record from its
    own fields. *)
Ltac setter eta proj :=
  let e := eval unfold eta in eta in
  match eval pattern proj in e with
  | ?f _ => let t := eval cbv beta in (fun v r => f (fun _ => v) r) in exact t
  end.

Create HintDb go discriminated.
#[export] Hint Constants Opaque : go.
Create Rewrite HintDb go_rw.

(** ** Lists used as tables

    A table of the database is a list of rows in heap order.  Rows are found
    with [List.find], updated with [map] and appended at the end. *)

Section Tables.
Context {A : Type}.
Implicit Types (p q : A -> bool) (l : list A).

(** [update_where p f l] is SQL's [UPDATE ... SET f WHERE p]: the rows that
    satisfy [p] are rewritten in place. *)
Definition update_where (p : A -> bool) (f : A -> A) (l : list A) : list A :=
  map (fun r => if p r then f r else r) l.

Lemma length_update_where p f l : length (update_where p f l) = length l.
Proof. apply length_map. Qed.

Lemma find_some_in p l x : List.find p l = Some x -> x ∈ l /\ p x = true.
Proof. intros H. apply List.find_some in H. by rewrite list_elem_of_In. Qed.

Lemma find_none_in p l : List.find p l = None <-> forall x, x ∈ l -> p x = false.
Proof.
  split.
  - intros H x Hx%list_elem_of_In. by apply (List.find_none _ _ H).
  - induction l as [|y l IH]; simpl; intros H; [done|].
    rewrite (H y) by apply list_elem_of_here. apply IH. intros x Hx. apply H. by apply list_elem_of_further.
Qed.

Lemma find_app_none p l l' :
  List.find p l = None -> List.find p (l ++ l') = List.find p l'.
Proof. induction l as [|y l IH]; simpl; [done|]. by destruct (p y). Qed.

Lemma find_app_some p l l' x :
  List.find p l = Some x -> List.find p (l ++ l') = Some x.
Proof. induction l as [|y l IH]; simpl; [done|]. by destruct (p y). Qed.

(** A row update that does not change the predicate commutes with the
    search. *)
Lemma find_update_where p q f l :
  (forall x, q (f x) = q x) ->
  List.find q (update_where p f l) =
  (fun r => if p r then f r else r) <$> List.find q l.
Proof.
  intros Hq. induction l as [|y l IH]; simpl; [done|].
  destruct (p y) eqn:Hp; [rewrite Hq|]; destruct (q y) eqn:Hqy; simpl;
    by rewrite ?Hp.
Qed.

Lemma existsb_false p l : existsb p l = false <-> forall x, x ∈ l -> p x = false.
Proof.
  induction l as [|y l IH]; simpl; [set_solver|].
  rewrite orb_false_iff, IH. set_solver.
Qed.

Lemma existsb_true p l : existsb p l = true <-> exists x, x ∈ l /\ p x = true.
Proof.
  rewrite List.existsb_exists. by setoid_rewrite list_elem_of_In.
Qed.

Lemma elem_of_filter_bool p l x : x ∈ List.filter p l <-> x ∈ l /\ p x = true.
Proof. by rewrite !list_elem_of_In, List.filter_In. Qed.

Lemma filter_all (p : A -> bool) l : (forall x, x ∈ l -> p x = true) -> List.filter p l = l.
Proof.
  intros H. induction l as [|x l IH]; simpl; [done|].
  rewrite H by (by left). f_equal. apply IH. intros y Hy. apply H. by right.
Qed.
Lemma filter_none (p : A -> bool) l : (forall x, x ∈ l -> p x = false) -> List.filter p l = [].
Proof.
  intros H. induction l as [|x l IH]; simpl; [done|].
  rewrite H by (by left). apply IH. intros y Hy. apply H. by right.
Qed.
Lemma filter_negb_none (p : A -> bool) l : List.filter p (List.filter (fun x => negb (p x)) l) = [].
Proof. apply filter_none. intros x [_ Hx]%elem_of_filter_bool. by apply negb_true_iff. Qed.
Lemma filter_negb_negb (p : A -> bool) l :
  List.filter (fun x => negb (p x)) (List.filter (fun x => negb (p x)) l) = List.filter (fun x => negb (p x)) l.
Proof. apply filter_all. by intros x [_ Hx]%elem_of_filter_bool. Qed.

Lemma elem_of_update_where p f l x :
  x ∈ update_where p f l <-> exists y, y ∈ l /\ x = if p y then f y else y.
Proof.
  unfold update_where. rewrite list_elem_of_In, in_map_iff.
  setoid_rewrite <- list_elem_of_In. naive_solver.
Qed.

(** An update keeps a field it does not assign. *)
Lemma map_update_where {B} (g : A -> B) p f l :
  (forall x, g (f x) = g x) -> map g (update_where p f l) = map g l.
Proof.
  intros H. unfold update_where. rewrite map_map. apply map_ext. intros x.
  by destruct (p x).
Qed.

Lemma Forall_update_where (P : A -> Prop) p f l :
  (forall x, p x = true -> P x -> P (f x)) -> Forall P l -> Forall P (update_where p f l).
Proof.
  intros Hf. induction 1 as [|x l Hx Hl IH]; simpl; constructor; [|done].
  destruct (p x) eqn:E; auto.
Qed.

Lemma NoDup_map_filter {B} (g : A -> B) p l : NoDup (map g l) -> NoDup (map g (List.filter p l)).
Proof.
  induction l as [|x l IH]; simpl; [done|]. rewrite NoDup_cons. intros [Hx Hl].
  destruct (p x); simpl; [|by apply IH]. apply NoDup_cons. split; [|by apply IH].
  contradict Hx. revert Hx. rewrite !list_elem_of_In, !in_map_iff.
  intros (y & Hy & Hin%List.filter_In). naive_solver.
Qed.

#[export] Instance filter_bool_perm p : Proper ((≡ₚ) ==> (≡ₚ)) (List.filter p).
Proof.
  intros l l' H. induction H as [|x l l' H IH|x y l|l l' l'' H IH H' IH']; simpl; [done| | |by etrans].
  - destruct (p x); [by f_equiv|done].
  - destruct (p x), (p y); (done || apply Permutation_swap).
Qed.

(** With distinct keys, a row is determined by its key. *)
Lemma NoDup_map_inj {B} (g : A -> B) l x y :
  NoDup (map g l) -> x ∈ l -> y ∈ l -> g x = g y -> x = y.
Proof.
  induction l as [|z l IH]; simpl; [set_solver|]. rewrite NoDup_cons. intros [Hz Hl].
  assert (Hin : forall w, w ∈ l -> g w ∈ map g l).
  { intros w Hw. by apply list_elem_of_In, in_map, list_elem_of_In. }
  rewrite !elem_of_cons. intros [->|Hx] [->|Hy] E; auto.
  - destruct Hz. rewrite E. auto.
  - destruct Hz. rewrite <- E. auto.
Qed.
End Tables.

Lemma map_flat_map {A B C} (f : B -> C) (g : A -> list B) l :
  map f (flat_map g l) = flat_map (fun a => map f (g a)) l.
Proof. induction l as [|a l IH]; simpl; [done|]. by rewrite map_app, IH. Qed.

#[export] Hint Resolve length_update_where : go.

(** ** Stable insertion sort

    [ORDER BY] on a table: equal keys keep the heap order.  The heap order
    being arbitrary, every order the database may pick for equal keys is the
    result on some heap. *)

Section Sort.
Context {A : Type} (leb : A -> A -> bool).

Fixpoint insert_sorted (x : A) (l : list A) : list A :=
  match l with
  | [] => [x]
  | y :: l' => if leb x y then x :: y :: l' else y :: insert_sorted x l'
  end.

Fixpoint sort_by (l : list A) : list A :=
  match l with
  | [] => []
  | x :: l' => insert_sorted x (sort_by l')
  end.

Lemma insert_sorted_perm x l : insert_sorted x l ≡ₚ x :: l.
Proof.
  induction l as [|y l IH]; simpl; [done|].
  destruct (leb x y); [done|]. rewrite IH. apply Permutation_swap.
Qed.

Lemma sort_by_perm l : sort_by l ≡ₚ l.
Proof.
  induction l as [|x l IH]; simpl; [done|]. by rewrite insert_sorted_perm, IH.
Qed.

Lemma elem_of_sort_by x l : x ∈ sort_by l <-> x ∈ l.
Proof. by rewrite sort_by_perm. Qed.

Context (leb_total : forall x y, leb x y = false -> leb y x = true).
Context (leb_trans : forall x y z, leb x y = true -> leb y z = true -> leb x z = true).

Lemma insert_sorted_StronglySorted x l :
  StronglySorted (fun a b => leb a b = true) l ->
  StronglySorted (fun a b => leb a b = true) (insert_sorted x l).
Proof.
  induction 1 as [|y l Hs IH Hall]; simpl; [repeat constructor|].
  destruct (leb x y) eqn:Hxy.
  - constructor; [by constructor|]. constructor; [done|].
    eapply Forall_impl; [exact Hall|]. simpl. eauto.
  - constructor; [done|]. rewrite insert_sorted_perm.
    constructor; [by apply leb_total|done].
Qed.

Lemma sort_by_StronglySorted l :
  StronglySorted (fun a b => leb a b = true) (sort_by l).
Proof.
  induction l as [|x l IH]; simpl; [constructor|].
  by apply insert_sorted_StronglySorted.
Qed.
End Sort.

(** Sorting the rows of a selection is selecting from the sorted rows. *)
Section SortFilter.
Context {A : Type} (leb : A -> A -> bool).
Context (leb_total : forall x y, leb x y = false -> leb y x = true).
Context (leb_trans : forall x y z, leb x y = true -> leb y z = true -> leb x z = true).

Lemma insert_sorted_head x l : Forall (fun y => leb x y = true) l -> insert_sorted leb x l = x :: l.
Proof. destruct l as [|y l]; [done|]. intros [H _]%Forall_cons. simpl. by rewrite H. Qed.

Lemma filter_insert_sorted (p : A -> bool) x l :
  StronglySorted (fun a b => leb a b = true) l ->
  List.filter p (insert_sorted leb x l)
  = if p x then insert_sorted leb x (List.filter p l) else List.filter p l.
Proof.
  induction 1 as [|y l Hs IH Hall]; simpl; [by destruct (p x)|].
  destruct (leb x y) eqn:E.
  - change (if p y then y :: List.filter p l else List.filter p l) with (List.filter p (y :: l)).
    cbn [List.filter]. destruct (p x); [|done].
    change (if p y then y :: List.filter p l else List.filter p l) with (List.filter p (y :: l)).
    symmetry. apply insert_sorted_head, Forall_forall.
    intros z [[->|Hz]%elem_of_cons _]%elem_of_filter_bool; [done|]. rewrite Forall_forall in Hall. eauto.
  - simpl. rewrite IH. destruct (p x), (p y); simpl; by rewrite ?E.
Qed.

Lemma filter_sort_by (p : A -> bool) l : List.filter p (sort_by leb l) = sort_by leb (List.filter p l).
Proof.
  induction l as [|x l IH]; simpl; [done|].
  rewrite filter_insert_sorted by (apply sort_by_StronglySorted; auto). rewrite IH. by destruct (p x).
Qed.

(** Rows that no two of which tie have one order. *)
Lemma sort_by_unique l l' :
  (forall x y, x ∈ l -> y ∈ l -> leb x y = true -> leb y x = true -> x = y) ->
  l ≡ₚ l' -> sort_by leb l = sort_by leb l'.
Proof.
  intros Ha Hp. eapply StronglySorted_unique_strong; [|by apply sort_by_StronglySorted..|by rewrite !sort_by_perm].
  intros x y Hx%elem_of_sort_by Hy%elem_of_sort_by. rewrite <- Hp in Hy. by apply Ha.
Qed.
End SortFilter.

(** What a mapped list has. *)
Lemma elem_of_flat_map {A B} (f : A -> list B) l y : y ∈ flat_map f l <-> exists x, x ∈ l /\ y ∈ f x.
Proof. rewrite list_elem_of_In, in_flat_map. by setoid_rewrite list_elem_of_In. Qed.
Lemma elem_of_map {A B} (f : A -> B) l y : y ∈ map f l <-> exists x, x ∈ l /\ y = f x.
Proof. rewrite list_elem_of_In, in_map_iff. setoid_rewrite list_elem_of_In. naive_solver. Qed.

Lemma sort_by_map {A B} (leb : A -> A -> bool) (leb' : B -> B -> bool) (f : A -> B) l :
  (forall x y, leb' (f x) (f y) = leb x y) -> sort_by leb' (map f l) = map f (sort_by leb l).
Proof.
  intros Hf. induction l as [|x l IH]; simpl; [done|]. rewrite IH. generalize (sort_by leb l).
  intros k. induction k as [|y k IHk]; simpl; [done|]. rewrite Hf. destruct (leb x y); simpl; [done|]. by rewrite IHk.
Qed.

Lemma Forall2_map_self {A B} (R : A -> B -> Prop) (f : A -> B) l :
  (forall x, x ∈ l -> R x (f x)) -> Forall2 R l (map f l).
Proof.
  induction l as [|x l IH]; intros H; cbn [map]; constructor; [apply H; left|]. apply IH. intros y Hy. apply H. by right.
Qed.

(** Sorting both sides of a correspondence that respects the order. *)
Lemma Forall2_insert_sorted {A B} (R : A -> B -> Prop) leb leb' x y l k :
  (forall a b a' b', R a b -> R a' b' -> leb a a' = leb' b b') ->
  R x y -> Forall2 R l k -> Forall2 R (insert_sorted leb x l) (insert_sorted leb' y k).
Proof.
  intros Hk Hxy. induction 1 as [|a b l k Hab H IH]; simpl; [by repeat constructor|].
  rewrite (Hk x y a b Hxy Hab). destruct (leb' y b); by repeat constructor.
Qed.
Lemma Forall2_sort_by {A B} (R : A -> B -> Prop) leb leb' l k :
  (forall a b a' b', R a b -> R a' b' -> leb a a' = leb' b b') ->
  Forall2 R l k -> Forall2 R (sort_by leb l) (sort_by leb' k).
Proof.
  intros Hk. induction 1 as [|a b l k Hab H IH]; simpl; [constructor|]. by apply Forall2_insert_sorted.
Qed.

Lemma StronglySorted_filter_bool {A} (R : relation A) (p : A -> bool) l :
  StronglySorted R l -> StronglySorted R (List.filter p l).
Proof.
  induction 1 as [|x l Hs IH Hall]; simpl; [constructor|]. destruct (p x); [|done].
  constructor; [done|]. apply Forall_forall. intros y [Hy _]%elem_of_filter_bool.
  rewrite Forall_forall in Hall. auto.
Qed.

(** In a sorted list, the first [n] elements come before the others. *)
Lemma StronglySorted_firstn_skipn {A} (R : relation A) n l x y :
  StronglySorted R l -> x ∈ firstn n l -> y ∈ skipn n l -> R x y.
Proof.
  intros Hs. revert n. induction Hs as [|z l Hs IH Hall]; intros [|n]; simpl; [set_solver..|].
  rewrite elem_of_cons. intros [->|Hx] Hy; [|by eapply IH].
  rewrite Forall_forall in Hall. apply Hall. rewrite <- (take_drop n l). set_solver.
Qed.

Lemma elem_of_firstn_skipn {A} n (l : list A) x : x ∈ l -> x ∈ firstn n l \/ x ∈ skipn n l.
Proof. rewrite <- (take_drop n l) at 1. by rewrite elem_of_app. Qed.

Lemma elem_of_firstn {A} n (l : list A) x : x ∈ firstn n l -> x ∈ l.
Proof. intros H. rewrite <- (take_drop n l). set_solver. Qed.

Lemma skipn_elem_length {A} n (l : list A) x : x ∈ skipn n l -> (n < length l)%nat.
Proof.
  intros H. destruct (decide (n < length l)%nat) as [|Hn]; [done|].
  rewrite skipn_all2 in H by lia. set_solver.
Qed.

(** ** Machine integers *)

Definition int64_min : Z := (- 2 ^ 63)%Z.
Definition int64_max : Z := (2 ^ 63 - 1)%Z.

(** Two's complement wrap-around of a 64-bit signed result. *)
Definition wrap64 (z : Z) : Z := ((z + 2 ^ 63) mod 2 ^ 64 - 2 ^ 63)%Z.

Definition is_int64 (z : Z) : Prop := (int64_min <= z <= int64_max)%Z.

Lemma wrap64_id z : is_int64 z -> wrap64 z = z.
Proof.
  unfold is_int64, int64_min, int64_max, wrap64. intros H.
  rewrite Z.mod_small; lia.
Qed.

Lemma wrap64_int64 z : is_int64 (wrap64 z).
Proof.
  unfold is_int64, int64_min, int64_max, wrap64.
  pose proof (Z.mod_pos_bound (z + 2 ^ 63) (2 ^ 64)). lia.
Qed.

#[export] Hint Resolve wrap64_int64 : go.
