(* ===== verification/Errors.v ===== *)
(** * Go error values

    [domain/errors.go], [usecase/governance/errors.go],
    [usecase/registry/errors.go], [usecase/runtimeinventory/errors.go]: the
    sentinel errors of the packages, and the way the code builds and inspects
    errors: [errors.New], [fmt.Errorf] with [%w], [errors.Join] and
    [errors.Is]. *)

From S2P Require Import Prelude.

Module domain.
(** The sentinels of package [domain]. *)
Inductive sentinel :=
| ErrInvalidModuleName
| ErrInvalidVersion
| ErrInvalidModuleVersionState
| ErrInvalidArtifactKind
| ErrInvalidBreakingStatus
| ErrInvalidGitLabBaseURL
| ErrInvalidGitLabProjectID
| ErrInvalidGitLabProjectPath
| ErrInvalidRuntimeServiceName
| ErrInvalidRuntimeEnvironment
| ErrInvalidRuntimeGitCommit
| ErrInvalidRuntimeBuildVersion
| ErrInvalidRuntimeDriftStatus
| ErrInvalidGovernanceSubjectType
| ErrInvalidGovernanceSubject
| ErrInvalidModuleOwnerRole
| ErrInvalidApprovalRequestStatus
| ErrInvalidApprovalRequirementType
| ErrInvalidApprovalRequirementStatus
| ErrInvalidApprovalDecision
| ErrInvalidApprovalActor
| ErrInvalidGovernanceAuditEventType
| ErrApprovalDecisionCommentTooLong
| ErrDuplicate
| ErrNotFound.

#[global] Instance sentinel_eq_dec : EqDecision sentinel.
Proof. solve_decision. Defined.
End domain.

Module governance.
(** The sentinels of package [governance]. *)
Inductive sentinel :=
| ErrInvalidModuleName
| ErrModuleNotFound
| ErrInvalidSubjectType
| ErrInvalidSubject
| ErrInvalidModuleOwnerRole
| ErrInvalidModuleOwnerID
| ErrModuleOwnerNotFound
| ErrModuleOwnerAlreadyExists
| ErrInvalidBreakingReportID
| ErrBreakingReportNotFound
| ErrApprovalRequestNotFound
| ErrInvalidRequirementID
| ErrApprovalRequirementNotFound
| ErrInvalidApprovalActor
| ErrApprovalDecisionCommentTooLong
| ErrApprovalRequestConflict
| ErrApprovalRequirementConflict
| ErrApprovalActorForbidden
| ErrGovernanceActorOverrideForbidden.

#[global] Instance sentinel_eq_dec : EqDecision sentinel.
Proof. solve_decision. Defined.
End governance.

Module registry.
(** The sentinels of package [registry]. *)
Inductive sentinel :=
| ErrInvalidModuleName
| ErrInvalidVersion
| ErrModuleNotFound
| ErrModuleGitLabProjectNotFound
| ErrModuleAlreadyExists
| ErrModuleVersionAlreadyExists
| ErrInvalidActor
| ErrInvalidGitLabBaseURL
| ErrInvalidGitLabProjectID
| ErrInvalidGitLabProjectPath
| ErrGitLabProjectAlreadyLinked
| ErrArtifactTooLarge
| ErrInvalidOrExpiredToken
| ErrStorageFailure
| ErrArtifactRequired
| ErrBufConfigNotFound
| ErrBufBuildFailed
| ErrBufLintFailed
| ErrBufBreakingFailed
| ErrDescriptorExtractionFailed
| ErrUnsafeArchive
| ErrBufWorkflowUnavailable
| ErrBufBreakingUnavailable
| ErrInvalidAgainst
| ErrBaselineVersionNotFound
| ErrBaselineBufImageMissing
| ErrInvalidTargetRef
| ErrBreakingReportNotFound.

#[global] Instance sentinel_eq_dec : EqDecision sentinel.
Proof. solve_decision. Defined.
End registry.

Module runtimeinventory.
(** The sentinels of package [runtimeinventory]. *)
Inductive sentinel :=
| ErrInvalidModuleVersionReference
| ErrRuntimeModulesRequired.

#[global] Instance sentinel_eq_dec : EqDecision sentinel.
Proof. solve_decision. Defined.
End runtimeinventory.

(** What the database driver reports: no row for a query that needs one, or an
    error of the server with its SQLSTATE code and the violated constraint. *)
Inductive driver_error :=
| ErrNoRows                             (* pgx.ErrNoRows *)
| PgError (code constraint : string).   (* *pgconn.PgError *)

#[export] Instance driver_error_eq_dec : EqDecision driver_error.
Proof. solve_decision. Defined.

(** An error value.  [EText] is an error known by its text only
    ([errors.New] or [fmt.Errorf] without [%w]), [EWrap] is
    [fmt.Errorf("%w: %w", e1, e2)], [EJoin] is [errors.Join e1 e2], and
    [EExternal] an error of a library the program calls (the database driver,
    the operating system, the object store), which no sentinel matches.  The
    text of a driver error is the server's; here it only shows its fields. *)
Inductive error :=
| EDomain (e : domain.sentinel)
| EGovernance (e : governance.sentinel)
| ERegistry (e : registry.sentinel)
| ERuntime (e : runtimeinventory.sentinel)
| EPayloadTooLarge           (* audit.ErrPayloadTooLarge *)
| EIdentityUnauthenticated   (* identity.ErrUnauthenticated *)
| EAuthzUnauthenticated      (* authorization.ErrUnauthenticated *)
| EAuthzForbidden            (* authorization.ErrForbidden *)
| EDriver (d : driver_error)
| ECanceled                  (* context.Canceled *)
| EDeadlineExceeded          (* context.DeadlineExceeded *)
| EGovernanceNotFound        (* gitlabmr.ErrGovernanceNotFound *)
| EText (text : string)
| EWrap (e1 e2 : error)
| EJoin (e1 e2 : error)
| EExternal (text : string).

Coercion EDomain : domain.sentinel >-> error.
Coercion EGovernance : governance.sentinel >-> error.
Coercion ERegistry : registry.sentinel >-> error.
Coercion ERuntime : runtimeinventory.sentinel >-> error.

#[export] Instance error_eq_dec : EqDecision error.
Proof. solve_decision. Defined.

(** [errors.Is err target]: the target is searched in the tree of wrapped
    errors. *)
Fixpoint errors_Is (err target : error) : bool :=
  if decide (err = target) then true else
  match err with
  | EWrap e1 e2 | EJoin e1 e2 => errors_Is e1 target || errors_Is e2 target
  | _ => false
  end.

Lemma errors_Is_unfold err target :
  errors_Is err target =
  if decide (err = target) then true else
  match err with
  | EWrap e1 e2 | EJoin e1 e2 => errors_Is e1 target || errors_Is e2 target
  | _ => false
  end.
Proof. by destruct err. Qed.

Lemma errors_Is_refl e : errors_Is e e = true.
Proof. rewrite errors_Is_unfold. by rewrite decide_True. Qed.

Lemma errors_Is_wrap_outer e1 e2 t :
  errors_Is e1 t = true -> errors_Is (EWrap e1 e2) t = true.
Proof. intros H. rewrite errors_Is_unfold. case_decide; [done|]. by rewrite H. Qed.

Lemma errors_Is_domain (d : domain.sentinel) (t : domain.sentinel) :
  errors_Is d t = bool_decide (d = t).
Proof.
  rewrite errors_Is_unfold. case_decide as H.
  - rewrite bool_decide_true; congruence.
  - rewrite bool_decide_false; congruence.
Qed.

#[export] Hint Rewrite errors_Is_refl errors_Is_domain : go_rw.

(** ** Fallible results *)

Inductive result (A : Type) :=
| Ok (a : A)
| Err (e : error).
Arguments Ok {A} _.
Arguments Err {A} _.

#[export] Instance result_eq_dec `{EqDecision A} : EqDecision (result A).
Proof. solve_decision. Defined.

Definition result_bind {A B} (r : result A) (f : A -> result B) : result B :=
  match r with Ok a => f a | Err e => Err e end.

(** [if err != nil { return zero, err }] after [x, err := r]. *)
Notation "'let?' x ':=' r 'in' k" := (result_bind r (fun x => k))
  (at level 10, x pattern, r at level 100, k at level 200) : go_scope.
Open Scope go_scope.

(** [if cond { return zero, err }]. *)
Definition guard_err (b : bool) (e : error) : result unit :=
  if b then Err e else Ok tt.

(** [v, err := r; if err != nil { return zero, e }]: the error is replaced. *)
Definition or_err {A} (r : result A) (e : error) : result A :=
  match r with Ok a => Ok a | Err _ => Err e end.

(** The error of a result, Go's second return value; [None] is [nil]. *)
Definition result_err {A} (r : result A) : option error :=
  match r with Ok _ => None | Err e => Some e end.

Definition is_ok {A} (r : result A) : bool :=
  match r with Ok _ => true | Err _ => false end.

Section ResultLemmas.
Context {A B : Type}.
Implicit Types (r : result A) (f : A -> result B).

Lemma result_bind_Ok r f b :
  result_bind r f = Ok b <-> exists a, r = Ok a /\ f a = Ok b.
Proof. destruct r; simpl; naive_solver. Qed.

Lemma result_bind_Err r f e :
  result_bind r f = Err e <-> r = Err e \/ exists a, r = Ok a /\ f a = Err e.
Proof. destruct r; simpl; naive_solver. Qed.

Lemma or_err_Ok r e a : or_err r e = Ok a <-> r = Ok a.
Proof. destruct r; naive_solver. Qed.

Lemma or_err_Err r e e' : or_err r e = Err e' <-> e' = e /\ exists e0, r = Err e0.
Proof. destruct r; naive_solver. Qed.
End ResultLemmas.

Lemma guard_err_Ok b e u : guard_err b e = Ok u <-> b = false.
Proof. destruct b, u; naive_solver. Qed.

Lemma guard_err_Err b e e' : guard_err b e = Err e' <-> b = true /\ e' = e.
Proof. destruct b; naive_solver. Qed.


(** [err.Error()]: the text of an error. *)

Open Scope string_scope.

Definition domain_text (e : domain.sentinel) : string :=
  match e with
  | domain.ErrInvalidModuleName => "invalid module name"
  | domain.ErrInvalidVersion => "invalid version"
  | domain.ErrInvalidModuleVersionState => "invalid module version status"
  | domain.ErrInvalidArtifactKind => "invalid artifact kind"
  | domain.ErrInvalidBreakingStatus => "invalid breaking report status"
  | domain.ErrInvalidGitLabBaseURL => "invalid gitlab base url"
  | domain.ErrInvalidGitLabProjectID => "invalid gitlab project id"
  | domain.ErrInvalidGitLabProjectPath => "invalid gitlab project path"
  | domain.ErrInvalidRuntimeServiceName => "invalid runtime service name"
  | domain.ErrInvalidRuntimeEnvironment => "invalid runtime environment"
  | domain.ErrInvalidRuntimeGitCommit => "invalid runtime git commit"
  | domain.ErrInvalidRuntimeBuildVersion => "invalid runtime build version"
  | domain.ErrInvalidRuntimeDriftStatus => "invalid runtime drift status"
  | domain.ErrInvalidGovernanceSubjectType => "invalid governance subject type"
  | domain.ErrInvalidGovernanceSubject => "invalid governance subject"
  | domain.ErrInvalidModuleOwnerRole => "invalid module owner role"
  | domain.ErrInvalidApprovalRequestStatus => "invalid approval request status"
  | domain.ErrInvalidApprovalRequirementType => "invalid approval requirement type"
  | domain.ErrInvalidApprovalRequirementStatus => "invalid approval requirement status"
  | domain.ErrInvalidApprovalDecision => "invalid approval decision"
  | domain.ErrInvalidApprovalActor => "invalid approval actor"
  | domain.ErrInvalidGovernanceAuditEventType => "invalid governance audit event type"
  | domain.ErrApprovalDecisionCommentTooLong => "approval decision comment too long"
  | domain.ErrDuplicate => "duplicate record"
  | domain.ErrNotFound => "record not found"
  end.

Definition governance_text (e : governance.sentinel) : string :=
  match e with
  | governance.ErrInvalidModuleName => "invalid module name"
  | governance.ErrModuleNotFound => "module not found"
  | governance.ErrInvalidSubjectType => "invalid governance subject type"
  | governance.ErrInvalidSubject => "invalid governance subject"
  | governance.ErrInvalidModuleOwnerRole => "invalid module owner role"
  | governance.ErrInvalidModuleOwnerID => "invalid module owner id"
  | governance.ErrModuleOwnerNotFound => "module owner not found"
  | governance.ErrModuleOwnerAlreadyExists => "module owner already exists"
  | governance.ErrInvalidBreakingReportID => "invalid breaking report id"
  | governance.ErrBreakingReportNotFound => "breaking report not found"
  | governance.ErrApprovalRequestNotFound => "approval request not found"
  | governance.ErrInvalidRequirementID => "invalid approval requirement id"
  | governance.ErrApprovalRequirementNotFound => "approval requirement not found"
  | governance.ErrInvalidApprovalActor => "invalid approval actor"
  | governance.ErrApprovalDecisionCommentTooLong => "approval decision comment too long"
  | governance.ErrApprovalRequestConflict => "approval request conflict"
  | governance.ErrApprovalRequirementConflict => "approval requirement conflict"
  | governance.ErrApprovalActorForbidden => "approval actor forbidden"
  | governance.ErrGovernanceActorOverrideForbidden => "governance actor override forbidden"
  end.

Definition registry_text (e : registry.sentinel) : string :=
  match e with
  | registry.ErrInvalidModuleName => "invalid module name"
  | registry.ErrInvalidVersion => "invalid version"
  | registry.ErrModuleNotFound => "module not found"
  | registry.ErrModuleGitLabProjectNotFound => "module gitlab project mapping not found"
  | registry.ErrModuleAlreadyExists => "module already exists"
  | registry.ErrModuleVersionAlreadyExists => "module version already exists"
  | registry.ErrInvalidActor => "invalid actor"
  | registry.ErrInvalidGitLabBaseURL => "invalid gitlab base url"
  | registry.ErrInvalidGitLabProjectID => "invalid gitlab project id"
  | registry.ErrInvalidGitLabProjectPath => "invalid gitlab project path"
  | registry.ErrGitLabProjectAlreadyLinked => "gitlab project already linked to another module"
  | registry.ErrArtifactTooLarge => "artifact too large"
  | registry.ErrInvalidOrExpiredToken => "invalid or expired token"
  | registry.ErrStorageFailure => "storage failure"
  | registry.ErrArtifactRequired => "artifact required"
  | registry.ErrBufConfigNotFound => "buf config not found"
  | registry.ErrBufBuildFailed => "buf build failed"
  | registry.ErrBufLintFailed => "buf lint failed"
  | registry.ErrBufBreakingFailed => "buf breaking failed"
  | registry.ErrDescriptorExtractionFailed => "descriptor extraction failed"
  | registry.ErrUnsafeArchive => "unsafe archive"
  | registry.ErrBufWorkflowUnavailable => "buf workflow unavailable"
  | registry.ErrBufBreakingUnavailable => "buf breaking unavailable"
  | registry.ErrInvalidAgainst => "invalid against value"
  | registry.ErrBaselineVersionNotFound => "baseline version not found"
  | registry.ErrBaselineBufImageMissing => "baseline buf image missing"
  | registry.ErrInvalidTargetRef => "invalid target ref"
  | registry.ErrBreakingReportNotFound => "breaking report not found"
  end.

Definition runtimeinventory_text (e : runtimeinventory.sentinel) : string :=
  match e with
  | runtimeinventory.ErrInvalidModuleVersionReference => "invalid module version reference"
  | runtimeinventory.ErrRuntimeModulesRequired => "runtime report must include at least one module"
  end.

Fixpoint Error (e : error) : string :=
  match e with
  | EDomain e => domain_text e
  | EGovernance e => governance_text e
  | ERegistry e => registry_text e
  | ERuntime e => runtimeinventory_text e
  | EPayloadTooLarge => "audit payload too large"
  | EIdentityUnauthenticated => "unauthenticated"
  | EAuthzUnauthenticated => "unauthenticated"
  | EAuthzForbidden => "forbidden"
  | EDriver ErrNoRows => "no rows in result set"
  | EDriver (PgError code constraint) => "ERROR: " +:+ constraint +:+ " (SQLSTATE " +:+ code +:+ ")"
  | ECanceled => "context canceled"
  | EDeadlineExceeded => "context deadline exceeded"
  | EGovernanceNotFound => "governance approval request not found"
  | EText text => text
  | EWrap e1 e2 => Error e1 +:+ ": " +:+ Error e2
  | EJoin e1 e2 => Error e1 +:+ String (ascii_of_nat 10) (Error e2)
  | EExternal text => text
  end.
