(* ===== verification/GoStrings.v ===== *)
(** * Go strings

    A Go string is a sequence of bytes, here a [string] of [ascii].  This file
    models what the program uses of Go's [strings], [unicode] and
    [unicode/utf8] packages: decoding of UTF-8, trimming of white space, case
    mapping, prefixes, searching, splitting and joining. *)

From S2P Require Import Prelude.

Open Scope string_scope.
Open Scope Z_scope.

#[global] Arguments String.append : simpl nomatch.

Definition byte (a : ascii) : Z := Z.of_N (N_of_ascii a).

Lemma byte_range a : 0 <= byte a < 256.
Proof. unfold byte. pose proof (N_ascii_bounded a). lia. Qed.

(** [len(s)]. *)
Definition len (s : string) : Z := Z.of_nat (String.length s).

Lemma length_string_app s t : String.length (s +:+ t) = (String.length s + String.length t)%nat.
Proof. induction s as [|a s IH]; simpl; [done|]. by rewrite IH. Qed.

Lemma len_app s t : len (s +:+ t) = len s + len t.
Proof. unfold len. rewrite length_string_app. lia. Qed.

Lemma len_nonneg s : 0 <= len s.
Proof. unfold len. lia. Qed.

Lemma string_app_assoc (s t u : string) : (s +:+ t) +:+ u = s +:+ (t +:+ u).
Proof. induction s as [|a s IH]; simpl; [done|]. by rewrite IH. Qed.

Lemma string_app_nil_r (s : string) : s +:+ "" = s.
Proof. induction s as [|a s IH]; simpl; [done|]. by rewrite IH. Qed.

Lemma string_app_inj_l (s t u : string) : s +:+ t = s +:+ u -> t = u.
Proof. induction s as [|a s IH]; simpl; [done|]. intros [= H]. by apply IH. Qed.

Fixpoint forallb_string (p : ascii -> bool) (s : string) : bool :=
  match s with "" => true | String a s' => p a && forallb_string p s' end.

(** ** UTF-8 *)

Definition RuneError : Z := 65533.

Definition cont_byte (lo hi : Z) (a : ascii) : bool := (lo <=? byte a) && (byte a <=? hi).

(** The bounds of the second byte, by the first byte of a three byte rune. *)
Definition accept3 (b0 : Z) : Z * Z :=
  if b0 =? 224 then (160, 191) else if b0 =? 237 then (128, 159) else (128, 191).
(** The same for a four byte rune. *)
Definition accept4 (b0 : Z) : Z * Z :=
  if b0 =? 240 then (144, 191) else if b0 =? 244 then (128, 143) else (128, 191).

Definition is2 (a b : ascii) : bool :=
  (194 <=? byte a) && (byte a <=? 223) && cont_byte 128 191 b.
Definition is3 (a b c : ascii) : bool :=
  (224 <=? byte a) && (byte a <=? 239) &&
  cont_byte (accept3 (byte a)).1 (accept3 (byte a)).2 b && cont_byte 128 191 c.
Definition is4 (a b c d : ascii) : bool :=
  (240 <=? byte a) && (byte a <=? 244) &&
  cont_byte (accept4 (byte a)).1 (accept4 (byte a)).2 b &&
  cont_byte 128 191 c && cont_byte 128 191 d.

(** The first rune of a non-empty string and the bytes it occupies;
    [RuneError] and one byte where the encoding is invalid. *)
Definition rune2 (a b : ascii) : Z := (byte a - 192) * 64 + (byte b - 128).
Definition rune3 (a b c : ascii) : Z :=
  (byte a - 224) * 4096 + (byte b - 128) * 64 + (byte c - 128).
Definition rune4 (a b c d : ascii) : Z :=
  (byte a - 240) * 262144 + (byte b - 128) * 4096 + (byte c - 128) * 64 + (byte d - 128).

(** [for _, r := range s]. *)
Fixpoint runes (s : string) : list Z :=
  match s with
  | "" => []
  | String a s1 =>
      if byte a <? 128 then byte a :: runes s1 else
      match s1 with
      | "" => RuneError :: runes s1
      | String b s2 =>
          if is2 a b then rune2 a b :: runes s2 else
          match s2 with
          | "" => RuneError :: runes s1
          | String c s3 =>
              if is3 a b c then rune3 a b c :: runes s3 else
              match s3 with
              | "" => RuneError :: runes s1
              | String d s4 =>
                  if is4 a b c d then rune4 a b c d :: runes s4
                  else RuneError :: runes s1
              end
          end
      end
  end.

(** [utf8.ValidString]. *)
Fixpoint valid_utf8 (s : string) : bool :=
  match s with
  | "" => true
  | String a s1 =>
      if byte a <? 128 then valid_utf8 s1 else
      match s1 with
      | "" => false
      | String b s2 =>
          if is2 a b then valid_utf8 s2 else
          match s2 with
          | "" => false
          | String c s3 =>
              if is3 a b c then valid_utf8 s3 else
              match s3 with
              | "" => false
              | String d s4 => if is4 a b c d then valid_utf8 s4 else false
              end
          end
      end
  end.

Lemma rune2_ge a b : is2 a b = true -> 128 <= rune2 a b.
Proof. unfold is2, cont_byte, rune2. lia. Qed.

Lemma rune3_ge a b c : is3 a b c = true -> 128 <= rune3 a b c.
Proof.
  unfold is3, cont_byte, accept3, rune3.
  destruct (byte a =? 224) eqn:?, (byte a =? 237) eqn:?; simpl; lia.
Qed.

Lemma rune4_ge a b c d : is4 a b c d = true -> 128 <= rune4 a b c d.
Proof.
  unfold is4, cont_byte, accept4, rune4.
  destruct (byte a =? 240) eqn:?, (byte a =? 244) eqn:?; simpl; lia.
Qed.

(** A check that only accepts ASCII runes can be done byte by byte: every byte
    of a longer encoding, valid or not, is rejected as part of some rune that
    is not ASCII. *)
Lemma forallb_runes_bytes (p : Z -> bool) (s : string) :
  (forall r, p r = true -> r < 128) ->
  forallb p (runes s) = forallb_string (fun a => p (byte a)) s.
Proof.
  intros Hp.
  assert (Hno : forall r, 128 <= r -> p r = false).
  { intros r Hr. destruct (p r) eqn:E; [apply Hp in E; lia|done]. }
  induction s as [|a s1 IH]; [done|]. cbn [runes forallb_string].
  destruct (byte a <? 128) eqn:Ha; [simpl; by rewrite IH|].
  rewrite (Hno (byte a)) by lia.
  assert (forall l, forallb p (RuneError :: l) = false) as Herr.
  { intros l. simpl. by rewrite Hno by (unfold RuneError; lia). }
  destruct s1 as [|b s2]; [apply Herr|].
  destruct (is2 a b) eqn:?; [simpl; by rewrite (Hno _ (rune2_ge _ _ ltac:(eassumption)))|].
  destruct s2 as [|c s3]; [apply Herr|].
  destruct (is3 a b c) eqn:?; [simpl; by rewrite (Hno _ (rune3_ge _ _ _ ltac:(eassumption)))|].
  destruct s3 as [|d s4]; [apply Herr|].
  destruct (is4 a b c d) eqn:?; [simpl; by rewrite (Hno _ (rune4_ge _ _ _ _ ltac:(eassumption)))|apply Herr].
Qed.

(** ** White space: [unicode.IsSpace] and [strings.TrimSpace]

    The white space runes are, by the length of their encoding, the ASCII ones,
    U+0085 and U+00A0, and U+1680, U+2000 to U+200A, U+2028, U+2029, U+202F,
    U+205F and U+3000. *)

Definition space1 (a : ascii) : bool :=
  let b := byte a in (b =? 32) || ((9 <=? b) && (b <=? 13)).
Definition space2 (a b : ascii) : bool :=
  (byte a =? 194) && ((byte b =? 133) || (byte b =? 160)).
Definition space3 (a b c : ascii) : bool :=
  ((byte a =? 225) && (byte b =? 154) && (byte c =? 128))
  || ((byte a =? 226) && (byte b =? 128)
      && (((128 <=? byte c) && (byte c <=? 138))
          || (byte c =? 168) || (byte c =? 169) || (byte c =? 175)))
  || ((byte a =? 226) && (byte b =? 129) && (byte c =? 159))
  || ((byte a =? 227) && (byte b =? 128) && (byte c =? 128)).

(** [strings.TrimLeftFunc(s, unicode.IsSpace)]. *)
Fixpoint trim_left (s : string) : string :=
  match s with
  | "" => ""
  | String a s1 =>
      if space1 a then trim_left s1 else
      match s1 with
      | "" => s
      | String b s2 =>
          if space2 a b then trim_left s2 else
          match s2 with
          | "" => s
          | String c s3 => if space3 a b c then trim_left s3 else s
          end
      end
  end.

Definition all_space (s : string) : bool := String.eqb (trim_left s) "".

(** [strings.TrimRightFunc(s, unicode.IsSpace)]: the longest suffix made of
    white space is cut. *)
Fixpoint trim_right (s : string) : string :=
  if all_space s then "" else
  match s with "" => "" | String a s' => String a (trim_right s') end.

Definition TrimSpace (s : string) : string := trim_right (trim_left s).

(** The string starts with a white space rune. *)
Definition starts_space (s : string) : bool :=
  match s with
  | "" => false
  | String a s1 => space1 a ||
      match s1 with
      | "" => false
      | String b s2 => space2 a b ||
          match s2 with "" => false | String c _ => space3 a b c end
      end
  end.

Lemma trim_left_fixed s : starts_space s = false -> trim_left s = s.
Proof.
  destruct s as [|a [|b [|c s]]]; simpl; rewrite ?orb_false_iff; intros H; [done|..].
  - destruct H as [-> _]. done.
  - destruct H as (-> & -> & _). done.
  - destruct H as (-> & -> & ->). done.
Qed.

Lemma trim_left_starts : forall s, starts_space (trim_left s) = false.
Proof.
  fix IH 1. intros [|a s1]; [done|]. cbn [trim_left].
  destruct (space1 a) eqn:H1; [apply IH|].
  destruct s1 as [|b s2]; [simpl; by rewrite H1|].
  destruct (space2 a b) eqn:H2; [apply IH|].
  destruct s2 as [|c s3]; [simpl; by rewrite H1, H2|].
  destruct (space3 a b c) eqn:H3; [apply IH|].
  simpl. by rewrite H1, H2, H3.
Qed.

Lemma trim_left_idem s : trim_left (trim_left s) = trim_left s.
Proof. apply trim_left_fixed, trim_left_starts. Qed.

Lemma starts_space_prefix p x : starts_space p = true -> starts_space (p +:+ x) = true.
Proof.
  destruct p as [|a [|b [|c p]]]; simpl; try done;
    rewrite ?orb_false_r; intros H;
    repeat (apply orb_true_iff in H as [->|H]; rewrite ?orb_true_r; try done);
    by rewrite H, ?orb_true_r.
Qed.

(** White space followed by a string is trimmed to the trimmed string. *)
Lemma trim_left_app : forall p x, all_space p = true -> trim_left (p +:+ x) = trim_left x.
Proof.
  fix IH 1. intros [|a s1] x H; [done|]. unfold all_space in H. revert H.
  change (String a s1 +:+ x) with (String a (s1 +:+ x)). cbn [trim_left].
  destruct (space1 a) eqn:H1; [intros H; by apply IH|].
  destruct s1 as [|b s2]; [done|].
  change (String b s2 +:+ x) with (String b (s2 +:+ x)). cbn [trim_left].
  destruct (space2 a b) eqn:H2; [intros H; by apply IH|].
  destruct s2 as [|c s3]; [done|].
  destruct (space3 a b c) eqn:H3; [|done]. intros H. change (String c s3 +:+ x) with (String c (s3 +:+ x)).
  cbv iota beta. rewrite H3. by apply IH.
Qed.

Lemma trim_right_unfold s :
  trim_right s = if all_space s then "" else
  match s with "" => "" | String a s' => String a (trim_right s') end.
Proof. by destruct s. Qed.

(** What [trim_right] cuts is white space. *)
Lemma trim_right_split s : exists x, s = trim_right s +:+ x /\ all_space x = true.
Proof.
  induction s as [|a s IH]; [by exists ""|].
  rewrite trim_right_unfold. destruct (all_space (String a s)) eqn:E.
  - by exists (String a s).
  - destruct IH as (x & H & Hx). exists x. split; [|done]. simpl. by rewrite <- H.
Qed.

Lemma all_space_split p x : all_space p = true -> all_space x = true -> all_space (p +:+ x) = true.
Proof. intros H Hx. unfold all_space. by rewrite trim_left_app. Qed.

Lemma trim_right_idem s : trim_right (trim_right s) = trim_right s.
Proof.
  induction s as [|a s IH]; [done|].
  rewrite (trim_right_unfold (String a s)). destruct (all_space (String a s)) eqn:E; [done|].
  rewrite trim_right_unfold, IH. destruct (all_space (String a (trim_right s))) eqn:E2; [|done].
  destruct (trim_right_split s) as (x & H & Hx).
  assert (all_space (String a s) = true); [|congruence].
  rewrite H. change (all_space (String a (trim_right s) +:+ x) = true).
  by apply all_space_split.
Qed.

Lemma starts_space_trim_right s : starts_space s = false -> starts_space (trim_right s) = false.
Proof.
  intros H. destruct (starts_space (trim_right s)) eqn:E; [|done].
  destruct (trim_right_split s) as (x & Hs & _).
  rewrite Hs, starts_space_prefix in H; done.
Qed.

Lemma TrimSpace_idem s : TrimSpace (TrimSpace s) = TrimSpace s.
Proof.
  unfold TrimSpace. rewrite (trim_left_fixed (trim_right (trim_left s))).
  - apply trim_right_idem.
  - apply starts_space_trim_right, trim_left_starts.
Qed.

(** A string without a byte that can be part of a white space rune's first
    byte is its own trimming. *)
Definition plain_byte (a : ascii) : bool := (33 <=? byte a) && (byte a <? 128).

Lemma starts_space_plain a s : plain_byte a = true -> starts_space (String a s) = false.
Proof.
  unfold plain_byte. intros H. destruct s as [|b [|c s]]; simpl;
    unfold space1, space2, space3; rewrite ?orb_false_iff; repeat split; lia.
Qed.

Lemma TrimSpace_plain s : forallb_string plain_byte s = true -> TrimSpace s = s.
Proof.
  intros H. unfold TrimSpace. rewrite trim_left_fixed.
  - induction s as [|a s IH]; [done|]. simpl in H. apply andb_true_iff in H as [Ha H].
    rewrite trim_right_unfold. unfold all_space.
    rewrite trim_left_fixed by (by apply starts_space_plain). simpl. by rewrite IH.
  - destruct s as [|a s]; [done|]. simpl in H. apply andb_true_iff in H as [Ha H].
    by apply starts_space_plain.
Qed.

Lemma forallb_string_impl (p q : ascii -> bool) s :
  (forall a, p a = true -> q a = true) ->
  forallb_string p s = true -> forallb_string q s = true.
Proof.
  intros Hpq. induction s as [|a s IH]; simpl; [done|].
  rewrite !andb_true_iff. naive_solver.
Qed.

#[export] Hint Rewrite TrimSpace_idem : go_rw.

Lemma forallb_string_app p s t :
  forallb_string p (s +:+ t) = forallb_string p s && forallb_string p t.
Proof. induction s as [|a s IH]; simpl; [done|]. by rewrite IH, andb_assoc. Qed.

(** ** Searching, prefixes and pieces *)

(** [strings.HasPrefix]. *)
Fixpoint HasPrefix (s prefix : string) {struct prefix} : bool :=
  match prefix, s with
  | "", _ => true
  | String a p, String b s' => Ascii.eqb a b && HasPrefix s' p
  | String _ _, "" => false
  end.

(** [s[n:]]. *)
Fixpoint drop_string (n : nat) (s : string) : string :=
  match n, s with
  | O, _ => s
  | S n', String _ s' => drop_string n' s'
  | S _, "" => ""
  end.

(** [s[:n]], for [n <= len(s)]. *)
Fixpoint take_string (n : nat) (s : string) : string :=
  match n, s with
  | O, _ => ""
  | S n', String a s' => String a (take_string n' s')
  | S _, "" => ""
  end.

(** [strings.TrimPrefix]. *)
Definition TrimPrefix (s prefix : string) : string :=
  if HasPrefix s prefix then drop_string (String.length prefix) s else s.

(** [strings.ContainsAny] for ASCII characters: some byte is one of them. *)
Fixpoint string_mem (a : ascii) (chars : string) : bool :=
  match chars with "" => false | String c cs => Ascii.eqb a c || string_mem a cs end.
Definition ContainsAny (s chars : string) : bool :=
  negb (forallb_string (fun a => negb (string_mem a chars)) s).

(** [strings.Contains]. *)
Fixpoint Contains (s sub : string) : bool :=
  HasPrefix s sub || match s with "" => false | String _ s' => Contains s' sub end.

(** [strings.Cut] at a non-empty separator. *)
Fixpoint Cut (s sep : string) : option (string * string) :=
  if HasPrefix s sep then Some ("", drop_string (String.length sep) s) else
  match s with
  | "" => None
  | String a s' => match Cut s' sep with
                   | Some (before, after) => Some (String a before, after)
                   | None => None
                   end
  end.

(** [strings.Split] at a one byte separator. *)
Fixpoint split_byte (c : ascii) (s : string) : list string :=
  match s with
  | "" => [""]
  | String a s' =>
      if Ascii.eqb a c then "" :: split_byte c s' else
      match split_byte c s' with
      | x :: xs => String a x :: xs
      | [] => [String a ""]
      end
  end.

(** [strings.Join]. *)
Fixpoint strings_Join (sep : string) (l : list string) : string :=
  match l with
  | [] => ""
  | [x] => x
  | x :: xs => x +:+ sep +:+ strings_Join sep xs
  end.

(** The text after the last [c], with its position. *)
Fixpoint last_index_byte (c : ascii) (s : string) : option nat :=
  match s with
  | "" => None
  | String a s' => match last_index_byte c s' with
                   | Some n => Some (S n)
                   | None => if Ascii.eqb a c then Some O else None
                   end
  end.

(** [strings.TrimRight] with a cutset of one byte. *)
Fixpoint trim_right_byte (c : ascii) (s : string) : string :=
  match s with
  | "" => ""
  | String a s' =>
      match trim_right_byte c s' with
      | "" => if Ascii.eqb a c then "" else String a ""
      | t => String a t
      end
  end.

Lemma length_take_string n s :
  String.length (take_string n s) = Nat.min n (String.length s).
Proof. revert s. induction n as [|n IH]; intros [|a s]; simpl; [done..|]. by rewrite IH. Qed.

Lemma length_drop_string n s : String.length (drop_string n s) = (String.length s - n)%nat.
Proof. revert s. induction n as [|n IH]; intros [|a s]; simpl; auto. Qed.

Lemma forallb_take_string p n s :
  forallb_string p s = true -> forallb_string p (take_string n s) = true.
Proof.
  revert s. induction n as [|n IH]; intros [|a s]; simpl; try done.
  intros [Ha H]%andb_true_iff. rewrite Ha. by apply IH.
Qed.

Lemma forallb_drop_string p n s :
  forallb_string p s = true -> forallb_string p (drop_string n s) = true.
Proof.
  revert s. induction n as [|n IH]; intros [|a s]; simpl; try done.
  intros [_ H]%andb_true_iff. by apply IH.
Qed.

Lemma take_drop_string n s : take_string n s +:+ drop_string n s = s.
Proof. revert s. induction n as [|n IH]; intros [|a s]; simpl; [done..|]. by rewrite IH. Qed.

Lemma take_string_all n s : (String.length s <= n)%nat -> take_string n s = s.
Proof.
  revert s. induction n as [|n IH]; intros [|a s]; simpl; intros H; [done|lia|done|].
  rewrite IH; [done|lia].
Qed.

Lemma take_string_app s t : take_string (String.length s) (s +:+ t) = s.
Proof. induction s as [|a s IH]; cbn; [by destruct t|]. by rewrite IH. Qed.

Lemma HasPrefix_app p s : HasPrefix (p +:+ s) p = true.
Proof. induction p as [|a p IH]; simpl; [by destruct s|]. by rewrite Ascii.eqb_refl. Qed.

Lemma drop_string_app p s : drop_string (String.length p) (p +:+ s) = s.
Proof. induction p as [|a p IH]; simpl; [by destruct s|]. done. Qed.

Lemma HasPrefix_split p s : HasPrefix s p = true -> s = p +:+ drop_string (String.length p) s.
Proof.
  revert s. induction p as [|a p IH]; intros s; simpl; [by destruct s|].
  destruct s as [|b s]; [done|]. intros [->%Ascii.eqb_eq H]%andb_true_iff. simpl.
  by rewrite <- IH.
Qed.

Lemma TrimPrefix_app p s : TrimPrefix (p +:+ s) p = s.
Proof. unfold TrimPrefix. by rewrite HasPrefix_app, drop_string_app. Qed.

Lemma ContainsAny_false s chars :
  ContainsAny s chars = false <-> forallb_string (fun a => negb (string_mem a chars)) s = true.
Proof. unfold ContainsAny. by rewrite negb_false_iff. Qed.

(** ** Case mapping

    [strings.ToLower].  The table of the characters outside ASCII is a
    parameter. *)

Class Unicode := { unicode_ToLower : Z -> Z }.

Definition rune_ToLower `{!Unicode} (r : Z) : Z :=
  if r <? 128 then (if (65 <=? r) && (r <=? 90) then r + 32 else r) else unicode_ToLower r.

Definition byte_char (b : Z) : ascii := ascii_of_N (Z.to_N b).

(** [utf8.EncodeRune]. *)
Definition encode_rune (r : Z) : string :=
  let r := if (r <? 0) || (1114111 <? r) || ((55296 <=? r) && (r <=? 57343)) then RuneError else r in
  if r <? 128 then String (byte_char r) "" else
  if r <? 2048 then String (byte_char (192 + r / 64)) (String (byte_char (128 + r mod 64)) "") else
  if r <? 65536 then
    String (byte_char (224 + r / 4096)) (String (byte_char (128 + (r / 64) mod 64))
      (String (byte_char (128 + r mod 64)) ""))
  else
    String (byte_char (240 + r / 262144)) (String (byte_char (128 + (r / 4096) mod 64))
      (String (byte_char (128 + (r / 64) mod 64)) (String (byte_char (128 + r mod 64)) ""))).

Definition encode_runes (rs : list Z) : string :=
  fold_right (fun r s => encode_rune r +:+ s) "" rs.

Definition ToLower `{!Unicode} (s : string) : string := encode_runes (map rune_ToLower (runes s)).

(** The characters outside ASCII left as they are, for the concrete examples. *)
Definition example_unicode : Unicode := {| unicode_ToLower := fun r => r |}.

(** ** Splitting *)

Lemma split_byte_nonempty c s : split_byte c s <> [].
Proof. destruct s as [|a s]; simpl; [done|]. destruct (Ascii.eqb a c); [done|]. by destruct (split_byte c s). Qed.

Definition no_byte (c : ascii) (s : string) : bool :=
  forallb_string (fun a => negb (Ascii.eqb a c)) s.

Lemma split_byte_none c s : no_byte c s = true -> split_byte c s = [s].
Proof.
  induction s as [|a s IH]; simpl; [done|]. intros [Ha%negb_true_iff H]%andb_true_iff.
  rewrite Ha. by rewrite IH.
Qed.

Lemma split_byte_app c s t :
  split_byte c (s +:+ String c t) = (split_byte c s ++ split_byte c t)%list.
Proof.
  induction s as [|a s IH]; simpl.
  - by rewrite Ascii.eqb_refl.
  - destruct (Ascii.eqb a c); [by rewrite IH|]. rewrite IH.
    destruct (split_byte c s) as [|x xs] eqn:E; [by destruct (split_byte_nonempty c s)|done].
Qed.

Lemma strings_Join_split c s : strings_Join (String c "") (split_byte c s) = s.
Proof.
  induction s as [|a s IH]; [done|]. cbn [split_byte].
  pose proof (split_byte_nonempty c s) as Hne.
  destruct (split_byte c s) as [|x xs]; [done|].
  destruct (Ascii.eqb a c) eqn:E.
  - apply Ascii.eqb_eq in E as ->. change (String c (strings_Join (String c "") (x :: xs)) = String c s).
    by rewrite IH.
  - destruct xs; simpl in *; by rewrite IH.
Qed.

Lemma split_byte_inj c s t : split_byte c s = split_byte c t -> s = t.
Proof. intros E. rewrite <- (strings_Join_split c s), E. apply strings_Join_split. Qed.

(** ** The order of bytes *)

Lemma leb_false_true s t : String.leb s t = false -> String.leb t s = true.
Proof. intros H. destruct (String.leb_total s t); congruence. Qed.

Lemma ascii_compare_spec a b :
  CompareSpec (a = b) (byte a < byte b) (byte b < byte a) (Ascii.compare a b).
Proof.
  unfold Ascii.compare, byte. destruct (N.compare_spec (N_of_ascii a) (N_of_ascii b)); constructor; [|lia..].
  by rewrite <- (ascii_N_embedding a), <- (ascii_N_embedding b), H.
Qed.

Lemma leb_cons a s b t :
  String.leb (String a s) (String b t) = true <-> byte a < byte b \/ a = b /\ String.leb s t = true.
Proof.
  unfold String.leb. cbn [String.compare]. destruct (ascii_compare_spec a b) as [->|H|H].
  - split; [by right|]. intros [H|[_ H]]; [lia|done].
  - split; [by left|done].
  - split; [done|]. intros [H'|[-> _]]; lia.
Qed.

Lemma leb_trans s t u : String.leb s t = true -> String.leb t u = true -> String.leb s u = true.
Proof.
  revert t u. induction s as [|a s IH]; intros t u H1 H2; [by destruct u|].
  destruct t as [|b t]; [done|]. destruct u as [|c u]; [done|].
  rewrite leb_cons in *. destruct H1 as [H1|[-> H1]], H2 as [H2|[-> H2]]; [left; lia|by left|by left|].
  right. split; [done|]. by eapply IH.
Qed.

(** ** Dotted names *)

(** A part of a dotted name. *)
Definition identifier (s : string) : bool := negb (s =? "")%string && no_byte "." s.

Lemma HasPrefix_app_l s x y : HasPrefix (s +:+ x) (s +:+ y) = HasPrefix x y.
Proof. induction s as [|a s IH]; cbn; [done|]. by rewrite Ascii.eqb_refl. Qed.

Lemma HasPrefix_part_none n m : no_byte "." n = true -> HasPrefix n (m +:+ ".") = false.
Proof.
  revert m. induction n as [|a n IH]; intros m H; [by destruct m|].
  unfold no_byte in H. cbn in H. apply andb_true_iff in H as [Ha H].
  destruct m as [|b m]; cbn [append HasPrefix].
  - destruct (Ascii.eqb_spec "." a) as [<-|]; [|done]. done.
  - rewrite (IH m H). apply andb_false_r.
Qed.

Lemma HasPrefix_part n m x :
  no_byte "." n = true -> no_byte "." m = true -> HasPrefix (n +:+ "." +:+ x) (m +:+ ".") = true -> n = m.
Proof.
  revert m. induction n as [|a n IH]; intros m Hn Hm; destruct m as [|b m]; [done| | |];
    unfold no_byte in Hn, Hm; cbn in Hn, Hm; cbn [append HasPrefix].
  - apply andb_true_iff in Hm as [Hb _]. destruct (Ascii.eqb_spec b ".") as [->|]; done.
  - apply andb_true_iff in Hn as [Ha _]. destruct (Ascii.eqb_spec "." a) as [<-|]; done.
  - apply andb_true_iff in Hn as [_ Hn], Hm as [_ Hm]. intros [->%Ascii.eqb_eq H]%andb_true_iff. f_equal. by apply IH.
Qed.

(** ** Fields, cut sets and replacement

    The predicates and the cut sets of the code are ASCII, so that bytes and
    runes agree. *)

(** [strings.HasSuffix]. *)
Definition HasSuffix (s suffix : string) : bool :=
  (String.length suffix <=? String.length s)%nat
  && (drop_string (String.length s - String.length suffix) s =? suffix)%string.

(** [strings.Index]: [None] is -1. *)
Fixpoint string_Index (s sub : string) : option nat :=
  if HasPrefix s sub then Some O else
  match s with
  | "" => None
  | String _ s' => match string_Index s' sub with Some n => Some (S n) | None => None end
  end.

(** [strings.TrimLeft], [strings.TrimRight] and [strings.Trim] with a cut set. *)
Fixpoint TrimLeft (s cutset : string) : string :=
  match s with
  | "" => ""
  | String a s' => if string_mem a cutset then TrimLeft s' cutset else s
  end.
Fixpoint TrimRight (s cutset : string) : string :=
  match s with
  | "" => ""
  | String a s' =>
      match TrimRight s' cutset with
      | "" => if string_mem a cutset then "" else String a ""
      | t => String a t
      end
  end.
Definition Trim (s cutset : string) : string := TrimRight (TrimLeft s cutset) cutset.

(** [strings.FieldsFunc]: the maximal runs of bytes that are not separators. *)
Fixpoint fields_from (sep : ascii -> bool) (s : string) : string * list string :=
  match s with
  | "" => ("", [])
  | String a s' =>
      let '(field, rest) := fields_from sep s' in
      if sep a then ("", if (field =? "")%string then rest else field :: rest)
      else (String a field, rest)
  end.
Definition FieldsFunc (sep : ascii -> bool) (s : string) : list string :=
  let '(field, rest) := fields_from sep s in
  if (field =? "")%string then rest else field :: rest.

(** [strings.ReplaceAll] of a non-empty text; [skip] bytes belong to the
    occurrence before. *)
Fixpoint replace_from (old new : string) (skip : nat) (s : string) : string :=
  match s with
  | "" => ""
  | String a s' =>
      match skip with
      | S k => replace_from old new k s'
      | O => if HasPrefix s old then new +:+ replace_from old new (String.length old - 1) s'
             else String a (replace_from old new O s')
      end
  end.
Definition ReplaceAll (s old new : string) : string := replace_from old new O s.

Lemma fields_nonempty sep s : Forall (fun f => f <> "") (FieldsFunc sep s).
Proof.
  unfold FieldsFunc. assert (H : Forall (fun f => f <> "") (fields_from sep s).2).
  { induction s as [|a s IH]; cbn; [constructor|]. destruct (fields_from sep s) as [field rest]. cbn in *.
    destruct (sep a); cbn; [|done]. destruct (String.eqb_spec field ""); [done|by constructor]. }
  destruct (fields_from sep s) as [field rest]. cbn in *. destruct (String.eqb_spec field ""); [done|by constructor].
Qed.

Example fields_example : FieldsFunc (fun a => Ascii.eqb a ":") ":a::bc:" = ["a"; "bc"].
Proof. reflexivity. Qed.
Example replace_example : ReplaceAll "aXXbXXc" "XX" "-" = "a-b-c" /\ Trim "(a),(" "()," = "a" /\ string_Index "abcb" "cb" = Some 2%nat.
Proof. by vm_compute. Qed.

(** [sort.Strings]: the order of the bytes. *)
Fixpoint insert_string (x : string) (l : list string) : list string :=
  match l with
  | [] => [x]
  | y :: l' => if String.leb x y then x :: l else y :: insert_string x l'
  end.
Definition sort_Strings (l : list string) : list string := fold_right insert_string [] l.

Lemma insert_string_perm x l : insert_string x l ≡ₚ x :: l.
Proof.
  induction l as [|y l IH]; [done|]. cbn. destruct (String.leb x y); [done|]. rewrite IH. apply Permutation_swap.
Qed.
Lemma sort_Strings_perm l : sort_Strings l ≡ₚ l.
Proof. induction l as [|x l IH]; [done|]. cbn. by rewrite insert_string_perm, IH. Qed.
