(* ===== verification/Edition.v ===== *)
(** * The edition

    [edition/edition.go] and [version/version.go]: the capabilities the
    community edition has, and what [GET /api/v1/edition] reports. *)

From S2P Require Import Prelude Errors GoStrings.

Open Scope string_scope.

Definition Capability := string.
Definition CapabilityRegistry : Capability := "registry".
Definition CapabilityBufWorkflow : Capability := "buf_workflow".
Definition CapabilityBreakingChecks : Capability := "breaking_checks".
Definition CapabilityGitLabCI : Capability := "gitlab_ci".
Definition CapabilityGitLabMRBot : Capability := "gitlab_mr_bot".
Definition CapabilityWebUI : Capability := "web_ui".
Definition CapabilityDependencyGraph : Capability := "dependency_graph".
Definition CapabilityRuntimeInventory : Capability := "runtime_inventory".
Definition CapabilityCommunityGovernance : Capability := "community_governance".
Definition CapabilityAPITokenAuth : Capability := "api_token_auth".
Definition CapabilityBasicAudit : Capability := "basic_audit".
Definition CapabilityPrometheusMetrics : Capability := "prometheus_metrics".
Definition CapabilityStructuredLogs : Capability := "structured_logs".
Definition CapabilityDockerComposeQuickstart : Capability := "docker_compose_quickstart".
Definition CapabilityOIDCAuth : Capability := "oidc_auth".
Definition CapabilityLDAPAuth : Capability := "ldap_auth".
Definition CapabilityAdvancedRBAC : Capability := "advanced_rbac".
Definition CapabilityGitLabGroupSync : Capability := "gitlab_group_sync".
Definition CapabilityAdvancedAudit : Capability := "advanced_audit".
Definition CapabilityAdvancedApprovalWorkflows : Capability := "advanced_approval_workflows".
Definition CapabilityEnterpriseDependencyGraph : Capability := "enterprise_dependency_graph".
Definition CapabilityRuntimeAlerts : Capability := "runtime_alerts".
Definition CapabilityHelmHA : Capability := "helm_ha".
Definition CapabilityAirGapped : Capability := "air_gapped".
Definition CapabilityLicenseManagement : Capability := "license_management".

Definition NameCommunity : string := "community".

Record CapabilityStatus := mkCapabilityStatus {
  status_Capability : Capability;
  status_Enabled : bool }.

Record BuildInfo := mkBuildInfo {
  build_Version : string;
  build_Commit : string;
  build_BuildDate : string }.

Definition Info : BuildInfo := mkBuildInfo "dev" "unknown" "unknown".

Definition CommunityCapabilities : list Capability :=
  [CapabilityRegistry; CapabilityBufWorkflow; CapabilityBreakingChecks; CapabilityGitLabCI; CapabilityGitLabMRBot;
   CapabilityWebUI; CapabilityDependencyGraph; CapabilityRuntimeInventory; CapabilityCommunityGovernance;
   CapabilityAPITokenAuth; CapabilityBasicAudit; CapabilityPrometheusMetrics; CapabilityStructuredLogs;
   CapabilityDockerComposeQuickstart].

Definition EnterpriseCapabilities : list Capability :=
  [CapabilityOIDCAuth; CapabilityLDAPAuth; CapabilityAdvancedRBAC; CapabilityGitLabGroupSync; CapabilityAdvancedAudit;
   CapabilityAdvancedApprovalWorkflows; CapabilityEnterpriseDependencyGraph; CapabilityRuntimeAlerts; CapabilityHelmHA;
   CapabilityAirGapped; CapabilityLicenseManagement].

Definition AllCapabilities : list Capability := sort_Strings (CommunityCapabilities ++ EnterpriseCapabilities).

(** The checker of an edition. *)
Class CapabilityChecker := {
  IsEnabled : Capability -> bool;
  List : list CapabilityStatus }.

Definition community_IsEnabled (capability : Capability) : bool :=
  existsb (String.eqb capability) CommunityCapabilities.
Definition community_Require (capability : Capability) : result unit :=
  if community_IsEnabled capability then Ok tt else Err (EText "capability_not_available").
Definition community_List : list CapabilityStatus :=
  map (fun capability => mkCapabilityStatus capability (community_IsEnabled capability)) AllCapabilities.
Definition CommunityCapabilityChecker : CapabilityChecker := {|
  IsEnabled := community_IsEnabled;
  List := community_List |}.

Record Edition := mkEdition {
  edition_Name : string;
  edition_Version : BuildInfo;
  edition_Capabilities : list CapabilityStatus }.

Definition NewCommunityEdition (build : BuildInfo) (checker : option CapabilityChecker) : Edition :=
  let checker := default CommunityCapabilityChecker checker in
  mkEdition NameCommunity build (@List checker).

(** The community edition lists every capability, in order, and enables those
    of the community. *)
Theorem community_edition build checker :
  let capabilities := edition_Capabilities (NewCommunityEdition build checker) in
  checker = None \/ checker = Some CommunityCapabilityChecker ->
  map status_Capability capabilities = AllCapabilities
  /\ (forall s, s ∈ capabilities -> status_Enabled s = true <-> status_Capability s ∈ CommunityCapabilities)
  /\ (forall c, c ∈ EnterpriseCapabilities -> community_Require c = Err (EText "capability_not_available")).
Proof.
  intros capabilities Hc. assert (E : capabilities = community_List) by (destruct Hc as [-> | ->]; done).
  rewrite E. split_and!.
  - unfold community_List. by rewrite map_map, map_id.
  - intros s Hs. apply list_elem_of_In, in_map_iff in Hs as (c & <- & _). cbn [status_Enabled status_Capability].
    unfold community_IsEnabled. rewrite existsb_exists, list_elem_of_In. split.
    + intros (x & Hx & ->%String.eqb_eq). done.
    + intros Hx. exists c. by rewrite String.eqb_refl.
  - apply Forall_forall. repeat (constructor; [by vm_compute|]). constructor.
Qed.
