(* ===== verification/JsonScan.v ===== *)
(** * Reading JSON

    What the program uses of [encoding/json] to read: the scanner, a machine
    that takes a byte at a time and keeps a stack of the values that are open
    ([step]); the text of a string literal without its escapes ([unquote]); and
    [json.Compact], through which a [json.RawMessage] is written. *)

From S2P Require Import Prelude Errors GoStrings.

Open Scope string_scope.
Open Scope Z_scope.

Definition quote_char : ascii := ascii_of_nat 34.
Definition backslash : ascii := ascii_of_nat 92.

Definition hex_value (a : ascii) : option Z :=
  let b := byte a in
  if (48 <=? b) && (b <=? 57) then Some (b - 48) else
  if (97 <=? b) && (b <=? 102) then Some (b - 87) else
  if (65 <=? b) && (b <=? 70) then Some (b - 55) else None.
Definition is_hex (a : ascii) : bool := if hex_value a then true else false.
Definition is_digit (a : ascii) : bool := (48 <=? byte a) && (byte a <=? 57).
Definition is_json_space (a : ascii) : bool :=
  let b := byte a in (b =? 32) || (b =? 9) || (b =? 13) || (b =? 10).

(** ** The text of a literal *)

(** [getu4]: the value of [\uXXXX] at the start of a text. *)
Definition getu4 (s : string) : option Z :=
  match s with
  | String e (String u (String a (String b (String c (String d _))))) =>
      if negb (Ascii.eqb e backslash && Ascii.eqb u "u") then None else
      match hex_value a, hex_value b, hex_value c, hex_value d with
      | Some a, Some b, Some c, Some d => Some (((a * 16 + b) * 16 + c) * 16 + d)
      | _, _, _, _ => None
      end
  | _ => None
  end.

Fixpoint drop_bytes (n : nat) (s : string) : string :=
  match n, s with
  | S n', String _ s' => drop_bytes n' s'
  | _, _ => s
  end.

(** [utf16.DecodeRune]. *)
Definition surrogate_pair (r1 r2 : Z) : option Z :=
  if (55296 <=? r1) && (r1 <? 56320) && (56320 <=? r2) && (r2 <? 57344)
  then Some ((r1 - 55296) * 1024 + (r2 - 56320) + 65536) else None.

Definition simple_escape (e : ascii) : option ascii :=
  if Ascii.eqb e quote_char || Ascii.eqb e backslash || Ascii.eqb e "/" then Some e else
  if Ascii.eqb e "b" then Some (byte_char 8) else if Ascii.eqb e "f" then Some (byte_char 12) else
  if Ascii.eqb e "n" then Some (byte_char 10) else if Ascii.eqb e "r" then Some (byte_char 13) else
  if Ascii.eqb e "t" then Some (byte_char 9) else None.

(** The bytes of the rune at the start of a text. *)
Definition rune_size (s : string) : nat :=
  match s with
  | String a (String b s2) =>
      if byte a <? 128 then 1%nat else
      if is2 a b then 2%nat else
      match s2 with
      | String c s3 =>
          if is3 a b c then 3%nat else
          match s3 with
          | String d _ => if is4 a b c d then 4%nat else 1%nat
          | "" => 1%nat
          end
      | "" => 1%nat
      end
  | _ => 1%nat
  end.

(** What the bytes at the start of a literal stand for, and how many they are. *)
Definition unquote_step (s : string) : string * nat :=
  match s with
  | String e ((String k _) as s1) =>
      if Ascii.eqb e backslash then
        if Ascii.eqb k "u" then
          match getu4 s with
          | Some r =>
              match surrogate_pair r (default 0 (getu4 (drop_bytes 6 s))) with
              | Some r' => (encode_rune r', 12%nat)
              | None => (encode_rune r, 6%nat)
              end
          | None => ("", 1%nat)
          end
        else match simple_escape k with Some c => (String c "", 2%nat) | None => ("", 1%nat) end
      else (encode_rune (hd RuneError (runes s)), rune_size s)
  | _ => (encode_rune (hd RuneError (runes s)), 1%nat)
  end.

(** [skip] bytes belong to what was read before. *)
Fixpoint unquote_from (skip : nat) (s : string) : string :=
  match s with
  | "" => ""
  | String a s1 =>
      match skip with
      | S k => unquote_from k s1
      | O => let '(out, n) := unquote_step s in out +:+ unquote_from (n - 1) s1
      end
  end.
Definition unquote (s : string) : string := unquote_from 0 s.

Example unquote_example :
  unquote (String backslash ("u0041" +:+ String backslash ("nx" +:+ String backslash ("ud83d" +:+ String backslash "ude00"))))
  = "A" +:+ String (byte_char 10) ("x" +:+ encode_rune 128512)
  /\ unquote (String (byte_char 255) "") = encode_rune RuneError.
Proof. by vm_compute. Qed.

(** ** Values *)

Inductive jvalue :=
| VNull
| VBool (b : bool)
| VNumber (text : string)
| VString (s : string)
| VArray (items : list jvalue)
| VObject (members : list (string * jvalue)).

(** The values that are open, the innermost first. *)
Inductive frame :=
| FArray (items : list jvalue)
| FObject (members : list (string * jvalue)) (key : string).

(** The states of a number. *)
Inductive number_state := NNeg | NZero | NInt | NDot | NFraction | NExp | NExpSign | NExpDigits.
(** Within a string: outside an escape, after the backslash, before [n] hex digits. *)
Inductive string_state := SPlain | SEscape | SHex (n : nat).

Inductive state :=
| BeginValue (stack : list frame)
| BeginArray (stack : list frame)
| BeginObject (stack : list frame)
| BeginKey (members : list (string * jvalue)) (stack : list frame)
| InKey (raw : string) (q : string_state) (members : list (string * jvalue)) (stack : list frame)
| AfterKey (key : string) (members : list (string * jvalue)) (stack : list frame)
| InString (raw : string) (q : string_state) (stack : list frame)
| InNumber (text : string) (n : number_state) (stack : list frame)
| InLiteral (rest : string) (v : jvalue) (stack : list frame)
| EndValue (v : jvalue) (stack : list frame)
| Finished (v : jvalue)
| Bad.

(** [maxNestingDepth]. *)
Definition max_depth : Z := 10000.
Definition opened (st : state) (stack : list frame) : state :=
  if max_depth <=? Z.of_nat (length stack) then Bad else st.

Definition number_char (n : number_state) (c : ascii) : option number_state :=
  let exponent := Ascii.eqb c "e" || Ascii.eqb c "E" in
  match n with
  | NNeg => if Ascii.eqb c "0" then Some NZero else if is_digit c then Some NInt else None
  | NZero => if Ascii.eqb c "." then Some NDot else if exponent then Some NExp else None
  | NInt => if is_digit c then Some NInt else if Ascii.eqb c "." then Some NDot else if exponent then Some NExp else None
  | NDot => if is_digit c then Some NFraction else None
  | NFraction => if is_digit c then Some NFraction else if exponent then Some NExp else None
  | NExp => if Ascii.eqb c "+" || Ascii.eqb c "-" then Some NExpSign else if is_digit c then Some NExpDigits else None
  | NExpSign | NExpDigits => if is_digit c then Some NExpDigits else None
  end.
Definition number_ends (n : number_state) : bool :=
  match n with NZero | NInt | NFraction | NExpDigits => true | _ => false end.

(** The next state within a string, and whether the byte closes it. *)
Definition string_char (q : string_state) (c : ascii) : option (string_state * bool) :=
  match q with
  | SPlain =>
      if Ascii.eqb c quote_char then Some (SPlain, true) else
      if Ascii.eqb c backslash then Some (SEscape, false) else
      if byte c <? 32 then None else Some (SPlain, false)
  | SEscape =>
      if Ascii.eqb c "u" then Some (SHex 4, false) else
      if simple_escape c then Some (SPlain, false) else None
  | SHex n => if is_hex c then Some (match n with S (S m) => SHex (S m) | _ => SPlain end, false) else None
  end.

(** [stateBeginValue]. *)
Definition begin_value (stack : list frame) (c : ascii) : state :=
  if is_json_space c then BeginValue stack else
  if Ascii.eqb c "{" then opened (BeginObject stack) stack else
  if Ascii.eqb c "[" then opened (BeginArray stack) stack else
  if Ascii.eqb c quote_char then InString "" SPlain stack else
  if Ascii.eqb c "-" then InNumber (String c "") NNeg stack else
  if Ascii.eqb c "0" then InNumber (String c "") NZero stack else
  if is_digit c then InNumber (String c "") NInt stack else
  if Ascii.eqb c "t" then InLiteral "rue" (VBool true) stack else
  if Ascii.eqb c "f" then InLiteral "alse" (VBool false) stack else
  if Ascii.eqb c "n" then InLiteral "ull" VNull stack else Bad.

(** A composite value closes: at the top it is finished. *)
Definition close (v : jvalue) (stack : list frame) : state :=
  match stack with [] => Finished v | _ => EndValue v stack end.

(** [stateEndValue]. *)
Definition end_value (v : jvalue) (stack : list frame) (c : ascii) : state :=
  match stack with
  | [] => if is_json_space c then Finished v else Bad
  | f :: stack' =>
      if is_json_space c then EndValue v stack else
      match f with
      | FArray items =>
          if Ascii.eqb c "," then BeginValue (FArray (items ++ [v]) :: stack') else
          if Ascii.eqb c "]" then close (VArray (items ++ [v])) stack' else Bad
      | FObject members key =>
          if Ascii.eqb c "," then BeginKey (members ++ [(key, v)]) stack' else
          if Ascii.eqb c "}" then close (VObject (members ++ [(key, v)])) stack' else Bad
      end
  end%list.

Definition begin_key (members : list (string * jvalue)) (stack : list frame) (c : ascii) : state :=
  if is_json_space c then BeginKey members stack else
  if Ascii.eqb c quote_char then InKey "" SPlain members stack else Bad.

Definition step (st : state) (c : ascii) : state :=
  match st with
  | BeginValue stack => begin_value stack c
  | BeginArray stack =>
      if is_json_space c then st else
      if Ascii.eqb c "]" then close (VArray []) stack else begin_value (FArray [] :: stack) c
  | BeginObject stack =>
      if is_json_space c then st else
      if Ascii.eqb c "}" then close (VObject []) stack else begin_key [] stack c
  | BeginKey members stack => begin_key members stack c
  | InKey raw q members stack =>
      match string_char q c with
      | Some (_, true) => AfterKey (unquote raw) members stack
      | Some (q', false) => InKey (raw +:+ String c "") q' members stack
      | None => Bad
      end
  | AfterKey key members stack =>
      if is_json_space c then st else
      if Ascii.eqb c ":" then BeginValue (FObject members key :: stack) else Bad
  | InString raw q stack =>
      match string_char q c with
      | Some (_, true) => EndValue (VString (unquote raw)) stack
      | Some (q', false) => InString (raw +:+ String c "") q' stack
      | None => Bad
      end
  | InNumber text n stack =>
      match number_char n c with
      | Some n' => InNumber (text +:+ String c "") n' stack
      | None => if number_ends n then end_value (VNumber text) stack c else Bad
      end
  | InLiteral rest v stack =>
      match rest with
      | String d rest' =>
          if Ascii.eqb c d then match rest' with "" => EndValue v stack | _ => InLiteral rest' v stack end else Bad
      | "" => Bad
      end
  | EndValue v stack => end_value v stack c
  | Finished _ | Bad => st
  end.

(** What follows a finished value is not read. *)
Fixpoint scan (st : state) (s : string) : state :=
  match s with
  | "" => st
  | String c s' => scan (step st c) s'
  end.

(** At the end of the text a space is added. *)
Definition at_end (st : state) : option jvalue :=
  match step st " " with Finished v => Some v | _ => None end.

(** The value of a text that holds one value and nothing else. *)
Fixpoint scan_whole (st : state) (s : string) : option jvalue :=
  match s with
  | "" => at_end st
  | String c s' =>
      match step st c with
      | Finished v => if forallb_string is_json_space s' then Some v else None
      | Bad => None
      | st' => scan_whole st' s'
      end
  end.
Definition Unmarshal_value (s : string) : option jvalue := scan_whole (BeginValue []) s.

(** ** [json.Compact] *)

(** Space outside of strings is dropped, [<], [>], [&], U+2028 and U+2029 are
    escaped. *)
Definition unicode_escape_of (hex : string) : string := String backslash ("u" +:+ hex).
Fixpoint compact (within escaped : bool) (s : string) : string :=
  match s with
  | "" => ""
  | String c s1 =>
      if negb within && is_json_space c then compact within false s1 else
      let within' := if Ascii.eqb c quote_char && negb escaped then negb within else within in
      let escaped' := within && Ascii.eqb c backslash && negb escaped in
      if Ascii.eqb c "<" then unicode_escape_of "003c" +:+ compact within' escaped' s1 else
      if Ascii.eqb c ">" then unicode_escape_of "003e" +:+ compact within' escaped' s1 else
      if Ascii.eqb c "&" then unicode_escape_of "0026" +:+ compact within' escaped' s1 else
      match s1 with
      | String b (String d s3) =>
          if (byte c =? 226) && (byte b =? 128) && (byte d =? 168) then unicode_escape_of "2028" +:+ compact within' escaped' s3 else
          if (byte c =? 226) && (byte b =? 128) && (byte d =? 169) then unicode_escape_of "2029" +:+ compact within' escaped' s3 else
          String c (compact within' escaped' s1)
      | _ => String c (compact within' escaped' s1)
      end
  end.
Definition Compact (s : string) : option string :=
  match Unmarshal_value s with Some _ => Some (compact false false s) | None => None end.
