(* ===== verification/Regexp.v ===== *)
(** * Regular expressions

    What the program uses of Go's [regexp] package: expressions over bytes with
    literals, classes, alternatives and greedy repetitions of a class, searched
    from the left with the preference of a backtracking search, and
    [ReplaceAllString] with a template that names the first group.  The search is
    the denotation: it succeeds exactly on the words of the expression
    ([matching_sound], [matching_complete]).

    The second part says when a text has an occurrence of a fixed word followed by
    a class ([occurs]), the form of the tokens the reports must not show, and how
    the operations on strings act on occurrences. *)

From S2P Require Import Prelude GoStrings.

Open Scope string_scope.
Open Scope Z_scope.

Inductive regexp :=
| REmpty
| RClass (p : ascii -> bool)
| RCat (r1 r2 : regexp)
| RAlt (r1 r2 : regexp)
| RStar (p : ascii -> bool).

Definition RPlus (p : ascii -> bool) : regexp := RCat (RClass p) (RStar p).
Definition ROption (r : regexp) : regexp := RAlt r REmpty.

(** The words of an expression. *)
Inductive word : regexp -> string -> Prop :=
| word_empty : word REmpty ""
| word_class p a : p a = true -> word (RClass p) (String a "")
| word_cat r1 r2 u v : word r1 u -> word r2 v -> word (RCat r1 r2) (u +:+ v)
| word_left r1 r2 u : word r1 u -> word (RAlt r1 r2) u
| word_right r1 r2 u : word r2 u -> word (RAlt r1 r2) u
| word_star p u : forallb_string p u = true -> word (RStar p) u.

(** ** The search *)

Section Matching.
Context {A : Type}.

(** The longest repetition the rest of the search accepts. *)
Fixpoint star_matching (p : ascii -> bool) (s : string) (k : string -> option A) : option A :=
  match s with
  | String a s' => if p a then match star_matching p s' k with Some x => Some x | None => k s end else k s
  | "" => k s
  end.

(** A word of [r] at the beginning of [s], and what [k] makes of the rest. *)
Fixpoint matching (r : regexp) (s : string) (k : string -> option A) : option A :=
  match r with
  | REmpty => k s
  | RClass p => match s with String a s' => if p a then k s' else None | "" => None end
  | RCat r1 r2 => matching r1 s (fun t => matching r2 t k)
  | RAlt r1 r2 => match matching r1 s k with Some x => Some x | None => matching r2 s k end
  | RStar p => star_matching p s k
  end.

Lemma star_sound p s (k : string -> option A) x :
  star_matching p s k = Some x -> exists u t, s = u +:+ t /\ forallb_string p u = true /\ k t = Some x.
Proof.
  induction s as [|a s IH]; cbn; intros H; [by exists "", ""|].
  destruct (p a) eqn:Ep; [|by exists "", (String a s)].
  destruct (star_matching p s k) as [y|] eqn:E; [|by exists "", (String a s)].
  destruct (IH H) as (u & t & -> & Hu & Ht). exists (String a u), t. cbn. by rewrite Ep, Hu.
Qed.

Lemma star_complete p u t (k : string -> option A) :
  forallb_string p u = true -> k t <> None -> star_matching p (u +:+ t) k <> None.
Proof.
  revert t. induction u as [|a u IH]; intros t Hu Hk; cbn in *.
  - destruct t as [|a t]; cbn; [done|]. destruct (p a); [|done]. by destruct (star_matching p t k).
  - apply andb_true_iff in Hu as [-> Hu]. specialize (IH t Hu Hk). by destruct (star_matching p _ k).
Qed.

Lemma matching_sound r : forall s (k : string -> option A) x,
  matching r s k = Some x -> exists u t, s = u +:+ t /\ word r u /\ k t = Some x.
Proof.
  induction r as [|p|r1 IH1 r2 IH2|r1 IH1 r2 IH2|p]; cbn; intros s k x H.
  - exists "", s. by split_and!; [|constructor|].
  - destruct s as [|a s]; [done|]. destruct (p a) eqn:Ep; [|done]. exists (String a ""), s. by split_and!; [|constructor|].
  - apply IH1 in H as (u & t & -> & Hu & H). apply IH2 in H as (v & t' & -> & Hv & H).
    exists (u +:+ v), t'. split_and!; [by rewrite string_app_assoc|by constructor|done].
  - destruct (matching r1 s k) eqn:E.
    + injection H as ->. apply IH1 in E as (u & t & -> & Hu & H). exists u, t. by split_and!; [|apply word_left|].
    + apply IH2 in H as (u & t & -> & Hu & H). exists u, t. by split_and!; [|apply word_right|].
  - apply star_sound in H as (u & t & -> & Hu & H). exists u, t. by split_and!; [|apply word_star|].
Qed.

Lemma matching_complete r u : word r u ->
  forall t (k : string -> option A), k t <> None -> matching r (u +:+ t) k <> None.
Proof.
  induction 1 as [|p a Ha|r1 r2 u v _ IH1 _ IH2|r1 r2 u _ IH|r1 r2 u _ IH|p u Hu]; cbn; intros t k Hk.
  - done.
  - by rewrite Ha.
  - rewrite string_app_assoc. apply IH1, IH2, Hk.
  - specialize (IH t k Hk). by destruct (matching r1 _ k).
  - specialize (IH t k Hk). by destruct (matching r1 _ k).
  - by apply star_complete.
Qed.
End Matching.

(** An expression with its first group in front; an expression without a group has
    an empty one, as [$1] is then empty. *)
Record pattern := mkPattern { pat_group : regexp; pat_rest : regexp }.

(** The lengths of the group and of the whole match at the beginning of [s]. *)
Definition match_at (p : pattern) (s : string) : option (nat * nat) :=
  matching (pat_group p) s (fun t => matching (pat_rest p) t (fun u =>
    Some (String.length s - String.length t, String.length s - String.length u)%nat)).

(** [pattern.ReplaceAllString(s, "$1" + suffix)] of a pattern without an empty
    word; [skip] bytes belong to the match before. *)
Fixpoint replace_matches (p : pattern) (suffix : string) (skip : nat) (s : string) : string :=
  match s with
  | "" => ""
  | String a s' =>
      match skip with
      | S k => replace_matches p suffix k s'
      | O => match match_at p s with
             | Some (g, n) => take_string g s +:+ suffix +:+ replace_matches p suffix (n - 1) s'
             | None => String a (replace_matches p suffix O s')
             end
      end
  end.
Definition ReplaceAllString (p : pattern) (s suffix : string) : string := replace_matches p suffix O s.

(** A literal, and one that [(?i)] folds: the letters [k] and [s] have a third
    form outside ASCII. *)
Definition RByte (c : ascii) : regexp := RClass (Ascii.eqb c).
Fixpoint RLiteral (s : string) : regexp :=
  match s with "" => REmpty | String a s' => RCat (RByte a) (RLiteral s') end.

Definition ascii_upper (a : ascii) : ascii :=
  if (97 <=? byte a) && (byte a <=? 122) then byte_char (byte a - 32) else a.
Definition fold_char (a : ascii) : regexp :=
  let both := RClass (fun b => Ascii.eqb a b || Ascii.eqb (ascii_upper a) b) in
  if Ascii.eqb a "s" then RAlt both (RLiteral (encode_rune 383)) else
  if Ascii.eqb a "k" then RAlt both (RLiteral (encode_rune 8490)) else both.
Fixpoint RFold (s : string) : regexp :=
  match s with "" => REmpty | String a s' => RCat (fold_char a) (RFold s') end.
Definition RAny (rs : list regexp) : regexp :=
  match rs with [] => REmpty | r :: rs' => fold_left RAlt rs' r end.

(** ** Occurrences of a word of classes *)

Definition classes := list (ascii -> bool).

Fixpoint begins (pat : classes) (s : string) : bool :=
  match pat with
  | [] => true
  | p :: pat' => match s with "" => false | String a s' => p a && begins pat' s' end
  end.
Fixpoint occurs (pat : classes) (s : string) : bool :=
  match s with "" => false | String a s' => begins pat s || occurs pat s' end.

Definition literal_classes (s : string) : classes := map Ascii.eqb (list_ascii_of_string s).

Section Occurrences.
Variables (pat : classes) (inside : ascii -> bool).
Hypothesis (Hpat : Forall (fun p => forall a, p a = true -> inside a = true) pat) (Hne : pat <> []).

(** The text ends with a byte no occurrence holds, or is empty. *)
Fixpoint closes (s : string) : bool :=
  match s with "" => true | String a "" => negb (inside a) | String _ s' => closes s' end.
Definition opens (s : string) : bool :=
  match s with "" => true | String a _ => negb (inside a) end.

Lemma begins_take n s : begins pat (take_string n s) = true -> begins pat s = true.
Proof.
  clear Hpat Hne. revert n s. induction pat as [|p ps IH]; intros n s; [done|]. destruct s as [|a s]; [by destruct n|].
  destruct n as [|n]; [done|]. cbn. intros [-> H]%andb_true_iff. by rewrite (IH n).
Qed.

Lemma begins_app s t : begins pat s = true -> begins pat (s +:+ t) = true.
Proof.
  clear Hpat Hne. revert s. induction pat as [|p ps IH]; intros s; [done|]. destruct s as [|a s]; [done|]. cbn.
  intros [-> H]%andb_true_iff. by rewrite IH.
Qed.

(** What follows cannot complete an occurrence that a closing byte ends. *)
Lemma begins_opens s t : opens t = true -> begins pat (s +:+ t) = true -> begins pat s = true.
Proof.
  clear Hne. intros Ht. revert s. induction Hpat as [|p ps Hp Hps IH]; intros s; [done|].
  destruct s as [|a s]; cbn.
  - destruct t as [|a t]; [done|]. cbn in Ht. intros [H _]%andb_true_iff. by rewrite (Hp a H) in Ht.
  - intros [-> H]%andb_true_iff. by rewrite IH.
Qed.

Lemma begins_closes s t : s <> "" -> closes s = true -> begins pat (s +:+ t) = true -> begins pat s = true.
Proof.
  clear Hne. revert s. induction Hpat as [|p ps Hp Hps IH]; intros s Hs Hc; [done|].
  destruct s as [|a s]; [done|]. cbn [String.append begins]. intros [Ha H]%andb_true_iff. rewrite Ha. cbn.
  destruct s as [|b s]; [cbn in Hc; by rewrite (Hp a Ha) in Hc|]. by apply IH.
Qed.

Lemma occurs_app s t : (opens t = true \/ closes s = true) -> occurs pat (s +:+ t) = occurs pat s || occurs pat t.
Proof.
  intros Hst. induction s as [|a s IH]; [done|]. change (String a s +:+ t) with (String a (s +:+ t)). cbn [occurs].
  rewrite IH; [rewrite orb_assoc; f_equal; f_equal|].
  - apply eq_true_iff_eq. split; [|apply (begins_app (String a s) t)]. intros H.
    destruct Hst as [Ht|Hs]; [by apply (begins_opens (String a s) t)|by apply (begins_closes (String a s) t)].
  - destruct Hst as [Ht|Hs]; [by left|right]. by destruct s.
Qed.

Lemma closes_app s t : closes t = true -> (t = "" -> closes s = true) -> closes (s +:+ t) = true.
Proof.
  intros Ht Hs. induction s as [|a s IH]; [done|]. destruct s as [|b s].
  - destruct t as [|b t]; [by apply Hs|done].
  - apply IH. intros E. by apply Hs in E.
Qed.

Lemma occurs_infix s u v : occurs pat (u +:+ s +:+ v) = false -> occurs pat s = false.
Proof.
  intros H. assert (H1 : occurs pat (s +:+ v) = false).
  { clear -H. induction u as [|a u IH]; [done|]. apply IH. cbn in H. by apply orb_false_iff in H as [_ H]. }
  clear H. induction s as [|a s IH]; [done|]. cbn [occurs String.append] in *. apply orb_false_iff in H1 as [H1 H2].
  rewrite (IH H2), orb_false_r. destruct (begins pat (String a s)) eqn:E; [|done].
  pose proof (begins_app _ v E) as E2. cbn [String.append] in E2. by rewrite E2 in H1.
Qed.

Lemma occurs_take n s : occurs pat s = false -> occurs pat (take_string n s) = false.
Proof. intros H. apply (occurs_infix _ "" (drop_string n s)). cbn. by rewrite take_drop_string. Qed.

(** *** Replacing by a text without the bytes of an occurrence *)

Lemma begins_replaced old new s : opens new = true -> new <> "" ->
  begins pat (replace_from old new 0 s) = true -> begins pat s = true.
Proof.
  clear Hne. intros Hn Hne'. revert s. induction Hpat as [|p ps Hp Hps IH]; intros s; [done|]. destruct s as [|a s]; [done|].
  cbn [replace_from]. destruct (HasPrefix _ old).
  - destruct new as [|b new]; [done|]. cbn [String.append begins opens] in *. intros [H _]%andb_true_iff.
    by rewrite (Hp b H) in Hn.
  - cbn [begins]. intros [-> H]%andb_true_iff. by rewrite IH.
Qed.

Definition apart (s : string) : bool := forallb_string (fun a => negb (inside a)) s.

Lemma apart_opens s : apart s = true -> opens s = true.
Proof. destruct s as [|a s]; [done|]. cbn. by intros [H _]%andb_true_iff. Qed.
Lemma apart_closes s : apart s = true -> closes s = true.
Proof.
  unfold apart. induction s as [|a s IH]; [done|]. cbn. intros [H Hs]%andb_true_iff. destruct s; [done|by apply IH].
Qed.
Lemma apart_no_occurs s : apart s = true -> occurs pat s = false.
Proof.
  unfold apart. induction s as [|a s IH]; [done|]. cbn. intros [H Hs]%andb_true_iff. rewrite (IH Hs), orb_false_r.
  destruct Hpat as [|p ps Hp _]; [done|]. cbn. destruct (p a) eqn:E; [|done]. by rewrite (Hp a E) in H.
Qed.

Lemma occurs_ReplaceAll old new s : apart new = true -> new <> "" ->
  occurs pat s = false -> occurs pat (ReplaceAll s old new) = false.
Proof.
  intros Hn Hne' H. unfold ReplaceAll. generalize 0%nat. induction s as [|a s IH]; intros skip; [done|].
  cbn [occurs] in H. apply orb_false_iff in H as [H1 H2]. specialize (IH H2).
  destruct skip as [|k]; cbn [replace_from]; [|apply IH]. destruct (HasPrefix (String a s) old) eqn:Eo.
  - rewrite occurs_app by (right; by apply apart_closes). by rewrite (apart_no_occurs _ Hn), IH.
  - cbn [occurs]. rewrite IH, orb_false_r. destruct (begins pat (String a (replace_from old new 0 s))) eqn:E; [|done].
    assert (Hb : begins pat (replace_from old new 0 (String a s)) = true) by (cbn [replace_from]; by rewrite Eo).
    apply begins_replaced in Hb; [congruence|by apply apart_opens|done].
Qed.

Lemma occurs_Join sep l : apart sep = true -> sep <> "" ->
  Forall (fun s => occurs pat s = false) l -> occurs pat (strings_Join sep l) = false.
Proof.
  intros Hs Hn. induction 1 as [|s l H1 Hl IH]; [done|]. cbn [strings_Join]. destruct l as [|t l]; [done|].
  rewrite occurs_app by (left; destruct sep; [done|]; by apply apart_opens in Hs).
  rewrite occurs_app by (right; by apply apart_closes). by rewrite H1, (apart_no_occurs sep Hs), IH.
Qed.
End Occurrences.

(** *** Replacing the matches of a pattern without a group *)

Section Redaction.
Variables (pat : classes) (inside : ascii -> bool).
Hypothesis (Hpat : Forall (fun p => forall a, p a = true -> inside a = true) pat).
Variables (p : pattern) (suffix : string).
Hypothesis (Hgroup : pat_group p = REmpty) (Hopen : opens inside suffix = true) (Hclose : closes inside suffix = true)
  (Hsuffix : suffix <> "") (Hclean : occurs pat suffix = false).

Lemma match_group s g n : match_at p s = Some (g, n) -> take_string g s = "".
Proof.
  unfold match_at. rewrite Hgroup. cbn [matching]. intros H. apply matching_sound in H as (u & t & _ & _ & [= <- _]).
  rewrite Nat.sub_diag. by destruct s.
Qed.

Lemma begins_redacted s : begins pat (replace_matches p suffix 0 s) = true -> begins pat s = true.
Proof.
  clear Hclean. revert s. induction Hpat as [|c cs Hc Hcs IH]; intros s; [done|]. destruct s as [|a s]; [done|].
  cbn [replace_matches]. destruct (match_at p (String a s)) as [[g n]|] eqn:E.
  - rewrite (match_group _ _ _ E). cbn [String.append]. destruct suffix as [|b suffix']; [done|].
    cbn [String.append begins opens] in *. intros [H _]%andb_true_iff. by rewrite (Hc b H) in Hopen.
  - cbn [begins]. intros [-> H]%andb_true_iff. by rewrite IH.
Qed.

(** An occurrence of the result is one of the source that nothing matched. *)
Lemma occurs_redacted s :
  (forall u v, s = u +:+ v -> match_at p v = None -> begins pat v = false) ->
  occurs pat (ReplaceAllString p s suffix) = false.
Proof.
  unfold ReplaceAllString. generalize 0%nat. induction s as [|a s IH]; intros skip H; [done|].
  assert (Hs : forall u v, s = u +:+ v -> match_at p v = None -> begins pat v = false).
  { intros u v ->. by apply (H (String a u)). }
  destruct skip as [|k]; cbn [replace_matches]; [|by apply IH].
  destruct (match_at p (String a s)) as [[g n]|] eqn:E.
  - rewrite (match_group _ _ _ E). cbn [String.append]. rewrite (occurs_app pat inside) by auto.
    by rewrite Hclean, IH.
  - cbn [occurs]. rewrite IH by done. rewrite orb_false_r.
    destruct (begins pat (String a (replace_matches p suffix 0 s))) eqn:Eb; [|done].
    assert (Hb : begins pat (replace_matches p suffix 0 (String a s)) = true) by (cbn [replace_matches]; by rewrite E).
    apply begins_redacted in Hb. by rewrite (H "" (String a s)) in Hb.
Qed.

Lemma occurs_kept s : occurs pat s = false -> pat <> [] -> occurs pat (ReplaceAllString p s suffix) = false.
Proof.
  intros H Hne. apply occurs_redacted. intros u v -> _.
  assert (Hv : occurs pat v = false) by (apply (occurs_infix _ _ u ""); by rewrite string_app_nil_r).
  destruct v as [|a v]; [by destruct pat|]. cbn in Hv. by apply orb_false_iff in Hv as [Hv _].
Qed.
End Redaction.

(** A literal and at least one byte of a class are matched where they begin. *)
Definition token_pattern (prefix : string) (q : ascii -> bool) : pattern :=
  mkPattern REmpty (RCat (RLiteral prefix) (RPlus q)).
Definition token_classes (prefix : string) (q : ascii -> bool) : classes := (literal_classes prefix ++ [q])%list.

Lemma literal_matching {A} lit q s (k : string -> option A) :
  (forall t, k t <> None) -> begins (literal_classes lit ++ [q])%list s = true ->
  matching (RCat (RLiteral lit) (RPlus q)) s k <> None.
Proof.
  intros Hk. cbn [matching]. revert s. induction lit as [|c lit IH]; intros s H; destruct s as [|a s]; try done.
  - cbn in *. rewrite andb_true_r in H. rewrite H. apply (star_complete q "" s); [done|apply Hk].
  - cbn in *. destruct (Ascii.eqb c a); [|done]. by apply IH.
Qed.

Lemma token_matched prefix q v : match_at (token_pattern prefix q) v = None -> begins (token_classes prefix q) v = false.
Proof.
  intros H. destruct (begins _ v) eqn:E; [|done]. exfalso. revert H. unfold match_at, token_pattern. cbn [pat_group pat_rest].
  change (matching REmpty v ?k) with (k v). by apply literal_matching.
Qed.

(** ** [strings.Fields] *)

Fixpoint spaced (s : string) : string * list string :=
  let split r := let '(field, rest) := r in ("", if (field =? "")%string then rest else field :: rest) in
  match s with
  | "" => ("", [])
  | String a s1 =>
      if space1 a then split (spaced s1) else
      let plain := let '(field, rest) := spaced s1 in (String a field, rest) in
      match s1 with
      | "" => plain
      | String b s2 =>
          if space2 a b then split (spaced s2) else
          match s2 with
          | "" => plain
          | String c s3 => if space3 a b c then split (spaced s3) else plain
          end
      end
  end.
Definition Fields (s : string) : list string :=
  let '(field, rest) := spaced s in if (field =? "")%string then rest else field :: rest.

Definition infix (t s : string) : Prop := exists u v, s = u +:+ t +:+ v.

Lemma infix_cons a t s : infix t s -> infix t (String a s).
Proof. intros (u & v & ->). by exists (String a u), v. Qed.
Lemma infix_prefix t v : infix t (t +:+ v).
Proof. by exists "", v. Qed.

Definition split_fields (r : string * list string) : string * list string :=
  let '(field, rest) := r in ("", if (field =? "")%string then rest else field :: rest).
Definition fields_in (s : string) (r : string * list string) : Prop :=
  (exists v, s = r.1 +:+ v) /\ Forall (fun f => infix f s) r.2.

Lemma fields_in_split s r a : fields_in s r -> fields_in (String a s) (split_fields r).
Proof.
  intros [(v & Hv) Hr]. destruct r as [field rest]. cbn in *. split; [by exists (String a s)|]. cbn.
  assert (H : Forall (fun f => infix f (String a s)) rest) by (eapply Forall_impl; [exact Hr|intros f; apply infix_cons]).
  destruct (field =? "")%string; [done|]. constructor; [|done]. apply infix_cons. rewrite Hv. apply infix_prefix.
Qed.
Lemma fields_in_skip s r a : fields_in s r -> r.1 = "" -> fields_in (String a s) r.
Proof.
  intros [_ Hr] E. split; [exists (String a s); by rewrite E|]. eapply Forall_impl; [exact Hr|intros f; apply infix_cons].
Qed.
Lemma fields_in_plain s r a : fields_in s r -> fields_in (String a s) (String a r.1, r.2).
Proof.
  intros [(v & Hv) Hr]. split; [exists v; cbn; by rewrite Hv at 1|]. cbn.
  eapply Forall_impl; [exact Hr|intros f; apply infix_cons].
Qed.

Lemma spaced_in : forall s, fields_in s (spaced s).
Proof.
  fix IH 1. intros [|a s1]; [split; [by exists ""|constructor]|]. cbn [spaced].
  assert (Hp : fields_in (String a s1) (let '(field, rest) := spaced s1 in (String a field, rest))).
  { pose proof (fields_in_plain s1 (spaced s1) a (IH s1)) as H. by destruct (spaced s1). }
  destruct (space1 a); [by apply (fields_in_split s1)|].
  destruct s1 as [|b s2]; [exact Hp|]. destruct (space2 a b).
  { apply fields_in_skip; [by apply (fields_in_split s2)|]. by destruct (spaced s2). }
  destruct s2 as [|c s3]; [exact Hp|]. destruct (space3 a b c); [|exact Hp].
  do 2 (apply fields_in_skip; [|by destruct (spaced s3)]). by apply (fields_in_split s3).
Qed.

Lemma Fields_infix s : Forall (fun f => infix f s) (Fields s).
Proof.
  unfold Fields. destruct (spaced_in s) as [(v & Hv) Hr]. destruct (spaced s) as [field rest]. cbn in *.
  destruct (field =? "")%string; [done|]. constructor; [|done]. rewrite Hv. apply infix_prefix.
Qed.

Lemma Fields_no_occurs pat s : occurs pat s = false -> Forall (fun f => occurs pat f = false) (Fields s).
Proof.
  intros H. eapply Forall_impl; [apply Fields_infix|]. intros f (u & v & E). cbn in E. rewrite E in H. by apply occurs_infix in H.
Qed.

Example Fields_example : Fields ("  a" +:+ String (ascii_of_nat 194) (String (ascii_of_nat 160) "bc ")) = ["a"; "bc"].
Proof. reflexivity. Qed.
Example redact_example :
  ReplaceAllString (token_pattern "prr_" (fun a => negb (space1 a))) "x prr_ab prr_ prr_c" "[redacted]" = "x [redacted] prr_ [redacted]".
Proof. reflexivity. Qed.
