(* ===== verification/Domain.v ===== *)
(** * The domain package

    [internal/domain]: identifiers, names, enumerations, records and their
    validation.  A Go typed string is a [string]; any string is a value of the
    type, as in Go, and [IsValid] tells which ones are members of the
    enumeration.  Pointers that may be nil are options, [time.Time] is a number
    of nanoseconds with 0 for the zero time. *)

From S2P Require Import Prelude Errors GoStrings.

Open Scope string_scope.
Open Scope Z_scope.

Definition time := Z.
(** [t.IsZero()]. *)
Definition IsZero (t : time) : bool := t =? 0.

(** ** Identifiers ([ids.go]) *)

Definition ModuleID := string.
Definition ModuleGitLabProjectID := string.
Definition ModuleVersionID := string.
Definition ArtifactID := string.
Definition APITokenID := string.
Definition BreakingReportID := string.
Definition BreakingChangeID := string.
Definition ModuleDependencyID := string.
Definition UnresolvedProtoDependencyID := string.
Definition RuntimeServiceID := string.
Definition RuntimeDeploymentID := string.
Definition RuntimeModuleUsageID := string.
Definition ModuleOwnerID := string.
Definition ApprovalRequestID := string.
Definition ApprovalRequirementID := string.
Definition ApprovalDecisionID := string.
Definition GovernanceAuditEventID := string.

Definition NewModuleID (value : string) : ModuleID := TrimSpace value.
Definition NewModuleGitLabProjectID (value : string) : ModuleGitLabProjectID := TrimSpace value.
Definition NewModuleVersionID (value : string) : ModuleVersionID := TrimSpace value.
Definition NewArtifactID (value : string) : ArtifactID := TrimSpace value.
Definition NewAPITokenID (value : string) : APITokenID := TrimSpace value.
Definition NewBreakingReportID (value : string) : BreakingReportID := TrimSpace value.
Definition NewBreakingChangeID (value : string) : BreakingChangeID := TrimSpace value.
Definition NewModuleDependencyID (value : string) : ModuleDependencyID := TrimSpace value.
Definition NewUnresolvedProtoDependencyID (value : string) : UnresolvedProtoDependencyID :=
  TrimSpace value.
Definition NewRuntimeServiceID (value : string) : RuntimeServiceID := TrimSpace value.
Definition NewRuntimeDeploymentID (value : string) : RuntimeDeploymentID := TrimSpace value.
Definition NewRuntimeModuleUsageID (value : string) : RuntimeModuleUsageID := TrimSpace value.
Definition NewModuleOwnerID (value : string) : ModuleOwnerID := TrimSpace value.
Definition NewApprovalRequestID (value : string) : ApprovalRequestID := TrimSpace value.
Definition NewApprovalRequirementID (value : string) : ApprovalRequirementID := TrimSpace value.
Definition NewApprovalDecisionID (value : string) : ApprovalDecisionID := TrimSpace value.
Definition NewGovernanceAuditEventID (value : string) : GovernanceAuditEventID := TrimSpace value.

(** ** Enumerations

    [IsValid] of most enumerations walks over the list of allowed values, and
    the constructor trims the value before it checks it. *)

Definition allowed_in (allowed : list string) (value : string) : bool :=
  existsb (String.eqb value) allowed.

Definition new_enum (valid : string -> bool) (e : error) (value : string) : result string :=
  let v := TrimSpace value in
  if negb (valid v) then Err e else Ok v.

(** *** [governance.go] *)

Definition MaxApprovalDecisionCommentLength : Z := 2000.

Definition GovernanceSubjectType := string.
Definition GovernanceSubjectTypeUser : GovernanceSubjectType := "user".
Definition GovernanceSubjectTypeTeam : GovernanceSubjectType := "team".
Definition OwnerSubjectTypeUser := GovernanceSubjectTypeUser.
Definition OwnerSubjectTypeTeam := GovernanceSubjectTypeTeam.

Definition GovernanceSubjectTypes : list GovernanceSubjectType := [GovernanceSubjectTypeUser; GovernanceSubjectTypeTeam].
Definition GovernanceSubjectType_IsValid (t : GovernanceSubjectType) : bool := allowed_in GovernanceSubjectTypes t.
Definition NewGovernanceSubjectType := new_enum GovernanceSubjectType_IsValid domain.ErrInvalidGovernanceSubjectType.

Definition ModuleOwnerRole := string.
Definition ModuleOwnerRoleOwner : ModuleOwnerRole := "owner".
Definition ModuleOwnerRoleMaintainer : ModuleOwnerRole := "maintainer".

Definition ModuleOwnerRoles : list ModuleOwnerRole := [ModuleOwnerRoleOwner; ModuleOwnerRoleMaintainer].
Definition ModuleOwnerRole_IsValid (r : ModuleOwnerRole) : bool := allowed_in ModuleOwnerRoles r.
Definition NewModuleOwnerRole := new_enum ModuleOwnerRole_IsValid domain.ErrInvalidModuleOwnerRole.

Definition ApprovalRequestStatus := string.
Definition ApprovalRequestStatusPending : ApprovalRequestStatus := "pending".
Definition ApprovalRequestStatusApproved : ApprovalRequestStatus := "approved".
Definition ApprovalRequestStatusRejected : ApprovalRequestStatus := "rejected".
Definition ApprovalRequestStatusCancelled : ApprovalRequestStatus := "cancelled".
Definition ApprovalRequestStatusNotRequired : ApprovalRequestStatus := "not_required".

Definition ApprovalRequestStatuses : list ApprovalRequestStatus :=
  [ApprovalRequestStatusPending; ApprovalRequestStatusApproved;
   ApprovalRequestStatusRejected; ApprovalRequestStatusCancelled;
   ApprovalRequestStatusNotRequired].
Definition ApprovalRequestStatus_IsValid (s : ApprovalRequestStatus) : bool := allowed_in ApprovalRequestStatuses s.
Definition NewApprovalRequestStatus := new_enum ApprovalRequestStatus_IsValid domain.ErrInvalidApprovalRequestStatus.

Definition ApprovalRequirementType := string.
Definition ApprovalRequirementTypeModuleOwnerApproval : ApprovalRequirementType :=
  "module_owner_approval".
Definition ApprovalRequirementTypeAffectedConsumerApproval : ApprovalRequirementType :=
  "affected_consumer_approval".

Definition ApprovalRequirementTypes : list ApprovalRequirementType :=
  [ApprovalRequirementTypeModuleOwnerApproval;
   ApprovalRequirementTypeAffectedConsumerApproval].
Definition ApprovalRequirementType_IsValid (t : ApprovalRequirementType) : bool := allowed_in ApprovalRequirementTypes t.
Definition NewApprovalRequirementType := new_enum ApprovalRequirementType_IsValid domain.ErrInvalidApprovalRequirementType.

Definition ApprovalRequirementStatus := string.
Definition ApprovalRequirementStatusPending : ApprovalRequirementStatus := "pending".
Definition ApprovalRequirementStatusApproved : ApprovalRequirementStatus := "approved".
Definition ApprovalRequirementStatusRejected : ApprovalRequirementStatus := "rejected".
Definition ApprovalRequirementStatusNotRequired : ApprovalRequirementStatus := "not_required".

Definition ApprovalRequirementStatuses : list ApprovalRequirementStatus :=
  [ApprovalRequirementStatusPending; ApprovalRequirementStatusApproved;
   ApprovalRequirementStatusRejected; ApprovalRequirementStatusNotRequired].
Definition ApprovalRequirementStatus_IsValid (s : ApprovalRequirementStatus) : bool := allowed_in ApprovalRequirementStatuses s.
Definition NewApprovalRequirementStatus := new_enum ApprovalRequirementStatus_IsValid domain.ErrInvalidApprovalRequirementStatus.

Definition ApprovalDecisionValue := string.
Definition ApprovalDecisionValueApproved : ApprovalDecisionValue := "approved".
Definition ApprovalDecisionValueRejected : ApprovalDecisionValue := "rejected".
Definition ApprovalDecisionApproved := ApprovalDecisionValueApproved.
Definition ApprovalDecisionRejected := ApprovalDecisionValueRejected.

Definition ApprovalDecisionValues : list ApprovalDecisionValue :=
  [ApprovalDecisionValueApproved; ApprovalDecisionValueRejected].
Definition ApprovalDecisionValue_IsValid (d : ApprovalDecisionValue) : bool := allowed_in ApprovalDecisionValues d.
Definition NewApprovalDecisionValue := new_enum ApprovalDecisionValue_IsValid domain.ErrInvalidApprovalDecision.

Definition GovernanceAuditEventType := string.
Definition GovernanceAuditEventTypeModuleOwnerAdded : GovernanceAuditEventType :=
  "module_owner_added".
Definition GovernanceAuditEventTypeModuleOwnerRemoved : GovernanceAuditEventType :=
  "module_owner_removed".
Definition GovernanceAuditEventTypeApprovalRequestCreated : GovernanceAuditEventType :=
  "approval_request_created".
Definition GovernanceAuditEventTypeApprovalDecisionRecorded : GovernanceAuditEventType :=
  "approval_decision_recorded".
Definition GovernanceAuditEventTypeApprovalRequestStatusChanged : GovernanceAuditEventType :=
  "approval_request_status_changed".
Definition GovernanceAuditEventTypePolicyEvaluated : GovernanceAuditEventType :=
  "policy_evaluated".

Definition GovernanceAuditEventTypes : list GovernanceAuditEventType :=
  [GovernanceAuditEventTypeModuleOwnerAdded; GovernanceAuditEventTypeModuleOwnerRemoved;
   GovernanceAuditEventTypeApprovalRequestCreated;
   GovernanceAuditEventTypeApprovalDecisionRecorded;
   GovernanceAuditEventTypeApprovalRequestStatusChanged;
   GovernanceAuditEventTypePolicyEvaluated].
Definition GovernanceAuditEventType_IsValid (t : GovernanceAuditEventType) : bool := allowed_in GovernanceAuditEventTypes t.
Definition NewGovernanceAuditEventType := new_enum GovernanceAuditEventType_IsValid domain.ErrInvalidGovernanceAuditEventType.

(** *** Versions, artifacts, reports and runtime drift *)

Definition ModuleVersionStatus := string.
Definition ModuleVersionStatusDraft : ModuleVersionStatus := "draft".
Definition ModuleVersionStatusPublished : ModuleVersionStatus := "published".

(** The one constructor that does not trim. *)
Definition NewModuleVersionStatus (value : string) : result ModuleVersionStatus :=
  if negb (value =? ModuleVersionStatusDraft)%string
     && negb (value =? ModuleVersionStatusPublished)%string
  then Err domain.ErrInvalidModuleVersionState else Ok value.

Definition ArtifactKind := string.
Definition ArtifactKindSourceArchive : ArtifactKind := "source_archive".
Definition ArtifactKindBufImage : ArtifactKind := "buf_image".

Definition NewArtifactKind (value : string) : result ArtifactKind :=
  let kind := TrimSpace value in
  if allowed_in [ArtifactKindSourceArchive; ArtifactKindBufImage] kind
  then Ok kind else Err domain.ErrInvalidArtifactKind.
Definition ArtifactKind_IsValid (kind : ArtifactKind) : bool := is_ok (NewArtifactKind kind).

Definition BreakingReportStatus := string.
Definition BreakingReportStatusPassed : BreakingReportStatus := "passed".
Definition BreakingReportStatusBreaking : BreakingReportStatus := "breaking".
Definition BreakingReportStatusFailed : BreakingReportStatus := "failed".

Definition NewBreakingReportStatus (value : string) : result BreakingReportStatus :=
  let status := TrimSpace value in
  if allowed_in [BreakingReportStatusPassed; BreakingReportStatusBreaking;
                 BreakingReportStatusFailed] status
  then Ok status else Err domain.ErrInvalidBreakingStatus.
Definition BreakingReportStatus_IsValid (status : BreakingReportStatus) : bool :=
  is_ok (NewBreakingReportStatus status).

Definition RuntimeDriftStatus := string.
Definition RuntimeDriftStatusUpToDate : RuntimeDriftStatus := "up_to_date".
Definition RuntimeDriftStatusBehindLatest : RuntimeDriftStatus := "behind_latest".
Definition RuntimeDriftStatusUnknownVersion : RuntimeDriftStatus := "unknown_version".
Definition RuntimeDriftStatusDeprecatedVersion : RuntimeDriftStatus := "deprecated_version".

Definition RuntimeDriftStatus_IsValid (status : RuntimeDriftStatus) : bool :=
  allowed_in [RuntimeDriftStatusUpToDate; RuntimeDriftStatusBehindLatest;
              RuntimeDriftStatusUnknownVersion; RuntimeDriftStatusDeprecatedVersion] status.
Definition NewRuntimeDriftStatus :=
  new_enum RuntimeDriftStatus_IsValid domain.ErrInvalidRuntimeDriftStatus.

Definition RuntimeImpactStatus := string.
Definition RuntimeImpactStatusPotentiallyAffectedByBreakingChange : RuntimeImpactStatus :=
  "potentially_affected_by_breaking_change".

Definition BufLintStatus := string.
Definition BufLintStatusNotRun : BufLintStatus := "not_run".
Definition BufLintStatusPassed : BufLintStatus := "passed".
Definition BufLintStatusWarning : BufLintStatus := "warning".
Definition BufLintStatusFailed : BufLintStatus := "failed".

Definition DependencySource := string.
Definition DependencySourceImport : DependencySource := "import".
Definition DependencySourceTypeReference : DependencySource := "type_reference".
Definition DependencySourceMethodReference : DependencySource := "method_reference".
Definition DependencySourcePackageFallback : DependencySource := "package_fallback".
Definition DependencySource_IsValid (source : DependencySource) : bool :=
  allowed_in [DependencySourceImport; DependencySourceTypeReference;
              DependencySourceMethodReference; DependencySourcePackageFallback] source.

Definition DependencyResolutionReason := string.
Definition DependencyResolutionReasonImportPath : DependencyResolutionReason := "import_path".
Definition DependencyResolutionReasonSymbol : DependencyResolutionReason := "symbol".
Definition DependencyResolutionReasonPackageFallback : DependencyResolutionReason :=
  "package_fallback".

Definition UnresolvedDependencyReason := string.
Definition UnresolvedDependencyReasonProviderNotFound : UnresolvedDependencyReason :=
  "provider_not_found".
Definition UnresolvedDependencyReasonAmbiguousProvider : UnresolvedDependencyReason :=
  "ambiguous_provider".

(** ** Names ([module_name.go], [version.go]) *)

Definition ModuleName := string.
Definition Version := string.

(** The loop over the runes of the name returns at the first rune that is not
    allowed. *)
Definition module_name_char (ch : Z) : bool :=
  ((97 <=? ch) && (ch <=? 122)) || ((48 <=? ch) && (ch <=? 57)) || (ch =? 45) || (ch =? 95).

Definition NewModuleName (value : string) : result ModuleName :=
  let name := TrimSpace value in
  if (name =? "")%string then Err domain.ErrInvalidModuleName else
  if negb (forallb module_name_char (runes name)) then Err domain.ErrInvalidModuleName else
  Ok name.

Definition NewVersion (value : string) : result Version :=
  let version := TrimSpace value in
  if (version =? "")%string then Err domain.ErrInvalidVersion else Ok version.

(** ** Runtime inventory names ([runtime_inventory.go]) *)

Definition MaxRuntimeServiceNameLength : Z := 128.
Definition MaxRuntimeEnvironmentLength : Z := 64.
Definition MaxRuntimeGitCommitLength : Z := 128.
Definition MaxRuntimeBuildVersionLength : Z := 128.

Definition RuntimeServiceName := string.
Definition RuntimeEnvironment := string.

Definition isRuntimeNameChar (ch : Z) : bool :=
  ((97 <=? ch) && (ch <=? 122)) || ((65 <=? ch) && (ch <=? 90)) || ((48 <=? ch) && (ch <=? 57))
  || (ch =? 45) || (ch =? 95) || (ch =? 47) || (ch =? 46).

Definition NewRuntimeServiceName (value : string) : result RuntimeServiceName :=
  let name := TrimSpace value in
  if (name =? "")%string || (MaxRuntimeServiceNameLength <? len name)
  then Err domain.ErrInvalidRuntimeServiceName else
  if negb (forallb isRuntimeNameChar (runes name))
  then Err domain.ErrInvalidRuntimeServiceName else Ok name.

Definition NewRuntimeEnvironment (value : string) : result RuntimeEnvironment :=
  let environment := TrimSpace value in
  if (environment =? "")%string || (MaxRuntimeEnvironmentLength <? len environment)
  then Err domain.ErrInvalidRuntimeEnvironment else
  if negb (forallb isRuntimeNameChar (runes environment))
  then Err domain.ErrInvalidRuntimeEnvironment else Ok environment.

Definition tab : ascii := ascii_of_nat 9.
Definition newline : ascii := ascii_of_nat 10.
Definition carriage_return : ascii := ascii_of_nat 13.
Definition tab_newlines : string := String tab (String newline (String carriage_return "")).

Definition ValidateRuntimeGitCommit (value : string) : result unit :=
  let commit := TrimSpace value in
  guard_err ((commit =? "")%string || (MaxRuntimeGitCommitLength <? len commit)
             || ContainsAny commit (" " +:+ tab_newlines))
    domain.ErrInvalidRuntimeGitCommit.

Definition ValidateRuntimeBuildVersion (value : string) : result unit :=
  let version := TrimSpace value in
  guard_err ((version =? "")%string || (MaxRuntimeBuildVersionLength <? len version)
             || ContainsAny version tab_newlines)
    domain.ErrInvalidRuntimeBuildVersion.

(** ** Records *)

Record Module_ := mkModule {
  module_ID : ModuleID;
  module_Name : ModuleName;
  module_Description : string;
  module_RepositoryURL : string;
  module_CreatedAt : time;
  module_UpdatedAt : time }.

Record ModuleVersion := mkModuleVersion {
  version_ID : ModuleVersionID;
  version_ModuleID : ModuleID;
  version_Version : Version;
  version_Status : ModuleVersionStatus;
  version_Digest : string;
  version_CreatedAt : time;
  version_PublishedAt : option time;
  version_DeprecatedAt : option time;
  version_DeprecatedBy : string;
  version_DeprecationReason : string }.

Definition IsDeprecated (version : ModuleVersion) : bool :=
  bool_decide (version_DeprecatedAt version <> None).

Record Artifact := mkArtifact {
  artifact_ID : ArtifactID;
  artifact_ModuleVersionID : ModuleVersionID;
  artifact_Kind : ArtifactKind;
  artifact_StorageKey : string;
  artifact_ChecksumSHA256 : string;
  artifact_SizeBytes : Z;
  artifact_CreatedAt : time }.

Record APIToken := mkAPIToken {
  token_ID : APITokenID;
  token_Name : string;
  token_TokenHash : string;
  token_CreatedAt : time;
  token_LastUsedAt : option time;
  token_ExpiresAt : option time }.

(** [token.ExpiresAt != nil && !token.ExpiresAt.After(now)]. *)
Definition IsExpired (token : APIToken) (now : time) : bool :=
  match token_ExpiresAt token with
  | Some t => negb (now <? t)
  | None => false
  end.

Record BufConfigInfo := mkBufConfigInfo {
  buf_YAMLPresent : bool;
  buf_LockPresent : bool;
  buf_YAMLDigest : string;
  buf_LockDigest : string;
  buf_ModulePaths : list string;
  buf_Deps : list string;
  buf_LintEnabled : bool;
  buf_BreakingConfigPresent : bool }.

Record BufLintResult := mkBufLintResult {
  lint_Status : BufLintStatus;
  lint_Report : string }.

Record BreakingReport := mkBreakingReport {
  report_ID : BreakingReportID;
  report_ModuleID : ModuleID;
  report_ModuleName : ModuleName;
  report_BaseVersionID : ModuleVersionID;
  report_BaseVersion : Version;
  report_TargetRef : string;
  report_Status : BreakingReportStatus;
  report_ChangeCount : Z;
  report_RawOutput : string;
  report_HumanSummary : string;
  report_CreatedAt : time }.

Record BreakingChange := mkBreakingChange {
  change_ID : BreakingChangeID;
  change_ReportID : BreakingReportID;
  change_Category : string;
  change_FilePath : string;
  change_PackageName : string;
  change_Symbol : string;
  change_RuleID : string;
  change_Message : string;
  change_Severity : string;
  change_CreatedAt : time }.

(** *** [governance.go] *)

Record ModuleOwner := mkModuleOwner {
  owner_ID : ModuleOwnerID;
  owner_ModuleID : ModuleID;
  owner_ModuleName : ModuleName;
  owner_SubjectType : GovernanceSubjectType;
  owner_Subject : string;
  owner_Role : ModuleOwnerRole;
  owner_CreatedAt : time;
  owner_UpdatedAt : time }.

Definition ModuleOwner_Validate (owner : ModuleOwner) : result unit :=
  let? _ := guard_err (negb (GovernanceSubjectType_IsValid (owner_SubjectType owner)))
              domain.ErrInvalidGovernanceSubjectType in
  let? _ := guard_err (TrimSpace (owner_Subject owner) =? "")%string
              domain.ErrInvalidGovernanceSubject in
  guard_err (negb (ModuleOwnerRole_IsValid (owner_Role owner)))
    domain.ErrInvalidModuleOwnerRole.

Record ApprovalRequirement := mkApprovalRequirement {
  requirement_ID : ApprovalRequirementID;
  requirement_ApprovalRequestID : ApprovalRequestID;
  requirement_RequirementType : ApprovalRequirementType;
  requirement_TargetModuleID : option ModuleID;
  requirement_TargetModuleName : ModuleName;
  requirement_RequiredRole : ModuleOwnerRole;
  requirement_Status : ApprovalRequirementStatus;
  requirement_Reason : string;
  requirement_CreatedAt : time;
  requirement_UpdatedAt : time }.

Record ApprovalDecision := mkApprovalDecision {
  decision_ID : ApprovalDecisionID;
  decision_ApprovalRequestID : ApprovalRequestID;
  decision_RequirementID : ApprovalRequirementID;
  decision_Decision : ApprovalDecisionValue;
  decision_DecidedBy : string;
  decision_Comment : string;
  decision_CreatedAt : time }.

Definition ApprovalDecision_Validate (decision : ApprovalDecision) : result unit :=
  let? _ := guard_err (negb (ApprovalDecisionValue_IsValid (decision_Decision decision)))
              domain.ErrInvalidApprovalDecision in
  let? _ := guard_err (TrimSpace (decision_DecidedBy decision) =? "")%string
              domain.ErrInvalidApprovalActor in
  guard_err (MaxApprovalDecisionCommentLength <? len (decision_Comment decision))
    domain.ErrApprovalDecisionCommentTooLong.

Record ApprovalRequest := mkApprovalRequest {
  request_ID : ApprovalRequestID;
  request_ModuleID : ModuleID;
  request_ModuleName : ModuleName;
  request_BreakingReportID : option BreakingReportID;
  request_TargetRef : string;
  request_Status : ApprovalRequestStatus;
  request_RequiredApprovals : Z;
  request_ReceivedApprovals : Z;
  request_Requirements : list ApprovalRequirement;
  request_Decisions : list ApprovalDecision;
  request_CreatedAt : time;
  request_UpdatedAt : time }.

Record GovernanceAuditEvent := mkGovernanceAuditEvent {
  auditEvent_ID : GovernanceAuditEventID;
  auditEvent_EventType : GovernanceAuditEventType;
  auditEvent_Actor : string;
  auditEvent_ModuleID : option ModuleID;
  auditEvent_ModuleName : ModuleName;
  auditEvent_ApprovalRequestID : option ApprovalRequestID;
  auditEvent_BreakingReportID : option BreakingReportID;
  auditEvent_PayloadJSON : string;
  auditEvent_CreatedAt : time }.

(** *** [runtime_inventory.go] *)

Record RuntimeService := mkRuntimeService {
  service_ID : RuntimeServiceID;
  service_Name : RuntimeServiceName;
  service_CreatedAt : time;
  service_UpdatedAt : time }.

Record RuntimeDeployment := mkRuntimeDeployment {
  deployment_ID : RuntimeDeploymentID;
  deployment_ServiceID : RuntimeServiceID;
  deployment_ServiceName : RuntimeServiceName;
  deployment_Environment : RuntimeEnvironment;
  deployment_GitCommit : string;
  deployment_BuildVersion : string;
  deployment_ReportedAt : time;
  deployment_CreatedAt : time }.

Record RuntimeModuleUsage := mkRuntimeModuleUsage {
  usage_ID : RuntimeModuleUsageID;
  usage_DeploymentID : RuntimeDeploymentID;
  usage_ModuleID : option ModuleID;
  usage_ModuleName : ModuleName;
  usage_ModuleVersionID : option ModuleVersionID;
  usage_Version : Version;
  usage_LatestVersion : option Version;
  usage_DriftStatus : RuntimeDriftStatus;
  usage_DriftReason : string;
  usage_CreatedAt : time }.

Record RuntimeImpact := mkRuntimeImpact {
  impact_ServiceName : RuntimeServiceName;
  impact_Environment : RuntimeEnvironment;
  impact_UsedModule : ModuleName;
  impact_UsedVersion : Version;
  impact_GitCommit : string;
  impact_BuildVersion : string;
  impact_ReportedAt : time;
  impact_ImpactStatus : RuntimeImpactStatus;
  impact_Reason : string;
  impact_DriftStatus : RuntimeDriftStatus;
  impact_DriftReason : string }.

Record RuntimeServiceSummary := mkRuntimeServiceSummary {
  serviceSummary_Service : RuntimeService;
  serviceSummary_Environments : list RuntimeEnvironment;
  serviceSummary_EnvironmentCount : Z;
  serviceSummary_DeploymentCount : Z;
  serviceSummary_UpToDateCount : Z;
  serviceSummary_BehindLatestCount : Z;
  serviceSummary_UnknownVersionCount : Z;
  serviceSummary_DeprecatedCount : Z;
  serviceSummary_LatestReportedAt : option time }.

Record RuntimeServiceDetails := mkRuntimeServiceDetails {
  serviceDetails_Service : RuntimeService;
  serviceDetails_Deployments : list RuntimeDeployment;
  serviceDetails_Usages : list RuntimeModuleUsage }.

Record RuntimeEnvironmentInventory := mkRuntimeEnvironmentInventory {
  inventory_Environment : RuntimeEnvironment;
  inventory_Deployments : list RuntimeDeployment;
  inventory_Usages : list RuntimeModuleUsage }.

Record ModuleRuntimeUsage := mkModuleRuntimeUsage {
  moduleUsage_ServiceName : RuntimeServiceName;
  moduleUsage_Environment : RuntimeEnvironment;
  moduleUsage_DeploymentID : RuntimeDeploymentID;
  moduleUsage_ModuleName : ModuleName;
  moduleUsage_Version : Version;
  moduleUsage_GitCommit : string;
  moduleUsage_BuildVersion : string;
  moduleUsage_ReportedAt : time;
  moduleUsage_DriftStatus : RuntimeDriftStatus;
  moduleUsage_DriftReason : string }.

(** *** [dependency_graph.go] *)

Record ModuleDependency := mkModuleDependency {
  dependency_ID : ModuleDependencyID;
  dependency_ConsumerModuleID : ModuleID;
  dependency_ConsumerModuleName : ModuleName;
  dependency_ConsumerModuleVersionID : ModuleVersionID;
  dependency_ConsumerVersion : Version;
  dependency_ProviderModuleID : ModuleID;
  dependency_ProviderModuleName : ModuleName;
  dependency_ProviderModuleVersionID : ModuleVersionID;
  dependency_ProviderVersion : Version;
  dependency_Source : DependencySource;
  dependency_Reason : DependencyResolutionReason;
  dependency_ImportPath : string;
  dependency_ReferencedPackage : string;
  dependency_ReferencedSymbol : string;
  dependency_CreatedAt : time }.

Record UnresolvedProtoDependency := mkUnresolvedProtoDependency {
  unresolved_ID : UnresolvedProtoDependencyID;
  unresolved_ModuleID : ModuleID;
  unresolved_ModuleName : ModuleName;
  unresolved_ModuleVersionID : ModuleVersionID;
  unresolved_Version : Version;
  unresolved_Source : DependencySource;
  unresolved_ImportPath : string;
  unresolved_ReferencedPackage : string;
  unresolved_ReferencedSymbol : string;
  unresolved_Reason : UnresolvedDependencyReason;
  unresolved_CreatedAt : time }.

Record AffectedModule := mkAffectedModule {
  affected_ModuleName : ModuleName;
  affected_LatestVersion : Version;
  affected_DependencySources : list DependencySource;
  affected_Reasons : list DependencyResolutionReason }.

(** *** [module_gitlab_project.go] *)

Record ModuleGitLabProject := mkModuleGitLabProject {
  gitlab_ID : ModuleGitLabProjectID;
  gitlab_ModuleID : ModuleID;
  gitlab_ModuleName : ModuleName;
  gitlab_BaseURL : string;
  gitlab_ProjectID : Z;
  gitlab_ProjectPath : string;
  gitlab_CreatedAt : time;
  gitlab_UpdatedAt : time }.

(** What the program uses of [url.Parse]: the scheme and the host; [None] for an
    error. *)
Class NetURL := { url_Parse : string -> option (string * string) }.

Definition Normalized `{!NetURL} (mapping : ModuleGitLabProject) : result ModuleGitLabProject :=
  let? moduleName := NewModuleName (gitlab_ModuleName mapping) in
  let baseURL := TrimSpace (gitlab_BaseURL mapping) in
  match url_Parse baseURL with
  | None => Err domain.ErrInvalidGitLabBaseURL
  | Some (scheme, host) =>
      if (scheme =? "")%string || (host =? "")%string then Err domain.ErrInvalidGitLabBaseURL else
      if negb (scheme =? "http")%string && negb (scheme =? "https")%string then Err domain.ErrInvalidGitLabBaseURL else
      if gitlab_ProjectID mapping <=? 0 then Err domain.ErrInvalidGitLabProjectID else
      let projectPath := TrimSpace (gitlab_ProjectPath mapping) in
      if (projectPath =? "")%string || ContainsAny projectPath (" " +:+ tab_newlines)
      then Err domain.ErrInvalidGitLabProjectPath else
      Ok (mkModuleGitLabProject (gitlab_ID mapping) (gitlab_ModuleID mapping) moduleName (TrimRight baseURL "/")
            (gitlab_ProjectID mapping) projectPath (gitlab_CreatedAt mapping) (gitlab_UpdatedAt mapping))
  end.

(** *** [descriptor_metadata.go] *)

Record ProtoImport := mkProtoImport {
  import_Path : string;
  import_Public : bool;
  import_Weak : bool }.

Record ProtoMethod := mkProtoMethod {
  method_Name : string;
  method_InputType : string;
  method_OutputType : string;
  method_ClientStreaming : bool;
  method_ServerStreaming : bool }.

Record ProtoService := mkProtoService {
  protoService_Name : string;
  protoService_FullName : string;
  protoService_Methods : list ProtoMethod }.

Record ProtoField := mkProtoField {
  field_Name : string;
  field_Number : Z;
  field_Type : string;
  field_TypeName : string;
  field_Label : string;
  field_JSONName : string;
  field_OneofName : string;
  field_IsRepeated : bool;
  field_IsMap : bool }.

Record ProtoEnumValue := mkProtoEnumValue {
  enumValue_Name : string;
  enumValue_Number : Z }.

Record ProtoEnum := mkProtoEnum {
  enum_Name : string;
  enum_FullName : string;
  enum_Values : list ProtoEnumValue }.

Inductive ProtoMessage := mkProtoMessage {
  message_Name : string;
  message_FullName : string;
  message_Fields : list ProtoField;
  message_Messages : list ProtoMessage;
  message_Enums : list ProtoEnum }.

Record ProtoFile := mkProtoFile {
  file_Path : string;
  file_PackageName : string;
  file_Syntax : string;
  file_Imports : list ProtoImport;
  file_Services : list ProtoService;
  file_Messages : list ProtoMessage;
  file_Enums : list ProtoEnum }.

Record DescriptorMetadata := mkDescriptorMetadata {
  metadata_Files : list ProtoFile }.

Record DescriptorMetadataSummary := mkSummary {
  summary_FileCount : Z;
  summary_PackageCount : Z;
  summary_ImportCount : Z;
  summary_ServiceCount : Z;
  summary_MethodCount : Z;
  summary_MessageCount : Z;
  summary_FieldCount : Z;
  summary_EnumCount : Z;
  summary_EnumValueCount : Z }.

(** [len(l)]. *)
Definition llen {A} (l : list A) : Z := Z.of_nat (length l).

(** The counters are fields of a shared [*DescriptorMetadataSummary]; each
    function returns the updated summary. *)
Definition add_counts (s : DescriptorMetadataSummary)
    (files imports services methods messages fields enums values : Z) : DescriptorMetadataSummary :=
  mkSummary (summary_FileCount s + files) (summary_PackageCount s)
    (summary_ImportCount s + imports) (summary_ServiceCount s + services)
    (summary_MethodCount s + methods) (summary_MessageCount s + messages)
    (summary_FieldCount s + fields) (summary_EnumCount s + enums)
    (summary_EnumValueCount s + values).

Definition addEnumSummary (summary : DescriptorMetadataSummary) (enum : ProtoEnum) :=
  add_counts summary 0 0 0 0 0 0 1 (llen (enum_Values enum)).

Fixpoint addMessageSummary (summary : DescriptorMetadataSummary) (message : ProtoMessage) :=
  let summary := add_counts summary 0 0 0 0 1 (llen (message_Fields message)) 0 0 in
  let summary := fold_left (fun s nested => addMessageSummary s nested)
                   (message_Messages message) summary in
  fold_left addEnumSummary (message_Enums message) summary.

Definition addServiceSummary (summary : DescriptorMetadataSummary) (service : ProtoService) :=
  add_counts summary 0 0 1 (llen (protoService_Methods service)) 0 0 0 0.

(** One turn of the loop over the files; the set of package names is the other
    variable of the loop. *)
Definition summary_file (acc : DescriptorMetadataSummary * gset string) (file : ProtoFile) :=
  let '(summary, packages) := acc in
  let summary := add_counts summary 1 0 0 0 0 0 0 0 in
  let packages := if (file_PackageName file =? "")%string then packages
                  else {[file_PackageName file]} ∪ packages in
  let summary := add_counts summary 0 (llen (file_Imports file)) 0 0 0 0 0 0 in
  let summary := fold_left addServiceSummary (file_Services file) summary in
  let summary := fold_left addMessageSummary (file_Messages file) summary in
  let summary := fold_left addEnumSummary (file_Enums file) summary in
  (summary, packages).

Definition Summary (metadata : DescriptorMetadata) : DescriptorMetadataSummary :=
  let '(summary, packages) :=
    fold_left summary_file (metadata_Files metadata) (mkSummary 0 0 0 0 0 0 0 0 0, ∅) in
  mkSummary (summary_FileCount summary) (Z.of_nat (size packages))
    (summary_ImportCount summary) (summary_ServiceCount summary)
    (summary_MethodCount summary) (summary_MessageCount summary)
    (summary_FieldCount summary) (summary_EnumCount summary)
    (summary_EnumValueCount summary).

(** ** Induction over nested messages *)

Fixpoint message_size (m : ProtoMessage) : nat := S (list_sum (map message_size (message_Messages m))).

Lemma list_sum_elem {A} (f : A -> nat) x l : x ∈ l -> (f x <= list_sum (map f l))%nat.
Proof.
  induction l as [|y l IH]; [set_solver|]. intros [->|H]%elem_of_cons; cbn [map list_sum foldr]; [lia|].
  specialize (IH H). unfold list_sum in IH. lia.
Qed.

Lemma message_size_nested m n : n ∈ message_Messages m -> (message_size n < message_size m)%nat.
Proof.
  destruct m as [a b c ms e]. cbn [message_Messages message_size]. intros H.
  pose proof (list_sum_elem message_size n ms H). lia.
Qed.

Lemma message_ind' (P : ProtoMessage -> Prop) :
  (forall m, (forall n, n ∈ message_Messages m -> P n) -> P m) -> forall m, P m.
Proof.
  intros H m. remember (message_size m) as n eqn:E. revert m E.
  induction n as [n IH] using lt_wf_ind. intros m ->. apply H. intros x Hx.
  by eapply IH; [apply (message_size_nested m x Hx)|].
Qed.

(** ** Names: the theorems *)

(** A byte that a module name may hold. *)
Definition module_name_byte (a : ascii) : bool := module_name_char (byte a).
Definition runtime_name_byte (a : ascii) : bool := isRuntimeNameChar (byte a).

Lemma module_name_runes s :
  forallb module_name_char (runes s) = forallb_string module_name_byte s.
Proof. apply forallb_runes_bytes. unfold module_name_char. lia. Qed.

Lemma runtime_name_runes s :
  forallb isRuntimeNameChar (runes s) = forallb_string runtime_name_byte s.
Proof. apply forallb_runes_bytes. unfold isRuntimeNameChar. lia. Qed.

Lemma TrimSpace_module_name s : forallb_string module_name_byte s = true -> TrimSpace s = s.
Proof.
  intros H. apply TrimSpace_plain. revert H. apply forallb_string_impl.
  intros a. unfold module_name_byte, module_name_char, plain_byte. lia.
Qed.

Lemma TrimSpace_runtime_name s : forallb_string runtime_name_byte s = true -> TrimSpace s = s.
Proof.
  intros H. apply TrimSpace_plain. revert H. apply forallb_string_impl.
  intros a. unfold runtime_name_byte, isRuntimeNameChar, plain_byte. lia.
Qed.

Lemma NewModuleName_eq value :
  NewModuleName value =
  if (TrimSpace value =? "")%string || negb (forallb_string module_name_byte (TrimSpace value))
  then Err domain.ErrInvalidModuleName else Ok (TrimSpace value).
Proof. unfold NewModuleName. rewrite module_name_runes. by destruct (_ =? _)%string. Qed.

(** A stored name is read back as itself. *)
Lemma NewModuleName_fixed value n : NewModuleName value = Ok n -> NewModuleName n = Ok n.
Proof.
  rewrite NewModuleName_eq. destruct (_ || _) eqn:E; [done|]. intros [= <-].
  rewrite NewModuleName_eq, TrimSpace_idem, E. done.
Qed.

Lemma NewModuleName_byte_exact n :
  NewModuleName n = Ok n <-> n <> "" /\ forallb_string module_name_byte n = true.
Proof.
  rewrite NewModuleName_eq. split.
  - destruct (_ || _) eqn:E; [done|]. intros [= Hn]. rewrite Hn in E.
    apply orb_false_iff in E as [?%String.eqb_neq ?%negb_false_iff]. done.
  - intros [Hn%String.eqb_neq H]. rewrite TrimSpace_module_name by done.
    by rewrite H, Hn.
Qed.

Section NewEnum.
Context (valid : string -> bool) (e : error).

Lemma new_enum_Ok value v :
  new_enum valid e value = Ok v <-> v = TrimSpace value /\ valid (TrimSpace value) = true.
Proof. unfold new_enum. destruct (valid _); naive_solver. Qed.

Lemma new_enum_Err value e' :
  new_enum valid e value = Err e' <-> e' = e /\ valid (TrimSpace value) = false.
Proof. unfold new_enum. destruct (valid _); naive_solver. Qed.

Lemma new_enum_fixed value v : new_enum valid e value = Ok v -> new_enum valid e v = Ok v.
Proof. rewrite !new_enum_Ok. intros [-> H]. by rewrite TrimSpace_idem. Qed.
End NewEnum.

Lemma allowed_in_elem allowed v : allowed_in allowed v = true <-> v ∈ allowed.
Proof.
  unfold allowed_in. rewrite existsb_true. split.
  - intros (x & Hx & ->%String.eqb_eq). done.
  - intros H. exists v. by rewrite String.eqb_refl.
Qed.

(** ** Descriptor metadata: the reference definition of the counts *)

(** A message and all the messages nested in it, at any depth. *)
Fixpoint messages_within (m : ProtoMessage) : list ProtoMessage :=
  m :: flat_map messages_within (message_Messages m).

Definition file_all_messages (f : ProtoFile) : list ProtoMessage :=
  flat_map messages_within (file_Messages f).
Definition file_all_enums (f : ProtoFile) : list ProtoEnum :=
  flat_map message_Enums (file_all_messages f) ++ file_Enums f.

Definition all_services (m : DescriptorMetadata) := flat_map file_Services (metadata_Files m).
Definition all_messages (m : DescriptorMetadata) := flat_map file_all_messages (metadata_Files m).
Definition all_enums (m : DescriptorMetadata) := flat_map file_all_enums (metadata_Files m).
Definition all_packages (m : DescriptorMetadata) : gset string :=
  list_to_set (List.filter (fun p => negb (p =? "")%string) (map file_PackageName (metadata_Files m))).

Definition Summary_spec (m : DescriptorMetadata) : DescriptorMetadataSummary :=
  mkSummary
    (llen (metadata_Files m))
    (Z.of_nat (size (all_packages m)))
    (llen (flat_map file_Imports (metadata_Files m)))
    (llen (all_services m))
    (llen (flat_map protoService_Methods (all_services m)))
    (llen (all_messages m))
    (llen (flat_map message_Fields (all_messages m)))
    (llen (all_enums m))
    (llen (flat_map enum_Values (all_enums m))).

Lemma llen_app {A} (l k : list A) : llen (l ++ k) = llen l + llen k.
Proof. unfold llen. rewrite length_app. lia. Qed.
Lemma llen_cons {A} (x : A) l : llen (x :: l) = 1 + llen l.
Proof. unfold llen. simpl. lia. Qed.
Lemma llen_nil {A} : llen (@nil A) = 0.
Proof. done. Qed.
Lemma llen_flat_map_app {A B} (f : A -> list B) l k :
  llen (flat_map f (l ++ k)) = llen (flat_map f l) + llen (flat_map f k).
Proof. by rewrite flat_map_app, llen_app. Qed.
Lemma llen_nonneg {A} (l : list A) : 0 <= llen l.
Proof. unfold llen. lia. Qed.

Create Rewrite HintDb llen.
#[export] Hint Rewrite @llen_app @llen_cons @llen_nil @llen_flat_map_app : llen.

Lemma summary_ext s t :
  summary_FileCount s = summary_FileCount t -> summary_PackageCount s = summary_PackageCount t ->
  summary_ImportCount s = summary_ImportCount t -> summary_ServiceCount s = summary_ServiceCount t ->
  summary_MethodCount s = summary_MethodCount t -> summary_MessageCount s = summary_MessageCount t ->
  summary_FieldCount s = summary_FieldCount t -> summary_EnumCount s = summary_EnumCount t ->
  summary_EnumValueCount s = summary_EnumValueCount t -> s = t.
Proof. destruct s, t; simpl; intros; by subst. Qed.

(** Solve an equation between sums of counters. *)
Ltac counts :=
  apply summary_ext; simpl; autorewrite with llen; lia.

Lemma fold_enum_summary es s :
  fold_left addEnumSummary es s =
  add_counts s 0 0 0 0 0 0 (llen es) (llen (flat_map enum_Values es)).
Proof.
  revert s. induction es as [|e es IH]; intros s; simpl; [counts|].
  rewrite IH. counts.
Qed.

Lemma fold_service_summary ss s :
  fold_left addServiceSummary ss s =
  add_counts s 0 0 (llen ss) (llen (flat_map protoService_Methods ss)) 0 0 0 0.
Proof.
  revert s. induction ss as [|e ss IH]; intros s; simpl; [counts|].
  rewrite IH. counts.
Qed.

(** What a list of messages adds. *)
Definition add_messages (s : DescriptorMetadataSummary) (ms : list ProtoMessage) :=
  let es := flat_map message_Enums ms in
  add_counts s 0 0 0 0 (llen ms) (llen (flat_map message_Fields ms))
    (llen es) (llen (flat_map enum_Values es)).

Lemma add_messages_app s ms ks : add_messages (add_messages s ms) ks = add_messages s (ms ++ ks).
Proof. unfold add_messages. rewrite !flat_map_app. counts. Qed.

Lemma addMessageSummary_eq : forall m s, addMessageSummary s m = add_messages s (messages_within m).
Proof.
  fix IH 1. intros [nm fn fs ms es] s.
  assert (Hms : forall s0, fold_left (fun s nested => addMessageSummary s nested) ms s0
                          = add_messages s0 (flat_map messages_within ms)).
  { induction ms as [|x xs IHms]; intros s0; [unfold add_messages; simpl; counts|].
    simpl. by rewrite IH, IHms, add_messages_app. }
  cbn [addMessageSummary message_Messages message_Fields message_Enums messages_within].
  rewrite Hms, fold_enum_summary. unfold add_messages. simpl. counts.
Qed.

Lemma fold_message_summary ms s :
  fold_left addMessageSummary ms s = add_messages s (flat_map messages_within ms).
Proof.
  revert s. induction ms as [|m ms IH]; intros s; simpl; [unfold add_messages; simpl; counts|].
  by rewrite addMessageSummary_eq, IH, add_messages_app.
Qed.

Lemma flat_map_flat_map {A B C} (f : A -> list B) (g : B -> list C) l :
  flat_map g (flat_map f l) = flat_map (fun x => flat_map g (f x)) l.
Proof. induction l as [|x l IH]; simpl; [done|]. by rewrite flat_map_app, IH. Qed.

Lemma fold_summary_file fs s p :
  fold_left summary_file fs (s, p) =
  (let sp := Summary_spec (mkDescriptorMetadata fs) in
   add_counts s (summary_FileCount sp) (summary_ImportCount sp) (summary_ServiceCount sp)
     (summary_MethodCount sp) (summary_MessageCount sp) (summary_FieldCount sp)
     (summary_EnumCount sp) (summary_EnumValueCount sp),
   all_packages (mkDescriptorMetadata fs) ∪ p).
Proof.
  revert s p. induction fs as [|f fs IH]; intros s p.
  - simpl. f_equal; [counts|]. unfold all_packages. simpl. set_solver.
  - cbn [fold_left]. unfold summary_file at 2.
    rewrite fold_enum_summary, fold_message_summary, fold_service_summary, IH.
    f_equal.
    + unfold add_messages, all_services, all_messages, all_enums, file_all_enums.
      apply summary_ext; simpl; autorewrite with llen; unfold all_services, all_messages,
        all_enums, file_all_enums, file_all_messages; simpl; autorewrite with llen; lia.
    + unfold all_packages. simpl. destruct (_ =? _)%string; simpl; set_solver.
Qed.

(** The summary of a descriptor counts every file, distinct package, import,
    service, method, message at any depth of nesting, field, enum and enum value
    exactly once. *)
Theorem Summary_correct (metadata : DescriptorMetadata) : Summary metadata = Summary_spec metadata.
Proof.
  destruct metadata as [fs]. unfold Summary. rewrite fold_summary_file. cbn zeta.
  apply summary_ext; simpl; try lia. by rewrite union_empty_r_L.
Qed.
