(* ===== verification/Json.v ===== *)
(** * JSON and timestamps

    What the program uses of [encoding/json] and [time]: [json.Marshal] of
    strings, integers, booleans, times, raw messages, slices and structs, and the text of a
    time in RFC 3339 with nanoseconds.  Fields of a struct are written in their
    order; HTML characters are escaped, as [json.Marshal] does. *)

From S2P Require Import Prelude Errors GoStrings JsonScan Domain.
From stdpp Require Import pretty.

Open Scope string_scope.
Open Scope Z_scope.

(** Decimal text of an integer. *)
Definition itoa (z : Z) : string := pretty z.

(** ** Times *)

Definition nanos_per_day : Z := 86400 * 1000000000.

Definition leap_year (y : Z) : bool :=
  (y mod 4 =? 0) && (negb (y mod 100 =? 0) || (y mod 400 =? 0)).

Definition month_days (y : Z) : list Z :=
  [31; if leap_year y then 29 else 28; 31; 30; 31; 30; 31; 31; 30; 31; 30; 31].

(** The month and the day of a day of the year. *)
Fixpoint month_of (months : list Z) (month yday : Z) : Z * Z :=
  match months with
  | [] => (month, yday + 1)
  | n :: months' => if yday <? n then (month, yday + 1) else month_of months' (month + 1) (yday - n)
  end.

(** The date of the day [d] after the first of January of the year 1. *)
Definition civil (d : Z) : Z * Z * Z :=
  let n400 := d / 146097 in let d := d - n400 * 146097 in
  let n100 := Z.min 3 (d / 36524) in let d := d - n100 * 36524 in
  let n4 := d / 1461 in let d := d - n4 * 1461 in
  let n1 := Z.min 3 (d / 365) in let d := d - n1 * 365 in
  let year := 400 * n400 + 100 * n100 + 4 * n4 + n1 + 1 in
  let '(month, day) := month_of (month_days year) 1 d in
  (year, month, day).

(** Decimal text on [n] digits. *)
Fixpoint digits (n : nat) (z : Z) : string :=
  match n with
  | O => ""
  | S n' => digits n' (z / 10) +:+ String (byte_char (48 + z mod 10)) ""
  end.

Definition fraction (nanos : Z) : string :=
  if nanos =? 0 then "" else "." +:+ trim_right_byte "0"%char (digits 9 nanos).

(** [time.RFC3339Nano] in UTC; [MarshalJSON] refuses years after 9999. *)
Definition format_time (t : time) : result string :=
  let '(year, month, day) := civil (t / nanos_per_day) in
  let secs := (t mod nanos_per_day) / 1000000000 in
  let nanos := t mod 1000000000 in
  if (year <? 0) || (9999 <? year)
  then Err (EText "Time.MarshalJSON: year outside of range [0,9999]") else
  Ok (digits 4 year +:+ "-" +:+ digits 2 month +:+ "-" +:+ digits 2 day +:+ "T" +:+
      digits 2 (secs / 3600) +:+ ":" +:+ digits 2 ((secs / 60) mod 60) +:+ ":" +:+
      digits 2 (secs mod 60) +:+ fraction nanos +:+ "Z").

(** ** Strings *)

Definition esc (c : ascii) : string := String backslash (String c "").

Definition hex_char (z : Z) : ascii := if z <? 10 then byte_char (48 + z) else byte_char (87 + z).
Definition unicode_escape (b : Z) : string :=
  String backslash (String "u" (String "0" (String "0"
    (String (hex_char (b / 16)) (String (hex_char (b mod 16)) ""))))).
Definition replacement_escape : string := String backslash "ufffd".

(** The text of an ASCII character in a JSON string. *)
Definition escape_ascii (a : ascii) : string :=
  let b := byte a in
  if (b =? 34) || (b =? 92) then esc a else
  if b =? 8 then esc "b" else if b =? 12 then esc "f" else if b =? 10 then esc "n" else
  if b =? 13 then esc "r" else if b =? 9 then esc "t" else
  if (b <? 32) || (b =? 60) || (b =? 62) || (b =? 38) then unicode_escape b else
  String a "".

(** U+2028 and U+2029 are escaped, bytes that are not UTF-8 replaced. *)
Fixpoint escape (s : string) : string :=
  match s with
  | "" => ""
  | String a s1 =>
      if byte a <? 128 then escape_ascii a +:+ escape s1 else
      match s1 with
      | "" => replacement_escape
      | String b s2 =>
          if is2 a b then String a (String b (escape s2)) else
          match s2 with
          | "" => replacement_escape +:+ escape s1
          | String c s3 =>
              if is3 a b c then
                (if (byte a =? 226) && (byte b =? 128) && ((byte c =? 168) || (byte c =? 169))
                 then (if byte c =? 168 then String backslash "u2028" else String backslash "u2029")
                 else String a (String b (String c ""))) +:+ escape s3
              else
              match s3 with
              | "" => replacement_escape +:+ escape s1
              | String d s4 =>
                  if is4 a b c d then String a (String b (String c (String d (escape s4))))
                  else replacement_escape +:+ escape s1
              end
          end
      end
  end.

Definition quote (s : string) : string :=
  String quote_char (escape s) +:+ String quote_char "".

(** ** Values *)

Inductive json :=
| JString (s : string)
| JInt (z : Z)
| JBool (b : bool)
| JTime (t : time)
| JRaw (text : string)
| JArray (l : list json)
| JObject (fields : list (string * json)).

Fixpoint Marshal (v : json) : result string :=
  match v with
  | JString s => Ok (quote s)
  | JInt z => Ok (itoa z)
  | JBool b => Ok (if b then "true" else "false")
  | JTime t => let? text := format_time t in Ok (quote text)
  | JRaw text =>
      match Compact text with
      | Some compacted => Ok compacted
      | None => Err (EText "json: error calling MarshalJSON for type json.RawMessage")
      end
  | JArray l =>
      let? items := (fix all (l : list json) : result (list string) :=
        match l with
        | [] => Ok []
        | x :: l' => let? y := Marshal x in let? ys := all l' in Ok (y :: ys)
        end) l in
      Ok ("[" +:+ strings_Join "," items +:+ "]")
  | JObject fields =>
      let? items := (fix all (l : list (string * json)) : result (list string) :=
        match l with
        | [] => Ok []
        | (name, x) :: l' =>
            let? y := Marshal x in let? ys := all l' in Ok ((quote name +:+ ":" +:+ y) :: ys)
        end) fields in
      Ok ("{" +:+ strings_Join "," items +:+ "}")
  end.

(** A string field with [omitempty]. *)
Definition omitempty (name value : string) : list (string * json) :=
  if (value =? "")%string then [] else [(name, JString value)].

(** The fifth of June 2026 at noon. *)
Definition example_time : time := (739771 * 86400 + 43200) * 1000000000.

Example format_time_example :
  format_time (example_time + 120000000) = Ok "2026-06-05T12:00:00.12Z"
  /\ format_time 0 = Ok "0001-01-01T00:00:00Z".
Proof. by vm_compute. Qed.

Example Marshal_example :
  Marshal (JObject [("a", JString "x<y"); ("n", JInt (-12)); ("l", JArray [JBool true; JTime 0])])
  = Ok ("{" +:+ quote "a" +:+ ":" +:+ quote "x<y" +:+ "," +:+ quote "n" +:+ ":-12," +:+ quote "l"
        +:+ ":[true," +:+ quote "0001-01-01T00:00:00Z" +:+ "]}").
Proof. by vm_compute. Qed.

(** ** The length of a text *)

Lemma length_escape_ascii a : (String.length (escape_ascii a) <= 6)%nat.
Proof.
  unfold escape_ascii, esc, unicode_escape.
  repeat match goal with |- context [if ?b then _ else _] => destruct b end; simpl; lia.
Qed.

(** A byte takes at most six. *)
Lemma length_escape : forall s, (String.length (escape s) <= 6 * String.length s)%nat.
Proof.
  fix IH 1. intros [|a s1]; [simpl; lia|]. cbn [escape].
  pose proof (length_escape_ascii a) as Ha. pose proof (IH s1) as H1.
  destruct (byte a <? 128); [rewrite length_string_app; cbn [String.length]; lia|].
  destruct s1 as [|b s2]; [cbn; lia|].
  destruct (is2 a b); [pose proof (IH s2); cbn [String.length] in *; lia|].
  assert (Hr : forall t, String.length (replacement_escape +:+ t) = (6 + String.length t)%nat)
    by (intros t; by rewrite length_string_app).
  destruct s2 as [|c s3]; [rewrite Hr; cbn [String.length] in *; lia|].
  destruct (is3 a b c).
  - rewrite length_string_app. pose proof (IH s3).
    destruct (_ && _); [destruct (byte c =? 168)|]; cbn [String.length] in *; lia.
  - destruct s3 as [|d s4]; [rewrite Hr; cbn [String.length] in *; lia|].
    destruct (is4 a b c d); [pose proof (IH s4)|rewrite Hr]; cbn [String.length] in *; lia.
Qed.

Lemma len_quote s : len (quote s) <= 6 * len s + 2.
Proof.
  unfold quote, len. pose proof (length_escape s).
  rewrite length_string_app. cbn [String.length]. lia.
Qed.
