(* ===== verification/Effects.v ===== *)
(** * Effectful code

    The code runs against a state it shares with the rest of the world (the
    database, the object store, the clock) and may fail.  An effectful function
    is a state transformer that returns a [result]; the state reached before an
    error stays, as in Go.  The state type is a parameter: each component is
    written against the part of the state it uses, and [zoom] runs it inside a
    larger one. *)

From S2P Require Import Prelude Errors.

Definition M (S A : Type) : Type := S -> result A * S.

Definition ret {S A} (a : A) : M S A := fun s => (Ok a, s).
Definition fail {S A} (e : error) : M S A := fun s => (Err e, s).
Definition lift {S A} (r : result A) : M S A := fun s => (r, s).

Definition bind {S A B} (m : M S A) (k : A -> M S B) : M S B :=
  fun s => match m s with
           | (Ok a, s') => k a s'
           | (Err e, s') => (Err e, s')
           end.

(** [x, err := m; if err != nil { return zero, err }; k]. *)
Notation "'let!' x ':=' m 'in' k" := (bind m (fun x => k))
  (at level 10, x pattern, m at level 100, k at level 200) : go_scope.

(** [x, err := m], with both values in scope. *)
Definition try {S A} (m : M S A) : M S (result A) :=
  fun s => let '(r, s') := m s in (Ok r, s').

(** [x, err := m; if err != nil { return zero, f(err) }]. *)
Definition map_err {S A} (f : error -> error) (m : M S A) : M S A :=
  fun s => let '(r, s') := m s in
           (match r with Ok a => Ok a | Err e => Err (f e) end, s').

(** [if cond { return zero, err }]. *)
Definition guardM {S} (cond : bool) (e : error) : M S unit :=
  if cond then fail e else ret tt.

Definition gets {S A} (f : S -> A) : M S A := fun s => (Ok (f s), s).
Definition modify {S} (f : S -> S) : M S unit := fun s => (Ok tt, f s).

(** [for _, x := range l { if err := body(x); err != nil { return err } }]. *)
Fixpoint forM {S A} (l : list A) (body : A -> M S unit) : M S unit :=
  match l with
  | [] => ret tt
  | x :: l' => let! _ := body x in forM l' body
  end.

(** The same with a result per element. *)
Fixpoint mapM {S A B} (f : A -> M S B) (l : list A) : M S (list B) :=
  match l with
  | [] => ret []
  | x :: l' => let! y := f x in let! ys := mapM f l' in ret (y :: ys)
  end.

(** Running inside a larger state. *)
Definition zoom {S T A} (get : T -> S) (set : S -> T -> T) (m : M S A) : M T A :=
  fun t => let '(r, s) := m (get t) in (r, set s t).

(** ** Laws *)

Lemma bind_ret_l {S A B} (a : A) (k : A -> M S B) s : bind (ret a) k s = k a s.
Proof. done. Qed.

Lemma bind_assoc {S A B C} (m : M S A) (k : A -> M S B) (h : B -> M S C) s :
  bind (bind m k) h s = bind m (fun a => bind (k a) h) s.
Proof. unfold bind. by destruct (m s) as [[a|e] s']. Qed.

Lemma bind_ext {S A B} (m : M S A) (k h : A -> M S B) s :
  (forall a s', k a s' = h a s') -> bind m k s = bind m h s.
Proof. intros H. unfold bind. destruct (m s) as [[a|e] s']; [apply H|done]. Qed.

Lemma bind_cong {S A B} (m m' : M S A) (k h : A -> M S B) s :
  m s = m' s -> (forall a s', k a s' = h a s') -> bind m k s = bind m' h s.
Proof. intros Hm Hk. unfold bind. rewrite Hm. destruct (m' s) as [[a|e] s']; [apply Hk|done]. Qed.

Lemma bind_Ok {S A B} (m : M S A) (k : A -> M S B) s b s' :
  bind m k s = (Ok b, s') <-> exists a s1, m s = (Ok a, s1) /\ k a s1 = (Ok b, s').
Proof. unfold bind. destruct (m s) as [[a|e] s1]; naive_solver. Qed.

Lemma bind_Err {S A B} (m : M S A) (k : A -> M S B) s e s' :
  bind m k s = (Err e, s') <->
  m s = (Err e, s') \/ exists a s1, m s = (Ok a, s1) /\ k a s1 = (Err e, s').
Proof. unfold bind. destruct (m s) as [[a|e'] s1]; naive_solver. Qed.

(** One step of a run, whatever it returns. *)
Lemma bind_run {S A B} (m : M S A) (k : A -> M S B) s r s' :
  bind m k s = (r, s') ->
  exists r1 s1, m s = (r1, s1)
    /\ match r1 with Ok a => k a s1 = (r, s') | Err e => r = Err e /\ s' = s1 end.
Proof. unfold bind. destruct (m s) as [[a|e] s1]; [eauto|intros [= <- <-]; by eexists _, _]. Qed.

Lemma guardM_Ok {S} b e (s s' : S) u : guardM b e s = (Ok u, s') <-> b = false /\ s' = s.
Proof. destruct b, u; unfold guardM, fail, ret; naive_solver. Qed.

Lemma guardM_Err {S} b e (s s' : S) e' :
  guardM b e s = (Err e', s') <-> b = true /\ e' = e /\ s' = s.
Proof. destruct b; unfold guardM, fail, ret; naive_solver. Qed.

Lemma map_err_Ok {S A} f (m : M S A) s a s' : map_err f m s = (Ok a, s') <-> m s = (Ok a, s').
Proof. unfold map_err. destruct (m s) as [[]]; naive_solver. Qed.

Lemma map_err_Err {S A} f (m : M S A) s e s' :
  map_err f m s = (Err e, s') <-> exists e0, e = f e0 /\ m s = (Err e0, s').
Proof. unfold map_err. destruct (m s) as [[]]; naive_solver. Qed.

Lemma ret_Ok {S A} (a b : A) (s s' : S) : ret a s = (Ok b, s') <-> b = a /\ s' = s.
Proof. unfold ret. naive_solver. Qed.
Lemma fail_Ok {S A} e (s s' : S) (b : A) : fail e s = (Ok b, s') <-> False.
Proof. unfold fail. naive_solver. Qed.
Lemma lift_Ok {S A} (r : result A) (s s' : S) b : lift r s = (Ok b, s') <-> r = Ok b /\ s' = s.
Proof. unfold lift. naive_solver. Qed.
Lemma gets_Ok {S A} (f : S -> A) (s s' : S) b : gets f s = (Ok b, s') <-> b = f s /\ s' = s.
Proof. unfold gets. naive_solver. Qed.
Lemma modify_Ok {S} (f : S -> S) (s s' : S) u : modify f s = (Ok u, s') <-> s' = f s.
Proof. unfold modify. destruct u. naive_solver. Qed.
Lemma try_Ok_inv {S A} (m : M S A) s r s' : try m s = (Ok r, s') -> m s = (r, s').
Proof. unfold try. destruct (m s). naive_solver. Qed.

Lemma bind_try {S A B} (m : M S A) (k : result A -> M S B) s :
  bind (try m) k s = let '(r, s') := m s in k r s'.
Proof. unfold bind, try. by destruct (m s). Qed.

(** Invert one step of a run that succeeded. *)
Ltac mstep :=
  match goal with
  | H : bind ?m ?k ?s = (Ok ?b, ?s') |- _ =>
      let a := fresh "a" in let s1 := fresh "s" in let Hm := fresh "Hm" in
      apply bind_Ok in H as (a & s1 & Hm & H)
  | H : map_err _ _ _ = (Ok _, _) |- _ => apply map_err_Ok in H
  | H : guardM _ _ _ = (Ok _, _) |- _ => apply guardM_Ok in H as [? ?]
  | H : lift _ _ = (Ok _, _) |- _ => apply lift_Ok in H as [? ?]
  | H : ret _ _ = (Ok _, _) |- _ => apply ret_Ok in H as [? ?]
  | H : fail _ _ = (Ok _, _) |- _ => apply fail_Ok in H as []
  | H : gets _ _ = (Ok _, _) |- _ => apply gets_Ok in H as [? ?]
  | H : modify _ _ = (Ok _, _) |- _ => apply modify_Ok in H
  | H : try _ _ = (Ok _, _) |- _ => apply try_Ok_inv in H
  | H : (if ?b then _ else _) _ = (Ok _, _) |- _ => let E := fresh "E" in destruct b eqn:E
  | H : (let '_ := ?x in _) _ = (Ok _, _) |- _ => destruct x
  end; subst.
Ltac minv := repeat mstep.

(** ** What a computation does to the state, whatever it returns

    [preserves R m]: the state after [m] is related by [R] to the one before.
    With a preorder [R], the rules below reduce a whole function to its
    primitive steps. *)

Definition preserves {S A} (R : relation S) (m : M S A) : Prop := forall s, R s (m s).2.

Section Preserves.
Context {S : Type} (R : relation S) `{PO : !PreOrder R}.

Lemma preserves_ret {A} (a : A) : preserves R (ret a).
Proof. intros s. simpl. reflexivity. Qed.
Lemma preserves_fail {A} e : preserves R (@fail S A e).
Proof. intros s. simpl. reflexivity. Qed.
Lemma preserves_lift {A} (r : result A) : preserves R (lift r).
Proof. intros s. simpl. reflexivity. Qed.
Lemma preserves_gets {A} (f : S -> A) : preserves R (gets f).
Proof. intros s. simpl. reflexivity. Qed.
Lemma preserves_guardM b e : preserves R (guardM b e).
Proof. destruct b; [apply preserves_fail|apply preserves_ret]. Qed.

Lemma preserves_bind {A B} (m : M S A) (k : A -> M S B) :
  preserves R m -> (forall a, preserves R (k a)) -> preserves R (bind m k).
Proof.
  intros Hm Hk s. unfold bind. specialize (Hm s). destruct (m s) as [[a|e] s']; [|done].
  simpl in Hm. etrans; [exact Hm|apply Hk].
Qed.

Lemma preserves_try {A} (m : M S A) : preserves R m -> preserves R (try m).
Proof. intros Hm s. specialize (Hm s). unfold try. by destruct (m s). Qed.

Lemma preserves_map_err {A} f (m : M S A) : preserves R m -> preserves R (map_err f m).
Proof. intros Hm s. specialize (Hm s). unfold map_err. by destruct (m s) as [[]]. Qed.

Lemma preserves_forM {A} (l : list A) body :
  (forall x, x ∈ l -> preserves R (body x)) -> preserves R (forM l body).
Proof.
  induction l as [|x l IH]; intros H; simpl; [apply preserves_ret|].
  apply preserves_bind; [apply H; set_solver|]. intros _. apply IH. set_solver.
Qed.

Lemma preserves_mapM {A B} (f : A -> M S B) (l : list A) :
  (forall x, x ∈ l -> preserves R (f x)) -> preserves R (mapM f l).
Proof.
  induction l as [|x l IH]; intros H; simpl; [apply preserves_ret|].
  apply preserves_bind; [apply H; set_solver|]. intros y.
  apply preserves_bind; [apply IH; set_solver|]. intros ys. apply preserves_ret.
Qed.

Lemma preserves_if {A} (b : bool) (m1 m2 : M S A) :
  preserves R m1 -> preserves R m2 -> preserves R (if b then m1 else m2).
Proof. by destruct b. Qed.
End Preserves.

(** Reduce a [preserves] goal to the primitive steps of the function. *)
Ltac preserve_class := try typeclasses eauto.
Ltac preserve_step :=
  first
    [ apply preserves_ret; preserve_class | apply preserves_fail; preserve_class
    | apply preserves_lift; preserve_class | apply preserves_gets; preserve_class
    | apply preserves_guardM; preserve_class
    | apply preserves_bind; preserve_class; [|intros ?]
    | apply preserves_try; preserve_class | apply preserves_map_err; preserve_class
    | apply preserves_if
    | match goal with
      | |- preserves _ (match ?x with _ => _ end) => destruct x
      | |- preserves _ (let '_ := ?x in _) => destruct x
      end ].
Ltac preserve := repeat first [solve [auto with go]|preserve_step]; eauto with go.

(** ** What a computation returns

    [triple P m Q]: from a state of [P], [m] ends with a result and a state of
    [Q].  Functions here are total, so the triple includes termination. *)

Definition triple {S A} (P : S -> Prop) (m : M S A) (Q : result A -> S -> Prop) : Prop :=
  forall s, P s -> Q (m s).1 (m s).2.

(** The postcondition of a step that must succeed for the rest to run. *)
Definition on_ok {S A} (Q : A -> S -> Prop) (E : error -> S -> Prop) (r : result A) (s : S) : Prop :=
  match r with Ok a => Q a s | Err e => E e s end.

Lemma triple_bind {S A B} P (m : M S A) (k : A -> M S B) (Q : A -> S -> Prop) (F : B -> S -> Prop) E :
  triple P m (on_ok Q E) -> (forall a, triple (Q a) (k a) (on_ok F E)) ->
  triple P (bind m k) (on_ok F E).
Proof.
  intros Hm Hk s HP. specialize (Hm s HP). unfold bind.
  destruct (m s) as [[a|e] s']; simpl in *; [by apply Hk|done].
Qed.

Lemma triple_conseq {S A} (P P' : S -> Prop) (m : M S A) (Q Q' : result A -> S -> Prop) :
  triple P' m Q' -> (forall s, P s -> P' s) -> (forall r s, Q' r s -> Q r s) -> triple P m Q.
Proof. unfold triple. eauto. Qed.
