(* ===== verification/Postgres.v ===== *)
(** * The database access layer

    [repository/postgres/db.go]: the translation of driver errors.  A statement
    of a repository is a computation on the tables it names; the parameters
    below are what the code relies on of the database server. *)

From S2P Require Import Prelude Errors GoStrings Effects.

Open Scope string_scope.
Open Scope Z_scope.

(** ** The server

    A [uuid] column accepts several spellings of an identifier and returns the
    canonical one. *)

Definition hex_digit (a : ascii) : bool :=
  ((48 <=? byte a) && (byte a <=? 57)) || ((97 <=? byte a) && (byte a <=? 102)).
(** Lower case hexadecimal digits and dashes. *)
Definition uuid_byte (a : ascii) : bool := hex_digit a || (byte a =? 45).

Class Postgres := {
  uuid_canon : string -> option string;
  uuid_canon_idem s c : uuid_canon s = Some c -> uuid_canon c = Some c;
  uuid_canon_empty : uuid_canon "" = None;
  uuid_canon_bytes s c : uuid_canon s = Some c -> forallb_string uuid_byte c = true;
  (** The order of text, which depends on the collation of the database. *)
  pg_text_le : string -> string -> bool;
  (** The n-th value of [gen_random_uuid()]. *)
  gen_random_uuid : nat -> string;
  gen_random_uuid_inj : Inj (=) (=) gen_random_uuid;
  gen_random_uuid_canon n : uuid_canon (gen_random_uuid n) = Some (gen_random_uuid n) }.
#[export] Existing Instance gen_random_uuid_inj.

(** A collation orders all texts. *)
Class Collation `{!Postgres} := {
  pg_text_total s t : pg_text_le s t = false -> pg_text_le t s = true;
  pg_text_trans s t u : pg_text_le s t = true -> pg_text_le t u = true -> pg_text_le s u = true }.
#[global] Hint Mode Collation - : typeclass_instances.

(** ** Sessions

    A repository runs its statements on the tables [T] of the state [S] of the
    program.  A statement runs, or its connection fails: then the error says
    nothing of whether the server applied it, and only inside a transaction,
    which the failure ends, is it known that it will not stay. *)

Class Session (S T : Type) := {
  view : S -> T;
  exec : forall {A}, M T A -> M S A;
  exec_spec {A} (m : M T A) (s : S) :
    ((exec m s).1 = (m (view s)).1 /\ view (exec m s).2 = (m (view s)).2)
    \/ (exists e, (exec m s).1 = Err e
        /\ (view (exec m s).2 = view s \/ view (exec m s).2 = (m (view s)).2)) }.

(** The session of a program that is alone with its tables. *)
Instance direct_session (T : Type) : Session T T.
Proof.
  refine {| view := fun t => t; exec := fun A (m : M T A) => m |}. by left.
Defined.

Definition invalid_uuid : error := EDriver (PgError "22P02" "").
Definition invalid_text : error := EDriver (PgError "22021" "").

(** A [text] parameter must be valid UTF-8 without NUL. *)
Definition pg_text (s : string) : bool :=
  valid_utf8 s && forallb_string (fun a => negb (byte a =? 0)) s.

(** The parameters of a statement are converted before it runs. *)
Definition uuid_param `{!Postgres} {S} (id : string) : M S string :=
  match uuid_canon id with Some c => ret c | None => fail invalid_uuid end.
Definition text_params {S} (ts : list string) : M S unit :=
  guardM (negb (forallb pg_text ts)) invalid_text.

Lemma uuid_param_Ok `{!Postgres} {S} id (s : S) c s' :
  uuid_param id s = (Ok c, s') <-> uuid_canon id = Some c /\ s' = s.
Proof. unfold uuid_param. destruct (uuid_canon id); unfold ret, fail; naive_solver. Qed.

(** ** [mapError] *)

Definition uniqueViolationCode : string := "23505".
Definition checkViolationCode : string := "23514".
Definition foreignKeyViolationCode : string := "23503".

Definition unique_violation (constraint : string) : error :=
  EDriver (PgError uniqueViolationCode constraint).
Definition check_violation (constraint : string) : error :=
  EDriver (PgError checkViolationCode constraint).
Definition foreign_key_violation (constraint : string) : error :=
  EDriver (PgError foreignKeyViolationCode constraint).

(** [errors.As(err, &pgErr)]. *)
Fixpoint errors_As_pgError (err : error) : option (string * string) :=
  match err with
  | EDriver (PgError code constraint) => Some (code, constraint)
  | EWrap e1 e2 | EJoin e1 e2 =>
      match errors_As_pgError e1 with Some p => Some p | None => errors_As_pgError e2 end
  | _ => None
  end.

Definition mapCheckViolation (constraintName : string) : option error :=
  if (constraintName =? "module_owners_subject_type_check")%string
  then Some (domain.ErrInvalidGovernanceSubjectType : error) else
  if (constraintName =? "module_owners_role_check")%string
  then Some (domain.ErrInvalidModuleOwnerRole : error) else
  if (constraintName =? "approval_requests_status_check")%string
  then Some (domain.ErrInvalidApprovalRequestStatus : error) else
  if (constraintName =? "approval_requirements_type_check")%string
  then Some (domain.ErrInvalidApprovalRequirementType : error) else
  if (constraintName =? "approval_requirements_status_check")%string
  then Some (domain.ErrInvalidApprovalRequirementStatus : error) else
  if (constraintName =? "approval_decisions_decision_check")%string
  then Some (domain.ErrInvalidApprovalDecision : error) else
  if (constraintName =? "governance_audit_events_type_check")%string
  then Some (domain.ErrInvalidGovernanceAuditEventType : error) else
  None.

Definition mapError (err : error) : error :=
  if errors_Is err (EDriver ErrNoRows) then domain.ErrNotFound else
  match errors_As_pgError err with
  | Some (code, constraint) =>
      if (code =? uniqueViolationCode)%string then domain.ErrDuplicate else
      if (code =? checkViolationCode)%string
      then match mapCheckViolation constraint with Some e => e | None => err end
      else err
  | None => err
  end.

Lemma mapError_unique c : mapError (unique_violation c) = domain.ErrDuplicate.
Proof. done. Qed.
Lemma mapError_no_rows : mapError (EDriver ErrNoRows) = domain.ErrNotFound.
Proof. done. Qed.

#[export] Hint Rewrite mapError_unique mapError_no_rows : go_rw.

(** ** Rows *)

(** [QueryRow(...).Scan(...)] of the first row a query returns. *)
Definition query_row {T A} (rows : T -> list A) : M T A := fun t =>
  match rows t with
  | x :: _ => (Ok x, t)
  | [] => (Err (EDriver ErrNoRows), t)
  end.

Lemma query_row_Ok {T A} (rows : T -> list A) t a t' :
  query_row rows t = (Ok a, t') <-> head (rows t) = Some a /\ t' = t.
Proof. unfold query_row. destruct (rows t); naive_solver. Qed.

(** The bounds of a page must not be negative. *)
Definition page_params {S} (limit offset : Z) : M S unit :=
  let! _ := guardM (limit <? 0) (EDriver (PgError "2201W" "")) in
  guardM (offset <? 0) (EDriver (PgError "2201X" "")).

(** [LIMIT l OFFSET o]. *)
Definition limit_offset {A} (l o : Z) (rows : list A) : list A :=
  firstn (Z.to_nat l) (skipn (Z.to_nat o) rows).

(** ** Invariants of the tables

    [keeping P s s']: if the tables of [s] satisfy [P], so do those of [s']. *)

Section Keeping.
Context {S T : Type} `{!Session S T} (P : T -> Prop).

Definition keeping : relation S := fun s s' => P (view s) -> P (view s').

#[global] Instance keeping_preorder : PreOrder keeping.
Proof. split; unfold keeping; [intros s; auto|intros s1 s2 s3; auto]. Qed.

Lemma preserves_exec {A} (m : M T A) :
  (forall t, P t -> P (m t).2) -> preserves keeping (exec m).
Proof.
  intros Hm s Hs. destruct (exec_spec m s) as [[_ ->]|(e & _ & [->| ->])]; auto.
Qed.

Lemma exec_Ok {A} (m : M T A) s a s' :
  exec m s = (Ok a, s') -> m (view s) = (Ok a, view s').
Proof.
  intros H. destruct (exec_spec m s) as [[H1 H2]|(e & H1 & _)]; rewrite H in *; simpl in *.
  - rewrite (surjective_pairing (m (view s))). by rewrite <- H1, <- H2.
  - done.
Qed.
End Keeping.

(** ** A server for the concrete examples

    32 hexadecimal digits get their dashes; other non-empty texts of digits and
    dashes are taken as canonical. *)

Definition dashed (s : string) : string :=
  take_string 8 s +:+ "-" +:+ take_string 4 (drop_string 8 s) +:+ "-" +:+
  take_string 4 (drop_string 12 s) +:+ "-" +:+ take_string 4 (drop_string 16 s) +:+ "-" +:+
  drop_string 20 s.

Fixpoint unary (n : nat) : string :=
  match n with O => "" | S n' => String "1" (unary n') end.

Definition example_canon (s : string) : option string :=
  if (s =? "")%string || negb (forallb_string uuid_byte s) then None else
  if (len s =? 32) && forallb_string hex_digit s then Some (dashed s) else Some s.

Lemma unary_inj n m : unary n = unary m -> n = m.
Proof. revert m. induction n as [|n IH]; intros [|m]; simpl; naive_solver. Qed.

Lemma uuid_byte_dashed s : forallb_string uuid_byte s = true -> forallb_string uuid_byte (dashed s) = true.
Proof.
  intros H. unfold dashed. rewrite !forallb_string_app.
  replace (forallb_string uuid_byte "-") with true by done.
  rewrite !forallb_take_string by (repeat apply forallb_drop_string; done).
  by rewrite forallb_drop_string.
Qed.

Lemma example_canon_bytes s c : example_canon s = Some c -> forallb_string uuid_byte c = true.
Proof.
  unfold example_canon. destruct (_ || _) eqn:E0; [done|].
  apply orb_false_iff in E0 as [_ E0%negb_false_iff].
  destruct (_ && _); intros [= <-]; [by apply uuid_byte_dashed|done].
Qed.

Lemma len_dashed s : len s = 32 -> len (dashed s) = 36.
Proof.
  intros H. unfold dashed. rewrite !len_app. unfold len in *.
  rewrite !length_take_string, !length_drop_string. simpl String.length. lia.
Qed.

Lemma example_canon_idem s c : example_canon s = Some c -> example_canon c = Some c.
Proof.
  intros H. pose proof (example_canon_bytes s c H) as Hb. revert H.
  unfold example_canon. destruct ((s =? "")%string || _) eqn:E0; [done|].
  destruct ((len s =? 32) && _) eqn:E; [|intros [= <-]; by rewrite E0, E].
  intros [= <-]. apply andb_true_iff in E as [Hl%Z.eqb_eq _]. apply len_dashed in Hl.
  rewrite Hb, Hl. simpl. destruct (dashed s =? "")%string eqn:E1; [|done].
  apply String.eqb_eq in E1. by rewrite E1 in Hl.
Qed.

Definition example_uuid (n : nat) : string := String "-" (unary n).

Lemma example_uuid_bytes n : forallb_string uuid_byte (example_uuid n) = true.
Proof. simpl. induction n as [|n IH]; simpl; [done|]. by rewrite IH. Qed.

Definition example_postgres : Postgres.
Proof.
  refine {| uuid_canon := example_canon; pg_text_le := String.leb; gen_random_uuid := example_uuid |}.
  - apply example_canon_idem.
  - done.
  - apply example_canon_bytes.
  - intros n m [= H]. by apply unary_inj.
  - intros n. unfold example_canon. rewrite example_uuid_bytes.
    unfold example_uuid. cbn [forallb_string]. replace (hex_digit "-") with false by done.
    by rewrite andb_false_r.
Defined.

#[local] Existing Instance example_postgres.
Definition example_collation : Collation.
Proof. split; [apply leb_false_true|apply leb_trans]. Defined.
