(* ===== verification/Outbox.v ===== *)
(** * The transactional outbox

    [outbox/*.go] and [repository/postgres/outbox.go]: the records that the use
    cases write in their transactions, the repository that claims and settles
    them, and the publisher that dispatches them. *)

From S2P Require Import Prelude Errors GoStrings Domain Effects Postgres.

Open Scope string_scope.
Open Scope Z_scope.

(** ** Records ([record.go], [repository.go]) *)

Record Record_ := mkRecord {
  record_ID : string;
  record_AggregateType : string;
  record_AggregateID : string;
  record_EventType : string;
  record_DedupKey : string;
  record_Payload : string;
  record_Status : string;
  record_Attempts : Z;
  record_AvailableAt : time;
  record_CreatedAt : time;
  record_ClaimedAt : option time;
  record_ClaimExpiresAt : option time;
  record_PublishedAt : option time;
  record_LastError : string;
  record_UpdatedAt : time;
  record_OccurredAt : time }.

Record Stats := mkStats {
  stats_Pending : Z;
  stats_Processing : Z;
  stats_Published : Z;
  stats_Failed : Z;
  stats_Dead : Z }.

Definition outboxStatusPending : string := "pending".
Definition outboxStatusProcessing : string := "processing".
Definition outboxStatusPublished : string := "published".
Definition outboxStatusFailed : string := "failed".
Definition outboxStatusDead : string := "dead".
Definition maxOutboxLastErrorBytes : Z := 4096.

(** ** The table [outbox_records] and its statements *)

Record OutboxTable := mkOutboxTable {
  ot_rows : list Record_;
  ot_uuids : nat }.            (* values of gen_random_uuid() used so far *)

Definition set_rows (f : list Record_ -> list Record_) (t : OutboxTable) : OutboxTable :=
  mkOutboxTable (f (ot_rows t)) (ot_uuids t).

(** [scanOutboxRecord]: a row as the program sees it. *)
Definition scanOutboxRecord (r : Record_) : Record_ :=
  mkRecord (record_ID r) (record_AggregateType r) (record_AggregateID r) (record_EventType r)
    (record_DedupKey r) (record_Payload r) (record_Status r) (record_Attempts r)
    (record_AvailableAt r) (record_CreatedAt r) (record_ClaimedAt r) (record_ClaimExpiresAt r)
    (record_PublishedAt r) (record_LastError r) (record_UpdatedAt r) (record_AvailableAt r).

(** The [WHERE] clause of the claim. *)
Definition claimable (now : time) (r : Record_) : bool :=
  (((record_Status r =? outboxStatusPending)%string
    || (record_Status r =? outboxStatusFailed)%string)
   && (record_AvailableAt r <=? now))
  || ((record_Status r =? outboxStatusProcessing)%string
      && match record_ClaimExpiresAt r with Some t => t <=? now | None => false end).

(** [ORDER BY available_at, created_at]. *)
Definition claim_before (r1 r2 : Record_) : bool :=
  (record_AvailableAt r1 <? record_AvailableAt r2)
  || ((record_AvailableAt r1 =? record_AvailableAt r2)
      && (record_CreatedAt r1 <=? record_CreatedAt r2)).

(** The rows the claim picks; [locked] are the rows another transaction holds. *)
Definition claim_rows (locked : string -> bool) (batchSize : Z) (now : time)
    (rows : list Record_) : list Record_ :=
  firstn (Z.to_nat batchSize)
    (List.filter (fun r => negb (locked (record_ID r)))
       (sort_by claim_before (List.filter (claimable now) rows))).

Definition claim_ids locked batchSize now rows : list string :=
  map record_ID (claim_rows locked batchSize now rows).

(** The [SET] clause of the claim. *)
Definition claim_row (now claimExpiresAt : time) (r : Record_) : Record_ :=
  mkRecord (record_ID r) (record_AggregateType r) (record_AggregateID r) (record_EventType r)
    (record_DedupKey r) (record_Payload r) outboxStatusProcessing (record_Attempts r + 1)
    (record_AvailableAt r) (record_CreatedAt r) (Some now) (Some claimExpiresAt)
    (record_PublishedAt r) (record_LastError r) now (record_OccurredAt r).

Definition id_in (ids : list string) (r : Record_) : bool :=
  existsb (String.eqb (record_ID r)) ids.

Definition claim_stmt (locked : string -> bool) (batchSize : Z) (now claimExpiresAt : time)
    : M OutboxTable (list Record_) := fun t =>
  let claimed := id_in (claim_ids locked batchSize now (ot_rows t)) in
  let t' := set_rows (update_where claimed (claim_row now claimExpiresAt)) t in
  (Ok (List.filter claimed (ot_rows t')), t').

(** The [SET] clause of [MarkPublished]. *)
Definition publish_row (now : time) (r : Record_) : Record_ :=
  mkRecord (record_ID r) (record_AggregateType r) (record_AggregateID r) (record_EventType r)
    (record_DedupKey r) (record_Payload r) outboxStatusPublished (record_Attempts r)
    (record_AvailableAt r) (record_CreatedAt r) None None
    (Some (default now (record_PublishedAt r))) (record_LastError r) now (record_OccurredAt r).

(** The [SET] clause of [MarkFailed]. *)
Definition fail_row (lastError : string) (maxAttempts : Z) (nextAttemptAt now : time)
    (r : Record_) : Record_ :=
  let dead := maxAttempts <=? record_Attempts r in
  mkRecord (record_ID r) (record_AggregateType r) (record_AggregateID r) (record_EventType r)
    (record_DedupKey r) (record_Payload r)
    (if dead then outboxStatusDead else outboxStatusFailed) (record_Attempts r)
    (if dead then record_AvailableAt r else nextAttemptAt) (record_CreatedAt r) None None
    (record_PublishedAt r) lastError now (record_OccurredAt r).

Definition has_id (id : string) (r : Record_) : bool := (record_ID r =? id)%string.

Definition truncateOutboxError (message : string) : string :=
  if len message <=? maxOutboxLastErrorBytes then message
  else take_string (Z.to_nat maxOutboxLastErrorBytes) message.

Section Repository.
Context `{PG : !Postgres}.

Definition insert_stmt (record : Record_) (occurredAt : time) : M OutboxTable unit :=
  let! _ := text_params [record_EventType record; record_AggregateType record;
                         record_AggregateID record; record_DedupKey record;
                         record_Payload record] in
  fun t =>
    if existsb (fun r => (record_DedupKey r =? record_DedupKey record)%string) (ot_rows t)
    then (Err (unique_violation "outbox_records_dedup_key_key"), t)
    else (Ok tt,
          mkOutboxTable
            (ot_rows t ++
             [mkRecord (gen_random_uuid (ot_uuids t)) (record_AggregateType record)
                (record_AggregateID record) (record_EventType record) (record_DedupKey record)
                (record_Payload record) outboxStatusPending 0 occurredAt occurredAt None None
                None "" occurredAt occurredAt])
            (S (ot_uuids t))).

Definition publish_stmt (recordID : string) (now : time) : M OutboxTable unit :=
  let! id := uuid_param recordID in
  modify (set_rows (update_where (has_id id) (publish_row now))).

Definition fail_stmt (recordID lastError : string) (maxAttempts : Z) (nextAttemptAt now : time)
    : M OutboxTable unit :=
  let! id := uuid_param recordID in
  let! _ := text_params [lastError] in
  modify (set_rows (update_where (has_id id) (fail_row lastError maxAttempts nextAttemptAt now))).

Definition exists_stmt (recordID : string) : M OutboxTable bool :=
  let! id := uuid_param recordID in
  gets (fun t => existsb (has_id id) (ot_rows t)).

(** [SELECT status, count( * ) GROUP BY status] and the switch over its rows. *)
Definition stats_of (rows : list Record_) : Stats :=
  let count st := llen (List.filter (fun r => (record_Status r =? st)%string) rows) in
  mkStats (count outboxStatusPending) (count outboxStatusProcessing)
    (count outboxStatusPublished) (count outboxStatusFailed) (count outboxStatusDead).

(** *** The repository ([OutboxWriter]) *)

Section Methods.
Context {S : Type} `{!Session S OutboxTable}.

(** [time.Now().UTC()] is an argument: the only use of the clock here. *)
Definition Create (wall_clock : time) (record : Record_) : M S unit :=
  let occurredAt := if IsZero (record_OccurredAt record) then wall_clock
                    else record_OccurredAt record in
  map_err mapError (exec (insert_stmt record occurredAt)).

Definition ClaimPending (locked : string -> bool) (batchSize leaseDuration : Z) (now : time)
    : M S (list Record_) :=
  if batchSize <=? 0 then ret [] else
  let claimExpiresAt := now + leaseDuration in
  let! rows := map_err mapError (exec (claim_stmt locked batchSize now claimExpiresAt)) in
  ret (map scanOutboxRecord rows).

Definition ensureOutboxRecordExists (recordID : string) : M S unit :=
  let! exists_ := map_err mapError (exec (exists_stmt recordID)) in
  guardM (negb exists_) domain.ErrNotFound.

Definition MarkPublished (recordID : string) (now : time) : M S unit :=
  let! _ := map_err mapError (exec (publish_stmt recordID now)) in
  ensureOutboxRecordExists recordID.

Definition MarkFailed (recordID errorMessage : string) (nextAttemptAt now : time)
    (maxAttempts : Z) : M S unit :=
  let lastError := truncateOutboxError errorMessage in
  let! _ := map_err mapError (exec (fail_stmt recordID lastError maxAttempts nextAttemptAt now)) in
  ensureOutboxRecordExists recordID.

Definition repository_Stats : M S Stats :=
  map_err mapError (exec (gets (fun t => stats_of (ot_rows t)))).
End Methods.

Lemma insert_stmt_Ok record occurredAt t u t' :
  insert_stmt record occurredAt t = (Ok u, t') ->
  exists row, record_Status row = outboxStatusPending
    /\ record_EventType row = record_EventType record
    /\ record_DedupKey row = record_DedupKey record
    /\ record_Payload row = record_Payload record
    /\ t' = mkOutboxTable (ot_rows t ++ [row]) (S (ot_uuids t)).
Proof.
  intros H. unfold insert_stmt in H. minv.
  match goal with H : text_params _ _ = _ |- _ => apply guardM_Ok in H as [? ->] end.
  destruct (existsb _ _); [done|]. injection H as <- <-. eexists. split_and!; [..|done]; done.
Qed.
End Repository.

(** ** The publisher ([publisher.go]) *)

Record PublisherOptions := mkOptions {
  opt_Enabled : bool;
  opt_BatchSize : Z;
  opt_PollInterval : Z;
  opt_LeaseDuration : Z;
  opt_MaxAttempts : Z;
  opt_InitialRetryBackoff : Z;
  opt_MaxRetryBackoff : Z;
  opt_ErrorMessageMaxLength : Z;
  opt_Observer : bool }.        (* an observer is configured *)

Definition second : Z := 1000000000.
Definition minute : Z := 60 * second.

Definition DefaultPublisherOptions : PublisherOptions :=
  mkOptions false 50 (5 * second) (30 * second) 5 (30 * second) (5 * minute) 4096 false.

Definition or_default (v d : Z) : Z := if v <=? 0 then d else v.

Definition normalizePublisherOptions (o : PublisherOptions) : PublisherOptions :=
  let d := DefaultPublisherOptions in
  let initial := or_default (opt_InitialRetryBackoff o) (opt_InitialRetryBackoff d) in
  let max := or_default (opt_MaxRetryBackoff o) (opt_MaxRetryBackoff d) in
  let max := if max <? initial then initial else max in
  mkOptions (opt_Enabled o)
    (or_default (opt_BatchSize o) (opt_BatchSize d))
    (or_default (opt_PollInterval o) (opt_PollInterval d))
    (or_default (opt_LeaseDuration o) (opt_LeaseDuration d))
    (or_default (opt_MaxAttempts o) (opt_MaxAttempts d))
    initial max
    (or_default (opt_ErrorMessageMaxLength o) (opt_ErrorMessageMaxLength d))
    (opt_Observer o).

(** [float64(z)] for a positive integer: rounding to 53 significant bits, to
    nearest, ties to even. *)
Definition float64_of_pos (z : Z) : Z :=
  let shift := Z.max 0 (Z.log2 z - 52) in
  let unit := 2 ^ shift in
  let q := z / unit in
  let r := z mod unit in
  let up := (unit <? 2 * r) || ((2 * r =? unit) && Z.odd q) in
  (if up then q + 1 else q) * unit.

Section Backoff.
(** The conversion of a float64 out of the range of int64 is left to the
    implementation by the language. *)
Variable float_to_int64_overflow : Z -> Z.

Definition int64_of_float (v : Z) : Z :=
  if v <=? int64_max then v else float_to_int64_overflow v.

(** [math.Pow(2, attempt-1)] is exact, and so is the product by a power of
    two, infinite from 2^1024 on: out of the range of int64 in any case. *)
Definition retryBackoff (o : PublisherOptions) (attempts : Z) : Z :=
  let attempt := if attempts <? 1 then 1 else attempts in
  let multiplier := 2 ^ (attempt - 1) in
  let backoff := int64_of_float (float64_of_pos (opt_InitialRetryBackoff o) * multiplier) in
  if (backoff <=? 0) || (opt_MaxRetryBackoff o <? backoff) then opt_MaxRetryBackoff o
  else backoff.
End Backoff.

Definition truncateMessage (message : string) (maxLength : Z) : string :=
  if (maxLength <=? 0) || (len message <=? maxLength) then message
  else take_string (Z.to_nat maxLength) message.

(** What the publisher reports to its observer and its logger. *)
Inductive PublisherEvent :=
| RecordClaimed (count : Z)
| RecordDispatch (status : string)
| RecordError (status : string)
| RecordStats (stats : Stats)
| LogInfo (message : string)
| LogError (message : string) (err : error).

(** What the publisher is given: the repository, the dispatcher, the clock, the
    context, the observer and the logger. *)
Class PublisherEnv (S : Type) := {
  ctx_Err : M S (option error);
  Clock_Now : M S time;
  repo_ClaimPending : Z -> Z -> time -> M S (list Record_);
  repo_MarkPublished : string -> time -> M S unit;
  repo_MarkFailed : string -> string -> time -> time -> Z -> M S unit;
  repo_Stats : M S Stats;
  dispatcher_Dispatch : Record_ -> M S unit;
  notify : PublisherEvent -> M S unit }.

Section Publisher.
Context {S : Type} `{!PublisherEnv S}.
Variable float_to_int64_overflow : Z -> Z.
Variable options : PublisherOptions.

Definition observe (e : PublisherEvent) : M S unit :=
  if opt_Observer options then notify e else ret tt.

Definition recordStats : M S unit :=
  if negb (opt_Observer options) then ret tt else
  let! stats := try repo_Stats in
  match stats with
  | Err e => let! _ := observe (RecordError "stats_failed") in
             notify (LogError "outbox_stats_failed" e)
  | Ok stats => notify (RecordStats stats)
  end.

Definition dispatchRecord (record : Record_) : M S unit :=
  let! _ := Clock_Now in                                   (* started *)
  let! r := try (dispatcher_Dispatch record) in
  let! _ := Clock_Now in                                   (* duration *)
  match r with
  | Ok _ =>
      let! now := Clock_Now in
      let! markErr := try (repo_MarkPublished (record_ID record) now) in
      match markErr with
      | Err e =>
          let! _ := observe (RecordError "mark_published_failed") in
          let! _ := notify (LogError "outbox_mark_published_failed" e) in
          fail e
      | Ok _ =>
          let! _ := observe (RecordDispatch "published") in
          recordStats
      end
  | Err err =>
      let! ctxErr := ctx_Err in
      match ctxErr with
      | Some e => fail e
      | None =>
          let! now := Clock_Now in
          let nextAttemptAt :=
            now + retryBackoff float_to_int64_overflow options (record_Attempts record) in
          let message := truncateMessage (Error err) (opt_ErrorMessageMaxLength options) in
          let! markErr := try (repo_MarkFailed (record_ID record) message nextAttemptAt now
                                 (opt_MaxAttempts options)) in
          match markErr with
          | Err e =>
              let! _ := observe (RecordError "mark_failed_failed") in
              let! _ := notify (LogError "outbox_mark_failed_failed" e) in
              fail e
          | Ok _ =>
              let dead := opt_MaxAttempts options <=? record_Attempts record in
              let! _ := if dead then notify (LogError "outbox_record_marked_dead" err)
                        else ret tt in
              let! _ := observe (RecordDispatch (if dead then "dead" else "failed")) in
              let! _ := recordStats in
              notify (LogError "outbox_dispatch_failed" err)
          end
      end
  end.

(** The loop over the claimed records: cancellation is looked up first. *)
Definition publishRecord (record : Record_) : M S unit :=
  let! ctxErr := ctx_Err in
  match ctxErr with
  | Some e => fail e
  | None => dispatchRecord record
  end.

Definition PublishOnce : M S unit :=
  if negb (opt_Enabled options) then ret tt else
  let! ctxErr := ctx_Err in
  match ctxErr with
  | Some e => fail e
  | None =>
      let! now := Clock_Now in
      let! claimed := try (repo_ClaimPending (opt_BatchSize options)
                             (opt_LeaseDuration options) now) in
      match claimed with
      | Err e => let! _ := observe (RecordError "claim_failed") in fail e
      | Ok records =>
          let! _ := observe (RecordClaimed (llen records)) in
          let! _ := recordStats in
          forM records publishRecord
      end
  end.

(** One iteration of [Run]: an error is logged, except cancellation. *)
Definition runIteration : M S unit :=
  let! r := try PublishOnce in
  match r with
  | Ok _ => ret tt
  | Err e => if negb (errors_Is e ECanceled)
             then notify (LogError "outbox_publisher_iteration_failed" e) else ret tt
  end.

(** What the [select] of the loop of [Run] receives. *)
Inductive wakeup := Tick | Done.

Fixpoint runLoop (events : list wakeup) : M S unit :=
  match events with
  | [] => ret tt
  | Done :: _ => ret tt
  | Tick :: events' => let! _ := runIteration in runLoop events'
  end.

Definition Run (events : list wakeup) : M S unit :=
  if negb (opt_Enabled options) then notify (LogInfo "outbox_publisher_disabled") else
  let! _ := notify (LogInfo "outbox_publisher_started") in
  let! _ := runIteration in
  let! _ := runLoop events in
  notify (LogInfo "outbox_publisher_stopped").
End Publisher.

(** ** The invariant of the table *)

Definition outbox_statuses : list string :=
  [outboxStatusPending; outboxStatusProcessing; outboxStatusPublished;
   outboxStatusFailed; outboxStatusDead].

(** A row is claimed exactly while it is being processed. *)
Record row_ok (r : Record_) : Prop := mkRowOk {
  row_status : record_Status r ∈ outbox_statuses;
  row_attempts : 0 <= record_Attempts r;
  row_claimed : record_ClaimedAt r <> None <-> record_Status r = outboxStatusProcessing;
  row_expires : record_ClaimExpiresAt r <> None <-> record_Status r = outboxStatusProcessing;
  row_published : record_Status r = outboxStatusPublished -> record_PublishedAt r <> None;
  row_error : len (record_LastError r) <= maxOutboxLastErrorBytes }.

Section Invariant.
Context `{PG : !Postgres}.

Record table_ok (t : OutboxTable) : Prop := mkTableOk {
  table_ids : Forall (fun r => exists k, (k < ot_uuids t)%nat /\ record_ID r = gen_random_uuid k)
                (ot_rows t);
  table_id_NoDup : NoDup (map record_ID (ot_rows t));
  table_dedup_NoDup : NoDup (map record_DedupKey (ot_rows t));
  table_rows : Forall row_ok (ot_rows t) }.

Lemma table_ok_empty n : table_ok (mkOutboxTable [] n).
Proof. split; simpl; constructor. Qed.

(** A statement that rewrites rows and keeps their keys keeps the invariant. *)
Lemma table_ok_update p f t :
  (forall r, record_ID (f r) = record_ID r) ->
  (forall r, record_DedupKey (f r) = record_DedupKey r) ->
  (forall r, p r = true -> row_ok r -> row_ok (f r)) ->
  table_ok t -> table_ok (set_rows (update_where p f) t).
Proof.
  intros Hid Hkey Hrow [H1 H2 H3 H4]. split; simpl.
  - apply Forall_update_where; [|done]. intros r _ (k & Hk & E). exists k. by rewrite Hid.
  - by rewrite map_update_where.
  - by rewrite map_update_where.
  - by apply Forall_update_where.
Qed.

Lemma row_ok_claim now expires r : row_ok r -> row_ok (claim_row now expires r).
Proof. intros [? ? ? ? ? ?]. split; simpl; [set_solver|lia|done..]. Qed.

Lemma row_ok_publish now r : row_ok r -> row_ok (publish_row now r).
Proof. intros [? ? ? ? ? ?]. split; simpl; [set_solver|lia|done..]. Qed.

Lemma len_truncateOutboxError m : len (truncateOutboxError m) <= maxOutboxLastErrorBytes.
Proof.
  unfold truncateOutboxError. destruct (_ <=? _) eqn:E; [lia|].
  unfold len. rewrite length_take_string. unfold maxOutboxLastErrorBytes. lia.
Qed.

Lemma row_ok_fail m maxAttempts next now r :
  row_ok r -> row_ok (fail_row (truncateOutboxError m) maxAttempts next now r).
Proof.
  intros [? ? ? ? ? ?]. split; simpl;
    [destruct (_ <=? _); set_solver|lia|destruct (_ <=? _)..|]; try done.
  apply len_truncateOutboxError.
Qed.

Lemma table_ok_insert record occurredAt t :
  table_ok t -> table_ok (insert_stmt record occurredAt t).2.
Proof.
  intros Ht. unfold insert_stmt, bind. destruct (text_params _ t) as [[u|e] t'] eqn:E.
  2:{ unfold text_params, guardM, fail, ret in E. by destruct (negb _); inversion E; subst. }
  apply guardM_Ok in E as [_ ->].
  destruct (existsb _ _) eqn:Ex; [done|]. rewrite existsb_false in Ex.
  destruct Ht as [H1 H2 H3 H4]. split; simpl.
  - apply Forall_app. split.
    + eapply Forall_impl; [exact H1|]. intros r (k & Hk & Er). exists k. split; [lia|done].
    + repeat constructor. exists (ot_uuids t). split; [lia|done].
  - rewrite map_app. apply NoDup_app. split; [done|]. split; [|apply NoDup_singleton].
    simpl. intros x Hx ->%list_elem_of_singleton. rewrite list_elem_of_In, in_map_iff in Hx.
    destruct Hx as (r & Er & Hr%list_elem_of_In).
    rewrite Forall_forall in H1. destruct (H1 r Hr) as (k & Hk & Ek).
    rewrite Ek in Er. apply gen_random_uuid_inj in Er. lia.
  - rewrite map_app. apply NoDup_app. split; [done|]. split; [|apply NoDup_singleton].
    simpl. intros x Hx ->%list_elem_of_singleton. rewrite list_elem_of_In, in_map_iff in Hx.
    destruct Hx as (r & Er & Hr%list_elem_of_In). specialize (Ex r Hr).
    rewrite Er, String.eqb_refl in Ex. done.
  - apply Forall_app. split; [done|]. repeat constructor; simpl; try done; try lia.
Qed.
End Invariant.

(** ** Calls of the repository *)

Inductive outbox_call :=
| CallCreate (wall_clock : time) (record : Record_)
| CallClaimPending (locked : string -> bool) (batchSize leaseDuration : Z) (now : time)
| CallMarkPublished (recordID : string) (now : time)
| CallMarkFailed (recordID errorMessage : string) (nextAttemptAt now : time) (maxAttempts : Z)
| CallStats.

Section Calls.
Context `{PG : !Postgres} {S : Type} `{!Session S OutboxTable}.

(** A call, its result dropped. *)
Definition run_call (c : outbox_call) : M S unit :=
  match c with
  | CallCreate wall record => Create wall record
  | CallClaimPending locked batch lease now =>
      let! _ := ClaimPending locked batch lease now in ret tt
  | CallMarkPublished id now => MarkPublished id now
  | CallMarkFailed id message next now maxAttempts => MarkFailed id message next now maxAttempts
  | CallStats => let! _ := repository_Stats in ret tt
  end.

(** Any sequence of calls, whether they fail or not. *)
Definition run_calls (cs : list outbox_call) : M S unit :=
  forM cs (fun c => let! _ := try (run_call c) in ret tt).

(** A statement that rewrites rows after converting its parameters. *)
Lemma preserves_update {A} (params : M OutboxTable A) (upd : A -> OutboxTable -> OutboxTable) :
  (forall t, (params t).2 = t) -> (forall a t, table_ok t -> table_ok (upd a t)) ->
  preserves (keeping table_ok) (exec (S:=S) (bind params (fun a => modify (upd a)))).
Proof.
  intros Hp Hu. apply preserves_exec. intros t Ht. unfold bind. specialize (Hp t).
  destruct (params t) as [[a|e] t']; simpl in *; subst; auto.
Qed.

Lemma params_pure {A} id ts (k : A) (t : OutboxTable) :
  ((let! c := uuid_param id in let! _ := text_params ts in ret (c, k)) t).2 = t.
Proof.
  unfold bind, uuid_param, text_params, guardM, ret, fail.
  destruct (uuid_canon id); [|done]. by destruct (negb _).
Qed.

Lemma preserves_publish_stmt id now :
  preserves (keeping table_ok) (exec (S:=S) (publish_stmt id now)).
Proof.
  apply preserves_update.
  - intros t. unfold uuid_param. by destruct (uuid_canon id).
  - intros c t. apply table_ok_update; [done..|]. intros r _. apply row_ok_publish.
Qed.

Lemma preserves_fail_stmt id message maxAttempts next now :
  preserves (keeping table_ok)
    (exec (S:=S) (fail_stmt id (truncateOutboxError message) maxAttempts next now)).
Proof.
  apply preserves_exec. intros t Ht. unfold fail_stmt, bind, uuid_param.
  destruct (uuid_canon id) as [c|]; [|done]. simpl.
  unfold text_params, guardM. destruct (negb _); [done|]. simpl.
  apply table_ok_update; [done..| |done]. intros r _. apply row_ok_fail.
Qed.

Lemma preserves_claim_stmt locked batch now expires :
  preserves (keeping table_ok) (exec (S:=S) (claim_stmt locked batch now expires)).
Proof.
  apply preserves_exec. intros t Ht. simpl.
  apply table_ok_update; [done..| |done]. intros r _. apply row_ok_claim.
Qed.

Lemma preserves_exists_stmt id :
  preserves (keeping table_ok) (exec (S:=S) (exists_stmt id)).
Proof.
  apply preserves_exec. intros t Ht. unfold exists_stmt, bind, uuid_param.
  by destruct (uuid_canon id).
Qed.

Lemma preserves_insert_stmt record occurredAt :
  preserves (keeping table_ok) (exec (S:=S) (insert_stmt record occurredAt)).
Proof. apply preserves_exec. intros t. apply table_ok_insert. Qed.

Lemma preserves_stats_stmt :
  preserves (keeping table_ok) (exec (S:=S) (gets (fun t => stats_of (ot_rows t)))).
Proof. by apply preserves_exec. Qed.

#[local] Hint Resolve preserves_publish_stmt preserves_fail_stmt preserves_claim_stmt
  preserves_exists_stmt preserves_insert_stmt preserves_stats_stmt : go.

Lemma preserves_run_call c : preserves (keeping table_ok) (run_call c).
Proof.
  destruct c; simpl; unfold Create, ClaimPending, MarkPublished, MarkFailed, repository_Stats;
    preserve.
Qed.

(** The outbox table stays well formed under any sequence of calls of the
    repository, also when statements fail: identifiers and deduplication keys
    stay unique, every status is one of the five, attempts never go negative, a
    row holds a lease exactly while it is processing, a published row has its
    publication time and the stored error is bounded. *)
Theorem outbox_invariant (cs : list outbox_call) (s : S) :
  table_ok (view s) -> table_ok (view (run_calls cs s).2).
Proof.
  apply (preserves_forM (keeping table_ok)). intros c _.
  apply (preserves_bind (keeping table_ok)); [apply preserves_try, preserves_run_call|].
  intros _. apply preserves_ret, _.
Qed.
End Calls.

(** ** The claim *)

Section Claim.
Context (locked : string -> bool) (batch : Z) (now : time).

Lemma claim_before_total r1 r2 : claim_before r1 r2 = false -> claim_before r2 r1 = true.
Proof. unfold claim_before. lia. Qed.

Lemma claim_before_trans r1 r2 r3 :
  claim_before r1 r2 = true -> claim_before r2 r3 = true -> claim_before r1 r3 = true.
Proof. unfold claim_before. lia. Qed.

(** The rows the claim may pick. *)
Definition eligible (r : Record_) : bool := claimable now r && negb (locked (record_ID r)).

Definition claim_candidates (rows : list Record_) : list Record_ :=
  List.filter (fun r => negb (locked (record_ID r)))
    (sort_by claim_before (List.filter (claimable now) rows)).

Lemma elem_of_candidates rows r :
  r ∈ claim_candidates rows <-> r ∈ rows /\ eligible r = true.
Proof.
  unfold claim_candidates, eligible.
  rewrite elem_of_filter_bool, elem_of_sort_by, elem_of_filter_bool, andb_true_iff. naive_solver.
Qed.

Lemma candidates_sorted rows :
  StronglySorted (fun a b => claim_before a b = true) (claim_candidates rows).
Proof.
  apply StronglySorted_filter_bool, sort_by_StronglySorted;
    [apply claim_before_total|apply claim_before_trans].
Qed.

Lemma elem_of_claim_rows rows r :
  r ∈ claim_rows locked batch now rows -> r ∈ rows /\ eligible r = true.
Proof. intros H. by apply elem_of_candidates, (elem_of_firstn (Z.to_nat batch)). Qed.

Lemma length_claim_rows rows : 0 <= batch -> llen (claim_rows locked batch now rows) <= batch.
Proof. intros H. unfold llen, claim_rows. rewrite length_firstn. lia. Qed.

(** A row that is passed over comes after every picked row, and only when the
    batch is full. *)
Lemma claim_rows_fair rows u :
  0 <= batch -> u ∈ rows -> eligible u = true -> u ∉ claim_rows locked batch now rows ->
  llen (claim_rows locked batch now rows) = batch /\
  forall r, r ∈ claim_rows locked batch now rows -> claim_before r u = true.
Proof.
  intros Hb Hu He Hn. assert (Hc : u ∈ claim_candidates rows) by by apply elem_of_candidates.
  destruct (elem_of_firstn_skipn (Z.to_nat batch) _ _ Hc) as [|Hs]; [done|].
  split.
  - apply skipn_elem_length in Hs. unfold llen, claim_rows. fold (claim_candidates rows).
    rewrite length_firstn. lia.
  - intros r Hr. eapply (StronglySorted_firstn_skipn _ _ _ _ _ (candidates_sorted rows)); done.
Qed.

Lemma NoDup_claim_ids rows :
  NoDup (map record_ID rows) -> NoDup (claim_ids locked batch now rows).
Proof.
  intros H. unfold claim_ids, claim_rows.
  assert (Hc : NoDup (map record_ID (claim_candidates rows))).
  { apply NoDup_map_filter.
    assert (Hp : map record_ID (sort_by claim_before (List.filter (claimable now) rows))
                 ≡ₚ map record_ID (List.filter (claimable now) rows))
      by by apply Permutation_map, sort_by_perm.
    rewrite Hp. by apply NoDup_map_filter. }
  unfold claim_candidates in Hc. revert Hc.
  generalize (Z.to_nat batch). intros n Hc. rewrite <- firstn_map.
  by eapply sublist_NoDup; [|apply sublist_take].
Qed.

Lemma id_in_true ids r : id_in ids r = true <-> record_ID r ∈ ids.
Proof. apply allowed_in_elem. Qed.

Lemma elem_of_claim_ids rows id :
  id ∈ claim_ids locked batch now rows <->
  exists r, r ∈ claim_rows locked batch now rows /\ record_ID r = id.
Proof.
  unfold claim_ids. rewrite list_elem_of_In, in_map_iff.
  setoid_rewrite <- list_elem_of_In. naive_solver.
Qed.

(** The rows found again by their identifiers are the picked ones. *)
Lemma filter_claimed_perm rows :
  NoDup (map record_ID rows) ->
  List.filter (id_in (claim_ids locked batch now rows)) rows ≡ₚ claim_rows locked batch now rows.
Proof.
  intros H. apply NoDup_Permutation.
  - apply (NoDup_fmap_1 record_ID). by apply NoDup_map_filter.
  - apply (NoDup_fmap_1 record_ID). by apply NoDup_claim_ids.
  - intros r. rewrite elem_of_filter_bool, id_in_true, elem_of_claim_ids. split.
    + intros (Hr & r' & Hr' & E). destruct (elem_of_claim_rows _ _ Hr') as [Hin _].
      by rewrite <- (NoDup_map_inj record_ID rows r' r).
    + intros Hr. split; [|eauto]. by apply elem_of_claim_rows in Hr as [].
Qed.

Lemma id_in_claimed rows r :
  NoDup (map record_ID rows) ->
  let ids := claim_ids locked batch now rows in
  id_in (map record_ID (List.filter (id_in ids) rows)) r = id_in ids r.
Proof.
  intros H. cbv zeta. apply eq_bool_prop_intro. rewrite !Is_true_true, !id_in_true.
  by rewrite filter_claimed_perm.
Qed.

Lemma claim_returning rows ids expires :
  List.filter (id_in ids) (update_where (id_in ids) (claim_row now expires) rows) =
  map (claim_row now expires) (List.filter (id_in ids) rows).
Proof.
  induction rows as [|r rows IH]; simpl; [done|]. destruct (id_in ids r) eqn:E; simpl.
  - change (id_in ids (claim_row now expires r)) with (id_in ids r). by rewrite E, IH.
  - by rewrite E.
Qed.
End Claim.

Section ClaimTheorems.
Context {S : Type} `{!Session S OutboxTable}.

Lemma ClaimPending_Ok locked batch lease now (s s' : S) rs :
  0 < batch -> ClaimPending locked batch lease now s = (Ok rs, s') ->
  let rows := ot_rows (view s) in
  let claimed := id_in (claim_ids locked batch now rows) in
  rs = map scanOutboxRecord (map (claim_row now (now + lease)) (List.filter claimed rows)) /\
  ot_rows (view s') = update_where claimed (claim_row now (now + lease)) rows.
Proof.
  intros Hb. unfold ClaimPending. replace (batch <=? 0) with false by lia.
  rewrite bind_Ok. intros (rs0 & s1 & H%map_err_Ok%exec_Ok & [= <- ->]).
  unfold claim_stmt in H. simpl in H. injection H as [= <- Hv]. cbv zeta.
  rewrite <- Hv. simpl. split; [|done]. by rewrite claim_returning.
Qed.

Lemma claimed_ids_exact locked batch now expires rows id :
  NoDup (map record_ID rows) ->
  id ∈ map record_ID (map scanOutboxRecord (map (claim_row now expires)
         (List.filter (id_in (claim_ids locked batch now rows)) rows))) <->
  id ∈ claim_ids locked batch now rows.
Proof.
  intros H. rewrite !map_map. simpl. by rewrite filter_claimed_perm.
Qed.

(** A row may be claimed: it waits and its time has come, or its lease ended. *)
Definition due (now : time) (r : Record_) : Prop :=
  ((record_Status r = outboxStatusPending \/ record_Status r = outboxStatusFailed)
   /\ record_AvailableAt r <= now)
  \/ (record_Status r = outboxStatusProcessing
      /\ exists t, record_ClaimExpiresAt r = Some t /\ t <= now).

Lemma eligible_due locked now r :
  eligible locked now r = true <-> due now r /\ locked (record_ID r) = false.
Proof.
  unfold eligible, claimable, due. rewrite andb_true_iff, negb_true_iff, orb_true_iff, !andb_true_iff,
    orb_true_iff, !String.eqb_eq, Z.leb_le.
  assert (E : match record_ClaimExpiresAt r with Some t => t <=? now | None => false end = true <->
    exists t, record_ClaimExpiresAt r = Some t /\ t <= now).
  { destruct (record_ClaimExpiresAt r) as [t|]; [rewrite Z.leb_le|]; naive_solver. }
  tauto.
Qed.

(** What the program gets of a claimed row. *)
Definition claimed_as (now lease : time) (r0 r : Record_) : Prop :=
  record_ID r = record_ID r0 /\ record_EventType r = record_EventType r0
  /\ record_DedupKey r = record_DedupKey r0 /\ record_Payload r = record_Payload r0
  /\ record_Status r = outboxStatusProcessing /\ record_Attempts r = record_Attempts r0 + 1
  /\ record_ClaimExpiresAt r = Some (now + lease).

(** C8: a claim returns at most a batch of records, each once, each a row that
    waits and is due, or whose lease ended, and that no other claim has locked,
    with its lease taken and its attempts counted; the other rows stay as they
    are, and such a row is left only when the batch is full and every claimed
    row became available before it. *)
Theorem ClaimPending_correct locked batch lease now (s s' : S) rs
    (Hids : NoDup (map record_ID (ot_rows (view s)))) (Hb : 0 < batch)
    (H : ClaimPending locked batch lease now s = (Ok rs, s')) :
  let rows := ot_rows (view s) in
  let ids := map record_ID rs in
  llen rs <= batch /\ NoDup ids /\
  (forall r, r ∈ rs -> exists r0, r0 ∈ rows /\ due now r0 /\ locked (record_ID r0) = false /\
     claimed_as now lease r0 r) /\
  ot_rows (view s') = update_where (id_in ids) (claim_row now (now + lease)) rows /\
  (forall u, u ∈ rows -> due now u -> locked (record_ID u) = false -> record_ID u ∉ ids ->
     llen rs = batch /\
     forall r0, r0 ∈ rows -> record_ID r0 ∈ ids -> record_AvailableAt r0 <= record_AvailableAt u).
Proof.
  destruct (ClaimPending_Ok _ _ _ _ _ _ _ Hb H) as [-> Hrows]. cbv zeta.
  set (rows := ot_rows (view s)) in *. pose proof (filter_claimed_perm locked batch now rows Hids) as Hp.
  pose proof (fun id => claimed_ids_exact locked batch now (now + lease) rows id Hids) as Hx.
  assert (Hlen : llen (map scanOutboxRecord (map (claim_row now (now + lease))
            (List.filter (id_in (claim_ids locked batch now rows)) rows)))
          = llen (claim_rows locked batch now rows)).
  { unfold llen. rewrite !length_map. by rewrite Hp. }
  split_and!.
  - rewrite Hlen. apply length_claim_rows. lia.
  - rewrite !map_map. simpl. by apply NoDup_map_filter.
  - intros r. rewrite map_map, list_elem_of_In, in_map_iff. intros (r0 & <- & Hr0).
    apply list_elem_of_In in Hr0. rewrite Hp in Hr0.
    destruct (elem_of_claim_rows _ _ _ _ _ Hr0) as [Hin [Hd Hl]%eligible_due].
    exists r0. unfold claimed_as. done.
  - rewrite Hrows. unfold update_where. apply map_ext. intros r.
    replace (id_in (map record_ID _) r) with (id_in (claim_ids locked batch now rows) r); [done|].
    apply eq_bool_prop_intro. rewrite !Is_true_true, !id_in_true. by rewrite Hx.
  - intros u Hu Hd Hl Hn. pose proof (proj2 (eligible_due locked now u) (conj Hd Hl)) as He. rewrite Hlen. rewrite Hx in Hn.
    destruct (claim_rows_fair locked batch now rows u) as [Hfull Hb4]; [lia|done..| |].
    { contradict Hn. apply elem_of_claim_ids. eauto. }
    split; [done|]. intros r0 Hr0 Hi. apply Hx, elem_of_claim_ids in Hi as (r & Hr & E).
    destruct (elem_of_claim_rows _ _ _ _ _ Hr) as [Hin _].
    rewrite <- (NoDup_map_inj record_ID rows r r0 Hids Hin Hr0 E). specialize (Hb4 r Hr).
    unfold claim_before in Hb4. lia.
Qed.

(** C9: two claims never hand out the same record: neither a claim that runs
    while the first still holds its row locks, nor one that runs after it and
    before the lease it took expires. *)
Theorem claims_are_exclusive locked1 batch1 lease1 now1 locked2 batch2 lease2 now2
    (s1 s1' s2 s2' : S) rs1 rs2
    (Hids : NoDup (map record_ID (ot_rows (view s1)))) (Hb1 : 0 < batch1) (Hb2 : 0 < batch2)
    (H1 : ClaimPending locked1 batch1 lease1 now1 s1 = (Ok rs1, s1'))
    (H2 : ClaimPending locked2 batch2 lease2 now2 s2 = (Ok rs2, s2'))
    (Horder : (view s2 = view s1 /\ forall r, r ∈ rs1 -> locked2 (record_ID r) = true)
              \/ (view s2 = view s1' /\ now2 < now1 + lease1)) :
  forall r1 r2, r1 ∈ rs1 -> r2 ∈ rs2 -> record_ID r1 <> record_ID r2.
Proof.
  destruct (ClaimPending_Ok _ _ _ _ _ _ _ Hb1 H1) as [E1 Hr1].
  destruct (ClaimPending_Ok _ _ _ _ _ _ _ Hb2 H2) as [E2 _].
  intros r1 r2 Hin1 Hin2 E.
  rewrite E2, map_map, list_elem_of_In, in_map_iff in Hin2. destruct Hin2 as (u & <- & Hu).
  apply list_elem_of_In, elem_of_filter_bool in Hu as [Hu Hc].
  apply id_in_true, elem_of_claim_ids in Hc as (u' & Hu' & Eu).
  destruct (elem_of_claim_rows _ _ _ _ _ Hu') as [Hin Hel].
  unfold eligible in Hel. apply andb_true_iff in Hel as [Hcl Hlk%negb_true_iff].
  simpl in E. rewrite <- E in Eu.
  destruct Horder as [[Hv Hl]|[Hv Hlt]].
  - rewrite Eu, (Hl r1 Hin1) in Hlk. done.
  - rewrite Hv, Hr1 in Hin. apply elem_of_update_where in Hin as (w & Hw & ->).
    rewrite E1, map_map, list_elem_of_In, in_map_iff in Hin1. destruct Hin1 as (v & <- & Hv1).
    apply list_elem_of_In, elem_of_filter_bool in Hv1 as [_ Hcv]. simpl in Eu.
    destruct (id_in _ w) eqn:Ew.
    + unfold claimable in Hcl. simpl in Hcl. lia.
    + simpl in Eu. unfold id_in in Ew, Hcv. rewrite Eu in Ew. congruence.
Qed.
End ClaimTheorems.

(** C14: no record is lost: a well formed row is settled (published or dead) and
    never claimed again as it is, or it is unsettled and there is a time from
    which every claim may pick it. *)
Theorem unsettled_rows_become_claimable (r : Record_) (H : row_ok r) :
  ((record_Status r = outboxStatusPublished \/ record_Status r = outboxStatusDead)
   /\ forall now, claimable now r = false)
  \/ (record_Status r <> outboxStatusPublished /\ record_Status r <> outboxStatusDead
      /\ exists t, forall now, t <= now -> claimable now r = true).
Proof.
  destruct H as [Hs _ _ He _ _]. unfold claimable.
  assert (Hcases : record_Status r = outboxStatusPending \/ record_Status r = outboxStatusProcessing
    \/ record_Status r = outboxStatusPublished \/ record_Status r = outboxStatusFailed
    \/ record_Status r = outboxStatusDead) by (unfold outbox_statuses in Hs; set_solver).
  destruct Hcases as [E|[E|[E|[E|E]]]]; rewrite E; simpl.
  1,4: right; split_and!; [done..|]; exists (record_AvailableAt r); intros now Hn; lia.
  - right. split_and!; [done..|]. destruct (record_ClaimExpiresAt r) as [t|].
    + exists t. intros now Hn. lia.
    + by destruct (proj2 He E).
  - left. split; [by left|done].
  - left. split; [by right|done].
Qed.

(** ** The publisher over the repository *)

(** The world of one publisher that is not cancelled and whose statements do
    not fail: the table, what was dispatched, what was reported, and a clock. *)
Record PubWorld := mkPubWorld {
  pw_table : OutboxTable;
  pw_dispatched : list Record_;
  pw_reported : list PublisherEvent;
  pw_clock : nat }.

#[global] Instance pub_session : Session PubWorld OutboxTable.
Proof.
  refine {| view := pw_table;
            exec := fun A (m : M OutboxTable A) => zoom pw_table
              (fun t w => mkPubWorld t (pw_dispatched w) (pw_reported w) (pw_clock w)) m |}.
  intros A m w. left. unfold zoom. by destruct (m (pw_table w)).
Defined.

Section PublishOnce.
Context `{PG : !Postgres}.
(** The clock, the outcome of a dispatch and the locks of other publishers. *)
Context (clock : nat -> time) (outcome : Record_ -> option error) (locked : string -> bool).
Context (float_to_int64_overflow : Z -> Z) (options : PublisherOptions).

#[local] Instance pub_env : PublisherEnv PubWorld := {|
  ctx_Err := ret None;
  Clock_Now := fun w => (Ok (clock (pw_clock w)),
    mkPubWorld (pw_table w) (pw_dispatched w) (pw_reported w) (S (pw_clock w)));
  repo_ClaimPending := ClaimPending locked;
  repo_MarkPublished := MarkPublished;
  repo_MarkFailed := MarkFailed;
  repo_Stats := repository_Stats;
  dispatcher_Dispatch := fun r w =>
    (match outcome r with Some e => Err e | None => Ok tt end,
     mkPubWorld (pw_table w) (pw_dispatched w ++ [r]) (pw_reported w) (pw_clock w));
  notify := fun e w => (Ok tt,
    mkPubWorld (pw_table w) (pw_dispatched w) (pw_reported w ++ [e]) (pw_clock w)) |}.

Definition publish_once : M PubWorld unit := PublishOnce float_to_int64_overflow options.

(** How a claimed row ends: published where its dispatch succeeded, otherwise
    dead when its attempts are used up and failed, with a new time for the next
    attempt, when they are not. *)
Definition settled (r r' : Record_) : Prop :=
  match outcome (scanOutboxRecord r) with
  | None => exists now, r' = publish_row now r
  | Some err => exists now, r' =
      fail_row (truncateOutboxError (truncateMessage (Error err) (opt_ErrorMessageMaxLength options)))
        (opt_MaxAttempts options)
        (now + retryBackoff float_to_int64_overflow options (record_Attempts r)) now r
  end.

(** [rows'] is [rows] with exactly the rows of [ids] settled. *)
Definition rows_settled (ids : list string) (rows rows' : list Record_) : Prop :=
  Forall2 (fun r r' => if id_in ids r then settled r r' else r' = r) rows rows'.

(** Reports change neither the table nor what was dispatched. *)
Definition quiet {A} (m : M PubWorld A) : Prop :=
  forall w, exists a w', m w = (Ok a, w') /\ pw_table w' = pw_table w
    /\ pw_dispatched w' = pw_dispatched w.

Lemma quiet_ret {A} (a : A) : quiet (ret a).
Proof. intros w. by exists a, w. Qed.
Lemma quiet_notify e : quiet (notify e).
Proof. intros w. simpl. by eexists _, _. Qed.
Lemma quiet_clock : quiet Clock_Now.
Proof. intros w. simpl. by eexists _, _. Qed.
Lemma quiet_observe e : quiet (observe options e).
Proof. unfold observe. destruct (opt_Observer options); [apply quiet_notify|apply quiet_ret]. Qed.

Lemma quiet_bind {A B} (m : M PubWorld A) (k : A -> M PubWorld B) :
  quiet m -> (forall a, quiet (k a)) -> quiet (bind m k).
Proof.
  intros Hm Hk w. destruct (Hm w) as (a & w1 & E & Ht & Hd). unfold bind. rewrite E.
  destruct (Hk a w1) as (b & w2 & E2 & Ht2 & Hd2). exists b, w2. by rewrite E2, Ht2, Hd2.
Qed.

Lemma quiet_recordStats : quiet (recordStats options).
Proof.
  unfold recordStats. destruct (negb _); [apply quiet_ret|].
  apply quiet_bind; [intros w; by eexists _, _|].
  intros [st|e]; [apply quiet_notify|].
  apply quiet_bind; [apply quiet_observe|]. intros _. apply quiet_notify.
Qed.

(** A quiet step leaves the rest of the function to run on the same table. *)
Lemma quiet_step {A B} (m : M PubWorld A) (k : A -> M PubWorld B) w (P : result B * PubWorld -> Prop) :
  quiet m ->
  (forall a w', pw_table w' = pw_table w -> pw_dispatched w' = pw_dispatched w -> P (k a w')) ->
  P (bind m k w).
Proof.
  intros Hm Hk. destruct (Hm w) as (a & w1 & E & Ht & Hd). unfold bind. rewrite E. by apply Hk.
Qed.

Definition table_update (id : string) (f : Record_ -> Record_) (t : OutboxTable) : OutboxTable :=
  set_rows (update_where (has_id id) f) t.

Lemma ensure_exists r w :
  r ∈ ot_rows (pw_table w) -> uuid_canon (record_ID r) = Some (record_ID r) ->
  ensureOutboxRecordExists (record_ID r) w = (Ok tt, w).
Proof.
  intros Hr Hid. unfold ensureOutboxRecordExists, map_err, exists_stmt, bind. simpl.
  unfold zoom, uuid_param. rewrite Hid. simpl.
  replace (existsb _ _) with true; [by destruct w|].
  symmetry. apply existsb_true. exists r. split; [done|]. apply String.eqb_refl.
Qed.

Lemma table_update_elem r f t :
  (forall x, record_ID (f x) = record_ID x) -> r ∈ ot_rows t ->
  f r ∈ ot_rows (table_update (record_ID r) f t).
Proof.
  intros Hf Hr. simpl. apply elem_of_update_where. exists r. split; [done|].
  unfold has_id. by rewrite String.eqb_refl.
Qed.

Lemma MarkPublished_found r now w :
  r ∈ ot_rows (pw_table w) -> uuid_canon (record_ID r) = Some (record_ID r) ->
  MarkPublished (record_ID r) now w =
  (Ok tt, mkPubWorld (table_update (record_ID r) (publish_row now) (pw_table w))
            (pw_dispatched w) (pw_reported w) (pw_clock w)).
Proof.
  intros Hr Hid. unfold MarkPublished, bind, map_err. simpl. unfold zoom, publish_stmt, bind,
    uuid_param. rewrite Hid. simpl.
  apply (ensure_exists (publish_row now r)); [|done]. by apply (table_update_elem r (publish_row now)).
Qed.

Lemma MarkFailed_found r message next now maxAttempts w :
  r ∈ ot_rows (pw_table w) -> uuid_canon (record_ID r) = Some (record_ID r) ->
  pg_text (truncateOutboxError message) = true ->
  MarkFailed (record_ID r) message next now maxAttempts w =
  (Ok tt, mkPubWorld (table_update (record_ID r)
                        (fail_row (truncateOutboxError message) maxAttempts next now) (pw_table w))
            (pw_dispatched w) (pw_reported w) (pw_clock w)).
Proof.
  intros Hr Hid Htext. unfold MarkFailed, bind, map_err. simpl. unfold zoom, fail_stmt, bind,
    uuid_param, text_params. rewrite Hid. simpl. rewrite Htext. simpl.
  apply (ensure_exists (fail_row (truncateOutboxError message) maxAttempts next now r)); [|done].
  by apply (table_update_elem r (fail_row _ _ _ _)).
Qed.

(** The server accepts the texts of the dispatcher's errors. *)
Definition texts_ok : Prop := forall record err, outcome record = Some err ->
  pg_text (truncateOutboxError
             (truncateMessage (Error err) (opt_ErrorMessageMaxLength options))) = true.

(** One turn of the loop settles the row of its record and nothing else. *)
Definition settles (r : Record_) (w : PubWorld) (res : result unit * PubWorld) : Prop :=
  exists f, res.1 = Ok tt /\ pw_table res.2 = table_update (record_ID r) f (pw_table w)
    /\ pw_dispatched res.2 = (pw_dispatched w ++ [scanOutboxRecord r])%list
    /\ settled r (f r) /\ (forall x, record_ID (f x) = record_ID x).

Lemma quiet_settles (m : M PubWorld unit) f r w w1 :
  quiet m -> pw_table w1 = table_update (record_ID r) f (pw_table w) ->
  pw_dispatched w1 = (pw_dispatched w ++ [scanOutboxRecord r])%list ->
  settled r (f r) -> (forall x, record_ID (f x) = record_ID x) ->
  settles r w (m w1).
Proof.
  intros Hm Ht Hd Hs Hf. destruct (Hm w1) as ([] & w2 & -> & Ht2 & Hd2).
  exists f. simpl. by rewrite Ht2, Hd2.
Qed.

Lemma bind_ctx {B} (k : option error -> M PubWorld B) w : bind ctx_Err k w = k None w.
Proof. done. Qed.

Lemma try_Ok {A B} (m : M PubWorld A) (k : result A -> M PubWorld B) w a w' :
  m w = (Ok a, w') -> bind (try m) k w = k (Ok a) w'.
Proof. intros E. unfold bind, try. by rewrite E. Qed.

Lemma try_dispatch {B} (k : result unit -> M PubWorld B) r w :
  bind (try (dispatcher_Dispatch r)) k w =
  k (match outcome r with Some e => Err e | None => Ok tt end)
    (mkPubWorld (pw_table w) (pw_dispatched w ++ [r]) (pw_reported w) (pw_clock w)).
Proof. done. Qed.

Lemma dispatchRecord_settles r w :
  texts_ok -> r ∈ ot_rows (pw_table w) -> uuid_canon (record_ID r) = Some (record_ID r) ->
  settles r w (dispatchRecord float_to_int64_overflow options (scanOutboxRecord r) w).
Proof.
  intros Htext Hr Hid. unfold dispatchRecord.
  apply quiet_step; [apply quiet_clock|]. intros _ w0 Ht0 Hd0. rewrite try_dispatch.
  apply quiet_step; [apply quiet_clock|]. intros _ w1 Ht1 Hd1. simpl in Ht1, Hd1.
  rewrite Ht0 in Ht1. rewrite Hd0 in Hd1.
  pose proof (Htext (scanOutboxRecord r)) as Htx.
  destruct (outcome (scanOutboxRecord r)) as [err|] eqn:Eo.
  - specialize (Htx err eq_refl). rewrite bind_ctx.
    apply quiet_step; [apply quiet_clock|]. intros now w2 Ht2 Hd2. cbv zeta.
    erewrite (try_Ok _ _ w2);
      [|apply (MarkFailed_found r _ _ now _ w2); [by rewrite Ht2, Ht1|done|exact Htx]].
    eapply quiet_settles; simpl.
    + apply quiet_bind; [destruct (_ <=? _); [apply quiet_notify|apply quiet_ret]|intros _].
      apply quiet_bind; [apply quiet_observe|intros _].
      apply quiet_bind; [apply quiet_recordStats|intros _]. apply quiet_notify.
    + by rewrite Ht2, Ht1.
    + by rewrite Hd2, Hd1.
    + unfold settled. rewrite Eo. by exists now.
    + done.
  - apply quiet_step; [apply quiet_clock|]. intros now w2 Ht2 Hd2.
    erewrite (try_Ok _ _ w2);
      [|apply (MarkPublished_found r now w2); [by rewrite Ht2, Ht1|done]].
    eapply quiet_settles; simpl.
    + apply quiet_bind; [apply quiet_observe|intros _]. apply quiet_recordStats.
    + by rewrite Ht2, Ht1.
    + by rewrite Hd2, Hd1.
    + unfold settled. rewrite Eo. by exists now.
    + done.
Qed.

(** Settling one row, then others. *)
Lemma rows_settled_cons r f ids rows rows' :
  NoDup (map record_ID rows) -> r ∈ rows -> record_ID r ∉ ids -> settled r (f r) ->
  (forall x, record_ID (f x) = record_ID x) ->
  rows_settled ids (update_where (has_id (record_ID r)) f rows) rows' ->
  rows_settled (record_ID r :: ids) rows rows'.
Proof.
  intros Hnd Hr Hn Hs Hf.
  assert (Huniq : forall x, x ∈ rows -> has_id (record_ID r) x = true -> x = r).
  { intros x Hx E%String.eqb_eq. by apply (NoDup_map_inj record_ID rows). }
  clear Hnd Hr. revert rows'. induction rows as [|x rows IH]; intros rows' H1.
  - simpl in H1. inversion H1. constructor.
  - simpl in H1. inversion H1 as [|? y ? ys Hy Hys]; subst. constructor.
    + destruct (has_id (record_ID r) x) eqn:E.
      * assert (x = r) as -> by (apply Huniq; [set_solver|done]).
        unfold id_in in Hy |- *. rewrite Hf in Hy. simpl. rewrite String.eqb_refl. simpl.
        replace (existsb _ ids) with false in Hy; [by subst|].
        symmetry. apply not_true_iff_false. by intros ?%allowed_in_elem.
      * unfold id_in in *. simpl. unfold has_id in E. rewrite E. done.
    + apply IH; [|done]. intros z Hz. apply Huniq. set_solver.
Qed.

Lemma rows_settled_nil rows : rows_settled [] rows rows.
Proof. induction rows; constructor; done. Qed.

Lemma publish_loop rs w :
  texts_ok -> NoDup (map record_ID (ot_rows (pw_table w))) -> NoDup (map record_ID rs) ->
  Forall (fun r => r ∈ ot_rows (pw_table w) /\ uuid_canon (record_ID r) = Some (record_ID r)) rs ->
  exists w', forM (map scanOutboxRecord rs) (publishRecord float_to_int64_overflow options) w
             = (Ok tt, w')
    /\ rows_settled (map record_ID rs) (ot_rows (pw_table w)) (ot_rows (pw_table w'))
    /\ pw_dispatched w' = (pw_dispatched w ++ map scanOutboxRecord rs)%list.
Proof.
  intros Htext. revert w. induction rs as [|r rs IH]; intros w Hnd Hrs Hall.
  - exists w. simpl. split_and!; [done|apply rows_settled_nil|by rewrite app_nil_r].
  - simpl in Hrs. apply NoDup_cons in Hrs as [Hr Hrs].
    apply Forall_cons in Hall as [[Hin Hid] Hall]. cbn [map forM].
    unfold publishRecord at 1. rewrite bind_assoc, bind_ctx.
    destruct (dispatchRecord_settles r w Htext Hin Hid) as (f & E & Ht & Hd & Hs & Hf).
    unfold bind. destruct (dispatchRecord _ _ _ w) as [res w1]. simpl in *. subst res.
    destruct (IH w1) as (w' & E' & Hset & Hd').
    + rewrite Ht. simpl. by rewrite map_update_where.
    + done.
    + rewrite Forall_forall in Hall |- *. intros x Hx. destruct (Hall x Hx) as [Hx1 Hx2].
      split; [|done]. rewrite Ht. simpl. apply elem_of_update_where. exists x. split; [done|].
      destruct (has_id (record_ID r) x) eqn:Ex; [|done]. destruct Hr.
      apply String.eqb_eq in Ex. rewrite <- Ex. by apply list_elem_of_In, in_map, list_elem_of_In.
    + exists w'. rewrite E', Hd', Hd, <- app_assoc. split_and!; [done| |done].
      eapply rows_settled_cons; [done..|]. rewrite Ht in Hset. done.
Qed.

Lemma claim_in_table batch lease now t :
  0 < batch ->
  let claimed := id_in (claim_ids locked batch now (ot_rows t)) in
  ClaimPending (S := OutboxTable) locked batch lease now t =
  (Ok (map scanOutboxRecord (map (claim_row now (now + lease)) (List.filter claimed (ot_rows t)))),
   set_rows (update_where claimed (claim_row now (now + lease))) t).
Proof.
  intros Hb. cbv zeta. unfold ClaimPending. replace (batch <=? 0) with false by lia.
  unfold bind, map_err. simpl. by rewrite claim_returning.
Qed.

Lemma claim_in_world batch lease now w :
  0 < batch ->
  let rows := ot_rows (pw_table w) in
  let claimed := id_in (claim_ids locked batch now rows) in
  ClaimPending locked batch lease now w =
  (Ok (map scanOutboxRecord (map (claim_row now (now + lease)) (List.filter claimed rows))),
   mkPubWorld (set_rows (update_where claimed (claim_row now (now + lease))) (pw_table w))
     (pw_dispatched w) (pw_reported w) (pw_clock w)).
Proof.
  intros Hb. cbv zeta. unfold ClaimPending. replace (batch <=? 0) with false by lia.
  unfold bind, map_err. simpl. unfold zoom. simpl. by rewrite claim_returning.
Qed.

Lemma table_ok_canon t r : table_ok t -> r ∈ ot_rows t -> uuid_canon (record_ID r) = Some (record_ID r).
Proof.
  intros [Hi _ _ _] Hr. rewrite Forall_forall in Hi. destruct (Hi r Hr) as (k & _ & ->).
  apply gen_random_uuid_canon.
Qed.

(** C3: one pass of an enabled publisher with a positive batch, over a well formed
    table and with error texts that PostgreSQL stores, claims the due records,
    dispatches exactly the records that its claim returned, each once and in the
    order in which the claim returned them, and settles the row of each: published
    when its dispatch succeeded, otherwise dead when its attempts are used up and
    failed with a later attempt when they are not; the rows it did not claim stay
    as they are. *)
Theorem PublishOnce_settles (w : PubWorld)
    (Hen : opt_Enabled options = true) (Hb : 0 < opt_BatchSize options)
    (Htext : texts_ok) (Hok : table_ok (pw_table w)) :
  let now := clock (pw_clock w) in
  let claim := claim_row now (now + opt_LeaseDuration options) in
  exists w' claimed t,
    ClaimPending (S := OutboxTable) locked (opt_BatchSize options) (opt_LeaseDuration options) now (pw_table w) = (Ok claimed, t)
    /\ claimed ≡ₚ map scanOutboxRecord (map claim (claim_rows locked (opt_BatchSize options) now (ot_rows (pw_table w))))
    /\ publish_once w = (Ok tt, w')
    /\ pw_dispatched w' = (pw_dispatched w ++ claimed)%list
    /\ rows_settled (map record_ID claimed) (ot_rows t) (ot_rows (pw_table w')).
Proof.
  cbv zeta. set (now := clock (pw_clock w)). set (rows := ot_rows (pw_table w)).
  set (claim := claim_row now (now + opt_LeaseDuration options)).
  set (ids := claim_ids locked (opt_BatchSize options) now rows).
  pose proof Hok as [_ Hnd _ _]. fold rows in Hnd.
  unfold publish_once, PublishOnce. rewrite Hen. cbn [negb]. rewrite bind_ctx.
  unfold bind at 1. simpl Clock_Now. cbv beta iota. fold now.
  erewrite (try_Ok _ _ (mkPubWorld _ _ _ _)); [|by apply claim_in_world]. cbn [pw_table]. fold rows ids claim.
  set (rs := List.filter (id_in ids) rows).
  apply quiet_step; [apply quiet_observe|]. intros _ w1 Ht1 Hd1.
  apply quiet_step; [apply quiet_recordStats|]. intros _ w2 Ht2 Hd2.
  rewrite Ht1 in Ht2. rewrite Hd1 in Hd2. simpl in Ht2, Hd2.
  assert (Hrs : NoDup (map record_ID (map claim rs)))
    by (rewrite map_map; simpl; by apply NoDup_map_filter).
  destruct (publish_loop (map claim rs) w2) as (w' & E & Hset & Hd'); [done| |done| |].
  - rewrite Ht2. simpl. by rewrite map_update_where.
  - apply Forall_forall. intros x Hx. rewrite list_elem_of_In, in_map_iff in Hx.
    destruct Hx as (r & <- & Hr). apply list_elem_of_In, elem_of_filter_bool in Hr as [Hr Hc].
    split; [|exact (table_ok_canon _ r Hok Hr)]. rewrite Ht2. simpl.
    apply elem_of_update_where. exists r. by rewrite Hc.
  - exists w', (map scanOutboxRecord (map claim rs)), (set_rows (update_where (id_in ids) claim) (pw_table w)).
    rewrite E, Hd', Hd2. split_and!; [by apply claim_in_table| |done|done|].
    + by apply (fmap_Permutation scanOutboxRecord), (fmap_Permutation claim), filter_claimed_perm.
    + rewrite Ht2 in Hset. by rewrite map_map.
Qed.
End PublishOnce.

(** ** Backoff, options and truncation *)

Lemma float64_of_pos_pos z : 0 < z -> 0 < float64_of_pos z.
Proof.
  intros Hz. unfold float64_of_pos. set (u := 2 ^ Z.max 0 (Z.log2 z - 52)).
  assert (Hu : 0 < u) by (apply Z.pow_pos_nonneg; lia).
  assert (Hle : u <= z).
  { pose proof (Z.log2_spec z Hz). pose proof (Z.log2_nonneg z).
    transitivity (2 ^ Z.log2 z); [|lia]. apply Z.pow_le_mono_r; lia. }
  assert (1 <= z / u) by (apply Z.div_le_lower_bound; lia).
  cbv zeta. destruct (_ || _); nia.
Qed.

(** Integers of at most 53 bits are represented exactly. *)
Lemma float64_of_pos_exact z : 0 < z < 2 ^ 53 -> float64_of_pos z = z.
Proof.
  intros Hz. unfold float64_of_pos.
  assert (Z.log2 z < 53) by (apply Z.log2_lt_pow2; lia).
  replace (Z.max 0 (Z.log2 z - 52)) with 0 by lia.
  change (2 ^ 0) with 1. rewrite Z.div_1_r, Z.mod_1_r. simpl. lia.
Qed.

Section BackoffTheorems.
Context (overflow : Z -> Z).
(** What the processors the program runs on do with a float out of range: the
    smallest integer (amd64) or the largest (arm64). *)
Definition overflow_saturates : Prop :=
  forall v, int64_max < v -> overflow v <= 0 \/ int64_max <= overflow v.

(** C13: the wait before an attempt doubles with each attempt from the initial
    backoff and is cut at the maximum, whatever the number of attempts; it is
    positive, never above the maximum and never shrinks, although the float64
    product leaves the range of int64. *)
Theorem retryBackoff_correct (o : PublisherOptions)
    (Hpos : 0 < opt_InitialRetryBackoff o)
    (Hle : opt_InitialRetryBackoff o <= opt_MaxRetryBackoff o)
    (Hmax : opt_MaxRetryBackoff o <= int64_max) (Hover : overflow_saturates) :
  (forall n, retryBackoff overflow o n =
     Z.min (opt_MaxRetryBackoff o)
       (float64_of_pos (opt_InitialRetryBackoff o) * 2 ^ (Z.max n 1 - 1)))
  /\ (forall n, 0 < retryBackoff overflow o n <= opt_MaxRetryBackoff o)
  /\ (forall n m, n <= m -> retryBackoff overflow o n <= retryBackoff overflow o m)
  /\ (opt_InitialRetryBackoff o < 2 ^ 53 ->
      float64_of_pos (opt_InitialRetryBackoff o) = opt_InitialRetryBackoff o).
Proof.
  pose proof (float64_of_pos_pos _ Hpos) as Hf. set (f := float64_of_pos _) in *.
  assert (Heq : forall n, retryBackoff overflow o n =
     Z.min (opt_MaxRetryBackoff o) (f * 2 ^ (Z.max n 1 - 1))).
  { intros n. unfold retryBackoff. fold f.
    replace (if n <? 1 then 1 else n) with (Z.max n 1) by (destruct (n <? 1) eqn:?; lia).
    assert (0 < 2 ^ (Z.max n 1 - 1)) by (apply Z.pow_pos_nonneg; lia).
    set (v := f * _). assert (0 < v) by (unfold v; nia).
    unfold int64_of_float. destruct (v <=? int64_max) eqn:E.
    - destruct (_ || _) eqn:?; lia.
    - specialize (Hover v ltac:(lia)). destruct (_ || _) eqn:?; lia. }
  split_and!; [done|..].
  - intros n. rewrite Heq. assert (0 < 2 ^ (Z.max n 1 - 1)) by (apply Z.pow_pos_nonneg; lia). nia.
  - intros n m Hnm. rewrite !Heq.
    assert (2 ^ (Z.max n 1 - 1) <= 2 ^ (Z.max m 1 - 1)) by (apply Z.pow_le_mono_r; lia). nia.
  - intros H. apply float64_of_pos_exact. lia.
Qed.
End BackoffTheorems.

(** The settings the publisher needs. *)
Definition options_ok (o : PublisherOptions) : Prop :=
  0 < opt_BatchSize o /\ 0 < opt_PollInterval o /\ 0 < opt_LeaseDuration o
  /\ 0 < opt_MaxAttempts o /\ 0 < opt_InitialRetryBackoff o
  /\ opt_InitialRetryBackoff o <= opt_MaxRetryBackoff o /\ 0 < opt_ErrorMessageMaxLength o.

Lemma or_default_pos v d : 0 < d -> 0 < or_default v d.
Proof. unfold or_default. destruct (v <=? 0) eqn:?; lia. Qed.
Lemma or_default_keep v d : 0 < v -> or_default v d = v.
Proof. unfold or_default. destruct (v <=? 0) eqn:?; lia. Qed.

Lemma normalize_ok o : options_ok (normalizePublisherOptions o).
Proof.
  unfold options_ok, normalizePublisherOptions. simpl.
  split_and!; try (by apply or_default_pos).
  destruct (_ <? _) eqn:E; lia.
Qed.

Lemma normalize_keep o : options_ok o -> normalizePublisherOptions o = o.
Proof.
  destruct o. unfold options_ok, normalizePublisherOptions. simpl. intros H.
  rewrite !or_default_keep by lia. destruct (_ <? _) eqn:E; [lia|done].
Qed.

(** Whatever options it is given, the publisher runs with a positive batch,
    poll interval, lease, attempt count and message length, and with an initial
    backoff that is positive and not above the maximum; options that are
    already so are kept. *)
Theorem normalizePublisherOptions_correct (o : PublisherOptions) :
  options_ok (normalizePublisherOptions o)
  /\ opt_Enabled (normalizePublisherOptions o) = opt_Enabled o
  /\ normalizePublisherOptions (normalizePublisherOptions o) = normalizePublisherOptions o
  /\ (options_ok o -> normalizePublisherOptions o = o).
Proof.
  split_and!; [apply normalize_ok|done|apply normalize_keep, normalize_ok|apply normalize_keep].
Qed.

Lemma valid_utf8_ascii s : forallb_string (fun a => byte a <? 128) s = true -> valid_utf8 s = true.
Proof.
  induction s as [|a s IH]; simpl; [done|]. intros [Ha H]%andb_true_iff. rewrite Ha. auto.
Qed.

(** The stored error: the message cut to a number of bytes. *)
Lemma truncateMessage_prefix m n :
  exists rest, m = truncateMessage m n +:+ rest /\ (0 < n -> len (truncateMessage m n) <= n).
Proof.
  unfold truncateMessage. destruct (_ || _) eqn:E.
  - exists "". rewrite string_app_nil_r. split; [done|lia].
  - exists (drop_string (Z.to_nat n) m). rewrite take_drop_string. split; [done|].
    intros Hn. unfold len. rewrite length_take_string. lia.
Qed.

(** ** Concrete runs *)

Section Examples.
#[local] Existing Instance example_postgres.

Definition new_record (dedup : string) : Record_ :=
  mkRecord "" "module" "m1" "protoradar.module.created" dedup "{}" "" 0 0 0 None None None "" 0 5.

Definition empty_outbox : OutboxTable := mkOutboxTable [] 0.
Definition no_locks : string -> bool := fun _ => false.

(** Two records are written, claimed by one publisher, and one is settled. *)
Definition example_calls : list outbox_call :=
  [CallCreate 1 (new_record "a"); CallCreate 1 (new_record "b"); CallCreate 2 (new_record "a");
   CallClaimPending no_locks 10 30 100; CallMarkPublished (example_uuid 0) 101;
   CallMarkFailed (example_uuid 1) "timeout" 140 102 5; CallStats].

Definition two_pending : OutboxTable :=
  (run_calls (S := OutboxTable) [CallCreate 1 (new_record "a"); CallCreate 1 (new_record "b")]
     empty_outbox).2.

Lemma outbox_invariant_witness :
  map record_Status (ot_rows (view (run_calls (S := OutboxTable) example_calls empty_outbox).2))
    = [outboxStatusPublished; outboxStatusFailed]
  /\ table_ok (view (run_calls (S := OutboxTable) example_calls empty_outbox).2).
Proof.
  split; [vm_compute; reflexivity|].
  exact (outbox_invariant (S := OutboxTable) example_calls empty_outbox (table_ok_empty 0)).
Defined.

Lemma two_pending_ok : table_ok two_pending.
Proof.
  exact (preserves_forM (keeping table_ok)
    [CallCreate 1 (new_record "a"); CallCreate 1 (new_record "b")] _
    (fun c _ => preserves_bind (keeping table_ok) _ _
       (preserves_try (keeping table_ok) _ (preserves_run_call (S := OutboxTable) c))
       (fun _ => preserves_ret (keeping table_ok) tt)) empty_outbox (table_ok_empty 0)).
Qed.

Definition first_claim := ClaimPending (S := OutboxTable) no_locks 1 30 100 two_pending.
Definition second_claim :=
  ClaimPending (S := OutboxTable) no_locks 10 30 110 first_claim.2.
Definition claimed_by (r : result (list Record_) * OutboxTable) : list Record_ :=
  match r.1 with Ok rs => rs | Err _ => [] end.

Lemma ClaimPending_correct_witness :
  map record_ID (claimed_by first_claim) = ["-"]
  /\ llen (claimed_by first_claim) <= 1.
Proof.
  split; [vm_compute; reflexivity|].
  apply (ClaimPending_correct (S := OutboxTable) no_locks 1 30 100 two_pending first_claim.2
           (claimed_by first_claim)).
  - apply two_pending_ok.
  - lia.
  - vm_compute. reflexivity.
Defined.

Lemma claims_are_exclusive_witness :
  map record_ID (claimed_by second_claim) = ["-1"]
  /\ forall r1 r2, r1 ∈ claimed_by first_claim -> r2 ∈ claimed_by second_claim ->
       record_ID r1 <> record_ID r2.
Proof.
  split; [vm_compute; reflexivity|].
  apply (claims_are_exclusive (S := OutboxTable) no_locks 1 30 100 no_locks 10 30 110
           two_pending first_claim.2 first_claim.2 second_claim.2).
  - apply two_pending_ok.
  - lia.
  - lia.
  - vm_compute. reflexivity.
  - vm_compute. reflexivity.
  - right. split; [reflexivity|lia].
Defined.

Lemma unsettled_rows_become_claimable_witness :
  exists r, r ∈ ot_rows two_pending /\
  (((record_Status r = outboxStatusPublished \/ record_Status r = outboxStatusDead)
    /\ forall now, claimable now r = false)
   \/ (record_Status r <> outboxStatusPublished /\ record_Status r <> outboxStatusDead
       /\ exists t, forall now, t <= now -> claimable now r = true)).
Proof.
  pose proof two_pending_ok as H. destruct H as [_ _ _ H].
  exists (List.hd (new_record "") (ot_rows two_pending)). split; [vm_compute; constructor|].
  apply unsettled_rows_become_claimable.
  apply (proj1 (Forall_forall _ _) H). vm_compute. constructor.
Defined.

Definition example_options : PublisherOptions :=
  normalizePublisherOptions (mkOptions true 10 0 0 2 0 0 0 true).

(** The dispatch of record [b] fails. *)
Definition example_outcome (r : Record_) : option error :=
  if (record_DedupKey r =? "b")%string then Some (EText "boom") else None.

Definition example_world : PubWorld := mkPubWorld two_pending [] [] 0.
Definition example_clock (n : nat) : time := Z.of_nat n + 100.

Lemma PublishOnce_settles_witness :
  map record_Status (ot_rows (pw_table
     (publish_once example_clock example_outcome no_locks (fun _ => - 2 ^ 63) example_options
        example_world).2)) = [outboxStatusPublished; outboxStatusFailed]
  /\ exists w' claimed t,
     ClaimPending (S := OutboxTable) no_locks (opt_BatchSize example_options) (opt_LeaseDuration example_options) 100
       (pw_table example_world) = (Ok claimed, t)
     /\ publish_once example_clock example_outcome no_locks (fun _ => - 2 ^ 63) example_options
       example_world = (Ok tt, w')
     /\ pw_dispatched w' = claimed /\ length claimed = 2%nat.
Proof.
  split; [vm_compute; reflexivity|].
  destruct (PublishOnce_settles example_clock example_outcome no_locks (fun _ => - 2 ^ 63)
              example_options example_world) as (w' & claimed & t & H1 & H2 & H3 & H4 & _).
  - reflexivity.
  - reflexivity.
  - intros r err. unfold example_outcome. destruct (_ =? _)%string; [|discriminate].
    intros [= <-]. vm_compute. reflexivity.
  - apply two_pending_ok.
  - exists w', claimed, t. split; [exact H1|]. split; [exact H3|]. split; [exact H4|].
    apply Permutation_length in H2. rewrite H2. vm_compute. reflexivity.
Defined.

Lemma retryBackoff_correct_witness :
  0 < retryBackoff (fun _ => - 2 ^ 63) DefaultPublisherOptions 2000 <= 300 * second
  /\ retryBackoff (fun _ => - 2 ^ 63) DefaultPublisherOptions 3 = 120 * second.
Proof.
  split; [|vm_compute; reflexivity].
  apply (retryBackoff_correct (fun _ => - 2 ^ 63) DefaultPublisherOptions).
  - reflexivity.
  - vm_compute. discriminate.
  - vm_compute. discriminate.
  - intros v Hv. left. vm_compute. discriminate.
Defined.

(** A publisher is late: its lease has expired and another one has claimed,
    dispatched and settled the record when its own dispatch fails. *)
Definition late_failure_calls : list outbox_call :=
  [CallCreate 1 (new_record "a");
   CallClaimPending no_locks 1 30 100;                       (* publisher A *)
   CallClaimPending no_locks 1 30 140;                       (* publisher B *)
   CallMarkPublished (example_uuid 0) 141;                   (* B *)
   CallMarkFailed (example_uuid 0) "timeout" 200 150 5].     (* A *)

(** [MarkFailed] does not look at the status of the row: when a publisher
    whose lease has expired reports its failure after another one has published
    the record, the record is failed again and the next claim hands it out for
    one more dispatch, although it keeps its publication time. *)
Theorem late_failure_reopens_published_record :
  let t := (run_calls (S := OutboxTable) late_failure_calls empty_outbox).2 in
  map record_Status (ot_rows t) = [outboxStatusFailed]
  /\ map record_PublishedAt (ot_rows t) = [Some 141]
  /\ exists r t', ClaimPending (S := OutboxTable) no_locks 1 30 200 t = (Ok [r], t')
     /\ record_ID r = example_uuid 0 /\ record_PublishedAt r = Some 141.
Proof. vm_compute. split_and!; [done..|]. by eexists _, _. Qed.

(** A message of one byte too many, whose last character takes two bytes. *)
Fixpoint repeat_string (n : nat) (a : ascii) (s : string) : string :=
  match n with O => s | S n' => String a (repeat_string n' a s) end.
Definition long_message : string :=
  repeat_string 4095 "x"%char (String (ascii_of_nat 195) (String (ascii_of_nat 169) "")).

(** The error message is stored as a prefix of at most the configured number
    of bytes, and stays valid UTF-8 when it is ASCII; but the cut may fall inside
    a character: then the server refuses the text, [MarkFailed] fails and the
    record keeps its lease, at every attempt. *)
Theorem truncateMessage_cuts_bytes :
  (forall m n, exists rest, m = truncateMessage m n +:+ rest
     /\ (0 < n -> len (truncateMessage m n) <= n)
     /\ (forallb_string (fun a => byte a <? 128) m = true ->
         valid_utf8 (truncateMessage m n) = true))
  /\ valid_utf8 long_message = true
  /\ forall now, MarkFailed (S := OutboxTable) (example_uuid 0)
       (truncateMessage long_message 4096) now now 5 two_pending = (Err invalid_text, two_pending).
Proof.
  split_and!; [|vm_compute; reflexivity|intros now; vm_compute; reflexivity].
  intros m n. destruct (truncateMessage_prefix m n) as (rest & E & Hlen).
  exists rest. split_and!; [done..|]. intros Ha. apply valid_utf8_ascii.
  unfold truncateMessage. destruct (_ || _); [done|]. by apply forallb_take_string.
Qed.
End Examples.
