(* ===== verification/Events.v ===== *)
(** * Integration events

    [integration/protoradarevents/*.go]: the outbox record of each event of the
    program, with its payload and its deduplication key. *)

From S2P Require Import Prelude Errors GoStrings JsonScan Domain Json Effects Postgres Outbox.

Open Scope string_scope.
Open Scope Z_scope.

Definition aggregateTypeModule : string := "module".
Definition aggregateTypeApprovalRequest : string := "approval_request".
Definition aggregateTypeRuntimeDeployment : string := "runtime_deployment".

Definition EventTypeModuleCreated : string := "protoradar.module.created".
Definition EventTypeModuleVersionPublished : string := "protoradar.module_version.published".
Definition EventTypeModuleVersionDeprecated : string := "protoradar.module_version.deprecated".
Definition EventTypeModuleDependenciesUpdated : string := "protoradar.module_dependencies.updated".
Definition EventTypeBreakingReportCreated : string := "protoradar.breaking_report.created".
Definition EventTypeModuleOwnerAdded : string := "protoradar.module_owner.added".
Definition EventTypeModuleOwnerRemoved : string := "protoradar.module_owner.removed".
Definition EventTypeApprovalRequestCreated : string := "protoradar.approval_request.created".
Definition EventTypeApprovalDecisionRecorded : string := "protoradar.approval_decision.recorded".
Definition EventTypeRuntimeInventoryReported : string := "protoradar.runtime_inventory.reported".

(** The record every constructor ends with. *)
Definition event_record (aggregateType aggregateID eventType dedupKey : string)
    (payload : json) (occurredAt : time) : result Record_ :=
  let? body := Marshal payload in
  Ok (mkRecord "" aggregateType aggregateID eventType dedupKey body "" 0 0 0 None None None "" 0
        occurredAt).

(** [if occurredAt.IsZero() { occurredAt = fallback }]. *)
Definition time_or (t fallback : time) : time := if IsZero t then fallback else t.

Definition NewModuleCreated (module : Module_) (occurredAt : time) : result Record_ :=
  let moduleID := module_ID module in
  event_record aggregateTypeModule moduleID EventTypeModuleCreated
    ("module:" +:+ moduleID +:+ ":created")
    (JObject [("module_id", JString moduleID); ("module_name", JString (module_Name module));
              ("repository_url", JString (module_RepositoryURL module));
              ("occurred_at", JTime occurredAt)])
    occurredAt.

Definition descriptorMetadataSummaryPayload (s : DescriptorMetadataSummary) : json :=
  JObject [("file_count", JInt (summary_FileCount s)); ("import_count", JInt (summary_ImportCount s));
           ("service_count", JInt (summary_ServiceCount s));
           ("method_count", JInt (summary_MethodCount s));
           ("message_count", JInt (summary_MessageCount s));
           ("field_count", JInt (summary_FieldCount s)); ("enum_count", JInt (summary_EnumCount s));
           ("enum_value_count", JInt (summary_EnumValueCount s))].

Record ModuleVersionPublished := mkModuleVersionPublished {
  published_Module : Module_;
  published_Version : ModuleVersion;
  published_SourceArtifact : Artifact;
  published_BufImageArtifact : Artifact;
  published_BufConfig : BufConfigInfo;
  published_LintResult : BufLintResult;
  published_MetadataSummary : DescriptorMetadataSummary;
  published_OccurredAt : time }.

Definition NewModuleVersionPublished (event : ModuleVersionPublished) : result Record_ :=
  let lintStatus := lint_Status (published_LintResult event) in
  let lintStatus := if (lintStatus =? "")%string then BufLintStatusNotRun else lintStatus in
  let moduleID := module_ID (published_Module event) in
  let version := version_Version (published_Version event) in
  event_record aggregateTypeModule moduleID EventTypeModuleVersionPublished
    ("module:" +:+ moduleID +:+ ":version:" +:+ version +:+ ":published")
    (JObject [("module_id", JString moduleID);
              ("module_name", JString (module_Name (published_Module event)));
              ("module_version_id", JString (version_ID (published_Version event)));
              ("version", JString version);
              ("digest", JString (version_Digest (published_Version event)));
              ("source_artifact_checksum_sha256",
                JString (artifact_ChecksumSHA256 (published_SourceArtifact event)));
              ("source_artifact_size_bytes", JInt (artifact_SizeBytes (published_SourceArtifact event)));
              ("buf_image_checksum_sha256",
                JString (artifact_ChecksumSHA256 (published_BufImageArtifact event)));
              ("buf_image_size_bytes", JInt (artifact_SizeBytes (published_BufImageArtifact event)));
              ("buf_yaml_present", JBool (buf_YAMLPresent (published_BufConfig event)));
              ("buf_lock_present", JBool (buf_LockPresent (published_BufConfig event)));
              ("lint_status", JString lintStatus);
              ("descriptor_summary",
                descriptorMetadataSummaryPayload (published_MetadataSummary event));
              ("occurred_at", JTime (published_OccurredAt event))])
    (published_OccurredAt event).

Record ModuleDependenciesUpdated := mkModuleDependenciesUpdated {
  updated_Module : Module_;
  updated_Version : ModuleVersion;
  updated_DependencyCount : Z;
  updated_UnresolvedDependencyCount : Z;
  updated_OccurredAt : time }.

Definition NewModuleDependenciesUpdated (event : ModuleDependenciesUpdated) : result Record_ :=
  let moduleID := module_ID (updated_Module event) in
  let version := version_Version (updated_Version event) in
  event_record aggregateTypeModule moduleID EventTypeModuleDependenciesUpdated
    ("module:" +:+ moduleID +:+ ":version:" +:+ version +:+ ":dependencies-updated")
    (JObject [("module_id", JString moduleID);
              ("module_name", JString (module_Name (updated_Module event)));
              ("module_version_id", JString (version_ID (updated_Version event)));
              ("version", JString version);
              ("dependency_count", JInt (updated_DependencyCount event));
              ("unresolved_dependency_count", JInt (updated_UnresolvedDependencyCount event));
              ("occurred_at", JTime (updated_OccurredAt event))])
    (updated_OccurredAt event).

Record ModuleVersionDeprecated := mkModuleVersionDeprecated {
  deprecated_Module : Module_;
  deprecated_Version : ModuleVersion;
  deprecated_DeprecatedBy : string;
  deprecated_DeprecationReason : string;
  deprecated_OccurredAt : time }.

Definition NewModuleVersionDeprecated (event : ModuleVersionDeprecated) : result Record_ :=
  let moduleID := module_ID (deprecated_Module event) in
  let version := version_Version (deprecated_Version event) in
  event_record aggregateTypeModule moduleID EventTypeModuleVersionDeprecated
    ("module:" +:+ moduleID +:+ ":version:" +:+ version +:+ ":deprecated")
    (JObject [("module_id", JString moduleID);
              ("module_name", JString (module_Name (deprecated_Module event)));
              ("module_version_id", JString (version_ID (deprecated_Version event)));
              ("version", JString version);
              ("deprecated_by", JString (deprecated_DeprecatedBy event));
              ("deprecation_reason", JString (deprecated_DeprecationReason event));
              ("occurred_at", JTime (deprecated_OccurredAt event))])
    (deprecated_OccurredAt event).

Definition NewBreakingReportCreated (report : BreakingReport) : result Record_ :=
  event_record aggregateTypeModule (report_ModuleID report) EventTypeBreakingReportCreated
    ("breaking-report:" +:+ report_ID report +:+ ":created")
    (JObject [("report_id", JString (report_ID report));
              ("module_id", JString (report_ModuleID report));
              ("module_name", JString (report_ModuleName report));
              ("base_version_id", JString (report_BaseVersionID report));
              ("base_version", JString (report_BaseVersion report));
              ("target_ref", JString (report_TargetRef report));
              ("status", JString (report_Status report));
              ("change_count", JInt (report_ChangeCount report));
              ("created_at", JTime (report_CreatedAt report))])
    (report_CreatedAt report).

(** [ModuleOwnerAdded] and [ModuleOwnerRemoved] have the same fields. *)
Record ModuleOwnerChanged := mkModuleOwnerChanged {
  changed_Owner : ModuleOwner;
  changed_Actor : string;
  changed_OccurredAt : time }.

Definition owner_payload (event : ModuleOwnerChanged) (occurredAt : time) : json :=
  let owner := changed_Owner event in
  JObject ([("owner_id", JString (owner_ID owner)); ("module_id", JString (owner_ModuleID owner));
            ("module_name", JString (owner_ModuleName owner));
            ("subject_type", JString (owner_SubjectType owner));
            ("subject", JString (owner_Subject owner)); ("role", JString (owner_Role owner))]
           ++ omitempty "actor" (changed_Actor event)
           ++ [("occurred_at", JTime occurredAt)])%list.

Definition NewModuleOwnerAdded (event : ModuleOwnerChanged) : result Record_ :=
  let occurredAt := time_or (changed_OccurredAt event) (owner_CreatedAt (changed_Owner event)) in
  let moduleID := owner_ModuleID (changed_Owner event) in
  event_record aggregateTypeModule moduleID EventTypeModuleOwnerAdded
    ("module:" +:+ moduleID +:+ ":owner:" +:+ owner_ID (changed_Owner event) +:+ ":added")
    (owner_payload event occurredAt) occurredAt.

Definition NewModuleOwnerRemoved (event : ModuleOwnerChanged) : result Record_ :=
  let occurredAt := time_or (changed_OccurredAt event) (owner_UpdatedAt (changed_Owner event)) in
  let moduleID := owner_ModuleID (changed_Owner event) in
  event_record aggregateTypeModule moduleID EventTypeModuleOwnerRemoved
    ("module:" +:+ moduleID +:+ ":owner:" +:+ owner_ID (changed_Owner event) +:+ ":removed")
    (owner_payload event occurredAt) occurredAt.

Definition breakingReportIDString (id : option BreakingReportID) : string := default "" id.

Record ApprovalRequestCreated := mkApprovalRequestCreated {
  created_Request : ApprovalRequest;
  created_Actor : string;
  created_OccurredAt : time }.

Definition NewApprovalRequestCreated (event : ApprovalRequestCreated) : result Record_ :=
  let request := created_Request event in
  let occurredAt := time_or (created_OccurredAt event) (request_CreatedAt request) in
  let requestID := request_ID request in
  event_record aggregateTypeApprovalRequest requestID EventTypeApprovalRequestCreated
    ("approval-request:" +:+ requestID +:+ ":created")
    (JObject ([("approval_request_id", JString requestID);
               ("module_id", JString (request_ModuleID request));
               ("module_name", JString (request_ModuleName request))]
              ++ omitempty "breaking_report_id" (breakingReportIDString (request_BreakingReportID request))
              ++ [("target_ref", JString (request_TargetRef request));
                  ("status", JString (request_Status request));
                  ("required_approvals", JInt (request_RequiredApprovals request));
                  ("received_approvals", JInt (request_ReceivedApprovals request))]
              ++ omitempty "actor" (created_Actor event)
              ++ [("occurred_at", JTime occurredAt)])%list)
    occurredAt.

Record ApprovalDecisionRecorded := mkApprovalDecisionRecorded {
  recorded_Decision : ApprovalDecision;
  recorded_ModuleID : ModuleID;
  recorded_ModuleName : ModuleName;
  recorded_BreakingReportID : option BreakingReportID;
  recorded_OccurredAt : time }.

Definition NewApprovalDecisionRecorded (event : ApprovalDecisionRecorded) : result Record_ :=
  let decision := recorded_Decision event in
  let occurredAt := time_or (recorded_OccurredAt event) (decision_CreatedAt decision) in
  let requestID := decision_ApprovalRequestID decision in
  event_record aggregateTypeApprovalRequest requestID EventTypeApprovalDecisionRecorded
    ("approval-decision:" +:+ decision_ID decision +:+ ":recorded")
    (JObject ([("approval_decision_id", JString (decision_ID decision));
               ("approval_request_id", JString requestID);
               ("requirement_id", JString (decision_RequirementID decision));
               ("decision", JString (decision_Decision decision));
               ("decided_by", JString (decision_DecidedBy decision))]
              ++ omitempty "module_id" (recorded_ModuleID event)
              ++ omitempty "module_name" (recorded_ModuleName event)
              ++ omitempty "breaking_report_id" (breakingReportIDString (recorded_BreakingReportID event))
              ++ [("occurred_at", JTime occurredAt)])%list)
    occurredAt.

Record RuntimeInventoryDriftCounts := mkDriftCounts {
  drift_UpToDate : Z;
  drift_BehindLatest : Z;
  drift_UnknownVersion : Z;
  drift_DeprecatedVersion : Z }.

Record RuntimeInventoryReported := mkRuntimeInventoryReported {
  reported_DeploymentID : RuntimeDeploymentID;
  reported_ServiceID : RuntimeServiceID;
  reported_ServiceName : RuntimeServiceName;
  reported_Environment : RuntimeEnvironment;
  reported_GitCommit : string;
  reported_BuildVersion : string;
  reported_ModuleUsageCount : Z;
  reported_DriftCounts : RuntimeInventoryDriftCounts;
  reported_OccurredAt : time }.

Definition NewRuntimeInventoryReported (event : RuntimeInventoryReported) : result Record_ :=
  let deploymentID := reported_DeploymentID event in
  let counts := reported_DriftCounts event in
  event_record aggregateTypeRuntimeDeployment deploymentID EventTypeRuntimeInventoryReported
    ("runtime-deployment:" +:+ deploymentID +:+ ":reported")
    (JObject [("deployment_id", JString deploymentID);
              ("service_id", JString (reported_ServiceID event));
              ("service_name", JString (reported_ServiceName event));
              ("environment", JString (reported_Environment event));
              ("git_commit", JString (reported_GitCommit event));
              ("build_version", JString (reported_BuildVersion event));
              ("module_usage_count", JInt (reported_ModuleUsageCount event));
              ("drift_counts",
                JObject [("up_to_date", JInt (drift_UpToDate counts));
                         ("behind_latest", JInt (drift_BehindLatest counts));
                         ("unknown_version", JInt (drift_UnknownVersion counts));
                         ("deprecated_version", JInt (drift_DeprecatedVersion counts))]);
              ("occurred_at", JTime (reported_OccurredAt event))])
    (reported_OccurredAt event).

(** ** Deduplication keys *)

(** The events with the data their constructors take. *)
Inductive integration_event :=
| IModuleCreated (module : Module_) (occurredAt : time)
| IModuleVersionPublished (event : ModuleVersionPublished)
| IModuleDependenciesUpdated (event : ModuleDependenciesUpdated)
| IModuleVersionDeprecated (event : ModuleVersionDeprecated)
| IBreakingReportCreated (report : BreakingReport)
| IModuleOwnerAdded (event : ModuleOwnerChanged)
| IModuleOwnerRemoved (event : ModuleOwnerChanged)
| IApprovalRequestCreated (event : ApprovalRequestCreated)
| IApprovalDecisionRecorded (event : ApprovalDecisionRecorded)
| IRuntimeInventoryReported (event : RuntimeInventoryReported).

Definition NewRecord (e : integration_event) : result Record_ :=
  match e with
  | IModuleCreated m t => NewModuleCreated m t
  | IModuleVersionPublished e => NewModuleVersionPublished e
  | IModuleDependenciesUpdated e => NewModuleDependenciesUpdated e
  | IModuleVersionDeprecated e => NewModuleVersionDeprecated e
  | IBreakingReportCreated r => NewBreakingReportCreated r
  | IModuleOwnerAdded e => NewModuleOwnerAdded e
  | IModuleOwnerRemoved e => NewModuleOwnerRemoved e
  | IApprovalRequestCreated e => NewApprovalRequestCreated e
  | IApprovalDecisionRecorded e => NewApprovalDecisionRecorded e
  | IRuntimeInventoryReported e => NewRuntimeInventoryReported e
  end.

(** What an event is about. *)
Inductive event_subject :=
| AboutModule (id : ModuleID)
| AboutPublication (id : ModuleID) (version : Version)
| AboutDependencies (id : ModuleID) (version : Version)
| AboutDeprecation (id : ModuleID) (version : Version)
| AboutReport (id : BreakingReportID)
| AboutOwnerAdded (id : ModuleID) (owner : ModuleOwnerID)
| AboutOwnerRemoved (id : ModuleID) (owner : ModuleOwnerID)
| AboutRequest (id : ApprovalRequestID)
| AboutDecision (id : ApprovalDecisionID)
| AboutDeployment (id : RuntimeDeploymentID).

Definition subject_of (e : integration_event) : event_subject :=
  match e with
  | IModuleCreated m _ => AboutModule (module_ID m)
  | IModuleVersionPublished e =>
      AboutPublication (module_ID (published_Module e)) (version_Version (published_Version e))
  | IModuleDependenciesUpdated e =>
      AboutDependencies (module_ID (updated_Module e)) (version_Version (updated_Version e))
  | IModuleVersionDeprecated e =>
      AboutDeprecation (module_ID (deprecated_Module e)) (version_Version (deprecated_Version e))
  | IBreakingReportCreated r => AboutReport (report_ID r)
  | IModuleOwnerAdded e =>
      AboutOwnerAdded (owner_ModuleID (changed_Owner e)) (owner_ID (changed_Owner e))
  | IModuleOwnerRemoved e =>
      AboutOwnerRemoved (owner_ModuleID (changed_Owner e)) (owner_ID (changed_Owner e))
  | IApprovalRequestCreated e => AboutRequest (request_ID (created_Request e))
  | IApprovalDecisionRecorded e => AboutDecision (decision_ID (recorded_Decision e))
  | IRuntimeInventoryReported e => AboutDeployment (reported_DeploymentID e)
  end.

Definition colon : ascii := ":"%char.

(** Identifiers hold no colon; versions may. *)
Definition subject_ids_plain (s : event_subject) : Prop :=
  match s with
  | AboutModule id | AboutPublication id _ | AboutDependencies id _ | AboutDeprecation id _
  | AboutReport id | AboutRequest id | AboutDecision id | AboutDeployment id =>
      no_byte colon id = true
  | AboutOwnerAdded id owner | AboutOwnerRemoved id owner =>
      no_byte colon id = true /\ no_byte colon owner = true
  end.

(** The deduplication key, cut at its colons. *)
Definition key_pieces (s : event_subject) : list string :=
  match s with
  | AboutModule id => ["module"; id; "created"]
  | AboutPublication id v => ("module" :: id :: "version" :: split_byte colon v ++ ["published"])%list
  | AboutDependencies id v =>
      ("module" :: id :: "version" :: split_byte colon v ++ ["dependencies-updated"])%list
  | AboutDeprecation id v => ("module" :: id :: "version" :: split_byte colon v ++ ["deprecated"])%list
  | AboutReport id => ["breaking-report"; id; "created"]
  | AboutOwnerAdded id owner => ["module"; id; "owner"; owner; "added"]
  | AboutOwnerRemoved id owner => ["module"; id; "owner"; owner; "removed"]
  | AboutRequest id => ["approval-request"; id; "created"]
  | AboutDecision id => ["approval-decision"; id; "recorded"]
  | AboutDeployment id => ["runtime-deployment"; id; "reported"]
  end.

(** A piece without colon, then the rest of the key. *)
Lemma split_piece p rest :
  no_byte colon p = true ->
  split_byte colon (p +:+ ":" +:+ rest) = p :: split_byte colon rest.
Proof.
  intros H. change (p +:+ ":" +:+ rest) with (p +:+ String colon rest).
  by rewrite split_byte_app, split_byte_none.
Qed.

Lemma split_last v suffix :
  no_byte colon suffix = true ->
  split_byte colon (v +:+ ":" +:+ suffix) = (split_byte colon v ++ [suffix])%list.
Proof.
  intros H. change (v +:+ ":" +:+ suffix) with (v +:+ String colon suffix).
  by rewrite split_byte_app, (split_byte_none colon suffix).
Qed.

Lemma event_record_DedupKey a i t k p o r : event_record a i t k p o = Ok r -> record_DedupKey r = k.
Proof. unfold event_record. rewrite result_bind_Ok. by intros (b & _ & [= <-]). Qed.

Lemma key_of_record e r :
  NewRecord e = Ok r -> subject_ids_plain (subject_of e) ->
  split_byte colon (record_DedupKey r) = key_pieces (subject_of e).
Proof.
  intros Hr Hp. destruct e; simpl in Hr, Hp; apply event_record_DedupKey in Hr; rewrite Hr;
    cbn [subject_of key_pieces].
  all: match goal with
       | |- split_byte colon (?h +:+ ?t) = ?x :: _ =>
           change (h +:+ t) with (x +:+ ":" +:+ t); rewrite split_piece by done
       end.
  - change ":created" with (":" +:+ "created"). by rewrite split_piece.
  - change (":version:" +:+ ?t) with (":" +:+ "version" +:+ ":" +:+ t).
    rewrite !split_piece by done. change ":published" with (":" +:+ "published"). by rewrite split_last.
  - change (":version:" +:+ ?t) with (":" +:+ "version" +:+ ":" +:+ t).
    rewrite !split_piece by done.
    change ":dependencies-updated" with (":" +:+ "dependencies-updated"). by rewrite split_last.
  - change (":version:" +:+ ?t) with (":" +:+ "version" +:+ ":" +:+ t).
    rewrite !split_piece by done. change ":deprecated" with (":" +:+ "deprecated"). by rewrite split_last.
  - change ":created" with (":" +:+ "created"). by rewrite split_piece.
  - destruct Hp. change (":owner:" +:+ ?t) with (":" +:+ "owner" +:+ ":" +:+ t).
    change ":added" with (":" +:+ "added"). by rewrite !split_piece.
  - destruct Hp. change (":owner:" +:+ ?t) with (":" +:+ "owner" +:+ ":" +:+ t).
    change ":removed" with (":" +:+ "removed"). by rewrite !split_piece.
  - change ":created" with (":" +:+ "created"). by rewrite split_piece.
  - change ":recorded" with (":" +:+ "recorded"). by rewrite split_piece.
  - change ":reported" with (":" +:+ "reported"). by rewrite split_piece.
Qed.

Lemma key_pieces_inj s1 s2 : key_pieces s1 = key_pieces s2 -> s1 = s2.
Proof.
  destruct s1, s2; cbn [key_pieces]; intros E; try discriminate E; try (by inversion E).
  all: injection E as -> E; apply app_inj_tail in E as [E Hs]; try discriminate Hs.
  all: by apply split_byte_inj in E as ->.
Qed.

(** two records have the same deduplication key exactly when they report the
    same kind of event about the same module, version, owner, report, request,
    decision or deployment, whatever the texts of the versions. *)
Theorem dedup_keys_identify_events (e1 e2 : integration_event) (r1 r2 : Record_)
    (H1 : NewRecord e1 = Ok r1) (H2 : NewRecord e2 = Ok r2)
    (P1 : subject_ids_plain (subject_of e1)) (P2 : subject_ids_plain (subject_of e2)) :
  record_DedupKey r1 = record_DedupKey r2 <-> subject_of e1 = subject_of e2.
Proof.
  pose proof (key_of_record e1 r1 H1 P1) as K1. pose proof (key_of_record e2 r2 H2 P2) as K2.
  split; intros E.
  - apply key_pieces_inj. by rewrite <- K1, <- K2, E.
  - apply (split_byte_inj colon). by rewrite K1, K2, E.
Qed.

Definition example_module : Module_ := mkModule "m1" "users" "" "" 0 0.
Definition example_version : ModuleVersion :=
  mkModuleVersion "v1" "m1" "1:published" ModuleVersionStatusPublished "d" 0 None None "" "".
Definition example_dependencies : integration_event :=
  IModuleDependenciesUpdated (mkModuleDependenciesUpdated example_module example_version 1 0 example_time).
Definition example_deprecation : integration_event :=
  IModuleVersionDeprecated (mkModuleVersionDeprecated example_module example_version "ann" "" example_time).

Lemma dedup_keys_identify_events_witness :
  exists r1 r2, NewRecord example_dependencies = Ok r1 /\ NewRecord example_deprecation = Ok r2
    /\ record_DedupKey r1 = "module:m1:version:1:published:dependencies-updated"
    /\ record_DedupKey r1 <> record_DedupKey r2.
Proof.
  eexists _, _. split; [vm_compute; reflexivity|]. split; [vm_compute; reflexivity|].
  split; [reflexivity|]. intros E.
  assert (Hs : subject_of example_dependencies = subject_of example_deprecation).
  { apply (dedup_keys_identify_events example_dependencies example_deprecation _ _
             ltac:(vm_compute; reflexivity) ltac:(vm_compute; reflexivity)
             ltac:(vm_compute; reflexivity) ltac:(vm_compute; reflexivity)). exact E. }
  vm_compute in Hs. discriminate Hs.
Defined.
