(* ===== verification/Tables.v ===== *)
(** * Rows of the catalogue tables

    The tables behind the registry whose rows are not already domain records:
    the configuration of [buf], the descriptors of a version, which
    [repository/postgres/descriptor_metadata.go] spreads over eight tables, and
    the rest of the catalogue. *)

From S2P Require Import Prelude Errors GoStrings Domain.

Open Scope string_scope.
Open Scope Z_scope.

Record BufConfigRow := mkBufConfigRow {
  bufRow_ID : string;
  bufRow_ModuleVersionID : ModuleVersionID;
  bufRow_Config : BufConfigInfo;
  bufRow_CreatedAt : time }.

(** ** Descriptors

    A file, import, service, method, message, field, enumeration or value is a
    row with its own identifier and that of what it belongs to.  The nested
    values are columns: the lists inside them are not stored. *)

Record ProtoFileRow := mkProtoFileRow {
  fileRow_ID : string;
  fileRow_ModuleVersionID : ModuleVersionID;
  fileRow_Path : string;
  fileRow_PackageName : string;
  fileRow_Syntax : string }.

Record ProtoImportRow := mkProtoImportRow {
  importRow_FileID : string;
  importRow_Import : ProtoImport }.

Record ProtoServiceRow := mkProtoServiceRow {
  serviceRow_ID : string;
  serviceRow_ModuleVersionID : ModuleVersionID;
  serviceRow_FileID : string;
  serviceRow_PackageName : string;
  serviceRow_Name : string;
  serviceRow_FullName : string }.

Record ProtoMethodRow := mkProtoMethodRow {
  methodRow_ServiceID : string;
  methodRow_Method : ProtoMethod }.

Record ProtoMessageRow := mkProtoMessageRow {
  messageRow_ID : string;
  messageRow_ModuleVersionID : ModuleVersionID;
  messageRow_FileID : string;
  messageRow_ParentID : option string;
  messageRow_PackageName : string;
  messageRow_Name : string;
  messageRow_FullName : string }.

Record ProtoFieldRow := mkProtoFieldRow {
  fieldRow_MessageID : string;
  fieldRow_Field : ProtoField }.

Record ProtoEnumRow := mkProtoEnumRow {
  enumRow_ID : string;
  enumRow_ModuleVersionID : ModuleVersionID;
  enumRow_FileID : string;
  enumRow_PackageName : string;
  enumRow_Name : string;
  enumRow_FullName : string }.

Record ProtoEnumValueRow := mkProtoEnumValueRow {
  enumValueRow_EnumID : string;
  enumValueRow_Value : ProtoEnumValue }.

Record Descriptors := mkDescriptors {
  ds_files : list ProtoFileRow;
  ds_imports : list ProtoImportRow;
  ds_services : list ProtoServiceRow;
  ds_methods : list ProtoMethodRow;
  ds_messages : list ProtoMessageRow;
  ds_fields : list ProtoFieldRow;
  ds_enums : list ProtoEnumRow;
  ds_values : list ProtoEnumValueRow;
  ds_uuids : nat }.          (* values of gen_random_uuid() used so far *)

Definition set_ds_files f (ds : Descriptors) : Descriptors :=
  mkDescriptors (f (ds_files ds)) (ds_imports ds) (ds_services ds) (ds_methods ds) (ds_messages ds)
    (ds_fields ds) (ds_enums ds) (ds_values ds) (ds_uuids ds).
Definition set_ds_imports f (ds : Descriptors) : Descriptors :=
  mkDescriptors (ds_files ds) (f (ds_imports ds)) (ds_services ds) (ds_methods ds) (ds_messages ds)
    (ds_fields ds) (ds_enums ds) (ds_values ds) (ds_uuids ds).
Definition set_ds_services f (ds : Descriptors) : Descriptors :=
  mkDescriptors (ds_files ds) (ds_imports ds) (f (ds_services ds)) (ds_methods ds) (ds_messages ds)
    (ds_fields ds) (ds_enums ds) (ds_values ds) (ds_uuids ds).
Definition set_ds_methods f (ds : Descriptors) : Descriptors :=
  mkDescriptors (ds_files ds) (ds_imports ds) (ds_services ds) (f (ds_methods ds)) (ds_messages ds)
    (ds_fields ds) (ds_enums ds) (ds_values ds) (ds_uuids ds).
Definition set_ds_messages f (ds : Descriptors) : Descriptors :=
  mkDescriptors (ds_files ds) (ds_imports ds) (ds_services ds) (ds_methods ds) (f (ds_messages ds))
    (ds_fields ds) (ds_enums ds) (ds_values ds) (ds_uuids ds).
Definition set_ds_fields f (ds : Descriptors) : Descriptors :=
  mkDescriptors (ds_files ds) (ds_imports ds) (ds_services ds) (ds_methods ds) (ds_messages ds)
    (f (ds_fields ds)) (ds_enums ds) (ds_values ds) (ds_uuids ds).
Definition set_ds_enums f (ds : Descriptors) : Descriptors :=
  mkDescriptors (ds_files ds) (ds_imports ds) (ds_services ds) (ds_methods ds) (ds_messages ds)
    (ds_fields ds) (f (ds_enums ds)) (ds_values ds) (ds_uuids ds).
Definition set_ds_values f (ds : Descriptors) : Descriptors :=
  mkDescriptors (ds_files ds) (ds_imports ds) (ds_services ds) (ds_methods ds) (ds_messages ds)
    (ds_fields ds) (ds_enums ds) (f (ds_values ds)) (ds_uuids ds).
Definition next_uuid (ds : Descriptors) : Descriptors :=
  mkDescriptors (ds_files ds) (ds_imports ds) (ds_services ds) (ds_methods ds) (ds_messages ds)
    (ds_fields ds) (ds_enums ds) (ds_values ds) (S (ds_uuids ds)).

(** ** The catalogue *)

Record Catalog := mkCatalog {
  ct_artifacts : list Artifact;
  ct_buf_configs : list BufConfigRow;
  ct_descriptors : Descriptors;
  ct_dependencies : list ModuleDependency;
  ct_unresolved : list UnresolvedProtoDependency;
  ct_services : list RuntimeService;
  ct_deployments : list RuntimeDeployment;
  ct_usages : list RuntimeModuleUsage;
  ct_gitlab_projects : list ModuleGitLabProject }.

Definition set_artifacts f (c : Catalog) : Catalog :=
  mkCatalog (f (ct_artifacts c)) (ct_buf_configs c) (ct_descriptors c) (ct_dependencies c)
    (ct_unresolved c) (ct_services c) (ct_deployments c) (ct_usages c) (ct_gitlab_projects c).
Definition set_buf_configs f (c : Catalog) : Catalog :=
  mkCatalog (ct_artifacts c) (f (ct_buf_configs c)) (ct_descriptors c) (ct_dependencies c)
    (ct_unresolved c) (ct_services c) (ct_deployments c) (ct_usages c) (ct_gitlab_projects c).
Definition set_descriptors (ds : Descriptors) (c : Catalog) : Catalog :=
  mkCatalog (ct_artifacts c) (ct_buf_configs c) ds (ct_dependencies c)
    (ct_unresolved c) (ct_services c) (ct_deployments c) (ct_usages c) (ct_gitlab_projects c).
Definition set_dependencies f (c : Catalog) : Catalog :=
  mkCatalog (ct_artifacts c) (ct_buf_configs c) (ct_descriptors c) (f (ct_dependencies c))
    (ct_unresolved c) (ct_services c) (ct_deployments c) (ct_usages c) (ct_gitlab_projects c).
Definition set_unresolved f (c : Catalog) : Catalog :=
  mkCatalog (ct_artifacts c) (ct_buf_configs c) (ct_descriptors c) (ct_dependencies c)
    (f (ct_unresolved c)) (ct_services c) (ct_deployments c) (ct_usages c) (ct_gitlab_projects c).
Definition set_services f (c : Catalog) : Catalog :=
  mkCatalog (ct_artifacts c) (ct_buf_configs c) (ct_descriptors c) (ct_dependencies c)
    (ct_unresolved c) (f (ct_services c)) (ct_deployments c) (ct_usages c) (ct_gitlab_projects c).
Definition set_deployments f (c : Catalog) : Catalog :=
  mkCatalog (ct_artifacts c) (ct_buf_configs c) (ct_descriptors c) (ct_dependencies c)
    (ct_unresolved c) (ct_services c) (f (ct_deployments c)) (ct_usages c) (ct_gitlab_projects c).
Definition set_usages f (c : Catalog) : Catalog :=
  mkCatalog (ct_artifacts c) (ct_buf_configs c) (ct_descriptors c) (ct_dependencies c)
    (ct_unresolved c) (ct_services c) (ct_deployments c) (f (ct_usages c)) (ct_gitlab_projects c).

Definition set_gitlab_projects f (c : Catalog) : Catalog :=
  mkCatalog (ct_artifacts c) (ct_buf_configs c) (ct_descriptors c) (ct_dependencies c)
    (ct_unresolved c) (ct_services c) (ct_deployments c) (ct_usages c) (f (ct_gitlab_projects c)).

Definition empty_catalog : Catalog :=
  mkCatalog [] [] (mkDescriptors [] [] [] [] [] [] [] [] 0) [] [] [] [] [] [].
