(* ===== verification/World.v ===== *)
(** * The state of the server and its transactions

    The database as its tables, the state of the process that uses it, and
    [WithinTransaction] of [repository/postgres/db.go].  Each statement of the
    program is one step of a world that may refuse it: a fault is a lost
    connection, after which it is open whether the statement was applied. *)

From S2P Require Import Prelude Errors GoStrings Domain Effects Postgres Outbox Tables.

Open Scope string_scope.
Open Scope Z_scope.

(** ** The tables

    Columns that a query joins from another table are not stored: the name of
    the module of an owner or of a request, the version of a report, the
    requirements and the decisions of a request are empty in a row. *)

Record Database := mkDatabase {
  db_modules : list Module_;
  db_versions : list ModuleVersion;
  db_reports : list BreakingReport;
  db_changes : list BreakingChange;
  db_owners : list ModuleOwner;
  db_requests : list ApprovalRequest;
  db_requirements : list ApprovalRequirement;
  db_decisions : list ApprovalDecision;
  db_audit : list GovernanceAuditEvent;
  db_tokens : list APIToken;
  db_outbox : OutboxTable;
  db_catalog : Catalog }.

Definition set_modules f (d : Database) : Database :=
  mkDatabase (f (db_modules d)) (db_versions d) (db_reports d) (db_changes d) (db_owners d)
    (db_requests d) (db_requirements d) (db_decisions d) (db_audit d) (db_tokens d)
    (db_outbox d) (db_catalog d).
Definition set_versions f (d : Database) : Database :=
  mkDatabase (db_modules d) (f (db_versions d)) (db_reports d) (db_changes d) (db_owners d)
    (db_requests d) (db_requirements d) (db_decisions d) (db_audit d) (db_tokens d)
    (db_outbox d) (db_catalog d).
Definition set_reports f (d : Database) : Database :=
  mkDatabase (db_modules d) (db_versions d) (f (db_reports d)) (db_changes d) (db_owners d)
    (db_requests d) (db_requirements d) (db_decisions d) (db_audit d) (db_tokens d)
    (db_outbox d) (db_catalog d).
Definition set_changes f (d : Database) : Database :=
  mkDatabase (db_modules d) (db_versions d) (db_reports d) (f (db_changes d)) (db_owners d)
    (db_requests d) (db_requirements d) (db_decisions d) (db_audit d) (db_tokens d)
    (db_outbox d) (db_catalog d).
Definition set_owners f (d : Database) : Database :=
  mkDatabase (db_modules d) (db_versions d) (db_reports d) (db_changes d) (f (db_owners d))
    (db_requests d) (db_requirements d) (db_decisions d) (db_audit d) (db_tokens d)
    (db_outbox d) (db_catalog d).
Definition set_requests f (d : Database) : Database :=
  mkDatabase (db_modules d) (db_versions d) (db_reports d) (db_changes d) (db_owners d)
    (f (db_requests d)) (db_requirements d) (db_decisions d) (db_audit d) (db_tokens d)
    (db_outbox d) (db_catalog d).
Definition set_requirements f (d : Database) : Database :=
  mkDatabase (db_modules d) (db_versions d) (db_reports d) (db_changes d) (db_owners d)
    (db_requests d) (f (db_requirements d)) (db_decisions d) (db_audit d) (db_tokens d)
    (db_outbox d) (db_catalog d).
Definition set_decisions f (d : Database) : Database :=
  mkDatabase (db_modules d) (db_versions d) (db_reports d) (db_changes d) (db_owners d)
    (db_requests d) (db_requirements d) (f (db_decisions d)) (db_audit d) (db_tokens d)
    (db_outbox d) (db_catalog d).
Definition set_audit f (d : Database) : Database :=
  mkDatabase (db_modules d) (db_versions d) (db_reports d) (db_changes d) (db_owners d)
    (db_requests d) (db_requirements d) (db_decisions d) (f (db_audit d)) (db_tokens d)
    (db_outbox d) (db_catalog d).
Definition set_tokens f (d : Database) : Database :=
  mkDatabase (db_modules d) (db_versions d) (db_reports d) (db_changes d) (db_owners d)
    (db_requests d) (db_requirements d) (db_decisions d) (db_audit d) (f (db_tokens d))
    (db_outbox d) (db_catalog d).
Definition set_outbox (t : OutboxTable) (d : Database) : Database :=
  mkDatabase (db_modules d) (db_versions d) (db_reports d) (db_changes d) (db_owners d)
    (db_requests d) (db_requirements d) (db_decisions d) (db_audit d) (db_tokens d) t
    (db_catalog d).
Definition set_catalog f (d : Database) : Database :=
  mkDatabase (db_modules d) (db_versions d) (db_reports d) (db_changes d) (db_owners d)
    (db_requests d) (db_requirements d) (db_decisions d) (db_audit d) (db_tokens d)
    (db_outbox d) (f (db_catalog d)).

(** ** The world *)

Record World := mkWorld {
  w_db : Database;       (* as the session sees it *)
  w_tx : bool;           (* the context holds a transaction *)
  w_tick : nat }.        (* effects so far *)

Definition set_db (d : Database) (w : World) : World := mkWorld d (w_tx w) (w_tick w).
Definition tick (w : World) : World := mkWorld (w_db w) (w_tx w) (S (w_tick w)).

(** What the world answers at each effect. *)
Class Env := {
  env_fault : nat -> option error;      (* the connection fails with this error *)
  env_applied : nat -> bool;            (* and the server applied the statement *)
  env_now : nat -> time;                (* time.Now().UTC() *)
  env_rand : nat -> result string }.    (* hex of 16 random bytes *)

(** A failure is a lost connection: no statement reports what it did not find. *)
Class HonestFaults `{ENV : !Env} :=
  fault_external n e : env_fault n = Some e -> exists t, e = EExternal t.
#[global] Hint Mode HonestFaults - : typeclass_instances.

Section Session.
Context `{ENV : !Env}.

Definition exec_db {A} (m : M Database A) : M World A := fun w =>
  let '(r, d) := m (w_db w) in
  match env_fault (w_tick w) with
  | Some e => (Err e, tick (if env_applied (w_tick w) then set_db d w else w))
  | None => (r, tick (set_db d w))
  end.

#[global] Instance world_session : Session World Database.
Proof.
  refine {| view := w_db; exec := @exec_db |}.
  intros A m w. unfold exec_db. destruct (m (w_db w)) as [r d].
  destruct (env_fault (w_tick w)) as [e|]; [right|by left].
  exists e. split; [done|]. destruct (env_applied _); simpl; auto.
Defined.

#[global] Instance world_outbox_session : Session World OutboxTable.
Proof.
  refine {| view := fun w => db_outbox (w_db w);
            exec := fun A (m : M OutboxTable A) => exec_db (zoom db_outbox set_outbox m) |}.
  intros A m w. unfold exec_db, zoom. destruct (m (db_outbox (w_db w))) as [r t].
  destruct (env_fault (w_tick w)) as [e|]; [right|by left].
  exists e. split; [done|]. destruct (env_applied _); simpl; auto.
Defined.

Lemma exec_db_frame {A} (m : M Database A) w :
  w_tick (exec_db m w).2 = S (w_tick w) /\ w_tx (exec_db m w).2 = w_tx w.
Proof.
  unfold exec_db. destruct (m (w_db w)) as [r d]. destruct (env_fault _); [|done].
  by destruct (env_applied _).
Qed.

Lemma exec_outbox_Ok {A} (m : M OutboxTable A) w a w' :
  exec (T := OutboxTable) m w = (Ok a, w') ->
  exists t, m (db_outbox (w_db w)) = (Ok a, t) /\ w_db w' = set_outbox t (w_db w) /\ w_tx w' = w_tx w.
Proof.
  change (exec m w) with (exec_db (zoom db_outbox set_outbox m) w). unfold exec_db, zoom.
  destruct (m (db_outbox (w_db w))) as [r t]. destruct (env_fault _); [done|].
  intros [= -> <-]. by exists t.
Qed.

Definition now : M World time := fun w => (Ok (env_now (w_tick w)), tick w).
Definition random_hex : M World string := fun w => (env_rand (w_tick w), tick w).

(** ** [WithinTransaction]

    A nested call runs in the transaction of the context, so that [Begin] is only
    reached outside of one: a world holds a single session, and the connection that
    a transaction within a transaction would take has no place in it.  A
    transaction whose commit fails may have been applied. *)

Definition Begin : M World unit := fun w =>
  match env_fault (w_tick w) with
  | Some e => (Err e, tick w)
  | None => (Ok tt, tick (mkWorld (w_db w) true (w_tick w)))
  end.

Definition Rollback (before : Database) : M World unit := fun w =>
  (match env_fault (w_tick w) with Some e => Err e | None => Ok tt end,
   tick (mkWorld before false (w_tick w))).

Definition Commit (before : Database) : M World unit := fun w =>
  match env_fault (w_tick w) with
  | Some e => (Err e, tick (mkWorld (if env_applied (w_tick w) then w_db w else before) false (w_tick w)))
  | None => (Ok tt, tick (mkWorld (w_db w) false (w_tick w)))
  end.

Definition WithinTransaction {A} (fn : M World A) : M World A := fun w =>
  if w_tx w then fn w else
  bind Begin (fun _ w1 =>
    match fn w1 with
    | (Err err, w2) =>
        match Rollback (w_db w) w2 with
        | (Err rollbackErr, w3) => (Err (EJoin err rollbackErr), w3)
        | (Ok _, w3) => (Err err, w3)
        end
    | (Ok a, w2) =>
        match Commit (w_db w) w2 with
        | (Err e, w3) => (Err e, w3)
        | (Ok _, w3) => (Ok a, w3)
        end
    end) w.

(** What a transaction leaves: an error and the database as it was, or the
    whole effect of its function, which then did not fail. *)
Lemma WithinTransaction_atomic {A} (fn : M World A) w r w' :
  w_tx w = false -> WithinTransaction fn w = (r, w') ->
  w_tx w' = false
  /\ ((exists e, r = Err e) /\ w_db w' = w_db w
      \/ exists a w2, fn (tick (mkWorld (w_db w) true (w_tick w))) = (Ok a, w2)
           /\ w_db w' = w_db w2 /\ (r = Ok a \/ exists e, r = Err e)).
Proof.
  intros Htx. unfold WithinTransaction. rewrite Htx. unfold bind, Begin.
  destruct (env_fault (w_tick w)) as [e|].
  { intros [= <- <-]. simpl. split; [done|]. left. split; [by exists e|done]. }
  destruct (fn _) as [[a|err] w2] eqn:E.
  - unfold Commit. destruct (env_fault (w_tick w2)) as [e|]; intros [= <- <-]; simpl.
    + split; [done|]. destruct (env_applied _).
      * right. exists a, w2. split_and!; [done..|]. right. by exists e.
      * left. split; [by exists e|done].
    + split; [done|]. right. exists a, w2. split_and!; [done..|]. by left.
  - unfold Rollback. destruct (env_fault (w_tick w2)) as [e|]; intros [= <- <-]; simpl;
      (split; [done|]); left; (split; [by eexists|done]).
Qed.

(** A nested call begins, commits and rolls back nothing. *)
Lemma WithinTransaction_nested {A} (fn : M World A) w : w_tx w = true -> WithinTransaction fn w = fn w.
Proof. unfold WithinTransaction. by intros ->. Qed.

(** C11: a transaction is all or nothing.  A call that is not nested ends outside
    any transaction and either fails and leaves the database as it was, or its
    function succeeded and the database is the one the function left; in the
    second case an error only says that the commit was not acknowledged.  A nested
    call is its function, in the transaction around it: it issues no statement of
    its own, so that a transaction which begins with a nested call is the one
    transaction of both parts, and what the nested call wrote is undone when the
    rest fails. *)
Theorem WithinTransaction_all_or_nothing {A} (fn : M World A) (w w' : World) (r : result A)
    (H : WithinTransaction fn w = (r, w')) :
  (w_tx w = true -> fn w = (r, w'))
  /\ (w_tx w = false ->
        w_tx w' = false
        /\ (forall a, r = Ok a -> exists w2, fn (tick (mkWorld (w_db w) true (w_tick w))) = (Ok a, w2)
              /\ w_db w' = w_db w2)
        /\ (w_db w' <> w_db w -> exists a w2,
              fn (tick (mkWorld (w_db w) true (w_tick w))) = (Ok a, w2) /\ w_db w' = w_db w2))
  /\ (forall B (inner : M World B) (rest : B -> M World A),
        fn = bind (WithinTransaction inner) rest ->
        WithinTransaction (bind inner rest) w = (r, w')
        /\ (forall b w1 e w2, w_tx w = false ->
              inner (tick (mkWorld (w_db w) true (w_tick w))) = (Ok b, w1) -> rest b w1 = (Err e, w2) ->
              (exists e', r = Err e') /\ w_db w' = w_db w)).
Proof.
  split; [intros Htx; by rewrite WithinTransaction_nested in H|]. split.
  - intros Htx. destruct (WithinTransaction_atomic fn w r w' Htx H) as (H1 & [[(e & ->) Hdb]|(a & w2 & Hf & Hdb & Hr)]).
    + split_and!; [done|done|]. intros Hne. by rewrite Hdb in Hne.
    + split_and!; [done| |eauto]. intros b ->. destruct Hr as [[= ->]|[e He]]; [eauto|done].
  - intros B inner rest ->.
    assert (E : forall v, w_tx v = true -> bind (WithinTransaction inner) rest v = bind inner rest v)
      by (intros v Hv; unfold bind; by rewrite WithinTransaction_nested).
    split.
    + rewrite <- H. unfold WithinTransaction at 1 2. destruct (w_tx w) eqn:Htx; [by rewrite E|].
      unfold bind at 1 3. destruct (Begin w) as [[u|e] w1] eqn:Eb; [|done]. rewrite E; [done|].
      unfold Begin in Eb. destruct (env_fault _); by inversion Eb.
    + intros b w1 e w2 Htx Hi Hrest.
      destruct (WithinTransaction_atomic _ w r w' Htx H) as (_ & [[He Hdb]|(a & w3 & Hf & _)]); [done|].
      rewrite E in Hf by done. unfold bind in Hf. rewrite Hi, Hrest in Hf. done.
Qed.
End Session.

(** A world whose second effect loses its connection. *)
Definition example_env (fault_at : nat) : Env := {|
  env_fault := fun n => if (n =? fault_at)%nat then Some (EExternal "connection reset") else None;
  env_applied := fun _ => true;
  env_now := fun n => Z.of_nat n + 1;
  env_rand := fun n => Ok (example_uuid n) |}.

Definition empty_db : Database := mkDatabase [] [] [] [] [] [] [] [] [] [] (mkOutboxTable [] 0) empty_catalog.

Lemma WithinTransaction_all_or_nothing_witness :
  let E := example_env 2 in
  let inner := exec_db (modify (set_tokens (fun l => mkAPIToken "a" "" "h" 0 None None :: l))) in
  let rest := fun _ : unit => exec_db (modify (set_tokens (fun l => l ++ l)%list)) in
  let w := mkWorld empty_db false 0 in
  let run := WithinTransaction (bind (WithinTransaction inner) rest) w in
  run.1 = Err (EExternal "connection reset") /\ w_tx run.2 = false /\ w_db run.2 = w_db w
  /\ WithinTransaction (bind inner rest) w = run.
Proof.
  intros E inner rest w run. split; [vm_compute; reflexivity|].
  destruct (WithinTransaction_all_or_nothing (bind (WithinTransaction inner) rest) w run.2 run.1
              (surjective_pairing _)) as (_ & H1 & H2).
  split; [exact (proj1 (H1 eq_refl))|]. destruct (H2 _ inner rest eq_refl) as [H3 H4].
  split; [|etransitivity; [exact H3|symmetry; apply surjective_pairing]].
  eapply (H4 tt); vm_compute; reflexivity.
Defined.
