(* ===== verification/GovernanceStore.v ===== *)
(** * The repositories of governance

    [repository/postgres/modules.go] (lookups), [breaking_reports.go] (lookup)
    and [governance.go]: module owners, approval requests with their
    requirements and decisions, and the audit log.  The statements are written
    on the tables of [World.Database] with the constraints of
    [migrations/000007_governance.up.sql]. *)

From S2P Require Import Prelude Errors GoStrings Domain Effects Postgres Outbox World.

Open Scope string_scope.
Open Scope Z_scope.

(** Identifiers are ordered by their bytes. *)
Definition uuid_le (s t : string) : bool := String.leb s t.

Definition eqs (s t : string) : bool := (s =? t)%string.

(** [INSERT]: the checks on the row, then the unique indexes, then the foreign
    keys. *)
Definition insert_checks {T} (checks unique fks : list (bool * error)) : M T unit :=
  match List.find fst (checks ++ unique ++ fks) with
  | Some (_, e) => fail e
  | None => ret tt
  end.

(** A nullable [uuid] parameter. *)
Definition opt_uuid_param `{!Postgres} {S} (id : option string) : M S (option string) :=
  match id with Some id => let! c := uuid_param id in ret (Some c) | None => ret None end.

Section Store.
Context `{PG : !Postgres} `{ENV : !Env}.

(** ** Modules *)

Definition scanModule (m : Module_) : result Module_ :=
  let? name := NewModuleName (module_Name m) in
  Ok (mkModule (NewModuleID (module_ID m)) name (module_Description m) (module_RepositoryURL m)
        (module_CreatedAt m) (module_UpdatedAt m)).

Definition Module_GetByID (id : ModuleID) : M World Module_ :=
  let! row := map_err mapError (exec (T := Database) (
    let! id := uuid_param id in
    query_row (fun d => List.filter (fun m => eqs (module_ID m) id) (db_modules d)))) in
  lift (scanModule row).

Definition Module_GetByName (name : ModuleName) : M World Module_ :=
  let! row := map_err mapError (exec (T := Database) (
    let! _ := text_params [name] in
    query_row (fun d => List.filter (fun m => eqs (module_Name m) name) (db_modules d)))) in
  lift (scanModule row).

(** ** Breaking reports *)

(** [JOIN modules m ON m.id = id]. *)
Definition join_module {B} (id : ModuleID) (f : Module_ -> B) (d : Database) : list B :=
  map f (List.filter (fun m => eqs (module_ID m) id) (db_modules d)).

Definition report_rows (p : BreakingReport -> bool) (d : Database) : list BreakingReport :=
  flat_map (fun br =>
    flat_map (fun m =>
      map (fun v => mkBreakingReport (report_ID br) (report_ModuleID br) (module_Name m)
             (report_BaseVersionID br) (version_Version v) (report_TargetRef br) (report_Status br)
             (report_ChangeCount br) (report_RawOutput br) (report_HumanSummary br)
             (report_CreatedAt br))
        (List.filter (fun v => eqs (version_ID v) (report_BaseVersionID br)) (db_versions d)))
      (List.filter (fun m => eqs (module_ID m) (report_ModuleID br)) (db_modules d)))
    (List.filter p (db_reports d)).

Definition scanBreakingReport (r : BreakingReport) : result BreakingReport :=
  let? moduleName := NewModuleName (report_ModuleName r) in
  let? baseVersion := NewVersion (report_BaseVersion r) in
  let? status := NewBreakingReportStatus (report_Status r) in
  Ok (mkBreakingReport (NewBreakingReportID (report_ID r)) (NewModuleID (report_ModuleID r))
        moduleName (NewModuleVersionID (report_BaseVersionID r)) baseVersion (report_TargetRef r)
        status (report_ChangeCount r) (report_RawOutput r) (report_HumanSummary r)
        (report_CreatedAt r)).

Definition change_le (c1 c2 : BreakingChange) : bool :=
  (change_CreatedAt c1 <? change_CreatedAt c2)
  || ((change_CreatedAt c1 =? change_CreatedAt c2) && uuid_le (change_ID c1) (change_ID c2)).

Definition scanBreakingChange (c : BreakingChange) : BreakingChange :=
  mkBreakingChange (NewBreakingChangeID (change_ID c)) (NewBreakingReportID (change_ReportID c))
    (change_Category c) (change_FilePath c) (change_PackageName c) (change_Symbol c)
    (change_RuleID c) (change_Message c) (change_Severity c) (change_CreatedAt c).

Definition ListChangesByReport (reportID : BreakingReportID) (limit offset : Z)
    : M World (list BreakingChange) :=
  let! rows := map_err mapError (exec (T := Database) (
    let! id := uuid_param reportID in
    let! _ := page_params limit offset in
    gets (fun d => limit_offset limit offset
      (sort_by change_le (List.filter (fun c => eqs (change_ReportID c) id) (db_changes d)))))) in
  ret (map scanBreakingChange rows).

Definition Report_GetByID (id : BreakingReportID) : M World (BreakingReport * list BreakingChange) :=
  let! report := map_err mapError (
    let! row := exec (T := Database) (
      let! id := uuid_param id in query_row (report_rows (fun br => eqs (report_ID br) id))) in
    lift (scanBreakingReport row)) in
  let! changes := ListChangesByReport id 1000 0 in
  ret (report, changes).

(** ** Module owners ([ModuleOwnerRepository]) *)

Definition Owner_Add (owner : ModuleOwner) : M World unit :=
  map_err mapError (exec (T := Database) (
    let! id := uuid_param (owner_ID owner) in
    let! moduleID := uuid_param (owner_ModuleID owner) in
    let! _ := text_params [owner_SubjectType owner; owner_Subject owner; owner_Role owner] in
    let! d := gets (fun d => d) in
    let! _ := insert_checks
      [(negb (GovernanceSubjectType_IsValid (owner_SubjectType owner)),
         check_violation "module_owners_subject_type_check");
       (negb (ModuleOwnerRole_IsValid (owner_Role owner)), check_violation "module_owners_role_check")]
      [(existsb (fun o => eqs (owner_ID o) id) (db_owners d), unique_violation "module_owners_pkey");
       (existsb (fun o => eqs (owner_ModuleID o) moduleID
                          && eqs (owner_SubjectType o) (owner_SubjectType owner)
                          && eqs (owner_Subject o) (owner_Subject owner)
                          && eqs (owner_Role o) (owner_Role owner)) (db_owners d),
         unique_violation "module_owners_module_id_subject_type_subject_role_key")]
      [(negb (existsb (fun m => eqs (module_ID m) moduleID) (db_modules d)),
         foreign_key_violation "module_owners_module_id_fkey")] in
    modify (set_owners (fun l => l ++ [mkModuleOwner id moduleID "" (owner_SubjectType owner)
      (owner_Subject owner) (owner_Role owner) (owner_CreatedAt owner) (owner_UpdatedAt owner)])%list))).

(** The number of rows a statement touched, and [ErrNotFound] when it is 0. *)
Definition affected_or_not_found (stmt : M Database nat) : M World unit :=
  let! rows := map_err mapError (exec stmt) in
  guardM (rows =? 0)%nat domain.ErrNotFound.

Definition Owner_Remove (id : ModuleOwnerID) : M World unit :=
  affected_or_not_found (
    let! id := uuid_param id in
    let! n := gets (fun d => length (List.filter (fun o => eqs (owner_ID o) id) (db_owners d))) in
    let! _ := modify (set_owners (List.filter (fun o => negb (eqs (owner_ID o) id)))) in
    ret n).

Definition owner_rows (p : ModuleOwner -> bool) (d : Database) : list ModuleOwner :=
  flat_map (fun mo => join_module (owner_ModuleID mo) (fun m =>
      mkModuleOwner (owner_ID mo) (owner_ModuleID mo) (module_Name m) (owner_SubjectType mo)
        (owner_Subject mo) (owner_Role mo) (owner_CreatedAt mo) (owner_UpdatedAt mo)) d)
    (List.filter p (db_owners d)).

Definition scanModuleOwner (o : ModuleOwner) : result ModuleOwner :=
  let? moduleName := NewModuleName (owner_ModuleName o) in
  let? subjectType := NewGovernanceSubjectType (owner_SubjectType o) in
  let? role := NewModuleOwnerRole (owner_Role o) in
  Ok (mkModuleOwner (NewModuleOwnerID (owner_ID o)) (NewModuleID (owner_ModuleID o)) moduleName
        subjectType (owner_Subject o) role (owner_CreatedAt o) (owner_UpdatedAt o)).

Definition Owner_GetByID (id : ModuleOwnerID) : M World ModuleOwner :=
  map_err mapError (
    let! row := exec (T := Database) (
      let! id := uuid_param id in query_row (owner_rows (fun o => eqs (owner_ID o) id))) in
    lift (scanModuleOwner row)).

(** [ORDER BY role, subject_type, subject]. *)
Definition owner_le (o1 o2 : ModuleOwner) : bool :=
  if negb (eqs (owner_Role o1) (owner_Role o2)) then pg_text_le (owner_Role o1) (owner_Role o2) else
  if negb (eqs (owner_SubjectType o1) (owner_SubjectType o2))
  then pg_text_le (owner_SubjectType o1) (owner_SubjectType o2)
  else pg_text_le (owner_Subject o1) (owner_Subject o2).

(** [for rows.Next() { x, err := scan(rows); if err != nil { return nil, err } ... }]. *)
Definition scan_rows {A B} (scan : A -> result B) (rows : list A) : M World (list B) :=
  mapM (fun row => lift (scan row)) rows.

Definition Owner_ListByModule (moduleID : ModuleID) : M World (list ModuleOwner) :=
  let! rows := map_err mapError (exec (T := Database) (
    let! id := uuid_param moduleID in
    gets (fun d => sort_by owner_le (owner_rows (fun o => eqs (owner_ModuleID o) id) d)))) in
  scan_rows scanModuleOwner rows.

(** The loop over the roles of the subject: it stops at the first allowed one. *)
Fixpoint has_allowed_role (allowed : list ModuleOwnerRole) (roles : list string) : result bool :=
  match roles with
  | [] => Ok false
  | r :: roles' =>
      let? role := NewModuleOwnerRole r in
      if existsb (eqs role) allowed then Ok true else has_allowed_role allowed roles'
  end.

Definition Owner_HasRole (moduleID : ModuleID) (subjectType : GovernanceSubjectType)
    (subject : string) (roles : list ModuleOwnerRole) : M World bool :=
  let! rows := map_err mapError (exec (T := Database) (
    let! id := uuid_param moduleID in
    let! _ := text_params [subjectType; subject] in
    gets (fun d => map owner_Role (List.filter (fun o =>
      eqs (owner_ModuleID o) id && eqs (owner_SubjectType o) subjectType
      && eqs (owner_Subject o) subject) (db_owners d))))) in
  lift (has_allowed_role roles rows).

(** ** Approval requests ([ApprovalRepository]) *)

(** The columns of [approval_requests]. *)
Definition request_row (id : ApprovalRequestID) (moduleID : ModuleID)
    (reportID : option BreakingReportID) (r : ApprovalRequest) : ApprovalRequest :=
  mkApprovalRequest id moduleID "" reportID (request_TargetRef r) (request_Status r)
    (request_RequiredApprovals r) (request_ReceivedApprovals r) [] [] (request_CreatedAt r)
    (request_UpdatedAt r).

Definition same_report (reportID : option BreakingReportID) (r : ApprovalRequest) : bool :=
  match reportID, request_BreakingReportID r with
  | Some a, Some b => eqs a b
  | _, _ => false
  end.

Definition references {A} (id : option string) (key : A -> string) (table : list A) : bool :=
  match id with Some id => existsb (fun x => eqs (key x) id) table | None => true end.

Definition insert_request_stmt (request : ApprovalRequest) : M Database unit :=
  let! id := uuid_param (request_ID request) in
  let! moduleID := uuid_param (request_ModuleID request) in
  let! reportID := opt_uuid_param (request_BreakingReportID request) in
  let! _ := text_params [request_TargetRef request; request_Status request] in
  let! d := gets (fun d => d) in
  let! _ := insert_checks
    [(negb (ApprovalRequestStatus_IsValid (request_Status request)),
       check_violation "approval_requests_status_check")]
    [(existsb (fun r => eqs (request_ID r) id) (db_requests d),
       unique_violation "approval_requests_pkey");
     (existsb (same_report reportID) (db_requests d),
       unique_violation "approval_requests_breaking_report_unique_idx")]
    [(negb (existsb (fun m => eqs (module_ID m) moduleID) (db_modules d)),
       foreign_key_violation "approval_requests_module_id_fkey");
     (negb (references reportID report_ID (db_reports d)),
       foreign_key_violation "approval_requests_breaking_report_id_fkey")] in
  modify (set_requests (fun l => l ++ [request_row id moduleID reportID request])%list).

Definition insert_requirement_stmt (requestID : ApprovalRequestID) (r : ApprovalRequirement)
    : M Database unit :=
  let approvalRequestID := if (requirement_ApprovalRequestID r =? "")%string then requestID
                           else requirement_ApprovalRequestID r in
  let! id := uuid_param (requirement_ID r) in
  let! approvalRequestID := uuid_param approvalRequestID in
  let! targetID := opt_uuid_param (requirement_TargetModuleID r) in
  let! _ := text_params [requirement_RequirementType r; requirement_TargetModuleName r;
                         requirement_RequiredRole r; requirement_Status r; requirement_Reason r] in
  let! d := gets (fun d => d) in
  let! _ := insert_checks
    [(negb (ApprovalRequirementType_IsValid (requirement_RequirementType r)),
       check_violation "approval_requirements_type_check");
     (negb (ApprovalRequirementStatus_IsValid (requirement_Status r)),
       check_violation "approval_requirements_status_check")]
    [(existsb (fun q => eqs (requirement_ID q) id) (db_requirements d),
       unique_violation "approval_requirements_pkey")]
    [(negb (existsb (fun q => eqs (request_ID q) approvalRequestID) (db_requests d)),
       foreign_key_violation "approval_requirements_approval_request_id_fkey");
     (negb (references targetID module_ID (db_modules d)),
       foreign_key_violation "approval_requirements_target_module_id_fkey")] in
  modify (set_requirements (fun l => l ++ [mkApprovalRequirement id approvalRequestID
    (requirement_RequirementType r) targetID (requirement_TargetModuleName r)
    (requirement_RequiredRole r) (requirement_Status r) (requirement_Reason r)
    (requirement_CreatedAt r) (requirement_UpdatedAt r)])%list).

Definition createRequirement (requestID : ApprovalRequestID) (r : ApprovalRequirement) : M World unit :=
  map_err mapError (exec (insert_requirement_stmt requestID r)).

Definition CreateRequest (request : ApprovalRequest) : M World unit :=
  WithinTransaction (
    let! _ := map_err mapError (exec (insert_request_stmt request)) in
    forM (request_Requirements request) (createRequirement (request_ID request))).

Definition request_rows (p : ApprovalRequest -> bool) (d : Database) : list ApprovalRequest :=
  flat_map (fun ar => join_module (request_ModuleID ar) (fun m =>
      mkApprovalRequest (request_ID ar) (request_ModuleID ar) (module_Name m)
        (request_BreakingReportID ar) (request_TargetRef ar) (request_Status ar)
        (request_RequiredApprovals ar) (request_ReceivedApprovals ar) [] []
        (request_CreatedAt ar) (request_UpdatedAt ar)) d)
    (List.filter p (db_requests d)).

Definition scanApprovalRequest (r : ApprovalRequest) : result ApprovalRequest :=
  let? moduleName := NewModuleName (request_ModuleName r) in
  let? status := NewApprovalRequestStatus (request_Status r) in
  Ok (mkApprovalRequest (NewApprovalRequestID (request_ID r)) (NewModuleID (request_ModuleID r))
        moduleName (NewBreakingReportID <$> request_BreakingReportID r) (request_TargetRef r) status
        (request_RequiredApprovals r) (request_ReceivedApprovals r) [] [] (request_CreatedAt r)
        (request_UpdatedAt r)).

Definition optional_module_name (s : string) : result ModuleName :=
  if (s =? "")%string then Ok "" else NewModuleName s.

Definition scanApprovalRequirement (r : ApprovalRequirement) : result ApprovalRequirement :=
  let? type_ := NewApprovalRequirementType (requirement_RequirementType r) in
  let? status := NewApprovalRequirementStatus (requirement_Status r) in
  let? moduleName := optional_module_name (requirement_TargetModuleName r) in
  let? role := if (requirement_RequiredRole r =? "")%string then Ok ""
               else NewModuleOwnerRole (requirement_RequiredRole r) in
  Ok (mkApprovalRequirement (NewApprovalRequirementID (requirement_ID r))
        (NewApprovalRequestID (requirement_ApprovalRequestID r)) type_
        (NewModuleID <$> requirement_TargetModuleID r) moduleName role status
        (requirement_Reason r) (requirement_CreatedAt r) (requirement_UpdatedAt r)).

Definition scanApprovalDecision (x : ApprovalDecision) : result ApprovalDecision :=
  let? value := NewApprovalDecisionValue (decision_Decision x) in
  Ok (mkApprovalDecision (NewApprovalDecisionID (decision_ID x))
        (NewApprovalRequestID (decision_ApprovalRequestID x))
        (NewApprovalRequirementID (decision_RequirementID x)) value (decision_DecidedBy x)
        (decision_Comment x) (decision_CreatedAt x)).

(** [ORDER BY created_at, id]. *)
Definition by_time_and_id {A} (created : A -> time) (id : A -> string) (x y : A) : bool :=
  (created x <? created y) || ((created x =? created y) && uuid_le (id x) (id y)).

Definition listRequirements (requestID : ApprovalRequestID) : M World (list ApprovalRequirement) :=
  let! rows := map_err mapError (exec (T := Database) (
    let! id := uuid_param requestID in
    gets (fun d => sort_by (by_time_and_id requirement_CreatedAt requirement_ID)
      (List.filter (fun r => eqs (requirement_ApprovalRequestID r) id) (db_requirements d))))) in
  scan_rows scanApprovalRequirement rows.

Definition listDecisions (requestID : ApprovalRequestID) : M World (list ApprovalDecision) :=
  let! rows := map_err mapError (exec (T := Database) (
    let! id := uuid_param requestID in
    gets (fun d => sort_by (by_time_and_id decision_CreatedAt decision_ID)
      (List.filter (fun r => eqs (decision_ApprovalRequestID r) id) (db_decisions d))))) in
  scan_rows scanApprovalDecision rows.

Definition populateRequest (r : ApprovalRequest) : M World ApprovalRequest :=
  let! requirements := listRequirements (request_ID r) in
  let! decisions := listDecisions (request_ID r) in
  ret (mkApprovalRequest (request_ID r) (request_ModuleID r) (request_ModuleName r)
         (request_BreakingReportID r) (request_TargetRef r) (request_Status r)
         (request_RequiredApprovals r) (request_ReceivedApprovals r) requirements decisions
         (request_CreatedAt r) (request_UpdatedAt r)).

Definition getRequest (query : M Database ApprovalRequest) : M World ApprovalRequest :=
  map_err mapError (let! row := exec query in lift (scanApprovalRequest row)).

Definition GetRequestByID (id : ApprovalRequestID) : M World ApprovalRequest :=
  let! request := getRequest (
    let! id := uuid_param id in query_row (request_rows (fun r => eqs (request_ID r) id))) in
  populateRequest request.

(** [ORDER BY ar.created_at DESC]. *)
Definition newest_first {A} (created : A -> time) (x y : A) : bool := created y <=? created x.

Definition GetRequestByBreakingReportID (reportID : BreakingReportID) : M World ApprovalRequest :=
  let! request := getRequest (
    let! id := uuid_param reportID in
    query_row (fun d => firstn 1 (sort_by (newest_first request_CreatedAt)
      (request_rows (same_report (Some id)) d)))) in
  populateRequest request.

Definition GetRequestByRequirementID (requirementID : ApprovalRequirementID) : M World ApprovalRequest :=
  let! request := getRequest (
    let! id := uuid_param requirementID in
    query_row (fun d => request_rows (fun ar =>
      existsb (fun req => eqs (requirement_ApprovalRequestID req) (request_ID ar)
                          && eqs (requirement_ID req) id) (db_requirements d)) d)) in
  populateRequest request.

Definition AddDecision (x : ApprovalDecision) : M World unit :=
  map_err mapError (exec (T := Database) (
    let! id := uuid_param (decision_ID x) in
    let! requestID := uuid_param (decision_ApprovalRequestID x) in
    let! requirementID := uuid_param (decision_RequirementID x) in
    let! _ := text_params [decision_Decision x; decision_DecidedBy x; decision_Comment x] in
    let! d := gets (fun d => d) in
    let! _ := insert_checks
      [(negb (ApprovalDecisionValue_IsValid (decision_Decision x)),
         check_violation "approval_decisions_decision_check")]
      [(existsb (fun y => eqs (decision_ID y) id) (db_decisions d),
         unique_violation "approval_decisions_pkey");
       (existsb (fun y => eqs (decision_RequirementID y) requirementID) (db_decisions d),
         unique_violation "approval_decisions_requirement_unique_idx")]
      [(negb (existsb (fun r => eqs (request_ID r) requestID) (db_requests d)),
         foreign_key_violation "approval_decisions_approval_request_id_fkey");
       (negb (existsb (fun r => eqs (requirement_ID r) requirementID) (db_requirements d)),
         foreign_key_violation "approval_decisions_requirement_id_fkey")] in
    modify (set_decisions (fun l => l ++ [mkApprovalDecision id requestID requirementID
      (decision_Decision x) (decision_DecidedBy x) (decision_Comment x) (decision_CreatedAt x)])%list))).

Definition set_requirement_status (status : ApprovalRequirementStatus) (updatedAt : time)
    (r : ApprovalRequirement) : ApprovalRequirement :=
  mkApprovalRequirement (requirement_ID r) (requirement_ApprovalRequestID r)
    (requirement_RequirementType r) (requirement_TargetModuleID r) (requirement_TargetModuleName r)
    (requirement_RequiredRole r) status (requirement_Reason r) (requirement_CreatedAt r) updatedAt.

Definition UpdateRequirementStatus (id : ApprovalRequirementID) (status : ApprovalRequirementStatus)
    (updatedAt : time) : M World unit :=
  affected_or_not_found (
    let! id := uuid_param id in
    let! _ := text_params [status] in
    let p := fun r => eqs (requirement_ID r) id in
    let! n := gets (fun d => length (List.filter p (db_requirements d))) in
    let! _ := guardM (negb (n =? 0)%nat && negb (ApprovalRequirementStatus_IsValid status))
                (check_violation "approval_requirements_status_check") in
    let! _ := modify (set_requirements (update_where p (set_requirement_status status updatedAt))) in
    ret n).

Definition set_request_status (status : ApprovalRequestStatus) (required received : Z)
    (updatedAt : time) (r : ApprovalRequest) : ApprovalRequest :=
  mkApprovalRequest (request_ID r) (request_ModuleID r) (request_ModuleName r)
    (request_BreakingReportID r) (request_TargetRef r) status required received
    (request_Requirements r) (request_Decisions r) (request_CreatedAt r) updatedAt.

Definition UpdateRequestStatus (id : ApprovalRequestID) (status : ApprovalRequestStatus)
    (requiredApprovals receivedApprovals : Z) (updatedAt : time) : M World unit :=
  affected_or_not_found (
    let! id := uuid_param id in
    let! _ := text_params [status] in
    let p := fun r => eqs (request_ID r) id in
    let! n := gets (fun d => length (List.filter p (db_requests d))) in
    let! _ := guardM (negb (n =? 0)%nat && negb (ApprovalRequestStatus_IsValid status))
                (check_violation "approval_requests_status_check") in
    let! _ := modify (set_requests (update_where p
                (set_request_status status requiredApprovals receivedApprovals updatedAt))) in
    ret n).

Definition ListRequestsByModule (moduleID : ModuleID) (limit offset : Z)
    : M World (list ApprovalRequest) :=
  let! rows := map_err mapError (exec (T := Database) (
    let! id := uuid_param moduleID in
    let! _ := page_params limit offset in
    gets (fun d => limit_offset limit offset (sort_by (newest_first request_CreatedAt)
      (request_rows (fun r => eqs (request_ModuleID r) id) d))))) in
  scan_rows scanApprovalRequest rows.

(** ** The audit log ([GovernanceAuditRepository]) *)

Definition Audit_Append (e : GovernanceAuditEvent) : M World unit :=
  let payload := if (auditEvent_PayloadJSON e =? "")%string then "{}" else auditEvent_PayloadJSON e in
  map_err mapError (exec (T := Database) (
    let! id := uuid_param (auditEvent_ID e) in
    let! moduleID := opt_uuid_param (auditEvent_ModuleID e) in
    let! requestID := opt_uuid_param (auditEvent_ApprovalRequestID e) in
    let! reportID := opt_uuid_param (auditEvent_BreakingReportID e) in
    let! _ := text_params [auditEvent_EventType e; auditEvent_Actor e; auditEvent_ModuleName e; payload] in
    let! d := gets (fun d => d) in
    let! _ := insert_checks
      [(negb (GovernanceAuditEventType_IsValid (auditEvent_EventType e)),
         check_violation "governance_audit_events_type_check")]
      [(existsb (fun y => eqs (auditEvent_ID y) id) (db_audit d),
         unique_violation "governance_audit_events_pkey")]
      [(negb (references moduleID module_ID (db_modules d)),
         foreign_key_violation "governance_audit_events_module_id_fkey");
       (negb (references requestID request_ID (db_requests d)),
         foreign_key_violation "governance_audit_events_approval_request_id_fkey");
       (negb (references reportID report_ID (db_reports d)),
         foreign_key_violation "governance_audit_events_breaking_report_id_fkey")] in
    modify (set_audit (fun l => l ++ [mkGovernanceAuditEvent id (auditEvent_EventType e)
      (auditEvent_Actor e) moduleID (auditEvent_ModuleName e) requestID reportID payload
      (auditEvent_CreatedAt e)])%list))).

Definition scanGovernanceAuditEvent (e : GovernanceAuditEvent) : result GovernanceAuditEvent :=
  let? moduleName := optional_module_name (auditEvent_ModuleName e) in
  Ok (mkGovernanceAuditEvent (NewGovernanceAuditEventID (auditEvent_ID e)) (auditEvent_EventType e)
        (auditEvent_Actor e) (NewModuleID <$> auditEvent_ModuleID e) moduleName
        (NewApprovalRequestID <$> auditEvent_ApprovalRequestID e)
        (NewBreakingReportID <$> auditEvent_BreakingReportID e) (auditEvent_PayloadJSON e)
        (auditEvent_CreatedAt e)).

Definition same_id (id : string) (x : option string) : bool :=
  match x with Some y => eqs y id | None => false end.

Definition list_audit (id : string) (column : GovernanceAuditEvent -> option string)
    (limit offset : Z) : M World (list GovernanceAuditEvent) :=
  let! rows := map_err mapError (exec (T := Database) (
    let! id := uuid_param id in
    let! _ := page_params limit offset in
    gets (fun d => limit_offset limit offset
      (sort_by (by_time_and_id auditEvent_CreatedAt auditEvent_ID)
        (List.filter (fun e => same_id id (column e)) (db_audit d)))))) in
  scan_rows scanGovernanceAuditEvent rows.

Definition Audit_ListByApprovalRequest (id : ApprovalRequestID) (limit offset : Z) :=
  list_audit id auditEvent_ApprovalRequestID limit offset.
Definition Audit_ListByModule (id : ModuleID) (limit offset : Z) :=
  list_audit id auditEvent_ModuleID limit offset.
End Store.

(** ** What the statements do when they succeed *)

Lemma eqs_true s t : eqs s t = true <-> s = t.
Proof. apply String.eqb_eq. Qed.
Lemma eqs_false s t : eqs s t = false <-> s <> t.
Proof. apply String.eqb_neq. Qed.
Lemma eqs_refl s : eqs s s = true.
Proof. apply String.eqb_refl. Qed.

Lemma insert_checks_Ok {T} cs us fs (t t' : T) u :
  insert_checks cs us fs t = (Ok u, t') ->
  t' = t /\ forall b e, (b, e) ∈ (cs ++ us ++ fs)%list -> b = false.
Proof.
  unfold insert_checks. destruct (List.find _ _) as [[b e]|] eqn:E; [done|].
  intros [= _ <-]. split; [done|]. rewrite find_none_in in E. intros b e H. apply (E (b, e) H).
Qed.

Lemma opt_uuid_param_Ok `{PG : !Postgres} {S} id (s : S) c s' :
  opt_uuid_param id s = (Ok c, s') ->
  s' = s /\ match id with
            | Some i => exists j, uuid_canon i = Some j /\ c = Some j
            | None => c = None
            end.
Proof.
  destruct id as [i|]; simpl; intros H; minv; [|done].
  apply uuid_param_Ok in Hm as [Hc ->]. eauto.
Qed.

Lemma uuid_plain `{PG : !Postgres} id : uuid_canon id = Some id -> TrimSpace id = id.
Proof.
  intros H. apply TrimSpace_plain. apply uuid_canon_bytes in H. revert H.
  apply forallb_string_impl. intros a. unfold uuid_byte, hex_digit, plain_byte. lia.
Qed.

Section Effects.
Context `{PG : !Postgres} `{ENV : !Env}.

(** Nothing but the count of effects changes. *)
Definition same_db : relation World := fun w w' => w_db w' = w_db w /\ w_tx w' = w_tx w.
#[global] Instance same_db_preorder : PreOrder same_db.
Proof. split; unfold same_db; [done|intros w1 w2 w3 [-> ->] [-> ->]; done]. Qed.

Lemma same_db_exec {A} (m : M Database A) :
  (forall d, (m d).2 = d) -> preserves same_db (exec m).
Proof.
  intros Hm w. change (exec m w) with (exec_db m w). unfold exec_db. specialize (Hm (w_db w)).
  destruct (m (w_db w)) as [r d]. simpl in Hm. subst d.
  destruct (env_fault _); [destruct (env_applied _)|]; done.
Qed.

(** A successful statement: its effect on the database. *)
Lemma exec_db_Ok {A} (m : M Database A) w a w' :
  exec (T := Database) m w = (Ok a, w') -> m (w_db w) = (Ok a, w_db w') /\ w_tx w' = w_tx w.
Proof.
  intros H. split; [by apply exec_Ok in H|].
  destruct (exec_db_frame m w) as [_ Htx]. change (exec m w) with (exec_db m w) in H.
  by rewrite H in Htx.
Qed.

(** A statement fails with its own error, or with that of the connection. *)
Lemma exec_db_Err `{HF : !HonestFaults} {A} (m : M Database A) w e w' :
  exec (T := Database) m w = (Err e, w') -> (exists t, e = EExternal t) \/ exists d, m (w_db w) = (Err e, d).
Proof.
  change (exec m w) with (exec_db m w). unfold exec_db. destruct (m (w_db w)) as [r d].
  destruct (env_fault (w_tick w)) as [e0|] eqn:Ef; intros H.
  - apply fault_external in Ef as [t ->]. left. exists t. by injection H.
  - right. exists d. by injection H as -> _.
Qed.

Lemma same_db_now : preserves same_db now.
Proof. done. Qed.
Lemma same_db_random_hex : preserves same_db random_hex.
Proof. done. Qed.

(** A query: parameters, then rows. *)
Lemma query_pure {A B C} (params : M Database A) (q : A -> M Database B) (k : B -> C) d :
  (params d).2 = d -> (forall a, (q a d).2 = d) -> (bind params q d).2 = d.
Proof. unfold bind. intros Hp Hq. destruct (params d) as [[a|e] d']; simpl in *; subst; auto. Qed.
Lemma bind_pure {A B} (m : M Database A) (k : A -> M Database B) d :
  (m d).2 = d -> (forall a, (k a d).2 = d) -> (bind m k d).2 = d.
Proof. unfold bind. intros Hp Hq. destruct (m d) as [[a|e] d']; simpl in *; subst; auto. Qed.
Lemma query_row_pure {A} (rows : Database -> list A) d : (query_row rows d).2 = d.
Proof. unfold query_row. by destruct (rows d). Qed.
Lemma uuid_param_pure id (d : Database) : (uuid_param id d).2 = d.
Proof. unfold uuid_param. by destruct (uuid_canon id). Qed.
Lemma text_params_pure ts (d : Database) : (text_params ts d).2 = d.
Proof. unfold text_params, guardM. by destruct (negb _). Qed.
Lemma page_params_pure l o (d : Database) : (page_params l o d).2 = d.
Proof. unfold page_params, guardM. apply bind_pure; [by destruct (l <? 0)|intros; by destruct (o <? 0)]. Qed.

End Effects.

(** Show that a statement only reads. *)
Ltac reads :=
  apply same_db_exec; intros ?;
  repeat (apply bind_pure; [first [apply uuid_param_pure|apply text_params_pure|apply page_params_pure]|intros ?]);
  first [apply query_row_pure|reflexivity].

Section Reads.
Context `{PG : !Postgres} `{ENV : !Env}.

Lemma same_db_scan_rows {A B} (scan : A -> result B) rows : preserves same_db (scan_rows scan rows).
Proof. apply (preserves_mapM same_db). intros x _. apply preserves_lift, _. Qed.

Lemma same_db_Module_GetByID id : preserves same_db (Module_GetByID id).
Proof. unfold Module_GetByID. preserve. reads. Qed.
Lemma same_db_Module_GetByName name : preserves same_db (Module_GetByName name).
Proof. unfold Module_GetByName. preserve. reads. Qed.
Lemma same_db_ListChanges id l o : preserves same_db (ListChangesByReport id l o).
Proof. unfold ListChangesByReport. preserve. reads. Qed.
Lemma same_db_Report_GetByID id : preserves same_db (Report_GetByID id).
Proof. unfold Report_GetByID. preserve; reads. Qed.
Lemma same_db_Owner_ListByModule id : preserves same_db (Owner_ListByModule id).
Proof. unfold Owner_ListByModule. preserve; first [reads|apply same_db_scan_rows]. Qed.
Lemma same_db_Owner_GetByID id : preserves same_db (Owner_GetByID id).
Proof. unfold Owner_GetByID. preserve. reads. Qed.
Lemma same_db_Owner_HasRole m t s r : preserves same_db (Owner_HasRole m t s r).
Proof. unfold Owner_HasRole. preserve. reads. Qed.
Lemma same_db_populateRequest r : preserves same_db (populateRequest r).
Proof.
  unfold populateRequest, listRequirements, listDecisions.
  repeat first [apply same_db_scan_rows|preserve_step]; reads.
Qed.
Lemma same_db_getRequest_then (query : M Database ApprovalRequest) :
  preserves same_db (exec query) ->
  preserves same_db (let! r := getRequest query in populateRequest r).
Proof.
  intros H. unfold getRequest. repeat first [apply same_db_populateRequest|exact H|preserve_step].
Qed.
Lemma same_db_GetRequestByID id : preserves same_db (GetRequestByID id).
Proof. apply same_db_getRequest_then. reads. Qed.
Lemma same_db_GetRequestByBreakingReportID id : preserves same_db (GetRequestByBreakingReportID id).
Proof. apply same_db_getRequest_then. reads. Qed.
Lemma same_db_GetRequestByRequirementID id : preserves same_db (GetRequestByRequirementID id).
Proof. apply same_db_getRequest_then. reads. Qed.
End Reads.

(** *** Functions that read and then run one transaction

    [atomic_outcome P w r w']: the call failed and changed nothing, or it
    changed the database as [P] says; in either case no transaction is left
    open. *)

Definition atomic_outcome {A} (P : Database -> Database -> Prop) (w : World) (r : result A)
    (w' : World) : Prop :=
  w_tx w' = false /\ ((exists e, r = Err e) /\ w_db w' = w_db w \/ P (w_db w) (w_db w')).

Section Atomic.
Context {A : Type} (P : Database -> Database -> Prop).

Lemma atomic_step w w1 (r : result A) w' :
  same_db w w1 -> atomic_outcome P w1 r w' -> atomic_outcome P w r w'.
Proof. unfold atomic_outcome. by intros [-> _]. Qed.

Lemma atomic_fail w e w' : w_tx w = false -> same_db w w' -> atomic_outcome (A := A) P w (Err e) w'.
Proof. intros Htx [E1 E2]. split; [by rewrite E2|]. left. split; [by eexists|done]. Qed.

(** The rest of a function after a step that only reads. *)
Lemma read_step {B} (m : M World B) (k : B -> M World A) w r w' :
  preserves same_db m -> bind m k w = (r, w') ->
  ((exists e, r = Err e) /\ same_db w w')
  \/ exists a w1, m w = (Ok a, w1) /\ same_db w w1 /\ k a w1 = (r, w').
Proof.
  intros Hm H. unfold bind in H. pose proof (Hm w) as Hs. destruct (m w) as [[a|e] w1]; [|left].
  - right. exists a, w1. done.
  - injection H as <- <-. split; [by eexists|done].
Qed.

(** What follows the transaction only reads. *)
Lemma atomic_then {B} (m : M World B) (k : B -> M World A) w r w' :
  (forall r1 w1, m w = (r1, w1) -> atomic_outcome P w r1 w1) ->
  (forall b, preserves same_db (k b)) ->
  bind m k w = (r, w') -> atomic_outcome P w r w'.
Proof.
  intros Hm Hk H. unfold bind in H. destruct (m w) as [[b|e] w1] eqn:E.
  - destruct (Hm _ _ eq_refl) as [H1 H2]. specialize (Hk b w1). rewrite H in Hk.
    destruct Hk as [E1 E2]. simpl in E1, E2. split; [by rewrite E2|].
    destruct H2 as [[[e He] _]|H2]; [done|]. right. by rewrite E1.
  - injection H as <- <-. destruct (Hm _ _ eq_refl) as [H1 H2]. split; [done|].
    destruct H2 as [[_ H2]|H2]; [left; split; [by eexists|done]|by right].
Qed.
End Atomic.

(** A branch that fails; a step that only reads (its preservation is left when
    [auto] does not find it); what is known before such a step holds after it. *)
Ltac refused := match goal with H : fail _ _ = _ |- _ => injection H as <- <-; by apply atomic_fail end.
Ltac reading H a w1 Hm Hs :=
  apply read_step in H as [[[e0 ->] Hs]|(a & w1 & Hm & Hs & H)];
    [by apply atomic_fail|apply (atomic_step _ _ _ _ _ Hs)|first [solve [auto with go]|preserve]].
Ltac carry Hs :=
  let Edb := fresh "Edb" in let Etx := fresh "Etx" in
  destruct Hs as [Edb Etx]; try rewrite <- Edb in *;
  match goal with Htx : w_tx _ = false |- _ => rewrite <- Etx in Htx end; clear Edb Etx.

(** *** Statements that write *)

Lemma append_checks_Ok {T} cs us fs (t t' : T) u :
  insert_checks cs us fs t = (Ok u, t') -> t' = t /\ Forall (fun c => c.1 = false) (cs ++ us ++ fs)%list.
Proof.
  intros [-> H]%insert_checks_Ok. split; [done|]. apply Forall_forall. intros [b e] Hin.
  exact (H b e Hin).
Qed.

(** Invert the run of a statement that succeeded: its parameters were accepted
    and its checks passed. *)
Ltac stmt_inv H :=
  let Htx := fresh "Htx" in
  apply map_err_Ok, exec_db_Ok in H as [H Htx]; minv;
  repeat match goal with
    | H : uuid_param _ _ = _ |- _ => apply uuid_param_Ok in H as [? ?]
    | H : opt_uuid_param _ _ = _ |- _ => apply opt_uuid_param_Ok in H as [? ?]
    | H : text_params _ _ = _ |- _ => apply guardM_Ok in H as [? ?]
    | H : insert_checks _ _ _ _ = _ |- _ =>
        apply append_checks_Ok in H as [? H]; simpl in H; decompose_Forall_hyps
    end;
  subst;
  repeat match goal with
    | H : negb _ = false |- _ => apply negb_false_iff in H
    end.

Section Writes.
Context `{PG : !Postgres} `{ENV : !Env}.

Lemma existsb_eqs_false {A} (f : A -> string) k (l : list A) :
  existsb (fun y => eqs (f y) k) l = false -> forall y, y ∈ l -> f y <> k.
Proof. rewrite existsb_false. intros H y Hy. apply eqs_false. auto. Qed.
Lemma existsb_eqs_true {A} (f : A -> string) k (l : list A) :
  existsb (fun y => eqs (f y) k) l = true -> exists y, y ∈ l /\ f y = k.
Proof. rewrite existsb_true. intros (y & Hy & E%eqs_true). eauto. Qed.

Lemma AddDecision_Ok x w u w' :
  AddDecision x w = (Ok u, w') ->
  exists id rid qid,
    uuid_canon (decision_ID x) = Some id
    /\ uuid_canon (decision_ApprovalRequestID x) = Some rid
    /\ uuid_canon (decision_RequirementID x) = Some qid
    /\ (forall y, y ∈ db_decisions (w_db w) -> decision_RequirementID y <> qid)
    /\ w_tx w' = w_tx w
    /\ w_db w' = set_decisions (fun l => l ++ [mkApprovalDecision id rid qid (decision_Decision x)
                    (decision_DecidedBy x) (decision_Comment x) (decision_CreatedAt x)])%list (w_db w).
Proof.
  intros H. stmt_inv H. do 3 eexists. split_and!; eauto using existsb_eqs_false.
Qed.

Lemma UpdateRequirementStatus_Ok id status t w u w' :
  UpdateRequirementStatus id status t w = (Ok u, w') ->
  exists qid, uuid_canon id = Some qid /\ w_tx w' = w_tx w
    /\ w_db w' = set_requirements (update_where (fun r => eqs (requirement_ID r) qid)
                                     (set_requirement_status status t)) (w_db w).
Proof.
  unfold UpdateRequirementStatus, affected_or_not_found.
  intros H. apply bind_Ok in H as (n & w1 & H & [_ ->]%guardM_Ok). stmt_inv H. eauto.
Qed.

Lemma UpdateRequestStatus_Ok id status required received t w u w' :
  UpdateRequestStatus id status required received t w = (Ok u, w') ->
  exists rid, uuid_canon id = Some rid /\ w_tx w' = w_tx w
    /\ w_db w' = set_requests (update_where (fun r => eqs (request_ID r) rid)
                                 (set_request_status status required received t)) (w_db w).
Proof.
  unfold UpdateRequestStatus, affected_or_not_found.
  intros H. apply bind_Ok in H as (n & w1 & H & [_ ->]%guardM_Ok). stmt_inv H. eauto.
Qed.

Lemma Audit_Append_Ok e w u w' :
  Audit_Append e w = (Ok u, w') ->
  w_tx w' = w_tx w
  /\ exists row, auditEvent_EventType row = auditEvent_EventType e
       /\ auditEvent_Actor row = auditEvent_Actor e
       /\ w_db w' = set_audit (fun l => l ++ [row])%list (w_db w).
Proof. intros H. stmt_inv H. split; [done|]. eexists. split_and!; [| |done]; done. Qed.

Lemma insert_request_Ok request w u w' :
  map_err mapError (exec (insert_request_stmt request)) w = (Ok u, w') ->
  exists id mid report,
    uuid_canon (request_ID request) = Some id
    /\ ApprovalRequestStatus_IsValid (request_Status request) = true
    /\ (forall y, y ∈ db_requests (w_db w) -> request_ID y <> id)
    /\ existsb (same_report report) (db_requests (w_db w)) = false
    /\ match request_BreakingReportID request with
        | Some i => exists j, uuid_canon i = Some j /\ report = Some j
        | None => report = None
        end
    /\ w_tx w' = w_tx w
    /\ w_db w' = set_requests (fun l => l ++ [request_row id mid report request])%list (w_db w).
Proof.
  intros H. unfold insert_request_stmt in H. stmt_inv H.
  do 3 eexists. split_and!; eauto using existsb_eqs_false.
Qed.

Lemma createRequirement_Ok requestID r w u w' :
  createRequirement requestID r w = (Ok u, w') ->
  exists id rid target,
    uuid_canon (requirement_ID r) = Some id
    /\ uuid_canon (if (requirement_ApprovalRequestID r =? "")%string then requestID
                   else requirement_ApprovalRequestID r) = Some rid
    /\ ApprovalRequirementStatus_IsValid (requirement_Status r) = true
    /\ (forall y, y ∈ db_requirements (w_db w) -> requirement_ID y <> id)
    /\ (exists p, p ∈ db_requests (w_db w) /\ request_ID p = rid)
    /\ (forall m, target = Some m -> uuid_canon m = Some m)
    /\ w_tx w' = w_tx w
    /\ w_db w' = set_requirements (fun l => l ++ [mkApprovalRequirement id rid
         (requirement_RequirementType r) target (requirement_TargetModuleName r)
         (requirement_RequiredRole r) (requirement_Status r) (requirement_Reason r)
         (requirement_CreatedAt r) (requirement_UpdatedAt r)])%list (w_db w).
Proof.
  intros H. unfold createRequirement, insert_requirement_stmt in H. stmt_inv H.
  do 3 eexists. split_and!; eauto using existsb_eqs_false, existsb_eqs_true.
  intros m ->. destruct (requirement_TargetModuleID r); naive_solver eauto using uuid_canon_idem.
Qed.
End Writes.

#[export] Hint Resolve same_db_now same_db_random_hex same_db_Module_GetByID same_db_Module_GetByName
  same_db_Report_GetByID same_db_Owner_ListByModule same_db_Owner_GetByID same_db_Owner_HasRole
  same_db_GetRequestByID same_db_GetRequestByBreakingReportID
  same_db_GetRequestByRequirementID : go.
