(* ===== verification/UseCase.v ===== *)
(** * What the use cases share

    The pieces that every use case of the server is made of: the translation of
    a lookup that finds nothing, the payload of an event, the outbox writer, the
    spelling of identifiers, and the rules to reason about them. *)

From S2P Require Import Prelude Errors GoStrings JsonScan Domain Json Effects Postgres Outbox Events World GovernanceStore.

Open Scope string_scope.
Open Scope Z_scope.

(** The error of a lookup, with [ErrNotFound] replaced. *)
Definition not_found_as (e' : error) (e : error) : error :=
  if errors_Is e domain.ErrNotFound then e' else e.

Section Common.
Context `{PG : !Postgres} `{ENV : !Env}.

Definition marshal (v : json) : M World string := lift (Marshal v).

Definition write_outbox (record : result Record_) : M World unit :=
  let! record := lift record in
  let! wall := now in
  Create wall record.

(** ** Identifiers as the server spells them *)

Definition canonical (id : string) : Prop := uuid_canon id = Some id.

Lemma canonical_trim id : canonical id -> TrimSpace id = id.
Proof. apply uuid_plain. Qed.
Lemma canonical_of s c : uuid_canon s = Some c -> canonical c.
Proof. apply uuid_canon_idem. Qed.
Lemma canonical_param s c : canonical s -> uuid_canon s = Some c -> c = s.
Proof. unfold canonical. congruence. Qed.

(** ** Rules *)

Lemma preserves_run {S A} (R : relation S) (m : M S A) s r s' : preserves R m -> m s = (r, s') -> R s s'.
Proof. intros H E. specialize (H s). by rewrite E in H. Qed.

Lemma marshal_then {A} v (k : string -> M World A) w a w' :
  (let! payload := marshal v in k payload) w = (Ok a, w') -> exists payload, k payload w = (Ok a, w').
Proof. intros H. apply bind_Ok in H as (p & w1 & [_ ->]%lift_Ok & H). eauto. Qed.

Lemma write_outbox_Ok record w u w' :
  write_outbox record w = (Ok u, w') ->
  w_tx w' = w_tx w
  /\ exists r row, record = Ok r /\ record_Status row = outboxStatusPending
       /\ record_EventType row = record_EventType r /\ record_Payload row = record_Payload r
       /\ w_db w' = set_outbox (mkOutboxTable (ot_rows (db_outbox (w_db w)) ++ [row])
                                  (S (ot_uuids (db_outbox (w_db w))))) (w_db w).
Proof.
  intros H. unfold write_outbox in H. apply bind_Ok in H as (r & w1 & [Hr ->]%lift_Ok & H).
  apply bind_Ok in H as (t & w2 & [= _ <-] & H). unfold Create in H.
  apply map_err_Ok, exec_outbox_Ok in H as (t' & H & Hdb & Htx).
  apply insert_stmt_Ok in H as (row & H1 & H2 & _ & H4 & ->). split; [done|].
  exists r, row. done.
Qed.

(** A record whose key is taken is refused. *)
Lemma write_outbox_fresh r w u w' x :
  write_outbox (Ok r) w = (Ok u, w') -> x ∈ ot_rows (db_outbox (w_db w)) -> record_DedupKey x <> record_DedupKey r.
Proof.
  intros H Hx E. unfold write_outbox in H. apply bind_Ok in H as (r0 & w1 & [[= ->] ->]%lift_Ok & H).
  apply bind_Ok in H as (t & w2 & [= _ <-] & H). unfold Create in H.
  apply map_err_Ok, exec_outbox_Ok in H as (t' & H & _). unfold insert_stmt in H.
  apply bind_Ok in H as (u1 & t1 & [_ ->]%guardM_Ok & H).
  destruct (existsb _ _) eqn:Ex; [done|]. rewrite existsb_false in Ex. specialize (Ex x Hx).
  apply String.eqb_neq in Ex. done.
Qed.

Lemma event_record_type a b c k p t r :
  event_record a b c k p t = Ok r -> record_EventType r = c.
Proof. unfold event_record. destruct (Marshal p); [|done]. by intros [= <-]. Qed.

Lemma atomic_weaken {A} (P Q : Database -> Database -> Prop) w (r : result A) w' :
  atomic_outcome P w r w' -> (P (w_db w) (w_db w') -> Q (w_db w) (w_db w')) -> atomic_outcome Q w r w'.
Proof. intros [H1 [H2|H2]] H; split; auto. Qed.

Lemma Module_GetByName_Ok name w m w' :
  Module_GetByName name w = (Ok m, w') ->
  exists row, row ∈ db_modules (w_db w) /\ module_Name row = name
    /\ module_ID m = TrimSpace (module_ID row) /\ NewModuleName name = Ok (module_Name m).
Proof.
  intros H. unfold Module_GetByName in H. apply bind_Ok in H as (row & w1 & H & [Hs _]%lift_Ok).
  apply map_err_Ok, exec_db_Ok in H as [H _]. apply bind_Ok in H as (u & d & [_ ->]%guardM_Ok & H).
  apply query_row_Ok in H as [Hrow _].
  assert (Hin : row ∈ List.filter (fun m => eqs (module_Name m) name) (db_modules (w_db w)))
    by (destruct (List.filter _ _); set_solver).
  apply elem_of_filter_bool in Hin as [Hin Hn%eqs_true]. exists row.
  unfold scanModule in Hs. rewrite Hn in Hs. destruct (NewModuleName name); [|done].
  by injection Hs as <-.
Qed.

End Common.
