(* ===== verification/CatalogStore.v ===== *)
(** * The repositories of the registry

    [repository/postgres/modules.go] (creation and listing), [module_versions.go],
    [artifacts.go], [buf_configs.go] and the writing half of
    [breaking_reports.go], with the constraints of the migrations. *)

From S2P Require Import Prelude Errors GoStrings Domain Effects Postgres Outbox Tables World GovernanceStore.

Open Scope string_scope.
Open Scope Z_scope.

(** [timeOrNow]. *)
Definition timeOrNow `{!Env} (value : time) : M World time :=
  if IsZero value then now else ret value.

(** The text of a string in a [jsonb] column: [json.Marshal] replaces what is
    not UTF-8, the server refuses the character NUL. *)
Definition jsonb_text (s : string) : result string :=
  if forallb_string (fun a => negb (byte a =? 0)) s then Ok (encode_runes (runes s))
  else Err (EDriver (PgError "22P05" "")).

Fixpoint result_mapM {A B} (f : A -> result B) (l : list A) : result (list B) :=
  match l with
  | [] => Ok []
  | x :: l' => let? y := f x in let? ys := result_mapM f l' in Ok (y :: ys)
  end.

Section Store.
Context `{PG : !Postgres} `{ENV : !Env}.

(** ** Modules ([ModuleRepository]) *)

Definition Module_Create (module : Module_) : M World unit :=
  map_err mapError (exec (T := Database) (
    let! id := uuid_param (module_ID module) in
    let! _ := text_params [module_Name module; module_Description module; module_RepositoryURL module] in
    let! d := gets (fun d => d) in
    let! _ := insert_checks []
      [(existsb (fun m => eqs (module_ID m) id) (db_modules d), unique_violation "modules_pkey");
       (existsb (fun m => eqs (module_Name m) (module_Name module)) (db_modules d),
         unique_violation "modules_name_key")] [] in
    modify (set_modules (fun l => l ++ [mkModule id (module_Name module) (module_Description module)
      (module_RepositoryURL module) (module_CreatedAt module) (module_UpdatedAt module)])%list))).

Definition Module_List (limit offset : Z) : M World (list Module_) :=
  let! rows := map_err mapError (exec (T := Database) (
    let! _ := page_params limit offset in
    gets (fun d => limit_offset limit offset
      (sort_by (fun x y => pg_text_le (module_Name x) (module_Name y)) (db_modules d))))) in
  scan_rows scanModule rows.

(** ** Versions ([ModuleVersionRepository]) *)

(** The columns of [module_versions]: the time of publication is not one. *)
Definition version_row (id : ModuleVersionID) (moduleID : ModuleID) (v : ModuleVersion) : ModuleVersion :=
  mkModuleVersion id moduleID (version_Version v) (version_Status v) (version_Digest v)
    (version_CreatedAt v) None (version_DeprecatedAt v) (version_DeprecatedBy v)
    (version_DeprecationReason v).

Definition Version_Create (version : ModuleVersion) : M World unit :=
  map_err mapError (exec (T := Database) (
    let! id := uuid_param (version_ID version) in
    let! moduleID := uuid_param (version_ModuleID version) in
    let! _ := text_params [version_Version version; version_Digest version; version_Status version;
                           version_DeprecatedBy version; version_DeprecationReason version] in
    let! d := gets (fun d => d) in
    let! _ := insert_checks []
      [(existsb (fun v => eqs (version_ID v) id) (db_versions d), unique_violation "module_versions_pkey");
       (existsb (fun v => eqs (version_ModuleID v) moduleID
                          && eqs (version_Version v) (version_Version version)) (db_versions d),
         unique_violation "module_versions_module_id_version_key")]
      [(negb (existsb (fun m => eqs (module_ID m) moduleID) (db_modules d)),
         foreign_key_violation "module_versions_module_id_fkey")] in
    modify (set_versions (fun l => l ++ [version_row id moduleID version])%list))).

Definition set_deprecation (deprecatedAt : option time) (deprecatedBy reason : string)
    (v : ModuleVersion) : ModuleVersion :=
  mkModuleVersion (version_ID v) (version_ModuleID v) (version_Version v) (version_Status v)
    (version_Digest v) (version_CreatedAt v) (version_PublishedAt v) deprecatedAt deprecatedBy reason.

Definition UpdateDeprecation (id : ModuleVersionID) (deprecatedAt : option time)
    (deprecatedBy deprecationReason : string) : M World unit :=
  affected_or_not_found (
    let! id := uuid_param id in
    let! _ := text_params [deprecatedBy; deprecationReason] in
    let p := fun v => eqs (version_ID v) id in
    let! n := gets (fun d => length (List.filter p (db_versions d))) in
    let! _ := modify (set_versions (update_where p
                (set_deprecation deprecatedAt deprecatedBy deprecationReason))) in
    ret n).

Definition scanModuleVersion (v : ModuleVersion) : result ModuleVersion :=
  let? version := NewVersion (version_Version v) in
  let? status := NewModuleVersionStatus (version_Status v) in
  Ok (mkModuleVersion (NewModuleVersionID (version_ID v)) (NewModuleID (version_ModuleID v)) version
        status (version_Digest v) (version_CreatedAt v) None (version_DeprecatedAt v)
        (version_DeprecatedBy v) (version_DeprecationReason v)).

Definition Version_getOne (query : M Database ModuleVersion) : M World ModuleVersion :=
  map_err mapError (let! row := exec query in lift (scanModuleVersion row)).

Definition Version_GetByID (id : ModuleVersionID) : M World ModuleVersion :=
  Version_getOne (
    let! id := uuid_param id in
    query_row (fun d => List.filter (fun v => eqs (version_ID v) id) (db_versions d))).

Definition GetByModuleAndVersion (moduleID : ModuleID) (version : Version) : M World ModuleVersion :=
  Version_getOne (
    let! id := uuid_param moduleID in
    let! _ := text_params [version] in
    query_row (fun d => List.filter (fun v =>
      eqs (version_ModuleID v) id && eqs (version_Version v) version) (db_versions d))).

(** The versions of a module, the newest first. *)
Definition module_versions (id : ModuleID) (d : Database) : list ModuleVersion :=
  sort_by (newest_first version_CreatedAt) (List.filter (fun v => eqs (version_ModuleID v) id) (db_versions d)).

Definition GetLatestByModule (moduleID : ModuleID) : M World ModuleVersion :=
  Version_getOne (
    let! id := uuid_param moduleID in
    query_row (fun d => firstn 1 (module_versions id d))).

Definition Version_ListByModule (moduleID : ModuleID) (limit offset : Z) : M World (list ModuleVersion) :=
  let! rows := map_err mapError (exec (T := Database) (
    let! id := uuid_param moduleID in
    let! _ := page_params limit offset in
    gets (fun d => limit_offset limit offset (module_versions id d)))) in
  scan_rows scanModuleVersion rows.

(** ** Artifacts ([ArtifactRepository]) *)

Definition artifactKindOrDefault (kind : ArtifactKind) : ArtifactKind :=
  if ArtifactKind_IsValid kind then kind else ArtifactKindSourceArchive.

Definition Artifact_Create (artifact : Artifact) : M World unit :=
  let kind := artifactKindOrDefault (artifact_Kind artifact) in
  map_err mapError (exec (T := Database) (
    let! id := uuid_param (artifact_ID artifact) in
    let! versionID := uuid_param (artifact_ModuleVersionID artifact) in
    let! _ := text_params [kind; artifact_StorageKey artifact; artifact_ChecksumSHA256 artifact] in
    let! d := gets (fun d => d) in
    let artifacts := ct_artifacts (db_catalog d) in
    let! _ := insert_checks
      [(negb (allowed_in [ArtifactKindSourceArchive; ArtifactKindBufImage] kind),
         check_violation "artifacts_kind_check")]
      [(existsb (fun a => eqs (artifact_ID a) id) artifacts, unique_violation "artifacts_pkey");
       (existsb (fun a => eqs (artifact_StorageKey a) (artifact_StorageKey artifact)) artifacts,
         unique_violation "artifacts_storage_key_key");
       (existsb (fun a => eqs (artifact_ModuleVersionID a) versionID && eqs (artifact_Kind a) kind) artifacts,
         unique_violation "artifacts_module_version_kind_key")]
      [(negb (existsb (fun v => eqs (version_ID v) versionID) (db_versions d)),
         foreign_key_violation "artifacts_module_version_id_fkey")] in
    modify (set_catalog (set_artifacts (fun l => l ++ [mkArtifact id versionID kind
      (artifact_StorageKey artifact) (artifact_ChecksumSHA256 artifact) (artifact_SizeBytes artifact)
      (artifact_CreatedAt artifact)])%list)))).

Definition scanArtifact (a : Artifact) : result Artifact :=
  let? kind := NewArtifactKind (artifact_Kind a) in
  Ok (mkArtifact (NewArtifactID (artifact_ID a)) (NewModuleVersionID (artifact_ModuleVersionID a)) kind
        (artifact_StorageKey a) (artifact_ChecksumSHA256 a) (artifact_SizeBytes a) (artifact_CreatedAt a)).

Definition Artifact_getOne (query : M Database Artifact) : M World Artifact :=
  map_err mapError (let! row := exec query in lift (scanArtifact row)).

Definition Artifact_GetByID (id : ArtifactID) : M World Artifact :=
  Artifact_getOne (
    let! id := uuid_param id in
    query_row (fun d => List.filter (fun a => eqs (artifact_ID a) id) (ct_artifacts (db_catalog d)))).

Definition GetByModuleVersionAndKind (moduleVersionID : ModuleVersionID) (kind : ArtifactKind)
    : M World Artifact :=
  Artifact_getOne (
    let! id := uuid_param moduleVersionID in
    let! _ := text_params [kind] in
    query_row (fun d => List.filter (fun a =>
      eqs (artifact_ModuleVersionID a) id && eqs (artifact_Kind a) kind) (ct_artifacts (db_catalog d)))).

Definition Artifact_GetByModuleVersion (moduleVersionID : ModuleVersionID) : M World Artifact :=
  GetByModuleVersionAndKind moduleVersionID ArtifactKindSourceArchive.

Definition Artifact_ListByModuleVersion (moduleVersionID : ModuleVersionID) : M World (list Artifact) :=
  let! rows := map_err mapError (exec (T := Database) (
    let! id := uuid_param moduleVersionID in
    gets (fun d => sort_by (fun x y => pg_text_le (artifact_Kind x) (artifact_Kind y))
      (List.filter (fun a => eqs (artifact_ModuleVersionID a) id) (ct_artifacts (db_catalog d)))))) in
  scan_rows scanArtifact rows.

(** ** Configurations of buf ([BufConfigRepository]) *)

Definition set_bufRow_Config (config : BufConfigInfo) (r : BufConfigRow) : BufConfigRow :=
  mkBufConfigRow (bufRow_ID r) (bufRow_ModuleVersionID r) config (bufRow_CreatedAt r).

(** The new row takes its place when the version has none; the update keeps the
    identifier and the time of the old one. *)
Definition BufConfig_Save (moduleVersionID : ModuleVersionID) (config : BufConfigInfo) : M World unit :=
  let! t := now in
  map_err mapError (exec (T := Database) (
    let! id := uuid_param moduleVersionID in
    let! _ := text_params [buf_YAMLDigest config; buf_LockDigest config] in
    let! modulePaths := lift (result_mapM jsonb_text (buf_ModulePaths config)) in
    let! deps := lift (result_mapM jsonb_text (buf_Deps config)) in
    let stored := mkBufConfigInfo (buf_YAMLPresent config) (buf_LockPresent config) (buf_YAMLDigest config)
                    (buf_LockDigest config) modulePaths deps (buf_LintEnabled config)
                    (buf_BreakingConfigPresent config) in
    let! d := gets (fun d => d) in
    let p := fun r => eqs (bufRow_ModuleVersionID r) id in
    if existsb p (ct_buf_configs (db_catalog d))
    then modify (set_catalog (set_buf_configs (update_where p (set_bufRow_Config stored))))
    else
      let! _ := insert_checks [] []
        [(negb (existsb (fun v => eqs (version_ID v) id) (db_versions d)),
           foreign_key_violation "module_version_buf_configs_module_version_id_fkey")] in
      modify (set_catalog (set_buf_configs (fun l =>
        l ++ [mkBufConfigRow (gen_random_uuid (length l)) id stored t])%list)))).

Definition BufConfig_GetByModuleVersion (moduleVersionID : ModuleVersionID) : M World BufConfigInfo :=
  let! row := map_err mapError (exec (T := Database) (
    let! id := uuid_param moduleVersionID in
    query_row (fun d => List.filter (fun r => eqs (bufRow_ModuleVersionID r) id)
                          (ct_buf_configs (db_catalog d))))) in
  ret (bufRow_Config row).

(** ** Breaking reports ([BreakingReportRepository]) *)

Definition insert_report_stmt (report : BreakingReport) : M Database unit :=
  let! id := uuid_param (report_ID report) in
  let! moduleID := uuid_param (report_ModuleID report) in
  let! versionID := uuid_param (report_BaseVersionID report) in
  let! _ := text_params [report_TargetRef report; report_Status report; report_RawOutput report;
                         report_HumanSummary report] in
  let! d := gets (fun d => d) in
  let! _ := insert_checks
    [(negb (allowed_in [BreakingReportStatusPassed; BreakingReportStatusBreaking; BreakingReportStatusFailed]
              (report_Status report)), check_violation "breaking_reports_status_check")]
    [(existsb (fun r => eqs (report_ID r) id) (db_reports d), unique_violation "breaking_reports_pkey")]
    [(negb (existsb (fun m => eqs (module_ID m) moduleID) (db_modules d)),
       foreign_key_violation "breaking_reports_module_id_fkey");
     (negb (existsb (fun v => eqs (version_ID v) versionID) (db_versions d)),
       foreign_key_violation "breaking_reports_base_version_id_fkey")] in
  modify (set_reports (fun l => l ++ [mkBreakingReport id moduleID "" versionID "" (report_TargetRef report)
    (report_Status report) (report_ChangeCount report) (report_RawOutput report)
    (report_HumanSummary report) (report_CreatedAt report)])%list).

Definition insert_change_stmt (reportID : BreakingReportID) (c : BreakingChange) : M Database unit :=
  let! id := uuid_param (change_ID c) in
  let! reportID := uuid_param reportID in
  let! _ := text_params [change_Category c; change_FilePath c; change_PackageName c; change_Symbol c;
                         change_RuleID c; change_Message c; change_Severity c] in
  let! d := gets (fun d => d) in
  let! _ := insert_checks []
    [(existsb (fun x => eqs (change_ID x) id) (db_changes d), unique_violation "breaking_changes_pkey")]
    [(negb (existsb (fun r => eqs (report_ID r) reportID) (db_reports d)),
       foreign_key_violation "breaking_changes_report_id_fkey")] in
  modify (set_changes (fun l => l ++ [mkBreakingChange id reportID (change_Category c) (change_FilePath c)
    (change_PackageName c) (change_Symbol c) (change_RuleID c) (change_Message c) (change_Severity c)
    (change_CreatedAt c)])%list).

Definition createChange (reportID : BreakingReportID) (c : BreakingChange) : M World unit :=
  map_err mapError (exec (insert_change_stmt reportID c)).

Definition Report_Create (report : BreakingReport) (changes : list BreakingChange) : M World unit :=
  WithinTransaction (
    let! _ := map_err mapError (exec (insert_report_stmt report)) in
    forM changes (createChange (report_ID report))).

Definition Report_ListByModule (moduleID : ModuleID) (limit offset : Z) : M World (list BreakingReport) :=
  let! rows := map_err mapError (exec (T := Database) (
    let! id := uuid_param moduleID in
    let! _ := page_params limit offset in
    gets (fun d => limit_offset limit offset (sort_by (newest_first report_CreatedAt)
      (report_rows (fun r => eqs (report_ModuleID r) id) d))))) in
  scan_rows scanBreakingReport rows.

Definition CountChangesByReport (reportID : BreakingReportID) : M World Z :=
  map_err mapError (exec (T := Database) (
    let! id := uuid_param reportID in
    gets (fun d => llen (List.filter (fun c => eqs (change_ReportID c) id) (db_changes d))))).
End Store.
