(* ===== verification/JsonDecode.v ===== *)
(** * Decoding JSON into structs

    [json.Decoder.Decode] with [DisallowUnknownFields], as the server and the
    client use it: a value is read from the start of a text, the keys of an
    object are matched with the fields of a struct, exactly or with case
    folded, and a value is stored in its field.

    The theorem: what [Marshal] writes is read back ([Decode_Marshal]). *)

From S2P Require Import Prelude Errors GoStrings JsonScan Domain Json CatalogStore.
From stdpp Require Import pretty.

Open Scope string_scope.
Open Scope Z_scope.

(** ** Fields *)

(** [foldName]: upper case; the Kelvin sign and the long s fold to ASCII. *)
Definition fold_rune (r : Z) : Z :=
  if (97 <=? r) && (r <=? 122) then r - 32 else if r =? 8490 then 75 else if r =? 383 then 83 else r.
Definition fold_name (s : string) : list Z := map fold_rune (runes s).

(** A decoder into a value of type [T]: it changes the value that is there. *)
Definition decoder (T : Type) : Type := jvalue -> T -> option T.

(** [null] leaves a value as it is. *)
Definition decode_string : decoder string := fun v old =>
  match v with VNull => Some old | VString s => Some s | _ => None end.
Definition decode_bool : decoder bool := fun v old =>
  match v with VNull => Some old | VBool b => Some b | _ => None end.

(** [strconv.ParseInt] of the text of a number. *)
Fixpoint parse_digits (acc : Z) (s : string) : option Z :=
  match s with
  | "" => Some acc
  | String c s' => if is_digit c then parse_digits (acc * 10 + (byte c - 48)) s' else None
  end.
Definition parse_int (s : string) : option Z :=
  match s with
  | "" => None
  | String c s' =>
      if Ascii.eqb c "-" then match s' with "" => None | _ => Z.opp <$> parse_digits 0 s' end else parse_digits 0 s
  end.
Definition decode_int64 : decoder Z := fun v old =>
  match v with
  | VNull => Some old
  | VNumber text =>
      match parse_int text with
      | Some z => if (int64_min <=? z) && (z <=? int64_max) then Some z else None
      | None => None
      end
  | _ => None
  end.

(** The fields of a struct. *)
Definition fields (T : Type) : Type := list (string * decoder T).
Definition field {T A} (name : string) (get : T -> A) (set : A -> T -> T) (d : decoder A) : string * decoder T :=
  (name, fun v t => (fun a => set a t) <$> d v (get t)).

(** The field of a key: of its name, or else of its folded name. *)
Definition find_field {T} (fs : fields T) (key : string) : option (decoder T) :=
  match List.find (fun f => (fst f =? key)%string) fs with
  | Some f => Some (snd f)
  | None => snd <$> List.find (fun f => bool_decide (fold_name (fst f) = fold_name key)) fs
  end.

(** A key without a field is refused under [DisallowUnknownFields] and else
    passed over. *)
Fixpoint decode_members {T} (strict : bool) (fs : fields T) (members : list (string * jvalue)) (t : T) : option T :=
  match members with
  | [] => Some t
  | (key, v) :: rest =>
      match find_field fs key with
      | Some d => match d v t with Some t' => decode_members strict fs rest t' | None => None end
      | None => if strict then None else decode_members strict fs rest t
      end
  end.
Definition decode_struct {T} (strict : bool) (fs : fields T) : decoder T := fun v t =>
  match v with VNull => Some t | VObject members => decode_members strict fs members t | _ => None end.

(** A slice keeps its array: elements that were decoded before are decoded into
    again, whether the slice still shows them or not. *)
Record slice (T : Type) := mkSlice { slice_array : list T; slice_len : nat }.
Arguments mkSlice {T}.
Arguments slice_array {T}.
Arguments slice_len {T}.
Definition slice_items {T} (s : slice T) : list T := firstn (slice_len s) (slice_array s).
Definition nil_slice {T} : slice T := mkSlice [] 0.

Fixpoint decode_items {T} (zero : T) (d : decoder T) (vs : list jvalue) (array : list T) : option (list T) :=
  match vs with
  | [] => Some array
  | v :: vs' =>
      match d v (default zero (head array)) with
      | Some x => cons x <$> decode_items zero d vs' (tail array)
      | None => None
      end
  end.
Definition decode_slice {T} (zero : T) (d : decoder T) : decoder (slice T) := fun v old =>
  match v with
  | VNull | VArray [] => Some nil_slice
  | VArray vs => (fun array => mkSlice array (length vs)) <$> decode_items zero d vs (slice_array old)
  | _ => None
  end.

(** A pointer is allocated, or kept; [null] makes it nil. *)
Definition decode_pointer {T} (zero : T) (d : decoder T) : decoder (option T) := fun v old =>
  match v with VNull => Some None | _ => Some <$> d v (default zero old) end.

(** ** The body of a request *)

Inductive decode_error := TooLarge | Malformed.

(** [Decoder.Decode] of a body of which no more than [limit] bytes are read, if
    there is a limit: the value is complete within them, the text is bad before
    they end, or the reader fails. *)
Definition decode_text {T} (limit : option Z) (d : decoder T) (body : string) (zero : T) : T + decode_error :=
  let over := match limit with Some n => n <? len body | None => false end in
  let visible := match limit with Some n => substring 0 (Z.to_nat n) body | None => body end in
  let st := scan (BeginValue []) visible in
  let value :=
    match st with
    | Finished v => inl v
    | Bad => inr Malformed
    | _ => if over then inr TooLarge else match at_end st with Some v => inl v | None => inr Malformed end
    end in
  match value with
  | inl v => match d v zero with Some t => inl t | None => inr Malformed end
  | inr e => inr e
  end.

(** ** What is written is read back *)

(** The text with the bytes that are not UTF-8 replaced. *)
Definition clean (s : string) : string := encode_runes (runes s).

(** *** Strings *)

Fixpoint string_run (q : string_state) (s : string) : option string_state :=
  match s with
  | "" => Some q
  | String c s' => match string_char q c with Some (q', false) => string_run q' s' | _ => None end
  end.

Lemma scan_app st s t : scan st (s +:+ t) = scan (scan st s) t.
Proof. revert st. induction s as [|c s IH]; intros st; [done|]. cbn. apply IH. Qed.
Lemma string_run_app q s t : string_run q (s +:+ t) = match string_run q s with Some q' => string_run q' t | None => None end.
Proof.
  revert q. induction s as [|c s IH]; intros q; [done|]. cbn.
  destruct (string_char q c) as [[q' []]|]; [done|apply IH|done].
Qed.

Lemma scan_in_string raw q s q' stack :
  string_run q s = Some q' -> scan (InString raw q stack) s = InString (raw +:+ s) q' stack.
Proof.
  revert raw q. induction s as [|c s IH]; intros raw q; cbn; [intros [= ->]; by rewrite string_app_nil_r|].
  destruct (string_char q c) as [[q1 []]|]; [done| |done]. intros H. rewrite IH by done. by rewrite string_app_assoc.
Qed.
Lemma scan_in_key raw q s q' members stack :
  string_run q s = Some q' -> scan (InKey raw q members stack) s = InKey (raw +:+ s) q' members stack.
Proof.
  revert raw q. induction s as [|c s IH]; intros raw q; cbn; [intros [= ->]; by rewrite string_app_nil_r|].
  destruct (string_char q c) as [[q1 []]|]; [done| |done]. intros H. rewrite IH by done. by rewrite string_app_assoc.
Qed.

(** A piece of a literal: it stays in the string, and stands for [out]. *)
Definition piece (p out : string) : Prop :=
  string_run SPlain p = Some SPlain /\ (0 < String.length p)%nat
  /\ forall t, unquote_step (p +:+ t) = (out, String.length p).

Lemma unquote_skip p t : unquote_from (String.length p) (p +:+ t) = unquote t.
Proof. induction p as [|c p IH]; [done|]. cbn. apply IH. Qed.
Lemma unquote_piece p out t : piece p out -> unquote (p +:+ t) = out +:+ unquote t.
Proof.
  intros (_ & Hlen & Hp). destruct p as [|c p]; [cbn in Hlen; lia|]. specialize (Hp t).
  unfold unquote at 1. cbn [String.append] in *. cbn [unquote_from]. rewrite Hp. cbn [String.length].
  f_equal. replace (S (String.length p) - 1)%nat with (String.length p) by lia. apply unquote_skip.
Qed.
Lemma piece_run p out t : piece p out -> string_run SPlain (p +:+ t) = string_run SPlain t.
Proof. intros (H & _). by rewrite string_run_app, H. Qed.

Lemma piece_ascii a : byte a <? 128 = true -> piece (escape_ascii a) (encode_rune (byte a)).
Proof.
  destruct a as [[] [] [] [] [] [] [] []]; intros H; try discriminate H;
    (split; [reflexivity|split; [by apply Nat.ltb_lt; vm_compute|intros [|b t]; reflexivity]]).
Qed.

Lemma string_char_high a : byte a <? 128 = false -> string_char SPlain a = Some (SPlain, false).
Proof. destruct a as [[] [] [] [] [] [] [] []]; intros H; by try discriminate H. Qed.
Lemma string_run_high a s : byte a <? 128 = false -> string_run SPlain (String a s) = string_run SPlain s.
Proof. intros H. cbn [string_run]. by rewrite string_char_high. Qed.
Lemma high_not_backslash a : byte a <? 128 = false -> Ascii.eqb a backslash = false.
Proof. destruct a as [[] [] [] [] [] [] [] []]; intros H; by try discriminate H. Qed.
Lemma cont_high lo hi a : 128 <= lo -> cont_byte lo hi a = true -> byte a <? 128 = false.
Proof. unfold cont_byte. lia. Qed.

Lemma accept3_low b : 128 <= (accept3 b).1.
Proof. unfold accept3. destruct (b =? 224), (b =? 237); cbn; lia. Qed.
Lemma accept4_low b : 128 <= (accept4 b).1.
Proof. unfold accept4. destruct (b =? 240), (b =? 244); cbn; lia. Qed.

Lemma piece_two a b : byte a <? 128 = false -> is2 a b = true -> piece (String a (String b "")) (encode_rune (rune2 a b)).
Proof.
  intros Ha H. pose proof H as H'. unfold is2 in H'. repeat apply andb_true_iff in H' as [H' ?].
  assert (Hb : byte b <? 128 = false) by (eapply cont_high; [|eassumption]; lia).
  split_and!; [by rewrite !string_run_high by done|cbn; lia|].
  intros t. cbn [String.append unquote_step]. rewrite (high_not_backslash a) by done.
  cbn [runes rune_size]. by rewrite Ha, H.
Qed.

Lemma piece_three a b c :
  byte a <? 128 = false -> is2 a b = false -> is3 a b c = true ->
  piece (String a (String b (String c ""))) (encode_rune (rune3 a b c)).
Proof.
  intros Ha N H. pose proof H as H'. unfold is3 in H'. repeat apply andb_true_iff in H' as [H' ?].
  assert (Hb : byte b <? 128 = false) by (eapply cont_high; [|eassumption]; apply accept3_low).
  assert (Hc : byte c <? 128 = false) by (eapply cont_high; [|eassumption]; lia).
  split_and!; [by rewrite !string_run_high by done|cbn; lia|].
  intros t. cbn [String.append unquote_step]. rewrite (high_not_backslash a) by done.
  cbn [runes rune_size]. by rewrite Ha, N, H.
Qed.

Lemma piece_four a b c d :
  byte a <? 128 = false -> is2 a b = false -> is3 a b c = false -> is4 a b c d = true ->
  piece (String a (String b (String c (String d "")))) (encode_rune (rune4 a b c d)).
Proof.
  intros Ha N N' H. pose proof H as H'. unfold is4 in H'. repeat apply andb_true_iff in H' as [H' ?].
  assert (Hb : byte b <? 128 = false) by (eapply cont_high; [|eassumption]; apply accept4_low).
  assert (Hc : byte c <? 128 = false) by (eapply cont_high; [|eassumption]; lia).
  assert (Hd : byte d <? 128 = false) by (eapply cont_high; [|eassumption]; lia).
  split_and!; [by rewrite !string_run_high by done|cbn; lia|].
  intros t. cbn [String.append unquote_step]. rewrite (high_not_backslash a) by done.
  cbn [runes rune_size]. by rewrite Ha, N, N', H.
Qed.

Lemma piece_replacement : piece replacement_escape (encode_rune RuneError).
Proof. split_and!; [reflexivity|cbn; lia|intros [|b t]; reflexivity]. Qed.
Lemma piece_separators :
  piece (String backslash "u2028") (encode_rune 8232) /\ piece (String backslash "u2029") (encode_rune 8233).
Proof. split; (split_and!; [reflexivity|cbn; lia|intros [|b t]; reflexivity]). Qed.

(** A literal that the writer makes is read as the text it was made of. *)
Definition reads_as (t u : string) : Prop := string_run SPlain t = Some SPlain /\ unquote t = u.

Lemma reads_piece p out t u : piece p out -> reads_as t u -> reads_as (p +:+ t) (out +:+ u).
Proof. intros P [H1 H2]. split; [by rewrite (piece_run p out)|by rewrite (unquote_piece p out), H2]. Qed.

Lemma separator a b c :
  ((byte a =? 226) && (byte b =? 128) && ((byte c =? 168) || (byte c =? 169)))%bool = true ->
  rune3 a b c = if byte c =? 168 then 8232 else 8233.
Proof.
  intros H. repeat apply andb_true_iff in H as [H ?]. unfold rune3.
  destruct (byte c =? 168) eqn:E; cbn in *; lia.
Qed.

Lemma escape_read : forall s, reads_as (escape s) (clean s).
Proof.
  fix IH 1. intros [|a s1]; [exact (conj eq_refl eq_refl)|]. pose proof (IH s1) as H1. unfold clean. cbn [escape runes].
  destruct (byte a <? 128) eqn:Ea; [apply reads_piece; [by apply piece_ascii|exact H1]|].
  destruct s1 as [|b s2]; [exact (reads_piece _ _ "" "" piece_replacement (conj eq_refl eq_refl))|].
  destruct (is2 a b) eqn:E2; [apply (reads_piece _ _ _ _ (piece_two a b Ea E2)), IH|].
  assert (Hr : reads_as (replacement_escape +:+ escape (String b s2)) (encode_rune RuneError +:+ clean (String b s2)))
    by (apply (reads_piece _ _ _ _ piece_replacement), H1).
  destruct s2 as [|c s3]; [exact Hr|].
  destruct (is3 a b c) eqn:E3.
  - cbn [encode_runes fold_right]. apply reads_piece; [|apply IH].
    destruct (_ && _)%bool eqn:Es; [|by apply piece_three].
    apply separator in Es as ->. destruct (byte c =? 168); apply piece_separators.
  - destruct s3 as [|d s4]; [exact Hr|].
    destruct (is4 a b c d) eqn:E4; [|exact Hr]. apply (reads_piece _ _ _ _ (piece_four a b c d Ea E2 E3 E4)), IH.
Qed.

(** *** Numbers *)

Lemma pretty_N_char_digit k : (k < 10)%N -> byte (pretty_N_char k) = 48 + Z.of_N k.
Proof.
  intros H. destruct (N.leb_spec 10 k); [lia|].
  assert (Hk : k = 0%N \/ k = 1%N \/ k = 2%N \/ k = 3%N \/ k = 4%N \/ k = 5%N \/ k = 6%N \/ k = 7%N \/ k = 8%N \/ k = 9%N)
    by lia.
  repeat destruct Hk as [->|Hk]; try reflexivity. by subst.
Qed.

Lemma mod10 x : 0 <= Z.of_N (x mod 10) <= 9.
Proof. split; [apply N2Z.is_nonneg|]. pose proof (N.mod_lt x 10 ltac:(done)). lia. Qed.

Lemma pretty_go_digits x : (0 < x)%N -> forall s, exists d ds,
  pretty_N_go x s = String d (ds +:+ s) /\ 49 <= byte d <= 57 /\ forallb_string is_digit ds = true.
Proof.
  induction x as [x IH] using (well_founded_induction N.lt_wf_0). intros Hx s.
  rewrite pretty_N_go_step by done. pose proof (mod10 x) as Hm.
  pose proof (pretty_N_char_digit (x mod 10) (N.mod_lt x 10 ltac:(done))) as Hc.
  destruct (decide (x / 10 = 0)%N) as [E|E].
  - rewrite E, pretty_N_go_0. apply N.div_small_iff in E; [|done].
    exists (pretty_N_char (x mod 10)), "". rewrite Hc, N.mod_small by done. split_and!; try done. all: lia.
  - destruct (IH (x / 10)%N) with (s := String (pretty_N_char (x mod 10)) s) as (d & ds & -> & Hd & Hds); [by apply N.div_lt|by apply N.neq_0_lt_0|].
    exists d, (ds +:+ String (pretty_N_char (x mod 10)) ""). rewrite string_app_assoc. split_and!; try done; try lia.
    assert (Hlast : is_digit (pretty_N_char (x mod 10)) = true) by (unfold is_digit; rewrite Hc; revert Hm; generalize (Z.of_N (x mod 10)); lia).
    clear -Hds Hlast. induction ds as [|c ds IH]; cbn [String.append forallb_string] in *; [by rewrite Hlast|].
    destruct (is_digit c); [|done]. by apply IH.
Qed.

Lemma parse_pretty_go x : (0 < x)%N -> forall s, parse_digits 0 (pretty_N_go x s) = parse_digits (Z.of_N x) s.
Proof.
  induction x as [x IH] using (well_founded_induction N.lt_wf_0). intros Hx s.
  rewrite pretty_N_go_step by done. pose proof (mod10 x) as Hm.
  pose proof (pretty_N_char_digit (x mod 10) (N.mod_lt x 10 ltac:(done))) as Hc.
  assert (Hd : forall acc, parse_digits acc (String (pretty_N_char (x mod 10)) s)
    = parse_digits (acc * 10 + Z.of_N (x mod 10)) s).
  { intros acc. cbn [parse_digits]. unfold is_digit. rewrite Hc. revert Hm. generalize (Z.of_N (x mod 10)).
    intros k Hk. destruct (_ && _) eqn:E; [|lia]. f_equal. lia. }
  assert (Hz : Z.of_N x = Z.of_N (x / 10) * 10 + Z.of_N (x mod 10)).
  { pose proof (N.div_mod x 10). lia. }
  destruct (decide (x / 10 = 0)%N) as [E|E].
  - rewrite E, pretty_N_go_0, Hd. f_equal. rewrite Hz, E. lia.
  - rewrite IH, Hd; [by rewrite Hz|apply N.div_lt; lia|lia].
Qed.

Lemma itoa_cases z :
  (z = 0 /\ itoa z = "0")
  \/ exists p d ds, z = Z.pos p /\ itoa z = pretty_N_go (N.pos p) "" /\ itoa z = String d ds
       /\ 49 <= byte d <= 57 /\ forallb_string is_digit ds = true
  \/ z = Z.neg p /\ itoa z = String "-" (pretty_N_go (N.pos p) "") /\ itoa z = String "-" (String d ds)
       /\ 49 <= byte d <= 57 /\ forallb_string is_digit ds = true.
Proof.
  destruct z as [|p|p]; [by left| |]; right; destruct (pretty_go_digits (N.pos p) eq_refl "") as (d & ds & E & Hd & Hds);
    rewrite string_app_nil_r in E; exists p, d, ds.
  - left. assert (Ei : itoa (Z.pos p) = pretty_N_go (N.pos p) "") by done. rewrite Ei, E. split_and!; try done; lia.
  - right. assert (Ei : itoa (Z.neg p) = String "-" (pretty_N_go (N.pos p) "")) by done. rewrite Ei, E. split_and!; try done; lia.
Qed.

Lemma nonzero_digit d stack :
  49 <= byte d <= 57 ->
  Ascii.eqb d "-" = false /\ begin_value stack d = InNumber (String d "") NInt stack /\ number_char NNeg d = Some NInt
  /\ is_json_space d = false /\ d <> "]"%char.
Proof.
  destruct d as [[] [] [] [] [] [] [] []]; intros H; vm_compute in H; destruct H as [H1 H2];
    first [by destruct H1|by destruct H2|by split_and!].
Qed.

Lemma parse_int_itoa z : parse_int (itoa z) = Some z.
Proof.
  destruct (itoa_cases z) as [[-> ->]|(p & d & ds & [(-> & Ei & E & Hd & _)|(-> & Ei & E & Hd & _)])]; [done|..].
  - destruct (nonzero_digit d [] Hd) as (Hneg & _).
    pose proof (parse_pretty_go (N.pos p) eq_refl "") as Hp. rewrite <- Ei, E in Hp.
    rewrite E. cbn [parse_int]. rewrite Hneg. exact Hp.
  - pose proof (parse_pretty_go (N.pos p) eq_refl "") as Hp.
    rewrite E in Ei. injection Ei as Ei. rewrite <- Ei in Hp. rewrite E.
    change (Z.opp <$> parse_digits 0 (String d ds) = Some (Z.neg p)). by rewrite Hp.
Qed.

Lemma scan_digits ds text stack :
  forallb_string is_digit ds = true -> scan (InNumber text NInt stack) ds = InNumber (text +:+ ds) NInt stack.
Proof.
  revert text. induction ds as [|c ds IH]; intros text H; cbn [scan]; [by rewrite string_app_nil_r|].
  cbn in H. apply andb_true_iff in H as [Hc H]. cbn [step number_char]. rewrite Hc.
  rewrite IH by done. by rewrite string_app_assoc.
Qed.

Lemma scan_itoa z stack : exists n, number_ends n = true /\ scan (BeginValue stack) (itoa z) = InNumber (itoa z) n stack.
Proof.
  destruct (itoa_cases z) as [[-> ->]|(p & d & ds & [(-> & _ & -> & Hd & Hds)|(-> & _ & -> & Hd & Hds)])].
  - by exists NZero.
  - exists NInt. split; [done|]. cbn [scan step]. destruct (nonzero_digit d stack Hd) as (_ & -> & _). by rewrite scan_digits.
  - exists NInt. split; [done|]. cbn [scan step]. change (begin_value stack "-") with (InNumber "-" NNeg stack).
    cbn [step]. destruct (nonzero_digit d stack Hd) as (_ & _ & -> & _). by rewrite scan_digits.
Qed.

(** *** Values *)

(** The value that is read for what was written; a raw message has none here. *)
Fixpoint value_of (v : json) : jvalue :=
  match v with
  | JString s => VString (clean s)
  | JInt z => VNumber (itoa z)
  | JBool b => VBool b
  | JTime t => match format_time t with Ok text => VString (clean text) | Err _ => VNull end
  | JRaw _ => VNull
  | JArray l => VArray (map value_of l)
  | JObject fields => VObject (map (fun f => (clean (fst f), value_of (snd f))) fields)
  end.
Fixpoint no_raw (v : json) : bool :=
  match v with
  | JRaw _ => false
  | JArray l => forallb no_raw l
  | JObject fields => forallb (fun f => no_raw (snd f)) fields
  | _ => true
  end.
Fixpoint depth (v : json) : nat :=
  match v with
  | JArray l => S (list_max (map depth l))
  | JObject fields => S (list_max (map (fun f => depth (snd f)) fields))
  | _ => O
  end.

Section JsonInd.
Variable P : json -> Prop.
Hypothesis HS : forall s, P (JString s).
Hypothesis HI : forall z, P (JInt z).
Hypothesis HB : forall b, P (JBool b).
Hypothesis HT : forall t, P (JTime t).
Hypothesis HR : forall t, P (JRaw t).
Hypothesis HA : forall l, Forall P l -> P (JArray l).
Hypothesis HO : forall l, Forall (fun f => P (snd f)) l -> P (JObject l).
Fixpoint json_ind' (v : json) : P v :=
  match v with
  | JString s => HS s | JInt z => HI z | JBool b => HB b | JTime t => HT t | JRaw t => HR t
  | JArray l =>
      HA l ((fix all (l : list json) : Forall P l :=
        match l with [] => Forall_nil_2 P | x :: l' => Forall_cons_2 P x l' (json_ind' x) (all l') end) l)
  | JObject l =>
      HO l ((fix all (l : list (string * json)) : Forall (fun f => P (snd f)) l :=
        match l with
        | [] => Forall_nil_2 _
        | x :: l' => Forall_cons_2 (fun f => P (snd f)) x l' (json_ind' (snd x)) (all l')
        end) l)
  end.
End JsonInd.

Definition marshal_field (f : string * json) : result string :=
  let? y := Marshal (snd f) in Ok (quote (fst f) +:+ ":" +:+ y).
Lemma Marshal_array l : Marshal (JArray l) = let? items := result_mapM Marshal l in Ok ("[" +:+ strings_Join "," items +:+ "]").
Proof.
  cbn [Marshal]. f_equal. induction l as [|v l IH]; [done|]. cbn [result_mapM]. rewrite <- IH. reflexivity.
Qed.
Lemma Marshal_object l : Marshal (JObject l) = let? items := result_mapM marshal_field l in Ok ("{" +:+ strings_Join "," items +:+ "}").
Proof.
  cbn [Marshal]. f_equal. induction l as [|[k v] l IH]; [done|]. cbn [result_mapM]. rewrite <- IH.
  unfold marshal_field at 1. cbn [fst snd]. by destruct (Marshal v).
Qed.

(** What may follow a value. *)
Definition delimiter (c : ascii) : Prop := c = ","%char \/ c = "]"%char \/ c = "}"%char \/ c = " "%char.
Definition composite (v : jvalue) : bool := match v with VArray _ | VObject _ => true | _ => false end.
Definition ended (st : state) (v : jvalue) (stack : list frame) : Prop :=
  if composite v then st = close v stack else forall c, delimiter c -> step st c = end_value v stack c.

Lemma ended_number text n stack : number_ends n = true -> ended (InNumber text n stack) (VNumber text) stack.
Proof.
  intros Hn c Hc. cbn [step]. rewrite Hn.
  assert (Hk : number_char n c = None) by (destruct Hc as [->|[->|[->| ->]]], n; by try discriminate Hn).
  by rewrite Hk.
Qed.
Lemma ended_step st v f stack c : ended st v (f :: stack) -> delimiter c -> step st c = end_value v (f :: stack) c.
Proof. unfold ended. destruct (composite v); [by intros ->|auto]. Qed.

Lemma scan_quote_value s stack : scan (BeginValue stack) (quote s) = EndValue (VString (clean s)) stack.
Proof.
  unfold quote. cbn [String.append scan step]. change (begin_value stack quote_char) with (InString "" SPlain stack).
  destruct (escape_read s) as [Hr Hu]. rewrite scan_app, (scan_in_string "" SPlain _ SPlain) by done.
  cbn [String.append scan step string_char]. change (Ascii.eqb quote_char quote_char) with true. cbn iota. by rewrite Hu.
Qed.
Lemma scan_quote_key st s members stack :
  step st quote_char = InKey "" SPlain members stack -> scan st (quote s) = AfterKey (clean s) members stack.
Proof.
  intros H. unfold quote. cbn [String.append scan]. rewrite H.
  destruct (escape_read s) as [Hr Hu]. rewrite scan_app, (scan_in_key "" SPlain _ SPlain) by done.
  cbn [String.append scan step string_char]. change (Ascii.eqb quote_char quote_char) with true. cbn iota. by rewrite Hu.
Qed.

(** A text that reads as a value, within any stack that is not too deep. *)
Definition reads_value (d : nat) (text : string) (v : jvalue) : Prop :=
  (forall stack, Z.of_nat (length stack + d) <= max_depth -> ended (scan (BeginValue stack) text) v stack)
  /\ exists c s, text = String c s /\ is_json_space c = false /\ c <> "]"%char.

Lemma scan_elements texts vs d :
  Forall2 (reads_value d) texts vs -> texts <> [] -> forall pre stack,
  Z.of_nat (S (length stack) + d) <= max_depth ->
  scan (BeginValue (FArray pre :: stack)) (strings_Join "," texts +:+ "]") = close (VArray (pre ++ vs)%list) stack.
Proof.
  induction 1 as [|t v ts vs [Ht _] Hrest IH]; [done|]. intros _ pre stack Hd.
  specialize (Ht (FArray pre :: stack) Hd). cbn [strings_Join]. destruct ts as [|t2 ts].
  - inversion Hrest; subst. rewrite scan_app. cbn [scan].
    rewrite (ended_step _ _ _ _ "]" Ht) by (unfold delimiter; auto). reflexivity.
  - rewrite !string_app_assoc, scan_app. cbn [String.append scan].
    rewrite (ended_step _ _ _ _ "," Ht) by (unfold delimiter; auto).
    change (end_value v (FArray pre :: stack) ",") with (BeginValue (FArray (pre ++ [v]) :: stack))%list.
    rewrite IH by done. by rewrite <- app_assoc.
Qed.

Definition reads_field (d : nat) (text : string) (f : string * jvalue) : Prop :=
  exists name y, text = quote name +:+ ":" +:+ y /\ fst f = clean name /\ reads_value d y (snd f).

Lemma scan_members texts fs d :
  Forall2 (reads_field d) texts fs -> texts <> [] -> forall st pre stack,
  Z.of_nat (S (length stack) + d) <= max_depth ->
  step st quote_char = InKey "" SPlain pre stack ->
  scan st (strings_Join "," texts +:+ "}") = close (VObject (pre ++ fs)%list) stack.
Proof.
  induction 1 as [|t [k v] ts fs (name & y & -> & Hk & [Hy _]) Hrest IH]; [done|].
  intros _ st pre stack Hd Hst. cbn [fst snd] in *. subst k.
  specialize (Hy (FObject pre (clean name) :: stack) Hd). cbn [strings_Join]. destruct ts as [|t2 ts].
  - inversion Hrest; subst. rewrite !string_app_assoc, scan_app, (scan_quote_key st name pre stack Hst).
    cbn [String.append scan]. change (step (AfterKey (clean name) pre stack) ":") with (BeginValue (FObject pre (clean name) :: stack)).
    rewrite scan_app. cbn [scan]. rewrite (ended_step _ _ _ _ "}" Hy) by (unfold delimiter; auto). reflexivity.
  - rewrite !string_app_assoc, scan_app, (scan_quote_key st name pre stack Hst).
    cbn [String.append scan]. change (step (AfterKey (clean name) pre stack) ":") with (BeginValue (FObject pre (clean name) :: stack)).
    rewrite scan_app. cbn [scan]. rewrite (ended_step _ _ _ _ "," Hy) by (unfold delimiter; auto).
    change (end_value v (FObject pre (clean name) :: stack) ",") with (BeginKey (pre ++ [(clean name, v)]) stack)%list.
    rewrite (IH ltac:(done) _ (pre ++ [(clean name, v)])%list stack) by done. by rewrite <- app_assoc.
Qed.

Lemma reads_weaken d d' t v : (d <= d')%nat -> reads_value d t v -> reads_value d' t v.
Proof. intros Hd [H1 H2]. split; [|done]. intros stack Hs. apply H1. lia. Qed.

Lemma reads_literal text v c s :
  text = String c s -> is_json_space c = false -> c <> "]"%char -> composite v = false ->
  (forall stack, scan (BeginValue stack) text = EndValue v stack) -> reads_value 0 text v.
Proof. intros -> H1 H2 Hv H. split; [|eauto]. intros stack _. rewrite H. unfold ended. by rewrite Hv. Qed.

Lemma result_mapM_Forall2 {A B} (f : A -> result B) l ys :
  result_mapM f l = Ok ys -> Forall2 (fun x y => f x = Ok y) l ys.
Proof.
  revert ys. induction l as [|x l IH]; cbn; intros ys H; [by injection H as <-|].
  destruct (f x) eqn:E; [|done]. destruct (result_mapM f l); [|done]. injection H as <-. constructor; auto.
Qed.

Lemma list_max_elem (l : list nat) n : n ∈ l -> (n <= list_max l)%nat.
Proof. intros H. pose proof (proj1 (list_max_le l (list_max l)) (le_n _)) as Hl. rewrite List.Forall_forall in Hl. by apply Hl, list_elem_of_In. Qed.

Lemma opened_ok st stack d : Z.of_nat (length stack + S d) <= max_depth -> opened st stack = st.
Proof. intros H. unfold opened. by replace (max_depth <=? Z.of_nat (length stack)) with false by lia. Qed.

Lemma begin_elements d t ts vs stack :
  Forall2 (reads_value d) (t :: ts) vs ->
  scan (BeginArray stack) (strings_Join "," (t :: ts) +:+ "]")
  = scan (BeginValue (FArray [] :: stack)) (strings_Join "," (t :: ts) +:+ "]").
Proof.
  intros H. inversion H as [|? v ? ? [_ (c & s & -> & Hc & Hc')]]; subst.
  assert (Hst : forall s', scan (BeginArray stack) (String c s') = scan (BeginValue (FArray [] :: stack)) (String c s')).
  { intros s'. cbn [scan step]. rewrite Hc. by destruct (Ascii.eqb_spec c "]"). }
  cbn [strings_Join]. destruct ts; [apply Hst|]. rewrite string_app_assoc. apply Hst.
Qed.

Lemma Marshal_reads v text : no_raw v = true -> Marshal v = Ok text -> reads_value (depth v) text (value_of v).
Proof.
  revert text. induction v as [s|z|b|t|t|l IH|l IH] using json_ind'; intros text Hraw H; [| | | |done| |].
  - injection H as <-. eapply reads_literal; [done|done|done|done|]. intros stack. apply scan_quote_value.
  - injection H as <-. split.
    + intros stack _. destruct (scan_itoa z stack) as (n & Hn & ->). by apply ended_number.
    + destruct (itoa_cases z) as [[-> ->]|(p & d & ds & [(_ & _ & -> & Hd & _)|(_ & _ & -> & _)])].
      * eexists _, _. by split_and!.
      * destruct (nonzero_digit d [] Hd) as (_ & _ & _ & Hsp & Hbr). eauto.
      * eexists _, _. by split_and!.
  - injection H as <-. destruct b; (eapply reads_literal; [done|done|done|done|]; intros stack; reflexivity).
  - cbn in H |- *. destruct (format_time t) as [x|]; [|done]. injection H as <-.
    eapply reads_literal; [done|done|done|done|]. intros stack. apply scan_quote_value.
  - rewrite Marshal_array in H. destruct (result_mapM Marshal l) as [items|] eqn:E; [|done]. injection H as <-.
    split; [|eexists _, _; by split_and!]. intros stack Hd. cbn [depth value_of] in *.
    cbn [String.append scan step]. change (begin_value stack "[") with (opened (BeginArray stack) stack).
    rewrite (opened_ok _ _ (list_max (map depth l))) by done. apply result_mapM_Forall2 in E.
    assert (Hr : Forall2 (reads_value (list_max (map depth l))) items (map value_of l)).
    { cbn in Hraw. rewrite forallb_forall in Hraw. revert IH Hraw.
      generalize (list_max_elem (map depth l)). generalize (list_max (map depth l)). clear Hd.
      induction E as [|x y l ys Hxy _ IHl]; intros n Hmax IH Hraw; [constructor|].
      inversion IH as [|? ? Hx Hl]; subst. cbn [map] in *. constructor.
      - eapply reads_weaken; [apply Hmax, list_elem_of_here|]. apply Hx; [apply Hraw; by left|done].
      - apply IHl; [intros k Hk; apply Hmax; by constructor|done|intros z Hz; apply Hraw; by right]. }
    clear E IH. destruct items as [|t ts].
    + inversion Hr as [E0|]; subst. reflexivity.
    + rewrite (begin_elements _ _ _ _ _ Hr), (scan_elements _ _ _ Hr) by (done || lia). reflexivity.
  - rewrite Marshal_object in H. destruct (result_mapM marshal_field l) as [items|] eqn:E; [|done]. injection H as <-.
    split; [|eexists _, _; by split_and!]. intros stack Hd. cbn [depth value_of] in *.
    cbn [String.append scan step]. change (begin_value stack "{") with (opened (BeginObject stack) stack).
    rewrite (opened_ok _ _ (list_max (map (fun f => depth f.2) l))) by done. apply result_mapM_Forall2 in E.
    assert (Hr : Forall2 (reads_field (list_max (map (fun f => depth f.2) l))) items
                   (map (fun f => (clean f.1, value_of f.2)) l)).
    { cbn in Hraw. rewrite forallb_forall in Hraw. revert IH Hraw.
      generalize (list_max_elem (map (fun f => depth f.2) l)). generalize (list_max (map (fun f => depth f.2) l)). clear Hd.
      induction E as [|[k x] y l ys Hxy _ IHl]; intros n Hmax IH Hraw; [constructor|].
      inversion IH as [|? ? Hx Hl]; subst. cbn [map fst snd] in *. constructor.
      - unfold marshal_field in Hxy. cbn [fst snd] in Hxy. destruct (Marshal x) as [tx|] eqn:Ex; [|done]. injection Hxy as <-.
        exists k, tx. split_and!; [done..|]. eapply reads_weaken; [apply Hmax, list_elem_of_here|].
        apply Hx; [apply (Hraw (k, x)); by left|done].
      - apply IHl; [intros m Hm; apply Hmax; by constructor|done|intros z Hz; apply Hraw; by right]. }
    clear E IH. destruct items as [|t ts].
    + inversion Hr as [E0|]; subst. reflexivity.
    + rewrite (scan_members _ _ _ Hr ltac:(done) _ [] stack) by (done || lia). reflexivity.
Qed.

(** What [Marshal] writes for a struct is read back, whatever follows it. *)
Theorem Decode_Marshal {T} (d : decoder T) fields text rest zero :
  no_raw (JObject fields) = true -> Z.of_nat (depth (JObject fields)) <= max_depth -> Marshal (JObject fields) = Ok text ->
  decode_text None d (text +:+ rest) zero
  = match d (value_of (JObject fields)) zero with Some t => inl t | None => inr Malformed end.
Proof.
  intros Hraw Hd H. destruct (Marshal_reads _ _ Hraw H) as [Hs _]. specialize (Hs [] Hd).
  unfold decode_text. cbv zeta. rewrite scan_app. change (ended ?st ?v []) with (st = Finished v) in Hs.
  rewrite Hs. assert (Hf : forall v s, scan (Finished v) s = Finished v) by (intros v s; induction s; auto).
  by rewrite Hf.
Qed.
