(* ===== verification/Rfc3339.v ===== *)
(** * Reading times

    [time.Parse(time.RFC3339, s)], with what it lets pass: an hour of one digit,
    a fraction of a second after a point or a comma, a zone of up to [24:60]. *)

From S2P Require Import Prelude Errors GoStrings JsonScan Domain Json.

Open Scope string_scope.
Open Scope Z_scope.

(** The days before the first of January of a year, and before a month. *)
Definition days_before_year (y : Z) : Z := 365 * (y - 1) + (y - 1) / 4 - (y - 1) / 100 + (y - 1) / 400.
Definition days_before_month (y m : Z) : Z := fold_right Z.add 0 (firstn (Z.to_nat (m - 1)) (month_days y)).
Definition days_in (y m : Z) : Z := nth (Z.to_nat (m - 1)) (month_days y) 0.

Definition digit_value (a : ascii) : option Z := if is_digit a then Some (byte a - 48) else None.

(** The number of exactly [n] digits, and what follows. *)
Fixpoint take_digits (n : nat) (acc : Z) (s : string) : option (Z * string) :=
  match n with
  | O => Some (acc, s)
  | S n' =>
      match s with
      | String a s' => match digit_value a with Some d => take_digits n' (acc * 10 + d) s' | None => None end
      | "" => None
      end
  end.

(** [getnum(s, false)]: one digit or two. *)
Definition getnum (s : string) : option (Z * string) :=
  match take_digits 2 0 s with Some r => Some r | None => take_digits 1 0 s end.

Definition expect (c : ascii) (s : string) : option string :=
  match s with String a s' => if Ascii.eqb a c then Some s' else None | "" => None end.

Fixpoint span_digits (s : string) : string * string :=
  match s with
  | String a s' => if is_digit a then let '(d, r) := span_digits s' in (String a d, r) else ("", s)
  | "" => ("", "")
  end.

(** Nine digits of a fraction, filled with zeros. *)
Fixpoint nanoseconds (n : nat) (acc : Z) (s : string) : Z :=
  match n with
  | O => acc
  | S n' => match s with
            | String a s' => nanoseconds n' (acc * 10 + default 0 (digit_value a)) s'
            | "" => nanoseconds n' (acc * 10) ""
            end
  end.
Definition parse_fraction (s : string) : Z * string :=
  match s with
  | String p ((String d _) as s') =>
      if (Ascii.eqb p "." || Ascii.eqb p ",") && is_digit d
      then let '(digits, rest) := span_digits s' in (nanoseconds 9 0 digits, rest) else (0, s)
  | _ => (0, s)
  end.

Notation "'let*' x := m 'in' k" := (match m with Some x => k | None => None end)
  (at level 200, x pattern, m at level 100, k at level 200, only parsing).

(** The offset of the zone in seconds. *)
Definition parse_zone (s : string) : option Z :=
  match s with
  | String c s1 =>
      if Ascii.eqb c "Z" then match s1 with "" => Some 0 | _ => None end else
      let* (h, s2) := take_digits 2 0 s1 in
      let* s3 := expect ":" s2 in
      let* (m, s4) := take_digits 2 0 s3 in
      if negb (s4 =? "")%string || (24 <? h) || (60 <? m) then None else
      let offset := (h * 60 + m) * 60 in
      if Ascii.eqb c "+" then Some offset else if Ascii.eqb c "-" then Some (- offset) else None
  | "" => None
  end.

Definition parse_RFC3339 (s : string) : option time :=
  let* (year, s) := take_digits 4 0 s in
  let* s := expect "-" s in
  let* (month, s) := take_digits 2 0 s in
  if (month <? 1) || (12 <? month) then None else
  let* s := expect "-" s in
  let* (day, s) := take_digits 2 0 s in
  let* s := expect "T" s in
  let* (hour, s) := getnum s in
  if 24 <=? hour then None else
  let* s := expect ":" s in
  let* (minute, s) := take_digits 2 0 s in
  if 60 <=? minute then None else
  let* s := expect ":" s in
  let* (second, s) := take_digits 2 0 s in
  if 60 <=? second then None else
  let '(nanos, s) := parse_fraction s in
  let* offset := parse_zone s in
  if (day <? 1) || (days_in year month <? day) then None else
  let days := days_before_year year + days_before_month year month + (day - 1) in
  Some ((days * 86400 + hour * 3600 + minute * 60 + second - offset) * 1000000000 + nanos).

Example parse_RFC3339_example :
  parse_RFC3339 "2026-06-05T12:00:00.12Z" = Some (example_time + 120000000)
  /\ parse_RFC3339 "2026-06-05T14:30:00+02:30" = Some example_time
  /\ parse_RFC3339 "2024-02-29T1:02:03,5Z" = parse_RFC3339 "2024-02-29T01:02:03.5Z"
  /\ parse_RFC3339 "2023-02-29T00:00:00Z" = None /\ parse_RFC3339 "2026-06-05 12:00:00Z" = None.
Proof. by vm_compute. Qed.
