(* ===== verification/TimeRoundTrip.v ===== *)
(** * Times are read back

    [civil] gives the date of a day and the parser counts its days: the text of a
    time is parsed to the time. *)

From S2P Require Import Prelude Errors GoStrings JsonScan Domain Json Rfc3339.

Open Scope string_scope.
Open Scope Z_scope.

(** ** Dates *)

Lemma leap_year_spec y : leap_year y = true <-> y mod 4 = 0 /\ (y mod 100 <> 0 \/ y mod 400 = 0).
Proof.
  unfold leap_year. rewrite andb_true_iff, orb_true_iff, negb_true_iff, !Z.eqb_eq, Z.eqb_neq. tauto.
Qed.

(** The cycles of 400, 100, 4 and 1 years of [civil]. *)
Definition year_of (d : Z) : Z * Z :=
  let n400 := d / 146097 in let d := d - n400 * 146097 in
  let n100 := Z.min 3 (d / 36524) in let d := d - n100 * 36524 in
  let n4 := d / 1461 in let d := d - n4 * 1461 in
  let n1 := Z.min 3 (d / 365) in let d := d - n1 * 365 in
  (400 * n400 + 100 * n100 + 4 * n4 + n1 + 1, d).

Lemma civil_year_of d :
  civil d = (let '(year, yday) := year_of d in let '(month, day) := month_of (month_days year) 1 yday in (year, month, day)).
Proof. reflexivity. Qed.

Definition year_length (y : Z) : Z := if leap_year y then 366 else 365.

(** A bounded quotient and its remainder. *)
Lemma capped d q k : 0 < q -> 0 <= d < (k + 1) * q + 1 -> 0 <= k ->
  let n := Z.min k (d / q) in 0 <= n <= k /\ 0 <= d - n * q /\ (d - n * q < q \/ n = k /\ d - n * q <= q).
Proof.
  intros Hq Hd Hk n. pose proof (Z.div_mod d q ltac:(lia)). pose proof (Z.mod_pos_bound d q Hq).
  assert (0 <= d / q) by (apply Z.div_pos; lia).
  destruct (Z.le_gt_cases (d / q) k) as [Hle|Hgt].
  - assert (n = d / q) as -> by (unfold n; lia). split; [lia|]. split; [nia|left; nia].
  - assert (n = k) as -> by (unfold n; lia). assert ((k + 1) * q <= d) by nia. split; [lia|]. split; [nia|right; split; [done|nia]].
Qed.

Lemma year_of_spec d :
  let '(year, yday) := year_of d in days_before_year year + yday = d /\ 0 <= yday < year_length year.
Proof.
  unfold year_of, days_before_year. cbv zeta.
  pose proof (Z.div_mod d 146097 ltac:(lia)) as E0. pose proof (Z.mod_pos_bound d 146097 ltac:(lia)) as B0.
  set (n400 := d / 146097) in *. set (d1 := d - n400 * 146097).
  destruct (capped d1 36524 3) as (A1 & A2 & A3); [lia|unfold d1; lia|lia|].
  set (n100 := Z.min 3 (d1 / 36524)) in *. set (d2 := d1 - n100 * 36524) in *.
  pose proof (Z.div_mod d2 1461 ltac:(lia)) as E4. pose proof (Z.mod_pos_bound d2 1461 ltac:(lia)) as B4.
  set (n4 := d2 / 1461) in *. set (d3 := d2 - n4 * 1461).
  destruct (capped d3 365 3) as (C1 & C2 & C3); [lia|unfold d3; lia|lia|].
  set (n1 := Z.min 3 (d3 / 365)) in *. set (d4 := d3 - n1 * 365) in *.
  assert (E : d = n400 * 146097 + n100 * 36524 + n4 * 1461 + n1 * 365 + d4) by (unfold d4, d3, d2, d1; lia).
  assert (H4 : 0 <= n4 <= 24) by lia.
  assert (L1 : n1 = 3 -> d4 = 365 -> n4 = 24 -> n100 = 3) by (unfold d4, d3; lia).
  assert (L2 : d4 = 365 -> n1 = 3) by lia.
  clearbody n400 n100 n4 n1 d4. clear - E A1 H4 C1 C2 C3 L1 L2.
  set (y := 400 * n400 + 100 * n100 + 4 * n4 + n1 + 1).
  replace (y - 1) with (400 * n400 + 100 * n100 + 4 * n4 + n1) by (unfold y; lia).
  replace ((400 * n400 + 100 * n100 + 4 * n4 + n1) / 4) with (100 * n400 + 25 * n100 + n4) by (apply (Z.div_unique _ 4 _ n1); lia).
  replace ((400 * n400 + 100 * n100 + 4 * n4 + n1) / 100) with (4 * n400 + n100) by (apply (Z.div_unique _ 100 _ (4 * n4 + n1)); lia).
  replace ((400 * n400 + 100 * n100 + 4 * n4 + n1) / 400) with n400 by (apply (Z.div_unique _ 400 _ (100 * n100 + 4 * n4 + n1)); lia).
  split; [lia|]. split; [lia|]. unfold year_length.
  destruct (leap_year y) eqn:El; [lia|].
  enough (d4 <> 365) by lia. intros Hd4. specialize (L2 Hd4).
  assert (leap_year y = true) as Hl; [|congruence]. apply leap_year_spec. unfold y. subst n1.
  assert (H24 : n4 = 24 \/ n4 < 24) by lia. destruct H24 as [H24|H24].
  - assert (n100 = 3) by auto. subst. split; [Z.div_mod_to_equations; lia|right].
    replace (_ + 1) with ((n400 + 1) * 400) by lia. apply Z_mod_mult.
  - split; [Z.div_mod_to_equations; lia|left].
    rewrite <- (Z.mod_unique _ 100 (4 * n400 + n100) (4 * (n4 + 1))) by lia. lia.
Qed.

(** The sum of the first months. *)
Definition total (l : list Z) : Z := fold_right Z.add 0 l.

Lemma month_of_spec l : forall m yday, Forall (fun n => 0 <= n) l -> 0 <= yday < total l ->
  let '(month, day) := month_of l m yday in
  m <= month < m + Z.of_nat (length l)
  /\ 1 <= day <= nth (Z.to_nat (month - m)) l 0
  /\ total (firstn (Z.to_nat (month - m)) l) + (day - 1) = yday.
Proof.
  induction l as [|n l IH]; intros m yday Hl H; cbn [total fold_right] in H; [lia|]. fold (total l) in H.
  apply Forall_cons in Hl as [Hn Hl]. cbn [month_of].
  destruct (yday <? n) eqn:E.
  - apply Z.ltb_lt in E. replace (Z.to_nat (m - m)) with 0%nat by lia. cbn [firstn nth total fold_right length]. lia.
  - apply Z.ltb_ge in E. specialize (IH (m + 1) (yday - n) Hl ltac:(lia)). destruct (month_of l (m + 1) (yday - n)) as [month day].
    destruct IH as (H1 & H2 & H3). cbn [length].
    replace (Z.to_nat (month - m)) with (S (Z.to_nat (month - (m + 1)))) by lia. cbn [firstn nth total fold_right].
    fold (total (firstn (Z.to_nat (month - (m + 1))) l)). lia.
Qed.

Lemma total_month_days y : total (month_days y) = year_length y.
Proof. unfold year_length, month_days. by destruct (leap_year y). Qed.

Lemma civil_spec d :
  let '(year, month, day) := civil d in
  1 <= month <= 12 /\ 1 <= day <= days_in year month
  /\ days_before_year year + days_before_month year month + (day - 1) = d.
Proof.
  rewrite civil_year_of. pose proof (year_of_spec d) as H. destruct (year_of d) as [year yday]. destruct H as [H1 H2].
  pose proof (month_of_spec (month_days year) 1 yday) as Hm. destruct (month_of (month_days year) 1 yday) as [month day].
  rewrite total_month_days in Hm. destruct Hm as (H3 & H4 & H5); [|done|].
  { unfold month_days. destruct (leap_year year); repeat constructor; lia. }
  cbn [length month_days] in H3. split; [lia|]. split; [exact H4|]. unfold days_before_month. fold (total (firstn (Z.to_nat (month - 1)) (month_days year))). lia.
Qed.

(** ** Digits *)

Lemma digit_value_char d : 0 <= d < 10 -> digit_value (byte_char (48 + d)) = Some d.
Proof.
  intros H. assert (d = 0 \/ d = 1 \/ d = 2 \/ d = 3 \/ d = 4 \/ d = 5 \/ d = 6 \/ d = 7 \/ d = 8 \/ d = 9) as Hd by lia.
  destruct Hd as [->|[->|[->|[->|[->|[->|[->|[->|[->| ->]]]]]]]]]; reflexivity.
Qed.

Lemma take_digits_digits n : forall k acc z rest, 0 <= z ->
  take_digits (n + k) acc (digits n z +:+ rest) = take_digits k (acc * 10 ^ Z.of_nat n + z mod 10 ^ Z.of_nat n) rest.
Proof.
  induction n as [|n IH]; intros k acc z rest Hz.
  { cbn [digits Nat.add String.append]. change (Z.of_nat 0) with 0. rewrite Z.pow_0_r, Z.mod_1_r. f_equal. lia. }
  cbn [digits]. rewrite string_app_assoc. cbn [String.append].
  replace (S n + k)%nat with (n + S k)%nat by lia. rewrite IH by (apply Z.div_pos; lia).
  cbn [take_digits]. rewrite digit_value_char by (apply Z.mod_pos_bound; lia). f_equal.
  rewrite Nat2Z.inj_succ, Z.pow_succ_r by lia. rewrite (Z.rem_mul_r z 10) by (try apply Z.pow_nonzero; lia). lia.
Qed.

Lemma take_digits_exact n z rest : 0 <= z < 10 ^ Z.of_nat n -> take_digits n 0 (digits n z +:+ rest) = Some (z, rest).
Proof.
  intros H. replace n with (n + 0)%nat at 1 by lia. rewrite take_digits_digits by lia. cbn [take_digits].
  by rewrite Z.mod_small by done.
Qed.

(** ** Fractions *)

Definition all_digits (s : string) : Prop := forallb_string is_digit s = true.

Lemma digits_all n z : 0 <= z -> all_digits (digits n z) /\ String.length (digits n z) = n.
Proof.
  revert z. induction n as [|n IH]; intros z Hz; [done|]. cbn [digits].
  destruct (IH (z / 10) ltac:(apply Z.div_pos; lia)) as [H1 H2]. split.
  - unfold all_digits. rewrite forallb_string_app, H1. cbn. rewrite andb_true_r.
    pose proof (digit_value_char (z mod 10) ltac:(apply Z.mod_pos_bound; lia)) as E. unfold digit_value in E.
    by destruct (is_digit _).
  - rewrite length_string_app, H2. cbn. lia.
Qed.

Lemma nanoseconds_take n : forall acc s r, all_digits s -> take_digits n acc s = Some r -> nanoseconds n acc s = r.1.
Proof.
  induction n as [|n IH]; intros acc s r Hs H; cbn in *; [by injection H as <-|].
  destruct s as [|a s]; [done|]. apply andb_true_iff in Hs as [Ha Hs]. unfold digit_value in *. rewrite Ha in *. by apply IH.
Qed.

Lemma digit_value_zero a : Ascii.eqb a "0" = true -> default 0 (digit_value a) = 0.
Proof. by intros ->%Ascii.eqb_eq. Qed.

Lemma nanoseconds_zeros n : forall acc, nanoseconds n acc "" = acc * 10 ^ Z.of_nat n.
Proof.
  induction n as [|n IH]; intros acc; cbn [nanoseconds]; [change (Z.of_nat 0) with 0; rewrite Z.pow_0_r; lia|].
  rewrite IH, Nat2Z.inj_succ, Z.pow_succ_r by lia. lia.
Qed.

Lemma nanoseconds_trim s : forall n acc, (String.length s <= n)%nat ->
  nanoseconds n acc (trim_right_byte "0" s) = nanoseconds n acc s.
Proof.
  induction s as [|a s IH]; intros n acc Hn; [done|]. cbn in Hn. destruct n as [|n]; [lia|].
  specialize (IH n (acc * 10 + default 0 (digit_value a)) ltac:(lia)). cbn [trim_right_byte].
  destruct (trim_right_byte "0" s) as [|b t] eqn:E.
  - destruct (Ascii.eqb a "0") eqn:Ea; cbn [nanoseconds].
    + rewrite <- IH, digit_value_zero by done. f_equal. lia.
    + by rewrite <- IH.
  - cbn [nanoseconds]. by rewrite <- IH.
Qed.

Lemma trim_all_digits s : all_digits s -> all_digits (trim_right_byte "0" s).
Proof.
  induction s as [|a s IH]; intros Hs; [done|]. apply andb_true_iff in Hs as [Ha Hs]. specialize (IH Hs). cbn [trim_right_byte].
  destruct (trim_right_byte "0" s) as [|b t] eqn:E.
  - destruct (Ascii.eqb a "0"); [done|]. unfold all_digits. cbn. by rewrite Ha.
  - unfold all_digits. cbn [forallb_string]. by rewrite Ha.
Qed.

Lemma trim_empty s : trim_right_byte "0" s = "" -> forall n acc, (String.length s <= n)%nat -> nanoseconds n acc s = acc * 10 ^ Z.of_nat n.
Proof. intros E n acc Hn. by rewrite <- nanoseconds_trim, E, nanoseconds_zeros. Qed.

Lemma span_digits_all s c rest : all_digits s -> is_digit c = false -> span_digits (s +:+ String c rest) = (s, String c rest).
Proof.
  intros Hs Hc. induction s as [|a s IH]; cbn; [by rewrite Hc|]. apply andb_true_iff in Hs as [Ha Hs].
  rewrite Ha. by rewrite IH.
Qed.

Lemma parse_fraction_text nanos : 0 <= nanos < 1000000000 -> parse_fraction (fraction nanos +:+ "Z") = (nanos, "Z").
Proof.
  intros H. unfold fraction. destruct (nanos =? 0) eqn:E0; [by apply Z.eqb_eq in E0 as ->|].
  destruct (digits_all 9 nanos ltac:(lia)) as [Ha Hl].
  assert (Hn : forall acc, nanoseconds 9 acc (trim_right_byte "0" (digits 9 nanos)) = nanoseconds 9 acc (digits 9 nanos))
    by (intros; apply nanoseconds_trim; lia).
  pose proof (take_digits_exact 9 nanos "" H) as Ht. rewrite string_app_nil_r in Ht.
  apply (nanoseconds_take 9 0 _ _ Ha) in Ht. cbn [fst] in Ht. rewrite <- Hn in Ht.
  pose proof (trim_all_digits _ Ha) as Hd. destruct (trim_right_byte "0" (digits 9 nanos)) as [|a t] eqn:Et.
  { rewrite nanoseconds_zeros in Ht. lia. }
  cbn [String.append parse_fraction]. cbn [String.append] in *.
  apply andb_true_iff in Hd as [Had Htd]. rewrite Had. cbn [Ascii.eqb Bool.eqb orb andb].
  change (String a (t +:+ "Z")) with ((String a t) +:+ String "Z" "").
  rewrite span_digits_all; [by rewrite Ht| |done]. unfold all_digits. cbn. by rewrite Had.
Qed.

(** ** Texts *)

Lemma expect_char c s : expect c (String c s) = Some s.
Proof. unfold expect. by rewrite Ascii.eqb_refl. Qed.

Lemma take_field n z c rest : 0 <= z < 10 ^ Z.of_nat n ->
  take_digits n 0 (digits n z +:+ String c rest) = Some (z, String c rest).
Proof. apply take_digits_exact. Qed.

Lemma getnum_two z c rest : 0 <= z < 100 -> getnum (digits 2 z +:+ String c rest) = Some (z, String c rest).
Proof. intros H. unfold getnum. by rewrite take_field. Qed.

(** The text of a date, a time of the day and a fraction. *)
Lemma parse_fields year month day hour minute second nanos :
  0 <= year <= 9999 -> 1 <= month <= 12 -> 1 <= day <= days_in year month -> day < 100 ->
  0 <= hour < 24 -> 0 <= minute < 60 -> 0 <= second < 60 -> 0 <= nanos < 1000000000 ->
  parse_RFC3339 (digits 4 year +:+ "-" +:+ digits 2 month +:+ "-" +:+ digits 2 day +:+ "T" +:+ digits 2 hour +:+ ":" +:+
                 digits 2 minute +:+ ":" +:+ digits 2 second +:+ fraction nanos +:+ "Z")
  = Some (((days_before_year year + days_before_month year month + (day - 1)) * 86400
           + hour * 3600 + minute * 60 + second) * 1000000000 + nanos).
Proof.
  intros Hy Hm Hd Hd' Hh Hmi Hs Hn. unfold parse_RFC3339. cbn [String.append].
  rewrite take_field by lia. rewrite expect_char, take_field by lia.
  rewrite (proj2 (Z.ltb_ge month 1)), (proj2 (Z.ltb_ge 12 month)) by lia. cbn [orb].
  rewrite expect_char, take_field by lia. rewrite expect_char, getnum_two by lia.
  rewrite (proj2 (Z.leb_gt 24 hour)) by lia. rewrite expect_char, take_field by lia.
  rewrite (proj2 (Z.leb_gt 60 minute)) by lia. rewrite expect_char, take_digits_exact by lia.
  rewrite (proj2 (Z.leb_gt 60 second)) by lia. rewrite parse_fraction_text by lia. cbn [parse_zone Ascii.eqb Bool.eqb].
  rewrite (proj2 (Z.ltb_ge day 1)), (proj2 (Z.ltb_ge (days_in year month) day)) by lia. cbn [orb]. f_equal. lia.
Qed.

Lemma days_in_bound y m : days_in y m < 100.
Proof.
  unfold days_in, month_days. destruct (Z.to_nat (m - 1)) as [|[|[|[|[|[|[|[|[|[|[|[|k]]]]]]]]]]]]; cbn; try lia.
  - by destruct (leap_year y).
  - by destruct k.
Qed.

(** The text of a time is parsed to the time. *)
Lemma format_time_parsed t text : format_time t = Ok text -> parse_RFC3339 text = Some t.
Proof.
  unfold format_time. pose proof (civil_spec (t / nanos_per_day)) as H.
  destruct (civil (t / nanos_per_day)) as [[year month] day]. destruct H as (Hm & Hd & E).
  destruct ((year <? 0) || (9999 <? year)) eqn:Ey; [done|]. apply orb_false_iff in Ey as [Ey1%Z.ltb_ge Ey2%Z.ltb_ge].
  intros Heq. apply (f_equal (fun r => if r is Ok x then x else "")) in Heq. cbv beta iota in Heq. subst text.
  pose proof (days_in_bound year month).
  pose proof (Z.mod_pos_bound t nanos_per_day ltac:(done)) as Hr. pose proof (Z.div_mod t nanos_per_day ltac:(done)) as Et.
  set (r := t mod nanos_per_day) in *. unfold nanos_per_day in Hr, Et, E. set (s := r / 1000000000).
  assert (Hs : 0 <= s < 86400) by (unfold s; Z.div_mod_to_equations; lia).
  assert (En : t mod 1000000000 = r - s * 1000000000).
  { unfold s. rewrite Et. replace (86400 * 1000000000 * (t / (86400 * 1000000000)) + r)
      with (r + (86400 * (t / (86400 * 1000000000))) * 1000000000) by lia.
    rewrite Z.mod_add by lia. rewrite Z.mod_eq by lia. lia. }
  assert (Hn : 0 <= r - s * 1000000000 < 1000000000) by (rewrite <- En; apply Z.mod_pos_bound; lia).
  rewrite En. rewrite parse_fields; [|try lia..].
  - f_equal. rewrite E. change nanos_per_day with (86400 * 1000000000).
    assert (s / 3600 * 3600 + (s / 60) mod 60 * 60 + s mod 60 = s) as Hsplit by (Z.div_mod_to_equations; lia).
    clearbody s. nia.
  - Z.div_mod_to_equations; lia.
  - apply Z.mod_pos_bound. lia.
  - apply Z.mod_pos_bound. lia.
Qed.
