(* ===== verification/DescriptorStore.v ===== *)
(** * The descriptors of a version in the database

    [repository/postgres/descriptor_metadata.go]: a descriptor is written row by
    row, the rows of its tree of messages after each other, and read back file
    by file; the tree is built again from the identifiers of the parents and the
    enumerations are put back where their names say. *)

From S2P Require Import Prelude Errors GoStrings Domain Effects Postgres Outbox Tables World GovernanceStore.

Open Scope string_scope.
Open Scope Z_scope.

(** ** Building the tree again *)

(** [protoMessageRow]: a message with its fields. *)
Record protoMessageRow := mkProtoMessageRow_ {
  pmr_id : string;
  pmr_parentID : string;
  pmr_message : ProtoMessage }.

Definition set_message_Messages (m : ProtoMessage) (nested : list ProtoMessage) : ProtoMessage :=
  mkProtoMessage (message_Name m) (message_FullName m) (message_Fields m) nested (message_Enums m).
Definition set_message_Enums (m : ProtoMessage) (enums : list ProtoEnum) : ProtoMessage :=
  mkProtoMessage (message_Name m) (message_FullName m) (message_Fields m) (message_Messages m) enums.

(** [children[parentID]]: the rows of a parent in their order. *)
Definition children_of (parentID : string) (rows : list protoMessageRow) : list protoMessageRow :=
  List.filter (fun r => eqs (pmr_parentID r) parentID) rows.

Definition by_full_name (x y : protoMessageRow) : bool :=
  String.leb (message_FullName (pmr_message x)) (message_FullName (pmr_message y)).

(** The recursion follows the parents down; [fuel] bounds its depth. *)
Fixpoint buildMessageChildren (fuel : nat) (parentID : string) (rows : list protoMessageRow)
    : list ProtoMessage :=
  match fuel with
  | O => []
  | S fuel' =>
      map (fun row => set_message_Messages (pmr_message row) (buildMessageChildren fuel' (pmr_id row) rows))
        (sort_by by_full_name (children_of parentID rows))
  end.

Definition buildMessageTree (rows : list protoMessageRow) : list ProtoMessage :=
  buildMessageChildren (S (length rows)) "" rows.

(** The slice of messages is updated in place: the new messages come with the
    answer. *)
Fixpoint place_enum (enum : ProtoEnum) (m : ProtoMessage) : option ProtoMessage :=
  if HasPrefix (enum_FullName enum) (message_FullName m +:+ ".") then
    match
      (fix among (ms : list ProtoMessage) : option (list ProtoMessage) :=
         match ms with
         | [] => None
         | n :: ms' =>
             match place_enum enum n with
             | Some n' => Some (n' :: ms')
             | None => match among ms' with Some ms'' => Some (n :: ms'') | None => None end
             end
         end) (message_Messages m)
    with
    | Some nested => Some (set_message_Messages m nested)
    | None => Some (set_message_Enums m (message_Enums m ++ [enum])%list)
    end
  else None.

Fixpoint enumBelongsToMessage (messages : list ProtoMessage) (enum : ProtoEnum)
    : option (list ProtoMessage) :=
  match messages with
  | [] => None
  | m :: messages' =>
      match place_enum enum m with
      | Some m' => Some (m' :: messages')
      | None =>
          match enumBelongsToMessage messages' enum with
          | Some messages'' => Some (m :: messages'')
          | None => None
          end
      end
  end.

(** The loop of [loadProtoEnums]: the messages with their enumerations, and
    those of the file. *)
Fixpoint place_enums (messages : list ProtoMessage) (enums : list ProtoEnum)
    : list ProtoMessage * list ProtoEnum :=
  match enums with
  | [] => (messages, [])
  | enum :: enums' =>
      match enumBelongsToMessage messages enum with
      | Some messages' => place_enums messages' enums'
      | None => let '(messages', fileEnums) := place_enums messages enums' in (messages', enum :: fileEnums)
      end
  end.

Section Store.
Context `{PG : !Postgres} `{ENV : !Env}.

(** ** Writing *)

Definition descriptors (d : Database) : Descriptors := ct_descriptors (db_catalog d).
Definition update_descriptors (f : Descriptors -> Descriptors) (d : Database) : Database :=
  set_catalog (fun c => set_descriptors (f (ct_descriptors c)) c) d.

(** A statement that inserts a row with [gen_random_uuid()] and returns it. *)
Definition insert_row (add : string -> Descriptors -> Descriptors) : M Database string := fun d =>
  let id := gen_random_uuid (ds_uuids (descriptors d)) in
  (Ok id, update_descriptors (fun ds => next_uuid (add id ds)) d).

Definition in_list (ids : list string) (id : string) : bool := existsb (eqs id) ids.

(** [DELETE FROM proto_files WHERE module_version_id = id] and its cascades; the
    messages nested in a message are rows of its file. *)
Definition delete_version (id : ModuleVersionID) (ds : Descriptors) : Descriptors :=
  let files := map fileRow_ID (List.filter (fun f => eqs (fileRow_ModuleVersionID f) id) (ds_files ds)) in
  let services := map serviceRow_ID (List.filter (fun s => in_list files (serviceRow_FileID s)) (ds_services ds)) in
  let messages := map messageRow_ID (List.filter (fun m => in_list files (messageRow_FileID m)) (ds_messages ds)) in
  let enums := map enumRow_ID (List.filter (fun e => in_list files (enumRow_FileID e)) (ds_enums ds)) in
  mkDescriptors
    (List.filter (fun f => negb (eqs (fileRow_ModuleVersionID f) id)) (ds_files ds))
    (List.filter (fun i => negb (in_list files (importRow_FileID i))) (ds_imports ds))
    (List.filter (fun s => negb (in_list files (serviceRow_FileID s))) (ds_services ds))
    (List.filter (fun m => negb (in_list services (methodRow_ServiceID m))) (ds_methods ds))
    (List.filter (fun m => negb (in_list files (messageRow_FileID m))) (ds_messages ds))
    (List.filter (fun f => negb (in_list messages (fieldRow_MessageID f))) (ds_fields ds))
    (List.filter (fun e => negb (in_list files (enumRow_FileID e))) (ds_enums ds))
    (List.filter (fun v => negb (in_list enums (enumValueRow_EnumID v))) (ds_values ds))
    (ds_uuids ds).

Definition delete_files_stmt (moduleVersionID : ModuleVersionID) : M Database unit :=
  let! id := uuid_param moduleVersionID in modify (update_descriptors (delete_version id)).

Definition createProtoFile (moduleVersionID : ModuleVersionID) (file : ProtoFile) : M World string :=
  map_err mapError (exec (T := Database) (
    let! id := uuid_param moduleVersionID in
    let! _ := text_params [file_Path file; file_PackageName file; file_Syntax file] in
    let! d := gets (fun d => d) in
    let! _ := insert_checks []
      [(existsb (fun f => eqs (fileRow_ModuleVersionID f) id && eqs (fileRow_Path f) (file_Path file))
          (ds_files (descriptors d)), unique_violation "proto_files_module_version_id_path_key")]
      [(negb (existsb (fun v => eqs (version_ID v) id) (db_versions d)),
         foreign_key_violation "proto_files_module_version_id_fkey")] in
    insert_row (fun fileID => set_ds_files (fun l =>
      l ++ [mkProtoFileRow fileID id (file_Path file) (file_PackageName file) (file_Syntax file)])%list))).

Definition createProtoImport (fileID : string) (protoImport : ProtoImport) : M World unit :=
  let! _ := map_err mapError (exec (T := Database) (
    let! _ := text_params [import_Path protoImport] in
    insert_row (fun _ => set_ds_imports (fun l => l ++ [mkProtoImportRow fileID protoImport])%list))) in
  ret tt.

Definition createProtoMethod (serviceID : string) (method : ProtoMethod) : M World unit :=
  let! _ := map_err mapError (exec (T := Database) (
    let! _ := text_params [method_Name method; method_InputType method; method_OutputType method] in
    let! d := gets (fun d => d) in
    let! _ := insert_checks []
      [(existsb (fun m => eqs (methodRow_ServiceID m) serviceID
                          && eqs (method_Name (methodRow_Method m)) (method_Name method))
          (ds_methods (descriptors d)), unique_violation "proto_methods_service_id_name_key")] [] in
    insert_row (fun _ => set_ds_methods (fun l => l ++ [mkProtoMethodRow serviceID method])%list))) in
  ret tt.

Definition createProtoService (moduleVersionID : ModuleVersionID) (fileID packageName : string)
    (service : ProtoService) : M World unit :=
  let! serviceID := map_err mapError (exec (T := Database) (
    let! id := uuid_param moduleVersionID in
    let! _ := text_params [packageName; protoService_Name service; protoService_FullName service] in
    let! d := gets (fun d => d) in
    let! _ := insert_checks []
      [(existsb (fun s => eqs (serviceRow_ModuleVersionID s) id
                          && eqs (serviceRow_FullName s) (protoService_FullName service))
          (ds_services (descriptors d)), unique_violation "proto_services_module_version_id_full_name_key")] [] in
    insert_row (fun serviceID => set_ds_services (fun l =>
      l ++ [mkProtoServiceRow serviceID id fileID packageName (protoService_Name service)
              (protoService_FullName service)])%list))) in
  forM (protoService_Methods service) (createProtoMethod serviceID).

Definition createProtoField (messageID : string) (field : ProtoField) : M World unit :=
  let! _ := map_err mapError (exec (T := Database) (
    let! _ := text_params [field_Name field; field_Type field; field_TypeName field; field_Label field;
                           field_JSONName field; field_OneofName field] in
    let! d := gets (fun d => d) in
    let! _ := insert_checks []
      [(existsb (fun f => eqs (fieldRow_MessageID f) messageID
                          && (field_Number (fieldRow_Field f) =? field_Number field))
          (ds_fields (descriptors d)), unique_violation "proto_fields_message_id_number_key")] [] in
    insert_row (fun _ => set_ds_fields (fun l => l ++ [mkProtoFieldRow messageID field])%list))) in
  ret tt.

Definition createProtoEnumValue (enumID : string) (value : ProtoEnumValue) : M World unit :=
  let! _ := map_err mapError (exec (T := Database) (
    let! _ := text_params [enumValue_Name value] in
    let! d := gets (fun d => d) in
    let! _ := insert_checks []
      [(existsb (fun v => eqs (enumValueRow_EnumID v) enumID
                          && (enumValue_Number (enumValueRow_Value v) =? enumValue_Number value))
          (ds_values (descriptors d)), unique_violation "proto_enum_values_enum_id_number_key")] [] in
    insert_row (fun _ => set_ds_values (fun l => l ++ [mkProtoEnumValueRow enumID value])%list))) in
  ret tt.

Definition createProtoEnum (moduleVersionID : ModuleVersionID) (fileID packageName : string)
    (enum : ProtoEnum) : M World unit :=
  let! enumID := map_err mapError (exec (T := Database) (
    let! id := uuid_param moduleVersionID in
    let! _ := text_params [packageName; enum_Name enum; enum_FullName enum] in
    let! d := gets (fun d => d) in
    let! _ := insert_checks []
      [(existsb (fun e => eqs (enumRow_ModuleVersionID e) id && eqs (enumRow_FullName e) (enum_FullName enum))
          (ds_enums (descriptors d)), unique_violation "proto_enums_module_version_id_full_name_key")] [] in
    insert_row (fun enumID => set_ds_enums (fun l =>
      l ++ [mkProtoEnumRow enumID id fileID packageName (enum_Name enum) (enum_FullName enum)])%list))) in
  forM (enum_Values enum) (createProtoEnumValue enumID).

Definition insert_message (moduleVersionID : ModuleVersionID) (fileID : string) (parentID : option string)
    (packageName : string) (message : ProtoMessage) : M World string :=
  map_err mapError (exec (T := Database) (
    let! id := uuid_param moduleVersionID in
    let! _ := text_params [packageName; message_Name message; message_FullName message] in
    let! d := gets (fun d => d) in
    let! _ := insert_checks []
      [(existsb (fun m => eqs (messageRow_ModuleVersionID m) id
                          && eqs (messageRow_FullName m) (message_FullName message))
          (ds_messages (descriptors d)), unique_violation "proto_messages_module_version_id_full_name_key")] [] in
    insert_row (fun messageID => set_ds_messages (fun l =>
      l ++ [mkProtoMessageRow messageID id fileID parentID packageName (message_Name message)
              (message_FullName message)])%list))).

Fixpoint createProtoMessage (moduleVersionID : ModuleVersionID) (fileID : string) (parentID : option string)
    (packageName : string) (message : ProtoMessage) : M World unit :=
  let! id := insert_message moduleVersionID fileID parentID packageName message in
  let! _ := forM (message_Fields message) (createProtoField id) in
  let! _ :=
    (fix nested (ms : list ProtoMessage) : M World unit :=
       match ms with
       | [] => ret tt
       | m :: ms' =>
           let! _ := createProtoMessage moduleVersionID fileID (Some id) packageName m in nested ms'
       end) (message_Messages message) in
  forM (message_Enums message) (createProtoEnum moduleVersionID fileID packageName).

Definition saveProtoFile (moduleVersionID : ModuleVersionID) (file : ProtoFile) : M World unit :=
  let! fileID := createProtoFile moduleVersionID file in
  let! _ := forM (file_Imports file) (createProtoImport fileID) in
  let! _ := forM (file_Services file) (createProtoService moduleVersionID fileID (file_PackageName file)) in
  let! _ := forM (file_Messages file) (createProtoMessage moduleVersionID fileID None (file_PackageName file)) in
  forM (file_Enums file) (createProtoEnum moduleVersionID fileID (file_PackageName file)).

(** [Save]; [time.Now()] only fills the times of the rows. *)
Definition Metadata_Save (moduleVersionID : ModuleVersionID) (metadata : DescriptorMetadata) : M World unit :=
  WithinTransaction (
    let! _ := map_err mapError (exec (delete_files_stmt moduleVersionID)) in
    let! _ := now in
    forM (metadata_Files metadata) (saveProtoFile moduleVersionID)).

(** ** Reading *)

Definition loadProtoFiles (moduleVersionID : ModuleVersionID) : M World (list ProtoFileRow) :=
  let! files := map_err mapError (exec (T := Database) (
    let! id := uuid_param moduleVersionID in
    gets (fun d => sort_by (fun x y => pg_text_le (fileRow_Path x) (fileRow_Path y))
      (List.filter (fun f => eqs (fileRow_ModuleVersionID f) id) (ds_files (descriptors d)))))) in
  if (length files =? 0)%nat then fail domain.ErrNotFound else ret files.

Definition loadProtoImports (fileID : string) : M World (list ProtoImport) :=
  map_err mapError (exec (T := Database) (gets (fun d =>
    sort_by (fun x y => pg_text_le (import_Path x) (import_Path y))
      (map importRow_Import (List.filter (fun i => eqs (importRow_FileID i) fileID)
        (ds_imports (descriptors d))))))).

Definition loadProtoMethods (serviceID : string) : M World (list ProtoMethod) :=
  map_err mapError (exec (T := Database) (gets (fun d =>
    sort_by (fun x y => pg_text_le (method_Name x) (method_Name y))
      (map methodRow_Method (List.filter (fun m => eqs (methodRow_ServiceID m) serviceID)
        (ds_methods (descriptors d))))))).

Definition loadProtoServices (moduleVersionID : ModuleVersionID) (fileID : string) : M World (list ProtoService) :=
  let! rows := map_err mapError (exec (T := Database) (
    let! id := uuid_param moduleVersionID in
    gets (fun d => sort_by (fun x y => pg_text_le (serviceRow_FullName x) (serviceRow_FullName y))
      (List.filter (fun s => eqs (serviceRow_ModuleVersionID s) id && eqs (serviceRow_FileID s) fileID)
        (ds_services (descriptors d)))))) in
  mapM (fun row =>
    let! methods := loadProtoMethods (serviceRow_ID row) in
    ret (mkProtoService (serviceRow_Name row) (serviceRow_FullName row) methods)) rows.

Definition loadProtoFields (messageID : string) : M World (list ProtoField) :=
  map_err mapError (exec (T := Database) (gets (fun d =>
    sort_by (fun x y => field_Number x <=? field_Number y)
      (map fieldRow_Field (List.filter (fun f => eqs (fieldRow_MessageID f) messageID)
        (ds_fields (descriptors d))))))).

(** A query while the rows of another one are still open: outside of a transaction
    it takes another connection of the pool; the one connection of a transaction is
    busy. *)
Definition conn_busy : error := EExternal "conn busy".
Definition while_rows_open {A} (query : M World A) : M World A := fun w =>
  if w_tx w then (Err conn_busy, w) else query w.

Definition loadProtoMessages (moduleVersionID : ModuleVersionID) (fileID : string) : M World (list ProtoMessage) :=
  let! rows := map_err mapError (exec (T := Database) (
    let! id := uuid_param moduleVersionID in
    gets (fun d => sort_by (fun x y => pg_text_le (messageRow_FullName x) (messageRow_FullName y))
      (List.filter (fun m => eqs (messageRow_ModuleVersionID m) id && eqs (messageRow_FileID m) fileID)
        (ds_messages (descriptors d)))))) in
  let! messageRows := mapM (fun row =>
    let! fields := while_rows_open (loadProtoFields (messageRow_ID row)) in
    ret (mkProtoMessageRow_ (messageRow_ID row) (default "" (messageRow_ParentID row))
           (mkProtoMessage (messageRow_Name row) (messageRow_FullName row) fields [] []))) rows in
  ret (buildMessageTree messageRows).

Definition loadProtoEnumValues (enumID : string) : M World (list ProtoEnumValue) :=
  map_err mapError (exec (T := Database) (gets (fun d =>
    sort_by (fun x y => enumValue_Number x <=? enumValue_Number y)
      (map enumValueRow_Value (List.filter (fun v => eqs (enumValueRow_EnumID v) enumID)
        (ds_values (descriptors d))))))).

Definition loadProtoEnums (moduleVersionID : ModuleVersionID) (fileID : string) (messages : list ProtoMessage)
    : M World (list ProtoMessage * list ProtoEnum) :=
  let! rows := map_err mapError (exec (T := Database) (
    let! id := uuid_param moduleVersionID in
    gets (fun d => sort_by (fun x y => pg_text_le (enumRow_FullName x) (enumRow_FullName y))
      (List.filter (fun e => eqs (enumRow_ModuleVersionID e) id && eqs (enumRow_FileID e) fileID)
        (ds_enums (descriptors d)))))) in
  let! enums := mapM (fun row =>
    let! values := while_rows_open (loadProtoEnumValues (enumRow_ID row)) in
    ret (mkProtoEnum (enumRow_Name row) (enumRow_FullName row) values)) rows in
  ret (place_enums messages enums).

Definition loadFile (moduleVersionID : ModuleVersionID) (row : ProtoFileRow) : M World ProtoFile :=
  let fileID := fileRow_ID row in
  let! imports := loadProtoImports fileID in
  let! services := loadProtoServices moduleVersionID fileID in
  let! messages := loadProtoMessages moduleVersionID fileID in
  let! (messages, enums) := loadProtoEnums moduleVersionID fileID messages in
  ret (mkProtoFile (fileRow_Path row) (fileRow_PackageName row) (fileRow_Syntax row) imports services
         messages enums).

Definition Metadata_GetByModuleVersion (moduleVersionID : ModuleVersionID) : M World DescriptorMetadata :=
  let! files := loadProtoFiles moduleVersionID in
  let! files := mapM (loadFile moduleVersionID) files in
  ret (mkDescriptorMetadata files).

(** [GetSummaryByModuleVersion]: the counts by the database. *)
Definition count_in {A} (p : A -> bool) (l : list A) : Z := llen (List.filter p l).

Definition summary_of (id : ModuleVersionID) (ds : Descriptors) : DescriptorMetadataSummary :=
  let files := List.filter (fun f => eqs (fileRow_ModuleVersionID f) id) (ds_files ds) in
  let of_services := map serviceRow_ID (List.filter (fun s => eqs (serviceRow_ModuleVersionID s) id) (ds_services ds)) in
  let of_messages := map messageRow_ID (List.filter (fun m => eqs (messageRow_ModuleVersionID m) id) (ds_messages ds)) in
  let of_enums := map enumRow_ID (List.filter (fun e => eqs (enumRow_ModuleVersionID e) id) (ds_enums ds)) in
  mkSummary (llen files)
    (llen (remove_dups (List.filter (fun p => negb (p =? "")%string) (map fileRow_PackageName files))))
    (count_in (fun i => in_list (map fileRow_ID files) (importRow_FileID i)) (ds_imports ds))
    (llen of_services)
    (count_in (fun m => in_list of_services (methodRow_ServiceID m)) (ds_methods ds))
    (llen of_messages)
    (count_in (fun f => in_list of_messages (fieldRow_MessageID f)) (ds_fields ds))
    (llen of_enums)
    (count_in (fun v => in_list of_enums (enumValueRow_EnumID v)) (ds_values ds)).

Definition GetSummaryByModuleVersion (moduleVersionID : ModuleVersionID) : M World DescriptorMetadataSummary :=
  map_err mapError (exec (T := Database) (
    let! id := uuid_param moduleVersionID in
    gets (fun d => summary_of id (descriptors d)))).
End Store.
