(* ===== verification/DescriptorTree.v ===== *)
(** * Trees of messages and their rows

    What [buildMessageTree] and [enumBelongsToMessage] of
    [repository/postgres/descriptor_metadata.go] compute: the recursion over the
    parents of rows ends, the tree of the rows of a file is the tree of the file
    with its messages in order, and an enumeration goes where its name says. *)

From S2P Require Import Prelude Errors GoStrings Domain Effects Postgres Outbox Tables World GovernanceStore DescriptorStore.

Open Scope string_scope.

(** ** The recursion of [buildMessageChildren] without a bound

    [builds rows p ms]: the call for the parent [p] returns, with [ms]. *)

Inductive builds (rows : list protoMessageRow) : string -> list ProtoMessage -> Prop :=
| builds_children p ms :
    builds_each rows (sort_by by_full_name (children_of p rows)) ms -> builds rows p ms
with builds_each (rows : list protoMessageRow) : list protoMessageRow -> list ProtoMessage -> Prop :=
| builds_nil : builds_each rows [] []
| builds_cons row rest nested ms :
    builds rows (pmr_id row) nested -> builds_each rows rest ms ->
    builds_each rows (row :: rest) (set_message_Messages (pmr_message row) nested :: ms).

Scheme builds_mut := Minimality for builds Sort Prop
  with builds_each_mut := Minimality for builds_each Sort Prop.

(** A call has one result. *)
Lemma builds_det rows p ms ms' : builds rows p ms -> builds rows p ms' -> ms = ms'.
Proof.
  intros H. revert ms'.
  induction H using builds_mut with (P0 := fun l ms => forall ms', builds_each rows l ms' -> ms = ms').
  - intros ms' H'. inversion H'; subst. auto.
  - intros ms' H'. by inversion H'.
  - intros ms' H'. inversion H'; subst. f_equal; [f_equal|]; auto.
Qed.

(** The parents of a row, from the row up to a message of the file. *)
Inductive ancestry (rows : list protoMessageRow) : string -> list string -> Prop :=
| ancestry_root : ancestry rows "" []
| ancestry_child row path :
    row ∈ rows -> ancestry rows (pmr_parentID row) path ->
    ancestry rows (pmr_id row) (pmr_id row :: path).

Lemma elem_of_children p rows row : row ∈ children_of p rows <-> row ∈ rows /\ pmr_parentID row = p.
Proof. unfold children_of. by rewrite elem_of_filter_bool, eqs_true. Qed.

Section Ancestry.
Context (rows : list protoMessageRow).
Context (Hids : NoDup (map pmr_id rows)) (Hroot : "" ∉ map pmr_id rows).

Lemma id_of_row row : row ∈ rows -> pmr_id row ∈ map pmr_id rows.
Proof. intros H. by apply list_elem_of_In, in_map, list_elem_of_In. Qed.

Lemma ancestry_det p l l' : ancestry rows p l -> ancestry rows p l' -> l = l'.
Proof.
  intros H. revert l'. induction H as [|row path Hin H IH]; intros l' H'; inversion H'; subst; [done| | |].
  - match goal with E : _ = "" |- _ => destruct Hroot; rewrite <- E; by apply id_of_row end.
  - match goal with E : "" = _ |- _ => destruct Hroot; rewrite E; by apply id_of_row end.
  - match goal with E : pmr_id ?r = pmr_id row, Hr : ?r ∈ rows |- _ =>
      pose proof (NoDup_map_inj pmr_id rows r row Hids Hr Hin E); subst r end.
    f_equal. by apply IH.
Qed.

Lemma ancestry_suffix p l i : ancestry rows p l -> i ∈ l -> exists l', ancestry rows i l' /\ (length l' <= length l)%nat.
Proof.
  induction 1 as [|row path Hin H IH]; [set_solver|]. intros [->|Hi]%elem_of_cons.
  - exists (pmr_id row :: path). split; [by constructor|done].
  - destruct (IH Hi) as (l' & ? & ?). exists l'. split; [done|cbn; lia].
Qed.

(** No row is below itself. *)
Lemma ancestry_fresh row path :
  row ∈ rows -> ancestry rows (pmr_parentID row) path -> pmr_id row ∉ path.
Proof.
  intros Hin H Hi. destruct (ancestry_suffix _ _ _ H Hi) as (l' & Hl & Hlen).
  pose proof (ancestry_child rows row path Hin H) as H'. rewrite (ancestry_det _ _ _ Hl H') in Hlen. cbn in Hlen. lia.
Qed.

Lemma ancestry_NoDup p l : ancestry rows p l -> NoDup l /\ forall i, i ∈ l -> i ∈ map pmr_id rows.
Proof.
  induction 1 as [|row path Hin H [IH1 IH2]]; [split; [constructor|set_solver]|]. split.
  - constructor; [by apply ancestry_fresh|done].
  - intros i [->|Hi]%elem_of_cons; [by apply id_of_row|auto].
Qed.

Lemma ancestry_length p l : ancestry rows p l -> (length l <= length rows)%nat.
Proof.
  intros [Hd Hs]%ancestry_NoDup. rewrite <- (length_map pmr_id rows). apply submseteq_length, NoDup_submseteq; auto.
Qed.

Lemma buildMessageChildren_builds fuel : forall p path,
  ancestry rows p path -> (length rows < length path + fuel)%nat ->
  builds rows p (buildMessageChildren fuel p rows).
Proof.
  induction fuel as [|fuel IH]; intros p path Hp Hf.
  { apply ancestry_length in Hp. lia. }
  cbn [buildMessageChildren]. constructor.
  assert (Hc : forall row, row ∈ sort_by by_full_name (children_of p rows) -> row ∈ rows /\ pmr_parentID row = p).
  { intros row Hr%elem_of_sort_by. by apply elem_of_children. }
  induction (sort_by by_full_name (children_of p rows)) as [|row rest IHr]; cbn [map]; [constructor|].
  constructor; [|apply IHr; intros r Hr; apply Hc; by right].
  destruct (Hc row ltac:(by left)) as [Hin <-]. apply (IH _ (pmr_id row :: path)); [by constructor|cbn; lia].
Qed.
End Ancestry.

Lemma buildMessageTree_builds rows :
  NoDup (map pmr_id rows) -> "" ∉ map pmr_id rows ->
  forall fuel, (length rows < fuel)%nat -> builds rows "" (buildMessageChildren fuel "" rows).
Proof.
  intros Hids Hroot fuel Hf. by apply (buildMessageChildren_builds rows Hids Hroot fuel "" []); [constructor|].
Qed.

(** C27: the recursion that builds the tree of messages ends, whatever the parents
    of the rows are (a row whose parents form a cycle is not reached): with
    distinct identifiers, the call of [buildMessageChildren] for the messages of
    the file returns, and its result is the only one; as many steps as rows, and
    one more, are enough. *)
Theorem buildMessageTree_terminates (rows : list protoMessageRow)
    (Hids : NoDup (map pmr_id rows)) (Hroot : "" ∉ map pmr_id rows) :
  builds rows "" (buildMessageTree rows)
  /\ (forall ms, builds rows "" ms -> ms = buildMessageTree rows)
  /\ forall fuel, (length rows < fuel)%nat -> buildMessageChildren fuel "" rows = buildMessageTree rows.
Proof.
  pose proof (buildMessageTree_builds rows Hids Hroot) as Hb.
  assert (H : builds rows "" (buildMessageTree rows)) by (apply Hb; lia).
  split_and!; [exact H| |].
  - intros ms Hms. exact (builds_det _ _ _ _ Hms H).
  - intros fuel Hf. exact (builds_det _ _ _ _ (Hb fuel Hf) H).
Qed.

(** Two messages that are parents of each other are not reached. *)
Definition example_rows : list protoMessageRow :=
  let row i p n := mkProtoMessageRow_ i p (mkProtoMessage n n [] [] []) in
  [row "1" "" "B"; row "2" "1" "C"; row "3" "" "A"; row "4" "5" "D"; row "5" "4" "E"].

Lemma buildMessageTree_terminates_witness :
  builds example_rows "" (buildMessageTree example_rows)
  /\ map message_Name (buildMessageTree example_rows) = ["A"; "B"]
  /\ buildMessageChildren 9 "" example_rows = buildMessageTree example_rows.
Proof.
  destruct (buildMessageTree_terminates example_rows) as (H1 & _ & H3).
  - vm_compute. repeat (constructor; [rewrite list_elem_of_In; cbn; intuition discriminate|]). constructor.
  - rewrite list_elem_of_In. cbn. intuition discriminate.
  - split_and!; [exact H1|vm_compute; reflexivity|apply H3; cbn; lia].
Defined.

(** ** The rows of a file give its tree *)

Lemma builds_each_Forall2 rows l ms :
  Forall2 (fun row m => exists nested, builds rows (pmr_id row) nested
                        /\ m = set_message_Messages (pmr_message row) nested) l ms ->
  builds_each rows l ms.
Proof. induction 1 as [|row m l ms (nested & Hn & ->) H IH]; by constructor. Qed.

Definition full_name_le (x y : ProtoMessage) : bool := String.leb (message_FullName x) (message_FullName y).

(** [rows_of flat parent m rows]: the rows of [m] and of the messages nested in
    it, [flat] saying what is stored of a message. *)
Inductive rows_of (flat : ProtoMessage -> ProtoMessage) : string -> ProtoMessage -> list protoMessageRow -> Prop :=
| rows_of_message i parent m rows :
    rows_of_each flat i (message_Messages m) rows ->
    rows_of flat parent m (mkProtoMessageRow_ i parent (flat m) :: rows)
with rows_of_each (flat : ProtoMessage -> ProtoMessage) : string -> list ProtoMessage -> list protoMessageRow -> Prop :=
| rows_of_nil parent : rows_of_each flat parent [] []
| rows_of_cons parent m ms rows rows' :
    rows_of flat parent m rows -> rows_of_each flat parent ms rows' ->
    rows_of_each flat parent (m :: ms) (rows ++ rows').

Scheme rows_of_mut := Minimality for rows_of Sort Prop
  with rows_of_each_mut := Minimality for rows_of_each Sort Prop.
Combined Scheme rows_of_both from rows_of_mut, rows_of_each_mut.

(** The tree with [flat] at each node and its messages in order. *)
Fixpoint tree_of (flat : ProtoMessage -> ProtoMessage) (m : ProtoMessage) : ProtoMessage :=
  set_message_Messages (flat m) (sort_by full_name_le (map (tree_of flat) (message_Messages m))).

Lemma children_app p l l' : children_of p (l ++ l') = (children_of p l ++ children_of p l')%list.
Proof. unfold children_of. by rewrite List.filter_app. Qed.
Lemma children_cons p r l :
  children_of p (r :: l) = if eqs (pmr_parentID r) p then r :: children_of p l else children_of p l.
Proof. done. Qed.
Lemma children_none p l : (forall r, r ∈ l -> pmr_parentID r <> p) -> children_of p l = [].
Proof. intros H. apply filter_none. intros r Hr. by apply eqs_false, H. Qed.

(** The parents of rows are among them, but for [p]. *)
Definition parents_in (p : string) (rows : list protoMessageRow) : Prop :=
  forall r, r ∈ rows -> pmr_parentID r = p \/ pmr_parentID r ∈ map pmr_id rows.

Lemma rows_of_parents flat :
  (forall p m rows, rows_of flat p m rows -> parents_in p rows)
  /\ (forall p ms rows, rows_of_each flat p ms rows -> parents_in p rows).
Proof.
  apply rows_of_both.
  - intros i p m rows _ IH r [->|Hr]%elem_of_cons; [by left|]. right. cbn [map pmr_id].
    destruct (IH r Hr) as [->|H]; [left|by right].
  - intros p r Hr. set_solver.
  - intros p m ms rows rows' _ IH _ IH' r. rewrite map_app, !elem_of_app.
    intros [Hr|Hr]; [destruct (IH r Hr)|destruct (IH' r Hr)]; tauto.
Qed.

Section Rows.
Context (flat : ProtoMessage -> ProtoMessage).

(** The rows [all] hold no other child of the rows [rows]. *)
Definition closed (all rows : list protoMessageRow) : Prop :=
  forall i, i ∈ map pmr_id rows -> children_of i all ≡ₚ children_of i rows.

Section Build.
Context (all : list protoMessageRow).
Context (Hnames : NoDup (map (fun r => message_FullName (pmr_message r)) all)).

Definition built_as (row : protoMessageRow) (m : ProtoMessage) : Prop :=
  exists nested, builds all (pmr_id row) nested /\ m = set_message_Messages (pmr_message row) nested.

Lemma built_name row m : built_as row m -> message_FullName m = message_FullName (pmr_message row).
Proof. by intros (nested & _ & ->). Qed.

Lemma builds_children_perm p rows ms :
  children_of p all ≡ₚ rows -> Forall2 built_as rows ms -> builds all p (sort_by full_name_le ms).
Proof.
  intros Hp Hf. constructor. apply builds_each_Forall2.
  replace (sort_by by_full_name (children_of p all)) with (sort_by by_full_name rows).
  - apply (Forall2_sort_by built_as by_full_name full_name_le); [|exact Hf]. intros a b a' b' Ha Hb. unfold by_full_name, full_name_le.
    by rewrite (built_name a b Ha), (built_name a' b' Hb).
  - symmetry. apply sort_by_unique; [intros x y; apply leb_false_true|intros x y z; apply leb_trans| |exact Hp].
    intros x y [Hx _]%elem_of_children [Hy _]%elem_of_children H1 H2.
    apply (NoDup_map_inj (fun r => message_FullName (pmr_message r)) all); [exact Hnames|done..|].
    by apply String.leb_antisym.
Qed.

Lemma closed_app p rows rows' :
  p ∉ map pmr_id (rows ++ rows') -> NoDup (map pmr_id (rows ++ rows')) ->
  parents_in p rows -> parents_in p rows' -> closed all (rows ++ rows') -> closed all rows /\ closed all rows'.
Proof.
  rewrite map_app, elem_of_app. intros Hp (_ & Hd & _)%NoDup_app Hr Hr' Hc.
  split; intros i Hi; (rewrite (Hc i) by (rewrite map_app, elem_of_app; tauto)); rewrite children_app.
  - rewrite (children_none i rows'), app_nil_r; [done|]. intros r Hin E.
    destruct (Hr' r Hin) as [H|H]; rewrite E in H; [subst; tauto|by apply (Hd i)].
  - rewrite (children_none i rows); [done|]. intros r Hin E.
    destruct (Hr r Hin) as [H|H]; rewrite E in H; [subst; tauto|by apply (Hd i)].
Qed.

Lemma rows_of_builds : forall p ms rows, rows_of_each flat p ms rows ->
  closed all rows -> NoDup (map pmr_id rows) -> p ∉ map pmr_id rows ->
  Forall2 built_as (children_of p rows) (map (tree_of flat) ms).
Proof.
  apply (rows_of_each_mut flat
    (fun p m rows => closed all rows -> NoDup (map pmr_id rows) -> p ∉ map pmr_id rows ->
       Forall2 built_as (children_of p rows) [tree_of flat m])
    (fun p ms rows => closed all rows -> NoDup (map pmr_id rows) -> p ∉ map pmr_id rows ->
       Forall2 built_as (children_of p rows) (map (tree_of flat) ms))).
  - intros i p m rows Hrows IH Hc Hd Hp. cbn [map pmr_id] in *. rewrite NoDup_cons in Hd. destruct Hd as [Hi Hd].
    pose proof (proj2 (rows_of_parents flat) _ _ _ Hrows) as Hpar.
    assert (Hother : forall j, p <> j -> children_of j (mkProtoMessageRow_ i p (flat m) :: rows) = children_of j rows).
    { intros j Hj. rewrite children_cons. cbn [pmr_parentID]. by rewrite (proj2 (eqs_false p j) Hj). }
    assert (Hc' : closed all rows).
    { intros j Hj. rewrite (Hc j), Hother; [done| |by right]. intros ->. destruct Hp. by right. }
    rewrite children_cons. cbn [pmr_parentID]. rewrite eqs_refl, (children_none p rows).
    2: { intros r Hr E. destruct Hp. destruct (Hpar r Hr) as [H|H]; rewrite E in H; [rewrite H; left|by right]. }
    constructor; [|constructor]. exists (sort_by full_name_le (map (tree_of flat) (message_Messages m))). split; [|by destruct m].
    cbn [pmr_id]. apply (builds_children_perm i (children_of i rows)); [|by apply IH].
    rewrite (Hc i) by (by left). rewrite Hother; [done|]. intros ->. destruct Hp. by left.
  - intros p _ _ _. constructor.
  - intros p m ms rows rows' H IH H' IH' Hc Hd Hp. rewrite children_app.
    destruct (closed_app p rows rows' Hp Hd (proj1 (rows_of_parents flat) _ _ _ H)
                (proj2 (rows_of_parents flat) _ _ _ H') Hc) as [Hc1 Hc2].
    rewrite map_app in Hd, Hp. apply NoDup_app in Hd as (Hd1 & _ & Hd2). rewrite elem_of_app in Hp.
    change (map (tree_of flat) (m :: ms)) with ([tree_of flat m] ++ map (tree_of flat) ms)%list.
    apply Forall2_app; [apply IH|apply IH']; tauto.
Qed.
End Build.
End Rows.

(** ** Where an enumeration goes *)

(** The names of a file: a message or an enumeration is named below the package
    or the message that holds it, by one part. *)
Definition enum_named (scope : string) (e : ProtoEnum) : bool :=
  eqs (enum_FullName e) (scope +:+ enum_Name e) && identifier (enum_Name e).

Fixpoint messages_named (scope : string) (m : ProtoMessage) : bool :=
  eqs (message_FullName m) (scope +:+ message_Name m) && identifier (message_Name m)
  && forallb (messages_named (message_FullName m +:+ ".")) (message_Messages m).

Fixpoint enums_named (m : ProtoMessage) : bool :=
  forallb (enum_named (message_FullName m +:+ ".")) (message_Enums m)
  && forallb enums_named (message_Messages m).

Definition package_scope (packageName : string) : string :=
  if (packageName =? "")%string then "" else packageName +:+ ".".

Definition file_named (f : ProtoFile) : bool :=
  let scope := package_scope (file_PackageName f) in
  forallb (messages_named scope) (file_Messages f)
  && forallb enums_named (file_Messages f)
  && forallb (enum_named scope) (file_Enums f).

(** What an enumeration is named below. *)
Definition enum_scope (e : ProtoEnum) : string :=
  take_string (String.length (enum_FullName e) - String.length (enum_Name e)) (enum_FullName e).

Lemma enum_named_scope s e : enum_named s e = true -> enum_scope e = s.
Proof.
  unfold enum_named, enum_scope. intros [H%eqs_true _]%andb_true_iff. rewrite H, length_string_app.
  replace (String.length s + String.length (enum_Name e) - String.length (enum_Name e))%nat with (String.length s) by lia.
  apply take_string_app.
Qed.

Lemma messages_named_inv s m :
  messages_named s m = true ->
  message_FullName m = s +:+ message_Name m /\ no_byte "." (message_Name m) = true
  /\ forall n, n ∈ message_Messages m -> messages_named (message_FullName m +:+ ".") n = true.
Proof.
  destruct m as [name full fs ms es]. cbn [messages_named message_Messages message_Name message_FullName].
  intros [[H%eqs_true Hi]%andb_true_iff Hn]%andb_true_iff. split_and!; [done|by apply andb_true_iff in Hi as [_ Hi]|].
  intros n Hin. rewrite forallb_forall in Hn. by apply Hn, list_elem_of_In.
Qed.

(** The messages within [m] with the enumerations of [es] that are named below
    them. *)
Fixpoint with_enums (es : list ProtoEnum) (m : ProtoMessage) : ProtoMessage :=
  mkProtoMessage (message_Name m) (message_FullName m) (message_Fields m)
    (map (with_enums es) (message_Messages m))
    (List.filter (fun e => eqs (enum_scope e) (message_FullName m +:+ ".")) es).

Definition names_within (m : ProtoMessage) : list string := map message_FullName (messages_within m).
Definition names_of (ms : list ProtoMessage) : list string := flat_map names_within ms.

Lemma names_within_unfold m : names_within m = message_FullName m :: names_of (message_Messages m).
Proof. destruct m as [n fn fs ms es]. unfold names_within, names_of. cbn. by rewrite map_flat_map. Qed.

Lemma elem_of_names p ms : p ∈ names_of ms <-> exists m, m ∈ ms /\ p ∈ names_within m.
Proof.
  unfold names_of. rewrite list_elem_of_In, in_flat_map. setoid_rewrite <- list_elem_of_In. done.
Qed.

(** Names inside a message extend its name by parts. *)
Lemma names_within_extend p : forall m s, messages_named s m = true -> p ∈ names_within m ->
  exists rest, p +:+ "." = message_FullName m +:+ "." +:+ rest.
Proof.
  intros m. induction m as [m IH] using message_ind'. intros s Hm. apply messages_named_inv in Hm as (_ & _ & Hn).
  rewrite names_within_unfold, elem_of_cons, elem_of_names. intros [->|(n & Hin & Hp)]; [by exists ""|].
  destruct (IH n Hin _ (Hn n Hin) Hp) as [rest ->]. destruct (messages_named_inv _ _ (Hn n Hin)) as (-> & _).
  exists (message_Name n +:+ "." +:+ rest). by rewrite !string_app_assoc.
Qed.

(** An enumeration named below a message of [m] has no other prefix. *)
Lemma prefix_inside s m m' p x :
  messages_named s m = true -> messages_named s m' = true -> p ∈ names_within m ->
  HasPrefix (p +:+ "." +:+ x) (message_FullName m' +:+ ".") = true -> message_FullName m' = message_FullName m.
Proof.
  intros Hm Hm' Hp. destruct (names_within_extend p m s Hm Hp) as [rest E].
  destruct (messages_named_inv _ _ Hm) as (N & H1 & _), (messages_named_inv _ _ Hm') as (N' & H2 & _).
  rewrite <- (string_app_assoc p "." x), E, N, N', !string_app_assoc, HasPrefix_app_l. intros H.
  apply HasPrefix_part in H; [by rewrite H|done..].
Qed.

Lemma prefix_at_scope s m e :
  enum_named s e = true -> messages_named s m = true ->
  HasPrefix (enum_FullName e) (message_FullName m +:+ ".") = false.
Proof.
  intros He Hm. destruct (messages_named_inv _ _ Hm) as (-> & _). unfold enum_named, identifier in He.
  apply andb_true_iff in He as [->%eqs_true [_ He]%andb_true_iff].
  rewrite string_app_assoc, HasPrefix_app_l. by apply HasPrefix_part_none.
Qed.

Lemma place_enum_unfold e m :
  place_enum e m =
  if HasPrefix (enum_FullName e) (message_FullName m +:+ ".") then
    match enumBelongsToMessage (message_Messages m) e with
    | Some nested => Some (set_message_Messages m nested)
    | None => Some (set_message_Enums m (message_Enums m ++ [e])%list)
    end
  else None.
Proof.
  destruct m as [n fn fs ms es]. cbn [place_enum message_FullName message_Messages]. destruct (HasPrefix _ _); [|done].
  assert (Hfix : forall l,
    (fix among (ms : list ProtoMessage) : option (list ProtoMessage) :=
       match ms with
       | [] => None
       | n :: ms' => match place_enum e n with
                     | Some n' => Some (n' :: ms')
                     | None => match among ms' with Some ms'' => Some (n :: ms'') | None => None end
                     end
       end) l = enumBelongsToMessage l e); [|by rewrite Hfix].
  intros l. induction l as [|m l IH]; cbn; [done|]. destruct (place_enum e m); [done|]. by rewrite IH.
Qed.

Lemma not_placed ms e :
  (forall m, m ∈ ms -> HasPrefix (enum_FullName e) (message_FullName m +:+ ".") = false) ->
  enumBelongsToMessage ms e = None.
Proof.
  induction ms as [|m ms IH]; intros H; cbn [enumBelongsToMessage]; [done|].
  rewrite place_enum_unfold, H by (by left). rewrite IH; [done|]. intros n Hn. apply H. by right.
Qed.

Lemma string_app_inj_r s t u : s +:+ u = t +:+ u -> s = t.
Proof.
  intros H. assert (Hl : String.length s = String.length t).
  { apply (f_equal String.length) in H. rewrite !length_string_app in H. lia. }
  rewrite <- (take_string_app s u), <- (take_string_app t u), Hl. congruence.
Qed.

Lemma with_enums_name d m : message_FullName (with_enums d m) = message_FullName m.
Proof. by destruct m. Qed.
Lemma with_enums_messages d m : message_Messages (with_enums d m) = map (with_enums d) (message_Messages m).
Proof. by destruct m. Qed.

Lemma NoDup_names m ms : NoDup (names_of ms) -> m ∈ ms -> NoDup (names_within m).
Proof.
  induction ms as [|k ms IH]; [set_solver|]. change (names_of (k :: ms)) with (names_within k ++ names_of ms)%list.
  intros (H1 & _ & H2)%NoDup_app [->|H]%elem_of_cons; auto.
Qed.

Section Place.
Context (e : ProtoEnum) (p : string) (He : enum_named (p +:+ ".") e = true).

Lemma with_enums_other d m : p ∉ names_within m -> with_enums (d ++ [e]) m = with_enums d m.
Proof.
  induction m as [m IH] using message_ind'. rewrite names_within_unfold. intros [Hp Hn]%not_elem_of_cons.
  destruct m as [n fn fs ms es]. cbn [with_enums message_Name message_FullName message_Fields message_Messages] in *.
  f_equal.
  - apply map_ext_in. intros m Hm%list_elem_of_In. apply IH; [done|]. contradict Hn. apply elem_of_names. eauto.
  - rewrite List.filter_app. cbn [List.filter]. destruct (eqs (enum_scope e) _) eqn:E; [|by rewrite app_nil_r].
    apply eqs_true in E. rewrite (enum_named_scope _ _ He) in E. by apply string_app_inj_r in E.
Qed.

Lemma enum_prefix : exists x, enum_FullName e = p +:+ "." +:+ x.
Proof.
  unfold enum_named in He. apply andb_true_iff in He as [->%eqs_true _]. exists (enum_Name e). by rewrite string_app_assoc.
Qed.

Lemma place_other s d m m' :
  messages_named s m = true -> messages_named s m' = true -> p ∈ names_within m ->
  message_FullName m' <> message_FullName m -> place_enum e (with_enums d m') = None.
Proof.
  intros Hm Hm' Hp Hne. rewrite place_enum_unfold, with_enums_name. destruct enum_prefix as [x ->].
  destruct (HasPrefix _ _) eqn:E; [|done]. by apply (prefix_inside s m) in E.
Qed.

(** In a list of messages one of which holds [p], if that one is placed right. *)
Lemma place_among s d ms :
  (forall m, m ∈ ms -> messages_named s m = true) -> NoDup (names_of ms) -> p ∈ names_of ms ->
  (forall m, m ∈ ms -> p ∈ names_within m -> place_enum e (with_enums d m) = Some (with_enums (d ++ [e]) m)) ->
  enumBelongsToMessage (map (with_enums d) ms) e = Some (map (with_enums (d ++ [e])) ms).
Proof.
  induction ms as [|m ms IH]; intros Hs Hd Hp Hm; [by apply elem_of_nil in Hp|].
  cbn [map enumBelongsToMessage]. change (names_of (m :: ms)) with (names_within m ++ names_of ms)%list in *.
  apply NoDup_app in Hd as (_ & Hdis & Hd). destruct (decide (p ∈ names_within m)) as [Hin|Hout].
  - rewrite Hm by (done || left). do 2 f_equal. apply map_ext_in. intros n Hn%list_elem_of_In. symmetry.
    apply with_enums_other. intros H. apply (Hdis p Hin), elem_of_names. eauto.
  - apply elem_of_app in Hp as [|Hp]; [done|]. pose proof Hp as (n & Hn & Hpn)%elem_of_names.
    rewrite (place_other s d n m), (with_enums_other d m Hout); [|by apply Hs; right|by apply Hs; left|done|].
    2: { intros E. apply (Hdis (message_FullName m)); [rewrite names_within_unfold; left|].
         apply elem_of_names. exists n. split; [done|]. rewrite E, names_within_unfold. left. }
    rewrite IH; [done|intros k Hk; apply Hs; by right|done|done|intros k Hk; apply Hm; by right].
Qed.

Lemma place_within d m s :
  messages_named s m = true -> NoDup (names_within m) -> p ∈ names_within m ->
  place_enum e (with_enums d m) = Some (with_enums (d ++ [e]) m).
Proof.
  revert s. induction m as [m IH] using message_ind'. intros s Hs Hd Hp.
  destruct (messages_named_inv _ _ Hs) as (_ & _ & Hn).
  rewrite place_enum_unfold, with_enums_name, with_enums_messages.
  replace (HasPrefix _ _) with true.
  2: { destruct (names_within_extend p m s Hs Hp) as [rest E], enum_prefix as [x ->].
       rewrite <- string_app_assoc, E, <- string_app_assoc, string_app_assoc. by rewrite HasPrefix_app. }
  rewrite names_within_unfold in Hd, Hp. apply NoDup_cons in Hd as [Hself Hd]. apply elem_of_cons in Hp as [Hp|Hp].
  - rewrite not_placed.
    2: { intros n' Hn'. apply list_elem_of_In, in_map_iff in Hn' as (n & <- & Hin%list_elem_of_In).
         rewrite with_enums_name. eapply prefix_at_scope; [exact He|]. rewrite Hp. by apply Hn. }
    destruct m as [n fn fs ms es]. cbn [with_enums set_message_Enums message_Name message_FullName message_Fields
      message_Messages message_Enums] in *. unfold set_message_Enums.
    cbn [message_Name message_FullName message_Fields message_Messages message_Enums]. do 2 f_equal.
    + apply map_ext_in. intros k Hk%list_elem_of_In. symmetry. apply with_enums_other. rewrite Hp. intros H.
      apply Hself, elem_of_names. eauto.
    + rewrite List.filter_app. cbn [List.filter]. by rewrite (enum_named_scope _ _ He), Hp, eqs_refl.
  - rewrite (place_among (message_FullName m +:+ ".") d (message_Messages m) Hn Hd Hp).
    + destruct m as [n fn fs ms es]. cbn [message_Messages message_FullName] in *. unfold set_message_Messages. cbn [with_enums message_Name message_FullName message_Fields message_Messages message_Enums].
      do 2 f_equal. rewrite List.filter_app. cbn [List.filter].
      destruct (eqs (enum_scope e) _) eqn:E; [|by rewrite app_nil_r]. apply eqs_true in E.
      rewrite (enum_named_scope _ _ He) in E. apply string_app_inj_r in E. by rewrite E in Hp.
    + intros k Hk Hpk. eapply IH; [done|by apply Hn|by eapply NoDup_names|done].
Qed.

(** An enumeration named below one of the messages goes there. *)
Lemma enum_placed s d ms :
  (forall m, m ∈ ms -> messages_named s m = true) -> NoDup (names_of ms) -> p ∈ names_of ms ->
  enumBelongsToMessage (map (with_enums d) ms) e = Some (map (with_enums (d ++ [e])) ms).
Proof.
  intros Hs Hd Hp. apply (place_among s); [done..|]. intros m Hm Hpm.
  apply (place_within d m s); [by apply Hs|by eapply NoDup_names|done].
Qed.
End Place.

(** An enumeration of the package stays outside. *)
Lemma enum_of_package s e d ms :
  enum_named s e = true -> (forall m, m ∈ ms -> messages_named s m = true) ->
  enumBelongsToMessage (map (with_enums d) ms) e = None.
Proof.
  intros He Hs. apply not_placed. intros m' Hm'. apply list_elem_of_In, in_map_iff in Hm' as (m & <- & Hm%list_elem_of_In).
  rewrite with_enums_name. by apply (prefix_at_scope s); [|apply Hs].
Qed.

Lemma string_app_longer s t u : s = (s +:+ t) +:+ u -> u = "".
Proof.
  intros H. apply (f_equal String.length) in H. rewrite !length_string_app in H. destruct u; [done|cbn in H; lia].
Qed.

(** The scope of a package is not that of a message in it. *)
Lemma names_not_scope s p : forall m, messages_named s m = true -> p ∈ names_within m -> p +:+ "." <> s.
Proof.
  intros m Hm Hp E. destruct (names_within_extend p m s Hm Hp) as [rest Hr].
  destruct (messages_named_inv _ _ Hm) as (N & _). rewrite N in Hr. rewrite E in Hr.
  rewrite <- string_app_assoc in Hr. apply (f_equal String.length) in Hr. rewrite !length_string_app in Hr. cbn in Hr. lia.
Qed.

(** The loop of [loadProtoEnums]. *)
Lemma place_enums_spec s ms : forall es d,
  (forall m, m ∈ ms -> messages_named s m = true) -> NoDup (names_of ms) ->
  (forall e, e ∈ es -> enum_named s e = true \/ exists p, p ∈ names_of ms /\ enum_named (p +:+ ".") e = true) ->
  (forall m, m ∈ ms -> forall p, p ∈ names_within m -> p +:+ "." <> s) ->
  place_enums (map (with_enums d) ms) es
  = (map (with_enums (d ++ es)) ms, List.filter (fun e => eqs (enum_scope e) s) es).
Proof.
  intros es. induction es as [|e es IH]; intros d Hs Hd He Hn; cbn [place_enums]; [by rewrite app_nil_r|].
  assert (He' : forall e, e ∈ es -> enum_named s e = true \/ exists p, p ∈ names_of ms /\ enum_named (p +:+ ".") e = true).
  { intros e' H. apply He. by right. }
  replace (d ++ e :: es)%list with ((d ++ [e]) ++ es)%list by (by rewrite <- app_assoc). cbn [List.filter].
  destruct (He e) as [H|(p & Hp & H)]; [by left| |].
  - rewrite (enum_of_package s e d ms H Hs), (enum_named_scope _ _ H), eqs_refl.
    assert (Hsame : map (with_enums (d ++ [e])) ms = map (with_enums d) ms).
    { apply map_ext_in. intros m Hm%list_elem_of_In. pose proof (Hn m Hm) as Hm'. clear -H Hm'.
      induction m as [m IH] using message_ind'. destruct m as [n fn fs ks ks'].
      cbn [with_enums message_Name message_FullName message_Fields message_Messages] in *. f_equal.
      - apply map_ext_in. intros k Hk%list_elem_of_In. apply IH; [done|]. intros p Hp. apply Hm'.
        rewrite names_within_unfold, elem_of_cons, elem_of_names. cbn. eauto.
      - rewrite List.filter_app. cbn [List.filter]. destruct (eqs (enum_scope e) _) eqn:E; [|by rewrite app_nil_r].
        apply eqs_true in E. rewrite (enum_named_scope _ _ H) in E. destruct (Hm' fn); [|done].
        rewrite names_within_unfold. left. }
    by rewrite <- Hsame, IH.
  - rewrite (enum_placed e p H s d ms Hs Hd Hp), IH by done. rewrite (enum_named_scope _ _ H).
    apply elem_of_names in Hp as (m & Hm & Hp). by rewrite (proj2 (eqs_false _ _) (Hn m Hm p Hp)).
Qed.

(** ** The order in which a descriptor is read back *)

Definition ordered_fields (l : list ProtoField) : list ProtoField :=
  sort_by (fun x y => field_Number x <=? field_Number y)%Z l.
Definition ordered_values (l : list ProtoEnumValue) : list ProtoEnumValue :=
  sort_by (fun x y => enumValue_Number x <=? enumValue_Number y)%Z l.
Definition ordered_enum (e : ProtoEnum) : ProtoEnum :=
  mkProtoEnum (enum_Name e) (enum_FullName e) (ordered_values (enum_Values e)).

(** A message without what is nested in it. *)
Definition flat_message (m : ProtoMessage) : ProtoMessage :=
  mkProtoMessage (message_Name m) (message_FullName m) (ordered_fields (message_Fields m)) [] [].

(** The enumerations of messages in the order they are written. *)
Fixpoint enums_in (m : ProtoMessage) : list ProtoEnum :=
  (flat_map enums_in (message_Messages m) ++ message_Enums m)%list.

Section Ordered.
Context `{PG : !Postgres}.

Definition enum_le (x y : ProtoEnum) : bool := pg_text_le (enum_FullName x) (enum_FullName y).
Definition ordered_enums (l : list ProtoEnum) : list ProtoEnum := sort_by enum_le (map ordered_enum l).

Fixpoint ordered_message (m : ProtoMessage) : ProtoMessage :=
  mkProtoMessage (message_Name m) (message_FullName m) (ordered_fields (message_Fields m))
    (sort_by full_name_le (map ordered_message (message_Messages m))) (ordered_enums (message_Enums m)).

Definition ordered_service (s : ProtoService) : ProtoService :=
  mkProtoService (protoService_Name s) (protoService_FullName s)
    (sort_by (fun x y => pg_text_le (method_Name x) (method_Name y)) (protoService_Methods s)).

Definition ordered_file (f : ProtoFile) : ProtoFile :=
  mkProtoFile (file_Path f) (file_PackageName f) (file_Syntax f)
    (sort_by (fun x y => pg_text_le (import_Path x) (import_Path y)) (file_Imports f))
    (sort_by (fun x y => pg_text_le (protoService_FullName x) (protoService_FullName y))
       (map ordered_service (file_Services f)))
    (sort_by full_name_le (map ordered_message (file_Messages f)))
    (ordered_enums (file_Enums f)).

Definition ordered_metadata (m : DescriptorMetadata) : DescriptorMetadata :=
  mkDescriptorMetadata (sort_by (fun x y => pg_text_le (file_Path x) (file_Path y))
    (map ordered_file (metadata_Files m))).

Lemma tree_of_name m : message_FullName (tree_of flat_message m) = message_FullName m.
Proof. by destruct m. Qed.
Lemma ordered_name m : message_FullName (ordered_message m) = message_FullName m.
Proof. by destruct m. Qed.

Lemma with_enums_ordered es m :
  (forall k, k ∈ messages_within m ->
     List.filter (fun e => eqs (enum_scope e) (message_FullName k +:+ ".")) es = ordered_enums (message_Enums k)) ->
  with_enums es (tree_of flat_message m) = ordered_message m.
Proof.
  induction m as [m IH] using message_ind'. destruct m as [n fn fs ms ks].
  cbn [messages_within message_Messages] in *. intros H.
  unfold flat_message. cbn [tree_of set_message_Messages with_enums ordered_message message_Name message_FullName
    message_Fields message_Messages message_Enums]. f_equal; [|exact (H _ ltac:(left))].
  rewrite (sort_by_map full_name_le), (sort_by_map full_name_le), map_map by (intros; unfold full_name_le; by rewrite ?tree_of_name, ?ordered_name).
  apply map_ext_in. intros m Hm%list_elem_of_In%elem_of_sort_by. apply IH; [done|]. intros k Hk. apply H. right.
  apply list_elem_of_In, in_flat_map. exists m. by rewrite <- !list_elem_of_In.
Qed.

End Ordered.

(** Each message finds its own enumerations among those of the file. *)
Definition scoped (p : string) (e : ProtoEnum) : bool := eqs (enum_scope e) (p +:+ ".").

Lemma enums_named_inv m :
  enums_named m = true ->
  (forall e, e ∈ message_Enums m -> enum_named (message_FullName m +:+ ".") e = true)
  /\ forall n, n ∈ message_Messages m -> enums_named n = true.
Proof.
  destruct m as [n fn fs ms es]. cbn [enums_named message_Enums message_Messages message_FullName].
  rewrite andb_true_iff, !forallb_forall. setoid_rewrite <- list_elem_of_In. done.
Qed.

Lemma enums_in_unfold m : enums_in m = (flat_map enums_in (message_Messages m) ++ message_Enums m)%list.
Proof. by destruct m. Qed.

Lemma enums_in_named m e :
  enums_named m = true -> e ∈ enums_in m -> exists p, p ∈ names_within m /\ enum_named (p +:+ ".") e = true.
Proof.
  induction m as [m IH] using message_ind'. intros [Ho Hn]%enums_named_inv.
  rewrite enums_in_unfold, names_within_unfold, elem_of_app. intros [H|H].
  - apply list_elem_of_In, in_flat_map in H as (n & Hin%list_elem_of_In & H%list_elem_of_In).
    destruct (IH n Hin (Hn n Hin) H) as (p & Hp & He). exists p. split; [|done]. right. apply elem_of_names. eauto.
  - exists (message_FullName m). split; [left|by apply Ho].
Qed.

Lemma scoped_none p es :
  (forall e, e ∈ es -> exists q, q <> p /\ enum_named (q +:+ ".") e = true) -> List.filter (scoped p) es = [].
Proof.
  intros H. apply filter_none. intros e He. destruct (H e He) as (q & Hq & Hn). unfold scoped.
  rewrite (enum_named_scope _ _ Hn). apply eqs_false. by intros ->%string_app_inj_r.
Qed.
Lemma scoped_outside p ms :
  (forall m, m ∈ ms -> enums_named m = true) -> p ∉ names_of ms -> List.filter (scoped p) (flat_map enums_in ms) = [].
Proof.
  intros Hn Hp. apply scoped_none. intros e (m & Hm%list_elem_of_In & He%list_elem_of_In)%list_elem_of_In%in_flat_map.
  destruct (enums_in_named m e (Hn m Hm) He) as (q & Hq & H). exists q. split; [|done]. intros ->. apply Hp, elem_of_names. eauto.
Qed.

Lemma name_of_within k m : k ∈ messages_within m -> message_FullName k ∈ names_within m.
Proof. intros H. by apply list_elem_of_In, in_map, list_elem_of_In. Qed.

Lemma scoped_among k ms :
  (forall m, m ∈ ms -> enums_named m = true) -> NoDup (names_of ms) -> k ∈ flat_map messages_within ms ->
  (forall m, m ∈ ms -> k ∈ messages_within m -> List.filter (scoped (message_FullName k)) (enums_in m) = message_Enums k) ->
  List.filter (scoped (message_FullName k)) (flat_map enums_in ms) = message_Enums k.
Proof.
  induction ms as [|m ms IH]; intros Hn Hd Hk Hm; [by apply elem_of_nil in Hk|].
  cbn [flat_map] in *. change (names_of (m :: ms)) with (names_within m ++ names_of ms)%list in Hd.
  apply NoDup_app in Hd as (_ & Hdis & Hd). rewrite List.filter_app. apply elem_of_app in Hk as [Hk|Hk].
  - rewrite Hm by (done || left). rewrite scoped_outside; [apply app_nil_r|intros n Hin; apply Hn; by right|].
    by apply Hdis, name_of_within.
  - rewrite IH; [|intros n Hin; apply Hn; by right|done|done|intros n Hin; apply Hm; by right].
    rewrite scoped_none; [done|]. intros e He. destruct (enums_in_named m e (Hn m ltac:(left)) He) as (q & Hq & H).
    exists q. split; [|done]. intros ->. apply (Hdis _ Hq). apply elem_of_names.
    apply list_elem_of_In, in_flat_map in Hk as (n & Hin%list_elem_of_In & Hk%list_elem_of_In). exists n. split; [done|].
    by apply name_of_within.
Qed.

Lemma scoped_within m k :
  enums_named m = true -> NoDup (names_within m) -> k ∈ messages_within m ->
  List.filter (scoped (message_FullName k)) (enums_in m) = message_Enums k.
Proof.
  induction m as [m IH] using message_ind'. intros [Ho Hn]%enums_named_inv Hd Hk.
  rewrite names_within_unfold in Hd. apply NoDup_cons in Hd as [Hself Hd].
  rewrite enums_in_unfold, List.filter_app.
  assert (Hk' : k = m \/ k ∈ flat_map messages_within (message_Messages m)).
  { destruct m. cbn in Hk. by apply elem_of_cons in Hk. }
  destruct Hk' as [->|Hin].
  - rewrite scoped_outside by done. apply filter_all. intros e He. unfold scoped.
    by rewrite (enum_named_scope _ _ (Ho e He)), eqs_refl.
  - rewrite scoped_among; [|done|done|done|intros n Hin'; apply IH; [done|auto|by eapply NoDup_names]].
    rewrite scoped_none; [apply app_nil_r|]. intros e He. exists (message_FullName m). split; [|by apply Ho].
    intros E. apply Hself. rewrite E. apply elem_of_names.
    apply list_elem_of_In, in_flat_map in Hin as (n & Hn'%list_elem_of_In & Hin%list_elem_of_In). exists n. split; [done|].
    by apply name_of_within.
Qed.

(** ** The tree of a file and its enumerations, read back *)

Lemma names_of_perm ms ms' : ms ≡ₚ ms' -> names_of ms ≡ₚ names_of ms'.
Proof. unfold names_of. intros H. induction H; cbn; [done|by f_equiv| |by etrans]. by rewrite !app_assoc, (Permutation_app_comm (names_within y)). Qed.

Lemma names_within_tree m : names_within (tree_of flat_message m) ≡ₚ names_within m.
Proof.
  induction m as [m IH] using message_ind'. rewrite !names_within_unfold, tree_of_name.
  replace (message_Messages (tree_of flat_message m))
    with (sort_by full_name_le (map (tree_of flat_message) (message_Messages m))) by (by destruct m).
  f_equiv. rewrite (names_of_perm _ _ (sort_by_perm _ _)). revert IH. generalize (message_Messages m) as ms. intros ms IH.
  induction ms as [|k ms IHms]; [done|]. cbn [map names_of flat_map]. fold (names_of (map (tree_of flat_message) ms)) (names_of ms).
  rewrite (IH k) by left. rewrite IHms; [done|]. intros n Hn. apply IH. by right.
Qed.

Lemma names_of_trees ms : names_of (sort_by full_name_le (map (tree_of flat_message) ms)) ≡ₚ names_of ms.
Proof.
  rewrite (names_of_perm _ _ (sort_by_perm _ _)). induction ms as [|k ms IH]; [done|].
  cbn [map names_of flat_map]. fold (names_of (map (tree_of flat_message) ms)) (names_of ms). by rewrite names_within_tree, IH.
Qed.

Lemma tree_of_unfold m :
  tree_of flat_message m =
  mkProtoMessage (message_Name m) (message_FullName m) (ordered_fields (message_Fields m))
    (sort_by full_name_le (map (tree_of flat_message) (message_Messages m))) [].
Proof. by destruct m. Qed.

Lemma messages_named_tree s m : messages_named s m = true -> messages_named s (tree_of flat_message m) = true.
Proof.
  revert s. induction m as [m IH] using message_ind'. intros s. rewrite tree_of_unfold. destruct m as [n fn fs ms es].
  cbn [messages_named message_Name message_FullName message_Messages] in *.
  rewrite !andb_true_iff, !forallb_forall. intros [H Hn]. split; [done|].
  intros k' Hk'%list_elem_of_In%elem_of_sort_by. apply list_elem_of_In, in_map_iff in Hk' as (k & <- & Hk).
  apply IH; [by apply list_elem_of_In|by apply Hn].
Qed.

Lemma with_enums_none m : with_enums [] (tree_of flat_message m) = tree_of flat_message m.
Proof.
  induction m as [m IH] using message_ind'. rewrite tree_of_unfold. cbn [with_enums message_Name message_FullName message_Fields message_Messages List.filter].
  f_equal. rewrite <- (map_id (sort_by _ _)) at 2. apply map_ext_in.
  intros k' Hk'%list_elem_of_In%elem_of_sort_by. apply list_elem_of_In, in_map_iff in Hk' as (k & <- & Hk).
  by apply IH, list_elem_of_In.
Qed.

Lemma filter_map {A B} (f : A -> B) (p : B -> bool) l :
  List.filter p (map f l) = map f (List.filter (fun x => p (f x)) l).
Proof. induction l as [|x l IH]; cbn; [done|]. destruct (p (f x)); cbn; by rewrite IH. Qed.

Section ReadBack.
Context `{PG : !Postgres} `{CO : !Collation}.

Lemma filter_ordered_enums (p : ProtoEnum -> bool) l :
  (forall e, p (ordered_enum e) = p e) -> List.filter p (ordered_enums l) = ordered_enums (List.filter p l).
Proof.
  intros H. unfold ordered_enums. rewrite filter_sort_by, filter_map; [|intros x y; apply pg_text_total|intros x y z; apply pg_text_trans].
  do 2 f_equal. apply List.filter_ext. exact H.
Qed.

Lemma elem_of_ordered_enums e l : e ∈ ordered_enums l -> exists e0, e0 ∈ l /\ e = ordered_enum e0.
Proof.
  intros H%elem_of_sort_by. apply list_elem_of_In, in_map_iff in H as (e0 & <- & H%list_elem_of_In). eauto.
Qed.

Lemma file_named_inv f :
  file_named f = true -> let s := package_scope (file_PackageName f) in
  (forall m, m ∈ file_Messages f -> messages_named s m = true /\ enums_named m = true)
  /\ forall e, e ∈ file_Enums f -> enum_named s e = true.
Proof.
  unfold file_named. rewrite !andb_true_iff, !forallb_forall. setoid_rewrite <- list_elem_of_In. naive_solver.
Qed.

Lemma file_read_back f :
  file_named f = true -> NoDup (names_of (file_Messages f)) ->
  place_enums (sort_by full_name_le (map (tree_of flat_message) (file_Messages f)))
    (ordered_enums (flat_map enums_in (file_Messages f) ++ file_Enums f))
  = (file_Messages (ordered_file f), file_Enums (ordered_file f)).
Proof.
  intros [Hm He]%file_named_inv Hd. set (s := package_scope (file_PackageName f)) in *. set (ms := file_Messages f) in *.
  set (ts := sort_by full_name_le (map (tree_of flat_message) ms)). set (es := ordered_enums _).
  assert (Hts : forall t, t ∈ ts -> exists m, m ∈ ms /\ t = tree_of flat_message m).
  { intros t Ht%elem_of_sort_by. apply list_elem_of_In, in_map_iff in Ht as (m & <- & H%list_elem_of_In). eauto. }
  assert (Hbare : map (with_enums []) ts = ts).
  { rewrite <- (map_id ts) at 2. apply map_ext_in. intros t (m & _ & ->)%list_elem_of_In%Hts. apply with_enums_none. }
  assert (Hnamed : forall t, t ∈ ts -> messages_named s t = true).
  { intros t (m & Hin & ->)%Hts. by apply messages_named_tree, Hm. }
  rewrite <- Hbare, (place_enums_spec s ts es []); [|done|unfold ts; by rewrite (names_of_trees ms)| |].
  - rewrite app_nil_l. cbn [file_Messages file_Enums ordered_file]. f_equal.
    + unfold ts. rewrite !(sort_by_map full_name_le), map_map by (intros; unfold full_name_le; by rewrite ?tree_of_name, ?ordered_name).
      apply map_ext_in. intros m Hin%list_elem_of_In%elem_of_sort_by. apply with_enums_ordered. intros k Hk.
      change (fun e => eqs (enum_scope e) (message_FullName k +:+ ".")) with (scoped (message_FullName k)).
      unfold es. rewrite filter_ordered_enums by done. f_equal. rewrite List.filter_app.
      rewrite (scoped_among k ms); [|intros n Hn; by apply Hm|done| |intros n Hn Hkn; apply scoped_within; [by apply Hm|by eapply NoDup_names|done]].
      2: { apply list_elem_of_In, in_flat_map. exists m. by rewrite <- !list_elem_of_In. }
      rewrite filter_none; [apply app_nil_r|]. intros e Hine. unfold scoped. rewrite (enum_named_scope _ _ (He e Hine)).
      apply eqs_false, not_eq_sym. apply (names_not_scope s _ m); [by apply Hm|by apply name_of_within].
    + unfold es. rewrite filter_ordered_enums by done. f_equal. rewrite List.filter_app, (filter_all _ (file_Enums f)).
      2: { intros e Hine. by rewrite (enum_named_scope _ _ (He e Hine)), eqs_refl. }
      rewrite filter_none; [done|]. intros e (m & Hin%list_elem_of_In & Hine%list_elem_of_In)%list_elem_of_In%in_flat_map.
      destruct (enums_in_named m e) as (p & Hp & Hpe); [by apply Hm|done|]. rewrite (enum_named_scope _ _ Hpe).
      apply eqs_false. apply (names_not_scope s _ m); [by apply Hm|done].
  - intros e (e0 & Hin & ->)%elem_of_ordered_enums. change (enum_named s (ordered_enum e0)) with (enum_named s e0).
    apply elem_of_app in Hin as [(m & Hin%list_elem_of_In & Hine%list_elem_of_In)%list_elem_of_In%in_flat_map|Hin]; [right|left; by apply He].
    destruct (enums_in_named m e0) as (p & Hp & Hpe); [by apply Hm|done|]. exists p. split; [|done].
    unfold ts. rewrite names_of_trees. apply elem_of_names. eauto.
  - intros t Ht p Hp. apply (names_not_scope s p t); auto.
Qed.
End ReadBack.
