(* ===== verification/DescriptorRoundTrip.v ===== *)
(** * A descriptor saved and read back

    [Save] and [GetByModuleVersion] of
    [repository/postgres/descriptor_metadata.go]: what a successful [Save]
    writes, as a function of the descriptor and the counter of identifiers, and
    what [GetByModuleVersion] reads of it. *)

From S2P Require Import Prelude Errors GoStrings Domain Effects Postgres Outbox Tables World GovernanceStore DescriptorStore DescriptorTree.

Open Scope string_scope.
Open Scope nat_scope.

(** ** The rows a descriptor becomes *)

Definition no_rows : Descriptors := mkDescriptors [] [] [] [] [] [] [] [] 0.

Definition ds_app (a b : Descriptors) : Descriptors :=
  mkDescriptors (ds_files a ++ ds_files b) (ds_imports a ++ ds_imports b) (ds_services a ++ ds_services b)
    (ds_methods a ++ ds_methods b) (ds_messages a ++ ds_messages b) (ds_fields a ++ ds_fields b)
    (ds_enums a ++ ds_enums b) (ds_values a ++ ds_values b) (ds_uuids a + ds_uuids b).

Lemma ds_app_assoc a b c : ds_app (ds_app a b) c = ds_app a (ds_app b c).
Proof. unfold ds_app. cbn. by rewrite <- !app_assoc, Nat.add_assoc. Qed.
Lemma ds_app_nil_r a : ds_app a no_rows = a.
Proof. destruct a. unfold ds_app. cbn. by rewrite !app_nil_r, Nat.add_0_r. Qed.
Lemma ds_app_nil_l a : ds_app no_rows a = a.
Proof. by destruct a. Qed.

(** The rows of each element, the counter going on. *)
Section Each.
Context {A : Type} (f : nat -> A -> Descriptors).
Fixpoint each (n : nat) (l : list A) : Descriptors :=
  match l with
  | [] => no_rows
  | x :: l' => ds_app (f n x) (each (n + ds_uuids (f n x)) l')
  end.
End Each.

Section Rows.
Context `{PG : !Postgres}.
Context (vid : ModuleVersionID).

Definition import_rows (fileID : string) (n : nat) (i : ProtoImport) : Descriptors :=
  mkDescriptors [] [mkProtoImportRow fileID i] [] [] [] [] [] [] 1.

Definition method_rows (serviceID : string) (n : nat) (m : ProtoMethod) : Descriptors :=
  mkDescriptors [] [] [] [mkProtoMethodRow serviceID m] [] [] [] [] 1.

Definition service_rows (fileID packageName : string) (n : nat) (s : ProtoService) : Descriptors :=
  let id := gen_random_uuid n in
  ds_app
    (mkDescriptors [] [] [mkProtoServiceRow id vid fileID packageName (protoService_Name s) (protoService_FullName s)]
       [] [] [] [] [] 1)
    (each (method_rows id) (n + 1) (protoService_Methods s)).

Definition field_rows (messageID : string) (n : nat) (f : ProtoField) : Descriptors :=
  mkDescriptors [] [] [] [] [] [mkProtoFieldRow messageID f] [] [] 1.

Definition value_rows (enumID : string) (n : nat) (v : ProtoEnumValue) : Descriptors :=
  mkDescriptors [] [] [] [] [] [] [] [mkProtoEnumValueRow enumID v] 1.

Definition enum_rows (fileID packageName : string) (n : nat) (e : ProtoEnum) : Descriptors :=
  let id := gen_random_uuid n in
  ds_app
    (mkDescriptors [] [] [] [] [] [] [mkProtoEnumRow id vid fileID packageName (enum_Name e) (enum_FullName e)] [] 1)
    (each (value_rows id) (n + 1) (enum_Values e)).

Definition message_row (fileID packageName : string) (parent : option string) (n : nat) (m : ProtoMessage) : Descriptors :=
  mkDescriptors [] [] [] []
    [mkProtoMessageRow (gen_random_uuid n) vid fileID parent packageName (message_Name m) (message_FullName m)] [] [] [] 1.

(** [d], then the rows that follow it. *)
Definition then_rows (n : nat) (d : Descriptors) (k : nat -> Descriptors) : Descriptors :=
  ds_app d (k (n + ds_uuids d)).

Fixpoint message_rows (fileID packageName : string) (parent : option string) (n : nat) (m : ProtoMessage) : Descriptors :=
  then_rows n (message_row fileID packageName parent n m) (fun n1 =>
    then_rows n1 (each (field_rows (gen_random_uuid n)) n1 (message_Fields m)) (fun n2 =>
      then_rows n2 (each (message_rows fileID packageName (Some (gen_random_uuid n))) n2 (message_Messages m)) (fun n3 =>
        each (enum_rows fileID packageName) n3 (message_Enums m)))).

Definition file_rows (n : nat) (f : ProtoFile) : Descriptors :=
  let id := gen_random_uuid n in
  let packageName := file_PackageName f in
  then_rows n (mkDescriptors [mkProtoFileRow id vid (file_Path f) packageName (file_Syntax f)] [] [] [] [] [] [] [] 1) (fun n1 =>
    then_rows n1 (each (import_rows id) n1 (file_Imports f)) (fun n2 =>
      then_rows n2 (each (service_rows id packageName) n2 (file_Services f)) (fun n3 =>
        then_rows n3 (each (message_rows id packageName None) n3 (file_Messages f)) (fun n4 =>
          each (enum_rows id packageName) n4 (file_Enums f))))).
End Rows.

(** ** What a successful [Save] writes *)

(** A message has its own name in its version. *)
Definition names_unique (ds : Descriptors) : Prop :=
  NoDup (map (fun r => (messageRow_ModuleVersionID r, messageRow_FullName r)) (ds_messages ds)).

Section Writes.
Context `{PG : !Postgres} `{ENV : !Env}.

(** From the counter [n], a successful run adds the rows [delta] and returns
    [a]. *)
Definition writes_at {A} (n : nat) (delta : Descriptors) (a : A) (m : M World A) : Prop :=
  forall w r w', ds_uuids (descriptors (w_db w)) = n -> m w = (Ok r, w') ->
    r = a /\ w_tx w' = w_tx w
    /\ w_db w' = update_descriptors (fun ds => ds_app ds delta) (w_db w)
    /\ (names_unique (descriptors (w_db w)) -> names_unique (descriptors (w_db w'))).

Lemma update_descriptors_twice f g d :
  update_descriptors g (update_descriptors f d) = update_descriptors (fun ds => g (f ds)) d.
Proof. done. Qed.
Lemma update_descriptors_id f d : f (descriptors d) = descriptors d -> update_descriptors f d = d.
Proof. destruct d as [? ? ? ? ? ? ? ? ? ? ? []]. unfold update_descriptors, set_catalog, set_descriptors, descriptors. cbn. by intros ->. Qed.

Lemma writes_ret {A} n (a : A) : writes_at n no_rows a (ret a).
Proof.
  intros w r w' _ [= <- <-]. split_and!; [done|done| |done]. symmetry. apply update_descriptors_id, ds_app_nil_r.
Qed.

Lemma writes_bind {A B} n d1 d2 (a : A) (b : B) m k :
  writes_at n d1 a m -> writes_at (n + ds_uuids d1) d2 b (k a) -> writes_at n (ds_app d1 d2) b (bind m k).
Proof.
  intros H1 H2 w r w' Hn H. apply bind_Ok in H as (x & w1 & Hm & H).
  destruct (H1 _ _ _ Hn Hm) as (-> & T1 & E1 & U1).
  destruct (H2 _ _ _ ltac:(by rewrite E1, <- Hn) H) as (-> & T2 & E2 & U2).
  split_and!; [done|congruence| |auto]. rewrite E2, E1, update_descriptors_twice.
  unfold update_descriptors, set_catalog, set_descriptors. f_equal. by rewrite ds_app_assoc.
Qed.

Lemma writes_then {B} n d (k : nat -> Descriptors) (b : B) m (m' : M World B) :
  writes_at n d tt m -> writes_at (n + ds_uuids d) (k (n + ds_uuids d)) b m' ->
  writes_at n (then_rows n d k) b (let! _ := m in m').
Proof. intros H1 H2. by apply (writes_bind n d _ tt b m (fun _ => m')). Qed.

Lemma writes_unit {A} n d (a : A) m : writes_at n d a m -> writes_at n d tt (let! _ := m in ret tt).
Proof. intros H. rewrite <- (ds_app_nil_r d). by apply (writes_bind n d no_rows a); [|apply writes_ret]. Qed.

Lemma writes_forM {A} (f : nat -> A -> Descriptors) (body : A -> M World unit) l : forall n,
  (forall x n, x ∈ l -> writes_at n (f n x) tt (body x)) -> writes_at n (each f n l) tt (forM l body).
Proof.
  induction l as [|x l IH]; intros n H; [apply writes_ret|]. cbn [each forM].
  apply (writes_bind _ _ _ tt); [apply H; left|]. apply IH. intros y k Hy. apply H. by right.
Qed.

(** A statement that adds a row and returns its identifier. *)
Definition adds_row (delta : string -> Descriptors) (m : M Database string) : Prop :=
  forall d i d', m d = (Ok i, d') ->
    i = gen_random_uuid (ds_uuids (descriptors d))
    /\ d' = update_descriptors (fun ds => ds_app ds (delta i)) d
    /\ (names_unique (descriptors d) -> names_unique (descriptors d')).

Lemma writes_insert n delta m :
  adds_row delta m -> writes_at n (delta (gen_random_uuid n)) (gen_random_uuid n) (map_err mapError (exec (T := Database) m)).
Proof.
  intros Hm w r w' Hn H. apply map_err_Ok, exec_db_Ok in H as [H Htx].
  destruct (Hm _ _ _ H) as (Hi & Hd & Hu). rewrite Hn in Hi. subst r. by split_and!.
Qed.

(** Only rows of messages have unique names. *)
Lemma names_unique_app ds delta : ds_messages delta = [] -> names_unique ds -> names_unique (ds_app ds delta).
Proof. unfold names_unique. cbn. intros ->. by rewrite app_nil_r. Qed.

Lemma adds_insert_row add delta d i d' :
  (forall i ds, next_uuid (add i ds) = ds_app ds (delta i)) ->
  insert_row add d = (Ok i, d') ->
  i = gen_random_uuid (ds_uuids (descriptors d)) /\ d' = update_descriptors (fun ds => ds_app ds (delta i)) d.
Proof.
  intros Ha H. unfold insert_row in H. injection H as <- <-. split; [done|].
  unfold update_descriptors, set_catalog, set_descriptors. by rewrite Ha.
Qed.

End Writes.

(** The checks of a statement passed; its row is added. *)
Ltac adds_row_tac delta :=
  let d := fresh "d" in let i := fresh "i" in let d' := fresh "d'" in let H := fresh "H" in
  intros d i d' H; minv;
  repeat match goal with
    | H : uuid_param _ _ = _ |- _ => apply uuid_param_Ok in H as [? ?]
    | H : text_params _ _ = _ |- _ => apply guardM_Ok in H as [? ?]
    | H : insert_checks _ _ _ _ = _ |- _ => apply append_checks_Ok in H as [? H]; simpl in H; decompose_Forall_hyps
    end; subst;
  match goal with H : insert_row _ _ = _ |- _ =>
    apply (adds_insert_row _ delta) in H;
      [destruct H as [? ?]; subst
      |intros; unfold next_uuid, ds_app; cbn; rewrite ?app_nil_r; f_equal; lia] end;
  split_and!; [done|simplify_eq/=; done|].

Ltac one_row n delta :=
  apply (writes_unit _ _ (gen_random_uuid n)), (writes_insert _ delta); adds_row_tac delta; by apply names_unique_app.

Section Create.
Context `{PG : !Postgres} `{ENV : !Env}.
Context (moduleVersionID vid : ModuleVersionID) (Hvid : uuid_canon moduleVersionID = Some vid).

Lemma writes_import fileID n i : writes_at n (import_rows fileID n i) tt (createProtoImport fileID i).
Proof. one_row n (fun _ : string => import_rows fileID n i). Qed.
Lemma writes_method serviceID n m : writes_at n (method_rows serviceID n m) tt (createProtoMethod serviceID m).
Proof. one_row n (fun _ : string => method_rows serviceID n m). Qed.
Lemma writes_field messageID n f : writes_at n (field_rows messageID n f) tt (createProtoField messageID f).
Proof. one_row n (fun _ : string => field_rows messageID n f). Qed.
Lemma writes_value enumID n v : writes_at n (value_rows enumID n v) tt (createProtoEnumValue enumID v).
Proof. one_row n (fun _ : string => value_rows enumID n v). Qed.

Lemma writes_service fileID p n s :
  writes_at n (service_rows vid fileID p n s) tt (createProtoService moduleVersionID fileID p s).
Proof.
  unfold createProtoService, service_rows. cbv zeta. eapply writes_bind.
  - set (delta := fun id => mkDescriptors [] [] [mkProtoServiceRow id vid fileID p (protoService_Name s) (protoService_FullName s)] [] [] [] [] [] 1).
    apply (writes_insert n delta). adds_row_tac delta. by apply names_unique_app.
  - apply writes_forM. intros m k _. apply writes_method.
Qed.

Lemma writes_enum fileID p n e :
  writes_at n (enum_rows vid fileID p n e) tt (createProtoEnum moduleVersionID fileID p e).
Proof.
  unfold createProtoEnum, enum_rows. cbv zeta. eapply writes_bind.
  - set (delta := fun id => mkDescriptors [] [] [] [] [] [] [mkProtoEnumRow id vid fileID p (enum_Name e) (enum_FullName e)] [] 1).
    apply (writes_insert n delta). adds_row_tac delta. by apply names_unique_app.
  - apply writes_forM. intros v k _. apply writes_value.
Qed.

Lemma writes_message_row fileID p parent n m :
  writes_at n (message_row vid fileID p parent n m) (gen_random_uuid n)
    (insert_message moduleVersionID fileID parent p m).
Proof.
  unfold insert_message.
  set (delta := fun id => mkDescriptors [] [] [] [] [mkProtoMessageRow id vid fileID parent p (message_Name m) (message_FullName m)] [] [] [] 1).
  apply (writes_insert n delta). adds_row_tac delta.
  unfold names_unique. cbn. rewrite map_app. cbn. intros Hd. apply NoDup_app. split_and!; [done| |apply NoDup_singleton].
  intros x Hx ->%list_elem_of_singleton. apply list_elem_of_In, in_map_iff in Hx as (r & E & Hr%list_elem_of_In).
  injection E as E1 E2.
  match goal with H : existsb _ _ = false |- _ => rewrite existsb_false in H; specialize (H r Hr) end.
  rewrite E1, E2, !eqs_refl in *. done.
Qed.

Lemma writes_message fileID p m : forall parent n,
  writes_at n (message_rows vid fileID p parent n m) tt (createProtoMessage moduleVersionID fileID parent p m).
Proof.
  induction m as [m IH] using message_ind'. intros parent n. destruct m as [name full fs ms es].
  cbn [message_rows createProtoMessage message_Fields message_Messages message_Enums] in *.
  apply (writes_bind _ _ _ (gen_random_uuid n)); [apply (writes_message_row fileID p parent n)|].
  apply writes_then; [apply writes_forM; intros; apply writes_field|].
  apply writes_then; [|apply writes_forM; intros; apply writes_enum].
  match goal with |- writes_at ?k _ _ _ => generalize k end. clear fs es.
  induction ms as [|m ms IHms]; intros k; cbn [each]; [apply writes_ret|].
  apply (writes_bind _ _ _ tt); [apply IH; left|]. apply IHms. intros x Hx. apply IH. by right.
Qed.

Lemma writes_file f n : writes_at n (file_rows vid n f) tt (saveProtoFile moduleVersionID f).
Proof.
  unfold saveProtoFile, file_rows. cbv zeta. apply (writes_bind _ _ _ (gen_random_uuid n)).
  { set (delta := fun id => mkDescriptors [mkProtoFileRow id vid (file_Path f) (file_PackageName f) (file_Syntax f)] [] [] [] [] [] [] [] 1).
    apply (writes_insert n delta). adds_row_tac delta. by apply names_unique_app. }
  repeat (apply writes_then; [apply writes_forM; intros;
    first [apply writes_import|apply writes_service|apply writes_message]|]).
  apply writes_forM. intros. apply writes_enum.
Qed.
End Create.

Section Save.
Context `{PG : !Postgres} `{ENV : !Env}.

(** The descriptors after [Save]. *)
Definition saved (vid : ModuleVersionID) (metadata : DescriptorMetadata) (ds : Descriptors) : Descriptors :=
  let ds0 := delete_version vid ds in
  ds_app ds0 (each (file_rows vid) (ds_uuids ds0) (metadata_Files metadata)).

Lemma names_unique_delete vid ds : names_unique ds -> names_unique (delete_version vid ds).
Proof. unfold names_unique, delete_version. cbn. apply NoDup_map_filter. Qed.

Lemma Metadata_Save_canon id metadata w u w' :
  Metadata_Save id metadata w = (Ok u, w') -> exists vid, uuid_canon id = Some vid.
Proof.
  intros H. assert (Hrun : exists w0 w1 : World, map_err mapError (exec (delete_files_stmt id)) w0 = (Ok tt, w1)).
  { unfold Metadata_Save in H. destruct (w_tx w) eqn:Htx.
    - unfold WithinTransaction in H. rewrite Htx in H. apply bind_Ok in H as ([] & w1 & H & _). by exists w, w1.
    - apply WithinTransaction_atomic in H as (_ & [[(x & [=]) _]|(a & w2 & H & _)]); [|done].
      apply bind_Ok in H as ([] & w1 & H & _). by eexists _, w1. }
  destruct Hrun as (w0 & w1 & Hr). apply map_err_Ok, exec_db_Ok in Hr as [Hr _]. unfold delete_files_stmt in Hr.
  apply bind_Ok in Hr as (i & d & [Hi _]%uuid_param_Ok & _). eauto.
Qed.

Lemma Metadata_Save_writes id vid metadata w u w' :
  uuid_canon id = Some vid -> Metadata_Save id metadata w = (Ok u, w') ->
  w_tx w' = w_tx w /\ w_db w' = update_descriptors (saved vid metadata) (w_db w)
  /\ (names_unique (descriptors (w_db w)) -> names_unique (descriptors (w_db w'))).
Proof.
  intros Hv H. unfold Metadata_Save in H.
  assert (Hrun : exists w0 w1, w_db w0 = w_db w /\ w_db w1 = w_db w' /\ (w_tx w = true -> w0 = w /\ w1 = w')
    /\ (w_tx w = false -> w_tx w' = false)
    /\ (let! _ := map_err mapError (exec (delete_files_stmt id)) in let! _ := now in
        forM (metadata_Files metadata) (saveProtoFile id)) w0 = (Ok u, w1)).
  { destruct (w_tx w) eqn:Htx.
    - unfold WithinTransaction in H. rewrite Htx in H. by exists w, w'.
    - apply WithinTransaction_atomic in H as (T & [[(e & [=]) _]|(a & w2 & Hf & Hdb & [[= ->]|(e & [=])])]); [|done].
      by exists (tick (mkWorld (w_db w) true (w_tick w))), w2. }
  clear H. destruct Hrun as (w0 & w1 & E0 & E1 & Ht & Hf & H).
  apply bind_Ok in H as (u1 & w2 & H1 & H). apply map_err_Ok, exec_db_Ok in H1 as [H1 T1].
  unfold delete_files_stmt in H1. apply bind_Ok in H1 as (i & d & [Hi ->]%uuid_param_Ok & Hd%modify_Ok).
  rewrite Hv in Hi. injection Hi as <-. apply bind_Ok in H as (t & w3 & [= _ <-] & H).
  assert (Hw : writes_at (ds_uuids (descriptors (w_db w2)))
            (each (file_rows vid) (ds_uuids (descriptors (w_db w2))) (metadata_Files metadata)) tt
            (forM (metadata_Files metadata) (saveProtoFile id))).
  { apply writes_forM. intros f n _. by apply writes_file. }
  destruct (Hw (tick w2) u w1 eq_refl H) as (_ & T2 & Hdb & Hu). cbn [tick w_db w_tx] in *.
  rewrite <- E1, <- E0. split_and!.
  - destruct (w_tx w) eqn:Htx; [|auto]. destruct (Ht eq_refl) as [-> ->]. congruence.
  - by rewrite Hdb, Hd.
  - intros Hn. apply Hu. rewrite Hd. by apply (names_unique_delete vid) in Hn.
Qed.
End Save.

(** ** What refers to an identifier *)

Section Views.
Context `{PG : !Postgres}.
Context (vid : ModuleVersionID).

(** The rows that belong to the row or the file [i]. *)
Definition rows_at (i : string) (ds : Descriptors) : Descriptors :=
  mkDescriptors [] (List.filter (fun r => eqs (importRow_FileID r) i) (ds_imports ds))
    (List.filter (fun s => eqs (serviceRow_ModuleVersionID s) vid && eqs (serviceRow_FileID s) i) (ds_services ds))
    (List.filter (fun m => eqs (methodRow_ServiceID m) i) (ds_methods ds))
    (List.filter (fun m => eqs (messageRow_ModuleVersionID m) vid && eqs (messageRow_FileID m) i) (ds_messages ds))
    (List.filter (fun f => eqs (fieldRow_MessageID f) i) (ds_fields ds))
    (List.filter (fun e => eqs (enumRow_ModuleVersionID e) vid && eqs (enumRow_FileID e) i) (ds_enums ds))
    (List.filter (fun v => eqs (enumValueRow_EnumID v) i) (ds_values ds)) 0.

Lemma rows_at_app i a b : rows_at i (ds_app a b) = ds_app (rows_at i a) (rows_at i b).
Proof. unfold rows_at, ds_app. cbn. by rewrite !List.filter_app. Qed.

Definition issued (lo hi : nat) (i : string) : Prop := exists k, lo <= k < hi /\ i = gen_random_uuid k.

(** The rows of [ds] belong to rows that satisfy [P]. *)
Definition uses (P : string -> Prop) (ds : Descriptors) : Prop := forall i, ~ P i -> rows_at i ds = no_rows.

Lemma uses_app P a b : uses P a -> uses P b -> uses P (ds_app a b).
Proof. intros Ha Hb i Hi. by rewrite rows_at_app, Ha, Hb. Qed.
Lemma uses_mono (P Q : string -> Prop) ds : (forall i, P i -> Q i) -> uses P ds -> uses Q ds.
Proof. intros H Hu i Hi. apply Hu. auto. Qed.

(** The file (or the row) [j], and the identifiers of [lo], ..., [hi - 1]. *)
Definition own (j lo hi : nat) (i : string) : Prop := i = gen_random_uuid j \/ issued lo hi i.

Lemma own_mono j lo hi lo' hi' i : lo' <= lo -> hi <= hi' -> own j lo hi i -> own j lo' hi' i.
Proof. intros ? ? [->|(k & ? & ->)]; [by left|]. right. exists k. split; [lia|done]. Qed.

Lemma uses_each {A} (f : nat -> A -> Descriptors) j l : forall n,
  (forall x n, x ∈ l -> uses (own j n (n + ds_uuids (f n x))) (f n x)) ->
  uses (own j n (n + ds_uuids (each f n l))) (each f n l).
Proof.
  induction l as [|x l IH]; intros n H; cbn [each]; [by intros i _|]. apply uses_app.
  - eapply uses_mono; [|apply H; left]. intros i. apply own_mono; cbn; lia.
  - eapply uses_mono; [|apply IH; intros y k Hy; apply H; by right]. intros i. apply own_mono; cbn; lia.
Qed.

(** What [D] holds of the rows issued from [lo] to [hi - 1] is [delta]. *)
Definition sees (D : Descriptors) (lo hi : nat) (delta : Descriptors) : Prop :=
  forall k, lo <= k < hi -> rows_at (gen_random_uuid k) D = rows_at (gen_random_uuid k) delta.

Lemma issued_own j lo hi k : j < lo -> ~ (lo <= k < hi) -> j <> k -> ~ own j lo hi (gen_random_uuid k).
Proof. intros Hj Hk Hjk [E|(k' & Hk' & E)]; apply (inj gen_random_uuid) in E; subst; auto. Qed.

Lemma sees_app D j lo mid hi a b :
  j < lo -> lo <= mid <= hi -> uses (own j lo mid) a -> uses (own j mid hi) b ->
  sees D lo hi (ds_app a b) -> sees D lo mid a /\ sees D mid hi b.
Proof.
  intros Hj Hm Ha Hb H. split; intros k Hk; rewrite H, rows_at_app by lia.
  - rewrite (Hb (gen_random_uuid k)); [apply ds_app_nil_r|]. apply issued_own; lia.
  - rewrite (Ha (gen_random_uuid k)); [apply ds_app_nil_l|]. apply issued_own; lia.
Qed.

(** A part of the rows, read element by element. *)
Lemma each_read {A R} (D : Descriptors) (f : nat -> A -> Descriptors) (phi : Descriptors -> list R) (psi : A -> list R) j l :
  phi no_rows = [] -> (forall a b, phi (ds_app a b) = phi a ++ phi b)%list ->
  (forall x n, uses (own j n (n + ds_uuids (f n x))) (f n x)) ->
  (forall x n, x ∈ l -> j < n -> sees D n (n + ds_uuids (f n x)) (f n x) -> phi (f n x) = psi x) ->
  forall n, j < n -> sees D n (n + ds_uuids (each f n l)) (each f n l) -> phi (each f n l) = flat_map psi l.
Proof.
  intros Hnil Happ Hu. induction l as [|x l IH]; intros H n Hn Hs; cbn [each flat_map] in *; [done|].
  rewrite Happ. cbn [ds_app ds_uuids] in Hs.
  apply (sees_app D j n (n + ds_uuids (f n x))) in Hs as [Hx Hl]; [|done|lia|apply Hu|].
  - rewrite (H x n) by (done || left). f_equal. apply IH; [intros y k Hy; apply H; by right|lia|].
    by rewrite Nat.add_assoc in Hl.
  - rewrite Nat.add_assoc. by apply uses_each.
Qed.
End Views.

Section Uses.
Context `{PG : !Postgres}.
Context (view vid : ModuleVersionID).
Abbreviation uses := (uses view).

(** One row that belongs to [i]. *)
Ltac uses_row := let x := fresh "x" in let Hx := fresh "Hx" in let E := fresh "E" in
  intros x Hx; unfold rows_at; cbn;
  rewrite ?(proj2 (eqs_false _ x)) by (intros E; apply Hx; left; by rewrite E);
  by rewrite ?andb_false_r.

Lemma own_self j lo hi lo' hi' i : lo' <= j < hi' -> lo' <= lo -> hi <= hi' -> own j lo hi i -> issued lo' hi' i.
Proof. intros Hj ? ? [->|(k & ? & ->)]; [by exists j|]. exists k. split; [lia|done]. Qed.

Lemma uses_import j n i : uses (own j n (n + 1)) (import_rows (gen_random_uuid j) n i).
Proof. uses_row. Qed.
Lemma uses_method j n m : uses (own j n (n + 1)) (method_rows (gen_random_uuid j) n m).
Proof. uses_row. Qed.
Lemma uses_field j n f : uses (own j n (n + 1)) (field_rows (gen_random_uuid j) n f).
Proof. uses_row. Qed.
Lemma uses_value j n v : uses (own j n (n + 1)) (value_rows (gen_random_uuid j) n v).
Proof. uses_row. Qed.

Lemma uses_service j p n s :
  uses (own j n (n + ds_uuids (service_rows vid (gen_random_uuid j) p n s))) (service_rows vid (gen_random_uuid j) p n s).
Proof.
  unfold service_rows. cbv zeta. apply uses_app; [uses_row|].
  eapply uses_mono; [|apply (uses_each view _ n); intros; apply uses_method].
  intros i Hi. right. eapply own_self; [| | |exact Hi]; cbn; lia.
Qed.

Lemma uses_enum j p n e :
  uses (own j n (n + ds_uuids (enum_rows vid (gen_random_uuid j) p n e))) (enum_rows vid (gen_random_uuid j) p n e).
Proof.
  unfold enum_rows. cbv zeta. apply uses_app; [uses_row|].
  eapply uses_mono; [|apply (uses_each view _ n); intros; apply uses_value].
  intros i Hi. right. eapply own_self; [| | |exact Hi]; cbn; lia.
Qed.

Lemma message_rows_unfold fileID p parent n m :
  message_rows vid fileID p parent n m =
  then_rows n (message_row vid fileID p parent n m) (fun n1 =>
    then_rows n1 (each (field_rows (gen_random_uuid n)) n1 (message_Fields m)) (fun n2 =>
      then_rows n2 (each (message_rows vid fileID p (Some (gen_random_uuid n))) n2 (message_Messages m)) (fun n3 =>
        each (enum_rows vid fileID p) n3 (message_Enums m)))).
Proof. by destruct m. Qed.

Lemma uses_message j p m : forall parent n,
  uses (own j n (n + ds_uuids (message_rows vid (gen_random_uuid j) p parent n m)))
    (message_rows vid (gen_random_uuid j) p parent n m).
Proof.
  induction m as [m IH] using message_ind'. intros parent n. rewrite message_rows_unfold. unfold then_rows.
  apply uses_app; [uses_row|]. apply uses_app; [|apply uses_app].
  - eapply uses_mono; [|apply (uses_each view _ n); intros; apply uses_field].
    intros i Hi. right. eapply own_self; [| | |exact Hi]; cbn; lia.
  - eapply uses_mono; [|apply (uses_each view _ j); intros x k Hx; apply (IH x Hx)].
    intros i. apply own_mono; cbn; lia.
  - eapply uses_mono; [|apply (uses_each view _ j); intros; apply uses_enum]. intros i. apply own_mono; cbn; lia.
Qed.

Lemma uses_file n f : uses (issued n (n + ds_uuids (file_rows vid n f))) (file_rows vid n f).
Proof.
  unfold file_rows, then_rows. cbv zeta. apply uses_app; [by intros i _|].
  repeat (apply uses_app; [eapply uses_mono; [|apply (uses_each view _ n); intros;
    first [apply uses_import|apply uses_service|apply uses_message]]; intros i Hi; eapply own_self; [| | |exact Hi]; cbn; lia|]).
  eapply uses_mono; [|apply (uses_each view _ n); intros; apply uses_enum]. intros i Hi. eapply own_self; [| | |exact Hi]; cbn; lia.
Qed.
End Uses.

(** ** What is read of a message, an enumeration and a service *)

Section Read.
Context `{PG : !Postgres}.
Context (vid : ModuleVersionID) (D : Descriptors).

Definition read_fields (i : string) : list ProtoField :=
  ordered_fields (map fieldRow_Field (List.filter (fun f => eqs (fieldRow_MessageID f) i) (ds_fields D))).
Definition read_message (row : ProtoMessageRow) : protoMessageRow :=
  mkProtoMessageRow_ (messageRow_ID row) (default "" (messageRow_ParentID row))
    (mkProtoMessage (messageRow_Name row) (messageRow_FullName row) (read_fields (messageRow_ID row)) [] []).
Definition read_enum (row : ProtoEnumRow) : ProtoEnum :=
  mkProtoEnum (enumRow_Name row) (enumRow_FullName row)
    (ordered_values (map enumValueRow_Value (List.filter (fun v => eqs (enumValueRow_EnumID v) (enumRow_ID row)) (ds_values D)))).
Definition read_service (row : ProtoServiceRow) : ProtoService :=
  mkProtoService (serviceRow_Name row) (serviceRow_FullName row)
    (sort_by (fun x y => pg_text_le (method_Name x) (method_Name y))
      (map methodRow_Method (List.filter (fun m => eqs (methodRow_ServiceID m) (serviceRow_ID row)) (ds_methods D)))).

(** The rows a list becomes, in each table. *)
Lemma each_rows {A R} (f : nat -> A -> Descriptors) (table : Descriptors -> list R) (row : A -> R) l : forall n,
  table no_rows = [] -> (forall a b, table (ds_app a b) = table a ++ table b)%list ->
  (forall n x, table (f n x) = [row x]) -> table (each f n l) = map row l.
Proof.
  induction l as [|x l IH]; intros n H0 Ha Hf; cbn [each map]; [done|]. by rewrite Ha, Hf, IH.
Qed.
Lemma each_no_rows {A R} (f : nat -> A -> Descriptors) (table : Descriptors -> list R) l : forall n,
  table no_rows = [] -> (forall a b, table (ds_app a b) = table a ++ table b)%list ->
  (forall n x, x ∈ l -> table (f n x) = []) -> table (each f n l) = [].
Proof.
  induction l as [|x l IH]; intros n H0 Ha Hf; cbn [each]; [done|]. rewrite Ha, Hf by left. apply IH; [done..|].
  intros k y Hy. apply Hf. by right.
Qed.

Lemma filter_owned {A R} (key : R -> string) (row : A -> R) i l :
  (forall x, key (row x) = i) -> List.filter (fun r => eqs (key r) i) (map row l) = map row l.
Proof.
  intros H. apply filter_all. intros r Hr. apply list_elem_of_In, in_map_iff in Hr as (x & <- & _). by rewrite H, eqs_refl.
Qed.

Lemma read_one_enum j p e n :
  j < n -> sees vid D n (n + ds_uuids (enum_rows vid (gen_random_uuid j) p n e)) (enum_rows vid (gen_random_uuid j) p n e) ->
  map read_enum (ds_enums (enum_rows vid (gen_random_uuid j) p n e)) = [ordered_enum e].
Proof.
  intros Hj Hs. specialize (Hs n ltac:(cbn; lia)). apply (f_equal ds_values) in Hs. unfold enum_rows in *. cbn in Hs |- *.
  rewrite (each_no_rows _ ds_enums) by done. cbn. unfold read_enum, ordered_enum. cbn. rewrite Hs.
  rewrite (each_rows _ ds_values (mkProtoEnumValueRow (gen_random_uuid n))) by done.
  by rewrite filter_owned, map_map, map_id.
Qed.

Lemma read_one_service j p s n :
  j < n -> sees vid D n (n + ds_uuids (service_rows vid (gen_random_uuid j) p n s)) (service_rows vid (gen_random_uuid j) p n s) ->
  map read_service (ds_services (service_rows vid (gen_random_uuid j) p n s)) = [ordered_service s].
Proof.
  intros Hj Hs. specialize (Hs n ltac:(cbn; lia)). apply (f_equal ds_methods) in Hs. unfold service_rows in *. cbn in Hs |- *.
  rewrite (each_no_rows _ ds_services) by done. cbn. unfold read_service, ordered_service. cbn. rewrite Hs.
  rewrite (each_rows _ ds_methods (mkProtoMethodRow (gen_random_uuid n))) by done.
  by rewrite filter_owned, map_map, map_id.
Qed.

(** The parts of the rows of a message: its own row belongs to the file or to
    its parent, its fields to itself, the rest to others. *)
Lemma sees_parts j n n2 n3 n4 row fields nested enums :
  j < n -> n < n2 -> n2 <= n3 -> n3 <= n4 ->
  (forall k, n <= k -> rows_at vid (gen_random_uuid k) row = no_rows) ->
  uses vid (own n (n + 1) n2) fields -> uses vid (own j n2 n3) nested -> uses vid (own j n3 n4) enums ->
  sees vid D n n4 (ds_app row (ds_app fields (ds_app nested enums))) ->
  rows_at vid (gen_random_uuid n) D = rows_at vid (gen_random_uuid n) fields
  /\ sees vid D n2 n3 nested /\ sees vid D n3 n4 enums.
Proof.
  intros Hj H2 H3 H4 Hrow Uf Un Ue Hs. split.
  - rewrite (Hs n ltac:(lia)), !rows_at_app, Hrow by lia.
    rewrite (Un (gen_random_uuid n)) by (apply issued_own; lia).
    rewrite (Ue (gen_random_uuid n)) by (apply issued_own; lia).
    by rewrite !ds_app_nil_r, ds_app_nil_l.
  - assert (Hs' : sees vid D n2 n4 (ds_app nested enums)).
    { intros k Hk. rewrite (Hs k) by lia. rewrite (rows_at_app _ _ row), Hrow by lia. rewrite ds_app_nil_l, rows_at_app.
      rewrite (Uf (gen_random_uuid k)); [apply ds_app_nil_l|].
      intros [Ek|(k' & Hk' & Ek)]; apply (inj gen_random_uuid) in Ek; lia. }
    apply (sees_app vid D j n2 n3) in Hs'; [done|lia|lia|done..].
Qed.

Lemma sees_message j p parent m n n2 n3 fields nested enums :
  fields = each (field_rows (gen_random_uuid n)) (n + 1) (message_Fields m) -> n2 = n + 1 + ds_uuids fields ->
  nested = each (message_rows vid (gen_random_uuid j) p (Some (gen_random_uuid n))) n2 (message_Messages m) ->
  n3 = n2 + ds_uuids nested -> enums = each (enum_rows vid (gen_random_uuid j) p) n3 (message_Enums m) ->
  message_rows vid (gen_random_uuid j) p parent n m
    = ds_app (message_row vid (gen_random_uuid j) p parent n m) (ds_app fields (ds_app nested enums))
  /\ (j < n -> sees vid D n (n + ds_uuids (message_rows vid (gen_random_uuid j) p parent n m))
                 (message_rows vid (gen_random_uuid j) p parent n m) ->
      read_fields (gen_random_uuid n) = ordered_fields (message_Fields m)
      /\ sees vid D n2 n3 nested /\ sees vid D n3 (n3 + ds_uuids enums) enums).
Proof.
  intros Ef E2 En E3 Ee.
  assert (E : message_rows vid (gen_random_uuid j) p parent n m
    = ds_app (message_row vid (gen_random_uuid j) p parent n m) (ds_app fields (ds_app nested enums))).
  { rewrite message_rows_unfold. unfold then_rows. cbn [ds_uuids message_row]. by rewrite <- Ef, <- E2, <- En, <- E3, <- Ee. }
  split; [exact E|]. intros Hj Hs. rewrite E in Hs. cbn [ds_uuids ds_app message_row] in Hs.
  replace (n + (1 + (ds_uuids fields + (ds_uuids nested + ds_uuids enums)))) with (n3 + ds_uuids enums) in Hs by lia.
  apply (sees_parts j n n2 n3) in Hs as (H & Hn & He); [|lia..| | | |].
  - split; [|done]. apply (f_equal ds_fields) in H. cbn in H. unfold read_fields. rewrite H, Ef.
    rewrite (each_rows _ ds_fields (mkProtoFieldRow (gen_random_uuid n))) by done.
    by rewrite filter_owned, map_map, map_id.
  - intros k Hk. unfold rows_at. cbn. rewrite (proj2 (eqs_false (gen_random_uuid j) (gen_random_uuid k))); [by rewrite andb_false_r|].
    intros Ek%(inj gen_random_uuid). lia.
  - rewrite E2, Ef. apply uses_each. intros. apply uses_field.
  - rewrite E3, En. apply uses_each. intros. apply uses_message.
  - rewrite Ee. apply uses_each. intros. apply uses_enum.
Qed.
End Read.

(** ** The messages of a file *)

Lemma flat_map_singleton {A B} (f : A -> B) l : flat_map (fun x => [f x]) l = map f l.
Proof. induction l as [|x l IH]; cbn; [done|]. by rewrite IH. Qed.

Section Messages.
Context `{PG : !Postgres}.
Context (vid : ModuleVersionID) (D : Descriptors).

(** The messages have identifiers of their own. *)
Definition ids_ok (lo hi : nat) (delta : Descriptors) : Prop :=
  Forall (fun r => issued lo hi (messageRow_ID r)) (ds_messages delta) /\ NoDup (map messageRow_ID (ds_messages delta)).

Lemma ids_app lo mid hi a b : lo <= mid <= hi -> ids_ok lo mid a -> ids_ok mid hi b -> ids_ok lo hi (ds_app a b).
Proof.
  intros Hm [Ha Na] [Hb Nb]. split; cbn.
  - apply Forall_app. split; eapply Forall_impl; try eassumption; cbn; intros r (k & ? & ->); (exists k; split; [lia|done]).
  - rewrite map_app. apply NoDup_app. split_and!; [done| |done]. intros i Hi Hi'.
    apply list_elem_of_In, in_map_iff in Hi as (r & <- & Hr%list_elem_of_In), Hi' as (r' & E & Hr'%list_elem_of_In).
    rewrite Forall_forall in Ha, Hb. destruct (Ha r Hr) as (k & ? & Ek), (Hb r' Hr') as (k' & ? & Ek').
    rewrite Ek, Ek' in E. apply (inj gen_random_uuid) in E. lia.
Qed.
Lemma ids_none lo hi delta : ds_messages delta = [] -> ids_ok lo hi delta.
Proof. unfold ids_ok. intros ->. split; constructor. Qed.
Lemma ids_each {A} (f : nat -> A -> Descriptors) l : forall n,
  (forall x n, x ∈ l -> ids_ok n (n + ds_uuids (f n x)) (f n x)) -> ids_ok n (n + ds_uuids (each f n l)) (each f n l).
Proof.
  induction l as [|x l IH]; intros n H; cbn [each]; [by apply ids_none|]. cbn [ds_app ds_uuids].
  apply (ids_app n (n + ds_uuids (f n x))); [lia|apply H; left|]. rewrite Nat.add_assoc. apply IH.
  intros y k Hy. apply H. by right.
Qed.

Lemma enums_hold_no_message fileID p l n : ds_messages (each (enum_rows vid fileID p) n l) = [].
Proof.
  apply each_no_rows; [done|done|]. intros k e _. unfold enum_rows. cbn. by apply each_no_rows.
Qed.
Lemma fields_hold_no_message i l n : ds_messages (each (field_rows i) n l) = [].
Proof. by apply each_no_rows. Qed.

Lemma ids_message fileID p m : forall parent n,
  ids_ok n (n + ds_uuids (message_rows vid fileID p parent n m)) (message_rows vid fileID p parent n m).
Proof.
  induction m as [m IH] using message_ind'. intros parent n. rewrite message_rows_unfold. unfold then_rows. cbn [ds_uuids message_row ds_app].
  apply (ids_app n (n + 1)); [lia| |].
  { split; cbn; [constructor; [exists n; split; [lia|done]|constructor]|apply NoDup_singleton]. }
  set (fields := each (field_rows _) _ _). apply (ids_app (n + 1) (n + 1 + ds_uuids fields)); [lia|apply ids_none, fields_hold_no_message|].
  set (nested := each (message_rows _ _ _ _) _ _).
  apply (ids_app _ (n + 1 + ds_uuids fields + ds_uuids nested)); [lia| |apply ids_none, enums_hold_no_message].
  apply ids_each. intros x k Hx. by apply IH.
Qed.

Lemma read_each_messages j p parent ms :
  (forall m n, m ∈ ms -> j < n ->
     sees vid D n (n + ds_uuids (message_rows vid (gen_random_uuid j) p parent n m)) (message_rows vid (gen_random_uuid j) p parent n m) ->
     rows_of flat_message (default "" parent) m (map (read_message D) (ds_messages (message_rows vid (gen_random_uuid j) p parent n m)))) ->
  forall n, j < n -> let delta := each (message_rows vid (gen_random_uuid j) p parent) n ms in
  sees vid D n (n + ds_uuids delta) delta -> rows_of_each flat_message (default "" parent) ms (map (read_message D) (ds_messages delta)).
Proof.
  induction ms as [|m ms IH]; intros Hm n Hj delta Hs; [constructor|]. subst delta. cbn [each] in *.
  cbn [ds_app ds_uuids ds_messages] in *. rewrite map_app. set (d := message_rows _ _ _ _ n m) in *.
  apply (sees_app vid D j n (n + ds_uuids d)) in Hs as [H1 H2]; [|done|lia|apply uses_message|].
  - constructor; [apply Hm; [left|done..]|]. apply IH; [intros; apply Hm; [by right|done..]|lia|]. by rewrite Nat.add_assoc in H2.
  - rewrite Nat.add_assoc. apply uses_each. intros. apply uses_message.
Qed.

Lemma read_one_message j p m : forall parent n,
  j < n ->
  sees vid D n (n + ds_uuids (message_rows vid (gen_random_uuid j) p parent n m)) (message_rows vid (gen_random_uuid j) p parent n m) ->
  rows_of flat_message (default "" parent) m (map (read_message D) (ds_messages (message_rows vid (gen_random_uuid j) p parent n m)))
  /\ map (read_enum D) (ds_enums (message_rows vid (gen_random_uuid j) p parent n m)) = map ordered_enum (enums_in m).
Proof.
  induction m as [m IH] using message_ind'. intros parent n Hj Hs.
  destruct (sees_message vid D j p parent m n _ _ _ _ _ eq_refl eq_refl eq_refl eq_refl eq_refl) as [E H].
  destruct (H Hj Hs) as (Hf & Hn & He). clear H Hs. rewrite E. cbn [ds_app ds_messages ds_enums message_row].
  rewrite fields_hold_no_message, enums_hold_no_message, app_nil_r. cbn [app map].
  rewrite (each_no_rows _ ds_enums) by done. cbn [app]. split.
  - unfold read_message at 1. cbn. rewrite Hf. constructor.
    apply (read_each_messages j p (Some (gen_random_uuid n))); [|lia|done].
    intros x k Hx Hk Hs. by apply IH.
  - rewrite map_app, enums_in_unfold, map_app. f_equal.
    + rewrite (each_read vid D _ (fun d => map (read_enum D) (ds_enums d)) (fun x => map ordered_enum (enums_in x)) j
                 (message_Messages m)); [by rewrite map_flat_map|done| | | |lia|exact Hn].
      * intros a b. cbn. apply map_app.
      * intros. apply uses_message.
      * intros x k Hx Hk Hs. by apply IH.
    + rewrite (each_read vid D _ (fun d => map (read_enum D) (ds_enums d)) (fun x => [ordered_enum x]) j
                 (message_Enums m)); [|done| | | |lia|exact He].
      * apply flat_map_singleton.
      * intros a b. cbn. apply map_app.
      * intros. apply uses_enum.
      * intros x k _ Hk Hs. by apply (read_one_enum vid D j).
Qed.
End Messages.

(** ** A file *)

Lemma rows_of_names flat :
  (forall m, message_FullName (flat m) = message_FullName m) ->
  (forall p m rows, rows_of flat p m rows -> map (fun r => message_FullName (pmr_message r)) rows = names_within m)
  /\ (forall p ms rows, rows_of_each flat p ms rows -> map (fun r => message_FullName (pmr_message r)) rows = names_of ms).
Proof.
  intros Hf. apply rows_of_both.
  - intros i p m rows _ IH. rewrite names_within_unfold. cbn [map pmr_message]. by rewrite Hf, IH.
  - done.
  - intros p m ms rows rows' _ IH _ IH'. rewrite map_app, IH, IH'. done.
Qed.

(** The tree is built from the rows in any order. *)
Lemma buildMessageTree_rows ms rows all :
  rows_of_each flat_message "" ms rows -> all ≡ₚ rows ->
  NoDup (map pmr_id rows) -> "" ∉ map pmr_id rows -> NoDup (names_of ms) ->
  buildMessageTree all = sort_by full_name_le (map (tree_of flat_message) ms).
Proof.
  intros Hr Hp Hid Hroot Hn.
  assert (Hc : forall i, children_of i all ≡ₚ children_of i rows).
  { intros i. unfold children_of. rewrite Hp. done. }
  assert (Hnames : NoDup (map (fun r => message_FullName (pmr_message r)) all)).
  { rewrite Hp. by rewrite (proj2 (rows_of_names flat_message (fun m => eq_refl)) _ _ _ Hr). }
  pose proof (rows_of_builds flat_message all Hnames "" ms rows Hr (fun i _ => Hc i) Hid Hroot) as Hb.
  pose proof (builds_children_perm all Hnames "" _ _ (Hc "") Hb) as Hb'.
  symmetry. eapply builds_det; [exact Hb'|]. apply buildMessageTree_builds; [by rewrite Hp..|lia].
Qed.

Section File.
Context `{PG : !Postgres} `{CO : !Collation}.
Context (vid : ModuleVersionID) (D : Descriptors).

Definition services_of (i : string) : list ProtoServiceRow :=
  List.filter (fun s => eqs (serviceRow_ModuleVersionID s) vid && eqs (serviceRow_FileID s) i) (ds_services D).
Definition messages_of (i : string) : list ProtoMessageRow :=
  List.filter (fun m => eqs (messageRow_ModuleVersionID m) vid && eqs (messageRow_FileID m) i) (ds_messages D).
Definition enums_of (i : string) : list ProtoEnumRow :=
  List.filter (fun e => eqs (enumRow_ModuleVersionID e) vid && eqs (enumRow_FileID e) i) (ds_enums D).

Definition sorted_message_rows (l : list ProtoMessageRow) : list ProtoMessageRow :=
  sort_by (fun x y => pg_text_le (messageRow_FullName x) (messageRow_FullName y)) l.

(** The file of a row, as [GetByModuleVersion] reads it. *)
Definition read_file (row : ProtoFileRow) : ProtoFile :=
  let i := fileRow_ID row in
  let messages := buildMessageTree (map (read_message D) (sorted_message_rows (messages_of i))) in
  let enums := map (read_enum D)
    (sort_by (fun x y => pg_text_le (enumRow_FullName x) (enumRow_FullName y)) (enums_of i)) in
  mkProtoFile (fileRow_Path row) (fileRow_PackageName row) (fileRow_Syntax row)
    (sort_by (fun x y => pg_text_le (import_Path x) (import_Path y))
      (map importRow_Import (List.filter (fun r => eqs (importRow_FileID r) i) (ds_imports D))))
    (map (read_service D)
      (sort_by (fun x y => pg_text_le (serviceRow_FullName x) (serviceRow_FullName y)) (services_of i)))
    (place_enums messages enums).1 (place_enums messages enums).2.

(** Rows of the version and the file [i]. *)
Definition belongs (i : string) (delta : Descriptors) : Prop :=
  Forall (fun s => serviceRow_ModuleVersionID s = vid /\ serviceRow_FileID s = i) (ds_services delta)
  /\ Forall (fun m => messageRow_ModuleVersionID m = vid /\ messageRow_FileID m = i) (ds_messages delta)
  /\ Forall (fun e => enumRow_ModuleVersionID e = vid /\ enumRow_FileID e = i) (ds_enums delta).

Lemma belongs_app i a b : belongs i a -> belongs i b -> belongs i (ds_app a b).
Proof. intros (? & ? & ?) (? & ? & ?). split_and!; by apply Forall_app. Qed.
Lemma belongs_each {A} i (f : nat -> A -> Descriptors) l : forall n,
  (forall x n, x ∈ l -> belongs i (f n x)) -> belongs i (each f n l).
Proof.
  induction l as [|x l IH]; intros n H; cbn [each]; [split_and!; constructor|].
  apply belongs_app; [apply H; left|]. apply IH. intros y k Hy. apply H. by right.
Qed.
Ltac belongs_row := split_and!; cbn; repeat constructor.
Lemma belongs_enum i p n e : belongs i (enum_rows vid i p n e).
Proof. apply belongs_app; [belongs_row|]. apply belongs_each. intros. belongs_row. Qed.
Lemma belongs_service i p n s : belongs i (service_rows vid i p n s).
Proof. apply belongs_app; [belongs_row|]. apply belongs_each. intros. belongs_row. Qed.
Lemma belongs_message i p m : forall parent n, belongs i (message_rows vid i p parent n m).
Proof.
  induction m as [m IH] using message_ind'. intros parent n. rewrite message_rows_unfold. unfold then_rows.
  apply belongs_app; [belongs_row|]. apply belongs_app; [apply belongs_each; intros; belongs_row|].
  apply belongs_app; apply belongs_each; [auto|intros; apply belongs_enum].
Qed.

Lemma filter_mine {R} (version file : R -> string) i l :
  Forall (fun r => version r = vid /\ file r = i) l -> List.filter (fun r => eqs (version r) vid && eqs (file r) i) l = l.
Proof. rewrite Forall_forall. intros H. apply filter_all. intros r Hr. destruct (H r Hr) as [-> ->]. by rewrite !eqs_refl. Qed.

(** Tables that a block does not touch. *)
Lemma no_message_rows {R} (table : Descriptors -> list R) i p :
  table no_rows = [] -> (forall a b, table (ds_app a b) = table a ++ table b)%list ->
  (forall parent n m, table (message_row vid i p parent n m) = []) ->
  (forall j n f, table (field_rows j n f) = []) -> (forall n e, table (enum_rows vid i p n e) = []) ->
  forall m parent n, table (message_rows vid i p parent n m) = [].
Proof.
  intros H0 Ha Hr Hf He m. induction m as [m IH] using message_ind'. intros parent n. rewrite message_rows_unfold.
  unfold then_rows. rewrite !Ha, Hr, !(each_no_rows _ table); auto.
Qed.

Ltac no_table := match goal with
  | |- ?table (each _ _ _) = [] => apply (each_no_rows _ table); [done|done|intros; no_table]
  | |- ?table (service_rows _ _ _ _ _) = [] => unfold service_rows; cbn; no_table
  | |- ?table (enum_rows _ _ _ _ _) = [] => unfold enum_rows; cbn; no_table
  | |- ?table (message_rows _ _ _ _ _ _) = [] => apply (no_message_rows table); [done|done|done|done|intros; no_table]
  | |- _ => done
  end.

(** The parts of the rows of a file. *)
Lemma file_rows_parts n f imports n2 services n3 messages n4 enums :
  imports = each (import_rows (gen_random_uuid n)) (n + 1) (file_Imports f) -> n2 = n + 1 + ds_uuids imports ->
  services = each (service_rows vid (gen_random_uuid n) (file_PackageName f)) n2 (file_Services f) -> n3 = n2 + ds_uuids services ->
  messages = each (message_rows vid (gen_random_uuid n) (file_PackageName f) None) n3 (file_Messages f) -> n4 = n3 + ds_uuids messages ->
  enums = each (enum_rows vid (gen_random_uuid n) (file_PackageName f)) n4 (file_Enums f) ->
  sees vid D n (n + ds_uuids (file_rows vid n f)) (file_rows vid n f) ->
  (List.filter (fun r => eqs (importRow_FileID r) (gen_random_uuid n)) (ds_imports D) = map (mkProtoImportRow (gen_random_uuid n)) (file_Imports f)
   /\ services_of (gen_random_uuid n) = ds_services services /\ messages_of (gen_random_uuid n) = ds_messages messages
   /\ enums_of (gen_random_uuid n) = (ds_enums messages ++ ds_enums enums)%list)
  /\ sees vid D n2 n3 services /\ sees vid D n3 n4 messages /\ sees vid D n4 (n4 + ds_uuids enums) enums.
Proof.
  intros Ei E2 Es E3 Em E4 Ee Hs.
  set (row := mkDescriptors [mkProtoFileRow (gen_random_uuid n) vid (file_Path f) (file_PackageName f) (file_Syntax f)] [] [] [] [] [] [] [] 1).
  assert (E : file_rows vid n f = ds_app row (ds_app imports (ds_app services (ds_app messages enums)))).
  { subst. reflexivity. }
  assert (Hn : n + ds_uuids (file_rows vid n f) = n4 + ds_uuids enums) by (rewrite E; cbn; lia).
  rewrite Hn, E in Hs. clear Hn E.
  assert (Hs' : sees vid D n (n4 + ds_uuids enums) (ds_app imports (ds_app services (ds_app messages enums)))).
  { intros k Hk. rewrite (Hs k Hk), rows_at_app. apply ds_app_nil_l. }
  clear Hs row. split.
  - pose proof (Hs' n ltac:(lia)) as H. clear Hs'.
    assert (Bs : belongs (gen_random_uuid n) services) by (rewrite Es; apply belongs_each; intros; apply belongs_service).
    assert (Bm : belongs (gen_random_uuid n) messages) by (rewrite Em; apply belongs_each; intros; apply belongs_message).
    assert (Be : belongs (gen_random_uuid n) enums) by (rewrite Ee; apply belongs_each; intros; apply belongs_enum).
    assert (Bi : belongs (gen_random_uuid n) imports) by (rewrite Ei; apply belongs_each; intros; belongs_row).
    pose proof (belongs_app (gen_random_uuid n) _ _ Bi (belongs_app (gen_random_uuid n) _ _ Bs (belongs_app (gen_random_uuid n) _ _ Bm Be))) as (B1 & B2 & B3).
    split_and!.
    + apply (f_equal ds_imports) in H. cbn [rows_at ds_imports] in H. rewrite H. cbn [ds_app ds_imports].
      rewrite Ei, (each_rows _ ds_imports (mkProtoImportRow (gen_random_uuid n))), List.filter_app, filter_owned by done.
      replace (ds_imports services) with (@nil ProtoImportRow) by (rewrite Es; symmetry; no_table).
      replace (ds_imports messages) with (@nil ProtoImportRow) by (rewrite Em; symmetry; no_table).
      replace (ds_imports enums) with (@nil ProtoImportRow) by (rewrite Ee; symmetry; no_table). apply app_nil_r.
    + apply (f_equal ds_services) in H. cbn [rows_at ds_services] in H. unfold services_of. rewrite H, filter_mine by exact B1.
      cbn [ds_app ds_services].
      replace (ds_services imports) with (@nil ProtoServiceRow) by (rewrite Ei; symmetry; no_table).
      replace (ds_services messages) with (@nil ProtoServiceRow) by (rewrite Em; symmetry; no_table).
      replace (ds_services enums) with (@nil ProtoServiceRow) by (rewrite Ee; symmetry; no_table). apply app_nil_r.
    + apply (f_equal ds_messages) in H. cbn [rows_at ds_messages] in H. unfold messages_of. rewrite H, filter_mine by exact B2.
      cbn [ds_app ds_messages].
      replace (ds_messages imports) with (@nil ProtoMessageRow) by (rewrite Ei; symmetry; no_table).
      replace (ds_messages services) with (@nil ProtoMessageRow) by (rewrite Es; symmetry; no_table).
      replace (ds_messages enums) with (@nil ProtoMessageRow) by (rewrite Ee; symmetry; no_table). apply app_nil_r.
    + apply (f_equal ds_enums) in H. cbn [rows_at ds_enums] in H. unfold enums_of. rewrite H, filter_mine by exact B3.
      cbn [ds_app ds_enums].
      replace (ds_enums imports) with (@nil ProtoEnumRow) by (rewrite Ei; symmetry; no_table).
      replace (ds_enums services) with (@nil ProtoEnumRow) by (rewrite Es; symmetry; no_table). done.
  - assert (H2 : sees vid D n2 (n4 + ds_uuids enums) (ds_app services (ds_app messages enums))).
    { intros k Hk. rewrite (Hs' k) by lia. rewrite rows_at_app, Ei.
      rewrite (uses_each vid (import_rows (gen_random_uuid n)) n); [apply ds_app_nil_l|intros; apply uses_import|].
      intros [Ek|(k' & Hk' & Ek)]; apply (inj gen_random_uuid) in Ek; subst; lia. }
    apply (sees_app vid D n n2 n3) in H2 as [H2 H3]; [|lia|lia|rewrite E3, Es; apply uses_each; intros; apply uses_service|].
    2: { apply uses_app.
         - eapply uses_mono; [|rewrite Em; apply (uses_each vid _ n); intros; apply uses_message]. intros x. apply own_mono; subst; lia.
         - eapply uses_mono; [|rewrite Ee; apply (uses_each vid _ n); intros; apply uses_enum]. intros x. apply own_mono; subst; lia. }
    apply (sees_app vid D n n3 n4) in H3 as [H3 H4]; [done|lia|lia|rewrite E4, Em; apply uses_each; intros; apply uses_message|].
    rewrite Ee. apply uses_each. intros. apply uses_enum.
Qed.

Lemma gen_random_uuid_nonempty n : gen_random_uuid n <> "".
Proof. intros E. pose proof (gen_random_uuid_canon n) as H. by rewrite E, uuid_canon_empty in H. Qed.

Lemma read_one_file n f :
  file_named f = true -> NoDup (map messageRow_FullName (messages_of (gen_random_uuid n))) ->
  sees vid D n (n + ds_uuids (file_rows vid n f)) (file_rows vid n f) ->
  read_file (mkProtoFileRow (gen_random_uuid n) vid (file_Path f) (file_PackageName f) (file_Syntax f)) = ordered_file f.
Proof.
  intros Hf Hnames Hs.
  destruct (file_rows_parts n f _ _ _ _ _ _ _ eq_refl eq_refl eq_refl eq_refl eq_refl eq_refl eq_refl Hs)
    as ((Hi & Hsv & Hm & He) & S1 & S2 & S3).
  set (n2 := n + 1 + ds_uuids (each (import_rows _) _ _)) in *. set (services := each (service_rows _ _ _) _ _) in *.
  set (n3 := n2 + ds_uuids services) in *. set (messages := each (message_rows _ _ _ _) _ _) in *.
  set (n4 := n3 + ds_uuids messages) in *. set (enums := each (enum_rows _ _ _) _ _) in *.
  assert (Rs : map (read_service D) (ds_services services) = map ordered_service (file_Services f)).
  { rewrite <- (flat_map_singleton ordered_service). apply (each_read vid D _ (fun d => map (read_service D) (ds_services d)) _ n);
      [done|intros; apply map_app|intros; apply uses_service|intros x k _; apply read_one_service|unfold n2; lia|exact S1]. }
  assert (Rm : rows_of_each flat_message "" (file_Messages f) (map (read_message D) (ds_messages messages))).
  { apply (read_each_messages vid D n (file_PackageName f) None); [|unfold n3, n2; lia|exact S2].
    intros m k _ Hk H. by apply (read_one_message vid D n (file_PackageName f) m None k Hk H). }
  assert (Re : map (read_enum D) (ds_enums messages ++ ds_enums enums)
               = map ordered_enum (flat_map enums_in (file_Messages f) ++ file_Enums f)).
  { rewrite !map_app. f_equal.
    - rewrite map_flat_map. apply (each_read vid D _ (fun d => map (read_enum D) (ds_enums d)) _ n);
        [done|intros; apply map_app|intros; apply uses_message| |unfold n3, n2; lia|exact S2].
      intros x k _ Hk H. by apply (read_one_message vid D n (file_PackageName f) x None k Hk H).
    - rewrite <- (flat_map_singleton ordered_enum). apply (each_read vid D _ (fun d => map (read_enum D) (ds_enums d)) _ n);
        [done|intros; apply map_app|intros; apply uses_enum|intros x k _; apply read_one_enum|unfold n4, n3, n2; lia|exact S3]. }
  rewrite Hm in Hnames.
  assert (Hid : ids_ok n3 n4 messages) by (unfold n4; apply ids_each; intros; apply ids_message).
  assert (Ht : buildMessageTree (map (read_message D) (sorted_message_rows (ds_messages messages)))
               = sort_by full_name_le (map (tree_of flat_message) (file_Messages f))).
  { eapply buildMessageTree_rows; [exact Rm|by unfold sorted_message_rows; rewrite sort_by_perm| | |].
    - rewrite map_map. cbn [pmr_id read_message]. apply Hid.
    - rewrite map_map. cbn [pmr_id read_message]. destruct Hid as [Hid _]. rewrite Forall_forall in Hid.
      intros (r & E & Hr%list_elem_of_In)%list_elem_of_In%in_map_iff. destruct (Hid r Hr) as (k & _ & Ek).
      rewrite Ek in E. by apply gen_random_uuid_nonempty in E.
    - by rewrite <- (proj2 (rows_of_names flat_message (fun m => eq_refl)) _ _ _ Rm), map_map. }
  pose proof (file_read_back f Hf) as Hp.
  rewrite <- (proj2 (rows_of_names flat_message (fun m => eq_refl)) _ _ _ Rm), map_map in Hp. specialize (Hp Hnames).
  unfold read_file. cbn [fileRow_ID fileRow_Path fileRow_PackageName fileRow_Syntax].
  rewrite Hi, Hsv, Hm, He, Ht, map_map, map_id.
  rewrite <- (sort_by_map _ enum_le), Re by done. fold (ordered_enums (flat_map enums_in (file_Messages f) ++ file_Enums f)).
  rewrite Hp. unfold ordered_file. cbn [fst snd file_Messages file_Enums]. f_equal.
  rewrite <- (sort_by_map _ (fun x y => pg_text_le (protoService_FullName x) (protoService_FullName y))) by done. by rewrite Rs.
Qed.
End File.

(** ** The whole descriptor *)

(** The rows of the tables belong to rows issued before, and a message has its
    own name in its version. *)
Definition descriptors_ok `{PG : !Postgres} (ds : Descriptors) : Prop :=
  (forall v, uses v (issued 0 (ds_uuids ds)) ds) /\ names_unique ds.

Section Whole.
Context `{PG : !Postgres} `{CO : !Collation}.

Lemma filter_filter_nil {A} (p q : A -> bool) l : List.filter p l = [] -> List.filter p (List.filter q l) = [].
Proof.
  intros H. apply filter_none. intros x [Hx _]%elem_of_filter_bool. destruct (p x) eqn:E; [|done].
  assert (Hin : x ∈ List.filter p l) by (by apply elem_of_filter_bool). by rewrite H in Hin; apply elem_of_nil in Hin.
Qed.

Lemma uses_delete v P vid ds : uses v P ds -> uses v P (delete_version vid ds).
Proof.
  intros H i Hi. specialize (H i Hi). unfold rows_at, no_rows in *. cbn. injection H as H1 H2 H3 H4 H5 H6 H7.
  by rewrite !filter_filter_nil.
Qed.

Lemma uses_files v vid l : forall n,
  uses v (issued n (n + ds_uuids (each (file_rows vid) n l))) (each (file_rows vid) n l).
Proof.
  induction l as [|f l IH]; intros n; cbn [each]; [by intros i _|]. apply uses_app.
  - eapply uses_mono; [|apply uses_file]. intros i (k & ? & ->). exists k. split; [cbn [ds_app ds_uuids delete_version] in *; lia|done].
  - eapply uses_mono; [|apply IH]. intros i (k & ? & ->). exists k. split; [cbn [ds_app ds_uuids delete_version] in *; lia|done].
Qed.

(** The invariant of the tables after [Save]. *)
Lemma saved_issued vid md ds :
  (forall v, uses v (issued 0 (ds_uuids ds)) ds) ->
  forall v, uses v (issued 0 (ds_uuids (saved vid md ds))) (saved vid md ds).
Proof.
  intros H v. unfold saved. cbv zeta. apply uses_app.
  - eapply uses_mono; [|apply uses_delete, H]. intros i (k & ? & ->). exists k. split; [cbn [ds_app ds_uuids delete_version] in *; lia|done].
  - eapply uses_mono; [|apply uses_files]. intros i (k & ? & ->). exists k. split; [cbn [ds_app ds_uuids delete_version] in *; lia|done].
Qed.

Lemma saved_sees vid md ds (n := ds_uuids (delete_version vid ds)) (rows := each (file_rows vid) n (metadata_Files md)) :
  (forall v, uses v (issued 0 (ds_uuids ds)) ds) -> sees vid (saved vid md ds) n (n + ds_uuids rows) rows.
Proof.
  intros H k Hk. unfold saved. fold n rows. rewrite rows_at_app.
  rewrite (uses_delete vid _ vid ds (H vid)); [apply ds_app_nil_l|].
  intros (k' & Hk' & E%(inj gen_random_uuid)). unfold n in Hk. cbn in Hk. lia.
Qed.

Lemma NoDup_version_names vid (l : list ProtoMessageRow) :
  (forall r, r ∈ l -> messageRow_ModuleVersionID r = vid) ->
  NoDup (map (fun r => (messageRow_ModuleVersionID r, messageRow_FullName r)) l) -> NoDup (map messageRow_FullName l).
Proof.
  intros Hv Hd. replace (map _ l) with (map (pair vid) (map messageRow_FullName l)) in Hd.
  - by apply (NoDup_fmap_1 (pair vid)) in Hd.
  - rewrite map_map. apply map_ext_in. intros r Hr%list_elem_of_In. by rewrite Hv.
Qed.

Lemma messages_of_names vid D i : names_unique D -> NoDup (map messageRow_FullName (messages_of vid D i)).
Proof.
  intros H. apply (NoDup_version_names vid).
  - intros r [_ [Hr%eqs_true _]%andb_true_iff]%elem_of_filter_bool. done.
  - by apply NoDup_map_filter.
Qed.

Lemma read_files vid D l : forall n,
  forallb file_named l = true -> names_unique D ->
  sees vid D n (n + ds_uuids (each (file_rows vid) n l)) (each (file_rows vid) n l) ->
  map (read_file vid D) (ds_files (each (file_rows vid) n l)) = map ordered_file l
  /\ Forall (fun r => fileRow_ModuleVersionID r = vid) (ds_files (each (file_rows vid) n l)).
Proof.
  induction l as [|f l IH]; intros n Hf Hd Hs; [by split|]. cbn [forallb] in Hf. apply andb_true_iff in Hf as [Hf Hl].
  cbn [each ds_app ds_files] in *. rewrite map_app. set (d := file_rows vid n f) in *. cbn [ds_app ds_uuids] in Hs.
  assert (Hfile : ds_files d = [mkProtoFileRow (gen_random_uuid n) vid (file_Path f) (file_PackageName f) (file_Syntax f)]).
  { unfold d, file_rows, then_rows. cbn [ds_app ds_files].
    assert (Hm : forall p m parent k, ds_files (message_rows vid (gen_random_uuid n) p parent k m) = []).
    { intros p m. apply (no_message_rows vid ds_files); [done|done|done|done|]. intros. unfold enum_rows. cbn. by apply (each_no_rows _ ds_files). }
    rewrite !(each_no_rows _ ds_files); auto; intros; unfold enum_rows, service_rows; cbn; by apply (each_no_rows _ ds_files). }
  assert (H1 : sees vid D n (n + ds_uuids d) d).
  { intros k Hk. rewrite Hs, rows_at_app by lia. rewrite (uses_files vid vid l); [apply ds_app_nil_r|].
    intros (k' & ? & E%(inj gen_random_uuid)). lia. }
  assert (H2 : sees vid D (n + ds_uuids d) (n + ds_uuids d + ds_uuids (each (file_rows vid) (n + ds_uuids d) l))
                 (each (file_rows vid) (n + ds_uuids d) l)).
  { pose proof (uses_file vid vid n f) as Uf. fold d in Uf. intros k Hk. rewrite Hs, rows_at_app by lia. rewrite Uf; [apply ds_app_nil_l|].
    intros (k' & ? & E%(inj gen_random_uuid)). lia. }
  apply IH in H2 as [IH1 IH2]; [|done..]. rewrite IH1, Hfile. split; [|by constructor].
  cbn [map app]. f_equal. by apply read_one_file; [|apply messages_of_names|].
Qed.

(** The files of the version, read from the saved tables. *)
Lemma read_saved vid md ds :
  descriptors_ok ds -> names_unique (saved vid md ds) -> forallb file_named (metadata_Files md) = true ->
  let D := saved vid md ds in
  map (read_file vid D)
    (sort_by (fun x y => pg_text_le (fileRow_Path x) (fileRow_Path y))
       (List.filter (fun f => eqs (fileRow_ModuleVersionID f) vid) (ds_files D)))
  = metadata_Files (ordered_metadata md).
Proof.
  intros [Hu _] Hd Hf D. destruct (read_files vid D (metadata_Files md) (ds_uuids (delete_version vid ds)) Hf Hd (saved_sees vid md ds Hu)) as [Hr Hv].
  replace (List.filter _ (ds_files D)) with (ds_files (each (file_rows vid) (ds_uuids (delete_version vid ds)) (metadata_Files md))).
  - rewrite <- (sort_by_map _ (fun x y => pg_text_le (file_Path x) (file_Path y))); [by rewrite Hr|].
    intros x y. unfold read_file. done.
  - unfold D, saved. cbn [ds_app ds_files]. rewrite List.filter_app. cbn [delete_version ds_files]. rewrite filter_negb_none.
    symmetry. apply filter_all. intros r Hr'. rewrite Forall_forall in Hv. rewrite Hv by done. apply eqs_refl.
Qed.
End Whole.

(** ** Reading

    [reads_as m f]: [m] changes nothing and returns [f] of the tables, unless it
    loses its connection, or runs in a transaction whose connection is busy. *)

Definition lost `{ENV : !Env} {A} (r : result A) : Prop :=
  exists k e, env_fault k = Some e /\ r = Err (mapError e).

Definition busy {A} (w : World) (r : result A) : Prop := w_tx w = true /\ r = Err conn_busy.

Definition reads_as `{ENV : !Env} {A} (m : M World A) (f : Database -> A) : Prop :=
  forall w r w', m w = (r, w') -> same_db w w' /\ (r = Ok (f (w_db w)) \/ lost r \/ busy w r).

Section Reading.
Context `{PG : !Postgres} `{ENV : !Env}.

Lemma reads_as_query {A} (m : M Database A) f :
  (forall d, m d = (Ok (f d), d)) -> reads_as (map_err mapError (exec (T := Database) m)) f.
Proof.
  intros Hm w r w'. unfold map_err. change (exec m w) with (exec_db m w). unfold exec_db. rewrite Hm.
  destruct (env_fault (w_tick w)) as [e|] eqn:Ef; intros [= <- <-].
  - split; [|right; left; by exists (w_tick w), e]. by destruct (env_applied _).
  - split; [done|by left].
Qed.

Lemma reads_as_ret {A} (a : A) : reads_as (ret a) (fun _ => a).
Proof. intros w r w' [= <- <-]. split; [done|by left]. Qed.

Lemma reads_as_bind {A B} (m : M World A) (k : A -> M World B) f g :
  reads_as m f -> (forall a, reads_as (k a) (g a)) -> reads_as (bind m k) (fun d => g (f d) d).
Proof.
  intros Hm Hk w r w' H. apply bind_run in H as (r1 & w1 & H1 & H). destruct (Hm _ _ _ H1) as [Hs1 [->|[Hl|[Hb ->]]]].
  - destruct (Hk _ _ _ _ H) as [Hs2 Hr]. split; [by etrans|]. unfold busy in Hr. by rewrite (proj1 Hs1), (proj2 Hs1) in Hr.
  - destruct Hl as (k' & e & He & ->). destruct H as [-> ->]. split; [done|]. right; left. by exists k', e.
  - destruct H as [-> ->]. split; [done|]. by right; right.
Qed.

Lemma reads_as_rows_open {A} (m : M World A) f : reads_as m f -> reads_as (while_rows_open m) f.
Proof.
  intros Hm w r w' H. unfold while_rows_open in H. destruct (w_tx w) eqn:E; [|by apply Hm].
  injection H as <- <-. split; [done|]. by right; right.
Qed.

Lemma reads_as_mapM {A B} (g : A -> M World B) (h : Database -> A -> B) l :
  (forall x, reads_as (g x) (fun d => h d x)) -> reads_as (mapM g l) (fun d => map (h d) l).
Proof.
  intros Hg. induction l as [|x l IH]; cbn [mapM map]; [apply reads_as_ret|].
  apply (reads_as_bind _ _ (fun d => h d x) (fun y d => y :: map (h d) l)); [apply Hg|].
  intros y. apply (reads_as_bind _ _ (fun d => map (h d) l) (fun ys _ => y :: ys)); [exact IH|].
  intros ys. apply reads_as_ret.
Qed.

Lemma reads_as_ext {A} (m : M World A) f g : (forall d, f d = g d) -> reads_as m f -> reads_as m g.
Proof. intros E H w r w' Hr. rewrite <- E. by apply H. Qed.

Lemma reads_as_step {A B} (m : M World A) (k : A -> M World B) f g h :
  reads_as m f -> (forall a, reads_as (k a) (g a)) -> (forall d, g (f d) d = h d) -> reads_as (bind m k) h.
Proof. intros Hm Hk E. eapply reads_as_ext; [exact E|]. by apply (reads_as_bind m k f g). Qed.

Context (id vid : ModuleVersionID) (Hvid : uuid_canon id = Some vid).

Ltac query := apply reads_as_query; intros ?; unfold bind, uuid_param; rewrite ?Hvid; done.

Lemma reads_imports i : reads_as (loadProtoImports i) (fun d =>
  sort_by (fun x y => pg_text_le (import_Path x) (import_Path y))
    (map importRow_Import (List.filter (fun r => eqs (importRow_FileID r) i) (ds_imports (descriptors d))))).
Proof. query. Qed.

Lemma reads_services i : reads_as (loadProtoServices id i) (fun d =>
  map (read_service (descriptors d))
    (sort_by (fun x y => pg_text_le (serviceRow_FullName x) (serviceRow_FullName y)) (services_of vid (descriptors d) i))).
Proof.
  unfold loadProtoServices.
  apply (reads_as_bind _ _ (fun d => sort_by _ (services_of vid (descriptors d) i)) (fun rows d => map (read_service (descriptors d)) rows)); [query|].
  intros rows. apply (reads_as_mapM _ (fun d => read_service (descriptors d))). intros row.
  apply (reads_as_bind _ _ (fun d => protoService_Methods (read_service (descriptors d) row)) (fun methods _ => mkProtoService _ _ methods)); [query|].
  intros methods. apply reads_as_ret.
Qed.

Lemma reads_messages i : reads_as (loadProtoMessages id i) (fun d =>
  buildMessageTree (map (read_message (descriptors d)) (sorted_message_rows (messages_of vid (descriptors d) i)))).
Proof.
  unfold loadProtoMessages.
  apply (reads_as_bind _ _ (fun d => sorted_message_rows (messages_of vid (descriptors d) i))
           (fun rows d => buildMessageTree (map (read_message (descriptors d)) rows))); [query|].
  intros rows. apply (reads_as_bind _ _ (fun d => map (read_message (descriptors d)) rows) (fun rs _ => buildMessageTree rs)).
  - apply (reads_as_mapM _ (fun d => read_message (descriptors d))). intros row.
    apply (reads_as_bind _ _ (fun d => read_fields (descriptors d) (messageRow_ID row))
             (fun fields _ => mkProtoMessageRow_ _ _ (mkProtoMessage _ _ fields [] []))); [apply reads_as_rows_open; query|].
    intros fields. apply reads_as_ret.
  - intros rs. apply reads_as_ret.
Qed.

Lemma reads_enums i ms : reads_as (loadProtoEnums id i ms) (fun d =>
  place_enums ms (map (read_enum (descriptors d))
    (sort_by (fun x y => pg_text_le (enumRow_FullName x) (enumRow_FullName y)) (enums_of vid (descriptors d) i)))).
Proof.
  unfold loadProtoEnums.
  apply (reads_as_bind _ _ (fun d => sort_by _ (enums_of vid (descriptors d) i))
           (fun rows d => place_enums ms (map (read_enum (descriptors d)) rows))); [query|].
  intros rows. apply (reads_as_bind _ _ (fun d => map (read_enum (descriptors d)) rows) (fun es _ => place_enums ms es)).
  - apply (reads_as_mapM _ (fun d => read_enum (descriptors d))). intros row.
    apply (reads_as_bind _ _ (fun d => enum_Values (read_enum (descriptors d) row)) (fun values _ => mkProtoEnum _ _ values)); [apply reads_as_rows_open; query|].
    intros values. apply reads_as_ret.
  - intros es. apply reads_as_ret.
Qed.

Lemma reads_file row : reads_as (loadFile id row) (fun d => read_file vid (descriptors d) row).
Proof.
  unfold loadFile.
  eapply reads_as_step; [apply reads_imports|intros imports|].
  - eapply reads_as_step; [apply reads_services|intros services|].
    + eapply reads_as_step; [apply reads_messages|intros ms|].
      * apply (reads_as_step _ _ _ (fun es _ => mkProtoFile (fileRow_Path row) (fileRow_PackageName row) (fileRow_Syntax row)
                 imports services es.1 es.2) _ (reads_enums (fileRow_ID row) ms)); [intros [ms' es]; apply reads_as_ret|].
        intros d. reflexivity.
      * intros d. reflexivity.
    + intros d. reflexivity.
  - intros d. reflexivity.
Qed.
End Reading.

(** ** The round trip *)

Section RoundTrip.
Context `{PG : !Postgres} `{CO : !Collation} `{ENV : !Env}.

(** C26: a descriptor that was saved is read back: after a successful [Save] of a
    descriptor whose names are those of its packages and messages,
    [GetByModuleVersion] (of the same version, in any spelling of its identifier)
    returns the descriptor with its lists in order, [ErrNotFound] when it has no
    file, or the error of a lost connection; inside a transaction, where the program
    never calls it, it may also find the connection busy with its own rows. What was
    saved before for the version is gone, and the tables satisfy their invariant
    again. *)
Theorem Metadata_roundtrip (id id' : ModuleVersionID) (vid : string) (metadata : DescriptorMetadata)
    (w w1 w2 : World) (r : result DescriptorMetadata)
    (Hid : uuid_canon id = Some vid) (Hid' : uuid_canon id' = Some vid)
    (Hok : descriptors_ok (descriptors (w_db w)))
    (Hnamed : forallb file_named (metadata_Files metadata) = true)
    (Hsave : Metadata_Save id metadata w = (Ok tt, w1))
    (Hget : Metadata_GetByModuleVersion id' w1 = (r, w2)) :
  same_db w1 w2 /\ descriptors_ok (descriptors (w_db w1))
  /\ (r = (if length (metadata_Files metadata) =? 0 then Err (domain.ErrNotFound : error) else Ok (ordered_metadata metadata))
      \/ lost r \/ busy w1 r).
Proof.
  destruct (Metadata_Save_writes _ _ _ _ _ _ Hid Hsave) as (_ & Hdb & Hu). specialize (Hu (proj2 Hok)).
  assert (HD : descriptors (w_db w1) = saved vid metadata (descriptors (w_db w))) by (by rewrite Hdb).
  rewrite HD in *. pose proof (read_saved vid metadata _ Hok Hu Hnamed) as Hread. cbv zeta in Hread.
  set (files := sort_by _ _) in Hread.
  unfold Metadata_GetByModuleVersion in Hget. apply bind_run in Hget as (r1 & w3 & H1 & H).
  unfold loadProtoFiles in H1. apply bind_run in H1 as (r0 & w0 & H0 & H1).
  assert (Hq : reads_as (map_err mapError (exec (T := Database) (
      let! id := uuid_param id' in
      gets (fun d => sort_by (fun x y => pg_text_le (fileRow_Path x) (fileRow_Path y))
        (List.filter (fun f => eqs (fileRow_ModuleVersionID f) id) (ds_files (descriptors d)))))))
      (fun d => sort_by (fun x y => pg_text_le (fileRow_Path x) (fileRow_Path y))
        (List.filter (fun f => eqs (fileRow_ModuleVersionID f) vid) (ds_files (descriptors d))))).
  { apply reads_as_query. intros d. unfold bind, uuid_param. by rewrite Hid'. }
  destruct (Hq _ _ _ H0) as [Hs Hr0]. rewrite HD in Hr0. fold files in Hr0.
  assert (Hlen : length files = length (metadata_Files metadata)).
  { rewrite <- (length_map (read_file vid (saved vid metadata (descriptors (w_db w)))) files), Hread.
    cbn. by rewrite sort_by_perm, length_map. }
  assert (Hok1 : descriptors_ok (saved vid metadata (descriptors (w_db w)))) by (split; [apply saved_issued, Hok|done]).
  destruct Hr0 as [->|[(k & e & He & ->)|[Hb ->]]].
  - rewrite Hlen in H1. destruct (length (metadata_Files metadata) =? 0).
    + injection H1 as <- <-. destruct H as [-> ->]. split_and!; [done|done|by left].
    + injection H1 as <- <-. apply bind_run in H as (r3 & w4 & H3 & H).
      destruct (reads_as_mapM (loadFile id') (fun d => read_file vid (descriptors d)) files (reads_file id' vid Hid') _ _ _ H3)
        as [Hs3 Hr3]. rewrite (proj1 Hs), HD, Hread in Hr3. destruct Hr3 as [->|[(k & e & He & ->)|[Hb ->]]].
      * injection H as <- <-. split_and!; [by etrans|done|left; by destruct metadata].
      * destruct H as [-> ->]. split_and!; [by etrans|done|]. right; left. by exists k, e.
      * destruct H as [-> ->]. split_and!; [by etrans|done|]. right; right. split; [|done]. by rewrite <- (proj2 Hs).
  - destruct H1 as [-> ->]. destruct H as [-> ->]. split_and!; [done|done|]. right; left. by exists k, e.
  - destruct H1 as [-> ->]. destruct H as [-> ->]. split_and!; [done|done|]. by right; right.
Qed.
End RoundTrip.

(** ** Aliases of an enumeration *)

Section Aliases.
Context `{PG : !Postgres} `{ENV : !Env}.

Lemma forM_elem {A} (body : A -> M World unit) x l : forall w u w',
  x ∈ l -> forM l body w = (Ok u, w') -> exists w1 w2, body x w1 = (Ok tt, w2).
Proof.
  induction l as [|y l IH]; intros w u w' Hx H; [set_solver|]. apply bind_Ok in H as ([] & w1 & H1 & H).
  apply elem_of_cons in Hx as [->|Hx]; eauto.
Qed.

(** A value inserted once keeps its number from the others. *)
Lemma values_after enumID number l : forall w u w',
  (exists row, row ∈ ds_values (descriptors (w_db w)) /\ enumValueRow_EnumID row = enumID
               /\ enumValue_Number (enumValueRow_Value row) = number) ->
  forM l (createProtoEnumValue enumID) w = (Ok u, w') -> number ∉ map enumValue_Number l.
Proof.
  induction l as [|v l IH]; intros w u w' (row & Hrow & Ei & En) H; [set_solver|].
  apply bind_Ok in H as (u1 & w1 & H1 & H). cbn [map].
  destruct (writes_value enumID _ v w u1 w1 eq_refl H1) as (_ & _ & Hdb & _).
  unfold createProtoEnumValue in H1. apply bind_Ok in H1 as (i & w2 & H1 & _). apply map_err_Ok, exec_db_Ok in H1 as [H1 _].
  apply bind_Ok in H1 as (t1 & d1 & [_ ->]%guardM_Ok & H1). apply bind_Ok in H1 as (d & d2 & [-> ->]%gets_Ok & H1).
  apply bind_Ok in H1 as (t2 & d3 & [_ Hc]%append_checks_Ok & _). cbn [app] in Hc. rewrite Forall_singleton in Hc. cbn [fst] in Hc.
  apply not_elem_of_cons. split.
  - intros E. rewrite existsb_false in Hc. specialize (Hc row Hrow). by rewrite Ei, En, E, eqs_refl, Z.eqb_refl in Hc.
  - eapply IH; [|exact H]. exists row. split; [|done]. rewrite Hdb. cbn. apply elem_of_app. by left.
Qed.

Lemma values_distinct enumID l : forall w u w',
  forM l (createProtoEnumValue enumID) w = (Ok u, w') -> NoDup (map enumValue_Number l).
Proof.
  induction l as [|v l IH]; intros w u w' H; [constructor|]. apply bind_Ok in H as (u1 & w1 & H1 & H).
  cbn [map]. constructor; [|by eapply IH]. eapply (values_after enumID); [|exact H].
  destruct (writes_value enumID _ v w u1 w1 eq_refl H1) as (_ & _ & Hdb & _). rewrite Hdb.
  exists (mkProtoEnumValueRow enumID v). split; [|done]. cbn. apply elem_of_app. right. left.
Qed.

Lemma enum_distinct v i p e w u w' :
  createProtoEnum v i p e w = (Ok u, w') -> NoDup (map enumValue_Number (enum_Values e)).
Proof. intros H. apply bind_Ok in H as (x & w1 & _ & H). by eapply values_distinct. Qed.

Lemma message_enums_distinct v i p e m : forall parent w u w',
  createProtoMessage v i parent p m w = (Ok u, w') -> e ∈ flat_map message_Enums (messages_within m) ->
  NoDup (map enumValue_Number (enum_Values e)).
Proof.
  induction m as [m IH] using message_ind'. intros parent w u w' H He. destruct m as [n fn fs ms es].
  cbn [createProtoMessage message_Fields message_Messages message_Enums messages_within flat_map] in *.
  apply bind_Ok in H as (x & w1 & _ & H). apply bind_Ok in H as (u1 & w2 & _ & H). apply bind_Ok in H as (u2 & w3 & Hn & H).
  apply elem_of_app in He as [He|He].
  - destruct (forM_elem _ e _ _ _ _ He H) as (w4 & w5 & H5). by eapply enum_distinct.
  - clear H. revert w2 w3 Hn. clear w1. induction ms as [|m ms IHms]; intros w2 w3 Hn; [by apply elem_of_nil in He|].
    apply bind_Ok in Hn as (u4 & w4 & H4 & Hn). cbn [flat_map] in He. rewrite flat_map_app in He.
    apply elem_of_app in He as [He|He]; [by eapply (IH m ltac:(left))|].
    eapply IHms; [|exact He|exact Hn]. intros k Hk. apply IH. by right.
Qed.

(** a descriptor with an enumeration that gives two names to one number, as
    [allow_alias] permits, is never saved: a successful [Save] implies that the
    numbers of each enumeration are distinct. *)
Theorem aliased_enum_not_saved (id : ModuleVersionID) (metadata : DescriptorMetadata) (f : ProtoFile) (e : ProtoEnum)
    (w : World)
    (Hf : f ∈ metadata_Files metadata) (He : e ∈ file_all_enums f)
    (Halias : ~ NoDup (map enumValue_Number (enum_Values e))) :
  forall w', Metadata_Save id metadata w <> (Ok tt, w').
Proof.
  intros w' H. apply Halias.
  assert (Hrun : exists w0 w1, forM (metadata_Files metadata) (saveProtoFile id) w0 = (Ok tt, w1)).
  { unfold Metadata_Save in H. destruct (w_tx w) eqn:Htx.
    - unfold WithinTransaction in H. rewrite Htx in H. minv. eauto.
    - apply WithinTransaction_atomic in H as (_ & [[(x & [=]) _]|([] & w2 & H & _)]); [|done]. minv. eauto. }
  destruct Hrun as (w0 & w1 & Hrun). destruct (forM_elem _ f _ _ _ _ Hf Hrun) as (w2 & w3 & Hs).
  unfold saveProtoFile in Hs. apply bind_Ok in Hs as (i & w4 & _ & Hs). apply bind_Ok in Hs as (u1 & w5 & _ & Hs).
  apply bind_Ok in Hs as (u2 & w6 & _ & Hs). apply bind_Ok in Hs as (u3 & w7 & Hm & Hs).
  unfold file_all_enums, file_all_messages in He. apply elem_of_app in He as [He|He].
  - apply list_elem_of_In, in_flat_map in He as (k & Hk & Hek%list_elem_of_In).
    apply in_flat_map in Hk as (m & Hin%list_elem_of_In & Hk%list_elem_of_In).
    destruct (forM_elem _ m _ _ _ _ Hin Hm) as (w8 & w9 & H9). eapply message_enums_distinct; [exact H9|].
    apply list_elem_of_In, in_flat_map. exists k. by rewrite <- !list_elem_of_In.
  - destruct (forM_elem _ e _ _ _ _ He Hs) as (w8 & w9 & H9). by eapply enum_distinct.
Qed.
End Aliases.

(** ** A concrete descriptor *)

Module DescriptorExamples.
#[local] Existing Instance example_postgres.
#[local] Existing Instance example_collation.
#[local] Instance quiet_env : Env := example_env 1000.

Definition example_file : ProtoFile :=
  let field n i := mkProtoField n i "TYPE_STRING" "" "LABEL_OPTIONAL" n "" false false in
  let enum n full := mkProtoEnum n full [mkProtoEnumValue "ONE" 1%Z; mkProtoEnumValue "ZERO" 0%Z] in
  mkProtoFile "a.proto" "p" "proto3"
    [mkProtoImport "z.proto" false false; mkProtoImport "b.proto" true false]
    [mkProtoService "S" "p.S" [mkProtoMethod "Put" ".p.B" ".p.A" false true; mkProtoMethod "Get" ".p.A" ".p.B" false false]]
    [mkProtoMessage "B" "p.B" [field "y" 2%Z; field "x" 1%Z]
       [mkProtoMessage "D" "p.B.D" [] [] [];
        mkProtoMessage "C" "p.B.C" [field "c" 1%Z] [] [enum "E" "p.B.C.E"]] [enum "E" "p.B.E"];
     mkProtoMessage "A" "p.A" [] [] []]
    [enum "E" "p.E"].
Definition example_metadata : DescriptorMetadata := mkDescriptorMetadata [example_file].

(** A version without a descriptor. *)
Definition example_world : World :=
  mkWorld (set_versions (fun _ => [mkModuleVersion "a" "b" "1.0.0" "" "" 0%Z None None "" ""]) empty_db) false 0.

Lemma example_descriptors_ok : descriptors_ok (descriptors (w_db example_world)).
Proof. split; [by intros v i _|constructor]. Qed.

Definition result_is_ok {A} (r : result A) : bool := match r with Ok _ => true | Err _ => false end.

Lemma Metadata_roundtrip_witness :
  let run := Metadata_Save "a" example_metadata example_world in
  result_is_ok run.1 = true
  /\ (Metadata_GetByModuleVersion "a" run.2).1 = Ok (ordered_metadata example_metadata)
  /\ map message_Name (file_Messages (ordered_file example_file)) = ["A"; "B"]
  /\ descriptors_ok (descriptors (w_db run.2)).
Proof.
  intros run. destruct run as [r w1] eqn:E. cbn [fst snd].
  assert (Hr : r = Ok tt) by (change r with (r, w1).1; rewrite <- E; vm_compute; reflexivity). subst r.
  destruct (Metadata_GetByModuleVersion "a" w1) as [r2 w2] eqn:E2. cbn [fst].
  destruct (Metadata_roundtrip (PG := example_postgres) (ENV := quiet_env) "a" "a" "a" example_metadata example_world w1 w2 r2
              ltac:(vm_compute; reflexivity) ltac:(vm_compute; reflexivity)
              example_descriptors_ok ltac:(vm_compute; reflexivity) E E2) as (_ & Hok & _).
  split_and!; [reflexivity| |vm_compute; reflexivity|exact Hok].
  change r2 with (r2, w2).1. rewrite <- E2. change w1 with (Ok tt, w1).2. rewrite <- E. vm_compute. reflexivity.
Defined.

Definition aliased_metadata : DescriptorMetadata :=
  mkDescriptorMetadata [mkProtoFile "a.proto" "p" "proto3" [] [] []
    [mkProtoEnum "E" "p.E" [mkProtoEnumValue "UNKNOWN" 0%Z; mkProtoEnumValue "NONE" 0%Z]]].

Lemma aliased_enum_not_saved_witness :
  (Metadata_Save "a" aliased_metadata example_world).1 = Err (domain.ErrDuplicate : error)
  /\ forall w', Metadata_Save "a" aliased_metadata example_world <> (Ok tt, w').
Proof.
  split; [vm_compute; reflexivity|].
  apply (aliased_enum_not_saved "a" aliased_metadata _ (mkProtoEnum "E" "p.E" [mkProtoEnumValue "UNKNOWN" 0%Z; mkProtoEnumValue "NONE" 0%Z]) _
           ltac:(left)); [left|].
  cbn. intros H. apply NoDup_cons in H as [H _]. apply H. left.
Defined.
End DescriptorExamples.
