(* ===== verification/BufDescriptor.v ===== *)
(** * From the descriptors of [buf] to the metadata of a version

    [infrastructure/bufcli/descriptor.go].  The messages of [descriptorpb] are
    records of what their getters return: an absent field is its default.
    [proto.Unmarshal] and the names of the types and labels of fields are
    parameters.  What is extracted is named as the storage of descriptors
    expects it. *)

From S2P Require Import Prelude Errors GoStrings Domain Effects Postgres Outbox Tables World GovernanceStore DescriptorStore DescriptorTree.

Open Scope string_scope.
Open Scope Z_scope.

(** ** Messages of [descriptorpb] *)

Record FieldDescriptorProto := mkFieldDescriptorProto {
  fd_Name : string;
  fd_Number : Z;
  fd_Type : Z;
  fd_TypeName : string;
  fd_Label : Z;
  fd_JsonName : string;
  fd_OneofIndex : option Z }.

Record EnumDescriptorProto := mkEnumDescriptorProto {
  ed_Name : string;
  ed_Value : list (string * Z) }.

Inductive DescriptorProto := mkDescriptorProto {
  dp_Name : string;
  dp_Field : list FieldDescriptorProto;
  dp_NestedType : list DescriptorProto;
  dp_EnumType : list EnumDescriptorProto;
  dp_OneofDecl : list string;
  dp_MapEntry : bool }.        (* GetOptions().GetMapEntry() *)

Record MethodDescriptorProto := mkMethodDescriptorProto {
  md_Name : string;
  md_InputType : string;
  md_OutputType : string;
  md_ClientStreaming : bool;
  md_ServerStreaming : bool }.

Record ServiceDescriptorProto := mkServiceDescriptorProto {
  sd_Name : string;
  sd_Method : list MethodDescriptorProto }.

Record FileDescriptorProto := mkFileDescriptorProto {
  fdp_Name : string;
  fdp_Package : string;
  fdp_Syntax : string;
  fdp_Dependency : list string;
  fdp_PublicDependency : list Z;
  fdp_WeakDependency : list Z;
  fdp_Service : list ServiceDescriptorProto;
  fdp_MessageType : list DescriptorProto;
  fdp_EnumType : list EnumDescriptorProto }.

(** The enumerators [TYPE_MESSAGE] and [LABEL_REPEATED]. *)
Definition TYPE_MESSAGE : Z := 11.
Definition LABEL_REPEATED : Z := 3.

Class Protobuf := {
  proto_Unmarshal : string -> result (list FileDescriptorProto);
  FieldType_String : Z -> string;
  FieldLabel_String : Z -> string }.

(** [int32(x)]. *)
Definition int32_of (z : Z) : Z := (z + 2 ^ 31) mod 2 ^ 32 - 2 ^ 31.

Section Extract.
Context `{PB : !Protobuf}.

(** ** Names *)

Definition joinProtoName (packageName name : string) : string :=
  if (packageName =? "")%string then name else packageName +:+ "." +:+ name.

(** The name of a message or an enumeration below its parent. *)
Definition proto_full_name (packageName parentFullName name : string) : string :=
  if negb (parentFullName =? "")%string then parentFullName +:+ "." +:+ name
  else joinProtoName packageName name.

Definition hasProtoNameSuffix (name suffix : string) : bool :=
  if len name <? len suffix then false else
  (drop_string (String.length name - String.length suffix) name =? suffix)%string.

(** ** The parts of a file *)

(** The loop over the dependencies, from [index] on. *)
Fixpoint imports_from (public weak : list Z) (index : Z) (dependency : list string) : list ProtoImport :=
  match dependency with
  | [] => []
  | path :: rest =>
      mkProtoImport path (existsb (Z.eqb (int32_of index)) public) (existsb (Z.eqb (int32_of index)) weak)
      :: imports_from public weak (index + 1) rest
  end.
Definition extractImports (file : FileDescriptorProto) : list ProtoImport :=
  imports_from (fdp_PublicDependency file) (fdp_WeakDependency file) 0 (fdp_Dependency file).

Definition extractServices (file : FileDescriptorProto) : list ProtoService :=
  map (fun service =>
    mkProtoService (sd_Name service) (joinProtoName (fdp_Package file) (sd_Name service))
      (map (fun m => mkProtoMethod (md_Name m) (md_InputType m) (md_OutputType m) (md_ClientStreaming m)
                       (md_ServerStreaming m)) (sd_Method service)))
    (fdp_Service file).

Definition oneofName (message : DescriptorProto) (field : FieldDescriptorProto) : string :=
  match fd_OneofIndex field with
  | None => ""
  | Some i =>
      if (i <? 0) || (llen (dp_OneofDecl message) <=? i) then "" else
      nth (Z.to_nat i) (dp_OneofDecl message) ""
  end.

(** The set of suffixes is a list here: only whether one of them fits counts. *)
Definition mapFields (message : DescriptorProto) : list string :=
  map (fun nested => "." +:+ dp_Name nested) (List.filter dp_MapEntry (dp_NestedType message)).

Definition isMapField (field : FieldDescriptorProto) (mapFields : list string) : bool :=
  if negb (fd_Label field =? LABEL_REPEATED) || negb (fd_Type field =? TYPE_MESSAGE) then false else
  existsb (hasProtoNameSuffix (fd_TypeName field)) mapFields.

Definition extractFields (message : DescriptorProto) : list ProtoField :=
  map (fun field =>
    mkProtoField (fd_Name field) (fd_Number field) (FieldType_String (fd_Type field)) (fd_TypeName field)
      (FieldLabel_String (fd_Label field)) (fd_JsonName field) (oneofName message field)
      (fd_Label field =? LABEL_REPEATED) (isMapField field (mapFields message)))
    (dp_Field message).

Definition extractEnums (packageName parentFullName : string) (descriptors : list EnumDescriptorProto) : list ProtoEnum :=
  map (fun enum =>
    mkProtoEnum (ed_Name enum) (proto_full_name packageName parentFullName (ed_Name enum))
      (map (fun value => mkProtoEnumValue value.1 value.2) (ed_Value enum)))
    descriptors.

(** One turn of the loop of [extractMessages], with the call for the nested
    messages. *)
Fixpoint extractMessage (packageName parentFullName : string) (message : DescriptorProto) : ProtoMessage :=
  let fullName := proto_full_name packageName parentFullName (dp_Name message) in
  mkProtoMessage (dp_Name message) fullName (extractFields message)
    (map (extractMessage packageName fullName) (dp_NestedType message))
    (extractEnums packageName fullName (dp_EnumType message)).
Definition extractMessages (packageName parentFullName : string) (descriptors : list DescriptorProto) : list ProtoMessage :=
  map (extractMessage packageName parentFullName) descriptors.

Definition extract_file (file : FileDescriptorProto) : ProtoFile :=
  mkProtoFile (fdp_Name file) (fdp_Package file) (fdp_Syntax file) (extractImports file) (extractServices file)
    (extractMessages (fdp_Package file) "" (fdp_MessageType file))
    (extractEnums (fdp_Package file) "" (fdp_EnumType file)).

Definition ExtractDescriptorMetadata (image : string) : result DescriptorMetadata :=
  let? set := proto_Unmarshal image in
  Ok (mkDescriptorMetadata (map extract_file set)).

(** ** What is extracted is named by its place *)

(** The names of a descriptor are identifiers, as the grammar of Protocol Buffers
    has it. *)
Definition enum_identified (e : EnumDescriptorProto) : bool := identifier (ed_Name e).
Fixpoint message_identified (m : DescriptorProto) : bool :=
  identifier (dp_Name m) && forallb message_identified (dp_NestedType m) && forallb enum_identified (dp_EnumType m).
Definition file_identified (f : FileDescriptorProto) : bool :=
  forallb message_identified (fdp_MessageType f) && forallb enum_identified (fdp_EnumType f).

Fixpoint descriptor_size (m : DescriptorProto) : nat := S (list_sum (map descriptor_size (dp_NestedType m))).
Lemma descriptor_ind' (P : DescriptorProto -> Prop) :
  (forall m, (forall n, n ∈ dp_NestedType m -> P n) -> P m) -> forall m, P m.
Proof.
  intros H m. remember (descriptor_size m) as n eqn:E. revert m E.
  induction n as [n IH] using lt_wf_ind. intros m ->. apply H. intros x Hx.
  eapply IH; [|reflexivity]. destruct m as [a fs ms es os me]. cbn [dp_NestedType descriptor_size] in *.
  pose proof (list_sum_elem descriptor_size x ms Hx). lia.
Qed.

Lemma identifier_nonempty s : identifier s = true -> s <> "".
Proof. by intros [H%negb_true_iff%String.eqb_neq _]%andb_true_iff. Qed.

Lemma full_name_nested p q n : q <> "" -> proto_full_name p q n = (q +:+ ".") +:+ n.
Proof. intros Hq. unfold proto_full_name. apply String.eqb_neq in Hq as ->. cbn [negb]. by rewrite string_app_assoc. Qed.
Lemma full_name_top p n : proto_full_name p "" n = package_scope p +:+ n.
Proof.
  unfold proto_full_name, joinProtoName, package_scope. cbn. destruct (p =? "")%string; [done|]. by rewrite string_app_assoc.
Qed.

(** The scope of the elements extracted with a parent. *)
Definition parent_scope (packageName parentFullName : string) : string :=
  if (parentFullName =? "")%string then package_scope packageName else parentFullName +:+ ".".
Lemma full_name_scope p q n : proto_full_name p q n = parent_scope p q +:+ n.
Proof.
  unfold parent_scope. destruct (q =? "")%string eqn:E.
  - apply String.eqb_eq in E as ->. apply full_name_top.
  - apply String.eqb_neq in E. by apply full_name_nested.
Qed.

Lemma extractEnums_named p q es :
  forallb enum_identified es = true -> forallb (enum_named (parent_scope p q)) (extractEnums p q es) = true.
Proof.
  rewrite !forallb_forall. intros H e (e0 & <- & He)%in_map_iff. unfold enum_named.
  cbn [enum_FullName enum_Name]. rewrite full_name_scope, eqs_refl. by apply H.
Qed.

Lemma full_name_nonempty p q n : identifier n = true -> proto_full_name p q n <> "".
Proof.
  intros Hn E. apply identifier_nonempty in Hn. rewrite full_name_scope in E. apply (f_equal String.length) in E.
  rewrite length_string_app in E. destruct n; [done|cbn in E; lia].
Qed.

Lemma extractMessage_named p m : forall q,
  message_identified m = true ->
  messages_named (parent_scope p q) (extractMessage p q m) = true /\ enums_named (extractMessage p q m) = true.
Proof.
  induction m as [m IH] using descriptor_ind'. intros q. destruct m as [n fs ms es os me].
  cbn [message_identified extractMessage dp_Name dp_NestedType dp_EnumType] in *.
  intros [[Hn Hms]%andb_true_iff Hes]%andb_true_iff. rewrite forallb_forall in Hms.
  set (full := proto_full_name p q n) in *. assert (Hfull : full <> "") by (by apply full_name_nonempty).
  assert (Hscope : parent_scope p full = full +:+ ".") by (unfold parent_scope; by apply String.eqb_neq in Hfull as ->).
  assert (Hin : forall k, k ∈ ms -> messages_named (full +:+ ".") (extractMessage p full k) = true
                         /\ enums_named (extractMessage p full k) = true).
  { intros k Hk. rewrite <- Hscope. apply IH; [done|]. by apply Hms, list_elem_of_In. }
  cbn [messages_named enums_named message_FullName message_Name message_Messages message_Enums].
  rewrite !andb_true_iff, !forallb_forall. split_and!.
  - unfold full. by rewrite full_name_scope, eqs_refl.
  - done.
  - intros k' (k & <- & Hk%list_elem_of_In)%in_map_iff. by apply Hin.
  - apply forallb_forall. rewrite <- Hscope. by apply extractEnums_named.
  - intros k' (k & <- & Hk%list_elem_of_In)%in_map_iff. by apply Hin.
Qed.

(** C30: the metadata extracted from an image whose names are identifiers is well
    named: every message and enumeration has the full name of what holds it, a
    dot and its own name, and those of a file without a parent the package. *)
Theorem ExtractDescriptorMetadata_named (image : string) (set : list FileDescriptorProto) (metadata : DescriptorMetadata)
    (Himage : proto_Unmarshal image = Ok set) (Hset : forallb file_identified set = true)
    (H : ExtractDescriptorMetadata image = Ok metadata) :
  forallb file_named (metadata_Files metadata) = true
  /\ length (metadata_Files metadata) = length set.
Proof.
  unfold ExtractDescriptorMetadata in H. rewrite Himage in H. injection H as <-. cbn [metadata_Files]. split; [|apply length_map].
  rewrite forallb_forall in *. intros f' (f & <- & Hf)%in_map_iff. specialize (Hset f Hf).
  unfold file_identified in Hset. apply andb_true_iff in Hset as [Hm He]. unfold file_named.
  cbn [file_PackageName file_Messages file_Enums extract_file].
  change (package_scope (fdp_Package f)) with (parent_scope (fdp_Package f) "").
  rewrite extractEnums_named, andb_true_r by done. rewrite forallb_forall in Hm. apply andb_true_iff.
  split; apply forallb_forall; intros m' (m & <- & Hin)%in_map_iff; by apply extractMessage_named, Hm.
Qed.
End Extract.

(** ** Concrete images *)

Module ProtoExamples.
(** [message Outer { map<string, string> labels = 1; repeated other.LabelsEntry extra = 2;
    message Inner { enum Kind { NONE = 0; } } }]. *)
Definition example_set : list FileDescriptorProto :=
  let entry := mkDescriptorProto "LabelsEntry"
    [mkFieldDescriptorProto "key" 1 9 "" 1 "key" None; mkFieldDescriptorProto "value" 2 9 "" 1 "value" None] [] [] [] true in
  let inner := mkDescriptorProto "Inner" [] [] [mkEnumDescriptorProto "Kind" [("NONE", 0)]] [] false in
  [mkFileDescriptorProto "a.proto" "acme.v1" "proto3" ["b.proto"; "c.proto"] [1] []
     [mkServiceDescriptorProto "Svc" [mkMethodDescriptorProto "Get" ".acme.v1.Outer" ".acme.v1.Outer" false false]]
     [mkDescriptorProto "Outer"
        [mkFieldDescriptorProto "labels" 1 11 ".acme.v1.Outer.LabelsEntry" 3 "labels" None;
         mkFieldDescriptorProto "extra" 2 11 ".other.LabelsEntry" 3 "extra" None]
        [entry; inner] [] [] false]
     [mkEnumDescriptorProto "Level" [("LOW", 0); ("HIGH", 1)]]].

#[export] Instance example_protobuf : Protobuf := {|
  proto_Unmarshal := fun image => if (image =? "")%string then Err (EText "cannot parse") else Ok example_set;
  FieldType_String := fun t => if t =? TYPE_MESSAGE then "TYPE_MESSAGE" else "TYPE_STRING";
  FieldLabel_String := fun l => if l =? LABEL_REPEATED then "LABEL_REPEATED" else "LABEL_OPTIONAL" |}.

Lemma ExtractDescriptorMetadata_named_witness :
  exists metadata, ExtractDescriptorMetadata "image" = Ok metadata
    /\ forallb file_named (metadata_Files metadata) = true
    /\ map message_FullName (flat_map messages_within (flat_map file_Messages (metadata_Files metadata)))
       = ["acme.v1.Outer"; "acme.v1.Outer.LabelsEntry"; "acme.v1.Outer.Inner"].
Proof.
  destruct (ExtractDescriptorMetadata "image") as [metadata|e] eqn:E; [|vm_compute in E; discriminate].
  exists metadata. split; [done|]. split.
  - apply (ExtractDescriptorMetadata_named "image" example_set metadata); [reflexivity|vm_compute; reflexivity|exact E].
  - vm_compute in E. injection E as <-. vm_compute. reflexivity.
Defined.

(** The suffix of a map entry also fits a message of the same name elsewhere: the
    second field is no map. *)
Example map_entry_of_another_message :
  map field_IsMap (flat_map message_Fields (flat_map file_Messages (map extract_file example_set))) = [true; true].
Proof. vm_compute. reflexivity. Qed.
End ProtoExamples.
