(* ===== verification/DependencyStore.v ===== *)
(** * The dependency graph in the database

    [repository/postgres/dependency_graph.go] and the types of
    [usecase/registry/dependencies.go]: the edges of a version, what it could
    not resolve, and the index of what the latest versions provide. *)

From S2P Require Import Prelude Errors GoStrings Domain Effects Postgres Outbox Tables World GovernanceStore CatalogStore DescriptorStore.

Open Scope string_scope.
Open Scope Z_scope.

(** ** [registry.ProviderFile], [registry.ProviderSymbol] *)

Record ProviderFile := mkProviderFile {
  pf_Path : string;
  pf_ModuleID : ModuleID;
  pf_ModuleName : ModuleName;
  pf_ModuleVersionID : ModuleVersionID;
  pf_Version : Version }.

Record ProviderSymbol := mkProviderSymbol {
  ps_FullName : string;
  ps_PackageName : string;
  ps_ModuleID : ModuleID;
  ps_ModuleName : ModuleName;
  ps_ModuleVersionID : ModuleVersionID;
  ps_Version : Version }.

Definition IsWellKnownProtoImport (path : string) : bool := HasPrefix (TrimSpace path) "google/protobuf/".
Definition IsWellKnownProtoSymbol (symbol : string) : bool :=
  HasPrefix (TrimPrefix (TrimSpace symbol) ".") "google.protobuf.".

(** The order of several columns. *)
Definition then_by {A} (le1 le2 : A -> A -> bool) (x y : A) : bool :=
  le1 x y && (negb (le1 y x) || le2 x y).
Definition text_order `{!Postgres} {A} (column : A -> string) (x y : A) : bool :=
  pg_text_le (column x) (column y).

Section Store.
Context `{PG : !Postgres} `{ENV : !Env}.

(** ** Writing *)

Definition createDependency (x : ModuleDependency) : M World unit :=
  let! createdAt := timeOrNow (dependency_CreatedAt x) in
  map_err mapError (exec (T := Database) (
    let! id := uuid_param (dependency_ID x) in
    let! consumer := uuid_param (dependency_ConsumerModuleID x) in
    let! consumerVersion := uuid_param (dependency_ConsumerModuleVersionID x) in
    let! provider := uuid_param (dependency_ProviderModuleID x) in
    let! providerVersion := uuid_param (dependency_ProviderModuleVersionID x) in
    let! _ := text_params [dependency_Source x; dependency_Reason x; dependency_ImportPath x;
                           dependency_ReferencedPackage x; dependency_ReferencedSymbol x] in
    let! d := gets (fun d => d) in
    let! _ := insert_checks
      [(eqs consumer provider, check_violation "module_dependencies_no_self_edge")]
      [(existsb (fun y => eqs (dependency_ID y) id) (ct_dependencies (db_catalog d)),
         unique_violation "module_dependencies_pkey");
       (existsb (fun y => eqs (dependency_ConsumerModuleVersionID y) consumerVersion
                          && eqs (dependency_ProviderModuleVersionID y) providerVersion
                          && eqs (dependency_Source y) (dependency_Source x)
                          && eqs (dependency_ImportPath y) (dependency_ImportPath x)
                          && eqs (dependency_ReferencedSymbol y) (dependency_ReferencedSymbol x))
          (ct_dependencies (db_catalog d)), unique_violation "module_dependencies_unique_edge_idx")]
      [(negb (existsb (fun m => eqs (module_ID m) consumer) (db_modules d)),
         foreign_key_violation "module_dependencies_consumer_module_id_fkey");
       (negb (existsb (fun v => eqs (version_ID v) consumerVersion) (db_versions d)),
         foreign_key_violation "module_dependencies_consumer_module_version_id_fkey");
       (negb (existsb (fun m => eqs (module_ID m) provider) (db_modules d)),
         foreign_key_violation "module_dependencies_provider_module_id_fkey");
       (negb (existsb (fun v => eqs (version_ID v) providerVersion) (db_versions d)),
         foreign_key_violation "module_dependencies_provider_module_version_id_fkey")] in
    modify (set_catalog (set_dependencies (fun l => l ++ [mkModuleDependency id consumer "" consumerVersion ""
      provider "" providerVersion "" (dependency_Source x) (dependency_Reason x) (dependency_ImportPath x)
      (dependency_ReferencedPackage x) (dependency_ReferencedSymbol x) createdAt])%list)))).

Definition createUnresolvedDependency (x : UnresolvedProtoDependency) : M World unit :=
  let! createdAt := timeOrNow (unresolved_CreatedAt x) in
  map_err mapError (exec (T := Database) (
    let! id := uuid_param (unresolved_ID x) in
    let! moduleID := uuid_param (unresolved_ModuleID x) in
    let! versionID := uuid_param (unresolved_ModuleVersionID x) in
    let! _ := text_params [unresolved_Source x; unresolved_ImportPath x; unresolved_ReferencedPackage x;
                           unresolved_ReferencedSymbol x; unresolved_Reason x] in
    let! d := gets (fun d => d) in
    let! _ := insert_checks []
      [(existsb (fun y => eqs (unresolved_ID y) id) (ct_unresolved (db_catalog d)),
         unique_violation "unresolved_proto_dependencies_pkey")]
      [(negb (existsb (fun m => eqs (module_ID m) moduleID) (db_modules d)),
         foreign_key_violation "unresolved_proto_dependencies_module_id_fkey");
       (negb (existsb (fun v => eqs (version_ID v) versionID) (db_versions d)),
         foreign_key_violation "unresolved_proto_dependencies_module_version_id_fkey")] in
    modify (set_catalog (set_unresolved (fun l => l ++ [mkUnresolvedProtoDependency id moduleID "" versionID ""
      (unresolved_Source x) (unresolved_ImportPath x) (unresolved_ReferencedPackage x)
      (unresolved_ReferencedSymbol x) (unresolved_Reason x) createdAt])%list)))).

Definition delete_dependencies_stmt (versionID : ModuleVersionID) : M Database unit :=
  let! id := uuid_param versionID in
  modify (set_catalog (set_dependencies (List.filter (fun x =>
    negb (eqs (dependency_ConsumerModuleVersionID x) id))))).

Definition delete_unresolved_stmt (versionID : ModuleVersionID) : M Database unit :=
  let! id := uuid_param versionID in
  modify (set_catalog (set_unresolved (List.filter (fun x =>
    negb (eqs (unresolved_ModuleVersionID x) id))))).

Definition ReplaceByConsumerModuleVersion (consumerModuleVersionID : ModuleVersionID)
    (dependencies : list ModuleDependency) (unresolved : list UnresolvedProtoDependency) : M World unit :=
  WithinTransaction (
    let! _ := map_err mapError (exec (delete_dependencies_stmt consumerModuleVersionID)) in
    let! _ := map_err mapError (exec (delete_unresolved_stmt consumerModuleVersionID)) in
    let! _ := forM dependencies createDependency in
    forM unresolved createUnresolvedDependency).

(** ** Reading the graph *)

(** The joins with the modules and the versions of both ends; the time of the
    consumer's version comes along for [ORDER BY]. *)
Definition dependency_rows (p : ModuleDependency -> bool) (d : Database) : list (time * ModuleDependency) :=
  flat_map (fun md =>
    flat_map (fun cm =>
    flat_map (fun cv =>
    flat_map (fun pm =>
    map (fun pv =>
      (version_CreatedAt cv,
       mkModuleDependency (dependency_ID md) (dependency_ConsumerModuleID md) (module_Name cm)
         (dependency_ConsumerModuleVersionID md) (version_Version cv) (dependency_ProviderModuleID md)
         (module_Name pm) (dependency_ProviderModuleVersionID md) (version_Version pv) (dependency_Source md)
         (dependency_Reason md) (dependency_ImportPath md) (dependency_ReferencedPackage md)
         (dependency_ReferencedSymbol md) (dependency_CreatedAt md)))
      (List.filter (fun v => eqs (version_ID v) (dependency_ProviderModuleVersionID md)) (db_versions d)))
      (List.filter (fun m => eqs (module_ID m) (dependency_ProviderModuleID md)) (db_modules d)))
      (List.filter (fun v => eqs (version_ID v) (dependency_ConsumerModuleVersionID md)) (db_versions d)))
      (List.filter (fun m => eqs (module_ID m) (dependency_ConsumerModuleID md)) (db_modules d)))
    (List.filter p (ct_dependencies (db_catalog d))).

Definition scanModuleDependency (x : ModuleDependency) : result ModuleDependency :=
  let? consumerModuleName := NewModuleName (dependency_ConsumerModuleName x) in
  let? consumerVersion := NewVersion (dependency_ConsumerVersion x) in
  let? providerModuleName := NewModuleName (dependency_ProviderModuleName x) in
  let? providerVersion := NewVersion (dependency_ProviderVersion x) in
  Ok (mkModuleDependency (NewModuleDependencyID (dependency_ID x)) (NewModuleID (dependency_ConsumerModuleID x))
        consumerModuleName (NewModuleVersionID (dependency_ConsumerModuleVersionID x)) consumerVersion
        (NewModuleID (dependency_ProviderModuleID x)) providerModuleName
        (NewModuleVersionID (dependency_ProviderModuleVersionID x)) providerVersion (dependency_Source x)
        (dependency_Reason x) (dependency_ImportPath x) (dependency_ReferencedPackage x)
        (dependency_ReferencedSymbol x) (dependency_CreatedAt x)).

Definition by_edge : ModuleDependency -> ModuleDependency -> bool :=
  then_by (text_order dependency_Source)
    (then_by (text_order dependency_ImportPath) (text_order dependency_ReferencedSymbol)).
Definition by_provider : ModuleDependency -> ModuleDependency -> bool :=
  then_by (text_order dependency_ProviderModuleName) (then_by (text_order dependency_ProviderVersion) by_edge).
Definition by_consumer : ModuleDependency -> ModuleDependency -> bool :=
  then_by (text_order dependency_ConsumerModuleName) (then_by (text_order dependency_ConsumerVersion) by_edge).

Definition listDependencies (id : string) (column : ModuleDependency -> string)
    (order : time * ModuleDependency -> time * ModuleDependency -> bool) : M World (list ModuleDependency) :=
  let! rows := map_err mapError (exec (T := Database) (
    let! id := uuid_param id in
    gets (fun d => map snd (sort_by order (dependency_rows (fun x => eqs (column x) id) d))))) in
  scan_rows scanModuleDependency rows.

Definition ListUpstreamByModule (moduleID : ModuleID) : M World (list ModuleDependency) :=
  listDependencies moduleID dependency_ConsumerModuleID
    (then_by (newest_first fst) (fun x y => by_provider x.2 y.2)).
Definition ListUpstreamByModuleVersion (moduleVersionID : ModuleVersionID) : M World (list ModuleDependency) :=
  listDependencies moduleVersionID dependency_ConsumerModuleVersionID (fun x y => by_provider x.2 y.2).
Definition ListDownstreamByModule (moduleID : ModuleID) : M World (list ModuleDependency) :=
  listDependencies moduleID dependency_ProviderModuleID (fun x y => by_consumer x.2 y.2).

Definition unresolved_rows (p : UnresolvedProtoDependency -> bool) (d : Database)
    : list (time * UnresolvedProtoDependency) :=
  flat_map (fun u =>
    flat_map (fun m =>
    map (fun v =>
      (version_CreatedAt v,
       mkUnresolvedProtoDependency (unresolved_ID u) (unresolved_ModuleID u) (module_Name m)
         (unresolved_ModuleVersionID u) (version_Version v) (unresolved_Source u) (unresolved_ImportPath u)
         (unresolved_ReferencedPackage u) (unresolved_ReferencedSymbol u) (unresolved_Reason u)
         (unresolved_CreatedAt u)))
      (List.filter (fun v => eqs (version_ID v) (unresolved_ModuleVersionID u)) (db_versions d)))
      (List.filter (fun m => eqs (module_ID m) (unresolved_ModuleID u)) (db_modules d)))
    (List.filter p (ct_unresolved (db_catalog d))).

Definition scanUnresolvedProtoDependency (x : UnresolvedProtoDependency) : result UnresolvedProtoDependency :=
  let? moduleName := NewModuleName (unresolved_ModuleName x) in
  let? version := NewVersion (unresolved_Version x) in
  Ok (mkUnresolvedProtoDependency (NewUnresolvedProtoDependencyID (unresolved_ID x))
        (NewModuleID (unresolved_ModuleID x)) moduleName (NewModuleVersionID (unresolved_ModuleVersionID x))
        version (unresolved_Source x) (unresolved_ImportPath x) (unresolved_ReferencedPackage x)
        (unresolved_ReferencedSymbol x) (unresolved_Reason x) (unresolved_CreatedAt x)).

Definition by_reference : UnresolvedProtoDependency -> UnresolvedProtoDependency -> bool :=
  then_by (text_order unresolved_Source)
    (then_by (text_order unresolved_ImportPath) (text_order unresolved_ReferencedSymbol)).

Definition listUnresolvedDependencies (id : string) (column : UnresolvedProtoDependency -> string)
    (order : time * UnresolvedProtoDependency -> time * UnresolvedProtoDependency -> bool)
    : M World (list UnresolvedProtoDependency) :=
  let! rows := map_err mapError (exec (T := Database) (
    let! id := uuid_param id in
    gets (fun d => map snd (sort_by order (unresolved_rows (fun x => eqs (column x) id) d))))) in
  scan_rows scanUnresolvedProtoDependency rows.

Definition ListUnresolvedByModule (moduleID : ModuleID) : M World (list UnresolvedProtoDependency) :=
  listUnresolvedDependencies moduleID unresolved_ModuleID
    (then_by (newest_first fst) (fun x y => by_reference x.2 y.2)).
Definition ListUnresolvedByModuleVersion (moduleVersionID : ModuleVersionID)
    : M World (list UnresolvedProtoDependency) :=
  listUnresolvedDependencies moduleVersionID unresolved_ModuleVersionID (fun x y => by_reference x.2 y.2).

(** ** Latest versions

    [SELECT DISTINCT ON (module_id) ... ORDER BY module_id, created_at DESC]:
    the newest published version of each module. *)

Definition published (v : ModuleVersion) : bool := eqs (version_Status v) ModuleVersionStatusPublished.

(** The first row of each run of a sorted list. *)
Fixpoint distinct_on {A} (key : A -> string) (previous : option string) (l : list A) : list A :=
  match l with
  | [] => []
  | x :: l' =>
      if match previous with Some k => eqs (key x) k | None => false end
      then distinct_on key previous l'
      else x :: distinct_on key (Some (key x)) l'
  end.

Definition latest_published (d : Database) : list ModuleVersion :=
  distinct_on version_ModuleID None
    (sort_by (then_by (fun x y => uuid_le (version_ModuleID x) (version_ModuleID y))
                (newest_first version_CreatedAt))
       (List.filter published (db_versions d))).

Definition ListLatestPublishedModuleVersions : M World (list ModuleVersion) :=
  let! rows := map_err mapError (exec (T := Database) (gets latest_published)) in
  scan_rows scanModuleVersion rows.

(** ** Affected modules *)

(** [array_agg(DISTINCT column ORDER BY column)]. *)
Definition distinct_texts (l : list string) : list string := sort_by pg_text_le (remove_dups l).

(** The rows of one module and version are one group. *)
Definition affected_rows (id : ModuleID) (d : Database) : list AffectedModule :=
  let joined := flat_map (fun md =>
      flat_map (fun lcv =>
        map (fun cm => (module_Name cm, version_Version lcv, md))
          (List.filter (fun m => eqs (module_ID m) (dependency_ConsumerModuleID md)) (db_modules d)))
        (List.filter (fun v => eqs (version_ID v) (dependency_ConsumerModuleVersionID md)) (latest_published d)))
    (List.filter (fun x => eqs (dependency_ProviderModuleID x) id) (ct_dependencies (db_catalog d))) in
  let groups := sort_by (fun x y => pg_text_le x.1 y.1) (remove_dups (map fst joined)) in
  map (fun g =>
    let mds := map snd (List.filter (fun x => eqs x.1.1 g.1 && eqs x.1.2 g.2) joined) in
    mkAffectedModule g.1 g.2 (distinct_texts (map dependency_Source mds))
      (distinct_texts (List.filter (fun r => negb (r =? "")%string) (map dependency_Reason mds)))) groups.

Definition scanAffectedModule (a : AffectedModule) : result AffectedModule :=
  let? moduleName := NewModuleName (affected_ModuleName a) in
  let? version := NewVersion (affected_LatestVersion a) in
  Ok (mkAffectedModule moduleName version (affected_DependencySources a) (affected_Reasons a)).

Definition ListAffectedModules (providerModuleID : ModuleID) : M World (list AffectedModule) :=
  let! rows := map_err mapError (exec (T := Database) (
    let! id := uuid_param providerModuleID in gets (affected_rows id))) in
  scan_rows scanAffectedModule rows.

(** ** What versions provide *)

Fixpoint uuid_params {S} (ids : list string) : M S (list string) :=
  match ids with
  | [] => ret []
  | id :: ids' => let! c := uuid_param id in let! cs := uuid_params ids' in ret (c :: cs)
  end.

(** [JOIN module_versions mv ... JOIN modules m]. *)
Definition join_version {B} (versionID : ModuleVersionID) (d : Database) (f : Module_ -> ModuleVersion -> B) : list B :=
  flat_map (fun mv =>
    map (fun m => f m mv) (List.filter (fun m => eqs (module_ID m) (version_ModuleID mv)) (db_modules d)))
    (List.filter (fun v => eqs (version_ID v) versionID) (db_versions d)).

Definition provider_files (ids : list string) (d : Database) : list ProviderFile :=
  sort_by (then_by (text_order pf_Path) (text_order pf_ModuleName))
    (flat_map (fun pf => join_version (fileRow_ModuleVersionID pf) d (fun m mv =>
        mkProviderFile (fileRow_Path pf) (module_ID m) (module_Name m) (version_ID mv) (version_Version mv)))
      (List.filter (fun pf => in_list ids (fileRow_ModuleVersionID pf)) (ds_files (descriptors d)))).

Definition scanProviderFile (f : ProviderFile) : result ProviderFile :=
  let? moduleName := NewModuleName (pf_ModuleName f) in
  let? version := NewVersion (pf_Version f) in
  Ok (mkProviderFile (pf_Path f) (NewModuleID (pf_ModuleID f)) moduleName
        (NewModuleVersionID (pf_ModuleVersionID f)) version).

Definition ListProviderFiles (moduleVersionIDs : list ModuleVersionID) : M World (list ProviderFile) :=
  if (length moduleVersionIDs =? 0)%nat then ret [] else
  let! rows := map_err mapError (exec (T := Database) (
    let! ids := uuid_params moduleVersionIDs in gets (provider_files ids))) in
  scan_rows scanProviderFile rows.

Definition symbol_rows {A} (ids : list string) (versionID : A -> ModuleVersionID) (fullName packageName : A -> string)
    (table : list A) (d : Database) : list ProviderSymbol :=
  flat_map (fun x => join_version (versionID x) d (fun m mv =>
      mkProviderSymbol (fullName x) (packageName x) (module_ID m) (module_Name m) (version_ID mv) (version_Version mv)))
    (List.filter (fun x => in_list ids (versionID x)) table).

Definition provider_symbols (ids : list string) (d : Database) : list ProviderSymbol :=
  let ds := descriptors d in
  sort_by (then_by (text_order ps_FullName) (text_order ps_ModuleName))
    (symbol_rows ids messageRow_ModuleVersionID messageRow_FullName messageRow_PackageName (ds_messages ds) d
     ++ symbol_rows ids enumRow_ModuleVersionID enumRow_FullName enumRow_PackageName (ds_enums ds) d
     ++ symbol_rows ids serviceRow_ModuleVersionID serviceRow_FullName serviceRow_PackageName (ds_services ds) d)%list.

Definition scanProviderSymbol (s : ProviderSymbol) : result ProviderSymbol :=
  let? moduleName := NewModuleName (ps_ModuleName s) in
  let? version := NewVersion (ps_Version s) in
  Ok (mkProviderSymbol (ps_FullName s) (ps_PackageName s) (NewModuleID (ps_ModuleID s)) moduleName
        (NewModuleVersionID (ps_ModuleVersionID s)) version).

Definition ListProviderSymbols (moduleVersionIDs : list ModuleVersionID) : M World (list ProviderSymbol) :=
  if (length moduleVersionIDs =? 0)%nat then ret [] else
  let! rows := map_err mapError (exec (T := Database) (
    let! ids := uuid_params moduleVersionIDs in gets (provider_symbols ids))) in
  scan_rows scanProviderSymbol rows.
End Store.
