(* ===== verification/DependencyGraph.v ===== *)
(** * Dependencies between modules

    [usecase/dependencygraph/service.go]: what a version imports and which types
    it references is looked up in the latest versions of all other modules; each
    reference becomes an edge, an unresolved entry, or nothing. *)

From S2P Require Import Prelude Errors GoStrings JsonScan Domain Json Effects Postgres Outbox Events Tables World GovernanceStore UseCase CatalogStore DescriptorStore DependencyStore.

Open Scope string_scope.
Open Scope Z_scope.

Record RebuildModuleVersionDependenciesInput := mkRebuildInput {
  rebuild_ModuleID : ModuleID;
  rebuild_ModuleName : string;
  rebuild_ModuleVersionID : ModuleVersionID;
  rebuild_Version : string }.

Record RebuildModuleVersionDependenciesOutput := mkRebuildOutput {
  rebuilt_Module : Module_;
  rebuilt_Version : ModuleVersion;
  rebuilt_Dependencies : list ModuleDependency;
  rebuilt_Unresolved : list UnresolvedProtoDependency }.

(** ** The provider index

    Maps from a path or a symbol to the providers, in the order of the rows;
    the maps of the version itself are sets. *)

Record providerIndex := mkProviderIndex {
  index_files : gmap string (list ProviderFile);
  index_symbols : gmap string (list ProviderSymbol);
  index_selfFiles : gset string;
  index_selfSymbols : gset string }.

Definition normalizeSymbol (symbol : string) : string := TrimPrefix (TrimSpace symbol) ".".

Definition packageFromSymbol (symbol : string) : string :=
  let symbol := normalizeSymbol symbol in
  match last_index_byte "."%char symbol with
  | Some (S n) => take_string (S n) symbol
  | _ => ""
  end.

(** [index[key] = append(index[key], x)] for each [x]. *)
Definition index_by {A} (key : A -> string) (l : list A) : gmap string (list A) :=
  fold_left (fun m x => <[key x := (default [] (m !! key x) ++ [x])%list]> m) l ∅.

Fixpoint addMessageSymbols (symbols : gset string) (message : ProtoMessage) : gset string :=
  let symbols := {[normalizeSymbol (message_FullName message)]} ∪ symbols in
  let symbols := fold_left (fun s nested => addMessageSymbols s nested) (message_Messages message) symbols in
  fold_left (fun s enum => {[normalizeSymbol (enum_FullName enum)]} ∪ s) (message_Enums message) symbols.

(** The files and symbols of the version itself. *)
Definition add_self_file (index : providerIndex) (file : ProtoFile) : providerIndex :=
  let symbols := fold_left (fun s service => {[normalizeSymbol (protoService_FullName service)]} ∪ s)
                   (file_Services file) (index_selfSymbols index) in
  let symbols := fold_left addMessageSymbols (file_Messages file) symbols in
  let symbols := fold_left (fun s enum => {[normalizeSymbol (enum_FullName enum)]} ∪ s) (file_Enums file) symbols in
  mkProviderIndex (index_files index) (index_symbols index)
    ({[file_Path file]} ∪ index_selfFiles index) symbols.

Record providerRef := mkProviderRef {
  provider_ModuleID : ModuleID;
  provider_ModuleName : ModuleName;
  provider_ModuleVersionID : ModuleVersionID;
  provider_Version : Version }.

Definition providerFromFile (file : ProviderFile) : providerRef :=
  mkProviderRef (pf_ModuleID file) (pf_ModuleName file) (pf_ModuleVersionID file) (pf_Version file).
Definition providerFromSymbol (symbol : ProviderSymbol) : providerRef :=
  mkProviderRef (ps_ModuleID symbol) (ps_ModuleName symbol) (ps_ModuleVersionID symbol) (ps_Version symbol).

Definition nul : string := String "000" "".
Definition dependencyKey (consumerVersionID providerVersionID : ModuleVersionID) (source : DependencySource)
    (importPath referencedSymbol : string) : string :=
  consumerVersionID +:+ nul +:+ providerVersionID +:+ nul +:+ source +:+ nul +:+ importPath +:+ nul
  +:+ referencedSymbol.

(** ** Resolution

    The variables the closures [addDependency] and [addUnresolved] share. *)

Record Resolution := mkResolution {
  res_dependencies : list ModuleDependency;
  res_unresolved : list UnresolvedProtoDependency;
  res_seen : gset string }.

Section Resolve.
Context `{PG : !Postgres} `{ENV : !Env}.

Definition NewModuleDependencyID_ : M World ModuleDependencyID :=
  let! value := random_hex in ret (NewModuleDependencyID value).
Definition NewUnresolvedProtoDependencyID_ : M World UnresolvedProtoDependencyID :=
  let! value := random_hex in ret (NewUnresolvedProtoDependencyID value).

Section Version.
Variable module : Module_.
Variable moduleVersion : ModuleVersion.
Variable t : time.

Definition addDependency (provider : providerRef) (source : DependencySource)
    (reason : DependencyResolutionReason) (importPath referencedPackage referencedSymbol : string)
    (st : Resolution) : M World Resolution :=
  if eqs (provider_ModuleID provider) (module_ID module) then ret st else
  let key := dependencyKey (version_ID moduleVersion) (provider_ModuleVersionID provider) source importPath
               referencedSymbol in
  if decide (key ∈ res_seen st) then ret st else
  let! id := NewModuleDependencyID_ in
  ret (mkResolution
    (res_dependencies st ++ [mkModuleDependency id (module_ID module) (module_Name module)
       (version_ID moduleVersion) (version_Version moduleVersion) (provider_ModuleID provider)
       (provider_ModuleName provider) (provider_ModuleVersionID provider) (provider_Version provider) source
       reason importPath referencedPackage referencedSymbol t])%list
    (res_unresolved st) ({[key]} ∪ res_seen st)).

Definition addUnresolved (source : DependencySource) (importPath referencedPackage referencedSymbol : string)
    (reason : UnresolvedDependencyReason) (st : Resolution) : M World Resolution :=
  let! id := NewUnresolvedProtoDependencyID_ in
  ret (mkResolution (res_dependencies st)
    (res_unresolved st ++ [mkUnresolvedProtoDependency id (module_ID module) (module_Name module)
       (version_ID moduleVersion) (version_Version moduleVersion) source importPath referencedPackage
       referencedSymbol reason t])%list
    (res_seen st)).

Variable index : providerIndex.

(** [for _, x := range l { if err := body(x); err != nil { return err } }] over
    the shared variables. *)
Fixpoint foldM {A} (body : A -> Resolution -> M World Resolution) (l : list A) (st : Resolution)
    : M World Resolution :=
  match l with
  | [] => ret st
  | x :: l' => let! st := body x st in foldM body l' st
  end.

Definition resolveImport (protoImport : ProtoImport) (st : Resolution) : M World Resolution :=
  let path := import_Path protoImport in
  if IsWellKnownProtoImport path then ret st else
  if decide (path ∈ index_selfFiles index) then ret st else
  match default [] (index_files index !! path) with
  | [] => addUnresolved DependencySourceImport path "" "" UnresolvedDependencyReasonProviderNotFound st
  | [file] => addDependency (providerFromFile file) DependencySourceImport
                DependencyResolutionReasonImportPath path "" "" st
  | _ => addUnresolved DependencySourceImport path "" "" UnresolvedDependencyReasonAmbiguousProvider st
  end.

Definition resolveSymbolReference (source : DependencySource) (symbol : string) (st : Resolution)
    : M World Resolution :=
  let normalized := normalizeSymbol symbol in
  if (normalized =? "")%string || IsWellKnownProtoSymbol normalized then ret st else
  if decide (normalized ∈ index_selfSymbols index) then ret st else
  let referencedPackage := packageFromSymbol normalized in
  match default [] (index_symbols index !! normalized) with
  | [] => addUnresolved source "" referencedPackage normalized UnresolvedDependencyReasonProviderNotFound st
  | [s] => addDependency (providerFromSymbol s) source DependencyResolutionReasonSymbol "" referencedPackage
             normalized st
  | _ => addUnresolved source "" referencedPackage normalized UnresolvedDependencyReasonAmbiguousProvider st
  end.

Definition resolveField (field : ProtoField) (st : Resolution) : M World Resolution :=
  if (TrimSpace (field_TypeName field) =? "")%string then ret st else
  resolveSymbolReference DependencySourceTypeReference (field_TypeName field) st.

Fixpoint resolveMessageReferences (message : ProtoMessage) (st : Resolution) : M World Resolution :=
  let! st := foldM resolveField (message_Fields message) st in
  (fix nested (ms : list ProtoMessage) (st : Resolution) : M World Resolution :=
     match ms with
     | [] => ret st
     | m :: ms' => let! st := resolveMessageReferences m st in nested ms' st
     end) (message_Messages message) st.

Definition resolveMethod (method : ProtoMethod) (st : Resolution) : M World Resolution :=
  let! st := resolveSymbolReference DependencySourceMethodReference (method_InputType method) st in
  resolveSymbolReference DependencySourceMethodReference (method_OutputType method) st.

Definition resolveFile (file : ProtoFile) (st : Resolution) : M World Resolution :=
  let! st := foldM resolveImport (file_Imports file) st in
  let! st := foldM resolveMessageReferences (file_Messages file) st in
  foldM (fun service => foldM resolveMethod (protoService_Methods service)) (file_Services file) st.
End Version.

Definition resolveDependencies (module : Module_) (moduleVersion : ModuleVersion)
    (metadata : DescriptorMetadata) (index : providerIndex)
    : M World (list ModuleDependency * list UnresolvedProtoDependency) :=
  let! t := now in
  let index := fold_left add_self_file (metadata_Files metadata) index in
  let! st := foldM (resolveFile module moduleVersion t index) (metadata_Files metadata)
               (mkResolution [] [] ∅) in
  ret (res_dependencies st, res_unresolved st).

(** ** The service *)

Definition buildProviderIndex (consumerModuleID : ModuleID) : M World providerIndex :=
  let! latest := ListLatestPublishedModuleVersions in
  let ids := map version_ID (List.filter (fun v => negb (eqs (version_ModuleID v) consumerModuleID)) latest) in
  let! files := ListProviderFiles ids in
  let! symbols := ListProviderSymbols ids in
  ret (mkProviderIndex (index_by pf_Path files)
         (index_by (fun s => normalizeSymbol (ps_FullName s)) symbols) ∅ ∅).

Definition storeResolvedDependencies (module : Module_) (moduleVersion : ModuleVersion)
    (dependencies : list ModuleDependency) (unresolved : list UnresolvedProtoDependency) : M World unit :=
  let! _ := ReplaceByConsumerModuleVersion (version_ID moduleVersion) dependencies unresolved in
  let! t := now in
  write_outbox (NewModuleDependenciesUpdated (mkModuleDependenciesUpdated module moduleVersion
    (llen dependencies) (llen unresolved) t)).

Definition resolveModule (input : RebuildModuleVersionDependenciesInput) : M World Module_ :=
  if negb (rebuild_ModuleID input =? "")%string then Module_GetByID (rebuild_ModuleID input) else
  let! name := lift (NewModuleName (rebuild_ModuleName input)) in
  Module_GetByName name.

Definition resolveModuleVersion (moduleID : ModuleID) (input : RebuildModuleVersionDependenciesInput)
    : M World ModuleVersion :=
  if negb (rebuild_ModuleVersionID input =? "")%string then
    let! version := Version_GetByID (rebuild_ModuleVersionID input) in
    if negb (eqs (version_ModuleID version) moduleID) then fail domain.ErrNotFound else ret version
  else
    let! versionValue := lift (NewVersion (rebuild_Version input)) in
    GetByModuleAndVersion moduleID versionValue.

Definition RebuildModuleVersionDependencies (input : RebuildModuleVersionDependenciesInput)
    : M World RebuildModuleVersionDependenciesOutput :=
  let! module := resolveModule input in
  let! moduleVersion := resolveModuleVersion (module_ID module) input in
  let! metadata := Metadata_GetByModuleVersion (version_ID moduleVersion) in
  let! index := buildProviderIndex (module_ID module) in
  let! (dependencies, unresolved) := resolveDependencies module moduleVersion metadata index in
  let! _ := WithinTransaction (storeResolvedDependencies module moduleVersion dependencies unresolved) in
  ret (mkRebuildOutput module moduleVersion dependencies unresolved).

Definition RebuildPublishedModuleVersionDependencies (module : Module_) (version : ModuleVersion)
    (metadata : DescriptorMetadata) : M World (list ModuleDependency * list UnresolvedProtoDependency) :=
  let! index := buildProviderIndex (module_ID module) in
  let! (dependencies, unresolved) := resolveDependencies module version metadata index in
  let! _ := storeResolvedDependencies module version dependencies unresolved in
  ret (dependencies, unresolved).
End Resolve.

(** ** What resolution computes

    The references of a descriptor in the order they are visited, and the answer
    for each, from the lists of providers. *)

Inductive reference := RImport (path : string) | RSymbol (source : DependencySource) (symbol : string).

Definition field_references (field : ProtoField) : list reference :=
  if (TrimSpace (field_TypeName field) =? "")%string then []
  else [RSymbol DependencySourceTypeReference (field_TypeName field)].
Fixpoint message_references (m : ProtoMessage) : list reference :=
  flat_map field_references (message_Fields m) ++ flat_map message_references (message_Messages m).
Definition method_references (m : ProtoMethod) : list reference :=
  [RSymbol DependencySourceMethodReference (method_InputType m);
   RSymbol DependencySourceMethodReference (method_OutputType m)].
Definition file_references (f : ProtoFile) : list reference :=
  map (fun i => RImport (import_Path i)) (file_Imports f) ++ flat_map message_references (file_Messages f)
  ++ flat_map (fun s => flat_map method_references (protoService_Methods s)) (file_Services f).
Definition references_of (metadata : DescriptorMetadata) : list reference :=
  flat_map file_references (metadata_Files metadata).

(** The names a descriptor declares. *)
Fixpoint message_symbols (m : ProtoMessage) : list string :=
  message_FullName m :: flat_map message_symbols (message_Messages m) ++ map enum_FullName (message_Enums m).
Definition file_symbols (f : ProtoFile) : list string :=
  map protoService_FullName (file_Services f) ++ flat_map message_symbols (file_Messages f)
  ++ map enum_FullName (file_Enums f).
Definition declares (metadata : DescriptorMetadata) (symbol : string) : Prop :=
  exists f s, f ∈ metadata_Files metadata /\ s ∈ file_symbols f /\ normalizeSymbol s = symbol.
Definition has_file (metadata : DescriptorMetadata) (path : string) : Prop :=
  path ∈ map file_Path (metadata_Files metadata).

Lemma declares_iff metadata symbol :
  declares metadata symbol
  <-> symbol ∈ flat_map (fun f => map normalizeSymbol (file_symbols f)) (metadata_Files metadata).
Proof.
  rewrite list_elem_of_In, in_flat_map. unfold declares. split.
  - intros (f & s & Hf & Hs & E). exists f. rewrite in_map_iff. split; [by apply list_elem_of_In|].
    exists s. by rewrite <- list_elem_of_In.
  - intros (f & Hf & (s & E & Hs)%in_map_iff). exists f, s. by rewrite !list_elem_of_In.
Qed.

#[export] Instance declares_dec metadata symbol : Decision (declares metadata symbol).
Proof.
  destruct (decide (symbol ∈ flat_map (fun f => map normalizeSymbol (file_symbols f)) (metadata_Files metadata)))
    as [H|H]; [left|right]; by rewrite declares_iff.
Defined.
#[export] Instance has_file_dec metadata path : Decision (has_file metadata path).
Proof. unfold has_file. apply _. Defined.

Inductive answer := Ignored | Edge (provider : providerRef) | Unresolved_ (reason : UnresolvedDependencyReason).

Definition answer_of (providers : list providerRef) : answer :=
  match providers with
  | [] => Unresolved_ UnresolvedDependencyReasonProviderNotFound
  | [p] => Edge p
  | _ => Unresolved_ UnresolvedDependencyReasonAmbiguousProvider
  end.

(** The columns of an edge and of an unresolved entry that come from the
    reference. *)
Record edge := mkEdge {
  edge_provider : providerRef;
  edge_source : DependencySource;
  edge_reason : DependencyResolutionReason;
  edge_importPath : string;
  edge_package : string;
  edge_symbol : string }.

Section Spec.
Context (module : Module_) (moduleVersion : ModuleVersion) (metadata : DescriptorMetadata).
Context (files : list ProviderFile) (symbols : list ProviderSymbol).

Definition classify (r : reference) : answer :=
  match r with
  | RImport path =>
      if IsWellKnownProtoImport path then Ignored else
      if decide (has_file metadata path) then Ignored else
      answer_of (map providerFromFile (List.filter (fun f => eqs (pf_Path f) path) files))
  | RSymbol _ symbol =>
      let n := normalizeSymbol symbol in
      if (n =? "")%string || IsWellKnownProtoSymbol n then Ignored else
      if decide (declares metadata n) then Ignored else
      answer_of (map providerFromSymbol (List.filter (fun s => eqs (normalizeSymbol (ps_FullName s)) n) symbols))
  end.

Definition edge_for (r : reference) (p : providerRef) : edge :=
  match r with
  | RImport path => mkEdge p DependencySourceImport DependencyResolutionReasonImportPath path "" ""
  | RSymbol source symbol =>
      let n := normalizeSymbol symbol in
      mkEdge p source DependencyResolutionReasonSymbol "" (packageFromSymbol n) n
  end.

(** References to the module itself are no edges. *)
Definition edge_of (r : reference) : option edge :=
  match classify r with
  | Edge p => if eqs (provider_ModuleID p) (module_ID module) then None else Some (edge_for r p)
  | _ => None
  end.

Definition unresolved_of (r : reference)
    : option (DependencySource * string * string * string * UnresolvedDependencyReason) :=
  match classify r with
  | Unresolved_ reason =>
      Some match r with
           | RImport path => (DependencySourceImport, path, "", "", reason)
           | RSymbol source symbol =>
               let n := normalizeSymbol symbol in (source, "", packageFromSymbol n, n, reason)
           end
  | _ => None
  end.

Definition edge_key (e : edge) : string :=
  dependencyKey (version_ID moduleVersion) (provider_ModuleVersionID (edge_provider e)) (edge_source e)
    (edge_importPath e) (edge_symbol e).

(** Of the edges with the same key, the first. *)
Definition add_edge (l : list edge) (e : edge) : list edge :=
  if decide (edge_key e ∈ map edge_key l) then l else (l ++ [e])%list.
Definition first_edges (l : list edge) : list edge := fold_left add_edge l [].

Definition expected_edges : list edge := first_edges (omap edge_of (references_of metadata)).
Definition expected_unresolved := omap unresolved_of (references_of metadata).
End Spec.

Definition dependency_edge (d : ModuleDependency) : edge :=
  mkEdge (mkProviderRef (dependency_ProviderModuleID d) (dependency_ProviderModuleName d)
            (dependency_ProviderModuleVersionID d) (dependency_ProviderVersion d))
    (dependency_Source d) (dependency_Reason d) (dependency_ImportPath d) (dependency_ReferencedPackage d)
    (dependency_ReferencedSymbol d).
Definition unresolved_columns (u : UnresolvedProtoDependency) :=
  (unresolved_Source u, unresolved_ImportPath u, unresolved_ReferencedPackage u, unresolved_ReferencedSymbol u,
   unresolved_Reason u).
Definition dependency_consumer (d : ModuleDependency) :=
  (dependency_ConsumerModuleID d, dependency_ConsumerModuleName d, dependency_ConsumerModuleVersionID d,
   dependency_ConsumerVersion d, dependency_CreatedAt d).
Definition unresolved_consumer (u : UnresolvedProtoDependency) :=
  (unresolved_ModuleID u, unresolved_ModuleName u, unresolved_ModuleVersionID u, unresolved_Version u,
   unresolved_CreatedAt u).

(** *** The index answers as the lists do *)

Lemma index_by_lookup {A} (key : A -> string) (l : list A) k :
  default [] (index_by key l !! k) = List.filter (fun x => eqs (key x) k) l.
Proof.
  unfold index_by. assert (H : forall m : gmap string (list A),
    default [] (fold_left (fun m x => <[key x := (default [] (m !! key x) ++ [x])%list]> m) l m !! k)
    = (default [] (m !! k) ++ List.filter (fun x => eqs (key x) k) l)%list).
  { induction l as [|x l IH]; intros m; simpl; [by rewrite app_nil_r|]. rewrite IH.
    destruct (eqs (key x) k) eqn:E.
    - apply eqs_true in E. subst. rewrite lookup_insert_eq. simpl. by rewrite <- app_assoc.
    - apply eqs_false in E. by rewrite lookup_insert_ne. }
  rewrite H. by rewrite lookup_empty.
Qed.

Lemma fold_union {A} (f : A -> string) (l : list A) (s : gset string) x :
  x ∈ fold_left (fun s a => {[f a]} ∪ s) l s <-> x ∈ s \/ x ∈ map f l.
Proof.
  revert s. induction l as [|a l IH]; intros s; simpl; [set_solver|]. rewrite IH. set_solver.
Qed.

(** A fold that adds the names [g a] of each element. *)
Lemma fold_names {A} (step : gset string -> A -> gset string) (g : A -> list string) (l : list A) s x :
  (forall a, a ∈ l -> forall s x, x ∈ step s a <-> x ∈ s \/ x ∈ g a) ->
  x ∈ fold_left step l s <-> x ∈ s \/ x ∈ flat_map g l.
Proof.
  revert s. induction l as [|a l IH]; intros s H; simpl; [set_solver|].
  rewrite IH, H by set_solver. rewrite elem_of_app. set_solver.
Qed.

Lemma addMessageSymbols_spec m : forall s x,
  x ∈ addMessageSymbols s m <-> x ∈ s \/ x ∈ map normalizeSymbol (message_symbols m).
Proof.
  induction m as [m IH] using message_ind'. intros s x. destruct m as [a b c ms es].
  cbn [addMessageSymbols message_symbols message_Messages message_Enums message_FullName] in *.
  rewrite (fold_union (fun e => normalizeSymbol (enum_FullName e))).
  rewrite (fold_names _ (fun m => map normalizeSymbol (message_symbols m))) by (intros; by apply IH).
  cbn [map]. rewrite map_app, map_flat_map, map_map. set_solver.
Qed.

Lemma add_self_file_spec index f x :
  (x ∈ index_selfFiles (add_self_file index f) <-> x ∈ index_selfFiles index \/ x = file_Path f)
  /\ (x ∈ index_selfSymbols (add_self_file index f)
      <-> x ∈ index_selfSymbols index \/ x ∈ map normalizeSymbol (file_symbols f)).
Proof.
  split; [cbn; set_solver|]. unfold add_self_file. cbn [index_selfSymbols].
  rewrite (fold_union (fun e => normalizeSymbol (enum_FullName e))).
  rewrite (fold_names _ (fun m => map normalizeSymbol (message_symbols m)))
    by (intros; by apply addMessageSymbols_spec).
  rewrite (fold_union (fun s => normalizeSymbol (protoService_FullName s))).
  unfold file_symbols. rewrite !map_app, map_flat_map, !map_map. set_solver.
Qed.

Lemma self_index_spec metadata index x :
  let index' := fold_left add_self_file (metadata_Files metadata) index in
  index_files index' = index_files index /\ index_symbols index' = index_symbols index
  /\ (x ∈ index_selfFiles index' <-> x ∈ index_selfFiles index \/ has_file metadata x)
  /\ (x ∈ index_selfSymbols index' <-> x ∈ index_selfSymbols index \/ declares metadata x).
Proof.
  cbn zeta. rewrite declares_iff. unfold has_file. generalize (metadata_Files metadata) as fs. intros fs.
  revert index. induction fs as [|f fs IH]; intros index; cbn [fold_left map flat_map].
  { split_and!; [done..| |]; rewrite elem_of_nil; tauto. }
  destruct (IH (add_self_file index f)) as (H1 & H2 & H3 & H4).
  pose proof (add_self_file_spec index f x) as [S1 S2].
  rewrite H1, H2, H3, H4, S1, S2, elem_of_app, elem_of_cons. split_and!; [done..|tauto|tauto].
Qed.

(** *** The loops visit the references *)

Section Walk.
Context `{PG : !Postgres} `{ENV : !Env}.
Context (module : Module_) (moduleVersion : ModuleVersion) (t : time) (index : providerIndex).

Definition resolveReference (r : reference) (st : Resolution) : M World Resolution :=
  match r with
  | RImport path => resolveImport module moduleVersion t index (mkProtoImport path false false) st
  | RSymbol source symbol => resolveSymbolReference module moduleVersion t index source symbol st
  end.

Lemma foldM_app {A} (body : A -> Resolution -> M World Resolution) l1 l2 st w :
  foldM body (l1 ++ l2)%list st w = (let! st := foldM body l1 st in foldM body l2 st) w.
Proof.
  revert st w. induction l1 as [|x l1 IH]; intros st w; [done|]. cbn [foldM app].
  rewrite bind_assoc. apply bind_ext. intros. apply IH.
Qed.

(** Each element visits its references in order. *)
Lemma foldM_references {A} (body : A -> Resolution -> M World Resolution) (refs : A -> list reference) l st w :
  (forall x, x ∈ l -> forall st w, body x st w = foldM resolveReference (refs x) st w) ->
  foldM body l st w = foldM resolveReference (flat_map refs l) st w.
Proof.
  revert st w. induction l as [|x l IH]; intros st w H; [done|]. cbn [foldM flat_map]. rewrite foldM_app.
  unfold bind. rewrite (H x) by set_solver. destruct (foldM _ (refs x) st w) as [[st'|e] w']; [|done].
  apply IH. set_solver.
Qed.

Lemma foldM_one r st w : foldM resolveReference [r] st w = resolveReference r st w.
Proof. cbn [foldM]. unfold bind, ret. by destruct (resolveReference r st w) as [[]]. Qed.

Lemma resolveField_references f st w :
  resolveField module moduleVersion t index f st w = foldM resolveReference (field_references f) st w.
Proof.
  unfold resolveField, field_references. destruct (_ =? _)%string; [done|]. by rewrite foldM_one.
Qed.

Lemma resolveMessage_references m : forall st w,
  resolveMessageReferences module moduleVersion t index m st w
  = foldM resolveReference (message_references m) st w.
Proof.
  induction m as [m IH] using message_ind'. intros st w. destruct m as [a b fields ms es].
  cbn [resolveMessageReferences message_references message_Fields message_Messages] in *.
  rewrite foldM_app. apply bind_cong; [apply foldM_references; intros; apply resolveField_references|].
  clear st w. intros st w.
  rewrite <- (foldM_references (resolveMessageReferences module moduleVersion t index)) by exact IH.
  clear. revert st w. induction ms as [|m ms IH]; intros st w; [done|]. cbn [foldM].
  apply bind_ext. intros. apply IH.
Qed.

Lemma resolveMethod_references m st w :
  resolveMethod module moduleVersion t index m st w = foldM resolveReference (method_references m) st w.
Proof.
  unfold resolveMethod, method_references. cbn [foldM resolveReference]. apply bind_ext. intros st' w'.
  unfold bind, ret. by destruct (resolveSymbolReference _ _ _ _ _ _ st' w') as [[]].
Qed.

Lemma resolveFile_references f st w :
  resolveFile module moduleVersion t index f st w = foldM resolveReference (file_references f) st w.
Proof.
  unfold resolveFile, file_references. rewrite foldM_app. apply bind_cong.
  { rewrite (foldM_references _ (fun i => [RImport (import_Path i)])) by (intros; by rewrite foldM_one).
    done. }
  intros st1 w1. rewrite foldM_app. apply bind_cong.
  { apply foldM_references. intros. apply resolveMessage_references. }
  intros st2 w2. apply (foldM_references _ (fun s => flat_map method_references (protoService_Methods s))).
  intros s _ st' w'. apply foldM_references. intros. apply resolveMethod_references.
Qed.
End Walk.

(** *** The state after some references *)

Lemma add_edge_snoc moduleVersion l e :
  first_edges moduleVersion (l ++ [e]) = add_edge moduleVersion (first_edges moduleVersion l) e.
Proof. unfold first_edges. by rewrite fold_left_app. Qed.

Lemma first_edges_keys moduleVersion l : NoDup (map (edge_key moduleVersion) (first_edges moduleVersion l)).
Proof.
  induction l as [|e l IH] using rev_ind; [constructor|]. rewrite add_edge_snoc. unfold add_edge.
  destruct (decide _) as [H|H]; [done|]. rewrite map_app. apply NoDup_app. split_and!; [done| |apply NoDup_singleton].
  intros k Hk. cbn. rewrite list_elem_of_singleton. by intros ->.
Qed.

Section Resolved.
Context `{PG : !Postgres} `{ENV : !Env}.
Context (module : Module_) (moduleVersion : ModuleVersion) (metadata : DescriptorMetadata) (t : time).
Context (files : list ProviderFile) (symbols : list ProviderSymbol).

Definition fresh_index : providerIndex :=
  mkProviderIndex (index_by pf_Path files) (index_by (fun s => normalizeSymbol (ps_FullName s)) symbols) ∅ ∅.
Let index := fold_left add_self_file (metadata_Files metadata) fresh_index.

(** What the shared variables hold after the references [refs]. *)
Record resolved (refs : list reference) (st : Resolution) : Prop := mk_resolved {
  resolved_edges : map dependency_edge (res_dependencies st)
    = first_edges moduleVersion (omap (edge_of module metadata files symbols) refs);
  resolved_unresolved : map unresolved_columns (res_unresolved st)
    = omap (unresolved_of metadata files symbols) refs;
  resolved_seen k : k ∈ res_seen st
    <-> k ∈ map (edge_key moduleVersion) (map dependency_edge (res_dependencies st));
  resolved_consumers : Forall (fun d => dependency_consumer d
    = (module_ID module, module_Name module, version_ID moduleVersion, version_Version moduleVersion, t))
    (res_dependencies st);
  resolved_versions : Forall (fun u => unresolved_consumer u
    = (module_ID module, module_Name module, version_ID moduleVersion, version_Version moduleVersion, t))
    (res_unresolved st) }.

(** A step that only reads the world and, unless no random bytes come, does
    what [Q] says. *)
Definition step_ok {A} (m : M World A) (Q : A -> Prop) : Prop := forall w,
  same_db w (m w).2 /\ match (m w).1 with Ok a => Q a | Err e => exists n, env_rand n = Err e end.

Lemma step_ok_ret {A} (a : A) (Q : A -> Prop) : Q a -> step_ok (ret a) Q.
Proof. intros H w. split; [reflexivity|done]. Qed.

Lemma step_ok_bind {A B} (m : M World A) (k : A -> M World B) (Q : A -> Prop) (R : B -> Prop) :
  step_ok m Q -> (forall a, Q a -> step_ok (k a) R) -> step_ok (bind m k) R.
Proof.
  intros Hm Hk w. unfold bind. destruct (Hm w) as [Hs Hq]. destruct (m w) as [[a|e] w']; [|done].
  destruct (Hk a Hq w') as [Hs' Hq']. split; [by etrans|done].
Qed.

Lemma step_ok_id (new : string -> string) :
  step_ok (let! value := random_hex in ret (new value)) (fun _ => True).
Proof.
  intros w. unfold bind, random_hex, ret. cbn. destruct (env_rand (w_tick w)) eqn:E; cbn; [done|].
  split; [done|eauto].
Qed.

Lemma omap_snoc {A B} (f : A -> option B) l x :
  omap f (l ++ [x])%list = (omap f l ++ match f x with Some y => [y] | None => [] end)%list.
Proof. by rewrite omap_app. Qed.

Lemma addDependency_ok refs r p reason source importPath package symbol st :
  resolved refs st -> classify metadata files symbols r = Edge p ->
  edge_for r p = mkEdge p source reason importPath package symbol ->
  step_ok (addDependency module moduleVersion t p source reason importPath package symbol st)
    (resolved (refs ++ [r])).
Proof.
  intros [H1 H2 H3 H4 H5] Hc He. unfold addDependency.
  assert (Hu : unresolved_of metadata files symbols r = None) by (unfold unresolved_of; by rewrite Hc).
  assert (Hedge : edge_of module metadata files symbols r
    = if eqs (provider_ModuleID p) (module_ID module) then None else Some (edge_for r p))
    by (unfold edge_of; by rewrite Hc).
  destruct (eqs (provider_ModuleID p) (module_ID module)).
  { apply step_ok_ret. constructor; [|rewrite omap_snoc, Hu, app_nil_r; done|done..].
    by rewrite omap_snoc, Hedge, app_nil_r. }
  assert (Hkey : edge_key moduleVersion (edge_for r p)
    = dependencyKey (version_ID moduleVersion) (provider_ModuleVersionID p) source importPath symbol) by by rewrite He.
  case_decide as Hin.
  - apply step_ok_ret. constructor; [|rewrite omap_snoc, Hu, app_nil_r; done|done..].
    rewrite omap_snoc, Hedge, add_edge_snoc. unfold add_edge. rewrite decide_True; [done|].
    rewrite <- H1, Hkey. by apply H3.
  - eapply step_ok_bind; [apply step_ok_id|]. intros id _. apply step_ok_ret.
    constructor; cbn [res_dependencies res_unresolved res_seen].
    + rewrite omap_snoc, Hedge, add_edge_snoc, map_app, H1. unfold add_edge. rewrite decide_False.
      * f_equal. cbn. rewrite He. by destruct p.
      * rewrite <- H1, Hkey. by rewrite <- H3.
    + by rewrite omap_snoc, Hu, app_nil_r.
    + intros k. rewrite elem_of_union, elem_of_singleton, H3, !map_app, elem_of_app.
      cbn [map]. rewrite list_elem_of_singleton. cbn. tauto.
    + apply Forall_app. split; [done|by constructor].
    + done.
Qed.

Lemma addUnresolved_ok refs r reason source importPath package symbol st :
  resolved refs st -> classify metadata files symbols r = Unresolved_ reason ->
  unresolved_of metadata files symbols r = Some (source, importPath, package, symbol, reason) ->
  step_ok (addUnresolved module moduleVersion t source importPath package symbol reason st)
    (resolved (refs ++ [r])).
Proof.
  intros [H1 H2 H3 H4 H5] Hc Hu. unfold addUnresolved.
  eapply step_ok_bind; [apply step_ok_id|]. intros id _. apply step_ok_ret.
  assert (He : edge_of module metadata files symbols r = None) by (unfold edge_of; by rewrite Hc).
  constructor; cbn [res_dependencies res_unresolved res_seen]; [..|done|done|].
  - by rewrite omap_snoc, He, app_nil_r.
  - by rewrite omap_snoc, Hu, map_app, H2.
  - apply Forall_app. split; [done|by constructor].
Qed.

Lemma ignored_ok refs r st : resolved refs st -> classify metadata files symbols r = Ignored ->
  step_ok (ret st) (resolved (refs ++ [r])).
Proof.
  intros [H1 H2 H3 H4 H5] Hc. apply step_ok_ret.
  assert (He : edge_of module metadata files symbols r = None) by (unfold edge_of; by rewrite Hc).
  assert (Hu : unresolved_of metadata files symbols r = None) by (unfold unresolved_of; by rewrite Hc).
  constructor; [by rewrite omap_snoc, He, app_nil_r|by rewrite omap_snoc, Hu, app_nil_r|done..].
Qed.

Lemma index_self_files path : path ∈ index_selfFiles index <-> has_file metadata path.
Proof. unfold index. destruct (self_index_spec metadata fresh_index path) as (_ & _ & -> & _). cbn. set_solver. Qed.
Lemma index_self_symbols symbol : symbol ∈ index_selfSymbols index <-> declares metadata symbol.
Proof.
  unfold index. destruct (self_index_spec metadata fresh_index symbol) as (_ & _ & _ & ->). cbn. set_solver.
Qed.
Lemma index_files_at path :
  default [] (index_files index !! path) = List.filter (fun f => eqs (pf_Path f) path) files.
Proof.
  unfold index. destruct (self_index_spec metadata fresh_index path) as (-> & _). apply index_by_lookup.
Qed.
Lemma index_symbols_at symbol :
  default [] (index_symbols index !! symbol)
  = List.filter (fun s => eqs (normalizeSymbol (ps_FullName s)) symbol) symbols.
Proof.
  unfold index. destruct (self_index_spec metadata fresh_index symbol) as (_ & -> & _). apply index_by_lookup.
Qed.

Lemma resolveReference_ok refs r st :
  resolved refs st ->
  step_ok (resolveReference module moduleVersion t index r st) (resolved (refs ++ [r])).
Proof.
  intros Hr. destruct r as [path|source symbol]; cbn [resolveReference].
  - unfold resolveImport. cbn [import_Path].
    assert (Hc : classify metadata files symbols (RImport path) = if IsWellKnownProtoImport path then Ignored else
      if decide (path ∈ index_selfFiles index) then Ignored else
      answer_of (map providerFromFile (List.filter (fun f => eqs (pf_Path f) path) files))).
    { cbn [classify]. destruct (IsWellKnownProtoImport path); [done|].
      by rewrite (decide_ext _ _ _ _ (iff_sym (index_self_files path))). }
    destruct (IsWellKnownProtoImport path); [by apply ignored_ok|].
    destruct (decide _); [by apply ignored_ok|]. rewrite index_files_at.
    destruct (List.filter _ files) as [|f [|f' l]]; cbn [map answer_of] in Hc.
    + apply addUnresolved_ok; [done..|]. unfold unresolved_of. by rewrite Hc.
    + by apply addDependency_ok.
    + apply addUnresolved_ok; [done..|]. unfold unresolved_of. by rewrite Hc.
  - unfold resolveSymbolReference. set (n := normalizeSymbol symbol).
    assert (Hc : classify metadata files symbols (RSymbol source symbol)
      = if (n =? "")%string || IsWellKnownProtoSymbol n then Ignored else
        if decide (n ∈ index_selfSymbols index) then Ignored else
        answer_of (map providerFromSymbol (List.filter (fun s => eqs (normalizeSymbol (ps_FullName s)) n) symbols))).
    { cbn [classify]. fold n. destruct (_ || _); [done|].
      by rewrite (decide_ext _ _ _ _ (iff_sym (index_self_symbols n))). }
    destruct (_ || _); [by apply ignored_ok|].
    destruct (decide _); [by apply ignored_ok|]. rewrite index_symbols_at.
    destruct (List.filter _ symbols) as [|f [|f' l]]; cbn [map answer_of] in Hc.
    + apply addUnresolved_ok; [done..|]. unfold unresolved_of. by rewrite Hc.
    + by apply addDependency_ok.
    + apply addUnresolved_ok; [done..|]. unfold unresolved_of. by rewrite Hc.
Qed.

Lemma resolve_all_ok refs refs' st :
  resolved refs st ->
  step_ok (foldM (resolveReference module moduleVersion t index) refs' st) (resolved (refs ++ refs')).
Proof.
  revert refs st. induction refs' as [|r refs' IH]; intros refs st Hr; cbn [foldM].
  - rewrite app_nil_r. by apply step_ok_ret.
  - eapply step_ok_bind; [by apply resolveReference_ok|]. intros st' Hst'.
    replace (refs ++ r :: refs')%list with ((refs ++ [r]) ++ refs')%list by by rewrite <- app_assoc.
    by apply IH.
Qed.

Lemma resolve_files_ok :
  step_ok (foldM (resolveFile module moduleVersion t index) (metadata_Files metadata) (mkResolution [] [] ∅))
    (resolved (references_of metadata)).
Proof.
  intros w. rewrite (foldM_references module moduleVersion t index _ file_references)
    by (intros; apply resolveFile_references).
  apply (resolve_all_ok [] (references_of metadata)).
  constructor; cbn; [done..| |constructor|constructor]. intros k. set_solver.
Qed.
End Resolved.

(** What [resolveDependencies] returns. *)
Record resolution_of (module : Module_) (moduleVersion : ModuleVersion) (metadata : DescriptorMetadata)
    (files : list ProviderFile) (symbols : list ProviderSymbol) (t : time)
    (dependencies : list ModuleDependency) (unresolved : list UnresolvedProtoDependency) : Prop := mk_resolution_of {
  rs_edges : map dependency_edge dependencies = expected_edges module moduleVersion metadata files symbols;
  rs_unresolved : map unresolved_columns unresolved = expected_unresolved metadata files symbols;
  rs_consumers : Forall (fun d => dependency_consumer d
    = (module_ID module, module_Name module, version_ID moduleVersion, version_Version moduleVersion, t)) dependencies;
  rs_versions : Forall (fun u => unresolved_consumer u
    = (module_ID module, module_Name module, version_ID moduleVersion, version_Version moduleVersion, t)) unresolved }.

Lemma resolveDependencies_ok `{PG : !Postgres} `{ENV : !Env} module moduleVersion metadata files symbols w :
  let m := resolveDependencies module moduleVersion metadata (fresh_index files symbols) w in
  same_db w m.2
  /\ match m.1 with
     | Ok (dependencies, unresolved) =>
         resolution_of module moduleVersion metadata files symbols (env_now (w_tick w)) dependencies unresolved
     | Err e => exists n, env_rand n = Err e
     end.
Proof.
  cbn zeta. unfold resolveDependencies. unfold bind at 1 3, now.
  destruct (resolve_files_ok module moduleVersion metadata (env_now (w_tick w)) files symbols (tick w)) as [Hs Hr].
  unfold bind, ret. destruct (foldM _ _ _ (tick w)) as [[st|e] w']; cbn [fst snd] in *.
  - split; [exact Hs|]. destruct Hr as [H1 H2 _ H4 H5]. by constructor.
  - split; [exact Hs|exact Hr].
Qed.

(** ** What a rebuild does to the tables *)

Lemma scan_rows_mapM {A B} (scan : A -> result B) rows w l w' :
  scan_rows scan rows w = (Ok l, w') -> result_mapM scan rows = Ok l /\ w' = w.
Proof.
  unfold scan_rows. revert l w'. induction rows as [|x rows IH]; intros l w' H; cbn [mapM result_mapM] in *.
  { by injection H as <- <-. }
  apply bind_Ok in H as (y & w1 & [Hy ->]%lift_Ok & H). apply bind_Ok in H as (ys & w2 & H & [-> ->]%ret_Ok).
  apply IH in H as [H ->]. by rewrite Hy, H.
Qed.

(** The providers the tables offer to a module. *)
Definition provider_ids `{PG : !Postgres} (d : Database) (moduleID : ModuleID) : result (list string) :=
  let? latest := result_mapM scanModuleVersion (latest_published d) in
  Ok (map version_ID (List.filter (fun v => negb (eqs (version_ModuleID v) moduleID)) latest)).

Fixpoint uuids_canon `{PG : !Postgres} (ids : list string) : option (list string) :=
  match ids with
  | [] => Some []
  | id :: ids' => match uuid_canon id, uuids_canon ids' with Some c, Some cs => Some (c :: cs) | _, _ => None end
  end.

Definition offers `{PG : !Postgres} (d : Database) (moduleID : ModuleID) (files : list ProviderFile)
    (symbols : list ProviderSymbol) : Prop :=
  exists ids cs, provider_ids d moduleID = Ok ids /\ uuids_canon ids = Some cs
    /\ result_mapM scanProviderFile (provider_files cs d) = Ok files
    /\ result_mapM scanProviderSymbol (provider_symbols cs d) = Ok symbols.

(** A stored row has the canonical identifiers and the columns of its value. *)
Definition dependency_row `{PG : !Postgres} (x row : ModuleDependency) : Prop :=
  uuid_canon (dependency_ID x) = Some (dependency_ID row)
  /\ uuid_canon (dependency_ConsumerModuleID x) = Some (dependency_ConsumerModuleID row)
  /\ uuid_canon (dependency_ConsumerModuleVersionID x) = Some (dependency_ConsumerModuleVersionID row)
  /\ uuid_canon (dependency_ProviderModuleID x) = Some (dependency_ProviderModuleID row)
  /\ uuid_canon (dependency_ProviderModuleVersionID x) = Some (dependency_ProviderModuleVersionID row)
  /\ dependency_Source row = dependency_Source x /\ dependency_Reason row = dependency_Reason x
  /\ dependency_ImportPath row = dependency_ImportPath x
  /\ dependency_ReferencedPackage row = dependency_ReferencedPackage x
  /\ dependency_ReferencedSymbol row = dependency_ReferencedSymbol x
  /\ (dependency_CreatedAt x <> 0 -> dependency_CreatedAt row = dependency_CreatedAt x).
Definition unresolved_row `{PG : !Postgres} (x row : UnresolvedProtoDependency) : Prop :=
  uuid_canon (unresolved_ID x) = Some (unresolved_ID row)
  /\ uuid_canon (unresolved_ModuleID x) = Some (unresolved_ModuleID row)
  /\ uuid_canon (unresolved_ModuleVersionID x) = Some (unresolved_ModuleVersionID row)
  /\ unresolved_columns row = unresolved_columns x
  /\ (unresolved_CreatedAt x <> 0 -> unresolved_CreatedAt row = unresolved_CreatedAt x).

(** The tables with the entries of a version replaced. *)
Definition replaced_db (d : Database) (versionID : ModuleVersionID) (rows : list ModuleDependency)
    (urows : list UnresolvedProtoDependency) : Database :=
  set_catalog (fun c => set_unresolved (fun l =>
      List.filter (fun x => negb (eqs (unresolved_ModuleVersionID x) versionID)) l ++ urows)%list
    (set_dependencies (fun l =>
      List.filter (fun x => negb (eqs (dependency_ConsumerModuleVersionID x) versionID)) l ++ rows)%list c)) d.

Section Store.
Context `{PG : !Postgres} `{ENV : !Env}.

Lemma timeOrNow_Ok value w t w' :
  timeOrNow value w = (Ok t, w') -> same_db w w' /\ (value <> 0 -> t = value).
Proof.
  unfold timeOrNow, IsZero. destruct (value =? 0) eqn:E; intros H.
  - injection H as _ <-. split; [done|]. intros Hv. lia.
  - injection H as <- <-. split; [reflexivity|done].
Qed.

Lemma createDependency_Ok x w u w' :
  createDependency x w = (Ok u, w') ->
  exists row, dependency_row x row /\ w_tx w' = w_tx w
    /\ w_db w' = set_catalog (set_dependencies (fun l => l ++ [row])%list) (w_db w).
Proof.
  intros H. unfold createDependency in H. apply bind_Ok in H as (t & w1 & [[E1 E2] Ht]%timeOrNow_Ok & H).
  rewrite <- E1, <- E2. stmt_inv H. eexists. split; [|split; [done|done]].
  unfold dependency_row. cbn. split_and!; done.
Qed.

Lemma createUnresolvedDependency_Ok x w u w' :
  createUnresolvedDependency x w = (Ok u, w') ->
  exists row, unresolved_row x row /\ w_tx w' = w_tx w
    /\ w_db w' = set_catalog (set_unresolved (fun l => l ++ [row])%list) (w_db w).
Proof.
  intros H. unfold createUnresolvedDependency in H. apply bind_Ok in H as (t & w1 & [[E1 E2] Ht]%timeOrNow_Ok & H).
  rewrite <- E1, <- E2. stmt_inv H. eexists. split; [|split; [done|done]].
  unfold unresolved_row. cbn. split_and!; done.
Qed.

(** A loop of insertions appends its rows. *)
Lemma forM_rows {A R} (body : A -> M World unit) (row_of : A -> R -> Prop)
    (append : list R -> Database -> Database) xs w u w' :
  (forall d, append [] d = d) -> (forall l r d, append [r] (append l d) = append (l ++ [r])%list d) ->
  (forall x w u w', body x w = (Ok u, w') ->
     exists row, row_of x row /\ w_tx w' = w_tx w /\ w_db w' = append [row] (w_db w)) ->
  forM xs body w = (Ok u, w') ->
  exists rows, Forall2 row_of xs rows /\ w_tx w' = w_tx w /\ w_db w' = append rows (w_db w).
Proof.
  intros Hnil Happ Hbody. assert (G : forall done d0, w_db w = append done d0 -> forM xs body w = (Ok u, w') ->
    exists rows, Forall2 row_of xs rows /\ w_tx w' = w_tx w /\ w_db w' = append (done ++ rows)%list d0).
  { revert w. induction xs as [|x xs IH]; intros w finished d0 Hw H; cbn [forM] in H.
    { injection H as _ <-. exists []. rewrite app_nil_r. by split_and!. }
    apply bind_Ok in H as (u1 & w1 & (row & H1 & H2 & H3)%Hbody & H).
    rewrite Hw, Happ in H3. apply (IH w1 _ _ H3) in H as (rows & G1 & G2 & G3).
    exists (row :: rows). split_and!; [by constructor|by rewrite G2|]. by rewrite G3, <- app_assoc. }
  intros H. destruct (G [] (w_db w)) as (rows & G1 & G2 & G3); [by rewrite Hnil|done|]. by exists rows.
Qed.

(** A statement that changes the rows of one identifier. *)
Lemma update_of_Ok id (f : string -> Database -> Database) w u w' :
  map_err mapError (exec (let! c := uuid_param id in modify (f c))) w = (Ok u, w') ->
  exists c, uuid_canon id = Some c /\ w_tx w' = w_tx w /\ w_db w' = f c (w_db w).
Proof. intros H. stmt_inv H. eauto. Qed.

Lemma Replace_Ok versionID dependencies unresolved w u w' :
  w_tx w = true -> ReplaceByConsumerModuleVersion versionID dependencies unresolved w = (Ok u, w') ->
  exists vid rows urows, uuid_canon versionID = Some vid /\ Forall2 dependency_row dependencies rows
    /\ Forall2 unresolved_row unresolved urows /\ w_tx w' = true
    /\ w_db w' = replaced_db (w_db w) vid rows urows.
Proof.
  intros Htx H. unfold ReplaceByConsumerModuleVersion in H. rewrite WithinTransaction_nested in H by done.
  apply bind_Ok in H as (u1 & w1 & H1 & H). apply bind_Ok in H as (u2 & w2 & H2 & H).
  apply bind_Ok in H as (u3 & w3 & H3 & H4).
  apply update_of_Ok in H1 as (vid & Hv & T1 & E1). apply update_of_Ok in H2 as (vid' & Hv' & T2 & E2).
  rewrite Hv in Hv'. injection Hv' as <-.
  apply (forM_rows _ dependency_row (fun rows => set_catalog (set_dependencies (fun l => l ++ rows)%list))) in H3
    as (rows & R1 & T3 & E3); [|intros [? ? ? ? ? ? ? ? ? ? ? []]; unfold set_catalog, set_dependencies; cbn; by rewrite app_nil_r
    |intros; unfold set_catalog, set_dependencies; cbn; by rewrite <- app_assoc|apply createDependency_Ok].
  apply (forM_rows _ unresolved_row (fun rows => set_catalog (set_unresolved (fun l => l ++ rows)%list))) in H4
    as (urows & R2 & T4 & E4); [|intros [? ? ? ? ? ? ? ? ? ? ? []]; unfold set_catalog, set_unresolved; cbn; by rewrite app_nil_r
    |intros; unfold set_catalog, set_unresolved; cbn; by rewrite <- app_assoc|apply createUnresolvedDependency_Ok].
  exists vid, rows, urows. split_and!; [done|exact R1|exact R2|congruence|]. by rewrite E4, E3, E2, E1.
Qed.
End Store.

(** *** Reading *)

Section Reading.
Context `{PG : !Postgres} `{ENV : !Env}.

Lemma uuid_params_Ok {S} ids (s : S) cs s' :
  uuid_params ids s = (Ok cs, s') -> uuids_canon ids = Some cs /\ s' = s.
Proof.
  revert cs s'. induction ids as [|id ids IH]; intros cs s' H; cbn [uuid_params uuids_canon] in *.
  { by injection H as <- <-. }
  apply bind_Ok in H as (c & s1 & [Hc ->]%uuid_param_Ok & H).
  apply bind_Ok in H as (cs' & s2 & [Hcs ->]%IH & [-> ->]%ret_Ok). by rewrite Hc, Hcs.
Qed.

Lemma uuid_params_pure ids (d : Database) : (uuid_params ids d).2 = d.
Proof.
  induction ids as [|id ids IH]; [done|]. cbn [uuid_params]. apply bind_pure; [apply uuid_param_pure|intros c].
  by apply bind_pure.
Qed.

Lemma same_db_ListLatest : preserves same_db ListLatestPublishedModuleVersions.
Proof. unfold ListLatestPublishedModuleVersions. preserve; first [apply same_db_scan_rows|by apply same_db_exec]. Qed.

Lemma same_db_list_by_ids {A B} (scan : A -> result B) (q : list string -> Database -> list A) ids :
  preserves same_db (let! rows := map_err mapError (exec (T := Database)
    (let! cs := uuid_params ids in gets (q cs))) in scan_rows scan rows).
Proof.
  preserve; [|apply same_db_scan_rows]. apply same_db_exec. intros d.
  apply bind_pure; [apply uuid_params_pure|done].
Qed.

Lemma same_db_buildProviderIndex moduleID : preserves same_db (buildProviderIndex moduleID).
Proof.
  unfold buildProviderIndex, ListProviderFiles, ListProviderSymbols.
  repeat first [apply same_db_ListLatest|apply same_db_list_by_ids|preserve_step].
Qed.

Lemma list_by_ids_Ok {A B} (scan : A -> result B) (q : list string -> Database -> list A) ids w l w' :
  (forall d, q [] d = []) ->
  (if (length ids =? 0)%nat then ret [] else
   let! rows := map_err mapError (exec (T := Database) (let! cs := uuid_params ids in gets (q cs))) in
   scan_rows scan rows) w = (Ok l, w') ->
  exists cs, uuids_canon ids = Some cs /\ result_mapM scan (q cs (w_db w)) = Ok l.
Proof.
  intros Hq H. destruct ids as [|id ids]; cbn [length Nat.eqb] in H.
  { injection H as <- <-. exists []. by rewrite Hq. }
  apply bind_Ok in H as (rows & w1 & H1 & [H _]%scan_rows_mapM). apply map_err_Ok, exec_db_Ok in H1 as [H1 _].
  apply bind_Ok in H1 as (cs & d & [Hcs ->]%uuid_params_Ok & [-> _]%gets_Ok). by exists cs.
Qed.

Lemma provider_files_nil d : provider_files [] d = [].
Proof. unfold provider_files, in_list. cbn [existsb]. by rewrite !(filter_none (fun _ => false)). Qed.
Lemma provider_symbols_nil d : provider_symbols [] d = [].
Proof. unfold provider_symbols, symbol_rows, in_list. cbn [existsb]. by rewrite !(filter_none (fun _ => false)). Qed.

Lemma buildProviderIndex_Ok moduleID w index w' :
  buildProviderIndex moduleID w = (Ok index, w') ->
  exists files symbols, index = fresh_index files symbols /\ offers (w_db w) moduleID files symbols.
Proof.
  intros H. unfold buildProviderIndex in H. apply bind_Ok in H as (latest & w1 & H1 & H).
  pose proof (preserves_run same_db _ w _ _ same_db_ListLatest H1) as [E1 _].
  apply bind_Ok in H1 as (rows & w0 & H1 & [Hl _]%scan_rows_mapM). apply map_err_Ok, exec_db_Ok in H1 as [H1 _].
  injection H1 as <- _.
  apply bind_Ok in H as (files & w2 & H2 & H). unfold ListProviderFiles in H2.
  pose proof (preserves_run same_db _ w1 _ _ (preserves_if _ _ _ _ (preserves_ret _ _) (same_db_list_by_ids _ _ _)) H2) as [E2 _].
  apply list_by_ids_Ok in H2 as (cs & Hcs & Hf); [|apply provider_files_nil].
  apply bind_Ok in H as (symbols & w3 & H3 & [-> ->]%ret_Ok).
  apply list_by_ids_Ok in H3 as (cs' & Hcs' & Hs); [|apply provider_symbols_nil].
  rewrite Hcs in Hcs'. injection Hcs' as <-. rewrite E2, E1 in Hs. rewrite E1 in Hf.
  exists files, symbols. split; [done|]. unfold offers, provider_ids. rewrite Hl. eexists _, cs. done.
Qed.

Lemma same_db_Version_getOne (query : M Database ModuleVersion) :
  preserves same_db (exec query) -> preserves same_db (Version_getOne query).
Proof. intros H. unfold Version_getOne. repeat first [exact H|preserve_step]. Qed.
Lemma same_db_Version_GetByID id : preserves same_db (Version_GetByID id).
Proof. apply same_db_Version_getOne. reads. Qed.
Lemma same_db_GetByModuleAndVersion id v : preserves same_db (GetByModuleAndVersion id v).
Proof. apply same_db_Version_getOne. reads. Qed.
Lemma same_db_GetLatestByModule id : preserves same_db (GetLatestByModule id).
Proof. apply same_db_Version_getOne. reads. Qed.

Lemma same_db_while_rows_open {A} (m : M World A) : preserves same_db m -> preserves same_db (while_rows_open m).
Proof. intros H w. unfold while_rows_open. by destruct (w_tx w); [|apply H]. Qed.
Lemma same_db_loadFile id row : preserves same_db (loadFile id row).
Proof.
  unfold loadFile, loadProtoImports, loadProtoServices, loadProtoMethods, loadProtoMessages, loadProtoFields,
    loadProtoEnums, loadProtoEnumValues.
  repeat first [apply (preserves_mapM same_db); intros ? _|apply same_db_while_rows_open|reads|by apply same_db_exec|preserve_step].
Qed.

Lemma same_db_Metadata_Get id : preserves same_db (Metadata_GetByModuleVersion id).
Proof.
  unfold Metadata_GetByModuleVersion, loadProtoFiles.
  repeat first [apply (preserves_mapM same_db); intros ? _; apply same_db_loadFile|reads|preserve_step].
Qed.
End Reading.

#[export] Hint Resolve same_db_buildProviderIndex same_db_Version_GetByID same_db_GetByModuleAndVersion
  same_db_GetLatestByModule same_db_Metadata_Get : go.

(** *** The whole rebuild *)

(** The key of the event of a version. *)
Definition dependencies_key (module : Module_) (version : ModuleVersion) : string :=
  "module:" +:+ module_ID module +:+ ":version:" +:+ version_Version version +:+ ":dependencies-updated".

(** The tables after a rebuild of a version: its entries are what resolution
    gives for the references of its descriptor and the providers of the latest
    versions of the other modules, and an event tells their numbers. *)
Definition dependencies_rebuilt `{PG : !Postgres} (module : Module_) (version : ModuleVersion)
    (metadata : DescriptorMetadata) (d d' : Database) : Prop :=
  exists files symbols t dependencies unresolved vid rows urows row,
    offers d (module_ID module) files symbols
    /\ resolution_of module version metadata files symbols t dependencies unresolved
    /\ uuid_canon (version_ID version) = Some vid
    /\ Forall2 dependency_row dependencies rows /\ Forall2 unresolved_row unresolved urows
    /\ (forall x, x ∈ ot_rows (db_outbox d) -> record_DedupKey x <> dependencies_key module version)
    /\ record_Status row = outboxStatusPending /\ record_EventType row = EventTypeModuleDependenciesUpdated
    /\ d' = set_outbox (mkOutboxTable (ot_rows (db_outbox d) ++ [row]) (S (ot_uuids (db_outbox d))))
              (replaced_db d vid rows urows).

Section Rebuild.
Context `{PG : !Postgres} `{ENV : !Env}.

Lemma same_db_resolveDependencies module version metadata files symbols :
  preserves same_db (resolveDependencies module version metadata (fresh_index files symbols)).
Proof. intros w. by destruct (resolveDependencies_ok module version metadata files symbols w). Qed.

Lemma same_db_resolveModule input : preserves same_db (resolveModule input).
Proof. unfold resolveModule. preserve. Qed.
Lemma same_db_resolveModuleVersion id input : preserves same_db (resolveModuleVersion id input).
Proof. unfold resolveModuleVersion. preserve. Qed.
#[local] Hint Resolve same_db_resolveDependencies same_db_resolveModule same_db_resolveModuleVersion : go.

Lemma storeResolved_Ok module version dependencies unresolved w u w' :
  w_tx w = true -> storeResolvedDependencies module version dependencies unresolved w = (Ok u, w') ->
  exists vid rows urows row, uuid_canon (version_ID version) = Some vid
    /\ Forall2 dependency_row dependencies rows /\ Forall2 unresolved_row unresolved urows
    /\ (forall x, x ∈ ot_rows (db_outbox (w_db w)) -> record_DedupKey x <> dependencies_key module version)
    /\ record_Status row = outboxStatusPending /\ record_EventType row = EventTypeModuleDependenciesUpdated
    /\ w_tx w' = true
    /\ w_db w' = set_outbox (mkOutboxTable (ot_rows (db_outbox (w_db w)) ++ [row])
                               (S (ot_uuids (db_outbox (w_db w))))) (replaced_db (w_db w) vid rows urows).
Proof.
  intros Htx H. unfold storeResolvedDependencies in H. apply bind_Ok in H as (u1 & w1 & H1 & H).
  apply Replace_Ok in H1 as (vid & rows & urows & Hv & Hr & Hu & Htx1 & E1); [|done].
  apply bind_Ok in H as (t & w2 & [= _ <-] & H).
  pose proof H as Hf. apply write_outbox_Ok in H as (Htx2 & r & row & Hrec & Hst & Hty & _ & E2).
  rewrite Hrec in Hf. unfold NewModuleDependenciesUpdated in Hrec.
  pose proof (event_record_DedupKey _ _ _ _ _ _ _ Hrec) as Hk. apply event_record_type in Hrec.
  exists vid, rows, urows, row. split_and!; try done; [|congruence|by rewrite Htx2|by rewrite E2; cbn; rewrite E1].
  intros x Hx. unfold dependencies_key. cbn [updated_Module updated_Version] in Hk. rewrite <- Hk.
  eapply write_outbox_fresh; [exact Hf|]. cbn. by rewrite E1.
Qed.

(** In the transaction of a publication. *)
Lemma RebuildPublished_Ok module version metadata w r w' :
  w_tx w = true -> RebuildPublishedModuleVersionDependencies module version metadata w = (Ok r, w') ->
  dependencies_rebuilt module version metadata (w_db w) (w_db w') /\ w_tx w' = true.
Proof.
  intros Htx H. unfold RebuildPublishedModuleVersionDependencies in H.
  apply bind_Ok in H as (index & w1 & H1 & H).
  pose proof (preserves_run same_db _ w _ _ (same_db_buildProviderIndex _) H1) as [E1 T1].
  apply buildProviderIndex_Ok in H1 as (files & symbols & -> & Ho).
  apply bind_Ok in H as ([dependencies unresolved] & w2 & H2 & H).
  destruct (resolveDependencies_ok module version metadata files symbols w1) as [[E2 T2] Hr].
  rewrite H2 in E2, T2, Hr. cbn [fst snd] in *.
  apply bind_Ok in H as (u & w3 & H3 & [_ ->]%ret_Ok).
  apply storeResolved_Ok in H3 as (vid & rows & urows & row & Hv & Hrows & Hurows & Hfr & Hst & Hty & T3 & E3);
    [|congruence].
  split; [|done]. exists files, symbols, (env_now (w_tick w1)), dependencies, unresolved, vid, rows, urows, row.
  rewrite E2, E1 in E3, Hfr. by split_and!.
Qed.

(** What a rebuild reads, and what it leaves. *)
Definition rebuilt_from (input : RebuildModuleVersionDependenciesInput) (w : World) (d d' : Database) : Prop :=
  exists module version metadata w1 w2 w3,
    resolveModule input w = (Ok module, w1)
    /\ resolveModuleVersion (module_ID module) input w1 = (Ok version, w2)
    /\ Metadata_GetByModuleVersion (version_ID version) w2 = (Ok metadata, w3)
    /\ dependencies_rebuilt module version metadata d d'.

Lemma Rebuild_outcome input w r w' :
  w_tx w = false -> RebuildModuleVersionDependencies input w = (r, w') ->
  atomic_outcome (rebuilt_from input w) w r w'.
Proof.
  intros Htx H. unfold RebuildModuleVersionDependencies in H.
  reading H module w1 Hm1 Hs. carry Hs.
  reading H version w2 Hm2 Hs. carry Hs.
  reading H metadata w3 Hm3 Hs. carry Hs.
  reading H idx w4 Hm Hs. apply buildProviderIndex_Ok in Hm as (files & symbols & -> & Ho). carry Hs.
  reading H du w5 Hm Hs.
  destruct (resolveDependencies_ok module version metadata files symbols w4) as [_ Hr]. rewrite Hm in Hr.
  destruct du as [dependencies unresolved]. cbn [fst snd] in *. generalize dependent (env_now (w_tick w4)).
  intros t Hr. carry Hs.
  eapply atomic_then in H; [exact H| |intros; preserve]. intros r1 w6 H1.
  apply WithinTransaction_atomic in H1 as (Htx' & [H1|(a & w7 & H1 & Hdb & _)]); [by split; [|left]| |done].
  apply storeResolved_Ok in H1 as (vid & rows & urows & row & Hv & Hrows & Hurows & Hfr & Hst & Hty & T3 & E3); [|done].
  split; [done|right]. exists module, version, metadata, w1, w2, w3. split_and!; [done..|].
  exists files, symbols, t, dependencies, unresolved, vid, rows, urows, row.
  rewrite Hdb, E3. by split_and!.
Qed.
End Rebuild.

(** *** Edges *)

(** The columns of the unique index, but for the version itself. *)
Definition edge_columns (e : edge) : ModuleVersionID * DependencySource * string * string :=
  (provider_ModuleVersionID (edge_provider e), edge_source e, edge_importPath e, edge_symbol e).

Definition nul_byte : ascii := "000"%char.
Definition nul_free (e : edge) : Prop :=
  no_byte nul_byte (provider_ModuleVersionID (edge_provider e)) = true
  /\ no_byte nul_byte (edge_source e) = true /\ no_byte nul_byte (edge_importPath e) = true
  /\ no_byte nul_byte (edge_symbol e) = true.

Lemma dependencyKey_split v p s i y :
  split_byte nul_byte (dependencyKey v p s i y)
  = (split_byte nul_byte v ++ split_byte nul_byte p ++ split_byte nul_byte s ++ split_byte nul_byte i
     ++ split_byte nul_byte y)%list.
Proof.
  unfold dependencyKey. rewrite <- !split_byte_app. reflexivity.
Qed.

Lemma edge_key_inj version e1 e2 :
  nul_free e1 -> nul_free e2 -> edge_key version e1 = edge_key version e2 -> edge_columns e1 = edge_columns e2.
Proof.
  intros (P1 & S1 & I1 & Y1) (P2 & S2 & I2 & Y2) H%(f_equal (split_byte nul_byte)).
  unfold edge_key in H. rewrite !dependencyKey_split in H. apply app_inv_head in H.
  rewrite !split_byte_none in H by done. unfold edge_columns. cbn [app] in H. congruence.
Qed.

Lemma first_edges_elem version l e : e ∈ first_edges version l -> e ∈ l.
Proof.
  induction l as [|x l IH] using rev_ind; [done|]. rewrite add_edge_snoc. unfold add_edge.
  destruct (decide _); [intros H; apply elem_of_app; left; auto|].
  rewrite !elem_of_app. intros [H|H]; [left; auto|by right].
Qed.

Lemma first_edges_complete version l e :
  e ∈ l -> edge_key version e ∈ map (edge_key version) (first_edges version l).
Proof.
  induction l as [|x l IH] using rev_ind; [set_solver|]. rewrite add_edge_snoc. unfold add_edge.
  rewrite elem_of_app, list_elem_of_singleton. intros He.
  destruct (decide _) as [H|H]; [destruct He as [He| ->]; auto|].
  rewrite map_app, elem_of_app. destruct He as [He| ->]; [left; auto|right]. cbn. by apply list_elem_of_singleton.
Qed.

Lemma NoDup_map_factor {A B C} (f : A -> B) (g : A -> C) l :
  (forall x y, g x = g y -> f x = f y) -> NoDup (map f l) -> NoDup (map g l).
Proof.
  intros H. induction l as [|x l IH]; [constructor|]. cbn [map]. rewrite !NoDup_cons. intros [H1 H2].
  split; [|auto]. intros (y & E & Hy)%list_elem_of_In%in_map_iff. apply H1, list_elem_of_In, in_map_iff.
  exists y. split; [by apply H|done].
Qed.

(** ** The theorems *)

Section Properties.
Context `{PG : !Postgres} `{ENV : !Env}.

(** C21: resolution only reads, fails only when no random identifier can be made,
    and otherwise returns the edges and the unresolved references of the
    reference definition: each reference of the descriptor, in the order of its
    files, is looked up among the providers; a name the module declares or a
    well-known one is left out, one provider gives an edge, none or several an
    unresolved entry, and of equal edges the first stays. *)
Theorem resolveDependencies_correct module moduleVersion metadata files symbols w :
  let m := resolveDependencies module moduleVersion metadata (fresh_index files symbols) w in
  same_db w m.2
  /\ match m.1 with
     | Ok (dependencies, unresolved) =>
         map dependency_edge dependencies
           = first_edges moduleVersion (omap (edge_of module metadata files symbols) (references_of metadata))
         /\ map unresolved_columns unresolved = omap (unresolved_of metadata files symbols) (references_of metadata)
         /\ Forall (fun d => dependency_consumer d = (module_ID module, module_Name module,
              version_ID moduleVersion, version_Version moduleVersion, env_now (w_tick w))) dependencies
         /\ Forall (fun u => unresolved_consumer u = (module_ID module, module_Name module,
              version_ID moduleVersion, version_Version moduleVersion, env_now (w_tick w))) unresolved
     | Err e => exists n, env_rand n = Err e
     end.
Proof.
  destruct (resolveDependencies_ok module moduleVersion metadata files symbols w) as [H1 H2]. split; [exact H1|].
  destruct (resolveDependencies _ _ _ _ w).1 as [[dependencies unresolved]|e]; [|exact H2].
  destruct H2 as [R1 R2 R3 R4]. by split_and!.
Qed.

(** What resolution returns fits the table: no edge leads to the module
    itself, no two have the same columns of the unique index, and no reference
    that has a provider is lost, unless a text contains the character NUL. *)
Theorem dependency_edges_unique module moduleVersion metadata files symbols t dependencies unresolved
    (H : resolution_of module moduleVersion metadata files symbols t dependencies unresolved) :
  NoDup (map (fun d => edge_columns (dependency_edge d)) dependencies)
  /\ Forall (fun d => dependency_ProviderModuleID d <> module_ID module) dependencies
  /\ forall r e, r ∈ references_of metadata -> edge_of module metadata files symbols r = Some e ->
       nul_free e -> Forall (fun d => nul_free (dependency_edge d)) dependencies ->
       edge_columns e ∈ map (fun d => edge_columns (dependency_edge d)) dependencies.
Proof.
  destruct H as [H1 _ _ _]. unfold expected_edges in H1. split_and!.
  - apply (NoDup_map_factor (fun d => edge_key moduleVersion (dependency_edge d))).
    { intros x y E. unfold edge_key. unfold edge_columns in E. congruence. }
    rewrite <- (map_map dependency_edge (edge_key moduleVersion)), H1. apply first_edges_keys.
  - apply Forall_forall. intros d Hd. assert (He : dependency_edge d ∈ map dependency_edge dependencies)
      by (apply list_elem_of_In, in_map, list_elem_of_In, Hd).
    rewrite H1 in He. apply first_edges_elem, list_elem_of_omap in He as (r & _ & He). unfold edge_of in He.
    destruct (classify _ _ _ r) as [|p|]; [done| |done].
    destruct (eqs _ _) eqn:E; [done|]. apply eqs_false in E. injection He as He.
    apply (f_equal edge_provider) in He. replace (edge_provider (edge_for r p)) with p in He by by destruct r.
    by rewrite He in E.
  - intros r e Hr He Hn Hd. assert (Hin : e ∈ omap (edge_of module metadata files symbols) (references_of metadata))
      by (apply list_elem_of_omap; eauto).
    apply (first_edges_complete moduleVersion) in Hin. rewrite <- H1, map_map in Hin.
    apply list_elem_of_In, in_map_iff in Hin as (d & Ek & Hind). apply list_elem_of_In, in_map_iff.
    exists d. split; [|done]. rewrite Forall_forall in Hd. apply list_elem_of_In in Hind.
    symmetry. eapply edge_key_inj; [done|by apply Hd|by rewrite Ek].
Qed.

(** C22: a rebuild of the dependencies of a version fails and changes nothing, or
    replaces in one transaction the stored entries of the version by those that
    resolution gives for its stored descriptor and the latest published versions
    of the other modules, with an event of the outbox. *)
Theorem RebuildModuleVersionDependencies_correct input w r w'
    (Htx : w_tx w = false) (H : RebuildModuleVersionDependencies input w = (r, w')) :
  w_tx w' = false
  /\ ((exists e, r = Err e) /\ w_db w' = w_db w \/ rebuilt_from input w (w_db w) (w_db w')).
Proof. exact (Rebuild_outcome input w r w' Htx H). Qed.
End Properties.

(** ** Examples *)

Module GraphExamples.
#[local] Instance pg : Postgres := example_postgres.
#[local] Instance env : Env := example_env 0.

Definition users : Module_ := mkModule "a" "users" "" "" 0 0.
Definition common : Module_ := mkModule "b" "common" "" "" 0 0.
Definition users_v1 : ModuleVersion :=
  mkModuleVersion "a1" "a" "v1.0.0" ModuleVersionStatusPublished "" 1 None None "" "".
Definition common_v1 : ModuleVersion :=
  mkModuleVersion "b1" "b" "v1.0.0" ModuleVersionStatusPublished "" 1 None None "" "".
Definition common_v2 : ModuleVersion :=
  mkModuleVersion "b2" "b" "v2.0.0" ModuleVersionStatusPublished "" 2 None None "" "".

Definition field (type_name : string) : ProtoField := mkProtoField "f" 1 "message" type_name "" "" "" false false.
(** A file that imports one of [common], a well-known one and one nobody has. *)
Definition users_file : ProtoFile :=
  mkProtoFile "users.proto" "users" "proto3"
    [mkProtoImport "common.proto" false false; mkProtoImport "google/protobuf/any.proto" false false;
     mkProtoImport "missing.proto" false false] []
    [mkProtoMessage "User" "users.User" [field ".common.Money"; field ".users.User"; field ".common.Money"] [] []] [].
Definition metadata : DescriptorMetadata := mkDescriptorMetadata [users_file].

Definition files : list ProviderFile := [mkProviderFile "common.proto" "b" "common" "b2" "v2.0.0"].
Definition symbols : list ProviderSymbol := [mkProviderSymbol "common.Money" "common" "b" "common" "b2" "v2.0.0"].

Example edges :
  map (fun e => (edge_source e, edge_importPath e, edge_symbol e))
    (expected_edges users users_v1 metadata files symbols)
  = [(DependencySourceImport, "common.proto", ""); (DependencySourceTypeReference, "", "common.Money")]
  /\ expected_unresolved metadata files symbols
     = [(DependencySourceImport, "missing.proto", "", "", UnresolvedDependencyReasonProviderNotFound)].
Proof. vm_compute. done. Qed.

Definition edge_row (i : string) (source reason path package symbol : string) : ModuleDependency :=
  mkModuleDependency i "a" "users" "a1" "v1.0.0" "b" "common" "b2" "v2.0.0" source reason path package symbol 7.
Definition example_dependencies : list ModuleDependency :=
  [edge_row "1" DependencySourceImport DependencyResolutionReasonImportPath "common.proto" "" "";
   edge_row "2" DependencySourceTypeReference DependencyResolutionReasonSymbol "" "common" "common.Money"].

Lemma dependency_edges_unique_witness :
  NoDup (map (fun d => edge_columns (dependency_edge d)) example_dependencies).
Proof.
  assert (H : resolution_of users users_v1 metadata files symbols 7 example_dependencies
    [mkUnresolvedProtoDependency "3" "a" "users" "a1" "v1.0.0" DependencySourceImport "missing.proto" "" ""
       UnresolvedDependencyReasonProviderNotFound 7]).
  { constructor; [vm_compute; reflexivity|vm_compute; reflexivity|repeat constructor|repeat constructor]. }
  destruct (dependency_edges_unique _ _ _ _ _ _ _ _ H) as (H1 & _ & _). exact H1.
Defined.

Definition graph_db : Database :=
  mkDatabase [users; common] [users_v1; common_v1; common_v2] [] [] [] [] [] [] [] [] (mkOutboxTable [] 0)
    (mkCatalog [] [] (mkDescriptors
       [mkProtoFileRow "1" "a1" "users.proto" "users" "proto3"; mkProtoFileRow "2" "b2" "common.proto" "common" "proto3"]
       [mkProtoImportRow "1" (mkProtoImport "common.proto" false false)] [] []
       [mkProtoMessageRow "3" "b2" "2" None "common" "Money" "common.Money"] [] [] [] 4) [] [] [] [] [] []).
Definition rebuild_users : RebuildModuleVersionDependenciesInput := mkRebuildInput "" "users" "" "v1.0.0".
Definition graph_world : World := mkWorld graph_db false 1.

Lemma RebuildModuleVersionDependencies_correct_witness :
  rebuilt_from rebuild_users graph_world graph_db (w_db (RebuildModuleVersionDependencies rebuild_users graph_world).2)
  /\ map dependency_ImportPath (ct_dependencies (db_catalog
       (w_db (RebuildModuleVersionDependencies rebuild_users graph_world).2))) = ["common.proto"].
Proof.
  split; [|vm_compute; reflexivity].
  assert (Hok : is_ok (RebuildModuleVersionDependencies rebuild_users graph_world).1 = true) by (vm_compute; reflexivity).
  destruct (RebuildModuleVersionDependencies rebuild_users graph_world) as [r w'] eqn:E. cbn [fst snd] in *.
  destruct (RebuildModuleVersionDependencies_correct rebuild_users graph_world r w' eq_refl E) as [_ [[[e He] _]|H]];
    [|exact H].
  exfalso. rewrite He in Hok. discriminate Hok.
Defined.
End GraphExamples.

(** ** A rebuild after a publication

    The event has the key of the version, and a publication writes one too: the
    second event is refused and the rebuild rolled back. *)

Theorem rebuild_after_publication_fails `{PG : !Postgres} `{ENV : !Env} input w r w' module version w1 w2 row
    (Htx : w_tx w = false) (Hm : resolveModule input w = (Ok module, w1))
    (Hv : resolveModuleVersion (module_ID module) input w1 = (Ok version, w2))
    (Hrow : row ∈ ot_rows (db_outbox (w_db w))) (Hkey : record_DedupKey row = dependencies_key module version)
    (H : RebuildModuleVersionDependencies input w = (r, w')) :
  (exists e, r = Err e) /\ w_db w' = w_db w.
Proof.
  apply Rebuild_outcome in H as [_ [H|H]]; [done| |done].
  destruct H as (m & v & metadata & x1 & x2 & x3 & Hm' & Hv' & _ & Hd).
  rewrite Hm in Hm'. injection Hm' as <- <-. rewrite Hv in Hv'. injection Hv' as <- <-.
  destruct Hd as (files & symbols & t & ds & us & vid & rows & urows & x & _ & _ & _ & _ & _ & Hf & _).
  by destruct (Hf row Hrow).
Qed.
