(* ===== verification/RuntimeStore.v ===== *)
(** * The runtime inventory in the database

    [repository/postgres/runtime_inventory.go]: the services that report what
    they run, their deployments and the versions of modules each one uses. *)

From S2P Require Import Prelude Errors GoStrings Domain Effects Postgres Outbox Tables World GovernanceStore CatalogStore DescriptorStore DependencyStore.

Open Scope string_scope.
Open Scope Z_scope.

(** The columns of the rows: the name of the service of a deployment and the
    latest version of the module of a usage come from joins. *)
Definition deployment_row (id serviceID : string) (x : RuntimeDeployment) (createdAt : time) : RuntimeDeployment :=
  mkRuntimeDeployment id serviceID "" (deployment_Environment x) (deployment_GitCommit x)
    (deployment_BuildVersion x) (deployment_ReportedAt x) createdAt.
Definition usage_row (id deploymentID : string) (moduleID versionID : option string) (x : RuntimeModuleUsage)
    (createdAt : time) : RuntimeModuleUsage :=
  mkRuntimeModuleUsage id deploymentID moduleID (usage_ModuleName x) versionID (usage_Version x) None
    (usage_DriftStatus x) (usage_DriftReason x) createdAt.

Definition set_service_UpdatedAt (updatedAt : time) (x : RuntimeService) : RuntimeService :=
  mkRuntimeService (service_ID x) (service_Name x) (service_CreatedAt x) updatedAt.

Section Store.
Context `{PG : !Postgres} `{ENV : !Env}.

(** ** Services *)

Definition scanRuntimeService (x : RuntimeService) : result RuntimeService :=
  let? name := NewRuntimeServiceName (service_Name x) in
  Ok (mkRuntimeService (NewRuntimeServiceID (service_ID x)) name (service_CreatedAt x) (service_UpdatedAt x)).

Definition getRuntimeService (query : M Database RuntimeService) : M World RuntimeService :=
  map_err mapError (let! row := exec query in lift (scanRuntimeService row)).

(** [INSERT ... ON CONFLICT (name) DO UPDATE SET updated_at RETURNING ...]: only
    a taken name updates, a taken identifier is refused. *)
Definition upsert_service_stmt (service : RuntimeService) (createdAt updatedAt : time) : M Database RuntimeService :=
  let! id := uuid_param (service_ID service) in
  let! _ := text_params [service_Name service] in
  let! d := gets (fun d => d) in
  let named := fun x => eqs (service_Name x) (service_Name service) in
  match List.find named (ct_services (db_catalog d)) with
  | Some x =>
      let! _ := modify (set_catalog (set_services (update_where named (set_service_UpdatedAt updatedAt)))) in
      ret (set_service_UpdatedAt updatedAt x)
  | None =>
      let! _ := insert_checks []
        [(existsb (fun x => eqs (service_ID x) id) (ct_services (db_catalog d)),
           unique_violation "runtime_services_pkey")] [] in
      let row := mkRuntimeService id (service_Name service) createdAt updatedAt in
      let! _ := modify (set_catalog (set_services (fun l => l ++ [row])%list)) in
      ret row
  end.

Definition UpsertRuntimeServiceByName (service : RuntimeService) : M World RuntimeService :=
  let! createdAt := timeOrNow (service_CreatedAt service) in
  let! updatedAt := timeOrNow (service_UpdatedAt service) in
  getRuntimeService (upsert_service_stmt service createdAt updatedAt).

Definition GetRuntimeServiceByName (serviceName : RuntimeServiceName) : M World RuntimeService :=
  getRuntimeService (
    let! _ := text_params [serviceName] in
    query_row (fun d => List.filter (fun x => eqs (service_Name x) serviceName) (ct_services (db_catalog d)))).

(** ** Writing deployments *)

Definition CreateRuntimeDeployment (deployment : RuntimeDeployment) : M World unit :=
  let! createdAt := timeOrNow (deployment_CreatedAt deployment) in
  map_err mapError (exec (T := Database) (
    let! id := uuid_param (deployment_ID deployment) in
    let! serviceID := uuid_param (deployment_ServiceID deployment) in
    let! _ := text_params [deployment_Environment deployment; deployment_GitCommit deployment;
                           deployment_BuildVersion deployment] in
    let! d := gets (fun d => d) in
    let! _ := insert_checks []
      [(existsb (fun x => eqs (deployment_ID x) id) (ct_deployments (db_catalog d)),
         unique_violation "runtime_deployments_pkey")]
      [(negb (existsb (fun x => eqs (service_ID x) serviceID) (ct_services (db_catalog d))),
         foreign_key_violation "runtime_deployments_service_id_fkey")] in
    modify (set_catalog (set_deployments (fun l => l ++ [deployment_row id serviceID deployment createdAt])%list)))).

Definition createRuntimeModuleUsage (usage : RuntimeModuleUsage) : M World unit :=
  let! createdAt := timeOrNow (usage_CreatedAt usage) in
  map_err mapError (exec (T := Database) (
    let! id := uuid_param (usage_ID usage) in
    let! deploymentID := uuid_param (usage_DeploymentID usage) in
    let! moduleID := opt_uuid_param (usage_ModuleID usage) in
    let! versionID := opt_uuid_param (usage_ModuleVersionID usage) in
    let! _ := text_params [usage_ModuleName usage; usage_Version usage; usage_DriftStatus usage;
                           usage_DriftReason usage] in
    let! d := gets (fun d => d) in
    let! _ := insert_checks []
      [(existsb (fun x => eqs (usage_ID x) id) (ct_usages (db_catalog d)),
         unique_violation "runtime_module_usages_pkey")]
      [(negb (existsb (fun x => eqs (deployment_ID x) deploymentID) (ct_deployments (db_catalog d))),
         foreign_key_violation "runtime_module_usages_deployment_id_fkey");
       (negb (references moduleID module_ID (db_modules d)),
         foreign_key_violation "runtime_module_usages_module_id_fkey");
       (negb (references versionID version_ID (db_versions d)),
         foreign_key_violation "runtime_module_usages_module_version_id_fkey")] in
    modify (set_catalog (set_usages (fun l => l ++ [usage_row id deploymentID moduleID versionID usage createdAt])%list)))).

Definition CreateRuntimeModuleUsages (usages : list RuntimeModuleUsage) : M World unit :=
  WithinTransaction (forM usages createRuntimeModuleUsage).

(** ** Reading deployments and usages *)

Definition newest_deployment : RuntimeDeployment -> RuntimeDeployment -> bool :=
  then_by (newest_first deployment_ReportedAt) (newest_first deployment_CreatedAt).

(** The join with the service. *)
Definition deployment_rows (p : RuntimeDeployment -> bool) (d : Database) : list RuntimeDeployment :=
  flat_map (fun rd =>
    map (fun rs => mkRuntimeDeployment (deployment_ID rd) (deployment_ServiceID rd) (service_Name rs)
        (deployment_Environment rd) (deployment_GitCommit rd) (deployment_BuildVersion rd)
        (deployment_ReportedAt rd) (deployment_CreatedAt rd))
      (List.filter (fun rs => eqs (service_ID rs) (deployment_ServiceID rd)) (ct_services (db_catalog d))))
    (List.filter p (ct_deployments (db_catalog d))).

Definition scanRuntimeDeployment (x : RuntimeDeployment) : result RuntimeDeployment :=
  let? serviceName := NewRuntimeServiceName (deployment_ServiceName x) in
  let? environment := NewRuntimeEnvironment (deployment_Environment x) in
  Ok (mkRuntimeDeployment (NewRuntimeDeploymentID (deployment_ID x)) (NewRuntimeServiceID (deployment_ServiceID x))
        serviceName environment (deployment_GitCommit x) (deployment_BuildVersion x) (deployment_ReportedAt x)
        (deployment_CreatedAt x)).

Definition listRuntimeDeployments (query : M Database (list RuntimeDeployment)) : M World (list RuntimeDeployment) :=
  let! rows := map_err mapError (exec query) in
  scan_rows scanRuntimeDeployment rows.

Definition ListRuntimeDeploymentsByService (serviceID : RuntimeServiceID) (limit offset : Z)
    : M World (list RuntimeDeployment) :=
  listRuntimeDeployments (
    let! id := uuid_param serviceID in
    let! _ := page_params limit offset in
    gets (fun d => limit_offset limit offset (sort_by newest_deployment
      (deployment_rows (fun rd => eqs (deployment_ServiceID rd) id) d)))).

(** [LEFT JOIN LATERAL (... LIMIT 1) latest]: the newest published version of
    the module of the usage. *)
Definition latest_version_of (u : RuntimeModuleUsage) (d : Database) : option Version :=
  match usage_ModuleID u with
  | None => None
  | Some id => head (map version_Version (sort_by (newest_first version_CreatedAt)
      (List.filter (fun mv => eqs (version_ModuleID mv) id && published mv) (db_versions d))))
  end.

Definition with_latest (d : Database) (u : RuntimeModuleUsage) : RuntimeModuleUsage :=
  mkRuntimeModuleUsage (usage_ID u) (usage_DeploymentID u) (usage_ModuleID u) (usage_ModuleName u)
    (usage_ModuleVersionID u) (usage_Version u) (latest_version_of u d) (usage_DriftStatus u)
    (usage_DriftReason u) (usage_CreatedAt u).

Definition usage_rows (p : RuntimeModuleUsage -> bool) (d : Database) : list RuntimeModuleUsage :=
  map (with_latest d) (List.filter p (ct_usages (db_catalog d))).

Definition runtimeVersion (value : option string) : option Version :=
  match value with
  | None => None
  | Some value => match NewVersion value with Ok version => Some version | Err _ => None end
  end.

Definition scanRuntimeModuleUsage (x : RuntimeModuleUsage) : result RuntimeModuleUsage :=
  let? moduleName := NewModuleName (usage_ModuleName x) in
  let? version := NewVersion (usage_Version x) in
  let? status := NewRuntimeDriftStatus (usage_DriftStatus x) in
  Ok (mkRuntimeModuleUsage (NewRuntimeModuleUsageID (usage_ID x)) (NewRuntimeDeploymentID (usage_DeploymentID x))
        (NewModuleID <$> usage_ModuleID x) moduleName (NewModuleVersionID <$> usage_ModuleVersionID x) version
        (runtimeVersion (usage_LatestVersion x)) status (usage_DriftReason x) (usage_CreatedAt x)).

Definition listRuntimeModuleUsages (query : M Database (list RuntimeModuleUsage))
    : M World (list RuntimeModuleUsage) :=
  let! rows := map_err mapError (exec query) in
  scan_rows scanRuntimeModuleUsage rows.

Definition by_module_and_version : RuntimeModuleUsage -> RuntimeModuleUsage -> bool :=
  then_by (text_order usage_ModuleName) (text_order usage_Version).

Definition ListRuntimeModuleUsagesByDeployment (deploymentID : RuntimeDeploymentID)
    : M World (list RuntimeModuleUsage) :=
  listRuntimeModuleUsages (
    let! id := uuid_param deploymentID in
    gets (fun d => sort_by by_module_and_version (usage_rows (fun u => eqs (usage_DeploymentID u) id) d))).

(** The last deployment of a service in an environment. *)
Definition latest_deployment (serviceName environment : string) (d : Database) : option RuntimeDeployment :=
  head (sort_by newest_deployment
    (List.filter (fun x => eqs (deployment_ServiceName x) serviceName)
      (deployment_rows (fun rd => eqs (deployment_Environment rd) environment) d))).

Definition ListLatestRuntimeUsagesByServiceEnvironment (serviceName : RuntimeServiceName)
    (environment : RuntimeEnvironment) : M World (list RuntimeModuleUsage) :=
  listRuntimeModuleUsages (
    let! _ := text_params [serviceName; environment] in
    gets (fun d =>
      match latest_deployment serviceName environment d with
      | None => []
      | Some latest => sort_by by_module_and_version
          (usage_rows (fun u => eqs (usage_DeploymentID u) (deployment_ID latest)) d)
      end)).

Definition ListRuntimeModuleUsagesByDriftStatus (status : RuntimeDriftStatus) (limit offset : Z)
    : M World (list RuntimeModuleUsage) :=
  listRuntimeModuleUsages (
    let! _ := text_params [status] in
    let! _ := page_params limit offset in
    gets (fun d => limit_offset limit offset
      (sort_by (then_by (newest_first usage_CreatedAt) (text_order usage_ModuleName))
        (usage_rows (fun u => eqs (usage_DriftStatus u) status) d)))).

(** ** The services and what they run *)

(** [SELECT DISTINCT ON (service_id, environment) ... ORDER BY service_id,
    environment, reported_at DESC, created_at DESC]. *)
Definition latest_deployments (d : Database) : list RuntimeDeployment :=
  let deployments := ct_deployments (db_catalog d) in
  flat_map (fun k =>
    firstn 1 (sort_by newest_deployment
      (List.filter (fun x => eqs (deployment_ServiceID x) k.1 && eqs (deployment_Environment x) k.2) deployments)))
    (remove_dups (map (fun x => (deployment_ServiceID x, deployment_Environment x)) deployments)).

Definition latest_time (l : list time) : option time :=
  match l with [] => None | t :: l' => Some (fold_left Z.max l' t) end.

Definition service_summary (d : Database) (rs : RuntimeService) : RuntimeServiceSummary :=
  let deployments := List.filter (fun x => eqs (deployment_ServiceID x) (service_ID rs))
                       (ct_deployments (db_catalog d)) in
  let ld := List.filter (fun x => eqs (deployment_ServiceID x) (service_ID rs)) (latest_deployments d) in
  let rmu := flat_map (fun x => List.filter (fun u => eqs (usage_DeploymentID u) (deployment_ID x))
                                  (ct_usages (db_catalog d))) ld in
  let count status := count_in (fun u => eqs (usage_DriftStatus u) status) rmu in
  mkRuntimeServiceSummary rs (distinct_texts (map deployment_Environment ld))
    (llen (remove_dups (map deployment_Environment ld))) (llen deployments)
    (count RuntimeDriftStatusUpToDate) (count RuntimeDriftStatusBehindLatest)
    (count RuntimeDriftStatusUnknownVersion) (count RuntimeDriftStatusDeprecatedVersion)
    (latest_time (map deployment_ReportedAt deployments)).

Definition scanRuntimeServiceSummary (x : RuntimeServiceSummary) : result RuntimeServiceSummary :=
  let rs := serviceSummary_Service x in
  let? name := NewRuntimeServiceName (service_Name rs) in
  let? environments := result_mapM NewRuntimeEnvironment (serviceSummary_Environments x) in
  Ok (mkRuntimeServiceSummary
        (mkRuntimeService (NewRuntimeServiceID (service_ID rs)) name (service_CreatedAt rs) (service_UpdatedAt rs))
        environments (serviceSummary_EnvironmentCount x) (serviceSummary_DeploymentCount x)
        (serviceSummary_UpToDateCount x) (serviceSummary_BehindLatestCount x)
        (serviceSummary_UnknownVersionCount x) (serviceSummary_DeprecatedCount x)
        (serviceSummary_LatestReportedAt x)).

Definition ListRuntimeServices (limit offset : Z) : M World (list RuntimeServiceSummary) :=
  let! rows := map_err mapError (exec (T := Database) (
    let! _ := page_params limit offset in
    gets (fun d => limit_offset limit offset
      (map (service_summary d) (sort_by (text_order service_Name) (ct_services (db_catalog d))))))) in
  scan_rows scanRuntimeServiceSummary rows.

(** [usages = append(usages, deploymentUsages...)] for each deployment. *)
Definition deploymentUsages (deployments : list RuntimeDeployment) : M World (list RuntimeModuleUsage) :=
  let! usages := mapM (fun x => ListRuntimeModuleUsagesByDeployment (deployment_ID x)) deployments in
  ret (concat usages).

Definition GetRuntimeServiceDetails (serviceName : RuntimeServiceName) : M World RuntimeServiceDetails :=
  let! service := GetRuntimeServiceByName serviceName in
  let! deployments := ListRuntimeDeploymentsByService (service_ID service) 1000 0 in
  let! usages := deploymentUsages deployments in
  ret (mkRuntimeServiceDetails service deployments usages).

Definition ListRuntimeEnvironmentInventory (environment : RuntimeEnvironment) (limit offset : Z)
    : M World RuntimeEnvironmentInventory :=
  let! deployments := listRuntimeDeployments (
    let! _ := text_params [environment] in
    let! _ := page_params limit offset in
    gets (fun d => limit_offset limit offset (sort_by newest_deployment
      (deployment_rows (fun rd => eqs (deployment_Environment rd) environment) d)))) in
  let! usages := deploymentUsages deployments in
  ret (mkRuntimeEnvironmentInventory environment deployments usages).

(** ** Where a module runs *)

(** The joins of a usage with its deployment and the service. *)
Definition joined_usages (p : RuntimeModuleUsage -> bool) (d : Database)
    : list (RuntimeModuleUsage * RuntimeDeployment) :=
  flat_map (fun u => map (pair u) (deployment_rows (fun rd => eqs (deployment_ID rd) (usage_DeploymentID u)) d))
    (List.filter p (ct_usages (db_catalog d))).

Definition module_usage_row (x : RuntimeModuleUsage * RuntimeDeployment) : ModuleRuntimeUsage :=
  let (u, rd) := x in
  mkModuleRuntimeUsage (deployment_ServiceName rd) (deployment_Environment rd) (deployment_ID rd)
    (usage_ModuleName u) (usage_Version u) (deployment_GitCommit rd) (deployment_BuildVersion rd)
    (deployment_ReportedAt rd) (usage_DriftStatus u) (usage_DriftReason u).

(** [ORDER BY rd.reported_at DESC, rs.name ASC, rd.environment ASC]. *)
Definition by_report : RuntimeModuleUsage * RuntimeDeployment -> RuntimeModuleUsage * RuntimeDeployment -> bool :=
  then_by (newest_first (fun x => deployment_ReportedAt x.2))
    (then_by (text_order (fun x => deployment_ServiceName x.2))
      (text_order (fun x => deployment_Environment x.2))).

Definition scanModuleRuntimeUsage (x : ModuleRuntimeUsage) : result ModuleRuntimeUsage :=
  let? serviceName := NewRuntimeServiceName (moduleUsage_ServiceName x) in
  let? environment := NewRuntimeEnvironment (moduleUsage_Environment x) in
  let? moduleName := NewModuleName (moduleUsage_ModuleName x) in
  let? version := NewVersion (moduleUsage_Version x) in
  let? status := NewRuntimeDriftStatus (moduleUsage_DriftStatus x) in
  Ok (mkModuleRuntimeUsage serviceName environment (NewRuntimeDeploymentID (moduleUsage_DeploymentID x))
        moduleName version (moduleUsage_GitCommit x) (moduleUsage_BuildVersion x) (moduleUsage_ReportedAt x)
        status (moduleUsage_DriftReason x)).

Definition module_usages_page (p : RuntimeModuleUsage -> bool) (limit offset : Z)
    : M Database (list ModuleRuntimeUsage) :=
  let! _ := page_params limit offset in
  gets (fun d => map module_usage_row (limit_offset limit offset (sort_by by_report (joined_usages p d)))).

Definition listModuleRuntimeUsages (query : M Database (list ModuleRuntimeUsage))
    : M World (list ModuleRuntimeUsage) :=
  let! rows := map_err mapError (exec query) in
  scan_rows scanModuleRuntimeUsage rows.

Definition ListModuleRuntimeUsages (moduleID : ModuleID) (limit offset : Z) : M World (list ModuleRuntimeUsage) :=
  listModuleRuntimeUsages (
    let! id := uuid_param moduleID in
    module_usages_page (fun u => same_id id (usage_ModuleID u)) limit offset).

Definition ListModuleRuntimeUsagesByModuleName (moduleName : ModuleName) (limit offset : Z)
    : M World (list ModuleRuntimeUsage) :=
  listModuleRuntimeUsages (
    let! _ := text_params [moduleName] in
    module_usages_page (fun u => eqs (usage_ModuleName u) moduleName) limit offset).

Definition impact_reason : string := "exact runtime module version matches breaking report base version".

Definition impact_row (x : RuntimeModuleUsage * RuntimeDeployment) : RuntimeImpact :=
  let (u, rd) := x in
  mkRuntimeImpact (deployment_ServiceName rd) (deployment_Environment rd) (usage_ModuleName u) (usage_Version u)
    (deployment_GitCommit rd) (deployment_BuildVersion rd) (deployment_ReportedAt rd)
    RuntimeImpactStatusPotentiallyAffectedByBreakingChange impact_reason (usage_DriftStatus u)
    (usage_DriftReason u).

Definition scanRuntimeImpact (x : RuntimeImpact) : result RuntimeImpact :=
  let? serviceName := NewRuntimeServiceName (impact_ServiceName x) in
  let? environment := NewRuntimeEnvironment (impact_Environment x) in
  let? moduleName := NewModuleName (impact_UsedModule x) in
  let? version := NewVersion (impact_UsedVersion x) in
  let? driftStatus := NewRuntimeDriftStatus (impact_DriftStatus x) in
  Ok (mkRuntimeImpact serviceName environment moduleName version (impact_GitCommit x) (impact_BuildVersion x)
        (impact_ReportedAt x) (impact_ImpactStatus x) (impact_Reason x) driftStatus (impact_DriftReason x)).

Definition ListRuntimeImpactByModuleVersion (reportID : BreakingReportID) (moduleVersionID : ModuleVersionID)
    (limit offset : Z) : M World (list RuntimeImpact) :=
  let! rows := map_err mapError (exec (T := Database) (
    let! id := uuid_param moduleVersionID in
    let! _ := page_params limit offset in
    gets (fun d => map impact_row (limit_offset limit offset
      (sort_by by_report (joined_usages (fun u => same_id id (usage_ModuleVersionID u)) d)))))) in
  scan_rows scanRuntimeImpact rows.
End Store.
