(* ===== verification/RuntimeInventory.v ===== *)
(** * Runtime inventory

    [usecase/runtimeinventory/*.go]: a service reports which versions of which
    modules it runs; each version is compared with the registry, and the
    deployment is stored with the drift of every usage. *)

From S2P Require Import Prelude Errors GoStrings JsonScan Domain Json Effects Postgres Outbox Events Tables World GovernanceStore UseCase CatalogStore DescriptorStore DependencyStore DependencyGraph RuntimeStore.

Open Scope string_scope.
Open Scope Z_scope.

Definition DriftReasonUpToDate : string := "up_to_date".
Definition DriftReasonModuleNotFound : string := "module_not_found".
Definition DriftReasonVersionNotFound : string := "version_not_found".
Definition DriftReasonBehindLatest : string := "behind_latest".
Definition DriftReasonDeprecated : string := "deprecated_version".

(** ** Types ([types.go]) *)

Record ReportedModuleInput := mkReportedModuleInput {
  moduleInput_Module : string;
  moduleInput_Version : string }.

Record ReportRuntimeInventoryInput := mkReportInput {
  reportInput_ServiceName : string;
  reportInput_Environment : string;
  reportInput_GitCommit : string;
  reportInput_BuildVersion : string;
  reportInput_ReportedAt : option time;
  reportInput_Modules : list ReportedModuleInput }.

Record RuntimeModuleUsageOutput := mkUsageOutput {
  usageOutput_Module : string;
  usageOutput_Version : string;
  usageOutput_LatestVersion : string;
  usageOutput_DriftStatus : RuntimeDriftStatus;
  usageOutput_DriftReason : string }.

Record DriftCounts := mkCounts {
  counts_UpToDate : Z;
  counts_BehindLatest : Z;
  counts_UnknownVersion : Z;
  counts_DeprecatedVersion : Z }.

Record ReportRuntimeInventoryOutput := mkReportOutput {
  reportOutput_DeploymentID : string;
  reportOutput_ServiceName : string;
  reportOutput_Environment : string;
  reportOutput_GitCommit : string;
  reportOutput_BuildVersion : string;
  reportOutput_ReportedAt : time;
  reportOutput_Usages : list RuntimeModuleUsageOutput;
  reportOutput_DriftCounts : DriftCounts }.

Definition counts_Add (counts : DriftCounts) (status : RuntimeDriftStatus) : DriftCounts :=
  let '(mkCounts u b n x) := counts in
  if eqs status RuntimeDriftStatusUpToDate then mkCounts (u + 1) b n x else
  if eqs status RuntimeDriftStatusBehindLatest then mkCounts u (b + 1) n x else
  if eqs status RuntimeDriftStatusUnknownVersion then mkCounts u b (n + 1) x else
  if eqs status RuntimeDriftStatusDeprecatedVersion then mkCounts u b n (x + 1) else counts.

Record ModuleVersionReference := mkModuleVersionReference {
  moduleVersionReference_Module : string;
  moduleVersionReference_Version : string }.

Definition ParseModuleVersionReference (value : string) : result ModuleVersionReference :=
  let reference := TrimSpace value in
  if (reference =? "")%string then Err runtimeinventory.ErrInvalidModuleVersionReference else
  match Cut reference "@" with
  | None => Err runtimeinventory.ErrInvalidModuleVersionReference
  | Some (module, version) =>
      if Contains version "@" then Err runtimeinventory.ErrInvalidModuleVersionReference else
      let module := TrimSpace module in
      let version := TrimSpace version in
      if (module =? "")%string || (version =? "")%string
      then Err runtimeinventory.ErrInvalidModuleVersionReference
      else Ok (mkModuleVersionReference module version)
  end.

(** ** The service ([service.go]) *)

Record reportedModuleReference := mkReportedReference {
  reference_ModuleName : ModuleName;
  reference_Version : Version }.

(** [moduleName + "\x00" + version]. *)
Definition reference_key (r : reportedModuleReference) : string :=
  reference_ModuleName r +:+ String nul_byte (reference_Version r).

Fixpoint collect_references (inputs : list ReportedModuleInput) (seen : gset string)
    (refs : list reportedModuleReference) : result (list reportedModuleReference) :=
  match inputs with
  | [] => Ok refs
  | input :: inputs' =>
      let? moduleName := NewModuleName (moduleInput_Module input) in
      let? version := NewVersion (moduleInput_Version input) in
      let reference := mkReportedReference moduleName version in
      let key := reference_key reference in
      if bool_decide (key ∈ seen) then collect_references inputs' seen refs
      else collect_references inputs' ({[key]} ∪ seen) (refs ++ [reference])%list
  end.

Definition reportedModuleReferences (inputs : list ReportedModuleInput) : result (list reportedModuleReference) :=
  if (length inputs =? 0)%nat then Err runtimeinventory.ErrRuntimeModulesRequired else
  let? refs := collect_references inputs ∅ [] in
  if (length refs =? 0)%nat then Err runtimeinventory.ErrRuntimeModulesRequired else Ok refs.

(** [x, err := m] where [ErrNotFound] is handled apart: [None]. *)
Definition find_or_none {S A} (m : M S A) : M S (option A) :=
  let! r := try m in
  match r with
  | Ok a => ret (Some a)
  | Err e => if errors_Is e domain.ErrNotFound then ret None else fail e
  end.

Definition runtimeUsageOutput (usage : RuntimeModuleUsage) : RuntimeModuleUsageOutput :=
  mkUsageOutput (usage_ModuleName usage) (usage_Version usage) (default "" (usage_LatestVersion usage))
    (usage_DriftStatus usage) (usage_DriftReason usage).

Section Service.
Context `{PG : !Postgres} `{ENV : !Env}.

Definition NewRuntimeServiceID_ : M World RuntimeServiceID :=
  let! value := random_hex in ret (NewRuntimeServiceID value).
Definition NewRuntimeDeploymentID_ : M World RuntimeDeploymentID :=
  let! value := random_hex in ret (NewRuntimeDeploymentID value).
Definition NewRuntimeModuleUsageID_ : M World RuntimeModuleUsageID :=
  let! value := random_hex in ret (NewRuntimeModuleUsageID value).

(** A usage before its identifier, deployment and time are set. *)
Definition resolved_usage (r : reportedModuleReference) (moduleID : option ModuleID)
    (versionID : option ModuleVersionID) (latest : option Version) (status : RuntimeDriftStatus)
    (reason : string) : RuntimeModuleUsage :=
  mkRuntimeModuleUsage "" "" moduleID (reference_ModuleName r) versionID (reference_Version r) latest
    status reason 0.

Definition behindLatestReason (latest : option Version) : string :=
  match latest with
  | Some v => DriftReasonBehindLatest +:+ ": latest version is " +:+ v
  | None => DriftReasonBehindLatest
  end.

Definition resolveRuntimeUsage (r : reportedModuleReference) : M World RuntimeModuleUsage :=
  let! module := find_or_none (Module_GetByName (reference_ModuleName r)) in
  match module with
  | None => ret (resolved_usage r None None None RuntimeDriftStatusUnknownVersion DriftReasonModuleNotFound)
  | Some module =>
      let moduleID := Some (module_ID module) in
      let! version := find_or_none (GetByModuleAndVersion (module_ID module) (reference_Version r)) in
      match version with
      | None => ret (resolved_usage r moduleID None None RuntimeDriftStatusUnknownVersion DriftReasonVersionNotFound)
      | Some version =>
          let versionID := Some (version_ID version) in
          let! latest := find_or_none (GetLatestByModule (module_ID module)) in
          let latestVersion := version_Version <$> latest in
          (* the zero value when there is no latest version *)
          let latestID := default "" (version_ID <$> latest) in
          let latestName := default "" latestVersion in
          if IsDeprecated version
          then ret (resolved_usage r moduleID versionID latestVersion RuntimeDriftStatusDeprecatedVersion
                      DriftReasonDeprecated) else
          if eqs latestID (version_ID version) || eqs latestName (version_Version version)
          then ret (resolved_usage r moduleID versionID latestVersion RuntimeDriftStatusUpToDate
                      DriftReasonUpToDate)
          else ret (resolved_usage r moduleID versionID latestVersion RuntimeDriftStatusBehindLatest
                      (behindLatestReason latestVersion))
      end
  end.

Definition identified_usage (id : RuntimeModuleUsageID) (deploymentID : RuntimeDeploymentID) (t : time)
    (u : RuntimeModuleUsage) : RuntimeModuleUsage :=
  mkRuntimeModuleUsage id deploymentID (usage_ModuleID u) (usage_ModuleName u) (usage_ModuleVersionID u)
    (usage_Version u) (usage_LatestVersion u) (usage_DriftStatus u) (usage_DriftReason u) t.

Definition resolve_reference (deploymentID : RuntimeDeploymentID) (reportedAt : time) (r : reportedModuleReference)
    : M World RuntimeModuleUsage :=
  let! usage := resolveRuntimeUsage r in
  let! usageID := NewRuntimeModuleUsageID_ in
  ret (identified_usage usageID deploymentID reportedAt usage).

Definition drift_counts (usages : list RuntimeModuleUsage) : DriftCounts :=
  fold_left (fun counts u => counts_Add counts (usage_DriftStatus u)) usages (mkCounts 0 0 0 0).

Definition event_counts (c : DriftCounts) : RuntimeInventoryDriftCounts :=
  mkDriftCounts (counts_UpToDate c) (counts_BehindLatest c) (counts_UnknownVersion c) (counts_DeprecatedVersion c).

(** The function of the transaction. *)
Definition store_report (service : RuntimeService) (deployment : RuntimeDeployment)
    (usages : list RuntimeModuleUsage) (reportedAt : time) : M World unit :=
  let! storedService := UpsertRuntimeServiceByName service in
  let deployment := mkRuntimeDeployment (deployment_ID deployment) (service_ID storedService)
    (service_Name storedService) (deployment_Environment deployment) (deployment_GitCommit deployment)
    (deployment_BuildVersion deployment) (deployment_ReportedAt deployment) (deployment_CreatedAt deployment) in
  let! _ := CreateRuntimeDeployment deployment in
  let! _ := CreateRuntimeModuleUsages usages in
  write_outbox (NewRuntimeInventoryReported (mkRuntimeInventoryReported (deployment_ID deployment)
    (service_ID storedService) (service_Name storedService) (deployment_Environment deployment)
    (deployment_GitCommit deployment) (deployment_BuildVersion deployment) (llen usages)
    (event_counts (drift_counts usages)) reportedAt)).

Definition ReportRuntimeInventory (input : ReportRuntimeInventoryInput) : M World ReportRuntimeInventoryOutput :=
  let! serviceName := lift (NewRuntimeServiceName (reportInput_ServiceName input)) in
  let! environment := lift (NewRuntimeEnvironment (reportInput_Environment input)) in
  let gitCommit := TrimSpace (reportInput_GitCommit input) in
  let! _ := lift (ValidateRuntimeGitCommit gitCommit) in
  let buildVersion := TrimSpace (reportInput_BuildVersion input) in
  let! _ := lift (ValidateRuntimeBuildVersion buildVersion) in
  let! t := now in
  let reportedAt := default t (reportInput_ReportedAt input) in
  let! references := lift (reportedModuleReferences (reportInput_Modules input)) in
  let! serviceID := NewRuntimeServiceID_ in
  let! deploymentID := NewRuntimeDeploymentID_ in
  let! usages := mapM (resolve_reference deploymentID reportedAt) references in
  let deployment := mkRuntimeDeployment deploymentID serviceID serviceName environment gitCommit buildVersion
                      reportedAt reportedAt in
  let service := mkRuntimeService serviceID serviceName reportedAt reportedAt in
  let! _ := WithinTransaction (store_report service deployment usages reportedAt) in
  ret (mkReportOutput deploymentID serviceName environment gitCommit buildVersion reportedAt
         (map runtimeUsageOutput usages) (drift_counts usages)).

(** *** Reading *)

Definition Runtime_ListRuntimeServices (limit offset : Z) : M World (list RuntimeServiceSummary) :=
  ListRuntimeServices limit offset.

Definition Runtime_GetRuntimeServiceDetails (serviceNameValue : string) : M World RuntimeServiceDetails :=
  let! serviceName := lift (NewRuntimeServiceName serviceNameValue) in
  GetRuntimeServiceDetails serviceName.

Definition GetEnvironmentInventory (environmentValue : string) (limit offset : Z) : M World RuntimeEnvironmentInventory :=
  let! environment := lift (NewRuntimeEnvironment environmentValue) in
  ListRuntimeEnvironmentInventory environment limit offset.

Definition GetModuleRuntimeUsages (moduleNameValue : string) (limit offset : Z) : M World (list ModuleRuntimeUsage) :=
  let! moduleName := lift (NewModuleName moduleNameValue) in
  let! module := find_or_none (Module_GetByName moduleName) in
  match module with
  | None => ListModuleRuntimeUsagesByModuleName moduleName limit offset
  | Some module => ListModuleRuntimeUsages (module_ID module) limit offset
  end.

Definition GetBreakingReportRuntimeImpact (reportID : BreakingReportID) (limit offset : Z)
    : M World (list RuntimeImpact) :=
  let! (report, _) := Report_GetByID reportID in
  ListRuntimeImpactByModuleVersion (report_ID report) (report_BaseVersionID report) limit offset.
End Service.

(** ** References to versions

    A reference is written [module@version]; neither part holds the separator
    or white space around it. *)

Definition at_sign : ascii := "@"%char.

Definition reference_part (s : string) : Prop := s <> "" /\ TrimSpace s = s /\ no_byte at_sign s = true.

Definition print_reference (r : ModuleVersionReference) : string :=
  moduleVersionReference_Module r +:+ "@" +:+ moduleVersionReference_Version r.

Lemma forallb_trim_left p : forall s, forallb_string p s = true -> forallb_string p (trim_left s) = true.
Proof.
  fix IH 1. intros [|a s1] H; [done|]. pose proof H as H0. apply andb_true_iff in H as [_ H]. cbn [trim_left].
  destruct (space1 a); [by apply IH|]. destruct s1 as [|b s2]; [done|]. apply andb_true_iff in H as [_ H].
  destruct (space2 a b); [by apply IH|]. destruct s2 as [|c s3]; [done|]. apply andb_true_iff in H as [_ H].
  destruct (space3 a b c); [by apply IH|done].
Qed.

Lemma forallb_trim_right p s : forallb_string p s = true -> forallb_string p (trim_right s) = true.
Proof.
  intros H. destruct (trim_right_split s) as (x & E & _). rewrite E, forallb_string_app in H.
  by apply andb_true_iff in H as [H _].
Qed.

Lemma no_byte_TrimSpace c s : no_byte c s = true -> no_byte c (TrimSpace s) = true.
Proof. intros H. by apply forallb_trim_right, forallb_trim_left. Qed.

(** White space holds no separator. *)
Lemma trim_left_all_no_at : forall s, trim_left s = "" -> no_byte at_sign s = true.
Proof.
  assert (E1 : forall a, space1 a = true -> Ascii.eqb a at_sign = false).
  { intros a H. apply Ascii.eqb_neq. intros ->. done. }
  assert (E2 : forall a b, space2 a b = true -> Ascii.eqb a at_sign = false /\ Ascii.eqb b at_sign = false).
  { intros a b H. split; apply Ascii.eqb_neq; intros ->; unfold space2 in H; cbn in H; [done|]. by rewrite andb_false_r in H. }
  assert (E3 : forall a b c, space3 a b c = true ->
    Ascii.eqb a at_sign = false /\ Ascii.eqb b at_sign = false /\ Ascii.eqb c at_sign = false).
  { intros a b c H. split_and!; apply Ascii.eqb_neq; intros ->; unfold space3 in H;
      change (byte at_sign) with 64 in H; cbn in H; [done| |]; rewrite ?andb_false_r in H; try done. }
  fix IH 1. intros [|a s1]; [done|]. cbn [trim_left no_byte forallb_string].
  destruct (space1 a) eqn:H1; [intros H; cbn; rewrite (E1 a H1); by apply IH|].
  destruct s1 as [|b s2]; [done|].
  destruct (space2 a b) eqn:H2; [intros H; destruct (E2 a b H2) as [Ea Eb]; cbn; rewrite Ea, Eb; by apply IH|].
  destruct s2 as [|c s3]; [done|]. destruct (space3 a b c) eqn:H3; [|done].
  intros H. destruct (E3 a b c H3) as (Ea & Eb & Ec). cbn. rewrite Ea, Eb, Ec. by apply IH.
Qed.

Lemma not_all_space s : no_byte at_sign s = false -> all_space s = false.
Proof.
  intros H. unfold all_space. apply String.eqb_neq. intros E. by rewrite (trim_left_all_no_at s E) in H.
Qed.

Lemma no_byte_at p s : no_byte at_sign (p +:+ String at_sign s) = false.
Proof. unfold no_byte. rewrite forallb_string_app. cbn. by rewrite andb_false_r. Qed.

Lemma trim_right_at p v : trim_right v = v -> trim_right (p +:+ String at_sign v) = p +:+ String at_sign v.
Proof.
  intros Hv. induction p as [|a p IH].
  - change ("" +:+ String at_sign v) with (String at_sign v).
    pose proof (not_all_space _ (no_byte_at "" v)) as E. change ("" +:+ String at_sign v) with (String at_sign v) in E.
    by rewrite trim_right_unfold, E, Hv.
  - change (String a p +:+ String at_sign v) with (String a (p +:+ String at_sign v)).
    pose proof (not_all_space _ (no_byte_at (String a p) v)) as E.
    change (String a p +:+ String at_sign v) with (String a (p +:+ String at_sign v)) in E.
    by rewrite trim_right_unfold, E, IH.
Qed.

Lemma starts_space_at m v : m <> "" -> starts_space m = false -> starts_space (m +:+ String at_sign v) = false.
Proof.
  assert (E2 : forall a, space2 a at_sign = false) by (intros a; unfold space2; cbn; by rewrite andb_false_r).
  assert (E3 : forall a b, space3 a b at_sign = false /\ space3 a at_sign b = false).
  { intros a b. unfold space3. change (byte at_sign) with 64. cbn. by rewrite ?andb_false_r, ?andb_false_l. }
  destruct m as [|a [|b [|c m]]]; [done|..]; intros _ H.
  - cbn in *. rewrite orb_false_r in H. rewrite H, E2. destruct v as [|c v]; [done|]. by destruct (E3 a c) as [_ ->].
  - cbn in *. rewrite orb_false_r in H. apply orb_false_iff in H as [-> ->]. by destruct (E3 a b) as [-> _].
  - exact H.
Qed.

Lemma TrimSpace_starts s : TrimSpace s = s -> starts_space s = false /\ trim_right s = s.
Proof.
  intros H. assert (Hs : starts_space s = false) by (rewrite <- H; apply starts_space_trim_right, trim_left_starts).
  split; [done|]. unfold TrimSpace in H. by rewrite (trim_left_fixed s Hs) in H.
Qed.

Lemma TrimSpace_at m v :
  m <> "" -> TrimSpace m = m -> TrimSpace v = v -> TrimSpace (m +:+ String at_sign v) = m +:+ String at_sign v.
Proof.
  intros Hne [Hm _]%TrimSpace_starts [_ Hv]%TrimSpace_starts. unfold TrimSpace.
  rewrite trim_left_fixed by by apply starts_space_at. by apply trim_right_at.
Qed.

Lemma Cut_at m v : no_byte at_sign m = true -> Cut (m +:+ String at_sign v) "@" = Some (m, v).
Proof.
  induction m as [|a m IH]; intros H; [by destruct v|]. apply andb_true_iff in H as [Ha H].
  change (String a m +:+ String at_sign v) with (String a (m +:+ String at_sign v)).
  apply negb_true_iff in Ha. rewrite Ascii.eqb_sym in Ha. cbn [Cut HasPrefix]. fold at_sign. rewrite Ha. cbn [andb].
  specialize (IH H). fold at_sign in IH. by rewrite IH.
Qed.

Lemma Cut_at_inv s m v : Cut s "@" = Some (m, v) -> s = m +:+ String at_sign v /\ no_byte at_sign m = true.
Proof.
  revert m. induction s as [|a s IH]; intros m H; [done|]. cbn [Cut HasPrefix] in H. fold at_sign in H.
  destruct (Ascii.eqb at_sign a) eqn:Ea; cbn [andb] in H.
  - apply Ascii.eqb_eq in Ea as <-. destruct s; injection H as <- <-; done.
  - fold at_sign in IH. destruct (Cut s (String at_sign "")) as [[b c]|] eqn:Ec; [|done]. injection H as <- ->. destruct (IH b eq_refl) as [-> Hb].
    split; [done|]. rewrite Ascii.eqb_sym in Ea. unfold no_byte in *. cbn [forallb_string]. by rewrite Ea.
Qed.

Lemma Contains_at s : Contains s "@" = negb (no_byte at_sign s).
Proof.
  induction s as [|a s IH]; [done|]. cbn [Contains HasPrefix]. fold at_sign. unfold no_byte in *. cbn [forallb_string].
  fold at_sign in IH. rewrite IH, (Ascii.eqb_sym a). destruct (Ascii.eqb at_sign a); [by destruct s|done].
Qed.

(** A reference that is printed is read back as itself, and every reference
    that is read, however it was spelled, has parts that are not empty, without
    white space around them and without the separator, so that printing it gives
    the one canonical spelling. *)
Theorem ParseModuleVersionReference_roundtrip r :
  (reference_part (moduleVersionReference_Module r) -> reference_part (moduleVersionReference_Version r) ->
     ParseModuleVersionReference (print_reference r) = Ok r)
  /\ (forall value, ParseModuleVersionReference value = Ok r ->
     reference_part (moduleVersionReference_Module r) /\ reference_part (moduleVersionReference_Version r)
     /\ ParseModuleVersionReference (print_reference r) = Ok r).
Proof.
  assert (P : reference_part (moduleVersionReference_Module r) -> reference_part (moduleVersionReference_Version r) ->
    ParseModuleVersionReference (print_reference r) = Ok r).
  { destruct r as [m v]. intros (M1 & M2 & M3) (V1 & V2 & V3). unfold print_reference, ParseModuleVersionReference.
    cbn [moduleVersionReference_Module moduleVersionReference_Version] in *.
    change ("@" +:+ v) with (String at_sign v). rewrite TrimSpace_at by done.
    replace (m +:+ String at_sign v =? "")%string with false by (by destruct m).
    rewrite Cut_at, Contains_at, V3 by done. cbn [negb]. rewrite M2, V2. apply String.eqb_neq in M1, V1. by rewrite M1, V1. }
  split; [exact P|]. intros value H.
  assert (G : reference_part (moduleVersionReference_Module r) /\ reference_part (moduleVersionReference_Version r));
    [|destruct G; split_and!; auto].
  unfold ParseModuleVersionReference in H. destruct (_ =? _)%string; [done|].
  destruct (Cut _ _) as [[m v]|] eqn:E; [|done]. apply Cut_at_inv in E as [_ Hm]. rewrite Contains_at in H.
  destruct (negb _) eqn:Hv; [done|]. apply negb_false_iff in Hv.
  destruct (_ || _) eqn:Ene; [done|]. apply orb_false_iff in Ene as [N1%String.eqb_neq N2%String.eqb_neq].
  injection H as <-. cbn. split; (split_and!; [done|apply TrimSpace_idem|by apply no_byte_TrimSpace]).
Qed.

Lemma ParseModuleVersionReference_roundtrip_witness :
  ParseModuleVersionReference " users @ v1.0.0 " = Ok (mkModuleVersionReference "users" "v1.0.0")
  /\ ParseModuleVersionReference "users@v1.0.0" = Ok (mkModuleVersionReference "users" "v1.0.0").
Proof.
  split; [vm_compute; reflexivity|].
  apply (proj2 (ParseModuleVersionReference_roundtrip (mkModuleVersionReference "users" "v1.0.0")) " users @ v1.0.0 ").
  vm_compute. reflexivity.
Defined.
