(* ===== verification/AuditLog.v ===== *)
(** * The audit sink

    [audit/audit.go]: the audit events of the use cases and the community sink,
    which stores them with the repository of the audit log.  [AuditSink] is the
    interface the use cases write to. *)

From S2P Require Import Prelude Errors GoStrings Domain Effects Postgres Outbox World GovernanceStore.

Open Scope string_scope.
Open Scope Z_scope.

Definition MaxPayloadBytes : Z := 16 * 1024.
Definition OutcomeSuccess : string := "success".
Definition OutcomeFailure : string := "failure".

Record AuditResource := mkAuditResource {
  resource_Type : string;
  resource_ID : string;
  resource_Name : string }.

Record AuditEvent := mkAuditEvent {
  event_ID : string;
  event_Type : string;
  event_Actor : string;
  event_Action : string;
  event_Outcome : string;
  event_Resource : AuditResource;
  event_RelatedResources : list AuditResource;
  event_Payload : string;
  event_OccurredAt : time }.

Class AuditSink (S : Type) := { Record_event : AuditEvent -> M S unit }.

Definition with_module (moduleID : option ModuleID) (name : ModuleName) (e : GovernanceAuditEvent) :=
  mkGovernanceAuditEvent (auditEvent_ID e) (auditEvent_EventType e) (auditEvent_Actor e) moduleID
    name (auditEvent_ApprovalRequestID e) (auditEvent_BreakingReportID e)
    (auditEvent_PayloadJSON e) (auditEvent_CreatedAt e).
Definition with_request (requestID : option ApprovalRequestID) (e : GovernanceAuditEvent) :=
  mkGovernanceAuditEvent (auditEvent_ID e) (auditEvent_EventType e) (auditEvent_Actor e)
    (auditEvent_ModuleID e) (auditEvent_ModuleName e) requestID (auditEvent_BreakingReportID e)
    (auditEvent_PayloadJSON e) (auditEvent_CreatedAt e).
Definition with_report (reportID : option BreakingReportID) (e : GovernanceAuditEvent) :=
  mkGovernanceAuditEvent (auditEvent_ID e) (auditEvent_EventType e) (auditEvent_Actor e)
    (auditEvent_ModuleID e) (auditEvent_ModuleName e) (auditEvent_ApprovalRequestID e) reportID
    (auditEvent_PayloadJSON e) (auditEvent_CreatedAt e).

Definition applyResource (stored : GovernanceAuditEvent) (resource : AuditResource)
    : GovernanceAuditEvent :=
  if (resource_Type resource =? "module")%string then
    let moduleID := if (resource_ID resource =? "")%string then auditEvent_ModuleID stored
                    else Some (NewModuleID (resource_ID resource)) in
    let name := if (resource_Name resource =? "")%string then auditEvent_ModuleName stored
                else match NewModuleName (resource_Name resource) with
                     | Ok name => name
                     | Err _ => auditEvent_ModuleName stored
                     end in
    with_module moduleID name stored
  else if (resource_Type resource =? "approval_request")%string then
    if (resource_ID resource =? "")%string then stored
    else with_request (Some (NewApprovalRequestID (resource_ID resource))) stored
  else if (resource_Type resource =? "breaking_report")%string then
    if (resource_ID resource =? "")%string then stored
    else with_report (Some (NewBreakingReportID (resource_ID resource))) stored
  else stored.

(** The row the community sink stores for an event. *)
Definition stored_event (event : AuditEvent) (eventType : GovernanceAuditEventType)
    : GovernanceAuditEvent :=
  let payload := if (event_Payload event =? "")%string then "{}" else event_Payload event in
  fold_left applyResource (event_Resource event :: event_RelatedResources event)
    (mkGovernanceAuditEvent (NewGovernanceAuditEventID (event_ID event)) eventType
       (event_Actor event) None "" None None payload (event_OccurredAt event)).

Section Community.
Context `{PG : !Postgres} `{ENV : !Env}.

Definition CommunityAuditSink_Record (event : AuditEvent) : M World unit :=
  if MaxPayloadBytes <? len (event_Payload event) then fail EPayloadTooLarge else
  let! eventType := lift (NewGovernanceAuditEventType (event_Type event)) in
  Audit_Append (stored_event event eventType).

#[global] Instance CommunityAuditSink : AuditSink World := {| Record_event := CommunityAuditSink_Record |}.

(** What the use cases rely on of a sink: an event it accepts is one row of the
    log, of the type of the event and with its actor. *)

Lemma fold_applyResource_kept rs e :
  auditEvent_EventType (fold_left applyResource rs e) = auditEvent_EventType e
  /\ auditEvent_Actor (fold_left applyResource rs e) = auditEvent_Actor e.
Proof.
  revert e. induction rs as [|r rs IH]; intros e; simpl; [done|].
  destruct (IH (applyResource e r)) as [-> ->].
  unfold applyResource. repeat case_match; done.
Qed.

Class AuditSinkLaws `{AUD : !AuditSink World} := {
  Record_event_Ok e w u w' : Record_event e w = (Ok u, w') ->
    w_tx w' = w_tx w
    /\ exists row, auditEvent_EventType row = TrimSpace (event_Type e)
         /\ auditEvent_Actor row = event_Actor e
         /\ w_db w' = set_audit (fun l => l ++ [row])%list (w_db w) }.

#[global] Instance CommunityAuditSink_laws : AuditSinkLaws (AUD := CommunityAuditSink).
Proof.
  split. intros e w u w' H. cbn in H. unfold CommunityAuditSink_Record in H. minv.
  match goal with H : NewGovernanceAuditEventType _ = Ok _ |- _ => apply new_enum_Ok in H as [-> _] end.
  apply Audit_Append_Ok in H as (Htx & row & Ht & Ha & Hdb). split; [done|].
  exists row. unfold stored_event in *.
  match type of Ht with _ = auditEvent_EventType (fold_left _ ?rs ?e0) =>
    destruct (fold_applyResource_kept rs e0) as [E1 E2] end.
  rewrite E1 in Ht. rewrite E2 in Ha. done.
Qed.
End Community.
