(* ===== verification/Identity.v ===== *)
(** * Who calls and what they may do

    [identity/*.go], [repository/postgres/api_tokens.go],
    [authorization/authorization.go] and [usecase/governance/actor.go]:
    authentication by API token, the actions the community edition allows and
    the actor a governance operation is recorded under. *)

From S2P Require Import Prelude Errors GoStrings Domain Effects Postgres Outbox World GovernanceStore.

Open Scope string_scope.
Open Scope Z_scope.

(** The keyed hash of tokens, in hexadecimal. *)
Class Crypto := { hmac_sha256_hex : string -> string -> string }.

(** ** Principals ([identity.go]) *)

Definition PrincipalType := string.
Definition PrincipalTypeAPIToken : PrincipalType := "api_token".
Definition PrincipalTypeUser : PrincipalType := "user".
Definition PrincipalTypeServiceAccount : PrincipalType := "service_account".
Definition PrincipalTypeSystem : PrincipalType := "system".

Record Principal := mkPrincipal {
  principal_Subject : string;
  principal_DisplayName : string;
  principal_Type : PrincipalType;
  principal_Roles : list string;
  principal_Metadata : gmap string string }.

Definition Principal_IsZero (p : Principal) : bool :=
  (TrimSpace (principal_Subject p) =? "")%string || (TrimSpace (principal_Type p) =? "")%string.

Record AuthRequest := mkAuthRequest {
  req_AuthorizationHeader : string;
  req_BearerToken : string }.

(** [(token, ok)], [None] when not ok. *)
Definition Bearer (req : AuthRequest) : option string :=
  let token := TrimSpace (req_BearerToken req) in
  if negb (token =? "")%string then Some token else
  if negb (HasPrefix (req_AuthorizationHeader req) "Bearer ") then None else
  let token := TrimSpace (TrimPrefix (req_AuthorizationHeader req) "Bearer ") in
  if (token =? "")%string then None else Some token.

(** ** Tokens ([api_tokens.go]) *)

Section Tokens.
Context `{PG : !Postgres} `{ENV : !Env} `{CR : !Crypto}.

Definition Token_Create (token : APIToken) : M World unit :=
  map_err mapError (exec (T := Database) (
    let! id := uuid_param (token_ID token) in
    let! _ := text_params [token_Name token; token_TokenHash token] in
    let! d := gets (fun d => d) in
    let! _ := insert_checks []
      [(existsb (fun t => eqs (token_ID t) id) (db_tokens d), unique_violation "api_tokens_pkey");
       (existsb (fun t => eqs (token_TokenHash t) (token_TokenHash token)) (db_tokens d),
         unique_violation "api_tokens_token_hash_key")] [] in
    modify (set_tokens (fun l => l ++ [mkAPIToken id (token_Name token) (token_TokenHash token)
      (token_CreatedAt token) (token_LastUsedAt token) (token_ExpiresAt token)])%list))).

Definition scanToken (t : APIToken) : APIToken :=
  mkAPIToken (NewAPITokenID (token_ID t)) (token_Name t) (token_TokenHash t) (token_CreatedAt t)
    (token_LastUsedAt t) (token_ExpiresAt t).

Definition Token_getOne (query : M Database APIToken) : M World APIToken :=
  let! row := map_err mapError (exec query) in ret (scanToken row).

Definition Token_GetByID (id : APITokenID) : M World APIToken :=
  Token_getOne (
    let! id := uuid_param id in
    query_row (fun d => List.filter (fun t => eqs (token_ID t) id) (db_tokens d))).

Definition Token_GetByHash (hash : string) : M World APIToken :=
  Token_getOne (
    let! _ := text_params [hash] in
    query_row (fun d => List.filter (fun t => eqs (token_TokenHash t) hash) (db_tokens d))).

Definition use_token (usedAt : time) (t : APIToken) : APIToken :=
  mkAPIToken (token_ID t) (token_Name t) (token_TokenHash t) (token_CreatedAt t) (Some usedAt)
    (token_ExpiresAt t).

Definition Token_MarkUsed (id : APITokenID) (usedAt : time) : M World unit :=
  affected_or_not_found (
    let! id := uuid_param id in
    let p := fun t => eqs (token_ID t) id in
    let! n := gets (fun d => length (List.filter p (db_tokens d))) in
    let! _ := modify (set_tokens (update_where p (use_token usedAt))) in
    ret n).

(** ** Authentication ([api_token_provider.go]) *)

Variable tokenHashSecret : string.
(** [TokenUsageObserver], which is told of a token whose use was not recorded. *)
Variable recordTokenUsageFailure : APITokenID -> error -> M World unit.

Definition hashToken (rawToken : string) : string := hmac_sha256_hex tokenHashSecret rawToken.

Definition token_subject (token : APIToken) : string :=
  let subject := TrimSpace (token_Name token) in
  if (subject =? "")%string then token_ID token else subject.

Definition Authenticate (req : AuthRequest) : M World Principal :=
  match Bearer req with
  | None => fail EIdentityUnauthenticated
  | Some rawToken =>
      let! token := map_err (fun e =>
        if errors_Is e domain.ErrNotFound then EIdentityUnauthenticated else e)
        (Token_GetByHash (hashToken rawToken)) in
      let! t := now in
      if IsExpired token t then fail EIdentityUnauthenticated else
      let! used := try (Token_MarkUsed (token_ID token) t) in
      let! _ := match used with
                | Err e => let! _ := try (recordTokenUsageFailure (token_ID token) e) in ret tt
                | Ok _ => ret tt
                end in
      let subject := token_subject token in
      ret (mkPrincipal subject subject PrincipalTypeAPIToken [] {["api_token_id" := token_ID token]})
  end.
End Tokens.

(** ** Actions ([authorization.go]) *)

Definition Action := string.
Definition ActionModuleCreate : Action := "module:create".
Definition ActionModuleRead : Action := "module:read".
Definition ActionModuleUpdate : Action := "module:update".
Definition ActionModuleDelete : Action := "module:delete".
Definition ActionModuleVersionPublish : Action := "module_version:publish".
Definition ActionModuleVersionRead : Action := "module_version:read".
Definition ActionModuleVersionDownload : Action := "module_version:download".
Definition ActionModuleVersionDeprecate : Action := "module_version:deprecate".
Definition ActionGitLabMappingManage : Action := "gitlab_mapping:manage".
Definition ActionGitLabMappingRead : Action := "gitlab_mapping:read".
Definition ActionBreakingCheckRun : Action := "breaking_check:run".
Definition ActionBreakingReportRead : Action := "breaking_report:read".
Definition ActionDependencyGraphRead : Action := "dependency_graph:read".
Definition ActionRuntimeInventoryReport : Action := "runtime_inventory:report".
Definition ActionRuntimeInventoryRead : Action := "runtime_inventory:read".
Definition ActionGovernanceOwnerManage : Action := "governance_owner:manage".
Definition ActionGovernanceOwnerRead : Action := "governance_owner:read".
Definition ActionApprovalRequestCreate : Action := "approval_request:create".
Definition ActionApprovalRequestRead : Action := "approval_request:read".
Definition ActionApprovalDecisionRecord : Action := "approval_decision:record".
Definition ActionGovernanceAuditRead : Action := "governance_audit:read".
Definition ActionEditionRead : Action := "edition:read".
Definition ActionAdminRead : Action := "admin:read".
Definition ActionAdminWrite : Action := "admin:write".

Definition communityActionAllowed (action : Action) : bool :=
  existsb (eqs action)
    [ActionModuleCreate; ActionModuleRead; ActionModuleUpdate; ActionModuleDelete;
     ActionModuleVersionPublish; ActionModuleVersionRead; ActionModuleVersionDownload;
     ActionModuleVersionDeprecate; ActionGitLabMappingManage; ActionGitLabMappingRead;
     ActionBreakingCheckRun; ActionBreakingReportRead; ActionDependencyGraphRead;
     ActionRuntimeInventoryReport; ActionRuntimeInventoryRead; ActionGovernanceOwnerManage;
     ActionGovernanceOwnerRead; ActionApprovalRequestCreate; ActionApprovalRequestRead;
     ActionApprovalDecisionRecord; ActionGovernanceAuditRead; ActionEditionRead].

(** [Resource]; its attributes are left out of the decision by the community
    authorizer, which does not read the resource. *)
Record Resource := mkResource {
  res_Type : string;
  res_ID : string;
  res_Name : string;
  res_Attributes : list (string * string) }.

Definition ResourceWithName (resourceType name : string) : Resource :=
  mkResource (TrimSpace resourceType) "" (TrimSpace name) [].
Definition ResourceWithID (resourceType id : string) : Resource :=
  mkResource (TrimSpace resourceType) (TrimSpace id) "" [].
Definition ModuleResource (moduleName : string) : Resource := ResourceWithName "module" moduleName.
Definition ModuleVersionResource (moduleName version : string) : Resource :=
  let moduleName := TrimSpace moduleName in
  let version := TrimSpace version in
  mkResource "module_version" "" (moduleName +:+ ":" +:+ version)
    [("module", moduleName); ("version", version)].
Definition BreakingReportResource (reportID : string) : Resource :=
  ResourceWithID "breaking_report" reportID.
Definition ApprovalRequestResource (requestID : string) : Resource :=
  ResourceWithID "approval_request" requestID.
Definition RuntimeServiceResource (serviceName : string) : Resource :=
  ResourceWithName "runtime_service" serviceName.
Definition RuntimeEnvironmentResource (environment : string) : Resource :=
  ResourceWithName "runtime_environment" environment.
Definition EditionResource : Resource := mkResource "edition" "" "" [].

(** The interface the transports check a request with. *)
Class Authorizer := { Authorize : Principal -> Action -> Resource -> result unit }.

#[export] Instance CommunityAuthorizer : Authorizer := {|
  Authorize := fun principal action resource =>
    if Principal_IsZero principal then Err EAuthzUnauthenticated else
    if negb (communityActionAllowed action) then Err EAuthzForbidden else Ok tt |}.

(** ** Actors ([usecase/governance/actor.go]) *)

Definition GovernanceActorSourcePrincipal : string := "principal".
Definition GovernanceActorSourceOverride : string := "override".
Definition GovernanceActorSourceSystem : string := "system".

Record GovernanceActor := mkGovernanceActor {
  actor_Subject : string;
  actor_DisplayName : string;
  actor_Source : string;
  actor_PrincipalType : string;
  actor_Override : bool;
  actor_OriginalSubject : string }.

Record ActorOverridePolicy := mkActorOverridePolicy { override_Enabled : bool }.

Definition ActorFromPrincipal (principal : Principal) : result GovernanceActor :=
  let subject := TrimSpace (principal_Subject principal) in
  if (subject =? "")%string then Err governance.ErrInvalidApprovalActor else
  let displayName := TrimSpace (principal_DisplayName principal) in
  let displayName := if (displayName =? "")%string then subject else displayName in
  Ok (mkGovernanceActor subject displayName GovernanceActorSourcePrincipal
        (TrimSpace (principal_Type principal)) false "").

Definition ResolveGovernanceActor (principal : Principal) (requestedActor : string)
    (policy : ActorOverridePolicy) : result GovernanceActor :=
  let? actor := ActorFromPrincipal principal in
  let requested := TrimSpace requestedActor in
  if (requested =? "")%string || (requested =? actor_Subject actor)%string then Ok actor else
  if negb (override_Enabled policy) then Err governance.ErrGovernanceActorOverrideForbidden else
  Ok (mkGovernanceActor requested requested GovernanceActorSourceOverride
        (actor_PrincipalType actor) true (actor_Subject actor)).

Definition effectiveActorSubject (actor : string) : result string :=
  let subject := TrimSpace actor in
  if (subject =? "")%string then Err governance.ErrInvalidApprovalActor else Ok subject.

Lemma effectiveActorSubject_Ok actor subject :
  effectiveActorSubject actor = Ok subject <-> subject = TrimSpace actor /\ subject <> "".
Proof.
  unfold effectiveActorSubject. destruct (_ =? _)%string eqn:E.
  - apply String.eqb_eq in E. naive_solver.
  - apply String.eqb_neq in E. naive_solver.
Qed.

(** ** The theorems *)

Section Theorems.
Context `{PG : !Postgres} `{ENV : !Env} `{CR : !Crypto}.
Variable secret : string.
Variable observer : APITokenID -> error -> M World unit.

Lemma bind_Ok_inv {S A B} (m : M S A) (k : A -> M S B) s b s' :
  bind m k s = (Ok b, s') -> exists a s1, m s = (Ok a, s1) /\ k a s1 = (Ok b, s').
Proof. apply bind_Ok. Qed.

Lemma Token_GetByHash_Ok hash w t w' :
  Token_GetByHash hash w = (Ok t, w') ->
  exists row, row ∈ db_tokens (w_db w) /\ token_TokenHash row = hash /\ t = scanToken row
    /\ w_db w' = w_db w /\ w_tick w' = S (w_tick w).
Proof.
  unfold Token_GetByHash, Token_getOne. intros H.
  apply bind_Ok in H as (row & w1 & H%map_err_Ok & [= <- <-]).
  pose proof H as Hx. apply exec_Ok in H. apply bind_Ok in H as (u & d & [_ ->]%guardM_Ok & H).
  apply query_row_Ok in H as [Hrow Hv]. simpl in Hv.
  assert (Hin : row ∈ List.filter (fun t => eqs (token_TokenHash t) hash) (db_tokens (w_db w))).
  { destruct (List.filter _ _); [done|]. injection Hrow as ->. set_solver. }
  apply elem_of_filter_bool in Hin as [Hin Hh%String.eqb_eq].
  exists row. split_and!; try done.
  match type of Hx with exec ?m w = _ => destruct (exec_db_frame m w) as [Htick _];
    change (exec m w) with (exec_db m w) in Hx end.
  by rewrite Hx in Htick.
Qed.

(** a caller is authenticated only with a token whose keyed hash is stored
    and that has not expired when it is used; the principal is an API token
    named after it and tagged with its identifier. *)
Theorem Authenticate_sound (req : AuthRequest) (w w' : World) (p : Principal)
    (H : Authenticate secret observer req w = (Ok p, w')) :
  exists raw row, Bearer req = Some raw
    /\ row ∈ db_tokens (w_db w) /\ token_TokenHash row = hmac_sha256_hex secret raw
    /\ (forall t, token_ExpiresAt row = Some t -> env_now (S (w_tick w)) < t)
    /\ principal_Type p = PrincipalTypeAPIToken
    /\ principal_Subject p = token_subject (scanToken row)
    /\ principal_Metadata p !! "api_token_id" = Some (TrimSpace (token_ID row)).
Proof.
  unfold Authenticate in H. destruct (Bearer req) as [raw|]; [|done].
  apply bind_Ok in H as (token & w1 & Ht%map_err_Ok & H).
  destruct (Token_GetByHash_Ok _ _ _ _ Ht) as (row & Hin & Hh & -> & _ & Htick).
  apply bind_Ok in H as (t & w2 & [= <- <-] & H). rewrite Htick in H.
  destruct (IsExpired _ _) eqn:Ex; [done|].
  apply bind_Ok in H as (u & w3 & _ & H). apply bind_Ok in H as (v & w4 & _ & [= <- <-]).
  exists raw, row. split_and!; try done.
  intros t Hexp. unfold IsExpired in Ex. simpl in Ex. rewrite Hexp in Ex. lia.
Qed.

(** An operation of governance is never recorded under a name the caller
    chose, unless the override is enabled, and then the actor keeps the subject
    of the caller; every other choice is refused. *)
Theorem ResolveGovernanceActor_correct (principal : Principal) (requested : string)
    (policy : ActorOverridePolicy) :
  let subject := TrimSpace (principal_Subject principal) in
  match ResolveGovernanceActor principal requested policy with
  | Ok actor =>
      actor_Subject actor <> ""
      /\ ((actor_Override actor = false /\ actor_Subject actor = subject
           /\ (TrimSpace requested = "" \/ TrimSpace requested = subject))
          \/ (actor_Override actor = true /\ override_Enabled policy = true
              /\ actor_Subject actor = TrimSpace requested
              /\ actor_OriginalSubject actor = subject /\ subject <> ""
              /\ actor_Subject actor <> subject))
  | Err e =>
      (e = governance.ErrInvalidApprovalActor /\ subject = "")
      \/ (e = governance.ErrGovernanceActorOverrideForbidden /\ override_Enabled policy = false
          /\ TrimSpace requested <> "" /\ TrimSpace requested <> subject)
  end.
Proof.
  cbv zeta. unfold ResolveGovernanceActor, ActorFromPrincipal.
  destruct (TrimSpace (principal_Subject principal) =? "")%string eqn:Es; simpl.
  { apply String.eqb_eq in Es. by left. }
  apply String.eqb_neq in Es.
  destruct (TrimSpace requested =? "")%string eqn:Er; simpl.
  { apply String.eqb_eq in Er. split; [done|]. left. auto. }
  apply String.eqb_neq in Er. destruct (_ =? _)%string eqn:Eq; simpl.
  { apply String.eqb_eq in Eq. split; [done|]. left. auto. }
  apply String.eqb_neq in Eq. destruct (override_Enabled policy); simpl.
  - split; [done|]. right. split_and!; done.
  - right. split_and!; done.
Qed.
End Theorems.

Section Examples.
#[local] Existing Instance example_postgres.
#[local] Instance no_faults : Env := example_env 1000.
#[local] Instance example_crypto : Crypto := {| hmac_sha256_hex := fun key s => key +:+ s |}.

Definition token_db : Database :=
  set_tokens (fun _ => [mkAPIToken "a" " ci " "k-secret" 0 None (Some 10)]) empty_db.

Definition example_request : AuthRequest := mkAuthRequest "Bearer  secret " "".
Definition example_login : result Principal * World :=
  Authenticate "k-" (fun _ _ => ret tt) example_request (mkWorld token_db false 0).

Lemma Authenticate_sound_witness :
  exists p, example_login.1 = Ok p
    /\ exists raw row, Bearer example_request = Some raw /\ raw = "secret"
       /\ row ∈ db_tokens token_db /\ token_TokenHash row = hmac_sha256_hex "k-" raw.
Proof.
  destruct example_login as [[p|e] w'] eqn:E; [|vm_compute in E; discriminate E].
  exists p. split; [reflexivity|].
  destruct (Authenticate_sound "k-" (fun _ _ => ret tt) example_request (mkWorld token_db false 0)
              w' p E) as (raw & row & H1 & H2 & H3 & _).
  exists raw, row. split; [exact H1|]. vm_compute in H1. injection H1 as <-.
  split; [reflexivity|]. split; [exact H2|exact H3].
Defined.
End Examples.
