(* ===== verification/Policy.v ===== *)
(** * The governance policy

    [usecase/governance/policy.go] and [types.go]: which approvals a breaking
    report needs.  The evaluation is a pure function of the report, the owners
    of its module, the affected modules and the runtime impact. *)

From S2P Require Import Prelude Errors GoStrings Domain.

Open Scope string_scope.
Open Scope Z_scope.

(** ** Results ([types.go]) *)

Definition GovernancePolicyReason := string.
Definition GovernancePolicyReasonGovernanceDisabled : GovernancePolicyReason :=
  "governance_disabled".
Definition GovernancePolicyReasonNoBreakingChanges : GovernancePolicyReason :=
  "no_breaking_changes".
Definition GovernancePolicyReasonBreakingChanges : GovernancePolicyReason := "breaking_changes".
Definition GovernancePolicyReasonModuleOwnerRequired : GovernancePolicyReason :=
  "module_owner_required".
Definition GovernancePolicyReasonAffectedConsumerRequired : GovernancePolicyReason :=
  "affected_consumer_required".
Definition GovernancePolicyReasonMissingModuleOwner : GovernancePolicyReason :=
  "missing_module_owner".
Definition GovernancePolicyReasonProductionRuntimeConsumer : GovernancePolicyReason :=
  "production_runtime_consumer".

Record GovernancePolicyWarning := mkWarning {
  warning_RequirementType : ApprovalRequirementType;
  warning_TargetModuleID : option ModuleID;
  warning_TargetModuleName : ModuleName;
  warning_Reason : GovernancePolicyReason;
  warning_Message : string }.

Record GovernanceRequirementPlan := mkPlan {
  plan_RequirementType : ApprovalRequirementType;
  plan_TargetModuleID : option ModuleID;
  plan_TargetModuleName : ModuleName;
  plan_RequiredRole : ModuleOwnerRole;
  plan_AllowedRoles : list ModuleOwnerRole;
  plan_Status : ApprovalRequirementStatus;
  plan_Reason : GovernancePolicyReason;
  plan_ReasonText : string;
  plan_Warnings : list GovernancePolicyWarning }.

Record GovernancePolicyResult := mkPolicyResult {
  policy_ApprovalRequired : bool;
  policy_Status : ApprovalRequestStatus;
  policy_RequiredApprovals : Z;
  policy_Requirements : list GovernanceRequirementPlan;
  policy_Reasons : list GovernancePolicyReason;
  policy_ReasonText : string;
  policy_Warnings : list GovernancePolicyWarning }.

(** ** Evaluation ([policy.go]) *)

Definition policyReasonNoBreakingChanges : string := "No breaking changes detected.".
Definition policyReasonGovernanceDisabled : string := "Governance is disabled.".
Definition policyReasonModuleOwnerApproval : string :=
  "Breaking changes require approval from module owner.".
Definition policyReasonAffectedConsumerApproval : string :=
  "Production usage requires approval from affected consumer module owner.".
Definition policyWarningMissingOwners : string := "No owners are configured for this module.".

Record PolicyConfig := mkPolicyConfig {
  config_Enabled : bool;
  config_ProductionEnvironments : list string;
  config_AllowMaintainerApproval : bool }.

Definition DefaultPolicyConfig : PolicyConfig := mkPolicyConfig true ["production"; "prod"] true.

Record PolicyAffectedModule := mkPolicyAffectedModule {
  policyAffected_ModuleID : option ModuleID;
  policyAffected_ModuleName : ModuleName;
  policyAffected_Owners : list ModuleOwner;
  policyAffected_ProductionUsed : bool }.

Record EvaluatePolicyInput := mkEvaluatePolicyInput {
  input_Report : BreakingReport;
  input_ModuleOwners : list ModuleOwner;
  input_AffectedModules : list PolicyAffectedModule;
  input_RuntimeImpact : list RuntimeImpact;
  input_Config : PolicyConfig }.

Definition normalizePolicyConfig (config : PolicyConfig) : PolicyConfig :=
  if (length (config_ProductionEnvironments config) =? 0)%nat
  then mkPolicyConfig (config_Enabled config)
         (config_ProductionEnvironments DefaultPolicyConfig)
         (config_AllowMaintainerApproval config)
  else config.

Definition allowedPolicyRoles (config : PolicyConfig) : list ModuleOwnerRole :=
  ModuleOwnerRoleOwner ::
  (if config_AllowMaintainerApproval config then [ModuleOwnerRoleMaintainer] else []).

Definition hasEligibleOwner (owners : list ModuleOwner) (config : PolicyConfig) : bool :=
  existsb (fun owner =>
    (owner_Role owner =? ModuleOwnerRoleOwner)%string
    || (config_AllowMaintainerApproval config
        && (owner_Role owner =? ModuleOwnerRoleMaintainer)%string)) owners.

Definition requirementKey (requirement : GovernanceRequirementPlan) : string :=
  let target :=
    match plan_TargetModuleID requirement with
    | Some id => if (id =? "")%string then plan_TargetModuleName requirement else id
    | None => plan_TargetModuleName requirement
    end in
  plan_RequirementType requirement +:+ ":" +:+ target.

Definition addReason (result : GovernancePolicyResult) (reason : GovernancePolicyReason)
    : GovernancePolicyResult :=
  if existsb (fun existing => (existing =? reason)%string) (policy_Reasons result) then result else
  mkPolicyResult (policy_ApprovalRequired result) (policy_Status result)
    (policy_RequiredApprovals result) (policy_Requirements result)
    (policy_Reasons result ++ [reason])%list (policy_ReasonText result) (policy_Warnings result).

Definition addWarning (result : GovernancePolicyResult) (warning : GovernancePolicyWarning)
    : GovernancePolicyResult :=
  mkPolicyResult (policy_ApprovalRequired result) (policy_Status result)
    (policy_RequiredApprovals result) (policy_Requirements result)
    (policy_Reasons result) (policy_ReasonText result) (policy_Warnings result ++ [warning])%list.

Definition appendRequirement (result : GovernancePolicyResult) (requirement : GovernanceRequirementPlan)
    : GovernancePolicyResult :=
  mkPolicyResult (policy_ApprovalRequired result) (policy_Status result)
    (policy_RequiredApprovals result) (policy_Requirements result ++ [requirement])%list
    (policy_Reasons result) (policy_ReasonText result) (policy_Warnings result).

Definition withWarning (requirement : GovernanceRequirementPlan) (warning : GovernancePolicyWarning)
    : GovernanceRequirementPlan :=
  mkPlan (plan_RequirementType requirement) (plan_TargetModuleID requirement)
    (plan_TargetModuleName requirement) (plan_RequiredRole requirement)
    (plan_AllowedRoles requirement) (plan_Status requirement) (plan_Reason requirement)
    (plan_ReasonText requirement) (plan_Warnings requirement ++ [warning])%list.

Definition missingOwnerWarning (requirement : GovernanceRequirementPlan) : GovernancePolicyWarning :=
  mkWarning (plan_RequirementType requirement) (plan_TargetModuleID requirement)
    (plan_TargetModuleName requirement) GovernancePolicyReasonMissingModuleOwner
    policyWarningMissingOwners.

(** [seen] is a map shared by the calls: it is returned with the result. *)
Definition addRequirement (st : GovernancePolicyResult * gset string)
    (requirement : GovernanceRequirementPlan) (owners : list ModuleOwner) (config : PolicyConfig)
    : GovernancePolicyResult * gset string :=
  let '(result, seen) := st in
  let key := requirementKey requirement in
  if decide (key ∈ seen) then (result, seen) else
  let seen := {[key]} ∪ seen in
  if negb (hasEligibleOwner owners config) then
    let warning := missingOwnerWarning requirement in
    let requirement := withWarning requirement warning in
    let result := addWarning result warning in
    let result := addReason result GovernancePolicyReasonMissingModuleOwner in
    (appendRequirement result requirement, seen)
  else (appendRequirement result requirement, seen).

Definition ownerPlan (input : EvaluatePolicyInput) (config : PolicyConfig) : GovernanceRequirementPlan :=
  mkPlan ApprovalRequirementTypeModuleOwnerApproval (Some (report_ModuleID (input_Report input)))
    (report_ModuleName (input_Report input)) ModuleOwnerRoleOwner (allowedPolicyRoles config)
    ApprovalRequirementStatusPending GovernancePolicyReasonModuleOwnerRequired
    policyReasonModuleOwnerApproval [].

Definition consumerPlan (affected : PolicyAffectedModule) (config : PolicyConfig)
    : GovernanceRequirementPlan :=
  mkPlan ApprovalRequirementTypeAffectedConsumerApproval (policyAffected_ModuleID affected)
    (policyAffected_ModuleName affected) ModuleOwnerRoleOwner (allowedPolicyRoles config)
    ApprovalRequirementStatusPending GovernancePolicyReasonProductionRuntimeConsumer
    policyReasonAffectedConsumerApproval [].

Section Evaluation.
Context `{UNI : !Unicode}.

Definition productionRuntimeModules (impact : list RuntimeImpact)
    (productionEnvironments : list string) : gset string :=
  let production : gset string :=
    fold_left (fun s environment =>
      let trimmed := ToLower (TrimSpace environment) in
      if (trimmed =? "")%string then s else {[trimmed]} ∪ s) productionEnvironments ∅ in
  fold_left (fun modules item =>
    if decide (ToLower (TrimSpace (impact_Environment item)) ∈ production)
    then {[impact_UsedModule item]} ∪ modules else modules) impact ∅.

Definition usedInProduction (productionModules : gset string) (affected : PolicyAffectedModule) : bool :=
  policyAffected_ProductionUsed affected
  || bool_decide (policyAffected_ModuleName affected ∈ productionModules).

(** One turn of the loop over the affected modules. *)
Definition evaluateAffected (config : PolicyConfig) (productionModules : gset string)
    (st : GovernancePolicyResult * gset string) (affected : PolicyAffectedModule)
    : GovernancePolicyResult * gset string :=
  if negb (usedInProduction productionModules affected) then st else
  let '(result, seen) := st in
  let result := addReason result GovernancePolicyReasonAffectedConsumerRequired in
  let result := addReason result GovernancePolicyReasonProductionRuntimeConsumer in
  addRequirement (result, seen) (consumerPlan affected config)
    (policyAffected_Owners affected) config.

Definition notRequiredResult (reason : GovernancePolicyReason) (text : string) : GovernancePolicyResult :=
  mkPolicyResult false ApprovalRequestStatusNotRequired 0 [] [reason] text [].

Definition EvaluatePolicy (input : EvaluatePolicyInput) : GovernancePolicyResult :=
  let config := normalizePolicyConfig (input_Config input) in
  if negb (config_Enabled config) then
    notRequiredResult GovernancePolicyReasonGovernanceDisabled policyReasonGovernanceDisabled
  else if negb (report_Status (input_Report input) =? BreakingReportStatusBreaking)%string then
    notRequiredResult GovernancePolicyReasonNoBreakingChanges policyReasonNoBreakingChanges
  else
    let result := mkPolicyResult true ApprovalRequestStatusPending 0 []
      [GovernancePolicyReasonBreakingChanges; GovernancePolicyReasonModuleOwnerRequired]
      policyReasonModuleOwnerApproval [] in
    let st := addRequirement (result, ∅) (ownerPlan input config) (input_ModuleOwners input) config in
    let productionModules :=
      productionRuntimeModules (input_RuntimeImpact input) (config_ProductionEnvironments config) in
    let '(result, _) :=
      fold_left (evaluateAffected config productionModules) (input_AffectedModules input) st in
    mkPolicyResult (policy_ApprovalRequired result) (policy_Status result)
      (llen (policy_Requirements result)) (policy_Requirements result) (policy_Reasons result)
      (policy_ReasonText result) (policy_Warnings result).
End Evaluation.

(** [PolicyEvaluator]: the interface the approval service evaluates a policy
    through. *)
Class PolicyEvaluator := { Evaluate : EvaluatePolicyInput -> GovernancePolicyResult }.

(** What the service relies on of an evaluator: an approval is required exactly
    when there is something to approve, and nothing is decided yet. *)
Class PolicyEvaluatorLaws `{POL : !PolicyEvaluator} := {
  Evaluate_pending input plan : plan ∈ policy_Requirements (Evaluate input) ->
    plan_Status plan = ApprovalRequirementStatusPending;
  Evaluate_required input :
    policy_ApprovalRequired (Evaluate input) = true <-> policy_Requirements (Evaluate input) <> [] }.
Definition DefaultPolicyEvaluator `{!Unicode} : PolicyEvaluator := {| Evaluate := EvaluatePolicy |}.

(** ** The requirements as a list

    A reference definition: every requirement the policy considers, with the
    owners who could decide it, the first one of each key kept, and a warning
    on those that nobody can decide. *)

Section Reference.
Context `{UNI : !Unicode}.

Definition candidate := (GovernanceRequirementPlan * list ModuleOwner)%type.
Definition candidate_key (c : candidate) : string := requirementKey c.1.

Fixpoint first_by_key (seen : gset string) (cs : list candidate) : list candidate :=
  match cs with
  | [] => []
  | c :: cs' =>
      if decide (candidate_key c ∈ seen) then first_by_key seen cs'
      else c :: first_by_key ({[candidate_key c]} ∪ seen) cs'
  end.

Definition annotate (config : PolicyConfig) (c : candidate) : GovernanceRequirementPlan :=
  if hasEligibleOwner c.2 config then c.1 else withWarning c.1 (missingOwnerWarning c.1).

Definition policy_config (input : EvaluatePolicyInput) := normalizePolicyConfig (input_Config input).
Definition production_modules (input : EvaluatePolicyInput) : gset string :=
  productionRuntimeModules (input_RuntimeImpact input)
    (config_ProductionEnvironments (policy_config input)).
Definition production_consumers (input : EvaluatePolicyInput) : list PolicyAffectedModule :=
  List.filter (usedInProduction (production_modules input)) (input_AffectedModules input).

Definition consumer_candidate (config : PolicyConfig) (a : PolicyAffectedModule) : candidate :=
  (consumerPlan a config, policyAffected_Owners a).

Definition candidates (input : EvaluatePolicyInput) : list candidate :=
  (ownerPlan input (policy_config input), input_ModuleOwners input)
  :: map (consumer_candidate (policy_config input)) (production_consumers input).

Definition approval_required (input : EvaluatePolicyInput) : bool :=
  config_Enabled (policy_config input)
  && (report_Status (input_Report input) =? BreakingReportStatusBreaking)%string.

Lemma requirementKey_annotate config c : requirementKey (annotate config c) = candidate_key c.
Proof. unfold annotate. by destruct (hasEligibleOwner _ _). Qed.

Lemma elem_of_first_by_key seen cs c : c ∈ first_by_key seen cs -> c ∈ cs /\ candidate_key c ∉ seen.
Proof.
  revert seen. induction cs as [|d cs IH]; intros seen; simpl; [set_solver|].
  case_decide as Hd; [|rewrite elem_of_cons; intros [->|H]].
  - intros [Hc Hk]%IH. set_solver.
  - set_solver.
  - apply IH in H as [Hc Hk]. set_solver.
Qed.

Lemma first_by_key_covers seen cs c :
  c ∈ cs -> candidate_key c ∉ seen ->
  exists c', c' ∈ first_by_key seen cs /\ candidate_key c' = candidate_key c.
Proof.
  revert seen. induction cs as [|d cs IH]; intros seen Hc Hk; simpl; [set_solver|].
  case_decide as Hd.
  - apply elem_of_cons in Hc as [->|Hc]; [done|]. by apply IH.
  - destruct (decide (candidate_key c = candidate_key d)) as [E|E].
    + exists d. split; [set_solver|done].
    + apply elem_of_cons in Hc as [->|Hc]; [done|].
      destruct (IH ({[candidate_key d]} ∪ seen) Hc) as (c' & Hc' & E'); [set_solver|].
      exists c'. split; [set_solver|done].
Qed.

Lemma first_by_key_NoDup seen cs : NoDup (map candidate_key (first_by_key seen cs)).
Proof.
  revert seen. induction cs as [|d cs IH]; intros seen; simpl; [constructor|].
  case_decide as Hd; [apply IH|]. simpl. apply NoDup_cons. split; [|apply IH].
  rewrite list_elem_of_In, in_map_iff. intros (c & E & Hc%list_elem_of_In%elem_of_first_by_key).
  set_solver.
Qed.

(** What a call of [addRequirement] does. *)
Definition add_candidate (config : PolicyConfig) (st : GovernancePolicyResult * gset string)
    (c : candidate) : GovernancePolicyResult * gset string := addRequirement st c.1 c.2 config.

(** The fields the loop does not touch, and those it extends. *)
Definition extends (config : PolicyConfig) (r r' : GovernancePolicyResult) (cs : list candidate) : Prop :=
  policy_ApprovalRequired r' = policy_ApprovalRequired r
  /\ policy_Status r' = policy_Status r
  /\ policy_Requirements r' = (policy_Requirements r ++ map (annotate config) cs)%list
  /\ policy_Warnings r' = (policy_Warnings r ++ flat_map plan_Warnings (map (annotate config) cs))%list.

Lemma extends_refl config r : extends config r r [].
Proof. unfold extends. simpl. by rewrite !app_nil_r. Qed.

Lemma extends_trans config r1 r2 r3 cs1 cs2 :
  extends config r1 r2 cs1 -> extends config r2 r3 cs2 -> extends config r1 r3 (cs1 ++ cs2).
Proof.
  unfold extends. intros (-> & -> & E3 & E4) (-> & -> & -> & ->).
  rewrite E3, E4, map_app, flat_map_app, !app_assoc. done.
Qed.

Lemma extends_addReason config r reason : extends config r (addReason r reason) [].
Proof. unfold addReason. destruct (existsb _ _); unfold extends; simpl; by rewrite !app_nil_r. Qed.

Lemma add_candidate_extends config r seen c :
  plan_Warnings c.1 = [] ->
  exists r', add_candidate config (r, seen) c
             = (r', if decide (candidate_key c ∈ seen) then seen else {[candidate_key c]} ∪ seen)
    /\ extends config r r' (first_by_key seen [c]).
Proof.
  intros Hw. unfold add_candidate, addRequirement. cbn [first_by_key]. unfold candidate_key.
  cbn zeta. case_decide; [eexists; split; [done|apply extends_refl]|].
  destruct (hasEligibleOwner c.2 config) eqn:E; simpl; eexists; (split; [done|]);
    unfold extends, annotate, addReason; simpl; rewrite E; simpl.
  - rewrite Hw. by rewrite !app_nil_r.
  - destruct (existsb _ _); simpl; by rewrite Hw.
Qed.

Lemma fold_affected_extends config prod affected r seen :
  exists r' seen', fold_left (evaluateAffected config prod) affected (r, seen) = (r', seen')
    /\ extends config r r' (first_by_key seen
         (map (consumer_candidate config) (List.filter (usedInProduction prod) affected))).
Proof.
  revert r seen. induction affected as [|a affected IH]; intros r seen; simpl.
  { eexists _, _. split; [done|apply extends_refl]. }
  unfold evaluateAffected at 2. destruct (usedInProduction prod a) eqn:Ea; simpl.
  2:{ apply IH. }
  set (r1 := addReason (addReason r _) _).
  destruct (add_candidate_extends config r1 seen (consumer_candidate config a) eq_refl) as (r2 & E & H2).
  unfold add_candidate in E. simpl in E. rewrite E.
  match goal with |- context [fold_left _ _ (r2, ?s)] => destruct (IH r2 s) as (r3 & s3 & E3 & H3) end.
  exists r3, s3. split; [done|].
  assert (H1 : extends config r r1 []).
  { eapply (extends_trans _ _ _ _ [] []); apply extends_addReason. }
  pose proof (extends_trans _ _ _ _ _ _ (extends_trans _ _ _ _ _ _ H1 H2) H3) as H.
  revert H. simpl. case_decide; done.
Qed.

Lemma EvaluatePolicy_required input :
  approval_required input = true ->
  exists r, extends (policy_config input)
    (mkPolicyResult true ApprovalRequestStatusPending 0 []
      [GovernancePolicyReasonBreakingChanges; GovernancePolicyReasonModuleOwnerRequired]
      policyReasonModuleOwnerApproval []) r (first_by_key ∅ (candidates input))
    /\ EvaluatePolicy input =
       mkPolicyResult (policy_ApprovalRequired r) (policy_Status r)
         (llen (policy_Requirements r)) (policy_Requirements r) (policy_Reasons r)
         (policy_ReasonText r) (policy_Warnings r).
Proof.
  intros [H1 H2]%andb_true_iff. unfold EvaluatePolicy. fold (policy_config input).
  rewrite H1, H2. cbn [negb]. set (r0 := mkPolicyResult _ _ _ _ _ _ _).
  destruct (add_candidate_extends (policy_config input) r0 ∅
              (ownerPlan input (policy_config input), input_ModuleOwners input) eq_refl)
    as (r1 & E1 & X1).
  unfold add_candidate in E1. cbn [fst snd] in E1. rewrite E1. fold (production_modules input).
  match goal with |- context [fold_left _ _ (r1, ?s)] =>
    destruct (fold_affected_extends (policy_config input) (production_modules input)
                (input_AffectedModules input) r1 s) as (r2 & s2 & E2 & X2) end.
  rewrite E2. exists r2. split; [|done].
  pose proof (extends_trans _ _ _ _ _ _ X1 X2) as X. revert X.
  cbn [first_by_key candidates]. case_decide; [set_solver|]. done.
Qed.
End Reference.

(** ** The theorems *)

Section Theorems.
Context `{UNI : !Unicode}.

Lemma EvaluatePolicy_not_required input :
  approval_required input = false ->
  exists reason text, EvaluatePolicy input = notRequiredResult reason text.
Proof.
  unfold approval_required, EvaluatePolicy. fold (policy_config input).
  destruct (config_Enabled _); simpl; [|intros _; by eexists _, _].
  intros ->. simpl. by eexists _, _.
Qed.

(** The whole result, by the reference definition. *)
Lemma EvaluatePolicy_requirements input :
  policy_Requirements (EvaluatePolicy input) =
  if approval_required input
  then map (annotate (policy_config input)) (first_by_key ∅ (candidates input)) else [].
Proof.
  destruct (approval_required input) eqn:E.
  - destruct (EvaluatePolicy_required input E) as (r & (_ & _ & H & _) & ->). simpl. by rewrite H.
  - by destruct (EvaluatePolicy_not_required input E) as (? & ? & ->).
Qed.

Lemma candidates_pending input c :
  c ∈ candidates input -> plan_Status c.1 = ApprovalRequirementStatusPending.
Proof.
  unfold candidates. intros [->|H]%elem_of_cons; [done|].
  apply list_elem_of_In, in_map_iff in H as (a & <- & _). done.
Qed.

#[local] Existing Instance DefaultPolicyEvaluator.
#[export] Instance DefaultPolicyEvaluator_laws : PolicyEvaluatorLaws.
Proof.
  split; intros input.
  - intros plan. cbn [Evaluate DefaultPolicyEvaluator]. rewrite EvaluatePolicy_requirements.
    destruct (approval_required input); [|set_solver].
    rewrite list_elem_of_In, in_map_iff. intros (c & <- & Hc).
    apply list_elem_of_In, elem_of_first_by_key in Hc as [Hc%candidates_pending _].
    unfold annotate. by destruct (hasEligibleOwner _ _).
  - cbn [Evaluate DefaultPolicyEvaluator]. rewrite EvaluatePolicy_requirements.
    destruct (approval_required input) eqn:E.
    + destruct (EvaluatePolicy_required input E) as (r & (H & _) & ->). cbn in H |- *.
      rewrite H. split; [|done]. intros _. cbn [first_by_key candidates]. case_decide; [set_solver|done].
    + destruct (EvaluatePolicy_not_required input E) as (? & ? & ->). done.
Qed.

(** C7: an approval is required exactly when governance is enabled and the
    report is breaking; the requirements are then the approval of the module
    and one of each affected module that is used in production, the first of
    each key, counted by [RequiredApprovals], and the warnings of the result are
    those of its requirements; otherwise there are none. *)
Theorem EvaluatePolicy_correct (input : EvaluatePolicyInput) :
  let r := EvaluatePolicy input in
  policy_ApprovalRequired r = approval_required input
  /\ policy_Status r = (if approval_required input then ApprovalRequestStatusPending
                        else ApprovalRequestStatusNotRequired)
  /\ policy_Requirements r =
     (if approval_required input
      then map (annotate (policy_config input)) (first_by_key ∅ (candidates input)) else [])
  /\ policy_RequiredApprovals r = llen (policy_Requirements r)
  /\ policy_Warnings r = flat_map plan_Warnings (policy_Requirements r)
  /\ NoDup (map requirementKey (policy_Requirements r)).
Proof.
  cbv zeta. pose proof (EvaluatePolicy_requirements input) as Hreq.
  destruct (approval_required input) eqn:E.
  - destruct (EvaluatePolicy_required input E) as (r & (H1 & H2 & H3 & H4) & Heq).
    rewrite Heq in *. cbn [policy_ApprovalRequired policy_Status policy_Requirements
      policy_RequiredApprovals policy_Warnings app] in *. rewrite H1, H2, H4, H3.
    split_and!; try done. rewrite map_map.
    erewrite map_ext by apply requirementKey_annotate. apply first_by_key_NoDup.
  - destruct (EvaluatePolicy_not_required input E) as (? & ? & ->). simpl.
    split_and!; try done. constructor.
Qed.

(** The affected module runs in a production environment, by its flag or by an
    item of the runtime inventory; environments are compared without their case
    and surrounding white space. *)
Definition runs_in_production (input : EvaluatePolicyInput) (a : PolicyAffectedModule) : Prop :=
  policyAffected_ProductionUsed a = true
  \/ exists item environment,
       item ∈ input_RuntimeImpact input
       /\ environment ∈ config_ProductionEnvironments (policy_config input)
       /\ ToLower (TrimSpace environment) <> ""
       /\ ToLower (TrimSpace (impact_Environment item)) = ToLower (TrimSpace environment)
       /\ impact_UsedModule item = policyAffected_ModuleName a.

Lemma elem_of_fold_production envs (s0 : gset string) x :
  x ∈ fold_left (fun s environment =>
        let trimmed := ToLower (TrimSpace environment) in
        if (trimmed =? "")%string then s else {[trimmed]} ∪ s) envs s0 <->
  x ∈ s0 \/ (x <> "" /\ exists e, e ∈ envs /\ ToLower (TrimSpace e) = x).
Proof.
  revert s0. induction envs as [|e envs IH]; intros s0; simpl; [set_solver|].
  rewrite IH. destruct (_ =? "")%string eqn:E.
  - apply String.eqb_eq in E. set_solver.
  - apply String.eqb_neq in E. set_solver.
Qed.

Lemma elem_of_fold_modules (production : gset string) impact (s0 : gset string) x :
  x ∈ fold_left (fun modules item =>
        if decide (ToLower (TrimSpace (impact_Environment item)) ∈ production)
        then {[impact_UsedModule item]} ∪ modules else modules) impact s0 <->
  x ∈ s0 \/ exists item, item ∈ impact
    /\ ToLower (TrimSpace (impact_Environment item)) ∈ production /\ impact_UsedModule item = x.
Proof.
  revert s0. induction impact as [|i impact IH]; intros s0; simpl; [set_solver|].
  rewrite IH. case_decide; set_solver.
Qed.

Lemma usedInProduction_spec input a :
  usedInProduction (production_modules input) a = true <-> runs_in_production input a.
Proof.
  unfold usedInProduction, runs_in_production.
  rewrite orb_true_iff, bool_decide_eq_true. unfold production_modules, productionRuntimeModules.
  rewrite elem_of_fold_modules. setoid_rewrite elem_of_fold_production.
  split; intros [H|H]; try (by left); right.
  - destruct H as [|(i & Hi & [|(Hne & e & He & E)] & Hu)]; [set_solver..|].
    exists i, e. rewrite E. done.
  - destruct H as (i & e & Hi & He & Hne & E & Hu). right. exists i.
    split_and!; [done| |done]. right. rewrite E. split; [done|]. by exists e.
Qed.

Lemma annotate_warnings config c :
  plan_Warnings c.1 = [] ->
  plan_Warnings (annotate config c) <> [] <-> hasEligibleOwner c.2 config = false.
Proof.
  intros H. unfold annotate. destruct (hasEligibleOwner _ _); simpl; rewrite ?H; naive_solver.
Qed.

(** No production consumer is passed over: when an approval is required,
    the module and every affected module used in production, by its own flag or
    by the runtime inventory, has a requirement under its key; every
    requirement is pending, is decided by owners (and maintainers when the
    configuration allows them) and comes from one of those modules, and it
    carries a warning exactly when that module has nobody who could decide. *)
Theorem policy_covers_production_consumers (input : EvaluatePolicyInput)
    (Hreq : approval_required input = true) :
  let config := policy_config input in
  let requirements := policy_Requirements (EvaluatePolicy input) in
  (exists r, r ∈ requirements /\ requirementKey r = requirementKey (ownerPlan input config))
  /\ (forall a, a ∈ input_AffectedModules input ->
        runs_in_production input a ->
        exists r, r ∈ requirements /\ requirementKey r = requirementKey (consumerPlan a config))
  /\ (forall r, r ∈ requirements ->
        plan_Status r = ApprovalRequirementStatusPending
        /\ plan_AllowedRoles r = allowedPolicyRoles config
        /\ exists c, c ∈ candidates input /\ requirementKey r = candidate_key c
           /\ (plan_Warnings r <> [] <-> hasEligibleOwner c.2 config = false)).
Proof.
  cbv zeta. rewrite EvaluatePolicy_requirements, Hreq. set (config := policy_config input).
  assert (Hcov : forall c, c ∈ candidates input -> exists r,
    r ∈ map (annotate config) (first_by_key ∅ (candidates input)) /\ requirementKey r = candidate_key c).
  { intros c Hc. destruct (first_by_key_covers ∅ (candidates input) c Hc) as (c' & Hc' & E); [set_solver|].
    exists (annotate config c'). split; [by apply list_elem_of_In, in_map, list_elem_of_In|].
    by rewrite requirementKey_annotate. }
  split_and!.
  - apply (Hcov (ownerPlan input config, input_ModuleOwners input)). unfold candidates. set_solver.
  - intros a Ha Hu%usedInProduction_spec. apply (Hcov (consumer_candidate config a)). unfold candidates.
    apply elem_of_cons. right. apply list_elem_of_In, in_map, list_elem_of_In.
    by apply elem_of_filter_bool.
  - intros r. rewrite list_elem_of_In, in_map_iff. intros (c & <- & Hc%list_elem_of_In).
    apply elem_of_first_by_key in Hc as [Hc _].
    assert (Hplan : plan_Status c.1 = ApprovalRequirementStatusPending
              /\ plan_AllowedRoles c.1 = allowedPolicyRoles config /\ plan_Warnings c.1 = []).
    { apply elem_of_cons in Hc as [->|Hc]; [done|].
      rewrite list_elem_of_In, in_map_iff in Hc. by destruct Hc as (a & <- & _). }
    destruct Hplan as (Hs & Hr & Hw). split_and!.
    + unfold annotate. by destruct (hasEligibleOwner _ _).
    + unfold annotate. by destruct (hasEligibleOwner _ _).
    + exists c. split_and!; [done|apply requirementKey_annotate|apply annotate_warnings, Hw..].
Qed.
End Theorems.

Section Examples.
#[local] Existing Instance example_unicode.

Definition example_report : BreakingReport :=
  mkBreakingReport "r1" "m1" "users" "v1" "v1.0.0" "main" BreakingReportStatusBreaking 1 "" "" 0.
Definition example_owner : ModuleOwner :=
  mkModuleOwner "o1" "m1" "users" GovernanceSubjectTypeUser "ann" ModuleOwnerRoleOwner 0 0.
Definition example_impact : RuntimeImpact :=
  mkRuntimeImpact "billing" " PROD " "orders" "v1" "abc" "1" 0
    RuntimeImpactStatusPotentiallyAffectedByBreakingChange "" RuntimeDriftStatusUpToDate "".

(** The consumer [orders] runs in production and has no owner. *)
Definition example_input : EvaluatePolicyInput :=
  mkEvaluatePolicyInput example_report [example_owner]
    [mkPolicyAffectedModule (Some "m2") "orders" [] false;
     mkPolicyAffectedModule (Some "m3") "idle" [] false] [example_impact] DefaultPolicyConfig.

Lemma policy_covers_production_consumers_witness :
  map requirementKey (policy_Requirements (EvaluatePolicy example_input)) =
    ["module_owner_approval:m1"; "affected_consumer_approval:m2"]
  /\ exists r, r ∈ policy_Requirements (EvaluatePolicy example_input)
       /\ requirementKey r = "affected_consumer_approval:m2".
Proof.
  split; [vm_compute; reflexivity|].
  destruct (policy_covers_production_consumers example_input) as (_ & H & _); [vm_compute; reflexivity|].
  apply (H (mkPolicyAffectedModule (Some "m2") "orders" [] false)).
  - simpl. constructor.
  - right. exists example_impact, "prod". split_and!.
    + simpl. constructor.
    + simpl. apply elem_of_cons. right. constructor.
    + vm_compute. discriminate.
    + vm_compute. reflexivity.
    + reflexivity.
Defined.
End Examples.
