(* ===== verification/Approval.v ===== *)
(** * The approval workflow

    [usecase/governance/approval_service.go]: creating the approval request of a
    breaking report from the decision of the policy, and recording the decision
    of an actor on a requirement.  The service is written against the policy
    evaluator, the audit sink and the providers of affected modules and of
    runtime impact; the repositories are those of [GovernanceStore]. *)

From S2P Require Import Prelude Errors GoStrings JsonScan Domain Json Effects Postgres Outbox Events World GovernanceStore UseCase AuditLog Identity Policy.

Open Scope string_scope.
Open Scope Z_scope.

Definition defaultApprovalListLimit : Z := 100.

(** ** Inputs *)

Record CreateApprovalRequestForBreakingReportInput := mkCreateInput {
  create_BreakingReportID : string;
  create_Actor : string;
  create_TargetRef : string }.

Record GetApprovalStatusForBreakingReportInput := mkStatusInput {
  status_BreakingReportID : string }.

Record ApprovalDecisionInput := mkDecisionInput {
  input_RequestID : string;
  input_RequirementID : string;
  input_Actor : string;
  input_Comment : string }.

Record ListApprovalRequestAuditInput := mkListAuditInput {
  list_RequestID : string;
  list_Limit : Z;
  list_Offset : Z }.

Record approvalPolicyContext := mkPolicyContext {
  context_Report : BreakingReport;
  context_Module : Module_;
  context_ModuleOwners : list ModuleOwner;
  context_AffectedModules : list PolicyAffectedModule;
  context_RuntimeImpact : list RuntimeImpact }.

(** ** Pure parts *)

Definition hasDecisionForRequirement (decisions : list ApprovalDecision)
    (requirementID : ApprovalRequirementID) : bool :=
  existsb (fun d => eqs (decision_RequirementID d) requirementID) decisions.

Definition allRequirementsApprovedAfter (requirements : list ApprovalRequirement)
    (decidedRequirementID : ApprovalRequirementID) : bool :=
  forallb (fun r =>
    eqs (requirement_ID r) decidedRequirementID
    || eqs (requirement_Status r) ApprovalRequirementStatusApproved
    || eqs (requirement_Status r) ApprovalRequirementStatusNotRequired) requirements.

Definition receivedApprovalsAfter (requirements : list ApprovalRequirement)
    (decidedRequirementID : ApprovalRequirementID) (decidedStatus : ApprovalRequirementStatus) : Z :=
  llen (List.filter (fun r =>
    let status := if eqs (requirement_ID r) decidedRequirementID then decidedStatus
                  else requirement_Status r in
    eqs status ApprovalRequirementStatusApproved) requirements).

Definition requirementReason (plan : GovernanceRequirementPlan) : string :=
  if negb (TrimSpace (plan_ReasonText plan) =? "")%string then
    if (length (plan_Warnings plan) =? 0)%nat then plan_ReasonText plan else
    strings_Join " " (plan_ReasonText plan :: map warning_Message (plan_Warnings plan))
  else plan_Reason plan.

Definition mapDecisionValidationError (err : error) : error :=
  if errors_Is err domain.ErrInvalidApprovalDecision then governance.ErrApprovalRequirementConflict else
  if errors_Is err domain.ErrInvalidApprovalActor then governance.ErrInvalidApprovalActor else
  if errors_Is err domain.ErrApprovalDecisionCommentTooLong
  then governance.ErrApprovalDecisionCommentTooLong else err.

Definition approvalRequestCreatedAuditPayload (reasons : list GovernancePolicyReason)
    (requirementCount : Z) (approvalRequired : bool) : json :=
  JObject [("policy_reasons", JArray (map JString reasons));
           ("requirement_count", JInt requirementCount);
           ("approval_required", JBool approvalRequired)].

Definition approvalDecisionAuditPayload (decision : ApprovalDecision) : json :=
  JObject ([("decision_id", JString (decision_ID decision));
            ("requirement_id", JString (decision_RequirementID decision));
            ("decision", JString (decision_Decision decision));
            ("decided_by", JString (decision_DecidedBy decision))]
           ++ omitempty "comment" (decision_Comment decision))%list.

Definition approvalStatusChangedAuditPayload (fromStatus toStatus : ApprovalRequestStatus) : json :=
  JObject [("from_status", JString fromStatus); ("to_status", JString toStatus)].

(** [if err != nil && !errors.Is(err, domain.ErrNotFound) { return err }] on a
    list: nothing found is the empty list. *)
Definition or_empty {S A} (m : M S (list A)) : M S (list A) :=
  let! r := try m in
  match r with
  | Ok l => ret l
  | Err e => if errors_Is e domain.ErrNotFound then ret [] else fail e
  end.

(** The providers of the policy context; [None] when not configured. *)
Class ApprovalProviders (S : Type) := {
  ListAffectedModules : option (ModuleID -> M S (list AffectedModule));
  ListRuntimeImpactByModuleVersion :
    option (BreakingReportID -> ModuleVersionID -> Z -> Z -> M S (list RuntimeImpact)) }.

Section Service.
Context `{PG : !Postgres} `{ENV : !Env} `{POL : !PolicyEvaluator} `{AUD : !AuditSink World}.
Context `{PRO : !ApprovalProviders World}.
Variable policyConfig : PolicyConfig.

(** *** Identifiers ([generators.go]) *)

Definition NewApprovalRequestID_ : M World ApprovalRequestID :=
  let! value := random_hex in ret (NewApprovalRequestID value).
Definition NewApprovalRequirementID_ : M World ApprovalRequirementID :=
  let! value := random_hex in ret (NewApprovalRequirementID value).
Definition NewApprovalDecisionID_ : M World ApprovalDecisionID :=
  let! value := random_hex in ret (NewApprovalDecisionID value).
Definition NewGovernanceAuditEventID_ : M World GovernanceAuditEventID :=
  let! value := random_hex in ret (NewGovernanceAuditEventID value).

(** *** The policy context *)

Definition affectedModules (moduleID : ModuleID) : M World (list AffectedModule) :=
  match ListAffectedModules with
  | None => ret []
  | Some list_ => or_empty (list_ moduleID)
  end.

Definition runtimeImpact (report : BreakingReport) : M World (list RuntimeImpact) :=
  match ListRuntimeImpactByModuleVersion with
  | None => ret []
  | Some list_ =>
      if (report_BaseVersionID report =? "")%string then ret [] else
      or_empty (list_ (report_ID report) (report_BaseVersionID report) defaultApprovalListLimit 0)
  end.

Definition policyAffectedModules (affected : list AffectedModule) : M World (list PolicyAffectedModule) :=
  mapM (fun item =>
    let! module := try (Module_GetByName (affected_ModuleName item)) in
    match module with
    | Err e => if errors_Is e domain.ErrNotFound
               then ret (mkPolicyAffectedModule None (affected_ModuleName item) [] false)
               else fail e
    | Ok module =>
        let! owners := or_empty (Owner_ListByModule (module_ID module)) in
        ret (mkPolicyAffectedModule (Some (module_ID module)) (module_Name module) owners false)
    end) affected.

Definition approvalPolicyContextForReport (reportID : BreakingReportID) : M World approvalPolicyContext :=
  let! (report, _) := map_err (not_found_as governance.ErrBreakingReportNotFound)
                        (Report_GetByID reportID) in
  let! module := map_err (not_found_as governance.ErrModuleNotFound)
                   (Module_GetByID (report_ModuleID report)) in
  let! moduleOwners := or_empty (Owner_ListByModule (module_ID module)) in
  let! affected := affectedModules (report_ModuleID report) in
  let! impact := runtimeImpact report in
  let! policyAffected := policyAffectedModules affected in
  ret (mkPolicyContext report module moduleOwners policyAffected impact).

(** *** Audit *)

Definition appendApprovalAudit (eventType : GovernanceAuditEventType) (request : ApprovalRequest)
    (actor payload : string) (occurredAt : time) : M World unit :=
  let! auditID := NewGovernanceAuditEventID_ in
  let related := mkAuditResource "module" (request_ModuleID request) (request_ModuleName request)
    :: match request_BreakingReportID request with
       | Some id => [mkAuditResource "breaking_report" id ""]
       | None => []
       end in
  Record_event (mkAuditEvent auditID eventType actor eventType OutcomeSuccess
    (mkAuditResource "approval_request" (request_ID request) "") related payload occurredAt).

Definition appendApprovalRequestCreatedAudit (request : ApprovalRequest) (actor : string)
    (policyResult : GovernancePolicyResult) (occurredAt : time) : M World unit :=
  let! payload := marshal (approvalRequestCreatedAuditPayload (policy_Reasons policyResult)
    (llen (request_Requirements request)) (policy_ApprovalRequired policyResult)) in
  appendApprovalAudit GovernanceAuditEventTypeApprovalRequestCreated request (TrimSpace actor)
    payload occurredAt.

Definition appendDecisionAudit (request : ApprovalRequest) (decision : ApprovalDecision)
    (actor : string) (occurredAt : time) : M World unit :=
  let! payload := marshal (approvalDecisionAuditPayload decision) in
  appendApprovalAudit GovernanceAuditEventTypeApprovalDecisionRecorded request (TrimSpace actor)
    payload occurredAt.

Definition appendStatusChangedAudit (request : ApprovalRequest) (status : ApprovalRequestStatus)
    (actor : string) (occurredAt : time) : M World unit :=
  let! payload := marshal (approvalStatusChangedAuditPayload (request_Status request) status) in
  appendApprovalAudit GovernanceAuditEventTypeApprovalRequestStatusChanged request (TrimSpace actor)
    payload occurredAt.

(** *** Creating a request *)

Definition buildRequirement (requestID : ApprovalRequestID) (t : time)
    (plan : GovernanceRequirementPlan) : M World ApprovalRequirement :=
  let! requirementID := NewApprovalRequirementID_ in
  ret (mkApprovalRequirement requirementID requestID (plan_RequirementType plan)
         (plan_TargetModuleID plan) (plan_TargetModuleName plan) (plan_RequiredRole plan)
         (plan_Status plan) (requirementReason plan) t t).

Definition buildApprovalRequestFromPolicyDecision (policyContext : approvalPolicyContext)
    (targetRefOverride : string) (policyResult : GovernancePolicyResult) (t : time)
    : M World ApprovalRequest :=
  let! requestID := NewApprovalRequestID_ in
  let status := if policy_ApprovalRequired policyResult then ApprovalRequestStatusPending
                else ApprovalRequestStatusNotRequired in
  let targetRef := TrimSpace targetRefOverride in
  let targetRef := if (targetRef =? "")%string then report_TargetRef (context_Report policyContext)
                   else targetRef in
  let! requirements := mapM (buildRequirement requestID t) (policy_Requirements policyResult) in
  ret (mkApprovalRequest requestID (module_ID (context_Module policyContext))
         (module_Name (context_Module policyContext))
         (Some (report_ID (context_Report policyContext))) targetRef status
         (llen (policy_Requirements policyResult)) 0 requirements [] t t).

Definition createApprovalRequestWithAuditAndOutbox (request : ApprovalRequest) (actor : string)
    (policyResult : GovernancePolicyResult) (occurredAt : time) : M World unit :=
  WithinTransaction (
    let! _ := map_err (fun e => if errors_Is e domain.ErrDuplicate
                                then governance.ErrApprovalRequestConflict else e)
                (CreateRequest request) in
    let! _ := appendApprovalRequestCreatedAudit request actor policyResult occurredAt in
    write_outbox (NewApprovalRequestCreated (mkApprovalRequestCreated request actor occurredAt))).

Definition CreateApprovalRequestForBreakingReport
    (input : CreateApprovalRequestForBreakingReportInput) : M World ApprovalRequest :=
  let reportID := NewBreakingReportID (create_BreakingReportID input) in
  if (reportID =? "")%string then fail governance.ErrInvalidBreakingReportID else
  let! actor := lift (effectiveActorSubject (create_Actor input)) in
  let! existing := try (GetRequestByBreakingReportID reportID) in
  match existing with
  | Ok existing => ret existing
  | Err e =>
      if negb (errors_Is e domain.ErrNotFound) then fail e else
      let! policyContext := approvalPolicyContextForReport reportID in
      let policyResult := Evaluate (mkEvaluatePolicyInput (context_Report policyContext)
        (context_ModuleOwners policyContext) (context_AffectedModules policyContext)
        (context_RuntimeImpact policyContext) policyConfig) in
      let! t := now in
      let! request := buildApprovalRequestFromPolicyDecision policyContext (create_TargetRef input)
                        policyResult t in
      let! created := try (createApprovalRequestWithAuditAndOutbox request actor policyResult t) in
      match created with
      | Ok _ => ret request
      | Err e =>
          if errors_Is e governance.ErrApprovalRequestConflict then
            let! existing := try (GetRequestByBreakingReportID reportID) in
            match existing with
            | Ok existing => ret existing
            | Err _ => fail e
            end
          else fail e
      end
  end.

Definition GetApprovalStatusForBreakingReport (input : GetApprovalStatusForBreakingReportInput)
    : M World ApprovalRequest :=
  let reportID := NewBreakingReportID (status_BreakingReportID input) in
  if (reportID =? "")%string then fail governance.ErrInvalidBreakingReportID else
  let! _ := map_err (not_found_as governance.ErrBreakingReportNotFound) (Report_GetByID reportID) in
  map_err (not_found_as governance.ErrApprovalRequestNotFound) (GetRequestByBreakingReportID reportID).

Definition ListApprovalRequestAudit (input : ListApprovalRequestAuditInput)
    : M World (list GovernanceAuditEvent) :=
  let requestID := NewApprovalRequestID (list_RequestID input) in
  if (requestID =? "")%string then fail governance.ErrApprovalRequestNotFound else
  let! _ := map_err (not_found_as governance.ErrApprovalRequestNotFound) (GetRequestByID requestID) in
  let limit := if list_Limit input <=? 0 then defaultApprovalListLimit else list_Limit input in
  Audit_ListByApprovalRequest requestID limit (list_Offset input).

(** *** Recording a decision *)

Definition getRequestByRequirement (requirementID : ApprovalRequirementID)
    : M World (ApprovalRequest * ApprovalRequirement) :=
  let! request := map_err (not_found_as governance.ErrApprovalRequirementNotFound)
                    (GetRequestByRequirementID requirementID) in
  match List.find (fun r => eqs (requirement_ID r) requirementID) (request_Requirements request) with
  | Some requirement => ret (request, requirement)
  | None => fail governance.ErrApprovalRequirementNotFound
  end.

(** [HasRole] with its error taken for no. *)
Definition has_role (moduleID : ModuleID) (subjectType : GovernanceSubjectType) (actor : string)
    (roles : list ModuleOwnerRole) : M World bool :=
  let! ok := try (Owner_HasRole moduleID subjectType actor roles) in
  ret (match ok with Ok b => b | Err _ => false end).

Definition actorCanDecide (requirement : ApprovalRequirement) (actor : string) : M World bool :=
  match requirement_TargetModuleID requirement with
  | None => ret false
  | Some targetModuleID =>
      if (targetModuleID =? "")%string then ret false else
      let roles := ModuleOwnerRoleOwner ::
        (if config_AllowMaintainerApproval policyConfig then [ModuleOwnerRoleMaintainer] else []) in
      let! user := has_role targetModuleID GovernanceSubjectTypeUser actor roles in
      if user : bool then ret true else
      has_role targetModuleID GovernanceSubjectTypeTeam actor roles
  end.

(** The transaction of a decision. *)
Definition storeDecision (request : ApprovalRequest) (decision : ApprovalDecision)
    (newRequirementStatus : ApprovalRequirementStatus) (newRequestStatus : ApprovalRequestStatus)
    (requiredApprovals receivedApprovals : Z) (statusChanged : bool) (actor : string) (t : time)
    : M World unit :=
  WithinTransaction (
    let! _ := map_err (fun e => if errors_Is e domain.ErrDuplicate
                                then governance.ErrApprovalRequirementConflict else e)
                (AddDecision decision) in
    let! _ := UpdateRequirementStatus (decision_RequirementID decision) newRequirementStatus t in
    let! _ := UpdateRequestStatus (request_ID request) newRequestStatus requiredApprovals
                receivedApprovals t in
    let! _ := appendDecisionAudit request decision actor t in
    let! _ := if statusChanged then appendStatusChangedAudit request newRequestStatus actor t
              else ret tt in
    write_outbox (NewApprovalDecisionRecorded (mkApprovalDecisionRecorded decision
      (request_ModuleID request) (request_ModuleName request) (request_BreakingReportID request) t))).

Definition recordDecision (input : ApprovalDecisionInput) (decisionValue : ApprovalDecisionValue)
    : M World ApprovalRequest :=
  let requirementID := NewApprovalRequirementID (input_RequirementID input) in
  if (requirementID =? "")%string then fail governance.ErrInvalidRequirementID else
  let! actor := lift (effectiveActorSubject (input_Actor input)) in
  if MaxApprovalDecisionCommentLength <? len (input_Comment input)
  then fail governance.ErrApprovalDecisionCommentTooLong else
  let! (request, requirement) := getRequestByRequirement requirementID in
  let expectedRequestID := NewApprovalRequestID (input_RequestID input) in
  if negb (expectedRequestID =? "")%string && negb (eqs (request_ID request) expectedRequestID)
  then fail governance.ErrApprovalRequestNotFound else
  if hasDecisionForRequirement (request_Decisions request) (requirement_ID requirement)
  then fail governance.ErrApprovalRequirementConflict else
  if negb (eqs (request_Status request) ApprovalRequestStatusPending)
  then fail governance.ErrApprovalRequestConflict else
  if negb (eqs (requirement_Status requirement) ApprovalRequirementStatusPending)
  then fail governance.ErrApprovalRequirementConflict else
  let! can := actorCanDecide requirement actor in
  if negb can then fail governance.ErrApprovalActorForbidden else
  let! t := now in
  let! decisionID := NewApprovalDecisionID_ in
  let decision := mkApprovalDecision decisionID (request_ID request) (requirement_ID requirement)
    decisionValue actor (input_Comment input) t in
  let! _ := map_err mapDecisionValidationError (lift (ApprovalDecision_Validate decision)) in
  let rejected := eqs decisionValue ApprovalDecisionValueRejected in
  let newRequirementStatus := if rejected then ApprovalRequirementStatusRejected
                              else ApprovalRequirementStatusApproved in
  let newRequestStatus :=
    if rejected then ApprovalRequestStatusRejected
    else if allRequirementsApprovedAfter (request_Requirements request) (requirement_ID requirement)
    then ApprovalRequestStatusApproved else ApprovalRequestStatusPending in
  let requiredApprovals := llen (request_Requirements request) in
  let receivedApprovals := receivedApprovalsAfter (request_Requirements request)
    (requirement_ID requirement) newRequirementStatus in
  let statusChanged := negb (eqs (request_Status request) newRequestStatus) in
  let! _ := storeDecision request decision newRequirementStatus newRequestStatus requiredApprovals
              receivedApprovals statusChanged actor t in
  GetRequestByID (request_ID request).

Definition ApproveRequirement (input : ApprovalDecisionInput) : M World ApprovalRequest :=
  recordDecision input ApprovalDecisionValueApproved.
Definition RejectRequirement (input : ApprovalDecisionInput) : M World ApprovalRequest :=
  recordDecision input ApprovalDecisionValueRejected.
End Service.
