(* ===== verification/ApprovalSafety.v ===== *)
(** * Safety of the approval workflow

    What a run of the service of [Approval] does to the tables: reads change
    nothing, a decision is stored whole or not at all and only by an actor who
    may decide, and the status of a request agrees with its requirements after
    any sequence of operations. *)

From S2P Require Import Prelude Errors GoStrings JsonScan Domain Json Effects Postgres Outbox Events World GovernanceStore UseCase AuditLog Identity Policy Approval.

Open Scope string_scope.
Open Scope Z_scope.

(** ** Rows as the scan functions return them *)

Lemma allowed_trimmed allowed v :
  forallb (fun a => eqs (TrimSpace a) a) allowed = true -> allowed_in allowed v = true -> TrimSpace v = v.
Proof.
  intros H Hv%allowed_in_elem. rewrite forallb_forall in H.
  apply eqs_true, H. by apply list_elem_of_In.
Qed.

Definition requirement_core (q : ApprovalRequirement)
    : ApprovalRequirementID * ApprovalRequestID * option ModuleID * ApprovalRequirementStatus :=
  (requirement_ID q, requirement_ApprovalRequestID q, requirement_TargetModuleID q,
   requirement_Status q).

Definition requirements_of (rid : ApprovalRequestID) (d : Database) : list ApprovalRequirement :=
  List.filter (fun r => eqs (requirement_ApprovalRequestID r) rid) (db_requirements d).
Definition decisions_of (rid : ApprovalRequestID) (d : Database) : list ApprovalDecision :=
  List.filter (fun x => eqs (decision_ApprovalRequestID x) rid) (db_decisions d).

Section Rows.
Context `{PG : !Postgres} `{ENV : !Env}.

(** What the columns and the checks of the tables guarantee of every row. *)
Record rows_ok (d : Database) : Prop := mk_rows_ok {
  rows_requests p : p ∈ db_requests d ->
    canonical (request_ID p) /\ ApprovalRequestStatus_IsValid (request_Status p) = true;
  rows_requirements q : q ∈ db_requirements d ->
    canonical (requirement_ID q) /\ canonical (requirement_ApprovalRequestID q)
    /\ ApprovalRequirementStatus_IsValid (requirement_Status q) = true
    /\ (forall m, requirement_TargetModuleID q = Some m -> canonical m);
  rows_decisions x : x ∈ db_decisions d ->
    canonical (decision_ApprovalRequestID x) /\ canonical (decision_RequirementID x);
  rows_owners o : o ∈ db_owners d -> ModuleOwnerRole_IsValid (owner_Role o) = true }.

Lemma scan_rows_Ok {A B} (scan : A -> result B) rows (w : World) l w' :
  scan_rows scan rows w = (Ok l, w') -> w' = w /\ Forall2 (fun x y => scan x = Ok y) rows l.
Proof.
  revert l w'. induction rows as [|x rows IH]; intros l w' H.
  - injection H as <- <-. split; [done|constructor].
  - unfold scan_rows in *. cbn [mapM] in H. minv.
    match goal with H : mapM _ _ _ = _ |- _ => apply IH in H as [-> ?] end. split; [done|by constructor].
Qed.

(** A projection that the scan keeps on the rows of a table. *)
Lemma scan_map {A B C} (scan : A -> result B) (f : A -> C) (g : B -> C) rows l :
  (forall x y, x ∈ rows -> scan x = Ok y -> g y = f x) ->
  Forall2 (fun x y => scan x = Ok y) rows l -> map g l = map f rows.
Proof.
  intros Hs. induction 1 as [|x y rows l Hxy _ IH]; [done|]. simpl. f_equal.
  - apply Hs; [set_solver|done].
  - apply IH. intros. apply Hs; [set_solver|done].
Qed.

Lemma scan_requirement_core q q' :
  canonical (requirement_ID q) -> canonical (requirement_ApprovalRequestID q) ->
  ApprovalRequirementStatus_IsValid (requirement_Status q) = true ->
  (forall m, requirement_TargetModuleID q = Some m -> canonical m) ->
  scanApprovalRequirement q = Ok q' -> requirement_core q' = requirement_core q.
Proof.
  intros H1 H2 H3 H4. unfold scanApprovalRequirement.
  destruct (NewApprovalRequirementType _); [|done].
  destruct (NewApprovalRequirementStatus _) as [st|] eqn:Est; [|done]. simpl.
  destruct (optional_module_name _); [|done]. match goal with |- context [if ?b then Ok "" else ?r] => destruct (if b then Ok "" else r) end; [|done].
  intros [= <-]. unfold requirement_core. cbn. apply new_enum_Ok in Est as [-> _].
  rewrite (allowed_trimmed ApprovalRequirementStatuses _ eq_refl H3).
  unfold NewApprovalRequirementID, NewApprovalRequestID. rewrite !canonical_trim by done.
  destruct (requirement_TargetModuleID q) as [m|]; [|done]. cbn. unfold NewModuleID.
  by rewrite canonical_trim by auto.
Qed.

Lemma scan_decision_requirement x y :
  canonical (decision_RequirementID x) -> scanApprovalDecision x = Ok y ->
  decision_RequirementID y = decision_RequirementID x.
Proof.
  intros H. unfold scanApprovalDecision. destruct (NewApprovalDecisionValue _); [|done].
  intros [= <-]. by apply canonical_trim.
Qed.

Lemma listRequirements_Ok rid w l w' :
  rows_ok (w_db w) -> canonical rid -> listRequirements rid w = (Ok l, w') ->
  map requirement_core l ≡ₚ map requirement_core (requirements_of rid (w_db w)).
Proof.
  intros Hok Hrid H. unfold listRequirements in H. apply bind_Ok in H as (rows & w1 & H & Hs).
  stmt_inv H.
  match goal with H : uuid_canon rid = Some _ |- _ => apply (canonical_param rid _ Hrid) in H; subst end.
  match goal with H : w_db w1 = w_db w |- _ => rewrite H in * end.
  apply scan_rows_Ok in Hs as [_ Hs].
  erewrite (scan_map _ requirement_core requirement_core); [apply Permutation_map, sort_by_perm| |exact Hs].
  intros x y Hx. apply elem_of_sort_by, elem_of_filter_bool in Hx as [Hx _].
  apply (rows_requirements _ Hok) in Hx as (?&?&?&?). by apply scan_requirement_core.
Qed.

Lemma listDecisions_Ok rid w l w' :
  rows_ok (w_db w) -> canonical rid -> listDecisions rid w = (Ok l, w') ->
  map decision_RequirementID l ≡ₚ map decision_RequirementID (decisions_of rid (w_db w)).
Proof.
  intros Hok Hrid H. unfold listDecisions in H. apply bind_Ok in H as (rows & w1 & H & Hs).
  stmt_inv H.
  match goal with H : uuid_canon rid = Some _ |- _ => apply (canonical_param rid _ Hrid) in H; subst end.
  match goal with H : w_db w1 = w_db w |- _ => rewrite H in * end.
  apply scan_rows_Ok in Hs as [_ Hs].
  erewrite (scan_map _ decision_RequirementID decision_RequirementID); [apply Permutation_map, sort_by_perm| |exact Hs].
  intros x y Hx. apply elem_of_sort_by, elem_of_filter_bool in Hx as [Hx _].
  apply (rows_decisions _ Hok) in Hx as (?&?). by apply scan_decision_requirement.
Qed.

(** A request as [populateRequest] returns it. *)
Definition shows (r p : ApprovalRequest) (d : Database) : Prop :=
  request_ID r = request_ID p /\ request_Status r = request_Status p
  /\ map requirement_core (request_Requirements r)
      ≡ₚ map requirement_core (requirements_of (request_ID p) d)
  /\ map decision_RequirementID (request_Decisions r)
      ≡ₚ map decision_RequirementID (decisions_of (request_ID p) d).

Lemma same_db_listRequirements rid : preserves same_db (listRequirements rid).
Proof. unfold listRequirements. repeat first [apply same_db_scan_rows|preserve_step]; reads. Qed.

Lemma request_rows_Ok f d r :
  r ∈ request_rows f d -> exists p, p ∈ db_requests d /\ f p = true
    /\ request_ID r = request_ID p /\ request_Status r = request_Status p.
Proof.
  unfold request_rows. rewrite list_elem_of_In, in_flat_map. intros (p & Hp & Hr).
  apply list_elem_of_In, elem_of_filter_bool in Hp as [Hp Hf]. unfold join_module in Hr.
  apply in_map_iff in Hr as (m & <- & _). eauto.
Qed.

Lemma getRequest_Ok (f : string -> ApprovalRequest -> Database -> bool)
    (rows : string -> Database -> list ApprovalRequest) id w r w' :
  rows_ok (w_db w) ->
  (forall c row, row ∈ rows c (w_db w) -> row ∈ request_rows (fun p => f c p (w_db w)) (w_db w)) ->
  (let! r := getRequest (let! id := uuid_param id in query_row (fun d => rows id d)) in
   populateRequest r) w = (Ok r, w') ->
  exists p c, uuid_canon id = Some c /\ p ∈ db_requests (w_db w) /\ f c p (w_db w) = true
    /\ shows r p (w_db w).
Proof.
  intros Hok Hrows H. apply bind_Ok in H as (r0 & w1 & H & Hp). unfold getRequest in H.
  apply map_err_Ok, bind_Ok in H as (row & w2 & H & [Hs ->]%lift_Ok).
  apply exec_db_Ok in H as [H _]. minv. apply uuid_param_Ok in Hm as [Hc ->].
  apply query_row_Ok in H as [Hrow Hdb].
  assert (Hin : row ∈ request_rows (fun p => f a p (w_db w)) (w_db w)) by (apply Hrows; destruct (rows _ _); set_solver).
  apply request_rows_Ok in Hin as (p & Hpin & Hf & E1 & E2). exists p, a. split_and!; [done..|].
  destruct (rows_requests _ Hok p Hpin) as [Hcan Hst].
  unfold scanApprovalRequest in Hs. destruct (NewModuleName _); [|done].
  destruct (NewApprovalRequestStatus _) as [st|] eqn:Est; [|done]. injection Hs as <-.
  apply new_enum_Ok in Est as [-> _].
  rewrite E2, (allowed_trimmed ApprovalRequestStatuses _ eq_refl Hst) in Hp.
  unfold NewApprovalRequestID in Hp. rewrite E1, canonical_trim in Hp by done.
  unfold populateRequest in Hp. apply bind_Ok in Hp as (reqs & w3 & Hr & Hp). cbn in Hr.
  apply bind_Ok in Hp as (decs & w4 & Hd & [= <- <-]). cbn in Hd.
  rewrite <- Hdb in Hok. pose proof (preserves_run _ _ _ _ _ (same_db_listRequirements _) Hr) as [E3 _].
  split_and!; [done..| |]; cbn; rewrite <- Hdb.
  - by eapply listRequirements_Ok.
  - rewrite <- E3. eapply listDecisions_Ok; [by rewrite E3|done..].
Qed.
(** ** What the reads of a decision find *)

Lemma map_core_elem (l l' : list ApprovalRequirement) x :
  map requirement_core l ≡ₚ map requirement_core l' -> x ∈ l ->
  exists y, y ∈ l' /\ requirement_core y = requirement_core x.
Proof.
  intros Hp Hx. assert (H : requirement_core x ∈ map requirement_core l').
  { rewrite <- Hp. by apply list_elem_of_In, in_map, list_elem_of_In. }
  apply list_elem_of_In, in_map_iff in H as (y & E & Hy). exists y. by rewrite list_elem_of_In.
Qed.

Lemma getRequestByRequirement_Ok qid w r x w' :
  rows_ok (w_db w) -> getRequestByRequirement qid w = (Ok (r, x), w') ->
  exists p q, p ∈ db_requests (w_db w) /\ q ∈ db_requirements (w_db w)
    /\ requirement_ApprovalRequestID q = request_ID p /\ requirement_ID q = qid
    /\ shows r p (w_db w) /\ requirement_core x = requirement_core q.
Proof.
  intros Hok H. unfold getRequestByRequirement in H. apply bind_Ok in H as (r0 & w1 & H%map_err_Ok & Hf).
  destruct (List.find _ _) as [x0|] eqn:E; [|done]. injection Hf as -> -> _.
  apply find_some_in in E as [Hx Hid%eqs_true].
  apply (getRequest_Ok (fun id ar d => existsb (fun req =>
    eqs (requirement_ApprovalRequestID req) (request_ID ar) && eqs (requirement_ID req) id)
    (db_requirements d))) in H as (p & c & _ & Hp & _ & Hsh); [|done|done].
  destruct Hsh as (E1 & E2 & E3 & E4). destruct (map_core_elem _ _ _ E3 Hx) as (q & Hq & Ec).
  apply elem_of_filter_bool in Hq as [Hq Hr%eqs_true].
  exists p, q. split_and!; try done. by injection Ec as -> _ _ _.
Qed.

Lemma has_allowed_role_true allowed roles :
  has_allowed_role allowed roles = Ok true -> exists r, r ∈ roles /\ TrimSpace r ∈ allowed.
Proof.
  induction roles as [|r roles IH]; simpl; [done|].
  destruct (NewModuleOwnerRole r) as [role|] eqn:E; [|done]. simpl.
  apply new_enum_Ok in E as [-> _]. destruct (existsb _ _) eqn:Ex.
  - intros _. apply existsb_true in Ex as (a & Ha & <-%eqs_true). exists r. set_solver.
  - intros (r' & Hr & Ha)%IH. exists r'. set_solver.
Qed.

(** An owner of the module who holds one of the roles. *)
Definition owns (d : Database) (moduleID : ModuleID) (actor : string) (roles : list ModuleOwnerRole) : Prop :=
  exists o, o ∈ db_owners d /\ owner_ModuleID o = moduleID /\ owner_Subject o = actor
    /\ owner_Role o ∈ roles
    /\ (owner_SubjectType o = GovernanceSubjectTypeUser \/ owner_SubjectType o = GovernanceSubjectTypeTeam).

Lemma has_role_Ok m st actor roles w w' :
  rows_ok (w_db w) -> canonical m ->
  st = GovernanceSubjectTypeUser \/ st = GovernanceSubjectTypeTeam ->
  has_role m st actor roles w = (Ok true, w') -> owns (w_db w) m actor roles.
Proof.
  intros Hok Hm Hst H. unfold has_role in H. apply bind_Ok in H as (r & w1 & H%try_Ok_inv & [= Hr <-]).
  destruct r as [b|]; [|done]. subst b. unfold Owner_HasRole in H.
  apply bind_Ok in H as (rows & w2 & H & [Hr ->]%lift_Ok). stmt_inv H.
  match goal with H : uuid_canon m = Some _ |- _ => apply (canonical_param m _ Hm) in H; subst end.
  match type of Hr with Ok true = _ => symmetry in Hr | _ => idtac end. apply has_allowed_role_true in Hr as (r & Hr & Ha).
  apply list_elem_of_In, in_map_iff in Hr as (o & <- & Ho). apply list_elem_of_In in Ho.
  apply elem_of_filter_bool in Ho as [Ho Hp].
  apply andb_true_iff in Hp as [[Hp1%eqs_true Hp2%eqs_true]%andb_true_iff Hp3%eqs_true].
  match goal with H : w_db w2 = w_db w |- _ => rewrite H in * end. exists o. subst.
  pose proof (rows_owners _ Hok o Ho) as Hrole.
  rewrite (allowed_trimmed ModuleOwnerRoles _ eq_refl Hrole) in Ha. done.
Qed.

Lemma same_db_has_role m st actor roles : preserves same_db (has_role m st actor roles).
Proof. unfold has_role. repeat first [apply same_db_Owner_HasRole|preserve_step]. Qed.

Lemma same_db_actorCanDecide config q actor : preserves same_db (actorCanDecide config q actor).
Proof. unfold actorCanDecide. repeat first [apply same_db_has_role|preserve_step]. Qed.

Lemma same_db_getRequestByRequirement qid : preserves same_db (getRequestByRequirement qid).
Proof.
  unfold getRequestByRequirement. repeat first [apply same_db_GetRequestByRequirementID|preserve_step].
Qed.

Lemma actorCanDecide_Ok config q actor w w' :
  rows_ok (w_db w) -> (forall m, requirement_TargetModuleID q = Some m -> canonical m) ->
  actorCanDecide config q actor w = (Ok true, w') ->
  exists m, requirement_TargetModuleID q = Some m
    /\ owns (w_db w) m actor (allowedPolicyRoles config).
Proof.
  intros Hok Ht H. unfold actorCanDecide in H.
  destruct (requirement_TargetModuleID q) as [m|]; [|done]. exists m. split; [done|].
  destruct (m =? "")%string; [done|]. apply bind_Ok in H as (b & w1 & Hu & H). destruct b.
  - eapply has_role_Ok, Hu; auto.
  - pose proof (preserves_run _ _ _ _ _ (same_db_has_role _ _ _ _) Hu) as [E _].
    rewrite <- E. eapply has_role_Ok, H; [by rewrite E|auto..].
Qed.
End Rows.

#[export] Hint Resolve same_db_has_role same_db_actorCanDecide same_db_getRequestByRequirement : go.

(** ** What the transaction of a decision writes *)

Definition decision_db (d : Database) (x : ApprovalDecision)
    (requirementStatus : ApprovalRequirementStatus) (status : ApprovalRequestStatus)
    (required received : Z) (t : time) (audits : list GovernanceAuditEvent) (row : Record_) : Database :=
  mkDatabase (db_modules d) (db_versions d) (db_reports d) (db_changes d) (db_owners d)
    (update_where (fun r => eqs (request_ID r) (decision_ApprovalRequestID x))
       (set_request_status status required received t) (db_requests d))
    (update_where (fun r => eqs (requirement_ID r) (decision_RequirementID x))
       (set_requirement_status requirementStatus t) (db_requirements d))
    (db_decisions d ++ [x])%list (db_audit d ++ audits)%list (db_tokens d)
    (mkOutboxTable (ot_rows (db_outbox d) ++ [row])%list (S (ot_uuids (db_outbox d)))) (db_catalog d).

Definition with_decision_id (id : string) (x : ApprovalDecision) : ApprovalDecision :=
  mkApprovalDecision id (decision_ApprovalRequestID x) (decision_RequirementID x)
    (decision_Decision x) (decision_DecidedBy x) (decision_Comment x) (decision_CreatedAt x).

Definition decision_events (changed : bool) : list GovernanceAuditEventType :=
  GovernanceAuditEventTypeApprovalDecisionRecorded ::
  (if changed then [GovernanceAuditEventTypeApprovalRequestStatusChanged] else []).

Section Writes.
Context `{PG : !Postgres} `{ENV : !Env} `{AUD : !AuditSink World} `{LAW : !AuditSinkLaws}.

Lemma appendApprovalAudit_Ok type_ request actor payload t w u w' :
  TrimSpace type_ = type_ ->
  appendApprovalAudit type_ request actor payload t w = (Ok u, w') ->
  w_tx w' = w_tx w
  /\ exists row, auditEvent_EventType row = type_ /\ auditEvent_Actor row = actor
       /\ w_db w' = set_audit (fun l => l ++ [row])%list (w_db w).
Proof.
  intros Ht H. unfold appendApprovalAudit in H. apply bind_Ok in H as (id & w1 & Hid & H).
  pose proof (preserves_run same_db (let! v := random_hex in ret (NewGovernanceAuditEventID v)) w _ _ ltac:(preserve) Hid) as [E1 E2].
  apply Record_event_Ok in H as (Htx & row & H1 & H2 & H3). rewrite <- E1, <- E2.
  split; [done|]. exists row. cbn [event_Type event_Actor] in *. by rewrite H1, Ht.
Qed.

Lemma appendDecisionAudit_Ok request x actor t w u w' :
  appendDecisionAudit request x actor t w = (Ok u, w') ->
  w_tx w' = w_tx w
  /\ exists row, auditEvent_EventType row = GovernanceAuditEventTypeApprovalDecisionRecorded
       /\ auditEvent_Actor row = TrimSpace actor
       /\ w_db w' = set_audit (fun l => l ++ [row])%list (w_db w).
Proof. intros (payload & H)%marshal_then. by apply appendApprovalAudit_Ok in H. Qed.

Lemma appendStatusChangedAudit_Ok request st actor t w u w' :
  appendStatusChangedAudit request st actor t w = (Ok u, w') ->
  w_tx w' = w_tx w
  /\ exists row, auditEvent_EventType row = GovernanceAuditEventTypeApprovalRequestStatusChanged
       /\ auditEvent_Actor row = TrimSpace actor
       /\ w_db w' = set_audit (fun l => l ++ [row])%list (w_db w).
Proof. intros (payload & H)%marshal_then. by apply appendApprovalAudit_Ok in H. Qed.

Lemma storeDecision_Ok request x rst st required received (changed : bool) actor t w w' r :
  w_tx w = false ->
  canonical (decision_ApprovalRequestID x) -> canonical (decision_RequirementID x) ->
  request_ID request = decision_ApprovalRequestID x ->
  storeDecision request x rst st required received changed actor t w = (r, w') ->
  w_tx w' = false
  /\ ((exists e, r = Err e) /\ w_db w' = w_db w
      \/ exists id audits row,
           uuid_canon (decision_ID x) = Some id
           /\ (forall y, y ∈ db_decisions (w_db w) -> decision_RequirementID y <> decision_RequirementID x)
           /\ map auditEvent_EventType audits = decision_events changed
           /\ Forall (fun e => auditEvent_Actor e = TrimSpace actor) audits
           /\ record_Status row = outboxStatusPending
           /\ record_EventType row = EventTypeApprovalDecisionRecorded
           /\ w_db w' = decision_db (w_db w) (with_decision_id id x) rst st required received t audits row).
Proof.
  intros Htx Hc1 Hc2 Hreq H. unfold storeDecision in H.
  apply WithinTransaction_atomic in H as (Htx' & [[He Hdb]|(a & w2 & H & Hdb & _)]); [by eauto| |done].
  split; [done|]. right. rewrite Hdb. clear Hdb Htx' Htx.
  change (w_db w) with (w_db (tick (mkWorld (w_db w) true (w_tick w)))).
  generalize dependent (tick (mkWorld (w_db w) true (w_tick w))). clear w. intros w H.
  apply bind_Ok in H as (u1 & w3 & H1 & H).
  apply map_err_Ok, AddDecision_Ok in H1 as (id & rid & qid & Hid & Hr & Hq & Huniq & _ & E3).
  apply canonical_param in Hr as ->; [|done]. apply canonical_param in Hq as ->; [|done].
  apply bind_Ok in H as (u2 & w4 & H2 & H).
  apply UpdateRequirementStatus_Ok in H2 as (q' & Hq & _ & E4).
  apply canonical_param in Hq as ->; [|done].
  apply bind_Ok in H as (u3 & w5 & H3 & H).
  apply UpdateRequestStatus_Ok in H3 as (r' & Hr & _ & E5).
  rewrite Hreq in Hr. apply canonical_param in Hr as ->; [|done].
  apply bind_Ok in H as (u4 & w6 & H4 & H).
  apply appendDecisionAudit_Ok in H4 as (_ & a1 & Ha1 & Hb1 & E6).
  apply bind_Ok in H as (u5 & w7 & H5 & H).
  apply write_outbox_Ok in H as (_ & rec & row & Hrec & Hst & Hty & _ & E8).
  unfold NewApprovalDecisionRecorded in Hrec. apply event_record_type in Hrec. rewrite Hrec in Hty.
  destruct changed.
  - apply appendStatusChangedAudit_Ok in H5 as (_ & a2 & Ha2 & Hb2 & E7).
    exists id, [a1; a2], row. split_and!; [done..| | | |done|].
    + simpl. by rewrite Ha1, Ha2.
    + by repeat constructor.
    + done.
    + rewrite E8, E7, E6, E5, E4, E3. unfold decision_db, set_outbox, set_audit. simpl. by rewrite <- app_assoc.
  - injection H5 as _ <-. exists id, [a1], row. split_and!; [done..| | | |done|].
    + simpl. by rewrite Ha1.
    + by repeat constructor.
    + done.
    + by rewrite E8, E6, E5, E4, E3.
Qed.
End Writes.

(** ** Recording a decision *)

Section Counting.
Context {A B : Type} (core : A -> B) (f : A -> bool) (fc : B -> bool).
Hypothesis f_core : forall x, f x = fc (core x).

Lemma length_filter_core l : length (List.filter f l) = length (List.filter fc (map core l)).
Proof. induction l as [|x l IH]; simpl; [done|]. rewrite f_core. destruct (fc (core x)); simpl; auto. Qed.

Lemma length_filter_perm (l l' : list B) : l ≡ₚ l' -> length (List.filter fc l) = length (List.filter fc l').
Proof. induction 1; simpl; repeat case_match; simpl; lia. Qed.

Lemma llen_filter_core l l' :
  map core l ≡ₚ map core l' -> llen (List.filter f l) = llen (List.filter f l').
Proof. intros H. unfold llen. by rewrite !length_filter_core, (length_filter_perm _ _ H). Qed.

Lemma forallb_core l l' : map core l ≡ₚ map core l' -> forallb f l = forallb f l'.
Proof.
  assert (E : forall k, forallb f k = forallb fc (map core k)).
  { induction k as [|x k IH]; simpl; [done|]. by rewrite f_core, IH. }
  rewrite !E. induction 1; simpl; [done|by f_equal| |congruence].
  rewrite !andb_assoc. f_equal. apply andb_comm.
Qed.
End Counting.

Definition is_approved (q : ApprovalRequirement) : bool :=
  eqs (requirement_Status q) ApprovalRequirementStatusApproved.

(** Nothing is left to decide in a requirement. *)
Definition settled (st : ApprovalRequirementStatus) : Prop :=
  st = ApprovalRequirementStatusApproved \/ st = ApprovalRequirementStatusNotRequired.

Definition decided_status (v : ApprovalDecisionValue) : ApprovalRequirementStatus :=
  if eqs v ApprovalDecisionValueRejected then ApprovalRequirementStatusRejected
  else ApprovalRequirementStatusApproved.

(** The status of the request [rid] after a decision on its requirement [qid]. *)
Definition status_after (v : ApprovalDecisionValue) (qid : ApprovalRequirementID)
    (reqs : list ApprovalRequirement) (st : ApprovalRequestStatus) : Prop :=
  (v = ApprovalDecisionValueRejected -> st = ApprovalRequestStatusRejected)
  /\ (v <> ApprovalDecisionValueRejected ->
      (forall q, q ∈ reqs -> requirement_ID q = qid \/ settled (requirement_Status q)) ->
      st = ApprovalRequestStatusApproved)
  /\ (v <> ApprovalDecisionValueRejected ->
      (exists q, q ∈ reqs /\ requirement_ID q <> qid /\ ~ settled (requirement_Status q)) ->
      st = ApprovalRequestStatusPending).

(** The decision [v] is made: what it needed of the database [d], and the
    database it leaves. *)
Definition decision_made `{PG : !Postgres} (config : PolicyConfig) (input : ApprovalDecisionInput)
    (v : ApprovalDecisionValue) (d d' : Database) : Prop :=
  exists p q m id t st audits row,
    p ∈ db_requests d /\ q ∈ db_requirements d
    /\ requirement_ApprovalRequestID q = request_ID p
    /\ requirement_ID q = TrimSpace (input_RequirementID input)
    /\ (TrimSpace (input_RequestID input) = "" \/ TrimSpace (input_RequestID input) = request_ID p)
    /\ request_Status p = ApprovalRequestStatusPending
    /\ requirement_Status q = ApprovalRequirementStatusPending
    /\ (forall x, x ∈ db_decisions d -> decision_RequirementID x <> requirement_ID q)
    /\ TrimSpace (input_Actor input) <> ""
    /\ len (input_Comment input) <= MaxApprovalDecisionCommentLength
    /\ requirement_TargetModuleID q = Some m
    /\ owns d m (TrimSpace (input_Actor input)) (allowedPolicyRoles config)
    /\ status_after v (requirement_ID q) (requirements_of (request_ID p) d) st
    /\ map auditEvent_EventType audits = decision_events (negb (eqs ApprovalRequestStatusPending st))
    /\ Forall (fun e => auditEvent_Actor e = TrimSpace (input_Actor input)) audits
    /\ record_Status row = outboxStatusPending
    /\ record_EventType row = EventTypeApprovalDecisionRecorded
    /\ d' = decision_db d
              (mkApprovalDecision id (request_ID p) (requirement_ID q) v
                 (TrimSpace (input_Actor input)) (input_Comment input) t)
              (decided_status v) st
              (llen (requirements_of (request_ID p) d))
              (llen (List.filter is_approved (requirements_of (request_ID p) d'))) t audits row.

Lemma allRequirementsApprovedAfter_core l l' qid :
  map requirement_core l ≡ₚ map requirement_core l' ->
  allRequirementsApprovedAfter l qid = allRequirementsApprovedAfter l' qid.
Proof.
  apply (forallb_core requirement_core _ (fun c =>
    eqs c.1.1.1 qid || eqs c.2 ApprovalRequirementStatusApproved
    || eqs c.2 ApprovalRequirementStatusNotRequired)). done.
Qed.

Lemma receivedApprovalsAfter_core l l' qid st :
  map requirement_core l ≡ₚ map requirement_core l' ->
  receivedApprovalsAfter l qid st = receivedApprovalsAfter l' qid st.
Proof.
  apply (llen_filter_core requirement_core _ (fun c =>
    eqs (if eqs c.1.1.1 qid then st else c.2) ApprovalRequirementStatusApproved)). done.
Qed.

Lemma requirements_of_update rid p f (l : list ApprovalRequirement) :
  (forall x, requirement_ApprovalRequestID (f x) = requirement_ApprovalRequestID x) ->
  List.filter (fun r => eqs (requirement_ApprovalRequestID r) rid) (update_where p f l)
  = update_where p f (List.filter (fun r => eqs (requirement_ApprovalRequestID r) rid) l).
Proof.
  intros Hf. induction l as [|x l IH]; simpl; [done|].
  assert (E : requirement_ApprovalRequestID (if p x then f x else x) = requirement_ApprovalRequestID x)
    by (destruct (p x); auto).
  rewrite E. destruct (eqs _ _); simpl; by rewrite IH.
Qed.

Lemma receivedApprovalsAfter_table reqs qid st t :
  receivedApprovalsAfter reqs qid st =
  llen (List.filter is_approved (update_where (fun r => eqs (requirement_ID r) qid)
          (set_requirement_status st t) reqs)).
Proof.
  unfold receivedApprovalsAfter, llen, is_approved. f_equal.
  induction reqs as [|x reqs IH]; simpl; [done|].
  destruct (eqs (requirement_ID x) qid); cbn [requirement_Status set_requirement_status];
    destruct (eqs _ _); simpl; auto.
Qed.

Lemma status_after_code v qid reqs :
  status_after v qid reqs
    (if eqs v ApprovalDecisionValueRejected then ApprovalRequestStatusRejected
     else if allRequirementsApprovedAfter reqs qid then ApprovalRequestStatusApproved
     else ApprovalRequestStatusPending).
Proof.
  unfold status_after, settled. destruct (eqs v _) eqn:Ev.
  { apply eqs_true in Ev. split_and!; done. }
  apply eqs_false in Ev. split; [done|].
  assert (Hall : allRequirementsApprovedAfter reqs qid = true <->
    forall q, q ∈ reqs -> requirement_ID q = qid \/ settled (requirement_Status q)).
  { unfold allRequirementsApprovedAfter, settled. rewrite forallb_forall.
    setoid_rewrite list_elem_of_In. setoid_rewrite orb_true_iff. setoid_rewrite orb_true_iff.
    setoid_rewrite eqs_true. naive_solver. }
  destruct (allRequirementsApprovedAfter reqs qid); split; [done| |naive_solver|done].
  intros _ (q & Hq & Hne & Hs). destruct (proj1 Hall eq_refl q Hq); done.
Qed.

Section Decide.
Context `{PG : !Postgres} `{ENV : !Env} `{AUD : !AuditSink World} `{LAW : !AuditSinkLaws}.

Lemma storeDecision_made config input v request p q m id decID t w w' r :
  w_tx w = false -> rows_ok (w_db w) ->
  p ∈ db_requests (w_db w) -> q ∈ db_requirements (w_db w) ->
  requirement_ApprovalRequestID q = request_ID p ->
  requirement_ID q = TrimSpace (input_RequirementID input) ->
  TrimSpace (input_RequestID input) = "" \/ TrimSpace (input_RequestID input) = request_ID p ->
  request_Status p = ApprovalRequestStatusPending ->
  requirement_Status q = ApprovalRequirementStatusPending ->
  TrimSpace (input_Actor input) <> "" ->
  len (input_Comment input) <= MaxApprovalDecisionCommentLength ->
  requirement_TargetModuleID q = Some m ->
  owns (w_db w) m (TrimSpace (input_Actor input)) (allowedPolicyRoles config) ->
  shows request p (w_db w) ->
  let st := if eqs v ApprovalDecisionValueRejected then ApprovalRequestStatusRejected
    else if allRequirementsApprovedAfter (request_Requirements request) (requirement_ID q)
    then ApprovalRequestStatusApproved else ApprovalRequestStatusPending in
  id = request_ID p ->
  storeDecision request
    (mkApprovalDecision decID id (requirement_ID q) v (TrimSpace (input_Actor input))
       (input_Comment input) t)
    (decided_status v) st (llen (request_Requirements request))
    (receivedApprovalsAfter (request_Requirements request) (requirement_ID q) (decided_status v))
    (negb (eqs (request_Status request) st)) (TrimSpace (input_Actor input)) t w = (r, w') ->
  w_tx w' = false
  /\ ((exists e, r = Err e) /\ w_db w' = w_db w \/ decision_made config input v (w_db w) (w_db w')).
Proof.
  intros Htx Hok Hp Hq Hqp Hqid Hexp Hps Hqs Hact Hcom Htgt Howns (S1 & S2 & S3 & S4) st -> H.
  destruct (rows_requirements _ Hok q Hq) as (C1 & C2 & _). rewrite Hqp in C2.
  apply storeDecision_Ok in H as (Htx' & H); [|done..].
  split; [done|]. destruct H as [H|(id & audits & row & _ & Huniq & Haud & Hactor & Hst & Hty & Hdb)];
    [by left|right].
  cbn [decision_ID decision_RequirementID] in Huniq.
  rewrite S2, Hps in Haud.
  assert (E1 : st = if eqs v ApprovalDecisionValueRejected then ApprovalRequestStatusRejected
    else if allRequirementsApprovedAfter (requirements_of (request_ID p) (w_db w)) (requirement_ID q)
    then ApprovalRequestStatusApproved else ApprovalRequestStatusPending).
  { subst st. by rewrite (allRequirementsApprovedAfter_core _ _ _ S3). }
  exists p, q, m, id, t, st, audits, row. rewrite TrimSpace_idem in Hactor.
  split_and!; try done.
  - rewrite E1. apply status_after_code.
  - rewrite Hdb at 1. unfold with_decision_id. cbn [decision_ApprovalRequestID decision_RequirementID
      decision_Decision decision_DecidedBy decision_Comment decision_CreatedAt].
    assert (E2 : llen (request_Requirements request) = llen (requirements_of (request_ID p) (w_db w))).
    { unfold llen. apply Permutation_length in S3. rewrite !length_map in S3. by rewrite S3. }
    assert (E3 : receivedApprovalsAfter (request_Requirements request) (requirement_ID q) (decided_status v)
      = llen (List.filter is_approved (requirements_of (request_ID p) (w_db w')))).
    { rewrite (receivedApprovalsAfter_core _ _ _ _ S3), (receivedApprovalsAfter_table _ _ _ t).
      rewrite Hdb. unfold requirements_of, decision_db, with_decision_id. cbn [db_requirements decision_RequirementID].
      by rewrite requirements_of_update. }
    by rewrite E2, E3.
Qed.

Lemma recordDecision_made config input v w r w' :
  w_tx w = false -> rows_ok (w_db w) -> recordDecision config input v w = (r, w') ->
  atomic_outcome (decision_made config input v) w r w'.
Proof.
  intros Htx Hok H. unfold recordDecision in H.
  destruct (_ =? "")%string eqn:E0 in H; [refused|].
  reading H actor w1 Hm Hs. carry Hs. apply lift_Ok in Hm as [Hm _].
  apply effectiveActorSubject_Ok in Hm as [-> Hactor].
  destruct (_ <? _) eqn:E1 in H; [refused|].
  reading H rx w2 Hm Hs. destruct rx as [request requirement].
  apply getRequestByRequirement_Ok in Hm as (p & q & Hp & Hq & Hqp & Hqid & Hsh & Hcore); [|done].
  carry Hs. unfold requirement_core in Hcore. injection Hcore as C1 C2 C3 C4.
  pose proof Hsh as (S1 & S2 & _). rewrite C1 in H. rewrite C4 in H.
  destruct (_ && _) eqn:E2 in H; [refused|].
  destruct (hasDecisionForRequirement _ _) eqn:E3 in H; [refused|].
  destruct (negb _) eqn:E4 in H; [refused|]. apply negb_false_iff, eqs_true in E4.
  destruct (negb _) eqn:E5 in H; [refused|]. apply negb_false_iff, eqs_true in E5.
  reading H can w3 Hm Hs. destruct can; [|carry Hs; cbn [negb] in H; refused]. cbn [negb] in H.
  destruct (rows_requirements _ Hok q Hq) as (_ & _ & _ & Htgt).
  apply actorCanDecide_Ok in Hm as (m & Hm & Howns); [|done|by rewrite C3].
  carry Hs.
  reading H t w4 Ht Hs. carry Hs. clear Ht. reading H decID w5 Hd Hs. carry Hs. clear Hd.
  reading H u w6 Hv Hs. carry Hs. clear Hv.
  unfold bind in H. destruct (storeDecision _ _ _ _ _ _ _ _ _ w6) as [r1 w7] eqn:Est.
  apply (storeDecision_made config input v request p q m) in Est; try done.
  - destruct Est as [Htx' Hout]. destruct r1 as [u1|e].
    + pose proof (preserves_run _ _ _ _ _ (same_db_GetRequestByID _) H) as [E6 E7].
      destruct Hout as [[[e He] _]|Hout]; [done|]. split; [by rewrite E7|]. right. by rewrite E6.
    + injection H as <- <-. split; [done|]. destruct Hout as [Hout|Hout]; [left|by right].
      split; [by eexists|apply Hout].
  - destruct (eqs (request_ID request) _) eqn:E6 in E2; apply andb_false_iff in E2 as [E2|E2]; try done;
      try (left; by apply negb_false_iff, String.eqb_eq in E2).
    right. apply eqs_true in E6. by rewrite <- S1, E6.
  - by rewrite <- S2.
  - lia.
  - by rewrite <- C3.
Qed.

(** C1: a decision is recorded only for a requirement and a request that are
    pending, once, with a comment within its bound, and by an actor who owns the
    target module of the requirement in a role the policy allows; it is then
    stored with the new status of the requirement and of the request, the counts
    of the request as the table then has them, the audit events and the event of
    the outbox, all in one transaction; otherwise the call fails and nothing is
    changed, whatever fails and wherever. *)
Theorem recordDecision_correct (config : PolicyConfig) (input : ApprovalDecisionInput) (v : ApprovalDecisionValue)
    (w w' : World) (r : result ApprovalRequest)
    (Htx : w_tx w = false) (Hok : rows_ok (w_db w))
    (H : recordDecision config input v w = (r, w')) :
  w_tx w' = false
  /\ ((exists e, r = Err e) /\ w_db w' = w_db w
      \/ decision_made config input v (w_db w) (w_db w')).
Proof. exact (recordDecision_made config input v w r w' Htx Hok H). Qed.
End Decide.

(** ** Creating a request *)

(** The tables with a new request, its requirements, its audit event and its
    outbox record. *)
Definition creation_db (d : Database) (p : ApprovalRequest) (reqs : list ApprovalRequirement)
    (audit : GovernanceAuditEvent) (row : Record_) : Database :=
  mkDatabase (db_modules d) (db_versions d) (db_reports d) (db_changes d) (db_owners d)
    (db_requests d ++ [p])%list (db_requirements d ++ reqs)%list (db_decisions d)
    (db_audit d ++ [audit])%list (db_tokens d)
    (mkOutboxTable (ot_rows (db_outbox d) ++ [row])%list (S (ot_uuids (db_outbox d)))) (db_catalog d).

Definition request_created `{PG : !Postgres} (reportID : BreakingReportID) (actor : string) (d d' : Database) : Prop :=
  exists p reqs audit row,
    canonical (request_ID p)
    /\ (forall y, y ∈ db_requests d -> request_ID y <> request_ID p)
    /\ request_BreakingReportID p = uuid_canon reportID /\ uuid_canon reportID <> None
    /\ (forall y, y ∈ db_requests d -> request_BreakingReportID y <> request_BreakingReportID p)
    /\ request_Status p = (match reqs with [] => ApprovalRequestStatusNotRequired
                           | _ => ApprovalRequestStatusPending end)
    /\ request_RequiredApprovals p = llen reqs /\ request_ReceivedApprovals p = 0
    /\ (forall q, q ∈ reqs -> canonical (requirement_ID q)
          /\ requirement_ApprovalRequestID q = request_ID p
          /\ requirement_Status q = ApprovalRequirementStatusPending
          /\ (forall m, requirement_TargetModuleID q = Some m -> canonical m))
    /\ (NoDup (map requirement_ID (db_requirements d)) ->
        NoDup (map requirement_ID (db_requirements d ++ reqs)%list))
    /\ auditEvent_EventType audit = GovernanceAuditEventTypeApprovalRequestCreated
    /\ auditEvent_Actor audit = actor
    /\ record_Status row = outboxStatusPending
    /\ record_EventType row = EventTypeApprovalRequestCreated
    /\ d' = creation_db d p reqs audit row.

Section Creation.
Context `{PG : !Postgres} `{ENV : !Env}.

(** The loop over the requirements of a new request. *)
Lemma createRequirements_Ok requestID rid reqs w u w' :
  uuid_canon requestID = Some rid ->
  (forall r, r ∈ reqs -> requirement_ApprovalRequestID r = requestID
     /\ requirement_Status r = ApprovalRequirementStatusPending) ->
  forM reqs (createRequirement requestID) w = (Ok u, w') ->
  w_tx w' = w_tx w
  /\ exists rows, w_db w' = set_requirements (fun l => l ++ rows)%list (w_db w)
       /\ length rows = length reqs
       /\ (forall q, q ∈ rows -> canonical (requirement_ID q)
             /\ requirement_ApprovalRequestID q = rid
             /\ requirement_Status q = ApprovalRequirementStatusPending
             /\ (forall m, requirement_TargetModuleID q = Some m -> canonical m))
       /\ (NoDup (map requirement_ID (db_requirements (w_db w))) ->
           NoDup (map requirement_ID (db_requirements (w_db w) ++ rows)%list)).
Proof.
  intros Hrid. revert w. induction reqs as [|r reqs IH]; intros w Hreqs H.
  - injection H as _ <-. split; [done|]. exists [].
    unfold set_requirements. rewrite !app_nil_r. split_and!; try done; [by destruct (w_db w)|set_solver].
  - cbn [forM] in H. apply bind_Ok in H as (u1 & w1 & Hc & H).
    destruct (Hreqs r) as [Hr1 Hr2]; [set_solver|].
    apply createRequirement_Ok in Hc as (id & rid' & target & Hid & Hrid' & _ & Hfresh & _ & Htgt & Htx & Hdb).
    rewrite Hr1 in Hrid'. assert (rid' = rid) as -> by (destruct (_ =? _)%string in Hrid'; congruence).
    apply IH in H as (Htx' & rows & Hdb' & Hlen & Hrows & Hnd); [|set_solver].
    rewrite Htx', Htx. split; [done|]. eexists (_ :: rows). rewrite Hdb', Hdb. split_and!.
    + unfold set_requirements. simpl. rewrite <- app_assoc. reflexivity.
    + simpl. lia.
    + intros q [->|Hq]%elem_of_cons; [|by apply Hrows].
      cbn. split_and!; [by eapply canonical_of|done|done|]. intros m ->. by apply Htgt.
    + rewrite Hdb in Hnd. cbn [db_requirements set_requirements] in Hnd. rewrite <- app_assoc in Hnd.
      intros Hn. apply Hnd. rewrite map_app. apply NoDup_app. split_and!; [done| |].
      * intros x Hx. apply list_elem_of_In, in_map_iff in Hx as (y & <- & Hy).
        cbn. rewrite list_elem_of_singleton. apply Hfresh. by apply list_elem_of_In.
      * apply NoDup_singleton.
Qed.
Lemma same_report_eq report p :
  same_report (Some report) p = true <-> request_BreakingReportID p = Some report.
Proof.
  unfold same_report. destruct (request_BreakingReportID p) as [b|]; [|done].
  rewrite eqs_true. naive_solver.
Qed.

Lemma GetRequestByBreakingReportID_Ok id w r w' :
  rows_ok (w_db w) -> GetRequestByBreakingReportID id w = (Ok r, w') ->
  exists p, p ∈ db_requests (w_db w) /\ request_BreakingReportID p = uuid_canon id
    /\ uuid_canon id <> None /\ shows r p (w_db w).
Proof.
  intros Hok H.
  apply (getRequest_Ok (fun c p _ => same_report (Some c) p)
    (fun c d => firstn 1 (sort_by (newest_first request_CreatedAt) (request_rows (same_report (Some c)) d))))
    in H as (p & c & Hc & Hp & Hs & Hsh); [|done|].
  - exists p. rewrite Hc. split_and!; [done| |done|done]. by apply same_report_eq.
  - intros c0 row Hrow%elem_of_firstn. by apply elem_of_sort_by in Hrow.
Qed.

Lemma Report_GetByID_Ok id w report changes w' :
  Report_GetByID id w = (Ok (report, changes), w') -> uuid_canon id = Some (report_ID report).
Proof.
  intros H. unfold Report_GetByID in H. apply bind_Ok in H as (r & w1 & H & H2).
  assert (Hr : r = report) by (apply bind_Ok in H2 as (? & ? & _ & [= <- _ _]); done). subst r. clear H2.
  apply map_err_Ok, bind_Ok in H as (row & w2 & H & [Hs ->]%lift_Ok).
  apply exec_db_Ok in H as [H _]. apply bind_Ok in H as (c & d & [Hc ->]%uuid_param_Ok & H).
  apply query_row_Ok in H as [Hrow _].
  assert (Hin : row ∈ report_rows (fun br => eqs (report_ID br) c) (w_db w))
    by (destruct (report_rows _ _); set_solver).
  unfold report_rows in Hin. rewrite list_elem_of_In, in_flat_map in Hin.
  destruct Hin as (br & Hbr & Hin). apply list_elem_of_In, elem_of_filter_bool in Hbr as [_ Hid%eqs_true].
  apply in_flat_map in Hin as (m & _ & (v & <- & _)%in_map_iff).
  unfold scanBreakingReport in Hs. cbn in Hs.
  destruct (NewModuleName _); [|done]. destruct (NewVersion _); [|done].
  destruct (NewBreakingReportStatus _); [|done]. injection Hs as <-.
  change (uuid_canon id = Some (TrimSpace (report_ID br))).
  rewrite Hid, canonical_trim; [done|]. by eapply canonical_of.
Qed.
End Creation.

(** The providers of the policy context only read. *)
Class ApprovalProvidersLaws `{PRO : !ApprovalProviders World} := {
  ListAffectedModules_reads list_ id :
    ListAffectedModules = Some list_ -> preserves same_db (list_ id);
  ListRuntimeImpact_reads list_ report version limit offset :
    ListRuntimeImpactByModuleVersion = Some list_ -> preserves same_db (list_ report version limit offset) }.

Section Create.
Context `{PG : !Postgres} `{ENV : !Env} `{POL : !PolicyEvaluator} `{POLL : !PolicyEvaluatorLaws}.
Context `{AUD : !AuditSink World} `{LAW : !AuditSinkLaws}.
Context `{PRO : !ApprovalProviders World} `{PROL : !ApprovalProvidersLaws}.

Lemma same_db_or_empty {A} (m : M World (list A)) : preserves same_db m -> preserves same_db (or_empty m).
Proof. intros H. unfold or_empty. repeat first [exact H|preserve_step]. Qed.

Lemma same_db_policyAffectedModules affected : preserves same_db (policyAffectedModules affected).
Proof.
  apply (preserves_mapM same_db). intros x _.
  repeat first [apply same_db_Module_GetByName|apply same_db_or_empty, same_db_Owner_ListByModule|preserve_step].
Qed.

Lemma same_db_affectedModules id : preserves same_db (affectedModules id).
Proof.
  unfold affectedModules. destruct ListAffectedModules eqn:E; [|apply preserves_ret, _].
  by eapply same_db_or_empty, ListAffectedModules_reads.
Qed.
Lemma same_db_runtimeImpact report : preserves same_db (runtimeImpact report).
Proof.
  unfold runtimeImpact. destruct ListRuntimeImpactByModuleVersion eqn:E; [|apply preserves_ret, _].
  destruct (_ =? _)%string; [apply preserves_ret, _|].
  by eapply same_db_or_empty, ListRuntimeImpact_reads.
Qed.

Lemma same_db_policyContext id : preserves same_db (approvalPolicyContextForReport id).
Proof.
  unfold approvalPolicyContextForReport.
  repeat first [apply same_db_Report_GetByID|apply same_db_Module_GetByID
    |apply same_db_or_empty, same_db_Owner_ListByModule|apply same_db_affectedModules
    |apply same_db_runtimeImpact|apply same_db_policyAffectedModules|preserve_step].
Qed.

Lemma policyContext_report id w ctx w' :
  approvalPolicyContextForReport id w = (Ok ctx, w') ->
  uuid_canon id = Some (report_ID (context_Report ctx)).
Proof.
  intros H. unfold approvalPolicyContextForReport in H.
  apply bind_Ok in H as ([report changes] & w1 & Hr%map_err_Ok%Report_GetByID_Ok & H).
  repeat (apply bind_Ok in H as (? & ? & _ & H)). by injection H as <- _.
Qed.

Lemma same_db_buildRequirements rid t plans : preserves same_db (mapM (buildRequirement rid t) plans).
Proof.
  apply (preserves_mapM same_db). intros plan _. unfold buildRequirement, NewApprovalRequirementID_.
  repeat first [apply same_db_random_hex|preserve_step].
Qed.

Lemma same_db_buildRequest ctx ref result t :
  preserves same_db (buildApprovalRequestFromPolicyDecision ctx ref result t).
Proof.
  unfold buildApprovalRequestFromPolicyDecision, NewApprovalRequestID_.
  repeat first [apply same_db_random_hex|apply same_db_buildRequirements|preserve_step].
Qed.

Lemma buildRequirements_Ok rid t plans w l w' :
  mapM (buildRequirement rid t) plans w = (Ok l, w') ->
  length l = length plans
  /\ forall r, r ∈ l -> requirement_ApprovalRequestID r = rid
       /\ exists plan, plan ∈ plans /\ requirement_Status r = plan_Status plan.
Proof.
  revert w l w'. induction plans as [|plan plans IH]; intros w l w' H.
  - injection H as <- _. split; [done|set_solver].
  - cbn [mapM] in H. apply bind_Ok in H as (r & w1 & Hr & H).
    apply bind_Ok in H as (l' & w2 & [Hl IHl]%IH & [= <- _]).
    apply bind_Ok in Hr as (id & w3 & _ & [= <- _]). split; [simpl; lia|].
    intros x [->|Hx]%elem_of_cons; [split; [done|]; exists plan; split; [set_solver|done]|].
    destruct (IHl x Hx) as (? & p & ? & ?). split; [done|]. exists p. split; [set_solver|done].
Qed.

Lemma buildRequest_Ok ctx ref input t w request w' :
  let result := Evaluate input in
  buildApprovalRequestFromPolicyDecision ctx ref result t w = (Ok request, w') ->
  request_BreakingReportID request = Some (report_ID (context_Report ctx))
  /\ request_Status request = (match request_Requirements request with
       [] => ApprovalRequestStatusNotRequired | _ => ApprovalRequestStatusPending end)
  /\ request_RequiredApprovals request = llen (request_Requirements request)
  /\ request_ReceivedApprovals request = 0
  /\ (forall r, r ∈ request_Requirements request ->
        requirement_ApprovalRequestID r = request_ID request
        /\ requirement_Status r = ApprovalRequirementStatusPending).
Proof.
  intros result H. unfold buildApprovalRequestFromPolicyDecision in H.
  apply bind_Ok in H as (rid & w1 & _ & H).
  apply bind_Ok in H as (reqs & w2 & [Hlen Hr]%buildRequirements_Ok & [= <- _]).
  cbn [request_BreakingReportID request_Status request_Requirements request_RequiredApprovals
       request_ReceivedApprovals request_ID].
  split_and!; try done.
  - pose proof (Evaluate_required input) as E. fold result in E.
    destruct reqs as [|r reqs], (policy_Requirements result) as [|x l], (policy_ApprovalRequired result);
      try done; naive_solver.
  - unfold llen. by rewrite Hlen.
  - intros r Hin. destruct (Hr r Hin) as (E1 & plan & Hp & ->). split; [done|].
    by eapply Evaluate_pending.
Qed.

Lemma CreateRequest_Ok request w u w' :
  w_tx w = true -> CreateRequest request w = (Ok u, w') ->
  (forall r, r ∈ request_Requirements request ->
     requirement_ApprovalRequestID r = request_ID request
     /\ requirement_Status r = ApprovalRequirementStatusPending) ->
  exists id mid report rows,
    uuid_canon (request_ID request) = Some id
    /\ (forall y, y ∈ db_requests (w_db w) -> request_ID y <> id)
    /\ existsb (same_report report) (db_requests (w_db w)) = false
    /\ match request_BreakingReportID request with
        | Some i => exists j, uuid_canon i = Some j /\ report = Some j
        | None => report = None
        end
    /\ length rows = length (request_Requirements request)
    /\ (forall q, q ∈ rows -> canonical (requirement_ID q) /\ requirement_ApprovalRequestID q = id
          /\ requirement_Status q = ApprovalRequirementStatusPending
          /\ (forall m, requirement_TargetModuleID q = Some m -> canonical m))
    /\ (NoDup (map requirement_ID (db_requirements (w_db w))) ->
        NoDup (map requirement_ID (db_requirements (w_db w) ++ rows)%list))
    /\ w_db w' = set_requirements (fun l => l ++ rows)%list
                   (set_requests (fun l => l ++ [request_row id mid report request])%list (w_db w)).
Proof.
  intros Htx H Hreqs. unfold CreateRequest, WithinTransaction in H. rewrite Htx in H.
  apply bind_Ok in H as (u1 & w1 & H1 & H).
  apply insert_request_Ok in H1 as (id & mid & report & Hid & _ & Hfresh & Hrep & Hmatch & _ & Hdb).
  apply (createRequirements_Ok _ id) in H as (_ & rows & Hdb' & Hlen & Hrows & Hnd); [|done|done].
  exists id, mid, report, rows. rewrite Hdb in Hdb', Hnd. split_and!; done.
Qed.

Lemma createTransaction_outcome ctx ref input actor t t' w0 w1 w r w' request :
  w_tx w = false ->
  uuid_canon (report_ID (context_Report ctx)) = Some (report_ID (context_Report ctx)) ->
  buildApprovalRequestFromPolicyDecision ctx ref (Evaluate input) t w0 = (Ok request, w1) ->
  createApprovalRequestWithAuditAndOutbox request actor (Evaluate input) t' w = (r, w') ->
  w_tx w' = false
  /\ ((exists e, r = Err e) /\ w_db w' = w_db w
      \/ request_created (report_ID (context_Report ctx)) (TrimSpace actor) (w_db w) (w_db w')
         /\ exists p, p ∈ db_requests (w_db w') /\ uuid_canon (request_ID request) = Some (request_ID p)
              /\ request_BreakingReportID p = Some (report_ID (context_Report ctx))).
Proof.
  intros Htx Hrep Hb H. apply buildRequest_Ok in Hb as (B1 & B2 & B3 & B4 & B5).
  apply WithinTransaction_atomic in H as (Htx' & [[He Hdb]|(a & w2 & H & Hdb & _)]); [by eauto| |done].
  split; [done|]. right. rewrite Hdb. clear Hdb Htx'.
  change (w_db w) with (w_db (tick (mkWorld (w_db w) true (w_tick w)))).
  assert (Htx' : w_tx (tick (mkWorld (w_db w) true (w_tick w))) = true) by done.
  generalize dependent (tick (mkWorld (w_db w) true (w_tick w))). clear w Htx. intros w H Htx.
  apply bind_Ok in H as (u1 & w3 & H1%map_err_Ok & H).
  apply CreateRequest_Ok in H1
    as (id & mid & report & rows & Hid & Hfresh & Hsame & Hmatch & Hlen & Hrows & Hnd & E3); [|done..].
  rewrite B1 in Hmatch. destruct Hmatch as (j & Hj & ->). rewrite Hrep in Hj. injection Hj as <-.
  apply bind_Ok in H as (u2 & w4 & H2 & H). unfold appendApprovalRequestCreatedAudit in H2.
  apply marshal_then in H2 as (payload & H2).
  apply appendApprovalAudit_Ok in H2 as (_ & audit & Ha1 & Ha2 & E4); [|done].
  apply write_outbox_Ok in H as (_ & rec & row & Hrec & Hst & Hty & _ & E5).
  unfold NewApprovalRequestCreated in Hrec. apply event_record_type in Hrec. rewrite Hrec in Hty.
  set (p := request_row id mid (Some (report_ID (context_Report ctx))) request).
  assert (Hd : w_db w2 = creation_db (w_db w) p rows audit row) by (by rewrite E5, E4, E3).
  split.
  - exists p, rows, audit, row. split_and!; try done.
    + by eapply canonical_of.
    + by rewrite Hrep.
    + intros y Hy Heq. cbn in Heq. rewrite existsb_false in Hsame.
      pose proof (Hsame y Hy) as Hf.
      apply (proj2 (same_report_eq (report_ID (context_Report ctx)) y)) in Heq.
      unfold BreakingReportID in *. congruence.
    + cbn. rewrite B2. destruct rows, (request_Requirements request); done.
    + cbn. rewrite B3. unfold llen. by rewrite Hlen.
  - exists p. rewrite Hd. split; [set_solver|]. split; done.
Qed.

(** What creating a request leaves. *)
Definition creation_outcome (reportID : BreakingReportID) (actor : string) (w : World)
    (r : result ApprovalRequest) (w' : World) : Prop :=
  w_tx w' = false
  /\ (w_db w' = w_db w \/ request_created reportID actor (w_db w) (w_db w'))
  /\ (forall request, r = Ok request -> exists p, p ∈ db_requests (w_db w')
        /\ uuid_canon (request_ID request) = Some (request_ID p)
        /\ request_BreakingReportID p = uuid_canon reportID).

Lemma creation_unchanged reportID actor w e w' :
  w_tx w = false -> same_db w w' -> creation_outcome reportID actor w (Err e) w'.
Proof. intros Htx [E1 E2]. split_and!; [by rewrite E2|by left|done]. Qed.

Lemma existing_outcome reportID w request w' :
  rows_ok (w_db w) -> GetRequestByBreakingReportID reportID w = (Ok request, w') ->
  exists p, p ∈ db_requests (w_db w') /\ uuid_canon (request_ID request) = Some (request_ID p)
    /\ request_BreakingReportID p = uuid_canon reportID.
Proof.
  intros Hok H. pose proof (preserves_run _ _ _ _ _ (same_db_GetRequestByBreakingReportID _) H) as [E _].
  apply GetRequestByBreakingReportID_Ok in H as (p & Hp & Hrep & _ & Hid & _); [|done].
  exists p. rewrite E. split_and!; [done| |done]. rewrite Hid. by apply (rows_requests _ Hok).
Qed.

Lemma creation_step reportID actor w w1 r w' :
  same_db w w1 -> creation_outcome reportID actor w1 r w' -> creation_outcome reportID actor w r w'.
Proof. unfold creation_outcome. by intros [-> _]. Qed.

Lemma request_created_canon reportID c actor d d' :
  uuid_canon reportID = Some c -> request_created c actor d d' -> request_created reportID actor d d'.
Proof.
  intros Hc. unfold request_created. rewrite Hc, (uuid_canon_idem _ _ Hc). done.
Qed.

Ltac creation_refused :=
  match goal with H : fail _ _ = _ |- _ => injection H as <- <-; by apply creation_unchanged end.
Ltac creation_reading H a w1 Hm Hs :=
  apply read_step in H as [[[e0 ->] Hs]|(a & w1 & Hm & Hs & H)];
    [by apply creation_unchanged
    |apply (creation_step _ _ _ _ _ _ Hs)
    |first [apply preserves_try, same_db_GetRequestByBreakingReportID; typeclasses eauto
           |apply same_db_policyContext|apply same_db_buildRequest|preserve]].

Lemma request_created_rows reportID actor d d' :
  rows_ok d -> request_created reportID actor d d' -> rows_ok d'.
Proof.
  intros Hok (p & reqs & audit & row & Hid & _ & _ & _ & _ & Hst & _ & _ & Hreqs & _ & _ & _ & _ & _ & ->).
  split; cbn [creation_db db_requests db_requirements db_decisions db_owners].
  - intros x [Hx|Hx]%elem_of_app; [by apply (rows_requests _ Hok)|].
    apply list_elem_of_singleton in Hx as ->.
    split; [done|]. rewrite Hst. by destruct reqs.
  - intros q [Hq|Hq]%elem_of_app; [by apply (rows_requirements _ Hok)|].
    destruct (Hreqs q Hq) as (H1 & H2 & H3 & H4). rewrite H2, H3. done.
  - apply (rows_decisions _ Hok).
  - apply (rows_owners _ Hok).
Qed.

Lemma CreateApprovalRequest_outcome config input w r w' :
  w_tx w = false -> rows_ok (w_db w) ->
  CreateApprovalRequestForBreakingReport config input w = (r, w') ->
  creation_outcome (NewBreakingReportID (create_BreakingReportID input))
    (TrimSpace (create_Actor input)) w r w'.
Proof.
  intros Htx Hok H. unfold CreateApprovalRequestForBreakingReport in H.
  set (reportID := NewBreakingReportID (create_BreakingReportID input)) in *.
  destruct (reportID =? "")%string; [creation_refused|].
  creation_reading H actor w1 Hm Hs. carry Hs. apply lift_Ok in Hm as [Hm _].
  apply effectiveActorSubject_Ok in Hm as [-> Hactor].
  creation_reading H existing w2 Hm Hs. apply try_Ok_inv in Hm. destruct existing as [existing|e].
  { destruct (existing_outcome _ _ _ _ Hok Hm) as (p & Hp). carry Hs. injection H as <- <-.
    split_and!; [done|by left|]. intros request [= <-]. by exists p. }
  carry Hs. destruct (negb _) in H; [creation_refused|].
  creation_reading H ctx w3 Hctx Hs. carry Hs. apply policyContext_report in Hctx.
  creation_reading H t w4 Ht Hs. carry Hs. clear Ht.
  creation_reading H request w5 Hb Hs. carry Hs.
  rewrite bind_try in H. destruct (createApprovalRequestWithAuditAndOutbox _ _ _ _ w5) as [created w6] eqn:Ec.
  pose proof (uuid_canon_idem _ _ Hctx) as Hcan.
  destruct (createTransaction_outcome _ _ _ _ _ _ _ _ _ _ _ _ Htx Hcan Hb Ec) as [Htx6 Hout].
  rewrite TrimSpace_idem in Hout.
  assert (Hdb : w_db w6 = w_db w5 \/ request_created reportID (TrimSpace (create_Actor input)) (w_db w5) (w_db w6)).
  { destruct Hout as [[_ ?]|[? _]]; [by left|right]. by eapply request_created_canon. }
  destruct created as [u|e1].
  { injection H as <- <-. split_and!; [done|done|]. intros request' [= <-].
    destruct Hout as [[[e' He] _]|[_ (p & Hp & Hid & Hrep)]]; [done|].
    exists p. by rewrite Hrep, Hctx. }
  destruct (errors_Is _ _) in H; [|injection H as <- <-; done].
  rewrite bind_try in H. destruct (GetRequestByBreakingReportID reportID w6) as [existing w7] eqn:Eg.
  pose proof (preserves_run _ _ _ _ _ (same_db_GetRequestByBreakingReportID _) Eg) as [E1 E2].
  unfold creation_outcome. destruct existing as [existing|e2]; injection H as <- <-; rewrite E1, E2;
    split_and!; try done.
  intros request' [= <-]. rewrite <- E1. eapply existing_outcome; [|exact Eg].
  destruct Hdb as [->|Hcr]; [done|]. by eapply request_created_rows.
Qed.
End Create.
