(* ===== verification/ApprovalInvariant.v ===== *)
(** * The state machine of an approval request

    The invariant of the approval tables, that every operation of the service
    keeps it, whatever fails, and the theorems about the workflow. *)

From S2P Require Import Prelude Errors GoStrings JsonScan Domain Json Effects Postgres Outbox Events Tables World GovernanceStore UseCase AuditLog Identity Policy Approval ApprovalSafety.

Open Scope string_scope.
Open Scope Z_scope.

(** ** The invariant *)

(** The status of a request is a function of those of its requirements. *)
Definition status_of (sts : list ApprovalRequirementStatus) : ApprovalRequestStatus :=
  match sts with
  | [] => ApprovalRequestStatusNotRequired
  | _ => if existsb (eqs ApprovalRequirementStatusRejected) sts then ApprovalRequestStatusRejected
         else if forallb (eqs ApprovalRequirementStatusApproved) sts then ApprovalRequestStatusApproved
         else ApprovalRequestStatusPending
  end.

Definition statuses_of (rid : ApprovalRequestID) (d : Database) : list ApprovalRequirementStatus :=
  map requirement_Status (requirements_of rid d).

Record approvals_ok `{PG : !Postgres} (d : Database) : Prop := mk_approvals_ok {
  ok_rows : rows_ok d;
  ok_request_ids : NoDup (map request_ID (db_requests d));
  ok_requirement_ids : NoDup (map requirement_ID (db_requirements d));
  ok_decided_once : NoDup (map decision_RequirementID (db_decisions d));
  (** at most one request for a report *)
  ok_reports p p' b : p ∈ db_requests d -> p' ∈ db_requests d ->
    request_BreakingReportID p = Some b -> request_BreakingReportID p' = Some b -> p = p';
  ok_requirement_request q : q ∈ db_requirements d ->
    exists p, p ∈ db_requests d /\ request_ID p = requirement_ApprovalRequestID q;
  (** a requirement is pending or its status is that of its decision *)
  ok_requirement_status q : q ∈ db_requirements d ->
    (requirement_Status q = ApprovalRequirementStatusPending
     /\ forall x, x ∈ db_decisions d -> decision_RequirementID x <> requirement_ID q)
    \/ exists x, x ∈ db_decisions d /\ decision_RequirementID x = requirement_ID q
         /\ decision_ApprovalRequestID x = requirement_ApprovalRequestID q
         /\ requirement_Status q = decided_status (decision_Decision x);
  ok_decision_requirement x : x ∈ db_decisions d ->
    exists q, q ∈ db_requirements d /\ requirement_ID q = decision_RequirementID x;
  ok_status p : p ∈ db_requests d ->
    request_Status p = status_of (statuses_of (request_ID p) d)
    /\ request_RequiredApprovals p = llen (requirements_of (request_ID p) d)
    /\ request_ReceivedApprovals p = llen (List.filter is_approved (requirements_of (request_ID p) d)) }.

(** ** Status functions *)

Lemma decided_status_cases v :
  decided_status v = ApprovalRequirementStatusRejected \/ decided_status v = ApprovalRequirementStatusApproved.
Proof. unfold decided_status. destruct (eqs _ _); auto. Qed.

Lemma existsb_eqs_in s l : existsb (eqs s) l = true <-> s ∈ l.
Proof. rewrite existsb_true. setoid_rewrite eqs_true. naive_solver. Qed.

Lemma forallb_eqs_in s l : forallb (eqs s) l = true <-> forall x, x ∈ l -> x = s.
Proof.
  rewrite forallb_forall. setoid_rewrite list_elem_of_In. setoid_rewrite eqs_true. naive_solver.
Qed.

Lemma status_of_pending sts :
  status_of sts = ApprovalRequestStatusPending ->
  sts <> [] /\ ApprovalRequirementStatusRejected ∉ sts.
Proof.
  unfold status_of. destruct sts as [|s sts]; [done|]. set (l := s :: sts).
  destruct (existsb (eqs ApprovalRequirementStatusRejected) l) eqn:E; [done|]. intros _. split; [done|].
  rewrite <- existsb_eqs_in, E. done.
Qed.

Lemma status_of_rejected sts :
  ApprovalRequirementStatusRejected ∈ sts -> status_of sts = ApprovalRequestStatusRejected.
Proof.
  intros H. unfold status_of. destruct sts as [|s sts]; [set_solver|].
  by rewrite (proj2 (existsb_eqs_in _ _) H).
Qed.

Lemma status_of_approved sts :
  sts <> [] -> (forall s, s ∈ sts -> s = ApprovalRequirementStatusApproved) ->
  status_of sts = ApprovalRequestStatusApproved.
Proof.
  intros Hne H. unfold status_of. destruct sts as [|s sts]; [done|].
  destruct (existsb (eqs ApprovalRequirementStatusRejected) _) eqn:E.
  - apply existsb_eqs_in, H in E. done.
  - by rewrite (proj2 (forallb_eqs_in _ _) H).
Qed.

Lemma status_of_open sts s :
  s ∈ sts -> s <> ApprovalRequirementStatusApproved -> ApprovalRequirementStatusRejected ∉ sts ->
  status_of sts = ApprovalRequestStatusPending.
Proof.
  intros Hs Hne Hr. unfold status_of. destruct sts as [|s0 sts]; [set_solver|].
  destruct (existsb (eqs ApprovalRequirementStatusRejected) _) eqn:E; [by apply existsb_eqs_in in E|].
  destruct (forallb (eqs ApprovalRequirementStatusApproved) _) eqn:E2; [|done]. by apply (proj1 (forallb_eqs_in _ _) E2) in Hs.
Qed.

Lemma status_of_approved_inv sts s :
  status_of sts = ApprovalRequestStatusApproved -> s ∈ sts -> s = ApprovalRequirementStatusApproved.
Proof.
  unfold status_of. destruct sts as [|s0 sts]; [done|].
  destruct (existsb (eqs ApprovalRequirementStatusRejected) _); [done|].
  destruct (forallb (eqs ApprovalRequirementStatusApproved) _) eqn:E; [|done].
  intros _. by apply forallb_eqs_in.
Qed.

Lemma status_of_pending_inv sts :
  status_of sts = ApprovalRequestStatusPending ->
  exists s, s ∈ sts /\ s <> ApprovalRequirementStatusApproved /\ s <> ApprovalRequirementStatusRejected.
Proof.
  intros H. destruct (status_of_pending _ H) as [_ Hr].
  destruct (decide (Exists (fun s => s <> ApprovalRequirementStatusApproved) sts)) as [He|Hn].
  - apply Exists_exists in He as (s & Hs & Hne). exists s. split_and!; [done..|]. intros ->. done.
  - rewrite status_of_approved in H; [done|by apply status_of_pending in H as [? _]|].
    intros s Hs. destruct (decide (s = ApprovalRequirementStatusApproved)); [done|].
    destruct Hn. apply Exists_exists. eauto.
Qed.

Lemma allRequirementsApprovedAfter_true qid reqs :
  allRequirementsApprovedAfter reqs qid = true <->
  forall q, q ∈ reqs -> requirement_ID q = qid \/ settled (requirement_Status q).
Proof.
  unfold allRequirementsApprovedAfter, settled. rewrite forallb_forall.
  setoid_rewrite list_elem_of_In. setoid_rewrite orb_true_iff. setoid_rewrite orb_true_iff.
  setoid_rewrite eqs_true. naive_solver.
Qed.

Lemma allRequirementsApprovedAfter_false qid reqs :
  allRequirementsApprovedAfter reqs qid = false <->
  exists q, q ∈ reqs /\ requirement_ID q <> qid /\ ~ settled (requirement_Status q).
Proof.
  unfold allRequirementsApprovedAfter, settled. split; intros H; cycle 1.
  { destruct H as (q & Hq & Hid & Hs). apply not_true_is_false. rewrite forallb_forall. intros Hall.
    specialize (Hall q). rewrite <- list_elem_of_In, !orb_true_iff, !eqs_true in Hall. tauto. }
  induction reqs as [|q reqs IH]; simpl in H; [done|].
  apply andb_false_iff in H as [H|H].
  - exists q. rewrite !orb_false_iff, !eqs_false in H. split; [set_solver|]. tauto.
  - destruct (IH H) as (q' & ? & ?). exists q'. split; [set_solver|done].
Qed.

(** ** The requirements of a request after a decision *)

Lemma update_where_id {A} (p : A -> bool) f (l : list A) :
  (forall x, x ∈ l -> p x = false) -> update_where p f l = l.
Proof.
  intros H. induction l as [|x l IH]; simpl; [done|].
  rewrite H by set_solver. f_equal. apply IH. set_solver.
Qed.

Section Preservation.
Context `{PG : !Postgres}.

Lemma requirements_of_decision rid d x rst st required received t audits row :
  requirements_of rid (decision_db d x rst st required received t audits row)
  = update_where (fun r => eqs (requirement_ID r) (decision_RequirementID x))
      (set_requirement_status rst t) (requirements_of rid d).
Proof. unfold requirements_of. cbn [decision_db db_requirements]. by rewrite requirements_of_update. Qed.

Lemma requirements_of_other d q rid x rst st required received t audits row :
  NoDup (map requirement_ID (db_requirements d)) -> q ∈ db_requirements d ->
  requirement_ID q = decision_RequirementID x -> requirement_ApprovalRequestID q <> rid ->
  requirements_of rid (decision_db d x rst st required received t audits row) = requirements_of rid d.
Proof.
  intros Hnd Hq Hid Hne. rewrite requirements_of_decision. apply update_where_id.
  intros y [Hy Hr%eqs_true]%elem_of_filter_bool. apply eqs_false. intros E.
  assert (y = q) as -> by (eapply NoDup_map_inj; eauto; congruence). done.
Qed.

Lemma status_after_updated v qid st rst t (reqs : list ApprovalRequirement) :
  rst = decided_status v ->
  status_of (map requirement_Status reqs) = ApprovalRequestStatusPending ->
  (exists q, q ∈ reqs /\ requirement_ID q = qid) ->
  (forall q, q ∈ reqs -> requirement_Status q <> ApprovalRequirementStatusNotRequired) ->
  status_after v qid reqs st ->
  st = status_of (map requirement_Status
         (update_where (fun r => eqs (requirement_ID r) qid) (set_requirement_status rst t) reqs)).
Proof.
  intros -> [Hne Hnr]%status_of_pending (q & Hq & Hqid) Hnot (H1 & H2 & H3).
  assert (Hmap : forall s, s ∈ map requirement_Status
      (update_where (fun r => eqs (requirement_ID r) qid) (set_requirement_status (decided_status v) t) reqs)
    <-> exists y, y ∈ reqs /\ s = if eqs (requirement_ID y) qid then decided_status v else requirement_Status y).
  { intros s. rewrite list_elem_of_In, in_map_iff. setoid_rewrite <- list_elem_of_In.
    setoid_rewrite elem_of_update_where. split.
    - intros (z & <- & y & Hy & ->). exists y. split; [done|]. by destruct (eqs _ _).
    - intros (y & Hy & ->). eexists. split; [|exists y; split; [done|reflexivity]]. by destruct (eqs _ _). }
  assert (Hold : forall y, y ∈ reqs -> requirement_Status y <> ApprovalRequirementStatusRejected).
  { intros y Hy E. apply Hnr. rewrite <- E. by apply list_elem_of_In, in_map, list_elem_of_In. }
  unfold decided_status in Hmap |- *. symmetry. destruct (eqs v ApprovalDecisionValueRejected) eqn:Ev.
  - apply eqs_true in Ev. rewrite H1 by done. apply status_of_rejected. apply Hmap.
    exists q. by rewrite Hqid, eqs_refl.
  - apply eqs_false in Ev. destruct (allRequirementsApprovedAfter reqs qid) eqn:Ea.
    + rewrite H2; [|done|by apply allRequirementsApprovedAfter_true]. apply status_of_approved.
      { destruct reqs; [set_solver|done]. }
      intros s (y & Hy & ->)%Hmap. destruct (eqs (requirement_ID y) qid) eqn:Ey; [done|].
      apply eqs_false in Ey. destruct (proj1 (allRequirementsApprovedAfter_true _ _) Ea y Hy) as [?|[?|?]]; [done..|].
      by apply Hnot in Hy.
    + apply allRequirementsApprovedAfter_false in Ea as (y & Hy & Hyid & Hys).
      rewrite H3 by eauto. apply status_of_open with (requirement_Status y).
      * apply Hmap. exists y. split; [done|]. apply eqs_false in Hyid. by rewrite Hyid.
      * unfold settled in Hys. tauto.
      * intros (z & Hz & E)%Hmap. destruct (eqs (requirement_ID z) qid); [done|]. by apply (Hold z).
Qed.

Lemma elem_of_requirements_of rid d q :
  q ∈ requirements_of rid d <-> q ∈ db_requirements d /\ requirement_ApprovalRequestID q = rid.
Proof. unfold requirements_of. by rewrite elem_of_filter_bool, eqs_true. Qed.

Lemma approvals_not_required d q :
  approvals_ok d -> q ∈ db_requirements d ->
  requirement_Status q <> ApprovalRequirementStatusNotRequired.
Proof.
  intros Hok Hq. destruct (ok_requirement_status _ Hok q Hq) as [[-> _]|(x & _ & _ & _ & ->)]; [done|].
  by destruct (decided_status_cases (decision_Decision x)) as [->| ->].
Qed.

Lemma ApprovalRequestStatus_of_valid sts : ApprovalRequestStatus_IsValid (status_of sts) = true.
Proof. unfold status_of. by repeat case_match. Qed.

(** The rows of the tables after a decision. *)
Lemma rows_ok_decision d x rst st required received t audits row :
  rows_ok d -> canonical (decision_ApprovalRequestID x) -> canonical (decision_RequirementID x) ->
  ApprovalRequestStatus_IsValid st = true -> ApprovalRequirementStatus_IsValid rst = true ->
  rows_ok (decision_db d x rst st required received t audits row).
Proof.
  intros Hok C1 C2 Hst Hrst. split; cbn [decision_db db_requests db_requirements db_decisions db_owners].
  - intros p (y & Hy & ->)%elem_of_update_where. destruct (rows_requests _ Hok y Hy) as [? ?].
    by destruct (eqs _ _).
  - intros q (y & Hy & ->)%elem_of_update_where. destruct (rows_requirements _ Hok y Hy) as (?&?&?&?).
    by destruct (eqs _ _).
  - intros y [Hy|Hy]%elem_of_app; [by apply (rows_decisions _ Hok)|].
    apply list_elem_of_singleton in Hy as ->. done.
  - apply (rows_owners _ Hok).
Qed.

(** The columns of a request after a decision on its requirement [q]. *)
Lemma ok_status_decision d p q v id actor comment t st audits row d' :
  approvals_ok d -> p ∈ db_requests d -> q ∈ db_requirements d ->
  requirement_ApprovalRequestID q = request_ID p ->
  request_Status p = ApprovalRequestStatusPending ->
  status_after v (requirement_ID q) (requirements_of (request_ID p) d) st ->
  d' = decision_db d (mkApprovalDecision id (request_ID p) (requirement_ID q) v actor comment t)
         (decided_status v) st (llen (requirements_of (request_ID p) d))
         (llen (List.filter is_approved (requirements_of (request_ID p) d'))) t audits row ->
  st = status_of (statuses_of (request_ID p) d')
  /\ forall r, r ∈ db_requests d' ->
       request_Status r = status_of (statuses_of (request_ID r) d')
       /\ request_RequiredApprovals r = llen (requirements_of (request_ID r) d')
       /\ request_ReceivedApprovals r = llen (List.filter is_approved (requirements_of (request_ID r) d')).
Proof.
  intros Hok Hp Hq Hqp Hpend Hafter Hd.
  assert (Hst : st = status_of (statuses_of (request_ID p) d')).
  { unfold statuses_of. rewrite Hd, requirements_of_decision. cbn [decision_RequirementID].
    apply (status_after_updated v); [done| | | |done].
    - destruct (ok_status _ Hok p Hp) as [E _]. unfold statuses_of in E. congruence.
    - exists q. by rewrite elem_of_requirements_of.
    - intros y [Hy _]%elem_of_requirements_of. by eapply approvals_not_required. }
  split; [done|]. intros r Hr. rewrite Hd in Hr. cbn [decision_db db_requests] in Hr.
  apply elem_of_update_where in Hr as (y & Hy & ->). cbn [decision_ApprovalRequestID].
  destruct (eqs (request_ID y) (request_ID p)) eqn:E.
  - apply eqs_true in E. cbn [set_request_status request_Status request_ID request_RequiredApprovals
      request_ReceivedApprovals]. rewrite E. split_and!; [done| |done].
    rewrite Hd at 1. rewrite requirements_of_decision. unfold llen. by rewrite length_update_where.
  - apply eqs_false in E.
    assert (Eo : requirements_of (request_ID y) d' = requirements_of (request_ID y) d).
    { rewrite Hd. apply requirements_of_other with q; [apply Hok|done|done|congruence]. }
    unfold statuses_of. rewrite Eo. by apply (ok_status _ Hok).
Qed.

Lemma decision_made_ok config input v d d' :
  approvals_ok d -> decision_made config input v d d' -> approvals_ok d'.
Proof.
  intros Hok (p & q & m & id & t & st & audits & row & Hp & Hq & Hqp & Hqid & _ & Hps & Hqs & Huniq
    & _ & _ & _ & _ & Hafter & _ & _ & _ & _ & Hd).
  destruct (ok_status_decision _ _ _ _ _ _ _ _ _ _ _ _ Hok Hp Hq Hqp Hps Hafter Hd) as [Hst Hstatus].
  destruct (rows_requirements _ (ok_rows _ Hok) q Hq) as (C1 & C2 & _).
  set (x := mkApprovalDecision id (request_ID p) (requirement_ID q) v (TrimSpace (input_Actor input))
              (input_Comment input) t) in *.
  generalize dependent (llen (List.filter is_approved (requirements_of (request_ID p) d'))).
  generalize (llen (requirements_of (request_ID p) d)). intros required received Hd. subst d'.
  split.
  - apply rows_ok_decision; [apply Hok|cbn; congruence|done| |].
    + rewrite Hst. apply ApprovalRequestStatus_of_valid.
    + by destruct (decided_status_cases v) as [->| ->].
  - cbn [decision_db db_requests]. rewrite map_update_where by done. apply Hok.
  - cbn [decision_db db_requirements]. rewrite map_update_where by done. apply Hok.
  - cbn [decision_db db_decisions]. rewrite map_app. apply NoDup_app. split_and!; [apply Hok| |apply NoDup_singleton].
    intros y Hy. apply list_elem_of_In, in_map_iff in Hy as (z & <- & Hz). apply list_elem_of_In in Hz.
    cbn [map]. rewrite list_elem_of_singleton. by apply Huniq.
  - cbn [decision_db db_requests]. intros p1 p2 b (y1 & Hy1 & ->)%elem_of_update_where
      (y2 & Hy2 & ->)%elem_of_update_where Hb1 Hb2.
    assert (y1 = y2) as -> by (apply (ok_reports _ Hok) with b; [done..| |];
      [by destruct (eqs (request_ID y1) _)|by destruct (eqs (request_ID y2) _)]). done.
  - cbn [decision_db db_requests db_requirements]. intros q1 (y & Hy & ->)%elem_of_update_where.
    destruct (ok_requirement_request _ Hok y Hy) as (r & Hr & E).
    eexists. split; [apply elem_of_update_where; exists r; split; [done|reflexivity]|].
    destruct (eqs (requirement_ID y) _), (eqs (request_ID r) _); done.
  - cbn [decision_db db_decisions db_requirements]. intros q1 (y & Hy & ->)%elem_of_update_where.
    cbn [x decision_RequirementID]. destruct (eqs (requirement_ID y) (requirement_ID q)) eqn:E.
    + apply eqs_true in E. right. exists x. assert (y = q) as -> by (eapply NoDup_map_inj; eauto; apply Hok).
      split; [set_solver|]. done.
    + apply eqs_false in E. destruct (ok_requirement_status _ Hok y Hy) as [[H1 H2]|(z & H1 & H2)]; [left|right].
      * split; [done|]. intros z [Hz|Hz]%elem_of_app; [by apply H2|].
        apply list_elem_of_singleton in Hz as ->. cbn. congruence.
      * exists z. split; [set_solver|done].
  - cbn [decision_db db_decisions db_requirements]. intros z [Hz|Hz]%elem_of_app.
    + destruct (ok_decision_requirement _ Hok z Hz) as (y & Hy & E).
      eexists. split; [apply elem_of_update_where; exists y; split; [done|reflexivity]|].
      by destruct (eqs (requirement_ID y) _).
    + apply list_elem_of_singleton in Hz as ->.
      eexists. split; [apply elem_of_update_where; exists q; split; [done|reflexivity]|].
      by destruct (eqs (requirement_ID q) _).
  - exact Hstatus.
Qed.

Lemma requirements_of_creation rid d p reqs audit row :
  requirements_of rid (creation_db d p reqs audit row)
  = (requirements_of rid d ++ List.filter (fun r => eqs (requirement_ApprovalRequestID r) rid) reqs)%list.
Proof. apply List.filter_app. Qed.


Lemma status_of_all_pending (reqs : list ApprovalRequirement) :
  (forall q, q ∈ reqs -> requirement_Status q = ApprovalRequirementStatusPending) ->
  status_of (map requirement_Status reqs)
  = match reqs with [] => ApprovalRequestStatusNotRequired | _ => ApprovalRequestStatusPending end.
Proof.
  intros H. destruct reqs as [|q reqs]; [done|].
  apply status_of_open with ApprovalRequirementStatusPending; [|done|].
  - rewrite <- (H q) by set_solver. simpl. set_solver.
  - rewrite list_elem_of_In, in_map_iff. intros (y & E & Hy%list_elem_of_In%H). by rewrite Hy in E.
Qed.

Lemma request_created_ok reportID actor d d' :
  approvals_ok d -> request_created reportID actor d d' -> approvals_ok d'.
Proof.
  intros Hok Hc. pose proof (request_created_rows _ _ _ _ (ok_rows _ Hok) Hc) as Hrows.
  destruct Hc as (p & reqs & audit & row & Hid & Hfresh & Hrep & Hrep' & Huniq & Hst & Hreq & Hrec
    & Hreqs & Hnd & _ & _ & _ & _ & ->).
  specialize (Hnd (ok_requirement_ids _ Hok)).
  assert (Hold : requirements_of (request_ID p) d = []).
  { apply filter_none. intros q Hq. apply eqs_false.
    destruct (ok_requirement_request _ Hok q Hq) as (y & Hy & <-). by apply Hfresh. }
  assert (Hnew : forall y, y ∈ db_requests d ->
    requirements_of (request_ID y) (creation_db d p reqs audit row) = requirements_of (request_ID y) d).
  { intros y Hy. rewrite requirements_of_creation, (filter_none _ reqs), app_nil_r; [done|].
    intros q Hq. apply eqs_false. destruct (Hreqs q Hq) as (_ & -> & _). intros E. by apply (Hfresh y). }
  assert (Hown : requirements_of (request_ID p) (creation_db d p reqs audit row) = reqs).
  { rewrite requirements_of_creation, Hold. apply filter_all. intros q Hq. apply eqs_true. by apply Hreqs. }
  split; [done|..]; cbn [creation_db db_requests db_requirements db_decisions].
  - rewrite map_app. apply NoDup_app. split_and!; [apply Hok| |apply NoDup_singleton].
    intros y Hy. apply list_elem_of_In, in_map_iff in Hy as (z & <- & Hz%list_elem_of_In).
    cbn [map]. rewrite list_elem_of_singleton. by apply Hfresh.
  - done.
  - apply Hok.
  - intros p1 p2 b [H1|H1]%elem_of_app [H2|H2]%elem_of_app Hb1 Hb2;
      rewrite ?list_elem_of_singleton in H1; rewrite ?list_elem_of_singleton in H2; subst; try done.
    + by apply (ok_reports _ Hok) with b.
    + destruct (Huniq p1 H1). congruence.
    + destruct (Huniq p2 H2). congruence.
  - intros q [Hq|Hq]%elem_of_app.
    + destruct (ok_requirement_request _ Hok q Hq) as (y & Hy & E). exists y. set_solver.
    + destruct (Hreqs q Hq) as (_ & -> & _). exists p. set_solver.
  - intros q [Hq|Hq]%elem_of_app; [by apply (ok_requirement_status _ Hok)|]. left.
    split; [by apply Hreqs|]. intros x Hx E.
    destruct (ok_decision_requirement _ Hok x Hx) as (y & Hy & Ey).
    rewrite map_app in Hnd. apply NoDup_app in Hnd as (_ & Hdis & _).
    apply (Hdis (requirement_ID y)); [|rewrite Ey, E]; by apply list_elem_of_In, in_map, list_elem_of_In.
  - intros x Hx. destruct (ok_decision_requirement _ Hok x Hx) as (y & Hy & E). exists y. set_solver.
  - intros y [Hy|Hy]%elem_of_app.
    + unfold statuses_of. rewrite Hnew by done. by apply (ok_status _ Hok).
    + apply list_elem_of_singleton in Hy as ->. unfold statuses_of. rewrite Hown.
      rewrite status_of_all_pending by (intros; by apply Hreqs). rewrite Hst, Hreq, Hrec.
      split_and!; [done..|]. rewrite filter_none; [done|]. intros q Hq. unfold is_approved.
      by destruct (Hreqs q Hq) as (_ & _ & -> & _).
Qed.
End Preservation.

(** ** The two phases of a decision

    [recordDecision] reads the request outside the transaction that stores the
    decision: other decisions may be stored between the two. *)

Section Phases.
Context `{PG : !Postgres} `{ENV : !Env} `{AUD : !AuditSink World}.
Variable config : PolicyConfig.

Definition decision_reads (input : ApprovalDecisionInput)
    : M World (ApprovalRequest * ApprovalRequirement * string) :=
  let requirementID := NewApprovalRequirementID (input_RequirementID input) in
  if (requirementID =? "")%string then fail governance.ErrInvalidRequirementID else
  let! actor := lift (effectiveActorSubject (input_Actor input)) in
  if MaxApprovalDecisionCommentLength <? len (input_Comment input)
  then fail governance.ErrApprovalDecisionCommentTooLong else
  let! (request, requirement) := getRequestByRequirement requirementID in
  let expectedRequestID := NewApprovalRequestID (input_RequestID input) in
  if negb (expectedRequestID =? "")%string && negb (eqs (request_ID request) expectedRequestID)
  then fail governance.ErrApprovalRequestNotFound else
  if hasDecisionForRequirement (request_Decisions request) (requirement_ID requirement)
  then fail governance.ErrApprovalRequirementConflict else
  if negb (eqs (request_Status request) ApprovalRequestStatusPending)
  then fail governance.ErrApprovalRequestConflict else
  if negb (eqs (requirement_Status requirement) ApprovalRequirementStatusPending)
  then fail governance.ErrApprovalRequirementConflict else
  let! can := actorCanDecide config requirement actor in
  if negb can then fail governance.ErrApprovalActorForbidden else
  ret (request, requirement, actor).

Definition decision_writes (input : ApprovalDecisionInput) (v : ApprovalDecisionValue)
    (read : ApprovalRequest * ApprovalRequirement * string) : M World ApprovalRequest :=
  let '(request, requirement, actor) := read in
  let! t := now in
  let! decisionID := NewApprovalDecisionID_ in
  let decision := mkApprovalDecision decisionID (request_ID request) (requirement_ID requirement)
    v actor (input_Comment input) t in
  let! _ := map_err mapDecisionValidationError (lift (ApprovalDecision_Validate decision)) in
  let status := if eqs v ApprovalDecisionValueRejected then ApprovalRequestStatusRejected
    else if allRequirementsApprovedAfter (request_Requirements request) (requirement_ID requirement)
    then ApprovalRequestStatusApproved else ApprovalRequestStatusPending in
  let! _ := storeDecision request decision (decided_status v) status
    (llen (request_Requirements request))
    (receivedApprovalsAfter (request_Requirements request) (requirement_ID requirement) (decided_status v))
    (negb (eqs (request_Status request) status)) actor t in
  GetRequestByID (request_ID request).

Lemma recordDecision_phases input v w :
  recordDecision config input v w = (let! x := decision_reads input in decision_writes input v x) w.
Proof.
  unfold recordDecision, decision_reads.
  destruct (_ =? _)%string; [done|]. rewrite bind_assoc. apply bind_ext. intros actor w1.
  destruct (_ <? _); [done|]. rewrite bind_assoc. apply bind_ext. intros [request requirement] w2.
  destruct (_ && _); [done|]. destruct (hasDecisionForRequirement _ _); [done|].
  destruct (negb _); [done|]. destruct (negb _); [done|].
  rewrite bind_assoc. apply bind_ext. intros can w3. by destruct can.
Qed.
End Phases.

(** ** The workflow as a transition system *)

(** What the rest of the program may do to the tables of the workflow between
    two operations: nothing; it keeps the roles of the owners valid. *)
Definition untouched (w w' : World) : Prop :=
  w_tx w' = false
  /\ db_requests (w_db w') = db_requests (w_db w)
  /\ db_requirements (w_db w') = db_requirements (w_db w)
  /\ db_decisions (w_db w') = db_decisions (w_db w)
  /\ forall o, o ∈ db_owners (w_db w') -> ModuleOwnerRole_IsValid (owner_Role o) = true.

Section Workflow.
Context `{PG : !Postgres} `{ENV : !Env} `{POL : !PolicyEvaluator} `{POLL : !PolicyEvaluatorLaws}.
Context `{AUD : !AuditSink World} `{LAW : !AuditSinkLaws}.
Context `{PRO : !ApprovalProviders World} `{PROL : !ApprovalProvidersLaws}.
Variable config : PolicyConfig.

Inductive workflow_step : relation World :=
| step_create input w r w' :
    CreateApprovalRequestForBreakingReport config input w = (r, w') -> workflow_step w w'
| step_approve input w r w' : ApproveRequirement config input w = (r, w') -> workflow_step w w'
| step_reject input w r w' : RejectRequirement config input w = (r, w') -> workflow_step w w'
| step_other w w' : untouched w w' -> workflow_step w w'.

Lemma create_step input w :
  workflow_step w (CreateApprovalRequestForBreakingReport config input w).2.
Proof. eapply step_create, surjective_pairing. Qed.
Lemma approve_step input w : workflow_step w (ApproveRequirement config input w).2.
Proof. eapply step_approve, surjective_pairing. Qed.
Lemma reject_step input w : workflow_step w (RejectRequirement config input w).2.
Proof. eapply step_reject, surjective_pairing. Qed.

Definition idle_ok (w : World) : Prop := w_tx w = false /\ approvals_ok (w_db w).

(** A change of the tables of the workflow. *)
Inductive approvals_change : relation Database :=
| change_none d : approvals_change d d
| change_created reportID actor d d' : request_created reportID actor d d' -> approvals_change d d'
| change_decided input v d d' : decision_made config input v d d' -> approvals_change d d'
| change_other d d' : db_requests d' = db_requests d -> db_requirements d' = db_requirements d ->
    db_decisions d' = db_decisions d ->
    (forall o, o ∈ db_owners d' -> ModuleOwnerRole_IsValid (owner_Role o) = true) ->
    approvals_change d d'.

Lemma step_change w w' :
  idle_ok w -> workflow_step w w' -> w_tx w' = false /\ approvals_change (w_db w) (w_db w').
Proof.
  intros [Htx Hok] H. pose proof (ok_rows _ Hok) as Hrows.
  destruct H as [input w r w' H|input w r w' H|input w r w' H|w w' (H1 & H2 & H3 & H4 & H5)].
  - apply CreateApprovalRequest_outcome in H as (Htx' & [->|Hc] & _); [..|done|done];
      (split; [done|]); [apply change_none|by eapply change_created].
  - apply recordDecision_made in H as (Htx' & [[_ ->]|Hd]); [..|done|done];
      (split; [done|]); [apply change_none|by eapply change_decided].
  - apply recordDecision_made in H as (Htx' & [[_ ->]|Hd]); [..|done|done];
      (split; [done|]); [apply change_none|by eapply change_decided].
  - split; [done|]. by apply change_other.
Qed.

Lemma approvals_ok_other d d' :
  db_requests d' = db_requests d -> db_requirements d' = db_requirements d ->
  db_decisions d' = db_decisions d ->
  (forall o, o ∈ db_owners d' -> ModuleOwnerRole_IsValid (owner_Role o) = true) ->
  approvals_ok d -> approvals_ok d'.
Proof.
  intros E1 E2 E3 Ho [H1 H2 H3 H4 H5 H6 H7 H8 H9].
  assert (Er : forall rid, requirements_of rid d' = requirements_of rid d)
    by (intros; unfold requirements_of; by rewrite E2).
  split; unfold statuses_of; rewrite ?E1, ?E2, ?E3; try setoid_rewrite Er; try done.
  destruct H1 as [R1 R2 R3 R4]. split; rewrite ?E1, ?E2, ?E3; done.
Qed.

Lemma change_ok d d' : approvals_ok d -> approvals_change d d' -> approvals_ok d'.
Proof.
  intros Hok H. destruct H as [d|? ? d d' H|? ? d d' H|d d' E1 E2 E3 Ho].
  - done.
  - by eapply request_created_ok.
  - by eapply decision_made_ok.
  - by eapply approvals_ok_other.
Qed.

Lemma step_ok w w' : idle_ok w -> workflow_step w w' -> idle_ok w'.
Proof. intros Hw [Htx H]%step_change; [|done]. split; [done|]. eapply change_ok, H. apply Hw. Qed.

Lemma workflow_ok w w' : idle_ok w -> rtc workflow_step w w' -> idle_ok w'.
Proof. intros Hw. induction 1; eauto using step_ok. Qed.

(** Decisions and closed requests stay. *)
Definition history_kept (d d' : Database) : Prop :=
  (exists xs, db_decisions d' = db_decisions d ++ xs)%list
  /\ forall p, p ∈ db_requests d -> request_Status p <> ApprovalRequestStatusPending ->
       p ∈ db_requests d' /\ statuses_of (request_ID p) d' = statuses_of (request_ID p) d.

Lemma change_history d d' : approvals_ok d -> approvals_change d d' -> history_kept d d'.
Proof.
  intros Hok H. destruct H as [d|? ? d d' H|? ? d d' H|d d' E1 E2 E3 _].
  - split; [exists []; by rewrite app_nil_r|done].
  - destruct H as (p & reqs & ? & ? & _ & Hfresh & _ & _ & _ & _ & _ & _ & Hreqs & _ & _ & _ & _ & _ & ->).
    split; [exists []; by rewrite app_nil_r|]. intros y Hy _. split; [cbn; set_solver|].
    unfold statuses_of. rewrite requirements_of_creation, (filter_none _ reqs), app_nil_r; [done|].
    intros q Hq. apply eqs_false. destruct (Hreqs q Hq) as (_ & -> & _). intros E. by apply (Hfresh y).
  - destruct H as (p & q & ? & id & t & st & ? & ? & Hp & Hq & Hqp & _ & _ & Hps & _ & _
      & _ & _ & _ & _ & _ & _ & _ & _ & _ & ->).
    split; [eexists; reflexivity|]. intros y Hy Hys.
    assert (Hne : request_ID y <> request_ID p).
    { intros E. assert (y = p) as -> by (eapply NoDup_map_inj; eauto; apply Hok). done. }
    split.
    + cbn [decision_db db_requests]. apply elem_of_update_where. exists y. split; [done|].
      cbn. by rewrite (proj2 (eqs_false _ _) Hne).
    + unfold statuses_of. erewrite requirements_of_other; [done|apply Hok|exact Hq|done|congruence].
  - split; [exists []; by rewrite app_nil_r|]. intros p Hp _. rewrite E1. split; [done|].
    unfold statuses_of, requirements_of. by rewrite E2.
Qed.

Lemma history_trans d1 d2 d3 :
  history_kept d1 d2 -> history_kept d2 d3 -> history_kept d1 d3.
Proof.
  intros [[xs E1] H1] [[ys E2] H2]. split.
  - exists (xs ++ ys)%list. by rewrite E2, E1, app_assoc.
  - intros p Hp Hs. destruct (H1 p Hp Hs) as [Hp2 S1]. destruct (H2 p Hp2 Hs) as [Hp3 S2].
    split; [done|congruence].
Qed.

Lemma workflow_history w w' : idle_ok w -> rtc workflow_step w w' -> history_kept (w_db w) (w_db w').
Proof.
  intros Hw H. induction H as [w|w w1 w2 H1 _ IH].
  - split; [exists []; by rewrite app_nil_r|done].
  - apply history_trans with (w_db w1); [|by apply IH, (step_ok w)].
    destruct (step_change _ _ Hw H1) as [_ Hc]. apply change_history; [apply Hw|done].
Qed.

(** ** The theorems *)

(** C2: the status of every request is the one its requirements and their
    decisions give it, after any sequence of creations, approvals, rejections
    and operations of other parts of the program: in particular an approved
    request has an approving decision on each of its requirements, and a pending
    one has a requirement that can still be decided. *)
Theorem workflow_invariant (w w' : World) (Hw : idle_ok w) (Hrun : rtc workflow_step w w') :
  idle_ok w'
  /\ forall p, p ∈ db_requests (w_db w') ->
       (request_Status p = ApprovalRequestStatusApproved ->
        forall q, q ∈ requirements_of (request_ID p) (w_db w') ->
          exists x, x ∈ db_decisions (w_db w') /\ decision_RequirementID x = requirement_ID q
            /\ decision_Decision x <> ApprovalDecisionValueRejected)
       /\ (request_Status p = ApprovalRequestStatusPending ->
           exists q, q ∈ requirements_of (request_ID p) (w_db w')
             /\ requirement_Status q = ApprovalRequirementStatusPending
             /\ forall x, x ∈ db_decisions (w_db w') -> decision_RequirementID x <> requirement_ID q).
Proof.
  pose proof (workflow_ok w w' Hw Hrun) as [Htx Hok]. split; [by split|].
  intros p Hp. destruct (ok_status _ Hok p Hp) as [-> _]. unfold statuses_of. split.
  - intros Hst q Hq. pose proof Hq as [Hqin _]%elem_of_requirements_of.
    assert (Hqs : requirement_Status q = ApprovalRequirementStatusApproved).
    { eapply status_of_approved_inv; [exact Hst|]. by apply list_elem_of_In, in_map, list_elem_of_In. }
    destruct (ok_requirement_status _ Hok q Hqin) as [[E _]|(x & Hx & Hxq & _ & E)]; [by rewrite E in Hqs|].
    exists x. split_and!; [done..|]. intros Ev. by rewrite E, Ev in Hqs.
  - intros (s & Hs & H1 & H2)%status_of_pending_inv. rewrite list_elem_of_In, in_map_iff in Hs.
    destruct Hs as (q & <- & Hq%list_elem_of_In). pose proof Hq as [Hqin _]%elem_of_requirements_of.
    exists q. destruct (ok_requirement_status _ Hok q Hqin) as [[E Hno]|(x & _ & _ & _ & E)]; [done|].
    rewrite E in H1, H2. by destruct (decided_status_cases (decision_Decision x)) as [?|?].
Qed.

(** C12: what is decided stays decided: over any sequence of operations no
    decision is removed or altered, and a request that is no longer pending
    keeps its row and the statuses of its requirements. *)
Theorem workflow_decisions_final (w w' : World) (Hw : idle_ok w) (Hrun : rtc workflow_step w w') :
  history_kept (w_db w) (w_db w').
Proof. exact (workflow_history w w' Hw Hrun). Qed.

(** C4: creating the request of a report leaves the database as it was or adds
    one request with its requirements, its audit event and its outbox event; a
    report never gets a second one; and a call that succeeds, the first or a
    repeated one, returns the identifier of the one request of the report. *)
Theorem CreateApprovalRequest_correct (input : CreateApprovalRequestForBreakingReportInput)
    (w w' : World) (r : result ApprovalRequest) (Hw : idle_ok w)
    (H : CreateApprovalRequestForBreakingReport config input w = (r, w')) :
  let reportID := NewBreakingReportID (create_BreakingReportID input) in
  w_tx w' = false
  /\ (w_db w' = w_db w
      \/ request_created reportID (TrimSpace (create_Actor input)) (w_db w) (w_db w'))
  /\ ((exists p, p ∈ db_requests (w_db w) /\ request_BreakingReportID p = uuid_canon reportID) ->
      w_db w' = w_db w)
  /\ forall request, r = Ok request -> exists p, p ∈ db_requests (w_db w')
       /\ uuid_canon (request_ID request) = Some (request_ID p)
       /\ request_BreakingReportID p = uuid_canon reportID.
Proof.
  destruct Hw as [Htx Hok]. intros reportID.
  destruct (CreateApprovalRequest_outcome config input w r w' Htx (ok_rows _ Hok) H) as (H1 & H2 & H3).
  split_and!; [done..| |done]. intros (p & Hp & Hrep). destruct H2 as [?|H2]; [done|].
  destruct H2 as (p' & ? & ? & ? & _ & _ & Hrep' & _ & Hno & _). destruct (Hno p Hp). by rewrite Hrep, Hrep'.
Qed.
End Workflow.

(** ** Two decisions at the same time *)

Section Race.
Context `{PG : !Postgres} `{ENV : !Env} `{AUD : !AuditSink World} `{LAW : !AuditSinkLaws}.

(** What a decision has read: a pending request and one of its pending requirements. *)
Lemma decision_reads_Ok config input w request requirement actor w' :
  rows_ok (w_db w) -> decision_reads config input w = (Ok (request, requirement, actor), w') ->
  same_db w w'
  /\ exists p q, p ∈ db_requests (w_db w) /\ q ∈ db_requirements (w_db w)
       /\ requirement_ApprovalRequestID q = request_ID p /\ requirement_ID requirement = requirement_ID q
       /\ request_Status p = ApprovalRequestStatusPending /\ requirement_Status q = ApprovalRequirementStatusPending
       /\ shows request p (w_db w).
Proof.
  intros Hok H. split.
  { refine (preserves_run same_db (decision_reads config input) _ _ _ _ H). unfold decision_reads. preserve. }
  unfold decision_reads in H. destruct (_ =? _)%string; [done|].
  apply bind_Ok in H as (a & w1 & Ha & H). apply lift_Ok in Ha as [_ ->]. destruct (_ <? _); [done|].
  apply bind_Ok in H as ([r x] & w2 & Hr & H). destruct (_ && _); [done|].
  destruct (hasDecisionForRequirement _ _); [done|]. destruct (negb _) eqn:E1; [done|]. destruct (negb (eqs (requirement_Status _) _)) eqn:E2; [done|].
  apply bind_Ok in H as (can & w3 & _ & H). destruct can; [|done]. injection H as -> -> _ _.
  apply getRequestByRequirement_Ok in Hr as (p & q & Hp & Hq & Hqp & _ & Hsh & Hcore); [|done].
  injection Hcore as C1 _ _ C4. apply negb_false_iff, eqs_true in E1, E2. exists p, q.
  split_and!; try done; [|congruence]. destruct Hsh as (_ & E & _). congruence.
Qed.

(** What a decision that was stored has written. *)
Lemma decision_writes_Ok input v request requirement actor w r w' :
  w_tx w = false -> canonical (request_ID request) -> canonical (requirement_ID requirement) ->
  decision_writes input v (request, requirement, actor) w = (Ok r, w') ->
  w_tx w' = false
  /\ exists x required received t audits row,
       decision_ApprovalRequestID x = request_ID request /\ decision_RequirementID x = requirement_ID requirement
       /\ w_db w' = decision_db (w_db w) x (decided_status v)
           (if eqs v ApprovalDecisionValueRejected then ApprovalRequestStatusRejected
            else if allRequirementsApprovedAfter (request_Requirements request) (requirement_ID requirement)
            then ApprovalRequestStatusApproved else ApprovalRequestStatusPending) required received t audits row.
Proof.
  intros Htx C1 C2 H. unfold decision_writes in H.
  apply bind_Ok in H as (t & w1 & Ht & H). pose proof (preserves_run same_db _ _ _ _ same_db_now Ht) as [E1 T1].
  apply bind_Ok in H as (id & w2 & Hid & H).
  assert (N : preserves same_db NewApprovalDecisionID_) by (unfold NewApprovalDecisionID_; preserve).
  pose proof (preserves_run same_db _ _ _ _ N Hid) as [E2 T2].
  apply bind_Ok in H as (u & w3 & Hu & H). apply map_err_Ok, lift_Ok in Hu as [_ ->].
  apply bind_Ok in H as (u1 & w4 & Hs & H). apply storeDecision_Ok in Hs as [T4 Hs]; [|congruence|done..].
  pose proof (preserves_run same_db _ _ _ _ (same_db_GetRequestByID _) H) as [E5 T5]. split; [congruence|].
  destruct Hs as [[[e [=]] _]|(i & audits & row & _ & _ & _ & _ & _ & _ & E4)].
  rewrite E5, E4, E2, E1. eexists _, _, _, _, _, _. by split_and!; [| |reflexivity].
Qed.

(** Nothing can be decided any more in a request without pending requirements. *)
Lemma nothing_to_decide config input v w r w' rid :
  w_tx w = false -> rows_ok (w_db w) -> recordDecision config input v w = (r, w') ->
  NoDup (map requirement_ID (db_requirements (w_db w))) ->
  (forall q, q ∈ requirements_of rid (w_db w) -> requirement_Status q <> ApprovalRequirementStatusPending) ->
  (exists q, q ∈ requirements_of rid (w_db w) /\ requirement_ID q = TrimSpace (input_RequirementID input)) ->
  (exists e, r = Err e) /\ w_db w' = w_db w.
Proof.
  intros Htx Hok H Hnd Hnone (q & Hq & Hid). apply recordDecision_made in H as [_ [H|H]]; [done| |done..].
  destruct H as (p & q' & ? & ? & ? & ? & ? & ? & _ & Hq' & _ & Hid' & _ & _ & Hpend & _).
  exfalso. apply (Hnone q Hq). apply elem_of_requirements_of in Hq as [Hq _].
  by assert (q' = q) as <- by (eapply NoDup_map_inj; [exact Hnd|done|done|congruence]).
Qed.

(** C15: the request is read before the transaction that stores a decision, and
    the transaction does not check it again.  When two decisions on the last two
    pending requirements of a request are both read before either is stored, the
    second an approval, and both calls succeed, the request is pending with no
    requirement pending, even when the first decision rejected it, and every later
    decision on it is refused: it stays pending for ever. *)
Theorem concurrent_decisions_lose_status config i1 i2 v1 v2 x1 x2 r1 r2 (w w1 w2 w3 w4 : World)
    (Hw : idle_ok w)
    (Hread1 : decision_reads config i1 w = (Ok x1, w1)) (Hread2 : decision_reads config i2 w1 = (Ok x2, w2))
    (Hwrite1 : decision_writes i1 v1 x1 w2 = (Ok r1, w3)) (Hwrite2 : decision_writes i2 v2 x2 w3 = (Ok r2, w4))
    (Happroved : v2 <> ApprovalDecisionValueRejected)
    (Hsame : request_ID x2.1.1 = request_ID x1.1.1) (Hother : requirement_ID x2.1.2 <> requirement_ID x1.1.2)
    (Hlast : forall q, q ∈ requirements_of (request_ID x1.1.1) (w_db w) -> requirement_Status q = ApprovalRequirementStatusPending ->
      requirement_ID q = requirement_ID x1.1.2 \/ requirement_ID q = requirement_ID x2.1.2) :
  (exists p, p ∈ db_requests (w_db w4) /\ request_ID p = request_ID x1.1.1
     /\ request_Status p = ApprovalRequestStatusPending)
  /\ (forall q, q ∈ requirements_of (request_ID x1.1.1) (w_db w4) -> requirement_Status q <> ApprovalRequirementStatusPending)
  /\ forall input v r w5, recordDecision config input v w4 = (r, w5) ->
       (exists q, q ∈ requirements_of (request_ID x1.1.1) (w_db w4) /\ requirement_ID q = TrimSpace (input_RequirementID input)) ->
       (exists e, r = Err e) /\ w_db w5 = w_db w4.
Proof.
  destruct x1 as [[a1 b1] c1], x2 as [[a2 b2] c2]. cbn [fst snd] in *. destruct Hw as [Htx Hok].
  pose proof (ok_rows _ Hok) as Hrows.
  apply decision_reads_Ok in Hread1 as [[E1 T1] (p & q1 & Hp & Hq1 & Hqp1 & Hid1 & Hps & Hqs1 & Hsh1)]; [|done].
  rewrite <- E1 in Hrows, Hok.
  apply decision_reads_Ok in Hread2 as [[E2 T2] (p2 & q2 & Hp2 & Hq2 & Hqp2 & Hid2 & _ & Hqs2 & Hsh2)]; [|done].
  assert (Ep : request_ID p2 = request_ID p) by (destruct Hsh1 as [S1 _], Hsh2 as [S2 _]; congruence).
  assert (p2 = p) as -> by (rewrite <- E1 in Hp; eapply NoDup_map_inj; [apply (ok_request_ids _ Hok)|done..]). clear Ep.
  assert (Hrows1 := rows_requirements _ Hrows). rewrite E1 in Hq2, Hok, Hrows, Hrows1.
  destruct (Hrows1 q1 Hq1) as (C1 & D1 & _), (Hrows1 q2 Hq2) as (C2 & D2 & _).
  destruct Hsh1 as (S1 & _), Hsh2 as (S2 & _ & S3 & _).
  apply decision_writes_Ok in Hwrite1 as [T3 (x & rq & rc & t & au & row & Xr & Xq & E3)]; [|congruence|congruence|congruence].
  apply decision_writes_Ok in Hwrite2 as [T4 (y & rq' & rc' & t' & au' & row' & Yr & Yq & E4)]; [|congruence|congruence|congruence].
  assert (Hopen : allRequirementsApprovedAfter (request_Requirements a2) (requirement_ID b2) = false).
  { rewrite (allRequirementsApprovedAfter_core _ _ _ S3). apply allRequirementsApprovedAfter_false.
    exists q1. rewrite elem_of_requirements_of, E1, Hqs1. split; [by rewrite Hqp1|]. split; [congruence|]. by intros [?|?]. }
  rewrite Hopen in E4. apply eqs_false in Happroved as Hv2. rewrite Hv2 in E4.
  assert (Hnone : forall q, q ∈ requirements_of (request_ID a1) (w_db w4) -> requirement_Status q <> ApprovalRequirementStatusPending).
  { intros q [Hq Hr]%elem_of_requirements_of. rewrite E4 in Hq. cbn [decision_db db_requirements] in Hq.
    apply elem_of_update_where in Hq as (z & Hz & ->). rewrite Yq in *. destruct (eqs (requirement_ID z) _) eqn:Ez.
    { cbn. destruct (decided_status_cases v2) as [->| ->]; done. }
    apply eqs_false in Ez. rewrite E3 in Hz. cbn [decision_db db_requirements] in Hz.
    apply elem_of_update_where in Hz as (z' & Hz' & ->). rewrite Xq in *. destruct (eqs (requirement_ID z') _) eqn:Ez'.
    { cbn. destruct (decided_status_cases v1) as [->| ->]; done. }
    apply eqs_false in Ez'. intros Hpend. rewrite E2, E1 in Hz'.
    destruct (Hlast z') as [?|?]; [by apply elem_of_requirements_of|done..]. }
  assert (Hrows4 : rows_ok (w_db w4)).
  { rewrite E4, E3, E2, E1. apply rows_ok_decision; [apply rows_ok_decision; [done|congruence..| |]|congruence..|done|].
    - by repeat case_match.
    - by destruct (decided_status_cases v1) as [->| ->].
    - by destruct (decided_status_cases v2) as [->| ->]. }
  split_and!.
  - exists (set_request_status ApprovalRequestStatusPending rq' rc' t'
              (set_request_status (if eqs v1 ApprovalDecisionValueRejected then ApprovalRequestStatusRejected
                 else if allRequirementsApprovedAfter (request_Requirements a1) (requirement_ID b1)
                 then ApprovalRequestStatusApproved else ApprovalRequestStatusPending) rq rc t p)).
    split; [|by split; [rewrite S1|]]. rewrite E4. cbn [decision_db db_requests]. apply elem_of_update_where.
    eexists. split; [rewrite E3; cbn [decision_db db_requests]; apply elem_of_update_where; exists p; split; [by rewrite E2, E1|reflexivity]|].
    rewrite Xr, Yr, Hsame, S1, eqs_refl. cbn [set_request_status request_ID]. by rewrite eqs_refl.
  - done.
  - intros input v r w5 H Hq. refine (nothing_to_decide _ _ _ _ _ _ _ _ Hrows4 H _ Hnone Hq); [done|].
    rewrite E4. cbn [decision_db db_requirements]. rewrite map_update_where by done. rewrite E3. cbn [decision_db db_requirements].
    rewrite map_update_where by done. rewrite E2, E1. apply (ok_requirement_ids _ Hok).
Qed.
End Race.

(** ** Concrete runs *)

Section Examples.
#[local] Existing Instance example_postgres.
#[local] Existing Instance example_unicode.
#[local] Existing Instance DefaultPolicyEvaluator.
#[local] Instance flow_env : Env := example_env 1000.
#[local] Existing Instance CommunityAuditSink.

(** [users] is used in production by [orders]; both have an owner. *)
Definition flow_db : Database :=
  mkDatabase
    [mkModule "a" "users" "" "" 0 0; mkModule "b" "orders" "" "" 0 0]
    [mkModuleVersion "c" "a" "v1.0.0" "active" "" 0 None None "" ""]
    [mkBreakingReport "d" "a" "" "c" "" "main" BreakingReportStatusBreaking 1 "" "" 0] []
    [mkModuleOwner "e" "a" "" GovernanceSubjectTypeUser "ann" ModuleOwnerRoleOwner 0 0;
     mkModuleOwner "f" "b" "" GovernanceSubjectTypeTeam "ops" ModuleOwnerRoleMaintainer 0 0]
    [] [] [] [] [] (mkOutboxTable [] 0) empty_catalog.

#[local] Instance flow_providers : ApprovalProviders World := {|
  ListAffectedModules := Some (fun _ => ret [mkAffectedModule "orders" "v1" [] []]);
  ListRuntimeImpactByModuleVersion := Some (fun _ _ _ _ => ret [
    mkRuntimeImpact "billing" "prod" "orders" "v1" "" "" 0
      RuntimeImpactStatusPotentiallyAffectedByBreakingChange "" RuntimeDriftStatusUpToDate ""]) |}.

Definition flow_start : World := mkWorld flow_db false 0.
Definition flow_created : result ApprovalRequest * World :=
  CreateApprovalRequestForBreakingReport DefaultPolicyConfig (mkCreateInput "d" " bob " "") flow_start.
Definition the_requirement (n : nat) (w : World) : string :=
  match nth_error (db_requirements (w_db w)) n with Some q => requirement_ID q | None => "" end.
Definition ann (w : World) : ApprovalDecisionInput :=
  mkDecisionInput "" (the_requirement 0 w) "ann" "fine".
Definition ops (w : World) : ApprovalDecisionInput :=
  mkDecisionInput "" (the_requirement 1 w) "ops" "fine".
Definition approve_both (w : World) : result ApprovalRequest * World :=
  ApproveRequirement DefaultPolicyConfig (ops w) (ApproveRequirement DefaultPolicyConfig (ann w) w).2.
Definition reject_first (w : World) : result ApprovalRequest * World :=
  RejectRequirement DefaultPolicyConfig (ann w) w.

#[local] Instance flow_providers_laws : ApprovalProvidersLaws.
Proof. split; intros; simplify_eq/=; apply preserves_ret, _. Qed.

Lemma flow_ok : idle_ok flow_start.
Proof.
  split; [done|]. split; try (simpl; intros; by set_solver); try (constructor).
  all: try (simpl; intros; exfalso; by eapply not_elem_of_nil).
  intros o Ho. repeat (apply elem_of_cons in Ho as [->|Ho]; [done|]). by apply elem_of_nil in Ho.
Qed.

Lemma flow_created_ok : idle_ok flow_created.2.
Proof.
  exact (workflow_ok DefaultPolicyConfig flow_start _ flow_ok
           (rtc_once _ _ (create_step DefaultPolicyConfig _ _))).
Qed.

Lemma recordDecision_correct_witness :
  let w := flow_created.2 in
  exists r w', ApproveRequirement DefaultPolicyConfig (ann w) w = (Ok r, w')
    /\ decision_made DefaultPolicyConfig (ann w) ApprovalDecisionValueApproved (w_db w) (w_db w').
Proof.
  intros w. pose proof flow_created_ok as Hw. fold w in Hw.
  destruct (ApproveRequirement DefaultPolicyConfig (ann w) w) as [[r|e] w'] eqn:E;
    [|vm_compute in E; discriminate E].
  exists r, w'. split; [reflexivity|]. unfold ApproveRequirement in E. clearbody w.
  destruct (recordDecision_correct DefaultPolicyConfig (ann w) ApprovalDecisionValueApproved w w' (Ok r)
              (proj1 Hw) (ok_rows _ (proj2 Hw)) E) as [_ [[[e He] _]|H]]; [discriminate He|exact H].
Defined.

Lemma flow_run : rtc (workflow_step DefaultPolicyConfig) flow_start (approve_both flow_created.2).2.
Proof.
  exact (rtc_l _ _ _ _ (create_step DefaultPolicyConfig _ _)
    (rtc_l _ _ _ _ (approve_step DefaultPolicyConfig (ann flow_created.2) flow_created.2)
      (rtc_once _ _ (approve_step DefaultPolicyConfig (ops flow_created.2) _)))).
Qed.

Lemma workflow_invariant_witness :
  let w := (approve_both flow_created.2).2 in
  idle_ok w /\ map request_Status (db_requests (w_db w)) = [ApprovalRequestStatusApproved].
Proof.
  intros w. split; [|vm_compute; reflexivity].
  exact (proj1 (workflow_invariant DefaultPolicyConfig flow_start w flow_ok flow_run)).
Defined.

Lemma workflow_decisions_final_witness :
  let w := flow_created.2 in
  exists w', map request_Status (db_requests (w_db w')) = [ApprovalRequestStatusRejected]
    /\ history_kept (w_db w') (w_db (ApproveRequirement DefaultPolicyConfig (ops w) w').2).
Proof.
  intros w. exists (reject_first w).2. split; [vm_compute; reflexivity|].
  apply (workflow_decisions_final DefaultPolicyConfig).
  - exact (step_ok DefaultPolicyConfig _ _ flow_created_ok (reject_step DefaultPolicyConfig (ann w) w)).
  - exact (rtc_once _ _ (approve_step DefaultPolicyConfig (ops w) _)).
Defined.

Lemma CreateApprovalRequest_correct_witness :
  exists request, flow_created.1 = Ok request
    /\ exists p, p ∈ db_requests (w_db flow_created.2)
         /\ uuid_canon (request_ID request) = Some (request_ID p).
Proof.
  destruct flow_created as [[request|e] w'] eqn:E; [|vm_compute in E; discriminate E].
  exists request. split; [reflexivity|].
  destruct (CreateApprovalRequest_correct DefaultPolicyConfig (mkCreateInput "d" " bob " "")
              flow_start w' (Ok request) flow_ok E) as (_ & _ & _ & H).
  destruct (H request eq_refl) as (p & Hp & Hid & _). exists p. split; [exact Hp|exact Hid].
Defined.

(** *** Two decisions at the same time *)

(** Both calls read the request before either stores its decision. *)
Definition interleaved (w : World) (i1 i2 : ApprovalDecisionInput) (v1 v2 : ApprovalDecisionValue) :=
  match decision_reads DefaultPolicyConfig i1 w with
  | (Ok read1, w1) =>
      match decision_reads DefaultPolicyConfig i2 w1 with
      | (Ok read2, w2) =>
          let '(r1, w3) := decision_writes i1 v1 read1 w2 in
          let '(r2, w4) := decision_writes i2 v2 read2 w3 in
          (is_ok r1 && is_ok r2, w4)
      | (_, w2) => (false, w2)
      end
  | (_, w1) => (false, w1)
  end.

Definition request_statuses (w : World) :=
  map (fun p => (request_Status p, request_ReceivedApprovals p, statuses_of (request_ID p) (w_db w)))
    (db_requests (w_db w)).

(** Two owners of the last two requirements: both approve, or one rejects. *)
Example concurrent_decisions :
  let w := flow_created.2 in
  let both := interleaved w (ann w) (ops w) ApprovalDecisionValueApproved ApprovalDecisionValueApproved in
  let mixed := interleaved w (ann w) (ops w) ApprovalDecisionValueRejected ApprovalDecisionValueApproved in
  both.1 = true
  /\ request_statuses both.2 =
     [(ApprovalRequestStatusPending, 1,
       [ApprovalRequirementStatusApproved; ApprovalRequirementStatusApproved])]
  /\ mixed.1 = true
  /\ request_statuses mixed.2 =
     [(ApprovalRequestStatusPending, 1,
       [ApprovalRequirementStatusRejected; ApprovalRequirementStatusApproved])].
Proof. split_and!; vm_compute; reflexivity. Qed.

Lemma concurrent_decisions_lose_status_witness :
  exists rid w4, (exists p, p ∈ db_requests (w_db w4) /\ request_ID p = rid /\ request_Status p = ApprovalRequestStatusPending)
    /\ forall q, q ∈ requirements_of rid (w_db w4) -> requirement_Status q <> ApprovalRequirementStatusPending.
Proof.
  pose proof flow_created_ok as Hw. set (w := flow_created.2) in *.
  destruct (decision_reads DefaultPolicyConfig (ann w) w) as [[x1|e] w1] eqn:R1; [|vm_compute in R1; discriminate R1].
  destruct (decision_reads DefaultPolicyConfig (ops w) w1) as [[x2|e] w2] eqn:R2;
    [|vm_compute in R1; injection R1 as <- <-; vm_compute in R2; discriminate R2].
  destruct (decision_writes (ann w) ApprovalDecisionValueApproved x1 w2) as [[r1|e] w3] eqn:W1;
    [|vm_compute in R1; injection R1 as <- <-; vm_compute in R2; injection R2 as <- <-; vm_compute in W1; discriminate W1].
  destruct (decision_writes (ops w) ApprovalDecisionValueApproved x2 w3) as [[r2|e] w4] eqn:W2;
    [|vm_compute in R1; injection R1 as <- <-; vm_compute in R2; injection R2 as <- <-; vm_compute in W1; injection W1 as <- <-;
      vm_compute in W2; discriminate W2].
  assert (H : request_ID x2.1.1 = request_ID x1.1.1 /\ requirement_ID x2.1.2 <> requirement_ID x1.1.2
    /\ Forall (fun q => requirement_ID q = requirement_ID x1.1.2 \/ requirement_ID q = requirement_ID x2.1.2)
         (requirements_of (request_ID x1.1.1) (w_db w))).
  { vm_compute in R1. injection R1 as <- <-. vm_compute in R2. injection R2 as <- <-.
    split; [reflexivity|]. split; [discriminate|]. apply (bool_decide_unpack _). vm_compute. exact I. }
  destruct H as (H1 & H2 & H3). rewrite Forall_forall in H3.
  destruct (concurrent_decisions_lose_status DefaultPolicyConfig (ann w) (ops w) ApprovalDecisionValueApproved
    ApprovalDecisionValueApproved x1 x2 r1 r2 w w1 w2 w3 w4 Hw R1 R2 W1 W2 ltac:(discriminate) H1 H2 (fun q Hq _ => H3 q Hq)) as (Hp & Hn & _).
  exists (request_ID x1.1.1), w4. split; [exact Hp|exact Hn].
Defined.
End Examples.

(** *** Identifiers without dashes *)

Section Identifiers.
#[local] Existing Instance example_postgres.
#[local] Existing Instance example_unicode.
#[local] Existing Instance DefaultPolicyEvaluator.
#[local] Existing Instance CommunityAuditSink.
#[local] Existing Instance flow_providers.

(** [generators.go] makes 32 hexadecimal digits of 16 random bytes. *)
Definition hex32 (n : nat) : string :=
  nat_rect _ "" (fun _ s => String (ascii_of_nat (97 + n mod 6)) s) 31 +:+
  String (ascii_of_nat (48 + n mod 10)) "".
#[local] Instance hex_env : Env := {|
  env_fault := fun _ => None; env_applied := fun _ => true;
  env_now := fun n => Z.of_nat n + 1; env_rand := fun n => Ok (hex32 n) |}.

Definition first_requirement (r : result ApprovalRequest) : string :=
  match r with
  | Ok r => match request_Requirements r with q :: _ => requirement_ID q | [] => "" end
  | Err _ => ""
  end.
Definition hex_created : result ApprovalRequest * World :=
  CreateApprovalRequestForBreakingReport DefaultPolicyConfig (mkCreateInput "d" "bob" "") flow_start.
Definition hex_read : result ApprovalRequest * World :=
  GetApprovalStatusForBreakingReport (mkStatusInput "d") hex_created.2.

(** The identifiers a creation returns are not the ones the database
    returns: a decision on the requirement by the identifier the creation
    returned is refused as not found, by the one a later read returns it is
    accepted. *)
Theorem created_identifiers_not_accepted :
  is_ok hex_created.1 = true
  /\ len (first_requirement hex_created.1) = 32 /\ len (first_requirement hex_read.1) = 36
  /\ (ApproveRequirement DefaultPolicyConfig
        (mkDecisionInput "" (first_requirement hex_created.1) "ann" "") hex_created.2).1
     = Err (governance.ErrApprovalRequirementNotFound : error)
  /\ is_ok (ApproveRequirement DefaultPolicyConfig
        (mkDecisionInput "" (first_requirement hex_read.1) "ann" "") hex_created.2).1 = true.
Proof. split_and!; vm_compute; reflexivity. Qed.
End Identifiers.
