(* ===== verification/Owners.v ===== *)
(** * Module owners

    [usecase/governance/service.go] and its facade [facade.go]: who owns a
    module.  Owners are added and removed in a transaction with an audit event
    and an outbox event; the approval workflow reads them. *)

From S2P Require Import Prelude Errors GoStrings JsonScan Domain Json Effects Postgres Outbox Events World GovernanceStore UseCase AuditLog Identity Policy Approval ApprovalSafety ApprovalInvariant.

Open Scope string_scope.
Open Scope Z_scope.

Record AddModuleOwnerInput := mkAddModuleOwnerInput {
  add_ModuleName : string;
  add_SubjectType : string;
  add_Subject : string;
  add_Role : string;
  add_Actor : string }.

Record RemoveModuleOwnerInput := mkRemoveModuleOwnerInput {
  remove_ModuleName : string;
  remove_OwnerID : string;
  remove_Actor : string }.

Record ListModuleOwnersInput := mkListModuleOwnersInput { owners_ModuleName : string }.

Definition mapOwnerValidationError (err : error) : error :=
  if errors_Is err domain.ErrInvalidGovernanceSubjectType then governance.ErrInvalidSubjectType else
  if errors_Is err domain.ErrInvalidGovernanceSubject then governance.ErrInvalidSubject else
  if errors_Is err domain.ErrInvalidModuleOwnerRole then governance.ErrInvalidModuleOwnerRole else err.

Definition moduleOwnerAuditPayload (owner : ModuleOwner) : json :=
  JObject [("owner_id", JString (owner_ID owner)); ("subject_type", JString (owner_SubjectType owner));
           ("subject", JString (owner_Subject owner)); ("role", JString (owner_Role owner))].

Section Service.
Context `{PG : !Postgres} `{ENV : !Env} `{AUD : !AuditSink World}.

Definition NewModuleOwnerID_ : M World ModuleOwnerID :=
  let! value := random_hex in ret (NewModuleOwnerID value).

Definition appendOwnerAudit (eventType : GovernanceAuditEventType) (owner : ModuleOwner)
    (actor : string) (occurredAt : time) : M World unit :=
  let! auditID := NewGovernanceAuditEventID_ in
  let! payload := marshal (moduleOwnerAuditPayload owner) in
  Record_event (mkAuditEvent auditID eventType (TrimSpace actor) eventType OutcomeSuccess
    (mkAuditResource "module" (owner_ModuleID owner) (owner_ModuleName owner)) [] payload occurredAt).

(** The transaction of an addition and of a removal. *)
Definition storeOwner (owner : ModuleOwner) (actor : string) (t : time) : M World unit :=
  WithinTransaction (
    let! _ := map_err (fun e => if errors_Is e domain.ErrDuplicate
                                then governance.ErrModuleOwnerAlreadyExists
                                else mapOwnerValidationError e) (Owner_Add owner) in
    let! _ := appendOwnerAudit GovernanceAuditEventTypeModuleOwnerAdded owner actor t in
    write_outbox (NewModuleOwnerAdded (mkModuleOwnerChanged owner actor t))).

Definition dropOwner (owner : ModuleOwner) (actor : string) (t : time) : M World unit :=
  WithinTransaction (
    let! _ := map_err (not_found_as governance.ErrModuleOwnerNotFound) (Owner_Remove (owner_ID owner)) in
    let! _ := appendOwnerAudit GovernanceAuditEventTypeModuleOwnerRemoved owner actor t in
    write_outbox (NewModuleOwnerRemoved (mkModuleOwnerChanged owner actor t))).

Definition AddModuleOwner (input : AddModuleOwnerInput) : M World ModuleOwner :=
  let! moduleName := lift (or_err (NewModuleName (add_ModuleName input)) governance.ErrInvalidModuleName) in
  let! subjectType := lift (or_err (NewGovernanceSubjectType (add_SubjectType input)) governance.ErrInvalidSubjectType) in
  let subject := TrimSpace (add_Subject input) in
  if (subject =? "")%string then fail governance.ErrInvalidSubject else
  let! role := lift (or_err (NewModuleOwnerRole (add_Role input)) governance.ErrInvalidModuleOwnerRole) in
  let! actor := lift (effectiveActorSubject (add_Actor input)) in
  let! module := map_err (not_found_as governance.ErrModuleNotFound) (Module_GetByName moduleName) in
  let! t := now in
  let! ownerID := NewModuleOwnerID_ in
  let owner := mkModuleOwner ownerID (module_ID module) (module_Name module) subjectType subject role t t in
  let! _ := map_err mapOwnerValidationError (lift (ModuleOwner_Validate owner)) in
  let! _ := storeOwner owner actor t in
  ret owner.

Definition RemoveModuleOwner (input : RemoveModuleOwnerInput) : M World unit :=
  let! moduleName := lift (or_err (NewModuleName (remove_ModuleName input)) governance.ErrInvalidModuleName) in
  let ownerID := NewModuleOwnerID (remove_OwnerID input) in
  if (ownerID =? "")%string then fail governance.ErrInvalidModuleOwnerID else
  let! actor := lift (effectiveActorSubject (remove_Actor input)) in
  let! module := map_err (not_found_as governance.ErrModuleNotFound) (Module_GetByName moduleName) in
  let! owner := map_err (not_found_as governance.ErrModuleOwnerNotFound) (Owner_GetByID ownerID) in
  if negb (eqs (owner_ModuleID owner) (module_ID module)) then fail governance.ErrModuleOwnerNotFound else
  let! t := now in
  let owner := mkModuleOwner (owner_ID owner) (owner_ModuleID owner) (module_Name module)
    (owner_SubjectType owner) (owner_Subject owner) (owner_Role owner) (owner_CreatedAt owner) t in
  dropOwner owner actor t.

Definition ListModuleOwners (input : ListModuleOwnersInput) : M World (list ModuleOwner) :=
  let! moduleName := lift (or_err (NewModuleName (owners_ModuleName input)) governance.ErrInvalidModuleName) in
  let! module := map_err (not_found_as governance.ErrModuleNotFound) (Module_GetByName moduleName) in
  Owner_ListByModule (module_ID module).
End Service.

(** ** What the operations do *)

Definition owner_key (o : ModuleOwner) : ModuleID * GovernanceSubjectType * string * ModuleOwnerRole :=
  (owner_ModuleID o, owner_SubjectType o, owner_Subject o, owner_Role o).

(** The tables with other owners, one more audit event and one more outbox
    record. *)
Definition owners_db (d : Database) (owners : list ModuleOwner) (audit : GovernanceAuditEvent)
    (row : Record_) : Database :=
  mkDatabase (db_modules d) (db_versions d) (db_reports d) (db_changes d) owners (db_requests d)
    (db_requirements d) (db_decisions d) (db_audit d ++ [audit])%list (db_tokens d)
    (mkOutboxTable (ot_rows (db_outbox d) ++ [row])%list (S (ot_uuids (db_outbox d)))) (db_catalog d).

Record owners_ok `{PG : !Postgres} (d : Database) : Prop := mk_owners_ok {
  own_modules m : m ∈ db_modules d -> canonical (module_ID m);
  own_rows o : o ∈ db_owners d ->
    canonical (owner_ID o) /\ canonical (owner_ModuleID o)
    /\ GovernanceSubjectType_IsValid (owner_SubjectType o) = true
    /\ ModuleOwnerRole_IsValid (owner_Role o) = true
    /\ exists m, m ∈ db_modules d /\ module_ID m = owner_ModuleID o;
  own_ids : NoDup (map owner_ID (db_owners d));
  own_unique : NoDup (map owner_key (db_owners d)) }.

(** An addition: the owner of the module that has the name, not an owner yet. *)
Definition owner_added `{PG : !Postgres} (input : AddModuleOwnerInput) (d d' : Database) : Prop :=
  exists m o audit row,
    m ∈ db_modules d /\ NewModuleName (add_ModuleName input) = Ok (module_Name m)
    /\ owner_ModuleID o = module_ID m /\ canonical (owner_ID o)
    /\ GovernanceSubjectType_IsValid (owner_SubjectType o) = true
    /\ ModuleOwnerRole_IsValid (owner_Role o) = true
    /\ owner_SubjectType o = TrimSpace (add_SubjectType input)
    /\ owner_Subject o = TrimSpace (add_Subject input) /\ owner_Subject o <> ""
    /\ owner_Role o = TrimSpace (add_Role input)
    /\ (owner_key o ∉ map owner_key (db_owners d)) /\ (owner_ID o ∉ map owner_ID (db_owners d))
    /\ auditEvent_EventType audit = GovernanceAuditEventTypeModuleOwnerAdded
    /\ auditEvent_Actor audit = TrimSpace (add_Actor input) /\ TrimSpace (add_Actor input) <> ""
    /\ record_Status row = outboxStatusPending /\ record_EventType row = EventTypeModuleOwnerAdded
    /\ d' = owners_db d (db_owners d ++ [o])%list audit row.

(** A removal: the owner with the identifier, of the module that has the name. *)
Definition owner_removed `{PG : !Postgres} (input : RemoveModuleOwnerInput) (d d' : Database) : Prop :=
  exists m o audit row,
    m ∈ db_modules d /\ NewModuleName (remove_ModuleName input) = Ok (module_Name m)
    /\ o ∈ db_owners d /\ uuid_canon (TrimSpace (remove_OwnerID input)) = Some (owner_ID o)
    /\ owner_ModuleID o = module_ID m
    /\ auditEvent_EventType audit = GovernanceAuditEventTypeModuleOwnerRemoved
    /\ auditEvent_Actor audit = TrimSpace (remove_Actor input) /\ TrimSpace (remove_Actor input) <> ""
    /\ record_Status row = outboxStatusPending /\ record_EventType row = EventTypeModuleOwnerRemoved
    /\ d' = owners_db d (List.filter (fun x => negb (eqs (owner_ID x) (owner_ID o))) (db_owners d)) audit row.

Section Statements.
Context `{PG : !Postgres} `{ENV : !Env}.

Lemma Owner_GetByID_Ok id w o w' :
  (forall x, x ∈ db_owners (w_db w) -> canonical (owner_ID x) /\ canonical (owner_ModuleID x)) ->
  Owner_GetByID id w = (Ok o, w') ->
  exists row, row ∈ db_owners (w_db w) /\ uuid_canon id = Some (owner_ID row)
    /\ owner_ID o = owner_ID row /\ owner_ModuleID o = owner_ModuleID row.
Proof.
  intros Hok H. unfold Owner_GetByID in H. apply map_err_Ok, bind_Ok in H as (row & w1 & H & [Hs _]%lift_Ok).
  apply exec_db_Ok in H as [H _]. apply bind_Ok in H as (c & d & [Hc ->]%uuid_param_Ok & H).
  apply query_row_Ok in H as [Hrow _].
  assert (Hin : row ∈ owner_rows (fun o => eqs (owner_ID o) c) (w_db w))
    by (destruct (owner_rows _ _); set_solver).
  unfold owner_rows in Hin. apply list_elem_of_In, in_flat_map in Hin as (x & Hx & Hin).
  apply list_elem_of_In, elem_of_filter_bool in Hx as [Hx <-%eqs_true].
  apply in_map_iff in Hin as (m & <- & _). exists x.
  unfold scanModuleOwner in Hs. cbn [owner_ModuleName owner_SubjectType owner_Role] in Hs.
  destruct (NewModuleName _); [|done]. destruct (NewGovernanceSubjectType _); [|done].
  destruct (NewModuleOwnerRole _); [|done]. injection Hs as <-.
  destruct (Hok x Hx) as [H1 H2]. split_and!; [done..| |]; by apply canonical_trim.
Qed.

Lemma Owner_Add_Ok owner w u w' :
  Owner_Add owner w = (Ok u, w') ->
  exists id mid,
    uuid_canon (owner_ID owner) = Some id /\ uuid_canon (owner_ModuleID owner) = Some mid
    /\ (forall x, x ∈ db_owners (w_db w) -> owner_ID x <> id)
    /\ (forall x, x ∈ db_owners (w_db w) ->
          owner_key x <> (mid, owner_SubjectType owner, owner_Subject owner, owner_Role owner))
    /\ w_tx w' = w_tx w
    /\ w_db w' = set_owners (fun l => l ++ [mkModuleOwner id mid "" (owner_SubjectType owner)
         (owner_Subject owner) (owner_Role owner) (owner_CreatedAt owner) (owner_UpdatedAt owner)])%list (w_db w).
Proof.
  intros H. unfold Owner_Add in H. stmt_inv H.
  do 2 eexists. split_and!; eauto using existsb_eqs_false.
  intros x Hx E. injection E as E1 E2 E3 E4.
  match goal with H : existsb (fun o => _ && _) _ = false |- _ =>
    rewrite existsb_false in H; specialize (H x Hx) end.
  subst. rewrite E2, E3, E4, !eqs_refl in *. done.
Qed.

Lemma Owner_Remove_Ok id w u w' :
  Owner_Remove id w = (Ok u, w') ->
  exists c, uuid_canon id = Some c /\ w_tx w' = w_tx w
    /\ (exists x, x ∈ db_owners (w_db w) /\ owner_ID x = c)
    /\ w_db w' = set_owners (List.filter (fun o => negb (eqs (owner_ID o) c))) (w_db w).
Proof.
  intros H. unfold Owner_Remove, affected_or_not_found in H.
  apply bind_Ok in H as (n & w1 & H & [Hn ->]%guardM_Ok). stmt_inv H.
  eexists. split_and!; eauto.
  match type of Hn with (length (List.filter ?f ?l) =? 0)%nat = false =>
    destruct (List.filter f l) as [|x l'] eqn:E; [done|];
    assert (Hx : x ∈ List.filter f l) by (rewrite E; set_solver) end.
  apply elem_of_filter_bool in Hx as [Hx Hid%eqs_true]. eauto.
Qed.
End Statements.

Section Outcomes.
Context `{PG : !Postgres} `{ENV : !Env} `{AUD : !AuditSink World} `{LAW : !AuditSinkLaws}.

Lemma appendOwnerAudit_Ok type_ owner actor t w u w' :
  TrimSpace type_ = type_ -> appendOwnerAudit type_ owner actor t w = (Ok u, w') ->
  w_tx w' = w_tx w
  /\ exists row, auditEvent_EventType row = type_ /\ auditEvent_Actor row = TrimSpace actor
       /\ w_db w' = set_audit (fun l => l ++ [row])%list (w_db w).
Proof.
  intros Ht H. unfold appendOwnerAudit in H. apply bind_Ok in H as (id & w1 & Hid & H).
  pose proof (preserves_run same_db NewGovernanceAuditEventID_ w _ _ ltac:(unfold NewGovernanceAuditEventID_; preserve) Hid) as [E1 E2].
  apply marshal_then in H as (payload & H).
  apply Record_event_Ok in H as (Htx & row & H1 & H2 & H3). rewrite <- E1, <- E2.
  split; [done|]. exists row. cbn [event_Type event_Actor] in *. by rewrite H1, Ht.
Qed.

(** The end of both transactions: an audit event and an outbox event. *)
Lemma owner_events_Ok type_ otype owner actor t (record : result Record_) w u w' owners d :
  TrimSpace type_ = type_ ->
  (forall r, record = Ok r -> record_EventType r = otype) ->
  w_db w = set_owners (fun _ => owners) d ->
  (let! _ := appendOwnerAudit type_ owner actor t in write_outbox record) w = (Ok u, w') ->
  exists audit row, auditEvent_EventType audit = type_ /\ auditEvent_Actor audit = TrimSpace actor
    /\ record_Status row = outboxStatusPending /\ record_EventType row = otype
    /\ w_db w' = owners_db d owners audit row.
Proof.
  intros Ht Hr Hw H. apply bind_Ok in H as (u1 & w1 & H1 & H).
  apply appendOwnerAudit_Ok in H1 as (_ & audit & Ha1 & Ha2 & E1); [|done].
  apply write_outbox_Ok in H as (_ & r & row & Hrec & Hst & Hty & _ & E2).
  exists audit, row. rewrite E2, E1, Hw, Hty. split_and!; try done. by apply Hr.
Qed.

Lemma set_owners_const f d : set_owners f d = set_owners (fun _ => f (db_owners d)) d.
Proof. done. Qed.

Lemma storeOwner_outcome owner actor t w r w' :
  w_tx w = false -> storeOwner owner actor t w = (r, w') ->
  atomic_outcome (fun d d' => exists id mid audit row,
    uuid_canon (owner_ID owner) = Some id /\ uuid_canon (owner_ModuleID owner) = Some mid
    /\ (id ∉ map owner_ID (db_owners d))
    /\ ((mid, owner_SubjectType owner, owner_Subject owner, owner_Role owner) ∉ map owner_key (db_owners d))
    /\ auditEvent_EventType audit = GovernanceAuditEventTypeModuleOwnerAdded
    /\ auditEvent_Actor audit = TrimSpace actor
    /\ record_Status row = outboxStatusPending /\ record_EventType row = EventTypeModuleOwnerAdded
    /\ d' = owners_db d (db_owners d ++ [mkModuleOwner id mid "" (owner_SubjectType owner)
         (owner_Subject owner) (owner_Role owner) (owner_CreatedAt owner) (owner_UpdatedAt owner)])%list
         audit row) w r w'.
Proof.
  intros Htx H. unfold storeOwner in H.
  apply WithinTransaction_atomic in H as (Htx' & [H|(a & w2 & H & Hdb & _)]); [by split; [|left]| |done].
  split; [done|right]. rewrite Hdb. apply bind_Ok in H as (u & w3 & H%map_err_Ok%Owner_Add_Ok & H2).
  destruct H as (id & mid & Hid & Hmid & Hfresh & Huniq & _ & E). rewrite set_owners_const in E.
  eapply owner_events_Ok in H2 as (audit & row & H1 & H2 & H3 & H4 & Hd); [|done| |exact E].
  2: { intros r0 Hr. unfold NewModuleOwnerAdded in Hr. by eapply event_record_type. }
  exists id, mid, audit, row. split_and!; try done.
  - rewrite list_elem_of_In, in_map_iff. intros (x & Ex & Hx%list_elem_of_In). by apply (Hfresh x).
  - rewrite list_elem_of_In, in_map_iff. intros (x & Ex & Hx%list_elem_of_In). by apply (Huniq x).
Qed.

Lemma dropOwner_outcome owner actor t w r w' :
  w_tx w = false -> dropOwner owner actor t w = (r, w') ->
  atomic_outcome (fun d d' => exists id audit row,
    uuid_canon (owner_ID owner) = Some id
    /\ auditEvent_EventType audit = GovernanceAuditEventTypeModuleOwnerRemoved
    /\ auditEvent_Actor audit = TrimSpace actor
    /\ record_Status row = outboxStatusPending /\ record_EventType row = EventTypeModuleOwnerRemoved
    /\ d' = owners_db d (List.filter (fun x => negb (eqs (owner_ID x) id)) (db_owners d)) audit row)
    w r w'.
Proof.
  intros Htx H. unfold dropOwner in H.
  apply WithinTransaction_atomic in H as (Htx' & [H|(a & w2 & H & Hdb & _)]); [by split; [|left]| |done].
  split; [done|right]. rewrite Hdb. apply bind_Ok in H as (u & w3 & H%map_err_Ok%Owner_Remove_Ok & H2).
  destruct H as (id & Hid & _ & _ & E). rewrite set_owners_const in E.
  eapply owner_events_Ok in H2 as (audit & row & H1 & H2 & H3 & H4 & Hd); [|done| |exact E].
  2: { intros r0 Hr. unfold NewModuleOwnerRemoved in Hr. by eapply event_record_type. }
  exists id, audit, row. done.
Qed.

Lemma AddModuleOwner_outcome input w r w' :
  w_tx w = false -> (forall m, m ∈ db_modules (w_db w) -> canonical (module_ID m)) ->
  AddModuleOwner input w = (r, w') -> atomic_outcome (owner_added input) w r w'.
Proof.
  intros Htx Hmods H. unfold AddModuleOwner in H.
  reading H name w1 Hm Hs. carry Hs. apply lift_Ok in Hm as [Hname%or_err_Ok _].
  reading H st w2 Hm Hs. carry Hs. apply lift_Ok in Hm as [Hst%or_err_Ok%new_enum_Ok _].
  destruct (_ =? _)%string eqn:Esub in H; [refused|]. apply String.eqb_neq in Esub.
  reading H role w3 Hm Hs. carry Hs. apply lift_Ok in Hm as [Hrole%or_err_Ok%new_enum_Ok _].
  reading H actor w4 Hm Hs. carry Hs. apply lift_Ok in Hm as [Hactor _].
  apply effectiveActorSubject_Ok in Hactor as [-> Hactor].
  reading H m w5 Hm Hs. apply map_err_Ok, Module_GetByName_Ok in Hm as (row & Hin & Hrow & Hmid & Hmn).
  carry Hs. reading H t w6 Hm Hs. carry Hs. reading H newID w7 Hid Hs. carry Hs. clear Hm Hid.
  reading H u w8 Hm Hs. carry Hs. clear Hm.
  eapply atomic_then in H; [exact H| |intros; preserve].
  intros r1 w9 H1. apply storeOwner_outcome in H1; [|done]. eapply atomic_weaken; [exact H1|].
  rewrite canonical_trim in Hmid by by apply Hmods.
  cbn [owner_ID owner_ModuleID owner_SubjectType owner_Subject owner_Role].
  intros (oid & mid & audit & orow & Ho & Hm & N1 & N2 & A1 & A2 & R1 & R2 & Hd).
  rewrite Hmid in Hm. apply canonical_param in Hm as ->; [|by apply Hmods].
  rewrite TrimSpace_idem in A2. destruct Hst as [-> Hst], Hrole as [-> Hrole].
  exists row. eexists. exists audit, orow. split_and!; [done| | | | | | | | | | | | | | | | |exact Hd]; try done;
    [|by eapply canonical_of].
  by rewrite Hrow, Hname, (NewModuleName_fixed _ _ Hname) in *.
Qed.

Lemma RemoveModuleOwner_outcome input w r w' :
  w_tx w = false -> owners_ok (w_db w) ->
  RemoveModuleOwner input w = (r, w') -> atomic_outcome (owner_removed input) w r w'.
Proof.
  intros Htx Hok H. unfold RemoveModuleOwner in H.
  reading H name w1 Hm Hs. carry Hs. apply lift_Ok in Hm as [Hname%or_err_Ok _].
  destruct (_ =? _)%string in H; [refused|].
  reading H actor w2 Hm Hs. carry Hs. apply lift_Ok in Hm as [Hactor _].
  apply effectiveActorSubject_Ok in Hactor as [-> Hactor].
  reading H m w3 Hm Hs. apply map_err_Ok, Module_GetByName_Ok in Hm as (row & Hin & Hrow & Hmid & Hmn).
  carry Hs. rewrite canonical_trim in Hmid by by apply Hok.
  reading H o w4 Hm Hs. apply map_err_Ok, Owner_GetByID_Ok in Hm as (orow & Hoin & Hid & Eo1 & Eo2).
  2: { intros x Hx. by destruct (own_rows _ Hok x Hx) as (? & ? & _). }
  carry Hs. destruct (negb _) eqn:Emod in H; [refused|]. apply negb_false_iff, eqs_true in Emod.
  reading H t w5 Hm Hs. carry Hs. clear Hm.
  apply dropOwner_outcome in H; [|done]. eapply atomic_weaken; [exact H|].
  cbn [owner_ID]. intros (c & audit & row' & Hc & A1 & A2 & R1 & R2 & Hd).
  rewrite Eo1 in Hc. apply canonical_param in Hc as ->; [|by apply (own_rows _ Hok orow Hoin)].
  rewrite TrimSpace_idem in A2. exists row, orow, audit, row'.
  split_and!; try done; [by rewrite Hrow|congruence].
Qed.

Lemma owner_added_ok input d d' : owners_ok d -> owner_added input d d' -> owners_ok d'.
Proof.
  intros Hok (m & o & audit & row & Hm & _ & Hmid & Hid & Hst & Hrole & _ & _ & _ & _ & N1 & N2
    & _ & _ & _ & _ & _ & ->).
  split; cbn [owners_db db_modules db_owners] in *.
  - apply Hok.
  - intros x [Hx|Hx]%elem_of_app; [by apply Hok|]. apply list_elem_of_singleton in Hx as ->.
    rewrite Hmid. split_and!; [done|by apply Hok|done..|eauto].
  - rewrite map_app. apply NoDup_app. split_and!; [apply Hok| |apply NoDup_singleton].
    intros x Hx E%list_elem_of_singleton. by subst.
  - rewrite map_app. apply NoDup_app. split_and!; [apply Hok| |apply NoDup_singleton].
    intros x Hx E%list_elem_of_singleton. by subst.
Qed.

Lemma owner_removed_ok input d d' : owners_ok d -> owner_removed input d d' -> owners_ok d'.
Proof.
  intros Hok (m & o & audit & row & _ & _ & _ & _ & _ & _ & _ & _ & _ & _ & ->).
  split; cbn [owners_db db_modules db_owners]; [apply Hok| | |].
  - intros x [Hx _]%elem_of_filter_bool. by apply Hok.
  - apply NoDup_map_filter, Hok.
  - apply NoDup_map_filter, Hok.
Qed.
End Outcomes.

(** ** Governance as one transition system *)

(** Keep the last conjunct of a hypothesis. *)
Ltac last_conjunct H := repeat match type of H with _ /\ _ => destruct H as [_ H] end.

Section Governance.
Context `{PG : !Postgres} `{ENV : !Env} `{POL : !PolicyEvaluator} `{POLL : !PolicyEvaluatorLaws}.
Context `{AUD : !AuditSink World} `{LAW : !AuditSinkLaws}.
Context `{PRO : !ApprovalProviders World} `{PROL : !ApprovalProvidersLaws}.
Variable config : PolicyConfig.

Inductive governance_step : relation World :=
| gov_create input w r w' :
    CreateApprovalRequestForBreakingReport config input w = (r, w') -> governance_step w w'
| gov_approve input w r w' : ApproveRequirement config input w = (r, w') -> governance_step w w'
| gov_reject input w r w' : RejectRequirement config input w = (r, w') -> governance_step w w'
| gov_add_owner input w r w' : AddModuleOwner input w = (r, w') -> governance_step w w'
| gov_remove_owner input w r w' : RemoveModuleOwner input w = (r, w') -> governance_step w w'.

Definition governance_ok (w : World) : Prop := idle_ok w /\ owners_ok (w_db w).

Lemma owners_ok_same d d' :
  db_modules d' = db_modules d -> db_owners d' = db_owners d -> owners_ok d -> owners_ok d'.
Proof. intros E1 E2 [H1 H2 H3 H4]. split; rewrite ?E1, ?E2; done. Qed.

Lemma decision_made_owners input v d d' :
  decision_made config input v d d' -> db_modules d' = db_modules d /\ db_owners d' = db_owners d.
Proof.
  intros (p & q & m & oid & t & st & audits & row & H). last_conjunct H. by rewrite H.
Qed.

Lemma request_created_owners reportID actor d d' :
  request_created reportID actor d d' -> db_modules d' = db_modules d /\ db_owners d' = db_owners d.
Proof. intros (p & reqs & audit & row & H). last_conjunct H. by rewrite H. Qed.

(** A change of the owners leaves the tables of the workflow alone. *)
Lemma owners_db_untouched w w' owners audit row :
  idle_ok w -> w_tx w' = false -> w_db w' = owners_db (w_db w) owners audit row ->
  owners_ok (w_db w') -> untouched w w'.
Proof.
  intros _ Htx Hd Hok. split; [done|]. rewrite Hd at 1 2 3. split_and!; try done.
  intros o Ho. by apply (own_rows _ Hok).
Qed.

Lemma owner_step_ok P w {A} (r : result A) w' :
  (forall d d', owners_ok d -> P d d' -> owners_ok d') ->
  (forall d d', P d d' -> exists owners audit row, d' = owners_db d owners audit row) ->
  governance_ok w -> atomic_outcome P w r w' -> governance_ok w'.
Proof.
  intros HP Hform [Hi Ho] [Htx [[_ E]|HPd]].
  - split; [split; [done|by rewrite E; apply Hi]|by rewrite E].
  - pose proof (HP _ _ Ho HPd) as Ho'. split; [|done].
    destruct (Hform _ _ HPd) as (owners & audit & row & Hd).
    eapply (step_ok config); [exact Hi|]. by eapply step_other, owners_db_untouched.
Qed.

Lemma workflow_governance_ok w w' :
  governance_ok w -> workflow_step config w w' ->
  (db_modules (w_db w') = db_modules (w_db w) /\ db_owners (w_db w') = db_owners (w_db w)) ->
  governance_ok w'.
Proof.
  intros [Hi Ho] Hs [E1 E2]. split; [by eapply step_ok|]. by apply owners_ok_same with (w_db w).
Qed.

Lemma governance_step_ok w w' : governance_ok w -> governance_step w w' -> governance_ok w'.
Proof.
  intros Hw H. pose proof Hw as [[Htx Hok] Ho]. pose proof (ok_rows _ Hok) as Hrows.
  destruct H as [input w r w' H|input w r w' H|input w r w' H|input w r w' H|input w r w' H].
  - apply (workflow_governance_ok w); [done|by eapply step_create|].
    apply CreateApprovalRequest_outcome in H as (_ & [->|Hc] & _); [done| |done|done].
    by eapply request_created_owners.
  - apply (workflow_governance_ok w); [done|by eapply step_approve|].
    apply recordDecision_made in H as [_ [[_ ->]|Hd]]; [done| |done|done].
    by eapply decision_made_owners.
  - apply (workflow_governance_ok w); [done|by eapply step_reject|].
    apply recordDecision_made in H as [_ [[_ ->]|Hd]]; [done| |done|done].
    by eapply decision_made_owners.
  - eapply (owner_step_ok (owner_added input)); [apply owner_added_ok| |exact Hw|].
    + intros d d' (m & o & audit & row & H'). last_conjunct H'. eauto.
    + apply AddModuleOwner_outcome in H; [done..|apply Ho].
  - eapply (owner_step_ok (owner_removed input)); [apply owner_removed_ok| |exact Hw|].
    + intros d d' (m & o & audit & row & H'). last_conjunct H'. eauto.
    + by apply RemoveModuleOwner_outcome in H.
Qed.

(** ** The theorems *)

(** Adding an owner makes exactly one new owner, of the module with the
    given name, whose subject does not yet have the role, with its audit event
    and its outbox event, or fails and changes nothing. *)
Theorem AddModuleOwner_correct (input : AddModuleOwnerInput) (w w' : World) (r : result ModuleOwner)
    (Htx : w_tx w = false) (Hok : owners_ok (w_db w)) (H : AddModuleOwner input w = (r, w')) :
  atomic_outcome (owner_added input) w r w' /\ owners_ok (w_db w').
Proof.
  assert (Hout : atomic_outcome (owner_added input) w r w')
    by (apply AddModuleOwner_outcome; [done|apply Hok|done]).
  split; [done|]. destruct Hout as [_ [[_ ->]|Hd]]; [done|]. by eapply owner_added_ok.
Qed.

(** Removing an owner removes exactly the owner with the given identifier,
    when it is one of the module with the given name, with its audit event and
    its outbox event, or fails and changes nothing. *)
Theorem RemoveModuleOwner_correct (input : RemoveModuleOwnerInput) (w w' : World) (r : result unit)
    (Htx : w_tx w = false) (Hok : owners_ok (w_db w)) (H : RemoveModuleOwner input w = (r, w')) :
  atomic_outcome (owner_removed input) w r w' /\ owners_ok (w_db w').
Proof.
  assert (Hout : atomic_outcome (owner_removed input) w r w') by by apply RemoveModuleOwner_outcome.
  split; [done|]. destruct Hout as [_ [[_ ->]|Hd]]; [done|]. by eapply owner_removed_ok.
Qed.

(** the operations of governance keep the invariants of all its tables in
    any order: owners are distinct and belong to modules, and the workflow of
    approvals stays consistent when owners change under it. *)
Theorem governance_invariant (w w' : World) (Hw : governance_ok w) (Hrun : rtc governance_step w w') :
  governance_ok w'.
Proof. revert Hw. induction Hrun as [w|w w1 w2 H1 _ IH]; eauto using governance_step_ok. Qed.
End Governance.

(** ** Concrete runs *)

Section Examples.
#[local] Existing Instance example_postgres.
#[local] Existing Instance example_unicode.
#[local] Existing Instance DefaultPolicyEvaluator.
#[local] Existing Instance CommunityAuditSink.
#[local] Existing Instance flow_env.
#[local] Existing Instance flow_providers.
#[local] Existing Instance flow_providers_laws.

Lemma flow_owners_ok : owners_ok flow_db.
Proof.
  split.
  - intros m Hm. repeat (apply elem_of_cons in Hm as [->|Hm]; [by vm_compute|]). by apply elem_of_nil in Hm.
  - intros o Ho. cbn in Ho. apply elem_of_cons in Ho as [->|Ho];
      [|apply elem_of_cons in Ho as [->|Ho]; [|by apply elem_of_nil in Ho]].
    + split_and!; [by vm_compute..|]. exists (mkModule "a" "users" "" "" 0 0). split; [set_solver|done].
    + split_and!; [by vm_compute..|]. exists (mkModule "b" "orders" "" "" 0 0). split; [set_solver|done].
  - apply (bool_decide_unpack _). by vm_compute.
  - apply (bool_decide_unpack _). by vm_compute.
Qed.

Definition eve : AddModuleOwnerInput := mkAddModuleOwnerInput " users" "user" " eve " "owner" "ann".
Definition eve_added := AddModuleOwner eve flow_start.
Definition ann_removed := RemoveModuleOwner (mkRemoveModuleOwnerInput "users" "e" "eve") eve_added.2.

Lemma AddModuleOwner_correct_witness :
  is_ok eve_added.1 = true /\ owners_ok (w_db eve_added.2)
  /\ map owner_Subject (db_owners (w_db eve_added.2)) = ["ann"; "ops"; "eve"].
Proof.
  split; [vm_compute; reflexivity|]. split; [|vm_compute; reflexivity].
  exact (proj2 (AddModuleOwner_correct eve flow_start eve_added.2 eve_added.1 eq_refl flow_owners_ok
                  (surjective_pairing _))).
Defined.

Lemma eve_added_ok : governance_ok eve_added.2.
Proof.
  eapply (governance_step_ok DefaultPolicyConfig flow_start); [split; [apply flow_ok|apply flow_owners_ok]|].
  exact (gov_add_owner DefaultPolicyConfig eve flow_start eve_added.1 eve_added.2 (surjective_pairing _)).
Qed.

Lemma RemoveModuleOwner_correct_witness :
  is_ok ann_removed.1 = true /\ owners_ok (w_db ann_removed.2)
  /\ map owner_Subject (db_owners (w_db ann_removed.2)) = ["ops"; "eve"].
Proof.
  split; [vm_compute; reflexivity|]. split; [|vm_compute; reflexivity].
  exact (proj2 (RemoveModuleOwner_correct _ eve_added.2 ann_removed.2 ann_removed.1
                  (proj1 (proj1 eve_added_ok)) (proj2 eve_added_ok) (surjective_pairing _))).
Defined.

(** The requirement of [users] is decided by the owner who was added. *)
Definition eve_decides (w : World) : ApprovalDecisionInput :=
  mkDecisionInput "" (the_requirement 0 w) "eve" "".
Definition eve_created := CreateApprovalRequestForBreakingReport DefaultPolicyConfig
  (mkCreateInput "d" "bob" "") eve_added.2.
Definition eve_approved := ApproveRequirement DefaultPolicyConfig (eve_decides eve_created.2) eve_created.2.

Lemma governance_invariant_witness :
  is_ok eve_approved.1 = true /\ governance_ok eve_approved.2.
Proof.
  split; [vm_compute; reflexivity|].
  apply (governance_invariant DefaultPolicyConfig eve_added.2); [exact eve_added_ok|].
  exact (rtc_l _ _ _ _ (gov_create DefaultPolicyConfig _ _ eve_created.1 eve_created.2 (surjective_pairing _))
    (rtc_once _ _ (gov_approve DefaultPolicyConfig (eve_decides eve_created.2) eve_created.2
       eve_approved.1 eve_approved.2 (surjective_pairing _)))).
Defined.
End Examples.
