(* ===== verification/Archive.v ===== *)
(** * Unpacking source archives

    [workspace/archive.go]: an uploaded archive is unpacked into a working
    directory.  The reader of the archive and its decompression are given by
    what they return: the entries and the way the stream ends.  The file system
    is a map of paths, with directories, files and symbolic links, which every
    operation follows on its way, [Lstat] and [Remove] not at the last element; each
    operation may fail.  The code cleans the paths it makes; that of the destination,
    which a caller names, is cleaned before its links are followed. *)

From S2P Require Import Prelude Errors GoStrings Domain Effects.

Open Scope string_scope.
Open Scope Z_scope.

(** ** Paths ([path/filepath] on Unix)

    A path is parsed into its elements: empty ones and [.] disappear, [..]
    removes the element before it, and disappears at the root. *)

Definition slash : ascii := "/"%char.
Definition path : Type := bool * list string.      (* rooted, elements *)

(** [acc] are the elements so far, the last one first. *)
Definition clean_step (rooted : bool) (acc : list string) (c : string) : list string :=
  if (c =? "")%string || (c =? ".")%string then acc else
  if (c =? "..")%string then
    match acc with
    | [] => if rooted then [] else [".."]
    | x :: acc' => if (x =? "..")%string then ".." :: acc else acc'
    end
  else c :: acc.

Definition clean_elems (rooted : bool) (cs : list string) : list string :=
  rev (fold_left (clean_step rooted) cs []).

Definition parse (s : string) : path :=
  let rooted := HasPrefix s "/" in (rooted, clean_elems rooted (split_byte slash s)).

Definition render (p : path) : string :=
  match p with
  | (true, elems) => "/" +:+ strings_Join "/" elems
  | (false, []) => "."
  | (false, elems) => strings_Join "/" elems
  end.

Definition filepath_Clean (s : string) : string := render (parse s).
Definition filepath_Join (a b : string) : string :=
  if (a =? "")%string then if (b =? "")%string then "" else filepath_Clean b
  else filepath_Clean (a +:+ "/" +:+ b).
Definition filepath_IsAbs (s : string) : bool := HasPrefix s "/".

(** [filepath.Rel]: what is left of the base leads up, what is left of the
    target down; it fails when going up is not possible without knowing the
    working directory. *)
Fixpoint rel_elems (base targ : list string) : result (list string) :=
  match base, targ with
  | b :: base', t :: targ' =>
      if (b =? t)%string then rel_elems base' targ' else
      if (b =? "..")%string then Err (EExternal "Rel: can't make target relative to base") else
      Ok (map (fun _ => "..") base ++ targ)%list
  | b :: _, [] =>
      if (b =? "..")%string then Err (EExternal "Rel: can't make target relative to base") else
      Ok (map (fun _ => "..") base)
  | [], _ => Ok targ
  end.
Definition filepath_Rel (base targ : string) : result string :=
  let '(r1, e1) := parse base in
  let '(r2, e2) := parse targ in
  if negb (eqb r1 r2) then Err (EExternal "Rel: can't make target relative to base") else
  let? e := rel_elems e1 e2 in Ok (render (false, e)).

(** ** The checks

    The texts of the errors name the path; the format is left as it is. *)

Definition safeArchivePath (path : string) : result string :=
  if (path =? "")%string then Err (EText "unsafe archive path is empty") else
  if Contains path "\" then Err (EText "unsafe archive path %q contains backslash") else
  if HasPrefix path "/" || filepath_IsAbs path then Err (EText "unsafe archive path %q is absolute") else
  let clean := filepath_Clean path in
  if (clean =? ".")%string || (clean =? "..")%string || HasPrefix clean "../"
  then Err (EText "unsafe archive path %q uses path traversal") else
  if negb (clean =? path)%string then Err (EText "unsafe archive path %q is not clean") else
  Ok clean.

Definition insideDir (root target : string) : bool :=
  match filepath_Rel root target with
  | Err _ => false
  | Ok rel => negb (rel =? "..")%string && negb (HasPrefix rel "../")
  end.

(** ** The file system

    A symbolic link holds the text of its target.  The operations follow the links
    on the way to a path as the kernel does; whether the directories on the way
    exist is not looked at. *)

Inductive node := NDir | NFile (content : string) | NSymlink (target : string).
#[export] Instance node_eq_dec : EqDecision node.
Proof. solve_decision. Defined.

Record FS := mkFS { fs_nodes : gmap path node; fs_tick : nat }.

(** What the operating system answers: an operation may fail, and a write that
    fails may have written some of its bytes. *)
Class OS := {
  os_fault : nat -> option error;
  os_written : nat -> nat }.

(** What stands at a path; the root is always there. *)
Definition node_at (nodes : gmap path node) (p : path) : option node :=
  match p.2 with [] => Some NDir | _ => nodes !! p end.
Definition lookup_node (fs : FS) (p : path) : option node := node_at (fs_nodes fs) p.

Section Links.
Variable nodes : gmap path node.

(** [acc] are the elements of the directory reached so far, the last one first;
    [jump] goes on at a link in it. *)
Fixpoint walk_elems (jump : list string -> string -> list string -> option path)
    (rooted : bool) (acc todo : list string) : option path :=
  match todo with
  | [] => Some (rooted, rev acc)
  | c :: rest =>
      let acc' := clean_step rooted acc c in
      match node_at nodes (rooted, rev acc') with
      | Some (NSymlink target) => jump acc target rest
      | _ => walk_elems jump rooted acc' rest
      end
  end.

(** At most [links] links are followed. *)
Fixpoint follow_from (links : nat) (rooted : bool) (acc todo : list string) : option path :=
  walk_elems (fun acc target rest =>
    match links with
    | O => None
    | S links' =>
        if HasPrefix target "/" then follow_from links' true [] (split_byte slash target ++ rest)
        else follow_from links' rooted acc (split_byte slash target ++ rest)
    end) rooted acc todo.

(** Where [p] leads: the kernel gives up after forty links. *)
Definition max_links : nat := 40.
Definition follow (p : path) : option path := follow_from max_links p.1 [] p.2.
(** Where [p] is, when its last element is not followed. *)
Definition follow_dir (p : path) : option path :=
  match rev p.2 with
  | [] => Some p
  | x :: up => match follow (p.1, rev up) with
               | Some (r, l) => Some (r, rev (clean_step r (rev l) x))
               | None => None
               end
  end.
End Links.

Section Files.
Context `{SYS : !OS}.

Definition os_op {A} (f : FS -> result A * gmap path node) : M FS A := fun fs =>
  match os_fault (fs_tick fs) with
  | Some e => (Err e, mkFS (fs_nodes fs) (S (fs_tick fs)))
  | None => let '(r, nodes) := f fs in (r, mkFS nodes (S (fs_tick fs)))
  end.

Definition not_a_directory : error := EExternal "not a directory".
Definition is_a_directory : error := EExternal "is a directory".
Definition file_exists : error := EExternal "file exists".
Definition too_many_links : error := EExternal "too many levels of symbolic links".

(** An operation at the place where [p] leads. *)
Definition at_real {A : Type} (real : option path) (nodes : gmap path node) (f : path -> result A * gmap path node)
    : result A * gmap path node :=
  match real with Some q => f q | None => (Err too_many_links, nodes) end.

(** One directory of [os.MkdirAll]: it is there, or it is made; the directory of a
    link that leads nowhere cannot be made. *)
Definition mkdir_one (p : path) : M FS unit := os_op (fun fs =>
  let nodes := fs_nodes fs in
  at_real (follow nodes p) nodes (fun q =>
    match lookup_node fs q with
    | Some NDir => (Ok tt, nodes)
    | Some _ => (Err not_a_directory, nodes)
    | None => if bool_decide (follow_dir nodes p = Some q) then (Ok tt, <[q := NDir]> nodes)
              else (Err file_exists, nodes)
    end)).

(** The paths from the root to [p]. *)
Definition prefixes (p : path) : list path :=
  map (fun n => (p.1, firstn n p.2)) (seq 1 (length p.2)).

Definition os_MkdirAll (p : path) : M FS unit := forM (prefixes p) mkdir_one.

(** [filepath.Dir]. *)
Definition path_dir (p : path) : path := (p.1, removelast p.2).

Definition os_Lstat (p : path) : M FS (option node) := os_op (fun fs =>
  at_real (follow_dir (fs_nodes fs) p) (fs_nodes fs) (fun q => (Ok (lookup_node fs q), fs_nodes fs))).

(** [os.Stat], which follows the link that [p] may be. *)
Definition stat_path (p : path) : M FS (option node) := os_op (fun fs =>
  at_real (follow (fs_nodes fs) p) (fs_nodes fs) (fun q => (Ok (lookup_node fs q), fs_nodes fs))).

(** [os.OpenFile(target, O_WRONLY|O_CREATE|O_TRUNC, _)]: the open file is where the
    path leads. *)
Definition os_OpenTrunc (p : path) : M FS path := os_op (fun fs =>
  let nodes := fs_nodes fs in
  at_real (follow nodes p) nodes (fun q =>
    match lookup_node fs q with
    | Some NDir => (Err is_a_directory, nodes)
    | _ => (Ok q, <[q := NFile ""]> nodes)
    end)).

(** At most the first [size] bytes ([take_string], without counting beyond the
    end). *)
Definition first_bytes (size : Z) (body : string) : string :=
  if len body <=? size then body else take_string (Z.to_nat size) body.

(** [io.CopyN(file, reader, size)]: [body] is what the entry still holds, [p] where
    the file is. *)
Definition io_CopyN (p : path) (body : string) (size : Z) : M FS unit := fun fs =>
  let wanted := first_bytes size body in
  match os_fault (fs_tick fs) with
  | Some e => (Err e, mkFS (<[p := NFile (take_string (os_written (fs_tick fs)) wanted)]> (fs_nodes fs))
                        (S (fs_tick fs)))
  | None => (if len body <? size then Err (EExternal "unexpected EOF") else Ok tt,
             mkFS (<[p := NFile wanted]> (fs_nodes fs)) (S (fs_tick fs)))
  end.

Definition file_Close : M FS unit := os_op (fun fs => (Ok tt, fs_nodes fs)).

Definition writeRegularFile (target : path) (body : string) (size : Z) : M FS unit :=
  let! _ := os_MkdirAll (path_dir target) in
  let! info := os_Lstat target in
  match info with
  | Some (NSymlink _) => fail (EText "unsafe archive path %q targets a symlink")
  | _ =>
      let! file := os_OpenTrunc target in
      let! copied := try (io_CopyN file body size) in
      let! closed := try file_Close in
      match copied with
      | Err copyErr => fail copyErr
      | Ok _ => lift closed
      end
  end.

(** ** Extraction *)

Record Header := mkHeader { header_Name : string; header_Typeflag : Z; header_Size : Z }.
Record Entry := mkEntry { entry_Header : Header; entry_Body : string }.

(** How the stream ends: with [io.EOF] or with an error of the reader. *)
Inductive ArchiveEnd := EndEOF | EndError (e : error).

Definition TypeReg : Z := 48.
Definition TypeLink : Z := 49.
Definition TypeSymlink : Z := 50.
Definition TypeDir : Z := 53.

Record ExtractOptions := mkExtractOptions { MaxUncompressedSizeBytes : Z }.

Section Extract.
(** [ctx.Err()] before the n-th entry. *)
Variable ctx_Err : nat -> option error.
Variable dst : string.
Variable options : ExtractOptions.

(** One entry: the new total. *)
Definition extractEntry (totalSize : Z) (entry : Entry) : M FS Z :=
  let header := entry_Header entry in
  let rawName := if header_Typeflag header =? TypeDir
                 then trim_right_byte slash (header_Name header) else header_Name header in
  let! name := lift (safeArchivePath rawName) in
  let target := filepath_Join dst name in
  if negb (insideDir dst target) then fail (EText "unsafe archive path %q escapes destination") else
  if header_Typeflag header =? TypeDir then
    let! _ := os_MkdirAll (parse target) in ret totalSize
  else if (header_Typeflag header =? TypeReg) || (header_Typeflag header =? 0) then
    if header_Size header <? 0 then fail (EText "unsafe archive path %q has negative size") else
    if MaxUncompressedSizeBytes options <? wrap64 (totalSize + header_Size header)
    then fail (EText "archive exceeds max uncompressed size") else
    let! _ := writeRegularFile (parse target) (entry_Body entry) (header_Size header) in
    ret (wrap64 (totalSize + header_Size header))
  else if header_Typeflag header =? TypeSymlink then fail (EText "unsafe archive path %q is a symlink")
  else if header_Typeflag header =? TypeLink then fail (EText "unsafe archive path %q is a hardlink")
  else fail (EText "unsupported archive entry %q").

Fixpoint extractLoop (archive : list Entry) (ending : ArchiveEnd) (totalSize : Z) (entries : nat)
    : M FS unit :=
  match ctx_Err entries with
  | Some err => fail err
  | None =>
      match archive with
      | [] =>
          match ending with
          | EndEOF => if (entries =? 0)%nat then fail (EText "archive is empty") else ret tt
          | EndError err => fail err
          end
      | entry :: archive' =>
          let! totalSize := extractEntry totalSize entry in
          extractLoop archive' ending totalSize (S entries)
      end
  end.

(** [gzip] is the result of [gzip.NewReader] on the stream. *)
Definition ExtractTarGzSafe (gzip : result (list Entry * ArchiveEnd)) : M FS unit :=
  if MaxUncompressedSizeBytes options <=? 0
  then fail (EText "max uncompressed size bytes must be positive") else
  if (TrimSpace dst =? "")%string then fail (EText "destination directory is required") else
  let! _ := os_MkdirAll (parse dst) in
  let! (archive, ending) := lift gzip in
  extractLoop archive ending 0 0.
End Extract.
End Files.

(** ** Paths: the lemmas *)

Definition safe_elem (c : string) : Prop := c <> "" /\ c <> "." /\ c <> "..".
#[export] Instance safe_elem_dec c : Decision (safe_elem c).
Proof. unfold safe_elem. apply _. Defined.

(** An element of a path has no slash in it. *)
Definition plain_elem (c : string) : Prop := no_byte slash c = true.

Lemma split_plain s : Forall plain_elem (split_byte slash s).
Proof.
  induction s as [|a s IH]; simpl; [by repeat constructor|].
  destruct (Ascii.eqb a slash) eqn:E; [by constructor|].
  pose proof (split_byte_nonempty slash s) as Hne.
  destruct (split_byte slash s) as [|x xs]; [done|].
  inversion IH; subst. constructor; [|done]. unfold plain_elem, no_byte in *.
  cbn [forallb_string]. by rewrite E.
Qed.

Lemma split_join cs : cs <> [] -> Forall plain_elem cs -> split_byte slash (strings_Join "/" cs) = cs.
Proof.
  induction cs as [|c cs IH]; [done|]. intros _ H. inversion H as [|? ? Hc Hcs]; subst.
  destruct cs as [|d cs]; [by apply split_byte_none|].
  change (strings_Join "/" (c :: d :: cs)) with (c +:+ String slash (strings_Join "/" (d :: cs))).
  rewrite split_byte_app, IH by done. by rewrite split_byte_none.
Qed.

Lemma clean_step_safe r acc c : safe_elem c -> clean_step r acc c = c :: acc.
Proof.
  intros (H1 & H2 & H3). unfold clean_step.
  apply String.eqb_neq in H1 as ->, H2 as ->, H3 as ->. done.
Qed.

Lemma clean_fold_safe r acc cs :
  Forall safe_elem cs -> fold_left (clean_step r) cs acc = (rev cs ++ acc)%list.
Proof.
  intros H. revert acc. induction H as [|c cs Hc Hcs IH]; intros acc; simpl; [done|].
  rewrite clean_step_safe, IH by done. by rewrite <- app_assoc.
Qed.

(** The shape of a cleaned path. *)
Definition clean_shape (p : path) : Prop :=
  exists k es, p.2 = (repeat ".." k ++ es)%list /\ Forall safe_elem es /\ Forall plain_elem es
    /\ (p.1 = true -> k = O).

(** The elements so far, in reverse: [..] only at the start, and not under the
    root. *)
Definition acc_shape (r : bool) (acc : list string) : Prop :=
  exists k es, acc = (es ++ repeat ".." k)%list /\ Forall safe_elem es /\ Forall plain_elem es
    /\ (r = true -> k = O).

Lemma clean_step_shape r acc c : plain_elem c -> acc_shape r acc -> acc_shape r (clean_step r acc c).
Proof.
  intros Hc (k & es & -> & H1 & H2 & H3). unfold clean_step.
  destruct (c =? "")%string eqn:E1; simpl; [by exists k, es|].
  destruct (c =? ".")%string eqn:E2; simpl; [by exists k, es|].
  destruct (c =? "..")%string eqn:E3.
  - destruct es as [|e es]; simpl.
    + destruct k as [|k]; simpl.
      * destruct r; [by exists O, []|]. exists 1%nat, []. repeat split; done.
      * exists (S (S k)), []. repeat split; try done. intros ->. by specialize (H3 eq_refl).
    + inversion H1 as [|? ? He Hes]; subst. inversion H2; subst. destruct He as (_ & _ & He).
      apply String.eqb_neq in He as ->. by exists k, es.
  - exists k, (c :: es). split; [done|]. split_and!; [|by constructor|done].
    constructor; [|done]. apply String.eqb_neq in E1, E2, E3. done.
Qed.

Lemma rev_repeat {A} (x : A) k : rev (repeat x k) = repeat x k.
Proof.
  induction k as [|k IH]; simpl; [done|]. rewrite IH. clear IH.
  induction k as [|k IH]; simpl; [done|]. by rewrite IH.
Qed.

Lemma parse_shape s : clean_shape (parse s).
Proof.
  unfold parse, clean_shape, clean_elems. set (r := HasPrefix s "/").
  assert (H : acc_shape r (fold_left (clean_step r) (split_byte slash s) [])).
  { assert (H0 : acc_shape r []) by (exists O, []; repeat split; done).
    pose proof (split_plain s) as Hp. generalize dependent (@nil string).
    induction Hp as [|c cs Hc Hcs IH]; intros acc H0; simpl; [done|]. apply IH. by apply clean_step_shape. }
  destruct H as (k & es & E & H1 & H2 & H3). exists k, (rev es). cbn [fst snd].
  rewrite E, rev_app_distr, rev_repeat. split_and!; [done|by apply Forall_rev..|done].
Qed.

Lemma clean_fold_ups k : fold_left (clean_step false) (repeat ".." k) [] = repeat ".." k.
Proof.
  assert (H : forall n, fold_left (clean_step false) (repeat ".." k) (repeat ".." n) = repeat ".." (n + k)).
  { induction k as [|k IH]; intros n; simpl; [by rewrite Nat.add_0_r|].
    replace (clean_step false (repeat ".." n) "..") with (repeat ".." (S n)) by by destruct n.
    rewrite IH. f_equal. lia. }
  apply (H O).
Qed.

Lemma clean_elems_shape p : clean_shape p -> clean_elems p.1 p.2 = p.2.
Proof.
  intros (k & es & -> & H1 & _ & H3). unfold clean_elems. rewrite fold_left_app.
  replace (fold_left (clean_step p.1) (repeat ".." k) []) with (repeat ".." k).
  - rewrite clean_fold_safe by done. by rewrite rev_app_distr, rev_involutive, rev_repeat.
  - destruct p.1; [by rewrite (H3 eq_refl)|]. by rewrite clean_fold_ups.
Qed.

Lemma plain_ups k : Forall plain_elem (repeat ".." k).
Proof. induction k; simpl; by constructor. Qed.

Lemma HasPrefix_slash_split s :
  s <> "" -> HasPrefix s "/" = true <-> exists cs, split_byte slash s = "" :: cs.
Proof.
  destruct s as [|a s]; [done|]. intros _. cbn [split_byte HasPrefix]. rewrite andb_true_r, Ascii.eqb_sym.
  fold slash. destruct (Ascii.eqb a slash); [split; eauto|].
  split; [done|]. intros (cs & H). by destruct (split_byte slash s).
Qed.

(** A cleaned path is its own rendering. *)
Lemma parse_render p : clean_shape p -> parse (render p) = p.
Proof.
  intros Hp. pose proof (clean_elems_shape p Hp) as Hc. destruct Hp as (k & es & E & H1 & H2 & H3).
  destruct p as [r elems]. cbn [fst snd] in *.
  assert (Hplain : Forall plain_elem elems) by (subst; apply Forall_app; split; [apply plain_ups|done]).
  destruct r; cbn [render].
  - unfold parse. change ("/" +:+ strings_Join "/" elems) with ("" +:+ String slash (strings_Join "/" elems)).
    rewrite split_byte_app. cbn [HasPrefix append]. f_equal. unfold clean_elems.
    cbn [split_byte app fold_left clean_step]. fold (clean_elems true (split_byte slash (strings_Join "/" elems))).
    destruct elems as [|e elems]; [done|]. rewrite split_join by done. done.
  - destruct elems as [|e elems]; [done|]. unfold parse. rewrite split_join by done.
    assert (He : e <> "").
    { destruct k; simpl in E; [|by injection E as -> _]. subst es. by inversion H1 as [|? ? (Hx & _)]. }
    assert (Hr : HasPrefix (strings_Join "/" (e :: elems)) "/" = false).
    { apply not_true_is_false. intros H. apply HasPrefix_slash_split in H as (cs & H).
      - rewrite split_join in H by done. by injection H as ->.
      - intros E0. apply (f_equal (split_byte slash)) in E0. rewrite split_join in E0 by done.
        by injection E0 as -> _. }
    by rewrite Hr, Hc.
Qed.

(** ** The checks are what they should be *)

Lemma split_head_dots s : HasPrefix s "../" = true -> exists cs, split_byte slash s = ".." :: cs.
Proof.
  intros H. assert (E : s = ".." +:+ String slash (drop_string 3 s)) by exact (HasPrefix_split _ _ H).
  rewrite E, split_byte_app. exists (split_byte slash (drop_string 3 s)). done.
Qed.

Lemma parse_safe s : Forall safe_elem (split_byte slash s) -> parse s = (false, split_byte slash s).
Proof.
  intros H. unfold parse, clean_elems. rewrite clean_fold_safe, app_nil_r, rev_involutive by done.
  f_equal. apply not_true_is_false. intros Hp.
  assert (Hne : s <> "") by (intros ->; by inversion H as [|? ? (Hx & _)]).
  apply HasPrefix_slash_split in Hp as (cs & E); [|done]. rewrite E in H. by inversion H as [|? ? (Hx & _)].
Qed.

Lemma render_split s : Forall safe_elem (split_byte slash s) -> render (false, split_byte slash s) = s.
Proof.
  intros H. pose proof (strings_Join_split slash s) as E.
  pose proof (split_byte_nonempty slash s) as Hne.
  by destruct (split_byte slash s) as [|c cs].
Qed.

(** A path that is its own cleaning and does not lead up has safe elements. *)
Lemma clean_path_safe s :
  filepath_Clean s = s -> s <> "." -> s <> ".." -> HasPrefix s "../" = false -> HasPrefix s "/" = false ->
  Forall safe_elem (split_byte slash s).
Proof.
  intros Hc H1 H2 H3 H4. pose proof (parse_shape s) as Hs. unfold filepath_Clean in Hc.
  destruct (parse s) as [r elems] eqn:Ep. assert (r = false) as -> by (injection Ep as <- _; done).
  destruct Hs as (k & es & E & S1 & S2 & _). cbn [fst snd] in *.
  destruct elems as [|e elems]; [done|]. cbn [render] in Hc.
  assert (Hplain : Forall plain_elem (e :: elems)) by (rewrite E; apply Forall_app; split; [apply plain_ups|done]).
  rewrite <- Hc, split_join by done. rewrite E. apply Forall_app. split; [|done].
  destruct k as [|k]; [constructor|]. exfalso. injection E as -> E.
  destruct elems as [|c elems]; [by rewrite <- Hc in H2|].
  rewrite <- Hc in H3. done.
Qed.

Lemma safeArchivePath_Ok (path clean : string) :
  safeArchivePath path = Ok clean <->
  clean = path /\ Contains path "\" = false /\ Forall safe_elem (split_byte slash path).
Proof.
  unfold safeArchivePath, filepath_IsAbs. split.
  - destruct (path =? "")%string; [done|]. destruct (Contains path "\"); [done|].
    destruct (HasPrefix path "/") eqn:E1; [done|]. cbn [orb].
    destruct (_ || _ || _) eqn:E2; [done|]. apply orb_false_iff in E2 as [[E2 E3]%orb_false_iff E4].
    destruct (negb _) eqn:E5; [done|]. apply negb_false_iff, String.eqb_eq in E5. intros [= <-].
    rewrite E5 in *. apply String.eqb_neq in E2, E3. split_and!; [done..|]. by apply clean_path_safe.
  - intros (-> & -> & H). pose proof (parse_safe path H) as Ep. pose proof (render_split path H) as Er.
    unfold filepath_Clean. rewrite Ep, Er, String.eqb_refl.
    assert (Hne : forall s c cs, split_byte slash s = c :: cs -> ~ safe_elem c -> (path =? s)%string = false).
    { intros s c cs E Hc. apply String.eqb_neq. intros ->. rewrite E in H. by inversion H. }
    assert (H1 : HasPrefix path "/" = false) by by injection Ep.
    assert (H2 : HasPrefix path "../" = false).
    { apply not_true_is_false. intros (cs & E)%split_head_dots. rewrite E in H.
      inversion H as [|? ? (_ & _ & Hx)]. done. }
    rewrite (Hne "" "" [] eq_refl), (Hne "." "." [] eq_refl), (Hne ".." ".." [] eq_refl), H1, H2;
      [done|by intros (? & ? & ?)..].
Qed.

(** ** Targets *)

Lemma parse_join dst name :
  dst <> "" -> Forall safe_elem (split_byte slash name) ->
  parse (filepath_Join dst name) = ((parse dst).1, (parse dst).2 ++ split_byte slash name)%list.
Proof.
  intros Hd Hn. unfold filepath_Join. apply String.eqb_neq in Hd as Hd'. rewrite Hd'. unfold filepath_Clean.
  rewrite parse_render by apply parse_shape.
  change ("/" +:+ name) with (String slash name). unfold parse. cbn [fst snd].
  assert (E : HasPrefix (dst +:+ String slash name) "/" = HasPrefix dst "/") by by destruct dst.
  rewrite E, split_byte_app. unfold clean_elems. rewrite fold_left_app, clean_fold_safe by done.
  by rewrite rev_app_distr, rev_involutive.
Qed.

Lemma rel_elems_app d es : rel_elems d (d ++ es) = Ok es.
Proof. induction d as [|x d IH]; simpl; [by destruct es|]. by rewrite String.eqb_refl. Qed.

Lemma insideDir_join dst name :
  dst <> "" -> Forall safe_elem (split_byte slash name) -> insideDir dst (filepath_Join dst name) = true.
Proof.
  intros Hd Hn. unfold insideDir, filepath_Rel. rewrite parse_join by done.
  destruct (parse dst) as [r d]. cbn [fst snd]. rewrite Bool.eqb_reflx. cbn [negb].
  rewrite rel_elems_app. cbn [result_bind]. rewrite render_split by done.
  apply andb_true_iff. split; apply negb_true_iff; apply not_true_is_false.
  - intros E%String.eqb_eq. subst. by inversion Hn as [|? ? (_ & _ & Hx)].
  - intros (cs & E)%split_head_dots. rewrite E in Hn. by inversion Hn as [|? ? (_ & _ & Hx)].
Qed.

(** ** Where a path leads *)

Definition is_link (nodes : gmap path node) (p : path) : Prop := exists target, node_at nodes p = Some (NSymlink target).
Definition same_links (nodes nodes' : gmap path node) : Prop :=
  forall p target, node_at nodes p = Some (NSymlink target) <-> node_at nodes' p = Some (NSymlink target).

#[export] Instance same_links_equiv : Equivalence same_links.
Proof.
  split; [intros n p t; done|intros n1 n2 H p t; by rewrite (H p t)|intros n1 n2 n3 H1 H2 p t; by rewrite (H1 p t)].
Qed.

Definition at_path (base : path) (rel : list string) : path := (base.1, base.2 ++ rel)%list.

(** Without links the elements are only cleaned. *)
Definition walk_plain (nodes : gmap path node) : bool -> list string -> list string -> option path :=
  walk_elems nodes (fun _ _ _ => None).

Section Follow.
Context (nodes : gmap path node).

Lemma follow_from_eq n r acc todo : follow_from nodes n r acc todo = walk_elems nodes (fun acc target rest =>
    match n with
    | O => None
    | S n' => if HasPrefix target "/" then follow_from nodes n' true [] (split_byte slash target ++ rest)
              else follow_from nodes n' r acc (split_byte slash target ++ rest)
    end) r acc todo.
Proof. by destruct n. Qed.

Lemma walk_plain_any jump r acc todo q : walk_plain nodes r acc todo = Some q -> walk_elems nodes jump r acc todo = Some q.
Proof.
  unfold walk_plain. revert acc. induction todo as [|c todo IH]; intros acc; cbn [walk_elems]; [done|].
  destruct (node_at nodes _) as [[]|]; [apply IH..|done|apply IH].
Qed.

(** What comes after a path is walked from where the path leads. *)
Lemma follow_app n r acc todo rest r' b q :
  follow_from nodes n r acc todo = Some (r', b) -> walk_plain nodes r' (rev b) rest = Some q ->
  follow_from nodes n r acc (todo ++ rest) = Some q.
Proof.
  intros H Hq. revert r acc todo H. induction n as [|n IHn]; intros r acc todo; rewrite !follow_from_eq;
    revert acc; induction todo as [|c todo IH]; intros acc; cbn [walk_elems app].
  1, 3: intros [= <- <-]; rewrite rev_involutive in Hq; by apply walk_plain_any.
  - destruct (node_at nodes _) as [[]|]; [apply IH..|done|apply IH].
  - destruct (node_at nodes _) as [[]|]; [apply IH..| |apply IH].
    destruct (HasPrefix target "/"); rewrite app_assoc; apply IHn.
Qed.

Lemma follow_rest p d rest q :
  follow nodes p = Some d -> walk_plain nodes d.1 (rev d.2) rest = Some q -> follow nodes (at_path p rest) = Some q.
Proof. destruct d. exact (follow_app max_links _ _ _ _ _ _ _). Qed.

Lemma follow_root r : follow nodes (r, []) = Some (r, []).
Proof. reflexivity. Qed.

Lemma walk_plain_safe r acc rest :
  Forall safe_elem rest ->
  (forall l, l <> [] -> (exists more, rest = (l ++ more)%list) -> ~ is_link nodes (r, rev acc ++ l)%list) ->
  walk_plain nodes r acc rest = Some (r, rev acc ++ rest)%list.
Proof.
  intros Hs. revert acc. induction Hs as [|x rest Hx Hs IH]; intros acc Hl; unfold walk_plain; cbn [walk_elems].
  { by rewrite app_nil_r. }
  rewrite clean_step_safe by done. cbn [rev].
  assert (Hn : ~ is_link nodes (r, rev acc ++ [x])%list) by (apply Hl; [done|by exists rest]).
  assert (E : walk_plain nodes r (x :: acc) rest = Some (r, rev acc ++ x :: rest)%list).
  { rewrite IH; [cbn [rev]; by rewrite <- app_assoc|]. intros l Hne (more & ->). cbn [rev]. rewrite <- app_assoc.
    apply Hl; [done|]. by exists more. }
  unfold walk_plain in E. destruct (node_at nodes _) as [[| |t]|] eqn:En; [done..| |done]. exfalso. apply Hn. by exists t.
Qed.

(** Below the place where a path leads there are no links: the rest is taken as it is. *)
Lemma follow_below p d rel :
  follow nodes p = Some d -> Forall safe_elem rel ->
  (forall l, l <> [] -> (exists more, rel = (l ++ more)%list) -> ~ is_link nodes (at_path d l)) ->
  follow nodes (at_path p rel) = Some (at_path d rel).
Proof.
  intros Hf Hs Hl. destruct d as [r b]. apply (follow_rest p (r, b)); [done|]. cbn [fst snd].
  rewrite walk_plain_safe; rewrite ?rev_involutive; done.
Qed.

Lemma follow_dir_snoc p x : follow_dir nodes (at_path p [x]) =
  match follow nodes p with Some (r, l) => Some (r, rev (clean_step r (rev l) x)) | None => None end.
Proof. unfold follow_dir, at_path. cbn [fst snd]. rewrite rev_app_distr. cbn [rev app]. rewrite rev_involutive. by destruct p. Qed.

Lemma follow_dir_below p d rel :
  follow nodes p = Some d -> Forall safe_elem rel -> rel <> [] ->
  (forall l more, l <> [] -> more <> [] -> rel = (l ++ more)%list -> ~ is_link nodes (at_path d l)) ->
  follow_dir nodes (at_path p rel) = Some (at_path d rel).
Proof.
  intros Hf Hs Hne Hl. destruct (exists_last Hne) as (up & x & ->). apply Forall_app in Hs as [Hs [Hx _]%Forall_cons].
  replace (at_path p (up ++ [x])) with (at_path (at_path p up) [x]) by (unfold at_path; cbn; by rewrite app_assoc).
  assert (Hu : follow nodes (at_path p up) = Some (at_path d up)).
  { apply follow_below; [done..|]. intros l Hl0 (more & ->). apply (Hl l (more ++ [x])%list); [done|by destruct more|].
    by rewrite app_assoc. }
  rewrite follow_dir_snoc, Hu.
  unfold at_path. cbn [fst snd]. rewrite clean_step_safe by done. cbn [rev]. by rewrite rev_involutive, app_assoc.
Qed.

(** The last element of a path is no link: it is where it is. *)
Lemma follow_dir_follow p q : follow_dir nodes p = Some q -> ~ is_link nodes q -> follow nodes p = Some q.
Proof.
  destruct p as [r l]. unfold follow_dir. cbn [fst snd]. destruct (rev l) as [|x up] eqn:E.
  { intros [= <-] _. apply (f_equal (@rev string)) in E. rewrite rev_involutive in E. by subst l. }
  apply (f_equal (@rev string)) in E. rewrite rev_involutive in E. cbn in E. subst l.
  destruct (follow nodes (r, rev up)) as [[r' b]|] eqn:Ef; [|done]. intros [= <-] Hn.
  apply (follow_rest (r, rev up) (r', b) [x] _ Ef). unfold walk_plain. cbn [walk_elems].
  destruct (node_at nodes _) as [[| |t]|] eqn:En; [done..| |done]. exfalso. apply Hn. by exists t.
Qed.
End Follow.

(** Only the links tell where a path leads. *)
Lemma same_links_match {A} nodes nodes' q (f : string -> A) (x : A) :
  same_links nodes nodes' ->
  match node_at nodes q with Some (NSymlink t) => f t | _ => x end = match node_at nodes' q with Some (NSymlink t) => f t | _ => x end.
Proof.
  intros H. destruct (node_at nodes' q) as [[| |t']|] eqn:E; [| |by rewrite (proj2 (H q t') E)|];
    (destruct (node_at nodes q) as [[| |t]|] eqn:E1; [done..| |done]; apply (proj1 (H q t)) in E1; congruence).
Qed.

Lemma follow_links nodes nodes' p : same_links nodes nodes' -> follow nodes p = follow nodes' p.
Proof.
  intros H. unfold follow. generalize (@nil string). destruct p as [r todo]. cbn [fst snd]. revert r todo.
  induction max_links as [|n IHn]; intros r todo acc; rewrite !follow_from_eq; revert acc;
    induction todo as [|c todo IH]; intros acc; cbn [walk_elems]; try done;
    rewrite (same_links_match nodes nodes') by done; destruct (node_at nodes' _) as [[]|]; try done.
  by rewrite !IHn.
Qed.

Lemma follow_dir_links nodes nodes' p : same_links nodes nodes' -> follow_dir nodes p = follow_dir nodes' p.
Proof. intros H. unfold follow_dir. destruct (rev p.2); [done|]. by rewrite (follow_links nodes nodes'). Qed.

(** What is not a link may be replaced by what is not one. *)
Lemma same_links_insert nodes p n :
  ~ is_link nodes p -> (forall t, n <> NSymlink t) -> same_links nodes (<[p := n]> nodes).
Proof.
  intros Hp Hn q t. destruct (decide (q = p)) as [->|Hq].
  - split; [intros E; exfalso; apply Hp; by exists t|]. unfold node_at. destruct p.2; [done|].
    rewrite lookup_insert_eq. intros [= E]. by destruct (Hn t).
  - unfold node_at. destruct q.2; [done|]. by rewrite lookup_insert_ne.
Qed.

(** ** Where an extraction writes *)

Lemma node_None nodes p : node_at nodes p = None -> nodes !! p = None.
Proof. unfold node_at. by destruct p.2. Qed.
Lemma node_None_no_link nodes p : node_at nodes p = None -> ~ is_link nodes p.
Proof. intros E (t & Ht). congruence. Qed.

Definition below (d p : path) : Prop :=
  p.1 = d.1 /\ exists es, es <> [] /\ Forall safe_elem es /\ p.2 = (d.2 ++ es)%list.
(** [p] is a directory on the way to [dst]. *)
Definition on_the_way (nodes : gmap path node) (dst p : path) : Prop :=
  exists q, q ∈ prefixes dst /\ follow nodes q = Some p.

(** The destination [dst] is the directory [d], and there are no links in it. *)
Definition leads_to (dst d : path) (fs : FS) : Prop :=
  follow (fs_nodes fs) dst = Some d /\ forall p, below d p -> ~ is_link (fs_nodes fs) p.

(** Only missing directories on the way to [dst] are made, and in it only
    directories and files; links are neither made nor replaced. *)
Definition contained (dst d : path) (fs fs' : FS) : Prop :=
  same_links (fs_nodes fs) (fs_nodes fs')
  /\ forall p,
       fs_nodes fs' !! p = fs_nodes fs !! p
       \/ (on_the_way (fs_nodes fs) dst p /\ fs_nodes fs !! p = None /\ fs_nodes fs' !! p = Some NDir)
       \/ (below d p /\ (fs_nodes fs' !! p = Some NDir \/ exists c, fs_nodes fs' !! p = Some (NFile c))).
Definition confined (dst d : path) (fs fs' : FS) : Prop := leads_to dst d fs -> contained dst d fs fs'.

Lemma is_link_same nodes nodes' p : same_links nodes nodes' -> is_link nodes' p -> is_link nodes p.
Proof. intros H (t & Ht). exists t. by apply H. Qed.

Lemma contained_leads dst d fs fs' : contained dst d fs fs' -> leads_to dst d fs -> leads_to dst d fs'.
Proof.
  intros [Hs _] [H1 H2]. split; [by rewrite <- (follow_links _ _ _ Hs)|]. intros p Hp Hl. apply (H2 p Hp).
  by eapply is_link_same.
Qed.

Lemma contained_refl dst d fs tick : contained dst d fs (mkFS (fs_nodes fs) tick).
Proof. split; [done|]. intros p. by left. Qed.

#[export] Instance confined_preorder dst d : PreOrder (confined dst d).
Proof.
  split; [intros fs _; by destruct fs; apply contained_refl|]. intros f1 f2 f3 H12 H23 H1.
  pose proof (H12 H1) as C12. specialize (H23 (contained_leads _ _ _ _ C12 H1)). destruct C12 as [S12 C12], H23 as [S23 C23].
  split; [by etrans|]. intros p.
  destruct (C23 p) as [E|[(Ha & E1 & E2)|H3]]; [|destruct (C12 p) as [E'|[(_ & _ & E')|(_ & [E'|(c & E')])]]|by auto].
  - rewrite E. apply C12.
  - right; left. split; [|by rewrite <- E']. destruct Ha as (q & Hq & Hf). exists q. split; [done|].
    by rewrite (follow_links _ _ _ S12).
  - congruence.
  - congruence.
  - congruence.
Qed.

Section Containment.
Context `{SYS : !OS} (dst d : path).

Lemma contained_insert fs p n tick :
  leads_to dst d fs -> below d p -> n = NDir \/ (exists c, n = NFile c) ->
  contained dst d fs (mkFS (<[p := n]> (fs_nodes fs)) tick).
Proof.
  intros [_ Hd] Hp Hn. split; [apply same_links_insert; [by apply Hd|naive_solver]|].
  intros q. cbn. destruct (decide (q = p)) as [->|Hne]; [|left; by rewrite lookup_insert_ne].
  right; right. rewrite lookup_insert_eq. split; [done|]. naive_solver.
Qed.

Lemma confined_op {A} (f : FS -> result A * gmap path node) :
  (forall fs tick, leads_to dst d fs -> contained dst d fs (mkFS (f fs).2 tick)) -> preserves (confined dst d) (os_op f).
Proof.
  intros H fs Hd. unfold os_op. destruct (os_fault _); [apply contained_refl|].
  specialize (H fs (S (fs_tick fs)) Hd). by destruct (f fs).
Qed.

(** A path that goes on below the destination. *)
Lemma leads_below fs rel : leads_to dst d fs -> Forall safe_elem rel -> follow (fs_nodes fs) (at_path dst rel) = Some (at_path d rel).
Proof.
  intros [Hf Hl] Hs. apply follow_below; [done..|]. intros l Hne (more & ->). apply Hl.
  apply Forall_app in Hs as [Hs _]. split; [done|]. by exists l.
Qed.
Lemma below_at rel : rel <> [] -> Forall safe_elem rel -> below d (at_path d rel).
Proof. intros Hne Hs. split; [done|]. by exists rel. Qed.

(** A directory on the way to a place in the destination. *)
Lemma prefix_cases rel q :
  q ∈ prefixes (at_path dst rel) -> Forall safe_elem rel ->
  q ∈ prefixes dst \/ exists l, l <> [] /\ Forall safe_elem l /\ q = at_path dst l.
Proof.
  unfold prefixes. intros (n & <- & Hn%in_seq)%list_elem_of_In%in_map_iff Hs. unfold at_path in *. cbn [fst snd] in *.
  rewrite length_app in Hn. destruct (decide (n <= length dst.2)%nat) as [Hl|Hl].
  - left. apply list_elem_of_In, in_map_iff. exists n. rewrite take_app_le by done. split; [done|]. apply in_seq. lia.
  - right. exists (firstn (n - length dst.2) rel). rewrite take_app_ge by lia. split_and!; [|by apply Forall_take|done].
    destruct rel; cbn in *; [lia|]. by replace (n - length dst.2)%nat with (S (n - length dst.2 - 1)) by lia.
Qed.

Lemma confined_MkdirAll rel : Forall safe_elem rel -> preserves (confined dst d) (os_MkdirAll (at_path dst rel)).
Proof.
  intros Hs. apply preserves_forM; [apply _|]. intros q Hq. apply confined_op. intros fs tick Hd.
  cbv zeta. destruct (follow (fs_nodes fs) q) as [p|] eqn:Ef; cbn [at_real]; [|apply contained_refl].
  destruct (lookup_node fs p) as [[]|] eqn:El; try apply contained_refl. case_bool_decide; [|apply contained_refl]. cbn [snd].
  assert (Hp : fs_nodes fs !! p = None) by by by apply node_None.
  destruct (prefix_cases _ _ Hq Hs) as [Hw|(l & Hne & Hl & ->)].
  - split; [apply same_links_insert; [by apply node_None_no_link|done]|].
    intros p'. cbn. destruct (decide (p' = p)) as [->|Hne]; [|left; by rewrite lookup_insert_ne].
    right; left. rewrite lookup_insert_eq. split; [by exists q|done].
  - rewrite (leads_below fs l Hd Hl) in Ef. injection Ef as <-. apply contained_insert; [done|by apply below_at|by left].
Qed.

Lemma path_dir_at rel : rel <> [] -> path_dir (at_path dst rel) = at_path dst (removelast rel).
Proof. intros Hne. unfold path_dir, at_path. cbn [fst snd]. by rewrite removelast_app. Qed.

Lemma Forall_removelast {A} (P : A -> Prop) l : Forall P l -> Forall P (removelast l).
Proof.
  destruct (decide (l = [])) as [->|Hne]; [done|]. destruct (exists_last Hne) as (up & x & ->).
  rewrite removelast_last. by intros [? _]%Forall_app.
Qed.

(** The open file is a place in the destination. *)
Lemma OpenTrunc_below rel fs file fs' :
  rel <> [] -> Forall safe_elem rel -> leads_to dst d fs -> os_OpenTrunc (at_path dst rel) fs = (Ok file, fs') ->
  file = at_path d rel.
Proof.
  intros Hne Hs Hd. unfold os_OpenTrunc, os_op. destruct (os_fault _); [done|]. cbv zeta.
  rewrite (leads_below fs rel Hd Hs). cbn [at_real]. by destruct (lookup_node fs _) as [[]|]; intros [= <- _].
Qed.

Lemma confined_OpenTrunc rel : rel <> [] -> Forall safe_elem rel -> preserves (confined dst d) (os_OpenTrunc (at_path dst rel)).
Proof.
  intros Hne Hs. apply confined_op. intros fs tick Hd. cbv zeta. rewrite (leads_below fs rel Hd Hs). cbn [at_real].
  destruct (lookup_node fs _) as [[]|]; cbn [snd]; try apply contained_refl;
    (apply contained_insert; [done|by apply below_at|right; by eexists]).
Qed.

Lemma confined_CopyN rel body size : rel <> [] -> Forall safe_elem rel -> preserves (confined dst d) (io_CopyN (at_path d rel) body size).
Proof.
  intros Hne Hs f Hf. unfold io_CopyN.
  destruct (os_fault _); cbn; (apply contained_insert; [done|by apply below_at|right; by eexists]).
Qed.

Lemma confined_writeRegularFile rel body size :
  rel <> [] -> Forall safe_elem rel -> preserves (confined dst d) (writeRegularFile (at_path dst rel) body size).
Proof.
  intros Hne Hs. unfold writeRegularFile. rewrite path_dir_at by done.
  apply preserves_bind; [apply _|by apply confined_MkdirAll, Forall_removelast|intros _].
  apply preserves_bind; [apply _| |intros info].
  { apply confined_op. intros fs tick _. destruct (follow_dir _ _); apply contained_refl. }
  assert (Hw : preserves (confined dst d) (
    let! file := os_OpenTrunc (at_path dst rel) in
    let! copied := try (io_CopyN file body size) in
    let! closed := try file_Close in
    match copied with Err copyErr => fail copyErr | Ok _ => lift closed end)).
  { intros fs Hd. pose proof (confined_OpenTrunc rel Hne Hs fs Hd) as Ho. unfold bind at 1.
    destruct (os_OpenTrunc _ fs) as [[file|e] f1] eqn:E; [|done]. cbn [snd] in Ho.
    apply OpenTrunc_below in E as ->; [|done..].
    refine ((_ : confined dst d fs _) Hd). etrans; [intros _; exact Ho|]. revert f1 Ho.
    assert (Hr : preserves (confined dst d) (
      let! copied := try (io_CopyN (at_path d rel) body size) in
      let! closed := try file_Close in
      match copied with Err copyErr => fail copyErr | Ok _ => lift closed end)); [|intros f1 _; apply Hr].
    apply preserves_bind; [apply _| |intros copied].
    { by apply preserves_try, confined_CopyN. }
    apply preserves_bind; [apply _| |intros closed].
    { apply preserves_try, confined_op. intros. apply contained_refl. }
    destruct copied; [apply preserves_lift|apply preserves_fail]; apply _. }
  destruct info as [[| |]|]; try done. apply preserves_fail. apply _.
Qed.
End Containment.

Section ExtractContainment.
Context `{SYS : !OS} (d : path).

Lemma at_path_nil p : at_path p [] = p.
Proof. unfold at_path. rewrite app_nil_r. by destruct p. Qed.
Lemma confined_MkdirAll_dst dst : preserves (confined dst d) (os_MkdirAll dst).
Proof. rewrite <- (at_path_nil dst) at 2. by apply confined_MkdirAll. Qed.

Lemma confined_extractEntry dst options total e :
  dst <> "" -> preserves (confined (parse dst) d) (extractEntry dst options total e).
Proof.
  intros Hd fs. unfold extractEntry, bind at 1, lift.
  match goal with |- context [safeArchivePath ?x] => generalize x; intros raw end.
  destruct (safeArchivePath raw) as [name|err] eqn:Es; [|reflexivity].
  apply safeArchivePath_Ok in Es as (-> & _ & Hs). revert fs.
  match goal with |- forall fs, confined _ _ fs (?m fs).2 => change (preserves (confined (parse dst) d) m) end.
  rewrite parse_join by done. change (_, _ ++ _)%list with (at_path (parse dst) (split_byte slash raw)).
  assert (P : PreOrder (confined (parse dst) d)) by apply _.
  repeat (apply preserves_if); try (by apply preserves_fail).
  - apply preserves_bind; [done| |intros; by apply preserves_ret]. by apply confined_MkdirAll.
  - apply preserves_bind; [done| |intros; by apply preserves_ret].
    apply confined_writeRegularFile; [apply split_byte_nonempty|done].
Qed.

Lemma confined_extractLoop ctx dst options archive ending total entries :
  dst <> "" -> preserves (confined (parse dst) d) (extractLoop ctx dst options archive ending total entries).
Proof.
  intros Hd. assert (P : PreOrder (confined (parse dst) d)) by apply _.
  revert total entries. induction archive as [|e archive IH]; intros total entries; cbn [extractLoop];
    (destruct (ctx entries); [by apply preserves_fail|]).
  - destruct ending; [apply preserves_if; [by apply preserves_fail|by apply preserves_ret]|by apply preserves_fail].
  - apply preserves_bind; [done|by apply confined_extractEntry|done].
Qed.
End ExtractContainment.

(** ** How much an extraction writes *)

Definition node_size (n : node) : Z := match n with NFile c => len c | _ => 0 end.
(** The bytes of all files. *)
Definition fs_size (nodes : gmap path node) : Z := map_fold (fun _ n acc => node_size n + acc) 0 nodes.

Lemma node_size_nonneg n : 0 <= node_size n.
Proof. destruct n; simpl; [lia|apply len_nonneg|lia]. Qed.

Lemma fs_size_fresh nodes p n :
  nodes !! p = None -> fs_size (<[p := n]> nodes) = node_size n + fs_size nodes.
Proof. intros H. unfold fs_size. rewrite map_fold_insert_L; [done| |done]. intros. lia. Qed.

Lemma fs_size_insert nodes p n : fs_size (<[p := n]> nodes) <= node_size n + fs_size nodes.
Proof.
  rewrite <- insert_delete_eq, fs_size_fresh by apply lookup_delete_eq.
  destruct (nodes !! p) as [n0|] eqn:E; [|by rewrite delete_id].
  rewrite <- (insert_delete_id nodes p n0 E) at 2. rewrite fs_size_fresh by apply lookup_delete_eq.
  pose proof (node_size_nonneg n0). lia.
Qed.

Definition grows (k : Z) (fs fs' : FS) : Prop := fs_size (fs_nodes fs') <= fs_size (fs_nodes fs) + k.

#[export] Instance grows_preorder : PreOrder (grows 0).
Proof. split; unfold grows; [intros ?; lia|intros ? ? ?; lia]. Qed.

(** What is at [p] stays as it is. *)
Definition keeps (p : path) (fs fs' : FS) : Prop :=
  forall n, fs_nodes fs !! p = Some n -> fs_nodes fs' !! p = Some n.
(** It does as long as the destination is where it was. *)
Definition keeps_in (dst d p : path) (fs fs' : FS) : Prop :=
  leads_to dst d fs -> leads_to dst d fs' /\ keeps p fs fs'.

#[export] Typeclasses Opaque confined keeps_in.
#[export] Instance keeps_in_preorder dst d p : PreOrder (keeps_in dst d p).
Proof.
  split; [intros fs H; split; [done|intros ?; done]|]. intros f1 f2 f3 H12 H23 H. destruct (H12 H) as [L2 K12].
  destruct (H23 L2) as [L3 K23]. split; [done|]. intros n Hn. by apply K23, K12.
Qed.

Section Contents.
Context `{SYS : !OS}.

Lemma grows_bind {A B} (m : M FS A) (k : A -> M FS B) x y :
  0 <= y -> preserves (grows x) m -> (forall a, preserves (grows y) (k a)) -> preserves (grows (x + y)) (bind m k).
Proof.
  intros Hy Hm Hk fs. unfold bind. specialize (Hm fs). destruct (m fs) as [[a|e] fs']; unfold grows in *;
    cbn in Hm |- *; [specialize (Hk a fs'); unfold grows in Hk|]; lia.
Qed.

Lemma grows_op {A} (f : FS -> result A * gmap path node) :
  (forall fs, fs_size (f fs).2 <= fs_size (fs_nodes fs)) -> preserves (grows 0) (os_op f).
Proof.
  intros H fs. unfold os_op, grows. specialize (H fs). destruct (os_fault _); [cbn; lia|].
  destruct (f fs). cbn in *. lia.
Qed.

Lemma grows_MkdirAll p : preserves (grows 0) (os_MkdirAll p).
Proof.
  apply preserves_forM; [apply _|]. intros q _. apply grows_op. intros fs.
  cbv zeta. destruct (follow (fs_nodes fs) q) as [p'|]; cbn [at_real]; [|cbn; lia].
  destruct (lookup_node fs p') as [[]|]; cbn [snd]; try lia. case_bool_decide; cbn [snd]; [|lia].
  pose proof (fs_size_insert (fs_nodes fs) p' NDir). simpl in *. lia.
Qed.

Lemma len_take_le n s : len (take_string n s) <= Z.of_nat n.
Proof. unfold len. rewrite length_take_string. lia. Qed.

Lemma len_first_bytes size s : 0 <= size -> len (first_bytes size s) <= size.
Proof.
  intros Hs. unfold first_bytes. destruct (_ <=? _) eqn:E; [lia|]. etrans; [apply len_take_le|lia].
Qed.

Lemma grows_CopyN p body size : 0 <= size -> preserves (grows size) (io_CopyN p body size).
Proof.
  intros Hs fs.
  assert (H : forall c, len c <= size -> fs_size (<[p := NFile c]> (fs_nodes fs)) <= fs_size (fs_nodes fs) + size).
  { intros c Hc. etrans; [apply fs_size_insert|]. unfold node_size. lia. }
  pose proof (len_first_bytes size body Hs) as Hw.
  unfold io_CopyN, grows. destruct (os_fault _); apply H; [|done].
  etrans; [|exact Hw]. unfold len. rewrite (length_take_string (os_written _)). lia.
Qed.

Lemma grows_writeRegularFile p body size :
  0 <= size -> preserves (grows size) (writeRegularFile p body size).
Proof.
  intros Hs. unfold writeRegularFile. apply (grows_bind _ _ 0 size Hs); [apply grows_MkdirAll|intros _].
  apply (grows_bind _ _ 0 size Hs); [apply grows_op; intros; destruct (follow_dir _ _); cbn; lia|intros info].
  assert (Hw : preserves (grows size) (
    let! file := os_OpenTrunc p in
    let! copied := try (io_CopyN file body size) in
    let! closed := try file_Close in
    match copied with Err copyErr => fail copyErr | Ok _ => lift closed end)).
  { apply (grows_bind _ _ 0 size Hs); [|intros file].
    { apply grows_op. intros fs. cbv zeta. destruct (follow (fs_nodes fs) p) as [q|]; cbn [at_real]; [|cbn; lia].
      pose proof (fs_size_insert (fs_nodes fs) q (NFile "")).
      change (node_size (NFile "")) with 0 in *.
      destruct (lookup_node fs q) as [[| |]|]; cbn [snd]; lia. }
    replace size with (size + 0) at 1 by lia. apply grows_bind; [lia| |intros copied].
    { apply preserves_try. by apply grows_CopyN. }
    replace 0 with (0 + 0) by lia. apply grows_bind; [lia| |intros closed].
    { apply preserves_try, grows_op. intros; cbn; lia. }
    destruct copied; [apply preserves_lift|apply preserves_fail]; apply _. }
  destruct info as [[| |]|]; try done. intros fs. unfold grows. cbn. lia.
Qed.

Lemma os_op_Ok {A} (f : FS -> result A * gmap path node) fs a fs' :
  os_op f fs = (Ok a, fs') -> f fs = (Ok a, fs_nodes fs').
Proof.
  unfold os_op. destruct (os_fault _); [done|]. destruct (f fs) as [r nodes]. by intros [= -> <-].
Qed.

Lemma os_op_nodes {A} (f : FS -> result A * gmap path node) fs r fs' :
  os_op f fs = (r, fs') ->
  (exists e, os_fault (fs_tick fs) = Some e /\ r = Err e /\ fs_nodes fs' = fs_nodes fs)
  \/ (os_fault (fs_tick fs) = None /\ f fs = (r, fs_nodes fs')).
Proof.
  unfold os_op. destruct (os_fault _) as [e|]; [intros [= <- <-]; left; by exists e|].
  destruct (f fs) as [r0 nodes]. intros [= <- <-]. by right.
Qed.

Section Kept.
Context (dst d : path).

(** What an operation that stays in the destination keeps. *)
Lemma keeps_in_split {A} p (m : M FS A) :
  preserves (confined dst d) m -> (forall fs, leads_to dst d fs -> keeps p fs (m fs).2) -> preserves (keeps_in dst d p) m.
Proof. intros Hc Hk fs Hd. split; [exact (contained_leads _ _ _ _ (Hc fs Hd) Hd)|by apply Hk]. Qed.

Lemma keeps_op {A} (p : path) (fs : FS) (f : FS -> result A * gmap path node) :
  (forall n, fs_nodes fs !! p = Some n -> (f fs).2 !! p = Some n) -> keeps p fs (os_op f fs).2.
Proof.
  intros H n Hn. unfold os_op. destruct (os_fault _); [done|].
  specialize (H n Hn). by destruct (f fs).
Qed.

Lemma keeps_MkdirAll p rel : p.2 <> [] -> Forall safe_elem rel -> preserves (keeps_in dst d p) (os_MkdirAll (at_path dst rel)).
Proof.
  intros Hp Hs. apply keeps_in_split; [by apply confined_MkdirAll|]. intros fs _.
  refine ((_ : preserves (keeps p) _) fs). apply preserves_forM; [split; [intros ? ?; done|intros ? ? ? H1 H2 n Hn; by apply H2, H1]|].
  intros q _ f. apply keeps_op. intros n Hn. cbv zeta. destruct (follow (fs_nodes f) q) as [p'|]; cbn [at_real]; [|done].
  destruct (lookup_node f p') as [[]|] eqn:E; try done. case_bool_decide; [|done]. cbn [snd].
  destruct (decide (p = p')) as [->|]; [|by rewrite lookup_insert_ne].
  exfalso. unfold lookup_node, node_at in E. destruct p' as [? []]; cbn in *; congruence.
Qed.

Lemma keeps_writeRegularFile p rel body size :
  p <> at_path d rel -> p.2 <> [] -> rel <> [] -> Forall safe_elem rel ->
  preserves (keeps_in dst d p) (writeRegularFile (at_path dst rel) body size).
Proof.
  intros Hp Hp2 Hne Hs. unfold writeRegularFile. rewrite path_dir_at by done.
  apply preserves_bind; [apply _|by apply keeps_MkdirAll, Forall_removelast|intros _].
  apply preserves_bind; [apply _| |intros info].
  { apply keeps_in_split; [apply confined_op; intros fs tick _; destruct (follow_dir _ _); apply contained_refl|].
    intros fs _. apply keeps_op. intros n Hn. by destruct (follow_dir _ _). }
  assert (Hw : preserves (keeps_in dst d p) (
    let! file := os_OpenTrunc (at_path dst rel) in
    let! copied := try (io_CopyN file body size) in
    let! closed := try file_Close in
    match copied with Err copyErr => fail copyErr | Ok _ => lift closed end)).
  { assert (Hr : preserves (keeps_in dst d p) (
      let! copied := try (io_CopyN (at_path d rel) body size) in
      let! closed := try file_Close in
      match copied with Err copyErr => fail copyErr | Ok _ => lift closed end)).
    { apply preserves_bind; [apply _| |intros copied].
      { apply preserves_try, keeps_in_split; [by apply confined_CopyN|].
        intros f _ n Hn. unfold io_CopyN. destruct (os_fault _); cbn; by rewrite lookup_insert_ne. }
      apply preserves_bind; [apply _| |intros closed].
      { apply preserves_try, keeps_in_split; [apply confined_op; intros; apply contained_refl|]. intros f _. by apply keeps_op. }
      destruct copied; [apply preserves_lift|apply preserves_fail]; apply _. }
    assert (Ho : preserves (keeps_in dst d p) (os_OpenTrunc (at_path dst rel))).
    { apply keeps_in_split; [by apply confined_OpenTrunc|]. intros fs Hd. apply keeps_op. intros n Hn. cbv zeta.
      rewrite (leads_below dst d fs rel Hd Hs). cbn [at_real]. destruct (lookup_node fs _) as [[]|]; cbn [snd];
        rewrite ?lookup_insert_ne; done. }
    intros fs Hd. specialize (Ho fs Hd). unfold bind. destruct (os_OpenTrunc _ fs) as [[file|e] f1] eqn:E; [|exact Ho].
    apply (OpenTrunc_below dst d) in E as ->; [|done..]. cbn [snd] in Ho. destruct Ho as [L1 K1].
    destruct (Hr f1 L1) as [L2 K2]. split; [exact L2|]. intros n Hn. apply K2, K1, Hn. }
  destruct info as [[| |]|]; try done. apply preserves_fail. apply _.
Qed.

Lemma writeRegularFile_Ok rel body size fs u fs' :
  rel <> [] -> Forall safe_elem rel -> leads_to dst d fs ->
  writeRegularFile (at_path dst rel) body size fs = (Ok u, fs') ->
  size <= len body /\ fs_nodes fs' !! at_path d rel = Some (NFile (first_bytes size body)).
Proof.
  intros Hne Hs Hd H. unfold writeRegularFile in H. rewrite path_dir_at in H by done.
  apply bind_Ok in H as (u1 & f1 & H1 & H).
  assert (L1 : leads_to dst d f1).
  { pose proof (confined_MkdirAll dst d (removelast rel) (Forall_removelast _ _ Hs) fs Hd) as C. rewrite H1 in C.
    by apply (contained_leads _ _ _ _ C). }
  apply bind_Ok in H as (info & f2 & H2 & H). apply os_op_Ok in H2.
  assert (L2 : leads_to dst d f2).
  { unfold leads_to. replace (fs_nodes f2) with (fs_nodes f1); [done|]. destruct (follow_dir _ _); cbn in H2; by inversion H2. }
  assert (Hw : (let! file := os_OpenTrunc (at_path dst rel) in
    let! copied := try (io_CopyN file body size) in
    let! closed := try file_Close in
    match copied with Err copyErr => fail copyErr | Ok _ => lift closed end) f2 = (Ok u, fs'))
    by (destruct info as [[| |]|]; done).
  clear H. apply bind_Ok in Hw as (file & f3 & Ho & H). apply (OpenTrunc_below dst d) in Ho as ->; [|done..].
  apply bind_Ok in H as (copied & f4 & Hc & H).
  apply try_Ok_inv in Hc. apply bind_Ok in H as (closed & f5 & Hcl & H). apply try_Ok_inv in Hcl.
  destruct copied as [[]|]; [|done]. apply lift_Ok in H as [-> ->].
  unfold file_Close in Hcl. destruct u. apply os_op_Ok in Hcl. injection Hcl as Hcl.
  unfold io_CopyN in Hc. destruct (os_fault _); [done|]. destruct (_ <? _) eqn:E; [done|].
  injection Hc as <-. cbn in Hcl. rewrite <- Hcl. split; [lia|apply lookup_insert_eq].
Qed.
End Kept.
End Contents.

(** ** One entry, and all of them *)

Definition is_dir (e : Entry) : bool := header_Typeflag (entry_Header e) =? TypeDir.
Definition is_regular (e : Entry) : bool :=
  (header_Typeflag (entry_Header e) =? TypeReg) || (header_Typeflag (entry_Header e) =? 0).
Definition raw_name (e : Entry) : string :=
  if is_dir e then trim_right_byte slash (header_Name (entry_Header e)) else header_Name (entry_Header e).
Definition size_of (e : Entry) : Z := header_Size (entry_Header e).
(** Where an entry goes: below the name of the destination, and below the
    directory [d] it leads to. *)
Definition names_of (e : Entry) : list string := split_byte slash (raw_name e).
Definition target_of (dst : string) (e : Entry) : path := at_path (parse dst) (names_of e).
Definition place_of (d : path) (e : Entry) : path := at_path d (names_of e).

(** What an archive may hold. *)
Definition acceptable (e : Entry) : Prop :=
  Contains (raw_name e) "\" = false /\ Forall safe_elem (split_byte slash (raw_name e))
  /\ (is_dir e = true \/ (is_regular e = true /\ 0 <= size_of e)).

(** The sum of two sizes does not leave the 64 bits. *)
Definition fits (options : ExtractOptions) (e : Entry) : Prop :=
  size_of e <= int64_max - MaxUncompressedSizeBytes options.

Section Entries.
Context `{SYS : !OS}.
Context (dst : string) (d : path) (options : ExtractOptions).
Hypothesis Hdst : dst <> "".

Lemma place_proper e : (place_of d e).2 <> [].
Proof. intros H. apply app_eq_nil in H as [_ H]. by apply (split_byte_nonempty slash (raw_name e)). Qed.

(** The cases of an entry. *)
Lemma extractEntry_cases total e fs :
  match extractEntry dst options total e fs with
  | (Ok total', fs') =>
      acceptable e
      /\ if is_dir e then total' = total /\ os_MkdirAll (target_of dst e) fs = (Ok tt, fs') else
         wrap64 (total + size_of e) <= MaxUncompressedSizeBytes options
         /\ total' = wrap64 (total + size_of e)
         /\ writeRegularFile (target_of dst e) (entry_Body e) (size_of e) fs = (Ok tt, fs')
  | (Err err, fs') =>
      fs' = fs
      \/ Forall safe_elem (names_of e) /\ ((is_dir e = true /\ os_MkdirAll (target_of dst e) fs = (Err err, fs'))
      \/ (is_dir e = false /\ 0 <= size_of e
          /\ wrap64 (total + size_of e) <= MaxUncompressedSizeBytes options
          /\ writeRegularFile (target_of dst e) (entry_Body e) (size_of e) fs = (Err err, fs')))
  end.
Proof using Hdst.
  unfold extractEntry, acceptable. fold (is_dir e). fold (raw_name e). fold (is_regular e). fold (size_of e).
  unfold bind at 1, lift. destruct (safeArchivePath (raw_name e)) as [name|err] eqn:Es; [|by left].
  apply safeArchivePath_Ok in Es as (-> & Hb & Hs). rewrite insideDir_join by done. cbn [negb].
  rewrite parse_join by done. change (_, _ ++ _)%list with (target_of dst e). destruct (is_dir e).
  - unfold bind. destruct (os_MkdirAll _ fs) as [[[]|err] fs'].
    + split; [split_and!; auto|done].
    + right. split; [done|]. by left.
  - destruct (is_regular e); [|by destruct (_ =? TypeSymlink); [|destruct (_ =? TypeLink)]; left].
    destruct (size_of e <? 0) eqn:E0; [by left|]. destruct (MaxUncompressedSizeBytes options <? wrap64 (total + size_of e)) eqn:E1; [by left|].
    unfold bind. destruct (writeRegularFile _ _ _ fs) as [[[]|err] fs'].
    + split; [split_and!; [done..|right; split; [done|lia]]|]. split_and!; [lia|done..].
    + right. split; [done|]. right. split_and!; [done|lia|lia|done].
Qed.

(** *** The total *)

Lemma extractEntry_grows total e fs :
  0 <= total <= MaxUncompressedSizeBytes options -> fits options e ->
  match extractEntry dst options total e fs with
  | (Ok total', fs') => total <= total' <= MaxUncompressedSizeBytes options /\ grows (total' - total) fs fs'
  | (Err _, fs') => grows (MaxUncompressedSizeBytes options - total) fs fs'
  end.
Proof using Hdst.
  intros Ht Hf. pose proof (extractEntry_cases total e fs) as H. unfold fits in Hf.
  assert (Hw : 0 <= size_of e -> wrap64 (total + size_of e) = total + size_of e)
    by (intros; apply wrap64_id; unfold is_int64, int64_min, int64_max in *; lia).
  assert (Hmk := grows_MkdirAll (target_of dst e) fs).
  assert (Hwr := fun Hs => grows_writeRegularFile (target_of dst e) (entry_Body e) (size_of e) Hs fs).
  destruct (extractEntry _ _ _ _ _) as [[total'|err] fs'].
  - destruct H as [(_ & _ & Ha) H]. destruct (is_dir e).
    + destruct H as [-> E]. rewrite E in Hmk. cbn [snd] in Hmk. replace (total - total) with 0 by lia.
      split; [lia|done].
    + destruct Ha as [|[_ Hs]]; [done|]. destruct H as (H1 & -> & E). rewrite (Hw Hs) in H1 |- *.
      specialize (Hwr Hs). rewrite E in Hwr. cbn [snd] in Hwr.
      replace (total + size_of e - total) with (size_of e) by lia. split; [lia|done].
  - destruct H as [->|(_ & [[_ E]|(_ & Hs & H1 & E)])]; [unfold grows; lia| |].
    + rewrite E in Hmk. unfold grows in *. cbn [snd] in Hmk. lia.
    + specialize (Hwr Hs). rewrite E in Hwr. rewrite (Hw Hs) in H1. unfold grows in *. cbn [snd] in Hwr. lia.
Qed.

Lemma extractLoop_grows ctx_Err archive ending total entries fs :
  0 <= total <= MaxUncompressedSizeBytes options -> Forall (fits options) archive ->
  grows (MaxUncompressedSizeBytes options - total) fs
    (extractLoop ctx_Err dst options archive ending total entries fs).2.
Proof using Hdst.
  intros Ht Hf. revert total entries fs Ht.
  assert (H0 : forall total fs, 0 <= total <= MaxUncompressedSizeBytes options ->
    grows (MaxUncompressedSizeBytes options - total) fs fs) by (unfold grows; intros; lia).
  induction Hf as [|e archive He Hf IH]; intros total entries fs Ht; cbn [extractLoop];
    (destruct (ctx_Err entries); [by apply H0|]).
  - destruct ending; [destruct (entries =? 0)%nat|]; by apply H0.
  - pose proof (extractEntry_grows total e fs Ht He) as H. unfold bind.
    destruct (extractEntry _ _ _ _ _) as [[total'|err] fs']; [|done]. destruct H as [H1 H2].
    specialize (IH total' (S entries) fs' ltac:(lia)). unfold grows in *. lia.
Qed.

(** *** The contents *)

(** [e] may change what is at [p]. *)
Definition rewrites (p : path) (e : Entry) : Prop := is_dir e = false /\ place_of d e = p.

Lemma extractEntry_keeps total e p :
  p.2 <> [] -> ~ rewrites p e -> preserves (keeps_in (parse dst) d p) (extractEntry dst options total e).
Proof using Hdst.
  intros Hp Hn fs Hd. split; [exact (contained_leads _ _ _ _ (confined_extractEntry d dst options total e Hdst fs Hd) Hd)|].
  pose proof (extractEntry_cases total e fs) as H. pose proof (split_byte_nonempty slash (raw_name e)) as Hne.
  assert (Hmk : Forall safe_elem (names_of e) -> keeps p fs (os_MkdirAll (target_of dst e) fs).2)
    by (intros Hs; by apply (keeps_MkdirAll (parse dst) d p (names_of e) Hp Hs fs)).
  assert (Hwr : is_dir e = false -> Forall safe_elem (names_of e) ->
    keeps p fs (writeRegularFile (target_of dst e) (entry_Body e) (size_of e) fs).2).
  { intros Ed Hs. apply (keeps_writeRegularFile (parse dst) d p (names_of e)); [intros E; by apply Hn|done..]. }
  destruct (extractEntry _ _ _ _ _) as [[total'|err] fs']; cbn [snd].
  - destruct H as [(_ & Hs & _) H]. specialize (Hmk Hs). destruct (is_dir e); [destruct H as [_ E]|destruct H as (_ & _ & E); specialize (Hwr eq_refl Hs)].
    + by rewrite E in Hmk.
    + by rewrite E in Hwr.
  - destruct H as [->|(Hs & [[_ E]|(Ed & _ & _ & E)])]; [intros ?; done|specialize (Hmk Hs); by rewrite E in Hmk|
      specialize (Hwr Ed Hs); by rewrite E in Hwr].
Qed.

Lemma extractLoop_keeps ctx_Err archive ending total entries p :
  p.2 <> [] -> Forall (fun e => ~ rewrites p e) archive ->
  preserves (keeps_in (parse dst) d p) (extractLoop ctx_Err dst options archive ending total entries).
Proof using Hdst.
  intros Hp H. assert (P : PreOrder (keeps_in (parse dst) d p)) by apply _. revert total entries.
  induction H as [|e archive He H IH]; intros total entries; cbn [extractLoop];
    (destruct (ctx_Err entries); [by apply preserves_fail|]).
  - destruct ending; [apply preserves_if; [by apply preserves_fail|by apply preserves_ret]|by apply preserves_fail].
  - apply preserves_bind; [done|by apply extractEntry_keeps|done].
Qed.

(** What holds after a complete extraction into the directory [d]. *)
Definition unpacked (archive : list Entry) (fs' : FS) : Prop :=
  Forall acceptable archive
  /\ forall pre e post, archive = (pre ++ e :: post)%list -> is_dir e = false ->
       Forall (fun e' => ~ rewrites (place_of d e) e') post ->
       size_of e <= len (entry_Body e)
       /\ fs_nodes fs' !! place_of d e = Some (NFile (first_bytes (size_of e) (entry_Body e))).

Lemma extractLoop_Ok ctx_Err archive ending total entries fs u fs' :
  leads_to (parse dst) d fs -> extractLoop ctx_Err dst options archive ending total entries fs = (Ok u, fs') ->
  (archive = [] -> entries <> O) /\ ending = EndEOF /\ unpacked archive fs'.
Proof using Hdst.
  revert total entries fs. induction archive as [|e archive IH]; intros total entries fs Hd; cbn [extractLoop];
    (destruct (ctx_Err entries); [done|]).
  - destruct ending; [|done]. destruct (entries =? 0)%nat eqn:E; [done|]. intros [= _ <-].
    apply Nat.eqb_neq in E. split; [done|]. split; [done|]. split; [constructor|]. by intros [].
  - intros (total' & f1 & He & H)%bind_Ok.
    assert (L1 : leads_to (parse dst) d f1).
    { pose proof (confined_extractEntry d dst options total e Hdst fs Hd) as C. rewrite He in C. by apply (contained_leads _ _ _ _ C). }
    pose proof (IH _ _ _ L1 H) as (_ & -> & Ha & Hu).
    pose proof (extractEntry_cases total e fs) as Hc. rewrite He in Hc. destruct Hc as [Hacc Hc].
    split; [done|]. split; [done|]. split; [by constructor|].
    intros [|x pre] e0 post E Ed Hpost; injection E as -> E; [|by apply (Hu pre e0 post)].
    rewrite Ed in Hc. destruct Hc as (_ & _ & Hc). apply (writeRegularFile_Ok (parse dst) d) in Hc as [Hl Hc];
      [|apply split_byte_nonempty|apply Hacc|done].
    split; [done|]. subst post.
    pose proof (extractLoop_keeps ctx_Err archive EndEOF total' (S entries) (place_of d e0) (place_proper e0) Hpost f1 L1) as [_ Hk].
    rewrite H in Hk. by apply Hk.
Qed.
End Entries.

(** ** The theorems *)

(** A path of an archive is accepted, unchanged, exactly when it has no
    backslash and none of its elements is empty, [.] or [..]. *)
Theorem safeArchivePath_correct (path clean : string) :
  safeArchivePath path = Ok clean <->
  clean = path /\ Contains path "\" = false /\ Forall safe_elem (split_byte slash path).
Proof. exact (safeArchivePath_Ok path clean). Qed.

Section Properties.
Context `{SYS : !OS}.

Lemma TrimSpace_nonempty s : (TrimSpace s =? "")%string = false -> s <> "".
Proof. by intros H ->. Qed.

(** C23: whatever the archive holds and however the extraction ends (errors of
    the operating system, of the archive, of the context), when the destination
    leads to the directory [d], possibly through links, and there are no links in
    [d], then nothing outside [d] changes except that missing directories on the
    way to it are made, in it only directories and regular files are written, and
    no link is made or replaced anywhere. *)
Theorem ExtractTarGzSafe_contained ctx_Err dst d options gzip fs :
  leads_to (parse dst) d fs -> contained (parse dst) d fs (ExtractTarGzSafe ctx_Err dst options gzip fs).2.
Proof.
  revert fs. change (preserves (confined (parse dst) d) (ExtractTarGzSafe ctx_Err dst options gzip)).
  assert (P : PreOrder (confined (parse dst) d)) by apply _. unfold ExtractTarGzSafe.
  destruct (_ <=? 0); [by apply preserves_fail|].
  destruct (TrimSpace dst =? "")%string eqn:E; [by apply preserves_fail|]. apply TrimSpace_nonempty in E.
  apply preserves_bind; [done|apply confined_MkdirAll_dst|intros _].
  apply preserves_bind; [done|by apply preserves_lift|intros [archive ending]].
  by apply confined_extractLoop.
Qed.

(** C25: when no size of the archive comes within the limit of the largest
    64-bit integer, an extraction, complete or not, adds at most the limit to
    the bytes of the file system. *)
Theorem ExtractTarGzSafe_bounded ctx_Err dst options archive ending fs :
  Forall (fits options) archive ->
  fs_size (fs_nodes (ExtractTarGzSafe ctx_Err dst options (Ok (archive, ending)) fs).2)
  <= fs_size (fs_nodes fs) + Z.max 0 (MaxUncompressedSizeBytes options).
Proof.
  intros Hf. unfold ExtractTarGzSafe. destruct (_ <=? 0) eqn:E0; [cbn; lia|].
  destruct (TrimSpace dst =? "")%string eqn:E; [cbn; lia|]. apply TrimSpace_nonempty in E.
  unfold bind. pose proof (grows_MkdirAll (parse dst) fs) as Hm. unfold grows in Hm.
  destruct (os_MkdirAll (parse dst) fs) as [[u|e] f1]; cbn [snd lift] in *; [|lia].
  pose proof (extractLoop_grows dst options E ctx_Err archive ending 0 O f1 ltac:(lia) Hf) as H.
  unfold grows in H. lia.
Qed.

(** C24: a successful extraction had a positive limit, a destination, and a
    non-empty archive read to its end, all of whose entries are directories or
    regular files with safe paths; each file that no later entry replaces has
    exactly the declared bytes of its entry, in the directory [d] to which the
    destination leads and in which there are no links. *)
Theorem ExtractTarGzSafe_correct ctx_Err dst d options gzip fs u fs' :
  leads_to (parse dst) d fs -> ExtractTarGzSafe ctx_Err dst options gzip fs = (Ok u, fs') ->
  0 < MaxUncompressedSizeBytes options /\ TrimSpace dst <> ""
  /\ exists archive, gzip = Ok (archive, EndEOF) /\ archive <> [] /\ unpacked d archive fs'.
Proof.
  intros Hl. unfold ExtractTarGzSafe. destruct (_ <=? 0) eqn:E0; [done|].
  destruct (TrimSpace dst =? "")%string eqn:E; [done|]. pose proof (TrimSpace_nonempty _ E) as Hd.
  intros (u1 & f1 & Hm & H)%bind_Ok. apply bind_Ok in H as ([archive ending] & f2 & Hg & H).
  apply lift_Ok in Hg as [-> ->]. pose proof (confined_MkdirAll_dst d (parse dst) fs Hl) as C. rewrite Hm in C.
  apply (extractLoop_Ok dst d) in H as (H1 & -> & H); [|done|by apply (contained_leads _ _ _ _ C)].
  apply String.eqb_neq in E. split; [lia|]. split; [done|]. exists archive. split; [done|].
  split; [|done]. intros ->. by apply H1.
Qed.
End Properties.

(** ** Examples *)

Module ArchiveExamples.
#[local] Instance calm : OS := { os_fault _ := None; os_written _ := O }.

Definition no_error : nat -> option error := fun _ => None.
Definition empty_fs : FS := mkFS ∅ 0.
Definition options : ExtractOptions := mkExtractOptions 16.
Definition file (name body : string) (size : Z) : Entry := mkEntry (mkHeader name TypeReg size) body.
Definition dir (name : string) : Entry := mkEntry (mkHeader name TypeDir 0) "".
Definition archive : list Entry := [dir "proto/"; file "proto/a.proto" "syntax" 6; file "b" "x" 1].

Example extract_ok :
  let '(r, fs) := ExtractTarGzSafe no_error "/work" options (Ok (archive, EndEOF)) empty_fs in
  r = Ok tt
  /\ fs_nodes fs !! (true, ["work"; "proto"; "a.proto"]) = Some (NFile "syntax")
  /\ fs_nodes fs !! (true, ["work"; "b"]) = Some (NFile "x").
Proof. vm_compute. repeat split. Qed.

Lemma ExtractTarGzSafe_bounded_witness :
  Forall (fits options) archive
  /\ fs_size (fs_nodes (ExtractTarGzSafe no_error "/work" options (Ok (archive, EndEOF)) empty_fs).2) <= 0 + 16.
Proof.
  assert (H : Forall (fits options) archive) by (repeat constructor; vm_compute; discriminate).
  split; [exact H|]. exact (ExtractTarGzSafe_bounded no_error "/work" options archive EndEOF empty_fs H).
Defined.

(** The destination [/data/work] is reached through a link. *)
Definition linked_fs : FS := mkFS {[ (true, ["data"]) := NSymlink "/real"; (true, ["real"]) := NDir ]} 0.
Definition real_work : path := (true, ["real"; "work"]).

Lemma linked_leads : leads_to (parse "/data/work") real_work linked_fs.
Proof.
  split; [vm_compute; reflexivity|]. intros p [_ (es & _ & _ & E)] (t & Ht).
  unfold node_at in Ht. rewrite E in Ht. cbn in Ht.
  apply lookup_insert_Some in Ht as [[<- _]|[_ [<- _]%lookup_singleton_Some]]; discriminate E.
Qed.

Lemma ExtractTarGzSafe_contained_witness :
  let fs' := (ExtractTarGzSafe no_error "/data/work" options (Ok (archive, EndEOF)) linked_fs).2 in
  contained (parse "/data/work") real_work linked_fs fs'
  /\ fs_nodes fs' !! (true, ["real"; "work"; "b"]) = Some (NFile "x").
Proof.
  split; [exact (ExtractTarGzSafe_contained no_error "/data/work" real_work options _ _ linked_leads)|].
  vm_compute. reflexivity.
Defined.

Lemma ExtractTarGzSafe_correct_witness :
  unpacked real_work archive (ExtractTarGzSafe no_error "/data/work" options (Ok (archive, EndEOF)) linked_fs).2.
Proof.
  assert (E : (ExtractTarGzSafe no_error "/data/work" options (Ok (archive, EndEOF)) linked_fs).1 = Ok tt)
    by (vm_compute; reflexivity).
  destruct (ExtractTarGzSafe no_error "/data/work" options (Ok (archive, EndEOF)) linked_fs) as [r fs'] eqn:E1.
  cbn [fst] in E. subst r.
  destruct (ExtractTarGzSafe_correct _ _ _ _ _ _ _ _ linked_leads E1) as (_ & _ & a & Ha & _ & H).
  cbn [snd]. injection Ha as Ha. rewrite Ha. exact H.
Defined.

(** Containment needs a destination without links: only the last element of a
    target is looked at, and an entry below a link of the destination is written
    where the link leads. *)
Theorem extraction_follows_links :
  let fs := mkFS {[ (true, ["work"; "proto"]) := NSymlink "../etc"; (true, ["etc"]) := NDir ]} 0 in
  let '(r, fs') := ExtractTarGzSafe no_error "/work" options (Ok ([file "proto/passwd" "root" 4], EndEOF)) fs in
  r = Ok tt /\ fs_nodes fs' !! (true, ["etc"; "passwd"]) = Some (NFile "root").
Proof. vm_compute. done. Qed.

(** The limit does not hold without the bound on the sizes: the sum of the
    sizes wraps around, and an archive that declares a file of the largest
    64-bit size is written up to the point where the stream ends. *)
Theorem archive_limit_wraps :
  fs_size (fs_nodes (ExtractTarGzSafe no_error "/work" (mkExtractOptions 2)
    (Ok ([file "a" "x" 1; file "b" "much more" int64_max], EndEOF)) empty_fs).2) = 10.
Proof. vm_compute. reflexivity. Qed.
End ArchiveExamples.
