(* ===== verification/Urls.v ===== *)
(** * Paths and queries of URLs

    What the program uses of [net/url] and of the paths of [net/http]: the escapes
    of a segment and of a value of a query, the segments of a path and the values
    of a query. The text of a segment is read back, whatever its bytes are. *)

From S2P Require Import Prelude GoStrings Archive.

Open Scope string_scope.
Open Scope Z_scope.

(** ** Escapes *)

Definition hex_digit (z : Z) : ascii := if z <? 10 then byte_char (48 + z) else byte_char (55 + z).
Definition escape_byte (a : ascii) : string :=
  String "%" (String (hex_digit (byte a / 16)) (String (hex_digit (byte a mod 16)) "")).

(** Letters, digits and [-_.~]. *)
Definition unreserved (a : ascii) : bool :=
  let b := byte a in
  ((97 <=? b) && (b <=? 122)) || ((65 <=? b) && (b <=? 90)) || ((48 <=? b) && (b <=? 57))
  || (b =? 45) || (b =? 95) || (b =? 46) || (b =? 126).
(** In a segment [$&+=:@] stay too. *)
Definition segment_byte (a : ascii) : bool :=
  let b := byte a in
  unreserved a || (b =? 36) || (b =? 38) || (b =? 43) || (b =? 61) || (b =? 58) || (b =? 64).

(** [url.PathEscape]. *)
Fixpoint PathEscape (s : string) : string :=
  match s with
  | "" => ""
  | String a s' => (if segment_byte a then String a "" else escape_byte a) +:+ PathEscape s'
  end.
(** [url.QueryEscape]. *)
Fixpoint QueryEscape (s : string) : string :=
  match s with
  | "" => ""
  | String a s' =>
      (if unreserved a then String a "" else if byte a =? 32 then "+" else escape_byte a) +:+ QueryEscape s'
  end.

Definition hex_value (a : ascii) : option Z :=
  let b := byte a in
  if (48 <=? b) && (b <=? 57) then Some (b - 48) else
  if (97 <=? b) && (b <=? 102) then Some (b - 87) else
  if (65 <=? b) && (b <=? 70) then Some (b - 55) else None.

(** [url.PathUnescape] of a segment; in a query a plus is a space. *)
Fixpoint unescape (plus : bool) (s : string) : option string :=
  match s with
  | "" => Some ""
  | String a s1 =>
      if Ascii.eqb a "%" then
        match s1 with
        | String h (String l s3) =>
            match hex_value h, hex_value l, unescape plus s3 with
            | Some x, Some y, Some rest => Some (String (byte_char (x * 16 + y)) rest)
            | _, _, _ => None
            end
        | _ => None
        end
      else String (if plus && Ascii.eqb a "+" then " "%char else a) <$> unescape plus s1
  end.
Definition PathUnescape : string -> option string := unescape false.
Definition QueryUnescape : string -> option string := unescape true.

Fixpoint unescape_all (segments : list string) : option (list string) :=
  match segments with
  | [] => Some []
  | s :: rest =>
      match PathUnescape s, unescape_all rest with Some x, Some xs => Some (x :: xs) | _, _ => None end
  end.

(** The segments of a path, cleaned; a slash at its end stays. *)
Definition path_segments (path : string) : list string :=
  (clean_elems true (split_byte "/" path) ++ (if HasSuffix path "/" then [""] else []))%list.

(** [url.ParseQuery]; what is not well formed is left out. *)
Definition cut_byte (c : ascii) (s : string) : string * string :=
  match split_byte c s with
  | x :: (y :: rest) => (x, strings_Join (String c "") (y :: rest))
  | _ => (s, "")
  end.
Definition parse_value (part : string) : list (string * string) :=
  if (part =? "")%string || negb (no_byte ";" part) then [] else
  let '(key, value) := cut_byte "=" part in
  match QueryUnescape key, QueryUnescape value with Some k, Some v => [(k, v)] | _, _ => [] end.
Definition ParseQuery (query : string) : list (string * string) := flat_map parse_value (split_byte "&" query).

(** ** What is escaped is read back *)

Lemma segment_byte_clean a :
  segment_byte a = true ->
  Ascii.eqb a "%" = false /\ Ascii.eqb a slash = false /\ Ascii.eqb a "?" = false.
Proof. destruct a as [[] [] [] [] [] [] [] []]; intros H; by try discriminate H. Qed.
Lemma unreserved_clean a :
  unreserved a = true ->
  Ascii.eqb a "%" = false /\ Ascii.eqb a "+" = false /\ Ascii.eqb a "&" = false /\ Ascii.eqb a "=" = false
  /\ Ascii.eqb a ";" = false.
Proof. destruct a as [[] [] [] [] [] [] [] []]; intros H; by try discriminate H. Qed.

Lemma hex_digits a :
  hex_value (hex_digit (byte a / 16)) = Some (byte a / 16) /\ hex_value (hex_digit (byte a mod 16)) = Some (byte a mod 16)
  /\ byte_char (byte a / 16 * 16 + byte a mod 16) = a.
Proof. destruct a as [[] [] [] [] [] [] [] []]; by split_and!. Qed.

Lemma unescape_byte plus a s : unescape plus (escape_byte a +:+ s) = String a <$> unescape plus s.
Proof.
  destruct (hex_digits a) as (H1 & H2 & H3). unfold escape_byte. cbn [String.append unescape].
  change (Ascii.eqb "%" "%") with true. cbn iota. rewrite H1, H2, H3. by destruct (unescape plus s).
Qed.

Lemma PathUnescape_escape s : PathUnescape (PathEscape s) = Some s.
Proof.
  unfold PathUnescape. induction s as [|a s IH]; [done|]. cbn [PathEscape].
  destruct (segment_byte a) eqn:E; [|by rewrite unescape_byte, IH].
  destruct (segment_byte_clean a E) as (H & _). cbn [String.append unescape]. by rewrite H, IH.
Qed.
Lemma QueryUnescape_escape s : QueryUnescape (QueryEscape s) = Some s.
Proof.
  unfold QueryUnescape. induction s as [|a s IH]; [done|]. cbn [QueryEscape].
  destruct (unreserved a) eqn:E.
  - destruct (unreserved_clean a E) as (H & H' & _). cbn [String.append unescape andb]. by rewrite H, H', IH.
  - destruct (byte a =? 32) eqn:E'; [|by rewrite unescape_byte, IH]. cbn [String.append unescape].
    change (Ascii.eqb "+" "%") with false. change (Ascii.eqb "+" "+") with true. cbn. rewrite IH. cbn.
    by destruct a as [[] [] [] [] [] [] [] []].
Qed.

(** The bytes that an escaped text does not hold. *)
Definition absent (c : ascii) (s : string) : Prop := no_byte c s = true.

Lemma escape_byte_absent c a :
  Ascii.eqb c "%" = false -> hex_value c = None -> absent c (escape_byte a).
Proof.
  intros H1 H2. destruct (hex_digits a) as (D1 & D2 & _). unfold absent, no_byte, escape_byte. cbn [forallb_string].
  rewrite !andb_true_r, !andb_true_iff, !negb_true_iff. split_and!.
  - by rewrite Ascii.eqb_sym.
  - apply Ascii.eqb_neq. intros E. congruence.
  - apply Ascii.eqb_neq. intros E. congruence.
Qed.
Lemma absent_app c s t : absent c s -> absent c t -> absent c (s +:+ t).
Proof. unfold absent, no_byte. intros H1 H2. by rewrite forallb_string_app, H1, H2. Qed.

Lemma PathEscape_absent c s :
  segment_byte c = false -> Ascii.eqb c "%" = false -> hex_value c = None -> absent c (PathEscape s).
Proof.
  intros H1 H2 H3. induction s as [|a s IH]; [done|]. cbn [PathEscape]. apply absent_app; [|done].
  destruct (segment_byte a) eqn:E; [|by apply escape_byte_absent].
  unfold absent, no_byte. cbn. rewrite andb_true_r. apply negb_true_iff, Ascii.eqb_neq. intros ->. congruence.
Qed.
Lemma QueryEscape_absent c s :
  unreserved c = false -> Ascii.eqb c "%" = false -> Ascii.eqb c "+" = false -> hex_value c = None ->
  absent c (QueryEscape s).
Proof.
  intros H1 H2 H4 H3. induction s as [|a s IH]; [done|]. cbn [QueryEscape]. apply absent_app; [|done].
  destruct (unreserved a) eqn:E.
  - unfold absent, no_byte. cbn. rewrite andb_true_r. apply negb_true_iff, Ascii.eqb_neq. intros ->. congruence.
  - destruct (byte a =? 32); [|by apply escape_byte_absent].
    unfold absent, no_byte. cbn [forallb_string]. rewrite andb_true_r, negb_true_iff. apply Ascii.eqb_neq in H4.
    apply Ascii.eqb_neq. congruence.
Qed.

Lemma PathEscape_empty s : PathEscape s = "" -> s = "".
Proof. destruct s as [|a s]; [done|]. cbn. unfold escape_byte. by destruct (segment_byte a). Qed.
(** An escaped segment is a dot or two only when the segment is. *)
Lemma PathEscape_inj s t : PathEscape s = PathEscape t -> s = t.
Proof. intros H. apply (f_equal PathUnescape) in H. rewrite !PathUnescape_escape in H. by injection H. Qed.
Lemma PathEscape_safe s : safe_elem s -> safe_elem (PathEscape s).
Proof.
  intros (H1 & H2 & H3). split_and!.
  - by intros ?%PathEscape_empty.
  - change "." with (PathEscape "."). by intros ?%PathEscape_inj.
  - change ".." with (PathEscape ".."). by intros ?%PathEscape_inj.
Qed.

Lemma cut_none c s : absent c s -> cut_byte c s = (s, "").
Proof. intros H. unfold cut_byte. by rewrite split_byte_none. Qed.
Lemma cut_once c s t : absent c s -> cut_byte c (s +:+ String c t) = (s, t).
Proof.
  intros H. unfold cut_byte. rewrite split_byte_app, split_byte_none by done. cbn [app].
  pose proof (strings_Join_split c t) as E. destruct (split_byte c t) as [|y rest] eqn:Es; [by destruct (split_byte_nonempty c t)|].
  by rewrite E.
Qed.
