(* ===== verification/Storage.v ===== *)
(** * The store of artifacts

    [storage/*.go]: the keys of artifacts and the interface of the store with
    its laws; [infrastructure/objectstorage/s3/artifact_store.go]: the store on
    an S3 client, which is given by what its operations promise. *)

From S2P Require Import Prelude Errors GoStrings Domain Effects.

Open Scope string_scope.
Open Scope Z_scope.

(** ** Keys ([key.go]) *)

Definition BuildSourceArchiveKey (module : ModuleName) (version : Version) (checksumSHA256 : string) : string :=
  let checksum := TrimSpace checksumSHA256 in
  "modules/" +:+ module +:+ "/versions/" +:+ version +:+ "/source/sha256-" +:+ checksum +:+ ".tar.gz".

Definition BuildBufImageKey (module : ModuleName) (version : Version) (checksumSHA256 : string) : string :=
  let checksum := TrimSpace checksumSHA256 in
  "modules/" +:+ module +:+ "/versions/" +:+ version +:+ "/buf-image/sha256-" +:+ checksum +:+ ".binpb".

Definition BuildArtifactKey := BuildSourceArchiveKey.

(** ** The store ([artifact_store.go]) *)

(** The objects, and the number of requests so far. *)
Record Bucket := mkBucket { bk_objects : gmap string string; bk_tick : nat }.

Record ArtifactObject := mkArtifactObject {
  object_Key : string;
  object_ContentType : string;
  object_SizeBytes : Z;
  object_Body : result string }.       (* what reading the body to its end gives *)

Class ArtifactStore := {
  store_Put : string -> string -> Z -> M Bucket ArtifactObject;
  store_Get : string -> M Bucket ArtifactObject;
  store_Delete : string -> M Bucket unit }.

(** What the program relies on: a request that fails did its work or nothing,
    and no request touches another object. *)
Class ArtifactStoreLaws `{STORE : !ArtifactStore} := {
  Put_law key body size b r b' : size = len body -> store_Put key body size b = (r, b') ->
    match r with
    | Ok o => object_Key o = key /\ object_SizeBytes o = len body /\ bk_objects b' = <[key := body]> (bk_objects b)
    | Err _ => bk_objects b' = bk_objects b \/ bk_objects b' = <[key := body]> (bk_objects b)
    end;
  Get_law key b r b' : store_Get key b = (r, b') ->
    bk_objects b' = bk_objects b
    /\ match r with
       | Ok o => object_Key o = key /\ forall body, object_Body o = Ok body -> bk_objects b !! key = Some body
       | Err _ => True
       end;
  Delete_law key b r b' : store_Delete key b = (r, b') ->
    match r with
    | Ok _ => bk_objects b' = delete key (bk_objects b)
    | Err _ => bk_objects b' = bk_objects b \/ bk_objects b' = delete key (bk_objects b)
    end }.
#[global] Hint Mode ArtifactStoreLaws - : typeclass_instances.

(** ** S3 *)

Definition artifactContentType : string := "application/gzip".

Record storedObject := mkStoredObject {
  stored_body : result string;
  stored_contentType : string;
  stored_sizeBytes : Z }.

(** [objectClient], without the context. *)
Class ObjectClient := {
  client_put : string -> string -> string -> Z -> string -> M Bucket Z;
  client_get : string -> string -> M Bucket storedObject;
  client_delete : string -> string -> M Bucket unit }.

Section S3.
Context `{CLIENT : !ObjectClient}.
Variable bucket : string.

#[global] Instance s3_store : ArtifactStore := {|
  store_Put := fun key body sizeBytes =>
    let! written := client_put bucket key body sizeBytes artifactContentType in
    ret (mkArtifactObject key artifactContentType written (Ok ""));
  store_Get := fun key =>
    let! object := client_get bucket key in
    ret (mkArtifactObject key (stored_contentType object) (stored_sizeBytes object) (stored_body object));
  store_Delete := fun key => client_delete bucket key |}.

(** What S3 documents of the three requests. *)
Class ObjectClientLaws := {
  put_law key body size contentType b r b' : size = len body ->
    client_put bucket key body size contentType b = (r, b') ->
    match r with
    | Ok written => written = len body /\ bk_objects b' = <[key := body]> (bk_objects b)
    | Err _ => bk_objects b' = bk_objects b \/ bk_objects b' = <[key := body]> (bk_objects b)
    end;
  get_law key b r b' : client_get bucket key b = (r, b') ->
    bk_objects b' = bk_objects b
    /\ match r with
       | Ok o => forall body, stored_body o = Ok body -> bk_objects b !! key = Some body
       | Err _ => True
       end;
  delete_law key b r b' : client_delete bucket key b = (r, b') ->
    match r with
    | Ok _ => bk_objects b' = delete key (bk_objects b)
    | Err _ => bk_objects b' = bk_objects b \/ bk_objects b' = delete key (bk_objects b)
    end }.

#[global] Instance s3_store_laws : ObjectClientLaws -> ArtifactStoreLaws.
Proof.
  intros L. split.
  - intros key body size b r b' Hs. cbn [store_Put s3_store]. unfold bind.
    destruct (client_put _ _ _ _ _ b) as [[n|e] b1] eqn:E; intros [= <- <-];
      pose proof (put_law _ _ _ _ _ _ _ Hs E) as H; [|exact H]. destruct H as [-> H]. done.
  - intros key b r b'. cbn [store_Get s3_store]. unfold bind.
    destruct (client_get _ _ b) as [[o|e] b1] eqn:E; intros [= <- <-];
      destruct (get_law _ _ _ _ E) as [H1 H2]; by split.
  - intros key b r b'. cbn [store_Delete s3_store]. apply delete_law.
Qed.
End S3.

(** ** Keys identify their artifact *)

Definition key_slash : ascii := "/"%char.
Definition key_part (s : string) : Prop := no_byte key_slash s = true.

Lemma no_byte_app c s t : no_byte c (s +:+ t) = no_byte c s && no_byte c t.
Proof. induction s as [|a s IH]; [done|]. unfold no_byte in *. cbn. rewrite IH. by destruct (negb _). Qed.

Lemma key_split module version dir name :
  key_part module -> key_part dir -> key_part name ->
  split_byte key_slash ("modules/" +:+ module +:+ "/versions/" +:+ version +:+ "/" +:+ dir +:+ "/" +:+ name)
  = ("modules" :: module :: "versions" :: split_byte key_slash version ++ [dir; name])%list.
Proof.
  intros Hm Hd Hn.
  change ("modules/" +:+ module +:+ "/versions/" +:+ version +:+ "/" +:+ dir +:+ "/" +:+ name) with
    ("modules" +:+ String key_slash (module +:+ String key_slash ("versions" +:+ String key_slash
      (version +:+ String key_slash (dir +:+ String key_slash name))))).
  rewrite !split_byte_app, (split_byte_none _ module), (split_byte_none _ dir), (split_byte_none _ name) by done.
  done.
Qed.

(** Two keys of the same kind with the same name have the same parts. *)
Lemma key_inj m1 m2 v1 v2 d1 d2 n1 n2 :
  key_part m1 -> key_part m2 -> key_part d1 -> key_part d2 -> key_part n1 -> key_part n2 ->
  "modules/" +:+ m1 +:+ "/versions/" +:+ v1 +:+ "/" +:+ d1 +:+ "/" +:+ n1
  = "modules/" +:+ m2 +:+ "/versions/" +:+ v2 +:+ "/" +:+ d2 +:+ "/" +:+ n2 ->
  m1 = m2 /\ v1 = v2 /\ d1 = d2 /\ n1 = n2.
Proof.
  intros M1 M2 D1 D2 N1 N2 E%(f_equal (split_byte key_slash)). rewrite !key_split in E by done.
  change (split_byte key_slash v1 ++ [d1; n1])%list with (split_byte key_slash v1 ++ [d1] ++ [n1])%list in E.
  change (split_byte key_slash v2 ++ [d2; n2])%list with (split_byte key_slash v2 ++ [d2] ++ [n2])%list in E.
  injection E as -> E. rewrite (app_assoc _ [d1] [n1]), (app_assoc _ [d2] [n2]) in E.
  apply app_inj_tail in E as [[E ->]%app_inj_tail ->]. by apply split_byte_inj in E as ->.
Qed.
