(* ===== verification/Registry.v ===== *)
(** * The registry

    [usecase/registry/service.go], [types.go], [generators.go] and
    [dependency_queries.go]: modules, the publication of a version with its
    artifacts, deprecation, checks for breaking changes, tokens, and the queries
    of the dependency graph.  [format/breaking/formatter.go] writes the summary of
    a report.  [buf] is a program the server runs: what it answers is a
    parameter. *)

From S2P Require Import Prelude Errors GoStrings JsonScan Domain Json Effects Postgres Outbox Events Tables World GovernanceStore UseCase CatalogStore DescriptorStore DependencyStore DependencyGraph Identity Archive Storage.

Open Scope string_scope.
Open Scope Z_scope.

(** ** The summary of a report ([formatter.go]) *)

Definition nl : string := String newline "".

Definition writeHeader (report : BreakingReport) : string :=
  let target := TrimSpace (report_TargetRef report) in
  let target := if (target =? "")%string then "unspecified" else target in
  "ProtoRadar Breaking Change Report" +:+ nl +:+ nl
  +:+ (if (report_ModuleName report =? "")%string then ""
       else "Module: " +:+ report_ModuleName report +:+ nl)
  +:+ (if (report_BaseVersion report =? "")%string then ""
       else "Against: " +:+ report_BaseVersion report +:+ nl)
  +:+ "Target: " +:+ target +:+ nl
  +:+ "Status: " +:+ report_Status report +:+ nl
  +:+ "Changes: " +:+ itoa (report_ChangeCount report) +:+ nl.

Definition writeOptionalLine (label value : string) : string :=
  let value := TrimSpace value in
  if (value =? "")%string then "" else "   " +:+ label +:+ ": " +:+ value +:+ nl.

Definition writeChange (number : Z) (change : BreakingChange) : string :=
  let filePath := TrimSpace (change_FilePath change) in
  let filePath := if (filePath =? "")%string then "(unknown file)" else filePath in
  itoa number +:+ ". " +:+ filePath +:+ nl
  +:+ writeOptionalLine "Rule" (change_RuleID change)
  +:+ writeOptionalLine "Symbol" (change_Symbol change)
  +:+ writeOptionalLine "Package" (change_PackageName change)
  +:+ writeOptionalLine "Category" (change_Category change)
  +:+ writeOptionalLine "Severity" (change_Severity change)
  +:+ writeOptionalLine "Message" (change_Message change).

Fixpoint writeChangeList (number : Z) (changes : list BreakingChange) : string :=
  match changes with
  | [] => ""
  | change :: changes' => writeChange number change +:+ writeChangeList (number + 1) changes'
  end.

Definition writeChanges (changes : list BreakingChange) : string :=
  nl +:+ "Breaking changes:" +:+ nl
  +:+ match changes with
      | [] => "No change details were provided." +:+ nl
      | _ => writeChangeList 1 changes
      end.

Definition writeHumanSummary (report : BreakingReport) : string :=
  if (TrimSpace (report_HumanSummary report) =? "")%string then ""
  else nl +:+ report_HumanSummary report +:+ nl.

Definition FormatReport (report : BreakingReport) (changes : list BreakingChange) : string :=
  writeHeader report
  +:+ (if (report_Status report =? BreakingReportStatusPassed)%string then
         nl +:+ "No breaking changes found." +:+ nl +:+ nl +:+ "Result: no breaking changes found." +:+ nl
       else if (report_Status report =? BreakingReportStatusBreaking)%string then
         writeChanges changes +:+ nl +:+ "Result: breaking changes found." +:+ nl
       else if (report_Status report =? BreakingReportStatusFailed)%string then
         writeHumanSummary report +:+ nl +:+ "Result: breaking check failed." +:+ nl
       else writeHumanSummary report +:+ nl +:+ "Result: status unknown." +:+ nl).

(** ** Types ([types.go]) *)

Record BufWorkflowOptions := mkBufWorkflowOptions {
  wo_RequireBufYAML : bool;
  wo_RunLint : bool }.

Record BufWorkflowResult := mkBufWorkflowResult {
  wr_ConfigInfo : BufConfigInfo;
  wr_BufImage : string;
  wr_BufImageDigest : string;
  wr_LintResult : BufLintResult;
  wr_DescriptorMetadata : DescriptorMetadata }.

Record BufBreakingCheckInput := mkBufBreakingCheckInput {
  bi_Workdir : string;
  bi_BaselineImage : string;
  bi_TargetRef : string }.

Record BufBreakingCheckResult := mkBufBreakingCheckResult {
  br_Status : BreakingReportStatus;
  br_Changes : list BreakingChange;
  br_RawOutput : string;
  br_HumanSummary : string }.

Definition BufLintModeDisabled : string := "disabled".
Definition BufLintModeWarn : string := "warn".
Definition BufLintModeEnforce : string := "enforce".

Record Options := mkOptions {
  MaxArtifactSizeBytes : Z;
  MaxSourceUncompressedSizeBytes : Z;
  TokenHashSecret : string;
  BufRequireConfig : bool;
  BufLintMode : string;
  BreakingMaxChanges : Z;
  BreakingDefaultAgainst : string;
  ArtifactCleanupObserver : bool;      (* set *)
  TokenUsageObserver : bool }.

Record CreateModuleRequest := mkCreateModuleRequest {
  create_Name : string;
  create_Description : string;
  create_RepositoryURL : string }.

(** What a reader yields: its bytes, and the error it ends with. *)
Definition Reader : Type := string * option error.

Record PublishModuleVersionRequest := mkPublishRequest {
  publish_ModuleName : string;
  publish_Version : string;
  publish_Artifact : option Reader }.

Record DeprecateModuleVersionInput := mkDeprecateInput {
  deprecate_ModuleName : string;
  deprecate_Version : string;
  deprecate_Actor : string;
  deprecate_Reason : string }.

(** The name and the checksum a client claims for its archive are not used. *)
Record CheckBreakingRequest := mkCheckBreakingRequest {
  check_ModuleName : string;
  check_Against : string;
  check_TargetRef : string;
  check_ProposedSourceArchive : option Reader;
  check_ArchiveSizeBytes : Z }.

Record PublishModuleVersionResponse := mkPublishResponse {
  resp_Version : ModuleVersion;
  resp_SourceArtifact : Artifact;
  resp_BufImageArtifact : Artifact;
  resp_BufConfig : BufConfigInfo;
  resp_LintResult : BufLintResult;
  resp_MetadataSummary : DescriptorMetadataSummary }.

Record ModuleVersionDetailsResponse := mkVersionDetails {
  details_Version : ModuleVersion;
  details_Artifacts : list Artifact;
  details_BufConfig : BufConfigInfo;
  details_LintResult : BufLintResult;
  details_MetadataSummary : DescriptorMetadataSummary }.

Record ModuleDependencyGraphResponse := mkGraphResponse {
  graph_Module : Module_;
  graph_Upstream : list ModuleDependency;
  graph_Downstream : list ModuleDependency;
  graph_Unresolved : list UnresolvedProtoDependency }.

Record CreateAPITokenRequest := mkCreateTokenRequest {
  newToken_Name : string;
  newToken_ExpiresAt : option time }.

(** ** The state of the service and its environment *)

Record Registry := mkRegistry {
  rg_world : World;
  rg_fs : FS;
  rg_bucket : Bucket;
  rg_observed : list (string * error) }.     (* what the observers were told *)

Definition set_rg_world (w : World) (s : Registry) : Registry :=
  mkRegistry w (rg_fs s) (rg_bucket s) (rg_observed s).
Definition set_rg_fs (fs : FS) (s : Registry) : Registry :=
  mkRegistry (rg_world s) fs (rg_bucket s) (rg_observed s).
Definition set_rg_bucket (b : Bucket) (s : Registry) : Registry :=
  mkRegistry (rg_world s) (rg_fs s) b (rg_observed s).
Definition add_observed (subject : string) (e : error) (s : Registry) : Registry :=
  mkRegistry (rg_world s) (rg_fs s) (rg_bucket s) (rg_observed s ++ [(subject, e)]).

Definition on_db {A} (m : M World A) : M Registry A := zoom rg_world set_rg_world m.
Definition on_fs {A} (m : M FS A) : M Registry A := zoom rg_fs set_rg_fs m.
Definition on_store {A} (m : M Bucket A) : M Registry A := zoom rg_bucket set_rg_bucket m.

(** The libraries the service calls: SHA-256 in hexadecimal, the decompression
    of an archive, the names [os.MkdirTemp] comes up with, what is gone when
    [os.RemoveAll] fails, the context of the request, and random tokens. *)
Class Host := {
  sha256_hex : string -> string;
  open_archive : string -> result (list Entry * ArchiveEnd);
  temp_dir : string -> nat -> string;
  removed_before_failure : nat -> path -> bool;
  request_Err : nat -> option error;
  rand_token : nat -> result string }.

Record Service := mkService {
  svc_dependencies : bool;             (* the fields that may be nil *)
  svc_dependencyRead : bool;
  svc_reports : bool;
  svc_bufWorkflow : option (string -> BufWorkflowOptions -> M FS (BufWorkflowResult * option error));
  svc_bufBreaking : option (BufBreakingCheckInput -> M FS BufBreakingCheckResult);
  svc_options : Options }.

(** [defer cleanup()]. *)
Definition deferred {S A} (cleanup : M S unit) (m : M S A) : M S A := fun s =>
  let '(r, s1) := m s in (r, (cleanup s1).2).

(** [x, err := m; if errors.Is(err, e) { return e' }]. *)
Definition duplicate_as (e' : error) (e : error) : error :=
  if errors_Is e domain.ErrDuplicate then e' else e.

(** [x, err := m; if err != nil && !errors.Is(err, ErrNotFound) { return err }]. *)
Definition found_or {S A} (zero : A) (m : M S A) : M S A :=
  let! r := try m in
  match r with
  | Ok a => ret a
  | Err e => if errors_Is e domain.ErrNotFound then ret zero else fail e
  end.

Section Registry.
Context `{PG : !Postgres} `{ENV : !Env} `{CR : !Crypto} `{SYS : !OS} `{STORE : !ArtifactStore} `{HOST : !Host}.

(** ** Files *)

(** [os.MkdirTemp("", pattern)]: the directory is new. *)
Definition os_MkdirTemp (pattern : string) : M FS string := fun fs =>
  let name := temp_dir pattern (fs_tick fs) in
  os_op (fun fs => at_real (follow_dir (fs_nodes fs) (parse name)) (fs_nodes fs) (fun q =>
    match lookup_node fs q with
    | Some _ => (Err file_exists, fs_nodes fs)
    | None => (Ok name, <[q := NDir]> (fs_nodes fs))
    end)) fs.

Definition under (p q : path) : bool :=
  bool_decide (q.1 = p.1) && bool_decide (firstn (length p.2) q.2 = p.2).

(** [os.RemoveAll]: a link is removed, not what it leads to. *)
Definition os_RemoveAll (p : path) : M FS unit := fun fs =>
  match follow_dir (fs_nodes fs) p with
  | None => (Err too_many_links, mkFS (fs_nodes fs) (S (fs_tick fs)))
  | Some q =>
      match os_fault (fs_tick fs) with
      | Some e =>
          (Err e, mkFS (filter (fun n : path * node =>
                     (under q n.1 && removed_before_failure (fs_tick fs) n.1) = false) (fs_nodes fs)) (S (fs_tick fs)))
      | None => (Ok tt, mkFS (filter (fun n : path * node => under q n.1 = false) (fs_nodes fs)) (S (fs_tick fs)))
      end
  end.

Definition removeTempDir (workdir : string) : M FS unit :=
  let! _ := try (os_RemoveAll (parse workdir)) in ret tt.

(** [os.Stat(filepath.Join(workdir, "buf.yaml"))], for the configuration. *)
Definition stat_buf_yaml (workdir : string) : M FS unit :=
  let! node := stat_path (parse (filepath_Join workdir "buf.yaml")) in
  match node with
  | None => fail registry.ErrBufConfigNotFound
  | Some _ => ret tt
  end.

(** ** Identifiers ([generators.go]) *)

Definition NewModuleID_ : M World ModuleID := let! value := random_hex in ret (NewModuleID value).
Definition NewModuleVersionID_ : M World ModuleVersionID :=
  let! value := random_hex in ret (NewModuleVersionID value).
Definition NewArtifactID_ : M World ArtifactID := let! value := random_hex in ret (NewArtifactID value).
Definition NewAPITokenID_ : M World APITokenID := let! value := random_hex in ret (NewAPITokenID value).
Definition NewBreakingReportID_ : M World BreakingReportID :=
  let! value := random_hex in ret (NewBreakingReportID value).
Definition NewBreakingChangeID_ : M World BreakingChangeID :=
  let! value := random_hex in ret (NewBreakingChangeID value).
Definition NewToken : M World string := fun w => (rand_token (w_tick w), tick w).

(** ** Modules *)

Definition create_module_transaction (module : Module_) (now : time) : M World unit :=
  let! _ := map_err (duplicate_as registry.ErrModuleAlreadyExists) (Module_Create module) in
  let! record := lift (NewModuleCreated module now) in
  let! wall := World.now in
  map_err (duplicate_as registry.ErrModuleAlreadyExists) (Create wall record).

Definition CreateModule (req : CreateModuleRequest) : M World Module_ :=
  let! name := map_err (fun _ => registry.ErrInvalidModuleName : error) (lift (NewModuleName (create_Name req))) in
  let! now := World.now in
  let! moduleID := NewModuleID_ in
  let module := mkModule moduleID name (create_Description req) (create_RepositoryURL req) now now in
  let! _ := WithinTransaction (create_module_transaction module now) in
  ret module.

Definition ListModules (limit offset : Z) : M World (list Module_) := Module_List limit offset.

Definition GetModule (nameValue : string) : M World Module_ :=
  let! name := map_err (fun _ => registry.ErrInvalidModuleName : error) (lift (NewModuleName nameValue)) in
  map_err (not_found_as registry.ErrModuleNotFound) (Module_GetByName name).

(** ** Versions *)

Definition ListModuleVersions (moduleName : string) (limit offset : Z) : M World (list ModuleVersion) :=
  let! module := GetModule moduleName in
  Version_ListByModule (module_ID module) limit offset.

Definition GetModuleVersion (moduleName versionValue : string) : M World ModuleVersion :=
  let! module := GetModule moduleName in
  let! version := map_err (fun _ => registry.ErrInvalidVersion : error) (lift (NewVersion versionValue)) in
  map_err (not_found_as registry.ErrModuleNotFound) (GetByModuleAndVersion (module_ID module) version).

Definition deprecated_version (now : time) (actor reason : string) (v : ModuleVersion) : ModuleVersion :=
  set_deprecation (Some now) actor reason v.

Definition deprecate_transaction (module : Module_) (moduleVersion : ModuleVersion) (now : time)
    (actor reason : string) : M World unit :=
  let! _ := UpdateDeprecation (version_ID moduleVersion) (Some now) actor reason in
  write_outbox (NewModuleVersionDeprecated (mkModuleVersionDeprecated module
    (deprecated_version now actor reason moduleVersion) actor reason now)).

Definition DeprecateModuleVersion (input : DeprecateModuleVersionInput) : M World ModuleVersion :=
  let! name := map_err (fun _ => registry.ErrInvalidModuleName : error)
                 (lift (NewModuleName (deprecate_ModuleName input))) in
  let! versionValue := map_err (fun _ => registry.ErrInvalidVersion : error)
                 (lift (NewVersion (deprecate_Version input))) in
  let actor := TrimSpace (deprecate_Actor input) in
  if (actor =? "")%string then fail registry.ErrInvalidActor else
  let reason := TrimSpace (deprecate_Reason input) in
  let! module := map_err (not_found_as registry.ErrModuleNotFound) (Module_GetByName name) in
  let! moduleVersion := map_err (not_found_as registry.ErrModuleNotFound)
                          (GetByModuleAndVersion (module_ID module) versionValue) in
  if IsDeprecated moduleVersion then ret moduleVersion else
  let! now := World.now in
  let! _ := WithinTransaction (deprecate_transaction module moduleVersion now actor reason) in
  ret (deprecated_version now actor reason moduleVersion).

Definition lintResultFromConfig (config : BufConfigInfo) : BufLintResult :=
  if negb (buf_LintEnabled config) then mkBufLintResult BufLintStatusNotRun ""
  else mkBufLintResult BufLintStatusPassed "".

Definition empty_config : BufConfigInfo := mkBufConfigInfo false false "" "" [] [] false false.

Definition GetModuleVersionDetails (moduleName versionValue : string) : M World ModuleVersionDetailsResponse :=
  let! moduleVersion := GetModuleVersion moduleName versionValue in
  let! artifacts := found_or [] (Artifact_ListByModuleVersion (version_ID moduleVersion)) in
  let! bufConfig := found_or empty_config (BufConfig_GetByModuleVersion (version_ID moduleVersion)) in
  let! metadataSummary := found_or (mkSummary 0 0 0 0 0 0 0 0 0)
                            (GetSummaryByModuleVersion (version_ID moduleVersion)) in
  ret (mkVersionDetails moduleVersion artifacts bufConfig (lintResultFromConfig bufConfig) metadataSummary).

Definition GetModuleVersionMetadata (moduleName versionValue : string) : M World DescriptorMetadata :=
  let! moduleVersion := GetModuleVersion moduleName versionValue in
  map_err (not_found_as registry.ErrModuleNotFound) (Metadata_GetByModuleVersion (version_ID moduleVersion)).

(** ** Artifacts *)

Section Service.
Variable svc : Service.
Let options := svc_options svc.

(** [io.LimitReader(reader, limit+1)]: the first bytes, and the error of the
    reader when it comes before the limit. *)
Definition read_limited (reader : Reader) (n : Z) : result string :=
  if n <=? 0 then Ok "" else
  if n <=? len reader.1 then Ok (take_string (Z.to_nat n) reader.1) else
  match reader.2 with
  | Some err => Err err
  | None => Ok reader.1
  end.

Definition readArtifact (reader : Reader) : result (string * string * Z) :=
  let limit := MaxArtifactSizeBytes options in
  let limit := if limit <=? 0 then 1 else limit in
  match read_limited reader (wrap64 (limit + 1)) with
  | Err err => Err (EWrap registry.ErrStorageFailure err)
  | Ok body =>
      if limit <? len body then Err registry.ErrArtifactTooLarge else Ok (body, sha256_hex body, len body)
  end.

Definition checksumBytes (body : string) : string * Z := (sha256_hex body, len body).

Definition recordArtifactCleanupFailure (key : string) (err : error) : M Registry unit :=
  if ArtifactCleanupObserver options then modify (add_observed key err) else ret tt.

Definition cleanup_one (key : string) : M Registry unit :=
  if (key =? "")%string then ret tt else
  let! deleted := try (on_store (store_Delete key)) in
  match deleted with
  | Err err => recordArtifactCleanupFailure key err
  | Ok _ => ret tt
  end.
Definition cleanupUploadedArtifacts (keys : list string) : M Registry unit := forM keys cleanup_one.

(** [if err != nil { svc.cleanupUploadedArtifacts(ctx, keys...); return err }]. *)
Definition or_cleanup {A} (keys : list string) (m : M Registry A) : M Registry A :=
  let! r := try m in
  match r with
  | Ok a => ret a
  | Err err => let! _ := cleanupUploadedArtifacts keys in fail err
  end.

Definition storage_failure (err : error) : error := EWrap registry.ErrStorageFailure err.

Definition readStoredArtifact (storageKey : string) : M Bucket string :=
  let! object := map_err storage_failure (store_Get storageKey) in
  map_err storage_failure (lift (object_Body object)).

(** ** Publication *)

Definition mapBufWorkflowError (err : error) (result : BufWorkflowResult) : error :=
  if (lint_Status (wr_LintResult result) =? BufLintStatusFailed)%string then EWrap registry.ErrBufLintFailed err else
  if 0 <? len (wr_BufImage result) then EWrap registry.ErrDescriptorExtractionFailed err else
  EWrap registry.ErrBufBuildFailed err.

Definition publish_transaction (module : Module_) (moduleVersion : ModuleVersion)
    (sourceArtifact bufImageArtifact : Artifact) (bufResult : BufWorkflowResult) (now : time) : M World unit :=
  let exists_ := map_err (duplicate_as registry.ErrModuleVersionAlreadyExists) in
  let! _ := exists_ (Version_Create moduleVersion) in
  let! _ := exists_ (Artifact_Create sourceArtifact) in
  let! _ := exists_ (Artifact_Create bufImageArtifact) in
  let! _ := BufConfig_Save (version_ID moduleVersion) (wr_ConfigInfo bufResult) in
  let! _ := Metadata_Save (version_ID moduleVersion) (wr_DescriptorMetadata bufResult) in
  let! _ := (if svc_dependencies svc then
               let! _ := RebuildPublishedModuleVersionDependencies module moduleVersion
                           (wr_DescriptorMetadata bufResult) in ret tt
             else ret tt) in
  let! record := lift (NewModuleVersionPublished (mkModuleVersionPublished module moduleVersion sourceArtifact
    bufImageArtifact (wr_ConfigInfo bufResult) (wr_LintResult bufResult)
    (Summary (wr_DescriptorMetadata bufResult)) now)) in
  let! wall := World.now in
  exists_ (Create wall record).

(** From the uploaded objects on. *)
Definition publish_stored (module : Module_) (versionValue : Version) (bufResult : BufWorkflowResult)
    (sourceObject bufImageObject : ArtifactObject) (sourceChecksum bufImageChecksum : string)
    : M World PublishModuleVersionResponse :=
  let! now := World.now in
  let! moduleVersionID := NewModuleVersionID_ in
  let! sourceArtifactID := NewArtifactID_ in
  let! bufImageArtifactID := NewArtifactID_ in
  let moduleVersion := mkModuleVersion moduleVersionID (module_ID module) versionValue
    ModuleVersionStatusPublished (wr_BufImageDigest bufResult) now (Some now) None "" "" in
  let sourceArtifact := mkArtifact sourceArtifactID moduleVersionID ArtifactKindSourceArchive
    (object_Key sourceObject) sourceChecksum (object_SizeBytes sourceObject) now in
  let bufImageArtifact := mkArtifact bufImageArtifactID moduleVersionID ArtifactKindBufImage
    (object_Key bufImageObject) bufImageChecksum (object_SizeBytes bufImageObject) now in
  let! _ := WithinTransaction (publish_transaction module moduleVersion sourceArtifact bufImageArtifact
                                 bufResult now) in
  ret (mkPublishResponse moduleVersion sourceArtifact bufImageArtifact (wr_ConfigInfo bufResult)
         (wr_LintResult bufResult) (Summary (wr_DescriptorMetadata bufResult))).

(** From the answer of [buf] on. *)
Definition publish_artifacts (module : Module_) (name : ModuleName) (versionValue : Version)
    (sourceBody sourceChecksum : string) (sourceSizeBytes : Z) (bufResult : BufWorkflowResult)
    : M Registry PublishModuleVersionResponse :=
  let '(bufImageChecksum, bufImageSizeBytes) := checksumBytes (wr_BufImage bufResult) in
  let sourceKey := BuildSourceArchiveKey name versionValue sourceChecksum in
  let bufImageKey := BuildBufImageKey name versionValue bufImageChecksum in
  let! sourceObject := map_err storage_failure (on_store (store_Put sourceKey sourceBody sourceSizeBytes)) in
  let! bufImageObject := or_cleanup [sourceKey]
    (map_err storage_failure (on_store (store_Put bufImageKey (wr_BufImage bufResult) bufImageSizeBytes))) in
  or_cleanup [sourceKey; bufImageKey] (on_db
    (publish_stored module versionValue bufResult sourceObject bufImageObject sourceChecksum bufImageChecksum)).

(** Unpacking the archive of a request. *)
Definition extract_source (workdir sourceBody : string) : M FS unit :=
  let maxUncompressed := if MaxSourceUncompressedSizeBytes options <=? 0 then MaxArtifactSizeBytes options
                         else MaxSourceUncompressedSizeBytes options in
  map_err (EWrap registry.ErrUnsafeArchive)
    (ExtractTarGzSafe request_Err workdir (mkExtractOptions maxUncompressed) (open_archive sourceBody)).

(** In the working directory: unpack, and let [buf] build the image. *)
Definition publish_inspect (inspect : string -> BufWorkflowOptions -> M FS (BufWorkflowResult * option error))
    (workdir sourceBody : string) : M FS BufWorkflowResult :=
  let! _ := extract_source workdir sourceBody in
  let! _ := (if BufRequireConfig options then stat_buf_yaml workdir else ret tt) in
  let! (bufResult, err) := inspect workdir
    (mkBufWorkflowOptions (BufRequireConfig options) (negb (BufLintMode options =? BufLintModeDisabled)%string)) in
  match err with
  | Some err => fail (mapBufWorkflowError err bufResult)
  | None => if len (wr_BufImage bufResult) =? 0 then fail registry.ErrBufBuildFailed else ret bufResult
  end.

(** The checks that precede the upload: the module exists, the version does
    not. *)
Definition publish_checks (name : ModuleName) (versionValue : Version) : M World Module_ :=
  let! module := map_err (not_found_as registry.ErrModuleNotFound) (Module_GetByName name) in
  let! found := try (GetByModuleAndVersion (module_ID module) versionValue) in
  match found with
  | Ok _ => fail registry.ErrModuleVersionAlreadyExists
  | Err err => if errors_Is err domain.ErrNotFound then ret module else fail err
  end.

(** After the checks. *)
Definition publish_checked (inspect : string -> BufWorkflowOptions -> M FS (BufWorkflowResult * option error))
    (module : Module_) (name : ModuleName) (versionValue : Version) (artifact : Reader)
    : M Registry PublishModuleVersionResponse :=
  let! (sourceBody, sourceChecksum, sourceSizeBytes) := lift (readArtifact artifact) in
  let! workdir := on_fs (os_MkdirTemp "protoradar-publish-*") in
  deferred (on_fs (removeTempDir workdir)) (
    let! bufResult := on_fs (publish_inspect inspect workdir sourceBody) in
    publish_artifacts module name versionValue sourceBody sourceChecksum sourceSizeBytes bufResult).

(** The request as it is understood. *)
Definition publish_request (req : PublishModuleVersionRequest)
    : result (ModuleName * Version * Reader * (string -> BufWorkflowOptions -> M FS (BufWorkflowResult * option error))) :=
  match NewModuleName (publish_ModuleName req) with
  | Err _ => Err registry.ErrInvalidModuleName
  | Ok name =>
      match NewVersion (publish_Version req) with
      | Err _ => Err registry.ErrInvalidVersion
      | Ok versionValue =>
          match publish_Artifact req with
          | None => Err registry.ErrStorageFailure
          | Some artifact =>
              match svc_bufWorkflow svc with
              | None => Err registry.ErrBufWorkflowUnavailable
              | Some inspect => Ok (name, versionValue, artifact, inspect)
              end
          end
      end
  end.

Definition PublishModuleVersion (req : PublishModuleVersionRequest) : M Registry PublishModuleVersionResponse :=
  let! (name, versionValue, artifact, inspect) := lift (publish_request req) in
  let! module := on_db (publish_checks name versionValue) in
  publish_checked inspect module name versionValue artifact.

(** ** Checks for breaking changes *)

Definition maxTargetRefLength : Z := 256.

(** The request as it is understood: the name, what to compare with, the
    reference and the archive. *)
Definition check_request (req : CheckBreakingRequest)
    : result (ModuleName * string * string * Reader * (BufBreakingCheckInput -> M FS BufBreakingCheckResult)) :=
  match NewModuleName (check_ModuleName req) with
  | Err _ => Err registry.ErrInvalidModuleName
  | Ok name =>
      let against := TrimSpace (check_Against req) in
      let against := if (against =? "")%string then TrimSpace (BreakingDefaultAgainst options) else against in
      if (against =? "")%string then Err registry.ErrInvalidAgainst else
      let targetRef := TrimSpace (check_TargetRef req) in
      if maxTargetRefLength <? len targetRef then Err registry.ErrInvalidTargetRef else
      let targetRef := if (targetRef =? "")%string then "local" else targetRef in
      match check_ProposedSourceArchive req with
      | None => Err registry.ErrArtifactRequired
      | Some archive =>
          if (0 <? check_ArchiveSizeBytes req) && (0 <? MaxArtifactSizeBytes options)
             && (MaxArtifactSizeBytes options <? check_ArchiveSizeBytes req)
          then Err registry.ErrArtifactTooLarge else
          match svc_bufBreaking svc with
          | None => Err registry.ErrBufBreakingUnavailable
          | Some check =>
              if negb (svc_reports svc) then Err registry.ErrBufBreakingUnavailable
              else Ok (name, against, targetRef, archive, check)
          end
      end
  end.

Definition resolveBreakingBaseline (moduleID : ModuleID) (against : string) : M World ModuleVersion :=
  if (against =? "latest")%string then
    map_err (not_found_as registry.ErrBaselineVersionNotFound) (GetLatestByModule moduleID)
  else
    let! versionValue := map_err (fun _ => registry.ErrInvalidAgainst : error) (lift (NewVersion against)) in
    map_err (not_found_as registry.ErrBaselineVersionNotFound) (GetByModuleAndVersion moduleID versionValue).

(** The module, the version to compare with and the artifact of its image. *)
Definition check_baseline (name : ModuleName) (against : string) : M World (Module_ * ModuleVersion * Artifact) :=
  let! module := map_err (not_found_as registry.ErrModuleNotFound) (Module_GetByName name) in
  let! baseline := resolveBreakingBaseline (module_ID module) against in
  let! bufImageArtifact := map_err (not_found_as registry.ErrBaselineBufImageMissing)
    (GetByModuleVersionAndKind (version_ID baseline) ArtifactKindBufImage) in
  ret (module, baseline, bufImageArtifact).

(** In the working directory: unpack, and let [buf] compare. *)
Definition check_workdir (check : BufBreakingCheckInput -> M FS BufBreakingCheckResult)
    (workdir sourceBody baselineImage targetRef : string) : M FS BufBreakingCheckResult :=
  let! _ := extract_source workdir sourceBody in
  let! _ := stat_buf_yaml workdir in
  map_err (EWrap registry.ErrBufBreakingFailed) (check (mkBufBreakingCheckInput workdir baselineImage targetRef)).

Definition check_status (checkResult : BufBreakingCheckResult) : result BreakingReportStatus :=
  let status := br_Status checkResult in
  let status := if (status =? "")%string then
                  match br_Changes checkResult with
                  | [] => BreakingReportStatusPassed
                  | _ => BreakingReportStatusBreaking
                  end
                else status in
  if negb (BreakingReportStatus_IsValid status) then Err registry.ErrBufBreakingFailed else
  if (status =? BreakingReportStatusFailed)%string then Err registry.ErrBufBreakingFailed else
  Ok status.

Definition identify_change (reportID : BreakingReportID) (now : time) (change : BreakingChange)
    : M World BreakingChange :=
  let! changeID := NewBreakingChangeID_ in
  let severity := if (TrimSpace (change_Severity change) =? "")%string then "error" else change_Severity change in
  ret (mkBreakingChange changeID reportID (change_Category change) (change_FilePath change)
         (change_PackageName change) (change_Symbol change) (change_RuleID change) (change_Message change)
         severity now).

Definition check_transaction (report : BreakingReport) (changes : list BreakingChange) : M World unit :=
  let! _ := Report_Create report changes in
  write_outbox (NewBreakingReportCreated report).

(** The report of a result, and its storage. *)
Definition check_store (module : Module_) (baseline : ModuleVersion) (targetRef : string)
    (checkResult : BufBreakingCheckResult) : M World (BreakingReport * list BreakingChange) :=
  let! status := lift (check_status checkResult) in
  let! now := World.now in
  let! reportID := NewBreakingReportID_ in
  let resultChanges :=
    if (0 <? BreakingMaxChanges options) && (BreakingMaxChanges options <? llen (br_Changes checkResult))
    then firstn (Z.to_nat (BreakingMaxChanges options)) (br_Changes checkResult)
    else br_Changes checkResult in
  let! changes := mapM (identify_change reportID now) resultChanges in
  let report := fun summary => mkBreakingReport reportID (module_ID module) (module_Name module)
    (version_ID baseline) (version_Version baseline) targetRef status (llen changes) (br_RawOutput checkResult)
    summary now in
  let summary := br_HumanSummary checkResult in
  let report := report (if (TrimSpace summary =? "")%string then FormatReport (report summary) changes else summary) in
  let! _ := WithinTransaction (check_transaction report changes) in
  ret (report, changes).

Definition CheckBreaking (req : CheckBreakingRequest) : M Registry (BreakingReport * list BreakingChange) :=
  let! (name, against, targetRef, archive, check) := lift (check_request req) in
  let! (module, baseline, bufImageArtifact) := on_db (check_baseline name against) in
  let! baselineImage := on_store (readStoredArtifact (artifact_StorageKey bufImageArtifact)) in
  let! (sourceBody, _, _) := lift (readArtifact archive) in
  let! workdir := on_fs (os_MkdirTemp "protoradar-breaking-*") in
  deferred (on_fs (removeTempDir workdir)) (
    let! checkResult := on_fs (check_workdir check workdir sourceBody baselineImage targetRef) in
    on_db (check_store module baseline targetRef checkResult)).

Definition GetBreakingReport (reportIDValue : string) : M World (BreakingReport * list BreakingChange) :=
  let reportID := NewBreakingReportID reportIDValue in
  if (reportID =? "")%string then fail registry.ErrBreakingReportNotFound else
  map_err (not_found_as registry.ErrBreakingReportNotFound) (Report_GetByID reportID).

Definition ListBreakingReports (moduleName : string) (limit offset : Z) : M World (list BreakingReport) :=
  let! module := GetModule moduleName in
  Report_ListByModule (module_ID module) limit offset.

Definition DownloadArtifact (moduleName versionValue : string) : M Registry (ArtifactObject * Artifact) :=
  let! moduleVersion := on_db (GetModuleVersion moduleName versionValue) in
  let! artifact := on_db (map_err (not_found_as registry.ErrModuleNotFound)
    (GetByModuleVersionAndKind (version_ID moduleVersion) ArtifactKindSourceArchive)) in
  let! object := on_store (map_err storage_failure (store_Get (artifact_StorageKey artifact))) in
  ret (object, artifact).

(** ** Tokens *)

Definition hash_token (rawToken : string) : string := hmac_sha256_hex (TokenHashSecret options) rawToken.

(** The token and its text. *)
Definition CreateAPIToken (req : CreateAPITokenRequest) : M World (APIToken * string) :=
  let! rawToken := NewToken in
  let! now := World.now in
  let! tokenID := NewAPITokenID_ in
  let token := mkAPIToken tokenID (newToken_Name req) (hash_token rawToken) now None (newToken_ExpiresAt req) in
  let! _ := Token_Create token in
  ret (token, rawToken).

Definition recordTokenUsageFailure (tokenID : APITokenID) (err : error) : M Registry unit :=
  if TokenUsageObserver options then modify (add_observed tokenID err) else ret tt.

(** The identifier and the name of the token. *)
Definition AuthenticateToken (rawToken : string) : M Registry (APITokenID * string) :=
  let! token := on_db (map_err (not_found_as registry.ErrInvalidOrExpiredToken)
                         (Token_GetByHash (hash_token rawToken))) in
  let! now := on_db World.now in
  if IsExpired token now then fail registry.ErrInvalidOrExpiredToken else
  let! used := try (on_db (Token_MarkUsed (token_ID token) now)) in
  let! _ := match used with
            | Err err => recordTokenUsageFailure (token_ID token) err
            | Ok _ => ret tt
            end in
  ret (token_ID token, token_Name token).

(** ** Queries of the dependency graph ([dependency_queries.go]) *)

Definition GetModuleDependencyGraph (moduleName : string) : M World ModuleDependencyGraphResponse :=
  let! module := GetModule moduleName in
  if negb (svc_dependencyRead svc) then fail registry.ErrStorageFailure else
  let! upstream := found_or [] (ListUpstreamByModule (module_ID module)) in
  let! downstream := found_or [] (ListDownstreamByModule (module_ID module)) in
  let! unresolved := found_or [] (ListUnresolvedByModule (module_ID module)) in
  ret (mkGraphResponse module upstream downstream unresolved).

Definition Registry_ListAffectedModules (moduleName : string) : M World (Module_ * list AffectedModule) :=
  let! module := GetModule moduleName in
  if negb (svc_dependencyRead svc) then fail registry.ErrStorageFailure else
  let! affected := found_or [] (ListAffectedModules (module_ID module)) in
  ret (module, affected).

Definition GetBreakingReportAffectedModules (reportIDValue : string)
    : M World (BreakingReport * list AffectedModule) :=
  let reportID := NewBreakingReportID reportIDValue in
  if (reportID =? "")%string then fail registry.ErrBreakingReportNotFound else
  let! (report, _) := map_err (not_found_as registry.ErrBreakingReportNotFound) (Report_GetByID reportID) in
  if negb (svc_dependencyRead svc) then fail registry.ErrStorageFailure else
  let! affected := found_or [] (ListAffectedModules (report_ModuleID report)) in
  ret (report, affected).
End Service.
End Registry.
