(* ===== verification/BufWorkflow.v ===== *)
(** * Running [buf]

    [infrastructure/bufcli/workflow.go]: the workflow that inspects a module and
    the one that compares it with the image of a version, against a runner of
    commands; the runner of [os/exec] keeps the first bytes of the output of a
    process.  The process itself, the contexts and the names of temporary files
    are parameters. *)

From S2P Require Import Prelude Errors GoStrings JsonScan Domain Json Effects Postgres Outbox Tables World GovernanceStore DescriptorStore DescriptorTree BufDescriptor Archive Registry.

Open Scope string_scope.
Open Scope Z_scope.

(** ** Commands *)

Record commandSpec := mkCommandSpec {
  spec_path : string;
  spec_args : list string;
  spec_dir : string;
  spec_timeout : Z;
  spec_stdoutLimit : Z;
  spec_stderrLimit : Z }.

Record commandResult := mkCommandResult {
  cmd_stdout : string;
  cmd_stderr : string;
  cmd_exitCode : Z }.

Definition nl : string := String (ascii_of_nat 10) "".

Definition commandResult_report (r : commandResult) : string :=
  let stdout := TrimSpace (cmd_stdout r) in
  let stderr := TrimSpace (cmd_stderr r) in
  strings_Join nl ((if (stdout =? "")%string then [] else [stdout]) ++ (if (stderr =? "")%string then [] else [stderr])).

(** The interface [commandRunner], with what [cmdCtx.Err()] says after a run. *)
Class CommandRunner := {
  runner_Run : commandSpec -> M FS commandResult;
  cmdCtx_Err : commandSpec -> FS -> option error }.

(** *** The buffer of an output *)

(** [commandBuffer.Write]: the body after it. *)
Definition commandBuffer_Write (limit : Z) (body p : string) : string :=
  if limit <=? 0 then body +:+ p else
  let remaining := limit - len body in
  if 0 <? remaining then
    if remaining <? len p then body +:+ take_string (Z.to_nat remaining) p else body +:+ p
  else body.

(** What a process writes and how it ends: with an exit code, or with an error
    of [os/exec] that is no exit status. *)
Record process_run := mkProcessRun {
  pr_stdout : list string;
  pr_stderr : list string;
  pr_end : result Z }.
Class Process := { cmd_Run : commandSpec -> FS -> process_run * FS }.

(** [execCommandRunner.Run]. *)
Definition execCommandRunner_Run `{!Process} (spec : commandSpec) : M FS commandResult := fun fs =>
  let '(run, fs') := cmd_Run spec fs in
  let stdout := fold_left (commandBuffer_Write (spec_stdoutLimit spec)) (pr_stdout run) "" in
  let stderr := fold_left (commandBuffer_Write (spec_stderrLimit spec)) (pr_stderr run) "" in
  (match pr_end run with
   | Ok code => Ok (mkCommandResult stdout stderr code)
   | Err e => Err e
   end, fs').

(** ** Configuration *)

Definition LintModeDisabled : string := "disabled".
Definition LintModeWarn : string := "warn".
Definition LintModeEnforce : string := "enforce".

Record Config := mkConfig {
  BinaryPath : string;
  BuildTimeout : Z;
  LintTimeout : Z;
  LintMode : string;
  RequireConfig : bool;
  MaxReportBytes : Z }.

Definition second : Z := 1000000000.

(** [newWorkflow]: the configuration with its defaults. *)
Definition newWorkflow (cfg : Config) : Config :=
  mkConfig (if (BinaryPath cfg =? "")%string then "buf" else BinaryPath cfg)
    (if BuildTimeout cfg <=? 0 then 30 * second else BuildTimeout cfg)
    (if LintTimeout cfg <=? 0 then 30 * second else LintTimeout cfg)
    (if (LintMode cfg =? "")%string then LintModeWarn else LintMode cfg)
    (RequireConfig cfg)
    (if MaxReportBytes cfg <=? 0 then 16 * 1024 else MaxReportBytes cfg).

(** ** Diagnostics *)

Definition truncateReport (report : string) (limit : Z) : string :=
  if (limit <=? 0) || (len report <=? limit) then report else take_string (Z.to_nat limit) report.

Definition is_upper (a : ascii) : bool := (65 <=? byte a) && (byte a <=? 90).
Definition is_lower (a : ascii) : bool := (97 <=? byte a) && (byte a <=? 122).
Definition is_digit (a : ascii) : bool := (48 <=? byte a) && (byte a <=? 57).
Definition word_byte (a : ascii) : bool := is_upper a || is_lower a || is_digit a || Ascii.eqb a "_".
Definition rule_byte (a : ascii) : bool := is_upper a || is_digit a.

(** A word that [[A-Z][A-Z0-9]+(?:_[A-Z0-9]+)+] matches as a whole. *)
Definition rule_word (w : string) : bool :=
  match split_byte "_" w with
  | String a first :: (_ :: _) as rest =>
      is_upper a && negb (first =? "")%string && forallb_string rule_byte first
      && forallb (fun part => negb (part =? "")%string && forallb_string rule_byte part) (tl rest)
  | _ => false
  end.

(** [breakingRulePattern]: a match begins and ends at a boundary of words and
    holds bytes of words only, so that it is a whole word; the leftmost match is
    the first word of that form. *)
Definition breakingRule_Find (line : string) : option string :=
  List.find rule_word (FieldsFunc (fun a => negb (word_byte a)) line).
Definition breakingRule_FindString (line : string) : string := default "" (breakingRule_Find line).
Definition breakingRule_MatchString (line : string) : bool :=
  match breakingRule_Find line with Some _ => true | None => false end.

Section Diagnostics.
Context `{UC : !Unicode}.

Definition looksLikeBreakingDiagnostic (line : string) : bool :=
  Contains line ".proto" || breakingRule_MatchString line || Contains (ToLower line) "breaking".

Definition path_separator (a : ascii) : bool :=
  Ascii.eqb a ":" || Ascii.eqb a " " || Ascii.eqb a (ascii_of_nat 9).
Definition quotes : string := String (ascii_of_nat 34) "'(),".

Fixpoint first_proto_path (fields : list string) : string :=
  match fields with
  | [] => ""
  | field :: fields' =>
      let field := Trim field quotes in
      if HasSuffix field ".proto" || Contains field ".proto/" then
        match string_Index field ".proto" with
        | Some index => take_string (index + 6) field
        | None => first_proto_path fields'
        end
      else first_proto_path fields'
  end.
Definition extractProtoPath (line : string) : string := first_proto_path (FieldsFunc path_separator line).

Definition cleanBreakingMessage (line filePath ruleID : string) : string :=
  let message := TrimSpace line in
  let message := if negb (filePath =? "")%string
                 then TrimLeft (TrimSpace (TrimPrefix message filePath)) ": " else message in
  let message := TrimLeft (TrimSpace (TrimPrefix message ruleID)) ": " in
  let message := if negb (ruleID =? "")%string
                 then ReplaceAll (ReplaceAll message ("(" +:+ ruleID +:+ ")") "") ("[" +:+ ruleID +:+ "]") ""
                 else message in
  let message := TrimSpace message in
  if (message =? "")%string then line else message.

Definition inferBreakingCategory (ruleID message : string) : string :=
  let text := ToLower (ruleID +:+ " " +:+ message) in
  if Contains text "field" then "field" else
  if Contains text "rpc" || Contains text "method" then "method" else
  if Contains text "service" then "service" else
  if Contains text "message" then "message" else
  if Contains text "enum" then "enum" else
  if Contains text "package" then "package" else
  if Contains text "file" then "file" else "".

Definition parseBreakingDiagnosticLine (line : string) : BreakingChange :=
  let filePath := extractProtoPath line in
  let ruleID := breakingRule_FindString line in
  let message := cleanBreakingMessage line filePath ruleID in
  mkBreakingChange "" "" (inferBreakingCategory ruleID message) filePath "" "" ruleID message "error" 0.

Fixpoint parse_lines (lines : list string) : list BreakingChange :=
  match lines with
  | [] => []
  | line :: lines' =>
      let line := TrimSpace line in
      if (line =? "")%string then parse_lines lines' else
      if negb (looksLikeBreakingDiagnostic line) then parse_lines lines' else
      parseBreakingDiagnosticLine line :: parse_lines lines'
  end.
Definition parseBreakingDiagnostics (report : string) : list BreakingChange :=
  parse_lines (split_byte (ascii_of_nat 10) report).
End Diagnostics.

Definition breakingSummary (changeCount : Z) : string :=
  if changeCount =? 1 then "1 breaking change found." else itoa changeCount +:+ " breaking changes found.".

(** ** The workflow *)

Section Workflow.
Context `{SYS : !OS} `{HOST : !Host} `{UC : !Unicode} `{PB : !Protobuf} `{RUN : !CommandRunner}.
Variable cfg : Config.

(** [os.IsNotExist] of an error of the file system. *)
Definition not_exist : error := EExternal "file does not exist".
Definition os_IsNotExist (err : error) : bool := bool_decide (err = not_exist).

(** [os.ReadFile]. *)
Definition os_ReadFile (p : path) : M FS string := os_op (fun fs =>
  at_real (follow (fs_nodes fs) p) (fs_nodes fs) (fun q =>
    (match lookup_node fs q with
     | Some (NFile content) => Ok content
     | Some _ => Err is_a_directory
     | None => Err not_exist
     end, fs_nodes fs))).

Definition sha256_digest (body : string) : string := "sha256:" +:+ sha256_hex body.

Definition filePresenceAndDigest (p : path) : M FS (bool * string) :=
  let! r := try (os_ReadFile p) in
  match r with
  | Ok body => ret (true, sha256_digest body)
  | Err err => if os_IsNotExist err then ret (false, "") else fail err
  end.

Definition inspectConfig (workdir : string) : M FS BufConfigInfo :=
  let! (bufYAMLPresent, bufYAMLDigest) := filePresenceAndDigest (parse (filepath_Join workdir "buf.yaml")) in
  let! (bufLockPresent, bufLockDigest) := filePresenceAndDigest (parse (filepath_Join workdir "buf.lock")) in
  ret (mkBufConfigInfo bufYAMLPresent bufLockPresent bufYAMLDigest bufLockDigest [] [] false false).

Definition is_context_error (err : option error) : bool :=
  match err with
  | Some e => errors_Is e EDeadlineExceeded || errors_Is e ECanceled
  | None => false
  end.

Definition runCommand (spec : commandSpec) : M FS commandResult := fun fs =>
  let '(r, fs') := runner_Run spec fs in
  let ctxErr := cmdCtx_Err spec fs' in
  (match r with
   | Err err => if is_context_error ctxErr then Err (default err ctxErr) else Err err
   | Ok result => match ctxErr with Some err => Err err | None => Ok result end
   end, fs').

Definition runBuild (workdir : string) : M FS commandResult :=
  let! result := runCommand (mkCommandSpec (BinaryPath cfg) ["build"; "--as-file-descriptor-set"; "-o"; "-"]
                   workdir (BuildTimeout cfg) 0 (MaxReportBytes cfg)) in
  if negb (cmd_exitCode result =? 0)
  then fail (EText ("buf build failed: " +:+ truncateReport (commandResult_report result) (MaxReportBytes cfg))) else
  if len (cmd_stdout result) =? 0 then fail (EText "buf build produced empty image") else
  ret result.

(** A result and an error are returned together. *)
Definition runLint (workdir : string) (requested : bool) : M FS (BufLintResult * option error) :=
  if negb requested || (LintMode cfg =? LintModeDisabled)%string
  then ret (mkBufLintResult BufLintStatusNotRun "", None) else
  let! r := try (runCommand (mkCommandSpec (BinaryPath cfg) ["lint"] workdir (LintTimeout cfg)
                   (MaxReportBytes cfg) (MaxReportBytes cfg))) in
  match r with
  | Err err => ret (mkBufLintResult "" "", Some err)
  | Ok result =>
      let report := truncateReport (commandResult_report result) (MaxReportBytes cfg) in
      if cmd_exitCode result =? 0 then ret (mkBufLintResult BufLintStatusPassed report, None) else
      if (LintMode cfg =? LintModeEnforce)%string
      then ret (mkBufLintResult BufLintStatusFailed report, Some (EText ("buf lint failed: " +:+ report))) else
      ret (mkBufLintResult BufLintStatusWarning report, None)
  end.

Definition no_metadata : DescriptorMetadata := mkDescriptorMetadata [].
Definition no_lint : BufLintResult := mkBufLintResult "" "".

Definition enable_lint (c : BufConfigInfo) (b : bool) : BufConfigInfo :=
  mkBufConfigInfo (buf_YAMLPresent c) (buf_LockPresent c) (buf_YAMLDigest c) (buf_LockDigest c)
    (buf_ModulePaths c) (buf_Deps c) b (buf_BreakingConfigPresent c).

Definition Inspect (workdir : string) (options : BufWorkflowOptions) : M FS (BufWorkflowResult * option error) :=
  let empty := mkBufWorkflowResult empty_config "" "" no_lint no_metadata in
  let! configInfo := try (inspectConfig workdir) in
  match configInfo with
  | Err err => ret (empty, Some err)
  | Ok configInfo =>
      if (RequireConfig cfg || wo_RequireBufYAML options) && negb (buf_YAMLPresent configInfo)
      then ret (empty, Some (EText "buf.yaml is required")) else
      let! buildResult := try (runBuild workdir) in
      match buildResult with
      | Err err => ret (mkBufWorkflowResult configInfo "" "" no_lint no_metadata, Some err)
      | Ok buildResult =>
          let image := cmd_stdout buildResult in
          match ExtractDescriptorMetadata image with
          | Err err => ret (mkBufWorkflowResult configInfo image (sha256_digest image) no_lint no_metadata, Some err)
          | Ok metadata =>
              let! (lintResult, err) := runLint workdir (wo_RunLint options) in
              match err with
              | Some err => ret (mkBufWorkflowResult configInfo image (sha256_digest image) lintResult metadata, Some err)
              | None =>
                  ret (mkBufWorkflowResult
                         (enable_lint configInfo (negb (lint_Status lintResult =? BufLintStatusNotRun)%string))
                         image (sha256_digest image) lintResult metadata, None)
              end
          end
      end
  end.
End Workflow.

(** ** The comparison *)

Section Breaking.
Context `{SYS : !OS} `{HOST : !Host} `{UC : !Unicode} `{RUN : !CommandRunner}.
Variable cfg : Config.

(** [os.CreateTemp("", pattern)]: the file is new; its name and where it is. *)
Definition os_CreateTemp (pattern : string) : M FS (string * path) := fun fs =>
  let name := temp_dir pattern (fs_tick fs) in
  os_op (fun fs => at_real (follow_dir (fs_nodes fs) (parse name)) (fs_nodes fs) (fun q =>
    match lookup_node fs q with
    | Some _ => (Err file_exists, fs_nodes fs)
    | None => (Ok (name, q), <[q := NFile ""]> (fs_nodes fs))
    end)) fs.
(** [os.Remove]: a file, a link or an empty directory. *)
Definition empty_dir (nodes : gmap path node) (p : path) : bool :=
  bool_decide (filter (fun n : path * node => n.1.2 <> [] /\ path_dir n.1 = p) nodes = ∅).
Definition os_Remove (p : path) : M FS unit := os_op (fun fs =>
  at_real (follow_dir (fs_nodes fs) p) (fs_nodes fs) (fun q =>
    match lookup_node fs q with
    | None => (Err not_exist, fs_nodes fs)
    | Some NDir => if empty_dir (fs_nodes fs) q then (Ok tt, delete q (fs_nodes fs))
                   else (Err (EExternal "directory not empty"), fs_nodes fs)
    | Some _ => (Ok tt, delete q (fs_nodes fs))
    end)).
Definition removeBaselineFile (name : string) : M FS unit := let! _ := try (os_Remove (parse name)) in ret tt.
Definition closeBaselineFile : M FS unit := let! _ := try file_Close in ret tt.

(** [file.Write] of the whole body. *)
Definition file_Write (file : path) (body : string) : M FS unit := io_CopyN file body (len body).

Definition failed_check (rawOutput humanSummary : string) : BufBreakingCheckResult :=
  mkBufBreakingCheckResult BreakingReportStatusFailed [] rawOutput humanSummary.

(** After the run of [buf breaking]. *)
Definition breaking_result (r : result commandResult) : BufBreakingCheckResult * option error :=
  match r with
  | Err err => (failed_check (truncateReport (Error err) (MaxReportBytes cfg)) "Buf breaking check failed.", Some err)
  | Ok result =>
      let rawOutput := truncateReport (commandResult_report result) (MaxReportBytes cfg) in
      if cmd_exitCode result =? 0
      then (mkBufBreakingCheckResult BreakingReportStatusPassed [] rawOutput "No breaking changes found.", None) else
      if (TrimSpace rawOutput =? "")%string
      then (failed_check rawOutput "Buf breaking check failed without diagnostics.",
            Some (EText "buf breaking failed without diagnostics")) else
      let changes := parseBreakingDiagnostics rawOutput in
      if (length changes =? 0)%nat
      then (failed_check rawOutput "Buf breaking check failed.", Some (EText ("buf breaking failed: " +:+ rawOutput))) else
      (mkBufBreakingCheckResult BreakingReportStatusBreaking changes rawOutput (breakingSummary (llen changes)), None)
  end.

Definition breaking_spec (input : BufBreakingCheckInput) (baselinePath : string) : commandSpec :=
  mkCommandSpec (BinaryPath cfg) ["breaking"; bi_Workdir input; "--against"; baselinePath] (bi_Workdir input)
    (BuildTimeout cfg) (MaxReportBytes cfg) (MaxReportBytes cfg).

Definition Workflow_CheckBreaking (input : BufBreakingCheckInput) : M FS (BufBreakingCheckResult * option error) :=
  let failing err := ret (failed_check "" "", Some err) in
  if len (bi_BaselineImage input) =? 0 then failing (EText "baseline image is required") else
  let! baselineFile := try (os_CreateTemp "protoradar-baseline-*.binpb") in
  match baselineFile with
  | Err err => failing err
  | Ok (baselinePath, baselineFile) =>
      deferred (removeBaselineFile baselinePath) (
        let! written := try (file_Write baselineFile (bi_BaselineImage input)) in
        match written with
        | Err err => let! _ := closeBaselineFile in failing err
        | Ok _ =>
            let! closed := try file_Close in
            match closed with
            | Err err => failing err
            | Ok _ =>
                let! result := try (runCommand (breaking_spec input baselinePath)) in
                ret (breaking_result result)
            end
        end)
  end.
End Breaking.

(** The workflow as the registry uses it: a result that comes with an error is
    dropped by [CheckBreaking], not by [Inspect]. *)
Definition registry_check `{!OS} `{!Host} `{!Unicode} `{!CommandRunner} (cfg : Config)
    (input : BufBreakingCheckInput) : M FS BufBreakingCheckResult :=
  let! (result, err) := Workflow_CheckBreaking cfg input in
  match err with Some err => fail err | None => ret result end.

(** ** The output of a command *)

Lemma len_take n s : 0 <= n -> len (take_string (Z.to_nat n) s) = Z.min n (len s).
Proof. intros H. unfold len. rewrite length_take_string. lia. Qed.

Lemma take_string_app_le n s t : (n <= String.length s)%nat -> take_string n (s +:+ t) = take_string n s.
Proof.
  revert s. induction n as [|n IH]; intros s H; [by destruct s, t|]. destruct s as [|a s]; cbn in *; [lia|].
  by rewrite IH by lia.
Qed.
Lemma take_string_app_ge n s t :
  (String.length s <= n)%nat -> take_string n (s +:+ t) = s +:+ take_string (n - String.length s) t.
Proof.
  revert n. induction s as [|a s IH]; intros n H; cbn in *; [by rewrite Nat.sub_0_r|].
  destruct n as [|n]; [lia|]. cbn. by rewrite IH by lia.
Qed.

Definition kept (limit : Z) (s : string) : string := if limit <=? 0 then s else take_string (Z.to_nat limit) s.

Lemma buffer_step limit s p : commandBuffer_Write limit (kept limit s) p = kept limit (s +:+ p).
Proof.
  unfold commandBuffer_Write, kept. destruct (limit <=? 0) eqn:El; [done|]. apply Z.leb_gt in El.
  rewrite len_take by lia. destruct (Z.leb_spec limit (len s)) as [Hs|Hs].
  - rewrite Z.min_l by lia. replace (0 <? limit - limit) with false by lia.
    rewrite take_string_app_le; [done|]. unfold len in Hs. lia.
  - rewrite Z.min_r by lia. replace (0 <? limit - len s) with true by lia.
    rewrite (take_string_all (Z.to_nat limit) s) by (unfold len in Hs; lia).
    rewrite take_string_app_ge by (unfold len in Hs; lia).
    replace (Z.to_nat limit - String.length s)%nat with (Z.to_nat (limit - len s)) by (unfold len in *; lia).
    destruct (limit - len s <? len p) eqn:Ep; [done|]. rewrite take_string_all; [done|]. unfold len in *. lia.
Qed.

(** The buffer of a command keeps exactly the first bytes of what the process
    wrote, however it was split into writes, and all of it without a limit: a
    command never holds more than the limit of its specification. *)
Theorem command_output_bounded (limit : Z) (writes : list string) :
  fold_left (commandBuffer_Write limit) writes "" = kept limit (strings_Join "" writes)
  /\ (0 < limit -> len (fold_left (commandBuffer_Write limit) writes "") <= limit).
Proof.
  assert (H : forall s, fold_left (commandBuffer_Write limit) writes (kept limit s) = kept limit (s +:+ strings_Join "" writes)).
  { induction writes as [|p writes IH]; intros s; cbn [fold_left]; [by rewrite string_app_nil_r|].
    rewrite buffer_step, IH, string_app_assoc. f_equal. f_equal. destruct writes; [apply string_app_nil_r|done]. }
  assert (E : fold_left (commandBuffer_Write limit) writes "" = kept limit (strings_Join "" writes)).
  { etrans; [|exact (H "")]. f_equal. unfold kept. destruct (limit <=? 0); [done|]. by destruct (Z.to_nat limit). }
  split; [exact E|]. intros Hl. rewrite E. unfold kept. replace (limit <=? 0) with false by lia. rewrite len_take; lia.
Qed.

Lemma command_output_bounded_witness :
  0 < 4 /\ fold_left (commandBuffer_Write 4) ["ab"; "cde"; "f"] "" = "abcd"
  /\ len (fold_left (commandBuffer_Write 4) ["ab"; "cde"; "f"] "") <= 4.
Proof.
  split; [lia|]. destruct (command_output_bounded 4 ["ab"; "cde"; "f"]) as [H1 H2].
  split; [rewrite H1; reflexivity|apply H2; lia].
Defined.

(** ** Diagnostics *)


Section DiagnosticLemmas.
Context `{UC : !Unicode}.






End DiagnosticLemmas.

(** ** What the comparison returns *)

Section CheckTheorem.
Context `{SYS : !OS} `{HOST : !Host} `{UC : !Unicode} `{RUN : !CommandRunner}.
Variable cfg : Config.




Lemma take_string_len n s : (String.length (take_string n s) <= n)%nat.
Proof. rewrite length_take_string. lia. Qed.

Lemma truncated_bound report limit : 0 < limit -> len (truncateReport report limit) <= limit.
Proof.
  intros Hl. unfold truncateReport. replace (limit <=? 0) with false by lia. cbn [orb].
  destruct (len report <=? limit) eqn:E; [lia|]. rewrite len_take; lia.
Qed.

(** *** The baseline file *)












End CheckTheorem.

(** ** What the inspection returns *)

Section InspectTheorem.
Context `{SYS : !OS} `{HOST : !Host} `{UC : !Unicode} `{PB : !Protobuf} `{RUN : !CommandRunner}.
Variable cfg : Config.

Definition build_spec (workdir : string) : commandSpec :=
  mkCommandSpec (BinaryPath cfg) ["build"; "--as-file-descriptor-set"; "-o"; "-"] workdir (BuildTimeout cfg) 0 (MaxReportBytes cfg).
Definition lint_spec (workdir : string) : commandSpec :=
  mkCommandSpec (BinaryPath cfg) ["lint"] workdir (LintTimeout cfg) (MaxReportBytes cfg) (MaxReportBytes cfg).

Definition lint_wanted (options : BufWorkflowOptions) : bool :=
  wo_RunLint options && negb (LintMode cfg =? LintModeDisabled)%string.

(** The image is the output of a build that ended with the code 0. *)
Definition built (workdir image : string) : Prop :=
  image <> "" /\ exists fs1 result fs2, runCommand (build_spec workdir) fs1 = (Ok result, fs2)
    /\ cmd_exitCode result = 0 /\ cmd_stdout result = image.

(** The lint of a module: not run, or the one of a command that ended. *)
Definition linted (workdir : string) (options : BufWorkflowOptions) (lint : BufLintResult) : Prop :=
  if lint_wanted options then
    exists fs1 result fs2, runCommand (lint_spec workdir) fs1 = (Ok result, fs2)
      /\ lint_Report lint = truncateReport (commandResult_report result) (MaxReportBytes cfg)
      /\ lint_Status lint = (if cmd_exitCode result =? 0 then BufLintStatusPassed else
                             if (LintMode cfg =? LintModeEnforce)%string then BufLintStatusFailed else BufLintStatusWarning)
  else lint = mkBufLintResult BufLintStatusNotRun "".

(** The ends of an inspection, with the error the registry makes of each. *)
Inductive inspected (workdir : string) (options : BufWorkflowOptions) : BufWorkflowResult -> option error -> Prop :=
| inspect_no_image res err :
    wr_BufImage res = "" -> mapBufWorkflowError err res = EWrap registry.ErrBufBuildFailed err ->
    inspected workdir options res (Some err)
| inspect_no_descriptor res err :
    built workdir (wr_BufImage res) -> ExtractDescriptorMetadata (wr_BufImage res) = Err err ->
    mapBufWorkflowError err res = EWrap registry.ErrDescriptorExtractionFailed err ->
    inspected workdir options res (Some err)
| inspect_lint_not_ended res err :
    built workdir (wr_BufImage res) -> ExtractDescriptorMetadata (wr_BufImage res) = Ok (wr_DescriptorMetadata res) ->
    lint_wanted options = true ->
    (exists fs1 fs2, runCommand (lint_spec workdir) fs1 = (Err err, fs2)) ->
    mapBufWorkflowError err res = EWrap registry.ErrDescriptorExtractionFailed err ->
    inspected workdir options res (Some err)
| inspect_lint_failed res err :
    built workdir (wr_BufImage res) -> ExtractDescriptorMetadata (wr_BufImage res) = Ok (wr_DescriptorMetadata res) ->
    lint_wanted options = true -> LintMode cfg = LintModeEnforce -> linted workdir options (wr_LintResult res) ->
    lint_Status (wr_LintResult res) = BufLintStatusFailed ->
    mapBufWorkflowError err res = EWrap registry.ErrBufLintFailed err ->
    inspected workdir options res (Some err)
| inspect_accepted res :
    built workdir (wr_BufImage res) -> wr_BufImageDigest res = sha256_digest (wr_BufImage res) ->
    ExtractDescriptorMetadata (wr_BufImage res) = Ok (wr_DescriptorMetadata res) ->
    linted workdir options (wr_LintResult res) -> lint_Status (wr_LintResult res) <> BufLintStatusFailed ->
    buf_LintEnabled (wr_ConfigInfo res) = lint_wanted options ->
    (RequireConfig cfg || wo_RequireBufYAML options = true -> buf_YAMLPresent (wr_ConfigInfo res) = true) ->
    inspected workdir options res None.

Lemma len_zero s : (len s =? 0) = true <-> s = "".
Proof. unfold len. rewrite Z.eqb_eq. destruct s as [|a s]; [done|]. cbn [String.length]. split; [lia|done]. Qed.

Lemma runBuild_Ok workdir fs result fs' :
  runBuild cfg workdir fs = (Ok result, fs') -> built workdir (cmd_stdout result).
Proof.
  intros H. unfold runBuild in H. apply bind_Ok in H as (r & fs1 & H1 & H).
  destruct (negb _) eqn:Ec; [done|]. destruct (len (cmd_stdout r) =? 0) eqn:El; [done|]. injection H as <- <-.
  split; [intros E; apply len_zero in E; congruence|]. exists fs, r, fs1. split_and!; [done| |done]. apply negb_false_iff, Z.eqb_eq in Ec. exact Ec.
Qed.

Lemma runLint_cases workdir options fs lint err fs' :
  runLint cfg workdir (wo_RunLint options) fs = (Ok (lint, err), fs') ->
  match err with
  | None => linted workdir options lint /\ lint_Status lint <> BufLintStatusFailed
      /\ negb (lint_Status lint =? BufLintStatusNotRun)%string = lint_wanted options
  | Some e => lint_wanted options = true /\
      ((lint = no_lint /\ exists fs1 fs2, runCommand (lint_spec workdir) fs1 = (Err e, fs2))
       \/ (linted workdir options lint /\ LintMode cfg = LintModeEnforce /\ lint_Status lint = BufLintStatusFailed))
  end.
Proof.
  unfold runLint, linted. change (negb (wo_RunLint options) || (LintMode cfg =? LintModeDisabled)%string)
    with (negb (wo_RunLint options) || (LintMode cfg =? LintModeDisabled)%string).
  assert (Hw : negb (wo_RunLint options) || (LintMode cfg =? LintModeDisabled)%string = negb (lint_wanted options)).
  { unfold lint_wanted. by destruct (wo_RunLint options), (_ =? _)%string. }
  rewrite Hw. destruct (lint_wanted options); cbn [negb]; [|by intros [= <- <- <-]].
  rewrite bind_try. fold (lint_spec workdir). destruct (runCommand _ fs) as [[result|e] fs1] eqn:Er.
  2: { intros [= <- <- <-]. split; [done|]. left. split; [done|]. by exists fs, fs1. }
  destruct (cmd_exitCode result =? 0) eqn:Ec.
  { intros [= <- <- <-]. split; [|done]. exists fs, result, fs1. by rewrite Ec. }
  destruct (String.eqb_spec (LintMode cfg) LintModeEnforce) as [Em|Em]; intros [= <- <- <-].
  - split; [done|]. right. split_and!; [|done..]. exists fs, result, fs1. by rewrite Ec.
  - split; [|done]. exists fs, result, fs1. by rewrite Ec.
Qed.

Lemma runLint_total workdir requested fs : exists p fs', runLint cfg workdir requested fs = (Ok p, fs').
Proof.
  unfold runLint. destruct (_ || _); [by eexists _, _|]. rewrite bind_try. destruct (runCommand _ fs) as [[r|e] fs1]; [|by eexists _, _].
  destruct (_ =? 0); [by eexists _, _|]. destruct (_ =? _)%string; by eexists _, _.
Qed.

Lemma image_nonempty s : s <> "" -> (0 <? len s) = true.
Proof.
  intros H. destruct (Z.ltb_spec 0 (len s)) as [|Hl]; [done|]. destruct H. apply len_zero, Z.eqb_eq. unfold len in *. lia.
Qed.

(** C29: an inspection of [buf] answers, whatever happens, with one of five ends,
    and an error of each has the class the registry gives it.  An accepted module
    has a nonempty image of a build that ended with the code 0, its digest, the
    metadata extracted from that image, a [buf.yaml] when one is required, and a
    lint that did not fail, run exactly when it is requested and not disabled; in
    the mode [enforce] a lint that does not pass is the error of the lint, in the
    other modes a warning. *)
Theorem Inspect_answers (workdir : string) (options : BufWorkflowOptions) (fs : FS) :
  exists res err fs', Inspect cfg workdir options fs = (Ok (res, err), fs') /\ inspected workdir options res err.
Proof.
  unfold Inspect. cbv zeta. rewrite bind_try. destruct (inspectConfig workdir fs) as [[config|e] fs1].
  2: { eexists _, _, _. split; [done|]. by apply inspect_no_image. }
  destruct ((RequireConfig cfg || wo_RequireBufYAML options) && negb (buf_YAMLPresent config)) eqn:Ey.
  { eexists _, _, _. split; [done|]. by apply inspect_no_image. }
  rewrite bind_try. destruct (runBuild cfg workdir fs1) as [[result|e] fs2] eqn:Eb.
  2: { eexists _, _, _. split; [done|]. by apply inspect_no_image. }
  apply runBuild_Ok in Eb. pose proof (image_nonempty _ (proj1 Eb)) as Hi.
  destruct (ExtractDescriptorMetadata (cmd_stdout result)) as [metadata|e] eqn:Ex.
  2: { eexists _, _, _. split; [done|]. apply inspect_no_descriptor; [done..|]. unfold mapBufWorkflowError. cbn. by rewrite Hi. }
  destruct (runLint_total workdir (wo_RunLint options) fs2) as ([lint err] & fs3 & El). unfold bind. rewrite El.
  apply runLint_cases in El. destruct err as [e|].
  - eexists _, _, _. split; [done|]. destruct El as [Hw [[-> Hr]|(Hl & Hm & Hs)]].
    + apply inspect_lint_not_ended; [done..|]. unfold mapBufWorkflowError. cbn. by rewrite Hi.
    + apply inspect_lint_failed; [done..|]. unfold mapBufWorkflowError. cbn. by rewrite Hs.
  - destruct El as (Hl & Hs & Hn). eexists _, _, _. split; [done|]. apply inspect_accepted; [done..|].
    cbn. intros Hr. rewrite Hr in Ey. by destruct (buf_YAMLPresent config).
Qed.
End InspectTheorem.

(** ** Examples: the diagnostics of the tests, and an output that is none *)

Module WorkflowExamples.
#[local] Existing Instance example_unicode.
Definition test_config : Config := mkConfig "buf" 30 30 LintModeWarn false 40.

Example field_diagnostic :
  parseBreakingDiagnostics ("user/v1/user.proto:12:5:FIELD_SAME_TYPE: changed." +:+ nl +:+ "Done.")
  = [mkBreakingChange "" "" "field" "user/v1/user.proto" "" "" "FIELD_SAME_TYPE" "12:5:FIELD_SAME_TYPE: changed." "error" 0].
Proof. vm_compute. reflexivity. Qed.

(** A compilation error of [buf], which ends with the code 1. *)
Example compile_error_is_breaking :
  (breaking_result test_config (Ok (mkCommandResult "" "a.proto:3:1: syntax error" 1))).1
  = mkBufBreakingCheckResult BreakingReportStatusBreaking
      [mkBreakingChange "" "" "" "a.proto" "" "" "" "3:1: syntax error" "error" 0]
      "a.proto:3:1: syntax error" "1 breaking change found.".
Proof. vm_compute. reflexivity. Qed.

(** Two bytes of one character, cut after the first. *)
Example truncated_report_is_not_utf8 :
  let report := "a.proto" +:+ String (ascii_of_nat 195) (String (ascii_of_nat 169) "") in
  truncateReport report 8 = "a.proto" +:+ String (ascii_of_nat 195) "" /\ valid_utf8 report = true
  /\ valid_utf8 (truncateReport report 8) = false.
Proof. vm_compute. done. Qed.
End WorkflowExamples.
