(* ===== verification/GitLabReport.v ===== *)
(** * The report of a merge request

    [format/gitlabmr/renderer.go] and the data of [integration/gitlab/client.go]:
    the Markdown of the note ProtoRadar leaves on a GitLab merge request, the
    marker that identifies it, the choice of the note to update and the redaction
    of secrets.

    The theorems: whatever the fields of a report hold, its text after the line of
    the marker shows no GitLab token and no token of the registry
    ([RenderReport_hides_tokens]); the note that is chosen is the latest of those
    with the marker ([SelectExistingNote_correct]). *)

From stdpp Require Import pretty.
From S2P Require Import Prelude Errors GoStrings JsonScan Regexp Domain Json BufWorkflow.

Open Scope string_scope.
Open Scope Z_scope.

(** ** The data of GitLab *)

Definition CommitStatusStatePending : string := "pending".
Definition CommitStatusStateRunning : string := "running".
Definition CommitStatusStateSuccess : string := "success".
Definition CommitStatusStateFailed : string := "failed".

Record MergeRequestNoteAuthor := mkMergeRequestNoteAuthor { author_Username : string; author_Name : string }.
Record MergeRequestNote := mkMergeRequestNote {
  note_ID : Z;
  note_Body : string;
  note_CreatedAt : time;
  note_UpdatedAt : time;
  note_Author : MergeRequestNoteAuthor }.
Record CommitStatus := mkCommitStatus {
  cs_State : string;
  cs_Name : string;
  cs_TargetURL : string;
  cs_Description : string }.

(** ** The data of a report *)

Definition DefaultMaxDisplayedChanges : Z := 50.
Definition DefaultMaxDisplayedAffectedModules : Z := 20.
Definition DefaultMaxDisplayedRuntimeImpacts : Z := 20.
Definition statusPassed : string := "passed".
Definition statusBreaking : string := "breaking".
Definition statusFailed : string := "failed".

Record Change := mkChange {
  chg_FilePath : string;
  chg_Symbol : string;
  chg_RuleID : string;
  chg_Message : string }.
Record AffectedModule := mkAffectedModule {
  aff_Module : string;
  aff_LatestVersion : string;
  aff_DependencySources : list string;
  aff_Reasons : list string }.
Record RuntimeImpact := mkRuntimeImpact {
  imp_ServiceName : string;
  imp_Environment : string;
  imp_UsedModule : string;
  imp_UsedVersion : string;
  imp_BuildVersion : string;
  imp_GitCommit : string;
  imp_DriftStatus : string;
  imp_DriftReason : string }.
Record GovernanceRequirement := mkGovernanceRequirement {
  greq_RequirementType : string;
  greq_TargetModuleName : string;
  greq_Status : string;
  greq_Reason : string }.
Record GovernanceDecision := mkGovernanceDecision {
  gdec_Decision : string;
  gdec_DecidedBy : string;
  gdec_Comment : string }.
Record Governance := mkGovernance {
  gov_Status : string;
  gov_ApprovalRequestID : string;
  gov_Requirements : list GovernanceRequirement;
  gov_Decisions : list GovernanceDecision;
  gov_MissingOwnerWarnings : list string }.
Record Report := mkReport {
  rp_Module : string;
  rp_Against : string;
  rp_TargetRef : string;
  rp_Status : string;
  rp_ChangeCount : Z;
  rp_Changes : list Change;
  rp_AffectedModules : list AffectedModule;
  rp_RuntimeImpacts : list RuntimeImpact;
  rp_RuntimeImpactUnavailable : bool;
  rp_Governance : option Governance;
  rp_ReportID : string;
  rp_TargetURL : string;
  rp_CommitSHA : string }.
Record RenderOptions := mkRenderOptions {
  MaxDisplayedChanges : Z;
  MaxDisplayedAffectedModules : Z;
  MaxDisplayedRuntimeImpacts : Z }.

(** ** Secrets *)

(** [\s] and [[A-Za-z0-9_-]] of [regexp]. *)
Definition re_space (a : ascii) : bool :=
  let b := byte a in (b =? 32) || (b =? 9) || (b =? 10) || (b =? 12) || (b =? 13).
Definition token_byte (a : ascii) : bool :=
  is_upper a || is_lower a || is_digit a || Ascii.eqb a "_" || Ascii.eqb a "-".

Definition separated_token (name : string) : regexp :=
  RCat (RFold name) (RCat (ROption (RClass (fun a => Ascii.eqb a "-" || Ascii.eqb a "_" || Ascii.eqb a " "))) (RFold "token")).
Definition named_secret : pattern :=
  mkPattern
    (RAny (map separated_token ["private"; "access"; "protoradar"; "gitlab"]
           ++ map RFold ["authorization"; "bearer"; "secret"; "password"])%list)
    (RCat (RAlt (RAlt (RByte "=") (RByte ":")) (RPlus re_space))
       (RCat (RStar re_space) (RPlus (fun a => negb (re_space a) && negb (Ascii.eqb a "|"))))).
Definition secretPatterns : list pattern :=
  [named_secret; token_pattern "glpat-" token_byte; token_pattern "prr_" token_byte].

Definition redactSecrets (value : string) : string :=
  fold_left (fun value pattern => ReplaceAllString pattern value "[redacted]") secretPatterns value.

(** ** Cells *)

Definition cr : string := String (ascii_of_nat 13) "".

Definition maxCellLength : Z := 500.
Definition tableCell (value : string) : string :=
  let value := redactSecrets value in
  let value := ReplaceAll value (cr +:+ nl) " " in
  let value := ReplaceAll value nl " " in
  let value := ReplaceAll value cr " " in
  let value := strings_Join " " (Fields value) in
  let value := ReplaceAll value "|" "\|" in
  if maxCellLength <? len value then take_string (Z.to_nat maxCellLength) value +:+ "..." else value.

Definition defaultIfBlank (value fallback : string) : string :=
  if (TrimSpace value =? "")%string then fallback else value.

(** The text of a row with these cells. *)
Definition table_row (cells : list string) : string := "| " +:+ strings_Join " | " cells +:+ " |" +:+ nl.
Definition code (cell : string) : string := "`" +:+ cell +:+ "`".

Definition writeRow (field value : string) : string :=
  table_row [tableCell field; tableCell (defaultIfBlank value "unspecified")].

Definition writeChangeRow (change : Change) : string :=
  table_row [tableCell (defaultIfBlank (chg_FilePath change) "unknown file");
             tableCell (defaultIfBlank (chg_Symbol change) "unspecified");
             tableCell (defaultIfBlank (chg_RuleID change) "unspecified");
             tableCell (defaultIfBlank (chg_Message change) "unspecified")].

(** ** The marker *)

Definition markerModuleName (moduleName : string) : string :=
  ReplaceAll (ReplaceAll (ReplaceAll (TrimSpace moduleName) cr "") nl "") "-->" "".
Definition BuildMarker (moduleName : string) : string :=
  "<!-- protoradar:mr-check module=" +:+ markerModuleName moduleName +:+ " -->".
Definition ContainsMarker (body moduleName : string) : bool := Contains body (BuildMarker moduleName).

(** The loop over the notes, with its four variables. *)
Record selection := mkSelection {
  sel_selected : option MergeRequestNote;     (* [matched] is its presence *)
  sel_selectedTime : time;
  sel_sawTimestamp : bool }.
Definition select_note (moduleName : string) (st : selection) (note : MergeRequestNote) : selection :=
  if negb (ContainsMarker (note_Body note) moduleName) then st else
  let noteTime := if IsZero (note_UpdatedAt note) then note_CreatedAt note else note_UpdatedAt note in
  let matched := match sel_selected st with Some _ => true | None => false end in
  if negb (IsZero noteTime) then
    if negb matched || negb (sel_sawTimestamp st) || negb (noteTime <? sel_selectedTime st)
    then mkSelection (Some note) noteTime true else st
  else if negb (sel_sawTimestamp st)
  then mkSelection (Some note) (sel_selectedTime st) (sel_sawTimestamp st) else st.
Definition SelectExistingNote (notes : list MergeRequestNote) (moduleName : string) : option MergeRequestNote :=
  sel_selected (fold_left (select_note moduleName) notes (mkSelection None 0 false)).

(** ** The sections of the report *)

Section Rendering.
Context `{UC : !Unicode}.

Definition reportStatus (status : string) : string :=
  let value := ToLower (TrimSpace status) in
  if (value =? "error")%string || (value =? statusFailed)%string then statusFailed else value.

Definition headerForStatus (status : string) : string :=
  let status := reportStatus status in
  if (status =? statusPassed)%string then "## ✅ ProtoRadar Breaking Change Report" else
  if (status =? statusBreaking)%string then "## ❌ ProtoRadar Breaking Change Report" else
  "## ⚠️ ProtoRadar Breaking Change Report".

Definition normalizedGovernanceStatus (status : string) : string := ToLower (TrimSpace status).

Definition requirementLabel (value : string) : string :=
  let label := ToLower (TrimSpace value) in
  if (label =? "module_owner_approval")%string then "Module owner approval" else
  if (label =? "affected_consumer_approval")%string then "Affected consumer approval" else TrimSpace value.

(** [strings.ToUpper] of one byte; a byte that is no character becomes U+FFFD. *)
Definition upper_byte (a : ascii) : string :=
  if byte a <? 128 then String (ascii_upper a) "" else encode_rune RuneError.
Definition capitalized (part : string) : string :=
  match part with "" => part | String a rest => upper_byte a +:+ ToLower rest end.
Definition statusLabel (value : string) : string :=
  let value := TrimSpace value in
  if (value =? "")%string then "" else
  strings_Join " " (map capitalized (split_byte " " (ReplaceAll value "_" " "))).

Definition writeSummary (report : Report) : string :=
  "### Summary" +:+ nl +:+ nl +:+ "| Field | Value |" +:+ nl +:+ "| --- | --- |" +:+ nl
  +:+ writeRow "Module" (rp_Module report)
  +:+ writeRow "Base version / against" (rp_Against report)
  +:+ writeRow "Target commit/ref" (rp_TargetRef report)
  +:+ writeRow "Status" (rp_Status report)
  +:+ writeRow "Change count" (itoa (rp_ChangeCount report))
  +:+ nl.

(** [if len(rows) > limit { "_And %d more ..." }], after the rows up to [limit]. *)
Definition rest_of {A} (l : list A) (max : Z) (text : string) : string :=
  let limit := if max <? llen l then max else llen l in
  if limit <? llen l then "_And " +:+ itoa (llen l - limit) +:+ text +:+ nl +:+ nl else "".
Definition shown {A} (l : list A) (max : Z) : list A := take (Z.to_nat (if max <? llen l then max else llen l)) l.

Definition writeChanges (report : Report) (maxChanges : Z) : string :=
  "### Breaking Changes" +:+ nl +:+ nl +:+
  if (reportStatus (rp_Status report) =? statusPassed)%string then "No breaking changes found." +:+ nl +:+ nl else
  if (length (rp_Changes report) =? 0)%nat then "No change details were provided." +:+ nl +:+ nl else
  "| File | Symbol | Rule | Message |" +:+ nl +:+ "| --- | --- | --- | --- |" +:+ nl
  +:+ strings_Join "" (map writeChangeRow (shown (rp_Changes report) maxChanges)) +:+ nl
  +:+ rest_of (rp_Changes report) maxChanges " more changes. See the full CI artifact for details._".

Definition affectedModuleRow (m : AffectedModule) : string :=
  table_row [tableCell (defaultIfBlank (aff_Module m) "unknown module");
             tableCell (defaultIfBlank (aff_LatestVersion m) "unknown");
             tableCell (defaultIfBlank (strings_Join ", " (aff_DependencySources m)) "unspecified");
             tableCell (defaultIfBlank (strings_Join ", " (aff_Reasons m)) "unspecified")].
Definition writeAffectedModules (affected : list AffectedModule) (maxAffectedModules : Z) : string :=
  "### Potentially Affected Modules" +:+ nl +:+ nl +:+
  if (length affected =? 0)%nat
  then "No downstream modules are currently known to depend on this module." +:+ nl +:+ nl else
  "| Module | Latest version | Dependency sources | Reason |" +:+ nl +:+ "| --- | --- | --- | --- |" +:+ nl
  +:+ strings_Join "" (map affectedModuleRow (shown affected maxAffectedModules)) +:+ nl
  +:+ rest_of affected maxAffectedModules " more modules. See ProtoRadar UI for the full dependency graph._".

Definition runtimeImpactRow (report : Report) (impact : RuntimeImpact) : string :=
  let uses := defaultIfBlank (imp_UsedModule impact) (rp_Module report) +:+ "@"
              +:+ defaultIfBlank (imp_UsedVersion impact) (rp_Against report) in
  table_row [code (tableCell (defaultIfBlank (imp_ServiceName impact) "unknown service"));
             code (tableCell (defaultIfBlank (imp_Environment impact) "unknown environment"));
             code (tableCell (defaultIfBlank uses "unknown"));
             code (tableCell (defaultIfBlank (imp_BuildVersion impact) "unknown"));
             code (tableCell (defaultIfBlank (imp_GitCommit impact) "unknown"));
             code (tableCell (defaultIfBlank (imp_DriftStatus impact) "unknown"));
             tableCell (defaultIfBlank (imp_DriftReason impact) "none")].
Definition writeRuntimeImpact (report : Report) (maxRuntimeImpacts : Z) : string :=
  "### Runtime impact" +:+ nl +:+ nl +:+
  if rp_RuntimeImpactUnavailable report
  then "Runtime impact could not be loaded. Check CI logs." +:+ nl +:+ nl else
  if (length (rp_RuntimeImpacts report) =? 0)%nat
  then "No runtime services are currently known to use the affected module version." +:+ nl +:+ nl else
  "| Service | Environment | Uses | Build | Commit | Runtime drift | Drift reason |" +:+ nl
  +:+ "| --- | --- | --- | --- | --- | --- | --- |" +:+ nl
  +:+ strings_Join "" (map (runtimeImpactRow report) (shown (rp_RuntimeImpacts report) maxRuntimeImpacts)) +:+ nl
  +:+ rest_of (rp_RuntimeImpacts report) maxRuntimeImpacts
        " more runtime usages. See ProtoRadar UI for the full runtime inventory._".

Definition governanceStatusLine (status : string) : string :=
  let status := normalizedGovernanceStatus status in
  if (status =? "approved")%string then "Status: ✅ Approved" else
  if (status =? "rejected")%string then "Status: ❌ Rejected" else
  if (status =? "not_required")%string then "Status: ✅ Approval not required" else
  if (status =? "pending")%string then "Status: ⏳ Approval required" else
  "Status: ⚠️ Governance status unavailable".
Definition warningLine (warning : string) : string :=
  if negb (TrimSpace warning =? "")%string then tableCell warning +:+ nl +:+ nl else "".
Definition requirementRow (r : GovernanceRequirement) : string :=
  table_row [tableCell (requirementLabel (greq_RequirementType r));
             code (tableCell (defaultIfBlank (greq_TargetModuleName r) "unknown module"));
             tableCell (defaultIfBlank (statusLabel (greq_Status r)) "Unknown");
             tableCell (defaultIfBlank (greq_Reason r) "unspecified")].
Definition decisionRow (d : GovernanceDecision) : string :=
  table_row [tableCell (defaultIfBlank (statusLabel (gdec_Decision d)) "Unknown");
             tableCell (defaultIfBlank (gdec_DecidedBy d) "not returned");
             tableCell (defaultIfBlank (gdec_Comment d) "none")].
Definition writeGovernance (governance : option Governance) : string :=
  match governance with
  | None => ""
  | Some governance =>
      "### Governance" +:+ nl +:+ nl +:+ governanceStatusLine (gov_Status governance) +:+ nl +:+ nl
      +:+ strings_Join "" (map warningLine (gov_MissingOwnerWarnings governance))
      +:+ (if (length (gov_Requirements governance) =? 0)%nat then "" else
           "| Requirement | Target | Status | Reason |" +:+ nl +:+ "|---|---|---|---|" +:+ nl
           +:+ strings_Join "" (map requirementRow (gov_Requirements governance)) +:+ nl)
      +:+ (if (length (gov_Decisions governance) =? 0)%nat then "" else
           "| Decision | Decided by | Comment |" +:+ nl +:+ "|---|---|---|" +:+ nl
           +:+ strings_Join "" (map decisionRow (gov_Decisions governance)) +:+ nl)
  end.

Definition writeResult (status : string) : string :=
  let status := reportStatus status in
  "### Result / Next Steps" +:+ nl +:+ nl +:+
  (if (status =? statusPassed)%string then "Safe to merge from the protobuf compatibility perspective." else
   if (status =? statusBreaking)%string
   then "Restore compatibility, coordinate a major version, or complete the required governance approval workflow."
   else "Check job logs and configuration.") +:+ nl +:+ nl.

Definition metadataRow (field value : string) : string :=
  if negb (TrimSpace value =? "")%string then writeRow field value else "".
Definition writeMetadata (report : Report) : string :=
  if (TrimSpace (rp_ReportID report) =? "")%string && (TrimSpace (rp_TargetURL report) =? "")%string
     && (TrimSpace (rp_CommitSHA report) =? "")%string then "" else
  "### Metadata" +:+ nl +:+ nl +:+ "| Field | Value |" +:+ nl +:+ "| --- | --- |" +:+ nl
  +:+ metadataRow "Report ID" (rp_ReportID report)
  +:+ metadataRow "Target URL" (rp_TargetURL report)
  +:+ metadataRow "Commit SHA" (rp_CommitSHA report).

Definition limit_or (value default : Z) : Z := if value <=? 0 then default else value.

(** The text after the line of the marker. *)
Definition report_body (report : Report) (options : RenderOptions) : string :=
  headerForStatus (rp_Status report) +:+ nl +:+ nl
  +:+ writeSummary report
  +:+ writeChanges report (limit_or (MaxDisplayedChanges options) DefaultMaxDisplayedChanges)
  +:+ writeAffectedModules (rp_AffectedModules report)
        (limit_or (MaxDisplayedAffectedModules options) DefaultMaxDisplayedAffectedModules)
  +:+ writeRuntimeImpact report (limit_or (MaxDisplayedRuntimeImpacts options) DefaultMaxDisplayedRuntimeImpacts)
  +:+ writeGovernance (rp_Governance report)
  +:+ writeResult (rp_Status report)
  +:+ writeMetadata report.
Definition RenderReport (report : Report) (options : RenderOptions) : string :=
  BuildMarker (rp_Module report) +:+ nl +:+ report_body report options.
End Rendering.

(** ** Tokens are hidden *)

(** The tokens of GitLab and of the registry, and the rest of a report. *)
Definition secret_tokens : list classes := [token_classes "glpat-" token_byte; token_classes "prr_" token_byte].
Definition hides (s : string) : Prop := Forall (fun pat => occurs pat s = false) secret_tokens.
(** A text that hides the tokens and after which one can be continued freely. *)
Definition hiding_line (s : string) : Prop := hides s /\ closes token_byte s = true.


Lemma token_inside pat : pat ∈ secret_tokens -> Forall (fun p => forall a, p a = true -> token_byte a = true) pat /\ pat <> [].
Proof.
  intros H. unfold secret_tokens in H. rewrite !elem_of_cons, elem_of_nil in H.
  destruct H as [->|[->|[]]]; (split; [|done]); repeat constructor; intros a Ha; try done; apply Ascii.eqb_eq in Ha as <-; done.
Qed.

Lemma hides_app s t : (opens token_byte t = true \/ closes token_byte s = true) -> hides s -> hides t -> hides (s +:+ t).
Proof.
  unfold hides. rewrite !Forall_forall. intros Hst Hs Ht pat Hp. destruct (token_inside pat Hp) as [Hi Hn].
  by rewrite (occurs_app pat token_byte Hi), Hs, Ht.
Qed.

Lemma hides_Join sep l : apart token_byte sep = true -> sep <> "" -> Forall hides l -> hides (strings_Join sep l).
Proof.
  unfold hides. rewrite !Forall_forall. intros Hs Hn Hl pat Hp. destruct (token_inside pat Hp) as [Hi Hne].
  apply (occurs_Join pat token_byte Hi Hne); [done..|]. apply Forall_forall. intros s Hin.
  pose proof (Hl s Hin) as H. rewrite Forall_forall in H. by apply H.
Qed.

Lemma line_app s t : hiding_line s -> hiding_line t -> hiding_line (s +:+ t).
Proof. intros [Hs Cs] [Ht Ct]. split; [by apply hides_app; [right| |]|by apply closes_app]. Qed.
Lemma line_hides s t : hiding_line s -> hides t -> hides (s +:+ t).
Proof. intros [Hs Cs] Ht. by apply hides_app; [right| |]. Qed.
Lemma line_concat l : Forall hiding_line l -> hiding_line (strings_Join "" l).
Proof.
  induction 1 as [|s l Hs Hl IH]; [by vm_compute; split; repeat constructor|]. cbn [strings_Join].
  destruct l as [|t l]; [done|]. by apply line_app.
Qed.
Lemma hides_end s t : opens token_byte t = true -> closes token_byte t = true -> t <> "" -> hides s -> hides t -> hiding_line (s +:+ t).
Proof. intros Ho Hc Hn Hs Ht. split; [by apply hides_app; [left| |]|by apply closes_app]. Qed.

(** *** Redaction *)

Lemma redactSecrets_hides value : hides (redactSecrets value).
Proof.
  unfold redactSecrets, secretPatterns. cbn [fold_left]. set (v := ReplaceAllString named_secret _ _).
  assert (Hg : occurs (token_classes "glpat-" token_byte) (ReplaceAllString (token_pattern "glpat-" token_byte) v "[redacted]") = false).
  { apply (occurs_redacted _ token_byte); [by apply token_inside; left|done..|]. intros x y _. apply token_matched. }
  constructor; [|constructor; [|constructor]].
  - apply (occurs_kept _ token_byte); [by apply token_inside; left|done..].
  - apply (occurs_redacted _ token_byte); [by apply token_inside; right; left|done..|]. intros x y _. apply token_matched.
Qed.

Lemma hides_ReplaceAll s old new : apart token_byte new = true -> new <> "" -> hides s -> hides (ReplaceAll s old new).
Proof.
  unfold hides. rewrite !Forall_forall. intros Hn Hne Hs pat Hp. destruct (token_inside pat Hp) as [Hi Hne'].
  apply (occurs_ReplaceAll pat token_byte); auto.
Qed.

Lemma hides_take n s : hides s -> hides (take_string n s).
Proof.
  unfold hides. rewrite !Forall_forall. intros Hs pat Hp. destruct (token_inside pat Hp) as [Hi Hne'].
  by apply occurs_take, Hs.
Qed.

Lemma hides_Fields s : hides s -> Forall hides (Fields s).
Proof.
  unfold hides at 1. intros H. apply Forall_forall. intros f Hf. eapply Forall_impl; [exact H|].
  intros pat Hp. apply Fields_no_occurs in Hp. rewrite Forall_forall in Hp. by apply Hp.
Qed.

Lemma tableCell_hides value : hides (tableCell value).
Proof.
  unfold tableCell. cbv zeta. set (cell := ReplaceAll _ "|" "\|").
  assert (H : hides cell).
  { apply hides_ReplaceAll; [done..|]. apply hides_Join; [done..|]. apply hides_Fields.
    do 3 (apply hides_ReplaceAll; [done..|]). apply redactSecrets_hides. }
  destruct (maxCellLength <? len cell); [|done]. apply hides_app; [by left|by apply hides_take|by repeat constructor].
Qed.

(** *** Numbers *)

Definition number_byte (a : ascii) : bool := is_digit a || Ascii.eqb a "-".

Lemma pretty_digits n s : forallb_string number_byte s = true -> forallb_string number_byte (pretty_N_go n s) = true.
Proof.
  revert s. induction (N.lt_wf_0 n) as [n _ IH]. intros s Hs. destruct (decide (n = 0)%N) as [->|Hn].
  { by rewrite pretty_N_go_0. }
  rewrite pretty_N_go_step by lia. apply IH; [apply N.div_lt; lia|]. cbn. rewrite Hs, andb_true_r.
  assert (Hm : (n `mod` 10 < 10)%N) by (apply N.mod_lt; lia). revert Hm. generalize (n `mod` 10)%N. intros m Hm.
  assert (Hc : (m = 0 \/ m = 1 \/ m = 2 \/ m = 3 \/ m = 4 \/ m = 5 \/ m = 6 \/ m = 7 \/ m = 8 \/ m = 9)%N) by lia.
  by repeat destruct Hc as [->|Hc]; [..|subst].
Qed.

Lemma itoa_number z : forallb_string number_byte (itoa z) = true.
Proof.
  unfold itoa. destruct z as [|p|p]; [done| |].
  - apply (pretty_digits (Npos p)). done.
  - change (forallb_string number_byte ("-" +:+ pretty (Npos p)) = true). cbn. by apply (pretty_digits (Npos p)).
Qed.

Lemma itoa_hides z : hides (itoa z).
Proof.
  pose proof (itoa_number z) as H. revert H. generalize (itoa z). intros s H.
  unfold hides. rewrite Forall_forall. intros pat Hp. unfold secret_tokens in Hp. rewrite !elem_of_cons, elem_of_nil in Hp.
  induction s as [|a s IH]; [done|]. cbn [forallb_string] in H. apply andb_true_iff in H as [Ha H].
  cbn [occurs]. rewrite (IH H), orb_false_r.
  destruct Hp as [->|[->|[]]]; cbn [begins token_classes literal_classes list_ascii_of_string map app];
    [destruct (Ascii.eqb_spec "g" a) as [<-|]|destruct (Ascii.eqb_spec "p" a) as [<-|]]; first [discriminate Ha|reflexivity].
Qed.

(** *** The parts of a report *)

(** A closed text. *)
Ltac hides_text := (split; [repeat constructor|]); vm_compute; reflexivity.

Lemma nl_line : hiding_line nl.
Proof. hides_text. Qed.
Lemma table_row_line cells : Forall hides cells -> hiding_line (table_row cells).
Proof.
  intros H. unfold table_row. apply line_app; [hides_text|].
  rewrite <- string_app_assoc. rewrite string_app_assoc. apply hides_end; [done..| |by repeat constructor].
  by apply hides_Join.
Qed.
Lemma code_hides cell : hides cell -> hides (code cell).
Proof.
  intros H. unfold code. apply line_hides; [hides_text|]. apply hides_app; [by left|done|by repeat constructor].
Qed.

Lemma empty_line : hiding_line "".
Proof. hides_text. Qed.
Lemma text_line s t : hides s -> hiding_line (nl +:+ t) -> hiding_line (s +:+ nl +:+ t).
Proof. intros Hs [Ht Hc]. by apply hides_end. Qed.
Lemma text_nl s : hides s -> hiding_line (s +:+ nl).
Proof. intros Hs. apply hides_end; [done..|by repeat constructor]. Qed.
Lemma rows_line {A} (row : A -> string) l : (forall x, hiding_line (row x)) -> hiding_line (strings_Join "" (map row l)).
Proof. intros H. apply line_concat, Forall_forall. intros s (x & <- & _)%list_elem_of_In%in_map_iff. apply H. Qed.

Ltac hiding := repeat lazymatch goal with
  | |- hides (tableCell _) => apply tableCell_hides
  | |- hides (code _) => apply code_hides
  | |- hides (itoa _ +:+ _) => apply hides_app; [by left|apply itoa_hides|]
  | |- hides (if ?b then _ else _) => destruct b
  | |- hides (_ +:+ _) => apply line_hides
  | |- hides _ => by repeat constructor
  | |- hiding_line (table_row _) => apply table_row_line; repeat apply (Forall_cons_2 hides); [..|constructor]
  | |- hiding_line (nl +:+ _) => apply line_app; [apply nl_line|]
  | |- hiding_line nl => apply nl_line
  | |- hiding_line "" => apply empty_line
  | |- hiding_line (if ?b then _ else _) => destruct b
  | |- hiding_line (table_row _ +:+ _) => apply line_app
  | |- hiding_line (strings_Join "" _ +:+ _) => apply line_app
  | |- hiding_line ((if ?b then _ else _) +:+ _) => destruct b
  | |- hiding_line (_ +:+ nl +:+ _) => apply text_line
  | |- hiding_line (_ +:+ nl) => apply text_nl
  | |- hiding_line (strings_Join "" (map _ _)) => apply rows_line; intros ?
  | |- hiding_line (_ +:+ _) => apply line_app
  end; try hides_text.

Lemma rest_of_line {A} (l : list A) max text : opens token_byte text = true -> hides text -> hiding_line (rest_of l max text).
Proof.
  intros Ho Ht. unfold rest_of. set (limit := if max <? llen l then max else llen l). destruct (limit <? llen l); [|apply empty_line].
  apply line_app; [hides_text|]. rewrite <- string_app_assoc. apply text_line; [|hiding].
  apply hides_app; [by left|apply itoa_hides|done].
Qed.

Section Hidden.
Context `{UC : !Unicode}.

Lemma summary_line report : hiding_line (writeSummary report).
Proof. unfold writeSummary, writeRow. hiding. Qed.
Lemma changes_line report max : hiding_line (writeChanges report max).
Proof. unfold writeChanges, writeChangeRow. hiding. apply rest_of_line; [done|by repeat constructor]. Qed.
Lemma affected_line affected max : hiding_line (writeAffectedModules affected max).
Proof. unfold writeAffectedModules, affectedModuleRow. hiding. apply rest_of_line; [done|by repeat constructor]. Qed.
Lemma runtime_line report max : hiding_line (writeRuntimeImpact report max).
Proof. unfold writeRuntimeImpact, runtimeImpactRow. cbv zeta. hiding. apply rest_of_line; [done|by repeat constructor]. Qed.
Lemma governance_line governance : hiding_line (writeGovernance governance).
Proof.
  unfold writeGovernance, governanceStatusLine, warningLine, requirementRow, decisionRow. cbv zeta.
  destruct governance as [g|]; [|apply empty_line]. hiding.
Qed.
Lemma result_line status : hiding_line (writeResult status).
Proof. unfold writeResult. cbv zeta. hiding. Qed.
Lemma metadata_line report : hiding_line (writeMetadata report).
Proof. unfold writeMetadata, metadataRow, writeRow. hiding. Qed.

Lemma report_body_hides report options : hides (report_body report options).
Proof.
  enough (H : hiding_line (report_body report options)) by apply H. unfold report_body, headerForStatus. cbv zeta.
  apply text_line; [hiding|]. apply line_app; [hiding|]. apply line_app; [hiding|].
  repeat lazymatch goal with |- hiding_line (_ +:+ _) => apply line_app end;
    auto using summary_line, changes_line, affected_line, runtime_line, governance_line, result_line, metadata_line.
Qed.

(** Whatever its fields hold (messages of [buf], names, reasons, comments), the
    text of a report after the line of the marker shows no token of GitLab
    ([glpat-...]) and no token of the registry ([prr_...]): no such token is left in
    a cell by the redaction, made by what follows it (line breaks, fields, escaped
    bars and the limit of a cell), or put together by the cells of a row. *)
Theorem RenderReport_hides_tokens (report : Report) (options : RenderOptions) :
  exists body, RenderReport report options = BuildMarker (rp_Module report) +:+ nl +:+ body
    /\ occurs (token_classes "glpat-" token_byte) body = false
    /\ occurs (token_classes "prr_" token_byte) body = false.
Proof.
  exists (report_body report options). split; [done|].
  pose proof (report_body_hides report options) as H. unfold hides, secret_tokens in H.
  apply Forall_cons in H as [H1 H2]. by apply Forall_cons in H2 as [H2 _].
Qed.
End Hidden.

(** ** The note that is chosen *)

Lemma Contains_prefix s t : s <> "" -> Contains (s +:+ t) s = true.
Proof. intros H. pose proof (HasPrefix_app s t) as E. destruct s as [|a s]; [done|]. cbn [String.append Contains] in *. by rewrite E. Qed.

Lemma report_contains_marker `{UC : !Unicode} report options moduleName :
  markerModuleName (rp_Module report) = markerModuleName moduleName ->
  ContainsMarker (RenderReport report options) moduleName = true.
Proof.
  intros E. unfold ContainsMarker, RenderReport. assert (HM : BuildMarker (rp_Module report) = BuildMarker moduleName).
  { unfold BuildMarker. by rewrite E. }
  rewrite HM. by apply Contains_prefix.
Qed.

Definition note_time (note : MergeRequestNote) : time :=
  if IsZero (note_UpdatedAt note) then note_CreatedAt note else note_UpdatedAt note.

Section Selection.
Variable moduleName : string.
Definition marked (note : MergeRequestNote) : bool := ContainsMarker (note_Body note) moduleName.
Definition stamped (note : MergeRequestNote) : bool := negb (IsZero (note_time note)).

(** The note between [before] and [after]: the latest of the notes with the marker
    and a time, the last of them when several have that time; the last note with
    the marker when none has a time. *)
Definition latest_marked (before : list MergeRequestNote) (note : MergeRequestNote) (after : list MergeRequestNote) : Prop :=
  marked note = true /\
  if stamped note
  then Forall (fun n => marked n = true -> stamped n = true -> note_time n <= note_time note) before
       /\ Forall (fun n => marked n = true -> stamped n = true -> note_time n < note_time note) after
  else Forall (fun n => marked n = true -> stamped n = false) before /\ Forall (fun n => marked n = false) after.

Definition selects (notes : list MergeRequestNote) (st : selection) : Prop :=
  match sel_selected st with
  | None => Forall (fun n => marked n = false) notes /\ sel_sawTimestamp st = false
  | Some note => exists before after, notes = (before ++ note :: after)%list /\ latest_marked before note after
      /\ sel_sawTimestamp st = stamped note /\ (stamped note = true -> sel_selectedTime st = note_time note)
  end.

Lemma latest_marked_skip before note after n :
  latest_marked before note after -> (if stamped note then marked n = true -> stamped n = true -> note_time n < note_time note
                                      else marked n = false) ->
  latest_marked before note (after ++ [n]).
Proof.
  unfold latest_marked. intros [Hm H] Hn. split; [done|]. destruct (stamped note); destruct H as [H1 H2];
    (split; [done|]; apply Forall_app; split; [done|by constructor]).
Qed.

Lemma select_note_selects notes st note : selects notes st -> selects (notes ++ [note]) (select_note moduleName st note).
Proof.
  intros H. unfold select_note. fold (marked note) (note_time note). destruct (marked note) eqn:Em; cbn [negb].
  2: { unfold selects in *. destruct (sel_selected st) as [m|].
       - destruct H as (before & after & -> & H & Hs). exists before, (after ++ [note])%list. rewrite <- app_assoc. split_and!; [done| |apply Hs..].
         apply latest_marked_skip; [done|]. destruct (stamped m); congruence.
       - destruct H as [H Hs]. split; [|done]. apply Forall_app. by split; [|constructor]. }
  fold (stamped note). unfold selects in H. destruct (sel_selected st) as [m|] eqn:Est; cbn [negb orb].
  - destruct H as (before & after & -> & H & Hs & Ht). rewrite Hs. destruct (stamped note) eqn:En.
    + destruct (stamped m) eqn:Esm; cbn [negb orb]; [rewrite (Ht eq_refl); destruct (note_time note <? note_time m) eqn:El|]; cbn [negb].
      * unfold selects. rewrite Est. exists before, (after ++ [note])%list. rewrite Hs, <- app_assoc, Esm. split_and!; [done| |done|apply Ht].
        apply latest_marked_skip; [done|]. rewrite Esm. lia.
      * unfold selects. cbn [sel_selected sel_sawTimestamp sel_selectedTime]. exists (before ++ m :: after)%list, []. rewrite En. split_and!; [by rewrite <- app_assoc| |done|done].
        split; [done|]. rewrite En. split; [|constructor]. destruct H as [Hm H]. rewrite Esm in H. cbv beta iota in H. destruct H as [H1 H2].
        apply Forall_app. split; [|constructor; [lia|]]; (eapply Forall_impl; [eassumption|]; cbn; intros n Hn ? ?; specialize (Hn ltac:(done) ltac:(done)); lia).
      * unfold selects. cbn [sel_selected sel_sawTimestamp sel_selectedTime]. exists (before ++ m :: after)%list, []. rewrite En. split_and!; [by rewrite <- app_assoc| |done|done].
        split; [done|]. rewrite En. split; [|constructor]. destruct H as [Hm H]. rewrite Esm in H. cbv beta iota in H. destruct H as [H1 H2].
        apply Forall_app. split; [|constructor; [congruence|]]; (eapply Forall_impl; [eassumption|]; cbn; intros n Hn; intuition congruence).
    + destruct (stamped m) eqn:Esm; cbn [negb].
      * unfold selects. rewrite Est. exists before, (after ++ [note])%list. rewrite Hs, <- app_assoc, Esm. split_and!; [done| |done|apply Ht].
        apply latest_marked_skip; [done|]. rewrite Esm. congruence.
      * unfold selects. cbn [sel_selected sel_sawTimestamp sel_selectedTime]. exists (before ++ m :: after)%list, []. rewrite En. split_and!; [by rewrite <- app_assoc| |done|done].
        split; [done|]. rewrite En. split; [|constructor]. destruct H as [Hm H]. rewrite Esm in H. cbv beta iota in H. destruct H as [H1 H2].
        apply Forall_app. split; [done|]. constructor; [done|]. eapply Forall_impl; [exact H2|]. cbn. congruence.
  - destruct H as [H Hs]. rewrite Hs. cbn [negb orb].
    assert (Hfirst : latest_marked notes note []).
    { split; [done|]. destruct (stamped note); (split; [|constructor]); (eapply Forall_impl; [exact H|]; cbn; congruence). }
    destruct (stamped note) eqn:En; unfold selects; cbn [sel_selected sel_sawTimestamp sel_selectedTime]; exists notes, []; rewrite En; by split_and!.
Qed.

(** the note a run updates is chosen as the documentation says: none exactly when
    no note has the marker of the module; otherwise the latest note with the marker
    and a time (the last of those of the same time), or the last note with the
    marker when no time is known. *)
Theorem SelectExistingNote_correct (notes : list MergeRequestNote) :
  match SelectExistingNote notes moduleName with
  | None => Forall (fun n => marked n = false) notes
  | Some note => exists before after, notes = (before ++ note :: after)%list /\ latest_marked before note after
  end.
Proof.
  assert (H : selects notes (fold_left (select_note moduleName) notes (mkSelection None 0 false))).
  { induction notes as [|note l IH] using rev_ind; [by split|]. rewrite fold_left_app. by apply select_note_selects. }
  unfold SelectExistingNote. unfold selects in H. destruct (sel_selected _) as [note|].
  - destruct H as (before & after & -> & H & _). by exists before, after.
  - apply H.
Qed.
End Selection.

(** ** Examples *)

(** The name of the secret takes the word after it, not the secret. *)
Example bearer_not_redacted : redactSecrets "Authorization: Bearer abc.def" = "Authorization[redacted] abc.def".
Proof. vm_compute. reflexivity. Qed.
Example token_redacted : redactSecrets "PRIVATE-TOKEN: glpat-x1 and prr_y|z" = "PRIVATE-TOKEN[redacted] and [redacted]|z".
Proof. vm_compute. reflexivity. Qed.
(** The end of a comment is put together by its removal. *)
Example marker_end_remains : markerModuleName "a---->>" = "a-->".
Proof. vm_compute. reflexivity. Qed.
Example cell_of_lines : tableCell ("a | b" +:+ cr +:+ nl +:+ "c") = "a \| b c".
Proof. vm_compute. reflexivity. Qed.
