(* ===== verification/MergeRequestCheck.v ===== *)
(** * The check of a merge request

    [usecase/gitlabmr/runner.go]: the command of a merge request pipeline, which
    asks the registry for a breaking check, for the affected modules, for the
    runtime impact and for the approval status, leaves the report on the merge
    request, in one note that later runs update, and sets the status of the commit.

    The clients are a record of operations on a state of their own; what they do is
    not fixed.  The theorems: a run answers with the verdict of the report and of
    its approval ([Run_verdict]); the notes of a merge request that fit the page
    GitLab answers with ([GitLabNotes]) implement one register, which a run writes
    ([Run_refines_register]), and beyond the page they do not
    ([second_note_after_a_page]); and no text of the form [glpat-...] or
    [prr_...] of the errors of the clients is shown ([Run_hides_tokens]). *)

From S2P Require Import Prelude Errors GoStrings JsonScan Regexp Domain Json Effects BufWorkflow GitLabReport.

Open Scope string_scope.
Open Scope Z_scope.

(** ** Data *)

Definition ExitCodePassed : Z := 0.
Definition ExitCodeBreaking : Z := 1.
Definition ExitCodeError : Z := 2.
Definition DefaultStatusName : string := "protoradar/breaking-check".

(** The records of package [gitlabmr], next to those of the renderer. *)
Module mrcheck.
Record BreakingChange := mkBreakingChange {
  bc_Category : string;
  bc_FilePath : string;
  bc_PackageName : string;
  bc_Symbol : string;
  bc_RuleID : string;
  bc_Message : string;
  bc_Severity : string }.
Record BreakingReport := mkBreakingReport {
  br_ID : string;
  br_Module : string;
  br_Against : string;
  br_TargetRef : string;
  br_Status : string;
  br_ChangeCount : Z;
  br_Changes : list BreakingChange;
  br_HumanSummary : string;
  br_CreatedAt : time }.
Record AffectedModule := mkAffectedModule {
  am_Module : string;
  am_LatestVersion : string;
  am_DependencySources : list string;
  am_Reasons : list string }.
Record RuntimeImpact := mkRuntimeImpact {
  ri_ServiceName : string;
  ri_Environment : string;
  ri_UsedModule : string;
  ri_UsedVersion : string;
  ri_BuildVersion : string;
  ri_GitCommit : string;
  ri_DriftStatus : string;
  ri_DriftReason : string }.
Record GovernanceRequirement := mkGovernanceRequirement {
  gr_RequirementType : string;
  gr_TargetModuleName : string;
  gr_Status : string;
  gr_Reason : string }.
Record GovernanceDecision := mkGovernanceDecision {
  gd_Decision : string;
  gd_DecidedBy : string;
  gd_Comment : string }.
Record GovernanceStatus := mkGovernanceStatus {
  gs_ID : string;
  gs_Status : string;
  gs_Requirements : list GovernanceRequirement;
  gs_Decisions : list GovernanceDecision;
  gs_RequiredApprovals : Z;
  gs_ReceivedApprovals : Z }.
End mrcheck.
Import mrcheck.

Record Input := mkInput {
  in_Module : string;
  in_Against : string;
  in_TargetRef : string;
  in_ArtifactName : string;
  in_Artifact : string;
  in_GitLabProjectID : Z;
  in_MergeRequestIID : Z;
  in_CommitSHA : string;
  in_StatusEnabled : bool;
  in_StatusName : string;
  in_StatusTargetURL : string;
  in_MaxDisplayedChanges : Z;
  in_GovernanceEnabled : bool;
  in_GovernanceActor : string }.
Record Result := mkResult {
  res_ExitCode : Z;
  res_BreakingStatus : string;
  res_Markdown : string;
  res_NoteID : Z;
  res_CommentAction : string }.

(** ** The clients *)

Section Clients.
Context (W : Type).

Record GovernanceClient := mkGovernanceClient {
  GetApprovalStatus : string -> M W GovernanceStatus;
  CreateApprovalRequest : string -> string -> M W GovernanceStatus }.
Record GitLabClient := mkGitLabClient {
  ListMergeRequestNotes : Z -> Z -> M W (list MergeRequestNote);
  CreateMergeRequestNote : Z -> Z -> string -> M W MergeRequestNote;
  UpdateMergeRequestNote : Z -> Z -> Z -> string -> M W MergeRequestNote;
  SetCommitStatus : Z -> string -> CommitStatus -> M W unit }.

(** The fields that may be nil. *)
Record Runner := mkRunner {
  BreakingClient_CheckBreaking : option (string -> string -> string -> string -> string -> M W BreakingReport);
  AffectedModulesClient_ListAffectedModules : option (string -> M W (list AffectedModule));
  RuntimeImpactClient_ListRuntimeImpact : option (string -> M W (list RuntimeImpact));
  GovernanceClient_ : option GovernanceClient;
  GitLabClient_ : option GitLabClient }.
End Clients.
Arguments mkGovernanceClient {W}. Arguments mkGitLabClient {W}. Arguments mkRunner {W}.
Arguments GetApprovalStatus {W}. Arguments CreateApprovalRequest {W}. Arguments ListMergeRequestNotes {W}.
Arguments CreateMergeRequestNote {W}. Arguments UpdateMergeRequestNote {W}. Arguments SetCommitStatus {W}.
Arguments BreakingClient_CheckBreaking {W}. Arguments AffectedModulesClient_ListAffectedModules {W}.
Arguments RuntimeImpactClient_ListRuntimeImpact {W}. Arguments GovernanceClient_ {W}. Arguments GitLabClient_ {W}.

(** ** What is rendered *)

Definition blank (s : string) : bool := (TrimSpace s =? "")%string.

Definition artifactName (input : Input) : string :=
  if blank (in_ArtifactName input) then "source.tar.gz" else in_ArtifactName input.

Definition sanitizeError (err : error) : error := EText (redactSecrets (Error err)).

(** [fmt.Errorf(context + ": %w", err)]. *)
Definition errorf (context : string) (err : error) : error := EWrap (EText context) err.

Section Render.
Context `{UC : !Unicode}.

Definition normalizedStatus (status : string) : string := ToLower (TrimSpace status).
Definition normalizedGovernance (governance : option GovernanceStatus) : string :=
  match governance with None => "" | Some g => ToLower (TrimSpace (gs_Status g)) end.

Definition missingOwnerWarning (requirement : GovernanceRequirement) : list string :=
  if Contains (ToLower (gr_Reason requirement)) "no owners are configured" then
    let target := TrimSpace (gr_TargetModuleName requirement) in
    let target := if (target =? "")%string then "this module" else target in
    ["Approval required, but no owners are configured for `" +:+ target +:+ "`."]
  else [].

Definition renderGovernance (governance : option GovernanceStatus) : option Governance :=
  match governance with
  | None => None
  | Some g => Some (mkGovernance (gs_Status g) (gs_ID g)
      (map (fun r => GitLabReport.mkGovernanceRequirement (gr_RequirementType r) (gr_TargetModuleName r) (gr_Status r) (gr_Reason r))
         (gs_Requirements g))
      (map (fun d => GitLabReport.mkGovernanceDecision (gd_Decision d) (gd_DecidedBy d) (gd_Comment d)) (gs_Decisions g))
      (flat_map missingOwnerWarning (gs_Requirements g)))
  end.

Definition renderReportFromBreaking (input : Input) (report : BreakingReport) (affected : list AffectedModule)
    (runtimeImpacts : list RuntimeImpact) (runtimeImpactUnavailable : bool) (governance : option GovernanceStatus) : Report :=
  mkReport
    (if blank (br_Module report) then in_Module input else br_Module report)
    (if blank (br_Against report) then in_Against input else br_Against report)
    (if blank (br_TargetRef report) then in_TargetRef input else br_TargetRef report)
    (br_Status report) (br_ChangeCount report)
    (map (fun c => mkChange (bc_FilePath c) (bc_Symbol c) (bc_RuleID c) (bc_Message c)) (br_Changes report))
    (map (fun m => GitLabReport.mkAffectedModule (am_Module m) (am_LatestVersion m) (am_DependencySources m) (am_Reasons m)) affected)
    (map (fun i => GitLabReport.mkRuntimeImpact (ri_ServiceName i) (ri_Environment i) (ri_UsedModule i) (ri_UsedVersion i)
                     (ri_BuildVersion i) (ri_GitCommit i) (ri_DriftStatus i) (ri_DriftReason i)) runtimeImpacts)
    runtimeImpactUnavailable (renderGovernance governance) (br_ID report) (in_StatusTargetURL input) (in_CommitSHA input).

(** The state of the commit, its description and the exit code. *)
Definition finalState (input : Input) (report : BreakingReport) (governance : option GovernanceStatus) : string * string * Z :=
  let compatibility :=
    if (normalizedStatus (br_Status report) =? "breaking")%string
    then (CommitStatusStateFailed, "ProtoRadar found protobuf breaking changes", ExitCodeBreaking)
    else (CommitStatusStateSuccess, "No protobuf breaking changes found", ExitCodePassed) in
  if negb (in_GovernanceEnabled input) then compatibility else
  let status := normalizedGovernance governance in
  if (status =? "approved")%string
  then (CommitStatusStateSuccess, "ProtoRadar breaking changes approved", ExitCodePassed) else
  if (status =? "pending")%string
  then (CommitStatusStateFailed, "ProtoRadar breaking changes require governance approval", ExitCodeBreaking) else
  if (status =? "rejected")%string
  then (CommitStatusStateFailed, "ProtoRadar breaking changes were rejected", ExitCodeBreaking) else
  if (status =? "not_required")%string
  then (CommitStatusStateSuccess, "Governance approval not required", ExitCodePassed) else compatibility.
End Render.

(** ** The run *)

Section Run.
Context `{UC : !Unicode} {W : Type}.
Variable runner : Runner W.

Definition validate (input : Input) : option error :=
  match BreakingClient_CheckBreaking runner with None => Some (EText "gitlab mr runner requires a breaking client") | Some _ =>
  match GitLabClient_ runner with None => Some (EText "gitlab mr runner requires a gitlab client") | Some _ =>
  if blank (in_Module input) then Some (EText "gitlab mr runner requires module") else
  if blank (in_Against input) then Some (EText "gitlab mr runner requires against") else
  if len (in_Artifact input) =? 0 then Some (EText "gitlab mr runner requires artifact") else
  if in_GitLabProjectID input <=? 0 then Some (EText "gitlab mr runner requires gitlab project id") else
  if in_MergeRequestIID input <=? 0 then Some (EText "gitlab mr runner requires merge request iid") else
  if in_StatusEnabled input && blank (in_CommitSHA input)
  then Some (EText "gitlab mr runner requires commit sha when status is enabled") else None
  end end.

(** The operations of the two clients [validate] requires; without one the
    program would stop at a nil call. *)
Definition nil_call : error := EExternal "invalid memory address or nil pointer dereference".
Definition on_gitlab {A} (f : GitLabClient W -> M W A) : M W A :=
  match GitLabClient_ runner with Some client => f client | None => fail nil_call end.

Definition setStatus (input : Input) (statusName state description : string) : M W unit :=
  on_gitlab (fun client => SetCommitStatus client (in_GitLabProjectID input) (TrimSpace (in_CommitSHA input))
    (mkCommitStatus state statusName (TrimSpace (in_StatusTargetURL input)) description)).
Definition bestEffortSetStatus (input : Input) (statusName state description : string) : M W unit :=
  let! _ := try (setStatus input statusName state description) in ret tt.

Definition upsertComment (input : Input) (markdown : string) : M W (MergeRequestNote * string) :=
  let project := in_GitLabProjectID input in
  let mergeRequest := in_MergeRequestIID input in
  let! notes := map_err (fun err => errorf "list merge request notes" (sanitizeError err))
    (on_gitlab (fun client => ListMergeRequestNotes client project mergeRequest)) in
  match SelectExistingNote notes (in_Module input) with
  | Some existing =>
      let! note := map_err (fun err => errorf "update merge request note" (sanitizeError err))
        (on_gitlab (fun client => UpdateMergeRequestNote client project mergeRequest (note_ID existing) markdown)) in
      ret (note, "updated")
  | None =>
      let! note := map_err (fun err => errorf "create merge request note" (sanitizeError err))
        (on_gitlab (fun client => CreateMergeRequestNote client project mergeRequest markdown)) in
      ret (note, "created")
  end.

Definition fetchAffectedModules (input : Input) : M W (list AffectedModule) :=
  match AffectedModulesClient_ListAffectedModules runner with
  | None => ret []
  | Some list => list (TrimSpace (in_Module input))
  end.
Definition bestEffortAffectedModules (input : Input) : M W (list AffectedModule) :=
  let! affected := try (fetchAffectedModules input) in
  match affected with Ok affected => ret affected | Err _ => ret [] end.

Definition fetchRuntimeImpact (report : BreakingReport) : M W (list RuntimeImpact * bool) :=
  match RuntimeImpactClient_ListRuntimeImpact runner with
  | None => ret ([], false)
  | Some list =>
      if blank (br_ID report) then ret ([], false) else
      let! impacts := try (list (TrimSpace (br_ID report))) in
      match impacts with Ok impacts => ret (impacts, false) | Err _ => ret ([], true) end
  end.

Definition actor_rejected : string :=
  "server rejected governance actor override; omit --governance-actor so the server uses the authenticated ProtoRadar principal, or enable server actor override for migration compatibility".

Definition fetchGovernanceStatus (input : Input) (report : BreakingReport) : M W (option GovernanceStatus) :=
  match GovernanceClient_ runner with
  | None => ret None
  | Some client =>
      if blank (br_ID report) then ret None else
      let settle (status : result GovernanceStatus) : M W (option GovernanceStatus) :=
        match status with
        | Ok status => ret (Some status)
        | Err err =>
            if negb (in_GovernanceEnabled input) then ret None else
            if negb (blank (in_GovernanceActor input)) then fail (errorf actor_rejected err) else
            fail err
        end in
      let! status := try (GetApprovalStatus client (TrimSpace (br_ID report))) in
      match status with
      | Err err =>
          if errors_Is err EGovernanceNotFound then
            if negb (in_GovernanceEnabled input) then ret None else
            let! status := try (CreateApprovalRequest client (TrimSpace (br_ID report)) (TrimSpace (in_GovernanceActor input))) in
            settle status
          else settle status
      | Ok _ => settle status
      end
  end.

Definition render_options (input : Input) : RenderOptions := mkRenderOptions (in_MaxDisplayedChanges input) 0 0.

Definition error_report (input : Input) (cause : error) : Report :=
  mkReport (in_Module input) (in_Against input) (in_TargetRef input) "check failed" 0
    [mkChange "" "" "" (Error cause)] [] [] false None "" (in_StatusTargetURL input) (in_CommitSHA input).

(** The error with two causes is known by its text: both are made of texts. *)
Definition handleError (input : Input) (statusName : string) (cause : error) : M W (Result * option error) :=
  let markdown := RenderReport (error_report input cause) (render_options input) in
  let! upserted := try (upsertComment input markdown) in
  let! _ := (if in_StatusEnabled input
             then bestEffortSetStatus input statusName CommitStatusStateFailed "ProtoRadar breaking check failed" else ret tt) in
  match upserted with
  | Ok (note, action) => ret (mkResult ExitCodeError "error" markdown (note_ID note) action, Some cause)
  | Err noteErr => ret (mkResult ExitCodeError "error" markdown 0 "",
      Some (EText (Error cause +:+ "; error report comment failed: " +:+ Error (sanitizeError noteErr))))
  end.

Definition status_name (input : Input) : string :=
  let statusName := TrimSpace (in_StatusName input) in
  if (statusName =? "")%string then DefaultStatusName else statusName.

Definition set_running (input : Input) : M W unit :=
  if in_StatusEnabled input
  then setStatus input (status_name input) CommitStatusStateRunning "ProtoRadar breaking check is running" else ret tt.

Definition check_breaking (input : Input) : M W BreakingReport :=
  match BreakingClient_CheckBreaking runner with
  | Some check => check (TrimSpace (in_Module input)) (TrimSpace (in_Against input)) (TrimSpace (in_TargetRef input))
                    (artifactName input) (in_Artifact input)
  | None => fail nil_call
  end.

(** The end of a run, once the report is rendered. *)
Definition publish_report (input : Input) (report : BreakingReport) (governanceStatus : option GovernanceStatus)
    (markdown : string) : M W (Result * option error) :=
  let! upserted := try (upsertComment input markdown) in
  match upserted with
  | Err err =>
      let! _ := (if in_StatusEnabled input
                 then bestEffortSetStatus input (status_name input) CommitStatusStateFailed
                        "ProtoRadar failed to publish the merge request report" else ret tt) in
      ret (mkResult ExitCodeError (br_Status report) markdown 0 "", Some (sanitizeError err))
  | Ok (note, action) =>
      let '(state, description, exitCode) := finalState input report governanceStatus in
      let done_ exitCode := mkResult exitCode (br_Status report) markdown (note_ID note) action in
      let! final := try (if in_StatusEnabled input then setStatus input (status_name input) state description else ret tt) in
      match final with
      | Err err => ret (done_ ExitCodeError, Some (errorf "set final commit status" (sanitizeError err)))
      | Ok _ => ret (done_ exitCode, None)
      end
  end.

Definition failed_run : Result := mkResult ExitCodeError "" "" 0 "".

Definition Run (input : Input) : M W (Result * option error) :=
  match validate input with
  | Some err => ret (failed_run, Some err)
  | None =>
      let! running := try (set_running input) in
      match running with
      | Err err => ret (failed_run, Some (errorf "set running commit status" (sanitizeError err)))
      | Ok _ =>
          let! report := try (check_breaking input) in
          match report with
          | Err err => handleError input (status_name input) (errorf "breaking check failed" (sanitizeError err))
          | Ok report =>
              let! affected := bestEffortAffectedModules input in
              let! (runtimeImpacts, runtimeImpactUnavailable) := fetchRuntimeImpact report in
              let! governanceStatus := try (fetchGovernanceStatus input report) in
              match governanceStatus with
              | Err err => handleError input (status_name input) (errorf "governance approval status failed" (sanitizeError err))
              | Ok governanceStatus =>
                  let markdown := RenderReport (renderReportFromBreaking input report affected runtimeImpacts
                                                  runtimeImpactUnavailable governanceStatus) (render_options input) in
                  publish_report input report governanceStatus markdown
              end
          end
      end
  end.
End Run.

(** ** The ends of a run *)

Section Ends.
Context `{UC : !Unicode} {W : Type}.
Variables (runner : Runner W) (input : Input).

(** What happens before the report of a check that was made is rendered. *)
Definition checked (w : W) (report : BreakingReport) (w' : W) : Prop :=
  validate runner input = None /\ exists w1, set_running runner input w = (Ok tt, w1) /\ check_breaking runner input w1 = (Ok report, w').
Definition informed (w : W) (report : BreakingReport) (affected : list AffectedModule) (impacts : list RuntimeImpact)
    (unavailable : bool) (w' : W) : Prop :=
  exists w1 w2, checked w report w1 /\ bestEffortAffectedModules runner input w1 = (Ok affected, w2)
    /\ fetchRuntimeImpact runner report w2 = (Ok (impacts, unavailable), w').

Inductive ran (w : W) : Result -> option error -> W -> Prop :=
| ran_invalid err : validate runner input = Some err -> ran w failed_run (Some err) w
| ran_not_running err w1 : validate runner input = None -> set_running runner input w = (Err err, w1) ->
    ran w failed_run (Some (errorf "set running commit status" (sanitizeError err))) w1
| ran_unchecked err w1 w2 res err' w' : validate runner input = None -> set_running runner input w = (Ok tt, w1) ->
    check_breaking runner input w1 = (Err err, w2) ->
    handleError runner input (status_name input) (errorf "breaking check failed" (sanitizeError err)) w2 = (Ok (res, Some err'), w') ->
    ran w res (Some err') w'
| ran_ungoverned report affected impacts unavailable w1 err w2 res err' w' :
    informed w report affected impacts unavailable w1 -> fetchGovernanceStatus runner input report w1 = (Err err, w2) ->
    handleError runner input (status_name input) (errorf "governance approval status failed" (sanitizeError err)) w2
      = (Ok (res, Some err'), w') ->
    ran w res (Some err') w'
| ran_reported report affected impacts unavailable w1 governance w2 res err w' :
    informed w report affected impacts unavailable w1 -> fetchGovernanceStatus runner input report w1 = (Ok governance, w2) ->
    publish_report runner input report governance
      (RenderReport (renderReportFromBreaking input report affected impacts unavailable governance) (render_options input)) w2
      = (Ok (res, err), w') ->
    ran w res err w'.

Lemma bestEffort_total statusName state description w :
  exists w', bestEffortSetStatus runner input statusName state description w = (Ok tt, w').
Proof. unfold bestEffortSetStatus. rewrite bind_try. destruct (setStatus _ _ _ _ _ w) as [r w']. by exists w'. Qed.

Lemma optional_status_total statusName state description w :
  exists w', (if in_StatusEnabled input then bestEffortSetStatus runner input statusName state description else ret tt) w = (Ok tt, w').
Proof. destruct (in_StatusEnabled input); [apply bestEffort_total|by exists w]. Qed.

(** Publishing the report of an error answers with the exit code of an error. *)
Lemma handleError_ends cause w :
  exists r w1 w2, upsertComment runner input (RenderReport (error_report input cause) (render_options input)) w = (r, w1)
    /\ (if in_StatusEnabled input then bestEffortSetStatus runner input (status_name input) CommitStatusStateFailed
          "ProtoRadar breaking check failed" else ret tt) w1 = (Ok tt, w2)
    /\ handleError runner input (status_name input) cause w =
       (Ok (mkResult ExitCodeError "error" (RenderReport (error_report input cause) (render_options input))
              (match r with Ok p => note_ID p.1 | Err _ => 0 end) (match r with Ok p => p.2 | Err _ => "" end),
            Some (match r with Ok _ => cause
                  | Err e => EText (Error cause +:+ "; error report comment failed: " +:+ Error (sanitizeError e)) end)), w2).
Proof.
  unfold handleError. rewrite bind_try. destruct (upsertComment _ _ _ w) as [r w1] eqn:Eu.
  destruct (optional_status_total (status_name input) CommitStatusStateFailed "ProtoRadar breaking check failed" w1) as (w2 & Es).
  exists r, w1, w2. split_and!; [done|exact Es|]. unfold bind. rewrite Es. by destruct r as [[note action]|e].
Qed.

(** Publishing a report: the note, then the status; the exit code of the verdict
    when both are done, the one of an error otherwise. *)
Inductive published (report : BreakingReport) (governance : option GovernanceStatus) (markdown : string) (w : W) :
    Result -> option error -> W -> Prop :=
| published_not e w1 w' : upsertComment runner input markdown w = (Err e, w1) ->
    (if in_StatusEnabled input then bestEffortSetStatus runner input (status_name input) CommitStatusStateFailed
       "ProtoRadar failed to publish the merge request report" else ret tt) w1 = (Ok tt, w') ->
    published report governance markdown w (mkResult ExitCodeError (br_Status report) markdown 0 "") (Some (sanitizeError e)) w'
| published_unset note action w1 e w' : upsertComment runner input markdown w = (Ok (note, action), w1) ->
    (if in_StatusEnabled input then setStatus runner input (status_name input) (finalState input report governance).1.1
       (finalState input report governance).1.2 else ret tt) w1 = (Err e, w') ->
    published report governance markdown w (mkResult ExitCodeError (br_Status report) markdown (note_ID note) action)
      (Some (errorf "set final commit status" (sanitizeError e))) w'
| published_whole note action w1 w' : upsertComment runner input markdown w = (Ok (note, action), w1) ->
    (if in_StatusEnabled input then setStatus runner input (status_name input) (finalState input report governance).1.1
       (finalState input report governance).1.2 else ret tt) w1 = (Ok tt, w') ->
    published report governance markdown w
      (mkResult (finalState input report governance).2 (br_Status report) markdown (note_ID note) action) None w'.

Lemma publish_report_ends report governance markdown w :
  exists res err w', publish_report runner input report governance markdown w = (Ok (res, err), w')
    /\ published report governance markdown w res err w'.
Proof.
  unfold publish_report. rewrite bind_try. destruct (upsertComment _ _ _ w) as [[[note action]|e] w1] eqn:Eu.
  - destruct (finalState input report governance) as [[state description] exitCode] eqn:Ef. rewrite bind_try.
    destruct ((if in_StatusEnabled input then setStatus runner input (status_name input) state description else ret tt) w1) as [[[]|e] w2] eqn:Es.
    + eexists _, _, _. split; [done|]. pose proof (published_whole report governance markdown w note action w1 w2 Eu) as H.
      rewrite Ef in H. by apply H.
    + eexists _, _, _. split; [done|]. pose proof (published_unset report governance markdown w note action w1 e w2 Eu) as H.
      rewrite Ef in H. by apply H.
  - destruct (optional_status_total (status_name input) CommitStatusStateFailed
      "ProtoRadar failed to publish the merge request report" w1) as (w2 & Es).
    unfold bind. rewrite Es. eexists _, _, _. split; [done|]. by eapply published_not.
Qed.

Lemma bestEffortAffected_total w : exists affected w', bestEffortAffectedModules runner input w = (Ok affected, w').
Proof. unfold bestEffortAffectedModules. rewrite bind_try. destruct (fetchAffectedModules _ _ w) as [[a|e] w']; by eexists _, _. Qed.
Lemma fetchRuntimeImpact_total report w : exists impacts unavailable w', fetchRuntimeImpact runner report w = (Ok (impacts, unavailable), w').
Proof.
  unfold fetchRuntimeImpact. destruct (RuntimeImpactClient_ListRuntimeImpact runner) as [list|]; [|by eexists _, _, _].
  destruct (blank _); [by eexists _, _, _|]. rewrite bind_try. destruct (list _ w) as [[i|e] w']; by eexists _, _, _.
Qed.

(** A run always answers, with one of these ends. *)
Lemma Run_ends w : exists res err w', Run runner input w = (Ok (res, err), w') /\ ran w res err w'.
Proof.
  unfold Run. destruct (validate runner input) as [err|] eqn:Ev; [eexists _, _, _; split; [done|by apply ran_invalid]|].
  rewrite bind_try. destruct (set_running runner input w) as [[[]|e] w1] eqn:Er.
  2: { eexists _, _, _. split; [done|by apply ran_not_running]. }
  rewrite bind_try. destruct (check_breaking runner input w1) as [[report|e] w2] eqn:Ec.
  2: { destruct (handleError_ends (errorf "breaking check failed" (sanitizeError e)) w2) as (r & w3 & w4 & _ & _ & H).
       rewrite H. eexists _, _, _. split; [done|]. by eapply ran_unchecked. }
  destruct (bestEffortAffected_total w2) as (affected & w3 & Ea). unfold bind at 1. rewrite Ea.
  destruct (fetchRuntimeImpact_total report w3) as (impacts & unavailable & w4 & Ei). unfold bind at 1. rewrite Ei.
  assert (Hi : informed w report affected impacts unavailable w4).
  { exists w2, w3. split; [|done]. split; [done|]. by exists w1. }
  rewrite bind_try. destruct (fetchGovernanceStatus runner input report w4) as [[governance|e] w5] eqn:Eg.
  - destruct (publish_report_ends report governance
      (RenderReport (renderReportFromBreaking input report affected impacts unavailable governance) (render_options input)) w5)
      as (res & err & w' & Hp & _). exists res, err, w'. split; [exact Hp|]. by eapply ran_reported.
  - destruct (handleError_ends (errorf "governance approval status failed" (sanitizeError e)) w5) as (r & w6 & w7 & _ & _ & H).
    rewrite H. eexists _, _, _. split; [done|]. by eapply ran_ungoverned.
Qed.
End Ends.

(** ** The verdict *)

Section Verdict.
Context `{UC : !Unicode} {W : Type}.
Variable runner : Runner W.

(** Whether a commit may be merged: an approval or a refusal counts in the mode of
    governance only; without one the check decides. *)
Definition accepted (input : Input) (report : BreakingReport) (governance : option GovernanceStatus) : bool :=
  let approval := normalizedGovernance governance in
  if in_GovernanceEnabled input && existsb (String.eqb approval) ["approved"; "not_required"] then true else
  if in_GovernanceEnabled input && existsb (String.eqb approval) ["pending"; "rejected"] then false else
  negb (normalizedStatus (br_Status report) =? "breaking")%string.

Lemma finalState_accepted input report governance :
  (finalState input report governance).2 = (if accepted input report governance then ExitCodePassed else ExitCodeBreaking)
  /\ (finalState input report governance).1.1
     = (if accepted input report governance then CommitStatusStateSuccess else CommitStatusStateFailed).
Proof.
  unfold finalState, accepted. cbv zeta. cbn [existsb]. rewrite !orb_false_r.
  set (g := normalizedGovernance governance).
  destruct (in_GovernanceEnabled input), (normalizedStatus (br_Status report) =? "breaking")%string; cbn [negb andb]; try done;
    destruct (String.eqb_spec g "approved") as [->|]; try done; destruct (String.eqb_spec g "pending") as [->|]; try done;
    destruct (String.eqb_spec g "rejected") as [->|]; try done; destruct (String.eqb_spec g "not_required"); done.
Qed.

(** A run without an error made its check, and its exit code is its verdict. *)
Lemma Run_reported input w res w' : Run runner input w = (Ok (res, None), w') ->
  exists report governance w0 w1 w2 w3, check_breaking runner input w0 = (Ok report, w1)
    /\ fetchGovernanceStatus runner input report w2 = (Ok governance, w3)
    /\ res_ExitCode res = (if accepted input report governance then ExitCodePassed else ExitCodeBreaking).
Proof.
  intros HR. destruct (Run_ends runner input w) as (res' & err & w'' & E & H). rewrite E in HR. injection HR as -> -> ->.
  inversion H as [| | | |report a i u w1 governance w2 r e w3 Hi Hg Hp]; subst.
  destruct (publish_report_ends runner input report governance
    (RenderReport (renderReportFromBreaking input report a i u governance) (render_options input)) w2) as (r & e & w3 & Hp' & Hpub).
  rewrite Hp' in Hp. injection Hp as -> -> ->. destruct Hi as (w4 & w5 & (_ & w6 & _ & Hc) & _).
  exists report, governance, w6, w4, w1, w2. split; [done|]. split; [done|]. inversion Hpub. apply finalState_accepted.
Qed.

Definition status_set (input : Input) (state : string) : Prop :=
  exists description w w', setStatus runner input (status_name input) state description w = (Ok tt, w').

(** C31: a run answers, whatever its clients do, and it has no error exactly when its
    exit code is not the one of an error (2).  Without an error the check was made
    and its report published in a note, its status and Markdown are those of the
    result, and the exit code is 0 when the merge request is accepted (in the mode
    of governance by its approval status, otherwise, or without one, by the check)
    and 1 when it is not; the status of the commit, when enabled, says the same. *)
Theorem Run_verdict (input : Input) (w : W) :
  exists res err w', Run runner input w = (Ok (res, err), w')
    /\ (err = None <-> res_ExitCode res <> ExitCodeError)
    /\ (err = None ->
        exists report governance w0 w1 w2 w3 w4 w5 note,
          check_breaking runner input w0 = (Ok report, w1)
          /\ fetchGovernanceStatus runner input report w2 = (Ok governance, w3)
          /\ upsertComment runner input (res_Markdown res) w4 = (Ok (note, res_CommentAction res), w5)
          /\ res_NoteID res = note_ID note /\ res_BreakingStatus res = br_Status report
          /\ res_ExitCode res = (if accepted input report governance then ExitCodePassed else ExitCodeBreaking)
          /\ (in_StatusEnabled input = true ->
              status_set input (if accepted input report governance then CommitStatusStateSuccess else CommitStatusStateFailed))).
Proof.
  destruct (Run_ends runner input w) as (res & err & w' & HR & H). exists res, err, w'. split; [done|].
  assert (Herr : forall cause w1 res err w2, handleError runner input (status_name input) cause w1 = (Ok (res, Some err), w2) ->
    res_ExitCode res = ExitCodeError).
  { intros cause w1 r e w2 Hh. destruct (handleError_ends runner input cause w1) as (x & w3 & w4 & _ & _ & Hx).
    rewrite Hx in Hh. by injection Hh as <- _ _. }
  destruct H as [err Hv|err w1 Hv Hr|err w1 w2 res err' w' Hv Hr Hc Hh|report a i u w1 e w2 res err' w' Hi Hg Hh
    |report a i u w1 governance w2 res err w' Hi Hg Hp]; [split; [by split|done]..| | |].
  - specialize (Herr _ _ _ _ _ Hh). by split.
  - specialize (Herr _ _ _ _ _ Hh). by split.
  - destruct (publish_report_ends runner input report governance
      (RenderReport (renderReportFromBreaking input report a i u governance) (render_options input)) w2) as (r & e & w3 & Hp' & Hpub).
    rewrite Hp' in Hp. injection Hp as -> -> ->. destruct (finalState_accepted input report governance) as [Hcode Hstate].
    destruct Hpub as [e w3 w' Hu Hs|note action w3 e w' Hu Hs|note action w3 w' Hu Hs]; cbn [res_ExitCode res_Markdown res_CommentAction
      res_NoteID res_BreakingStatus]; [by split|by split|].
    split; [rewrite Hcode; by destruct (accepted input report governance)|]. intros _.
    destruct Hi as (w4 & w5 & (_ & w6 & _ & Hc) & _). exists report, governance, w6, w4, w1, w2, w2, w3, note.
    split_and!; [done..|]. intros Hen. rewrite Hen, Hstate in Hs. by eexists _, _, _.
Qed.

(** ** No token is shown *)

Lemma errorf_hides context err : hides context -> hides (Error err) -> hides (Error (errorf context err)).
Proof.
  intros Hc He. unfold errorf. cbn [Error]. apply hides_app; [by left|done|].
  apply line_hides; [hides_text|done].
Qed.
Lemma sanitized_hides err : hides (Error (sanitizeError err)).
Proof. apply redactSecrets_hides. Qed.
Lemma hides_static context err : forallb (fun pat => negb (occurs pat context)) secret_tokens = true ->
  hides (Error (errorf context (sanitizeError err))).
Proof.
  intros H. apply errorf_hides; [|apply sanitized_hides]. unfold hides. apply Forall_forall. intros pat Hp.
  rewrite forallb_forall in H. specialize (H pat). rewrite <- list_elem_of_In in H. by apply negb_true_iff, H.
Qed.

Definition report_hides (markdown : string) : Prop :=
  markdown = "" \/ exists moduleName body, markdown = BuildMarker moduleName +:+ nl +:+ body /\ hides body.

Lemma rendered_hides report options : report_hides (RenderReport report options).
Proof. right. exists (rp_Module report), (report_body report options). split; [done|apply report_body_hides]. Qed.

Lemma handled_hides input cause w res err w' : hides (Error cause) ->
  handleError runner input (status_name input) cause w = (Ok (res, Some err), w') -> report_hides (res_Markdown res) /\ hides (Error err).
Proof.
  intros Hc H. destruct (handleError_ends runner input cause w) as (r & w1 & w2 & _ & _ & E). rewrite E in H. clear E.
  injection H as <- <- _. split; [apply rendered_hides|]. destruct r as [p|e]; [done|].
  change (hides (Error cause +:+ "; error report comment failed: " +:+ Error (sanitizeError e))).
  apply hides_app; [by left|done|]. apply line_hides; [hides_text|]. apply sanitized_hides.
Qed.

(** C33: neither the Markdown of a run, after the line of the marker, nor its error
    has a text of the form [glpat-...] or [prr_...] (the prefix and at least one
    letter, digit, underscore or dash), whatever the clients answered and whatever
    their errors say. Nothing is said of secrets of another form: the registry's own
    tokens, 64 hexadecimal digits, and the word after [Bearer] are not covered. *)
Theorem Run_hides_tokens (input : Input) (w : W) :
  exists res err w', Run runner input w = (Ok (res, err), w') /\ report_hides (res_Markdown res)
    /\ match err with Some e => hides (Error e) | None => True end.
Proof.
  destruct (Run_ends runner input w) as (res & err & w' & HR & H). exists res, err, w'. split; [done|].
  destruct H as [err Hv|err w1 Hv Hr|err w1 w2 res err' w' Hv Hr Hc Hh|report a i u w1 e w2 res err' w' Hi Hg Hh
    |report a i u w1 governance w2 res err w' Hi Hg Hp].
  - split; [by left|]. revert Hv. unfold validate. repeat (case_match; try done); intros [= <-]; by repeat constructor.
  - split; [by left|]. by apply hides_static.
  - eapply handled_hides; [|exact Hh]. by apply hides_static.
  - eapply handled_hides; [|exact Hh]. by apply hides_static.
  - destruct (publish_report_ends runner input report governance
      (RenderReport (renderReportFromBreaking input report a i u governance) (render_options input)) w2) as (r & e & w3 & Hp' & Hpub).
    rewrite Hp' in Hp. injection Hp as -> -> ->.
    destruct Hpub; (split; [apply rendered_hides|]); [apply sanitized_hides|by apply hides_static|done].
Qed.
End Verdict.

(** ** One note for a merge request *)

(** A GitLab whose notes have distinct numbers.  The client asks for the notes
    without naming a page ([gitlabapi/client.go:88]): the answer has some of the
    notes, and all of them only when they fit one page ([notes_page], 20 by
    default); a creation adds one note, an update sets the body of one, an answer
    that is lost may have had its effect, and nothing else changes the notes. *)
Definition same_notes {W} (notes : W -> list MergeRequestNote) : relation W := fun w w' => notes w' = notes w.

Class GitLabNotes {W} (runner : Runner W) (project mergeRequest : Z) := {
  notes : W -> list MergeRequestNote;
  notes_client : GitLabClient W;
  notes_page : nat;
  notes_is_client : GitLabClient_ runner = Some notes_client;
  notes_distinct w : NoDup (map note_ID (notes w));
  notes_listed w r w' : ListMergeRequestNotes notes_client project mergeRequest w = (r, w') ->
    notes w' = notes w
    /\ forall l, r = Ok l -> l ⊆+ notes w /\ ((length (notes w) <= notes_page)%nat -> l ≡ₚ notes w);
  notes_created w body r w' : CreateMergeRequestNote notes_client project mergeRequest body w = (r, w') ->
    (exists n, note_Body n = body /\ notes w' ≡ₚ n :: notes w) \/ (notes w' = notes w /\ is_ok r = false);
  notes_updated w id body r w' : UpdateMergeRequestNote notes_client project mergeRequest id body w = (r, w') ->
    (exists f, (forall n, note_ID n <> id -> f n = n) /\ (forall n, note_ID n = id -> note_Body (f n) = body)
       /\ notes w' ≡ₚ map f (notes w)) \/ (notes w' = notes w /\ is_ok r = false);
  notes_status p sha status : preserves (same_notes notes) (SetCommitStatus notes_client p sha status);
  notes_breaking check a b c d e : BreakingClient_CheckBreaking runner = Some check -> preserves (same_notes notes) (check a b c d e);
  notes_affected list m : AffectedModulesClient_ListAffectedModules runner = Some list -> preserves (same_notes notes) (list m);
  notes_impact list id : RuntimeImpactClient_ListRuntimeImpact runner = Some list -> preserves (same_notes notes) (list id);
  notes_governance client id actor : GovernanceClient_ runner = Some client ->
    preserves (same_notes notes) (GetApprovalStatus client id) /\ preserves (same_notes notes) (CreateApprovalRequest client id actor) }.

(** The register the notes of a merge request implement: the report of a module, if
    there is one. *)
Definition register_of (moduleName : string) (l : list MergeRequestNote) (register : option string) : Prop :=
  map note_Body (List.filter (marked moduleName) l) = match register with Some body => [body] | None => [] end.

(** A run on the register: it writes its report, creating the register when there
    is none; or it fails, and the register is as it was, or has the report whose
    publication was not acknowledged. *)
Inductive register_run (register : option string) (res : Result) : option string -> Prop :=
| register_created : res_CommentAction res = "created" -> register = None -> register_run register res (Some (res_Markdown res))
| register_updated : res_CommentAction res = "updated" -> register <> None -> register_run register res (Some (res_Markdown res))
| register_failed register' : res_CommentAction res = "" -> res_ExitCode res = ExitCodeError ->
    register' = register \/ register' = Some (res_Markdown res) -> register_run register res register'.

Lemma register_perm moduleName l l' register : l ≡ₚ l' -> register_of moduleName l register -> register_of moduleName l' register.
Proof.
  unfold register_of. intros Hl H. assert (Hp : map note_Body (List.filter (marked moduleName) l)
    ≡ₚ map note_Body (List.filter (marked moduleName) l')) by (by rewrite Hl).
  rewrite H in Hp. symmetry in Hp. destruct register as [b|]; [by apply Permutation_singleton_r in Hp|by apply Permutation_nil_r in Hp].
Qed.

Lemma register_none moduleName l register :
  register_of moduleName l register -> Forall (fun n => marked moduleName n = false) l -> register = None.
Proof.
  unfold register_of. intros H Hn. rewrite (filter_none _ l) in H; [by destruct register|].
  rewrite Forall_forall in Hn. exact Hn.
Qed.

Lemma register_add moduleName l n body :
  register_of moduleName l None -> note_Body n = body -> ContainsMarker body moduleName = true ->
  register_of moduleName (n :: l) (Some body).
Proof.
  unfold register_of. intros H Hb Hm. cbn [List.filter]. unfold marked at 1. rewrite Hb, Hm. cbn [map]. by rewrite Hb, H.
Qed.

(** The one note with the marker is the one that is updated. *)
Lemma register_set moduleName before note after register f body :
  register_of moduleName (before ++ note :: after) register -> marked moduleName note = true ->
  NoDup (map note_ID (before ++ note :: after)) ->
  (forall n, note_ID n <> note_ID note -> f n = n) -> note_Body (f note) = body -> ContainsMarker body moduleName = true ->
  register <> None /\ register_of moduleName (map f (before ++ note :: after)) (Some body).
Proof.
  unfold register_of. intros H Hm Hd Hf Hb Hc. rewrite List.filter_app in H. cbn [List.filter] in H. rewrite Hm, map_app in H. cbn [map] in H.
  split; [intros ->; by destruct (map note_Body _)|].
  assert (Hempty : forall l, map note_Body (List.filter (marked moduleName) l) = [] -> note_ID note ∉ map note_ID l ->
            map f l = l /\ List.filter (marked moduleName) l = []).
  { intros l Hl Hid. split; [|by apply map_eq_nil in Hl]. clear Hl. induction l as [|n l IH]; [done|].
    cbn in *. rewrite not_elem_of_cons in Hid. rewrite Hf, IH; [done|..]; naive_solver. }
  rewrite map_app in Hd. cbn [map] in Hd. apply NoDup_app in Hd as (_ & Hba & Ha). apply NoDup_cons in Ha as [Ha _].
  assert (Hb' : note_ID note ∉ map note_ID before) by (intros Hin; apply (Hba _ Hin); left).
  destruct register as [b|]; [|by destruct (map note_Body _)].
  assert (Hl : map note_Body (List.filter (marked moduleName) before) = [] /\ map note_Body (List.filter (marked moduleName) after) = []).
  { destruct (map note_Body (List.filter (marked moduleName) before)) as [|x l]; [by injection H|].
    destruct l; discriminate. }
  destruct Hl as [H1 H2]. destruct (Hempty before H1 Hb') as [E1 F1], (Hempty after H2 Ha) as [E2 F2].
  rewrite map_app. cbn [map]. rewrite E1, E2, List.filter_app. cbn [List.filter]. unfold marked at 2. rewrite Hb, Hc, F1, F2.
  cbn. by rewrite Hb.
Qed.

Section RegisterRun.
Context `{UC : !Unicode} {W : Type} (runner : Runner W) (input : Input)
  `{GN : !GitLabNotes runner (in_GitLabProjectID input) (in_MergeRequestIID input)}.
Abbreviation holds w register := (register_of (in_Module input) (notes w) register).
Abbreviation fits w := (length (notes w) <= notes_page)%nat.
Abbreviation same := (same_notes notes).

Lemma upsert_register markdown w r w' register :
  holds w register -> fits w -> ContainsMarker markdown (in_Module input) = true -> upsertComment runner input markdown w = (r, w') ->
  exists register', holds w' register' /\
    match r with
    | Ok (note, action) => register' = Some markdown
        /\ (action = "created" /\ register = None \/ action = "updated" /\ register <> None)
    | Err _ => register' = register \/ register' = Some markdown
    end.
Proof.
  intros Hw Hf Hc H. unfold upsertComment, on_gitlab in H. rewrite notes_is_client in H.
  unfold bind at 1, map_err at 1 in H. destruct (ListMergeRequestNotes notes_client _ _ w) as [l w1] eqn:El.
  apply notes_listed in El as [E1 Hl]. rewrite <- E1 in Hw. destruct l as [l|e]; [|injection H as <- <-; exists register; auto].
  destruct (Hl l eq_refl) as [_ Hp]. specialize (Hp Hf). clear Hl. rename Hp into Hl. rewrite <- E1 in Hl. apply (register_perm _ _ l) in Hw; [|done].
  pose proof (SelectExistingNote_correct (in_Module input) l) as Hs.
  destruct (SelectExistingNote l (in_Module input)) as [note|]; unfold bind at 1, map_err at 1 in H.
  - destruct Hs as (before & after & -> & [Hm _]). destruct (UpdateMergeRequestNote notes_client _ _ _ _ w1) as [u w2] eqn:Eu.
    apply notes_updated in Eu as [(f & Hfix & Hb & Ef)|[E2 Hr]].
    + assert (Hd : NoDup (map note_ID (before ++ note :: after))) by (rewrite Hl; apply notes_distinct).
      destruct (register_set _ _ _ _ _ f markdown Hw Hm Hd Hfix (Hb note eq_refl) Hc) as [Hn Hset].
      apply (register_perm _ _ (notes w2)) in Hset; [|by rewrite Ef, Hl]. exists (Some markdown).
      destruct u as [n|e]; injection H as <- <-; auto.
    + destruct u as [n|e]; [done|]. injection H as <- <-. exists register. split; [|by left].
      rewrite E2. by apply (register_perm _ (before ++ note :: after)).
  - assert (Hn := register_none _ _ _ Hw Hs). subst register.
    destruct (CreateMergeRequestNote notes_client _ _ _ w1) as [u w2] eqn:Eu.
    apply notes_created in Eu as [(n & Hb & En)|[E2 Hr]].
    + assert (Hadd := register_add _ _ n markdown Hw Hb Hc).
      apply (register_perm _ _ (notes w2)) in Hadd; [|by rewrite En, Hl]. exists (Some markdown).
      destruct u as [m|e]; injection H as <- <-; auto.
    + destruct u as [n|e]; [done|]. injection H as <- <-. exists None. split; [|by left].
      rewrite E2. by apply (register_perm _ l).
Qed.

(** *** The other operations leave the notes alone *)

#[local] Instance same_preorder : PreOrder same.
Proof. split; [done|]. intros w1 w2 w3. unfold same_notes. congruence. Qed.

Lemma preserves_same {A} (m : M W A) w r w' : preserves same m -> m w = (r, w') -> notes w' = notes w.
Proof. intros H E. specialize (H w). by rewrite E in H. Qed.

Lemma setStatus_same name state description : preserves same (setStatus runner input name state description).
Proof. unfold setStatus, on_gitlab. rewrite notes_is_client. apply notes_status. Qed.
#[local] Hint Resolve setStatus_same : go.

Lemma optional_status_same name state description :
  preserves same (if in_StatusEnabled input then bestEffortSetStatus runner input name state description else ret tt).
Proof. unfold bestEffortSetStatus. preserve. Qed.
Lemma final_status_same name state description :
  preserves same (if in_StatusEnabled input then setStatus runner input name state description else ret tt).
Proof. preserve. Qed.
Lemma set_running_same : preserves same (set_running runner input).
Proof. unfold set_running. preserve. Qed.

Lemma check_breaking_same : preserves same (check_breaking runner input).
Proof.
  unfold check_breaking. destruct (BreakingClient_CheckBreaking runner) as [check|] eqn:E; [|preserve]. by apply notes_breaking.
Qed.

Lemma affected_same : preserves same (bestEffortAffectedModules runner input).
Proof.
  unfold bestEffortAffectedModules, fetchAffectedModules.
  destruct (AffectedModulesClient_ListAffectedModules runner) as [list|] eqn:E; [|preserve].
  pose proof (notes_affected list (TrimSpace (in_Module input)) E). preserve.
Qed.

Lemma impact_same report : preserves same (fetchRuntimeImpact runner report).
Proof.
  unfold fetchRuntimeImpact. destruct (RuntimeImpactClient_ListRuntimeImpact runner) as [list|] eqn:E; [|preserve].
  pose proof (notes_impact list (TrimSpace (br_ID report)) E). preserve.
Qed.

Lemma governance_same report : preserves same (fetchGovernanceStatus runner input report).
Proof.
  unfold fetchGovernanceStatus. destruct (GovernanceClient_ runner) as [client|] eqn:E; [|preserve].
  destruct (notes_governance client (TrimSpace (br_ID report)) (TrimSpace (in_GovernanceActor input)) E). preserve.
Qed.

Lemma informed_same w report affected impacts unavailable w' :
  informed runner input w report affected impacts unavailable w' -> notes w' = notes w.
Proof.
  intros (w1 & w2 & (_ & w3 & Hr & Hc) & Ha & Hi).
  rewrite (preserves_same _ _ _ _ (impact_same report) Hi), (preserves_same _ _ _ _ affected_same Ha).
  by rewrite (preserves_same _ _ _ _ check_breaking_same Hc), (preserves_same _ _ _ _ set_running_same Hr).
Qed.

Lemma handled_register cause w res err w' register :
  holds w register -> fits w -> handleError runner input (status_name input) cause w = (Ok (res, Some err), w') ->
  exists register', holds w' register' /\ register_run register res register'.
Proof.
  intros Hw Hf H. destruct (handleError_ends runner input cause w) as (r & w1 & w2 & Hu & Hs & E). rewrite E in H. clear E.
  injection H as <- _ <-. apply (preserves_same _ _ _ _ (optional_status_same _ _ _)) in Hs.
  assert (Hm : ContainsMarker (RenderReport (error_report input cause) (render_options input)) (in_Module input) = true)
    by (by apply report_contains_marker).
  destruct (upsert_register _ _ _ _ _ Hw Hf Hm Hu) as (register' & Hw' & Hr).
  exists register'. rewrite Hs. split; [done|]. destruct r as [[note action]|e].
  - destruct Hr as [-> [[-> ->]|[-> Hn]]]; [by apply register_created|by apply register_updated].
  - by apply register_failed.
Qed.

(** C32: as long as the notes of a merge request fit the one page of them that
    GitLab answers with, they implement one register for the module: from a state
    where at most one note has its marker, a run leaves at most one, holding the Markdown of the run when the
    note was created (there was none) or updated (there was one); a run that could
    not publish leaves the register as it was, or, when only the answer was lost,
    with its Markdown. *)
Theorem Run_refines_register (w : W) (register : option string)
    (Hnames : forall w0 report w1, check_breaking runner input w0 = (Ok report, w1) -> blank (br_Module report) = false ->
       markerModuleName (br_Module report) = markerModuleName (in_Module input))
    (Hpage : (length (notes w) <= notes_page)%nat)
    (Hw : register_of (in_Module input) (notes w) register) :
  exists res err w' register', Run runner input w = (Ok (res, err), w')
    /\ register_of (in_Module input) (notes w') register' /\ register_run register res register'.
Proof.
  destruct (Run_ends runner input w) as (res & err & w' & HR & H). exists res, err, w'.
  enough (G : exists register', holds w' register' /\ register_run register res register').
  { destruct G as (register' & G). by exists register'. }
  destruct H as [err Hv|err w1 Hv Hr|err w1 w2 res err' w' Hv Hr Hc Hh|report a i u w1 e w2 res err' w' Hi Hg Hh
    |report a i u w1 governance w2 res err w' Hi Hg Hp].
  - exists register. split; [done|]. by apply register_failed; [..|left].
  - exists register. rewrite (preserves_same _ _ _ _ set_running_same Hr). split; [done|]. by apply register_failed; [..|left].
  - assert (E2 : notes w2 = notes w)
      by (by rewrite (preserves_same _ _ _ _ check_breaking_same Hc), (preserves_same _ _ _ _ set_running_same Hr)).
    eapply handled_register; [..|exact Hh]; by rewrite E2.
  - assert (E2 : notes w2 = notes w)
      by (by rewrite (preserves_same _ _ _ _ (governance_same report) Hg), (informed_same _ _ _ _ _ _ Hi)).
    eapply handled_register; [..|exact Hh]; by rewrite E2.
  - assert (E2 : notes w2 = notes w)
      by (by rewrite (preserves_same _ _ _ _ (governance_same report) Hg), (informed_same _ _ _ _ _ _ Hi)).
    assert (Hw2 : holds w2 register) by (by rewrite E2). assert (Hf2 : fits w2) by (by rewrite E2).
    set (markdown := RenderReport _ _) in Hp.
    assert (Hm : ContainsMarker markdown (in_Module input) = true).
    { apply report_contains_marker. cbn [renderReportFromBreaking rp_Module]. destruct (blank (br_Module report)) eqn:Eb; [done|].
      destruct Hi as (w3 & w4 & (_ & w5 & _ & Hc) & _). by apply (Hnames _ _ _ Hc). }
    destruct (publish_report_ends runner input report governance markdown w2) as (r & e & w3 & Hp' & Hpub).
    rewrite Hp' in Hp. injection Hp as -> -> ->.
    destruct Hpub as [e w3 w' Hu Hs|note action w3 e w' Hu Hs|note action w3 w' Hu Hs];
      destruct (upsert_register _ _ _ _ _ Hw2 Hf2 Hm Hu) as (register' & Hw' & Hr); exists register';
      first [apply (preserves_same _ _ _ _ (optional_status_same _ _ _)) in Hs|apply (preserves_same _ _ _ _ (final_status_same _ _ _)) in Hs];
      rewrite Hs; (split; [done|]).
    + by apply register_failed.
    + destruct Hr as [-> [[-> ->]|[-> Hn]]]; [by apply register_created|by apply register_updated].
    + destruct Hr as [-> [[-> ->]|[-> Hn]]]; [by apply register_created|by apply register_updated].
Qed.
End RegisterRun.

(** ** A GitLab in memory, and one that lists a page *)

Module CheckExamples.
#[local] Existing Instance example_unicode.

(** The bodies of the notes, numbered from 0. *)
Definition Notes := list string.
Definition note_of (id : nat) (body : string) : MergeRequestNote :=
  mkMergeRequestNote (Z.of_nat id) body 0 0 (mkMergeRequestNoteAuthor "bot" "").
Definition notes_of (w : Notes) : list MergeRequestNote := imap note_of w.

Definition create (body : string) : M Notes MergeRequestNote := fun w => (Ok (note_of (length w) body), (w ++ [body])%list).
Definition update (id : Z) (body : string) : M Notes MergeRequestNote := fun w =>
  if (0 <=? id) && (id <? llen w) then (Ok (note_of (Z.to_nat id) body), <[Z.to_nat id := body]> w)
  else (Err (EExternal "404"), w).
Definition memory (listed : list MergeRequestNote -> list MergeRequestNote) : GitLabClient Notes :=
  mkGitLabClient (fun _ _ w => (Ok (listed (notes_of w)), w)) (fun _ _ body => create body)
    (fun _ _ id body => update id body) (fun _ _ _ => ret tt).

Definition users_report : BreakingReport :=
  mkBreakingReport "r1" "users" "v1" "abc" "breaking" 1
    [mkBreakingChange "field" "users.proto" "" "" "FIELD_SAME_TYPE" "see glpat-secret1" "error"] "" 0.
Definition test_runner (listed : list MergeRequestNote -> list MergeRequestNote) : Runner Notes :=
  mkRunner (Some (fun _ _ _ _ _ => ret users_report)) None None None (Some (memory listed)).
Definition test_input : Input := mkInput "users" "v1" "abc" "" "archive" 1 2 "abc" true "" "" 0 false "".

Lemma notes_of_ids w : map note_ID (notes_of w) = map Z.of_nat (seq 0 (length w)).
Proof.
  unfold notes_of. revert w. cut (forall w k, map note_ID (imap (fun i => note_of (k + i)) w) = map Z.of_nat (seq k (length w))); [intros H w; apply (H w 0%nat)|].
  induction w as [|b w IH]; intros k; [done|]. cbn. rewrite Nat.add_0_r. f_equal. rewrite <- (IH (S k)). f_equal.
  apply imap_ext. intros i x _. cbn. by rewrite Nat.add_succ_r.
Qed.

Lemma notes_of_insert w i body : (i < length w)%nat ->
  notes_of (<[i := body]> w) = map (fun n => if decide (note_ID n = Z.of_nat i) then note_of i body else n) (notes_of w).
Proof.
  intros Hi. apply list_eq. intros j. unfold notes_of. rewrite list_lookup_fmap, !list_lookup_imap.
  destruct (decide (i = j)) as [->|Hij].
  - rewrite list_lookup_insert_eq by done. destruct (lookup_lt_is_Some_2 w j Hi) as [x ->]. cbn. by rewrite decide_True.
  - rewrite list_lookup_insert_ne by done. destruct (w !! j) as [x|]; [|done]. cbn. rewrite decide_False; [done|]. cbn. lia.
Qed.

(** GitLab answers with the first page, the newest notes first. *)
Definition first_page (l : list MergeRequestNote) : list MergeRequestNote := take 20 (rev l).
Lemma first_page_some l : first_page l ⊆+ l.
Proof. unfold first_page. etrans; [apply sublist_submseteq, sublist_take|]. by rewrite <- Permutation_rev. Qed.
Lemma first_page_all l : (length l <= 20)%nat -> first_page l ≡ₚ l.
Proof. intros H. unfold first_page. rewrite take_ge by (by rewrite length_rev). by rewrite <- Permutation_rev. Qed.

#[export] Program Instance memory_notes p m : GitLabNotes (test_runner first_page) p m := {|
  notes := notes_of; notes_page := 20%nat; notes_client := memory first_page |}.
Next Obligation. done. Qed.
Next Obligation. intros p m w. rewrite notes_of_ids. apply NoDup_fmap_2; [intros x y; lia|apply NoDup_seq]. Qed.
Next Obligation.
  intros p m w r w' H. injection H as <- <-. split; [done|]. intros l [= <-]. split; [apply first_page_some|apply first_page_all].
Qed.
Next Obligation.
  intros p m w body r w' H. injection H as <- <-. left. exists (note_of (length w) body). split; [done|].
  unfold notes_of. rewrite imap_app. cbn. rewrite Nat.add_0_r. symmetry. apply Permutation_cons_append.
Qed.
Next Obligation.
  intros p m w id body r w' H. cbn in H. unfold update in H. destruct ((0 <=? id) && (id <? llen w)) eqn:E; injection H as <- <-; [|by right].
  left. exists (fun n => if decide (note_ID n = Z.of_nat (Z.to_nat id)) then note_of (Z.to_nat id) body else n).
  unfold llen in E. split_and!; intros; [by rewrite decide_False by lia|by rewrite decide_True by lia|]. rewrite notes_of_insert by lia. done.
Qed.
Next Obligation. done. Qed.
Next Obligation. intros p m check a b c d e [= <-]. done. Qed.
Next Obligation. done. Qed.
Next Obligation. done. Qed.
Next Obligation. done. Qed.

Example first_and_second_run :
  let '(r1, w1) := Run (test_runner first_page) test_input ["hello"] in
  let '(r2, w2) := Run (test_runner first_page) test_input w1 in
  match r1, r2 with
  | Ok (res1, err1), Ok (res2, err2) =>
      res_CommentAction res1 = "created" /\ res_CommentAction res2 = "updated" /\ res_ExitCode res2 = ExitCodeBreaking
      /\ err1 = None /\ err2 = None /\ w2 = ["hello"; res_Markdown res2]
  | _, _ => False
  end.
Proof. vm_compute. done. Qed.

Lemma Run_refines_register_witness :
  register_of "users" (notes_of ["hello"]) None
  /\ exists res err w' register', Run (test_runner first_page) test_input ["hello"] = (Ok (res, err), w')
       /\ register_of "users" (notes_of w') register' /\ register_run None res register'.
Proof.
  assert (H : register_of "users" (notes_of ["hello"]) None) by (vm_compute; reflexivity). split; [exact H|].
  apply (Run_refines_register (test_runner first_page) test_input (GN := memory_notes 1 2) ["hello"] None).
  - intros w0 report w1 [= <- <-] _. reflexivity.
  - apply leb_complete. vm_compute. reflexivity.
  - exact H.
Defined.

(** A note beyond the page is not found, and the run leaves a second one. *)
Example second_note_after_a_page :
  let old := BuildMarker "users" in
  length (List.filter (marked "users") (notes_of (Run (test_runner first_page) test_input (old :: repeat "talk" 20)).2)) = 2%nat
  /\ length (List.filter (marked "users") (notes_of (Run (test_runner first_page) test_input (old :: repeat "talk" 19)).2)) = 1%nat.
Proof. vm_compute. done. Qed.
End CheckExamples.
