(* ===== verification/RegistrySafety.v ===== *)
(** * What the registry leaves in the tables and in the store

    The effect of each operation of [Registry], and the invariant of the
    registry: every artifact row has its object in the store. *)

From S2P Require Import Prelude Errors GoStrings JsonScan Domain Json Effects Postgres Outbox Events Tables World GovernanceStore UseCase CatalogStore DescriptorStore DescriptorTree DescriptorRoundTrip DependencyStore DependencyGraph Identity Archive Storage Registry.

Open Scope string_scope.
Open Scope Z_scope.

(** ** The rows of a publication *)

Section Rows.
Context `{PG : !Postgres} `{ENV : !Env}.

(** The rows of a version and of its two artifacts: identifiers as the server
    spells them, the columns of the values. *)
Definition version_stored (v : ModuleVersion) (a1 a2 : Artifact) (d d' : Database) : Prop :=
  exists vid mid i1 i2,
    uuid_canon (version_ID v) = Some vid /\ uuid_canon (version_ModuleID v) = Some mid
    /\ uuid_canon (artifact_ID a1) = Some i1 /\ uuid_canon (artifact_ID a2) = Some i2
    /\ (exists m, m ∈ db_modules d /\ module_ID m = mid)
    /\ (forall x, x ∈ db_versions d ->
          version_ID x <> vid /\ (version_ModuleID x = mid -> version_Version x <> version_Version v))
    /\ d' = set_catalog (set_artifacts (fun l => l ++
                [mkArtifact i1 vid (artifact_Kind a1) (artifact_StorageKey a1) (artifact_ChecksumSHA256 a1)
                   (artifact_SizeBytes a1) (artifact_CreatedAt a1);
                 mkArtifact i2 vid (artifact_Kind a2) (artifact_StorageKey a2) (artifact_ChecksumSHA256 a2)
                   (artifact_SizeBytes a2) (artifact_CreatedAt a2)])%list)
              (set_versions (fun l => l ++ [version_row vid mid v])%list d).

Lemma Version_Create_Ok v w u w' :
  Version_Create v w = (Ok u, w') ->
  exists vid mid, uuid_canon (version_ID v) = Some vid /\ uuid_canon (version_ModuleID v) = Some mid
    /\ (exists m, m ∈ db_modules (w_db w) /\ module_ID m = mid)
    /\ (forall x, x ∈ db_versions (w_db w) ->
          version_ID x <> vid /\ (version_ModuleID x = mid -> version_Version x <> version_Version v))
    /\ w_tx w' = w_tx w
    /\ w_db w' = set_versions (fun l => l ++ [version_row vid mid v])%list (w_db w).
Proof.
  intros H. stmt_inv H. do 2 eexists. split_and!; eauto using existsb_eqs_true.
  intros x Hx. split; [by eapply (existsb_eqs_false version_ID)|].
  intros E1 E2. match goal with H : existsb (fun v0 => _ && _) _ = false |- _ =>
    rewrite existsb_false in H; specialize (H x Hx); rewrite E1, E2, !eqs_refl in H; done end.
Qed.

Lemma Artifact_Create_Ok a w u w' :
  ArtifactKind_IsValid (artifact_Kind a) = true -> Artifact_Create a w = (Ok u, w') ->
  exists i vid, uuid_canon (artifact_ID a) = Some i /\ uuid_canon (artifact_ModuleVersionID a) = Some vid
    /\ (forall x, x ∈ ct_artifacts (db_catalog (w_db w)) -> artifact_StorageKey x <> artifact_StorageKey a)
    /\ w_tx w' = w_tx w
    /\ w_db w' = set_catalog (set_artifacts (fun l => l ++
         [mkArtifact i vid (artifact_Kind a) (artifact_StorageKey a) (artifact_ChecksumSHA256 a)
            (artifact_SizeBytes a) (artifact_CreatedAt a)])%list) (w_db w).
Proof.
  unfold Artifact_Create, artifactKindOrDefault. intros -> H. stmt_inv H.
  do 2 eexists. split_and!; eauto using existsb_eqs_false.
Qed.

(** *** The configuration *)

Definition config_saved (id : ModuleVersionID) (config : BufConfigInfo) (d d' : Database) : Prop :=
  exists vid rows row, uuid_canon id = Some vid
    /\ d' = set_catalog (set_buf_configs (fun _ => rows)) d
    /\ List.filter (fun r => negb (eqs (bufRow_ModuleVersionID r) vid)) rows
       = List.filter (fun r => negb (eqs (bufRow_ModuleVersionID r) vid)) (ct_buf_configs (db_catalog d))
    /\ row ∈ rows /\ bufRow_ModuleVersionID row = vid
    /\ buf_YAMLDigest (bufRow_Config row) = buf_YAMLDigest config
    /\ buf_LockDigest (bufRow_Config row) = buf_LockDigest config
    /\ buf_LintEnabled (bufRow_Config row) = buf_LintEnabled config.

Lemma update_where_filter {A} (p : A -> bool) f (l : list A) :
  (forall x, p x = true -> p (f x) = true) ->
  List.filter (fun x => negb (p x)) (update_where p f l) = List.filter (fun x => negb (p x)) l.
Proof.
  intros Hf. induction l as [|x l IH]; [done|]. unfold update_where in *. cbn [map List.filter].
  destruct (p x) eqn:E; cbn [negb]; [rewrite (Hf x E)|rewrite E]; cbn [negb]; by rewrite IH.
Qed.

Lemma BufConfig_Save_Ok id config w u w' :
  BufConfig_Save id config w = (Ok u, w') ->
  config_saved id config (w_db w) (w_db w') /\ w_tx w' = w_tx w.
Proof.
  intros H. unfold BufConfig_Save in H. apply bind_Ok in H as (t & w1 & [= _ <-] & H).
  change (w_db w) with (w_db (tick w)). change (w_tx w) with (w_tx (tick w)).
  stmt_inv H.
  - match goal with H : existsb _ _ = true |- _ => apply existsb_eqs_true in H as (y & Hy & Ey) end.
    split; [|done]. eexists _, (ct_buf_configs (db_catalog (w_db w'))), _.
    match goal with H : w_db w' = _ |- _ => rewrite H end.
    split_and!; [eassumption|done| |apply list_elem_of_In, in_map;
      apply list_elem_of_In; exact Hy| | | |].
    + apply update_where_filter. intros x Hx. done.
    + cbn. rewrite Ey, eqs_refl. done.
    + cbn. rewrite Ey, eqs_refl. done.
    + cbn. rewrite Ey, eqs_refl. done.
    + cbn. rewrite Ey, eqs_refl. done.
  - split; [|done]. eexists _, (ct_buf_configs (db_catalog (w_db w'))), _.
    match goal with H : w_db w' = _ |- _ => rewrite H end.
    split_and!; [eassumption|done| |apply elem_of_app; right;
      apply list_elem_of_singleton; done|done..].
    cbn -[List.filter app]. rewrite List.filter_app. cbn. rewrite eqs_refl. cbn. by rewrite app_nil_r.
Qed.
End Rows.

(** *** The descriptors *)

(** The descriptor of the version is the saved one; the names of messages stay
    unique. *)
Definition descriptors_saved `{PG : !Postgres} (id : ModuleVersionID) (metadata : DescriptorMetadata)
    (d d' : Database) : Prop :=
  exists vid, uuid_canon id = Some vid /\ d' = update_descriptors (saved vid metadata) d
    /\ (names_unique (descriptors d) -> names_unique (descriptors d')).

Lemma Metadata_Save_Ok `{PG : !Postgres} `{ENV : !Env} id metadata w u w' :
  Metadata_Save id metadata w = (Ok u, w') -> descriptors_saved id metadata (w_db w) (w_db w') /\ w_tx w' = w_tx w.
Proof.
  intros H. destruct (Metadata_Save_canon _ _ _ _ _ H) as [vid Hv].
  destruct (Metadata_Save_writes _ vid _ _ _ _ Hv H) as (T & E & U). split; [|done]. by exists vid.
Qed.

(** ** A publication in the database *)

(** The event that is last in the outbox. *)
Definition event_written (eventType : string) (d d' : Database) : Prop :=
  exists row, record_Status row = outboxStatusPending /\ record_EventType row = eventType
    /\ d' = set_outbox (mkOutboxTable (ot_rows (db_outbox d) ++ [row]) (S (ot_uuids (db_outbox d)))) d.

(** The parts of a publication, in the order they are written. *)
Definition published `{PG : !Postgres} (svc : Service) (module : Module_) (v : ModuleVersion) (a1 a2 : Artifact)
    (bufResult : BufWorkflowResult) (d d' : Database) : Prop :=
  exists d1 d2 d3 d4,
    version_stored v a1 a2 d d1
    /\ config_saved (version_ID v) (wr_ConfigInfo bufResult) d1 d2
    /\ descriptors_saved (version_ID v) (wr_DescriptorMetadata bufResult) d2 d3
    /\ (if svc_dependencies svc then dependencies_rebuilt module v (wr_DescriptorMetadata bufResult) d3 d4
        else d4 = d3)
    /\ event_written EventTypeModuleVersionPublished d4 d'.

Section Publish.
Context `{PG : !Postgres} `{ENV : !Env} `{CR : !Crypto} `{SYS : !OS} `{STORE : !ArtifactStore} `{HOST : !Host}.
Variable svc : Service.

Lemma write_outbox_event record eventType w u w' :
  (forall r, record = Ok r -> record_EventType r = eventType) -> write_outbox record w = (Ok u, w') ->
  event_written eventType (w_db w) (w_db w') /\ w_tx w' = w_tx w.
Proof.
  intros He H. apply write_outbox_Ok in H as (Htx & r & row & -> & Hs & Ht & _ & E). split; [|done].
  exists row. rewrite (He r eq_refl) in Ht. by split_and!.
Qed.

Lemma write_mapped f record w u w' :
  (let! record := lift record in let! wall := now in map_err f (Create wall record)) w = (Ok u, w') ->
  write_outbox record w = (Ok u, w').
Proof.
  intros H. apply bind_Ok in H as (r & w1 & H1 & H). apply bind_Ok in H as (t & w2 & H2 & H).
  apply map_err_Ok in H. apply bind_Ok. exists r, w1. split; [done|]. apply bind_Ok. by exists t, w2.
Qed.

Lemma publish_transaction_Ok module v a1 a2 bufResult t w u w' :
  w_tx w = true -> artifact_ModuleVersionID a1 = version_ID v -> artifact_ModuleVersionID a2 = version_ID v ->
  artifact_Kind a1 = ArtifactKindSourceArchive -> artifact_Kind a2 = ArtifactKindBufImage ->
  publish_transaction svc module v a1 a2 bufResult t w = (Ok u, w') ->
  published svc module v a1 a2 bufResult (w_db w) (w_db w') /\ w_tx w' = true.
Proof.
  intros Htx V1 V2 K1 K2 H. unfold publish_transaction in H.
  apply bind_Ok in H as (u1 & w1 & H1%map_err_Ok & H).
  apply Version_Create_Ok in H1 as (vid & mid & Hv & Hm & Hmod & Hfresh & T1 & E1).
  apply bind_Ok in H as (u2 & w2 & H2%map_err_Ok & H).
  apply Artifact_Create_Ok in H2 as (i1 & vid1 & Hi1 & Hv1 & _ & T2 & E2); [|by rewrite K1].
  apply bind_Ok in H as (u3 & w3 & H3%map_err_Ok & H).
  apply Artifact_Create_Ok in H3 as (i2 & vid2 & Hi2 & Hv2 & _ & T3 & E3); [|by rewrite K2].
  rewrite V1, Hv in Hv1. rewrite V2, Hv in Hv2. injection Hv1 as <-. injection Hv2 as <-.
  apply bind_Ok in H as (u4 & w4 & [Hc T4]%BufConfig_Save_Ok & H).
  apply bind_Ok in H as (u5 & w5 & H5 & H). apply Metadata_Save_Ok in H5 as [Hd T5]. assert (T5' : w_tx w5 = true) by congruence. clear T5.
  apply bind_Ok in H as (u6 & w6 & H6 & H).
  assert (Hdep : (if svc_dependencies svc then dependencies_rebuilt module v (wr_DescriptorMetadata bufResult)
                    (w_db w5) (w_db w6) else w_db w6 = w_db w5) /\ w_tx w6 = true).
  { destruct (svc_dependencies svc); [|by apply ret_Ok in H6 as [_ ->]].
    apply bind_Ok in H6 as (r & w7 & H6 & [_ ->]%ret_Ok). by apply RebuildPublished_Ok in H6. }
  destruct Hdep as [Hdep T6]. apply write_mapped, write_outbox_event with
    (eventType := EventTypeModuleVersionPublished) in H as [He T7].
  - split; [|congruence]. exists (w_db w3), (w_db w4), (w_db w5), (w_db w6). split_and!; [|done..].
    exists vid, mid, i1, i2. split_and!; [done..|]. rewrite E3, E2, E1. cbn.
    unfold set_catalog, set_artifacts, set_versions. cbn. by rewrite <- app_assoc.
  - intros r Hr. unfold NewModuleVersionPublished in Hr. by apply event_record_type in Hr.
Qed.

(** Some failure hides that the server did apply the statement. *)
Definition unacknowledged : Prop := exists n e, env_fault n = Some e /\ env_applied n = true.

Lemma WithinTransaction_cases {A} (fn : M World A) w r w' :
  w_tx w = false -> WithinTransaction fn w = (r, w') ->
  w_tx w' = false
  /\ ((exists e, r = Err e) /\ w_db w' = w_db w
      \/ exists a w2, fn (tick (mkWorld (w_db w) true (w_tick w))) = (Ok a, w2)
           /\ w_db w' = w_db w2 /\ (r = Ok a \/ (exists e, r = Err e) /\ unacknowledged)).
Proof.
  intros Htx. unfold WithinTransaction. rewrite Htx. unfold bind, Begin.
  destruct (env_fault (w_tick w)) as [e|].
  { intros [= <- <-]. split; [done|]. left. split; [by exists e|done]. }
  destruct (fn _) as [[a|err] w2] eqn:E.
  - unfold Commit. destruct (env_fault (w_tick w2)) as [e|] eqn:Ef; intros [= <- <-]; (split; [done|]).
    + destruct (env_applied _) eqn:Ea; [right|left; split; [by exists e|done]].
      exists a, w2. split_and!; [done..|]. right. split; [by exists e|]. by exists (w_tick w2), e.
    + right. exists a, w2. split_and!; [done..|]. by left.
  - unfold Rollback. destruct (env_fault (w_tick w2)) as [e|]; intros [= <- <-];
      (split; [done|]); left; (split; [by eexists|done]).
Qed.

(** What a publication says of its version and artifacts. *)
Record describes (module : Module_) (versionValue : Version) (bufResult : BufWorkflowResult)
    (sourceKey sourceBody imageKey : string) (resp : PublishModuleVersionResponse) : Prop := mkDescribes {
  desc_module : version_ModuleID (resp_Version resp) = module_ID module;
  desc_version : version_Version (resp_Version resp) = versionValue;
  desc_status : version_Status (resp_Version resp) = ModuleVersionStatusPublished;
  desc_digest : version_Digest (resp_Version resp) = wr_BufImageDigest bufResult;
  desc_current : version_DeprecatedAt (resp_Version resp) = None;
  desc_source : artifact_ModuleVersionID (resp_SourceArtifact resp) = version_ID (resp_Version resp)
    /\ artifact_Kind (resp_SourceArtifact resp) = ArtifactKindSourceArchive
    /\ artifact_StorageKey (resp_SourceArtifact resp) = sourceKey
    /\ artifact_ChecksumSHA256 (resp_SourceArtifact resp) = sha256_hex sourceBody
    /\ artifact_SizeBytes (resp_SourceArtifact resp) = len sourceBody;
  desc_image : artifact_ModuleVersionID (resp_BufImageArtifact resp) = version_ID (resp_Version resp)
    /\ artifact_Kind (resp_BufImageArtifact resp) = ArtifactKindBufImage
    /\ artifact_StorageKey (resp_BufImageArtifact resp) = imageKey
    /\ artifact_ChecksumSHA256 (resp_BufImageArtifact resp) = sha256_hex (wr_BufImage bufResult)
    /\ artifact_SizeBytes (resp_BufImageArtifact resp) = len (wr_BufImage bufResult);
  desc_config : resp_BufConfig resp = wr_ConfigInfo bufResult;
  desc_lint : resp_LintResult resp = wr_LintResult bufResult;
  desc_summary : resp_MetadataSummary resp = Summary (wr_DescriptorMetadata bufResult) }.

(** A call that failed and changed nothing. *)
Definition failed {A} (w : World) (r : result A) (w' : World) : Prop :=
  w_tx w' = false /\ (exists e, r = Err e) /\ w_db w' = w_db w.

Lemma failed_at {A} w w0 e (r : result A) w' :
  w_tx w = false -> same_db w w0 -> r = Err e /\ w' = w0 -> failed w r w'.
Proof. intros Htx [E1 E2] [-> ->]. split_and!; [congruence|by exists e|done]. Qed.

(** A step that only reads, after steps that only read. *)
Lemma read_on {A B} (m : M World B) (k : B -> M World A) w w0 r w' :
  w_tx w = false -> preserves same_db m -> same_db w w0 -> bind m k w0 = (r, w') ->
  failed w r w' \/ exists b w1, m w0 = (Ok b, w1) /\ same_db w w1 /\ k b w1 = (r, w').
Proof.
  intros Htx Hm Hw Hb. apply read_step in Hb as [[[e ->] Hs]|(a & w1 & H1 & Hs & Hb)]; [| |done].
  - left. apply (failed_at w w' e); [done|by etrans|done].
  - right. exists a, w1. split_and!; [done|by etrans|done].
Qed.

Lemma same_db_new (new : string -> string) : preserves same_db (let! value := random_hex in ret (new value)).
Proof. preserve. Qed.

Lemma publish_stored_outcome module versionValue bufResult o1 o2 k1 body1 k2 w r w' :
  w_tx w = false ->
  object_Key o1 = k1 -> object_SizeBytes o1 = len body1 ->
  object_Key o2 = k2 -> object_SizeBytes o2 = len (wr_BufImage bufResult) ->
  publish_stored svc module versionValue bufResult o1 o2 (sha256_hex body1) (sha256_hex (wr_BufImage bufResult)) w
    = (r, w') ->
  w_tx w' = false
  /\ ((exists e, r = Err e) /\ w_db w' = w_db w
      \/ exists resp, describes module versionValue bufResult k1 body1 k2 resp
           /\ published svc module (resp_Version resp) (resp_SourceArtifact resp) (resp_BufImageArtifact resp)
                bufResult (w_db w) (w_db w')
           /\ (r = Ok resp \/ (exists e, r = Err e) /\ unacknowledged)).
Proof.
  intros Htx <- Hs1 <- Hs2 H. unfold publish_stored in H.
  assert (R : same_db w w) by reflexivity.
  apply (read_on _ _ w) in H as [(? & ? & ?)|(t & w1 & _ & R1 & H)]; [by split; [|left]| |done|done|done].
  apply (read_on _ _ w) in H as [(? & ? & ?)|(i & w2 & _ & R2 & H)]; [by split; [|left]| |done|apply same_db_new|done].
  apply (read_on _ _ w) in H as [(? & ? & ?)|(i1 & w3 & _ & R3 & H)]; [by split; [|left]| |done|apply same_db_new|done].
  apply (read_on _ _ w) in H as [(? & ? & ?)|(i2 & w4 & _ & [Edb T4] & H)]; [by split; [|left]| |done|apply same_db_new|done].
  rewrite Htx in T4. clear R R1 R2 R3 Htx.
  match type of H with bind (WithinTransaction ?m) _ _ = _ => destruct (WithinTransaction m w4) as [r1 w5] eqn:Ew end.
  pose proof (WithinTransaction_cases _ _ _ _ T4 Ew) as [T5 Hc]. unfold bind in H. rewrite Ew in H. clear Ew.
  destruct Hc as [[[e ->] E5]|(u & w6 & Hf & E5 & Hr)].
  { injection H as <- <-. split; [done|left]. split; [by exists e|congruence]. }
  apply publish_transaction_Ok in Hf as [Hp _]; [|done..]. cbn [tick w_db] in Hp. rewrite Edb, <- E5 in Hp.
  match type of Hp with published _ _ ?v ?a1 ?a2 _ _ _ =>
    set (resp := mkPublishResponse v a1 a2 (wr_ConfigInfo bufResult) (wr_LintResult bufResult)
             (Summary (wr_DescriptorMetadata bufResult))) in * end.
  assert (Hd : describes module versionValue bufResult (object_Key o1) body1 (object_Key o2) resp)
    by (by constructor).
  destruct Hr as [->|[[e ->] Hu]]; injection H as <- <-; (split; [done|right]); exists resp.
  - split_and!; [exact Hd|exact Hp|by left].
  - split_and!; [exact Hd|exact Hp|right; split; [by exists e|done]].
Qed.
End Publish.

(** ** A publication in the store *)

Definition objects (s : Registry) : gmap string string := bk_objects (rg_bucket s).

(** Nothing changes but some objects (and what the observers were told). *)
Definition touches (keys : list string) : relation Registry := fun s s' =>
  rg_world s' = rg_world s /\ rg_fs s' = rg_fs s
  /\ forall k, k ∉ keys -> objects s' !! k = objects s !! k.
#[export] Instance touches_preorder keys : PreOrder (touches keys).
Proof.
  split; [done|]. intros s1 s2 s3 (W1 & F1 & O1) (W2 & F2 & O2). split_and!; [congruence..|].
  intros k Hk. by rewrite O2, O1.
Qed.

Section Objects.
Context `{PG : !Postgres} `{ENV : !Env} `{CR : !Crypto} `{SYS : !OS} `{STORE : !ArtifactStore} `{HOST : !Host}.
Context `{LAWS : !ArtifactStoreLaws}.
Variable svc : Service.

Lemma touches_insert k (keys : list string) body objs : k ∈ keys -> forall k', k' ∉ keys -> <[k := body]> objs !! k' = (objs : gmap string string) !! k'.
Proof. intros Hk k' Hk'. apply lookup_insert_ne. congruence. Qed.
Lemma touches_delete k (keys : list string) objs : k ∈ keys -> forall k', k' ∉ keys -> delete k objs !! k' = (objs : gmap string string) !! k'.
Proof. intros Hk k' Hk'. apply lookup_delete_ne. congruence. Qed.

Lemma touches_Delete k keys : k ∈ keys -> preserves (touches keys) (on_store (store_Delete k)).
Proof.
  intros Hk s. unfold on_store, zoom. destruct (store_Delete k (rg_bucket s)) as [r b] eqn:E.
  split_and!; [done..|]. intros k' Hk'. unfold objects. cbn. apply Delete_law in E.
  destruct r; [|destruct E as [E|E]]; rewrite E; try done; by apply (touches_delete k keys).
Qed.

Lemma touches_cleanup keys ks : ks ⊆ keys -> preserves (touches keys) (cleanupUploadedArtifacts svc ks).
Proof.
  intros Hks. apply preserves_forM; [apply _|]. intros k Hk. unfold cleanup_one, recordArtifactCleanupFailure.
  apply preserves_if; [apply preserves_ret, _|].
  apply preserves_bind; [apply _|apply preserves_try, touches_Delete, Hks, Hk|].
  intros [u|e]; [apply preserves_ret, _|]. apply preserves_if; [|apply preserves_ret, _]. by intros s.
Qed.

(** A step with a clean-up: the step succeeded, or it failed and only the keys
    of the clean-up changed after it. *)
Lemma or_cleanup_run {A} keys ks (m : M Registry A) s r s' :
  ks ⊆ keys -> or_cleanup svc ks m s = (r, s') ->
  exists r1 s1, m s = (r1, s1) /\
    match r1 with
    | Ok a => r = Ok a /\ s' = s1
    | Err e => (exists e', r = Err e') /\ touches keys s1 s'
    end.
Proof.
  intros Hks H. unfold or_cleanup in H. rewrite bind_try in H. destruct (m s) as [r1 s1]. exists r1, s1. split; [done|].
  destruct r1 as [a|e]; [by injection H as <- <-|].
  pose proof (touches_cleanup keys ks Hks s1) as Ht. unfold bind in H.
  destruct (cleanupUploadedArtifacts svc ks s1) as [[u|e'] s2]; injection H as <- <-; split; eauto.
Qed.

Lemma on_store_put_run k body s r s' keys :
  k ∈ keys -> map_err storage_failure (on_store (store_Put k body (len body))) s = (r, s') ->
  touches keys s s'
  /\ match r with
     | Ok o => object_Key o = k /\ object_SizeBytes o = len body /\ objects s' = <[k := body]> (objects s)
     | Err _ => True
     end.
Proof.
  intros Hk. unfold map_err, on_store, zoom.
  destruct (store_Put k body (len body) (rg_bucket s)) as [r1 b] eqn:E. intros [= <- <-].
  apply Put_law in E; [|done]. unfold touches, objects. cbn. destruct r1 as [o|e].
  - destruct E as (E1 & E2 & E3). split; [|done]. split_and!; [done..|]. rewrite E3. by apply touches_insert.
  - split; [|done]. split_and!; [done..|]. destruct E as [E|E]; rewrite E; [done|by apply touches_insert].
Qed.

(** The outcome of a publication from the upload on. *)
Definition upload_outcome (module : Module_) (name : ModuleName) (versionValue : Version) (body : string)
    (bufResult : BufWorkflowResult) (s : Registry) (r : result PublishModuleVersionResponse) (s' : Registry) : Prop :=
  let sourceKey := BuildSourceArchiveKey name versionValue (sha256_hex body) in
  let imageKey := BuildBufImageKey name versionValue (sha256_hex (wr_BufImage bufResult)) in
  w_tx (rg_world s') = false
  /\ (forall k, k ∉ [sourceKey; imageKey] -> objects s' !! k = objects s !! k)
  /\ ((exists e, r = Err e) /\ w_db (rg_world s') = w_db (rg_world s)
      \/ exists resp, describes module versionValue bufResult sourceKey body imageKey resp
           /\ published svc module (resp_Version resp) (resp_SourceArtifact resp) (resp_BufImageArtifact resp)
                bufResult (w_db (rg_world s)) (w_db (rg_world s'))
           /\ (r = Ok resp
               /\ objects s' = <[imageKey := wr_BufImage bufResult]> (<[sourceKey := body]> (objects s))
               \/ (exists e, r = Err e) /\ unacknowledged)).

Lemma publish_artifacts_outcome module name versionValue body bufResult s r s' :
  w_tx (rg_world s) = false ->
  publish_artifacts svc module name versionValue body (sha256_hex body) (len body) bufResult s = (r, s') ->
  upload_outcome module name versionValue body bufResult s r s' /\ rg_fs s' = rg_fs s.
Proof.
  intros Htx H. unfold publish_artifacts, checksumBytes in H. unfold upload_outcome.
  set (k1 := BuildSourceArchiveKey _ _ _) in *. set (k2 := BuildBufImageKey _ _ _) in *.
  apply bind_run in H as (r1 & s1 & H1 & H). apply (on_store_put_run _ _ _ _ _ [k1; k2]) in H1 as [T1 H1]; [|set_solver].
  pose proof T1 as (W1 & F1 & O1).
  destruct r1 as [o1|e]; [|destruct H as [-> ->]; split_and!; [congruence|done|left; split; [by exists e|congruence]|done]].
  apply bind_run in H as (r2 & s2 & H2 & H). apply (or_cleanup_run [k1; k2]) in H2 as (r3 & s3 & H2 & H3); [|set_solver].
  apply (on_store_put_run _ _ _ _ _ [k1; k2]) in H2 as [T2 H2]; [|set_solver].
  destruct r3 as [o2|e].
  2: { destruct H3 as [[e' ->] T3]. destruct H as [-> ->]. destruct (transitivity (transitivity T1 T2) T3) as (W & F & O).
       split_and!; [congruence|done|left; split; [by exists e'|congruence]|done]. }
  destruct H3 as [-> ->]. destruct (transitivity T1 T2) as (W & F & O).
  destruct H1 as (K1 & S1 & E1). destruct H2 as (K2 & S2 & E2).
  apply (or_cleanup_run [k1; k2]) in H as (r4 & s4 & H & H4); [|set_solver].
  unfold on_db, zoom in H. rewrite W in H.
  destruct (publish_stored _ _ _ _ _ _ _ _ (rg_world s)) as [r5 w5] eqn:Ep. injection H as <- <-.
  apply publish_stored_outcome with (k1 := k1) (k2 := k2) in Ep as [T5 Hp]; [|done..].
  destruct r5 as [resp|e].
  - destruct H4 as [-> ->]. cbn. split_and!; [done|done| |done].
    destruct Hp as [[[e He] _]|(resp' & Hd & Hp & Hr)]; [done|right].
    destruct Hr as [[= <-]|[[e He] _]]; [|done]. exists resp. split_and!; [done..|left].
    split; [done|]. unfold objects in *. cbn. by rewrite E2, E1.
  - destruct H4 as [He (W4 & F4 & O4)]. cbn in W4, F4. split_and!; [by rewrite W4| |rewrite W4|by rewrite F4].
    + intros k Hk. rewrite (O4 k Hk). apply (O k Hk).
    + destruct Hp as [[_ Hdb]|(resp & Hd & Hp & [Hr|[_ Hu]])]; [by left|done|].
      right. exists resp. split_and!; [done..|]. by right.
Qed.

(** *** The whole publication *)

Lemma readArtifact_Ok reader body sum n :
  readArtifact svc reader = Ok (body, sum, n) -> sum = sha256_hex body /\ n = len body.
Proof.
  unfold readArtifact. intros H. destruct (read_limited reader _) as [b|]; [|done].
  destruct (_ <? len b); [done|]. by injection H as <- <- <-.
Qed.

Lemma deferred_run {S A} (cleanup : M S unit) (m : M S A) s r s' :
  deferred cleanup m s = (r, s') -> exists s1, m s = (r, s1) /\ s' = (cleanup s1).2.
Proof. unfold deferred. destruct (m s) as [r1 s1]. intros [= <- <-]. eauto. Qed.

Lemma on_fs_run {A} (m : M FS A) s r s' :
  on_fs m s = (r, s') -> exists fs, m (rg_fs s) = (r, fs) /\ s' = set_rg_fs fs s.
Proof. unfold on_fs, zoom. destruct (m (rg_fs s)) as [r1 fs]. intros [= <- <-]. eauto. Qed.

Lemma publish_inspect_Ok inspect workdir body fs bufResult fs' :
  publish_inspect svc inspect workdir body fs = (Ok bufResult, fs') -> wr_BufImage bufResult <> "".
Proof.
  intros H. unfold publish_inspect in H. apply bind_Ok in H as (u & f1 & _ & H).
  apply bind_Ok in H as (u' & f2 & _ & H). apply bind_Ok in H as ([res err] & f3 & _ & H).
  destruct err; [done|]. destruct (len (wr_BufImage res) =? 0) eqn:E; [done|]. injection H as <- _.
  intros Hn. by rewrite Hn in E.
Qed.

(** What a publication did: nothing, or an upload. *)
Inductive publish_outcome (module : Module_) (name : ModuleName) (versionValue : Version) (artifact : Reader)
    (s : Registry) (r : result PublishModuleVersionResponse) (s' : Registry) : Prop :=
| refused_before_upload e : r = Err e -> w_tx (rg_world s') = false ->
    w_db (rg_world s') = w_db (rg_world s) -> objects s' = objects s ->
    publish_outcome module name versionValue artifact s r s'
| uploaded body bufResult : readArtifact svc artifact = Ok (body, sha256_hex body, len body) ->
    wr_BufImage bufResult <> "" -> upload_outcome module name versionValue body bufResult s r s' ->
    publish_outcome module name versionValue artifact s r s'.

Lemma publish_checked_outcome inspect module name versionValue artifact s r s' :
  w_tx (rg_world s) = false -> publish_checked svc inspect module name versionValue artifact s = (r, s') ->
  publish_outcome module name versionValue artifact s r s'.
Proof.
  intros Htx H. unfold publish_checked in H. apply bind_run in H as (r1 & s1 & H1 & H).
  injection H1 as <- <-. destruct (readArtifact svc artifact) as [[[body sum] n]|e] eqn:Er.
  2: { destruct H as [-> ->]. by eapply refused_before_upload. }
  pose proof (readArtifact_Ok _ _ _ _ Er) as [-> ->]. apply bind_run in H as (r2 & s2 & H2 & H).
  apply on_fs_run in H2 as (fs2 & _ & ->). destruct r2 as [workdir|e].
  2: { destruct H as [-> ->]. by eapply refused_before_upload. }
  apply deferred_run in H as (s3 & H & ->).
  assert (Hc : exists fs, (on_fs (removeTempDir workdir) s3).2 = set_rg_fs fs s3).
  { destruct (on_fs _ s3) as [r4 s4] eqn:E. apply on_fs_run in E as (fs & _ & ->). by exists fs. }
  destruct Hc as [fs ->]. apply bind_run in H as (r3 & s4 & H3 & H).
  apply on_fs_run in H3 as (fs4 & H3 & ->). destruct r3 as [bufResult|e].
  2: { destruct H as [-> ->]. by eapply refused_before_upload. }
  apply publish_inspect_Ok in H3. apply publish_artifacts_outcome in H as [H _]; [|done].
  by eapply uploaded.
Qed.

Lemma same_db_publish_checks name versionValue : preserves same_db (publish_checks name versionValue).
Proof. unfold publish_checks. preserve. Qed.

(** The outcome, with what was asked and what the checks found. *)
Lemma Publish_outcome req s r s' :
  w_tx (rg_world s) = false -> PublishModuleVersion svc req s = (r, s') ->
  ((exists e, r = Err e) /\ w_tx (rg_world s') = false /\ w_db (rg_world s') = w_db (rg_world s)
     /\ objects s' = objects s)
  \/ exists name versionValue artifact inspect module w1,
       publish_request svc req = Ok (name, versionValue, artifact, inspect)
       /\ publish_checks name versionValue (rg_world s) = (Ok module, w1)
       /\ publish_outcome module name versionValue artifact s r s'.
Proof.
  intros Htx H. unfold PublishModuleVersion in H. apply bind_run in H as (r1 & s1 & H1 & H).
  injection H1 as <- <-. destruct (publish_request svc req) as [[[[name versionValue] artifact] inspect]|e].
  2: { destruct H as [-> ->]. left. by split; [exists e|]. }
  apply bind_run in H as (r2 & s2 & H2 & H). unfold on_db, zoom in H2.
  destruct (publish_checks name versionValue (rg_world s)) as [r3 w1] eqn:Ec. injection H2 as <- <-.
  pose proof (preserves_run same_db _ _ _ _ (same_db_publish_checks _ _) Ec) as [E1 E2].
  destruct r3 as [module|e].
  2: { destruct H as [-> ->]. left. split; [by exists e|]. cbn. by rewrite E1, E2. }
  right. exists name, versionValue, artifact, inspect, module, w1. split_and!; [done..|].
  apply publish_checked_outcome in H; [|cbn; congruence].
  destruct H as [e -> T D O|body bufResult Hr Hi Ho].
  - eapply refused_before_upload; [done|done|by rewrite D|done].
  - eapply uploaded; [done..|]. unfold upload_outcome in *. cbn [rg_world set_rg_world] in Ho. by rewrite E1 in Ho.
Qed.
End Objects.
