(* ===== verification/RegistryOperations.v ===== *)
(** * Modules, deprecation and breaking checks

    The effect of the operations of [Registry] that write to the database
    only. *)

From S2P Require Import Prelude Errors GoStrings JsonScan Domain Json Effects Postgres Outbox Events Tables World GovernanceStore UseCase CatalogStore DescriptorStore DependencyStore DependencyGraph Identity Archive Storage Registry RegistrySafety.

Open Scope string_scope.
Open Scope Z_scope.

Section Operations.
Context `{PG : !Postgres} `{ENV : !Env} `{CR : !Crypto} `{SYS : !OS} `{STORE : !ArtifactStore} `{HOST : !Host}.

(** ** Modules *)

(** A new module: its name is valid and was free. *)
Definition module_created (req : CreateModuleRequest) (d d' : Database) : Prop :=
  exists mid name t,
    NewModuleName (create_Name req) = Ok name /\ canonical mid
    /\ (forall m, m ∈ db_modules d -> module_Name m <> name /\ module_ID m <> mid)
    /\ event_written EventTypeModuleCreated
         (set_modules (fun l => l ++ [mkModule mid name (create_Description req) (create_RepositoryURL req) t t])%list d)
         d'.

Lemma Module_Create_Ok m w u w' :
  Module_Create m w = (Ok u, w') ->
  exists mid, uuid_canon (module_ID m) = Some mid
    /\ (forall x, x ∈ db_modules (w_db w) -> module_Name x <> module_Name m /\ module_ID x <> mid)
    /\ w_tx w' = w_tx w
    /\ w_db w' = set_modules (fun l => l ++ [mkModule mid (module_Name m) (module_Description m)
         (module_RepositoryURL m) (module_CreatedAt m) (module_UpdatedAt m)])%list (w_db w).
Proof. intros H. stmt_inv H. eexists. split_and!; eauto. eauto using existsb_eqs_false. Qed.

Lemma same_db_fail_as {A} (f : error -> error) (m : result A) : preserves same_db (map_err f (lift m)).
Proof. preserve. Qed.

Lemma CreateModule_outcome req w r w' :
  w_tx w = false -> CreateModule req w = (r, w') -> atomic_outcome (module_created req) w r w'.
Proof.
  intros Htx H. unfold CreateModule in H.
  reading H name w1 Hm Hs. apply map_err_Ok, lift_Ok in Hm as [Hn ->]. clear Hs.
  reading H t w1 Hm Hs. clear Hm. carry Hs.
  reading H mid w2 Hm Hs. clear Hm. carry Hs.
  eapply atomic_then in H; [exact H| |intros; preserve]. intros r1 w3 H1.
  apply WithinTransaction_atomic in H1 as (Htx' & [H1|(a & w4 & H1 & Hdb & _)]); [by split; [|left]| |done].
  split; [done|right]. unfold create_module_transaction in H1.
  apply bind_Ok in H1 as (u1 & w5 & H2%map_err_Ok & H1).
  apply Module_Create_Ok in H2 as (c & Hc & Hf & T & E). apply write_mapped in H1.
  apply write_outbox_event with (eventType := EventTypeModuleCreated) in H1 as [He _].
  2: { intros rec Hrec. unfold NewModuleCreated in Hrec. by apply event_record_type in Hrec. }
  exists c, name, t. split_and!; [done|by eapply canonical_of|exact Hf|]. rewrite Hdb. by rewrite E in He.
Qed.

(** ** Deprecation *)

Lemma GetByModuleAndVersion_Ok id versionValue w v w' :
  GetByModuleAndVersion id versionValue w = (Ok v, w') ->
  exists c row, uuid_canon id = Some c /\ row ∈ db_versions (w_db w) /\ version_ModuleID row = c
    /\ version_Version row = versionValue /\ scanModuleVersion row = Ok v.
Proof.
  intros H. unfold GetByModuleAndVersion, Version_getOne in H. apply map_err_Ok in H.
  apply bind_Ok in H as (row & w1 & H & [Hs _]%lift_Ok). apply exec_db_Ok in H as [H _].
  apply bind_Ok in H as (c & d & [Hc ->]%uuid_param_Ok & H).
  apply bind_Ok in H as (u & d & [_ ->]%guardM_Ok & H). apply query_row_Ok in H as [Hrow _].
  exists c, row. assert (Hin : row ∈ List.filter (fun v => eqs (version_ModuleID v) c
    && eqs (version_Version v) versionValue) (db_versions (w_db w)))
    by (destruct (List.filter _ _); set_solver).
  apply elem_of_filter_bool in Hin as [Hin [H1%eqs_true H2%eqs_true]%andb_true_iff]. by split_and!.
Qed.

Lemma scan_version_found v e :
  scanModuleVersion v = Err e -> errors_Is (mapError e) domain.ErrNotFound = false.
Proof.
  unfold scanModuleVersion, NewVersion, NewModuleVersionStatus.
  destruct (TrimSpace (version_Version v) =? "")%string; [by intros [= <-]|].
  cbn. destruct (_ && _); [by intros [= <-]|done].
Qed.

(** The version that is looked for and not found is not in the table. *)
Lemma version_absent `{HF : !HonestFaults} id c versionValue w e w' :
  uuid_canon id = Some c -> GetByModuleAndVersion id versionValue w = (Err e, w') ->
  errors_Is e domain.ErrNotFound = true ->
  forall v, v ∈ db_versions (w_db w) -> version_ModuleID v = c -> version_Version v <> versionValue.
Proof.
  intros Hc H He v Hv Em Ev. unfold GetByModuleAndVersion, Version_getOne in H.
  apply map_err_Err in H as (e0 & -> & H). apply bind_Err in H as [H|(x & w1 & _ & H)].
  2: { injection H as Hs _. apply scan_version_found in Hs. by rewrite Hs in He. }
  apply exec_db_Err in H as [[t ->]|[d H]]; [done|].
  unfold uuid_param in H. rewrite Hc in H. unfold text_params in H. apply bind_Err in H as [H|(c' & d1 & [-> ->]%ret_Ok & H)]; [done|].
  apply bind_Err in H as [[_ [-> _]]%guardM_Err|(u & d2 & [_ ->]%guardM_Ok & H)]; [done|].
  unfold query_row in H.
  assert (Hin : v ∈ List.filter (fun v => eqs (version_ModuleID v) c && eqs (version_Version v) versionValue)
                      (db_versions (w_db w))) by (apply elem_of_filter_bool; by rewrite Em, Ev, !eqs_refl).
  destruct (List.filter _ _); [by apply not_elem_of_nil in Hin|done].
Qed.

Lemma UpdateDeprecation_Ok id t actor reason w u w' :
  UpdateDeprecation id t actor reason w = (Ok u, w') ->
  exists vid, uuid_canon id = Some vid /\ w_tx w' = w_tx w
    /\ w_db w' = set_versions (update_where (fun v => eqs (version_ID v) vid) (set_deprecation t actor reason)) (w_db w).
Proof.
  unfold UpdateDeprecation, affected_or_not_found.
  intros H. apply bind_Ok in H as (n & w1 & H & [_ ->]%guardM_Ok). stmt_inv H. eauto.
Qed.

(** The version an input names, as the tables hold it. *)
Definition version_named (input : DeprecateModuleVersionInput) (d : Database) (v : ModuleVersion) : Prop :=
  exists name versionValue m mid row,
    NewModuleName (deprecate_ModuleName input) = Ok name /\ NewVersion (deprecate_Version input) = Ok versionValue
    /\ m ∈ db_modules d /\ module_Name m = name /\ uuid_canon (TrimSpace (module_ID m)) = Some mid
    /\ row ∈ db_versions d /\ version_ModuleID row = mid /\ version_Version row = versionValue
    /\ scanModuleVersion row = Ok v.

(** The version with its deprecation, and the event; no other version changes. *)
Definition deprecation_stored (input : DeprecateModuleVersionInput) (v : ModuleVersion) (t : time)
    (d d' : Database) : Prop :=
  exists vid, uuid_canon (version_ID v) = Some vid
    /\ event_written EventTypeModuleVersionDeprecated
         (set_versions (update_where (fun x => eqs (version_ID x) vid)
            (set_deprecation (Some t) (TrimSpace (deprecate_Actor input)) (TrimSpace (deprecate_Reason input)))) d)
         d'.

Lemma Deprecate_outcome input w r w' :
  w_tx w = false -> DeprecateModuleVersion input w = (r, w') ->
  w_tx w' = false
  /\ ((exists e, r = Err e) /\ w_db w' = w_db w
      \/ exists v, version_named input (w_db w) v /\ TrimSpace (deprecate_Actor input) <> ""
           /\ (IsDeprecated v = true /\ r = Ok v /\ w_db w' = w_db w
               \/ IsDeprecated v = false /\ exists t, deprecation_stored input v t (w_db w) (w_db w')
                    /\ (r = Ok (deprecated_version t (TrimSpace (deprecate_Actor input))
                                  (TrimSpace (deprecate_Reason input)) v)
                        \/ (exists e, r = Err e) /\ unacknowledged))).
Proof.
  intros Htx H. unfold DeprecateModuleVersion in H.
  assert (R : same_db w w) by reflexivity.
  apply (read_on _ _ w) in H as [(? & ? & ?)|(name & w1 & H1 & R1 & H)]; [by split; [|left]| |done|preserve|done].
  apply map_err_Ok, lift_Ok in H1 as [Hn ->].
  apply (read_on _ _ w) in H as [(? & ? & ?)|(versionValue & w1 & H1 & _ & H)]; [by split; [|left]| |done|preserve|done].
  apply map_err_Ok, lift_Ok in H1 as [Hv ->].
  destruct (TrimSpace (deprecate_Actor input) =? "")%string eqn:Ea.
  { symmetry in H. injection H as -> ->. split; [done|left]. split; [by eexists|done]. }
  apply String.eqb_neq in Ea.
  apply (read_on _ _ w) in H as [(? & ? & ?)|(module & w2 & H1 & R2 & H)]; [by split; [|left]| |done|preserve|done].
  apply map_err_Ok, Module_GetByName_Ok in H1 as (m & Hm & Hmn & Hmi & _).
  apply (read_on _ _ w) in H as [(? & ? & ?)|(v & w3 & H1 & R3 & H)]; [by split; [|left]| |done|preserve|done].
  apply map_err_Ok, GetByModuleAndVersion_Ok in H1 as (mid & row & Hc & Hrow & Hr1 & Hr2 & Hscan).
  destruct R2 as [E2 _]. rewrite E2 in Hrow.
  assert (Hnamed : version_named input (w_db w) v).
  { exists name, versionValue, m, mid, row. rewrite <- Hmi. by split_and!. }
  destruct (IsDeprecated v) eqn:Ed.
  { injection H as <- <-. destruct R3 as [E3 T3]. split; [congruence|right]. exists v. split_and!; [done..|]. by left. }
  apply (read_on _ _ w) in H as [(? & ? & ?)|(t & w4 & _ & R4 & H)]; [by split; [|left]| |done|preserve|done].
  apply bind_run in H as (r1 & w5 & H1 & H). destruct R4 as [E4 T4].
  apply WithinTransaction_cases in H1 as [T5 [[[e ->] E5]|(u & w6 & Hf & E5 & Hr)]]; [| |congruence].
  { destruct H as [-> ->]. split; [done|left]. split; [by exists e|congruence]. }
  unfold deprecate_transaction in Hf. apply bind_Ok in Hf as (u1 & w7 & H1 & Hf).
  apply UpdateDeprecation_Ok in H1 as (vid & Hvid & _ & E7).
  apply write_outbox_event with (eventType := EventTypeModuleVersionDeprecated) in Hf as [He _].
  2: { intros rec Hrec. unfold NewModuleVersionDeprecated in Hrec. by apply event_record_type in Hrec. }
  assert (Hst : deprecation_stored input v t (w_db w) (w_db w5)).
  { exists vid. split; [done|]. rewrite E5. rewrite E7 in He. cbn [tick w_db] in He. by rewrite E4 in He. }
  destruct Hr as [->|[[e ->] Hu]].
  - injection H as <- <-. split; [done|right]. exists v. split_and!; [done..|right]. split; [done|].
    exists t. split; [done|by left].
  - destruct H as [-> ->]. split; [done|right]. exists v. split_and!; [done..|right]. split; [done|].
    exists t. split; [done|right]. split; [by exists e|done].
Qed.

(** ** Breaking checks *)

(** A change as it is reported: the finding with an identifier, the report and a
    severity. *)
Definition change_content (c : BreakingChange) :=
  (change_Category c, change_FilePath c, change_PackageName c, change_Symbol c, change_RuleID c, change_Message c).
Definition identified (reportID : BreakingReportID) (t : time) (c c' : BreakingChange) : Prop :=
  change_content c' = change_content c /\ change_ReportID c' = reportID /\ change_CreatedAt c' = t
  /\ TrimSpace (change_Severity c') <> ""
  /\ (TrimSpace (change_Severity c) <> "" -> change_Severity c' = change_Severity c).

Lemma identify_changes_Ok reportID t cs w cs' w' :
  mapM (identify_change reportID t) cs w = (Ok cs', w') -> Forall2 (identified reportID t) cs cs'.
Proof.
  revert w cs' w'. induction cs as [|c cs IH]; intros w cs' w' H; cbn [mapM] in H.
  { injection H as <- <-. constructor. }
  apply bind_Ok in H as (c' & w1 & H1 & H). apply bind_Ok in H as (l & w2 & H2 & [-> _]%ret_Ok).
  constructor; [|by eapply IH]. unfold identify_change in H1. apply bind_Ok in H1 as (i & w3 & _ & [-> _]%ret_Ok).
  unfold identified. cbn. destruct (TrimSpace (change_Severity c) =? "")%string eqn:E.
  - apply String.eqb_eq in E. split_and!; [done..|by vm_compute|]. by intros H.
  - apply String.eqb_neq in E. by split_and!.
Qed.

(** The rows of a report and its changes, and the event. *)
Definition change_row (rid : BreakingReportID) (c row : BreakingChange) : Prop :=
  uuid_canon (change_ID c) = Some (change_ID row) /\ change_ReportID row = rid
  /\ change_content row = change_content c /\ change_Severity row = change_Severity c
  /\ change_CreatedAt row = change_CreatedAt c.
Definition report_recorded (report : BreakingReport) (changes : list BreakingChange) (d d' : Database) : Prop :=
  exists rid mid vid rows, uuid_canon (report_ID report) = Some rid
    /\ uuid_canon (report_ModuleID report) = Some mid /\ uuid_canon (report_BaseVersionID report) = Some vid
    /\ Forall2 (change_row rid) changes rows
    /\ event_written EventTypeBreakingReportCreated
         (set_changes (fun l => l ++ rows)%list (set_reports (fun l => l ++
            [mkBreakingReport rid mid "" vid "" (report_TargetRef report) (report_Status report)
               (report_ChangeCount report) (report_RawOutput report) (report_HumanSummary report)
               (report_CreatedAt report)])%list d)) d'.

Lemma createChange_Ok reportID rid c w u w' :
  uuid_canon reportID = Some rid -> createChange reportID c w = (Ok u, w') ->
  exists row, change_row rid c row /\ w_tx w' = w_tx w
    /\ w_db w' = set_changes (fun l => l ++ [row])%list (w_db w).
Proof.
  intros Hr H. unfold createChange, insert_change_stmt in H. stmt_inv H. eexists. split; [|by split].
  unfold change_row. cbn. by split_and!.
Qed.

Lemma insert_report_Ok report w u w' :
  map_err mapError (exec (insert_report_stmt report)) w = (Ok u, w') ->
  exists rid mid vid, uuid_canon (report_ID report) = Some rid
    /\ uuid_canon (report_ModuleID report) = Some mid /\ uuid_canon (report_BaseVersionID report) = Some vid
    /\ w_tx w' = w_tx w
    /\ w_db w' = set_reports (fun l => l ++
         [mkBreakingReport rid mid "" vid "" (report_TargetRef report) (report_Status report)
            (report_ChangeCount report) (report_RawOutput report) (report_HumanSummary report)
            (report_CreatedAt report)])%list (w_db w).
Proof. intros H. unfold insert_report_stmt in H. stmt_inv H. do 3 eexists. by split_and!. Qed.

Lemma check_transaction_Ok report changes w u w' :
  w_tx w = true -> check_transaction report changes w = (Ok u, w') ->
  report_recorded report changes (w_db w) (w_db w').
Proof.
  intros Htx H. unfold check_transaction in H. apply bind_Ok in H as (u1 & w1 & H1 & H).
  unfold Report_Create in H1. rewrite WithinTransaction_nested in H1 by done.
  apply bind_Ok in H1 as (u2 & w2 & H2 & H1).
  apply insert_report_Ok in H2 as (rid & mid & vid & Hr & Hm & Hv & T2 & E2).
  apply (forM_rows _ (change_row rid) (fun rows => set_changes (fun l => l ++ rows)%list)) in H1 as (rows & F & T1 & E1).
  - apply write_outbox_event with (eventType := EventTypeBreakingReportCreated) in H as [He _].
    2: { intros rec Hrec. unfold NewBreakingReportCreated in Hrec. by apply event_record_type in Hrec. }
    exists rid, mid, vid, rows. split_and!; [done..|]. by rewrite E1, E2 in He.
  - intros []. unfold set_changes. cbn. by rewrite app_nil_r.
  - intros l r []. unfold set_changes. cbn. by rewrite <- app_assoc.
  - intros c w0 u0 w0'. by apply createChange_Ok.
Qed.

Section Check.
Variable svc : Service.

(** The findings a report keeps: the first ones, up to the configured number. *)
Definition kept_changes (cs : list BreakingChange) : list BreakingChange :=
  let n := BreakingMaxChanges (svc_options svc) in
  if 0 <? n then firstn (Z.to_nat n) cs else cs.

(** What a report says of the module, the version it is compared with and the
    answer of [buf]. *)
Record reports (module : Module_) (baseline : ModuleVersion) (targetRef : string)
    (answer : BufBreakingCheckResult) (report : BreakingReport) (changes : list BreakingChange) : Prop := mkReports {
  rep_module : report_ModuleID report = module_ID module /\ report_ModuleName report = module_Name module;
  rep_base : report_BaseVersionID report = version_ID baseline /\ report_BaseVersion report = version_Version baseline;
  rep_target : report_TargetRef report = targetRef;
  rep_status : check_status answer = Ok (report_Status report);
  rep_count : report_ChangeCount report = llen changes;
  rep_changes : Forall2 (identified (report_ID report) (report_CreatedAt report)) (kept_changes (br_Changes answer)) changes;
  rep_raw : report_RawOutput report = br_RawOutput answer;
  rep_summary : TrimSpace (br_HumanSummary answer) <> "" -> report_HumanSummary report = br_HumanSummary answer }.

Lemma kept_changes_eq cs :
  (if (0 <? BreakingMaxChanges (svc_options svc)) && (BreakingMaxChanges (svc_options svc) <? llen cs)
   then firstn (Z.to_nat (BreakingMaxChanges (svc_options svc))) cs else cs) = kept_changes cs.
Proof.
  unfold kept_changes, llen. destruct (0 <? _) eqn:E0; [|done]. cbn [andb].
  destruct (_ <? Z.of_nat (length cs)) eqn:E1; [done|]. rewrite firstn_all2; [done|lia].
Qed.

Lemma check_store_outcome module baseline targetRef answer w r w' :
  w_tx w = false -> check_store svc module baseline targetRef answer w = (r, w') ->
  failed w r w'
  \/ exists report changes, reports module baseline targetRef answer report changes
       /\ w_tx w' = false /\ report_recorded report changes (w_db w) (w_db w')
       /\ (r = Ok (report, changes) \/ (exists e, r = Err e) /\ unacknowledged).
Proof.
  intros Htx H. unfold check_store in H. rewrite kept_changes_eq in H.
  assert (R : same_db w w) by reflexivity.
  apply (read_on _ _ w) in H as [Hf|(status & w1 & H1 & R1 & H)]; [by left| |done|preserve|done].
  apply lift_Ok in H1 as [Hstatus ->].
  apply (read_on _ _ w) in H as [Hf|(t & w2 & _ & R2 & H)]; [by left| |done|preserve|done].
  apply (read_on _ _ w) in H as [Hf|(rid & w3 & _ & R3 & H)]; [by left| |done|apply same_db_new|done].
  apply (read_on _ _ w) in H as [Hf|(changes & w4 & Hc & R4 & H)]; [by left| |done| |done].
  2: { apply (preserves_mapM same_db). intros c _. unfold identify_change, NewBreakingChangeID_. preserve. }
  apply identify_changes_Ok in Hc. cbv zeta in H.
  match type of H with bind (WithinTransaction (check_transaction ?rep _)) _ _ = _ => set (report := rep) in * end.
  apply bind_run in H as (r1 & w5 & H1 & H). destruct R4 as [E4 T4].
  apply WithinTransaction_cases in H1 as [T5 Hr]; [|congruence].
  destruct Hr as [[[e ->] E5]|(u & w6 & Hf & E5 & Hr)].
  { left. destruct H as [-> ->]. split_and!; [done|by exists e|congruence]. }
  right. exists report, changes. apply check_transaction_Ok in Hf; [|done]. cbn [tick w_db] in Hf.
  rewrite E4, <- E5 in Hf.
  assert (Hrep : reports module baseline targetRef answer report changes).
  { constructor; try done. intros Hs. apply String.eqb_neq in Hs. subst report. cbn. by rewrite Hs. }
  destruct Hr as [->|[[e ->] Hu]].
  - injection H as <- <-. split_and!; [done..|by left].
  - destruct H as [-> ->]. split_and!; [done..|right]. split; [by exists e|done].
Qed.

Lemma readStoredArtifact_run `{LAWS : !ArtifactStoreLaws} key s r s' :
  on_store (readStoredArtifact key) s = (r, s') ->
  objects s' = objects s /\ rg_world s' = rg_world s
  /\ match r with Ok body => objects s !! key = Some body | Err _ => True end.
Proof.
  unfold on_store, zoom, readStoredArtifact, map_err, bind.
  destruct (store_Get key (rg_bucket s)) as [r1 b] eqn:E. apply Get_law in E as [Eb Hr]. unfold objects.
  destruct r1 as [o|e]; intros [= <- <-]; cbn; [|done]. split_and!; [done..|].
  destruct Hr as [_ Hr]. destruct (object_Body o); [by apply Hr|done].
Qed.

Lemma same_db_GetByModuleVersionAndKind id kind : preserves same_db (GetByModuleVersionAndKind id kind).
Proof. unfold GetByModuleVersionAndKind, Artifact_getOne. preserve. reads. Qed.
#[local] Hint Resolve same_db_GetByModuleVersionAndKind : go.
Lemma same_db_check_baseline name against : preserves same_db (check_baseline name against).
Proof. unfold check_baseline, resolveBreakingBaseline. preserve. Qed.

(** A check that was made: the archive of the request was unpacked, and [buf]
    compared it with the stored image of the version it is checked against. *)
Definition checked (req : CheckBreakingRequest) (s : Registry) (r : result (BreakingReport * list BreakingChange))
    (s' : Registry) : Prop :=
  exists name against targetRef archive check module baseline artifact w1 image body workdir fs answer fs' report changes,
    check_request svc req = Ok (name, against, targetRef, archive, check)
    /\ check_baseline name against (rg_world s) = (Ok (module, baseline, artifact), w1)
    /\ objects s !! artifact_StorageKey artifact = Some image
    /\ readArtifact svc archive = Ok (body, sha256_hex body, len body)
    /\ check_workdir svc check workdir body image targetRef fs = (Ok answer, fs')
    /\ reports module baseline targetRef answer report changes
    /\ w_tx (rg_world s') = false
    /\ report_recorded report changes (w_db (rg_world s)) (w_db (rg_world s'))
    /\ (r = Ok (report, changes) \/ (exists e, r = Err e) /\ unacknowledged).

Lemma CheckBreaking_outcome `{LAWS : !ArtifactStoreLaws} req s r s' :
  w_tx (rg_world s) = false -> CheckBreaking svc req s = (r, s') ->
  objects s' = objects s /\ (failed (rg_world s) r (rg_world s') \/ checked req s r s').
Proof.
  intros Htx H. unfold CheckBreaking in H. apply bind_run in H as (r1 & s1 & H1 & H). injection H1 as <- <-.
  destruct (check_request svc req) as [[[[[name against] targetRef] archive] check]|e] eqn:Ereq.
  2: { destruct H as [-> ->]. split; [done|left]. by split_and!; [|exists e|]. }
  apply bind_run in H as (r2 & s2 & H2 & H). unfold on_db, zoom in H2.
  destruct (check_baseline name against (rg_world s)) as [r3 w1] eqn:Ec. injection H2 as <- <-.
  pose proof (preserves_run same_db _ _ _ _ (same_db_check_baseline _ _) Ec) as [E1 T1].
  destruct r3 as [[[module baseline] artifact]|e].
  2: { destruct H as [-> ->]. split; [done|left]. split_and!; [cbn; congruence|by exists e|done]. }
  apply bind_run in H as (r4 & s4 & H4 & H). apply readStoredArtifact_run in H4 as (O4 & W4 & Hi).
  cbn [rg_world set_rg_world] in W4. change (objects (set_rg_world w1 s)) with (objects s) in O4, Hi.
  assert (F : forall (s0 : Registry) e, objects s0 = objects s -> rg_world s0 = w1 -> r = Err e /\ s' = s0 ->
    objects s' = objects s /\ failed (rg_world s) r (rg_world s')).
  { intros s0 e O0 W0 [-> ->]. split; [done|]. rewrite W0. split_and!; [congruence|by exists e|done]. }
  destruct r4 as [image|e]; [|destruct (F s4 e O4 W4 H); by split; [|left]].
  apply bind_run in H as (r5 & s5 & H5 & H). injection H5 as <- <-.
  destruct (readArtifact svc archive) as [[[body sum] n]|e] eqn:Er; [|destruct (F s4 e O4 W4 H); by split; [|left]].
  pose proof (readArtifact_Ok _ _ _ _ _ Er) as [-> ->].
  apply bind_run in H as (r6 & s6 & H6 & H). apply on_fs_run in H6 as (fs6 & _ & ->).
  destruct r6 as [workdir|e]; [|destruct (F (set_rg_fs fs6 s4) e O4 W4 H); by split; [|left]].
  apply deferred_run in H as (s7 & H & ->).
  assert (Hc : exists fs, (on_fs (removeTempDir workdir) s7).2 = set_rg_fs fs s7).
  { destruct (on_fs _ s7) as [r8 s8] eqn:E. apply on_fs_run in E as (fs & _ & ->). by exists fs. }
  destruct Hc as [fs ->]. apply bind_run in H as (r8 & s8 & H8 & H). apply on_fs_run in H8 as (fs8 & H8 & ->).
  destruct r8 as [answer|e].
  2: { destruct H as [-> ->]. split; [done|left]. cbn. rewrite W4. split_and!; [congruence|by exists e|done]. }
  unfold on_db, zoom in H. change (rg_world (set_rg_fs fs8 (set_rg_fs fs6 s4))) with (rg_world s4) in H. rewrite W4 in H.
  destruct (check_store svc module baseline targetRef answer w1) as [r9 w9] eqn:Es. injection H as <- <-.
  split; [done|]. apply check_store_outcome in Es as [(T & He & D)|(report & changes & Hrep & T & Hst & Hr)]; [| |congruence].
  - left. cbn. split_and!; [done..|congruence].
  - right. rewrite E1 in Hst. do 17 eexists. split_and!; try done; eassumption.
Qed.
End Check.
End Operations.
