(* ===== verification/GitLabLink.v ===== *)
(** * The GitLab project of a module

    [repository/postgres/module_gitlab_projects.go], the event of
    [integration/protoradarevents/module_gitlab_project_linked.go], and the
    methods [LinkModuleGitLabProject] and [GetModuleGitLabProject] of
    [usecase/registry/service.go].

    The theorems: a link is stored with its event in one transaction, one for a
    module and one for a project, or nothing changes
    ([LinkModuleGitLabProject_outcome]); and a project that was linked once is
    refused ever after, for the key of its event is taken ([relink_refused]). *)

From S2P Require Import Prelude Errors GoStrings JsonScan Domain Json Effects Postgres Outbox Events Tables World GovernanceStore UseCase CatalogStore DescriptorStore DependencyStore DependencyGraph Identity Archive Storage Registry RegistrySafety RegistryOperations.

Open Scope string_scope.
Open Scope Z_scope.

Section Link.
Context `{PG : !Postgres} `{ENV : !Env} `{URL : !NetURL}.

(** ** The repository *)

Definition projects (d : Database) : list ModuleGitLabProject := ct_gitlab_projects (db_catalog d).
Definition update_projects f : Database -> Database := set_catalog (set_gitlab_projects f).

Definition same_project (p q : ModuleGitLabProject) : bool :=
  eqs (gitlab_BaseURL p) (gitlab_BaseURL q) && (gitlab_ProjectID p =? gitlab_ProjectID q).

Definition project_taken : error := unique_violation "module_gitlab_projects_gitlab_base_url_gitlab_project_id_key".

(** The row that is stored under the identifier [id] for the module. *)
Definition project_row (id moduleID : string) (createdAt : time) (p : ModuleGitLabProject) : ModuleGitLabProject :=
  mkModuleGitLabProject id moduleID "" (gitlab_BaseURL p) (gitlab_ProjectID p) (gitlab_ProjectPath p) createdAt (gitlab_UpdatedAt p).

(** [INSERT ... ON CONFLICT (module_id) DO UPDATE]: the row of the module keeps
    its identifier and its first time. *)
Definition upsert_project_stmt (p : ModuleGitLabProject) : M Database unit :=
  let! id := uuid_param (gitlab_ID p) in
  let! moduleID := uuid_param (gitlab_ModuleID p) in
  let! _ := text_params [gitlab_BaseURL p; gitlab_ProjectPath p] in
  let! d := gets (fun d => d) in
  let linked := fun q => eqs (gitlab_ModuleID q) moduleID in
  match List.find linked (projects d) with
  | Some _ =>
      let! _ := insert_checks [] [(existsb (fun q => negb (linked q) && same_project q p) (projects d), project_taken)] [] in
      modify (update_projects (update_where linked (fun q => project_row (gitlab_ID q) moduleID (gitlab_CreatedAt q) p)))
  | None =>
      let! _ := insert_checks []
        [(existsb (fun q => eqs (gitlab_ID q) id) (projects d), unique_violation "module_gitlab_projects_pkey");
         (existsb (fun q => same_project q p) (projects d), project_taken)]
        [(negb (existsb (fun m => eqs (module_ID m) moduleID) (db_modules d)),
           foreign_key_violation "module_gitlab_projects_module_id_fkey")] in
      modify (update_projects (fun l => l ++ [project_row id moduleID (gitlab_CreatedAt p) p])%list)
  end.

Definition Project_Upsert (mapping : ModuleGitLabProject) : M World unit :=
  let! normalized := lift (Normalized mapping) in
  map_err mapError (exec (T := Database) (upsert_project_stmt normalized)).

(** [JOIN modules m ON m.id = mgp.module_id], with the name of the module. *)
Definition joined_projects (p : ModuleGitLabProject -> bool) (d : Database) : list ModuleGitLabProject :=
  flat_map (fun q => map (fun m => mkModuleGitLabProject (gitlab_ID q) (gitlab_ModuleID q) (module_Name m) (gitlab_BaseURL q)
                                     (gitlab_ProjectID q) (gitlab_ProjectPath q) (gitlab_CreatedAt q) (gitlab_UpdatedAt q))
                       (List.filter (fun m => eqs (module_ID m) (gitlab_ModuleID q)) (db_modules d)))
    (List.filter p (projects d)).

Definition scanModuleGitLabProject (row : ModuleGitLabProject) : result ModuleGitLabProject :=
  let? name := NewModuleName (gitlab_ModuleName row) in
  Ok (mkModuleGitLabProject (NewModuleGitLabProjectID (gitlab_ID row)) (NewModuleID (gitlab_ModuleID row)) name
        (gitlab_BaseURL row) (gitlab_ProjectID row) (gitlab_ProjectPath row) (gitlab_CreatedAt row) (gitlab_UpdatedAt row)).

Definition Project_getOne (query : M Database ModuleGitLabProject) : M World ModuleGitLabProject :=
  map_err mapError (let! row := exec query in lift (scanModuleGitLabProject row)).

Definition Project_GetByModuleID (moduleID : ModuleID) : M World ModuleGitLabProject :=
  Project_getOne (
    let! moduleID := uuid_param moduleID in
    query_row (joined_projects (fun q => eqs (gitlab_ModuleID q) moduleID))).

Definition GetByGitLabProject (gitLabBaseURL : string) (gitLabProjectID : Z) : M World ModuleGitLabProject :=
  Project_getOne (
    let! _ := text_params [gitLabBaseURL] in
    query_row (joined_projects (fun q => eqs (gitlab_BaseURL q) gitLabBaseURL && (gitlab_ProjectID q =? gitLabProjectID)))).

(** ** The event *)

Definition EventTypeModuleGitLabProjectLinked : string := "protoradar.module_gitlab_project.linked".

Definition NewModuleGitLabProjectLinked (mapping : ModuleGitLabProject) (occurredAt : time) : result Record_ :=
  let? normalized := Normalized mapping in
  let moduleID := gitlab_ModuleID normalized in
  event_record aggregateTypeModule moduleID EventTypeModuleGitLabProjectLinked
    ("module:" +:+ moduleID +:+ ":gitlab-project:" +:+ gitlab_BaseURL normalized +:+ ":" +:+ itoa (gitlab_ProjectID normalized)
       +:+ ":linked")
    (JObject [("module_id", JString moduleID); ("module_name", JString (gitlab_ModuleName normalized));
              ("gitlab_base_url", JString (gitlab_BaseURL normalized));
              ("gitlab_project_id", JInt (gitlab_ProjectID normalized));
              ("gitlab_project_path", JString (gitlab_ProjectPath normalized));
              ("occurred_at", JTime occurredAt)])
    occurredAt.

(** ** The service *)

Record LinkModuleGitLabProjectInput := mkLinkInput {
  link_ModuleName : string;
  link_GitLabBaseURL : string;
  link_GitLabProjectID : Z;
  link_GitLabProjectPath : string }.

Definition mapGitLabMappingValidationError (err : error) : error :=
  if errors_Is err domain.ErrInvalidModuleName then registry.ErrInvalidModuleName else
  if errors_Is err domain.ErrInvalidGitLabBaseURL then registry.ErrInvalidGitLabBaseURL else
  if errors_Is err domain.ErrInvalidGitLabProjectID then registry.ErrInvalidGitLabProjectID else
  if errors_Is err domain.ErrInvalidGitLabProjectPath then registry.ErrInvalidGitLabProjectPath else err.

Definition NewModuleGitLabProjectID_ : M World ModuleGitLabProjectID :=
  let! value := random_hex in ret (NewModuleGitLabProjectID value).

Definition link_transaction (module : Module_) (normalized : ModuleGitLabProject) (now : time) : M World ModuleGitLabProject :=
  let! _ := map_err (duplicate_as registry.ErrGitLabProjectAlreadyLinked) (Project_Upsert normalized) in
  let! stored := Project_GetByModuleID (module_ID module) in
  let! record := lift (NewModuleGitLabProjectLinked stored now) in
  let! wall := World.now in
  let! _ := map_err (duplicate_as registry.ErrGitLabProjectAlreadyLinked) (Create wall record) in
  ret stored.

Definition LinkModuleGitLabProject (input : LinkModuleGitLabProjectInput) : M World ModuleGitLabProject :=
  let! name := map_err (fun _ => registry.ErrInvalidModuleName : error) (lift (NewModuleName (link_ModuleName input))) in
  let! normalizedInput := map_err mapGitLabMappingValidationError (lift (Normalized
    (mkModuleGitLabProject "" "" name (link_GitLabBaseURL input) (link_GitLabProjectID input) (link_GitLabProjectPath input) 0 0))) in
  let! module := map_err (not_found_as registry.ErrModuleNotFound) (Module_GetByName name) in
  let! now := World.now in
  let! mappingID := NewModuleGitLabProjectID_ in
  let! normalized := map_err mapGitLabMappingValidationError (lift (Normalized
    (mkModuleGitLabProject mappingID (module_ID module) (module_Name module) (gitlab_BaseURL normalizedInput)
       (gitlab_ProjectID normalizedInput) (gitlab_ProjectPath normalizedInput) now now))) in
  WithinTransaction (link_transaction module normalized now).

Definition GetModuleGitLabProject (moduleName : string) : M World ModuleGitLabProject :=
  let! module := GetModule moduleName in
  map_err (not_found_as registry.ErrModuleGitLabProjectNotFound) (Project_GetByModuleID (module_ID module)).
End Link.

(** ** What linking does *)

Section LinkCorrect.
Context `{PG : !Postgres} `{ENV : !Env} `{CR : !Crypto} `{SYS : !OS} `{STORE : !ArtifactStore} `{HOST : !Host}
  `{URL : !NetURL}.

(** The row of the module: the one it has, with the new project, or a new one. *)
Definition with_project (q : ModuleGitLabProject) (l : list ModuleGitLabProject) : list ModuleGitLabProject :=
  let linked := fun x => eqs (gitlab_ModuleID x) (gitlab_ModuleID q) in
  if existsb linked l
  then update_where linked (fun x => project_row (gitlab_ID x) (gitlab_ModuleID q) (gitlab_CreatedAt x) q) l
  else (l ++ [q])%list.

(** The project of an input, as it is stored: [Normalized] runs on the input,
    on the link and on the row. *)
Definition project_of (input : LinkModuleGitLabProjectInput) (name : ModuleName) : result ModuleGitLabProject :=
  let? a := Normalized (mkModuleGitLabProject "" "" name (link_GitLabBaseURL input) (link_GitLabProjectID input)
                          (link_GitLabProjectPath input) 0 0) in
  let? b := Normalized a in Normalized b.

(** The key of the event of a link. *)
Definition link_key (moduleID : ModuleID) (k : ModuleGitLabProject) : string :=
  "module:" +:+ moduleID +:+ ":gitlab-project:" +:+ gitlab_BaseURL k +:+ ":" +:+ itoa (gitlab_ProjectID k) +:+ ":linked".

(** The module is the one the input names, the project is the input's and no
    other module's, and the event of the link is new. *)
Definition project_linked (input : LinkModuleGitLabProjectInput) (d d' : Database) : Prop :=
  exists name n k q rec,
    NewModuleName (link_ModuleName input) = Ok name /\ project_of input name = Ok n /\ Normalized n = Ok k
    /\ (exists m, m ∈ db_modules d /\ module_Name m = name /\ module_ID m = gitlab_ModuleID q)
    /\ same_project q n = true /\ gitlab_ProjectPath q = gitlab_ProjectPath n
    /\ (forall x, x ∈ projects d -> gitlab_ModuleID x <> gitlab_ModuleID q -> same_project x n = false)
    /\ record_DedupKey rec = link_key (gitlab_ModuleID q) k
    /\ (forall x, x ∈ ot_rows (db_outbox d) -> record_DedupKey x <> record_DedupKey rec)
    /\ event_written EventTypeModuleGitLabProjectLinked (update_projects (with_project q) d) d'.

(** The fields of a project that name neither the module nor the row. *)
Definition fields_agree (p p' : ModuleGitLabProject) : Prop :=
  gitlab_BaseURL p = gitlab_BaseURL p' /\ gitlab_ProjectID p = gitlab_ProjectID p'
  /\ gitlab_ProjectPath p = gitlab_ProjectPath p'.

Lemma Normalized_agree p p' n name :
  fields_agree p p' -> NewModuleName (gitlab_ModuleName p') = Ok name -> Normalized p = Ok n ->
  gitlab_ModuleID n = gitlab_ModuleID p
  /\ exists n', Normalized p' = Ok n' /\ gitlab_ModuleName n' = name /\ fields_agree n n'.
Proof.
  intros (E2 & E3 & E4) Hn H. unfold Normalized in *. rewrite <- E2, <- E3, <- E4, Hn.
  destruct (NewModuleName (gitlab_ModuleName p)) as [name'|]; [|done]. cbn in *.
  destruct (url_Parse _) as [[scheme host]|]; [|done].
  repeat (case_match; [done|]). injection H as <-. split; [done|]. eexists. split; [done|]. by split_and!.
Qed.

Lemma Normalized_name p n : Normalized p = Ok n -> NewModuleName (gitlab_ModuleName p) = Ok (gitlab_ModuleName n).
Proof.
  unfold Normalized. destruct (NewModuleName _) as [name|]; [|done]. cbn.
  destruct (url_Parse _) as [[scheme host]|]; [|done]. repeat (case_match; [done|]). by intros [= <-].
Qed.

Lemma find_existsb_Some {A} (p : A -> bool) l x : List.find p l = Some x -> existsb p l = true.
Proof. intros [Hin Hp]%find_some. apply existsb_exists. eauto. Qed.
Lemma find_existsb_None {A} (p : A -> bool) l : List.find p l = None -> existsb p l = false.
Proof. intros H. apply existsb_false. intros x Hx%list_elem_of_In. by eapply find_none. Qed.

Lemma update_projects_ext f g d : f (projects d) = g (projects d) -> update_projects f d = update_projects g d.
Proof. intros H. unfold projects in H. unfold update_projects, set_catalog, set_gitlab_projects. by rewrite H. Qed.

Lemma Project_Upsert_Ok p w u w' :
  Project_Upsert p w = (Ok u, w') ->
  exists n q,
    Normalized p = Ok n /\ uuid_canon (gitlab_ModuleID n) = Some (gitlab_ModuleID q)
    /\ gitlab_BaseURL q = gitlab_BaseURL n /\ gitlab_ProjectID q = gitlab_ProjectID n
    /\ gitlab_ProjectPath q = gitlab_ProjectPath n
    /\ (forall x, x ∈ projects (w_db w) -> gitlab_ModuleID x <> gitlab_ModuleID q -> same_project x n = false)
    /\ w_tx w' = w_tx w /\ w_db w' = update_projects (with_project q) (w_db w).
Proof.
  intros H. unfold Project_Upsert in H. apply bind_Ok in H as (n & w1 & [Hn ->]%lift_Ok & H).
  apply map_err_Ok, exec_db_Ok in H as [H T]. unfold upsert_project_stmt in H.
  apply bind_Ok in H as (id & d1 & [Hid ->]%uuid_param_Ok & H).
  apply bind_Ok in H as (mid & d1 & [Hmid ->]%uuid_param_Ok & H).
  apply bind_Ok in H as (u1 & d1 & [_ ->]%guardM_Ok & H).
  apply bind_Ok in H as (d & d1 & [= -> <-] & H).
  set (q := project_row id mid (gitlab_CreatedAt n) n).
  exists n, q. split_and!; try done.
  - intros x Hx Hne. destruct (List.find _ _) eqn:Ef;
      apply bind_Ok in H as (u2 & d2 & [-> Hc]%append_checks_Ok & _); cbn in Hc; decompose_Forall_hyps;
      match goal with He : existsb _ (projects _) = false |- _ =>
        rewrite existsb_false in He; specialize (He x Hx); cbn in He; try exact He end.
    apply andb_false_iff in H as [He|He]; [|done]. apply negb_false_iff, eqs_true in He. by rewrite He in Hne.
  - destruct (List.find _ _) eqn:Ef; apply bind_Ok in H as (u2 & d2 & [-> _]%append_checks_Ok & ->%modify_Ok);
      apply update_projects_ext; unfold with_project; change (gitlab_ModuleID q) with mid.
    + by rewrite (find_existsb_Some _ _ _ Ef).
    + by rewrite (find_existsb_None _ _ Ef).
Qed.

(** What the row of the module holds after the statement. *)
Lemma with_project_at q l x :
  x ∈ with_project q l -> gitlab_ModuleID x = gitlab_ModuleID q ->
  gitlab_BaseURL x = gitlab_BaseURL q /\ gitlab_ProjectID x = gitlab_ProjectID q /\ gitlab_ProjectPath x = gitlab_ProjectPath q.
Proof.
  unfold with_project. destruct (existsb _ l) eqn:E; intros Hx Hm.
  - unfold update_where in Hx. apply list_elem_of_In, in_map_iff in Hx as (y & <- & Hy).
    destruct (eqs (gitlab_ModuleID y) (gitlab_ModuleID q)) eqn:Ey; [done|]. by rewrite Hm, eqs_refl in Ey.
  - rewrite existsb_false in E. apply elem_of_app in Hx as [Hx|Hx%list_elem_of_singleton]; [|by subst].
    specialize (E x Hx). cbn in E. by rewrite Hm, eqs_refl in E.
Qed.

Lemma Project_GetByModuleID_Ok id mid w q w' :
  uuid_canon id = Some mid -> Project_GetByModuleID id w = (Ok q, w') ->
  exists row m, row ∈ projects (w_db w) /\ gitlab_ModuleID row = mid /\ m ∈ db_modules (w_db w) /\ module_ID m = mid
    /\ gitlab_ModuleID q = TrimSpace mid /\ NewModuleName (module_Name m) = Ok (gitlab_ModuleName q)
    /\ gitlab_BaseURL q = gitlab_BaseURL row /\ gitlab_ProjectID q = gitlab_ProjectID row
    /\ gitlab_ProjectPath q = gitlab_ProjectPath row /\ w_tx w' = w_tx w /\ w_db w' = w_db w.
Proof.
  intros Hc H. unfold Project_GetByModuleID, Project_getOne in H. apply map_err_Ok in H.
  apply bind_Ok in H as (row & w1 & H & [Hs ->]%lift_Ok). apply exec_db_Ok in H as [H T].
  apply bind_Ok in H as (c & d & [Hc' ->]%uuid_param_Ok & H). rewrite Hc in Hc'. injection Hc' as <-.
  apply query_row_Ok in H as [Hrow Hdb].
  assert (Hin : row ∈ joined_projects (fun q => eqs (gitlab_ModuleID q) mid) (w_db w))
    by (destruct (joined_projects _ _); set_solver).
  unfold joined_projects in Hin. apply list_elem_of_In, in_flat_map in Hin as (r & Hr%list_elem_of_In & Hin).
  apply in_map_iff in Hin as (m & <- & Hm%list_elem_of_In).
  apply elem_of_filter_bool in Hr as [Hr Er%eqs_true]. apply elem_of_filter_bool in Hm as [Hm Em%eqs_true].
  unfold scanModuleGitLabProject in Hs. cbn in Hs. destruct (NewModuleName (module_Name m)) as [name|] eqn:En; [|done].
  injection Hs as <-. exists r, m. cbn. rewrite Er in *. by split_and!.
Qed.

Lemma project_steps input name n1 n2 n3 (id mid name' : string) t t' :
  NewModuleName (link_ModuleName input) = Ok name -> NewModuleName name = Ok name' ->
  Normalized (mkModuleGitLabProject "" "" name (link_GitLabBaseURL input) (link_GitLabProjectID input)
                (link_GitLabProjectPath input) 0 0) = Ok n1 ->
  Normalized (mkModuleGitLabProject id mid name' (gitlab_BaseURL n1) (gitlab_ProjectID n1) (gitlab_ProjectPath n1) t t') = Ok n2 ->
  Normalized n2 = Ok n3 ->
  gitlab_ModuleID n3 = mid /\ exists n, project_of input name = Ok n /\ NewModuleName (gitlab_ModuleName n) = Ok (gitlab_ModuleName n) /\ fields_agree n3 n.
Proof.
  intros Hn Hn' H1 H2 H3. pose proof (Normalized_name _ _ H1) as En. cbn in En. rewrite Hn' in En. injection En as ->.
  pose proof (NewModuleName_fixed _ _ Hn') as Hf.
  apply (Normalized_agree _ n1 _ (gitlab_ModuleName n1)) in H2 as [M2 (m2 & H2 & N2 & A2)]; [|by split_and!|done].
  apply (Normalized_agree _ m2 _ (gitlab_ModuleName n1)) in H3 as [M3 (m3 & H3 & N3 & A3)]; [|done|by rewrite N2].
  split; [by rewrite M3, M2|]. exists m3. split_and!; [|by rewrite N3|done]. unfold project_of. rewrite H1. cbn. by rewrite H2.
Qed.

Lemma event_record_key a b c k p t rec : event_record a b c k p t = Ok rec -> record_DedupKey rec = k.
Proof. unfold event_record. destruct (Marshal p); [|done]. by intros [= <-]. Qed.

Lemma same_db_NewModuleGitLabProjectID : preserves same_db NewModuleGitLabProjectID_.
Proof. unfold NewModuleGitLabProjectID_. repeat first [apply same_db_random_hex|preserve_step]. Qed.
#[local] Hint Resolve same_db_NewModuleGitLabProjectID : go.

(** A link is stored with its event in one transaction or nothing changes: the
    module has one project, the project one module, and a project whose event
    was written before is refused. *)
Theorem LinkModuleGitLabProject_outcome input w r w' :
  w_tx w = false -> (forall m, m ∈ db_modules (w_db w) -> canonical (module_ID m)) ->
  LinkModuleGitLabProject input w = (r, w') -> atomic_outcome (project_linked input) w r w'.
Proof.
  intros Htx Hmods H. unfold LinkModuleGitLabProject in H.
  reading H name w1 Hm Hs. apply map_err_Ok, lift_Ok in Hm as [Hn ->]. clear Hs.
  reading H n1 w1 Hm Hs. apply map_err_Ok, lift_Ok in Hm as [H1 ->]. clear Hs.
  reading H module w1 Hm Hs. apply map_err_Ok, Module_GetByName_Ok in Hm as (row & Hrow & Ename & Eid & Hname). carry Hs.
  reading H t w2 Hm Hs. clear Hm. carry Hs.
  reading H pid w3 Hm Hs. clear Hm. carry Hs.
  reading H n2 w4 Hm Hs. apply map_err_Ok, lift_Ok in Hm as [H2 ->]. clear Hs.
  rewrite canonical_trim in Eid by by apply Hmods.
  apply WithinTransaction_atomic in H as (Htx' & [H|(a & w5 & H & Hdb & _)]); [by split; [|left]| |done].
  split; [done|right]. rewrite Hdb. clear Hdb Htx'. unfold link_transaction in H.
  apply bind_Ok in H as (u & w6 & Hu%map_err_Ok%Project_Upsert_Ok & H).
  destruct Hu as (n3 & q & H3 & Hc & B & I & P & Hfree & T & E). cbn [tick w_db w_tx] in *.
  destruct (project_steps _ _ _ _ _ _ _ _ _ _ Hn Hname H1 H2 H3) as [M3 (n & Hof & Nn & A2 & A3 & A4)].
  rewrite M3, Eid in Hc. pose proof (Hmods _ Hrow) as Hcan. apply canonical_param in Hc; [|done].
  apply bind_Ok in H as (stored & w7 & Hg & H). eapply Project_GetByModuleID_Ok in Hg; [|rewrite Eid; exact Hcan].
  destruct Hg as (x & m & Hx & Ex & Hm & Em & Ms & Ns & Bs & Is & Ps & _ & E7). rewrite E in Hx, Hm.
  cbn in Hx. apply with_project_at in Hx as (Bx & Ix & Px); [|congruence].
  apply bind_Ok in H as (rec & w8 & [Hrec ->]%lift_Ok & H). apply bind_Ok in H as (wall & w9 & Hwall & H).
  apply bind_Ok in H as (u2 & w10 & Hcr%map_err_Ok & [= <- <-]).
  assert (Hw : write_outbox (Ok rec) w7 = (Ok u2, w10)).
  { apply bind_Ok. exists rec, w7. split; [done|]. apply bind_Ok. eauto. }
  unfold NewModuleGitLabProjectLinked in Hrec.
  destruct (Normalized stored) as [k|] eqn:Hk; [|done].
  destruct (Normalized_agree stored n k (gitlab_ModuleName n)) as [Mk (k' & Hk' & _ & K2 & K3 & _)]; [|exact Nn|exact Hk|];
    [by split_and!; congruence|].
  exists name, n, k', q, rec. split_and!; try done.
  - exists row. split_and!; [done..|congruence].
  - unfold same_project. apply andb_true_iff. rewrite eqs_true, Z.eqb_eq. split; congruence.
  - congruence.
  - intros y Hy Hne. specialize (Hfree y Hy Hne). unfold same_project in *. by rewrite <- A2, <- A3.
  - cbn in Hrec. apply event_record_key in Hrec as ->. rewrite Mk, Ms, canonical_trim by done. by rewrite K2, K3, Hc.
  - intros y Hy. eapply write_outbox_fresh; [exact Hw|]. rewrite E7, E. exact Hy.
  - eapply write_outbox_event in Hw as [He _]; [|intros rr [= <-]; by eapply event_record_type in Hrec].
    rewrite E7, E in He. exact He.
Qed.

(** A project that was linked to a module is refused ever after, for as long as
    the outbox holds the event: also when the module was linked elsewhere since. *)
Corollary relink_refused input w r w' :
  w_tx w = false -> (forall m, m ∈ db_modules (w_db w) -> canonical (module_ID m)) ->
  (forall n k m, project_of input (module_Name m) = Ok n -> Normalized n = Ok k -> m ∈ db_modules (w_db w) ->
     NewModuleName (link_ModuleName input) = Ok (module_Name m) ->
     exists x, x ∈ ot_rows (db_outbox (w_db w)) /\ record_DedupKey x = link_key (module_ID m) k) ->
  LinkModuleGitLabProject input w = (r, w') -> (exists e, r = Err e) /\ w_db w' = w_db w.
Proof.
  intros Htx Hmods Hkey H. apply LinkModuleGitLabProject_outcome in H as [_ [H|H]]; [done| |done|done].
  destruct H as (name & n & k & q & rec & Hn & Hof & Hk & (m & Hm & <- & Em) & _ & _ & _ & Ek & Hfresh & _).
  destruct (Hkey n k m) as (x & Hx & Ex); [done..|]. destruct (Hfresh x Hx). by rewrite Ex, Ek, Em.
Qed.
End LinkCorrect.
