(* ===== verification/RuntimeSafety.v ===== *)
(** * What a runtime report leaves in the tables

    The versions a report names are compared with the tables as a reference
    definition says, and the deployment with its usages is stored in one
    transaction. *)

From S2P Require Import Prelude Errors GoStrings JsonScan Domain Json Effects Postgres Outbox Events Tables World GovernanceStore UseCase CatalogStore DescriptorStore DependencyStore DependencyGraph RuntimeStore RuntimeInventory Identity Archive Storage Registry RegistrySafety RegistryOperations.

Open Scope string_scope.
Open Scope Z_scope.

(** ** Lookups that may find nothing

    [finds m rows scan]: [m] only reads; what it returns is the first of the
    rows, and when it finds nothing there is no row. *)

Definition finds `{ENV : !Env} {A B} (m : M World A) (rows : Database -> list B) (scan : B -> result A) : Prop :=
  forall w r w', m w = (r, w') ->
    same_db w w'
    /\ (forall a, r = Ok a -> exists row, head (rows (w_db w)) = Some row /\ scan row = Ok a)
    /\ (forall e, r = Err e -> errors_Is e domain.ErrNotFound = true -> rows (w_db w) = []).

Section Lookups.
Context `{PG : !Postgres} `{ENV : !Env} `{HF : !HonestFaults}.

Lemma finds_or_none {A B} (m : M World A) (rows : Database -> list B) scan w o w' :
  finds m rows scan -> find_or_none m w = (Ok o, w') ->
  same_db w w'
  /\ match head (rows (w_db w)) with
     | Some row => exists a, o = Some a /\ scan row = Ok a
     | None => o = None
     end.
Proof.
  intros Hf H. unfold find_or_none in H. rewrite bind_try in H. destruct (m w) as [r w1] eqn:E.
  destruct (Hf _ _ _ E) as (Hs & Hok & Herr). destruct r as [a|e].
  - injection H as <- <-. split; [done|]. destruct (Hok a eq_refl) as (row & -> & Ha). eauto.
  - destruct (errors_Is e _) eqn:En; [|done]. injection H as <- <-. split; [done|]. by rewrite (Herr e eq_refl En).
Qed.

(** Parameters read nothing, and are not refused as a missing row. *)
Definition plain_params {A} (m : M Database A) : Prop := forall d,
  (m d).2 = d /\ forall e, (m d).1 = Err e -> errors_Is (mapError e) domain.ErrNotFound = false.

Lemma plain_ret {A} (a : A) : plain_params (ret a).
Proof. by split. Qed.
Lemma plain_uuid id : plain_params (uuid_param id).
Proof. intros d. unfold uuid_param. destruct (uuid_canon id); (split; [done|]); by intros e [= <-]. Qed.
Lemma plain_text ts : plain_params (text_params ts).
Proof. intros d. unfold text_params, guardM. destruct (negb _); (split; [done|]); by intros e [= <-]. Qed.
Lemma plain_bind {A B} (m : M Database A) (k : A -> M Database B) :
  plain_params m -> (forall a, plain_params (k a)) -> plain_params (bind m k).
Proof.
  intros Hm Hk d. destruct (Hm d) as [H1 H2]. unfold bind. destruct (m d) as [[a|e] d']; cbn in *; subst d'; [apply Hk|].
  split; [done|]. intros e' [= <-]. by apply H2.
Qed.

(** A query of one row. *)
Lemma query_run {A B} (params : M Database A) (rows : A -> Database -> list B) w r w' :
  plain_params params -> exec (T := Database) (let! a := params in query_row (rows a)) w = (r, w') ->
  same_db w w'
  /\ (forall x, r = Ok x -> exists a, params (w_db w) = (Ok a, w_db w) /\ head (rows a (w_db w)) = Some x)
  /\ (forall e, r = Err e -> errors_Is (mapError e) domain.ErrNotFound = true ->
       exists a, params (w_db w) = (Ok a, w_db w) /\ rows a (w_db w) = []).
Proof.
  intros Hp H. split_and!.
  - eapply preserves_run; [|exact H]. apply same_db_exec. intros d. apply bind_pure; [apply Hp|intros; apply query_row_pure].
  - intros x ->. apply exec_db_Ok in H as [H _]. apply bind_Ok in H as (a & d & H1 & [Hh _]%query_row_Ok).
    destruct (Hp (w_db w)) as [Hd _]. rewrite H1 in Hd. cbn in Hd. subst d. eauto.
  - intros e -> He. apply exec_db_Err in H as [[t ->]|[d H]]; [done|]. destruct (Hp (w_db w)) as [Hd Hn].
    apply bind_Err in H as [H|(a & d1 & H1 & H)].
    + rewrite H in Hn. by rewrite (Hn e eq_refl) in He.
    + rewrite H1 in Hd. cbn in Hd. subst d1. exists a. split; [done|]. unfold query_row in H. by destruct (rows a (w_db w)).
Qed.

Lemma text_params_Ok {S} ts (s : S) u s' : text_params ts s = (Ok u, s') -> s' = s.
Proof. by intros [_ ->]%guardM_Ok. Qed.

Lemma scan_module_found m e : scanModule m = Err e -> errors_Is e domain.ErrNotFound = false.
Proof.
  unfold scanModule. destruct (NewModuleName (module_Name m)) as [n|e'] eqn:E; [done|]. intros [= <-].
  unfold NewModuleName in E. cbv zeta in E. destruct (_ =? _)%string; [by injection E as <-|].
  destruct (negb _); [by injection E as <-|done].
Qed.

Lemma finds_module name :
  finds (Module_GetByName name) (fun d => List.filter (fun m => eqs (module_Name m) name) (db_modules d)) scanModule.
Proof.
  intros w r w' H. unfold Module_GetByName in H. apply bind_run in H as (r1 & w1 & H1 & H).
  unfold map_err in H1. destruct (exec _ w) as [r0 w0] eqn:E. injection H1 as <- <-.
  apply (query_run _ (fun _ d => List.filter (fun m => eqs (module_Name m) name) (db_modules d))) in E as (Hs & Hok & Herr);
    [|apply plain_text]. destruct r0 as [row|e].
  - injection H as <- <-. split; [done|]. destruct (Hok row eq_refl) as (_ & _ & ->). split; [eauto|].
    intros e He Hn. apply scan_module_found in He. by rewrite He in Hn.
  - destruct H as [-> ->]. split; [done|]. split; [done|]. intros e' [= <-] He. by destruct (Herr e eq_refl He) as (_ & _ & ->).
Qed.

Lemma finds_version_getOne {A} (params : M Database A) (rows : A -> Database -> list ModuleVersion)
    (rows' : Database -> list ModuleVersion) :
  plain_params params -> (forall d a, params d = (Ok a, d) -> rows a d = rows' d) ->
  finds (Version_getOne (let! a := params in query_row (rows a))) rows' scanModuleVersion.
Proof.
  intros Hp Hr w r w' H. unfold Version_getOne, map_err in H.
  destruct (bind _ _ w) as [r0 w0] eqn:E. injection H as <- <-. apply bind_run in E as (r1 & w1 & E & H).
  apply query_run in E as (Hs & Hok & Herr); [|done]. destruct r1 as [row|e].
  - injection H as <- <-. split; [done|]. destruct (Hok row eq_refl) as (a & Ha & Hh). rewrite <- (Hr _ _ Ha), Hh.
    destruct (scanModuleVersion row) as [v|e] eqn:E; [split; [|done]; intros v' [= <-]; eauto|].
    split; [done|]. intros e' [= <-] He. apply scan_version_found in E. by rewrite E in He.
  - destruct H as [-> ->]. split; [done|]. split; [done|]. intros e' [= <-] He.
    destruct (Herr e eq_refl He) as (a & Ha & Hh). by rewrite <- (Hr _ _ Ha).
Qed.

Lemma getOne_ext (m m' : M Database ModuleVersion) w :
  (forall d, m d = m' d) -> Version_getOne m w = Version_getOne m' w.
Proof.
  intros H. unfold Version_getOne, map_err, bind.
  change (exec m w) with (exec_db m w). change (exec m' w) with (exec_db m' w). unfold exec_db. by rewrite H.
Qed.

Lemma finds_version id c v :
  uuid_canon id = Some c ->
  finds (GetByModuleAndVersion id v)
    (fun d => List.filter (fun x => eqs (version_ModuleID x) c && eqs (version_Version x) v) (db_versions d))
    scanModuleVersion.
Proof.
  intros Hc w r w' H. unfold GetByModuleAndVersion in H.
  refine (finds_version_getOne (let! id := uuid_param id in let! _ := text_params [v] in ret id)
    (fun id d => List.filter (fun x => eqs (version_ModuleID x) id && eqs (version_Version x) v) (db_versions d))
    (fun d => List.filter (fun x => eqs (version_ModuleID x) c && eqs (version_Version x) v) (db_versions d)) _ _ w r w' _).
  - apply plain_bind; [apply plain_uuid|intros a]. apply plain_bind; [apply plain_text|intros _; apply plain_ret].
  - intros d a Ha. unfold uuid_param, bind in Ha. rewrite Hc in Ha. cbn in Ha. destruct (text_params [v] d) as [[]]; [|done].
    by injection Ha as <- _.
  - rewrite <- H. apply getOne_ext. intros d. unfold uuid_param. rewrite Hc. unfold bind, ret.
    by destruct (text_params [v] d) as [[]].
Qed.

Lemma finds_latest id c :
  uuid_canon id = Some c -> finds (GetLatestByModule id) (fun d => firstn 1 (module_versions c d)) scanModuleVersion.
Proof.
  intros Hc. apply finds_version_getOne; [apply plain_uuid|]. intros d a Ha. unfold uuid_param in Ha. rewrite Hc in Ha.
  by injection Ha as <-.
Qed.
End Lookups.

(** ** The catalogue of modules and versions *)

Record catalogue_ok `{PG : !Postgres} (d : Database) : Prop := mkCatalogueOk {
  ck_modules : forall m, m ∈ db_modules d -> canonical (module_ID m) /\ NewModuleName (module_Name m) = Ok (module_Name m);
  ck_module_ids : NoDup (map module_ID (db_modules d));
  ck_module_names : NoDup (map module_Name (db_modules d));
  ck_versions : forall v, v ∈ db_versions d ->
    canonical (version_ID v) /\ NewVersion (version_Version v) = Ok (version_Version v)
    /\ exists m, m ∈ db_modules d /\ module_ID m = version_ModuleID v;
  ck_version_ids : NoDup (map version_ID (db_versions d));
  ck_version_names : NoDup (map (fun v => (version_ModuleID v, version_Version v)) (db_versions d)) }.

(** ** Drift, as a function of the tables *)

Definition named_module (name : ModuleName) (d : Database) : option Module_ :=
  List.find (fun m => eqs (module_Name m) name) (db_modules d).
Definition named_version (id : ModuleID) (v : Version) (d : Database) : option ModuleVersion :=
  List.find (fun x => eqs (version_ModuleID x) id && eqs (version_Version x) v) (db_versions d).

(** What a usage of [v] is when [l] is the newest version of the module. *)
Definition drift (v l : ModuleVersion) : RuntimeDriftStatus * string :=
  if IsDeprecated v then (RuntimeDriftStatusDeprecatedVersion, DriftReasonDeprecated) else
  if eqs (version_ID v) (version_ID l) then (RuntimeDriftStatusUpToDate, DriftReasonUpToDate) else
  (RuntimeDriftStatusBehindLatest, DriftReasonBehindLatest +:+ ": latest version is " +:+ version_Version l).

Definition expected_usage (d : Database) (r : reportedModuleReference) : RuntimeModuleUsage :=
  match named_module (reference_ModuleName r) d with
  | None => resolved_usage r None None None RuntimeDriftStatusUnknownVersion DriftReasonModuleNotFound
  | Some m =>
      match named_version (module_ID m) (reference_Version r) d with
      | None => resolved_usage r (Some (module_ID m)) None None RuntimeDriftStatusUnknownVersion
                  DriftReasonVersionNotFound
      | Some v =>
          let newest := default v (head (module_versions (module_ID m) d)) in
          resolved_usage r (Some (module_ID m)) (Some (version_ID v)) (Some (version_Version newest))
            (drift v newest).1 (drift v newest).2
      end
  end.

Lemma head_filter {A} (p : A -> bool) (l : list A) : head (List.filter p l) = List.find p l.
Proof. induction l as [|x l IH]; [done|]. cbn. by destruct (p x). Qed.

Lemma newest_in id d v :
  v ∈ db_versions d -> version_ModuleID v = id ->
  exists l, head (module_versions id d) = Some l /\ l ∈ db_versions d /\ version_ModuleID l = id.
Proof.
  intros Hv Hm. unfold module_versions.
  set (rows := List.filter (fun v => eqs (version_ModuleID v) id) (db_versions d)).
  assert (Hin : v ∈ sort_by (newest_first version_CreatedAt) rows)
    by (apply elem_of_sort_by, elem_of_filter_bool; by rewrite Hm, eqs_refl).
  destruct (sort_by _ rows) as [|l ls] eqn:E; [set_solver|]. exists l. split; [done|].
  assert (Hl : l ∈ sort_by (newest_first version_CreatedAt) rows) by (rewrite E; by left).
  apply elem_of_sort_by, elem_of_filter_bool in Hl as [Hl ->%eqs_true]. done.
Qed.

Lemma scan_module_plain `{PG : !Postgres} m m' :
  canonical (module_ID m) -> scanModule m = Ok m' -> module_ID m' = module_ID m.
Proof.
  intros Hc H. unfold scanModule in H. destruct (NewModuleName _); [|done]. injection H as <-. by apply canonical_trim.
Qed.

Lemma scan_version_plain `{PG : !Postgres} d v v' :
  catalogue_ok d -> v ∈ db_versions d -> scanModuleVersion v = Ok v' ->
  version_ID v' = version_ID v /\ version_Version v' = version_Version v /\ IsDeprecated v' = IsDeprecated v.
Proof.
  intros Hok Hv H. destruct (ck_versions _ Hok v Hv) as (Hc & Hn & _). unfold scanModuleVersion in H. rewrite Hn in H.
  destruct (NewModuleVersionStatus _); [|done]. injection H as <-. split_and!; [by apply canonical_trim|done..].
Qed.

Section Resolve.
Context `{PG : !Postgres} `{ENV : !Env} `{HF : !HonestFaults}.

Lemma same_db_find_or_none {A} (m : M World A) : preserves same_db m -> preserves same_db (find_or_none m).
Proof. intros H. unfold find_or_none. repeat first [exact H|preserve_step]. Qed.

Lemma same_db_resolveRuntimeUsage r : preserves same_db (resolveRuntimeUsage r).
Proof. unfold resolveRuntimeUsage. repeat first [apply same_db_find_or_none; auto with go|preserve_step]. Qed.

(** The versions that are compared are those of the tables, and the second test
    for the latest version finds nothing the first does not. *)
Lemma resolveRuntimeUsage_Ok r w u w' :
  catalogue_ok (w_db w) -> resolveRuntimeUsage r w = (Ok u, w') -> u = expected_usage (w_db w) r.
Proof.
  intros Hok H. unfold resolveRuntimeUsage in H. unfold expected_usage, named_module, named_version.
  apply bind_Ok in H as (module & w1 & H1 & H). apply (finds_or_none _ _ _ _ _ _ (finds_module _)) in H1 as [[E1 _] H1].
  rewrite head_filter in H1. destruct (List.find _ (db_modules _)) as [m|] eqn:Em.
  2: { subst module. by injection H as <- _. }
  destruct H1 as (m' & -> & Hm). apply find_some_in in Em as [Hin _]. destruct (ck_modules _ Hok m Hin) as [Hc _].
  rewrite (scan_module_plain m m' Hc Hm) in H. apply bind_Ok in H as (version & w2 & H2 & H).
  apply (finds_or_none _ _ _ _ _ _ (finds_version _ _ _ Hc)) in H2 as [[E2 _] H2].
  rewrite head_filter, E1 in H2. destruct (List.find _ (db_versions _)) as [v|] eqn:Ev.
  2: { subst version. by injection H as <- _. }
  destruct H2 as (v' & -> & Hv). apply find_some_in in Ev as [Hvin [Evm%eqs_true Evn%eqs_true]%andb_true_iff].
  destruct (scan_version_plain _ v v' Hok Hvin Hv) as (Ei & En & Ed). rewrite Ei, En, Ed in H.
  apply bind_Ok in H as (latest & w3 & H3 & H).
  apply (finds_or_none _ _ _ _ _ _ (finds_latest _ _ Hc)) in H3 as [_ H3]. rewrite E2, E1 in H3.
  destruct (newest_in (module_ID m) _ v Hvin Evm) as (l & El & Hl & Elm).
  destruct (module_versions (module_ID m) (w_db w)) as [|x xs]; [done|]. injection El as ->. cbn in H3.
  destruct H3 as (l' & -> & Hl'). destruct (scan_version_plain _ l l' Hok Hl Hl') as (Li & Ln & _).
  cbn [fmap option_fmap option_map default id head] in H |- *. rewrite Li, Ln in H. unfold drift.
  destruct (IsDeprecated v); [by injection H as <- _|].
  assert (Eq : eqs (version_ID l) (version_ID v) || eqs (version_Version l) (version_Version v)
               = eqs (version_ID v) (version_ID l)).
  { destruct (eqs (version_ID v) (version_ID l)) eqn:E; [apply eqs_true in E as ->; by rewrite eqs_refl|].
    apply eqs_false in E. apply orb_false_iff. split; apply eqs_false; [congruence|]. intros Ee. apply E.
    f_equal. apply (NoDup_map_inj (fun v => (version_ModuleID v, version_Version v)) (db_versions (w_db w)));
      [apply (ck_version_names _ Hok)|done..|]. congruence. }
  rewrite Eq in H. by destruct (eqs _ _); injection H as <- _.
Qed.

(** *** Several references *)

Definition usage_columns (u : RuntimeModuleUsage) :=
  (usage_ModuleID u, usage_ModuleName u, usage_ModuleVersionID u, usage_Version u, usage_LatestVersion u,
   usage_DriftStatus u, usage_DriftReason u).

Definition reported_usage (d : Database) (deploymentID : RuntimeDeploymentID) (t : time)
    (r : reportedModuleReference) (u : RuntimeModuleUsage) : Prop :=
  usage_columns u = usage_columns (expected_usage d r) /\ usage_DeploymentID u = deploymentID /\ usage_CreatedAt u = t.

Lemma same_db_resolve_reference id t r : preserves same_db (resolve_reference id t r).
Proof.
  unfold resolve_reference, NewRuntimeModuleUsageID_.
  repeat first [apply same_db_resolveRuntimeUsage|solve [auto with go]|preserve_step].
Qed.

Lemma resolve_references_Ok id t refs w us w' :
  catalogue_ok (w_db w) -> mapM (resolve_reference id t) refs w = (Ok us, w') ->
  Forall2 (reported_usage (w_db w) id t) refs us.
Proof.
  revert w us w'. induction refs as [|r refs IH]; intros w us w' Hok H; cbn [mapM] in H; [injection H as <- _; constructor|].
  apply bind_Ok in H as (u & w1 & H1 & H). apply bind_Ok in H as (us' & w2 & H2 & [-> _]%ret_Ok).
  pose proof (preserves_run same_db _ _ _ _ (same_db_resolve_reference id t r) H1) as [E _].
  unfold resolve_reference in H1. apply bind_Ok in H1 as (u0 & w3 & H1 & H3).
  apply bind_Ok in H3 as (i & w4 & _ & [-> _]%ret_Ok).
  constructor; [|rewrite <- E; apply (IH w1 us' w2); [by rewrite E|done]].
  apply resolveRuntimeUsage_Ok in H1 as ->; [|done]. done.
Qed.
End Resolve.

(** ** The references of a report *)

Definition parse_reference (input : ReportedModuleInput) : result reportedModuleReference :=
  let? moduleName := NewModuleName (moduleInput_Module input) in
  let? version := NewVersion (moduleInput_Version input) in
  Ok (mkReportedReference moduleName version).

Definition valid_reference (r : reportedModuleReference) : Prop :=
  no_byte nul_byte (reference_ModuleName r) = true
  /\ NewModuleName (reference_ModuleName r) = Ok (reference_ModuleName r)
  /\ NewVersion (reference_Version r) = Ok (reference_Version r).

Lemma NewVersion_fixed value v : NewVersion value = Ok v -> NewVersion v = Ok v.
Proof.
  unfold NewVersion. destruct (TrimSpace value =? "")%string eqn:E; [done|]. intros [= <-]. by rewrite TrimSpace_idem, E.
Qed.

Lemma parse_reference_valid input r : parse_reference input = Ok r -> valid_reference r.
Proof.
  unfold parse_reference. destruct (NewModuleName _) as [n|] eqn:En; [|done]. destruct (NewVersion _) as [v|] eqn:Ev; [|done].
  intros [= <-]. apply NewModuleName_fixed in En. split_and!; [|done|by eapply NewVersion_fixed].
  apply NewModuleName_byte_exact in En as [_ En]. revert En. unfold no_byte. apply forallb_string_impl.
  intros a Ha. apply negb_true_iff, Ascii.eqb_neq. intros ->. done.
Qed.

Lemma before_byte_inj c a b a' b' :
  no_byte c a = true -> no_byte c a' = true -> a +:+ String c b = a' +:+ String c b' -> a = a' /\ b = b'.
Proof.
  revert a'. induction a as [|x a IH]; intros [|x' a'] H H' E; cbn in *.
  - by injection E.
  - injection E as -> _. by rewrite Ascii.eqb_refl in H'.
  - injection E as -> _. by rewrite Ascii.eqb_refl in H.
  - apply andb_true_iff in H as [_ H], H' as [_ H']. injection E as -> E. destruct (IH a' H H' E) as [-> ->]. done.
Qed.

Lemma reference_key_inj r1 r2 :
  valid_reference r1 -> valid_reference r2 -> reference_key r1 = reference_key r2 -> r1 = r2.
Proof.
  intros (H1 & _) (H2 & _) E. unfold reference_key in E. apply before_byte_inj in E as [E1 E2]; [|done..].
  destruct r1, r2. cbn in *. congruence.
Qed.

Lemma collect_references_Ok inputs seen refs0 refs :
  collect_references inputs seen refs0 = Ok refs ->
  (forall k, k ∈ seen <-> k ∈ map reference_key refs0) -> Forall valid_reference refs0 -> NoDup refs0 ->
  exists named, result_mapM parse_reference inputs = Ok named
    /\ Forall valid_reference refs /\ NoDup refs /\ forall r, r ∈ refs <-> r ∈ (refs0 ++ named)%list.
Proof.
  revert seen refs0. induction inputs as [|input inputs IH]; intros seen refs0 H Hseen Hv Hn.
  { injection H as <-. exists []. split_and!; [done..|]. intros r. by rewrite app_nil_r. }
  cbn [collect_references] in H. cbn [result_mapM].
  assert (Hp : exists r, parse_reference input = Ok r
    /\ (if bool_decide (reference_key r ∈ seen) then collect_references inputs seen refs0
        else collect_references inputs ({[reference_key r]} ∪ seen) (refs0 ++ [r])%list) = Ok refs).
  { unfold parse_reference. destruct (NewModuleName _); [|done]. destruct (NewVersion _); [|done]. by eexists. }
  clear H. destruct Hp as (r & Hr & H). rewrite Hr. pose proof (parse_reference_valid _ _ Hr) as Hrv.
  case_bool_decide as Hk.
  - destruct (IH _ _ H Hseen Hv Hn) as (named & -> & V & N & E). exists (r :: named). split_and!; [done..|].
    intros x. rewrite E, !elem_of_app, elem_of_cons. apply Hseen, list_elem_of_In, in_map_iff in Hk as (y & Ey & Hy%list_elem_of_In).
    assert (y = r) as -> by (apply reference_key_inj; [rewrite Forall_forall in Hv; auto|done..]). naive_solver.
  - destruct (IH _ _ H) as (named & -> & V & N & E).
    + intros k. rewrite map_app, elem_of_union, elem_of_app, Hseen, elem_of_singleton. cbn [map]. set_solver.
    + apply Forall_app. by split; [|constructor].
    + apply NoDup_app. split; [done|]. split; [|apply NoDup_singleton]. intros x Hx ->%list_elem_of_singleton.
      apply Hk, Hseen, list_elem_of_In, in_map, list_elem_of_In, Hx.
    + exists (r :: named). split_and!; [done..|]. intros x. rewrite E. set_solver.
Qed.

(** Each pair of a module and a version once. *)
Lemma reportedModuleReferences_Ok inputs refs :
  reportedModuleReferences inputs = Ok refs ->
  exists named, result_mapM parse_reference inputs = Ok named
    /\ Forall valid_reference refs /\ NoDup refs /\ (forall r, r ∈ refs <-> r ∈ named) /\ refs <> [].
Proof.
  unfold reportedModuleReferences. destruct (length inputs =? 0)%nat; [done|].
  destruct (collect_references inputs ∅ []) as [refs'|] eqn:E; [|done].
  apply collect_references_Ok in E as (named & H1 & H2 & H3 & H4); [| |constructor|constructor].
  - destruct refs' as [|r refs']; [done|]. intros [= <-]. exists named. by split_and!.
  - intros k. cbn. set_solver.
Qed.

(** ** The rows of a report *)

(** The row [x] of the service called [name], among the rows after the report:
    the old one with a new time of update, or a new one. *)
Definition upserted `{PG : !Postgres} (name : RuntimeServiceName) (services services' : list RuntimeService)
    (x : RuntimeService) : Prop :=
  let named := fun s => eqs (service_Name s) name in
  service_Name x = name
  /\ ((exists y t, List.find named services = Some y /\ x = set_service_UpdatedAt t y
         /\ services' = update_where named (set_service_UpdatedAt t) services)
      \/ (List.find named services = None /\ canonical (service_ID x)
          /\ (forall y, y ∈ services -> service_ID y <> service_ID x) /\ services' = (services ++ [x])%list)).

Definition opt_canon `{PG : !Postgres} (o o' : option string) : Prop :=
  match o with Some i => exists j, uuid_canon i = Some j /\ o' = Some j | None => o' = None end.

Definition usage_stored `{PG : !Postgres} (u row : RuntimeModuleUsage) : Prop :=
  uuid_canon (usage_ID u) = Some (usage_ID row)
  /\ uuid_canon (usage_DeploymentID u) = Some (usage_DeploymentID row)
  /\ opt_canon (usage_ModuleID u) (usage_ModuleID row)
  /\ opt_canon (usage_ModuleVersionID u) (usage_ModuleVersionID row)
  /\ (usage_ModuleName row, usage_Version row, usage_DriftStatus row, usage_DriftReason row)
     = (usage_ModuleName u, usage_Version u, usage_DriftStatus u, usage_DriftReason u).

Definition inventory_db (d : Database) (services : list RuntimeService) (deployment : RuntimeDeployment)
    (usages : list RuntimeModuleUsage) : Database :=
  set_catalog (fun c => set_usages (fun l => l ++ usages)%list
    (set_deployments (fun l => l ++ [deployment])%list (set_services (fun _ => services) c))) d.

Section Store.
Context `{PG : !Postgres} `{ENV : !Env}.

Lemma UpsertRuntimeServiceByName_Ok s w y w' :
  NewRuntimeServiceName (service_Name s) = Ok (service_Name s) -> UpsertRuntimeServiceByName s w = (Ok y, w') ->
  exists x services', upserted (service_Name s) (ct_services (db_catalog (w_db w))) services' x
    /\ service_ID y = TrimSpace (service_ID x) /\ service_Name y = service_Name s /\ w_tx w' = w_tx w
    /\ w_db w' = set_catalog (set_services (fun _ => services')) (w_db w).
Proof.
  intros Hn H. unfold UpsertRuntimeServiceByName in H.
  apply bind_Ok in H as (t1 & w1 & [[E1 X1] _]%timeOrNow_Ok & H).
  apply bind_Ok in H as (t2 & w2 & [[E2 X2] _]%timeOrNow_Ok & H). rewrite <- E1, <- E2, <- X1, <- X2. clear E1 E2 X1 X2.
  unfold getRuntimeService in H. apply map_err_Ok, bind_Ok in H as (x & w3 & H & [Hs ->]%lift_Ok).
  assert (Hx : service_Name x = service_Name s ->
    service_ID y = TrimSpace (service_ID x) /\ service_Name y = service_Name s).
  { intros En. unfold scanRuntimeService in Hs. rewrite En, Hn in Hs. by injection Hs as <-. }
  clear Hs. apply exec_db_Ok in H as [H Htx]. unfold upsert_service_stmt in H.
  apply bind_Ok in H as (i & d1 & [Hi ->]%uuid_param_Ok & H). apply bind_Ok in H as (u & d2 & [_ ->]%guardM_Ok & H).
  apply bind_Ok in H as (d & d3 & [-> ->]%gets_Ok & H).
  destruct (List.find _ _) as [z|] eqn:Ez.
  - apply bind_Ok in H as (u1 & d4 & Hm%modify_Ok & [-> Hd]%ret_Ok). subst d4.
    pose proof (find_some_in _ _ _ Ez) as [_ Hz%eqs_true].
    eexists (set_service_UpdatedAt t2 z), _. split; [split; [exact Hz|left; exists z, t2; split_and!; [exact Ez|reflexivity|reflexivity]]|].
    destruct (Hx Hz). by split_and!.
  - apply bind_Ok in H as (u1 & d4 & [-> Hc]%append_checks_Ok & H). simpl in Hc. decompose_Forall_hyps.
    apply bind_Ok in H as (u2 & d4 & Hm%modify_Ok & [-> Hd]%ret_Ok). subst d4.
    eexists (mkRuntimeService i (service_Name s) t1 t2), _. split; [split; [done|right]|].
    { split_and!; [done|by eapply canonical_of| |done]. by apply existsb_eqs_false. }
    destruct Hx; [done|]. by split_and!.
Qed.

Lemma CreateRuntimeDeployment_Ok x w u w' :
  CreateRuntimeDeployment x w = (Ok u, w') ->
  exists i sid t, uuid_canon (deployment_ID x) = Some i /\ uuid_canon (deployment_ServiceID x) = Some sid
    /\ (forall y, y ∈ ct_deployments (db_catalog (w_db w)) -> deployment_ID y <> i) /\ w_tx w' = w_tx w
    /\ w_db w' = set_catalog (set_deployments (fun l => l ++ [deployment_row i sid x t])%list) (w_db w).
Proof.
  intros H. unfold CreateRuntimeDeployment in H. apply bind_Ok in H as (t & w1 & [[E1 E2] _]%timeOrNow_Ok & H).
  rewrite <- E1, <- E2. stmt_inv H. do 3 eexists. split_and!; eauto using existsb_eqs_false.
Qed.

Lemma createRuntimeModuleUsage_Ok x w u w' :
  createRuntimeModuleUsage x w = (Ok u, w') ->
  exists row, usage_stored x row /\ w_tx w' = w_tx w
    /\ w_db w' = set_catalog (set_usages (fun l => l ++ [row])%list) (w_db w).
Proof.
  intros H. unfold createRuntimeModuleUsage in H. apply bind_Ok in H as (t & w1 & [[E1 E2] _]%timeOrNow_Ok & H).
  rewrite <- E1, <- E2. stmt_inv H. eexists. split; [|by split]. by split_and!.
Qed.

Lemma CreateRuntimeModuleUsages_Ok xs w u w' :
  w_tx w = true -> CreateRuntimeModuleUsages xs w = (Ok u, w') ->
  exists rows, Forall2 usage_stored xs rows /\ w_tx w' = w_tx w
    /\ w_db w' = set_catalog (set_usages (fun l => l ++ rows)%list) (w_db w).
Proof.
  intros Htx H. unfold CreateRuntimeModuleUsages in H. rewrite WithinTransaction_nested in H by done.
  apply (forM_rows _ usage_stored (fun rows => set_catalog (set_usages (fun l => l ++ rows)%list))) in H; [done| | |].
  - intros [? ? ? ? ? ? ? ? ? ? ? []]. unfold set_catalog, set_usages. cbn. by rewrite app_nil_r.
  - intros l r [? ? ? ? ? ? ? ? ? ? ? []]. unfold set_catalog, set_usages. cbn. by rewrite <- app_assoc.
  - intros x w0 u0 w0'. apply createRuntimeModuleUsage_Ok.
Qed.

(** What the transaction of a report leaves. *)
Definition report_stored (service : RuntimeService) (deployment : RuntimeDeployment)
    (usages : list RuntimeModuleUsage) (d d' : Database) : Prop :=
  exists x services sid i t rows,
    upserted (service_Name service) (ct_services (db_catalog d)) services x
    /\ uuid_canon (TrimSpace (service_ID x)) = Some sid
    /\ uuid_canon (deployment_ID deployment) = Some i
    /\ (forall y, y ∈ ct_deployments (db_catalog d) -> deployment_ID y <> i)
    /\ Forall2 usage_stored usages rows
    /\ event_written EventTypeRuntimeInventoryReported
         (inventory_db d services (deployment_row i sid deployment t) rows) d'.

Lemma store_report_Ok service deployment usages reportedAt w u w' :
  w_tx w = true -> NewRuntimeServiceName (service_Name service) = Ok (service_Name service) ->
  store_report service deployment usages reportedAt w = (Ok u, w') ->
  report_stored service deployment usages (w_db w) (w_db w').
Proof.
  intros Htx Hn H. unfold store_report in H. apply bind_Ok in H as (s & w1 & H1 & H).
  apply UpsertRuntimeServiceByName_Ok in H1 as (x & services & Hup & Hi & Hsn & T1 & E1); [|done].
  apply bind_Ok in H as (u1 & w2 & H2 & H). apply CreateRuntimeDeployment_Ok in H2 as (i & sid & t & Hd & Hs & Hf & T2 & E2).
  apply bind_Ok in H as (u2 & w3 & H3 & H). apply CreateRuntimeModuleUsages_Ok in H3 as (rows & Hr & T3 & E3); [|congruence].
  apply write_outbox_event with (eventType := EventTypeRuntimeInventoryReported) in H as [He _].
  2: { intros r Hrec. unfold NewRuntimeInventoryReported in Hrec. by apply event_record_type in Hrec. }
  exists x, services, sid, i, t, rows. cbn [deployment_ID deployment_ServiceID] in Hd, Hs. rewrite Hi in Hs.
  rewrite E1 in Hf. split_and!; [done..|]. by rewrite E3, E2, E1 in He.
Qed.
End Store.

(** ** The report *)

Definition status_count (status : RuntimeDriftStatus) (us : list RuntimeModuleUsage) : Z :=
  count_in (fun u => eqs (usage_DriftStatus u) status) us.

Lemma drift_counts_eq us :
  drift_counts us = mkCounts (status_count RuntimeDriftStatusUpToDate us) (status_count RuntimeDriftStatusBehindLatest us)
                      (status_count RuntimeDriftStatusUnknownVersion us)
                      (status_count RuntimeDriftStatusDeprecatedVersion us).
Proof.
  unfold drift_counts.
  assert (G : forall c, fold_left (fun counts u => counts_Add counts (usage_DriftStatus u)) us c
    = mkCounts (counts_UpToDate c + status_count RuntimeDriftStatusUpToDate us)
        (counts_BehindLatest c + status_count RuntimeDriftStatusBehindLatest us)
        (counts_UnknownVersion c + status_count RuntimeDriftStatusUnknownVersion us)
        (counts_DeprecatedVersion c + status_count RuntimeDriftStatusDeprecatedVersion us)).
  { induction us as [|u us IH]; intros [a b n x]; cbn [fold_left];
      [cbn; unfold status_count, count_in, llen; cbn; f_equal; lia|].
    rewrite IH. unfold status_count, count_in, llen. cbn [List.filter counts_Add].
    destruct (eqs (usage_DriftStatus u) RuntimeDriftStatusUpToDate) eqn:E1.
    { apply eqs_true in E1. rewrite E1. cbn -[Z.of_nat]. f_equal; lia. }
    destruct (eqs (usage_DriftStatus u) RuntimeDriftStatusBehindLatest) eqn:E2.
    { apply eqs_true in E2. rewrite E2. cbn -[Z.of_nat]. f_equal; lia. }
    destruct (eqs (usage_DriftStatus u) RuntimeDriftStatusUnknownVersion) eqn:E3.
    { apply eqs_true in E3. rewrite E3. cbn -[Z.of_nat]. f_equal; lia. }
    destruct (eqs (usage_DriftStatus u) RuntimeDriftStatusDeprecatedVersion) eqn:E4; cbn -[Z.of_nat]; f_equal; lia. }
  by rewrite G.
Qed.

Lemma NewRuntimeServiceName_fixed value n : NewRuntimeServiceName value = Ok n -> NewRuntimeServiceName n = Ok n.
Proof.
  unfold NewRuntimeServiceName. destruct (_ || _) eqn:E; [done|]. destruct (negb _) eqn:F; [done|].
  intros [= <-]. by rewrite TrimSpace_idem, E, F.
Qed.
Lemma NewRuntimeEnvironment_fixed value n : NewRuntimeEnvironment value = Ok n -> NewRuntimeEnvironment n = Ok n.
Proof.
  unfold NewRuntimeEnvironment. destruct (_ || _) eqn:E; [done|]. destruct (negb _) eqn:F; [done|].
  intros [= <-]. by rewrite TrimSpace_idem, E, F.
Qed.

(** What the answer to a report says. *)
Record answers (input : ReportRuntimeInventoryInput) (d : Database) (refs : list reportedModuleReference)
    (out : ReportRuntimeInventoryOutput) : Prop := mkAnswers {
  ans_service : NewRuntimeServiceName (reportInput_ServiceName input) = Ok (reportOutput_ServiceName out);
  ans_environment : NewRuntimeEnvironment (reportInput_Environment input) = Ok (reportOutput_Environment out);
  ans_commit : reportOutput_GitCommit out = TrimSpace (reportInput_GitCommit input);
  ans_build : reportOutput_BuildVersion out = TrimSpace (reportInput_BuildVersion input);
  ans_time : forall t, reportInput_ReportedAt input = Some t -> reportOutput_ReportedAt out = t;
  ans_references : reportedModuleReferences (reportInput_Modules input) = Ok refs;
  ans_usages : reportOutput_Usages out = map (fun r => runtimeUsageOutput (expected_usage d r)) refs;
  ans_counts : reportOutput_DriftCounts out =
    let us := map (expected_usage d) refs in
    mkCounts (status_count RuntimeDriftStatusUpToDate us) (status_count RuntimeDriftStatusBehindLatest us)
      (status_count RuntimeDriftStatusUnknownVersion us) (status_count RuntimeDriftStatusDeprecatedVersion us) }.

(** A report that was stored: the answer, the usages and the rows. *)
Definition report_made `{PG : !Postgres} (input : ReportRuntimeInventoryInput) (refs : list reportedModuleReference)
    (out : ReportRuntimeInventoryOutput) (d d' : Database) : Prop :=
  let t := reportOutput_ReportedAt out in
  let name := reportOutput_ServiceName out in
  exists serviceID usages,
    Forall2 (reported_usage d (reportOutput_DeploymentID out) t) refs usages
    /\ report_stored (mkRuntimeService serviceID name t t)
         (mkRuntimeDeployment (reportOutput_DeploymentID out) serviceID name (reportOutput_Environment out)
            (reportOutput_GitCommit out) (reportOutput_BuildVersion out) t t) usages d d'.

Lemma reported_usages_map `{PG : !Postgres} d i t refs us :
  Forall2 (reported_usage d i t) refs us ->
  map usage_columns us = map (fun r => usage_columns (expected_usage d r)) refs.
Proof. induction 1 as [|r u refs us (E & _) _ IH]; [done|]. cbn. by rewrite E, IH. Qed.

Lemma map_columns {B} (f : RuntimeModuleUsage -> B) us us' :
  (forall u u', usage_columns u = usage_columns u' -> f u = f u') ->
  map usage_columns us = map usage_columns us' -> map f us = map f us'.
Proof.
  intros Hf. revert us'. induction us as [|u us IH]; intros [|u' us'] E; try done.
  cbn in E. injection E as E1 E2 E3 E4 E5 E6 E7 E. cbn. rewrite (IH us' E). f_equal. apply Hf. unfold usage_columns. congruence.
Qed.

Lemma status_count_map status us us' :
  map usage_DriftStatus us = map usage_DriftStatus us' -> status_count status us = status_count status us'.
Proof.
  unfold status_count, count_in, llen. intros E. f_equal. revert us' E.
  induction us as [|u us IH]; intros [|u' us'] E; try done. cbn in E. injection E as E1 E. cbn. rewrite E1.
  destruct (eqs _ status); cbn; by rewrite (IH us' E).
Qed.

Section Report.
Context `{PG : !Postgres} `{ENV : !Env} `{HF : !HonestFaults}.

Lemma same_db_NewRuntimeServiceID : preserves same_db NewRuntimeServiceID_.
Proof. unfold NewRuntimeServiceID_. preserve. Qed.
Lemma same_db_NewRuntimeDeploymentID : preserves same_db NewRuntimeDeploymentID_.
Proof. unfold NewRuntimeDeploymentID_. preserve. Qed.

Lemma Report_outcome input w r w' :
  w_tx w = false -> catalogue_ok (w_db w) -> ReportRuntimeInventory input w = (r, w') ->
  failed w r w'
  \/ (w_tx w' = false /\ exists refs out, answers input (w_db w) refs out
        /\ report_made input refs out (w_db w) (w_db w')
        /\ (r = Ok out \/ (exists e, r = Err e) /\ unacknowledged)).
Proof.
  intros Htx Hok H. unfold ReportRuntimeInventory in H.
  assert (F : forall e w1, same_db w w1 -> r = Err e /\ w' = w1 -> failed w r w').
  { intros e w1 [E1 T1] [-> ->]. split_and!; [congruence|by exists e|done]. }
  apply bind_run in H as (r1 & w1 & H1 & H). injection H1 as <- <-.
  destruct (NewRuntimeServiceName _) as [name|e] eqn:En; [|left; eapply F; [|exact H]; done].
  apply bind_run in H as (r1 & w1 & H1 & H). injection H1 as <- <-.
  destruct (NewRuntimeEnvironment _) as [env|e] eqn:Ee; [|left; eapply F; [|exact H]; done].
  apply bind_run in H as (r1 & w1 & H1 & H). injection H1 as <- <-.
  destruct (ValidateRuntimeGitCommit _) as [[]|e]; [|left; eapply F; [|exact H]; done].
  apply bind_run in H as (r1 & w1 & H1 & H). injection H1 as <- <-.
  destruct (ValidateRuntimeBuildVersion _) as [[]|e]; [|left; eapply F; [|exact H]; done].
  apply bind_run in H as (r1 & w1 & H1 & H). injection H1 as <- <-. set (t := default _ _) in H.
  assert (Ht : forall t0, reportInput_ReportedAt input = Some t0 -> t = t0) by (intros t0 E; subst t; by rewrite E).
  clearbody t. apply bind_run in H as (r1 & w1 & H1 & H). injection H1 as <- <-.
  destruct (reportedModuleReferences _) as [refs|e] eqn:Er; [|left; eapply F; [|exact H]; done].
  apply bind_run in H as (r1 & w1 & H1 & H).
  assert (S1 : same_db w w1) by (change (same_db (tick w) w1); exact (preserves_run same_db _ _ _ _ same_db_NewRuntimeServiceID H1)).
  destruct r1 as [serviceID|e]; [|left; eapply F; [|exact H]; done]. clear H1.
  apply bind_run in H as (r1 & w2 & H1 & H).
  assert (S2 : same_db w w2) by (etrans; [exact S1|exact (preserves_run same_db _ _ _ _ same_db_NewRuntimeDeploymentID H1)]).
  destruct r1 as [deploymentID|e]; [|left; eapply F; [|exact H]; done]. clear H1.
  apply bind_run in H as (r1 & w3 & H1 & H).
  assert (S3 : same_db w w3).
  { etrans; [exact S2|]. refine (preserves_run same_db _ _ _ _ _ H1). apply preserves_mapM; [apply _|].
    intros; apply same_db_resolve_reference. }
  destruct r1 as [usages|e]; [|left; eapply F; [|exact H]; done].
  destruct S2 as [E2 _]. destruct S3 as [E3 T3].
  apply resolve_references_Ok in H1; [|by rewrite E2]. rewrite E2 in H1.
  apply bind_run in H as (r1 & w4 & H2 & H). apply WithinTransaction_cases in H2; [|congruence].
  destruct H2 as [T4 [[[e ->] E4]|(u & w5 & H2 & E4 & Hr)]].
  { left. destruct H as [-> ->]. split_and!; [done|by exists e|congruence]. }
  right. apply store_report_Ok in H2; [|done|by eapply NewRuntimeServiceName_fixed]. cbn [w_db tick] in H2. rewrite E3, <- E4 in H2.
  set (out := mkReportOutput deploymentID name env _ _ t _ _) in H.
  assert (Ha : answers input (w_db w) refs out).
  { pose proof (reported_usages_map _ _ _ _ _ H1) as Hc. rewrite <- (map_map (expected_usage (w_db w)) usage_columns) in Hc.
    constructor; try done; unfold out; cbn.
    - rewrite <- (map_map (expected_usage (w_db w)) runtimeUsageOutput). revert Hc. apply map_columns. intros u1 u2 E. unfold usage_columns in E. injection E as E1 E5 E6 E7 E8 E9 E10.
      unfold runtimeUsageOutput. congruence.
    - apply (map_columns usage_DriftStatus) in Hc; [|intros u1 u2 E; unfold usage_columns in E; congruence].
      rewrite drift_counts_eq. f_equal; by apply status_count_map. }
  destruct r1 as [u'|e].
  - injection H as <- <-. split; [done|]. exists refs, out. split_and!; [done|by exists serviceID, usages|by left].
  - destruct H as [-> ->]. split; [done|]. exists refs, out. split_and!; [done|by exists serviceID, usages|].
    destruct Hr as [?|[_ Hu]]; [done|]. right. split; [by exists e|done].
Qed.
End Report.
