(* ===== verification/RegistryInvariant.v ===== *)
(** * Every artifact has its object

    The registry as a sequence of requests: each artifact row of the database
    belongs to a version and has its key, and as long as requests come one after
    the other and no commit is lost on the way back it refers to an object of the
    store with its checksum and its size.  Without either, the clean-up of a failed
    publication takes the objects of a version that is published. *)

From S2P Require Import Prelude Errors GoStrings JsonScan Domain Json Effects Postgres Outbox Events Tables World GovernanceStore UseCase CatalogStore DescriptorStore DependencyStore DependencyGraph Identity Archive Storage Registry RegistrySafety RegistryOperations.

Open Scope string_scope.
Open Scope Z_scope.

(** ** What the invariant assumes of the environment *)

(** A checksum is hexadecimal. *)
Class HostLaws `{HOST : !Host} := {
  checksum_part s : key_part (sha256_hex s);
  checksum_trim s : TrimSpace (sha256_hex s) = sha256_hex s }.
#[global] Hint Mode HostLaws - : typeclass_instances.

(** ** Keys of a version *)

Definition checksum_ok (sum : string) : Prop := key_part sum /\ TrimSpace sum = sum.

Definition own_key (name : ModuleName) (v : Version) (k : string) : Prop :=
  exists sum, checksum_ok sum /\ (k = BuildSourceArchiveKey name v sum \/ k = BuildBufImageKey name v sum).

Lemma own_key_shape name v k :
  own_key name v k -> exists dir file, key_part dir /\ key_part file
    /\ k = "modules/" +:+ name +:+ "/versions/" +:+ v +:+ "/" +:+ dir +:+ "/" +:+ file.
Proof.
  intros (sum & [Hp Ht] & [->| ->]).
  - exists "source", ("sha256-" +:+ sum +:+ ".tar.gz"). split_and!; [done| |].
    + unfold key_part in *. rewrite !no_byte_app, Hp. done.
    + unfold BuildSourceArchiveKey. by rewrite Ht.
  - exists "buf-image", ("sha256-" +:+ sum +:+ ".binpb"). split_and!; [done| |].
    + unfold key_part in *. rewrite !no_byte_app, Hp. done.
    + unfold BuildBufImageKey. by rewrite Ht.
Qed.

Lemma own_key_inj n1 v1 n2 v2 k :
  key_part n1 -> key_part n2 -> own_key n1 v1 k -> own_key n2 v2 k -> n1 = n2 /\ v1 = v2.
Proof.
  intros P1 P2 (d1 & f1 & D1 & F1 & ->)%own_key_shape (d2 & f2 & D2 & F2 & E)%own_key_shape.
  apply key_inj in E as (-> & -> & _); done.
Qed.

Lemma keys_differ name v s1 s2 :
  checksum_ok s1 -> checksum_ok s2 -> key_part name -> BuildSourceArchiveKey name v s1 <> BuildBufImageKey name v s2.
Proof.
  intros [P1 T1] [P2 T2] Hn E. unfold BuildSourceArchiveKey, BuildBufImageKey in E. rewrite T1, T2 in E.
  apply (key_inj name name v v "source" "buf-image" ("sha256-" +:+ s1 +:+ ".tar.gz") ("sha256-" +:+ s2 +:+ ".binpb"))
    in E as (_ & _ & E & _); try done; unfold key_part in *; rewrite !no_byte_app, ?P1, ?P2; done.
Qed.

(** A valid name is part of a key. *)
Lemma module_name_part value name : NewModuleName value = Ok name -> key_part name.
Proof.
  intros H%NewModuleName_fixed. apply NewModuleName_byte_exact in H as [_ H]. revert H. unfold key_part, no_byte.
  apply forallb_string_impl. intros a Ha. apply negb_true_iff, Ascii.eqb_neq. intros ->. done.
Qed.

(** ** The invariant *)

Section Invariant.
Context `{PG : !Postgres} `{ENV : !Env} `{HOST : !Host}.

Definition stored (objs : gmap string string) (a : Artifact) : Prop :=
  exists body, objs !! artifact_StorageKey a = Some body
    /\ sha256_hex body = artifact_ChecksumSHA256 a /\ len body = artifact_SizeBytes a.

(** The version of an artifact and its module, whose names are in its key. *)
Definition placed (d : Database) (a : Artifact) : Prop :=
  exists v m, v ∈ db_versions d /\ m ∈ db_modules d
    /\ artifact_ModuleVersionID a = version_ID v /\ version_ModuleID v = module_ID m
    /\ own_key (module_Name m) (version_Version v) (artifact_StorageKey a).

(** The objects are only kept where no commit was applied without being
    acknowledged. *)
Record stored_ok (d : Database) (objs : gmap string string) : Prop := mkStoredOk {
  so_modules : forall m, m ∈ db_modules d -> canonical (module_ID m) /\ key_part (module_Name m);
  so_names : forall m1 m2, m1 ∈ db_modules d -> m2 ∈ db_modules d -> module_Name m1 = module_Name m2 ->
    module_ID m1 = module_ID m2;
  so_placed : forall a, a ∈ ct_artifacts (db_catalog d) -> placed d a;
  so_stored : ~ unacknowledged -> forall a, a ∈ ct_artifacts (db_catalog d) -> stored objs a }.

Definition registry_ok (s : Registry) : Prop :=
  w_tx (rg_world s) = false /\ stored_ok (w_db (rg_world s)) (objects s).

Definition same_version (v v' : ModuleVersion) : Prop :=
  version_ID v' = version_ID v /\ version_ModuleID v' = version_ModuleID v /\ version_Version v' = version_Version v.

(** Operations that neither add artifacts nor touch their objects. *)
Lemma stored_ok_keep d d' objs objs' :
  stored_ok d objs -> db_modules d' = db_modules d ->
  ct_artifacts (db_catalog d') = ct_artifacts (db_catalog d) ->
  (forall v, v ∈ db_versions d -> exists v', v' ∈ db_versions d' /\ same_version v v') ->
  (~ unacknowledged -> forall a, a ∈ ct_artifacts (db_catalog d) -> objs' !! artifact_StorageKey a = objs !! artifact_StorageKey a) ->
  stored_ok d' objs'.
Proof.
  intros [H1 H2 H3 H4] Em Ea Hv Ho. constructor; rewrite ?Em, ?Ea; [done..| |].
  - intros a Ha. destruct (H3 a Ha) as (v & m & Hin & Hm & E1 & E2 & Hk).
    destruct (Hv v Hin) as (v' & Hin' & I & M & V). exists v', m. rewrite Em, I, M, V. by split_and!.
  - intros Hu a Ha. destruct (H4 Hu a Ha) as (body & Hb & Hs). exists body. by rewrite Ho.
Qed.

Lemma stored_ok_same d objs d' :
  stored_ok d objs -> db_modules d' = db_modules d -> db_versions d' = db_versions d ->
  ct_artifacts (db_catalog d') = ct_artifacts (db_catalog d) -> stored_ok d' objs.
Proof.
  intros H Em Ev Ea. apply (stored_ok_keep d d' objs objs H Em Ea); [|done].
  intros v Hv. exists v. rewrite Ev. by split.
Qed.
End Invariant.

(** ** Each operation *)

Section Steps.
Context `{PG : !Postgres} `{ENV : !Env} `{CR : !Crypto} `{SYS : !OS} `{STORE : !ArtifactStore} `{HOST : !Host}.
Context `{LAWS : !ArtifactStoreLaws} `{HONEST : !HonestFaults} `{HL : !HostLaws}.

(** *** Publication *)

(** The runtime inventory, which the registry leaves alone. *)
Definition inventory_of (d : Database) : list RuntimeService * list RuntimeDeployment * list RuntimeModuleUsage :=
  (ct_services (db_catalog d), ct_deployments (db_catalog d), ct_usages (db_catalog d)).

(** What a publication does to the tables of the invariant. *)
Lemma published_tables svc module v a1 a2 bufResult d d' :
  published svc module v a1 a2 bufResult d d' ->
  exists vid mid i1 i2,
    uuid_canon (version_ModuleID v) = Some mid
    /\ (exists m, m ∈ db_modules d /\ module_ID m = mid)
    /\ canonical vid
    /\ (forall x, x ∈ db_versions d ->
          version_ID x <> vid /\ (version_ModuleID x = mid -> version_Version x <> version_Version v))
    /\ inventory_of d' = inventory_of d
    /\ db_modules d' = db_modules d
    /\ db_versions d' = (db_versions d ++ [version_row vid mid v])%list
    /\ ct_artifacts (db_catalog d') = (ct_artifacts (db_catalog d) ++
         [mkArtifact i1 vid (artifact_Kind a1) (artifact_StorageKey a1) (artifact_ChecksumSHA256 a1)
            (artifact_SizeBytes a1) (artifact_CreatedAt a1);
          mkArtifact i2 vid (artifact_Kind a2) (artifact_StorageKey a2) (artifact_ChecksumSHA256 a2)
            (artifact_SizeBytes a2) (artifact_CreatedAt a2)])%list.
Proof.
  intros (d1 & d2 & d3 & d4 & (vid & mid & i1 & i2 & Hv & Hm & _ & _ & Hmod & Hf & ->) & Hc & Hd & Hg & He).
  destruct Hc as (? & ? & ? & _ & -> & _). destruct Hd as (? & _ & -> & _).
  exists vid, mid, i1, i2. split; [done|]. split; [done|]. split; [by eapply canonical_of|]. split; [done|].
  destruct He as (row & _ & _ & ->).
  destruct (svc_dependencies svc); [|by subst d4].
  by destruct Hg as (? & ? & ? & ? & ? & ? & ? & ? & ? & _ & _ & _ & _ & _ & _ & _ & _ & ->).
Qed.

(** What the checks of a publication found. *)
Lemma publish_checks_Ok name versionValue w module w1 :
  publish_checks name versionValue w = (Ok module, w1) ->
  exists row, row ∈ db_modules (w_db w) /\ module_Name row = name /\ module_ID module = TrimSpace (module_ID row)
    /\ forall c, uuid_canon (module_ID module) = Some c ->
         forall v, v ∈ db_versions (w_db w) -> version_ModuleID v = c -> version_Version v <> versionValue.
Proof.
  intros H. unfold publish_checks in H. apply bind_Ok in H as (m & w2 & H1%map_err_Ok & H).
  pose proof (preserves_run same_db _ _ _ _ (same_db_Module_GetByName name) H1) as [E1 _].
  apply Module_GetByName_Ok in H1 as (row & Hrow & Hn & Hid & _).
  apply bind_Ok in H as (found & w3 & H2%try_Ok_inv & H). destruct found as [|e]; [done|].
  destruct (errors_Is e domain.ErrNotFound) eqn:He; [|done]. injection H as -> _.
  exists row. split_and!; [done..|]. intros c Hc. rewrite <- E1. by eapply version_absent.
Qed.

(** No artifact has a key of a version that is not there. *)
Lemma no_own_key d objs row name versionValue k a :
  stored_ok d objs -> row ∈ db_modules d -> module_Name row = name ->
  (forall v, v ∈ db_versions d -> version_ModuleID v = module_ID row -> version_Version v <> versionValue) ->
  own_key name versionValue k -> a ∈ ct_artifacts (db_catalog d) -> artifact_StorageKey a <> k.
Proof.
  intros Hok Hrow <- Habs Hk Ha E. destruct (so_placed _ _ Hok a Ha) as (v & m & Hv & Hm & _ & Em & Hk').
  rewrite E in Hk'. destruct (so_modules _ _ Hok m Hm) as [_ Pm]. destruct (so_modules _ _ Hok row Hrow) as [_ Pr].
  destruct (own_key_inj _ _ _ _ _ Pm Pr Hk' Hk) as [En Ev].
  apply (Habs v Hv); [|done]. rewrite Em. by apply (so_names _ _ Hok).
Qed.

Lemma own_source name v body : own_key name v (BuildSourceArchiveKey name v (sha256_hex body)).
Proof. exists (sha256_hex body). split; [split; [apply checksum_part|apply checksum_trim]|by left]. Qed.
Lemma own_image name v body : own_key name v (BuildBufImageKey name v (sha256_hex body)).
Proof. exists (sha256_hex body). split; [split; [apply checksum_part|apply checksum_trim]|by right]. Qed.

(** A published version with its objects. *)
Lemma stored_ok_published svc module name versionValue body bufResult resp row d d' objs :
  stored_ok d objs -> row ∈ db_modules d -> module_Name row = name -> module_ID module = TrimSpace (module_ID row) ->
  (forall v, v ∈ db_versions d -> version_ModuleID v = module_ID row -> version_Version v <> versionValue) ->
  let k1 := BuildSourceArchiveKey name versionValue (sha256_hex body) in
  let k2 := BuildBufImageKey name versionValue (sha256_hex (wr_BufImage bufResult)) in
  describes module versionValue bufResult k1 body k2 resp ->
  published svc module (resp_Version resp) (resp_SourceArtifact resp) (resp_BufImageArtifact resp) bufResult d d' ->
  stored_ok d' (<[k2 := wr_BufImage bufResult]> (<[k1 := body]> objs)).
Proof.
  intros Hok Hrow Hn Hid Habs k1 k2 Hd Hp. destruct (so_modules _ _ Hok row Hrow) as [Hcan Hpart].
  rewrite (canonical_trim _ Hcan) in Hid.
  apply published_tables in Hp as (vid & mid & i1 & i2 & Hm & _ & _ & _ & _ & Em & Ev & Ea).
  rewrite (desc_module _ _ _ _ _ _ _ Hd), Hid in Hm. apply (canonical_param _ _ Hcan) in Hm as ->.
  destruct (desc_source _ _ _ _ _ _ _ Hd) as (_ & _ & K1 & C1 & S1).
  destruct (desc_image _ _ _ _ _ _ _ Hd) as (_ & _ & K2 & C2 & S2).
  assert (Hk : k1 <> k2) by (apply keys_differ; [split; [apply checksum_part|apply checksum_trim]..|by rewrite <- Hn]).
  assert (O1 : own_key name versionValue k1) by apply own_source.
  assert (O2 : own_key name versionValue k2) by apply own_image. clearbody k1 k2.
  assert (Hold : forall a, a ∈ ct_artifacts (db_catalog d) -> artifact_StorageKey a <> k1 /\ artifact_StorageKey a <> k2)
    by (intros a Ha; split; by eapply no_own_key).
  assert (Hnew : forall k a, artifact_ModuleVersionID a = vid -> artifact_StorageKey a = k -> own_key name versionValue k ->
    placed d' a).
  { intros k a Hv <- Hown. exists (version_row vid (module_ID row) (resp_Version resp)), row. rewrite Em, Ev.
    split_and!; [apply elem_of_app; right; by apply list_elem_of_singleton|done..|]. cbn [version_row version_Version].
    by rewrite (desc_version _ _ _ _ _ _ _ Hd), Hn. }
  constructor; rewrite ?Em, ?Ea; [apply (so_modules _ _ Hok)|apply (so_names _ _ Hok)| |intros Hu];
    intros a [Ha|[-> | ->%list_elem_of_singleton]%elem_of_cons]%elem_of_app.
  - destruct (so_placed _ _ Hok a Ha) as (v & m & Hv & Hrest). exists v, m. rewrite Em, Ev. split; [set_solver|done].
  - by apply (Hnew k1).
  - by apply (Hnew k2).
  - destruct (so_stored _ _ Hok Hu a Ha) as (b & Hb & Hs). exists b. destruct (Hold a Ha) as [N1 N2].
    by rewrite !lookup_insert_ne by congruence.
  - exists body. cbn. rewrite K1, C1, S1, lookup_insert_ne, lookup_insert_eq by congruence. done.
  - exists (wr_BufImage bufResult). cbn. rewrite K2, C2, S2, lookup_insert_eq. done.
Qed.

Lemma Publish_keeps svc req s : registry_ok s -> registry_ok (PublishModuleVersion svc req s).2.
Proof.
  intros [Htx Hok]. destruct (PublishModuleVersion svc req s) as [r s'] eqn:H. cbn [snd].
  apply Publish_outcome in H as [(_ & T & E & O)|(name & v & artifact & inspect & module & w1 & _ & Hc & H)]; [| |done].
  { split; [done|]. by rewrite E, O. }
  apply publish_checks_Ok in Hc as (row & Hrow & Hn & Hid & Habs).
  destruct (so_modules _ _ Hok row Hrow) as [Hcan _].
  assert (Habs' : forall x, x ∈ db_versions (w_db (rg_world s)) -> version_ModuleID x = module_ID row ->
    version_Version x <> v) by (apply Habs; by rewrite Hid, (canonical_trim _ Hcan)).
  destruct H as [e _ T E O|body bufResult _ _ (T & O & H)]; [split; [done|by rewrite E, O]|]. split; [done|].
  destruct H as [[_ E]|(resp & Hd & Hp & Hr)].
  2: { pose proof (stored_ok_published svc module name v body bufResult resp row _ _ _ Hok Hrow Hn Hid Habs' Hd Hp) as Hok'.
       destruct Hr as [[_ ->]|[_ Hu]]; [done|]. destruct Hok' as [P1 P2 P3 _]. by split. }
  - rewrite E. apply (stored_ok_keep _ _ (objects s) _ Hok); [done|done|by intros x Hx; exists x|].
    intros _ a Ha. apply O. intros [E1|E1%list_elem_of_singleton]%elem_of_cons; revert E1;
      (eapply (no_own_key _ _ row name v); [done..| |exact Ha]); [apply own_source|apply own_image].
Qed.

(** *** The other operations *)

Lemma on_db_world {A} (m : M World A) s :
  rg_world (on_db m s).2 = (m (rg_world s)).2 /\ objects (on_db m s).2 = objects s.
Proof. unfold on_db, zoom. by destruct (m (rg_world s)). Qed.

Lemma Create_keeps req s : registry_ok s -> registry_ok (on_db (CreateModule req) s).2.
Proof.
  intros [Htx Hok]. destruct (on_db_world (CreateModule req) s) as [Ew Eo]. unfold registry_ok. rewrite Ew, Eo.
  destruct (CreateModule req (rg_world s)) as [r w'] eqn:H. cbn [snd].
  apply CreateModule_outcome in H as [T [[_ E]|H]]; [by rewrite E| |done]. split; [done|].
  destruct H as (mid & name & t & Hn & Hc & Hf & row & _ & _ & ->). destruct Hok as [H1 H2 H3 H4].
  constructor; cbn.
  - intros m [Hm| ->%list_elem_of_singleton]%elem_of_app; [auto|]. split; [done|by eapply module_name_part].
  - intros m1 m2 [H5| ->%list_elem_of_singleton]%elem_of_app [H6| ->%list_elem_of_singleton]%elem_of_app E;
      [auto|by destruct (Hf m1 H5)|by destruct (Hf m2 H6)|done].
  - intros a Ha. destruct (H3 a Ha) as (v & m & Hv & Hm & Hrest). exists v, m. split; [done|]. split; [|done].
    cbn. apply elem_of_app. by left.
  - exact H4.
Qed.

Lemma Deprecate_keeps input s : registry_ok s -> registry_ok (on_db (DeprecateModuleVersion input) s).2.
Proof.
  intros [Htx Hok]. destruct (on_db_world (DeprecateModuleVersion input) s) as [Ew Eo].
  unfold registry_ok. rewrite Ew, Eo.
  destruct (DeprecateModuleVersion input (rg_world s)) as [r w'] eqn:H. cbn [snd].
  apply Deprecate_outcome in H as [T H]; [|done]. split; [done|].
  destruct H as [[_ E]|(v & _ & _ & [(_ & _ & E)|(_ & t & (vid & _ & row & _ & _ & E) & _)])]; [by rewrite E..|].
  rewrite E. apply (stored_ok_keep _ _ (objects s) _ Hok); [done..| |done]. intros x Hx.
  eexists. split; [apply list_elem_of_In, in_map, list_elem_of_In, Hx|]. by destruct (eqs _ _).
Qed.

Lemma Check_keeps svc req s : registry_ok s -> registry_ok (CheckBreaking svc req s).2.
Proof.
  intros [Htx Hok]. destruct (CheckBreaking svc req s) as [r s'] eqn:H. cbn [snd].
  apply (CheckBreaking_outcome svc) in H as [Eo H]; [|done]. unfold registry_ok. rewrite Eo.
  destruct H as [(T & _ & E)|H]; [by rewrite E|].
  destruct H as (? & ? & ? & ? & ? & ? & ? & ? & ? & ? & ? & ? & ? & ? & ? & report & changes & _ & _ & _ & _ & _ & _
    & T & (rid & mid & vid & rows & _ & _ & _ & _ & row & _ & _ & E) & _).
  split; [done|]. by apply (stored_ok_same _ _ _ Hok); rewrite E.
Qed.
End Steps.

(** ** Sequences of requests *)

Inductive registry_request :=
| RCreate (req : CreateModuleRequest)
| RPublish (req : PublishModuleVersionRequest)
| RDeprecate (input : DeprecateModuleVersionInput)
| RCheck (req : CheckBreakingRequest).

Section Serve.
Context `{PG : !Postgres} `{ENV : !Env} `{CR : !Crypto} `{SYS : !OS} `{STORE : !ArtifactStore} `{HOST : !Host}.
Variable svc : Service.

Definition serve (q : registry_request) (s : Registry) : Registry :=
  match q with
  | RCreate req => (on_db (CreateModule req) s).2
  | RPublish req => (PublishModuleVersion svc req s).2
  | RDeprecate input => (on_db (DeprecateModuleVersion input) s).2
  | RCheck req => (CheckBreaking svc req s).2
  end.
Definition serve_all (qs : list registry_request) (s : Registry) : Registry := fold_left (fun s q => serve q s) qs s.

Lemma serve_keeps `{LAWS : !ArtifactStoreLaws} `{HONEST : !HonestFaults} `{HL : !HostLaws} q s :
  registry_ok s -> registry_ok (serve q s).
Proof. destruct q; [apply Create_keeps|apply Publish_keeps|apply Deprecate_keeps|apply Check_keeps]. Qed.

(** whatever requests the registry serves, one after the other, and however
    each of them ends, every artifact row has a key of its own version; a failure
    may interrupt any statement, upload or deletion, and as long as what the
    database did not acknowledge was not applied, the object of that key is in the
    store, with the checksum and the size of the row. *)
Theorem registry_invariant `{LAWS : !ArtifactStoreLaws} `{HONEST : !HonestFaults} `{HL : !HostLaws} qs s :
  registry_ok s -> registry_ok (serve_all qs s).
Proof. revert s. induction qs as [|q qs IH]; intros s H; [done|]. by apply IH, serve_keeps. Qed.
End Serve.

(** ** What a failed publication leaves *)

Section CleanUp.
Context `{PG : !Postgres} `{ENV : !Env} `{CR : !Crypto} `{SYS : !OS} `{STORE : !ArtifactStore} `{HOST : !Host}.
Context `{LAWS : !ArtifactStoreLaws}.
Variable svc : Service.
(** An upload that fails stores nothing, and an observer is told of deletions
    that fail. *)
Hypothesis Put_fails : forall key body b e b',
  store_Put key body (len body) b = (Err e, b') -> bk_objects b' = bk_objects b.
Hypothesis observer : ArtifactCleanupObserver (svc_options svc) = true.

(** An object is gone, or the observer knows of it. *)
Definition cleaned (k : string) (s : Registry) : Prop :=
  objects s !! k = None \/ exists e, (k, e) ∈ rg_observed s.

Lemma cleanup_one_run key s :
  let s' := (cleanup_one svc key s).2 in
  (key <> "" -> cleaned key s') /\ (forall k, cleaned k s -> cleaned k s')
  /\ (forall k, k <> key -> objects s' !! k = objects s !! k) /\ is_ok (cleanup_one svc key s).1 = true.
Proof using observer LAWS.
  unfold cleanup_one, recordArtifactCleanupFailure. rewrite observer.
  destruct (key =? "")%string eqn:Ek; [apply String.eqb_eq in Ek as ->; by split_and!|].
  unfold bind, try, on_store, zoom. destruct (store_Delete key (rg_bucket s)) as [[u|e] b] eqn:E; apply Delete_law in E; cbn.
  - unfold cleaned, objects. cbn. rewrite E. split_and!; [intros _; left; apply lookup_delete_eq| |..]; [|
      intros k Hk; by apply lookup_delete_ne|done].
    intros k [Hk|Hk]; [left|by right]. destruct (decide (k = key)) as [->|Hne]; [apply lookup_delete_eq|].
    by rewrite lookup_delete_ne.
  - unfold cleaned, objects. cbn. split_and!; [| |destruct E as [E|E]; rewrite E; [done|]; intros k Hk; by apply lookup_delete_ne|done].
    + intros _. right. exists e. apply elem_of_app. right. by apply list_elem_of_singleton.
    + intros k [Hk|[e' He]]; [left|right; exists e'; apply elem_of_app; by left].
      destruct E as [E|E]; rewrite E; [done|]. destruct (decide (k = key)) as [->|Hne]; [apply lookup_delete_eq|].
      by rewrite lookup_delete_ne.
Qed.

Lemma cleanup_run keys s :
  Forall (fun k => k <> "") keys ->
  let s' := (cleanupUploadedArtifacts svc keys s).2 in
  Forall (fun k => cleaned k s') keys /\ (forall k, cleaned k s -> cleaned k s')
  /\ (forall k, k ∉ keys -> objects s' !! k = objects s !! k).
Proof using observer LAWS.
  intros H. revert s. unfold cleanupUploadedArtifacts. induction H as [|key keys Hk _ IH]; intros s; cbn [forM]; [by split_and!|].
  pose proof (cleanup_one_run key s) as (C1 & M1 & O1 & E). unfold bind.
  destruct (cleanup_one svc key s) as [[u|e] s1]; [|done]. cbn [snd] in *.
  destruct (IH s1) as (C2 & M2 & O2). split_and!; [constructor; auto|auto|].
  intros k [Hne Hk']%not_elem_of_cons. by rewrite O2, O1.
Qed.

Lemma or_cleanup_fails {A} keys (m : M Registry A) s e s' :
  Forall (fun k => k <> "") keys -> or_cleanup svc keys m s = (Err e, s') ->
  exists e1 s1, m s = (Err e1, s1) /\ forall k, cleaned k s' \/ ((k ∉ keys) /\ objects s' !! k = objects s1 !! k).
Proof using observer LAWS.
  intros Hk H. unfold or_cleanup in H. rewrite bind_try in H. destruct (m s) as [[a|e1] s1]; [done|].
  exists e1, s1. split; [done|]. destruct (cleanup_run keys s1 Hk) as (C & _ & O). unfold bind in H.
  destruct (cleanupUploadedArtifacts svc keys s1) as [r s2]. cbn [snd] in *.
  assert (s' = s2) as -> by (destruct r; by injection H).
  intros k. destruct (decide (k ∈ keys)) as [Hin|Hin]; [left; rewrite Forall_forall in C; auto|right; auto].
Qed.

Lemma key_nonempty name v sum : BuildSourceArchiveKey name v sum <> "" /\ BuildBufImageKey name v sum <> "".
Proof. done. Qed.

(** What [publish_artifacts] leaves when it fails. *)
Lemma publish_artifacts_fails module name versionValue body bufResult s e s' :
  publish_artifacts svc module name versionValue body (sha256_hex body) (len body) bufResult s = (Err e, s') ->
  forall k, cleaned k s' \/ objects s' !! k = objects s !! k.
Proof using observer LAWS Put_fails.
  intros H k. unfold publish_artifacts, checksumBytes in H.
  set (k1 := BuildSourceArchiveKey _ _ _) in *. set (k2 := BuildBufImageKey _ _ _) in *.
  assert (Hput : forall key b s1 e1 s2, map_err storage_failure (on_store (store_Put key b (len b))) s1 = (Err e1, s2) ->
    objects s2 = objects s1).
  { intros key b s1 e1 s2 Hp. apply map_err_Err in Hp as (e0 & _ & Hp). unfold on_store, zoom in Hp.
    destruct (store_Put key b (len b) (rg_bucket s1)) as [r1 b1] eqn:E. injection Hp as -> <-.
    by apply Put_fails in E. }
  apply bind_Err in H as [H|(o1 & s1 & H1 & H)]; [right; by rewrite (Hput _ _ _ _ _ H)|].
  apply (on_store_put_run _ _ _ _ _ [k1]) in H1 as [(_ & _ & O1) _]; [|set_solver].
  apply bind_Err in H as [H|(o2 & s2 & H2 & H)].
  - apply or_cleanup_fails in H as (e2 & s2 & H2 & Hc); [|by repeat constructor].
    apply Hput in H2. destruct (Hc k) as [Hk|[Hk E]]; [by left|right]. rewrite E, H2. by apply O1.
  - apply (or_cleanup_run svc [k1]) in H2 as (r3 & s3 & H2 & H3); [|set_solver].
    destruct r3 as [o|e3]; [|by destruct H3 as [[e' He] _]]. destruct H3 as [_ ->].
    apply (on_store_put_run _ _ _ _ _ [k2]) in H2 as [(_ & _ & O2) _]; [|set_solver].
    apply or_cleanup_fails in H as (e3 & s4 & H4 & Hc); [|by repeat constructor].
    destruct (Hc k) as [Hk|[Hk E]]; [by left|right]. rewrite E.
    destruct (on_db_world (publish_stored svc module versionValue bufResult o1 o2 (sha256_hex body)
      (sha256_hex (wr_BufImage bufResult))) s3) as [_ Eo]. rewrite H4 in Eo. cbn [snd] in Eo.
    rewrite Eo, O2, O1; [done|set_solver..].
Qed.

Lemma publish_checked_fails inspect module name versionValue artifact s e s' :
  publish_checked svc inspect module name versionValue artifact s = (Err e, s') ->
  forall k, cleaned k s' \/ objects s' !! k = objects s !! k.
Proof using observer LAWS Put_fails.
  intros H k. unfold publish_checked in H. apply bind_Err in H as [[= _ <-]|(v & s1 & Hr & H)]; [by right|].
  injection Hr as Hr <-. destruct v as [[body sum] n]. pose proof (readArtifact_Ok _ _ _ _ _ Hr) as [-> ->].
  apply bind_Err in H as [H|(workdir & s2 & H2 & H)].
  { apply on_fs_run in H as (fs & _ & ->). by right. }
  apply on_fs_run in H2 as (fs2 & _ & ->). apply deferred_run in H as (s3 & H & ->).
  destruct (on_fs (removeTempDir workdir) s3) as [r4 s4] eqn:E. apply on_fs_run in E as (fs4 & _ & ->).
  apply bind_Err in H as [H|(bufResult & s5 & H5 & H)].
  { apply on_fs_run in H as (fs & _ & ->). by right. }
  apply on_fs_run in H5 as (fs5 & _ & ->). exact (publish_artifacts_fails _ _ _ _ _ _ _ _ H k).
Qed.

(** when a publication fails, each object of the store is as it was, or it is
    not there, or the observer of clean-ups was told that it could not be
    deleted: a failed publication leaves nothing behind that nobody knows of, as
    long as an upload that fails stores nothing. *)
Theorem failed_publication_cleans_up req s e s' :
  PublishModuleVersion svc req s = (Err e, s') ->
  forall k, objects s' !! k = objects s !! k \/ objects s' !! k = None \/ exists err, (k, err) ∈ rg_observed s'.
Proof using observer LAWS Put_fails.
  intros H k. unfold PublishModuleVersion in H. apply bind_Err in H as [[= _ <-]|(v & s1 & Hr & H)]; [by left|].
  injection Hr as Hr <-. destruct v as [[[name versionValue] artifact] inspect].
  apply bind_Err in H as [H|(module & s2 & H2 & H)].
  { destruct (on_db_world (publish_checks name versionValue) s) as [_ Eo]. rewrite H in Eo. left. by rewrite <- Eo. }
  destruct (on_db_world (publish_checks name versionValue) s) as [_ Eo]. rewrite H2 in Eo. cbn [snd] in Eo.
  destruct (publish_checked_fails _ _ _ _ _ _ _ _ H k) as [Hk|Hk]; [by right|left]. by rewrite Hk, Eo.
Qed.
End CleanUp.

(** ** The operations *)

Section Theorems.
Context `{PG : !Postgres} `{ENV : !Env} `{CR : !Crypto} `{SYS : !OS} `{STORE : !ArtifactStore} `{HOST : !Host}.
Context `{LAWS : !ArtifactStoreLaws}.

(** C16: publishing a version fails before anything is uploaded and changes
    neither the database nor the store, or the request was complete, the module
    existed and the version did not, and then no object changes but the two of
    the version, and the database is as before and the call failed, or it has
    gained, in one transaction, the version, its two artifacts with their
    checksums and sizes, its configuration and its descriptor, its dependencies
    and the events; the call then succeeded and both objects are stored, unless
    only the acknowledgement of the commit was lost. *)
Theorem PublishModuleVersion_correct svc req s r s'
    (Htx : w_tx (rg_world s) = false) (H : PublishModuleVersion svc req s = (r, s')) :
  ((exists e, r = Err e) /\ w_tx (rg_world s') = false /\ w_db (rg_world s') = w_db (rg_world s)
     /\ objects s' = objects s)
  \/ exists name versionValue artifact inspect module row w1 body bufResult,
       publish_request svc req = Ok (name, versionValue, artifact, inspect)
       /\ publish_checks name versionValue (rg_world s) = (Ok module, w1)
       /\ row ∈ db_modules (w_db (rg_world s)) /\ module_Name row = name /\ module_ID module = TrimSpace (module_ID row)
       /\ readArtifact svc artifact = Ok (body, sha256_hex body, len body)
       /\ wr_BufImage bufResult <> ""
       /\ upload_outcome svc module name versionValue body bufResult s r s'.
Proof.
  destruct (Publish_outcome svc req s r s' Htx H) as [Hf|(name & v & artifact & inspect & module & w1 & Hr & Hc & Ho)];
    [by left|].
  destruct Ho as [e -> T D O|body bufResult Ha Hi Ho]; [left; by split_and!; [exists e|..]|right].
  assert (Hm : exists row, row ∈ db_modules (w_db (rg_world s)) /\ module_Name row = name
    /\ module_ID module = TrimSpace (module_ID row)).
  { unfold publish_checks in Hc. apply bind_Ok in Hc as (m & w2 & H1%map_err_Ok & Hc).
    apply Module_GetByName_Ok in H1 as (row & Hrow & Hn & Hid & _). exists row.
    apply bind_Ok in Hc as (found & w3 & _ & Hc). destruct found; [done|].
    destruct (errors_Is _ _); [|done]. injection Hc as -> _. done. }
  destruct Hm as (row & Hrow & Hn & Hid). by exists name, v, artifact, inspect, module, row, w1, body, bufResult.
Qed.

(** C17: a breaking check never changes the store; it fails and changes nothing in
    the database, or it unpacked the archive of the request, compared it with the
    stored image of the version it is checked against, and stored, in one
    transaction, a report with the status of the answer and the first changes up
    to the configured number, and its event. *)
Theorem CheckBreaking_correct svc req s r s'
    (Htx : w_tx (rg_world s) = false) (H : CheckBreaking svc req s = (r, s')) :
  objects s' = objects s
  /\ (failed (rg_world s) r (rg_world s')
      \/ checked svc req s r s' /\ forall report changes, r = Ok (report, changes) ->
           report_Status report <> BreakingReportStatusFailed /\ report_ChangeCount report = llen changes
           /\ (0 < BreakingMaxChanges (svc_options svc) -> llen changes <= BreakingMaxChanges (svc_options svc))).
Proof.
  destruct (CheckBreaking_outcome svc req s r s' Htx H) as [Eo [Hf|Hc]]; (split; [exact Eo|]); [by left|right].
  split; [exact Hc|]. intros report changes ->.
  destruct Hc as (? & ? & ? & ? & ? & ? & ? & ? & ? & ? & ? & ? & ? & answer & ? & rep & chs & _ & _ & _ & _ & _ & Hrep
    & _ & _ & Hr).
  destruct Hr as [[= <- <-]|[[e He] _]]; [|done]. destruct Hrep as [_ _ _ Hs Hn Hch _ _]. split_and!; [|done|].
  - unfold check_status in Hs. destruct (negb _); [done|].
    destruct (_ =? BreakingReportStatusFailed)%string eqn:E; [done|]. injection Hs as <-. by apply String.eqb_neq.
  - intros Hmax. apply Forall2_length in Hch. unfold llen. rewrite <- Hch. unfold kept_changes.
    destruct (0 <? _) eqn:E; [|lia]. rewrite length_firstn. lia.
Qed.

(** deprecating a version fails and changes nothing; or the version named was
    deprecated already and is returned as it is; or it was not, an actor was
    named, and then exactly its row gets the time, the actor and the reason, in
    one transaction with the event. *)
Theorem DeprecateModuleVersion_correct input w r w'
    (Htx : w_tx w = false) (H : DeprecateModuleVersion input w = (r, w')) :
  w_tx w' = false
  /\ ((exists e, r = Err e) /\ w_db w' = w_db w
      \/ exists v, version_named input (w_db w) v /\ TrimSpace (deprecate_Actor input) <> ""
           /\ (IsDeprecated v = true /\ r = Ok v /\ w_db w' = w_db w
               \/ IsDeprecated v = false /\ exists t, deprecation_stored input v t (w_db w) (w_db w')
                    /\ (r = Ok (deprecated_version t (TrimSpace (deprecate_Actor input))
                                  (TrimSpace (deprecate_Reason input)) v)
                        \/ (exists e, r = Err e) /\ unacknowledged))).
Proof. exact (Deprecate_outcome input w r w' Htx H). Qed.
End Theorems.

(** ** Examples *)

Module RegistryExamples.
#[local] Instance pg : Postgres := example_postgres.
#[local] Instance crypto : Crypto := {| hmac_sha256_hex := fun key s => key +:+ s |}.
#[local] Instance calm_os : OS := { os_fault _ := None; os_written _ := O }.

(** An S3 bucket that answers every request. *)
#[local] Instance client : ObjectClient := {
  client_put _ key body _ _ := fun b => (Ok (len body), mkBucket (<[key := body]> (bk_objects b)) (S (bk_tick b)));
  client_get _ key := fun b =>
    (match bk_objects b !! key with
     | Some body => Ok (mkStoredObject (Ok body) artifactContentType (len body))
     | None => Err (EExternal "not found")
     end, mkBucket (bk_objects b) (S (bk_tick b)));
  client_delete _ key := fun b => (Ok tt, mkBucket (delete key (bk_objects b)) (S (bk_tick b))) }.
#[local] Instance client_laws : ObjectClientLaws "artifacts".
Proof.
  split.
  - intros key body size ct b r b' _ [= <- <-]. done.
  - intros key b r b'. cbn. destruct (bk_objects b !! key) eqn:E; intros [= <- <-]; [|done].
    split; [done|]. cbn. congruence.
  - intros key b r b' [= <- <-]. done.
Qed.
#[local] Instance store : ArtifactStore := s3_store "artifacts".
#[local] Instance store_laws : ArtifactStoreLaws := s3_store_laws "artifacts" _.

(** A host whose checksums are as long as the text, and whose archives hold a
    configuration and a file. *)
Definition host : Host := {|
  sha256_hex := fun s => unary (String.length s);
  open_archive := fun body =>
    Ok ([mkEntry (mkHeader "buf.yaml" TypeReg 2) "v1"; mkEntry (mkHeader "users.proto" TypeReg (len body)) body], EndEOF);
  temp_dir := fun pattern n => "/tmp/" +:+ pattern +:+ unary n;
  removed_before_failure := fun _ _ => false;
  request_Err := fun _ => None;
  rand_token := fun n => Ok (unary n) |}.
#[local] Existing Instance host.
#[local] Instance host_laws : HostLaws.
Proof.
  assert (H : forall n, forallb_string (fun a => (byte a =? 49)) (unary n) = true) by (induction n as [|n IH]; done).
  split; intros s.
  - specialize (H (String.length s)). revert H. unfold key_part, no_byte. apply forallb_string_impl. intros a Ha.
    apply negb_true_iff, Ascii.eqb_neq. intros ->. done.
  - apply TrimSpace_plain. specialize (H (String.length s)). revert H. apply forallb_string_impl.
    intros a Ha. unfold plain_byte. lia.
Qed.

Definition calm_env : Env := {|
  env_fault := fun _ => None;
  env_applied := fun _ => true;
  env_now := fun n => example_time + Z.of_nat n;
  env_rand := fun n => Ok (example_uuid n) |}.
Lemma calm_faults : @HonestFaults calm_env.
Proof. by intros n e H. Qed.

(** The image [buf] builds is the text of the archive, and a file without
    content its descriptor. *)
Definition inspect (workdir : string) (o : BufWorkflowOptions) : M FS (BufWorkflowResult * option error) := fun fs =>
  (Ok (mkBufWorkflowResult (mkBufConfigInfo true false "d" "" ["."] [] true false) "image" "digest"
         (mkBufLintResult BufLintStatusPassed "")
         (mkDescriptorMetadata [mkProtoFile "users.proto" "users" "proto3" [] [] [] []]), None), fs).
Definition service : Service := mkService true true true (Some inspect)
  (Some (fun i => ret (mkBufBreakingCheckResult "" [mkBreakingChange "" "" "FILE" "users.proto" "users" "" "FIELD_SAME_TYPE"
           ("was " +:+ bi_BaselineImage i) "" 0] "raw" "")))
  (mkOptions 1000 0 "secret" true BufLintModeEnforce 10 "latest" true false).

Definition registry0 : Registry := mkRegistry (mkWorld empty_db false 0) (mkFS ∅ 0) (mkBucket ∅ 0) [].
Definition create_users : CreateModuleRequest := mkCreateModuleRequest " users " "" "".
Definition publish_users (version : string) : PublishModuleVersionRequest :=
  mkPublishRequest "users" version (Some ("syntax", None)).
Definition check_users : CheckBreakingRequest := mkCheckBreakingRequest "users" "" "" (Some ("changed", None)) 7.
Definition deprecate_users : DeprecateModuleVersionInput := mkDeprecateInput "users" "v1" "ada" "old".
Definition requests : list registry_request :=
  [RCreate create_users; RPublish (publish_users "v1"); RPublish (publish_users "v1"); RPublish (publish_users "v2");
   RCheck check_users; RDeprecate deprecate_users].

Section Calm.
#[local] Existing Instance calm_env.
#[local] Existing Instance calm_faults.

Example served :
  let s := serve_all service requests registry0 in
  map version_Version (db_versions (w_db (rg_world s))) = ["v1"; "v2"]
  /\ length (ct_artifacts (db_catalog (w_db (rg_world s)))) = 4%nat
  /\ size (objects s) = 4%nat
  /\ map report_Status (db_reports (w_db (rg_world s))) = [BreakingReportStatusBreaking]
  /\ map change_Message (db_changes (w_db (rg_world s))) = ["was image"]
  /\ map IsDeprecated (db_versions (w_db (rg_world s))) = [true; false]
  /\ length (ot_rows (db_outbox (w_db (rg_world s)))) = 7%nat
  /\ fs_nodes (rg_fs s) = {[parse "/tmp" := NDir]}.
Proof. cbv zeta. repeat apply conj; vm_compute; reflexivity. Qed.

Lemma registry0_ok : registry_ok registry0.
Proof. split; [done|]. split; cbn; set_solver. Qed.

Lemma registry_invariant_witness : registry_ok (serve_all service requests registry0).
Proof. exact (registry_invariant service requests registry0 registry0_ok). Defined.

Definition with_users : Registry := (on_db (CreateModule create_users) registry0).2.
Definition with_v1 : Registry := (PublishModuleVersion service (publish_users "v1") with_users).2.

Lemma PublishModuleVersion_correct_witness :
  exists name versionValue module body bufResult,
    upload_outcome service module name versionValue body bufResult with_users
      (PublishModuleVersion service (publish_users "v1") with_users).1 with_v1.
Proof.
  assert (Hok : is_ok (PublishModuleVersion service (publish_users "v1") with_users).1 = true) by (vm_compute; reflexivity).
  unfold with_v1. destruct (PublishModuleVersion service (publish_users "v1") with_users) as [r s'] eqn:E. cbn [fst snd] in *.
  destruct (PublishModuleVersion_correct service (publish_users "v1") with_users r s' eq_refl E)
    as [[[e He] _]|(name & v & artifact & insp & module & row & w1 & body & bufResult & _ & _ & _ & _ & _ & _ & _ & H)].
  - exfalso. rewrite He in Hok. discriminate Hok.
  - exists name, v, module, body, bufResult. exact H.
Defined.

Lemma CheckBreaking_correct_witness :
  checked service check_users with_v1 (CheckBreaking service check_users with_v1).1
    (CheckBreaking service check_users with_v1).2.
Proof.
  assert (Hok : is_ok (CheckBreaking service check_users with_v1).1 = true) by (vm_compute; reflexivity).
  destruct (CheckBreaking service check_users with_v1) as [r s'] eqn:E. cbn [fst snd] in *.
  destruct (CheckBreaking_correct service check_users with_v1 r s' eq_refl E) as [_ [(_ & [e He] & _)|[H _]]]; [|exact H].
  exfalso. rewrite He in Hok. discriminate Hok.
Defined.

Lemma DeprecateModuleVersion_correct_witness :
  exists v t, version_named deprecate_users (w_db (rg_world with_v1)) v
    /\ deprecation_stored deprecate_users v t (w_db (rg_world with_v1))
         (w_db (DeprecateModuleVersion deprecate_users (rg_world with_v1)).2).
Proof.
  assert (Hok : (if (DeprecateModuleVersion deprecate_users (rg_world with_v1)).1 is Ok v
                 then version_DeprecatedAt v else None) <> None) by (vm_compute; discriminate).
  assert (Hdb : existsb IsDeprecated (db_versions (w_db (DeprecateModuleVersion deprecate_users (rg_world with_v1)).2)) = true
                /\ existsb IsDeprecated (db_versions (w_db (rg_world with_v1))) = false) by (vm_compute; split; reflexivity).
  destruct (DeprecateModuleVersion deprecate_users (rg_world with_v1)) as [r w'] eqn:E. cbn [fst snd] in *.
  destruct (DeprecateModuleVersion_correct deprecate_users (rg_world with_v1) r w' eq_refl E)
    as [_ [[[e He] _]|(v & Hn & _ & [(_ & _ & Hs)|(_ & t & Ht & _)])]].
  - exfalso. rewrite He in Hok. apply Hok. reflexivity.
  - exfalso. destruct Hdb as [H1 H2]. rewrite Hs, H2 in H1. discriminate H1.
  - exists v, t. split; [exact Hn|exact Ht].
Defined.
End Calm.

(** ** Objects that are lost

    Two publications of the same version and the same archive: both find that
    the version does not exist, one publishes it, and the other one, refused by
    the database, deletes the objects of the published version, whose keys it
    shares.  The same happens to one publication whose commit succeeds and is
    not acknowledged. *)

Definition lost (s : Registry) : Prop :=
  length (ct_artifacts (db_catalog (w_db (rg_world s)))) = 2%nat
  /\ Forall (fun a => objects s !! artifact_StorageKey a = None) (ct_artifacts (db_catalog (w_db (rg_world s)))).

Definition lossy_env (n : nat) : Env := {|
  env_fault := fun k => if (k =? n)%nat then Some (EExternal "connection reset") else None;
  env_applied := fun _ => true;
  env_now := fun n => example_time + Z.of_nat n;
  env_rand := fun n => Ok (example_uuid n) |}.

Definition users_module (s : Registry) : Module_ :=
  hd (mkModule "" "" "" "" 0 0) (db_modules (w_db (rg_world s))).

(** A publication that fails in the middle of its transaction. *)
Lemma failed_publication_cleans_up_witness :
  let E := lossy_env 24 in
  let k := BuildSourceArchiveKey "users" "v1" (unary 6) in
  let s' := (PublishModuleVersion service (publish_users "v1") with_users).2 in
  objects s' !! k = objects with_users !! k \/ objects s' !! k = None \/ exists err, (k, err) ∈ rg_observed s'.
Proof.
  intros E k. assert (Hok : is_ok (PublishModuleVersion service (publish_users "v1") with_users).1 = false)
    by (vm_compute; reflexivity).
  destruct (PublishModuleVersion service (publish_users "v1") with_users) as [[resp|e] s'] eqn:H; cbn [fst snd] in *;
    [discriminate Hok|].
  apply (failed_publication_cleans_up service) with (req := publish_users "v1") (s := with_users) (e := e).
  - intros key body b e0 b' H0. discriminate H0.
  - reflexivity.
  - exact H.
Defined.

(** The invariant does not survive concurrent requests: when two clients
    publish the same version with the same archive, the loser's clean-up deletes
    the objects that the published version's rows refer to; and a single
    publication whose commit is applied but not acknowledged deletes its own. *)
Theorem cleanup_deletes_published_objects :
  (let E := calm_env in
   let both_checked := (on_db (publish_checks "users" "v1") with_users).2 in
   let winner := PublishModuleVersion service (publish_users "v1") both_checked in
   let loser := publish_checked service inspect (users_module with_users) "users" "v1" ("syntax", None) winner.2 in
   (publish_checks "users" "v1" (rg_world with_users)).1 = Ok (users_module with_users)
   /\ is_ok winner.1 = true /\ loser.1 = Err registry.ErrModuleVersionAlreadyExists /\ lost loser.2)
  /\ (let E := lossy_env 31 in
      let alone := PublishModuleVersion service (publish_users "v1") with_users in
      alone.1 = Err (EExternal "connection reset") /\ lost alone.2).
Proof. vm_compute. repeat split; repeat constructor. Qed.
End RegistryExamples.
