(* ===== verification/RuntimeInvariant.v ===== *)
(** * The inventory agrees with the registry

    Over any sequence of requests to the registry and reports of services, every
    usage belongs to a deployment of a service, and names the module and the
    version it was resolved to. *)

From S2P Require Import Prelude Errors GoStrings JsonScan Domain Json Effects Postgres Outbox Events Tables World GovernanceStore UseCase CatalogStore DescriptorStore DependencyStore DependencyGraph RuntimeStore RuntimeInventory Identity Archive Storage Registry RegistrySafety RegistryOperations RuntimeSafety RegistryInvariant.

Open Scope string_scope.
Open Scope Z_scope.

(** ** The invariant *)

Record usage_ok (d : Database) (u : RuntimeModuleUsage) : Prop := mkUsageOk {
  uo_deployment : exists x, x ∈ ct_deployments (db_catalog d) /\ deployment_ID x = usage_DeploymentID u;
  uo_status : RuntimeDriftStatus_IsValid (usage_DriftStatus u) = true;
  uo_module_name : NewModuleName (usage_ModuleName u) = Ok (usage_ModuleName u);
  uo_version_name : NewVersion (usage_Version u) = Ok (usage_Version u);
  uo_module : forall i, usage_ModuleID u = Some i ->
    exists m, m ∈ db_modules d /\ module_ID m = i /\ module_Name m = usage_ModuleName u;
  uo_version : forall i, usage_ModuleVersionID u = Some i ->
    exists v, v ∈ db_versions d /\ version_ID v = i /\ version_Version v = usage_Version u
      /\ usage_ModuleID u = Some (version_ModuleID v) }.

Record inventory_ok `{PG : !Postgres} (d : Database) : Prop := mkInventoryOk {
  io_services : forall s, s ∈ ct_services (db_catalog d) ->
    canonical (service_ID s) /\ NewRuntimeServiceName (service_Name s) = Ok (service_Name s);
  io_service_names : NoDup (map service_Name (ct_services (db_catalog d)));
  io_service_ids : NoDup (map service_ID (ct_services (db_catalog d)));
  io_deployments : forall x, x ∈ ct_deployments (db_catalog d) ->
    canonical (deployment_ID x) /\ NewRuntimeEnvironment (deployment_Environment x) = Ok (deployment_Environment x)
    /\ exists s, s ∈ ct_services (db_catalog d) /\ service_ID s = deployment_ServiceID x;
  io_deployment_ids : NoDup (map deployment_ID (ct_deployments (db_catalog d)));
  io_usages : forall u, u ∈ ct_usages (db_catalog d) -> usage_ok d u }.

Definition runtime_ok `{PG : !Postgres} (d : Database) : Prop := catalogue_ok d /\ inventory_ok d.

(** ** What the registry does *)

(** The catalogue grows: modules stay, versions keep what names them. *)
Record grows (d d' : Database) : Prop := mkGrows {
  gr_modules : forall m, m ∈ db_modules d -> m ∈ db_modules d';
  gr_versions : forall v, v ∈ db_versions d -> exists v', v' ∈ db_versions d' /\ same_version v v';
  gr_inventory : inventory_of d' = inventory_of d }.

Lemma inventory_ok_grows `{PG : !Postgres} d d' : grows d d' -> inventory_ok d -> inventory_ok d'.
Proof.
  intros [Gm Gv Gi] [I1 I2 I3 I4 I5 I6]. injection Gi as E1 E2 E3. constructor; rewrite ?E1, ?E2, ?E3; [done..|].
  intros u Hu. destruct (I6 u Hu) as [U1 U2 U3 U4 U5 U6]. constructor; rewrite ?E2; [done..| |].
  - intros i Hi. destruct (U5 i Hi) as (m & Hm & Hrest). exists m. split; [by apply Gm|done].
  - intros i Hi. destruct (U6 i Hi) as (v & Hv & Ei & En & Em). destruct (Gv v Hv) as (v' & Hv' & I & M & V).
    exists v'. rewrite I, M, V. by split_and!.
Qed.

Lemma grows_refl d d' :
  db_modules d' = db_modules d -> db_versions d' = db_versions d -> inventory_of d' = inventory_of d -> grows d d'.
Proof. intros E1 E2 E3. constructor; rewrite ?E1, ?E2; [done| |done]. intros v Hv. by exists v. Qed.

Lemma catalogue_ok_same `{PG : !Postgres} d d' :
  db_modules d' = db_modules d -> db_versions d' = db_versions d -> catalogue_ok d -> catalogue_ok d'.
Proof. intros E1 E2 [H1 H2 H3 H4 H5 H6]. by constructor; rewrite ?E1, ?E2. Qed.

Lemma NoDup_map_snoc {A B} (f : A -> B) l x :
  NoDup (map f l) -> (forall y, y ∈ l -> f y <> f x) -> NoDup (map f (l ++ [x])%list).
Proof.
  intros H1 H2. rewrite map_app. apply NoDup_app. split; [done|]. split; [|apply NoDup_singleton].
  intros z (y & Ey & Hy%list_elem_of_In)%list_elem_of_In%in_map_iff ->%list_elem_of_singleton. by apply (H2 y).
Qed.

Section Steps.
Context `{PG : !Postgres} `{ENV : !Env} `{CR : !Crypto} `{SYS : !OS} `{STORE : !ArtifactStore} `{HOST : !Host}.

(** A new module, a new version, a deprecation. *)
Lemma runtime_ok_module req d d' : module_created req d d' -> runtime_ok d -> runtime_ok d'.
Proof.
  intros (mid & name & t & Hn & Hc & Hf & row & _ & _ & ->) [[K1 K2 K3 K4 K5 K6] Hi]. split.
  - constructor; cbn; [| | | |done..].
    + intros m [Hm| ->%list_elem_of_singleton]%elem_of_app; [auto|]. split; [done|by eapply NewModuleName_fixed].
    + apply NoDup_map_snoc; [done|]. intros m Hm. by destruct (Hf m Hm).
    + apply NoDup_map_snoc; [done|]. intros m Hm. by destruct (Hf m Hm).
    + intros v Hv. destruct (K4 v Hv) as (? & ? & m & Hm & ?). split_and!; [done..|]. exists m. split; [set_solver|done].
  - revert Hi. apply inventory_ok_grows. constructor; cbn; [set_solver| |done]. intros v Hv. by exists v.
Qed.

Lemma runtime_ok_version svc module v a1 a2 bufResult d d' :
  NewVersion (version_Version v) = Ok (version_Version v) ->
  published svc module v a1 a2 bufResult d d' -> runtime_ok d -> runtime_ok d'.
Proof.
  intros Hn (vid & mid & i1 & i2 & _ & Hmod & Hc & Hf & Ei & Em & Ev & _)%published_tables [[K1 K2 K3 K4 K5 K6] Hi]. split.
  - constructor; rewrite ?Em, ?Ev; [done..| | |].
    + intros x [Hx| ->%list_elem_of_singleton]%elem_of_app; [by apply K4|]. split_and!; done.
    + apply NoDup_map_snoc; [done|]. intros x Hx. by destruct (Hf x Hx).
    + apply NoDup_map_snoc; [done|]. intros x Hx. cbn. intros [= E1 E2]. destruct (Hf x Hx) as [_ Hne]. by apply Hne.
  - revert Hi. apply inventory_ok_grows. constructor; rewrite ?Em, ?Ev; [done| |done].
    intros x Hx. exists x. split; [set_solver|done].
Qed.

Lemma runtime_ok_deprecated input v t d d' :
  deprecation_stored input v t d d' -> runtime_ok d -> runtime_ok d'.
Proof.
  intros (vid & _ & row & _ & _ & ->) [[K1 K2 K3 K4 K5 K6] Hi]. split.
  - constructor; cbn; [done..| | |].
    + intros x (y & Hy & ->)%elem_of_update_where. by destruct (eqs _ _); apply (K4 y Hy).
    + by rewrite map_update_where.
    + by rewrite (map_update_where (fun v => (version_ModuleID v, version_Version v))).
  - revert Hi. apply inventory_ok_grows. constructor; [done| |done].
    intros x Hx. eexists. split; [apply list_elem_of_In, in_map, list_elem_of_In, Hx|]. by destruct (eqs _ _).
Qed.
End Steps.

(** ** What a report does *)

Lemma upserted_ids `{PG : !Postgres} name ss ss' x :
  upserted name ss ss' x -> (forall s, s ∈ ss -> canonical (service_ID s) /\ NewRuntimeServiceName (service_Name s) = Ok (service_Name s)) ->
  NewRuntimeServiceName name = Ok name -> NoDup (map service_Name ss) -> NoDup (map service_ID ss) ->
  (forall s, s ∈ ss' -> canonical (service_ID s) /\ NewRuntimeServiceName (service_Name s) = Ok (service_Name s))
  /\ NoDup (map service_Name ss') /\ NoDup (map service_ID ss') /\ x ∈ ss'
  /\ forall s, s ∈ ss -> exists s', s' ∈ ss' /\ service_ID s' = service_ID s.
Proof.
  intros [Ex [(y & t & Hy & -> & ->)|(Hnone & Hc & Hf & ->)]] H Hn N1 N2.
  - apply find_some_in in Hy as [Hy En]. split_and!.
    + intros s (z & Hz & ->)%elem_of_update_where. destruct (eqs (service_Name z) name); apply (H z Hz).
    + by rewrite map_update_where.
    + by rewrite map_update_where.
    + apply elem_of_update_where. exists y. split; [done|]. by rewrite En.
    + intros s Hs. eexists. split; [apply list_elem_of_In, in_map, list_elem_of_In, Hs|]. by destruct (eqs (service_Name s) name).
  - rewrite find_none_in in Hnone. split_and!.
    + intros s [Hs| ->%list_elem_of_singleton]%elem_of_app; [auto|]. by rewrite Ex.
    + apply NoDup_map_snoc; [done|]. intros s Hs. rewrite Ex. by apply eqs_false, Hnone.
    + by apply NoDup_map_snoc.
    + apply elem_of_app. right. by apply list_elem_of_singleton.
    + intros s Hs. exists s. split; [set_solver|done].
Qed.

(** The references of the expected usage are rows of the tables. *)
Lemma expected_usage_refers d r :
  let u := expected_usage d r in
  usage_ModuleName u = reference_ModuleName r /\ usage_Version u = reference_Version r
  /\ RuntimeDriftStatus_IsValid (usage_DriftStatus u) = true
  /\ (forall i, usage_ModuleID u = Some i -> exists m, m ∈ db_modules d /\ module_ID m = i /\ module_Name m = reference_ModuleName r)
  /\ (forall i, usage_ModuleVersionID u = Some i -> exists v, v ∈ db_versions d /\ version_ID v = i
        /\ version_Version v = reference_Version r /\ usage_ModuleID u = Some (version_ModuleID v)).
Proof.
  unfold expected_usage, named_module, named_version. destruct (List.find _ (db_modules d)) as [m|] eqn:Em; [|by split_and!].
  apply find_some_in in Em as [Hm En%eqs_true]. destruct (List.find _ (db_versions d)) as [v|] eqn:Ev.
  - apply find_some_in in Ev as [Hv [E1%eqs_true E2%eqs_true]%andb_true_iff]. cbn. split_and!; [done..| | |].
    + unfold drift. by repeat case_match.
    + intros i [= <-]. by exists m.
    + intros i [= <-]. exists v. by rewrite E1.
  - cbn. split_and!; [done..| |done]. intros i [= <-]. by exists m.
Qed.

Section Report.
Context `{PG : !Postgres} `{ENV : !Env} `{HF : !HonestFaults}.

(** The stored usages of a report. *)
Lemma stored_usage_ok d d' i t r u row :
  catalogue_ok d -> valid_reference r -> reported_usage d i t r u -> usage_stored u row ->
  db_modules d' = db_modules d -> db_versions d' = db_versions d ->
  (forall c, uuid_canon i = Some c -> exists x, x ∈ ct_deployments (db_catalog d') /\ deployment_ID x = c) ->
  usage_ok d' row.
Proof.
  intros Hok (_ & Vn & Vv) (Hc & Hi & _) (_ & Sd & Sm & Sv & Sc) Em Ev Hd.
  destruct (expected_usage_refers d r) as (En & Ew & Es & Rm & Rv).
  unfold usage_columns in Hc. injection Hc as C1 C2 C3 C4 _ C5 C6. injection Sc as S1 S2 S3 S4.
  assert (Hm : usage_ModuleID row = usage_ModuleID (expected_usage d r)).
  { rewrite C1 in Sm. destruct (usage_ModuleID (expected_usage d r)) as [j|] eqn:Ej; [|exact Sm].
    destruct Sm as (c & Hc & ->). destruct (Rm j eq_refl) as (m & Hm & <- & _).
    destruct (ck_modules _ Hok m Hm) as [Hcan _]. by rewrite (canonical_param _ _ Hcan Hc). }
  assert (Hv : usage_ModuleVersionID row = usage_ModuleVersionID (expected_usage d r)).
  { rewrite C3 in Sv. destruct (usage_ModuleVersionID (expected_usage d r)) as [j|] eqn:Ej; [|exact Sv].
    destruct Sv as (c & Hc & ->). destruct (Rv j eq_refl) as (v & Hv & <- & _).
    destruct (ck_versions _ Hok v Hv) as (Hcan & _). by rewrite (canonical_param _ _ Hcan Hc). }
  constructor; rewrite ?Em, ?Ev.
  - rewrite Hi in Sd. by apply Hd.
  - by rewrite S3, C5.
  - by rewrite S1, C2, En.
  - by rewrite S2, C4, Ew.
  - rewrite Hm, S1, C2, En. exact Rm.
  - rewrite Hm, Hv, S2, C4, Ew. exact Rv.
Qed.

Lemma runtime_ok_reported input refs out d d' :
  answers input d refs out -> report_made input refs out d d' -> runtime_ok d -> runtime_ok d'.
Proof.
  intros Ha (serviceID & usages & Hu & Hst) [Hc [I1 I2 I3 I4 I5 I6]].
  destruct Hst as (x & services & sid & i & t & rows & Hup & Hsid & Hi & Hf & Hrows & row & _ & _ & ->).
  cbn [service_Name deployment_ID] in Hup, Hi.
  pose proof (NewRuntimeServiceName_fixed _ _ (ans_service _ _ _ _ Ha)) as Vs.
  pose proof (NewRuntimeEnvironment_fixed _ _ (ans_environment _ _ _ _ Ha)) as Ve.
  destruct (upserted_ids _ _ _ _ Hup I1 Vs I2 I3) as (S1 & S2 & S3 & Sx & Sk).
  destruct (S1 x Sx) as [Hcx _]. rewrite (canonical_trim _ Hcx) in Hsid. apply (canonical_param _ _ Hcx) in Hsid as ->.
  destruct (reportedModuleReferences_Ok _ _ (ans_references _ _ _ _ Ha)) as (_ & _ & Vr & _).
  split; [by revert Hc; apply catalogue_ok_same|]. constructor; cbn; [done|done|done| | |].
  - intros y [Hy| ->%list_elem_of_singleton]%elem_of_app.
    + destruct (I4 y Hy) as (D1 & D2 & s & Hs & Es). destruct (Sk s Hs) as (s' & Hs' & Es').
      split_and!; [done..|]. exists s'. split; [done|congruence].
    + split_and!; [by eapply canonical_of|done|]. by exists x.
  - apply NoDup_map_snoc; [done|]. cbn. intros y Hy. by apply Hf.
  - intros u [Hin|Hin]%elem_of_app.
    + destruct (I6 u Hin) as [(y & Hy & Ey) U2 U3 U4 U5 U6]. constructor; try done. exists y. split; [|done].
      cbn. apply elem_of_app. by left.
    + assert (G : exists r u0, r ∈ refs /\ reported_usage d (reportOutput_DeploymentID out) (reportOutput_ReportedAt out) r u0
                    /\ usage_stored u0 u).
      { apply list_elem_of_lookup in Hin as (n & Hn). destruct (Forall2_lookup_r _ _ _ _ _ Hrows Hn) as (u0 & Hn0 & Hs).
        destruct (Forall2_lookup_r _ _ _ _ _ Hu Hn0) as (r & Hr & Hru). exists r, u0. split_and!; [|done..].
        by eapply list_elem_of_lookup_2. }
      destruct G as (r & u0 & Hr & Hru & Hs). rewrite Forall_forall in Vr.
      eapply stored_usage_ok; [exact Hc|by apply Vr|exact Hru|exact Hs|done|done|]. intros c Hcan.
      eexists. split; [cbn; apply elem_of_app; right; by apply list_elem_of_singleton|]. cbn. congruence.
Qed.
End Report.

(** ** Sequences of requests and reports *)

Inductive server_request :=
| SRegistry (q : registry_request)
| SReport (input : ReportRuntimeInventoryInput).

Section Serve.
Context `{PG : !Postgres} `{ENV : !Env} `{CR : !Crypto} `{SYS : !OS} `{STORE : !ArtifactStore} `{HOST : !Host}.
Context `{LAWS : !ArtifactStoreLaws} `{HF : !HonestFaults}.
Variable svc : Service.

Definition respond (q : server_request) (s : Registry) : Registry :=
  match q with
  | SRegistry q => serve svc q s
  | SReport input => (on_db (ReportRuntimeInventory input) s).2
  end.
Definition respond_all (qs : list server_request) (s : Registry) : Registry :=
  fold_left (fun s q => respond q s) qs s.

Definition server_ok (s : Registry) : Prop := w_tx (rg_world s) = false /\ runtime_ok (w_db (rg_world s)).

Lemma publish_request_version req name v artifact inspect :
  publish_request svc req = Ok (name, v, artifact, inspect) -> NewVersion v = Ok v.
Proof.
  unfold publish_request. destruct (NewModuleName _); [|done]. destruct (NewVersion _) eqn:E; [|done].
  destruct (publish_Artifact req); [|done]. destruct (svc_bufWorkflow svc); [|done]. intros [= _ <- _ _].
  by eapply NewVersion_fixed.
Qed.

Lemma Publish_server_ok req s : server_ok s -> server_ok (PublishModuleVersion svc req s).2.
Proof.
  intros [Htx Hok]. destruct (PublishModuleVersion svc req s) as [r s'] eqn:H. cbn [snd].
  apply Publish_outcome in H as [(_ & T & E & _)|(name & v & artifact & inspect & module & w1 & Hr & _ & H)];
    [by split; [|rewrite E]| |done].
  apply publish_request_version in Hr.
  destruct H as [e _ T E _|body bufResult _ _ (T & _ & H)]; [by split; [|rewrite E]|]. split; [done|].
  destruct H as [[_ E]|(resp & Hd & Hp & _)]; [by rewrite E|]. revert Hok. eapply runtime_ok_version; [|exact Hp].
  by rewrite (desc_version _ _ _ _ _ _ _ Hd).
Qed.

Lemma serve_server_ok q s : server_ok s -> server_ok (serve svc q s).
Proof.
  intros [Htx Hok]. destruct q as [req|req|input|req]; cbn [serve].
  - destruct (on_db_world (CreateModule req) s) as [Ew _]. unfold server_ok. rewrite Ew.
    destruct (CreateModule req (rg_world s)) as [r w'] eqn:H. cbn [snd].
    apply CreateModule_outcome in H as [T [[_ E]|H]]; [by split; [|rewrite E]| |done].
    split; [done|]. by eapply runtime_ok_module.
  - by apply Publish_server_ok.
  - destruct (on_db_world (DeprecateModuleVersion input) s) as [Ew _]. unfold server_ok. rewrite Ew.
    destruct (DeprecateModuleVersion input (rg_world s)) as [r w'] eqn:H. cbn [snd].
    apply Deprecate_outcome in H as [T H]; [|done]. split; [done|].
    destruct H as [[_ E]|(v & _ & _ & [(_ & _ & E)|(_ & t & H & _)])]; [by rewrite E..|].
    by eapply runtime_ok_deprecated.
  - destruct (CheckBreaking svc req s) as [r s'] eqn:H. cbn [snd].
    apply (CheckBreaking_outcome svc) in H as [_ [(T & _ & E)|H]]; [by split; [|rewrite E]| |done].
    destruct H as (? & ? & ? & ? & ? & ? & ? & ? & ? & ? & ? & ? & ? & ? & ? & report & changes & _ & _ & _ & _ & _ & _
      & T & (rid & mid & vid & rows & _ & _ & _ & _ & row & _ & _ & E) & _).
    split; [done|]. rewrite E. destruct Hok as [Hc Hi]. split; [by revert Hc; apply catalogue_ok_same|].
    revert Hi. by apply inventory_ok_grows, grows_refl.
Qed.

Lemma report_server_ok input s : server_ok s -> server_ok (on_db (ReportRuntimeInventory input) s).2.
Proof.
  intros [Htx Hok]. destruct (on_db_world (ReportRuntimeInventory input) s) as [Ew _]. unfold server_ok. rewrite Ew.
  destruct (ReportRuntimeInventory input (rg_world s)) as [r w'] eqn:H. cbn [snd].
  apply Report_outcome in H as [(T & _ & E)|(T & refs & out & Ha & Hm & _)]; [by split; [|rewrite E]| |done|apply Hok].
  split; [done|]. by eapply runtime_ok_reported.
Qed.

Lemma respond_ok q s : server_ok s -> server_ok (respond q s).
Proof. destruct q; [apply serve_server_ok|apply report_server_ok]. Qed.
End Serve.

(** ** The theorems *)

Section Theorems.
Context `{PG : !Postgres} `{ENV : !Env} `{HF : !HonestFaults}.

(** C19: a report fails and changes nothing, or stores in one transaction the
    service, one new deployment and one usage for each pair of a module and a
    version that was named, with an event of the outbox.  Each usage has the
    drift that the tables give it: an unknown module or version, a deprecated
    version, the newest one, or one behind it, in this order; the answer lists
    the usages and counts each status.  An error after the transaction took
    effect only says that its commit was not acknowledged. *)
Theorem ReportRuntimeInventory_correct input w r w'
    (Htx : w_tx w = false) (Hok : catalogue_ok (w_db w)) (H : ReportRuntimeInventory input w = (r, w')) :
  failed w r w'
  \/ (w_tx w' = false /\ exists refs out,
        answers input (w_db w) refs out /\ NoDup refs
        /\ (forall named, result_mapM parse_reference (reportInput_Modules input) = Ok named ->
              forall x, x ∈ refs <-> x ∈ named)
        /\ report_made input refs out (w_db w) (w_db w')
        /\ (r = Ok out \/ (exists e, r = Err e) /\ unacknowledged)).
Proof.
  destruct (Report_outcome input w r w' Htx Hok H) as [Hf|(T & refs & out & Ha & Hm & Hr)]; [by left|right].
  split; [done|]. exists refs, out.
  destruct (reportedModuleReferences_Ok _ _ (ans_references _ _ _ _ Ha)) as (named & En & _ & Hn & Hiff & _).
  split_and!; [done|done| |done|done]. intros named' En'. rewrite En in En'. by injection En' as <-.
Qed.

Context `{CR : !Crypto} `{SYS : !OS} `{STORE : !ArtifactStore} `{HOST : !Host} `{LAWS : !ArtifactStoreLaws}.

(** whatever requests the registry serves and whatever services report, one
    after the other and however each ends: identifiers and names stay unique,
    every version belongs to a module, every deployment to a service and every
    usage to a deployment, and a usage names the module and the version it
    refers to. *)
Theorem runtime_invariant svc qs s : server_ok s -> server_ok (respond_all svc qs s).
Proof. revert s. induction qs as [|q qs IH]; intros s H; [done|]. by apply IH, respond_ok. Qed.
End Theorems.

(** ** Examples *)

Module RuntimeExamples.
#[local] Existing Instance RegistryExamples.pg.
#[local] Existing Instance RegistryExamples.crypto.
#[local] Existing Instance RegistryExamples.calm_os.
#[local] Existing Instance RegistryExamples.store.
#[local] Existing Instance RegistryExamples.store_laws.
#[local] Existing Instance RegistryExamples.host.
#[local] Existing Instance RegistryExamples.calm_env.
#[local] Instance honest : HonestFaults.
Proof. done. Qed.

Definition billing : ReportRuntimeInventoryInput :=
  mkReportInput " billing " "prod" "c0ffee" "42" None
    [mkReportedModuleInput "users" "v1"; mkReportedModuleInput "users" "v2"; mkReportedModuleInput " users " "v1 ";
     mkReportedModuleInput "users" "v9"; mkReportedModuleInput "orders" "v1"].
Definition history : list server_request :=
  [SRegistry (RCreate RegistryExamples.create_users); SRegistry (RPublish (RegistryExamples.publish_users "v1"));
   SReport billing; SRegistry (RPublish (RegistryExamples.publish_users "v2")); SReport billing;
   SRegistry (RDeprecate RegistryExamples.deprecate_users); SReport billing].
Definition after (n : nat) : Registry :=
  respond_all RegistryExamples.service (firstn n history) RegistryExamples.registry0.

Example drift_over_time :
  let statuses n := map usage_DriftStatus (ct_usages (db_catalog (w_db (rg_world (after n))))) in
  statuses 3%nat = ["up_to_date"; "unknown_version"; "unknown_version"; "unknown_version"]
  /\ skipn 4 (statuses 5%nat) = ["behind_latest"; "up_to_date"; "unknown_version"; "unknown_version"]
  /\ skipn 8 (statuses 7%nat) = ["deprecated_version"; "up_to_date"; "unknown_version"; "unknown_version"]
  /\ length (ct_services (db_catalog (w_db (rg_world (after 7))))) = 1%nat.
Proof. cbv zeta. repeat apply conj; vm_compute; reflexivity. Qed.

Lemma registry0_server_ok : server_ok RegistryExamples.registry0.
Proof. split; [done|]. split; constructor; cbn; try constructor; set_solver. Qed.

Lemma runtime_invariant_witness : server_ok (respond_all RegistryExamples.service history RegistryExamples.registry0).
Proof. exact (runtime_invariant RegistryExamples.service history RegistryExamples.registry0 registry0_server_ok). Defined.

Lemma server_ok_after n : server_ok (after n).
Proof.
  unfold after. generalize RegistryExamples.registry0 registry0_server_ok. induction (firstn n history) as [|q qs IH];
    intros s H; [done|]. by apply IH, respond_ok.
Qed.

Lemma ReportRuntimeInventory_correct_witness :
  exists refs out, answers billing (w_db (rg_world (after 4))) refs out
    /\ report_made billing refs out (w_db (rg_world (after 4)))
         (w_db (ReportRuntimeInventory billing (rg_world (after 4))).2).
Proof.
  assert (Hok : is_ok (ReportRuntimeInventory billing (rg_world (after 4))).1 = true) by (vm_compute; reflexivity).
  destruct (server_ok_after 4) as [Htx [Hc _]].
  destruct (ReportRuntimeInventory billing (rg_world (after 4))) as [r w'] eqn:E. cbn [fst snd] in *.
  destruct (ReportRuntimeInventory_correct billing _ r w' Htx Hc E) as [(_ & [e He] & _)|(_ & refs & out & Ha & _ & _ & Hm & _)].
  - exfalso. rewrite He in Hok. discriminate Hok.
  - exists refs, out. split; [exact Ha|exact Hm].
Defined.
End RuntimeExamples.
