(* ===== verification/ServerPolicy.v ===== *)
(** * The approval workflow as the server wires it

    [app/bootstrap/server.go] gives the approval service the repositories of the
    dependency graph and of the runtime inventory.  The runtime impact of a
    report then lists only usages of the module of the report, so that no other
    module is ever seen in production. *)

From S2P Require Import Prelude Errors GoStrings JsonScan Domain Json Effects Postgres Outbox Events Tables World GovernanceStore UseCase CatalogStore DescriptorStore DependencyStore DependencyGraph RuntimeStore RuntimeInventory AuditLog Policy Approval ApprovalSafety Storage Registry RegistrySafety RuntimeSafety RegistryInvariant RuntimeInvariant.

Open Scope string_scope.
Open Scope Z_scope.

(** ** The providers *)

#[export] Instance server_providers `{PG : !Postgres} `{ENV : !Env} : ApprovalProviders World := {|
  ListAffectedModules := Some DependencyStore.ListAffectedModules;
  ListRuntimeImpactByModuleVersion := Some RuntimeStore.ListRuntimeImpactByModuleVersion |}.

Section Server.
Context `{PG : !Postgres} `{ENV : !Env}.

Lemma same_db_ListAffected id : preserves same_db (DependencyStore.ListAffectedModules id).
Proof. unfold DependencyStore.ListAffectedModules. preserve; first [reads|apply same_db_scan_rows]. Qed.
Lemma same_db_ListRuntimeImpact report version l o :
  preserves same_db (RuntimeStore.ListRuntimeImpactByModuleVersion report version l o).
Proof. unfold RuntimeStore.ListRuntimeImpactByModuleVersion. preserve; first [reads|apply same_db_scan_rows]. Qed.

(** They discharge what the approval service relies on. *)
#[export] Instance server_providers_laws : ApprovalProvidersLaws.
Proof. split; intros ? ? *; intros [= <-]; [apply same_db_ListAffected|apply same_db_ListRuntimeImpact]. Qed.

(** ** What they return *)

Lemma scan_rows_elem {A B} (scan : A -> result B) rows w l w' y :
  scan_rows scan rows w = (Ok l, w') -> y ∈ l -> exists x, x ∈ rows /\ scan x = Ok y.
Proof.
  intros [H _]%scan_rows_mapM Hy. revert l H Hy. induction rows as [|x rows IH]; intros l H Hy; cbn in H.
  { injection H as <-. set_solver. }
  destruct (scan x) as [z|] eqn:Ez; [|done]. destruct (result_mapM scan rows) as [zs|]; [|done]. injection H as <-.
  apply elem_of_cons in Hy as [->|Hy]; [exists x; split; [by left|done]|].
  destruct (IH zs eq_refl Hy) as (x' & Hx & E). exists x'. split; [by right|done].
Qed.

Lemma elem_of_limit_offset {A} l o (rows : list A) x : x ∈ limit_offset l o rows -> x ∈ rows.
Proof. unfold limit_offset. intros H%elem_of_firstn. rewrite <- (take_drop (Z.to_nat o) rows). set_solver. Qed.

(** The impact of a version names the module of the version. *)
Lemma ListRuntimeImpact_module report version c l o w items w' item :
  runtime_ok (w_db w) -> uuid_canon version = Some c ->
  RuntimeStore.ListRuntimeImpactByModuleVersion report version l o w = (Ok items, w') -> item ∈ items ->
  exists v m, v ∈ db_versions (w_db w) /\ version_ID v = c /\ m ∈ db_modules (w_db w)
    /\ module_ID m = version_ModuleID v /\ impact_UsedModule item = module_Name m.
Proof.
  intros [Hc Hi] Hver H Hin. unfold RuntimeStore.ListRuntimeImpactByModuleVersion in H.
  apply bind_Ok in H as (rows & w1 & H1 & H2). eapply scan_rows_elem in H2 as (row & Hrow & Hs); [|done].
  apply map_err_Ok, exec_db_Ok in H1 as [H1 _]. apply bind_Ok in H1 as (c' & d & [Hc' ->]%uuid_param_Ok & H1).
  rewrite Hver in Hc'. injection Hc' as <-. apply bind_Ok in H1 as (u & d1 & H1 & [-> _]%gets_Ok).
  assert (d1 = w_db w) as -> by (pose proof (page_params_pure l o (w_db w)) as E; by rewrite H1 in E). clear H1.
  apply elem_of_map in Hrow as ([us rd] & Hrow & ->). apply elem_of_limit_offset, elem_of_sort_by in Hrow.
  unfold joined_usages in Hrow. apply elem_of_flat_map in Hrow as (us' & [Hus Hv]%elem_of_filter_bool & Hrow).
  apply elem_of_map in Hrow as (rd' & _ & [= -> ->]).
  destruct (io_usages _ Hi us' Hus) as [_ _ Un _ Um Uv]. unfold same_id in Hv.
  destruct (usage_ModuleVersionID us') as [j|]; [|done]. apply eqs_true in Hv as ->.
  destruct (Uv c eq_refl) as (v & Hvin & Ev & _ & Em). destruct (Um _ Em) as (m & Hm & Emid & Emn).
  exists v, m. split_and!; [done..|]. unfold scanRuntimeImpact in Hs. cbn in Hs. rewrite Un in Hs.
  destruct (NewRuntimeServiceName _); [|done]. destruct (NewRuntimeEnvironment _); [|done].
  destruct (NewVersion _); [|done]. destruct (NewRuntimeDriftStatus _); [|done]. by injection Hs as <-.
Qed.

(** A report compares with a version of its own module. *)
Definition reports_own_versions (d : Database) : Prop := forall br v,
  br ∈ db_reports d -> v ∈ db_versions d -> version_ID v = report_BaseVersionID br ->
  version_ModuleID v = report_ModuleID br.

(** The CHECK constraint of the table of dependencies. *)
Definition no_self_edges (d : Database) : Prop := forall x, x ∈ ct_dependencies (db_catalog d) ->
  dependency_ConsumerModuleID x <> dependency_ProviderModuleID x.

(** An affected module is another module. *)
Lemma ListAffected_other id c w items w' item m :
  catalogue_ok (w_db w) -> no_self_edges (w_db w) -> uuid_canon id = Some c ->
  m ∈ db_modules (w_db w) -> module_ID m = c ->
  DependencyStore.ListAffectedModules id w = (Ok items, w') -> item ∈ items -> affected_ModuleName item <> module_Name m.
Proof.
  intros Hc Hg Hid Hm Em H Hin. unfold DependencyStore.ListAffectedModules in H.
  apply bind_Ok in H as (rows & w1 & H1 & H2). eapply scan_rows_elem in H2 as (row & Hrow & Hs); [|done].
  apply map_err_Ok, exec_db_Ok in H1 as [H1 _]. apply bind_Ok in H1 as (c' & d & [Hc' ->]%uuid_param_Ok & H1).
  rewrite Hid in Hc'. injection Hc' as <-. apply gets_Ok in H1 as [-> _]. unfold affected_rows in Hrow.
  apply elem_of_map in Hrow as (g & Hg' & ->). apply elem_of_sort_by in Hg'.
  rewrite elem_of_remove_dups in Hg'.
  apply elem_of_map in Hg' as (x & Hx & ->). apply elem_of_flat_map in Hx as (md & [Hmd Hp%eqs_true]%elem_of_filter_bool & Hx).
  apply elem_of_flat_map in Hx as (lcv & _ & Hx). apply elem_of_map in Hx as (cm & [Hcm Ecm%eqs_true]%elem_of_filter_bool & ->).
  unfold scanAffectedModule in Hs. cbn in Hs. destruct (ck_modules _ Hc cm Hcm) as [_ Hn]. rewrite Hn in Hs.
  destruct (NewVersion _); [|done]. injection Hs as <-. cbn. intros En. apply (Hg md Hmd).
  rewrite Hp, <- Em, <- Ecm. f_equal. by apply (NoDup_map_inj module_Name (db_modules (w_db w)) _ _ (ck_module_names _ Hc)).
Qed.

(** The columns of a report that is read. *)
Lemma Report_GetByID_row id w report changes w' :
  catalogue_ok (w_db w) -> Report_GetByID id w = (Ok (report, changes), w') ->
  exists br m v, br ∈ db_reports (w_db w) /\ m ∈ db_modules (w_db w) /\ v ∈ db_versions (w_db w)
    /\ module_ID m = report_ModuleID br /\ version_ID v = report_BaseVersionID br
    /\ report_ModuleID report = module_ID m /\ report_BaseVersionID report = version_ID v
    /\ report_ModuleName report = module_Name m.
Proof.
  intros Hok H. unfold Report_GetByID in H. apply bind_Ok in H as (r & w1 & H & H2).
  assert (r = report) as -> by (apply bind_Ok in H2 as (? & ? & _ & [= <- _ _]); done). clear H2.
  apply map_err_Ok, bind_Ok in H as (row & w2 & H & [Hs ->]%lift_Ok).
  apply exec_db_Ok in H as [H _]. apply bind_Ok in H as (c & d & [Hc ->]%uuid_param_Ok & H).
  apply query_row_Ok in H as [Hrow _].
  assert (Hin : row ∈ report_rows (fun br => eqs (report_ID br) c) (w_db w))
    by (destruct (report_rows _ _); set_solver).
  unfold report_rows in Hin. apply elem_of_flat_map in Hin as (br & [Hbr _]%elem_of_filter_bool & Hin).
  apply elem_of_flat_map in Hin as (m & [Hm Em%eqs_true]%elem_of_filter_bool & Hin).
  apply elem_of_map in Hin as (v & [Hv Ev%eqs_true]%elem_of_filter_bool & ->).
  destruct (ck_modules _ Hok m Hm) as [Cm Nm]. destruct (ck_versions _ Hok v Hv) as (Cv & Nv & _).
  unfold scanBreakingReport in Hs. cbn in Hs. rewrite Nm, Nv in Hs.
  destruct (NewBreakingReportStatus _); [|done]. injection Hs as <-. exists br, m, v.
  split_and!; try done; cbn; rewrite <- ?Em, <- ?Ev; by apply canonical_trim.
Qed.

(** A module that the policy considers keeps the name it was listed under. *)
Lemma policyAffectedModules_names affected w items w' a :
  catalogue_ok (w_db w) -> policyAffectedModules affected w = (Ok items, w') -> a ∈ items ->
  policyAffected_ProductionUsed a = false
  /\ exists x, x ∈ affected /\ policyAffected_ModuleName a = affected_ModuleName x.
Proof.
  revert w items w'. induction affected as [|x affected IH]; intros w items w' Hok H Ha.
  { injection H as <- _. set_solver. }
  unfold policyAffectedModules in H. cbn [mapM] in H. apply bind_Ok in H as (y & w1 & H1 & H).
  apply bind_Ok in H as (ys & w2 & H2 & [-> _]%ret_Ok).
  assert (E : same_db w w1).
  { refine (preserves_run same_db _ _ _ _ _ H1).
    repeat first [apply same_db_Module_GetByName|apply same_db_or_empty, same_db_Owner_ListByModule|preserve_step]. }
  apply elem_of_cons in Ha as [->|Ha].
  - assert (G : policyAffected_ProductionUsed y = false /\ policyAffected_ModuleName y = affected_ModuleName x);
      [|destruct G; split; [done|exists x; split; [by left|done]]].
    rewrite bind_try in H1. destruct (Module_GetByName (affected_ModuleName x) w) as [[m|e] w3] eqn:Em.
    + apply Module_GetByName_Ok in Em as (row & Hrow & En & _ & Hn). destruct (ck_modules _ Hok row Hrow) as [_ Nr].
      rewrite En, Hn in Nr. injection Nr as Nr. apply bind_Ok in H1 as (os & w4 & _ & [-> _]%ret_Ok). by split.
    + destruct (errors_Is e _); [|done]. by injection H1 as <- _.
  - destruct (IH w1 ys w2) as (Hp & z & Hz & Ez); [by destruct E as [-> _]|done|done|].
    split; [done|]. exists z. split; [by right|done].
Qed.

(** The runtime impact and the affected modules of a context have no module in
    common. *)
Lemma context_disjoint reportID w ctx w' a :
  runtime_ok (w_db w) -> no_self_edges (w_db w) ->
  reports_own_versions (w_db w) ->
  approvalPolicyContextForReport reportID w = (Ok ctx, w') ->
  a ∈ context_AffectedModules ctx ->
  policyAffected_ProductionUsed a = false
  /\ forall item, item ∈ context_RuntimeImpact ctx -> impact_UsedModule item <> policyAffected_ModuleName a.
Proof.
  intros Hok Hg Hbase H Ha. pose proof Hok as [Hc _]. unfold approvalPolicyContextForReport in H.
  apply bind_Ok in H as ([report changes] & w1 & H1%map_err_Ok & H).
  pose proof (preserves_run same_db _ _ _ _ (same_db_Report_GetByID _) H1) as S1.
  apply Report_GetByID_row in H1 as (br & m & v & Hbr & Hm & Hv & Em & Ev & Rm & Rv & _); [|done].
  destruct (ck_modules _ Hc m Hm) as [Cm _]. destruct (ck_versions _ Hc v Hv) as (Cv & _).
  apply bind_Ok in H as (module & w2 & H2%map_err_Ok & H).
  pose proof (preserves_run same_db _ _ _ _ (same_db_Module_GetByID _) H2) as S2.
  apply bind_Ok in H as (owners & w3 & H3 & H).
  pose proof (preserves_run same_db _ _ _ _ (same_db_or_empty _ (same_db_Owner_ListByModule _)) H3) as S3.
  apply bind_Ok in H as (affected & w4 & H4 & H).
  pose proof (preserves_run same_db _ _ _ _ (same_db_or_empty _ (same_db_ListAffected _)) H4) as S4.
  apply bind_Ok in H as (impact & w5 & H5 & H).
  apply bind_Ok in H as (policyAffected & w6 & H6 & [-> _]%ret_Ok). cbn in Ha |- *.
  assert (S5 : same_db w4 w5).
  { refine (preserves_run same_db _ _ _ _ _ H5). unfold runtimeImpact. cbn.
    repeat first [apply same_db_or_empty, same_db_ListRuntimeImpact|preserve_step]. }
  destruct S1 as [S1 _], S2 as [S2 _], S3 as [S3 _], S4 as [S4 _], S5 as [S5 _].
  rewrite Rm in H4. rewrite S4, S3, S2, S1 in S5.
  destruct (policyAffectedModules_names affected w5 policyAffected w6 a ltac:(by rewrite S5) H6 Ha) as (Hp & x & Hx & Ex).
  split; [done|]. rewrite Ex. intros item Hi E. rewrite S3, S2, S1 in S4.
  assert (Hne : affected_ModuleName x <> module_Name m).
  { unfold affectedModules, or_empty in H4. cbn in H4. rewrite bind_try in H4.
    destruct (DependencyStore.ListAffectedModules (module_ID m) w3) as [[l|e] w7] eqn:El.
    - injection H4 as -> _. rewrite S2, S1 in S3. eapply ListAffected_other in El; try done; by rewrite ?S3.
    - destruct (errors_Is e _); [|done]. injection H4 as <- _. set_solver. }
  apply Hne. rewrite <- E. unfold runtimeImpact, or_empty in H5. cbn in H5. rewrite Rv in H5.
  destruct (version_ID v =? "")%string; [injection H5 as <- _; set_solver|]. rewrite bind_try in H5.
  destruct (RuntimeStore.ListRuntimeImpactByModuleVersion _ _ _ _ w4) as [[l|e] w7] eqn:El.
  - injection H5 as -> _. eapply ListRuntimeImpact_module in El; [|by rewrite S4|exact Cv|done].
    rewrite S4 in El. destruct El as (v' & m' & Hv' & Ev' & Hm' & Em' & ->).
    assert (v' = v) as -> by (by apply (NoDup_map_inj version_ID (db_versions (w_db w)) _ _ (ck_version_ids _ Hc))).
    f_equal. apply (NoDup_map_inj module_ID (db_modules (w_db w)) _ _ (ck_module_ids _ Hc)); [done..|].
    rewrite Em', Em. by apply Hbase.
  - destruct (errors_Is e _); [|done]. injection H5 as <- _. set_solver.
Qed.
End Server.

(** ** No consumer is asked *)

Definition policy_input (ctx : approvalPolicyContext) (config : PolicyConfig) : EvaluatePolicyInput :=
  mkEvaluatePolicyInput (context_Report ctx) (context_ModuleOwners ctx) (context_AffectedModules ctx)
    (context_RuntimeImpact ctx) config.

Section Policy.
Context `{PG : !Postgres} `{ENV : !Env} `{UNI : !Unicode}.

(** In the server, the policy asks only the owners of the module of a report:
    whatever the inventory says of the modules that depend on it, none of them
    is ever found in production, because the runtime impact given to the policy
    lists the usages of the module's own version. *)
Theorem server_policy_asks_no_consumer reportID w ctx w' config
    (Hok : runtime_ok (w_db w)) (Hself : no_self_edges (w_db w)) (Hreports : reports_own_versions (w_db w))
    (H : approvalPolicyContextForReport reportID w = (Ok ctx, w')) :
  Forall (fun plan => plan_RequirementType plan = ApprovalRequirementTypeModuleOwnerApproval)
    (policy_Requirements (EvaluatePolicy (policy_input ctx config))).
Proof.
  rewrite EvaluatePolicy_requirements. destruct (approval_required _); [|constructor].
  apply Forall_forall. intros plan (c & Hc & ->)%elem_of_map.
  apply elem_of_first_by_key in Hc as [[->|Hc]%elem_of_cons _].
  { unfold annotate. by destruct (hasEligibleOwner _ _). }
  exfalso. apply elem_of_map in Hc as (a & [Ha Hu]%elem_of_filter_bool & _).
  destruct (context_disjoint reportID w ctx w' a Hok Hself Hreports H Ha) as [Hp Hi].
  apply usedInProduction_spec in Hu as [Hu|(item & e & Hin & _ & _ & _ & Hu)]; [congruence|by apply (Hi item)].
Qed.
End Policy.

(** ** A consumer in production *)

Module ServerExamples.
#[local] Existing Instance example_unicode.
#[local] Existing Instance RegistryExamples.pg.
#[local] Existing Instance RegistryExamples.calm_env.

Definition module (i name : string) : Module_ := mkModule i name "" "" 0 0.
Definition version (i m : string) : ModuleVersion :=
  mkModuleVersion i m "v1" ModuleVersionStatusPublished "" 1 None None "" "".
Definition usage (i m name v : string) : RuntimeModuleUsage :=
  mkRuntimeModuleUsage i "dd" (Some m) name (Some v) "v1" None RuntimeDriftStatusUpToDate DriftReasonUpToDate 0.

(** [orders] depends on [users]; a service runs both in production. *)
Definition server_db : Database :=
  mkDatabase [module "a" "users"; module "b" "orders"] [version "a1" "a"; version "b1" "b"]
    [mkBreakingReport "c" "a" "" "a1" "" "main" BreakingReportStatusBreaking 1 "" "" 0] []
    [mkModuleOwner "e" "a" "" GovernanceSubjectTypeUser "ann" ModuleOwnerRoleOwner 0 0;
     mkModuleOwner "f" "b" "" GovernanceSubjectTypeUser "bob" ModuleOwnerRoleOwner 0 0]
    [] [] [] [] [] (mkOutboxTable [] 0)
    (mkCatalog [] [] (mkDescriptors [] [] [] [] [] [] [] [] 0)
       [mkModuleDependency "d" "b" "" "b1" "" "a" "" "a1" "" DependencySourceImport "" "users.proto" "" "" 0] []
       [mkRuntimeService "ee" "billing" 0 0] [mkRuntimeDeployment "dd" "ee" "" "prod" "c0ffee" "1" 0 0]
       [usage "ab" "a" "users" "a1"; usage "ac" "b" "orders" "b1"] []).
Definition server_world : World := mkWorld server_db false 0.

(** Each row of a concrete table. *)
Ltac each_row :=
  let x := fresh "x" in let Hx := fresh "Hx" in
  intros x Hx; repeat (apply elem_of_cons in Hx as [->|Hx]); [..|by apply elem_of_nil in Hx].
Ltac some_row :=
  solve [ eexists; split; [apply list_elem_of_here|by split_and?]
        | eexists; split; [apply list_elem_of_further, list_elem_of_here|by split_and?] ].
Ltac distinct := apply (bool_decide_unpack _); vm_compute; done.

Lemma server_db_ok : runtime_ok server_db.
Proof.
  split; constructor; cbn [server_db db_modules db_versions db_catalog ct_services ct_deployments ct_usages]; try distinct.
  - each_row; by split.
  - each_row; split_and!; try done; some_row.
  - each_row; by split.
  - each_row. split_and!; try done. some_row.
  - each_row; constructor; try done.
    1, 4: some_row.
    all: intros i [= <-]; some_row.
Qed.

Example consumer_in_production :
  match approvalPolicyContextForReport "c" server_world with
  | (Ok ctx, _) =>
      map policyAffected_ModuleName (context_AffectedModules ctx) = ["orders"]
      /\ map impact_UsedModule (context_RuntimeImpact ctx) = ["users"]
      /\ map plan_TargetModuleName (policy_Requirements (EvaluatePolicy (policy_input ctx DefaultPolicyConfig))) = ["users"]
  | _ => False
  end.
Proof. vm_compute. done. Qed.

Lemma server_policy_asks_no_consumer_witness :
  match approvalPolicyContextForReport "c" server_world with
  | (Ok ctx, _) => Forall (fun plan => plan_RequirementType plan = ApprovalRequirementTypeModuleOwnerApproval)
      (policy_Requirements (EvaluatePolicy (policy_input ctx DefaultPolicyConfig)))
  | _ => False
  end.
Proof.
  destruct (approvalPolicyContextForReport "c" server_world) as [[ctx|e] w'] eqn:E; [|vm_compute in E; discriminate E].
  apply (server_policy_asks_no_consumer "c" server_world ctx w' DefaultPolicyConfig server_db_ok); [| |exact E].
  - each_row; discriminate.
  - intros br v Hbr Hv. revert br Hbr v Hv. each_row. each_row; [done|discriminate].
Defined.
End ServerExamples.
