(* ===== verification/HttpDto.v ===== *)
(** * The bodies of the HTTP interface

    [transport/http/*_dto.go]. A response type is the JSON object its struct
    tags describe, given its fields; a response function fills the fields. The
    request types are records with their decoders. *)

From S2P Require Import Prelude Errors GoStrings Edition JsonScan Domain Json Effects Postgres Outbox Events Tables World GovernanceStore UseCase CatalogStore JsonDecode DependencyStore DependencyGraph RuntimeStore RuntimeInventory Identity Archive Storage Registry.

Open Scope string_scope.
Open Scope Z_scope.

(** [omitempty] of a pointer, a number and a slice. *)
Definition omit_nil {A} (name : string) (encode : A -> json) (v : option A) : list (string * json) :=
  match v with Some a => [(name, encode a)] | None => [] end.
Definition omit_zero (name : string) (z : Z) : list (string * json) := if z =? 0 then [] else [(name, JInt z)].
Definition omit_empty (name : string) (l : list json) : list (string * json) :=
  match l with [] => [] | _ => [(name, JArray l)] end.
Definition JStrings (l : list string) : json := JArray (map JString l).

(** ** [error_dto.go] *)

Definition apiErrorDTO (Code Message : string) : json := JObject [("code", JString Code); ("message", JString Message)].
Definition errorResponse (Error : json) : json := JObject [("error", Error)].
(** A map is written with its keys in order. *)
Definition readinessResponse (Status : string) (Checks : list (string * json)) : json :=
  JObject [("status", JString Status); ("checks", JObject Checks)].

(** ** [module_dto.go] *)

Record createModuleRequest := mkCreateModuleBody {
  cm_Name : string;
  cm_Description : string;
  cm_RepositoryURL : string }.
Definition createModuleRequest_zero : createModuleRequest := mkCreateModuleBody "" "" "".
Definition createModuleRequest_fields : fields createModuleRequest :=
  [field "name" cm_Name (fun v r => mkCreateModuleBody v (cm_Description r) (cm_RepositoryURL r)) decode_string;
   field "description" cm_Description (fun v r => mkCreateModuleBody (cm_Name r) v (cm_RepositoryURL r)) decode_string;
   field "repository_url" cm_RepositoryURL (fun v r => mkCreateModuleBody (cm_Name r) (cm_Description r) v) decode_string].

Definition moduleDTO (ID Name Description RepositoryURL : string) (CreatedAt UpdatedAt : time) : json :=
  JObject [("id", JString ID); ("name", JString Name); ("description", JString Description);
           ("repository_url", JString RepositoryURL); ("created_at", JTime CreatedAt); ("updated_at", JTime UpdatedAt)].
Definition listModulesResponse (Modules : list json) : json := JObject [("modules", JArray Modules)].

Record linkModuleGitLabProjectRequest := mkLinkBody {
  lm_GitLabBaseURL : string;
  lm_GitLabProjectID : Z;
  lm_GitLabProjectPath : string }.
Definition linkModuleGitLabProjectRequest_zero : linkModuleGitLabProjectRequest := mkLinkBody "" 0 "".
Definition linkModuleGitLabProjectRequest_fields : fields linkModuleGitLabProjectRequest :=
  [field "gitlab_base_url" lm_GitLabBaseURL
     (fun v r => mkLinkBody v (lm_GitLabProjectID r) (lm_GitLabProjectPath r)) decode_string;
   field "gitlab_project_id" lm_GitLabProjectID
     (fun v r => mkLinkBody (lm_GitLabBaseURL r) v (lm_GitLabProjectPath r)) decode_int64;
   field "gitlab_project_path" lm_GitLabProjectPath
     (fun v r => mkLinkBody (lm_GitLabBaseURL r) (lm_GitLabProjectID r) v) decode_string].

Definition moduleGitLabProjectDTO (Module GitLabBaseURL : string) (GitLabProjectID : Z) (GitLabProjectPath : string)
    (CreatedAt UpdatedAt : time) : json :=
  JObject [("module", JString Module); ("gitlab_base_url", JString GitLabBaseURL);
           ("gitlab_project_id", JInt GitLabProjectID); ("gitlab_project_path", JString GitLabProjectPath);
           ("created_at", JTime CreatedAt); ("updated_at", JTime UpdatedAt)].

Definition moduleVersionDTO (ID ModuleID Version Digest Status : string) (CreatedAt : time)
    (PublishedAt DeprecatedAt : option time) (DeprecatedBy DeprecationReason : string) : json :=
  JObject ([("id", JString ID); ("module_id", JString ModuleID); ("version", JString Version); ("digest", JString Digest);
            ("status", JString Status); ("created_at", JTime CreatedAt)]
           ++ omit_nil "published_at" JTime PublishedAt ++ omit_nil "deprecated_at" JTime DeprecatedAt
           ++ [("deprecated_by", JString DeprecatedBy); ("deprecation_reason", JString DeprecationReason)])%list.
Definition listModuleVersionsResponse (Versions : list json) : json := JObject [("versions", JArray Versions)].

Record deprecateModuleVersionRequest := mkDeprecateBody { dm_Reason : string }.
Definition deprecateModuleVersionRequest_zero : deprecateModuleVersionRequest := mkDeprecateBody "".
Definition deprecateModuleVersionRequest_fields : fields deprecateModuleVersionRequest :=
  [field "reason" dm_Reason (fun v _ => mkDeprecateBody v) decode_string].

Definition moduleResponse (module : Module_) : json :=
  moduleDTO (module_ID module) (module_Name module) (module_Description module) (module_RepositoryURL module)
    (module_CreatedAt module) (module_UpdatedAt module).

Definition moduleGitLabProjectResponse (mapping : ModuleGitLabProject) : json :=
  moduleGitLabProjectDTO (gitlab_ModuleName mapping) (gitlab_BaseURL mapping) (gitlab_ProjectID mapping)
    (gitlab_ProjectPath mapping) (gitlab_CreatedAt mapping) (gitlab_UpdatedAt mapping).

Definition moduleVersionResponse (version : ModuleVersion) : json :=
  moduleVersionDTO (version_ID version) (version_ModuleID version) (version_Version version) (version_Digest version)
    (version_Status version) (version_CreatedAt version) (version_PublishedAt version) (version_DeprecatedAt version)
    (version_DeprecatedBy version) (version_DeprecationReason version).

(** ** [metadata_dto.go] *)

Definition metadataSummaryDTO (Files Packages Imports Services Methods Messages Fields Enums EnumValues : Z) : json :=
  JObject ([("files", JInt Files)] ++ omit_zero "packages" Packages
           ++ [("imports", JInt Imports); ("services", JInt Services); ("methods", JInt Methods);
               ("messages", JInt Messages); ("fields", JInt Fields); ("enums", JInt Enums);
               ("enum_values", JInt EnumValues)])%list.
Definition descriptorMetadataDTO (Files : list json) : json := JObject [("files", JArray Files)].
Definition protoFileDTO (Path PackageName Syntax : string) (Imports Services Messages Enums : list json) : json :=
  JObject ([("path", JString Path); ("package_name", JString PackageName); ("syntax", JString Syntax)]
           ++ omit_empty "imports" Imports ++ omit_empty "services" Services ++ omit_empty "messages" Messages
           ++ omit_empty "enums" Enums)%list.
Definition protoImportDTO (Path : string) (Public Weak : bool) : json :=
  JObject [("path", JString Path); ("public", JBool Public); ("weak", JBool Weak)].
Definition protoServiceDTO (Name FullName : string) (Methods : list json) : json :=
  JObject ([("name", JString Name); ("full_name", JString FullName)] ++ omit_empty "methods" Methods)%list.
Definition protoMethodDTO (Name InputType OutputType : string) (ClientStreaming ServerStreaming : bool) : json :=
  JObject [("name", JString Name); ("input_type", JString InputType); ("output_type", JString OutputType);
           ("client_streaming", JBool ClientStreaming); ("server_streaming", JBool ServerStreaming)].
Definition protoMessageDTO (Name FullName : string) (Fields Messages Enums : list json) : json :=
  JObject ([("name", JString Name); ("full_name", JString FullName)] ++ omit_empty "fields" Fields
           ++ omit_empty "messages" Messages ++ omit_empty "enums" Enums)%list.
Definition protoFieldDTO (Name : string) (Number : Z) (Type_ TypeName Label JSONName OneofName : string)
    (IsRepeated IsMap : bool) : json :=
  JObject [("name", JString Name); ("number", JInt Number); ("type", JString Type_); ("type_name", JString TypeName);
           ("label", JString Label); ("json_name", JString JSONName); ("oneof_name", JString OneofName);
           ("is_repeated", JBool IsRepeated); ("is_map", JBool IsMap)].
Definition protoEnumDTO (Name FullName : string) (Values : list json) : json :=
  JObject ([("name", JString Name); ("full_name", JString FullName)] ++ omit_empty "values" Values)%list.
Definition protoEnumValueDTO (Name : string) (Number : Z) : json :=
  JObject [("name", JString Name); ("number", JInt Number)].

Definition metadataSummaryResponse (summary : DescriptorMetadataSummary) : json :=
  metadataSummaryDTO (summary_FileCount summary) (summary_PackageCount summary) (summary_ImportCount summary)
    (summary_ServiceCount summary) (summary_MethodCount summary) (summary_MessageCount summary)
    (summary_FieldCount summary) (summary_EnumCount summary) (summary_EnumValueCount summary).

Definition protoImportResponse (protoImport : ProtoImport) : json :=
  protoImportDTO (import_Path protoImport) (import_Public protoImport) (import_Weak protoImport).

Definition protoServiceResponse (service : ProtoService) : json :=
  protoServiceDTO (protoService_Name service) (protoService_FullName service)
    (map (fun method => protoMethodDTO (method_Name method) (method_InputType method) (method_OutputType method)
                          (method_ClientStreaming method) (method_ServerStreaming method)) (protoService_Methods service)).

Definition protoEnumResponse (enum : ProtoEnum) : json :=
  protoEnumDTO (enum_Name enum) (enum_FullName enum)
    (map (fun value => protoEnumValueDTO (enumValue_Name value) (enumValue_Number value)) (enum_Values enum)).

Definition protoFieldResponse (field : ProtoField) : json :=
  protoFieldDTO (field_Name field) (field_Number field) (field_Type field) (field_TypeName field) (field_Label field)
    (field_JSONName field) (field_OneofName field) (field_IsRepeated field) (field_IsMap field).

Fixpoint protoMessageResponse (message : ProtoMessage) : json :=
  protoMessageDTO (message_Name message) (message_FullName message) (map protoFieldResponse (message_Fields message))
    (map protoMessageResponse (message_Messages message)) (map protoEnumResponse (message_Enums message)).

Definition protoFileResponse (file : ProtoFile) : json :=
  protoFileDTO (file_Path file) (file_PackageName file) (file_Syntax file) (map protoImportResponse (file_Imports file))
    (map protoServiceResponse (file_Services file)) (map protoMessageResponse (file_Messages file))
    (map protoEnumResponse (file_Enums file)).

Definition descriptorMetadataResponse (metadata : DescriptorMetadata) : json :=
  descriptorMetadataDTO (map protoFileResponse (metadata_Files metadata)).

(** ** [artifact_dto.go] *)

Definition artifactSummaryDTO (Kind : string) (SizeBytes : Z) (ChecksumSHA256 : string) : json :=
  JObject [("kind", JString Kind); ("size_bytes", JInt SizeBytes); ("checksum_sha256", JString ChecksumSHA256)].
Definition bufInfoDTO (ConfigPresent LockPresent : bool) (BufYAMLDigest BufLockDigest : string)
    (ModulePaths Deps : list string) (LintEnabled : bool) (LintStatus LintReport : string)
    (BreakingConfigPresent : bool) : json :=
  JObject ([("config_present", JBool ConfigPresent); ("lock_present", JBool LockPresent)]
           ++ omitempty "buf_yaml_digest" BufYAMLDigest ++ omitempty "buf_lock_digest" BufLockDigest
           ++ omit_empty "module_paths" (map JString ModulePaths) ++ omit_empty "deps" (map JString Deps)
           ++ [("lint_enabled", JBool LintEnabled); ("lint_status", JString LintStatus)]
           ++ omitempty "lint_report" LintReport ++ [("breaking_config_present", JBool BreakingConfigPresent)])%list.
Definition publishModuleVersionResponse (Module Version Status : string)
    (SourceArtifact BufImageArtifact Buf MetadataSummary : json) (CreatedAt : time) : json :=
  JObject [("module", JString Module); ("version", JString Version); ("status", JString Status);
           ("source_artifact", SourceArtifact); ("buf_image_artifact", BufImageArtifact); ("buf", Buf);
           ("metadata_summary", MetadataSummary); ("created_at", JTime CreatedAt)].
Definition moduleVersionDetailsDTO (ID ModuleID Module Version Digest Status : string) (Artifacts : list json)
    (Buf MetadataSummary : json) (CreatedAt : time) (PublishedAt DeprecatedAt : option time)
    (DeprecatedBy DeprecationReason : string) : json :=
  JObject ([("id", JString ID); ("module_id", JString ModuleID); ("module", JString Module); ("version", JString Version);
            ("digest", JString Digest); ("status", JString Status); ("artifacts", JArray Artifacts); ("buf", Buf);
            ("metadata_summary", MetadataSummary); ("created_at", JTime CreatedAt)]
           ++ omit_nil "published_at" JTime PublishedAt ++ omit_nil "deprecated_at" JTime DeprecatedAt
           ++ [("deprecated_by", JString DeprecatedBy); ("deprecation_reason", JString DeprecationReason)])%list.

Definition artifactSummaryResponse (artifact : Artifact) : json :=
  artifactSummaryDTO (artifact_Kind artifact) (artifact_SizeBytes artifact) (artifact_ChecksumSHA256 artifact).

Definition bufInfoResponse (config : BufConfigInfo) (lint : BufLintResult) : json :=
  let lintStatus := if (lint_Status lint =? "")%string then BufLintStatusNotRun else lint_Status lint in
  bufInfoDTO (buf_YAMLPresent config) (buf_LockPresent config) (buf_YAMLDigest config) (buf_LockDigest config)
    (buf_ModulePaths config) (buf_Deps config) (buf_LintEnabled config) lintStatus (lint_Report lint)
    (buf_BreakingConfigPresent config).

Definition moduleVersionDetailsResponse (moduleName : string) (details : ModuleVersionDetailsResponse) : json :=
  let version := details_Version details in
  moduleVersionDetailsDTO (version_ID version) (version_ModuleID version) moduleName (version_Version version)
    (version_Digest version) (version_Status version) (map artifactSummaryResponse (details_Artifacts details))
    (bufInfoResponse (details_BufConfig details) (details_LintResult details))
    (metadataSummaryResponse (details_MetadataSummary details)) (version_CreatedAt version)
    (version_PublishedAt version) (version_DeprecatedAt version) (version_DeprecatedBy version)
    (version_DeprecationReason version).

(** ** [breaking_dto.go] *)

Definition breakingChangeDTO (Category FilePath PackageName Symbol RuleID Message Severity : string) : json :=
  JObject [("category", JString Category); ("file_path", JString FilePath); ("package_name", JString PackageName);
           ("symbol", JString Symbol); ("rule_id", JString RuleID); ("message", JString Message);
           ("severity", JString Severity)].
Definition breakingReportDTO (ID Module Against TargetRef Status : string) (ChangeCount : Z) (Changes : list json)
    (HumanSummary : string) (CreatedAt : time) : json :=
  JObject [("id", JString ID); ("module", JString Module); ("against", JString Against); ("target_ref", JString TargetRef);
           ("status", JString Status); ("change_count", JInt ChangeCount); ("changes", JArray Changes);
           ("human_summary", JString HumanSummary); ("created_at", JTime CreatedAt)].
Definition breakingReportSummaryDTO (ID Module Against TargetRef Status : string) (ChangeCount : Z)
    (HumanSummary : string) (CreatedAt : time) : json :=
  JObject [("id", JString ID); ("module", JString Module); ("against", JString Against); ("target_ref", JString TargetRef);
           ("status", JString Status); ("change_count", JInt ChangeCount); ("human_summary", JString HumanSummary);
           ("created_at", JTime CreatedAt)].
Definition listBreakingReportsResponse (Reports : list json) : json := JObject [("reports", JArray Reports)].

Definition breakingChangeResponse (change : BreakingChange) : json :=
  breakingChangeDTO (change_Category change) (change_FilePath change) (change_PackageName change) (change_Symbol change)
    (change_RuleID change) (change_Message change) (change_Severity change).

Definition breakingReportResponse (report : BreakingReport) (changes : list BreakingChange) : json :=
  breakingReportDTO (report_ID report) (report_ModuleName report) (report_BaseVersion report) (report_TargetRef report)
    (report_Status report) (report_ChangeCount report) (map breakingChangeResponse changes)
    (report_HumanSummary report) (report_CreatedAt report).

Definition breakingReportSummaryResponse (report : BreakingReport) : json :=
  breakingReportSummaryDTO (report_ID report) (report_ModuleName report) (report_BaseVersion report)
    (report_TargetRef report) (report_Status report) (report_ChangeCount report) (report_HumanSummary report)
    (report_CreatedAt report).

(** ** [dependency_dto.go] *)

Definition dependencyModuleDTO (Module LatestVersion : string) (DependencySources Reasons : list string) : json :=
  JObject [("module", JString Module); ("latest_version", JString LatestVersion);
           ("dependency_sources", JStrings DependencySources); ("reasons", JStrings Reasons)].
Definition unresolvedDependencyDTO (Module Version Source ImportPath ReferencedSymbol Reason : string) : json :=
  JObject ([("module", JString Module); ("version", JString Version); ("source", JString Source)]
           ++ omitempty "import_path" ImportPath ++ omitempty "referenced_symbol" ReferencedSymbol
           ++ [("reason", JString Reason)])%list.
Definition moduleDependencyGraphDTO (Module : string) (Upstream Downstream Unresolved : list json) : json :=
  JObject [("module", JString Module); ("upstream", JArray Upstream); ("downstream", JArray Downstream);
           ("unresolved", JArray Unresolved)].
Definition affectedModulesDTO (Module : string) (AffectedModules : list json) : json :=
  JObject [("module", JString Module); ("affected_modules", JArray AffectedModules)].
Definition breakingReportAffectedModulesDTO (ReportID Module Status : string) (AffectedModules : list json) : json :=
  JObject [("report_id", JString ReportID); ("module", JString Module); ("status", JString Status);
           ("affected_modules", JArray AffectedModules)].

Definition dependencyReasonText (dependency : ModuleDependency) : string :=
  if negb (dependency_ImportPath dependency =? "")%string then "imports " +:+ dependency_ImportPath dependency else
  if negb (dependency_ReferencedSymbol dependency =? "")%string
  then "references " +:+ dependency_ReferencedSymbol dependency
  else dependency_Reason dependency.

Definition stringSetValues (values : gset string) : list string :=
  sort_Strings (List.filter (fun value => negb (value =? "")%string) (elements values)).

(** The provider of an edge, or its consumer: its name and its version. *)
Definition dependency_end (upstream : bool) (dependency : ModuleDependency) : string * string :=
  if upstream then (dependency_ProviderModuleName dependency, dependency_ProviderVersion dependency)
  else (dependency_ConsumerModuleName dependency, dependency_ConsumerVersion dependency).
Definition end_key (e : string * string) : string := e.1 +:+ String nul_byte e.2.

(** The groups in the order they appear, with their sources and their reasons. *)
Record dependency_group := mkGroup {
  group_end : string * string;
  group_sources : gset string;
  group_reasons : gset string }.
Definition add_edge (source reason : string) (g : dependency_group) : dependency_group :=
  mkGroup (group_end g) ({[source]} ∪ group_sources g) ({[reason]} ∪ group_reasons g).
Definition group_dependency (upstream : bool) (groups : list dependency_group) (dependency : ModuleDependency)
    : list dependency_group :=
  let e := dependency_end upstream dependency in
  let same := fun g => (end_key (group_end g) =? end_key e)%string in
  let groups := if existsb same groups then groups else (groups ++ [mkGroup e ∅ ∅])%list in
  update_where same (add_edge (dependency_Source dependency) (dependencyReasonText dependency)) groups.

Definition dependencyModuleResponses (dependencies : list ModuleDependency) (upstream : bool) : list json :=
  map (fun g => dependencyModuleDTO (group_end g).1 (group_end g).2 (stringSetValues (group_sources g))
                  (stringSetValues (group_reasons g)))
    (fold_left (group_dependency upstream) dependencies []).

Definition affectedModuleResponses (affected : list AffectedModule) : list json :=
  map (fun item => dependencyModuleDTO (affected_ModuleName item) (affected_LatestVersion item)
                     (affected_DependencySources item) (affected_Reasons item)) affected.

Definition unresolvedDependencyResponses (unresolved : list UnresolvedProtoDependency) : list json :=
  map (fun item => unresolvedDependencyDTO (unresolved_ModuleName item) (unresolved_Version item)
                     (unresolved_Source item) (unresolved_ImportPath item) (unresolved_ReferencedSymbol item)
                     (unresolved_Reason item)) unresolved.

Definition moduleDependencyGraphResponse (response : ModuleDependencyGraphResponse) : json :=
  moduleDependencyGraphDTO (module_Name (graph_Module response))
    (dependencyModuleResponses (graph_Upstream response) true)
    (dependencyModuleResponses (graph_Downstream response) false)
    (unresolvedDependencyResponses (graph_Unresolved response)).

Definition affectedModulesResponse (response : Module_ * list AffectedModule) : json :=
  affectedModulesDTO (module_Name response.1) (affectedModuleResponses response.2).

Definition breakingReportAffectedModulesResponse (response : BreakingReport * list AffectedModule) : json :=
  breakingReportAffectedModulesDTO (report_ID response.1) (report_ModuleName response.1) (report_Status response.1)
    (affectedModuleResponses response.2).

(** ** [edition_dto.go] *)

Definition editionResponse (Edition Version Commit BuildDate : string) (Capabilities : list json) : json :=
  JObject [("edition", JString Edition); ("version", JString Version); ("commit", JString Commit);
           ("build_date", JString BuildDate); ("capabilities", JArray Capabilities)].
Definition capabilityStatusDTO (Name : string) (Enabled : bool) : json :=
  JObject [("name", JString Name); ("enabled", JBool Enabled)].
Definition editionDTO (model : Edition) : json :=
  let build := edition_Version model in
  editionResponse (edition_Name model) (build_Version build) (build_Commit build) (build_BuildDate build)
    (map (fun status => capabilityStatusDTO (status_Capability status) (status_Enabled status)) (edition_Capabilities model)).

(** ** [token_dto.go] *)

Record createAPITokenRequest := mkTokenBody {
  ct_Name : string;
  ct_ExpiresAt : string }.
Definition createAPITokenRequest_zero : createAPITokenRequest := mkTokenBody "" "".
Definition createAPITokenRequest_fields : fields createAPITokenRequest :=
  [field "name" ct_Name (fun v r => mkTokenBody v (ct_ExpiresAt r)) decode_string;
   field "expires_at" ct_ExpiresAt (fun v r => mkTokenBody (ct_Name r) v) decode_string].
Definition createAPITokenResponse (ID Name Token : string) (CreatedAt : time) (ExpiresAt : option time) : json :=
  JObject ([("id", JString ID); ("name", JString Name); ("token", JString Token); ("created_at", JTime CreatedAt)]
           ++ omit_nil "expires_at" JTime ExpiresAt)%list.

(** ** [governance_dto.go] *)

Record addModuleOwnerRequest := mkAddOwnerBody {
  ao_SubjectType : string;
  ao_Subject : string;
  ao_Role : string;
  ao_Actor : string }.
Definition addModuleOwnerRequest_zero : addModuleOwnerRequest := mkAddOwnerBody "" "" "" "".
Definition addModuleOwnerRequest_fields : fields addModuleOwnerRequest :=
  [field "subject_type" ao_SubjectType (fun v r => mkAddOwnerBody v (ao_Subject r) (ao_Role r) (ao_Actor r)) decode_string;
   field "subject" ao_Subject (fun v r => mkAddOwnerBody (ao_SubjectType r) v (ao_Role r) (ao_Actor r)) decode_string;
   field "role" ao_Role (fun v r => mkAddOwnerBody (ao_SubjectType r) (ao_Subject r) v (ao_Actor r)) decode_string;
   field "actor" ao_Actor (fun v r => mkAddOwnerBody (ao_SubjectType r) (ao_Subject r) (ao_Role r) v) decode_string].

Definition moduleOwnerDTO (ID ModuleID ModuleName SubjectType Subject Role : string) (CreatedAt UpdatedAt : time) : json :=
  JObject [("id", JString ID); ("module_id", JString ModuleID); ("module_name", JString ModuleName);
           ("subject_type", JString SubjectType); ("subject", JString Subject); ("role", JString Role);
           ("created_at", JTime CreatedAt); ("updated_at", JTime UpdatedAt)].
Definition listModuleOwnersResponse (Module : string) (Owners : list json) : json :=
  JObject [("module", JString Module); ("owners", JArray Owners)].

Record createApprovalRequestRequest := mkApprovalBody {
  ca_Actor : string;
  ca_TargetRef : string }.
Definition createApprovalRequestRequest_zero : createApprovalRequestRequest := mkApprovalBody "" "".
Definition createApprovalRequestRequest_fields : fields createApprovalRequestRequest :=
  [field "actor" ca_Actor (fun v r => mkApprovalBody v (ca_TargetRef r)) decode_string;
   field "target_ref" ca_TargetRef (fun v r => mkApprovalBody (ca_Actor r) v) decode_string].

Record approvalDecisionRequest := mkDecisionBody {
  ad_Actor : string;
  ad_Comment : string }.
Definition approvalDecisionRequest_zero : approvalDecisionRequest := mkDecisionBody "" "".
Definition approvalDecisionRequest_fields : fields approvalDecisionRequest :=
  [field "actor" ad_Actor (fun v r => mkDecisionBody v (ad_Comment r)) decode_string;
   field "comment" ad_Comment (fun v r => mkDecisionBody (ad_Actor r) v) decode_string].

Definition approvalRequestDTO (ID ModuleID ModuleName BreakingReportID TargetRef Status : string)
    (RequiredApprovals ReceivedApprovals : Z) (Requirements Decisions : list json) (CreatedAt UpdatedAt : time) : json :=
  JObject ([("id", JString ID); ("module_id", JString ModuleID); ("module_name", JString ModuleName)]
           ++ omitempty "breaking_report_id" BreakingReportID
           ++ [("target_ref", JString TargetRef); ("status", JString Status);
               ("required_approvals", JInt RequiredApprovals); ("received_approvals", JInt ReceivedApprovals);
               ("requirements", JArray Requirements); ("decisions", JArray Decisions);
               ("created_at", JTime CreatedAt); ("updated_at", JTime UpdatedAt)])%list.
Definition approvalRequirementDTO (ID ApprovalRequestID RequirementType TargetModuleID TargetModuleName RequiredRole
    Status Reason : string) (CreatedAt UpdatedAt : time) : json :=
  JObject ([("id", JString ID); ("approval_request_id", JString ApprovalRequestID);
            ("requirement_type", JString RequirementType)]
           ++ omitempty "target_module_id" TargetModuleID
           ++ [("target_module_name", JString TargetModuleName); ("required_role", JString RequiredRole);
               ("status", JString Status); ("reason", JString Reason); ("created_at", JTime CreatedAt);
               ("updated_at", JTime UpdatedAt)])%list.
Definition approvalDecisionDTO (ID ApprovalRequestID RequirementID Decision DecidedBy Comment : string)
    (CreatedAt : time) : json :=
  JObject ([("id", JString ID); ("approval_request_id", JString ApprovalRequestID);
            ("requirement_id", JString RequirementID); ("decision", JString Decision); ("decided_by", JString DecidedBy)]
           ++ omitempty "comment" Comment ++ [("created_at", JTime CreatedAt)])%list.
Definition approvalAuditEventDTO (ID EventType Actor ModuleID ModuleName ApprovalRequestID BreakingReportID
    Payload : string) (CreatedAt : time) : json :=
  JObject ([("id", JString ID); ("event_type", JString EventType)] ++ omitempty "actor" Actor
           ++ omitempty "module_id" ModuleID ++ omitempty "module_name" ModuleName
           ++ omitempty "approval_request_id" ApprovalRequestID ++ omitempty "breaking_report_id" BreakingReportID
           ++ [("payload", JRaw Payload); ("created_at", JTime CreatedAt)])%list.
Definition approvalAuditResponse (ApprovalRequestID : string) (Events : list json) : json :=
  JObject [("approval_request_id", JString ApprovalRequestID); ("events", JArray Events)].

Definition moduleOwnerResponse (owner : ModuleOwner) : json :=
  moduleOwnerDTO (owner_ID owner) (owner_ModuleID owner) (owner_ModuleName owner) (owner_SubjectType owner)
    (owner_Subject owner) (owner_Role owner) (owner_CreatedAt owner) (owner_UpdatedAt owner).

Definition moduleOwnersResponse (module : string) (owners : list ModuleOwner) : json :=
  listModuleOwnersResponse module (map moduleOwnerResponse owners).

Definition approvalRequirementResponse (requirement : ApprovalRequirement) : json :=
  approvalRequirementDTO (requirement_ID requirement) (requirement_ApprovalRequestID requirement)
    (requirement_RequirementType requirement) (default "" (requirement_TargetModuleID requirement))
    (requirement_TargetModuleName requirement) (requirement_RequiredRole requirement) (requirement_Status requirement)
    (requirement_Reason requirement) (requirement_CreatedAt requirement) (requirement_UpdatedAt requirement).

Definition approvalDecisionResponse (decision : ApprovalDecision) : json :=
  approvalDecisionDTO (decision_ID decision) (decision_ApprovalRequestID decision) (decision_RequirementID decision)
    (decision_Decision decision) (decision_DecidedBy decision) (decision_Comment decision) (decision_CreatedAt decision).

Definition approvalRequestResponse (request : ApprovalRequest) : json :=
  approvalRequestDTO (request_ID request) (request_ModuleID request) (request_ModuleName request)
    (default "" (request_BreakingReportID request)) (request_TargetRef request) (request_Status request)
    (request_RequiredApprovals request) (request_ReceivedApprovals request)
    (map approvalRequirementResponse (request_Requirements request))
    (map approvalDecisionResponse (request_Decisions request)) (request_CreatedAt request) (request_UpdatedAt request).

Definition approvalAuditEventResponse (event : GovernanceAuditEvent) : json :=
  let payload := if (auditEvent_PayloadJSON event =? "")%string then "{}" else auditEvent_PayloadJSON event in
  approvalAuditEventDTO (auditEvent_ID event) (auditEvent_EventType event) (auditEvent_Actor event)
    (default "" (auditEvent_ModuleID event)) (auditEvent_ModuleName event)
    (default "" (auditEvent_ApprovalRequestID event)) (default "" (auditEvent_BreakingReportID event)) payload
    (auditEvent_CreatedAt event).

Definition approvalAuditResponseForRequest (requestID : string) (events : list GovernanceAuditEvent) : json :=
  approvalAuditResponse requestID (map approvalAuditEventResponse events).

(** ** [runtime_dto.go] *)

Record reportedRuntimeModuleRequest := mkReportedModuleBody {
  rm_Module : string;
  rm_Version : string }.
Definition reportedRuntimeModuleRequest_zero : reportedRuntimeModuleRequest := mkReportedModuleBody "" "".
Definition reportedRuntimeModuleRequest_fields : fields reportedRuntimeModuleRequest :=
  [field "module" rm_Module (fun v r => mkReportedModuleBody v (rm_Version r)) decode_string;
   field "version" rm_Version (fun v r => mkReportedModuleBody (rm_Module r) v) decode_string].

Record reportRuntimeInventoryRequest := mkReportBody {
  rr_ServiceName : string;
  rr_Environment : string;
  rr_GitCommit : string;
  rr_BuildVersion : string;
  rr_Modules : slice reportedRuntimeModuleRequest }.
Definition reportRuntimeInventoryRequest_zero : reportRuntimeInventoryRequest := mkReportBody "" "" "" "" nil_slice.
Definition reportRuntimeInventoryRequest_fields : fields reportRuntimeInventoryRequest :=
  [field "service_name" rr_ServiceName
     (fun v r => mkReportBody v (rr_Environment r) (rr_GitCommit r) (rr_BuildVersion r) (rr_Modules r)) decode_string;
   field "environment" rr_Environment
     (fun v r => mkReportBody (rr_ServiceName r) v (rr_GitCommit r) (rr_BuildVersion r) (rr_Modules r)) decode_string;
   field "git_commit" rr_GitCommit
     (fun v r => mkReportBody (rr_ServiceName r) (rr_Environment r) v (rr_BuildVersion r) (rr_Modules r)) decode_string;
   field "build_version" rr_BuildVersion
     (fun v r => mkReportBody (rr_ServiceName r) (rr_Environment r) (rr_GitCommit r) v (rr_Modules r)) decode_string;
   field "modules" rr_Modules
     (fun v r => mkReportBody (rr_ServiceName r) (rr_Environment r) (rr_GitCommit r) (rr_BuildVersion r) v)
     (decode_slice reportedRuntimeModuleRequest_zero (decode_struct true reportedRuntimeModuleRequest_fields))].

Definition reportRuntimeInventoryDTO (DeploymentID ServiceName Environment GitCommit BuildVersion : string)
    (ReportedAt : time) (Usages : list json) : json :=
  JObject [("deployment_id", JString DeploymentID); ("service_name", JString ServiceName);
           ("environment", JString Environment); ("git_commit", JString GitCommit);
           ("build_version", JString BuildVersion); ("reported_at", JTime ReportedAt); ("usages", JArray Usages)].
Definition runtimeModuleUsageDTO (Module Version LatestVersion DriftStatus DriftReason : string) : json :=
  JObject ([("module", JString Module); ("version", JString Version)] ++ omitempty "latest_version" LatestVersion
           ++ [("drift_status", JString DriftStatus); ("drift_reason", JString DriftReason)])%list.
Definition runtimeDriftSummaryDTO (UpToDate BehindLatest UnknownVersion DeprecatedVersion : Z) : json :=
  JObject [("up_to_date", JInt UpToDate); ("behind_latest", JInt BehindLatest);
           ("unknown_version", JInt UnknownVersion); ("deprecated_version", JInt DeprecatedVersion)].
Definition runtimeServiceSummaryDTO (ServiceName : string) (Environments : list string) (LastReportedAt : option time)
    (DriftSummary : json) : json :=
  JObject ([("service_name", JString ServiceName); ("environments", JStrings Environments)]
           ++ omit_nil "last_reported_at" JTime LastReportedAt ++ [("drift_summary", DriftSummary)])%list.
Definition listRuntimeServicesResponse (Services : list json) : json := JObject [("services", JArray Services)].
Definition runtimeDeploymentDTO (ID ServiceName Environment GitCommit BuildVersion : string)
    (ReportedAt CreatedAt : time) : json :=
  JObject [("id", JString ID); ("service_name", JString ServiceName); ("environment", JString Environment);
           ("git_commit", JString GitCommit); ("build_version", JString BuildVersion);
           ("reported_at", JTime ReportedAt); ("created_at", JTime CreatedAt)].
Definition runtimeStoredModuleUsageDTO (ID DeploymentID Module : string) (ModuleID ModuleVersion : option string)
    (Version LatestVersion DriftStatus DriftReason : string) (CreatedAt : time) : json :=
  JObject ([("id", JString ID); ("deployment_id", JString DeploymentID); ("module", JString Module)]
           ++ omit_nil "module_id" JString ModuleID ++ omit_nil "module_version_id" JString ModuleVersion
           ++ [("version", JString Version)] ++ omitempty "latest_version" LatestVersion
           ++ [("drift_status", JString DriftStatus); ("drift_reason", JString DriftReason);
               ("created_at", JTime CreatedAt)])%list.
Definition runtimeServiceDetailsDTO (ServiceName : string) (Deployments Usages : list json) : json :=
  JObject [("service_name", JString ServiceName); ("deployments", JArray Deployments); ("usages", JArray Usages)].
Definition runtimeEnvironmentInventoryDTO (Environment : string) (Deployments Usages : list json) : json :=
  JObject [("environment", JString Environment); ("deployments", JArray Deployments); ("usages", JArray Usages)].
Definition moduleRuntimeUsageDTO (ServiceName Environment DeploymentID Module Version GitCommit BuildVersion : string)
    (ReportedAt : time) (DriftStatus DriftReason : string) : json :=
  JObject [("service_name", JString ServiceName); ("environment", JString Environment);
           ("deployment_id", JString DeploymentID); ("module", JString Module); ("version", JString Version);
           ("git_commit", JString GitCommit); ("build_version", JString BuildVersion); ("reported_at", JTime ReportedAt);
           ("drift_status", JString DriftStatus); ("drift_reason", JString DriftReason)].
Definition moduleRuntimeUsagesDTO (Module : string) (Usages : list json) : json :=
  JObject [("module", JString Module); ("usages", JArray Usages)].
Definition runtimeImpactDTO (ServiceName Environment UsedModule UsedVersion GitCommit BuildVersion : string)
    (ReportedAt : time) (ImpactStatus Reason DriftStatus DriftReason : string) : json :=
  JObject ([("service_name", JString ServiceName); ("environment", JString Environment);
            ("used_module", JString UsedModule); ("used_version", JString UsedVersion); ("git_commit", JString GitCommit);
            ("build_version", JString BuildVersion); ("reported_at", JTime ReportedAt);
            ("impact_status", JString ImpactStatus); ("reason", JString Reason)]
           ++ omitempty "drift_status" DriftStatus ++ omitempty "drift_reason" DriftReason)%list.
Definition breakingReportRuntimeImpactDTO (ReportID : string) (Impacts : list json) : json :=
  JObject [("report_id", JString ReportID); ("impacts", JArray Impacts)].

Definition reportRuntimeInventoryResponse (output : ReportRuntimeInventoryOutput) : json :=
  reportRuntimeInventoryDTO (reportOutput_DeploymentID output) (reportOutput_ServiceName output)
    (reportOutput_Environment output) (reportOutput_GitCommit output) (reportOutput_BuildVersion output)
    (reportOutput_ReportedAt output)
    (map (fun usage => runtimeModuleUsageDTO (usageOutput_Module usage) (usageOutput_Version usage)
                         (usageOutput_LatestVersion usage) (usageOutput_DriftStatus usage)
                         (usageOutput_DriftReason usage)) (reportOutput_Usages output)).

Definition runtimeServicesResponse (summaries : list RuntimeServiceSummary) : json :=
  listRuntimeServicesResponse
    (map (fun summary =>
       runtimeServiceSummaryDTO (service_Name (serviceSummary_Service summary)) (serviceSummary_Environments summary)
         (serviceSummary_LatestReportedAt summary)
         (runtimeDriftSummaryDTO (serviceSummary_UpToDateCount summary) (serviceSummary_BehindLatestCount summary)
            (serviceSummary_UnknownVersionCount summary) (serviceSummary_DeprecatedCount summary))) summaries).

Definition runtimeDeploymentResponses (deployments : list RuntimeDeployment) : list json :=
  map (fun deployment =>
    runtimeDeploymentDTO (deployment_ID deployment) (deployment_ServiceName deployment)
      (deployment_Environment deployment) (deployment_GitCommit deployment) (deployment_BuildVersion deployment)
      (deployment_ReportedAt deployment) (deployment_CreatedAt deployment)) deployments.

Definition runtimeStoredModuleUsageResponses (usages : list RuntimeModuleUsage) : list json :=
  map (fun usage =>
    runtimeStoredModuleUsageDTO (usage_ID usage) (usage_DeploymentID usage) (usage_ModuleName usage)
      (usage_ModuleID usage) (usage_ModuleVersionID usage) (usage_Version usage)
      (default "" (usage_LatestVersion usage)) (usage_DriftStatus usage) (usage_DriftReason usage)
      (usage_CreatedAt usage)) usages.

Definition runtimeServiceDetailsResponse (details : RuntimeServiceDetails) : json :=
  runtimeServiceDetailsDTO (service_Name (serviceDetails_Service details))
    (runtimeDeploymentResponses (serviceDetails_Deployments details))
    (runtimeStoredModuleUsageResponses (serviceDetails_Usages details)).

Definition runtimeEnvironmentInventoryResponse (inventory : RuntimeEnvironmentInventory) : json :=
  runtimeEnvironmentInventoryDTO (inventory_Environment inventory)
    (runtimeDeploymentResponses (inventory_Deployments inventory))
    (runtimeStoredModuleUsageResponses (inventory_Usages inventory)).

Definition moduleRuntimeUsagesResponse (moduleName : string) (usages : list ModuleRuntimeUsage) : json :=
  moduleRuntimeUsagesDTO moduleName
    (map (fun usage =>
       moduleRuntimeUsageDTO (moduleUsage_ServiceName usage) (moduleUsage_Environment usage)
         (moduleUsage_DeploymentID usage) (moduleUsage_ModuleName usage) (moduleUsage_Version usage)
         (moduleUsage_GitCommit usage) (moduleUsage_BuildVersion usage) (moduleUsage_ReportedAt usage)
         (moduleUsage_DriftStatus usage) (moduleUsage_DriftReason usage)) usages).

Definition breakingReportRuntimeImpactResponse (reportID : string) (impacts : list RuntimeImpact) : json :=
  breakingReportRuntimeImpactDTO reportID
    (map (fun impact =>
       runtimeImpactDTO (impact_ServiceName impact) (impact_Environment impact) (impact_UsedModule impact)
         (impact_UsedVersion impact) (impact_GitCommit impact) (impact_BuildVersion impact) (impact_ReportedAt impact)
         (impact_ImpactStatus impact) (impact_Reason impact) (impact_DriftStatus impact) (impact_DriftReason impact))
       impacts).
