(* ===== verification/HttpServer.v ===== *)
(** * The HTTP interface

    [transport/http/server.go] and [transport/http/governance.go]: the routes, the
    guards in front of the handlers, the handlers, and the answers to errors.

    A request is what [net/http] hands over: the segments of the path without
    their escapes, the values of the query, the headers that are looked at, and
    the body. A handler changes the state of the service and answers. The log, the
    metrics and the header [X-Request-ID] of the answer are added around the routes
    ([Observability]); the text of the metrics is a parameter here. Left out are the
    calls that count publications, checks and reports, the header [Allow] of a 405
    and the redirects of paths that are not clean; times are written in UTC. *)

From S2P Require Import Prelude Errors GoStrings Edition JsonScan Domain Json Effects Postgres Outbox Events Tables World GovernanceStore UseCase CatalogStore JsonDecode Rfc3339 DependencyStore DependencyGraph RuntimeStore RuntimeInventory AuditLog Identity Policy Approval Owners Archive Storage Registry RegistrySafety RegistryOperations GitLabLink HttpDto.

Open Scope string_scope.
Open Scope Z_scope.

(** ** Requests and answers *)

Record HttpRequest := mkHttpRequest {
  http_Method : string;
  http_Path : list string;
  http_Query : list (string * string);       (* in the order of the text *)
  http_QueryValid : bool;
  http_Authorization : string;
  http_RequestID : string;
  http_RemoteAddr : string;
  http_ContentType : string;
  http_ContentLength : Z;                    (* -1 when not known *)
  http_Body : string }.

Record HttpResponse := mkHttpResponse {
  http_Status : Z;
  http_Headers : list (string * string);
  http_ResponseBody : string }.

Record MultipartFile := mkMultipartFile {
  multipart_Filename : string;
  multipart_Content : string }.
Record MultipartForm := mkMultipartForm {
  form_Values : list (string * string);
  form_Files : list (string * MultipartFile) }.

(** [mime/multipart]: the form of a body of a content type, of which no more
    than [limit] bytes are read, with so much of it in memory. *)
Class MultipartReader := {
  ReadForm : string -> Z -> option Z -> string -> MultipartForm + decode_error }.

Definition StatusOK : Z := 200.
Definition StatusCreated : Z := 201.
Definition StatusNoContent : Z := 204.
Definition StatusBadRequest : Z := 400.
Definition StatusUnauthorized : Z := 401.
Definition StatusForbidden : Z := 403.
Definition StatusNotFound : Z := 404.
Definition StatusMethodNotAllowed : Z := 405.
Definition StatusConflict : Z := 409.
Definition StatusRequestEntityTooLarge : Z := 413.
Definition StatusUnprocessableEntity : Z := 422.
Definition StatusInternalServerError : Z := 500.
Definition StatusServiceUnavailable : Z := 503.

(** A body that cannot be written is left out: the status is sent by then. *)
Definition writeJSON (status : Z) (body : json) : HttpResponse :=
  mkHttpResponse status [("Content-Type", "application/json")]
    (match Marshal body with Ok text => text +:+ String (byte_char 10) "" | Err _ => "" end).

Definition writeError (status : Z) (code message : string) : HttpResponse :=
  writeJSON status (errorResponse (apiErrorDTO code message)).

Definition writeInternalError : HttpResponse :=
  writeError StatusInternalServerError "internal_error" "Internal server error.".
Definition writePayloadTooLarge : HttpResponse :=
  writeError StatusRequestEntityTooLarge "payload_too_large" "Request body is too large.".
Definition writeUnauthorized : HttpResponse :=
  writeError StatusUnauthorized "unauthorized" "Authentication is required.".
Definition writeBadBody : HttpResponse := writeError StatusBadRequest "bad_request" "Request body is invalid.".

Definition writeAuthorizationError (err : error) : HttpResponse :=
  if errors_Is err EAuthzUnauthenticated then writeUnauthorized
  else writeError StatusForbidden "forbidden" "Principal is not allowed to perform this action.".

(** The cases of [writeUsecaseError], in their order. *)
Definition usecase_errors : list (list error * (Z * string * string)) :=
  [([registry.ErrInvalidModuleName : error; registry.ErrInvalidVersion : error; registry.ErrInvalidActor : error;
     registry.ErrInvalidAgainst : error; registry.ErrInvalidTargetRef : error; registry.ErrArtifactRequired : error;
     registry.ErrInvalidGitLabBaseURL : error; registry.ErrInvalidGitLabProjectID : error;
     registry.ErrInvalidGitLabProjectPath : error; runtimeinventory.ErrRuntimeModulesRequired : error;
     domain.ErrInvalidRuntimeServiceName : error; domain.ErrInvalidRuntimeEnvironment : error;
     domain.ErrInvalidRuntimeGitCommit : error; domain.ErrInvalidRuntimeBuildVersion : error;
     domain.ErrInvalidModuleName : error; domain.ErrInvalidVersion : error;
     domain.ErrInvalidGovernanceSubjectType : error; domain.ErrInvalidModuleOwnerRole : error;
     domain.ErrInvalidApprovalRequestStatus : error; domain.ErrInvalidApprovalRequirementType : error;
     domain.ErrInvalidApprovalRequirementStatus : error; domain.ErrInvalidApprovalDecision : error;
     domain.ErrInvalidGovernanceAuditEventType : error; governance.ErrInvalidModuleName : error;
     governance.ErrInvalidSubjectType : error; governance.ErrInvalidSubject : error;
     governance.ErrInvalidModuleOwnerRole : error; governance.ErrInvalidModuleOwnerID : error;
     governance.ErrInvalidBreakingReportID : error; governance.ErrInvalidRequirementID : error;
     governance.ErrInvalidApprovalActor : error; governance.ErrApprovalDecisionCommentTooLong : error],
    (StatusBadRequest, "validation_error", "Request validation failed."));
   ([registry.ErrInvalidOrExpiredToken : error],
    (StatusUnauthorized, "unauthorized", "Authentication is required."));
   ([registry.ErrModuleNotFound : error; registry.ErrBaselineVersionNotFound : error;
     registry.ErrBreakingReportNotFound : error; registry.ErrModuleGitLabProjectNotFound : error;
     domain.ErrNotFound : error; governance.ErrModuleNotFound : error; governance.ErrModuleOwnerNotFound : error;
     governance.ErrBreakingReportNotFound : error; governance.ErrApprovalRequestNotFound : error;
     governance.ErrApprovalRequirementNotFound : error],
    (StatusNotFound, "not_found", "Requested resource was not found."));
   ([registry.ErrModuleAlreadyExists : error; registry.ErrModuleVersionAlreadyExists : error;
     registry.ErrGitLabProjectAlreadyLinked : error; governance.ErrModuleOwnerAlreadyExists : error;
     governance.ErrApprovalRequestConflict : error; governance.ErrApprovalRequirementConflict : error],
    (StatusConflict, "conflict", "Requested operation conflicts with existing state."));
   ([governance.ErrApprovalActorForbidden : error; governance.ErrGovernanceActorOverrideForbidden : error],
    (StatusForbidden, "forbidden", "Governance actor is not allowed."));
   ([registry.ErrBaselineBufImageMissing : error], (StatusConflict, "conflict", "Baseline Buf image is missing."));
   ([registry.ErrArtifactTooLarge : error],
    (StatusRequestEntityTooLarge, "payload_too_large", "Artifact is too large."));
   ([registry.ErrUnsafeArchive : error], (StatusBadRequest, "validation_error", "Archive is unsafe."));
   ([registry.ErrBufConfigNotFound : error],
    (StatusUnprocessableEntity, "unprocessable_entity", "Buf config was not found."));
   ([registry.ErrBufBuildFailed : error],
    (StatusUnprocessableEntity, "unprocessable_entity", "Buf build failed."));
   ([registry.ErrBufLintFailed : error], (StatusUnprocessableEntity, "unprocessable_entity", "Buf lint failed."));
   ([registry.ErrDescriptorExtractionFailed : error],
    (StatusUnprocessableEntity, "unprocessable_entity", "Descriptor extraction failed."));
   ([registry.ErrBufBreakingFailed : error],
    (StatusInternalServerError, "internal_error", "Buf breaking failed."))].

Definition writeUsecaseError (err : error) : HttpResponse :=
  match List.find (fun c => existsb (errors_Is err) (fst c)) usecase_errors with
  | Some (_, (status, code, message)) => writeError status code message
  | None => writeInternalError
  end.

(** ** The server *)

(** [identity.AuthProvider]. *)
Definition AuthProvider : Type := AuthRequest -> M Registry Principal.

Record ReadinessCheck := mkReadinessCheck {
  readiness_Name : string;
  readiness_Check : option (M Registry unit) }.

Record ServerOptions := mkServerOptions {
  opt_BootstrapToken : string;
  opt_AuthProvider : option AuthProvider;
  opt_Authorizer : option Authorizer;
  opt_CapabilityChecker : option CapabilityChecker;
  opt_BuildInfo : BuildInfo;
  opt_Runtime : bool;                          (* set *)
  opt_Governance : bool;
  opt_GovernanceActorOverrideEnabled : bool;
  opt_Ready : option (M Registry unit);
  opt_ReadinessChecks : list ReadinessCheck;
  opt_Metrics : option (Registry -> string);   (* the text of the metrics when it is asked for *)
  opt_MaxRequestBodyBytes : Z }.

Record Server := mkServer {
  srv_registry : Service;
  srv_auth : AuthProvider;
  srv_authorizer : Authorizer;
  srv_capabilities : CapabilityChecker;
  srv_buildInfo : BuildInfo;
  srv_runtime : bool;
  srv_governance : bool;
  srv_actorOverridePolicy : ActorOverridePolicy;
  srv_bootstrapToken : string;
  srv_readinessChecks : list ReadinessCheck;
  srv_metrics : option (Registry -> string);
  srv_maxRequestBodyBytes : Z }.

(** The principal a handler finds in the context of its request, and the values
    of the wildcards of its pattern. *)
Record RequestContext := mkRequestContext {
  rc_Principal : option Principal;
  rc_PathValues : list (string * string) }.

Definition PrincipalFromContext (ctx : RequestContext) : option Principal :=
  match rc_Principal ctx with
  | Some principal => if Principal_IsZero principal then None else Some principal
  | None => None
  end.
Definition ContextWithPrincipal (ctx : RequestContext) (principal : Principal) : RequestContext :=
  mkRequestContext (Some principal) (rc_PathValues ctx).

(** The first value of a key, or the empty string. *)
Definition first_value (key : string) (values : list (string * string)) : string :=
  match List.find (fun v => (fst v =? key)%string) values with Some v => snd v | None => "" end.
Definition PathValue (ctx : RequestContext) (name : string) : string := first_value name (rc_PathValues ctx).
Definition Query_Get (r : HttpRequest) (key : string) : string := first_value key (http_Query r).

Definition Handler : Type := RequestContext -> HttpRequest -> Registry -> HttpResponse * Registry.

(** An operation and the answer to its result. *)
Definition answer {A} (m : M Registry A) (ok : A -> HttpResponse) : Registry -> HttpResponse * Registry := fun s =>
  match m s with
  | (Ok a, s') => (ok a, s')
  | (Err err, s') => (writeUsecaseError err, s')
  end.
Definition reply (response : HttpResponse) : Registry -> HttpResponse * Registry := fun s => (response, s).

Section Server.
Context `{PG : !Postgres} `{ENV : !Env} `{CR : !Crypto} `{SYS : !OS} `{STORE : !ArtifactStore} `{HOST : !Host}.
Context `{URL : !NetURL} `{MR : !MultipartReader} `{POL : !PolicyEvaluator} `{AUD : !AuditSink World}
  `{PRO : !ApprovalProviders World}.
Variable policyConfig : PolicyConfig.

(** [registryAuthProvider.Authenticate]. *)
Definition registryAuthProvider (svc : Service) : AuthProvider := fun req =>
  match Bearer req with
  | None => fail registry.ErrInvalidOrExpiredToken
  | Some token =>
      let! (tokenID, name) := AuthenticateToken svc token in
      let principalSubject := TrimSpace name in
      let principalSubject := if (principalSubject =? "")%string then tokenID else principalSubject in
      ret (mkPrincipal principalSubject principalSubject PrincipalTypeAPIToken [] {["api_token_id" := tokenID]})
  end.

Definition NewServer (registryService : Service) (options : ServerOptions) : Server :=
  let readiness := (opt_ReadinessChecks options
    ++ match opt_Ready options with Some ready => [mkReadinessCheck "database" (Some ready)] | None => [] end)%list in
  let buildInfo := if (build_Version (opt_BuildInfo options) =? "")%string then Info else opt_BuildInfo options in
  mkServer registryService
    (default (registryAuthProvider registryService) (opt_AuthProvider options))
    (default CommunityAuthorizer (opt_Authorizer options))
    (default CommunityCapabilityChecker (opt_CapabilityChecker options))
    buildInfo (opt_Runtime options) (opt_Governance options)
    (mkActorOverridePolicy (opt_GovernanceActorOverrideEnabled options)) (opt_BootstrapToken options) readiness
    (opt_Metrics options) (opt_MaxRequestBodyBytes options).

Variable server : Server.
Let svc : Service := srv_registry server.

(** ** Reading a request *)

Definition limitRequestBody : option Z :=
  if srv_maxRequestBodyBytes server <=? 0 then None else Some (srv_maxRequestBodyBytes server).

Definition decodeJSON {T} (limit : option Z) (r : HttpRequest) (fs : fields T) (zero : T) : T + decode_error :=
  decode_text limit (decode_struct true fs) (http_Body r) zero.

Definition writeDecodeError (err : decode_error) : HttpResponse :=
  match err with TooLarge => writePayloadTooLarge | Malformed => writeBadBody end.

(** The handlers whose body is optional, and the others. *)
Definition with_body {T} (fs : fields T) (zero : T) (r : HttpRequest) (k : T -> Registry -> HttpResponse * Registry)
    : Registry -> HttpResponse * Registry :=
  match decodeJSON limitRequestBody r fs zero with
  | inl req => k req
  | inr err => reply (writeDecodeError err)
  end.
Definition with_optional_body {T} (fs : fields T) (zero : T) (r : HttpRequest)
    (k : T -> Registry -> HttpResponse * Registry) : Registry -> HttpResponse * Registry :=
  if http_ContentLength r =? 0 then k zero else with_body fs zero r k.
(** Without a limit every failure is a malformed body. *)
Definition with_unlimited_body {T} (fs : fields T) (zero : T) (r : HttpRequest)
    (k : T -> Registry -> HttpResponse * Registry) : Registry -> HttpResponse * Registry :=
  match decodeJSON None r fs zero with
  | inl req => k req
  | inr _ => reply writeBadBody
  end.

(** [ParseMultipartForm(32 << 20)]: the values of the query come before those of
    the form. *)
Definition ParseMultipartForm (r : HttpRequest) : MultipartForm + decode_error :=
  match ReadForm (http_ContentType r) (32 * 2 ^ 20) limitRequestBody (http_Body r) with
  | inl form =>
      if http_QueryValid r then inl (mkMultipartForm (http_Query r ++ form_Values form)%list (form_Files form))
      else inr Malformed
  | inr err => inr err
  end.
Definition FormValue (form : MultipartForm) (key : string) : string := first_value key (form_Values form).
Definition FormFile (form : MultipartForm) (key : string) : option MultipartFile :=
  snd <$> List.find (fun f => (fst f =? key)%string) (form_Files form).

Definition with_artifact (r : HttpRequest) (k : MultipartForm -> MultipartFile -> Registry -> HttpResponse * Registry)
    : Registry -> HttpResponse * Registry :=
  match ParseMultipartForm r with
  | inr TooLarge => reply writePayloadTooLarge
  | inr Malformed => reply (writeError StatusBadRequest "bad_request" "Multipart request is invalid.")
  | inl form =>
      match FormFile form "artifact" with
      | None => reply (writeError StatusBadRequest "bad_request" "Artifact file is required.")
      | Some file => k form file
      end
  end.

(** [fmt.Sscanf(value, "%d", &n)]: leading space but no line end, a sign, the
    digits; what follows is not looked at. *)
Fixpoint skip_space (s : string) : option string :=
  match s with
  | "" => Some ""
  | String a s1 =>
      if Ascii.eqb a (byte_char 10) then None else
      if space1 a then skip_space s1 else
      match s1 with
      | "" => Some s
      | String b s2 =>
          if space2 a b then skip_space s2 else
          match s2 with
          | "" => Some s
          | String c s3 => if space3 a b c then skip_space s3 else Some s
          end
      end
  end.
Definition scan_int (s : string) : option Z :=
  match skip_space s with
  | None => None
  | Some s =>
      let '(neg, s) := match s with
                       | String c s' => if Ascii.eqb c "-" then (true, s') else if Ascii.eqb c "+" then (false, s') else (false, s)
                       | "" => (false, "")
                       end in
      let '(digits, _) := span_digits s in
      if (digits =? "")%string then None else
      match parse_digits 0 digits with
      | Some z => let z := if neg then - z else z in
                  if (int64_min <=? z) && (z <=? int64_max) then Some z else None
      | None => None
      end
  end.
Definition parsePositiveInt (value : string) (fallback : Z) : Z :=
  if (value =? "")%string then fallback else
  match scan_int value with
  | Some parsed => if parsed <=? 0 then fallback else parsed
  | None => fallback
  end.

(** ** Guards *)

Definition requireBearer (next : Handler) : Handler := fun ctx r s =>
  match srv_auth server (mkAuthRequest (http_Authorization r) "") s with
  | (Ok principal, s') => next (ContextWithPrincipal ctx principal) r s'
  | (Err _, s') => (writeUnauthorized, s')
  end.

Definition requireAuthorization (action : Action) (resource : RequestContext -> Resource) (next : Handler) : Handler :=
  fun ctx r s =>
  match PrincipalFromContext ctx with
  | None => (writeUnauthorized, s)
  | Some principal =>
      match @Authorize (srv_authorizer server) principal action (resource ctx) with
      | Err err => (writeAuthorizationError err, s)
      | Ok _ => next ctx r s
      end
  end.

Definition protected (action : Action) (resource : RequestContext -> Resource) (next : Handler) : Handler :=
  requireBearer (requireAuthorization action resource next).

Definition staticResource (resourceType : string) : RequestContext -> Resource := fun _ =>
  mkResource resourceType "" "" [].
Definition pathResource (resourceType pathValue : string) : RequestContext -> Resource := fun ctx =>
  mkResource resourceType "" (PathValue ctx pathValue) [].
Definition pathIDResource (resourceType pathValue : string) : RequestContext -> Resource := fun ctx =>
  mkResource resourceType (PathValue ctx pathValue) "" [].
Definition moduleVersionResource (modulePathValue versionPathValue : string) : RequestContext -> Resource := fun ctx =>
  ModuleVersionResource (PathValue ctx modulePathValue) (PathValue ctx versionPathValue).

Definition bearerToken (header : string) : option string :=
  if negb (HasPrefix header "Bearer ") then None else
  let token := TrimSpace (TrimPrefix header "Bearer ") in
  if (token =? "")%string then None else Some token.
Definition sameToken (got want : string) : bool :=
  if (got =? "")%string || (want =? "")%string then false else (got =? want)%string.

Definition requireBootstrapToken (next : Handler) : Handler := fun ctx r s =>
  match bearerToken (http_Authorization r) with
  | Some token => if sameToken token (srv_bootstrapToken server) then next ctx r s else (writeUnauthorized, s)
  | None => (writeUnauthorized, s)
  end.

(** ** Handlers *)

Definition health : Handler := fun _ _ => reply (writeJSON StatusOK (JObject [("status", JString "ok")])).

(** The checks that have a name, their results under their names. *)
Fixpoint run_checks (checks : list ReadinessCheck) (s : Registry) : list (string * bool) * Registry :=
  match checks with
  | [] => ([], s)
  | check :: rest =>
      let name := TrimSpace (readiness_Name check) in
      match readiness_Check check with
      | Some m =>
          if (name =? "")%string then run_checks rest s else
          let '(r, s1) := m s in
          let '(results, s2) := run_checks rest s1 in
          ((name, match r with Ok _ => true | Err _ => false end) :: results, s2)
      | None => run_checks rest s
      end
  end.
(** The last result under each name. *)
Definition check_text (ok : bool) : json := JString (if ok then "ok" else "error").
Definition checks_map (results : list (string * bool)) : list (string * json) :=
  let m : gmap string bool := fold_left (fun m e => <[fst e := snd e]> m) results ∅ in
  omap (fun name => (fun ok => (name, check_text ok)) <$> m !! name) (sort_Strings (elements (dom m))).
Definition readiness : Handler := fun _ _ s =>
  let '(results, s') := run_checks (srv_readinessChecks server) s in
  let ready := forallb snd results in
  (writeJSON (if ready then StatusOK else StatusServiceUnavailable)
     (readinessResponse (if ready then "ok" else "error") (checks_map results)), s').

Definition getEdition : Handler := fun _ _ =>
  reply (writeJSON StatusOK (editionDTO (NewCommunityEdition (srv_buildInfo server) (Some (srv_capabilities server))))).

Definition createModule : Handler := fun _ r =>
  with_unlimited_body createModuleRequest_fields createModuleRequest_zero r (fun req =>
    answer (on_db (CreateModule (mkCreateModuleRequest (cm_Name req) (cm_Description req) (cm_RepositoryURL req))))
      (fun module => writeJSON StatusCreated (moduleResponse module))).

Definition listModules : Handler := fun _ _ =>
  answer (on_db (ListModules 100 0))
    (fun modules => writeJSON StatusOK (listModulesResponse (map moduleResponse modules))).

Definition getModule : Handler := fun ctx _ =>
  answer (on_db (GetModule (PathValue ctx "module"))) (fun module => writeJSON StatusOK (moduleResponse module)).

Definition linkModuleGitLabProject : Handler := fun ctx r =>
  with_unlimited_body linkModuleGitLabProjectRequest_fields linkModuleGitLabProjectRequest_zero r (fun req =>
    answer (on_db (LinkModuleGitLabProject (mkLinkInput (PathValue ctx "module") (lm_GitLabBaseURL req)
                                              (lm_GitLabProjectID req) (lm_GitLabProjectPath req))))
      (fun mapping => writeJSON StatusOK (moduleGitLabProjectResponse mapping))).

Definition getModuleGitLabProject : Handler := fun ctx _ =>
  answer (on_db (GetModuleGitLabProject (PathValue ctx "module")))
    (fun mapping => writeJSON StatusOK (moduleGitLabProjectResponse mapping)).

Definition getModuleDependencies : Handler := fun ctx _ =>
  answer (on_db (GetModuleDependencyGraph svc (PathValue ctx "module")))
    (fun response => writeJSON StatusOK (moduleDependencyGraphResponse response)).

Definition getAffectedModules : Handler := fun ctx _ =>
  answer (on_db (Registry_ListAffectedModules svc (PathValue ctx "module")))
    (fun response => writeJSON StatusOK (affectedModulesResponse response)).

Definition file_reader (file : MultipartFile) : option Reader := Some (multipart_Content file, None).

Definition publishModuleVersion : Handler := fun ctx r =>
  with_artifact r (fun form file =>
    answer (PublishModuleVersion svc (mkPublishRequest (PathValue ctx "module") (TrimSpace (FormValue form "version"))
                                        (file_reader file)))
      (fun response =>
         let version := resp_Version response in
         writeJSON StatusCreated
           (publishModuleVersionResponse (PathValue ctx "module") (version_Version version) (version_Status version)
              (artifactSummaryResponse (resp_SourceArtifact response))
              (artifactSummaryResponse (resp_BufImageArtifact response))
              (bufInfoResponse (resp_BufConfig response) (resp_LintResult response))
              (metadataSummaryResponse (resp_MetadataSummary response)) (version_CreatedAt version)))).

Definition listModuleVersions : Handler := fun ctx _ =>
  answer (on_db (ListModuleVersions (PathValue ctx "module") 100 0))
    (fun versions => writeJSON StatusOK (listModuleVersionsResponse (map moduleVersionResponse versions))).

Definition getModuleVersion : Handler := fun ctx _ =>
  answer (on_db (GetModuleVersionDetails (PathValue ctx "module") (PathValue ctx "version")))
    (fun details => writeJSON StatusOK (moduleVersionDetailsResponse (PathValue ctx "module") details)).

Definition deprecateModuleVersion : Handler := fun ctx r =>
  with_optional_body deprecateModuleVersionRequest_fields deprecateModuleVersionRequest_zero r (fun req =>
    match PrincipalFromContext ctx with
    | None => reply (writeUsecaseError registry.ErrInvalidActor)
    | Some principal =>
        if (TrimSpace (principal_Subject principal) =? "")%string
        then reply (writeUsecaseError registry.ErrInvalidActor) else
        answer (on_db (DeprecateModuleVersion (mkDeprecateInput (PathValue ctx "module") (PathValue ctx "version")
                                                 (principal_Subject principal) (dm_Reason req))))
          (fun version => writeJSON StatusOK (moduleVersionResponse version))
    end).

Definition getModuleVersionMetadata : Handler := fun ctx _ =>
  answer (on_db (GetModuleVersionMetadata (PathValue ctx "module") (PathValue ctx "version")))
    (fun metadata => writeJSON StatusOK (descriptorMetadataResponse metadata)).

Definition createBreakingCheck : Handler := fun ctx r =>
  with_artifact r (fun form file =>
    answer (CheckBreaking svc (mkCheckBreakingRequest (PathValue ctx "module") (TrimSpace (FormValue form "against"))
                                 (TrimSpace (FormValue form "target_ref")) (file_reader file)
                                 (len (multipart_Content file))))
      (fun response => writeJSON StatusOK (breakingReportResponse response.1 response.2))).

Definition getBreakingReport : Handler := fun ctx _ =>
  answer (on_db (GetBreakingReport (PathValue ctx "report_id")))
    (fun response => writeJSON StatusOK (breakingReportResponse response.1 response.2)).

Definition getBreakingReportAffectedModules : Handler := fun ctx _ =>
  answer (on_db (GetBreakingReportAffectedModules svc (PathValue ctx "report_id")))
    (fun response => writeJSON StatusOK (breakingReportAffectedModulesResponse response)).

Definition listBreakingReports : Handler := fun ctx r =>
  answer (on_db (ListBreakingReports (PathValue ctx "module") (parsePositiveInt (Query_Get r "limit") 100) 0))
    (fun reports => writeJSON StatusOK (listBreakingReportsResponse (map breakingReportSummaryResponse reports))).

(** The version first, for its digest, and then the artifact. A body that cannot
    be read is left out, the status and the headers are sent by then. *)
Definition downloadArtifact : Handler := fun ctx _ s =>
  let moduleName := PathValue ctx "module" in
  let versionValue := PathValue ctx "version" in
  match on_db (GetModuleVersion moduleName versionValue) s with
  | (Err err, s1) => (writeUsecaseError err, s1)
  | (Ok moduleVersion, s1) =>
      answer (DownloadArtifact moduleName versionValue) (fun response =>
        let '(object, artifact) := response in
        let contentType := if (object_ContentType object =? "")%string then "application/octet-stream"
                           else object_ContentType object in
        mkHttpResponse StatusOK
          ([("Content-Type", contentType);
            ("Content-Disposition", "attachment; filename=" +:+ String quote_char "" +:+ moduleName +:+ "-" +:+ versionValue
               +:+ ".tar.gz" +:+ String quote_char "");
            ("X-ProtoRadar-Digest", version_Digest moduleVersion)]
           ++ (if (artifact_ChecksumSHA256 artifact =? "")%string then []
               else [("X-ProtoRadar-Checksum-SHA256", artifact_ChecksumSHA256 artifact)]))%list
          (match object_Body object with Ok body => body | Err _ => "" end)) s1
  end.

(** *** Runtime inventory *)

(** [if server.runtime == nil]. *)
Definition with_runtime (k : Registry -> HttpResponse * Registry) : Registry -> HttpResponse * Registry :=
  if srv_runtime server then k else reply writeInternalError.

Definition reportRuntimeInventory : Handler := fun _ r =>
  with_runtime (with_body reportRuntimeInventoryRequest_fields reportRuntimeInventoryRequest_zero r (fun req =>
    answer (on_db (ReportRuntimeInventory
              (mkReportInput (rr_ServiceName req) (rr_Environment req) (rr_GitCommit req) (rr_BuildVersion req) None
                 (map (fun module => mkReportedModuleInput (rm_Module module) (rm_Version module))
                    (slice_items (rr_Modules req))))))
      (fun output => writeJSON StatusCreated (reportRuntimeInventoryResponse output)))).

Definition listRuntimeServices : Handler := fun _ _ =>
  with_runtime (answer (on_db (Runtime_ListRuntimeServices 100 0))
    (fun summaries => writeJSON StatusOK (runtimeServicesResponse summaries))).

Definition getRuntimeServiceDetails : Handler := fun ctx _ =>
  with_runtime (answer (on_db (Runtime_GetRuntimeServiceDetails (PathValue ctx "service")))
    (fun details => writeJSON StatusOK (runtimeServiceDetailsResponse details))).

Definition getEnvironmentInventory : Handler := fun ctx _ =>
  with_runtime (answer (on_db (GetEnvironmentInventory (PathValue ctx "environment") 100 0))
    (fun inventory => writeJSON StatusOK (runtimeEnvironmentInventoryResponse inventory))).

Definition getModuleRuntimeUsages : Handler := fun ctx _ =>
  with_runtime (answer (on_db (GetModuleRuntimeUsages (PathValue ctx "module") 100 0))
    (fun usages => writeJSON StatusOK (moduleRuntimeUsagesResponse (PathValue ctx "module") usages))).

Definition getBreakingReportRuntimeImpact : Handler := fun ctx _ =>
  with_runtime (answer (on_db (GetBreakingReportRuntimeImpact (NewBreakingReportID (PathValue ctx "report_id")) 100 0))
    (fun impacts => writeJSON StatusOK (breakingReportRuntimeImpactResponse (PathValue ctx "report_id") impacts))).

(** *** Governance *)

Definition with_governance (k : Registry -> HttpResponse * Registry) : Registry -> HttpResponse * Registry :=
  if srv_governance server then k else reply writeInternalError.

Definition resolveGovernanceActor (ctx : RequestContext) (requestedActor : string) : result string :=
  match PrincipalFromContext ctx with
  | None => Err governance.ErrInvalidApprovalActor
  | Some principal =>
      let? actor := ResolveGovernanceActor principal requestedActor (srv_actorOverridePolicy server) in
      Ok (actor_Subject actor)
  end.
Definition with_actor (ctx : RequestContext) (requestedActor : string) (k : string -> Registry -> HttpResponse * Registry)
    : Registry -> HttpResponse * Registry :=
  match resolveGovernanceActor ctx requestedActor with
  | Ok actor => k actor
  | Err err => reply (writeUsecaseError err)
  end.

Definition defaultGovernanceListLimit : Z := 100.

Definition listModuleOwners : Handler := fun ctx _ =>
  let moduleName := PathValue ctx "module" in
  with_governance (answer (on_db (ListModuleOwners (mkListModuleOwnersInput moduleName)))
    (fun owners => writeJSON StatusOK (moduleOwnersResponse moduleName owners))).

Definition addModuleOwner : Handler := fun ctx r =>
  with_governance (with_body addModuleOwnerRequest_fields addModuleOwnerRequest_zero r (fun req =>
    with_actor ctx (ao_Actor req) (fun actor =>
      answer (on_db (AddModuleOwner (mkAddModuleOwnerInput (PathValue ctx "module") (ao_SubjectType req) (ao_Subject req)
                                       (ao_Role req) actor)))
        (fun owner => writeJSON StatusCreated (moduleOwnerResponse owner))))).

Definition removeModuleOwner : Handler := fun ctx r =>
  with_governance (with_actor ctx (Query_Get r "actor") (fun actor =>
    answer (on_db (RemoveModuleOwner (mkRemoveModuleOwnerInput (PathValue ctx "module") (PathValue ctx "owner_id") actor)))
      (fun _ => mkHttpResponse StatusNoContent [] ""))).

Definition createApprovalRequest : Handler := fun ctx r =>
  with_governance (with_optional_body createApprovalRequestRequest_fields createApprovalRequestRequest_zero r (fun req =>
    with_actor ctx (ca_Actor req) (fun actor =>
      answer (on_db (CreateApprovalRequestForBreakingReport policyConfig
                (mkCreateInput (PathValue ctx "report_id") actor (ca_TargetRef req))))
        (fun request => writeJSON StatusCreated (approvalRequestResponse request))))).

Definition getApprovalStatus : Handler := fun ctx _ =>
  with_governance (answer (on_db (GetApprovalStatusForBreakingReport (mkStatusInput (PathValue ctx "report_id"))))
    (fun request => writeJSON StatusOK (approvalRequestResponse request))).

Definition recordApprovalDecision (approve : bool) : Handler := fun ctx r =>
  with_governance (with_body approvalDecisionRequest_fields approvalDecisionRequest_zero r (fun req =>
    with_actor ctx (ad_Actor req) (fun actor =>
      let input := mkDecisionInput (PathValue ctx "request_id") (PathValue ctx "requirement_id") actor (ad_Comment req) in
      answer (on_db (if approve then ApproveRequirement policyConfig input else RejectRequirement policyConfig input))
        (fun request => writeJSON StatusOK (approvalRequestResponse request))))).
Definition approveRequirement : Handler := recordApprovalDecision true.
Definition rejectRequirement : Handler := recordApprovalDecision false.

Definition getApprovalRequestAudit : Handler := fun ctx r =>
  let requestID := PathValue ctx "request_id" in
  with_governance (answer (on_db (ListApprovalRequestAudit
      (mkListAuditInput requestID (parsePositiveInt (Query_Get r "limit") defaultGovernanceListLimit)
         (parsePositiveInt (Query_Get r "offset") 0))))
    (fun events => writeJSON StatusOK (approvalAuditResponseForRequest requestID events))).

(** *** Tokens *)

Definition createAPIToken : Handler := fun _ r =>
  with_unlimited_body createAPITokenRequest_fields createAPITokenRequest_zero r (fun req =>
    let create := fun expiresAt =>
      answer (on_db (CreateAPIToken svc (mkCreateTokenRequest (ct_Name req) expiresAt))) (fun created =>
        let '(token, rawToken) := created in
        writeJSON StatusCreated (createAPITokenResponse (token_ID token) (token_Name token) rawToken
                                   (token_CreatedAt token) (token_ExpiresAt token))) in
    if (ct_ExpiresAt req =? "")%string then create None else
    match parse_RFC3339 (ct_ExpiresAt req) with
    | Some parsed => create (Some parsed)
    | None => reply (writeError StatusBadRequest "validation_error" "expires_at must use RFC3339 format.")
    end).

(** ** Routes *)

Definition prometheusContentType : string := "text/plain; version=0.0.4; charset=utf-8".
Definition metricsHandler : Handler := fun _ _ s =>
  (mkHttpResponse StatusOK [("Content-Type", prometheusContentType)]
     match srv_metrics server with Some text => text s | None => "" end, s).

Inductive segment := Lit (s : string) | Wild (name : string).

Record Route := mkRoute {
  route_Method : string;
  route_Pattern : list segment;
  route_Handler : Handler }.

Definition api (rest : list segment) : list segment := Lit "api" :: Lit "v1" :: rest.
Definition api_module (rest : list segment) : list segment := api (Lit "modules" :: Wild "module" :: rest).
Definition api_report (rest : list segment) : list segment := api (Lit "breaking-reports" :: Wild "report_id" :: rest).
Definition api_request (rest : list segment) : list segment := api (Lit "approval-requests" :: Wild "request_id" :: rest).
Definition of_module : RequestContext -> Resource := pathResource "module" "module".
Definition of_version : RequestContext -> Resource := moduleVersionResource "module" "version".
Definition of_report : RequestContext -> Resource := pathIDResource "breaking_report" "report_id".
Definition of_request : RequestContext -> Resource := pathIDResource "approval_request" "request_id".
Definition modules_ : RequestContext -> Resource := staticResource "module_collection".
Definition runtime_ : RequestContext -> Resource := staticResource "runtime_inventory".

(** The routes behind [protected]: method, pattern, action, resource, handler. *)
Definition protected_routes : list (string * list segment * Action * (RequestContext -> Resource) * Handler) :=
  [("GET", api [Lit "edition"], ActionEditionRead, staticResource "edition", getEdition);
   ("POST", api [Lit "modules"], ActionModuleCreate, modules_, createModule);
   ("GET", api [Lit "modules"], ActionModuleRead, modules_, listModules);
   ("GET", api_module [], ActionModuleRead, of_module, getModule);
   ("PUT", api_module [Lit "gitlab-project"], ActionGitLabMappingManage, of_module, linkModuleGitLabProject);
   ("GET", api_module [Lit "gitlab-project"], ActionGitLabMappingRead, of_module, getModuleGitLabProject);
   ("GET", api_module [Lit "dependencies"], ActionDependencyGraphRead, of_module, getModuleDependencies);
   ("GET", api_module [Lit "affected"], ActionDependencyGraphRead, of_module, getAffectedModules);
   ("GET", api_module [Lit "owners"], ActionGovernanceOwnerRead, of_module, listModuleOwners);
   ("POST", api_module [Lit "owners"], ActionGovernanceOwnerManage, of_module, addModuleOwner);
   ("DELETE", api_module [Lit "owners"; Wild "owner_id"], ActionGovernanceOwnerManage,
      pathIDResource "module_owner" "owner_id", removeModuleOwner);
   ("GET", api_module [Lit "runtime-usages"], ActionRuntimeInventoryRead, of_module, getModuleRuntimeUsages);
   ("POST", api_module [Lit "versions"], ActionModuleVersionPublish, of_module, publishModuleVersion);
   ("GET", api_module [Lit "versions"], ActionModuleVersionRead, of_module, listModuleVersions);
   ("GET", api_module [Lit "versions"; Wild "version"], ActionModuleVersionRead, of_version, getModuleVersion);
   ("POST", api_module [Lit "versions"; Wild "version"; Lit "deprecate"], ActionModuleVersionDeprecate, of_version,
      deprecateModuleVersion);
   ("GET", api_module [Lit "versions"; Wild "version"; Lit "metadata"], ActionModuleVersionRead, of_version,
      getModuleVersionMetadata);
   ("GET", api_module [Lit "versions"; Wild "version"; Lit "artifact"], ActionModuleVersionDownload, of_version,
      downloadArtifact);
   ("POST", api_module [Lit "breaking-checks"], ActionBreakingCheckRun, of_module, createBreakingCheck);
   ("GET", api_module [Lit "breaking-reports"], ActionBreakingReportRead, of_module, listBreakingReports);
   ("GET", api_report [], ActionBreakingReportRead, of_report, getBreakingReport);
   ("GET", api_report [Lit "affected-modules"], ActionBreakingReportRead, of_report, getBreakingReportAffectedModules);
   ("GET", api_report [Lit "runtime-impact"], ActionBreakingReportRead, of_report, getBreakingReportRuntimeImpact);
   ("POST", api_report [Lit "approval-request"], ActionApprovalRequestCreate, of_report, createApprovalRequest);
   ("GET", api_report [Lit "approval-status"], ActionApprovalRequestRead, of_report, getApprovalStatus);
   ("POST", api_request [Lit "requirements"; Wild "requirement_id"; Lit "approve"], ActionApprovalDecisionRecord,
      of_request, approveRequirement);
   ("POST", api_request [Lit "requirements"; Wild "requirement_id"; Lit "reject"], ActionApprovalDecisionRecord,
      of_request, rejectRequirement);
   ("GET", api_request [Lit "audit"], ActionGovernanceAuditRead, of_request, getApprovalRequestAudit);
   ("POST", api [Lit "runtime"; Lit "reports"], ActionRuntimeInventoryReport, runtime_, reportRuntimeInventory);
   ("GET", api [Lit "runtime"; Lit "services"], ActionRuntimeInventoryRead, runtime_, listRuntimeServices);
   ("GET", api [Lit "runtime"; Lit "services"; Wild "service"], ActionRuntimeInventoryRead,
      pathResource "runtime_service" "service", getRuntimeServiceDetails);
   ("GET", api [Lit "runtime"; Lit "environments"; Wild "environment"], ActionRuntimeInventoryRead,
      pathResource "runtime_environment" "environment", getEnvironmentInventory)].

Definition routes : list Route :=
  ([mkRoute "GET" [Lit "healthz"] health; mkRoute "GET" [Lit "readyz"] readiness]
   ++ map (fun '(method, pattern, action, resource, handler) =>
             mkRoute method pattern (protected action resource handler)) protected_routes
   ++ [mkRoute "POST" (api [Lit "tokens"]) (requireBootstrapToken createAPIToken);
       mkRoute "GET" [Lit "metrics"] metricsHandler])%list.

(** [http.ServeMux]: a wildcard stands for one segment that is not empty; [GET]
    stands for [HEAD] as well. No two patterns of a method match one path. *)
Fixpoint match_pattern (pattern : list segment) (path : list string) : option (list (string * string)) :=
  match pattern, path with
  | [], [] => Some []
  | Lit s :: pattern', x :: path' => if (s =? x)%string then match_pattern pattern' path' else None
  | Wild name :: pattern', x :: path' =>
      if (x =? "")%string then None else cons (name, x) <$> match_pattern pattern' path'
  | _, _ => None
  end.
Definition method_matches (pattern method : string) : bool :=
  (pattern =? method)%string || ((pattern =? "GET")%string && (method =? "HEAD")%string).

Fixpoint find_route (rs : list Route) (r : HttpRequest) : option (Route * list (string * string)) :=
  match rs with
  | [] => None
  | route :: rest =>
      match match_pattern (route_Pattern route) (http_Path r) with
      | Some values => if method_matches (route_Method route) (http_Method r) then Some (route, values) else find_route rest r
      | None => find_route rest r
      end
  end.
Definition path_known (rs : list Route) (r : HttpRequest) : bool :=
  existsb (fun route => match match_pattern (route_Pattern route) (http_Path r) with Some _ => true | None => false end) rs.

Definition text_response (status : Z) (text : string) : HttpResponse :=
  mkHttpResponse status [("Content-Type", "text/plain; charset=utf-8"); ("X-Content-Type-Options", "nosniff")]
    (text +:+ String (byte_char 10) "").

Definition ServeHTTP (r : HttpRequest) : Registry -> HttpResponse * Registry :=
  match find_route routes r with
  | Some (route, values) => route_Handler route (mkRequestContext None values) r
  | None =>
      reply (if path_known routes r then text_response StatusMethodNotAllowed "Method Not Allowed"
             else text_response StatusNotFound "404 page not found")
  end.
End Server.
