(* ===== verification/HttpSafety.v ===== *)
(** * What a request may do

    Requests that only read, requests without credentials, and the documents a
    failure is answered with. *)

From S2P Require Import Prelude Errors GoStrings Edition JsonScan Domain Json Effects Postgres Outbox Events Tables World GovernanceStore UseCase CatalogStore DescriptorStore JsonDecode Rfc3339 DependencyStore DependencyGraph RuntimeStore RuntimeInventory AuditLog Identity Policy Approval ApprovalSafety Owners Archive Storage Registry RegistrySafety RegistryOperations RuntimeSafety ServerPolicy GitLabLink HttpDto HttpServer.

Open Scope string_scope.
Open Scope Z_scope.

(** ** Operations that only read *)

(** A statement that only reads; a function made of such statements. *)
Ltac pure_statement :=
  repeat first
    [ apply uuid_param_pure | apply text_params_pure | apply page_params_pure | apply query_row_pure
    | apply bind_pure; [|intros ?] | reflexivity ].
Ltac reading_function :=
  repeat first
    [ solve [auto with go] | apply same_db_scan_rows | apply same_db_find_or_none
    | apply (preserves_mapM same_db); intros ? _ | preserve_step
    | apply same_db_exec; intros ?; pure_statement ].

Section Reads.
Context `{PG : !Postgres} `{ENV : !Env} `{URL : !NetURL}.

Lemma same_db_found_or {A} zero (m : M World A) : preserves same_db m -> preserves same_db (found_or zero m).
Proof. intros H. unfold found_or. repeat first [exact H|preserve_step]. Qed.

Lemma same_db_ListModules l o : preserves same_db (ListModules l o).
Proof. unfold ListModules, Module_List. reading_function. Qed.
Lemma same_db_GetModule name : preserves same_db (GetModule name).
Proof. unfold GetModule. reading_function. Qed.
Lemma same_db_Project_GetByModuleID id : preserves same_db (Project_GetByModuleID id).
Proof. unfold Project_GetByModuleID, Project_getOne. reading_function. Qed.
#[local] Hint Resolve same_db_GetModule same_db_Project_GetByModuleID same_db_GetByModuleAndVersion
  same_db_GetLatestByModule same_db_Metadata_Get same_db_GetByModuleVersionAndKind same_db_ListAffected
  same_db_ListRuntimeImpact : go.
Lemma same_db_GetModuleGitLabProject name : preserves same_db (GetModuleGitLabProject name).
Proof. unfold GetModuleGitLabProject. reading_function. Qed.

Lemma same_db_ListUpstream id : preserves same_db (ListUpstreamByModule id).
Proof. unfold ListUpstreamByModule, listDependencies. reading_function. Qed.
Lemma same_db_ListDownstream id : preserves same_db (ListDownstreamByModule id).
Proof. unfold ListDownstreamByModule, listDependencies. reading_function. Qed.
Lemma same_db_ListUnresolved id : preserves same_db (ListUnresolvedByModule id).
Proof. unfold ListUnresolvedByModule, listUnresolvedDependencies. reading_function. Qed.
#[local] Hint Resolve same_db_ListUpstream same_db_ListDownstream same_db_ListUnresolved : go.
Lemma same_db_GetModuleDependencyGraph svc name : preserves same_db (GetModuleDependencyGraph svc name).
Proof. unfold GetModuleDependencyGraph. repeat first [apply same_db_found_or|reading_function]. Qed.
Lemma same_db_ListAffectedModules svc name : preserves same_db (Registry_ListAffectedModules svc name).
Proof. unfold Registry_ListAffectedModules. repeat first [apply same_db_found_or|reading_function]. Qed.
Lemma same_db_GetBreakingReportAffectedModules svc id : preserves same_db (GetBreakingReportAffectedModules svc id).
Proof. unfold GetBreakingReportAffectedModules. repeat first [apply same_db_found_or|reading_function]. Qed.
Lemma same_db_GetBreakingReport id : preserves same_db (GetBreakingReport id).
Proof. unfold GetBreakingReport. reading_function. Qed.
Lemma same_db_ListBreakingReports name l o : preserves same_db (ListBreakingReports name l o).
Proof. unfold ListBreakingReports, Report_ListByModule. reading_function. Qed.

Lemma same_db_ListModuleVersions name l o : preserves same_db (ListModuleVersions name l o).
Proof. unfold ListModuleVersions, Version_ListByModule. reading_function. Qed.
Lemma same_db_GetModuleVersion name v : preserves same_db (GetModuleVersion name v).
Proof. unfold GetModuleVersion. reading_function. Qed.
#[local] Hint Resolve same_db_GetModuleVersion : go.
Lemma same_db_BufConfig_Get id : preserves same_db (BufConfig_GetByModuleVersion id).
Proof. unfold BufConfig_GetByModuleVersion. reading_function. Qed.
Lemma same_db_Artifact_List id : preserves same_db (Artifact_ListByModuleVersion id).
Proof. unfold Artifact_ListByModuleVersion. reading_function. Qed.
#[local] Hint Resolve same_db_BufConfig_Get same_db_Artifact_List : go.
Lemma same_db_GetModuleVersionDetails name v : preserves same_db (GetModuleVersionDetails name v).
Proof. unfold GetModuleVersionDetails. repeat first [apply same_db_found_or|reading_function]. Qed.
Lemma same_db_GetModuleVersionMetadata name v : preserves same_db (GetModuleVersionMetadata name v).
Proof. unfold GetModuleVersionMetadata. reading_function. Qed.

Lemma same_db_UsagesByDeployment id : preserves same_db (ListRuntimeModuleUsagesByDeployment id).
Proof. unfold ListRuntimeModuleUsagesByDeployment. reading_function. Qed.
#[local] Hint Resolve same_db_UsagesByDeployment : go.
Lemma same_db_listRuntimeDeployments q : (forall d, (q d).2 = d) -> preserves same_db (listRuntimeDeployments q).
Proof. intros H. unfold listRuntimeDeployments. repeat first [apply same_db_exec; exact H|reading_function]. Qed.
Lemma same_db_deploymentUsages l : preserves same_db (deploymentUsages l).
Proof. unfold deploymentUsages. reading_function. Qed.
#[local] Hint Resolve same_db_deploymentUsages : go.
Lemma same_db_ListRuntimeServices l o : preserves same_db (Runtime_ListRuntimeServices l o).
Proof. unfold Runtime_ListRuntimeServices, ListRuntimeServices. reading_function. Qed.
Lemma same_db_GetRuntimeServiceDetails name : preserves same_db (Runtime_GetRuntimeServiceDetails name).
Proof.
  unfold Runtime_GetRuntimeServiceDetails, GetRuntimeServiceDetails, GetRuntimeServiceByName, getRuntimeService,
    ListRuntimeDeploymentsByService.
  repeat first [apply same_db_listRuntimeDeployments; intros ?; pure_statement|reading_function].
Qed.
Lemma same_db_GetEnvironmentInventory e l o : preserves same_db (GetEnvironmentInventory e l o).
Proof.
  unfold GetEnvironmentInventory, ListRuntimeEnvironmentInventory.
  repeat first [apply same_db_listRuntimeDeployments; intros ?; pure_statement|reading_function].
Qed.
Lemma same_db_GetModuleRuntimeUsages name l o : preserves same_db (GetModuleRuntimeUsages name l o).
Proof.
  unfold GetModuleRuntimeUsages, ListModuleRuntimeUsages, ListModuleRuntimeUsagesByModuleName, listModuleRuntimeUsages,
    module_usages_page. reading_function.
Qed.
Lemma same_db_GetBreakingReportRuntimeImpact id l o : preserves same_db (GetBreakingReportRuntimeImpact id l o).
Proof. unfold GetBreakingReportRuntimeImpact. reading_function. Qed.

Lemma same_db_ListModuleOwners input : preserves same_db (ListModuleOwners input).
Proof. unfold ListModuleOwners. reading_function. Qed.
Lemma same_db_GetApprovalStatus input : preserves same_db (GetApprovalStatusForBreakingReport input).
Proof. unfold GetApprovalStatusForBreakingReport. reading_function. Qed.
Lemma same_db_ListApprovalRequestAudit input : preserves same_db (ListApprovalRequestAudit input).
Proof. unfold ListApprovalRequestAudit, Audit_ListByApprovalRequest. reading_function. Qed.
End Reads.

#[export] Hint Resolve same_db_ListModules same_db_GetModule same_db_GetModuleGitLabProject
  same_db_GetModuleDependencyGraph same_db_ListAffectedModules same_db_GetBreakingReportAffectedModules
  same_db_GetBreakingReport same_db_ListBreakingReports same_db_ListModuleVersions same_db_GetModuleVersion
  same_db_GetModuleVersionDetails same_db_GetModuleVersionMetadata same_db_ListRuntimeServices
  same_db_GetRuntimeServiceDetails same_db_GetEnvironmentInventory same_db_GetModuleRuntimeUsages
  same_db_GetBreakingReportRuntimeImpact same_db_ListModuleOwners same_db_GetApprovalStatus
  same_db_ListApprovalRequestAudit same_db_GetByModuleVersionAndKind : go.

(** ** What a request that reads leaves

    The tables stay, but for the times at which tokens were last used; the
    objects and the file system stay; the observers may have been told of a use
    that was not recorded. *)

(** A token without the time of its last use. *)
Definition token_identity (t : APIToken) : APITokenID * string * string * time * option time :=
  (token_ID t, token_Name t, token_TokenHash t, token_CreatedAt t, token_ExpiresAt t).

Definition same_but_use (w w' : World) : Prop :=
  w_tx w' = w_tx w /\ exists tokens,
    w_db w' = set_tokens (fun _ => tokens) (w_db w) /\ map token_identity tokens = map token_identity (db_tokens (w_db w)).

#[global] Instance same_but_use_preorder : PreOrder same_but_use.
Proof.
  split.
  - intros w. split; [done|]. exists (db_tokens (w_db w)). split; [by destruct (w_db w)|done].
  - intros w1 w2 w3 [T1 (t1 & D1 & E1)] [T2 (t2 & D2 & E2)]. split; [congruence|].
    exists t2. rewrite D2, D1 in *. split; [done|]. by rewrite E2.
Qed.

Lemma same_db_use w w' : same_db w w' -> same_but_use w w'.
Proof. intros [E T]. split; [done|]. exists (db_tokens (w_db w)). rewrite E. split; [by destruct (w_db w)|done]. Qed.
Lemma preserves_weaken {S A} (R R' : relation S) (m : M S A) :
  (forall s s', R s s' -> R' s s') -> preserves R m -> preserves R' m.
Proof. intros H Hm s. apply H, Hm. Qed.

Record unchanged (s s' : Registry) : Prop := mkUnchanged {
  un_world : same_but_use (rg_world s) (rg_world s');
  un_objects : objects s' = objects s;
  un_fs : rg_fs s' = rg_fs s }.
#[global] Instance unchanged_preorder : PreOrder unchanged.
Proof.
  split; [by intros s|]. intros s1 s2 s3 [W1 O1 F1] [W2 O2 F2]. constructor; [by etrans|congruence..].
Qed.

Section Unchanged.
Context `{PG : !Postgres} `{ENV : !Env} `{CR : !Crypto} `{STORE : !ArtifactStore} `{LAWS : !ArtifactStoreLaws}.

Lemma unchanged_on_db {A} (m : M World A) : preserves same_but_use m -> preserves unchanged (on_db m).
Proof.
  intros H s. specialize (H (rg_world s)). unfold on_db, zoom. destruct (m (rg_world s)) as [r w]. by constructor.
Qed.
Lemma unchanged_read {A} (m : M World A) : preserves same_db m -> preserves unchanged (on_db m).
Proof. intros H. apply unchanged_on_db. revert H. apply preserves_weaken, same_db_use. Qed.

Lemma unchanged_store_Get key : preserves unchanged (on_store (store_Get key)).
Proof.
  intros s. unfold on_store, zoom. destruct (store_Get key (rg_bucket s)) as [r b] eqn:E.
  apply Get_law in E as [E _]. by constructor.
Qed.

(** A statement that is not applied leaves the tables as they are. *)
Lemma exec_keeps (R : relation World) {A} (m : M Database A) :
  (forall w d, d = w_db w \/ d = (m (w_db w)).2 -> R w (tick (set_db d w))) -> preserves R (exec m).
Proof.
  intros Hm w. change (exec m w) with (exec_db m w). unfold exec_db. pose proof (Hm w _ (or_introl eq_refl)) as H0.
  specialize (Hm w _ (or_intror eq_refl)). destruct (m (w_db w)) as [r d].
  replace (set_db (w_db w) w) with w in H0 by (by destruct w).
  by destruct (env_fault _); [destruct (env_applied _)|].
Qed.

Lemma Token_MarkUsed_use id t : preserves same_but_use (Token_MarkUsed id t).
Proof.
  unfold Token_MarkUsed, affected_or_not_found. repeat first [preserve_step|apply exec_keeps].
  intros w d Hd. assert (same_but_use w (set_db d w)) as [E (l & D)]; [|split; [exact E|by exists l]].
  destruct Hd as [->| ->]; [by apply same_db_use|].
  unfold bind, uuid_param. destruct (uuid_canon id) as [c|]; [|by apply same_db_use].
  cbn. split; [done|]. eexists. split; [done|]. apply map_update_where. done.
Qed.

Lemma Token_GetByHash_reads hash : preserves same_db (Token_GetByHash hash).
Proof. unfold Token_GetByHash, Token_getOne. reading_function. Qed.

(** Both providers only mark the token as used. *)
Lemma Authenticate_use secret observer req :
  (forall id e, preserves same_but_use (observer id e)) -> preserves same_but_use (Authenticate secret observer req).
Proof.
  intros Ho. unfold Authenticate.
  repeat first [apply Ho|apply Token_MarkUsed_use
               |apply (preserves_weaken _ _ _ same_db_use), Token_GetByHash_reads
               |apply (preserves_weaken _ _ _ same_db_use), same_db_now|preserve_step].
Qed.
Lemma AuthenticateToken_use svc token : preserves unchanged (AuthenticateToken svc token).
Proof.
  unfold AuthenticateToken, recordTokenUsageFailure.
  repeat first [apply unchanged_on_db, Token_MarkUsed_use
               |apply unchanged_read, preserves_map_err, Token_GetByHash_reads
               |apply unchanged_read, same_db_now|preserve_step].
  intros s. by constructor.
Qed.
Lemma registryAuthProvider_use svc req : preserves unchanged (registryAuthProvider svc req).
Proof. unfold registryAuthProvider. repeat first [apply AuthenticateToken_use|preserve_step]. Qed.
End Unchanged.

(** ** Handlers *)

(** The answers to requests that fail: none depends on the state, nor on what
    was asked for. *)
Definition forbidden_response : HttpResponse :=
  writeError StatusForbidden "forbidden" "Principal is not allowed to perform this action.".
Definition error_documents : list HttpResponse :=
  (map (fun c => writeError (snd c).1.1 (snd c).1.2 (snd c).2) usecase_errors
   ++ [writeInternalError; writePayloadTooLarge; writeUnauthorized; writeBadBody; forbidden_response;
       writeError StatusBadRequest "bad_request" "Multipart request is invalid.";
       writeError StatusBadRequest "bad_request" "Artifact file is required.";
       writeError StatusBadRequest "validation_error" "expires_at must use RFC3339 format.";
       text_response StatusMethodNotAllowed "Method Not Allowed"; text_response StatusNotFound "404 page not found"])%list.

(** What a handler answers, and what it does to the state. *)
Definition ends (P : HttpResponse -> Prop) (R : relation Registry) (h : Registry -> HttpResponse * Registry) : Prop :=
  forall s, P (h s).1 /\ R s (h s).2.

Lemma writeUsecaseError_document err : writeUsecaseError err ∈ error_documents.
Proof.
  unfold writeUsecaseError, error_documents. apply elem_of_app. destruct (List.find _ _) as [[errs [[status code] message]]|] eqn:E.
  - left. apply List.find_some in E as [E _]. apply list_elem_of_In, in_map_iff. eexists. by split; [|exact E].
  - right. by constructor.
Qed.

(** Membership by the name of an element: no document is evaluated. *)
Ltac listed :=
  cbn [fst reply In writeDecodeError]; fold forbidden_response;
  repeat first [left; match goal with |- ?x = ?x => reflexivity end|right].
Ltac known_document := apply list_elem_of_In, in_or_app; right; listed.

Section Handlers.
Context `{PG : !Postgres} `{ENV : !Env} `{CR : !Crypto} `{SYS : !OS} `{STORE : !ArtifactStore} `{HOST : !Host}.
Context `{URL : !NetURL} `{MR : !MultipartReader} `{POL : !PolicyEvaluator} `{AUD : !AuditSink World}
  `{PRO : !ApprovalProviders World}.
Variable (policyConfig : PolicyConfig) (server : Server).

Section Ends.
Context (P : HttpResponse -> Prop) (R : relation Registry) `{PO : !PreOrder R}.
Hypothesis documents : forall x, x ∈ error_documents -> P x.

Lemma ends_reply response : P response -> ends P R (reply response).
Proof. intros H s. by split. Qed.
Lemma ends_document response : response ∈ error_documents -> ends P R (reply response).
Proof. intros H. by apply ends_reply, documents. Qed.
Lemma ends_answer {A} (m : M Registry A) ok : preserves R m -> (forall a, P (ok a)) -> ends P R (answer m ok).
Proof.
  intros H Hok s. specialize (H s). unfold answer.
  destruct (m s) as [[a|e] s']; (split; [|exact H]); [apply Hok|apply documents, writeUsecaseError_document].
Qed.
Lemma ends_with_body {T} (fs : fields T) zero r k :
  (forall req, ends P R (k req)) -> ends P R (with_body server fs zero r k).
Proof. intros H. unfold with_body. destruct (decodeJSON _ _ _ _) as [|[]]; [apply H|apply ends_document; known_document..]. Qed.
Lemma ends_with_optional_body {T} (fs : fields T) zero r k :
  (forall req, ends P R (k req)) -> ends P R (with_optional_body server fs zero r k).
Proof. intros H. unfold with_optional_body. destruct (_ =? _); [apply H|by apply ends_with_body]. Qed.
Lemma ends_with_unlimited_body {T} (fs : fields T) zero r k :
  (forall req, ends P R (k req)) -> ends P R (with_unlimited_body fs zero r k).
Proof. intros H. unfold with_unlimited_body. destruct (decodeJSON _ _ _ _); [apply H|apply ends_document; known_document]. Qed.
Lemma ends_with_artifact r k : (forall form file, ends P R (k form file)) -> ends P R (with_artifact server r k).
Proof.
  intros H. unfold with_artifact. destruct (ParseMultipartForm _ _) as [form|[]]; [|apply ends_document; known_document..].
  destruct (FormFile _ _); [apply H|apply ends_document; known_document].
Qed.
Lemma ends_with_runtime k : ends P R k -> ends P R (with_runtime server k).
Proof. intros H. unfold with_runtime. destruct (srv_runtime server); [done|apply ends_document; known_document]. Qed.
Lemma ends_with_governance k : ends P R k -> ends P R (with_governance server k).
Proof. intros H. unfold with_governance. destruct (srv_governance server); [done|apply ends_document; known_document]. Qed.
Lemma ends_usecase_error err : ends P R (reply (writeUsecaseError err)).
Proof. apply ends_reply, documents, writeUsecaseError_document. Qed.
Lemma ends_with_actor ctx actor k : (forall a, ends P R (k a)) -> ends P R (with_actor server ctx actor k).
Proof. intros H. unfold with_actor. destruct (resolveGovernanceActor _ _ _); [apply H|apply ends_usecase_error]. Qed.

(** A guard keeps what the provider of principals and the handler keep. *)
Lemma ends_protected action resource next ctx r :
  (forall req, preserves R (srv_auth server req)) -> (forall ctx', ends P R (next ctx' r)) ->
  ends P R (protected server action resource next ctx r).
Proof.
  intros Ha Hn s. unfold protected, requireBearer. pose proof (Ha (mkAuthRequest (http_Authorization r) "") s) as H.
  destruct (srv_auth server _ s) as [[principal|e] s1]; [|split; [apply documents; known_document|exact H]].
  unfold requireAuthorization. destruct (PrincipalFromContext _); [|split; [apply documents; known_document|exact H]].
  destruct (Authorize _ _ _) as [|err].
  - destruct (Hn (ContextWithPrincipal ctx principal) s1) as [HP HR]. split; [done|]. by etrans.
  - split; [|exact H]. apply documents. unfold writeAuthorizationError. destruct (errors_Is _ _); known_document.
Qed.
End Ends.

Lemma readiness_keeps R `{!PreOrder R} ctx r :
  (forall c m, c ∈ srv_readinessChecks server -> readiness_Check c = Some m -> preserves R m) ->
  ends (fun _ => True) R (readiness server ctx r).
Proof.
  intros Hc. assert (forall s, R s (run_checks (srv_readinessChecks server) s).2) as H.
  { induction (srv_readinessChecks server) as [|c l IH]; intros s; [reflexivity|]. cbn.
    assert (forall s, R s (run_checks l s).2) as IHl by (apply IH; intros; eapply Hc; [by constructor 2|done]).
    destruct (readiness_Check c) as [m|] eqn:E; [|apply IHl]. destruct (_ =? _)%string; [apply IHl|].
    pose proof (Hc c m ltac:(by constructor) E s) as Hm. destruct (m s) as [b s1]. specialize (IHl s1).
    destruct (run_checks l s1) as [rs s2]. by etrans. }
  intros s. specialize (H s). unfold readiness. by destruct (run_checks _ s).
Qed.

(** ** The route of a request *)

Lemma find_route_sound rs r route values :
  find_route rs r = Some (route, values) ->
  route ∈ rs /\ match_pattern (route_Pattern route) (http_Path r) = Some values
  /\ method_matches (route_Method route) (http_Method r) = true.
Proof.
  induction rs as [|x rs IH]; [done|]. cbn. intros H.
  assert (find_route rs r = Some (route, values) \/ x = route /\ match_pattern (route_Pattern x) (http_Path r) = Some values
          /\ method_matches (route_Method x) (http_Method r) = true) as [H'|(-> & ? & ?)].
  { destruct (match_pattern (route_Pattern x) _) eqn:P; [|by left].
    destruct (method_matches (route_Method x) _) eqn:E; [right; by injection H as <- <-|by left]. }
  - destruct (IH H') as (? & ? & ?). split_and!; [by constructor 2|done..].
  - split_and!; [by constructor|done..].
Qed.

(** The routes: the three that are open, those behind [protected], the one behind
    the bootstrap token. *)
Lemma routes_cases route :
  route ∈ routes policyConfig server ->
  route = mkRoute "GET" [Lit "healthz"] health \/ route = mkRoute "GET" [Lit "readyz"] (readiness server)
  \/ (exists method pattern action resource handler,
        (method, pattern, action, resource, handler) ∈ protected_routes policyConfig server
        /\ route = mkRoute method pattern (protected server action resource handler))
  \/ route = mkRoute "POST" (api [Lit "tokens"]) (requireBootstrapToken server (createAPIToken server))
  \/ route = mkRoute "GET" [Lit "metrics"] (metricsHandler server).
Proof.
  unfold routes. rewrite !elem_of_app, !list_elem_of_In, in_map_iff. setoid_rewrite list_elem_of_In. cbn [In].
  intros [[<-|[<-|[]]]|[(((((m & p) & a) & res) & h) & <- & H)|[<-|[<-|[]]]]];
    [by left|by right; left| |by right; right; right; left|by right; right; right; right].
  right; right; left. by exists m, p, a, res, h.
Qed.
End Handlers.

(** The relation that says nothing. *)
Definition anything : relation Registry := fun _ _ => True.
#[global] Instance anything_preorder : PreOrder anything.
Proof. by split. Qed.

(** A handler, guard by guard. *)
Ltac handler_step documents :=
  first
    [ progress cbv zeta
    | apply (ends_with_body _ _ _ documents); intros ? | apply (ends_with_optional_body _ _ _ documents); intros ?
    | apply (ends_with_unlimited_body _ _ documents); intros ? | apply (ends_with_artifact _ _ _ documents); intros ? ?
    | apply (ends_with_runtime _ _ _ documents) | apply (ends_with_governance _ _ _ documents)
    | apply (ends_with_actor _ _ _ documents); intros ? | apply (ends_usecase_error _ _ documents) | apply (ends_reply _ _)
    | apply (ends_answer _ _ documents); [|intros ?]
    | match goal with
      | |- ends _ _ (match ?x with _ => _ end) => destruct x
      | |- ends _ _ (if ?b then _ else _) => destruct b
      | |- _ (let '(_, _) := ?x in _) => destruct x
      end ].

Section Requests.
Context `{PG : !Postgres} `{ENV : !Env} `{CR : !Crypto} `{SYS : !OS} `{STORE : !ArtifactStore}
  `{LAWS : !ArtifactStoreLaws} `{HOST : !Host}.
Context `{URL : !NetURL} `{MR : !MultipartReader} `{POL : !PolicyEvaluator} `{AUD : !AuditSink World}
  `{PRO : !ApprovalProviders World}.
Variable (policyConfig : PolicyConfig) (server : Server).

Lemma ends_downloadArtifact P R `{!PreOrder R} ctx r :
  (forall x, x ∈ error_documents -> P x) ->
  (forall name v, preserves R (on_db (GetModuleVersion name v))) -> (forall name v, preserves R (DownloadArtifact name v)) ->
  (forall headers body, P (mkHttpResponse StatusOK headers body)) -> ends P R (downloadArtifact ctx r).
Proof.
  intros Hd Hv Ha Hok s. unfold downloadArtifact. pose proof (Hv (PathValue ctx "module") (PathValue ctx "version") s) as H.
  destruct (on_db _ s) as [[v|e] s1]; [|split; [apply Hd, writeUsecaseError_document|done]].
  match goal with |- context [answer ?m ?ok s1] =>
    destruct (ends_answer P R Hd m ok (Ha _ _) ltac:(intros [? ?]; apply Hok) s1) as [H1 H2] end.
  split; [exact H1|]. etrans; [exact H|exact H2].
Qed.

Lemma DownloadArtifact_reads name v : preserves unchanged (DownloadArtifact name v).
Proof.
  unfold DownloadArtifact.
  repeat first [apply unchanged_read; auto with go; apply preserves_map_err; solve [auto with go]|preserve_step].
  intros s. pose proof (unchanged_store_Get (artifact_StorageKey a0) s) as H. revert H.
  unfold on_store, zoom, map_err. by destruct (store_Get _ _) as [[|] b].
Qed.

(** The routes that answer GET only read. *)
Lemma reading_routes :
  Forall (fun x => x.1.1.1.1 = "GET" -> forall ctx r, ends (fun _ => True) unchanged (x.2 ctx r))
    (protected_routes policyConfig server).
Proof.
  unfold protected_routes. repeat (constructor; [try discriminate; intros _ ctx r; cbn [snd]|]); [..|constructor].
  all: try solve [apply (ends_downloadArtifact _ _ _ _ (fun _ _ => I)); intros;
                  first [exact I|apply DownloadArtifact_reads|apply unchanged_read; auto with go]].
  all: match goal with |- ends _ _ (?h _ _ _) => unfold h | |- ends _ _ (?h _ _) => unfold h | _ => idtac end.
  all: repeat handler_step (fun (x : HttpResponse) (_ : x ∈ error_documents) => I).
  all: try exact I; try (apply unchanged_read; auto with go).
Qed.

Lemma no_head_routes : Forall (fun x => x.1.1.1.1 <> "HEAD") (protected_routes policyConfig server).
Proof. unfold protected_routes. repeat constructor; discriminate. Qed.

(** An answer that is not a failure, or one of the documents. *)
Definition documented (x : HttpResponse) : Prop := x ∈ error_documents \/ http_Status x < StatusBadRequest.

Lemma documented_error x : x ∈ error_documents -> documented x.
Proof. by left. Qed.
Lemma documented_JSON status body : status < StatusBadRequest -> documented (writeJSON status body).
Proof. by right. Qed.

Lemma createAPIToken_documented ctx r : ends documented anything (createAPIToken server ctx r).
Proof.
  unfold createAPIToken. repeat handler_step documented_error.
  all: first [by apply documented_JSON|by intros ?|apply documented_error; known_document].
Qed.

Lemma documented_routes :
  Forall (fun x => forall ctx r, ends documented anything (x.2 ctx r)) (protected_routes policyConfig server).
Proof.
  unfold protected_routes. repeat (constructor; [intros ctx r; cbn [snd]|]); [..|constructor].
  all: try solve [apply (ends_downloadArtifact _ _ _ _ documented_error); intros; first [by intros ?|by right]].
  all: match goal with |- ends _ _ (?h _ _ _) => unfold h | |- ends _ _ (?h _ _) => unfold h | _ => idtac end.
  all: try match goal with |- ends _ _ (recordApprovalDecision _ _ _ _ _) => unfold recordApprovalDecision end.
  all: repeat handler_step documented_error.
  all: first [by apply documented_JSON|by intros ?|by right|apply documented_error; known_document].
Qed.

(** ** Who may act *)

(** The request was let in: its method and its path are those of a route, and the
    provider of principals and the authorizer let the handler of the route run;
    or it creates a token and shows the token of the configuration. *)
Inductive admitted (r : HttpRequest) (s : Registry) : Prop :=
  | admitted_principal method pattern action resource handler values principal s' :
      (method, pattern, action, resource, handler) ∈ protected_routes policyConfig server ->
      match_pattern pattern (http_Path r) = Some values -> method_matches method (http_Method r) = true ->
      srv_auth server (mkAuthRequest (http_Authorization r) "") s = (Ok principal, s') ->
      Principal_IsZero principal = false ->
      @Authorize (srv_authorizer server) principal action
        (resource (ContextWithPrincipal (mkRequestContext None values) principal)) = Ok tt ->
      admitted r s
  | admitted_bootstrap :
      http_Method r = "POST" -> http_Path r = ["api"; "v1"; "tokens"] ->
      bearerToken (http_Authorization r) = Some (srv_bootstrapToken server) -> srv_bootstrapToken server <> "" ->
      admitted r s.

(** What anyone is answered: the two probes, the metrics, and refusals. *)
Definition public_answer (r : HttpRequest) (x : HttpResponse) : Prop :=
  http_Path r ∈ [["healthz"]; ["readyz"]; ["metrics"]]
  \/ x ∈ [writeUnauthorized; forbidden_response; text_response StatusMethodNotAllowed "Method Not Allowed";
          text_response StatusNotFound "404 page not found"].

Context (auth_reads : forall req, preserves unchanged (srv_auth server req))
  (checks_read : forall c m, c ∈ srv_readinessChecks server -> readiness_Check c = Some m -> preserves unchanged m).

Lemma unadmitted_protected method pattern action resource handler values r s :
  (method, pattern, action, resource, handler) ∈ protected_routes policyConfig server ->
  match_pattern pattern (http_Path r) = Some values -> method_matches method (http_Method r) = true ->
  let out := protected server action resource handler (mkRequestContext None values) r s in
  admitted r s \/ unchanged s out.2 /\ public_answer r out.1.
Proof.
  intros Hin Hp Hm out. subst out. unfold protected, requireBearer.
  pose proof (auth_reads (mkAuthRequest (http_Authorization r) "") s) as Ha.
  destruct (srv_auth server _ s) as [[principal|e] s1] eqn:E; [|right; split; [done|right; by left]].
  unfold requireAuthorization, PrincipalFromContext. cbn [rc_Principal ContextWithPrincipal].
  destruct (Principal_IsZero principal) eqn:Ez; [right; split; [done|right; by left]|].
  destruct (Authorize _ _ _) as [[]|err] eqn:Eau; [left; by eapply admitted_principal|].
  right. split; [done|]. right. unfold writeAuthorizationError. destruct (errors_Is _ _); [by left|right; by left].
Qed.

Lemma literal_pattern l path values : match_pattern (map Lit l) path = Some values -> path = l.
Proof.
  revert path values. induction l as [|x l IH]; intros [|y path] values H; try done. cbn in H.
  destruct (x =? y)%string eqn:E; [|done]. apply String.eqb_eq in E as ->. f_equal. by eapply IH.
Qed.

Lemma sameToken_Ok got want : sameToken got want = true -> got = want /\ want <> "".
Proof.
  unfold sameToken. destruct (got =? "")%string; [done|]. cbn. destruct (want =? "")%string eqn:E; [done|].
  intros ->%String.eqb_eq. split; [done|]. by apply String.eqb_neq.
Qed.

(** A request that is not admitted changes nothing, and is answered as anyone is. *)
Lemma unadmitted_requests r s :
  let out := ServeHTTP policyConfig server r s in admitted r s \/ unchanged s out.2 /\ public_answer r out.1.
Proof.
  cbv zeta. unfold ServeHTTP. destruct (find_route _ r) as [[route values]|] eqn:E.
  - apply find_route_sound in E as (Hin & Hp & Hm).
    apply routes_cases in Hin as [->|[->|[(m & p & a & res & h & Hin & ->)|[->| ->]]]]; cbn [route_Pattern route_Method route_Handler] in Hp, Hm |- *.
    + right. split; [done|]. left. apply (literal_pattern ["healthz"]) in Hp as ->. by left.
    + right. split; [exact (proj2 (readiness_keeps server unchanged _ _ checks_read s))|]. left.
      apply (literal_pattern ["readyz"]) in Hp as ->. by right; left.
    + by eapply unadmitted_protected.
    + unfold requireBootstrapToken. destruct (bearerToken _) as [token|] eqn:Eb; [|right; split; [done|right; by left]].
      destruct (sameToken _ _) eqn:Et; [|right; split; [done|right; by left]].
      left. apply sameToken_Ok in Et as [-> Hne]. apply admitted_bootstrap; [|by apply (literal_pattern ["api"; "v1"; "tokens"]) in Hp|done|done].
      unfold method_matches in Hm. apply orb_true_iff in Hm as [H%String.eqb_eq|H]; [done|]. done.
    + right. split; [done|]. left. apply (literal_pattern ["metrics"]) in Hp as ->. by right; right; left.
  - right. split; [done|]. right. destruct (path_known (routes policyConfig server) r); apply list_elem_of_In; listed.
Qed.

(** A request that reads changes nothing. *)
Lemma safe_requests r s :
  http_Method r = "GET" \/ http_Method r = "HEAD" -> unchanged s (ServeHTTP policyConfig server r s).2.
Proof.
  intros Hr. unfold ServeHTTP. destruct (find_route _ r) as [[route values]|] eqn:E; [|done].
  apply find_route_sound in E as (Hin & Hp & Hm).
  apply routes_cases in Hin as [->|[->|[(m & p & a & res & h & Hin & ->)|[->| ->]]]];
    cbn [route_Pattern route_Method route_Handler] in Hp, Hm |- *.
  - done.
  - exact (proj2 (readiness_keeps server unchanged _ _ checks_read s)).
  - pose proof reading_routes as H. rewrite Forall_forall in H. specialize (H _ Hin). cbn in H.
    refine (proj2 (ends_protected server (fun _ => True) unchanged (fun _ _ => I) a res h _ r auth_reads _ s)).
    intros ctx'. apply H.
    pose proof no_head_routes as N. rewrite Forall_forall in N. specialize (N _ Hin). cbn in N.
    unfold method_matches in Hm. apply orb_true_iff in Hm as [Hm%String.eqb_eq|[Hm%String.eqb_eq _]%andb_true_iff];
      [destruct Hr|]; congruence.
  - by destruct Hr as [Hr|Hr]; rewrite Hr in Hm.
  - done.
Qed.

(** The answer to a request that fails is one of the documents, but for the
    report of the readiness probe. *)
Lemma documented_requests r s :
  documented (ServeHTTP policyConfig server r s).1 \/ http_Path r = ["readyz"].
Proof.
  unfold ServeHTTP. destruct (find_route _ r) as [[route values]|] eqn:E.
  2:{ left; left. destruct (path_known (routes policyConfig server) r); known_document. }
  apply find_route_sound in E as (Hin & Hp & _).
  apply routes_cases in Hin as [->|[->|[(m & p & a & res & h & Hin & ->)|[->| ->]]]];
    cbn [route_Pattern route_Method route_Handler] in Hp |- *.
  - left. by apply documented_JSON.
  - right. by apply (literal_pattern ["readyz"]) in Hp.
  - left. pose proof documented_routes as H. rewrite Forall_forall in H. specialize (H _ Hin). cbn in H.
    refine (proj1 (ends_protected server documented anything documented_error a res h _ r _ _ s)); [done|].
    intros ctx'. apply H.
  - left. unfold requireBootstrapToken. destruct (bearerToken _); [destruct (sameToken _ _)|];
      [exact (proj1 (createAPIToken_documented _ r s))|left; known_document..].
  - by left; right.
Qed.
End Requests.
