(* ===== verification/HttpInvariant.v ===== *)
(** * The invariant of the whole service

    The registry, the runtime inventory and governance share one database. Here
    their invariants are put together, and kept over any sequence of requests to
    the HTTP interface. *)

From S2P Require Import Prelude Errors GoStrings Edition JsonScan Domain Json Effects Postgres Outbox Events Tables World GovernanceStore UseCase CatalogStore DescriptorStore JsonDecode Rfc3339 DependencyStore DependencyGraph RuntimeStore RuntimeInventory AuditLog Identity Policy Approval ApprovalSafety ApprovalInvariant Owners Archive Storage Registry RegistrySafety RegistryOperations RuntimeSafety RegistryInvariant RuntimeInvariant ServerPolicy GitLabLink HttpDto HttpServer HttpSafety.

Open Scope string_scope.
Open Scope Z_scope.

(** ** What the parts leave to each other *)

(** The tables of the registry and of the inventory are as they were. *)
Record aside (d d' : Database) : Prop := mkAside {
  as_modules : db_modules d' = db_modules d;
  as_versions : db_versions d' = db_versions d;
  as_artifacts : ct_artifacts (db_catalog d') = ct_artifacts (db_catalog d);
  as_inventory : inventory_of d' = inventory_of d }.

(** The tables of governance are as they were, and the modules stay; a new module
    has an identifier in canonical form. *)
Record calm `{PG : !Postgres} (d d' : Database) : Prop := mkCalm {
  ca_owners : db_owners d' = db_owners d;
  ca_requests : db_requests d' = db_requests d;
  ca_requirements : db_requirements d' = db_requirements d;
  ca_decisions : db_decisions d' = db_decisions d;
  ca_modules : forall m, m ∈ db_modules d -> m ∈ db_modules d';
  ca_new : forall m, m ∈ db_modules d' -> m ∈ db_modules d \/ canonical (module_ID m) }.

#[global] Instance aside_refl : Reflexive aside.
Proof. by intros d. Qed.
#[global] Instance calm_refl `{PG : !Postgres} : Reflexive calm.
Proof. intros d. split; auto. Qed.

(** The operations of the service, each of which keeps the invariant. *)
Create HintDb operations discriminated.
#[export] Hint Constants Opaque : operations.

(** A change of the tables that no other part reads. *)
Ltac other_tables := split; cbn; auto.

Section Parts.
Context `{PG : !Postgres} `{ENV : !Env} `{CR : !Crypto} `{SYS : !OS} `{STORE : !ArtifactStore} `{HOST : !Host}.
Context `{LAWS : !ArtifactStoreLaws} `{HONEST : !HonestFaults} `{HL : !HostLaws} `{URL : !NetURL}.
Context `{POL : !PolicyEvaluator} `{POLL : !PolicyEvaluatorLaws} `{AUD : !AuditSink World} `{LAW : !AuditSinkLaws}.
Context `{PRO : !ApprovalProviders World} `{PROL : !ApprovalProvidersLaws}.
Variable config : PolicyConfig.

Definition service_ok (s : Registry) : Prop :=
  registry_ok s /\ runtime_ok (w_db (rg_world s)) /\ governance_ok (rg_world s).

Lemma registry_ok_aside s s' :
  w_tx (rg_world s') = false -> objects s' = objects s -> aside (w_db (rg_world s)) (w_db (rg_world s')) ->
  registry_ok s -> registry_ok s'.
Proof. intros T O [E1 E2 E3 E4] [_ H]. split; [done|]. rewrite O. by eapply stored_ok_same. Qed.
Lemma runtime_ok_aside d d' : aside d d' -> runtime_ok d -> runtime_ok d'.
Proof.
  intros [E1 E2 E3 E4] [Hc Hi]. split; [by eapply catalogue_ok_same|]. revert Hi. by apply inventory_ok_grows, grows_refl.
Qed.
Lemma governance_ok_calm w w' :
  w_tx w' = false -> calm (w_db w) (w_db w') -> governance_ok w -> governance_ok w'.
Proof.
  intros T [E1 E2 E3 E4 Hm Hn] [Hi [O1 O2 O3 O4]]. split.
  - eapply (step_ok config); [exact Hi|]. apply step_other. split_and!; [done..|]. rewrite E1. intros o Ho. by apply O2.
  - constructor; rewrite ?E1; [|intros o Ho|done..].
    + intros m [H|H]%Hn; [by apply O1|done].
    + destruct (O2 o Ho) as (C1 & C2 & V1 & V2 & m & Hin & Hid). split_and!; [done..|]. exists m. by split; [apply Hm|].
Qed.

(** ** The registry and the inventory leave governance alone *)

Lemma published_calm svc module v a1 a2 bufResult d d' : published svc module v a1 a2 bufResult d d' -> calm d d'.
Proof.
  intros (d1 & d2 & d3 & d4 & (vid & mid & i1 & i2 & _ & _ & _ & _ & _ & _ & ->) & Hc & Hd & Hg & He).
  destruct Hc as (? & ? & ? & _ & -> & _). destruct Hd as (? & _ & -> & _). destruct He as (row & _ & _ & ->).
  destruct (svc_dependencies svc); [|subst d4; other_tables].
  destruct Hg as (? & ? & ? & ? & ? & ? & ? & ? & ? & _ & _ & _ & _ & _ & _ & _ & _ & ->). other_tables.
Qed.

Lemma atomic_calm {A} P w (r : result A) w' :
  (forall d', P (w_db w) d' -> calm (w_db w) d') -> atomic_outcome P w r w' -> w_tx w' = false /\ calm (w_db w) (w_db w').
Proof. intros HP [T [[_ ->]|H]]; (split; [done|]); [done|by apply HP]. Qed.

Lemma serve_calm svc q s :
  w_tx (rg_world s) = false ->
  w_tx (rg_world (serve svc q s)) = false /\ calm (w_db (rg_world s)) (w_db (rg_world (serve svc q s))).
Proof.
  intros Htx. destruct q as [req|req|input|req]; cbn [serve].
  - rewrite (proj1 (on_db_world (CreateModule req) s)).
    destruct (CreateModule req (rg_world s)) as [r w'] eqn:H. apply CreateModule_outcome in H; [|done].
    revert H. apply atomic_calm. intros d' (mid & name & t & _ & Hc & _ & row & _ & _ & ->).
    split; cbn; [done..| |]; intros m; rewrite elem_of_app; [auto|]. intros [?| ->%list_elem_of_singleton]; auto.
  - destruct (PublishModuleVersion svc req s) as [r s'] eqn:H. cbn [snd].
    apply Publish_outcome in H as [(_ & T & -> & _)|(name & v & artifact & inspect & module & w1 & _ & _ & H)]; [done| |done].
    destruct H as [e _ T -> _|body bufResult _ _ (T & _ & H)]; [done|]. split; [done|].
    destruct H as [[_ ->]|(resp & _ & Hp & _)]; [done|by eapply published_calm].
  - rewrite (proj1 (on_db_world (DeprecateModuleVersion input) s)).
    destruct (DeprecateModuleVersion input (rg_world s)) as [r w'] eqn:H. cbn [snd].
    apply Deprecate_outcome in H as [T H]; [|done]. split; [done|].
    destruct H as [[_ ->]|(v & _ & _ & [(_ & _ & ->)|(_ & t & (vid & _ & row & _ & _ & ->) & _)])]; [done..|other_tables].
  - destruct (CheckBreaking svc req s) as [r s'] eqn:H. cbn [snd].
    apply (CheckBreaking_outcome svc) in H as [_ [(T & _ & ->)|H]]; [done| |done].
    destruct H as (? & ? & ? & ? & ? & ? & ? & ? & ? & ? & ? & ? & ? & ? & ? & report & changes & _ & _ & _ & _ & _ & _
      & T & (rid & mid & vid & rows & _ & _ & _ & _ & row & _ & _ & ->) & _). split; [done|other_tables].
Qed.

Lemma report_calm input s :
  w_tx (rg_world s) = false -> catalogue_ok (w_db (rg_world s)) ->
  let s' := (on_db (ReportRuntimeInventory input) s).2 in
  w_tx (rg_world s') = false /\ calm (w_db (rg_world s)) (w_db (rg_world s'))
  /\ db_modules (w_db (rg_world s')) = db_modules (w_db (rg_world s))
  /\ db_versions (w_db (rg_world s')) = db_versions (w_db (rg_world s))
  /\ ct_artifacts (db_catalog (w_db (rg_world s'))) = ct_artifacts (db_catalog (w_db (rg_world s))).
Proof.
  intros Htx Hok. cbv zeta. rewrite (proj1 (on_db_world (ReportRuntimeInventory input) s)).
  destruct (ReportRuntimeInventory input (rg_world s)) as [r w'] eqn:H. cbn [snd].
  apply Report_outcome in H as [(T & _ & ->)|(T & refs & out & _ & (sid & us & _ & Hs) & _)]; [done| |done..].
  destruct Hs as (x & services & i1 & i2 & t & rows & _ & _ & _ & _ & _ & row & _ & _ & ->).
  by split_and!; [|other_tables|..].
Qed.

(** ** Governance, links and tokens leave the registry alone *)

Lemma atomic_aside {A} P w (r : result A) w' :
  (forall d', P (w_db w) d' -> aside (w_db w) d') -> atomic_outcome P w r w' -> w_tx w' = false /\ aside (w_db w) (w_db w').
Proof. intros HP [T [[_ ->]|H]]; (split; [done|]); [done|by apply HP]. Qed.

Lemma governance_aside w w' :
  governance_ok w -> governance_step config w w' -> w_tx w' = false /\ aside (w_db w) (w_db w').
Proof.
  intros [[Htx Hok] Ho] H. pose proof (ok_rows _ Hok) as Hrows.
  destruct H as [input w r w' H|input w r w' H|input w r w' H|input w r w' H|input w r w' H].
  - apply CreateApprovalRequest_outcome in H as (T & [->|(p & reqs & audit & row & H)] & _); [done| |done..].
    last_conjunct H. rewrite H. split; [done|other_tables].
  - apply recordDecision_made in H; [|done..]. revert H. apply atomic_aside.
    intros d' (p & q & m & i & t & st & audits & row & H). last_conjunct H. rewrite H. other_tables.
  - apply recordDecision_made in H; [|done..]. revert H. apply atomic_aside.
    intros d' (p & q & m & i & t & st & audits & row & H). last_conjunct H. rewrite H. other_tables.
  - apply AddModuleOwner_outcome in H; [|done|apply Ho]. revert H. apply atomic_aside.
    intros d' (m & o & audit & row & H). last_conjunct H. rewrite H. other_tables.
  - apply RemoveModuleOwner_outcome in H; [|done..]. revert H. apply atomic_aside.
    intros d' (m & o & audit & row & H). last_conjunct H. rewrite H. other_tables.
Qed.

(** What neither part reads. *)
Definition elsewhere (w w' : World) : Prop :=
  w_tx w' = w_tx w /\ aside (w_db w) (w_db w') /\ calm (w_db w) (w_db w').

Lemma Link_elsewhere input w :
  w_tx w = false -> (forall m, m ∈ db_modules (w_db w) -> canonical (module_ID m)) ->
  elsewhere w (LinkModuleGitLabProject input w).2.
Proof.
  intros Htx Hm. destruct (LinkModuleGitLabProject input w) as [r w'] eqn:H. cbn [snd].
  apply LinkModuleGitLabProject_outcome in H as [T [[_ E]|H]]; [by split_and!; rewrite ?E, ?T| |done..].
  destruct H as (name & n & k & q & rec & _ & _ & _ & _ & _ & _ & _ & _ & _ & row & _ & _ & E).
  split; [congruence|]. rewrite E. split; other_tables.
Qed.

(** Only the tokens change. *)
Definition tokens_change (d d' : Database) : Prop := exists tokens, d' = set_tokens (fun _ => tokens) d.
#[local] Instance tokens_change_preorder : PreOrder tokens_change.
Proof.
  split.
  - intros d. exists (db_tokens d). by destruct d.
  - intros d1 d2 d3 [t1 ->] [t2 ->]. by exists t2.
Qed.
Definition only_tokens (w w' : World) : Prop := w_tx w' = w_tx w /\ tokens_change (w_db w) (w_db w').
#[local] Instance only_tokens_preorder : PreOrder only_tokens.
Proof.
  split; [by intros w|]. intros w1 w2 w3 [T1 D1] [T2 D2]. split; [congruence|]. by etrans.
Qed.
Lemma use_tokens w w' : same_but_use w w' -> only_tokens w w'.
Proof. intros [T (tokens & D & _)]. split; [done|]. by exists tokens. Qed.
Lemma only_tokens_elsewhere w w' : only_tokens w w' -> elsewhere w w'.
Proof. intros [T (tokens & D)]. split; [done|]. rewrite D. split; other_tables. Qed.

Lemma exec_tokens {A} (m : M Database A) : preserves tokens_change m -> preserves only_tokens (exec m).
Proof. intros H. apply exec_keeps. intros w d [->| ->]; (split; [done|]); [done|apply H]. Qed.

Lemma Token_Create_tokens token : preserves only_tokens (Token_Create token).
Proof.
  unfold Token_Create. apply preserves_map_err, exec_tokens. unfold uuid_param, text_params, insert_checks.
  repeat preserve_step. intros d. by eexists.
Qed.

Lemma CreateAPIToken_tokens svc req : preserves only_tokens (CreateAPIToken svc req).
Proof.
  unfold CreateAPIToken, NewToken, NewAPITokenID_, random_hex, World.now.
  repeat first [apply Token_Create_tokens|preserve_step]; (intros w; split; [done|]; cbn; reflexivity).
Qed.

Lemma service_ok_elsewhere s s' :
  elsewhere (rg_world s) (rg_world s') -> objects s' = objects s -> service_ok s -> service_ok s'.
Proof.
  intros (T & Ha & Hc) O (Hr & Hi & Hg). pose proof (proj1 Hr) as Htx. rewrite <- T in Htx. split_and!.
  - by eapply registry_ok_aside.
  - by eapply runtime_ok_aside.
  - by eapply governance_ok_calm.
Qed.

(** ** Each operation keeps the invariant *)

Definition keeps_ok : relation Registry := fun s s' => service_ok s -> service_ok s'.
#[local] Instance keeps_ok_preorder : PreOrder keeps_ok.
Proof. split; [by intros s H|]. unfold keeps_ok. intros s1 s2 s3. auto. Qed.

Lemma unchanged_ok s s' : unchanged s s' -> keeps_ok s s'.
Proof. intros [W O _] Hs. apply (service_ok_elsewhere s); [|done..]. by apply only_tokens_elsewhere, use_tokens. Qed.

Lemma on_db_ok {A} (m : M World A) :
  (forall s, service_ok s -> elsewhere (rg_world s) (m (rg_world s)).2) -> preserves keeps_ok (on_db m).
Proof.
  intros Hm s Hs. destruct (on_db_world m s) as [Ew Eo]. apply (service_ok_elsewhere s); [|done..]. rewrite Ew. by apply Hm.
Qed.

Lemma serve_ok svc q s : service_ok s -> service_ok (serve svc q s).
Proof.
  intros (Hr & Hi & Hg). pose proof (proj1 Hr) as Htx. split_and!.
  - by apply serve_keeps.
  - by apply (serve_server_ok svc q s).
  - destruct (serve_calm svc q s Htx) as [T Hc]. by eapply governance_ok_calm.
Qed.

Lemma governance_op_ok {A} (m : M World A) :
  (forall w r w', m w = (r, w') -> governance_step config w w') -> preserves keeps_ok (on_db m).
Proof.
  intros Hm s (Hr & Hi & Hg). destruct (on_db_world m s) as [Ew Eo]. specialize (Hm (rg_world s) _ _ (surjective_pairing _)).
  destruct (governance_aside _ _ Hg Hm) as [T Ha]. rewrite <- Ew in T, Ha, Hm. split_and!.
  - by eapply registry_ok_aside.
  - by eapply runtime_ok_aside.
  - by eapply governance_step_ok.
Qed.

Lemma report_ok input : preserves keeps_ok (on_db (ReportRuntimeInventory input)).
Proof.
  intros s (Hr & Hi & Hg). pose proof (proj1 Hr) as Htx.
  destruct (report_calm input s Htx (proj1 Hi)) as (T & Hc & Em & Ev & Ea). split_and!.
  - split; [done|]. rewrite (proj2 (on_db_world (ReportRuntimeInventory input) s)). by eapply stored_ok_same; [apply Hr|..].
  - by apply report_server_ok.
  - by eapply governance_ok_calm.
Qed.

(** ** Requests *)

Context `{MR : !MultipartReader}.
Variable server : Server.

Lemma read_ok {A} (m : M World A) : preserves same_db m -> preserves keeps_ok (on_db m).
Proof. intros H s. by apply unchanged_ok, unchanged_read. Qed.
Lemma link_ok input : preserves keeps_ok (on_db (LinkModuleGitLabProject input)).
Proof. apply on_db_ok. intros s (Hr & _ & _ & Ho). apply Link_elsewhere; [apply Hr|apply Ho]. Qed.
Lemma create_token_ok svc req : preserves keeps_ok (on_db (CreateAPIToken svc req)).
Proof. apply on_db_ok. intros s _. apply only_tokens_elsewhere, CreateAPIToken_tokens. Qed.

Lemma create_module_ok req : preserves keeps_ok (on_db (CreateModule req)).
Proof. exact (serve_ok (srv_registry server) (RCreate req)). Qed.
Lemma publish_ok req : preserves keeps_ok (PublishModuleVersion (srv_registry server) req).
Proof. exact (serve_ok (srv_registry server) (RPublish req)). Qed.
Lemma deprecate_ok input : preserves keeps_ok (on_db (DeprecateModuleVersion input)).
Proof. exact (serve_ok (srv_registry server) (RDeprecate input)). Qed.
Lemma check_ok req : preserves keeps_ok (CheckBreaking (srv_registry server) req).
Proof. exact (serve_ok (srv_registry server) (RCheck req)). Qed.
Lemma create_request_ok input : preserves keeps_ok (on_db (CreateApprovalRequestForBreakingReport config input)).
Proof. apply governance_op_ok. intros w r w'. apply gov_create. Qed.
Lemma approve_ok input : preserves keeps_ok (on_db (ApproveRequirement config input)).
Proof. apply governance_op_ok. intros w r w'. apply gov_approve. Qed.
Lemma reject_ok input : preserves keeps_ok (on_db (RejectRequirement config input)).
Proof. apply governance_op_ok. intros w r w'. apply gov_reject. Qed.
Lemma add_owner_ok input : preserves keeps_ok (on_db (AddModuleOwner input)).
Proof. apply governance_op_ok. intros w r w'. apply gov_add_owner. Qed.
Lemma remove_owner_ok input : preserves keeps_ok (on_db (RemoveModuleOwner input)).
Proof. apply governance_op_ok. intros w r w'. apply gov_remove_owner. Qed.

#[local] Hint Resolve create_module_ok publish_ok deprecate_ok check_ok create_request_ok approve_ok reject_ok
  add_owner_ok remove_owner_ok link_ok report_ok create_token_ok : operations.
#[local] Hint Extern 2 (preserves keeps_ok (on_db _)) => apply read_ok; solve [auto with go] : operations.

Lemma keeping_routes :
  Forall (fun x => forall ctx r, ends (fun _ => True) keeps_ok (x.2 ctx r)) (protected_routes config server).
Proof.
  unfold protected_routes. repeat (constructor; [intros ctx r; cbn [snd]|]); [..|constructor].
  all: try solve [apply (ends_downloadArtifact _ _ _ _ (fun _ _ => I)); intros;
                  first [exact I|intros s; apply unchanged_ok, DownloadArtifact_reads|apply read_ok; auto with go]].
  all: match goal with |- ends _ _ (?h _ _ _) => unfold h | |- ends _ _ (?h _ _) => unfold h | _ => idtac end.
  all: try match goal with |- ends _ _ (recordApprovalDecision _ _ _ _ _) => unfold recordApprovalDecision end.
  all: repeat handler_step (fun (x : HttpResponse) (_ : x ∈ error_documents) => I).
  all: auto with operations.
Qed.

Context (auth_reads : forall req, preserves unchanged (srv_auth server req))
  (checks_read : forall c m, c ∈ srv_readinessChecks server -> readiness_Check c = Some m -> preserves unchanged m).

Lemma request_ok r s : service_ok s -> service_ok (ServeHTTP config server r s).2.
Proof.
  unfold ServeHTTP. destruct (find_route _ r) as [[route values]|] eqn:E; [|done].
  apply find_route_sound in E as (Hin & _ & _).
  apply routes_cases in Hin as [->|[->|[(m & p & a & res & h & Hin & ->)|[->| ->]]]]; cbn [route_Handler].
  - done.
  - refine (proj2 (readiness_keeps server keeps_ok _ _ _ s)). intros c m Hc Hm s0. by eapply unchanged_ok, checks_read.
  - pose proof keeping_routes as H. rewrite Forall_forall in H. specialize (H _ Hin). cbn in H.
    refine (proj2 (ends_protected server (fun _ => True) keeps_ok (fun _ _ => I) a res h _ r _ _ s)).
    + intros req s0. apply unchanged_ok, auth_reads.
    + intros ctx'. apply H.
  - unfold requireBootstrapToken. destruct (bearerToken _); [destruct (sameToken _ _)|]; [|done..].
    revert s. refine (fun s => proj2 ((_ : ends (fun _ => True) keeps_ok _) s)). unfold createAPIToken.
    clear auth_reads checks_read.
    repeat handler_step (fun (x : HttpResponse) (_ : x ∈ error_documents) => I). all: auto with operations.
  - done.
Qed.

Definition serve_requests (rs : list HttpRequest) (s : Registry) : Registry :=
  fold_left (fun s r => (ServeHTTP config server r s).2) rs s.

Lemma requests_ok rs s : service_ok s -> service_ok (serve_requests rs s).
Proof. revert s. induction rs as [|r rs IH]; intros s H; [done|]. by apply IH, request_ok. Qed.
End Parts.
