(* ===== verification/UiTypes.v ===== *)
(** * The read models of the pages

    [usecase/uiquery/types.go]: what the queries of the pages return, and the
    inputs of more than one field; an input of one field is that field. *)

From S2P Require Import Prelude GoStrings Domain.

Open Scope string_scope.
Open Scope Z_scope.

Record GetVersionOverviewInput := mkUiGetVersionOverviewInput {
  gvo_Module : string; gvo_Version : string }.

Record ListBreakingReportOverviewsInput := mkUiListBreakingReportOverviewsInput {
  lbr_Module : string; lbr_Status : string; lbr_Query : string }.

Record ListRuntimeServicesInput := mkUiListRuntimeServicesInput {
  lrs_Query : string; lrs_Environment : string; lrs_DriftStatus : string }.

Record CapabilityStatus := mkUiCapabilityStatus {
  cs_Name : string; cs_Enabled : bool }.

Record EditionDetails := mkUiEditionDetails {
  ed_Edition : string; ed_Version : string; ed_Commit : string; ed_BuildDate : string;
  ed_Capabilities : list CapabilityStatus }.

Record ModuleInfo := mkUiModuleInfo {
  mi_Name : string; mi_Description : string; mi_RepositoryURL : string; mi_CreatedAt : time;
  mi_UpdatedAt : time }.

Record GitLabProjectInfo := mkUiGitLabProjectInfo {
  gp_BaseURL : string; gp_ProjectID : Z; gp_ProjectPath : string; gp_UpdatedAt : time }.

Record ArtifactSummary := mkUiArtifactSummary {
  as_Kind : string; as_ChecksumSHA256 : string; as_SizeBytes : Z }.

Record DescriptorMetadataSummary := mkUiDescriptorMetadataSummary {
  ds_Files : Z; ds_Packages : Z; ds_Imports : Z; ds_Services : Z; ds_Methods : Z; ds_Messages : Z;
  ds_Fields : Z; ds_Enums : Z; ds_EnumValues : Z }.

Record VersionSummary := mkUiVersionSummary {
  vs_Version : string; vs_Status : string; vs_Digest : string; vs_CreatedAt : time;
  vs_PublishedAt : option time; vs_Artifacts : list ArtifactSummary; vs_LintStatus : string;
  vs_MetadataSummary : DescriptorMetadataSummary }.

Record ModuleOwner := mkUiModuleOwner {
  ow_ID : string; ow_ModuleID : string; ow_ModuleName : string; ow_SubjectType : string; ow_Subject : string;
  ow_Role : string; ow_CreatedAt : time; ow_UpdatedAt : time }.

Record BreakingReportSummary := mkUiBreakingReportSummary {
  br_ID : string; br_Module : string; br_BaseVersion : string; br_TargetRef : string; br_Status : string;
  br_ChangeCount : Z; br_CreatedAt : time }.

Record ModuleOverview := mkUiModuleOverview {
  mo_Module : ModuleInfo; mo_GitLabProject : option GitLabProjectInfo;
  mo_LatestVersion : option VersionSummary; mo_VersionCount : Z; mo_LastPublishedOrSeen : time;
  mo_BreakingReportCount : Z; mo_LastBreakingStatus : string; mo_Owners : list ModuleOwner;
  mo_Versions : list VersionSummary; mo_RecentReports : list BreakingReportSummary }.

Record BufConfigSummary := mkUiBufConfigSummary {
  bc_ConfigPresent : bool; bc_LockPresent : bool; bc_BufYAMLDigest : string; bc_BufLockDigest : string;
  bc_ModulePaths : list string; bc_Deps : list string; bc_LintEnabled : bool; bc_LintStatus : string;
  bc_BreakingConfigPresent : bool }.

Record ProtoImport := mkUiProtoImport {
  pi_Path : string; pi_Public : bool; pi_Weak : bool }.

Record ProtoMethod := mkUiProtoMethod {
  pm_Name : string; pm_InputType : string; pm_OutputType : string; pm_ClientStreaming : bool;
  pm_ServerStreaming : bool }.

Record ProtoService := mkUiProtoService {
  ps_Name : string; ps_FullName : string; ps_Methods : list ProtoMethod }.

Record ProtoField := mkUiProtoField {
  fld_Name : string; fld_Number : Z; fld_Type : string; fld_TypeName : string; fld_Label : string;
  fld_JSONName : string; fld_OneofName : string; fld_IsRepeated : bool; fld_IsMap : bool }.

Record ProtoEnumValue := mkUiProtoEnumValue {
  pv_Name : string; pv_Number : Z }.

Record ProtoEnum := mkUiProtoEnum {
  pe_Name : string; pe_FullName : string; pe_Values : list ProtoEnumValue }.

Inductive ProtoMessage := mkUiProtoMessage {
  msg_Name : string; msg_FullName : string; msg_Fields : list ProtoField; msg_Messages : list ProtoMessage;
  msg_Enums : list ProtoEnum }.

Record ProtoFile := mkUiProtoFile {
  pf_Path : string; pf_PackageName : string; pf_Syntax : string; pf_Imports : list ProtoImport;
  pf_Services : list ProtoService; pf_Messages : list ProtoMessage; pf_Enums : list ProtoEnum }.

Record DescriptorMetadata := mkUiDescriptorMetadata {
  dm_Files : list ProtoFile }.

Record VersionOverview := mkUiVersionOverview {
  vo_Module : ModuleInfo; vo_Version : VersionSummary; vo_Artifacts : list ArtifactSummary;
  vo_BufConfig : BufConfigSummary; vo_Metadata : DescriptorMetadata;
  vo_MetadataCounts : DescriptorMetadataSummary; vo_RelatedReports : list BreakingReportSummary }.

Record BreakingChangeSummary := mkUiBreakingChangeSummary {
  ch_Category : string; ch_FilePath : string; ch_PackageName : string; ch_Symbol : string; ch_RuleID : string;
  ch_Message : string; ch_Severity : string; ch_CreatedAt : time }.

Record DependencyModule := mkUiDependencyModule {
  de_Module : string; de_Version : string; de_DependencySources : list string; de_Reasons : list string }.

Record RuntimeImpact := mkUiRuntimeImpact {
  ri_ServiceName : string; ri_Environment : string; ri_UsedModule : string; ri_UsedVersion : string;
  ri_GitCommit : string; ri_BuildVersion : string; ri_ReportedAt : time; ri_ImpactStatus : string;
  ri_Reason : string; ri_DriftStatus : string; ri_DriftReason : string }.

Record ApprovalRequirementSummary := mkUiApprovalRequirementSummary {
  aq_ID : string; aq_ApprovalRequestID : string; aq_RequirementType : string; aq_TargetModuleID : string;
  aq_TargetModuleName : string; aq_RequiredRole : string; aq_Status : string; aq_Reason : string;
  aq_CreatedAt : time; aq_UpdatedAt : time }.

Record ApprovalDecisionSummary := mkUiApprovalDecisionSummary {
  ad_ID : string; ad_ApprovalRequestID : string; ad_RequirementID : string; ad_Decision : string;
  ad_DecidedBy : string; ad_Comment : string; ad_CreatedAt : time }.

Record ApprovalRequestSummary := mkUiApprovalRequestSummary {
  ar_ID : string; ar_ModuleID : string; ar_ModuleName : string; ar_BreakingReportID : string;
  ar_TargetRef : string; ar_Status : string; ar_RequiredApprovals : Z; ar_ReceivedApprovals : Z;
  ar_Requirements : list ApprovalRequirementSummary; ar_Decisions : list ApprovalDecisionSummary;
  ar_CreatedAt : time; ar_UpdatedAt : time }.

Record BreakingReportDetails := mkUiBreakingReportDetails {
  bd_Report : BreakingReportSummary; bd_Summary : string; bd_Changes : list BreakingChangeSummary;
  bd_AffectedModules : list DependencyModule; bd_RuntimeImpact : list RuntimeImpact;
  bd_Approval : option ApprovalRequestSummary }.

Record UnresolvedDependency := mkUiUnresolvedDependency {
  ud_Source : string; ud_ImportPath : string; ud_ReferencedSymbol : string; ud_Reason : string }.

Record ModuleDependencyGraph := mkUiModuleDependencyGraph {
  dg_Module : ModuleInfo; dg_Downstream : list DependencyModule; dg_Upstream : list DependencyModule;
  dg_Unresolved : list UnresolvedDependency }.

Record RuntimeServiceSummary := mkUiRuntimeServiceSummary {
  rss_ServiceName : string; rss_Environments : list string; rss_LastReportedAt : option time;
  rss_UpToDateCount : Z; rss_BehindLatestCount : Z; rss_UnknownVersionCount : Z; rss_DeprecatedCount : Z }.

Record RuntimeDeployment := mkUiRuntimeDeployment {
  rd_ID : string; rd_ServiceName : string; rd_Environment : string; rd_GitCommit : string;
  rd_BuildVersion : string; rd_ReportedAt : time; rd_CreatedAt : time }.

Record RuntimeModuleUsage := mkUiRuntimeModuleUsage {
  rmu_DeploymentID : string; rmu_Module : string; rmu_Version : string; rmu_LatestVersion : string;
  rmu_DriftStatus : string; rmu_DriftReason : string }.

Record RuntimeServiceDetails := mkUiRuntimeServiceDetails {
  rsd_ServiceName : string; rsd_Deployments : list RuntimeDeployment; rsd_Usages : list RuntimeModuleUsage }.

Record RuntimeEnvironmentInventory := mkUiRuntimeEnvironmentInventory {
  rei_Environment : string; rei_Deployments : list RuntimeDeployment; rei_Usages : list RuntimeModuleUsage }.

Record ModuleRuntimeUsage := mkUiModuleRuntimeUsage {
  mru_ServiceName : string; mru_Environment : string; mru_Module : string; mru_Version : string;
  mru_LatestVersion : string; mru_GitCommit : string; mru_BuildVersion : string; mru_ReportedAt : time;
  mru_DriftStatus : string; mru_DriftReason : string }.

Record ModuleRuntimeUsages := mkUiModuleRuntimeUsages {
  mrs_Module : string; mrs_Usages : list ModuleRuntimeUsage }.

Record GovernanceAuditEventSummary := mkUiGovernanceAuditEventSummary {
  ae_ID : string; ae_EventType : string; ae_Actor : string; ae_ModuleID : string; ae_ModuleName : string;
  ae_ApprovalRequestID : string; ae_BreakingReportID : string; ae_PayloadJSON : string; ae_CreatedAt : time }.

Record ApprovalRequestDetails := mkUiApprovalRequestDetails {
  ard_Request : ApprovalRequestSummary; ard_AuditEvents : list GovernanceAuditEventSummary }.
