(* ===== verification/UiQuery.v ===== *)
(** * The queries of the pages

    [usecase/uiquery/service.go]: the projections of the stored data on the read
    models, and the queries, which read the same repositories as the use cases.
    A field of the service that may be nil is a boolean, and the section it fills
    is empty without it. *)

From S2P Require Import Prelude Errors GoStrings Edition JsonScan Domain Json Effects Postgres Outbox Events Tables World GovernanceStore UseCase CatalogStore DescriptorStore DependencyStore DependencyGraph RuntimeStore RuntimeInventory AuditLog Identity Archive Storage Registry RegistryInvariant BufDescriptor GitLabLink UiTypes.

Open Scope string_scope.
Open Scope Z_scope.

(** ** Library functions *)

(** [sort.SliceStable]. *)
Definition SliceStable {A} (less : A -> A -> bool) (l : list A) : list A := sort_by (fun x y => negb (less y x)) l.

Definition optional_id (id : option string) : string := default "" id.

(** ** The projections *)

Definition defaultListLimit : Z := 1000.
Definition defaultVersionsLimit : Z := 100.
Definition defaultReportsLimit : Z := 100.

Definition moduleInfo (module : Module_) : ModuleInfo :=
  mkUiModuleInfo (module_Name module) (module_Description module) (module_RepositoryURL module)
    (module_CreatedAt module) (module_UpdatedAt module).

Definition gitLabProjectInfo (mapping : ModuleGitLabProject) : GitLabProjectInfo :=
  mkUiGitLabProjectInfo (gitlab_BaseURL mapping) (gitlab_ProjectID mapping) (gitlab_ProjectPath mapping)
    (gitlab_UpdatedAt mapping).

Definition versionSummary (moduleVersion : ModuleVersion) (artifacts : list ArtifactSummary) (lintStatus : string)
    (metadataSummary : DescriptorMetadataSummary) : VersionSummary :=
  mkUiVersionSummary (version_Version moduleVersion) (version_Status moduleVersion) (version_Digest moduleVersion)
    (version_CreatedAt moduleVersion) (version_PublishedAt moduleVersion) artifacts lintStatus metadataSummary.

Definition artifactSummary (artifact : Artifact) : ArtifactSummary :=
  mkUiArtifactSummary (artifact_Kind artifact) (artifact_ChecksumSHA256 artifact) (artifact_SizeBytes artifact).

Definition bufConfigSummary (config : BufConfigInfo) (lintStatus : string) : BufConfigSummary :=
  mkUiBufConfigSummary (buf_YAMLPresent config) (buf_LockPresent config) (buf_YAMLDigest config) (buf_LockDigest config)
    (buf_ModulePaths config) (buf_Deps config) (buf_LintEnabled config) lintStatus (buf_BreakingConfigPresent config).

Definition descriptorMetadataSummary (summary : Domain.DescriptorMetadataSummary) : DescriptorMetadataSummary :=
  mkUiDescriptorMetadataSummary (summary_FileCount summary) (summary_PackageCount summary) (summary_ImportCount summary)
    (summary_ServiceCount summary) (summary_MethodCount summary) (summary_MessageCount summary)
    (summary_FieldCount summary) (summary_EnumCount summary) (summary_EnumValueCount summary).
Definition DescriptorMetadataSummary_zero : DescriptorMetadataSummary :=
  mkUiDescriptorMetadataSummary 0 0 0 0 0 0 0 0 0.

Definition protoEnum (enum : Domain.ProtoEnum) : ProtoEnum :=
  mkUiProtoEnum (enum_Name enum) (enum_FullName enum)
    (map (fun value => mkUiProtoEnumValue (enumValue_Name value) (enumValue_Number value)) (enum_Values enum)).

Definition protoField (field : Domain.ProtoField) : ProtoField :=
  mkUiProtoField (field_Name field) (field_Number field) (field_Type field) (field_TypeName field) (field_Label field)
    (field_JSONName field) (field_OneofName field) (field_IsRepeated field) (field_IsMap field).

Fixpoint protoMessage (message : Domain.ProtoMessage) : ProtoMessage :=
  match message with
  | Domain.mkProtoMessage name fullName fields messages enums =>
      mkUiProtoMessage name fullName (map protoField fields) (map protoMessage messages) (map protoEnum enums)
  end.

Definition protoService (service : Domain.ProtoService) : ProtoService :=
  mkUiProtoService (protoService_Name service) (protoService_FullName service)
    (map (fun method => mkUiProtoMethod (method_Name method) (method_InputType method) (method_OutputType method)
                          (method_ClientStreaming method) (method_ServerStreaming method))
       (protoService_Methods service)).

Definition protoFile (file : Domain.ProtoFile) : ProtoFile :=
  mkUiProtoFile (file_Path file) (file_PackageName file) (file_Syntax file)
    (map (fun item => mkUiProtoImport (import_Path item) (import_Public item) (import_Weak item)) (file_Imports file))
    (map protoService (file_Services file)) (map protoMessage (file_Messages file)) (map protoEnum (file_Enums file)).

Definition descriptorMetadata (metadata : Domain.DescriptorMetadata) : DescriptorMetadata :=
  mkUiDescriptorMetadata (map protoFile (metadata_Files metadata)).

Definition breakingReportSummary (report : BreakingReport) : BreakingReportSummary :=
  mkUiBreakingReportSummary (report_ID report) (report_ModuleName report) (report_BaseVersion report)
    (report_TargetRef report) (report_Status report) (report_ChangeCount report) (report_CreatedAt report).

Definition breakingChangeSummary (change : BreakingChange) : BreakingChangeSummary :=
  mkUiBreakingChangeSummary (change_Category change) (change_FilePath change) (change_PackageName change)
    (change_Symbol change) (change_RuleID change) (change_Message change) (change_Severity change)
    (change_CreatedAt change).

Definition lintStatusFromConfig (config : BufConfigInfo) : string :=
  if negb (buf_LintEnabled config) then BufLintStatusNotRun else BufLintStatusPassed.

Definition latestOrModuleTime (module : Module_) (latest : option VersionSummary) (reports : list BreakingReportSummary)
    : time :=
  let last := module_UpdatedAt module in
  let last := match latest with
              | Some v => if last <? vs_CreatedAt v then vs_CreatedAt v else last
              | None => last
              end in
  match reports with
  | r :: _ => if last <? br_CreatedAt r then br_CreatedAt r else last
  | [] => last
  end.

Definition unresolvedDependencies (unresolved : list UnresolvedProtoDependency) : list UnresolvedDependency :=
  map (fun item => mkUiUnresolvedDependency (unresolved_Source item) (unresolved_ImportPath item)
                     (unresolved_ReferencedSymbol item) (unresolved_Reason item)) unresolved.

Definition runtimeServiceSummary (summary : Domain.RuntimeServiceSummary) : RuntimeServiceSummary :=
  mkUiRuntimeServiceSummary (service_Name (serviceSummary_Service summary))
    (sort_Strings (serviceSummary_Environments summary)) (serviceSummary_LatestReportedAt summary)
    (serviceSummary_UpToDateCount summary) (serviceSummary_BehindLatestCount summary)
    (serviceSummary_UnknownVersionCount summary) (serviceSummary_DeprecatedCount summary).

Definition runtimeDeployments (deployments : list Domain.RuntimeDeployment) : list RuntimeDeployment :=
  map (fun deployment => mkUiRuntimeDeployment (deployment_ID deployment) (deployment_ServiceName deployment)
         (deployment_Environment deployment) (deployment_GitCommit deployment) (deployment_BuildVersion deployment)
         (deployment_ReportedAt deployment) (deployment_CreatedAt deployment)) deployments.

Definition runtimeModuleUsages (usages : list Domain.RuntimeModuleUsage) : list RuntimeModuleUsage :=
  map (fun usage => mkUiRuntimeModuleUsage (usage_DeploymentID usage) (usage_ModuleName usage) (usage_Version usage)
         (default "" (usage_LatestVersion usage)) (usage_DriftStatus usage) (usage_DriftReason usage)) usages.

Definition runtimeServiceDetails (details : Domain.RuntimeServiceDetails) : RuntimeServiceDetails :=
  mkUiRuntimeServiceDetails (service_Name (serviceDetails_Service details))
    (runtimeDeployments (serviceDetails_Deployments details)) (runtimeModuleUsages (serviceDetails_Usages details)).

Definition runtimeEnvironmentInventory (inventory : Domain.RuntimeEnvironmentInventory) : RuntimeEnvironmentInventory :=
  mkUiRuntimeEnvironmentInventory (inventory_Environment inventory)
    (runtimeDeployments (inventory_Deployments inventory)) (runtimeModuleUsages (inventory_Usages inventory)).

Definition moduleRuntimeUsages (usages : list Domain.ModuleRuntimeUsage) (latestVersion : string)
    : list ModuleRuntimeUsage :=
  map (fun usage => mkUiModuleRuntimeUsage (moduleUsage_ServiceName usage) (moduleUsage_Environment usage)
         (moduleUsage_ModuleName usage) (moduleUsage_Version usage) latestVersion (moduleUsage_GitCommit usage)
         (moduleUsage_BuildVersion usage) (moduleUsage_ReportedAt usage) (moduleUsage_DriftStatus usage)
         (moduleUsage_DriftReason usage)) usages.

Definition runtimeImpacts (impacts : list Domain.RuntimeImpact) : list RuntimeImpact :=
  map (fun impact => mkUiRuntimeImpact (impact_ServiceName impact) (impact_Environment impact)
         (impact_UsedModule impact) (impact_UsedVersion impact) (impact_GitCommit impact) (impact_BuildVersion impact)
         (impact_ReportedAt impact) (impact_ImpactStatus impact) (impact_Reason impact) (impact_DriftStatus impact)
         (impact_DriftReason impact)) impacts.

Definition moduleOwner (owner : Domain.ModuleOwner) : ModuleOwner :=
  mkUiModuleOwner (owner_ID owner) (owner_ModuleID owner) (owner_ModuleName owner) (owner_SubjectType owner)
    (owner_Subject owner) (owner_Role owner) (owner_CreatedAt owner) (owner_UpdatedAt owner).

Definition approvalRequirementSummary (requirement : ApprovalRequirement) : ApprovalRequirementSummary :=
  mkUiApprovalRequirementSummary (requirement_ID requirement) (requirement_ApprovalRequestID requirement)
    (requirement_RequirementType requirement) (optional_id (requirement_TargetModuleID requirement))
    (requirement_TargetModuleName requirement) (requirement_RequiredRole requirement) (requirement_Status requirement)
    (requirement_Reason requirement) (requirement_CreatedAt requirement) (requirement_UpdatedAt requirement).

Definition approvalDecisionSummary (decision : ApprovalDecision) : ApprovalDecisionSummary :=
  mkUiApprovalDecisionSummary (decision_ID decision) (decision_ApprovalRequestID decision)
    (decision_RequirementID decision) (decision_Decision decision) (decision_DecidedBy decision)
    (decision_Comment decision) (decision_CreatedAt decision).

Definition approvalRequestSummary (request : ApprovalRequest) : ApprovalRequestSummary :=
  mkUiApprovalRequestSummary (request_ID request) (request_ModuleID request) (request_ModuleName request)
    (optional_id (request_BreakingReportID request)) (request_TargetRef request) (request_Status request)
    (request_RequiredApprovals request) (request_ReceivedApprovals request)
    (map approvalRequirementSummary (request_Requirements request))
    (map approvalDecisionSummary (request_Decisions request)) (request_CreatedAt request) (request_UpdatedAt request).

Definition governanceAuditEvents (events : list GovernanceAuditEvent) : list GovernanceAuditEventSummary :=
  map (fun event => mkUiGovernanceAuditEventSummary (auditEvent_ID event) (auditEvent_EventType event)
         (auditEvent_Actor event) (optional_id (auditEvent_ModuleID event)) (auditEvent_ModuleName event)
         (optional_id (auditEvent_ApprovalRequestID event)) (optional_id (auditEvent_BreakingReportID event))
         (auditEvent_PayloadJSON event) (auditEvent_CreatedAt event)) events.

(** ** Groups of dependencies

    The edges to one module and version are one item, with the sets of their
    sources and of their reasons, in the order of the first edge of each. *)

Record group := mkGroup {
  group_module : string;
  group_version : string;
  group_sources : gset string;
  group_reasons : gset string }.

Definition edge_end (upstream : bool) (dependency : ModuleDependency) : string * string :=
  if negb upstream then (dependency_ConsumerModuleName dependency, dependency_ConsumerVersion dependency)
  else (dependency_ProviderModuleName dependency, dependency_ProviderVersion dependency).
Definition edge_key (e : string * string) : string := e.1 +:+ String nul_byte e.2.
Definition group_end (g : group) : string * string := (group_module g, group_version g).

Definition insert_edge (dependency : ModuleDependency) (g : group) : group :=
  mkGroup (group_module g) (group_version g) ({[dependency_Source dependency]} ∪ group_sources g)
    (if negb (dependency_Reason dependency =? "")%string then {[dependency_Reason dependency]} ∪ group_reasons g
     else group_reasons g).

(** The index of a key is the group that has it. *)
Definition group_edge (upstream : bool) (groups : list group) (dependency : ModuleDependency) : list group :=
  let e := edge_end upstream dependency in
  let same := fun g => (edge_key (group_end g) =? edge_key e)%string in
  let groups := if existsb same groups then groups else (groups ++ [mkGroup e.1 e.2 ∅ ∅])%list in
  update_where same (insert_edge dependency) groups.

Definition stringSetValues (values : gset string) : list string := sort_Strings (elements values).

Definition dependencyModules (dependencies : list ModuleDependency) (upstream : bool) : list DependencyModule :=
  map (fun g => mkUiDependencyModule (group_module g) (group_version g) (stringSetValues (group_sources g))
                  (stringSetValues (group_reasons g)))
    (fold_left (group_edge upstream) dependencies []).

(** ** Filters *)

Section Filters.
Context `{UC : !Unicode}.

Definition normalize (value : string) : string := ToLower (TrimSpace value).

Definition moduleMatches (module : Module_) (query : string) : bool :=
  Contains (normalize (module_Name module)) query || Contains (normalize (module_Description module)) query
  || Contains (normalize (module_RepositoryURL module)) query.

Definition reportMatches (report : BreakingReportSummary) (query : string) : bool :=
  Contains (normalize (br_ID report)) query || Contains (normalize (br_Module report)) query
  || Contains (normalize (br_BaseVersion report)) query || Contains (normalize (br_TargetRef report)) query
  || Contains (normalize (br_Status report)) query.

Definition runtimeSummaryHasEnvironment (summary : RuntimeServiceSummary) (environment : string) : bool :=
  existsb (fun item => (normalize item =? environment)%string) (rss_Environments summary).
End Filters.

Definition runtimeDriftCount (summary : RuntimeServiceSummary) (driftStatus : string) : Z :=
  if (driftStatus =? RuntimeDriftStatusUpToDate)%string then rss_UpToDateCount summary else
  if (driftStatus =? RuntimeDriftStatusBehindLatest)%string then rss_BehindLatestCount summary else
  if (driftStatus =? RuntimeDriftStatusUnknownVersion)%string then rss_UnknownVersionCount summary else
  if (driftStatus =? RuntimeDriftStatusDeprecatedVersion)%string then rss_DeprecatedCount summary else 0.

(** ** The queries *)

(** The repositories that may be nil are there or not. *)
Record Queries := mkQueries {
  queries_gitLabProjects : bool;
  queries_dependencies : bool;
  queries_inventory : bool;
  queries_owners : bool;
  queries_approvals : bool;
  queries_audit : bool;
  queries_capabilities : CapabilityChecker;
  queries_buildInfo : BuildInfo }.

Definition NewQueries (gitLabProjects dependencies inventory owners approvals audit : bool)
    (capabilities : option CapabilityChecker) (buildInfo : BuildInfo) : Queries :=
  mkQueries gitLabProjects dependencies inventory owners approvals audit
    (default CommunityCapabilityChecker capabilities)
    (if (build_Version buildInfo =? "")%string then Info else buildInfo).

Section Queries.
Context `{PG : !Postgres} `{ENV : !Env} `{URL : !NetURL} `{UC : !Unicode}.
Variable svc : Queries.

Definition GetEdition : EditionDetails :=
  let model := NewCommunityEdition (queries_buildInfo svc) (Some (queries_capabilities svc)) in
  let build := edition_Version model in
  mkUiEditionDetails (edition_Name model) (build_Version build) (build_Commit build) (build_BuildDate build)
    (map (fun status => mkUiCapabilityStatus (status_Capability status) (status_Enabled status))
       (edition_Capabilities model)).

Definition moduleByName (moduleName : string) : M World Module_ :=
  match NewModuleName moduleName with
  | Err _ => fail domain.ErrInvalidModuleName
  | Ok name => Module_GetByName name
  end.

Definition reportsForModule (moduleID : ModuleID) (limit : Z) : M World (list BreakingReport) :=
  found_or [] (Report_ListByModule moduleID limit 0).

Definition artifactsForVersion (versionID : ModuleVersionID) : M World (list ArtifactSummary) :=
  let! artifacts := found_or [] (Artifact_ListByModuleVersion versionID) in
  ret (map artifactSummary artifacts).

Definition BufConfigInfo_zero : BufConfigInfo := mkBufConfigInfo false false "" "" [] [] false false.
Definition bufConfigForVersion (versionID : ModuleVersionID) : M World (BufConfigInfo * string) :=
  found_or (BufConfigInfo_zero, BufLintStatusNotRun)
    (let! config := BufConfig_GetByModuleVersion versionID in ret (config, lintStatusFromConfig config)).

Definition metadataSummaryForVersion (versionID : ModuleVersionID) : M World DescriptorMetadataSummary :=
  found_or DescriptorMetadataSummary_zero
    (let! summary := GetSummaryByModuleVersion versionID in ret (descriptorMetadataSummary summary)).

Definition metadataForVersion (versionID : ModuleVersionID) : M World DescriptorMetadata :=
  found_or (mkUiDescriptorMetadata [])
    (let! metadata := Metadata_GetByModuleVersion versionID in ret (descriptorMetadata metadata)).

Definition moduleOwners (moduleID : ModuleID) : M World (list ModuleOwner) :=
  if negb (queries_owners svc) then ret [] else
  found_or [] (let! owners := Owner_ListByModule moduleID in ret (map moduleOwner owners)).

(** The summary of a version in a list: with its artifacts, its configuration and
    its descriptor when details are asked for. *)
Definition versionItem (includeDetails : bool) (version : ModuleVersion) : M World VersionSummary :=
  if includeDetails then
    let! artifacts := artifactsForVersion (version_ID version) in
    let! (_, lintStatus) := bufConfigForVersion (version_ID version) in
    let! metadataSummary := metadataSummaryForVersion (version_ID version) in
    ret (versionSummary version artifacts lintStatus metadataSummary)
  else ret (versionSummary version [] "" DescriptorMetadataSummary_zero).

Definition latestVersionOf (moduleID : ModuleID) (versionItems : list VersionSummary) : M World (option VersionSummary) :=
  match versionItems with
  | latest :: _ => ret (Some latest)
  | [] => found_or None
            (let! latestVersion := GetLatestByModule moduleID in
             ret (Some (versionSummary latestVersion [] "" DescriptorMetadataSummary_zero)))
  end.

Definition moduleOverview (module : Module_) (includeDetails : bool) : M World ModuleOverview :=
  let id := module_ID module in
  let! versions := found_or [] (Version_ListByModule id defaultVersionsLimit 0) in
  let! reports := reportsForModule id defaultReportsLimit in
  let! owners := moduleOwners id in
  let! versionItems := mapM (versionItem includeDetails) versions in
  let! mapping :=
    (if queries_gitLabProjects svc
     then found_or None (let! stored := Project_GetByModuleID id in ret (Some (gitLabProjectInfo stored)))
     else ret None) in
  let! latest := latestVersionOf id versionItems in
  let reportItems := map breakingReportSummary reports in
  ret (mkUiModuleOverview (moduleInfo module) mapping latest (llen versions)
         (latestOrModuleTime module latest reportItems) (llen reports)
         (match reportItems with r :: _ => br_Status r | [] => "" end) owners versionItems reportItems).

Definition ListModuleOverviews (input : string) : M World (list ModuleOverview) :=
  let! modules := Module_List defaultListLimit 0 in
  let query := normalize input in
  mapM (fun module => moduleOverview module false)
    (List.filter (fun module => (query =? "")%string || moduleMatches module query) modules).

Definition GetModuleOverview (module : string) : M World ModuleOverview :=
  let! module := moduleByName module in
  moduleOverview module true.

Definition GetVersionOverview (input : GetVersionOverviewInput) : M World VersionOverview :=
  let! module := moduleByName (gvo_Module input) in
  match NewVersion (gvo_Version input) with
  | Err _ => fail domain.ErrInvalidVersion
  | Ok versionValue =>
      let! moduleVersion := GetByModuleAndVersion (module_ID module) versionValue in
      let id := version_ID moduleVersion in
      let! artifacts := artifactsForVersion id in
      let! (config, lintStatus) := bufConfigForVersion id in
      let! metadataSummary := metadataSummaryForVersion id in
      let! metadata := metadataForVersion id in
      let! relatedReports := reportsForModule (module_ID module) defaultReportsLimit in
      let related := List.filter (fun report =>
        eqs (report_BaseVersionID report) id || eqs (report_BaseVersion report) (version_Version moduleVersion))
        relatedReports in
      ret (mkUiVersionOverview (moduleInfo module) (versionSummary moduleVersion artifacts lintStatus metadataSummary)
             artifacts (bufConfigSummary config lintStatus) metadata metadataSummary
             (map breakingReportSummary related))
  end.

(** [append] of the reports of each module. *)
Definition listReports (moduleFilter : string) (limit : Z) : M World (list BreakingReport) :=
  if negb (moduleFilter =? "")%string then
    let! module := moduleByName moduleFilter in
    reportsForModule (module_ID module) limit
  else
    let! modules := Module_List defaultListLimit 0 in
    let! all := mapM (fun module => reportsForModule (module_ID module) limit) modules in
    ret (concat all).

Definition report_selected (status query : string) (report : BreakingReport) : bool :=
  ((status =? "")%string || (normalize (report_Status report) =? status)%string)
  && ((query =? "")%string || reportMatches (breakingReportSummary report) query).

Definition ListBreakingReportOverviews (input : ListBreakingReportOverviewsInput)
    : M World (list BreakingReportSummary) :=
  let! reports := listReports (TrimSpace (lbr_Module input)) defaultReportsLimit in
  let status := normalize (lbr_Status input) in
  let query := normalize (lbr_Query input) in
  ret (SliceStable (fun x y => br_CreatedAt y <? br_CreatedAt x)
         (map breakingReportSummary (List.filter (report_selected status query) reports))).

Definition affectedModules (moduleID : ModuleID) : M World (list DependencyModule) :=
  if negb (queries_dependencies svc) then ret [] else
  let! affected := ListAffectedModules moduleID in
  ret (map (fun item => mkUiDependencyModule (affected_ModuleName item) (affected_LatestVersion item)
                          (affected_DependencySources item) (affected_Reasons item)) affected).

Definition runtimeImpact (reportID : BreakingReportID) (baseVersionID : ModuleVersionID) : M World (list RuntimeImpact) :=
  if negb (queries_inventory svc) then ret [] else
  found_or [] (let! impacts := ListRuntimeImpactByModuleVersion reportID baseVersionID defaultListLimit 0 in
               ret (runtimeImpacts impacts)).

Definition GetBreakingReportDetails (report : string) : M World BreakingReportDetails :=
  let reportID := NewBreakingReportID report in
  if (reportID =? "")%string then fail domain.ErrNotFound else
  let! (report, changes) := Report_GetByID reportID in
  let! affected := affectedModules (report_ModuleID report) in
  let! impact := runtimeImpact (report_ID report) (report_BaseVersionID report) in
  let! approval :=
    (if queries_approvals svc
     then found_or None (let! request := GetRequestByBreakingReportID (report_ID report) in
                         ret (Some (approvalRequestSummary request)))
     else ret None) in
  ret (mkUiBreakingReportDetails (breakingReportSummary report) (report_HumanSummary report)
         (map breakingChangeSummary changes) affected impact approval).

Definition GetApprovalRequestDetails (request : string) : M World ApprovalRequestDetails :=
  if negb (queries_approvals svc) then fail domain.ErrNotFound else
  let requestID := NewApprovalRequestID request in
  if (requestID =? "")%string then fail domain.ErrNotFound else
  let! request := GetRequestByID requestID in
  let! events :=
    (if queries_audit svc
     then found_or [] (let! stored := Audit_ListByApprovalRequest requestID defaultReportsLimit 0 in
                       ret (governanceAuditEvents stored))
     else ret []) in
  ret (mkUiApprovalRequestDetails (approvalRequestSummary request) events).

Definition GetModuleDependencyGraph (module : string) : M World ModuleDependencyGraph :=
  let! module := moduleByName module in
  if negb (queries_dependencies svc) then ret (mkUiModuleDependencyGraph (moduleInfo module) [] [] []) else
  let! upstream := ListUpstreamByModule (module_ID module) in
  let! downstream := ListDownstreamByModule (module_ID module) in
  let! unresolved := ListUnresolvedByModule (module_ID module) in
  ret (mkUiModuleDependencyGraph (moduleInfo module) (dependencyModules downstream false)
         (dependencyModules upstream true) (unresolvedDependencies unresolved)).

(** The services that were reported last come first, those without a report last. *)
Definition reported_before (x y : RuntimeServiceSummary) : bool :=
  match rss_LastReportedAt x, rss_LastReportedAt y with
  | None, _ => false
  | Some _, None => true
  | Some t, Some t' => t' <? t
  end.

Definition service_selected (query environment driftStatus : string) (item : RuntimeServiceSummary) : bool :=
  ((query =? "")%string || Contains (normalize (rss_ServiceName item)) query)
  && ((environment =? "")%string || runtimeSummaryHasEnvironment item environment)
  && ((driftStatus =? "")%string || negb (runtimeDriftCount item driftStatus =? 0)).

Definition ListRuntimeServices (input : ListRuntimeServicesInput) : M World (list RuntimeServiceSummary) :=
  if negb (queries_inventory svc) then ret [] else
  let! summaries := RuntimeStore.ListRuntimeServices defaultListLimit 0 in
  ret (SliceStable reported_before
         (List.filter (service_selected (normalize (lrs_Query input)) (normalize (lrs_Environment input))
                         (normalize (lrs_DriftStatus input)))
            (map runtimeServiceSummary summaries))).

Definition GetRuntimeServiceDetails (service : string) : M World RuntimeServiceDetails :=
  if negb (queries_inventory svc) then fail domain.ErrNotFound else
  match NewRuntimeServiceName service with
  | Err _ => fail domain.ErrNotFound
  | Ok serviceName =>
      let! details := RuntimeStore.GetRuntimeServiceDetails serviceName in
      ret (runtimeServiceDetails details)
  end.

Definition GetRuntimeEnvironmentInventory (environment : string) : M World RuntimeEnvironmentInventory :=
  if negb (queries_inventory svc) then ret (mkUiRuntimeEnvironmentInventory (TrimSpace environment) [] []) else
  match NewRuntimeEnvironment environment with
  | Err _ => fail domain.ErrInvalidRuntimeEnvironment
  | Ok environment =>
      found_or (mkUiRuntimeEnvironmentInventory environment [] [])
        (let! inventory := ListRuntimeEnvironmentInventory environment defaultListLimit 0 in
         ret (runtimeEnvironmentInventory inventory))
  end.

Definition GetModuleRuntimeUsages (module : string) : M World ModuleRuntimeUsages :=
  if negb (queries_inventory svc) then fail domain.ErrNotFound else
  let! module := moduleByName module in
  let! usages := found_or [] (ListModuleRuntimeUsages (module_ID module) defaultListLimit 0) in
  let! latestVersion := found_or "" (let! latest := GetLatestByModule (module_ID module) in
                                     ret (version_Version latest)) in
  ret (mkUiModuleRuntimeUsages (module_Name module) (moduleRuntimeUsages usages latestVersion)).

Definition GetBreakingReportRuntimeImpact (report : string) : M World (list RuntimeImpact) :=
  let reportID := NewBreakingReportID report in
  if (reportID =? "")%string then fail domain.ErrNotFound else
  let! (report, _) := Report_GetByID reportID in
  runtimeImpact (report_ID report) (report_BaseVersionID report).
End Queries.

(** ** What a page shows is what is stored

    A query is determined by the tables: it changes nothing, and from two states
    with the same tables it answers the same, unless one of them loses its
    connection. *)

Section Determined.
Context `{PG : !Postgres} `{ENV : !Env} `{HF : !HonestFaults}.

Definition interrupted {A} (r : result A) : Prop := exists n e, env_fault n = Some e /\ r = Err e.

Definition determined {A} (m : M World A) : Prop := forall w1 w2, w_db w1 = w_db w2 -> w_tx w1 = w_tx w2 ->
  same_db w1 (m w1).2 /\ (interrupted (m w1).1 \/ interrupted (m w2).1 \/ (m w1).1 = (m w2).1).

Lemma interrupted_external {A} (r : result A) : interrupted r -> exists t, r = Err (EExternal t).
Proof. intros (n & e & [t ->]%fault_external & ->). by exists t. Qed.

Lemma determined_const {A} (r : result A) : determined (fun w => (r, w)).
Proof. intros w1 w2 _ _. split; [done|]. by right; right. Qed.

Lemma determined_exec {A} (m : M Database A) : (forall d, (m d).2 = d) -> determined (exec m).
Proof.
  intros Hm w1 w2 E _. split; [by apply same_db_exec|].
  change (exec m w1) with (exec_db m w1). change (exec m w2) with (exec_db m w2). unfold exec_db. rewrite E.
  destruct (m (w_db w2)) as [r d]. destruct (env_fault (w_tick w1)) as [e1|] eqn:E1; [left; by exists (w_tick w1), e1|].
  destruct (env_fault (w_tick w2)) as [e2|] eqn:E2; [right; left; by exists (w_tick w2), e2|]. by right; right.
Qed.

Lemma determined_bind {A B} (m : M World A) (k : A -> M World B) :
  determined m -> (forall a, determined (k a)) -> determined (bind m k).
Proof.
  intros Hm Hk w1 w2 E Et. destruct (Hm w1 w2 E Et) as [S1 H]. destruct (Hm w2 w1 (eq_sym E) (eq_sym Et)) as [S2 _]. unfold bind.
  destruct (m w1) as [r1 u1], (m w2) as [r2 u2]. cbn in S1, S2, H.
  assert (Eu : w_db u1 = w_db u2) by (by rewrite (proj1 S1), (proj1 S2)).
  assert (Ex : w_tx u1 = w_tx u2) by (by rewrite (proj2 S1), (proj2 S2)).
  assert (R1 : same_db w1 (match r1 with Ok a => k a u1 | Err e => (Err e, u1) end).2).
  { destruct r1 as [a|e]; [|done]. etrans; [exact S1|]. apply (Hk a u1 u2 Eu Ex). }
  split; [done|]. destruct H as [H|[H|<-]].
  - left. destruct H as (n & e & He & ->). by exists n, e.
  - right; left. destruct H as (n & e & He & ->). by exists n, e.
  - destruct r1 as [a|e]; [|by right; right]. apply (Hk a u1 u2 Eu Ex).
Qed.

Lemma determined_map_err {A} (m : M World A) : determined m -> determined (map_err mapError m).
Proof.
  intros Hm w1 w2 E Et. destruct (Hm w1 w2 E Et) as [S H]. unfold map_err.
  destruct (m w1) as [r1 u1], (m w2) as [r2 u2]. cbn in S, H.
  assert (Hf : forall r : result A, interrupted r -> interrupted (match r with Err e => Err (mapError e) | _ => r end)).
  { intros r (n & e & He & ->). destruct (fault_external _ _ He) as [t ->]. by exists n, (EExternal t). }
  split; [by destruct r1|]. destruct H as [H|[H|<-]].
  - left. by destruct r1; [destruct H as (? & ? & _ & ?)|apply Hf in H].
  - right; left. by destruct r2; [destruct H as (? & ? & _ & ?)|apply Hf in H].
  - right; right. by destruct r1.
Qed.

Lemma determined_found_or {A} (zero : A) m : determined m -> determined (found_or zero m).
Proof.
  intros Hm w1 w2 E Et. destruct (Hm w1 w2 E Et) as [S H]. unfold found_or, try, bind.
  destruct (m w1) as [r1 u1], (m w2) as [r2 u2]. cbn in S, H. split.
  { destruct r1 as [a|e]; [done|]. by destruct (errors_Is _ _). }
  destruct H as [H|[H|<-]].
  - left. destruct H as (n & e & He & ->). destruct (fault_external _ _ He) as [t ->]. by exists n, (EExternal t).
  - right; left. destruct H as (n & e & He & ->). destruct (fault_external _ _ He) as [t ->]. by exists n, (EExternal t).
  - right; right. destruct r1 as [a|e]; [done|]. by destruct (errors_Is _ _).
Qed.

Lemma determined_rows_open {A} (m : M World A) : determined m -> determined (while_rows_open m).
Proof.
  intros Hm w1 w2 E Et. unfold while_rows_open. rewrite Et. destruct (w_tx w2) eqn:E2; [split; [done|]; by right; right|].
  apply Hm; [done|]. by rewrite Et.
Qed.

Lemma determined_if {A} (b : bool) (m n : M World A) :
  determined m -> determined n -> determined (if b then m else n).
Proof. by destruct b. Qed.

Lemma determined_mapM {A B} (f : A -> M World B) l : (forall x, determined (f x)) -> determined (mapM f l).
Proof.
  intros Hf. induction l as [|x l IH]; [apply determined_const|].
  apply determined_bind; [done|]. intros y. apply determined_bind; [done|]. intros ys. apply determined_const.
Qed.
End Determined.

(** A statement that only reads; a query made of such statements. *)
Ltac statement :=
  repeat first
    [ apply uuid_param_pure | apply text_params_pure | apply page_params_pure | apply query_row_pure
    | apply bind_pure; [|intros ?] | reflexivity ].
Ltac determine :=
  repeat first
    [ assumption | solve [auto with pages] | apply determined_found_or | apply determined_map_err
    | apply determined_bind; [|intros ?] | apply determined_exec; intros ?; solve [statement]
    | apply determined_mapM; intros ? | apply determined_rows_open | apply determined_if | apply determined_const
    | match goal with
      | |- determined (match ?x with _ => _ end) => destruct x
      | |- determined (let '_ := ?x in _) => destruct x
      end ].
Create HintDb pages discriminated.

Section Repositories.
Context `{PG : !Postgres} `{ENV : !Env} `{HF : !HonestFaults} `{URL : !NetURL}.

Lemma determined_scan_rows {A B} (scan : A -> result B) rows : determined (scan_rows scan rows).
Proof. apply determined_mapM. intros x. apply determined_const. Qed.
#[local] Hint Resolve determined_scan_rows : pages.

Lemma determined_Module_List l o : determined (Module_List l o).
Proof. unfold Module_List. determine. Qed.
Lemma determined_Module_GetByName name : determined (Module_GetByName name).
Proof. unfold Module_GetByName. determine. Qed.
Lemma determined_Version_List id l o : determined (Version_ListByModule id l o).
Proof. unfold Version_ListByModule. determine. Qed.
Lemma determined_Version_Get id v : determined (GetByModuleAndVersion id v).
Proof. unfold GetByModuleAndVersion, Version_getOne. determine. Qed.
Lemma determined_Latest id : determined (GetLatestByModule id).
Proof. unfold GetLatestByModule, Version_getOne. determine. Qed.
Lemma determined_Artifacts id : determined (Artifact_ListByModuleVersion id).
Proof. unfold Artifact_ListByModuleVersion. determine. Qed.
Lemma determined_BufConfig id : determined (BufConfig_GetByModuleVersion id).
Proof. unfold BufConfig_GetByModuleVersion. determine. Qed.
Lemma determined_Summary id : determined (GetSummaryByModuleVersion id).
Proof. unfold GetSummaryByModuleVersion. determine. Qed.
Lemma determined_Metadata id : determined (Metadata_GetByModuleVersion id).
Proof.
  unfold Metadata_GetByModuleVersion, loadProtoFiles, loadFile, loadProtoImports, loadProtoServices, loadProtoMethods,
    loadProtoMessages, loadProtoFields, loadProtoEnums, loadProtoEnumValues. determine.
Qed.
Lemma determined_Reports id l o : determined (Report_ListByModule id l o).
Proof. unfold Report_ListByModule. determine. Qed.
Lemma determined_Report id : determined (Report_GetByID id).
Proof. unfold Report_GetByID, ListChangesByReport. determine. Qed.
Lemma determined_Owners id : determined (Owner_ListByModule id).
Proof. unfold Owner_ListByModule. determine. Qed.
Lemma determined_Project id : determined (Project_GetByModuleID id).
Proof. unfold Project_GetByModuleID, Project_getOne. determine. Qed.
Lemma determined_Affected id : determined (ListAffectedModules id).
Proof. unfold ListAffectedModules. determine. Qed.
Lemma determined_Upstream id : determined (ListUpstreamByModule id).
Proof. unfold ListUpstreamByModule, listDependencies. determine. Qed.
Lemma determined_Downstream id : determined (ListDownstreamByModule id).
Proof. unfold ListDownstreamByModule, listDependencies. determine. Qed.
Lemma determined_Unresolved id : determined (ListUnresolvedByModule id).
Proof. unfold ListUnresolvedByModule, listUnresolvedDependencies. determine. Qed.
Lemma determined_Services l o : determined (RuntimeStore.ListRuntimeServices l o).
Proof. unfold RuntimeStore.ListRuntimeServices. determine. Qed.
Lemma determined_Deployments q : (forall d, (q d).2 = d) -> determined (listRuntimeDeployments q).
Proof. intros H. unfold listRuntimeDeployments. determine. by apply determined_exec. Qed.
Lemma determined_deploymentUsages l : determined (deploymentUsages l).
Proof. unfold deploymentUsages, ListRuntimeModuleUsagesByDeployment. determine. Qed.
Lemma determined_Service name : determined (RuntimeStore.GetRuntimeServiceDetails name).
Proof.
  unfold RuntimeStore.GetRuntimeServiceDetails, GetRuntimeServiceByName, ListRuntimeDeploymentsByService.
  determine; first [apply determined_Deployments; intros ?; statement|apply determined_deploymentUsages].
Qed.
Lemma determined_Environment e l o : determined (ListRuntimeEnvironmentInventory e l o).
Proof.
  unfold ListRuntimeEnvironmentInventory.
  determine; first [apply determined_Deployments; intros ?; statement|apply determined_deploymentUsages].
Qed.
Lemma determined_ModuleUsages id l o : determined (ListModuleRuntimeUsages id l o).
Proof. unfold ListModuleRuntimeUsages, listModuleRuntimeUsages, module_usages_page. determine. Qed.
Lemma determined_Impact report version l o : determined (ListRuntimeImpactByModuleVersion report version l o).
Proof. unfold ListRuntimeImpactByModuleVersion. determine. Qed.
Lemma determined_populate r : determined (populateRequest r).
Proof. unfold populateRequest, listRequirements, listDecisions. determine. Qed.
#[local] Hint Resolve determined_populate : pages.
Lemma determined_RequestByReport id : determined (GetRequestByBreakingReportID id).
Proof. unfold GetRequestByBreakingReportID, getRequest. determine. Qed.
Lemma determined_Request id : determined (GetRequestByID id).
Proof. unfold GetRequestByID, getRequest. determine. Qed.
Lemma determined_Audit id l o : determined (Audit_ListByApprovalRequest id l o).
Proof. unfold Audit_ListByApprovalRequest, list_audit. determine. Qed.
End Repositories.

#[export] Hint Resolve determined_Module_List determined_Module_GetByName determined_Version_List determined_Version_Get
  determined_Latest determined_Artifacts determined_BufConfig determined_Summary determined_Metadata determined_Reports
  determined_Report determined_Owners determined_Project determined_Affected determined_Upstream determined_Downstream
  determined_Unresolved determined_Services determined_Service determined_Environment determined_ModuleUsages
  determined_Impact determined_RequestByReport determined_Request determined_Audit : pages.

(** The queries of the pages. *)
Inductive page_query `{PG : !Postgres} `{ENV : !Env} `{URL : !NetURL} `{UC : !Unicode} (svc : Queries)
    : forall {A}, M World A -> Prop :=
  | page_modules input : page_query svc (ListModuleOverviews svc input)
  | page_module name : page_query svc (GetModuleOverview svc name)
  | page_version input : page_query svc (GetVersionOverview input)
  | page_reports input : page_query svc (ListBreakingReportOverviews input)
  | page_report id : page_query svc (GetBreakingReportDetails svc id)
  | page_request id : page_query svc (GetApprovalRequestDetails svc id)
  | page_graph name : page_query svc (GetModuleDependencyGraph svc name)
  | page_services input : page_query svc (ListRuntimeServices svc input)
  | page_service name : page_query svc (GetRuntimeServiceDetails svc name)
  | page_environment name : page_query svc (GetRuntimeEnvironmentInventory svc name)
  | page_usages name : page_query svc (GetModuleRuntimeUsages svc name)
  | page_impact id : page_query svc (GetBreakingReportRuntimeImpact svc id).

Section Pages.
Context `{PG : !Postgres} `{ENV : !Env} `{HF : !HonestFaults} `{URL : !NetURL} `{UC : !Unicode}.
Variable svc : Queries.

Lemma determined_moduleByName name : determined (moduleByName name).
Proof. unfold moduleByName. determine. Qed.
Lemma determined_artifacts id : determined (artifactsForVersion id).
Proof. unfold artifactsForVersion. determine. Qed.
Lemma determined_bufConfig id : determined (bufConfigForVersion id).
Proof. unfold bufConfigForVersion. determine. Qed.
Lemma determined_summary id : determined (metadataSummaryForVersion id).
Proof. unfold metadataSummaryForVersion. determine. Qed.
Lemma determined_metadata id : determined (metadataForVersion id).
Proof. unfold metadataForVersion. determine. Qed.
Lemma determined_reports id l : determined (reportsForModule id l).
Proof. unfold reportsForModule. determine. Qed.
Lemma determined_owners id : determined (moduleOwners svc id).
Proof. unfold moduleOwners. determine. Qed.
Lemma determined_affected id : determined (affectedModules svc id).
Proof. unfold affectedModules. determine. Qed.
Lemma determined_impact report version : determined (runtimeImpact svc report version).
Proof. unfold runtimeImpact. determine. Qed.
#[local] Hint Resolve determined_moduleByName determined_artifacts determined_bufConfig determined_summary
  determined_metadata determined_reports determined_owners determined_affected determined_impact : pages.

Lemma determined_item details version : determined (versionItem details version).
Proof. unfold versionItem. determine. Qed.
Lemma determined_latest id items : determined (latestVersionOf id items).
Proof. unfold latestVersionOf. determine. Qed.
#[local] Hint Resolve determined_item determined_latest : pages.
Lemma determined_overview module details : determined (moduleOverview svc module details).
Proof. unfold moduleOverview. determine. Qed.
Lemma determined_listReports name l : determined (listReports name l).
Proof. unfold listReports. determine. Qed.
#[local] Hint Resolve determined_overview determined_listReports : pages.

(** A query changes nothing, whatever happens to the connection, and it is determined
    by the tables: from two states with the same tables it answers the same, whatever
    the clock and the random source do, unless it loses its connection in one of
    them. *)
Theorem pages_show_the_store {A} (m : M World A) : page_query svc m -> determined m.
Proof.
  intros []; unfold ListModuleOverviews, GetModuleOverview, GetVersionOverview, ListBreakingReportOverviews,
    GetBreakingReportDetails, GetApprovalRequestDetails, GetModuleDependencyGraph, ListRuntimeServices,
    GetRuntimeServiceDetails, GetRuntimeEnvironmentInventory, GetModuleRuntimeUsages, GetBreakingReportRuntimeImpact;
    cbv zeta; determine.
Qed.
End Pages.

(** ** The groups of a dependency graph *)

(** A key determines the module and the version when no name has a zero byte. *)
Definition zero_free (s : string) : Prop := forallb_string (fun a => negb (Ascii.eqb a nul_byte)) s = true.

Lemma group_key_inj e e' : zero_free e.1 -> zero_free e'.1 -> edge_key e = edge_key e' -> e = e'.
Proof.
  destruct e as [a v], e' as [b v']. unfold edge_key, zero_free. cbn [fst snd]. revert b.
  induction a as [|x a IH]; intros [|y b]; cbn; intros Ha Hb E.
  - by injection E as ->.
  - injection E as <- _. by rewrite Ascii.eqb_refl in Hb.
  - injection E as -> _. by rewrite Ascii.eqb_refl in Ha.
  - injection E as -> E. apply andb_true_iff in Ha as [_ Ha], Hb as [_ Hb]. specialize (IH b Ha Hb E). by injection IH as -> ->.
Qed.

(** Each value at its first place. *)
Section Firsts.
Context {A : Type} `{EqDecision A}.

Fixpoint firsts (l : list A) : list A :=
  match l with
  | [] => []
  | x :: l' => x :: List.filter (fun y => negb (bool_decide (y = x))) (firsts l')
  end.

Lemma elem_of_firsts x l : x ∈ firsts l <-> x ∈ l.
Proof.
  induction l as [|y l IH]; [done|]. cbn [firsts]. rewrite !elem_of_cons, elem_of_filter_bool, IH.
  destruct (bool_decide_reflect (x = y)); cbn; naive_solver.
Qed.
Lemma NoDup_firsts l : NoDup (firsts l).
Proof.
  induction l as [|y l IH]; [constructor|]. cbn [firsts]. constructor.
  - intros [_ H]%elem_of_filter_bool. by rewrite bool_decide_eq_true_2 in H.
  - apply NoDup_ListNoDup, List.NoDup_filter, NoDup_ListNoDup, IH.
Qed.
Lemma firsts_snoc l x : firsts (l ++ [x]) = if bool_decide (x ∈ l) then firsts l else (firsts l ++ [x])%list.
Proof.
  induction l as [|y l IH]; [done|]. cbn [firsts app]. rewrite IH.
  destruct (decide (x = y)) as [->|Hxy].
  - rewrite (bool_decide_eq_true_2 (y ∈ y :: l)) by apply elem_of_cons, or_introl, eq_refl.
    case_bool_decide; [done|]. rewrite List.filter_app. cbn [List.filter]. rewrite (bool_decide_eq_true_2 (y = y)) by done.
    cbn. by rewrite app_nil_r.
  - rewrite (bool_decide_ext (x ∈ y :: l) (x ∈ l)) by (rewrite elem_of_cons; naive_solver).
    case_bool_decide; [done|]. rewrite List.filter_app. cbn [List.filter].
    by rewrite (bool_decide_eq_false_2 (x = y)).
Qed.
End Firsts.

Section Groups.
Variable upstream : bool.

(** The edges of one end, and the values shown of them. *)
Definition edges_of (e : string * string) (l : list ModuleDependency) : list ModuleDependency :=
  List.filter (fun d => bool_decide ((edge_end upstream) d = e)) l.
Definition reasons_of (l : list ModuleDependency) : list string :=
  List.filter (fun r => negb (r =? "")%string) (map dependency_Reason l).
Definition group_of (l : list ModuleDependency) (e : string * string) : group :=
  mkGroup e.1 e.2 (list_to_set (map dependency_Source (edges_of e l))) (list_to_set (reasons_of (edges_of e l))).

Lemma edges_of_snoc e l x :
  edges_of e (l ++ [x]) = if bool_decide ((edge_end upstream) x = e) then (edges_of e l ++ [x])%list else edges_of e l.
Proof. unfold edges_of. rewrite List.filter_app. cbn. case_bool_decide; [done|]. apply app_nil_r. Qed.

Lemma group_of_snoc l x e :
  group_of (l ++ [x]) e = if bool_decide ((edge_end upstream) x = e) then insert_edge x (group_of l e) else group_of l e.
Proof.
  unfold group_of. rewrite edges_of_snoc. case_bool_decide; [|done]. unfold insert_edge, reasons_of.
  cbn [group_module group_version group_sources group_reasons]. rewrite !map_app, List.filter_app. cbn [map List.filter].
  rewrite list_to_set_app_L. f_equal; [set_solver|].
  destruct (negb _); [rewrite list_to_set_app_L; set_solver|by rewrite app_nil_r].
Qed.

Lemma group_of_absent l e : e ∉ map (edge_end upstream) l -> group_of l e = mkGroup e.1 e.2 ∅ ∅.
Proof.
  intros H. unfold group_of. enough (edges_of e l = []) as -> by done. apply filter_none. intros d Hd.
  apply bool_decide_eq_false_2. intros <-. apply H. apply list_elem_of_In, in_map, list_elem_of_In, Hd.
Qed.

Lemma groups_correct l :
  Forall (fun d => zero_free ((edge_end upstream) d).1) l ->
  fold_left (group_edge upstream) l [] = map (group_of l) (firsts (map (edge_end upstream) l)).
Proof.
  induction l as [|x l IH] using rev_ind; [done|]. rewrite Forall_app, Forall_singleton. intros [Hl Hx].
  rewrite fold_left_app, IH by done. cbn [fold_left]. rewrite map_app. cbn [map]. rewrite firsts_snoc. unfold group_edge. set (e := (edge_end upstream) x).
  assert (Hsame : forall e', e' ∈ firsts (map (edge_end upstream) l) \/ e' = e ->
            (edge_key (group_end (group_of l e')) =? edge_key e)%string = bool_decide ((edge_end upstream) x = e')).
  { intros e' He'. unfold group_end, group_of. cbn [group_module group_version]. rewrite <- surjective_pairing.
    apply eq_bool_prop_intro. rewrite bool_decide_spec. fold e. split; [intros E%Is_true_true%String.eqb_eq|intros ->].
    - symmetry. apply group_key_inj; [|exact Hx|done]. destruct He' as [He'| ->]; [|exact Hx].
      apply elem_of_firsts, list_elem_of_In, in_map_iff in He' as (d & <- & Hd%list_elem_of_In). rewrite Forall_forall in Hl. by apply Hl.
    - by rewrite String.eqb_refl. }
  assert (Hex : existsb (fun g => (edge_key (group_end g) =? edge_key e)%string) (map (group_of l) (firsts (map (edge_end upstream) l)))
                = bool_decide (e ∈ map (edge_end upstream) l)).
  { apply eq_bool_prop_intro. rewrite bool_decide_spec, Is_true_true, existsb_exists. split.
    - intros (g & Hg & E). apply in_map_iff in Hg as (e' & <- & He'%list_elem_of_In). rewrite Hsame in E by auto.
      apply bool_decide_eq_true in E. fold e in E. subst e'. by apply elem_of_firsts.
    - intros H%elem_of_firsts. exists (group_of l e). rewrite Hsame by auto. split; [by apply in_map, list_elem_of_In|].
      by apply bool_decide_eq_true. }
  rewrite Hex.
  assert (Hg : (if bool_decide (e ∈ map (edge_end upstream) l) then map (group_of l) (firsts (map (edge_end upstream) l))
                else (map (group_of l) (firsts (map (edge_end upstream) l)) ++ [mkGroup e.1 e.2 ∅ ∅])%list)
               = map (group_of l) (if bool_decide (e ∈ map (edge_end upstream) l) then firsts (map (edge_end upstream) l)
                                   else (firsts (map (edge_end upstream) l) ++ [e])%list)).
  { case_bool_decide; [done|]. rewrite map_app. cbn [map]. by rewrite group_of_absent. }
  rewrite Hg. unfold update_where. rewrite map_map. apply map_ext_in. intros e' He'%list_elem_of_In.
  rewrite Hsame; [by rewrite group_of_snoc|].
  revert He'. case_bool_decide; [by left|]. rewrite elem_of_app, list_elem_of_singleton. tauto.
Qed.
End Groups.

(** The names that come from the repository have no zero byte. *)
Lemma module_name_zero_free value n : NewModuleName value = Ok n -> zero_free n.
Proof.
  intros H. apply NewModuleName_fixed in H. apply NewModuleName_byte_exact in H as [_ H]. unfold zero_free. revert H.
  apply forallb_string_impl. intros a. unfold module_name_byte, module_name_char. intros H.
  destruct (Ascii.eqb_spec a nul_byte) as [->|]; [|done]. by vm_compute in H.
Qed.

(** The distinct values of a list, in order. *)
Definition values_of (l : list string) : list string := sort_Strings (elements (list_to_set l : gset string)).

(** A dependency graph shows each module and version that an edge leads to once, in
    the order of the first edge, with the sources and the reasons of exactly its
    edges, each once and in order. *)
Theorem dependencyModules_correct upstream l :
  Forall (fun d => zero_free (dependency_ProviderModuleName d) /\ zero_free (dependency_ConsumerModuleName d)) l ->
  dependencyModules l upstream =
  map (fun e => let edges := edges_of upstream e l in
         mkUiDependencyModule e.1 e.2 (values_of (map dependency_Source edges)) (values_of (reasons_of edges)))
    (firsts (map (edge_end upstream) l)).
Proof.
  intros H. unfold dependencyModules. rewrite groups_correct; [by rewrite map_map|].
  apply (Forall_impl _ _ _ H). intros d [H1 H2]. by destruct upstream.
Qed.

(** ** The list of breaking reports *)

Section Reports.
Context `{PG : !Postgres} `{ENV : !Env} `{HF : !HonestFaults} `{URL : !NetURL} `{UC : !Unicode}.

(** The rows as they are scanned: all of them, or the error of one. *)
Definition scanned {A B} (scan : A -> result B) (rows : list A) (r : result (list B)) : Prop :=
  match r with
  | Ok l => Forall2 (fun x y => scan x = Ok y) rows l
  | Err e => exists x, x ∈ rows /\ scan x = Err e
  end.

Lemma scan_rows_run {A B} (scan : A -> result B) rows w r w' :
  scan_rows scan rows w = (r, w') -> w' = w /\ scanned scan rows r.
Proof.
  revert r w'. induction rows as [|x rows IH]; intros r w' H; [injection H as <- <-; by split; [|constructor]|].
  unfold scan_rows in H. cbn [mapM] in H. unfold bind at 1, lift at 1 in H. destruct (scan x) as [y|e] eqn:E.
  - unfold bind at 1 in H. fold (scan_rows scan rows) in H. destruct (scan_rows scan rows w) as [r1 w1] eqn:E1.
    destruct (IH _ _ eq_refl) as [-> Hs]. destruct r1 as [l|e]; injection H as <- <-; (split; [done|]).
    + by constructor.
    + destruct Hs as (z & Hz & He). exists z. by rewrite elem_of_cons; auto.
  - injection H as <- <-. split; [done|]. exists x. by rewrite elem_of_cons; auto.
Qed.

(** A statement that returns rows of the tables, and their scan. *)
Lemma list_run {A B} (q : M Database (list A)) f (scan : A -> result B) w r w' :
  q (w_db w) = (Ok f, w_db w) ->
  (let! rows := map_err mapError (exec (T := Database) q) in scan_rows scan rows) w = (r, w') ->
  w_db w' = w_db w /\ (interrupted r \/ scanned scan f r).
Proof.
  intros Hq H. apply bind_run in H as (r1 & w1 & H1 & H). unfold map_err in H1.
  change (exec q w) with (exec_db q w) in H1. unfold exec_db in H1. rewrite Hq in H1.
  destruct (env_fault (w_tick w)) as [e|] eqn:Ef.
  - destruct (fault_external _ _ Ef) as [t ->]. cbn in H1. injection H1 as <- <-. destruct H as [-> ->].
    split; [by destruct (env_applied _)|]. left. by exists (w_tick w), (EExternal t).
  - injection H1 as <- <-. apply scan_rows_run in H as [-> H]. split; [done|]. by right.
Qed.

(** The tables give each module its identifier. *)
Record keyed (d : Database) : Prop := mkKeyed {
  keyed_ids m : m ∈ db_modules d -> canonical (module_ID m);
  keyed_unique : NoDup (map module_ID (db_modules d)) }.

Definition reports_of (d : Database) (id : ModuleID) : list BreakingReport :=
  sort_by (newest_first report_CreatedAt) (report_rows (fun r => eqs (report_ModuleID r) id) d).
Definition listed_modules (d : Database) : list Module_ :=
  firstn (Z.to_nat defaultListLimit) (sort_by (fun x y => pg_text_le (module_Name x) (module_Name y)) (db_modules d)).
(** The newest reports of each of the first modules. *)
Definition listed_reports (d : Database) : list BreakingReport :=
  flat_map (fun m => firstn (Z.to_nat defaultReportsLimit) (reports_of d (module_ID m))) (listed_modules d).

(** As many modules as a page lists, with as many reports each. *)
Definition within_limits (d : Database) : Prop :=
  Z.of_nat (length (db_modules d)) <= defaultListLimit
  /\ forall m, m ∈ db_modules d -> Z.of_nat (length (reports_of d (module_ID m))) <= defaultReportsLimit.

Lemma Module_List_run w r w' :
  Module_List defaultListLimit 0 w = (r, w') ->
  w_db w' = w_db w /\ (interrupted r \/ scanned scanModule (listed_modules (w_db w)) r).
Proof. intros H. eapply list_run in H; [exact H|done]. Qed.

Lemma scan_not_missing row e : scanBreakingReport row = Err e -> errors_Is e domain.ErrNotFound = false.
Proof.
  unfold scanBreakingReport, NewModuleName, NewVersion, NewBreakingReportStatus.
  repeat (match goal with |- context [if ?b then _ else _] => destruct b | |- context [match ?x with _ => _ end] => destruct x end;
          cbn; try by intros [= <-]).
Qed.

Lemma interrupted_not_missing {A} (r : result A) e : interrupted r -> r = Err e -> errors_Is e domain.ErrNotFound = false.
Proof. intros (n & e' & [t ->]%fault_external & ->) [= <-]. done. Qed.

Lemma reportsForModule_run id w r w' :
  canonical id -> reportsForModule id defaultReportsLimit w = (r, w') ->
  w_db w' = w_db w
  /\ (interrupted r \/ scanned scanBreakingReport (firstn (Z.to_nat defaultReportsLimit) (reports_of (w_db w) id)) r).
Proof.
  intros Hid H. unfold reportsForModule, found_or in H. apply bind_run in H as (r1 & w1 & H1 & H).
  unfold try in H1. destruct (Report_ListByModule id defaultReportsLimit 0 w) as [r0 w0] eqn:E. injection H1 as <- <-.
  apply (list_run _ (firstn (Z.to_nat defaultReportsLimit) (reports_of (w_db w) id))) in E as [E1 E2].
  2:{ unfold bind, uuid_param. rewrite Hid. done. }
  destruct r0 as [l|e]; [by injection H as <- <-|].
  assert (errors_Is e domain.ErrNotFound = false) as He.
  { destruct E2 as [E2|(x & _ & E2)]; [by eapply interrupted_not_missing|by eapply scan_not_missing]. }
  rewrite He in H. by injection H as <- <-.
Qed.

(** The reports of the modules in turn. *)
Lemma mapM_reports modules w r w' :
  Forall (fun m => canonical (module_ID m)) modules ->
  mapM (fun m => reportsForModule (module_ID m) defaultReportsLimit) modules w = (r, w') ->
  w_db w' = w_db w
  /\ (interrupted r
      \/ scanned scanBreakingReport
           (flat_map (fun m => firstn (Z.to_nat defaultReportsLimit) (reports_of (w_db w) (module_ID m))) modules)
           (match r with Ok ls => Ok (concat ls) | Err e => Err e end)).
Proof.
  revert w r w'. induction modules as [|m modules IH]; intros w r w' Hm H.
  { injection H as <- <-. split; [done|]. right. constructor. }
  apply Forall_cons in Hm as [Hid Hm]. cbn [mapM] in H. apply bind_run in H as (r1 & w1 & H1 & H).
  apply reportsForModule_run in H1 as [D1 S1]; [|done]. cbn [flat_map].
  destruct r1 as [l|e].
  2:{ destruct H as [-> ->]. split; [done|]. destruct S1 as [(n & e' & He & [= ->])|(x & Hx & He)].
      - left. by exists n, e'.
      - right. exists x. split; [apply elem_of_app; by left|done]. }
  destruct S1 as [(n & e' & _ & [=])|S1]. apply bind_run in H as (r2 & w2 & H2 & H).
  apply IH in H2 as [D2 S2]; [|done]. rewrite D1 in D2, S2. destruct r2 as [ls|e].
  - injection H as <- <-. split; [done|]. destruct S2 as [(n & e' & _ & [=])|S2]. right. cbn [concat]. by apply Forall2_app.
  - destruct H as [-> ->]. split; [done|]. destruct S2 as [(n & e' & He & [= ->])|(x & Hx & He)].
    + left. by exists n, e'.
    + right. exists x. split; [apply elem_of_app; by right|done].
Qed.

(** Within the limits the listed reports are all the reports. *)
Lemma flat_map_filter {A B} (p : A -> bool) (g : A -> list B) l :
  flat_map g (List.filter p l) = flat_map (fun x => if p x then g x else []) l.
Proof. induction l as [|x l IH]; [done|]. cbn. destruct (p x); cbn; by rewrite IH. Qed.

Lemma flat_map_nil {A B} (l : list A) : flat_map (fun _ => @nil B) l = [].
Proof. by induction l. Qed.

Lemma flat_map_swap {A B C} (f : A -> B -> list C) l1 l2 :
  flat_map (fun x => flat_map (f x) l2) l1 ≡ₚ flat_map (fun y => flat_map (fun x => f x y) l1) l2.
Proof.
  induction l1 as [|x l1 IH]; cbn; [by rewrite flat_map_nil|]. rewrite IH. clear IH. induction l2 as [|y l2 IH]; [done|]. cbn.
  rewrite <- IH. rewrite <- !app_assoc. apply Permutation_app_head. rewrite !app_assoc. apply Permutation_app_tail, Permutation_app_comm.
Qed.

Lemma firstn_within {A} n (l : list A) : Z.of_nat (length l) <= n -> firstn (Z.to_nat n) l = l.
Proof. intros H. apply firstn_all2. lia. Qed.

Lemma flat_map_perm {A B} (f g : A -> list B) l : (forall x, x ∈ l -> f x ≡ₚ g x) -> flat_map f l ≡ₚ flat_map g l.
Proof.
  induction l as [|x l IH]; intros H; [done|]. cbn. rewrite IH by (intros y Hy; apply H, elem_of_cons; by right).
  by rewrite H by (apply elem_of_cons; by left).
Qed.

(** Only one module has the identifier. *)
Lemma one_module {B} (ms : list Module_) id (l : Module_ -> list B) :
  NoDup (map module_ID ms) -> (forall m m', module_ID m = id -> module_ID m' = id -> m ∈ ms -> m' ∈ ms -> l m = l m') ->
  forall m0, m0 ∈ ms -> module_ID m0 = id -> flat_map (fun m => if eqs id (module_ID m) then l m else []) ms = l m0.
Proof.
  induction ms as [|m ms IH]; intros Hu Hl m0 Hm Hid; [by apply elem_of_nil in Hm|]. cbn in *.
  apply NoDup_cons in Hu as [Hn Hu]. destruct (eqs id (module_ID m)) eqn:E.
  - apply eqs_true in E. rewrite (Hl m m0) by (rewrite ?elem_of_cons; auto; by apply elem_of_cons).
    enough (flat_map (fun m => if eqs id (module_ID m) then l m else []) ms = []) as -> by apply app_nil_r.
    rewrite <- flat_map_filter. rewrite filter_none; [done|]. intros m1 H1.
    destruct (eqs id (module_ID m1)) eqn:E1; [|done]. apply eqs_true in E1. destruct Hn. rewrite <- E, E1.
    by apply list_elem_of_In, in_map, list_elem_of_In.
  - apply elem_of_cons in Hm as [->|Hm]; [by rewrite Hid, eqs_refl in E|]. cbn. apply (IH Hu); auto.
    intros m1 m2 E1 E2 H1 H2. apply Hl; auto; apply elem_of_cons; by right.
Qed.

(** A report with the names of its module and of its base version. *)
Definition joined (d : Database) (br : BreakingReport) : list BreakingReport :=
  flat_map (fun m =>
    map (fun v => mkBreakingReport (report_ID br) (report_ModuleID br) (module_Name m)
           (report_BaseVersionID br) (version_Version v) (report_TargetRef br) (report_Status br)
           (report_ChangeCount br) (report_RawOutput br) (report_HumanSummary br) (report_CreatedAt br))
      (List.filter (fun v => eqs (version_ID v) (report_BaseVersionID br)) (db_versions d)))
    (List.filter (fun m => eqs (module_ID m) (report_ModuleID br)) (db_modules d)).
Lemma report_rows_joined p d : report_rows p d = flat_map (joined d) (List.filter p (db_reports d)).
Proof. done. Qed.

Lemma reports_of_modules d :
  keyed d ->
  flat_map (fun m => report_rows (fun r => eqs (report_ModuleID r) (module_ID m)) d) (db_modules d)
  ≡ₚ report_rows (fun _ => true) d.
Proof.
  intros [_ Hu]. rewrite report_rows_joined.
  transitivity (flat_map (fun m => flat_map (fun br => if eqs (report_ModuleID br) (module_ID m) then joined d br else []) (db_reports d)) (db_modules d)).
  { apply flat_map_perm. intros m _. by rewrite report_rows_joined, flat_map_filter. }
  rewrite flat_map_swap, (filter_all (fun _ => true)) by done. apply flat_map_perm. intros br _.
  destruct (List.filter (fun m => eqs (module_ID m) (report_ModuleID br)) (db_modules d)) as [|m0 l] eqn:E.
  - replace (joined d br) with (@nil BreakingReport) by (unfold joined; by rewrite E).
    rewrite <- flat_map_filter, filter_none; [done|]. intros m Hm. destruct (eqs _ _) eqn:Em; [|done]. apply eqs_true in Em.
    assert (m ∈ @nil Module_) as Hn%elem_of_nil by (rewrite <- E; apply elem_of_filter_bool; rewrite Em, eqs_refl; done). done.
  - assert (m0 ∈ db_modules d /\ eqs (module_ID m0) (report_ModuleID br) = true) as [Hm Hid%eqs_true].
    { apply (elem_of_filter_bool (fun m => eqs (module_ID m) (report_ModuleID br))). rewrite E. apply elem_of_cons. by left. }
    by rewrite (one_module _ _ (fun _ => joined d br) Hu (fun _ _ _ _ _ _ => eq_refl) m0 Hm Hid).
Qed.

Lemma listed_all d : keyed d -> within_limits d -> listed_reports d ≡ₚ report_rows (fun _ => true) d.
Proof.
  intros Hk [Hm Hr]. rewrite <- reports_of_modules by done. unfold listed_reports, listed_modules.
  rewrite firstn_within by (by rewrite sort_by_perm). rewrite (sort_by_perm _ (db_modules d)).
  apply flat_map_perm. intros m Hin. rewrite firstn_within by (by apply Hr). apply sort_by_perm.
Qed.

Lemma StronglySorted_mono {A} (R S : relation A) l :
  (forall x y, R x y -> S x y) -> StronglySorted R l -> StronglySorted S l.
Proof. intros H. induction 1 as [|x l Hl IH Hx]; constructor; [done|]. exact (Forall_impl _ _ _ Hx (H x)). Qed.

Definition newer (x y : BreakingReportSummary) : Prop := br_CreatedAt y <= br_CreatedAt x.

Lemma SliceStable_newest l :
  StronglySorted newer (SliceStable (fun x y => br_CreatedAt y <? br_CreatedAt x) l)
  /\ SliceStable (fun x y => br_CreatedAt y <? br_CreatedAt x) l ≡ₚ l.
Proof.
  unfold SliceStable. split; [|apply sort_by_perm].
  eapply StronglySorted_mono; [|apply sort_by_StronglySorted]; cbn.
  - intros x y H. unfold newer. by apply negb_true_iff, Z.ltb_ge in H.
  - intros x y. rewrite negb_true_iff, negb_false_iff, Z.ltb_lt, Z.ltb_ge. lia.
  - intros x y z. rewrite !negb_true_iff, !Z.ltb_ge. lia.
Qed.

Lemma scanned_modules modules l d :
  keyed d -> (forall m, m ∈ modules -> m ∈ db_modules d) -> scanned scanModule modules (Ok l) ->
  map module_ID l = map module_ID modules /\ Forall (fun m => canonical (module_ID m)) l.
Proof.
  intros [Hc _] Hin H. cbn in H. induction H as [|m m' modules l H _ IH]; [by split|].
  destruct IH as [E F]; [intros; apply Hin, elem_of_cons; by right|]. 
  assert (module_ID m' = module_ID m) as Em.
  { assert (canonical (module_ID m)) as Hm by apply Hc, Hin, elem_of_cons, or_introl, eq_refl. unfold scanModule in H.
    destruct (NewModuleName _); [|done]. injection H as <-. cbn. unfold NewModuleID. by apply canonical_trim. }
  split; [cbn; by rewrite E, Em|]. constructor; [|done]. rewrite Em. apply Hc, Hin, elem_of_cons. by left.
Qed.

(** *** The module a query names *)

Lemma ascii_valid s : forallb_string (fun a => (byte a <? 128)) s = true -> valid_utf8 s = true.
Proof.
  induction s as [|a s IH]; [done|]. cbn [forallb_string]. intros [Ha H]%andb_true_iff. cbn [valid_utf8]. rewrite Ha. by apply IH.
Qed.
Lemma module_name_text value n : NewModuleName value = Ok n -> pg_text n = true.
Proof.
  intros [_ H]%NewModuleName_fixed%NewModuleName_byte_exact. unfold pg_text. apply andb_true_iff. split; [apply ascii_valid|];
    revert H; apply forallb_string_impl; intros a; unfold module_name_byte, module_name_char; lia.
Qed.

Inductive names_no_module (name : string) (d : Database) : error -> Prop :=
  | name_refused : is_ok (NewModuleName name) = false -> names_no_module name d domain.ErrInvalidModuleName
  | name_unknown : (forall row, row ∈ db_modules d -> NewModuleName name <> Ok (module_Name row)) ->
      names_no_module name d domain.ErrNotFound.

Lemma moduleByName_run name w r w' :
  moduleByName name w = (r, w') ->
  w_db w' = w_db w
  /\ match r with
     | Ok m => exists row, row ∈ db_modules (w_db w) /\ NewModuleName name = Ok (module_Name row) /\ scanModule row = Ok m
     | Err e => interrupted r \/ names_no_module name (w_db w) e
     end.
Proof.
  unfold moduleByName. destruct (NewModuleName name) as [n|e0] eqn:En; intros H.
  2:{ injection H as <- <-. split; [done|]. right. constructor. by rewrite En. }
  unfold Module_GetByName in H. apply bind_run in H as (r1 & w1 & H1 & H). unfold map_err in H1.
  change (exec (T := Database) ?q w) with (exec_db q w) in H1. unfold exec_db in H1.
  set (rows := fun d => List.filter (fun m => eqs (module_Name m) n) (db_modules d)) in H1.
  assert (Ht : text_params (S := Database) [n] (w_db w) = (Ok tt, w_db w)).
  { unfold text_params, guardM. cbn [forallb]. rewrite (module_name_text name n En). done. }
  unfold bind at 1 in H1. rewrite Ht in H1. unfold query_row in H1.
  assert (Hrow : forall row, row ∈ rows (w_db w) -> row ∈ db_modules (w_db w) /\ Ok n = Ok (module_Name row)).
  { intros row [Hin Hn%eqs_true]%elem_of_filter_bool. by rewrite Hn. }
  destruct (rows (w_db w)) as [|row l] eqn:Er.
  - destruct (env_fault (w_tick w)) as [e|] eqn:Ef; injection H1 as <- <-; destruct H as [-> ->].
    + destruct (fault_external _ _ Ef) as [t ->]. split; [by destruct (env_applied _)|]. left. by exists (w_tick w), (EExternal t).
    + split; [done|]. right. apply name_unknown. intros row Hin Hn. rewrite En in Hn. injection Hn as ->.
      assert (row ∈ @nil Module_) as []%elem_of_nil. rewrite <- Er. apply elem_of_filter_bool. by rewrite eqs_refl.
  - destruct (Hrow row) as [Hin Hn]; [by left|]. destruct (env_fault (w_tick w)) as [e|] eqn:Ef; injection H1 as <- <-.
    + destruct H as [-> ->]. destruct (fault_external _ _ Ef) as [t ->]. split; [by destruct (env_applied _)|].
      left. by exists (w_tick w), (EExternal t).
    + unfold lift in H. injection H as <- <-. split; [done|]. injection Hn as ->.
      unfold scanModule. rewrite (NewModuleName_fixed _ _ En). exists row. split_and!; [done|done|].
      unfold scanModule. by rewrite (NewModuleName_fixed _ _ En).
Qed.

(** *** What the list shows *)

(** The rows a list of reports is made of: the newest reports of the module that
    is named, or of each module. *)
Definition report_listing (filter : string) (d : Database) (rows : list BreakingReport) : Prop :=
  if (TrimSpace filter =? "")%string then rows = listed_reports d
  else exists row, row ∈ db_modules d /\ NewModuleName (TrimSpace filter) = Ok (module_Name row)
         /\ rows = firstn (Z.to_nat defaultReportsLimit) (reports_of d (module_ID row)).

(** A report that the input selects: by its status, and by a text in one of the
    fields that are shown. *)
Definition selects (input : ListBreakingReportOverviewsInput) (report : BreakingReport) : Prop :=
  (normalize (lbr_Status input) = "" \/ normalize (report_Status report) = normalize (lbr_Status input))
  /\ (normalize (lbr_Query input) = ""
      \/ Exists (fun text => Contains (normalize text) (normalize (lbr_Query input)) = true)
           [report_ID report; report_ModuleName report; report_BaseVersion report; report_TargetRef report; report_Status report]).
#[global] Instance selects_dec input report : Decision (selects input report).
Proof. unfold selects. apply _. Defined.

Lemma report_selected_spec input report :
  report_selected (normalize (lbr_Status input)) (normalize (lbr_Query input)) report = bool_decide (selects input report).
Proof.
  apply eq_bool_prop_intro. rewrite bool_decide_spec, Is_true_true. unfold report_selected, selects, reportMatches.
  cbn [breakingReportSummary br_ID br_Module br_BaseVersion br_TargetRef br_Status].
  rewrite andb_true_iff, !orb_true_iff, !String.eqb_eq, !Exists_cons, Exists_nil. tauto.
Qed.

(** A report as the list shows it. *)
Record shows_report (report : BreakingReport) (item : BreakingReportSummary) : Prop := mkShowsReport {
  sr_id : br_ID item = report_ID report;
  sr_module : br_Module item = report_ModuleName report;
  sr_base : br_BaseVersion item = report_BaseVersion report;
  sr_ref : br_TargetRef item = report_TargetRef report;
  sr_status : br_Status item = report_Status report;
  sr_count : br_ChangeCount item = report_ChangeCount report;
  sr_time : br_CreatedAt item = report_CreatedAt report }.

Lemma map_shows reports : Forall2 shows_report reports (map breakingReportSummary reports).
Proof. induction reports; by constructor. Qed.

Lemma filter_bool_decide {A} (P : A -> Prop) `{!forall x, Decision (P x)} (l : list A) :
  List.filter (fun x => bool_decide (P x)) l = filter P l.
Proof.
  induction l as [|x l IH]; [done|]. rewrite filter_cons. cbn [List.filter]. destruct (decide (P x)) as [HP|HP].
  - by rewrite bool_decide_eq_true_2, IH.
  - by rewrite bool_decide_eq_false_2, IH.
Qed.

Lemma shown_reports input (reports : list BreakingReport) :
  let items := SliceStable (fun x y => br_CreatedAt y <? br_CreatedAt x)
    (map breakingReportSummary
       (List.filter (report_selected (normalize (lbr_Status input)) (normalize (lbr_Query input))) reports)) in
  StronglySorted newer items
  /\ exists shown, shown ≡ₚ items /\ Forall2 shows_report (filter (selects input) reports) shown.
Proof.
  intros items. destruct (SliceStable_newest (map breakingReportSummary
    (List.filter (report_selected (normalize (lbr_Status input)) (normalize (lbr_Query input))) reports))) as [Hs Hp].
  split; [exact Hs|]. eexists. split; [by symmetry|].
  rewrite (List.filter_ext _ _ (report_selected_spec input)), filter_bool_decide. apply map_shows.
Qed.

Lemma interrupted_err {A B} e : interrupted (A := A) (Err e) -> interrupted (A := B) (Err e).
Proof. intros (n & e' & He & [= ->]). by exists n, e'. Qed.

(** What the reports are made of. *)
Lemma listReports_run filter w r w' :
  keyed (w_db w) -> listReports (TrimSpace filter) defaultReportsLimit w = (r, w') ->
  match r with
  | Ok reports => exists rows, report_listing filter (w_db w) rows
      /\ Forall2 (fun row report => scanBreakingReport row = Ok report) rows reports
  | Err e =>
      interrupted r \/ (TrimSpace filter <> "" /\ names_no_module (TrimSpace filter) (w_db w) e)
      \/ (exists m, m ∈ listed_modules (w_db w) /\ scanModule m = Err e)
      \/ (exists rows row, report_listing filter (w_db w) rows /\ row ∈ rows /\ scanBreakingReport row = Err e)
  end.
Proof.
  intros Hk H. unfold listReports in H. unfold report_listing. destruct (TrimSpace filter =? "")%string eqn:Ef; cbn [negb] in H.
  - apply bind_run in H as (r2 & w2 & H2 & H1). apply Module_List_run in H2 as [D2 S2].
    destruct r2 as [modules|e].
    2:{ destruct H1 as [-> ->]. destruct S2 as [S2|S2]; [left; by eapply interrupted_err|by right; right; left]. }
    destruct S2 as [(n & e' & _ & [=])|S2].
    assert (Hin : forall m, m ∈ listed_modules (w_db w) -> m ∈ db_modules (w_db w)).
    { intros m Hm%elem_of_firstn. by apply elem_of_sort_by in Hm. }
    destruct (scanned_modules _ modules (w_db w) Hk Hin S2) as [Em Fm].
    apply bind_run in H1 as (r3 & w3 & H3 & H1). apply mapM_reports in H3 as [D3 S3]; [|done]. rewrite D2 in S3.
    replace (flat_map _ modules) with (listed_reports (w_db w)) in S3.
    2:{ unfold listed_reports. rewrite !flat_map_concat_map. f_equal.
        rewrite <- (map_map module_ID (fun id => firstn (Z.to_nat defaultReportsLimit) (reports_of (w_db w) id)) modules), Em.
        by rewrite map_map. }
    destruct r3 as [ls|e].
    + injection H1 as <- <-. destruct S3 as [(n & e' & _ & [=])|S3]. by eexists.
    + destruct H1 as [-> ->]. destruct S3 as [S3|(row & Hr & He)]; [left; by eapply interrupted_err|].
      right; right; right. by exists (listed_reports (w_db w)), row.
  - apply String.eqb_neq in Ef. apply bind_run in H as (r2 & w2 & H2 & H). apply moduleByName_run in H2 as [D2 S2].
    destruct r2 as [m|e].
    2:{ destruct H as [-> ->]. destruct S2 as [S2|S2]; [left; by eapply interrupted_err|by right; left]. }
    destruct S2 as (row & Hrow & Hn & Hscan).
    destruct (scanned_modules [row] [m] (w_db w)) as [[= Hid] Hcan]; [done|by intros ? ->%list_elem_of_singleton|apply Forall2_cons_2; [exact Hscan|apply Forall2_nil_2]|].
    apply Forall_cons in Hcan as [Hcan _]. apply reportsForModule_run in H as [D3 S3]; [|done]. rewrite D2, Hid in S3.
    assert (Hl : exists row', row' ∈ db_modules (w_db w) /\ NewModuleName (TrimSpace filter) = Ok (module_Name row')
              /\ firstn (Z.to_nat defaultReportsLimit) (reports_of (w_db w) (module_ID row))
                 = firstn (Z.to_nat defaultReportsLimit) (reports_of (w_db w) (module_ID row'))) by (by exists row).
    destruct r as [reports|e].
    + destruct S3 as [(n & e' & _ & [=])|S3]. by eexists.
    + destruct S3 as [S3|(x & Hx & He)]; [by left|]. right; right; right. by eexists _, x.
Qed.

(** C38: the page of breaking reports shows, the newest first, exactly the selected
    ones of the newest reports of the module that is named, or of each module when
    none is, each with its fields; within the limits of the page these are all
    reports.  It fails only with the connection, when no module has the name, or
    when a row has a value the program refuses. *)
Theorem ListBreakingReportOverviews_correct input w :
  keyed (w_db w) ->
  match (ListBreakingReportOverviews input w).1 with
  | Ok items =>
      StronglySorted newer items
      /\ exists rows reports shown, report_listing (lbr_Module input) (w_db w) rows
           /\ Forall2 (fun row report => scanBreakingReport row = Ok report) rows reports
           /\ shown ≡ₚ items /\ Forall2 shows_report (filter (selects input) reports) shown
           /\ (TrimSpace (lbr_Module input) = "" -> within_limits (w_db w) -> rows ≡ₚ report_rows (fun _ => true) (w_db w))
  | Err e =>
      interrupted (A := unit) (Err e)
      \/ (TrimSpace (lbr_Module input) <> "" /\ names_no_module (TrimSpace (lbr_Module input)) (w_db w) e)
      \/ (exists m, m ∈ listed_modules (w_db w) /\ scanModule m = Err e)
      \/ (exists rows row, report_listing (lbr_Module input) (w_db w) rows /\ row ∈ rows /\ scanBreakingReport row = Err e)
  end.
Proof.
  intros Hk. destruct (ListBreakingReportOverviews input w) as [r w'] eqn:H. cbn [fst].
  unfold ListBreakingReportOverviews in H. apply bind_run in H as (r1 & w1 & H1 & H). apply listReports_run in H1; [|done].
  destruct r1 as [reports|e].
  - injection H as <- <-. destruct H1 as (rows & Hl & Hf). destruct (shown_reports input reports) as (Hs & shown & Hp & Hshow).
    split; [exact Hs|]. exists rows, reports, shown. split_and!; [done..|]. intros Hm Hw. unfold report_listing in Hl. rewrite Hm in Hl.
    cbn in Hl. subst rows. by apply listed_all.
  - destruct H as [-> ->]. destruct H1 as [H1|H1]; [left; by eapply interrupted_err|by right].
Qed.
End Reports.

(** ** Examples *)

Module UiExamples.
#[local] Existing Instance RegistryExamples.pg.
#[local] Existing Instance RegistryExamples.crypto.
#[local] Existing Instance RegistryExamples.calm_os.
#[local] Existing Instance RegistryExamples.store.
#[local] Existing Instance RegistryExamples.host.
#[local] Existing Instance RegistryExamples.calm_env.
#[local] Existing Instance RegistryExamples.calm_faults.
#[local] Existing Instance example_unicode.
#[local] Instance no_url : NetURL := {| url_Parse := fun _ => None |}.

Definition queries : Queries := NewQueries true true true true true true None (mkBuildInfo "" "" "").

(** The tables after a publication, another one and a check, with one more report. *)
Definition stored : World := rg_world (serve_all RegistryExamples.service RegistryExamples.requests RegistryExamples.registry0).
Definition later : World := mkWorld (w_db stored) false 1000.

Definition any_report : ListBreakingReportOverviewsInput := mkUiListBreakingReportOverviewsInput " " "" " USERS".

Example report_is_listed :
  (if (ListBreakingReportOverviews any_report stored).1 is Ok items then map br_Status items else [])
  = [BreakingReportStatusBreaking].
Proof. vm_compute. reflexivity. Qed.

Example overview :
  (if (GetModuleOverview queries "users" stored).1 is Ok o
   then map vs_Version (mo_Versions o) = ["v2"; "v1"] /\ mo_VersionCount o = 2 /\ mo_BreakingReportCount o = 1
        /\ mo_LastBreakingStatus o = BreakingReportStatusBreaking
        /\ map (fun v => length (vs_Artifacts v)) (mo_Versions o) = [2; 2]%nat
   else False).
Proof. vm_compute. repeat split. Qed.

Example missing_module : (GetModuleOverview queries "none" stored).1 = Err domain.ErrNotFound.
Proof. vm_compute. reflexivity. Qed.

Lemma stored_keyed : keyed (w_db stored).
Proof.
  split.
  - intros m Hm. assert (canonical (module_ID m)) as H; [|exact H].
    assert (forallb (fun m => bool_decide (uuid_canon (module_ID m) = Some (module_ID m))) (db_modules (w_db stored)) = true)
      as Hall by (vm_compute; reflexivity).
    rewrite forallb_forall in Hall. apply list_elem_of_In, Hall, bool_decide_eq_true in Hm. exact Hm.
  - apply (bool_decide_unpack _). vm_compute. exact I.
Qed.

Lemma ListBreakingReportOverviews_correct_witness :
  exists items, (ListBreakingReportOverviews any_report stored).1 = Ok items /\ length items = 1%nat
    /\ StronglySorted newer items.
Proof.
  pose proof (ListBreakingReportOverviews_correct any_report stored stored_keyed) as H.
  assert (E : (if (ListBreakingReportOverviews any_report stored).1 is Ok items then length items else 0%nat) = 1%nat)
    by (vm_compute; reflexivity).
  destruct ((ListBreakingReportOverviews any_report stored).1) as [items|e]; [|discriminate E].
  destruct H as [Hs _]. exists items. split; [reflexivity|]. split; [exact E|exact Hs].
Defined.

Lemma pages_show_the_store_witness :
  (GetModuleOverview queries "users" stored).1 = (GetModuleOverview queries "users" later).1
  /\ w_db (GetModuleOverview queries "users" stored).2 = w_db stored.
Proof.
  destruct (pages_show_the_store queries (GetModuleOverview queries "users") (page_module queries "users") stored later eq_refl eq_refl)
    as [[H1 _] [(n & e & H & _)|[(n & e & H & _)|H2]]]; [discriminate H|discriminate H|].
  split; [exact H2|exact H1].
Defined.

Definition edge (provider version source reason : string) : ModuleDependency :=
  mkModuleDependency "" "" "orders" "" "v1" "" provider "" version source reason "" "" "" 0.
Definition edges : list ModuleDependency :=
  [edge "users" "v1" "import" "b"; edge "money" "v2" "import" ""; edge "users" "v1" "symbol" "a"; edge "users" "v1" "import" "b"].

Lemma dependencyModules_correct_witness :
  dependencyModules edges true
  = [mkUiDependencyModule "users" "v1" ["import"; "symbol"] ["a"; "b"]; mkUiDependencyModule "money" "v2" ["import"] []].
Proof.
  rewrite (dependencyModules_correct true edges).
  - vm_compute. reflexivity.
  - repeat apply List.Forall_cons; try apply List.Forall_nil; split; reflexivity.
Defined.
End UiExamples.
