(* ===== verification/UiGraph.v ===== *)
(** * What the page of a dependency graph shows

    [usecase/uiquery/service.go], GetModuleDependencyGraph, against the tables: the
    modules and versions the page lists upstream and downstream are exactly the ends
    of the stored edges of the module, each once, with the sources and reasons of
    its edges, and the unresolved references are the stored ones. *)

From S2P Require Import Prelude Errors GoStrings Edition JsonScan Domain Json Effects Postgres Outbox Events Tables World GovernanceStore UseCase CatalogStore DescriptorStore DependencyStore DependencyGraph RuntimeStore RuntimeInventory AuditLog Identity Archive Storage Registry RegistryInvariant BufDescriptor GitLabLink UiTypes UiQuery.

Open Scope string_scope.
Open Scope Z_scope.

(** ** The stored edges *)

(** An edge of the tables with the modules and the versions of both of its ends. *)
Record stored_edge (d : Database) (x : Domain.ModuleDependency) (cm pm : Module_) (cv pv : ModuleVersion) : Prop := mkStoredEdge {
  se_row : x ∈ ct_dependencies (db_catalog d);
  se_consumer : cm ∈ db_modules d /\ module_ID cm = dependency_ConsumerModuleID x;
  se_consumer_version : cv ∈ db_versions d /\ version_ID cv = dependency_ConsumerModuleVersionID x;
  se_provider : pm ∈ db_modules d /\ module_ID pm = dependency_ProviderModuleID x;
  se_provider_version : pv ∈ db_versions d /\ version_ID pv = dependency_ProviderModuleVersionID x }.

(** An edge that a module consumes, with the module and the version that provide it;
    an edge that it provides, with the module and the version that consume it. *)
Definition upstream_edge (d : Database) (id : string) (x : Domain.ModuleDependency) (e : string * string) : Prop :=
  exists cm pm cv pv, stored_edge d x cm pm cv pv /\ dependency_ConsumerModuleID x = id
    /\ e = (TrimSpace (module_Name pm), TrimSpace (version_Version pv)).
Definition downstream_edge (d : Database) (id : string) (x : Domain.ModuleDependency) (e : string * string) : Prop :=
  exists cm pm cv pv, stored_edge d x cm pm cv pv /\ dependency_ProviderModuleID x = id
    /\ e = (TrimSpace (module_Name cm), TrimSpace (version_Version cv)).

Definition shown_end (i : DependencyModule) : string * string := (de_Module i, de_Version i).

(** The items of a page show some edges: each end once, with the sources and the
    reasons of its edges. *)
Record shows_edges (edge : Domain.ModuleDependency -> string * string -> Prop) (items : list DependencyModule) : Prop := mkShowsEdges {
  sh_once : NoDup (map shown_end items);
  sh_ends e : e ∈ map shown_end items <-> exists x, edge x e;
  sh_sources i s : i ∈ items -> s ∈ de_DependencySources i <-> exists x, edge x (shown_end i) /\ dependency_Source x = s;
  sh_reasons i s : i ∈ items ->
    s ∈ de_Reasons i <-> s <> "" /\ exists x, edge x (shown_end i) /\ dependency_Reason x = s }.

(** An unresolved reference of a module as the page shows it. *)
Definition unresolved_shown (d : Database) (id : string) (u : UnresolvedDependency) : Prop :=
  exists x m v, x ∈ ct_unresolved (db_catalog d) /\ unresolved_ModuleID x = id
    /\ (m ∈ db_modules d /\ module_ID m = unresolved_ModuleID x)
    /\ (v ∈ db_versions d /\ version_ID v = unresolved_ModuleVersionID x)
    /\ u = mkUiUnresolvedDependency (unresolved_Source x) (unresolved_ImportPath x) (unresolved_ReferencedSymbol x)
             (unresolved_Reason x).

(** ** The groups of a list of edges *)

Lemma elem_of_values s l : s ∈ values_of l <-> s ∈ l.
Proof. unfold values_of. rewrite sort_Strings_perm, elem_of_elements. apply elem_of_list_to_set. Qed.

Lemma elem_of_edges upstream e x l : x ∈ edges_of upstream e l <-> x ∈ l /\ edge_end upstream x = e.
Proof. unfold edges_of. by rewrite elem_of_filter_bool, bool_decide_eq_true. Qed.

Lemma elem_of_reasons s l : s ∈ reasons_of l <-> s <> "" /\ exists x, x ∈ l /\ dependency_Reason x = s.
Proof.
  unfold reasons_of. rewrite elem_of_filter_bool, negb_true_iff, String.eqb_neq, elem_of_map. naive_solver.
Qed.

Lemma groups_shown upstream l :
  Forall (fun d => zero_free (dependency_ProviderModuleName d) /\ zero_free (dependency_ConsumerModuleName d)) l ->
  shows_edges (fun x e => x ∈ l /\ edge_end upstream x = e) (dependencyModules l upstream).
Proof.
  intros H. rewrite dependencyModules_correct by done.
  lazymatch goal with |- shows_edges _ (map ?f ?ends) => set (item := f); set (es := ends) end.
  assert (Hend : forall e, shown_end (item e) = e) by (by intros []).
  assert (He : map shown_end (map item es) = es).
  { rewrite map_map. transitivity (map id es); [|apply map_id]. apply map_ext. exact Hend. }
  split.
  - rewrite He. apply NoDup_firsts.
  - intros e. rewrite He. unfold es. rewrite elem_of_firsts, elem_of_map. naive_solver.
  - intros i s (e & _ & ->)%elem_of_map. rewrite Hend. unfold item. cbn [de_DependencySources].
    rewrite elem_of_values, elem_of_map. setoid_rewrite elem_of_edges. naive_solver.
  - intros i s (e & _ & ->)%elem_of_map. rewrite Hend. unfold item. cbn [de_Reasons].
    rewrite elem_of_values, elem_of_reasons. by setoid_rewrite elem_of_edges.
Qed.

(** The items depend on the ends, the sources and the reasons alone. *)
Lemma shows_edges_of (edge edge' : Domain.ModuleDependency -> string * string -> Prop) items :
  (forall x e, edge x e -> exists x', edge' x' e /\ dependency_Source x' = dependency_Source x /\ dependency_Reason x' = dependency_Reason x) ->
  (forall x e, edge' x e -> exists x', edge x' e /\ dependency_Source x' = dependency_Source x /\ dependency_Reason x' = dependency_Reason x) ->
  shows_edges edge items -> shows_edges edge' items.
Proof.
  intros H1 H2 [Ho He Hs Hr]. split; [done|..].
  - intros e. rewrite He. split; intros (x & Hx); [apply H1 in Hx|apply H2 in Hx]; naive_solver.
  - intros i s Hi. rewrite Hs by done. split; intros (x & Hx & <-); [apply H1 in Hx|apply H2 in Hx]; naive_solver.
  - intros i s Hi. rewrite Hr by done. split; (intros (Hne & x & Hx & <-); split; [done|]);
      [apply H1 in Hx|apply H2 in Hx]; naive_solver.
Qed.

(** ** What is read *)

Section Graph.
Context `{PG : !Postgres} `{ENV : !Env} `{HF : !HonestFaults} `{URL : !NetURL} `{UC : !Unicode}.

(** The edge with the names of its ends, as it is read. *)
Definition read_edge (x : Domain.ModuleDependency) (cm pm : Module_) (cv pv : ModuleVersion) : Domain.ModuleDependency :=
  mkModuleDependency (dependency_ID x) (dependency_ConsumerModuleID x) (module_Name cm)
    (dependency_ConsumerModuleVersionID x) (version_Version cv) (dependency_ProviderModuleID x)
    (module_Name pm) (dependency_ProviderModuleVersionID x) (version_Version pv) (dependency_Source x)
    (dependency_Reason x) (dependency_ImportPath x) (dependency_ReferencedPackage x)
    (dependency_ReferencedSymbol x) (dependency_CreatedAt x).

Lemma elem_of_dependency_rows p d y :
  y ∈ map snd (dependency_rows p d)
  <-> exists x cm pm cv pv, stored_edge d x cm pm cv pv /\ p x = true /\ y = read_edge x cm pm cv pv.
Proof.
  unfold dependency_rows. rewrite elem_of_map. repeat setoid_rewrite elem_of_flat_map. setoid_rewrite elem_of_map.
  setoid_rewrite elem_of_filter_bool. setoid_rewrite eqs_true. split.
  - intros ([t y'] & (x & [Hx Hp] & cm & [Hcm E1] & cv & [Hcv E2] & pm & [Hpm E3] & pv & [Hpv E4] & [= -> ->]) & ->).
    by exists x, cm, pm, cv, pv.
  - intros (x & cm & pm & cv & pv & [Hx [Hcm E1] [Hcv E2] [Hpm E3] [Hpv E4]] & Hp & ->).
    exists (version_CreatedAt cv, read_edge x cm pm cv pv). split; [|done].
    exists x. split; [done|]. exists cm. split; [done|]. exists cv. split; [done|]. exists pm. split; [done|]. by exists pv.
Qed.

(** The row as it is scanned. *)
Lemma scanned_edge x cm pm cv pv y :
  scanModuleDependency (read_edge x cm pm cv pv) = Ok y ->
  edge_end true y = (TrimSpace (module_Name pm), TrimSpace (version_Version pv))
  /\ edge_end false y = (TrimSpace (module_Name cm), TrimSpace (version_Version cv))
  /\ dependency_Source y = dependency_Source x /\ dependency_Reason y = dependency_Reason x
  /\ zero_free (dependency_ProviderModuleName y) /\ zero_free (dependency_ConsumerModuleName y).
Proof.
  unfold scanModuleDependency. cbn [read_edge dependency_ConsumerModuleName dependency_ConsumerVersion
    dependency_ProviderModuleName dependency_ProviderVersion].
  destruct (NewModuleName (module_Name cm)) as [n1|] eqn:E1; [|done]. cbn.
  destruct (NewVersion (version_Version cv)) as [n2|] eqn:E2; [|done]. cbn.
  destruct (NewModuleName (module_Name pm)) as [n3|] eqn:E3; [|done]. cbn.
  destruct (NewVersion (version_Version pv)) as [n4|] eqn:E4; [|done]. cbn. intros [= <-].
  assert (V : forall v n, NewVersion v = Ok n -> n = TrimSpace v) by (unfold NewVersion; intros v n; by destruct (_ =? _)%string; intros [= <-]).
  assert (N : forall v n, NewModuleName v = Ok n -> n = TrimSpace v) by (intros v n; rewrite NewModuleName_eq; by destruct (_ || _); intros [= <-]).
  rewrite <- (N _ _ E1), <- (V _ _ E2), <- (N _ _ E3), <- (V _ _ E4). split_and!; try done; by eapply module_name_zero_free.
Qed.

Lemma elem_of_scanned {A B} (scan : A -> result B) rows l y :
  scanned scan rows (Ok l) -> y ∈ l <-> exists x, x ∈ rows /\ scan x = Ok y.
Proof.
  cbn. intros H. induction H as [|x y' rows l Hx H IH]; [set_solver|]. rewrite elem_of_cons, IH. split.
  - intros [->|(z & Hz & E)]; [exists x|exists z]; rewrite elem_of_cons; auto.
  - intros (z & Hz & E). apply elem_of_cons in Hz as [->|Hz]; [left; congruence|right; by exists z].
Qed.
Lemma scanned_all {A B} (scan : A -> result B) rows l x :
  scanned scan rows (Ok l) -> x ∈ rows -> exists y, y ∈ l /\ scan x = Ok y.
Proof.
  cbn. intros H. induction H as [|z y rows l Hz H IH]; [set_solver|]. rewrite elem_of_cons.
  intros [->|Hx]; [exists y; rewrite elem_of_cons; auto|]. destruct (IH Hx) as (y' & Hy & E). exists y'. rewrite elem_of_cons; auto.
Qed.

(** The edges of a module in one direction. *)
Definition module_edge (upstream : bool) : Database -> string -> Domain.ModuleDependency -> string * string -> Prop :=
  if upstream then upstream_edge else downstream_edge.
Definition module_column (upstream : bool) : Domain.ModuleDependency -> string :=
  if upstream then dependency_ConsumerModuleID else dependency_ProviderModuleID.

Lemma listDependencies_run upstream order id w r w' :
  canonical id -> listDependencies id (module_column upstream) order w = (r, w') ->
  w_db w' = w_db w
  /\ (interrupted r \/ scanned scanModuleDependency
       (map snd (sort_by order (dependency_rows (fun x => eqs (module_column upstream x) id) (w_db w)))) r).
Proof. intros Hid H. eapply list_run in H; [exact H|]. unfold bind, uuid_param. by rewrite Hid. Qed.

(** A row of an edge, or of an unresolved reference, that the program refuses. *)
Definition refused_edge (d : Database) (id : string) (e : error) : Prop :=
  exists x cm pm cv pv, stored_edge d x cm pm cv pv
    /\ (dependency_ConsumerModuleID x = id \/ dependency_ProviderModuleID x = id)
    /\ scanModuleDependency (read_edge x cm pm cv pv) = Err e.

Lemma listed_edges_refused upstream order id w e w' :
  canonical id -> listDependencies id (module_column upstream) order w = (Err e, w') ->
  interrupted (A := unit) (Err e) \/ refused_edge (w_db w) id e.
Proof.
  intros Hid H. apply listDependencies_run in H as [_ [H|(row & Hr & He)]]; [|..|done]; [left; by eapply interrupted_err|right].
  rewrite (sort_by_perm order), elem_of_dependency_rows in Hr. destruct Hr as (x & cm & pm & cv & pv & Hx & Hc%eqs_true & ->).
  exists x, cm, pm, cv, pv. split_and!; [done| |done]. destruct upstream; auto.
Qed.

Lemma listed_edges upstream order id w l w' :
  canonical id -> listDependencies id (module_column upstream) order w = (Ok l, w') ->
  shows_edges (module_edge upstream (w_db w) id) (dependencyModules l upstream).
Proof.
  intros Hid H. apply listDependencies_run in H as [_ [(n & e & _ & [=])|H]]; [|done].
  assert (Hrows : forall y, y ∈ map snd (sort_by order (dependency_rows (fun x => eqs (module_column upstream x) id) (w_db w)))
    <-> exists x cm pm cv pv, stored_edge (w_db w) x cm pm cv pv /\ module_column upstream x = id /\ y = read_edge x cm pm cv pv).
  { intros y. rewrite (sort_by_perm order), elem_of_dependency_rows. by setoid_rewrite eqs_true. }
  assert (Hz : Forall (fun y => zero_free (dependency_ProviderModuleName y) /\ zero_free (dependency_ConsumerModuleName y)) l).
  { apply Forall_forall. intros y Hy. apply (elem_of_scanned _ _ _ _ H) in Hy as (row & Hr & Hs). apply Hrows in Hr as (x & cm & pm & cv & pv & _ & _ & ->).
    by apply scanned_edge in Hs as (_ & _ & _ & _ & ?). }
  apply (shows_edges_of (fun y e => y ∈ l /\ edge_end upstream y = e)); [| |by apply groups_shown].
  - intros y e [Hy <-]. apply (elem_of_scanned _ _ _ _ H) in Hy as (row & Hr & Hs). apply Hrows in Hr as (x & cm & pm & cv & pv & Hx & Hc & ->).
    apply scanned_edge in Hs as (E1 & E2 & -> & -> & _). exists x. split; [|done]. destruct upstream; exists cm, pm, cv, pv; by split_and!.
  - intros x e He.
    assert (exists cm pm cv pv, stored_edge (w_db w) x cm pm cv pv /\ module_column upstream x = id
      /\ e = if upstream then (TrimSpace (module_Name pm), TrimSpace (version_Version pv)) else (TrimSpace (module_Name cm), TrimSpace (version_Version cv)))
      as (cm & pm & cv & pv & Hx & Hc & ->) by (by destruct upstream; destruct He as (cm & pm & cv & pv & ? & ? & ->); exists cm, pm, cv, pv).
    destruct (scanned_all _ _ _ (read_edge x cm pm cv pv) H) as (y & Hy & Hs); [apply Hrows; by exists x, cm, pm, cv, pv|].
    apply scanned_edge in Hs as (E1 & E2 & Es & Er & _). exists y. split_and!; [done| |done|done]. by destruct upstream.
Qed.

(** *** The unresolved references *)

Definition read_unresolved (x : UnresolvedProtoDependency) (m : Module_) (v : ModuleVersion) : UnresolvedProtoDependency :=
  mkUnresolvedProtoDependency (unresolved_ID x) (unresolved_ModuleID x) (module_Name m) (unresolved_ModuleVersionID x)
    (version_Version v) (unresolved_Source x) (unresolved_ImportPath x) (unresolved_ReferencedPackage x)
    (unresolved_ReferencedSymbol x) (unresolved_Reason x) (unresolved_CreatedAt x).

Definition stored_unresolved (d : Database) (id : string) (x : UnresolvedProtoDependency) (m : Module_) (v : ModuleVersion) : Prop :=
  x ∈ ct_unresolved (db_catalog d) /\ unresolved_ModuleID x = id
  /\ (m ∈ db_modules d /\ module_ID m = unresolved_ModuleID x)
  /\ (v ∈ db_versions d /\ version_ID v = unresolved_ModuleVersionID x).

Lemma elem_of_unresolved_rows id d y :
  y ∈ map snd (unresolved_rows (fun x => eqs (unresolved_ModuleID x) id) d)
  <-> exists x m v, stored_unresolved d id x m v /\ y = read_unresolved x m v.
Proof.
  unfold unresolved_rows, stored_unresolved. rewrite elem_of_map. repeat setoid_rewrite elem_of_flat_map. setoid_rewrite elem_of_map.
  setoid_rewrite elem_of_filter_bool. setoid_rewrite eqs_true. split.
  - intros ([t y'] & (x & [Hx Hp] & m & [Hm E1] & v & [Hv E2] & [= -> ->]) & ->). by exists x, m, v.
  - intros (x & m & v & (Hx & Hp & [Hm E1] & [Hv E2]) & ->). exists (version_CreatedAt v, read_unresolved x m v). split; [|done].
    exists x. split; [done|]. exists m. split; [done|]. by exists v.
Qed.

Lemma scanned_unresolved x m v y :
  scanUnresolvedProtoDependency (read_unresolved x m v) = Ok y ->
  mkUiUnresolvedDependency (unresolved_Source y) (unresolved_ImportPath y) (unresolved_ReferencedSymbol y) (unresolved_Reason y)
  = mkUiUnresolvedDependency (unresolved_Source x) (unresolved_ImportPath x) (unresolved_ReferencedSymbol x) (unresolved_Reason x).
Proof.
  unfold scanUnresolvedProtoDependency. destruct (NewModuleName _); [|done]. cbn. destruct (NewVersion _); [|done]. cbn. by intros [= <-].
Qed.

Lemma listed_unresolved id w r w' :
  canonical id -> ListUnresolvedByModule id w = (r, w') ->
  match r with
  | Ok l => forall u, u ∈ unresolvedDependencies l <-> unresolved_shown (w_db w) id u
  | Err e => interrupted (A := unit) (Err e)
      \/ exists x m v, stored_unresolved (w_db w) id x m v /\ scanUnresolvedProtoDependency (read_unresolved x m v) = Err e
  end.
Proof.
  intros Hid H. unfold ListUnresolvedByModule, listUnresolvedDependencies in H.
  eapply list_run in H as [_ H]; [|unfold bind, uuid_param; by rewrite Hid].
  set (rows := map snd _) in H.
  assert (Hrows : forall y, y ∈ rows <-> exists x m v, stored_unresolved (w_db w) id x m v /\ y = read_unresolved x m v).
  { intros y. unfold rows. by rewrite sort_by_perm, elem_of_unresolved_rows. }
  destruct r as [l|e].
  - destruct H as [(n & e & _ & [=])|H]. intros u. unfold unresolvedDependencies. rewrite elem_of_map. split.
    + intros (y & Hy & ->). apply (elem_of_scanned _ _ _ _ H) in Hy as (row & Hr & Hs). apply Hrows in Hr as (x & m & v & Hx & ->).
      rewrite (scanned_unresolved _ _ _ _ Hs). destruct Hx as (? & ? & ? & ?). by exists x, m, v.
    + intros (x & m & v & H1 & H2 & H3 & H4 & ->).
      destruct (scanned_all _ _ _ (read_unresolved x m v) H) as (y & Hy & Hs); [apply Hrows; by exists x, m, v|].
      exists y. by rewrite (scanned_unresolved _ _ _ _ Hs).
  - destruct H as [H|(row & Hr & He)]; [left; by eapply interrupted_err|right].
    apply Hrows in Hr as (x & m & v & Hx & ->). by exists x, m, v.
Qed.

(** *** The page *)

(** C39: the page of a dependency graph shows the module that is named and exactly its
    edges: upstream the modules and versions that provide what it uses, downstream
    those that use what it provides, each once, with the sources and the reasons of
    its edges, and its unresolved references.  It fails only with the connection,
    when no module has the name, or when a row has a value the program refuses. *)
Theorem GetModuleDependencyGraph_correct (svc : Queries) (name : string) (w : World) :
  keyed (w_db w) ->
  match (GetModuleDependencyGraph svc name w).1 with
  | Ok g => exists row, row ∈ db_modules (w_db w) /\ NewModuleName name = Ok (module_Name row)
      /\ dg_Module g = mkUiModuleInfo (module_Name row) (module_Description row) (module_RepositoryURL row)
                         (module_CreatedAt row) (module_UpdatedAt row)
      /\ if queries_dependencies svc
         then shows_edges (upstream_edge (w_db w) (module_ID row)) (dg_Upstream g)
              /\ shows_edges (downstream_edge (w_db w) (module_ID row)) (dg_Downstream g)
              /\ forall u, u ∈ dg_Unresolved g <-> unresolved_shown (w_db w) (module_ID row) u
         else dg_Upstream g = [] /\ dg_Downstream g = [] /\ dg_Unresolved g = []
  | Err e => interrupted (A := unit) (Err e) \/ names_no_module name (w_db w) e
      \/ exists row, row ∈ db_modules (w_db w) /\ NewModuleName name = Ok (module_Name row)
           /\ (refused_edge (w_db w) (module_ID row) e
               \/ exists x m v, stored_unresolved (w_db w) (module_ID row) x m v
                    /\ scanUnresolvedProtoDependency (read_unresolved x m v) = Err e)
  end.
Proof.
  intros Hk. destruct (GetModuleDependencyGraph svc name w) as [r w'] eqn:H. cbn [fst]. unfold GetModuleDependencyGraph in H.
  apply bind_run in H as (r1 & w1 & H1 & H). apply moduleByName_run in H1 as [D1 S1]. destruct r1 as [m|e].
  2:{ destruct H as [-> ->]. destruct S1 as [S1|S1]; [left; by eapply interrupted_err|by right; left]. }
  destruct S1 as (row & Hrow & Hn & Hs). pose proof (keyed_ids _ Hk row Hrow) as Hid.
  assert (Em : m = mkModule (module_ID row) (module_Name row) (module_Description row) (module_RepositoryURL row)
                     (module_CreatedAt row) (module_UpdatedAt row)).
  { unfold scanModule in Hs. rewrite (NewModuleName_fixed _ _ Hn) in Hs. injection Hs as <-. unfold NewModuleID. by rewrite canonical_trim. }
  subst m. cbn [module_ID] in H. destruct (queries_dependencies svc); cbn [negb] in H.
  2:{ injection H as <- _. by exists row. }
  apply bind_run in H as (r2 & w2 & H2 & H). destruct r2 as [ups|e].
  2:{ destruct H as [-> ->]. apply (listed_edges_refused true) in H2; [|done]. rewrite D1 in H2. naive_solver. }
  pose proof (proj1 (listDependencies_run true _ _ _ _ _ Hid H2)) as D2. apply (listed_edges true) in H2; [|done].
  apply bind_run in H as (r3 & w3 & H3 & H). destruct r3 as [downs|e].
  2:{ destruct H as [-> ->]. apply (listed_edges_refused false) in H3; [|done]. rewrite D2, D1 in H3. naive_solver. }
  pose proof (proj1 (listDependencies_run false _ _ _ _ _ Hid H3)) as D3. apply (listed_edges false) in H3; [|done].
  apply bind_run in H as (r4 & w4 & H4 & H). apply listed_unresolved in H4; [|done]. rewrite D3, D2, D1 in H4.
  rewrite D2, D1 in H3. rewrite D1 in H2. destruct r4 as [us|e].
  - injection H as <- _. exists row. by split_and!.
  - destruct H as [-> ->]. naive_solver.
Qed.
End Graph.

(** ** Example *)

Module GraphPageExamples.
#[local] Existing Instance GraphExamples.pg.
#[local] Existing Instance GraphExamples.env.
#[local] Existing Instance example_unicode.
#[local] Instance no_url : NetURL := {| url_Parse := fun _ => None |}.
#[local] Instance honest : HonestFaults.
Proof. intros n e. cbn. destruct (_ =? _)%nat; [|done]. intros [= <-]. by eexists. Qed.

Definition queries : Queries := NewQueries true true true true true true None (mkBuildInfo "" "" "").
(** The dependencies of [users] after a rebuild. *)
Definition rebuilt : World :=
  (RebuildModuleVersionDependencies GraphExamples.rebuild_users GraphExamples.graph_world).2.

Example pages :
  (if (GetModuleDependencyGraph queries "common" rebuilt).1 is Ok g
   then dg_Upstream g = [] /\ dg_Unresolved g = []
        /\ dg_Downstream g = [mkUiDependencyModule "users" "v1.0.0" ["import"] ["import_path"]]
   else False)
  /\ (if (GetModuleDependencyGraph queries " users" rebuilt).1 is Ok g
      then dg_Upstream g = [mkUiDependencyModule "common" "v2.0.0" ["import"] ["import_path"]] /\ dg_Downstream g = []
      else False).
Proof. vm_compute. repeat split. Qed.

Lemma rebuilt_keyed : keyed (w_db rebuilt).
Proof.
  split.
  - intros m Hm. assert (canonical (module_ID m)) as H; [|exact H].
    assert (forallb (fun m => bool_decide (uuid_canon (module_ID m) = Some (module_ID m))) (db_modules (w_db rebuilt)) = true)
      as Hall by (vm_compute; reflexivity).
    rewrite forallb_forall in Hall. apply list_elem_of_In, Hall, bool_decide_eq_true in Hm. exact Hm.
  - apply (bool_decide_unpack _). vm_compute. exact I.
Qed.

Lemma GetModuleDependencyGraph_correct_witness :
  exists g row, (GetModuleDependencyGraph queries "common" rebuilt).1 = Ok g
    /\ shows_edges (downstream_edge (w_db rebuilt) (module_ID row)) (dg_Downstream g) /\ map shown_end (dg_Downstream g) = [("users", "v1.0.0")].
Proof.
  pose proof (GetModuleDependencyGraph_correct queries "common" rebuilt rebuilt_keyed) as H.
  assert (E : (if (GetModuleDependencyGraph queries "common" rebuilt).1 is Ok g then map shown_end (dg_Downstream g) else [])
              = [("users", "v1.0.0")]) by (vm_compute; reflexivity).
  destruct (GetModuleDependencyGraph queries "common" rebuilt).1 as [g|e]; [|discriminate E].
  destruct H as (row & _ & _ & _ & H). destruct H as (_ & H & _). exists g, row. split; [reflexivity|]. split; [exact H|exact E].
Defined.
End GraphPageExamples.
