(* ===== verification/WebTypes.v ===== *)
(** * The data of the pages

    [transport/web/view_models.go]: what the templates of the pages are given. A
    page is data with some of its fields set. *)

From S2P Require Import Prelude GoStrings.

Open Scope string_scope.
Open Scope Z_scope.

Record moduleRow := mkWebmoduleRow {
  mrow_Name : string; mrow_Description : string; mrow_RepositoryURL : string; mrow_GitLabProjectURL : string;
  mrow_GitLabProjectLabel : string; mrow_LatestVersion : string; mrow_VersionCount : Z;
  mrow_LastPublishedOrSeen : string; mrow_BreakingReportCount : Z; mrow_LastBreakingStatus : string;
  mrow_HasLatestVersion : bool; mrow_HasGitLabProject : bool; mrow_HasRepositoryURL : bool;
  mrow_HasLastBreaking : bool; mrow_ModuleURL : string; mrow_LatestVersionURL : string;
  mrow_FilteredReportsURL : string }.

Record versionRow := mkWebversionRow {
  vrow_Version : string; vrow_Status : string; vrow_CreatedAt : string; vrow_SourceDigest : string;
  vrow_SourceDigestFull : string; vrow_BufImageDigest : string; vrow_BufImageDigestFull : string;
  vrow_LintStatus : string; vrow_Files : Z; vrow_Services : Z; vrow_Methods : Z; vrow_Messages : Z;
  vrow_Enums : Z; vrow_VersionURL : string; vrow_HasSourceDigest : bool; vrow_HasBufImageDigest : bool;
  vrow_HasLintStatus : bool }.

Record reportRow := mkWebreportRow {
  rrow_ID : string; rrow_Module : string; rrow_CreatedAt : string; rrow_BaseVersion : string;
  rrow_TargetRef : string; rrow_Status : string; rrow_ChangeCount : Z; rrow_ReportURL : string;
  rrow_ModuleURL : string; rrow_BaseVersionURL : string }.

Record moduleOwnerRow := mkWebmoduleOwnerRow {
  orow_ID : string; orow_SubjectType : string; orow_Subject : string; orow_Role : string;
  orow_CreatedAt : string }.

Record moduleDetailView := mkWebmoduleDetailView {
  mdv_Name : string; mdv_Description : string; mdv_RepositoryURL : string; mdv_GitLabProjectURL : string;
  mdv_GitLabProjectLabel : string; mdv_LatestVersion : string; mdv_CreatedAt : string; mdv_UpdatedAt : string;
  mdv_HasRepositoryURL : bool; mdv_HasGitLabProject : bool; mdv_HasLatestVersion : bool;
  mdv_Versions : list versionRow; mdv_RecentReports : list reportRow; mdv_FilteredReportsURL : string;
  mdv_DependencyGraphURL : string; mdv_RuntimeUsagesURL : string; mdv_Owners : list moduleOwnerRow;
  mdv_HasOwners : bool }.

Record dependencyModuleRow := mkWebdependencyModuleRow {
  deprow_Module : string; deprow_Version : string; deprow_DependencySources : string; deprow_Reasons : string;
  deprow_ModuleURL : string }.

Record unresolvedDependencyRow := mkWebunresolvedDependencyRow {
  unrow_Source : string; unrow_ImportPath : string; unrow_ReferencedSymbol : string; unrow_Reason : string }.

Record moduleDependencyView := mkWebmoduleDependencyView {
  depv_ModuleName : string; depv_ModuleURL : string; depv_Downstream : list dependencyModuleRow;
  depv_Upstream : list dependencyModuleRow; depv_Unresolved : list unresolvedDependencyRow;
  depv_HasDownstream : bool; depv_HasUpstream : bool; depv_HasUnresolved : bool }.

Record metadataCounts := mkWebmetadataCounts {
  mc_Files : Z; mc_Packages : Z; mc_Imports : Z; mc_Services : Z; mc_Methods : Z; mc_Messages : Z;
  mc_Fields : Z; mc_Enums : Z; mc_EnumValues : Z }.

Record artifactRow := mkWebartifactRow {
  arow_Kind : string; arow_Checksum : string; arow_ChecksumFull : string; arow_SizeBytes : Z;
  arow_DownloadURL : string; arow_HasChecksum : bool; arow_HasDownloadURL : bool }.

Record bufConfigView := mkWebbufConfigView {
  bcv_ConfigPresent : string; bcv_LockPresent : string; bcv_ModulePaths : list string; bcv_Deps : list string;
  bcv_LintEnabled : string; bcv_LintStatus : string; bcv_BreakingConfigPresent : string;
  bcv_HasLintStatus : bool }.

Record protoFileRow := mkWebprotoFileRow {
  pfrow_Path : string; pfrow_PackageName : string; pfrow_Syntax : string; pfrow_ImportCount : Z }.

Record importRow := mkWebimportRow {
  imrow_FilePath : string; imrow_ImportPath : string; imrow_Public : string; imrow_Weak : string }.

Record methodRow := mkWebmethodRow {
  metrow_FilePath : string; metrow_ServiceFullName : string; metrow_Name : string; metrow_InputType : string;
  metrow_OutputType : string; metrow_ClientStreaming : string; metrow_ServerStreaming : string }.

Record fieldRow := mkWebfieldRow {
  frow_FilePath : string; frow_MessageFullName : string; frow_Number : Z; frow_Name : string;
  frow_Type : string; frow_TypeName : string; frow_Label : string; frow_Repeated : string; frow_Map : string }.

Record enumValueRow := mkWebenumValueRow {
  evrow_FilePath : string; evrow_EnumFullName : string; evrow_Name : string; evrow_Number : Z }.

Record versionDetailView := mkWebversionDetailView {
  vdv_ModuleURL : string; vdv_ModulesURL : string; vdv_ModuleName : string; vdv_Version : string;
  vdv_Status : string; vdv_CreatedAt : string; vdv_LintStatus : string; vdv_CompileStatus : string;
  vdv_MetadataCounts : metadataCounts; vdv_Artifacts : list artifactRow; vdv_BufConfig : bufConfigView;
  vdv_ProtoFiles : list protoFileRow; vdv_Imports : list importRow; vdv_Methods : list methodRow;
  vdv_Fields : list fieldRow; vdv_EnumValues : list enumValueRow; vdv_RelatedReports : list reportRow;
  vdv_HasLintStatus : bool; vdv_HasMetadata : bool; vdv_HasArtifacts : bool; vdv_HasRelatedReports : bool;
  vdv_HasModulePaths : bool; vdv_HasDeps : bool }.

Record reportFilters := mkWebreportFilters {
  rf_Module : string; rf_Status : string; rf_Query : string; rf_HasFilters : bool }.

Record changeRow := mkWebchangeRow {
  crow_FilePath : string; crow_PackageName : string; crow_Symbol : string; crow_RuleID : string;
  crow_Message : string; crow_Severity : string }.

Record runtimeImpactRow := mkWebruntimeImpactRow {
  irow_ServiceName : string; irow_ServiceURL : string; irow_Environment : string; irow_EnvironmentURL : string;
  irow_UsedVersion : string; irow_BuildVersion : string; irow_GitCommit : string; irow_ReportedAt : string;
  irow_ImpactStatus : string; irow_Reason : string; irow_DriftStatus : string; irow_DriftReason : string }.

Record approvalRequirementRow := mkWebapprovalRequirementRow {
  reqrow_ID : string; reqrow_RequirementType : string; reqrow_TargetModuleName : string;
  reqrow_TargetModuleURL : string; reqrow_RequiredRole : string; reqrow_Status : string;
  reqrow_Reason : string }.

Record approvalDecisionRow := mkWebapprovalDecisionRow {
  decrow_ID : string; decrow_RequirementID : string; decrow_Decision : string; decrow_DecidedBy : string;
  decrow_Comment : string; decrow_CreatedAt : string }.

Record approvalRequestView := mkWebapprovalRequestView {
  aprv_ID : string; aprv_Module : string; aprv_ModuleURL : string; aprv_BreakingReportID : string;
  aprv_BreakingReportURL : string; aprv_TargetRef : string; aprv_Status : string; aprv_RequiredApprovals : Z;
  aprv_ReceivedApprovals : Z; aprv_Requirements : list approvalRequirementRow;
  aprv_Decisions : list approvalDecisionRow; aprv_CreatedAt : string; aprv_UpdatedAt : string;
  aprv_RequestURL : string; aprv_HasRequirements : bool; aprv_HasDecisions : bool;
  aprv_MissingWarnings : list string; aprv_HasMissingWarnings : bool }.

Record breakingReportDetailView := mkWebbreakingReportDetailView {
  brv_ID : string; brv_Module : string; brv_BaseVersion : string; brv_TargetRef : string; brv_Status : string;
  brv_ChangeCount : Z; brv_CreatedAt : string; brv_HumanSummary : string; brv_ModuleURL : string;
  brv_BaseVersionURL : string; brv_ReportsURL : string; brv_Changes : list changeRow;
  brv_AffectedModules : list dependencyModuleRow; brv_RuntimeImpact : list runtimeImpactRow;
  brv_Approval : option approvalRequestView; brv_HasChanges : bool; brv_HasAffectedModules : bool;
  brv_HasRuntimeImpact : bool; brv_HasApproval : bool }.

Record governanceAuditEventRow := mkWebgovernanceAuditEventRow {
  audrow_ID : string; audrow_EventType : string; audrow_Actor : string; audrow_Module : string;
  audrow_PayloadJSON : string; audrow_CreatedAt : string }.

Record approvalRequestDetailView := mkWebapprovalRequestDetailView {
  apdv_Request : approvalRequestView; apdv_AuditTrail : list governanceAuditEventRow; apdv_HasAudit : bool }.

Record runtimeFilters := mkWebruntimeFilters {
  rtf_Query : string; rtf_Environment : string; rtf_DriftStatus : string; rtf_HasFilters : bool }.

Record runtimeEnvironmentLink := mkWebruntimeEnvironmentLink {
  elink_Name : string; elink_URL : string }.

Record runtimeServiceRow := mkWebruntimeServiceRow {
  srow_ServiceName : string; srow_Environments : string; srow_LastReportedAt : string; srow_UpToDateCount : Z;
  srow_BehindLatestCount : Z; srow_UnknownVersionCount : Z; srow_DeprecatedCount : Z; srow_ServiceURL : string;
  srow_EnvironmentURLs : list runtimeEnvironmentLink }.

Record runtimeUsageRow := mkWebruntimeUsageRow {
  urow_Module : string; urow_Version : string; urow_LatestVersion : string; urow_DriftStatus : string;
  urow_DriftReason : string; urow_ModuleURL : string }.

Record runtimeDeploymentView := mkWebruntimeDeploymentView {
  dplv_ID : string; dplv_ServiceName : string; dplv_ServiceURL : string; dplv_Environment : string;
  dplv_EnvironmentURL : string; dplv_GitCommit : string; dplv_BuildVersion : string; dplv_ReportedAt : string;
  dplv_Usages : list runtimeUsageRow; dplv_HasUsages : bool }.

Record runtimeServiceDetailView := mkWebruntimeServiceDetailView {
  sdv_ServiceName : string; sdv_ServicesURL : string; sdv_Deployments : list runtimeDeploymentView;
  sdv_HasDeployments : bool }.

Record runtimeEnvironmentView := mkWebruntimeEnvironmentView {
  envv_Environment : string; envv_ServicesURL : string; envv_Deployments : list runtimeDeploymentView;
  envv_HasDeployments : bool }.

Record moduleRuntimeUsageRow := mkWebmoduleRuntimeUsageRow {
  murow_ServiceName : string; murow_ServiceURL : string; murow_Environment : string;
  murow_EnvironmentURL : string; murow_Version : string; murow_LatestVersion : string;
  murow_DriftStatus : string; murow_DriftReason : string; murow_ReportedAt : string }.

Record moduleRuntimeUsagesView := mkWebmoduleRuntimeUsagesView {
  muv_Module : string; muv_ModuleURL : string; muv_Usages : list moduleRuntimeUsageRow; muv_HasUsages : bool }.

Record capabilityRow := mkWebcapabilityRow {
  caprow_Name : string }.

Record aboutView := mkWebaboutView {
  abv_Edition : string; abv_Version : string; abv_Commit : string; abv_BuildDate : string;
  abv_Enabled : list capabilityRow; abv_Unavailable : list capabilityRow; abv_HasEnabled : bool;
  abv_HasUnavailable : bool; abv_HasCommit : bool; abv_HasBuildDate : bool; abv_DisplayEditionTitle : string }.

Record pageData := mkWebpageData {
  pd_Title : string; pd_Active : string; pd_BasePath : string; pd_StaticPath : string; pd_Status : string;
  pd_Module : string; pd_Version : string; pd_ReportID : string; pd_Message : string; pd_EmptyTitle : string;
  pd_EmptyBody : string; pd_Query : string; pd_Modules : list moduleRow;
  pd_ModuleView : option moduleDetailView; pd_DependencyView : option moduleDependencyView;
  pd_VersionView : option versionDetailView; pd_ReportFilters : reportFilters; pd_Reports : list reportRow;
  pd_ReportView : option breakingReportDetailView; pd_ApprovalRequestView : option approvalRequestDetailView;
  pd_RuntimeFilters : runtimeFilters; pd_RuntimeServices : list runtimeServiceRow;
  pd_RuntimeServiceView : option runtimeServiceDetailView;
  pd_RuntimeEnvironmentView : option runtimeEnvironmentView;
  pd_ModuleRuntimeView : option moduleRuntimeUsagesView; pd_AboutView : option aboutView }.

Definition pageData_zero : pageData :=
  mkWebpageData "" "" "" "" "" "" "" "" "" "" "" "" [] None None None (mkWebreportFilters "" "" "" false) []
    None None (mkWebruntimeFilters "" "" "" false) [] None None None None.

Definition eta_pageData (d : pageData) : pageData :=
  mkWebpageData (pd_Title d) (pd_Active d) (pd_BasePath d) (pd_StaticPath d) (pd_Status d) (pd_Module d)
    (pd_Version d) (pd_ReportID d) (pd_Message d) (pd_EmptyTitle d) (pd_EmptyBody d) (pd_Query d) (pd_Modules d)
    (pd_ModuleView d) (pd_DependencyView d) (pd_VersionView d) (pd_ReportFilters d) (pd_Reports d)
    (pd_ReportView d) (pd_ApprovalRequestView d) (pd_RuntimeFilters d) (pd_RuntimeServices d)
    (pd_RuntimeServiceView d) (pd_RuntimeEnvironmentView d) (pd_ModuleRuntimeView d) (pd_AboutView d).

Definition set_Title : string -> pageData -> pageData := ltac:(setter eta_pageData pd_Title).
Definition set_Active : string -> pageData -> pageData := ltac:(setter eta_pageData pd_Active).
Definition set_BasePath : string -> pageData -> pageData := ltac:(setter eta_pageData pd_BasePath).
Definition set_StaticPath : string -> pageData -> pageData := ltac:(setter eta_pageData pd_StaticPath).
Definition set_Status : string -> pageData -> pageData := ltac:(setter eta_pageData pd_Status).
Definition set_Module : string -> pageData -> pageData := ltac:(setter eta_pageData pd_Module).
Definition set_Version : string -> pageData -> pageData := ltac:(setter eta_pageData pd_Version).
Definition set_ReportID : string -> pageData -> pageData := ltac:(setter eta_pageData pd_ReportID).
Definition set_Message : string -> pageData -> pageData := ltac:(setter eta_pageData pd_Message).
Definition set_EmptyTitle : string -> pageData -> pageData := ltac:(setter eta_pageData pd_EmptyTitle).
Definition set_EmptyBody : string -> pageData -> pageData := ltac:(setter eta_pageData pd_EmptyBody).
Definition set_Query : string -> pageData -> pageData := ltac:(setter eta_pageData pd_Query).
Definition set_Modules : list moduleRow -> pageData -> pageData := ltac:(setter eta_pageData pd_Modules).
Definition set_ModuleView : option moduleDetailView -> pageData -> pageData := ltac:(setter eta_pageData pd_ModuleView).
Definition set_DependencyView : option moduleDependencyView -> pageData -> pageData := ltac:(setter eta_pageData pd_DependencyView).
Definition set_VersionView : option versionDetailView -> pageData -> pageData := ltac:(setter eta_pageData pd_VersionView).
Definition set_ReportFilters : reportFilters -> pageData -> pageData := ltac:(setter eta_pageData pd_ReportFilters).
Definition set_Reports : list reportRow -> pageData -> pageData := ltac:(setter eta_pageData pd_Reports).
Definition set_ReportView : option breakingReportDetailView -> pageData -> pageData := ltac:(setter eta_pageData pd_ReportView).
Definition set_ApprovalRequestView : option approvalRequestDetailView -> pageData -> pageData := ltac:(setter eta_pageData pd_ApprovalRequestView).
Definition set_RuntimeFilters : runtimeFilters -> pageData -> pageData := ltac:(setter eta_pageData pd_RuntimeFilters).
Definition set_RuntimeServices : list runtimeServiceRow -> pageData -> pageData := ltac:(setter eta_pageData pd_RuntimeServices).
Definition set_RuntimeServiceView : option runtimeServiceDetailView -> pageData -> pageData := ltac:(setter eta_pageData pd_RuntimeServiceView).
Definition set_RuntimeEnvironmentView : option runtimeEnvironmentView -> pageData -> pageData := ltac:(setter eta_pageData pd_RuntimeEnvironmentView).
Definition set_ModuleRuntimeView : option moduleRuntimeUsagesView -> pageData -> pageData := ltac:(setter eta_pageData pd_ModuleRuntimeView).
Definition set_AboutView : option aboutView -> pageData -> pageData := ltac:(setter eta_pageData pd_AboutView).
