(* ===== verification/WebViews.v ===== *)
(** * The views of the pages

    [transport/web/formatting.go] and the views of [transport/web/*_views.go]: the
    data of a page made from a read model. *)

From S2P Require Import Prelude GoStrings Domain Json Urls UiTypes WebTypes.

Open Scope string_scope.
Open Scope Z_scope.

(** ** [formatting.go] *)

Section Formatting.
Context `{UC : !Unicode}.

Definition normalizeStatus (status : string) : string := ToLower (TrimSpace status).

Definition is_one_of (s : string) (l : list string) : bool := existsb (String.eqb s) l.
Definition statusBadgeClass (status : string) : string :=
  let s := normalizeStatus status in
  if is_one_of s ["published"] then "badge badge-published" else
  if is_one_of s ["passed"; "success"; "approved"; "not_required"] then "badge badge-passed" else
  if is_one_of s ["breaking"; "rejected"] then "badge badge-breaking" else
  if is_one_of s ["failed"; "failure"; "error"] then "badge badge-failed" else
  if is_one_of s ["warning"; "warn"; "pending"] then "badge badge-warning" else
  if is_one_of s ["up_to_date"] then "badge badge-up-to-date" else
  if is_one_of s ["behind_latest"] then "badge badge-behind-latest" else
  if is_one_of s ["unknown_version"] then "badge badge-unknown-version" else
  if is_one_of s ["deprecated_version"] then "badge badge-deprecated-version" else
  if is_one_of s ["potentially_affected_by_breaking_change"] then "badge badge-runtime-impact" else "badge badge-unknown".
End Formatting.

Definition statusBadgeText (status : string) : string :=
  let value := TrimSpace status in if (value =? "")%string then "unknown" else value.

Definition moduleStatus (overview : ModuleOverview) : string :=
  match mo_LatestVersion overview with Some latest => vs_Status latest | None => "unknown" end.

Definition externalProjectURL (baseURL projectPath : string) : string :=
  let base := TrimRight (TrimSpace baseURL) "/" in
  let path := Trim (TrimSpace projectPath) "/" in
  if (base =? "")%string || (path =? "")%string then "" else base +:+ "/" +:+ path.

Definition shortDigest (value : string) : string :=
  let value := TrimSpace value in
  if len value <=? 16 then value
  else take_string 12 value +:+ "..." +:+ drop_string (String.length value - 4) value.

(** The year of a layout has at least four digits. *)
Definition year_text (year : Z) : string :=
  if year <? 0 then "-" +:+ (if - year <? 10000 then digits 4 (- year) else itoa (- year))
  else if year <? 10000 then digits 4 year else itoa year.
Definition formatTime (value : time) : string :=
  if value =? 0 then "" else
  let '(year, month, day) := civil (value / nanos_per_day) in
  let secs := (value mod nanos_per_day) / 1000000000 in
  year_text year +:+ "-" +:+ digits 2 month +:+ "-" +:+ digits 2 day +:+ " " +:+ digits 2 (secs / 3600) +:+ ":"
  +:+ digits 2 ((secs / 60) mod 60) +:+ " UTC".
Definition formatTimePtr (value : option time) : string :=
  match value with Some t => formatTime t | None => "" end.

Definition yesNo (value : bool) : string := if value then "yes" else "no".
Definition pathEscape (value : string) : string := PathEscape (TrimSpace value).

Definition normalizePath (value fallback : string) : string :=
  let path := TrimRight (TrimSpace value) "/" in
  let path := if (path =? "")%string then TrimRight (TrimSpace fallback) "/" else path in
  if (path =? "")%string then "/" else path.

Definition blank (s : string) : bool := (TrimSpace s =? "")%string.
Definition some_of {A} (l : list A) : bool := match l with [] => false | _ => true end.
Definition count {A} (l : list A) : Z := Z.of_nat (length l).

Section Views.
Context `{UC : !Unicode}.
Variable basePath : string.

(** ** Links of the pages *)

Definition module_url (name : string) : string := basePath +:+ "/modules/" +:+ pathEscape name.
Definition version_url (name version : string) : string := module_url name +:+ "/versions/" +:+ pathEscape version.
Definition reports_url (name : string) : string := basePath +:+ "/breaking-reports?module=" +:+ QueryEscape name.
Definition report_url (id : string) : string := basePath +:+ "/breaking-reports/" +:+ pathEscape id.
Definition request_url (id : string) : string := basePath +:+ "/approval-requests/" +:+ pathEscape id.
Definition service_url (name : string) : string := basePath +:+ "/runtime/services/" +:+ pathEscape name.
Definition environment_url (name : string) : string := basePath +:+ "/runtime/environments/" +:+ pathEscape name.

(** ** [module_views.go], [breaking_views.go] *)

Definition Server_reportRow (report : BreakingReportSummary) : reportRow :=
  mkWebreportRow (br_ID report) (br_Module report) (formatTime (br_CreatedAt report)) (br_BaseVersion report)
    (br_TargetRef report) (br_Status report) (br_ChangeCount report) (report_url (br_ID report))
    (if blank (br_Module report) then "" else module_url (br_Module report))
    (if negb (blank (br_Module report)) && negb (blank (br_BaseVersion report))
     then version_url (br_Module report) (br_BaseVersion report) else "").

Definition project_url (project : option GitLabProjectInfo) : string :=
  match project with Some p => externalProjectURL (gp_BaseURL p) (gp_ProjectPath p) | None => "" end.
Definition project_label (project : option GitLabProjectInfo) : string :=
  match project with Some p => gp_ProjectPath p | None => "" end.
Definition is_set {A} (o : option A) : bool := match o with Some _ => true | None => false end.

Definition Server_moduleRow (overview : ModuleOverview) : moduleRow :=
  let module := mo_Module overview in
  let latest := match mo_LatestVersion overview with Some v => vs_Version v | None => "" end in
  mkWebmoduleRow (mi_Name module) (mi_Description module) (mi_RepositoryURL module)
    (project_url (mo_GitLabProject overview)) (project_label (mo_GitLabProject overview)) latest
    (mo_VersionCount overview) (formatTime (mo_LastPublishedOrSeen overview)) (mo_BreakingReportCount overview)
    (mo_LastBreakingStatus overview) (is_set (mo_LatestVersion overview)) (is_set (mo_GitLabProject overview))
    (negb (blank (mi_RepositoryURL module))) (negb (blank (mo_LastBreakingStatus overview)))
    (module_url (mi_Name module))
    (match mo_LatestVersion overview with Some v => version_url (mi_Name module) (vs_Version v) | None => "" end)
    (reports_url (mi_Name module)).

(** The last artifact of each kind. *)
Definition row_digests (artifacts : list ArtifactSummary) : option string * option string :=
  fold_left (fun digests artifact =>
    if (as_Kind artifact =? "source_archive")%string then (Some (as_ChecksumSHA256 artifact), digests.2) else
    if (as_Kind artifact =? "buf_image")%string then (digests.1, Some (as_ChecksumSHA256 artifact)) else digests)
    artifacts (None, None).
Definition Server_versionRow (moduleName : string) (version : VersionSummary) : versionRow :=
  let '(source, image) := row_digests (vs_Artifacts version) in
  let counts := vs_MetadataSummary version in
  let short := fun d => match d with Some checksum => shortDigest checksum | None => "" end in
  mkWebversionRow (vs_Version version) (vs_Status version) (formatTime (vs_CreatedAt version))
    (short source) (default "" source) (short image) (default "" image) (vs_LintStatus version)
    (ds_Files counts) (ds_Services counts) (ds_Methods counts) (ds_Messages counts) (ds_Enums counts)
    (version_url moduleName (vs_Version version)) (is_set source) (is_set image) (negb (blank (vs_LintStatus version))).

Definition Server_moduleDetailView (overview : ModuleOverview) : moduleDetailView :=
  let module := mo_Module overview in
  let owners := map (fun owner => mkWebmoduleOwnerRow (ow_ID owner) (ow_SubjectType owner) (ow_Subject owner)
                                    (ow_Role owner) (formatTime (ow_CreatedAt owner))) (mo_Owners overview) in
  mkWebmoduleDetailView (mi_Name module) (mi_Description module) (mi_RepositoryURL module)
    (project_url (mo_GitLabProject overview)) (project_label (mo_GitLabProject overview))
    (match mo_LatestVersion overview with Some v => vs_Version v | None => "" end)
    (formatTime (mi_CreatedAt module)) (formatTime (mi_UpdatedAt module)) (negb (blank (mi_RepositoryURL module)))
    (is_set (mo_GitLabProject overview)) (is_set (mo_LatestVersion overview))
    (map (Server_versionRow (mi_Name module)) (mo_Versions overview)) (map Server_reportRow (mo_RecentReports overview))
    (reports_url (mi_Name module)) (module_url (mi_Name module) +:+ "/dependencies")
    (module_url (mi_Name module) +:+ "/runtime-usages") owners (some_of owners).

Definition Server_artifactRow (moduleName version : string) (artifact : ArtifactSummary) : artifactRow :=
  let source := (as_Kind artifact =? "source_archive")%string in
  mkWebartifactRow (as_Kind artifact) (shortDigest (as_ChecksumSHA256 artifact)) (as_ChecksumSHA256 artifact)
    (as_SizeBytes artifact)
    (if source then "/api/v1/modules/" +:+ pathEscape moduleName +:+ "/versions/" +:+ pathEscape version +:+ "/artifact" else "")
    (negb (blank (as_ChecksumSHA256 artifact))) source.

Definition field_row (filePath fullName : string) (field : ProtoField) : fieldRow :=
  mkWebfieldRow filePath fullName (fld_Number field) (fld_Name field) (fld_Type field) (fld_TypeName field)
    (fld_Label field) (yesNo (fld_IsRepeated field)) (yesNo (fld_IsMap field)).
Fixpoint appendMessageRows (filePath : string) (message : ProtoMessage) : list fieldRow :=
  (map (field_row filePath (msg_FullName message)) (msg_Fields message)
   ++ flat_map (appendMessageRows filePath) (msg_Messages message))%list.
Definition appendEnumRows (filePath : string) (enum : ProtoEnum) : list enumValueRow :=
  map (fun value => mkWebenumValueRow filePath (pe_FullName enum) (pv_Name value) (pv_Number value)) (pe_Values enum).
Fixpoint appendMessageEnumRows (filePath : string) (message : ProtoMessage) : list enumValueRow :=
  (flat_map (appendEnumRows filePath) (msg_Enums message)
   ++ flat_map (appendMessageEnumRows filePath) (msg_Messages message))%list.

Definition import_rows (file : ProtoFile) : list importRow :=
  map (fun item => mkWebimportRow (pf_Path file) (pi_Path item) (yesNo (pi_Public item)) (yesNo (pi_Weak item)))
    (pf_Imports file).
Definition method_rows (file : ProtoFile) : list methodRow :=
  flat_map (fun service =>
    map (fun method => mkWebmethodRow (pf_Path file) (ps_FullName service) (pm_Name method) (pm_InputType method)
                         (pm_OutputType method) (yesNo (pm_ClientStreaming method)) (yesNo (pm_ServerStreaming method)))
      (ps_Methods service)) (pf_Services file).
Definition enum_rows (file : ProtoFile) : list enumValueRow :=
  (flat_map (appendMessageEnumRows (pf_Path file)) (pf_Messages file)
   ++ flat_map (appendEnumRows (pf_Path file)) (pf_Enums file))%list.

Definition Server_versionDetailView (overview : VersionOverview) : versionDetailView :=
  let name := mi_Name (vo_Module overview) in
  let version := vo_Version overview in
  let counts := vo_MetadataCounts overview in
  let config := vo_BufConfig overview in
  let files := dm_Files (vo_Metadata overview) in
  mkWebversionDetailView (module_url name) (basePath +:+ "/modules") name (vs_Version version) (vs_Status version)
    (formatTime (vs_CreatedAt version)) (vs_LintStatus version) (vs_Status version)
    (mkWebmetadataCounts (ds_Files counts) (ds_Packages counts) (ds_Imports counts) (ds_Services counts)
       (ds_Methods counts) (ds_Messages counts) (ds_Fields counts) (ds_Enums counts) (ds_EnumValues counts))
    (map (Server_artifactRow name (vs_Version version)) (vo_Artifacts overview))
    (mkWebbufConfigView (yesNo (bc_ConfigPresent config)) (yesNo (bc_LockPresent config)) (bc_ModulePaths config)
       (bc_Deps config) (yesNo (bc_LintEnabled config)) (bc_LintStatus config) (yesNo (bc_BreakingConfigPresent config))
       (negb (blank (bc_LintStatus config))))
    (map (fun file => mkWebprotoFileRow (pf_Path file) (pf_PackageName file) (pf_Syntax file) (count (pf_Imports file))) files)
    (flat_map import_rows files) (flat_map method_rows files)
    (flat_map (fun file => flat_map (appendMessageRows (pf_Path file)) (pf_Messages file)) files)
    (flat_map enum_rows files) (map Server_reportRow (vo_RelatedReports overview))
    (negb (blank (vs_LintStatus version))) (some_of files) (some_of (vo_Artifacts overview))
    (some_of (vo_RelatedReports overview)) (some_of (bc_ModulePaths config)) (some_of (bc_Deps config)).

Definition Server_dependencyModuleRow (item : DependencyModule) : dependencyModuleRow :=
  mkWebdependencyModuleRow (de_Module item) (de_Version item) (strings_Join ", " (de_DependencySources item))
    (strings_Join ", " (de_Reasons item)) (module_url (de_Module item)).

Definition Server_moduleDependencyView (graph : ModuleDependencyGraph) : moduleDependencyView :=
  mkWebmoduleDependencyView (mi_Name (dg_Module graph)) (module_url (mi_Name (dg_Module graph)))
    (map Server_dependencyModuleRow (dg_Downstream graph)) (map Server_dependencyModuleRow (dg_Upstream graph))
    (map (fun item => mkWebunresolvedDependencyRow (ud_Source item) (ud_ImportPath item) (ud_ReferencedSymbol item)
                        (ud_Reason item)) (dg_Unresolved graph))
    (some_of (dg_Downstream graph)) (some_of (dg_Upstream graph)) (some_of (dg_Unresolved graph)).

(** ** [runtime_views.go] *)

Definition Server_runtimeServiceRow (summary : RuntimeServiceSummary) : runtimeServiceRow :=
  mkWebruntimeServiceRow (rss_ServiceName summary) (strings_Join ", " (rss_Environments summary))
    (formatTimePtr (rss_LastReportedAt summary)) (rss_UpToDateCount summary) (rss_BehindLatestCount summary)
    (rss_UnknownVersionCount summary) (rss_DeprecatedCount summary) (service_url (rss_ServiceName summary))
    (map (fun environment => mkWebruntimeEnvironmentLink environment (environment_url environment))
       (rss_Environments summary)).

Definition Server_runtimeUsageRow (usage : RuntimeModuleUsage) : runtimeUsageRow :=
  mkWebruntimeUsageRow (rmu_Module usage) (rmu_Version usage) (rmu_LatestVersion usage) (rmu_DriftStatus usage)
    (rmu_DriftReason usage) (module_url (rmu_Module usage)).

(** The usages of a deployment, in their order. *)
Definition usagesByDeployment (usages : list RuntimeModuleUsage) (id : string) : list runtimeUsageRow :=
  map Server_runtimeUsageRow (List.filter (fun usage => (rmu_DeploymentID usage =? id)%string) usages).
Definition Server_runtimeDeploymentViews (deployments : list RuntimeDeployment) (usages : list RuntimeModuleUsage)
    : list runtimeDeploymentView :=
  map (fun deployment =>
    let rows := usagesByDeployment usages (rd_ID deployment) in
    mkWebruntimeDeploymentView (rd_ID deployment) (rd_ServiceName deployment) (service_url (rd_ServiceName deployment))
      (rd_Environment deployment) (environment_url (rd_Environment deployment)) (rd_GitCommit deployment)
      (rd_BuildVersion deployment) (formatTime (rd_ReportedAt deployment)) rows (some_of rows)) deployments.

Definition Server_runtimeServiceDetailView (details : RuntimeServiceDetails) : runtimeServiceDetailView :=
  mkWebruntimeServiceDetailView (rsd_ServiceName details) (basePath +:+ "/runtime/services")
    (Server_runtimeDeploymentViews (rsd_Deployments details) (rsd_Usages details)) (some_of (rsd_Deployments details)).

Definition Server_runtimeEnvironmentView (inventory : RuntimeEnvironmentInventory) : runtimeEnvironmentView :=
  mkWebruntimeEnvironmentView (rei_Environment inventory)
    (basePath +:+ "/runtime/services?environment=" +:+ QueryEscape (rei_Environment inventory))
    (Server_runtimeDeploymentViews (rei_Deployments inventory) (rei_Usages inventory)) (some_of (rei_Deployments inventory)).

Definition Server_moduleRuntimeUsagesView (usages : ModuleRuntimeUsages) : moduleRuntimeUsagesView :=
  mkWebmoduleRuntimeUsagesView (mrs_Module usages) (module_url (mrs_Module usages))
    (map (fun usage => mkWebmoduleRuntimeUsageRow (mru_ServiceName usage) (service_url (mru_ServiceName usage))
       (mru_Environment usage) (environment_url (mru_Environment usage)) (mru_Version usage) (mru_LatestVersion usage)
       (mru_DriftStatus usage) (mru_DriftReason usage) (formatTime (mru_ReportedAt usage))) (mrs_Usages usages))
    (some_of (mrs_Usages usages)).

Definition Server_runtimeImpactRow (impact : RuntimeImpact) : runtimeImpactRow :=
  mkWebruntimeImpactRow (ri_ServiceName impact) (service_url (ri_ServiceName impact)) (ri_Environment impact)
    (environment_url (ri_Environment impact)) (ri_UsedVersion impact) (ri_BuildVersion impact) (ri_GitCommit impact)
    (formatTime (ri_ReportedAt impact)) (ri_ImpactStatus impact) (ri_Reason impact) (ri_DriftStatus impact)
    (ri_DriftReason impact).

(** ** [governance_views.go] *)

Definition missing_warning (requirement : ApprovalRequirementSummary) : list string :=
  if Contains (ToLower (aq_Reason requirement)) "no owners are configured" then
    let target := TrimSpace (aq_TargetModuleName requirement) in
    ["Approval required, but no owners are configured for " +:+ (if (target =? "")%string then "this module" else target) +:+ "."]
  else [].
Definition Server_approvalRequestView (request : ApprovalRequestSummary) : approvalRequestView :=
  let warnings := flat_map missing_warning (ar_Requirements request) in
  mkWebapprovalRequestView (ar_ID request) (ar_ModuleName request) (module_url (ar_ModuleName request))
    (ar_BreakingReportID request)
    (if blank (ar_BreakingReportID request) then "" else report_url (ar_BreakingReportID request))
    (ar_TargetRef request) (ar_Status request) (ar_RequiredApprovals request) (ar_ReceivedApprovals request)
    (map (fun requirement => mkWebapprovalRequirementRow (aq_ID requirement) (aq_RequirementType requirement)
       (aq_TargetModuleName requirement) (module_url (aq_TargetModuleName requirement)) (aq_RequiredRole requirement)
       (aq_Status requirement) (aq_Reason requirement)) (ar_Requirements request))
    (map (fun decision => mkWebapprovalDecisionRow (ad_ID decision) (ad_RequirementID decision) (ad_Decision decision)
       (ad_DecidedBy decision) (ad_Comment decision) (formatTime (ad_CreatedAt decision))) (ar_Decisions request))
    (formatTime (ar_CreatedAt request)) (formatTime (ar_UpdatedAt request)) (request_url (ar_ID request))
    (some_of (ar_Requirements request)) (some_of (ar_Decisions request)) warnings (some_of warnings).

Definition Server_approvalRequestDetailView (details : ApprovalRequestDetails) : approvalRequestDetailView :=
  mkWebapprovalRequestDetailView (Server_approvalRequestView (ard_Request details))
    (map (fun event => mkWebgovernanceAuditEventRow (ae_ID event) (ae_EventType event) (ae_Actor event)
       (ae_ModuleName event) (ae_PayloadJSON event) (formatTime (ae_CreatedAt event))) (ard_AuditEvents details))
    (some_of (ard_AuditEvents details)).

Definition Server_breakingReportDetailView (details : BreakingReportDetails) : breakingReportDetailView :=
  let row := Server_reportRow (bd_Report details) in
  mkWebbreakingReportDetailView (rrow_ID row) (rrow_Module row) (rrow_BaseVersion row) (rrow_TargetRef row)
    (rrow_Status row) (rrow_ChangeCount row) (rrow_CreatedAt row) (bd_Summary details) (rrow_ModuleURL row)
    (rrow_BaseVersionURL row) (basePath +:+ "/breaking-reports")
    (map (fun change => mkWebchangeRow (ch_FilePath change) (ch_PackageName change) (ch_Symbol change)
       (ch_RuleID change) (ch_Message change) (ch_Severity change)) (bd_Changes details))
    (map Server_dependencyModuleRow (bd_AffectedModules details)) (map Server_runtimeImpactRow (bd_RuntimeImpact details))
    (Server_approvalRequestView <$> bd_Approval details) (some_of (bd_Changes details))
    (some_of (bd_AffectedModules details)) (some_of (bd_RuntimeImpact details)) (is_set (bd_Approval details)).

(** ** [about_views.go] *)

Definition capability_rows (enabled : bool) (capabilities : list CapabilityStatus) : list capabilityRow :=
  map (fun c => mkWebcapabilityRow (TrimSpace (cs_Name c)))
    (List.filter (fun c => negb (blank (cs_Name c)) && Bool.eqb (cs_Enabled c) enabled) capabilities).
Definition known (value : string) : bool := negb (blank value) && negb (value =? "unknown")%string.
Definition aboutViewFromEdition (details : EditionDetails) : aboutView :=
  let enabled := capability_rows true (ed_Capabilities details) in
  let unavailable := capability_rows false (ed_Capabilities details) in
  mkWebaboutView (ed_Edition details) (ed_Version details) (ed_Commit details) (ed_BuildDate details) enabled unavailable
    (some_of enabled) (some_of unavailable) (known (ed_Commit details)) (known (ed_BuildDate details))
    (if (TrimSpace (ed_Edition details) =? "community")%string then "ProtoRadar Community Edition"
     else "ProtoRadar " +:+ ed_Edition details +:+ " Edition").
End Views.
