(* ===== verification/WebPages.v ===== *)
(** * The pages

    [transport/web/server.go], [render.go] and the handlers of
    [transport/web/*_views.go]: what a request for a page asks of the queries, and
    the template and the data it is answered with. The templates themselves are
    HTML and are not modelled: a page is the name of its template and its data. *)

From S2P Require Import Prelude Errors GoStrings JsonScan Domain Json Effects Postgres Outbox Events Tables World Urls UiTypes UiQuery GitLabLink HttpServer WebTypes WebViews.

Open Scope string_scope.
Open Scope Z_scope.

Definition StatusFound : Z := 302.

(** An answer of the pages: a template with its data, a redirect, the stylesheet,
    or the text of the multiplexer. *)
Inductive WebResponse :=
| Rendered (status : Z) (name : string) (data : pageData)
| Redirected (status : Z) (location : string)
| StyleSheet
| Plain (response : HttpResponse).

Record Server := mkWebServer {
  web_basePath : string;
  web_staticPath : string;
  web_query : option Queries }.

Record Options := mkWebOptions {
  web_BasePath : string;
  web_StaticPath : string;
  web_Query : option Queries }.

Definition NewServer (options : Options) : Server :=
  let basePath := normalizePath (web_BasePath options) "/ui" in
  mkWebServer basePath (normalizePath (web_StaticPath options) (basePath +:+ "/static")) (web_Query options).

(** The fields that every page sets. *)
Definition page (Title Active Status Message : string) : pageData :=
  set_Title Title (set_Active Active (set_Status Status (set_Message Message pageData_zero))).
Definition set_empty (title body : string) (d : pageData) : pageData := set_EmptyTitle title (set_EmptyBody body d).

Section Pages.
Context `{PG : !Postgres} `{ENV : !Env} `{URL : !NetURL} `{UC : !Unicode}.
Variable server : Server.
Let basePath : string := web_basePath server.

Definition render (status : Z) (name : string) (data : pageData) : WebResponse :=
  Rendered status name (set_BasePath basePath (set_StaticPath (web_staticPath server) data)).

Definition StatusText (status : Z) : string := if status =? StatusNotFound then "Not Found" else "Internal Server Error".
Definition RenderError (status : Z) (message : string) : WebResponse :=
  if status =? StatusNotFound then
    let message := if blank message then "The requested ProtoRadar UI page was not found." else message in
    render status "error.html" (page "Page Not Found" "" (StatusText status) message)
  else
    render StatusInternalServerError "error.html"
      (page "Internal Server Error" "" (StatusText StatusInternalServerError)
         "Something went wrong while rendering the ProtoRadar UI. Check server logs for details.").

(** The values of the wildcards of a route, and the request. *)
Definition WebHandler : Type := list (string * string) -> HttpRequest -> World -> WebResponse * World.

(** A query whose missing subject is a page that is not found. *)
Definition shows {A} (query : Queries -> M World A) (missing : list error) (message : string) (k : A -> WebResponse)
    : World -> WebResponse * World := fun w =>
  match web_query server with
  | None => (RenderError StatusInternalServerError "", w)
  | Some svc =>
      match query svc w with
      | (Ok a, w') => (k a, w')
      | (Err err, w') =>
          (if existsb (errors_Is err) missing then RenderError StatusNotFound message
           else RenderError StatusInternalServerError "", w')
      end
  end.

Definition path_value (values : list (string * string)) (name : string) : string := TrimSpace (first_value name values).
Definition query_value (r : HttpRequest) (name : string) : string := TrimSpace (Query_Get r name).

(** ** Handlers *)

Definition index : WebHandler := fun _ _ w => (Redirected StatusFound (basePath +:+ "/modules"), w).
Definition stylesheet : WebHandler := fun _ _ w => (StyleSheet, w).
Definition notFound : WebHandler := fun _ _ w =>
  (RenderError StatusNotFound "The requested ProtoRadar UI page was not found.", w).

Definition modules : WebHandler := fun _ r =>
  let q := query_value r "q" in
  shows (fun svc => ListModuleOverviews svc q) [] "" (fun modules =>
    let d := page "Modules" "modules" "unknown" "Browse published protobuf modules and their latest compatibility state." in
    let d := if (q =? "")%string
      then set_empty "No modules published yet."
             ("Create one with: protoradar module create <module> --description " +:+ String quote_char "..."
              +:+ String quote_char " --repository-url <url>") d
      else set_empty "No modules match this search." "Try a different module name, repository URL, or description." d in
    render StatusOK "modules.html" (set_Query q (set_Modules (map (Server_moduleRow basePath) modules) d))).

Definition moduleDetail : WebHandler := fun values _ =>
  shows (fun svc => GetModuleOverview svc (path_value values "module"))
    [domain.ErrNotFound : error; domain.ErrInvalidModuleName : error] "Module not found." (fun overview =>
    let view := Server_moduleDetailView basePath overview in
    render StatusOK "module_detail.html"
      (set_Module (mdv_Name view) (set_ModuleView (Some view)
         (set_empty "No versions published yet."
            ("Publish a version with: protoradar push " +:+ mdv_Name view +:+ " --version v1.0.0 --path .")
            (page ("Module " +:+ mdv_Name view) "modules" (moduleStatus overview)
               "Inspect module ownership, published versions, and recent breaking reports."))))).

Definition moduleDependencies : WebHandler := fun values _ =>
  shows (fun svc => GetModuleDependencyGraph svc (path_value values "module"))
    [domain.ErrNotFound : error; domain.ErrInvalidModuleName : error] "Module not found." (fun graph =>
    let view := Server_moduleDependencyView basePath graph in
    render StatusOK "module_dependencies.html"
      (set_Module (depv_ModuleName view) (set_DependencyView (Some view)
         (page ("Dependencies " +:+ depv_ModuleName view) "modules" "unknown"
            "Inspect downstream consumers, upstream dependencies, and unresolved protobuf references.")))).

Definition versionDetail : WebHandler := fun values _ =>
  shows (fun svc => GetVersionOverview (mkUiGetVersionOverviewInput (path_value values "module") (path_value values "version")))
    [domain.ErrNotFound : error; domain.ErrInvalidModuleName : error; domain.ErrInvalidVersion : error]
    "Module version not found." (fun overview =>
    let view := Server_versionDetailView basePath overview in
    render StatusOK "version_detail.html"
      (set_Module (vdv_ModuleName view) (set_Version (vdv_Version view) (set_VersionView (Some view)
         (set_empty "No descriptor metadata stored for this version."
            "Publish the version again with descriptor extraction enabled to populate protobuf metadata."
            (page (vdv_ModuleName view +:+ " " +:+ vdv_Version view) "modules" (vdv_Status view)
               "Inspect artifacts, Buf configuration, descriptor metadata, and reports for this published version.")))))).

Definition breakingReports : WebHandler := fun _ r =>
  let module := query_value r "module" in
  let status := query_value r "status" in
  let query := query_value r "q" in
  let filtered := negb ((module =? "")%string && (status =? "")%string && (query =? "")%string) in
  shows (fun svc => ListBreakingReportOverviews (mkUiListBreakingReportOverviewsInput module status query)) [] ""
    (fun reports =>
    let d := page "Breaking Reports" "breaking-reports" "unknown" "Review compatibility checks across modules and target refs." in
    let d := if filtered
      then set_empty "No breaking reports match these filters." "Try a different module, status, or search query." d
      else set_empty "No breaking reports yet." "Run a breaking check to create reports." d in
    render StatusOK "breaking_reports.html"
      (set_ReportFilters (mkWebreportFilters module status query filtered)
         (set_Reports (map (Server_reportRow basePath) reports) d))).

Definition breakingReportDetail : WebHandler := fun values _ =>
  shows (fun svc => GetBreakingReportDetails svc (path_value values "report_id"))
    [domain.ErrNotFound : error] "Breaking report not found." (fun details =>
    let view := Server_breakingReportDetailView basePath details in
    render StatusOK "breaking_report_detail.html"
      (set_ReportID (brv_ID view) (set_ReportView (Some view)
         (set_empty "No breaking changes recorded." "This report did not record individual breaking-change rows."
            (page ("Breaking Report " +:+ brv_ID view) "breaking-reports" (brv_Status view)
               "Inspect the summary and individual protobuf compatibility changes."))))).

Definition approvalRequestDetail : WebHandler := fun values _ =>
  shows (fun svc => GetApprovalRequestDetails svc (path_value values "request_id"))
    [domain.ErrNotFound : error] "Approval request not found." (fun details =>
    let view := Server_approvalRequestDetailView basePath details in
    render StatusOK "approval_request_detail.html"
      (set_ApprovalRequestView (Some view)
         (page ("Approval Request " +:+ aprv_ID (apdv_Request view)) "breaking-reports" (aprv_Status (apdv_Request view))
            "Inspect governance requirements, decisions, and audit trail."))).

Definition runtimeServices : WebHandler := fun _ r =>
  let query := query_value r "q" in
  let environment := query_value r "environment" in
  let drift := query_value r "drift_status" in
  let filtered := negb ((query =? "")%string && (environment =? "")%string && (drift =? "")%string) in
  shows (fun svc => ListRuntimeServices svc (mkUiListRuntimeServicesInput query environment drift)) [] "" (fun summaries =>
    let d := page "Runtime Services" "runtime" "unknown" "Inspect services that reported deployed protobuf contract versions." in
    let d := if filtered
      then set_empty "No runtime services match these filters." "Try a different service, environment, or drift status." d
      else set_empty "No runtime services have reported inventory yet."
        "Report deployed contract versions with: protoradar runtime report --service <service> --environment <env> --module <module>@<version>" d in
    render StatusOK "runtime_services.html"
      (set_RuntimeFilters (mkWebruntimeFilters query environment drift filtered)
         (set_RuntimeServices (map (Server_runtimeServiceRow basePath) summaries) d))).

Definition runtimeServiceDetail : WebHandler := fun values _ =>
  shows (fun svc => GetRuntimeServiceDetails svc (path_value values "service"))
    [domain.ErrNotFound : error; domain.ErrInvalidRuntimeServiceName : error] "Runtime service not found." (fun details =>
    let view := Server_runtimeServiceDetailView basePath details in
    render StatusOK "runtime_service_detail.html"
      (set_RuntimeServiceView (Some view)
         (set_empty "No runtime deployments recorded for this service."
            ("Report inventory with: protoradar runtime report --service " +:+ sdv_ServiceName view +:+ " --module <module>@<version>")
            (page ("Runtime Service " +:+ sdv_ServiceName view) "runtime" "unknown"
               "Inspect reported deployments and protobuf module usage for this runtime service.")))).

Definition runtimeEnvironment : WebHandler := fun values _ =>
  shows (fun svc => GetRuntimeEnvironmentInventory svc (path_value values "environment"))
    [domain.ErrInvalidRuntimeEnvironment : error] "Runtime environment not found." (fun inventory =>
    let view := Server_runtimeEnvironmentView basePath inventory in
    render StatusOK "runtime_environment.html"
      (set_RuntimeEnvironmentView (Some view)
         (set_empty "No runtime services are currently known in this environment."
            "Runtime inventory appears after services report deployed module versions."
            (page ("Runtime Environment " +:+ envv_Environment view) "runtime" "unknown"
               "Inspect services currently reported in this runtime environment.")))).

Definition moduleRuntimeUsages : WebHandler := fun values _ =>
  shows (fun svc => GetModuleRuntimeUsages svc (path_value values "module"))
    [domain.ErrNotFound : error; domain.ErrInvalidModuleName : error] "Module not found." (fun usages =>
    let view := Server_moduleRuntimeUsagesView basePath usages in
    render StatusOK "module_runtime_usages.html"
      (set_Module (muv_Module view) (set_ModuleRuntimeView (Some view)
         (set_empty "No runtime services are currently known to use this module."
            "Runtime usage appears after deployed services report inventory."
            (page ("Runtime Usage " +:+ muv_Module view) "modules" "unknown"
               "Inspect runtime services that report using this module."))))).

Definition about : WebHandler := fun _ _ =>
  shows (fun svc => ret (GetEdition svc)) [] "" (fun details =>
    render StatusOK "about.html"
      (set_AboutView (Some (aboutViewFromEdition details))
         (page "About" "about" (ed_Edition details) "Edition, build metadata, and available product capabilities."))).

(** ** Routes *)

(** The segments of a configured path. *)
Definition path_literals (path : string) : list segment := map Lit (drop 1 (split_byte "/" path)).
Definition ui (rest : list segment) : list segment := (path_literals basePath ++ rest)%list.

Definition web_routes : list (list segment * WebHandler) :=
  [(ui [], index);
   (ui [Lit "modules"], modules);
   (ui [Lit "modules"; Wild "module"], moduleDetail);
   (ui [Lit "modules"; Wild "module"; Lit "dependencies"], moduleDependencies);
   (ui [Lit "modules"; Wild "module"; Lit "runtime-usages"], moduleRuntimeUsages);
   (ui [Lit "modules"; Wild "module"; Lit "versions"; Wild "version"], versionDetail);
   (ui [Lit "runtime"; Lit "services"], runtimeServices);
   (ui [Lit "runtime"; Lit "services"; Wild "service"], runtimeServiceDetail);
   (ui [Lit "runtime"; Lit "environments"; Wild "environment"], runtimeEnvironment);
   (ui [Lit "breaking-reports"], breakingReports);
   (ui [Lit "breaking-reports"; Wild "report_id"], breakingReportDetail);
   (ui [Lit "approval-requests"; Wild "request_id"], approvalRequestDetail);
   (ui [Lit "about"], about);
   ((path_literals (web_staticPath server) ++ [Lit "app.css"])%list, stylesheet)].

(** The paths below the base path, the base path itself excepted. *)
Fixpoint below_base (pattern : list segment) (path : list string) : bool :=
  match pattern, path with
  | [], _ :: _ => true
  | Lit s :: pattern', x :: path' => (s =? x)%string && below_base pattern' path'
  | _, _ => false
  end.

Fixpoint find_page (rs : list (list segment * WebHandler)) (path : list string)
    : option (WebHandler * list (string * string)) :=
  match rs with
  | [] => None
  | (pattern, h) :: rest =>
      match match_pattern pattern path with Some values => Some (h, values) | None => find_page rest path end
  end.
Definition page_of (path : list string) : option (WebHandler * list (string * string)) :=
  match find_page web_routes path with
  | Some found => Some found
  | None => if below_base (ui []) path then Some (notFound, []) else None
  end.

Definition Handler_ServeHTTP (r : HttpRequest) (w : World) : WebResponse * World :=
  match page_of (http_Path r) with
  | Some (h, values) =>
      if method_matches "GET" (http_Method r) then h values r w
      else (Plain (text_response StatusMethodNotAllowed "Method Not Allowed"), w)
  | None => (Plain (text_response StatusNotFound "404 page not found"), w)
  end.
End Pages.
