(* ===== verification/WebLinks.v ===== *)
(** * The links of the pages

    What a link of a page opens. A link stands beside the name of a thing, a module
    or a report, and opens the page of that thing, whatever bytes its name holds;
    a name that is empty or made of dots has no page. *)

From S2P Require Import Prelude Errors GoStrings Domain Json Effects Postgres Outbox Events Tables World Archive Urls UiTypes GovernanceStore Registry RegistrySafety RegistryOperations RegistryInvariant UiQuery GitLabLink HttpServer WebTypes WebViews WebPages.

Open Scope string_scope.
Open Scope Z_scope.

(** ** Parsing a link *)

Definition safe_elemb (s : string) : bool := negb (s =? "")%string && negb (s =? ".")%string && negb (s =? "..")%string.
Lemma safe_elemb_spec s : safe_elemb s = true <-> safe_elem s.
Proof. unfold safe_elemb, safe_elem. rewrite !andb_true_iff, !negb_true_iff, !String.eqb_neq. tauto. Qed.

(** The path and the query of a link without host and fragment; a path that the
    multiplexer would redirect, to clean it, has none. *)
Definition url_of_link (link : string) : option (list string * list (string * string)) :=
  let '(path, query) := cut_byte "?" link in
  match split_byte "/" path with
  | "" :: segments =>
      if forallb safe_elemb segments
      then (fun segs => (segs, ParseQuery query)) <$> unescape_all segments else None
  | _ => None
  end.

Definition link_to (segs : list string) : string := "/" +:+ strings_Join "/" (map PathEscape segs).

Lemma unescape_all_escape segs : unescape_all (map PathEscape segs) = Some segs.
Proof. induction segs as [|s segs IH]; [done|]. cbn. by rewrite PathUnescape_escape, IH. Qed.

Lemma absent_join c l : c <> slash -> Forall (absent c) l -> absent c (strings_Join "/" l).
Proof.
  intros Hc. induction l as [|x l IH]; [done|]. intros H. inversion H as [|? ? Hx Hl]; subst.
  destruct l as [|y l]; [done|]. cbn [strings_Join]. apply absent_app; [done|]. apply absent_app; [|by apply IH].
  unfold absent, no_byte. cbn [forallb_string]. rewrite andb_true_r, negb_true_iff. apply Ascii.eqb_neq. by intros <-.
Qed.

Lemma link_absent segs : absent "?" (link_to segs).
Proof.
  unfold link_to. apply absent_app; [done|]. apply absent_join; [done|].
  apply Forall_forall. intros x (s & <- & _)%list_elem_of_In%in_map_iff. by apply PathEscape_absent.
Qed.

Lemma split_link segs :
  segs <> [] -> split_byte "/" (link_to segs) = "" :: map PathEscape segs.
Proof.
  intros Hne. unfold link_to. change (split_byte "/" ("/" +:+ ?s)) with ("" :: split_byte slash s).
  f_equal. apply split_join; [by destruct segs|]. apply Forall_forall.
  intros x (s & <- & _)%list_elem_of_In%in_map_iff. by apply PathEscape_absent.
Qed.

Lemma safe_escaped segs : Forall safe_elem segs -> forallb safe_elemb (map PathEscape segs) = true.
Proof.
  intros H. apply forallb_forall. intros x (s & <- & Hs)%in_map_iff. apply safe_elemb_spec, PathEscape_safe.
  rewrite Forall_forall in H. by apply H, list_elem_of_In.
Qed.

Lemma url_path segs : segs <> [] -> Forall safe_elem segs -> url_of_link (link_to segs) = Some (segs, []).
Proof.
  intros Hne Hs. unfold url_of_link. rewrite cut_none by apply link_absent.
  rewrite split_link, safe_escaped, unescape_all_escape by done. reflexivity.
Qed.

Lemma parse_one key value :
  forallb_string unreserved key = true -> key <> "" -> ParseQuery (key +:+ "=" +:+ QueryEscape value) = [(key, value)].
Proof.
  intros Hk Hne. set (q := key +:+ "=" +:+ QueryEscape value).
  assert (Ha : forall c, unreserved c = false -> Ascii.eqb c "=" = false -> Ascii.eqb c "%" = false ->
                         Ascii.eqb c "+" = false -> hex_value c = None -> absent c q).
  { intros c H1 H2 H3 H4 H5. apply absent_app; [|apply absent_app; [|by apply QueryEscape_absent]].
    - unfold absent, no_byte. revert Hk. apply forallb_string_impl. intros a Ha'. apply negb_true_iff, Ascii.eqb_neq. intros ->. congruence.
    - unfold absent, no_byte. cbn [forallb_string]. rewrite andb_true_r, negb_true_iff. apply Ascii.eqb_neq in H2. apply Ascii.eqb_neq. congruence. }
  assert (Hk' : absent "=" key /\ QueryUnescape key = Some key).
  { clear -Hk. unfold absent, no_byte, QueryUnescape. induction key as [|a key IH]; [done|]. cbn in Hk |- *.
    apply andb_true_iff in Hk as [Ha Hk]. destruct (IH Hk) as [H1 H2]. destruct (unreserved_clean a Ha) as (E1 & E2 & _ & E3 & _).
    by rewrite E1, E2, E3, H1, H2. }
  destruct Hk' as [Hk1 Hk2]. unfold ParseQuery. rewrite (split_byte_none "&") by by apply Ha. cbn [flat_map]. rewrite app_nil_r.
  unfold parse_value. replace (q =? "")%string with false by (destruct key; [done|reflexivity]).
  assert (no_byte ";" q = true) as -> by by apply Ha. cbn [orb negb].
  change q with (key +:+ String "=" (QueryEscape value)). by rewrite cut_once, Hk2, QueryUnescape_escape.
Qed.

Lemma url_query segs key value :
  segs <> [] -> Forall safe_elem segs -> forallb_string unreserved key = true -> key <> "" ->
  url_of_link (link_to segs +:+ "?" +:+ key +:+ "=" +:+ QueryEscape value) = Some (segs, [(key, value)]).
Proof.
  intros Hne Hs Hk Hk'. unfold url_of_link. change ("?" +:+ ?t) with (String "?" t).
  rewrite cut_once by apply link_absent. rewrite split_link, safe_escaped, unescape_all_escape by done.
  cbn [fmap option_fmap option_map]. by rewrite parse_one.
Qed.

(** ** What a link is for *)

Inductive target :=
| ToModules | ToReports | ToServices | ToAbout
| ToModule (module : string) | ToDependencies (module : string) | ToUsages (module : string)
| ToVersion (module version : string) | ToReportsOf (module : string) | ToReport (report : string)
| ToRequest (request : string) | ToService (service : string) | ToEnvironment (environment : string)
| ToServicesIn (environment : string) | ToArtifact (module version : string).

(** The names in the path of a target. *)
Definition target_names (t : target) : list string :=
  map TrimSpace match t with
  | ToModule x | ToDependencies x | ToUsages x | ToReport x | ToRequest x | ToService x | ToEnvironment x => [x]
  | ToVersion m v | ToArtifact m v => [m; v]
  | _ => []
  end.
Definition addressable (t : target) : Prop := Forall safe_elem (target_names t).

(** The values of the query of a target. *)
Definition target_query (t : target) : list (string * string) :=
  match t with
  | ToReportsOf m => [("module", m)]
  | ToServicesIn e => [("environment", e)]
  | _ => []
  end.

(** A configured path that no browser rewrites. *)
Definition plain_path (path : string) (segs : list string) : Prop :=
  segs <> [] /\ Forall safe_elem segs /\ map PathEscape segs = segs /\ path = "/" +:+ strings_Join "/" segs.

Create HintDb links.

Section Links.
Context `{PG : !Postgres} `{ENV : !Env} `{URL : !NetURL} `{UC : !Unicode}.
Variable server : Server.
Let basePath : string := web_basePath server.

(** The page of a target: its handler and the values of its wildcards. *)
Definition target_page (t : target) : option (WebHandler * list (string * string)) :=
  match t with
  | ToModules => Some (modules server, [])
  | ToReports | ToReportsOf _ => Some (breakingReports server, [])
  | ToServices | ToServicesIn _ => Some (runtimeServices server, [])
  | ToAbout => Some (about server, [])
  | ToModule m => Some (moduleDetail server, [("module", TrimSpace m)])
  | ToDependencies m => Some (moduleDependencies server, [("module", TrimSpace m)])
  | ToUsages m => Some (moduleRuntimeUsages server, [("module", TrimSpace m)])
  | ToVersion m v => Some (versionDetail server, [("module", TrimSpace m); ("version", TrimSpace v)])
  | ToReport r => Some (breakingReportDetail server, [("report_id", TrimSpace r)])
  | ToRequest r => Some (approvalRequestDetail server, [("request_id", TrimSpace r)])
  | ToService s => Some (runtimeServiceDetail server, [("service", TrimSpace s)])
  | ToEnvironment e => Some (runtimeEnvironment server, [("environment", TrimSpace e)])
  | ToArtifact _ _ => None
  end.

(** A link opens its target: its path is that of the page, or of the download in
    the API, with the names as the values of the wildcards. *)
Definition opens (link : string) (t : target) : Prop :=
  exists path, url_of_link link = Some (path, target_query t)
    /\ match t with
       | ToArtifact m v =>
           match_pattern (api_module [Lit "versions"; Wild "version"; Lit "artifact"]) path
           = Some [("module", TrimSpace m); ("version", TrimSpace v)]
       | _ => page_of server path = target_page t
       end.

(** *** The links of each view, beside what they are for *)

Definition link : Type := string * target.
Definition report_links (row : reportRow) : list link :=
  ((rrow_ReportURL row, ToReport (rrow_ID row))
   :: (if (rrow_ModuleURL row =? "")%string then [] else [(rrow_ModuleURL row, ToModule (rrow_Module row))])
   ++ (if (rrow_BaseVersionURL row =? "")%string then []
       else [(rrow_BaseVersionURL row, ToVersion (rrow_Module row) (rrow_BaseVersion row))]))%list.
Definition module_links (row : moduleRow) : list link :=
  ([(mrow_ModuleURL row, ToModule (mrow_Name row)); (mrow_FilteredReportsURL row, ToReportsOf (mrow_Name row))]
   ++ (if mrow_HasLatestVersion row then [(mrow_LatestVersionURL row, ToVersion (mrow_Name row) (mrow_LatestVersion row))]
       else []))%list.
Definition module_view_links (view : moduleDetailView) : list link :=
  ([(mdv_DependencyGraphURL view, ToDependencies (mdv_Name view)); (mdv_RuntimeUsagesURL view, ToUsages (mdv_Name view));
    (mdv_FilteredReportsURL view, ToReportsOf (mdv_Name view))]
   ++ map (fun row => (vrow_VersionURL row, ToVersion (mdv_Name view) (vrow_Version row))) (mdv_Versions view)
   ++ flat_map report_links (mdv_RecentReports view))%list.
Definition dependency_links (row : dependencyModuleRow) : list link := [(deprow_ModuleURL row, ToModule (deprow_Module row))].
Definition dependency_view_links (view : moduleDependencyView) : list link :=
  ((depv_ModuleURL view, ToModule (depv_ModuleName view))
   :: flat_map dependency_links (depv_Downstream view) ++ flat_map dependency_links (depv_Upstream view))%list.
Definition artifact_links (module version : string) (row : artifactRow) : list link :=
  if arow_HasDownloadURL row then [(arow_DownloadURL row, ToArtifact module version)] else [].
Definition version_view_links (view : versionDetailView) : list link :=
  ([(vdv_ModulesURL view, ToModules); (vdv_ModuleURL view, ToModule (vdv_ModuleName view))]
   ++ flat_map (artifact_links (vdv_ModuleName view) (vdv_Version view)) (vdv_Artifacts view)
   ++ flat_map report_links (vdv_RelatedReports view))%list.
Definition impact_links (row : runtimeImpactRow) : list link :=
  [(irow_ServiceURL row, ToService (irow_ServiceName row)); (irow_EnvironmentURL row, ToEnvironment (irow_Environment row))].
Definition requirement_links (row : approvalRequirementRow) : list link :=
  if (reqrow_TargetModuleName row =? "")%string then []
  else [(reqrow_TargetModuleURL row, ToModule (reqrow_TargetModuleName row))].
Definition approval_links (view : approvalRequestView) : list link :=
  ([(aprv_RequestURL view, ToRequest (aprv_ID view)); (aprv_ModuleURL view, ToModule (aprv_Module view))]
   ++ (if (aprv_BreakingReportURL view =? "")%string then []
       else [(aprv_BreakingReportURL view, ToReport (aprv_BreakingReportID view))])
   ++ flat_map requirement_links (aprv_Requirements view))%list.
Definition report_view_links (view : breakingReportDetailView) : list link :=
  ([(brv_ReportsURL view, ToReports)]
   ++ (if (brv_ModuleURL view =? "")%string then [] else [(brv_ModuleURL view, ToModule (brv_Module view))])
   ++ (if (brv_BaseVersionURL view =? "")%string then []
       else [(brv_BaseVersionURL view, ToVersion (brv_Module view) (brv_BaseVersion view))])
   ++ flat_map dependency_links (brv_AffectedModules view) ++ flat_map impact_links (brv_RuntimeImpact view)
   ++ default [] (approval_links <$> brv_Approval view))%list.
Definition service_links (row : runtimeServiceRow) : list link :=
  ((srow_ServiceURL row, ToService (srow_ServiceName row))
   :: map (fun l => (elink_URL l, ToEnvironment (elink_Name l))) (srow_EnvironmentURLs row))%list.
Definition usage_links (row : runtimeUsageRow) : list link := [(urow_ModuleURL row, ToModule (urow_Module row))].
Definition deployment_links (view : runtimeDeploymentView) : list link :=
  ([(dplv_ServiceURL view, ToService (dplv_ServiceName view));
    (dplv_EnvironmentURL view, ToEnvironment (dplv_Environment view))] ++ flat_map usage_links (dplv_Usages view))%list.
Definition service_view_links (view : runtimeServiceDetailView) : list link :=
  ((sdv_ServicesURL view, ToServices) :: flat_map deployment_links (sdv_Deployments view))%list.
Definition environment_view_links (view : runtimeEnvironmentView) : list link :=
  ((envv_ServicesURL view, ToServicesIn (envv_Environment view)) :: flat_map deployment_links (envv_Deployments view))%list.
Definition usages_view_links (view : moduleRuntimeUsagesView) : list link :=
  ((muv_ModuleURL view, ToModule (muv_Module view))
   :: flat_map (fun row => [(murow_ServiceURL row, ToService (murow_ServiceName row));
                            (murow_EnvironmentURL row, ToEnvironment (murow_Environment row))]) (muv_Usages view))%list.

(** The links of a page: those of its frame, and those of its views. *)
Definition page_links (d : pageData) : list link :=
  ([(pd_BasePath d +:+ "/modules", ToModules); (pd_BasePath d +:+ "/runtime/services", ToServices);
    (pd_BasePath d +:+ "/breaking-reports", ToReports); (pd_BasePath d +:+ "/about", ToAbout)]
   ++ flat_map module_links (pd_Modules d) ++ flat_map report_links (pd_Reports d)
   ++ flat_map service_links (pd_RuntimeServices d)
   ++ default [] (module_view_links <$> pd_ModuleView d) ++ default [] (dependency_view_links <$> pd_DependencyView d)
   ++ default [] (version_view_links <$> pd_VersionView d) ++ default [] (report_view_links <$> pd_ReportView d)
   ++ default [] ((fun view => approval_links (apdv_Request view)) <$> pd_ApprovalRequestView d)
   ++ default [] (service_view_links <$> pd_RuntimeServiceView d)
   ++ default [] (environment_view_links <$> pd_RuntimeEnvironmentView d)
   ++ default [] (usages_view_links <$> pd_ModuleRuntimeView d))%list.

Definition led (l : link) : Prop := addressable l.2 -> opens l.1 l.2.
Definition all_led (l : list link) : Prop := Forall led l.

(** *** Where the links lead *)

Variable base : list string.
Hypothesis Hbase : plain_path basePath base.

Lemma path_literals_base : path_literals basePath = map Lit base.
Proof.
  destruct Hbase as (Hne & Hs & He & ->). unfold path_literals.
  assert (E : "/" +:+ strings_Join "/" base = link_to base) by (unfold link_to; by rewrite He).
  rewrite E, split_link by done. cbn [drop]. by rewrite He.
Qed.
Lemma match_literals l pat rest : match_pattern (map Lit l ++ pat) (l ++ rest)%list = match_pattern pat rest.
Proof. induction l as [|x l IH]; [done|]. cbn. by rewrite String.eqb_refl. Qed.
Lemma match_ui pat rest : match_pattern (ui server pat) (base ++ rest)%list = match_pattern pat rest.
Proof. unfold ui. fold basePath. rewrite path_literals_base. apply match_literals. Qed.

Lemma join_app l1 l2 : l1 <> [] -> l2 <> [] -> strings_Join "/" (l1 ++ l2) = strings_Join "/" l1 +:+ "/" +:+ strings_Join "/" l2.
Proof.
  intros H1 H2. induction l1 as [|x l1 IH]; [done|]. destruct l1 as [|y l1].
  - destruct l2 as [|z l2]; [done|]. reflexivity.
  - change (strings_Join "/" ((x :: y :: l1) ++ l2)) with (x +:+ "/" +:+ strings_Join "/" ((y :: l1) ++ l2)).
    change (strings_Join "/" (x :: y :: l1)) with (x +:+ "/" +:+ strings_Join "/" (y :: l1)).
    rewrite IH by done. by rewrite !string_app_assoc.
Qed.
Lemma base_link rest : rest <> [] -> basePath +:+ "/" +:+ strings_Join "/" (map PathEscape rest) = link_to (base ++ rest).
Proof.
  intros Hne. destruct Hbase as (Hne' & _ & He & ->). unfold link_to. rewrite map_app, He, join_app.
  - by rewrite !string_app_assoc.
  - done.
  - by destruct rest.
Qed.

Lemma base_safe rest : Forall safe_elem rest -> Forall safe_elem (base ++ rest).
Proof. intros H. apply Forall_app. split; [apply Hbase|done]. Qed.

(** A link below the base path is parsed to its names. *)
Lemma url_base rest :
  rest <> [] -> Forall safe_elem rest ->
  url_of_link (basePath +:+ "/" +:+ strings_Join "/" (map PathEscape rest)) = Some ((base ++ rest)%list, []).
Proof.
  intros Hne Hs. rewrite base_link by done. apply url_path; [|by apply base_safe]. destruct rest; [done|]. by destruct base.
Qed.
Lemma url_base_query rest key value :
  rest <> [] -> Forall safe_elem rest -> forallb_string unreserved key = true -> key <> "" ->
  url_of_link ((basePath +:+ "/" +:+ strings_Join "/" (map PathEscape rest)) +:+ "?" +:+ key +:+ "=" +:+ QueryEscape value)
  = Some ((base ++ rest)%list, [(key, value)]).
Proof.
  intros Hne Hs Hk Hk'. rewrite base_link by done. apply url_query; [|by apply base_safe|done|done].
  destruct rest; [done|]. by destruct base.
Qed.

(** The page of the names below the base path. *)
Ltac page_found :=
  unfold page_of, web_routes; cbn [find_page]; rewrite !match_ui;
  repeat match goal with
  | H : safe_elem ?x |- _ =>
      let a := fresh "a" in let s := fresh "s" in
      generalize dependent x; intros [|a s] H; [by destruct H|clear H]
  end; reflexivity.

Lemma opens_base t rest link :
  rest <> [] -> (addressable t -> Forall safe_elem rest) -> target_query t = [] ->
  link = basePath +:+ "/" +:+ strings_Join "/" (map PathEscape rest) ->
  (forall m v, t <> ToArtifact m v) -> (addressable t -> page_of server (base ++ rest) = target_page t) -> led (link, t).
Proof.
  intros Hne Hs Hq -> Ht Hp Ha. cbn [fst snd] in *. exists (base ++ rest)%list. rewrite Hq. split; [apply url_base; auto|].
  destruct t; try (by apply Hp). by destruct (Ht module version).
Qed.
Lemma opens_base_query t rest link key value :
  rest <> [] -> Forall safe_elem rest -> target_query t = [(key, value)] ->
  link = (basePath +:+ "/" +:+ strings_Join "/" (map PathEscape rest)) +:+ "?" +:+ key +:+ "=" +:+ QueryEscape value ->
  forallb_string unreserved key = true -> key <> "" ->
  (forall m v, t <> ToArtifact m v) -> page_of server (base ++ rest) = target_page t -> led (link, t).
Proof.
  intros Hne Hs Hq -> Hk Hk' Ht Hp Ha. cbn [fst snd] in *. exists (base ++ rest)%list. rewrite Hq. split; [by apply url_base_query|].
  destruct t; try exact Hp. by destruct (Ht module version).
Qed.

Lemma addressable_one t x : target_names t = [x] -> addressable t -> safe_elem x.
Proof. unfold addressable. intros ->. by rewrite Forall_singleton. Qed.
Lemma safe_lit s : safe_elemb s = true -> safe_elem s.
Proof. apply safe_elemb_spec. Qed.


Lemma addressable_two t x y : target_names t = [x; y] -> addressable t -> safe_elem x /\ safe_elem y.
Proof. unfold addressable. intros ->. rewrite !Forall_cons. tauto. Qed.

(** A link below the base path whose names are those of its target. *)
Ltac safe_path := repeat first [apply Forall_nil_2|apply Forall_cons_2; [first [assumption|by apply safe_lit]|]].
Ltac same_link :=
  first [reflexivity|unfold version_url, module_url, reports_url, pathEscape; cbn [map strings_Join]; by rewrite ?string_app_assoc].
Ltac led_page rest names :=
  apply (opens_base _ rest);
  [done|let H := fresh "Ha" in intros H; names H; safe_path|done|same_link|done
  |let H := fresh "Ha" in intros H; names H; cbn [target_page]; page_found].
Ltac led_one rest x := led_page rest ltac:(fun H => apply (addressable_one _ x) in H; [|done]).
Ltac led_two rest x y :=
  led_page rest ltac:(fun H => apply (addressable_two _ x y) in H; [|done]; destruct H as [? ?]).
Ltac led_words rest := led_page rest ltac:(fun H => clear H).

Lemma led_module m : led (module_url basePath m, ToModule m).
Proof. led_one ["modules"; TrimSpace m] (TrimSpace m). Qed.
Lemma led_dependencies m : led (module_url basePath m +:+ "/dependencies", ToDependencies m).
Proof. led_one ["modules"; TrimSpace m; "dependencies"] (TrimSpace m). Qed.
Lemma led_usages m : led (module_url basePath m +:+ "/runtime-usages", ToUsages m).
Proof. led_one ["modules"; TrimSpace m; "runtime-usages"] (TrimSpace m). Qed.
Lemma led_version m v : led (version_url basePath m v, ToVersion m v).
Proof. led_two ["modules"; TrimSpace m; "versions"; TrimSpace v] (TrimSpace m) (TrimSpace v). Qed.
Lemma led_report r : led (report_url basePath r, ToReport r).
Proof. led_one ["breaking-reports"; TrimSpace r] (TrimSpace r). Qed.
Lemma led_request r : led (request_url basePath r, ToRequest r).
Proof. led_one ["approval-requests"; TrimSpace r] (TrimSpace r). Qed.
Lemma led_service s : led (service_url basePath s, ToService s).
Proof. led_one ["runtime"; "services"; TrimSpace s] (TrimSpace s). Qed.
Lemma led_environment e : led (environment_url basePath e, ToEnvironment e).
Proof. led_one ["runtime"; "environments"; TrimSpace e] (TrimSpace e). Qed.
Lemma led_modules : led (basePath +:+ "/modules", ToModules).
Proof. led_words ["modules"]. Qed.
Lemma led_services : led (basePath +:+ "/runtime/services", ToServices).
Proof. led_words ["runtime"; "services"]. Qed.
Lemma led_reports : led (basePath +:+ "/breaking-reports", ToReports).
Proof. led_words ["breaking-reports"]. Qed.
Lemma led_about : led (basePath +:+ "/about", ToAbout).
Proof. led_words ["about"]. Qed.
Lemma led_reports_of m : led (reports_url basePath m, ToReportsOf m).
Proof.
  apply (opens_base_query _ ["breaking-reports"] _ "module" m); [done|safe_path|done|same_link|done|done|done|].
  cbn [target_page]. page_found.
Qed.
Lemma led_services_in e : led (basePath +:+ "/runtime/services?environment=" +:+ QueryEscape e, ToServicesIn e).
Proof.
  apply (opens_base_query _ ["runtime"; "services"] _ "environment" e); [done|safe_path|done|same_link|done|done|done|].
  cbn [target_page]. page_found.
Qed.
Lemma led_artifact m v :
  led ("/api/v1/modules/" +:+ pathEscape m +:+ "/versions/" +:+ pathEscape v +:+ "/artifact", ToArtifact m v).
Proof.
  intros Ha%(addressable_two _ (TrimSpace m) (TrimSpace v)); [|done]. destruct Ha as [Hm Hv].
  exists ["api"; "v1"; "modules"; TrimSpace m; "versions"; TrimSpace v; "artifact"].
  split; [|cbn [snd]; clear -Hm Hv].
  - cbn [fst snd target_query].
    rewrite <- (url_path ["api"; "v1"; "modules"; TrimSpace m; "versions"; TrimSpace v; "artifact"]); [reflexivity|done|safe_path].
  - destruct (TrimSpace m) as [|a s]; [by destruct Hm|]. destruct (TrimSpace v) as [|b t]; [by destruct Hv|]. reflexivity.
Qed.

(** *** Every link of every view *)

Lemma all_led_nil : all_led [].
Proof. apply Forall_nil_2. Qed.
Lemma all_led_cons url t l : led (url, t) -> all_led l -> all_led ((url, t) :: l).
Proof. apply Forall_cons_2. Qed.
Lemma all_led_app l1 l2 : all_led l1 -> all_led l2 -> all_led (l1 ++ l2).
Proof. intros. by apply Forall_app. Qed.
Lemma all_led_if (b : bool) l1 l2 : (b = true -> all_led l1) -> (b = false -> all_led l2) -> all_led (if b then l1 else l2).
Proof. destruct b; auto. Qed.
Lemma all_led_views {A B} (view : A -> B) (links : B -> list link) l :
  (forall a, all_led (links (view a))) -> all_led (flat_map links (map view l)).
Proof. intros H. induction l; cbn; [apply all_led_nil|by apply all_led_app]. Qed.
Lemma all_led_views_in {A B} (view : A -> B) (links : B -> link) l :
  (forall a, led (links (view a))) -> all_led (map links (map view l)).
Proof. intros H. induction l; cbn; [apply all_led_nil|]. apply Forall_cons_2; [apply H|done]. Qed.
Lemma all_led_option {A B} (view : A -> B) (links : B -> list link) o :
  (forall a, all_led (links (view a))) -> all_led (default [] (links <$> (view <$> o))).
Proof. intros H. destruct o; [apply H|apply all_led_nil]. Qed.

#[local] Hint Resolve all_led_nil all_led_cons all_led_app all_led_if led_module led_dependencies led_usages led_version
  led_report led_request led_service led_environment led_modules led_services led_reports led_about led_reports_of
  led_services_in led_artifact : links.

Lemma report_row_led r : all_led (report_links (Server_reportRow basePath r)).
Proof.
  unfold report_links, Server_reportRow. cbn [rrow_ReportURL rrow_ID rrow_ModuleURL rrow_Module rrow_BaseVersionURL rrow_BaseVersion].
  destruct (blank (br_Module r)), (blank (br_BaseVersion r)); cbn [negb andb]; auto 10 with links.
Qed.
Lemma module_row_led m : all_led (module_links (Server_moduleRow basePath m)).
Proof.
  unfold module_links. apply all_led_app; [cbn; auto with links|]. cbn. destruct (mo_LatestVersion m); cbn; auto with links.
Qed.
#[local] Hint Resolve report_row_led module_row_led all_led_views : links.

Lemma version_row_url name v :
  vrow_VersionURL (Server_versionRow basePath name v) = version_url basePath name (vs_Version v)
  /\ vrow_Version (Server_versionRow basePath name v) = vs_Version v.
Proof. unfold Server_versionRow. by destruct (row_digests (vs_Artifacts v)). Qed.
Lemma module_view_led m : all_led (module_view_links (Server_moduleDetailView basePath m)).
Proof.
  unfold module_view_links. cbn [Server_moduleDetailView mdv_DependencyGraphURL mdv_Name mdv_RuntimeUsagesURL mdv_FilteredReportsURL
    mdv_Versions mdv_RecentReports]. apply all_led_app; [auto with links|]. apply all_led_app; [|auto with links].
  apply all_led_views_in. intros v. destruct (version_row_url (mi_Name (mo_Module m)) v) as [-> ->]. apply led_version.
Qed.
Lemma dependency_row_led d : all_led (dependency_links (Server_dependencyModuleRow basePath d)).
Proof. unfold dependency_links. cbn [Server_dependencyModuleRow deprow_ModuleURL deprow_Module]. auto with links. Qed.
#[local] Hint Resolve dependency_row_led : links.
Lemma dependency_view_led g : all_led (dependency_view_links (Server_moduleDependencyView basePath g)).
Proof.
  unfold dependency_view_links. cbn [Server_moduleDependencyView depv_ModuleURL depv_ModuleName depv_Downstream depv_Upstream].
  auto with links.
Qed.
Lemma version_view_led v : all_led (version_view_links (Server_versionDetailView basePath v)).
Proof.
  unfold version_view_links. cbn [Server_versionDetailView vdv_ModulesURL vdv_ModuleURL vdv_ModuleName vdv_Artifacts vdv_Version vdv_RelatedReports].
  repeat apply all_led_app; [auto with links| |auto with links]. apply all_led_views. intros a.
  unfold artifact_links. cbn [Server_artifactRow arow_HasDownloadURL arow_DownloadURL].
  destruct (as_Kind a =? "source_archive")%string; auto with links.
Qed.
Lemma impact_row_led i : all_led (impact_links (Server_runtimeImpactRow basePath i)).
Proof.
  unfold impact_links. cbn [Server_runtimeImpactRow irow_ServiceURL irow_ServiceName irow_EnvironmentURL irow_Environment].
  auto with links.
Qed.
#[local] Hint Resolve impact_row_led : links.
Lemma approval_view_led a : all_led (approval_links (Server_approvalRequestView basePath a)).
Proof.
  unfold approval_links. cbn [Server_approvalRequestView aprv_RequestURL aprv_ID aprv_ModuleURL aprv_Module
    aprv_BreakingReportURL aprv_BreakingReportID aprv_Requirements]. repeat apply all_led_app; [auto with links| |].
  - destruct (blank (ar_BreakingReportID a)); cbn; auto with links.
  - apply all_led_views. intros q. unfold requirement_links.
    cbn [reqrow_TargetModuleName reqrow_TargetModuleURL]. auto with links.
Qed.
#[local] Hint Resolve approval_view_led : links.
Lemma report_view_led d : all_led (report_view_links (Server_breakingReportDetailView basePath d)).
Proof.
  unfold report_view_links. cbn [Server_breakingReportDetailView brv_ReportsURL brv_ModuleURL brv_Module brv_BaseVersionURL
    brv_BaseVersion brv_AffectedModules brv_RuntimeImpact brv_Approval].
  pose proof (report_row_led (bd_Report d)) as H. unfold report_links in H. inversion H as [|? ? _ H']; subst.
  apply Forall_app in H' as [H1 H2]. repeat apply all_led_app; auto with links.
  apply all_led_option. apply approval_view_led.
Qed.
Lemma service_row_led s : all_led (service_links (Server_runtimeServiceRow basePath s)).
Proof.
  unfold service_links. cbn [Server_runtimeServiceRow srow_ServiceURL srow_ServiceName srow_EnvironmentURLs].
  apply all_led_cons; [apply led_service|]. apply all_led_views_in. intros e. apply led_environment.
Qed.
Lemma deployment_led ds us : all_led (flat_map deployment_links (Server_runtimeDeploymentViews basePath ds us)).
Proof.
  apply all_led_views. intros d. unfold deployment_links. cbn [dplv_ServiceURL dplv_ServiceName dplv_EnvironmentURL dplv_Environment dplv_Usages].
  apply all_led_app; [auto with links|]. apply all_led_views. intros u.
  unfold usage_links. cbn [Server_runtimeUsageRow urow_ModuleURL urow_Module]. auto with links.
Qed.
#[local] Hint Resolve service_row_led deployment_led : links.
Lemma service_view_led s : all_led (service_view_links (Server_runtimeServiceDetailView basePath s)).
Proof. unfold service_view_links. cbn [Server_runtimeServiceDetailView sdv_ServicesURL sdv_Deployments]. auto with links. Qed.
Lemma environment_view_led e : all_led (environment_view_links (Server_runtimeEnvironmentView basePath e)).
Proof.
  unfold environment_view_links. cbn [Server_runtimeEnvironmentView envv_ServicesURL envv_Environment envv_Deployments]. auto with links.
Qed.
Lemma usages_view_led u : all_led (usages_view_links (Server_moduleRuntimeUsagesView basePath u)).
Proof.
  unfold usages_view_links. cbn [Server_moduleRuntimeUsagesView muv_ModuleURL muv_Module muv_Usages].
  apply all_led_cons; [apply led_module|]. apply all_led_views. intros x.
  cbn [murow_ServiceURL murow_ServiceName murow_EnvironmentURL murow_Environment]. auto with links.
Qed.
#[local] Hint Resolve module_view_led dependency_view_led version_view_led report_view_led service_view_led
  environment_view_led usages_view_led : links.

(** *** Every page *)

Definition linked (answer : WebResponse) : Prop :=
  match answer with Rendered _ _ d => all_led (page_links d) | _ => True end.

(** The links of a page are those of its fields. *)
Lemma render_linked status name d :
  all_led (flat_map module_links (pd_Modules d)) -> all_led (flat_map report_links (pd_Reports d)) ->
  all_led (flat_map service_links (pd_RuntimeServices d)) ->
  all_led (default [] (module_view_links <$> pd_ModuleView d)) ->
  all_led (default [] (dependency_view_links <$> pd_DependencyView d)) ->
  all_led (default [] (version_view_links <$> pd_VersionView d)) ->
  all_led (default [] (report_view_links <$> pd_ReportView d)) ->
  all_led (default [] ((fun view => approval_links (apdv_Request view)) <$> pd_ApprovalRequestView d)) ->
  all_led (default [] (service_view_links <$> pd_RuntimeServiceView d)) ->
  all_led (default [] (environment_view_links <$> pd_RuntimeEnvironmentView d)) ->
  all_led (default [] (usages_view_links <$> pd_ModuleRuntimeView d)) ->
  linked (render server status name d).
Proof.
  intros. unfold linked, render, page_links. fold basePath. apply all_led_app; [|repeat apply all_led_app; assumption].
  cbn [set_BasePath pd_BasePath]. auto with links.
Qed.

Lemma error_linked status message : linked (RenderError server status message).
Proof.
  unfold RenderError. destruct (status =? StatusNotFound); [destruct (blank message)|]; apply render_linked; exact all_led_nil.
Qed.
Lemma shows_linked {A} query missing message (k : A -> WebResponse) w :
  (forall a, linked (k a)) -> linked (shows server query missing message k w).1.
Proof.
  intros Hk. unfold shows. destruct (web_query server) as [svc|]; [|apply error_linked].
  destruct (query svc w) as [[a|err] w']; [apply Hk|]. cbn [fst]. destruct (existsb (errors_Is err) missing); apply error_linked.
Qed.

Definition linked_page (h : WebHandler) : Prop := forall values r w, linked (h values r w).1.
(** A page whose views are linked. *)
Ltac linked_by H :=
  intros ? ? w; apply shows_linked; intros a; cbv zeta; repeat case_match; apply render_linked;
  first [exact all_led_nil|exact (H a)|exact (all_led_views _ _ a H)].

Lemma modules_linked : linked_page (modules server).
Proof. linked_by module_row_led. Qed.
Lemma moduleDetail_linked : linked_page (moduleDetail server).
Proof. linked_by module_view_led. Qed.
Lemma moduleDependencies_linked : linked_page (moduleDependencies server).
Proof. linked_by dependency_view_led. Qed.
Lemma versionDetail_linked : linked_page (versionDetail server).
Proof. linked_by version_view_led. Qed.
Lemma breakingReports_linked : linked_page (breakingReports server).
Proof. linked_by report_row_led. Qed.
Lemma breakingReportDetail_linked : linked_page (breakingReportDetail server).
Proof. linked_by report_view_led. Qed.
Lemma approvalRequestDetail_linked : linked_page (approvalRequestDetail server).
Proof. linked_by (fun a => approval_view_led (ard_Request a)). Qed.
Lemma runtimeServices_linked : linked_page (runtimeServices server).
Proof. linked_by service_row_led. Qed.
Lemma runtimeServiceDetail_linked : linked_page (runtimeServiceDetail server).
Proof. linked_by service_view_led. Qed.
Lemma runtimeEnvironment_linked : linked_page (runtimeEnvironment server).
Proof. linked_by environment_view_led. Qed.
Lemma moduleRuntimeUsages_linked : linked_page (moduleRuntimeUsages server).
Proof. linked_by usages_view_led. Qed.
Lemma about_linked : linked_page (about server).
Proof. linked_by service_row_led. Qed.

Lemma web_routes_linked : Forall (fun route => linked_page route.2) (web_routes server).
Proof.
  unfold web_routes. repeat apply Forall_cons_2;
    eauto using modules_linked, moduleDetail_linked, moduleDependencies_linked, versionDetail_linked, breakingReports_linked,
      breakingReportDetail_linked, approvalRequestDetail_linked, runtimeServices_linked, runtimeServiceDetail_linked,
      runtimeEnvironment_linked, moduleRuntimeUsages_linked, about_linked;
    by first [apply Forall_nil_2|intros ? ? ?].
Qed.

Lemma find_page_in rs path h values : find_page rs path = Some (h, values) -> exists p, In (p, h) rs.
Proof.
  induction rs as [|[p h'] rs IH]; [done|]. cbn. destruct (match_pattern p path).
  - intros [= <- <-]. exists p. by left.
  - intros (p' & Hp)%IH. exists p'. by right.
Qed.
Lemma page_of_linked path h values : page_of server path = Some (h, values) -> linked_page h.
Proof.
  unfold page_of. destruct (find_page (web_routes server) path) as [[h' values']|] eqn:E.
  - intros [= <- <-]. apply find_page_in in E as [p Hp%list_elem_of_In].
    pose proof web_routes_linked as H. rewrite Forall_forall in H. exact (H _ Hp).
  - destruct (below_base (ui server []) path); [|done]. intros [= <- <-] ? ? ?. apply error_linked.
Qed.

Lemma served_linked r w : linked (Handler_ServeHTTP server r w).1.
Proof.
  unfold Handler_ServeHTTP. destruct (page_of server (http_Path r)) as [[h values]|] eqn:E; [|done].
  destruct (method_matches "GET" (http_Method r)); [|done]. exact (page_of_linked _ _ _ E values r w).
Qed.
End Links.

(** C36: every internal link of every page leads where it says, for the names that a
    path can hold. The configured base path must be one that browsers leave as it is
    ([plain_path]: it is not the root, and none of its elements is empty, made of dots
    or written with an escape), and the names in the link neither empty nor [.] or
    [..] ([addressable]; a version may have such a name). Then each link of a page
    that the server answers, of its navigation and of every row and view, is read back
    as the path and the query of the page it is for: the routes send it to the handler
    of that page, with the very name (white space around it trimmed) as the value of
    the wildcard, whatever other bytes it holds; the link to an artifact is the route
    of the download in the API. Links to other sites, the repository and the GitLab
    project of a module, are not among them. *)
Theorem links_lead_to_pages `{PG : !Postgres} `{ENV : !Env} `{URL : !NetURL} `{UC : !Unicode}
    (server : Server) (base : list string) (r : HttpRequest) (w w' : World) (status : Z) (name : string) (d : pageData)
    (Hbase : plain_path (web_basePath server) base)
    (Hserved : Handler_ServeHTTP server r w = (Rendered status name d, w')) :
  Forall (fun l => addressable l.2 -> opens server l.1 l.2) (page_links d).
Proof. pose proof (served_linked server base Hbase r w) as H. rewrite Hserved in H. exact H. Qed.

(** ** Examples *)

Module LinkExamples.
#[local] Existing Instance RegistryExamples.pg.
#[local] Existing Instance RegistryExamples.crypto.
#[local] Existing Instance RegistryExamples.calm_os.
#[local] Existing Instance RegistryExamples.store.
#[local] Existing Instance RegistryExamples.host.
#[local] Existing Instance RegistryExamples.calm_env.
#[local] Existing Instance RegistryExamples.calm_faults.
#[local] Existing Instance example_unicode.
#[local] Instance no_url : NetURL := {| url_Parse := fun _ => None |}.

Definition server : Server := NewServer (mkWebOptions " /ui/ " "" (Some UiExamples.queries)).
(** A version whose name no path holds as it is. *)
Definition published : World :=
  rg_world (serve_all RegistryExamples.service
    [RCreate RegistryExamples.create_users; RPublish (RegistryExamples.publish_users "v1/rc 1%")] RegistryExamples.registry0).
Definition get (path : list string) : HttpRequest := mkHttpRequest "GET" path [] true "" "" "" "" 0 "".
Definition module_page : WebResponse * World := Handler_ServeHTTP server (get ["ui"; "modules"; "users"]) published.
Definition module_page_data : pageData := if module_page.1 is Rendered _ _ d then d else pageData_zero.
Definition version_link : link := ("/ui/modules/users/versions/v1%2Frc%201%25", ToVersion "users" "v1/rc 1%").


Example module_page_links :
  page_links module_page_data
  = [("/ui/modules", ToModules); ("/ui/runtime/services", ToServices); ("/ui/breaking-reports", ToReports);
     ("/ui/about", ToAbout); ("/ui/modules/users/dependencies", ToDependencies "users");
     ("/ui/modules/users/runtime-usages", ToUsages "users"); ("/ui/breaking-reports?module=users", ToReportsOf "users");
     version_link].
Proof. vm_compute. reflexivity. Qed.

Lemma ui_plain : plain_path (web_basePath server) ["ui"].
Proof. split; [done|]. split; [|done]. apply Forall_cons_2; [|apply Forall_nil_2]. by apply safe_elemb_spec. Qed.

Lemma links_lead_to_pages_witness :
  In version_link (page_links module_page_data) /\ opens server version_link.1 version_link.2.
Proof.
  assert (Hin : In version_link (page_links module_page_data)) by (rewrite module_page_links; do 7 right; by left).
  split; [exact Hin|].
  assert (E : Handler_ServeHTTP server (get ["ui"; "modules"; "users"]) published
              = (Rendered StatusOK "module_detail.html" module_page_data, module_page.2)) by (vm_compute; reflexivity).
  pose proof (links_lead_to_pages server ["ui"] _ _ _ _ _ _ ui_plain E) as H. rewrite List.Forall_forall in H.
  apply (H version_link Hin). unfold addressable. cbn [version_link snd target_names].
  repeat first [apply Forall_nil_2|apply Forall_cons_2]; by apply safe_elemb_spec.
Defined.
End LinkExamples.
