(* ===== verification/Config.v ===== *)
(** * The configuration of the server

    [config/config.go], [config/runtime.go], [config/validation.go],
    [config/runtime_mapping.go], [config/helpers.go] and the tables of
    [config/env.go] and [config/strict_keys.go]: the fields, their defaults,
    their validation and the typed configuration that is made of them.

    The reading of a YAML file and of the environment into a [Config] is done by
    a library and is not modelled. A [time.Duration] is a number of nanoseconds. *)

From S2P Require Import Prelude Errors GoStrings Domain Effects.

Open Scope string_scope.
Open Scope Z_scope.

(** ** The fields *)

Definition Duration := Z.
Definition Second : Duration := 1000000000.
Definition Minute : Duration := 60 * Second.

Definition defaultMaxArtifactSizeBytes : Z := 100 * 1024 * 1024.
Definition defaultMaxRequestBodyBytes : Z := 110 * 1024 * 1024.
Definition defaultBufMaxReportBytes : Z := 16 * 1024.
Definition defaultBreakingMaxReportBytes : Z := 32 * 1024.
Definition defaultBreakingMaxChanges : Z := 1000.
Definition defaultOutboxPublisherBatchSize : Z := 50.
Definition defaultOutboxPublisherMaxAttempts : Z := 5.
Definition defaultHTTPMaxHeaderBytes : Z := Z.shiftl 1 20.

Definition BufLintModeDisabled : string := "disabled".
Definition BufLintModeWarn : string := "warn".
Definition BufLintModeEnforce : string := "enforce".
Definition LogLevelDebug : string := "debug".
Definition LogLevelInfo : string := "info".
Definition LogLevelWarn : string := "warn".
Definition LogLevelError : string := "error".
Definition LogFormatJSON : string := "json".
Definition LogFormatText : string := "text".

Record ServerConfig := mkServerConfig {
  server_HTTPAddr : string;
  server_HTTPReadHeaderTimeout : Duration;
  server_HTTPReadTimeout : Duration;
  server_HTTPWriteTimeout : Duration;
  server_HTTPIdleTimeout : Duration;
  server_HTTPMaxHeaderBytes : Z;
  server_MaxRequestBodyBytes : Z }.

Record DatabaseConfig := mkDatabaseConfig { database_URL : string }.

Record S3Config := mkS3Config {
  s3_Endpoint : string;
  s3_Region : string;
  s3_Bucket : string;
  s3_AccessKey : string;
  s3_SecretKey : string;
  s3_UsePathStyle : bool }.
Record StorageConfig := mkStorageConfig { storage_S3 : S3Config }.

Record AuthConfig := mkAuthConfig {
  auth_TokenHashSecret : string;
  auth_BootstrapToken : string }.

Record RegistryConfig := mkRegistryConfig { registry_MaxArtifactSizeBytes : Z }.

Record BufConfig := mkBufSettings {
  bufcfg_BinaryPath : string;
  bufcfg_BuildTimeout : Duration;
  bufcfg_LintTimeout : Duration;
  bufcfg_LintMode : string;
  bufcfg_RequireConfig : bool;
  bufcfg_MaxReportBytes : Z }.

Record BreakingConfig := mkBreakingConfig {
  breaking_MaxReportBytes : Z;
  breaking_MaxChanges : Z;
  breaking_DefaultAgainst : string }.

Record GovernanceConfig := mkGovernanceConfig {
  governance_Enabled : bool;
  governance_ProductionEnvironments : string;
  governance_AllowMaintainerApproval : bool;
  governance_ActorOverrideEnabled : bool }.

Record OutboxPublisherConfig := mkOutboxPublisherConfig {
  outbox_Enabled : bool;
  outbox_BatchSize : Z;
  outbox_PollInterval : Duration;
  outbox_LeaseDuration : Duration;
  outbox_MaxAttempts : Z;
  outbox_InitialRetryBackoff : Duration;
  outbox_MaxRetryBackoff : Duration }.

Record UIConfig := mkUIConfig {
  ui_Enabled : bool;
  ui_BasePath : string;
  ui_StaticPath : string }.

Record LogConfig := mkLogConfig {
  log_Level : string;
  log_Format : string }.

Record Config := mkConfig {
  cfg_Server : ServerConfig;
  cfg_Database : DatabaseConfig;
  cfg_Storage : StorageConfig;
  cfg_Auth : AuthConfig;
  cfg_Registry : RegistryConfig;
  cfg_Buf : BufConfig;
  cfg_Breaking : BreakingConfig;
  cfg_Governance : GovernanceConfig;
  cfg_OutboxPublisher : OutboxPublisherConfig;
  cfg_UI : UIConfig;
  cfg_Log : LogConfig }.

Definition Defaults : Config :=
  mkConfig
    (mkServerConfig ":8080" (5 * Second) (30 * Second) (60 * Second) (120 * Second) defaultHTTPMaxHeaderBytes
       defaultMaxRequestBodyBytes)
    (mkDatabaseConfig "")
    (mkStorageConfig (mkS3Config "" "us-east-1" "" "" "" true))
    (mkAuthConfig "" "")
    (mkRegistryConfig defaultMaxArtifactSizeBytes)
    (mkBufSettings "buf" (30 * Second) (30 * Second) BufLintModeWarn true defaultBufMaxReportBytes)
    (mkBreakingConfig defaultBreakingMaxReportBytes defaultBreakingMaxChanges "latest")
    (mkGovernanceConfig true "production,prod" true false)
    (mkOutboxPublisherConfig false defaultOutboxPublisherBatchSize (5 * Second) (30 * Second)
       defaultOutboxPublisherMaxAttempts (30 * Second) (5 * Minute))
    (mkUIConfig true "/ui" "/ui/static")
    (mkLogConfig LogLevelInfo LogFormatJSON).

(** ** Helpers *)

Definition normalizePath (value : string) : string :=
  let path := TrimRight (TrimSpace value) "/" in
  if (path =? "")%string then "/" else path.

Definition parseStringList (path value : string) : result (list string) :=
  let values := List.filter (fun v => negb (v =? "")%string) (map TrimSpace (split_byte "," value)) in
  if (length values =? 0)%nat then Err (EText (path +:+ " must contain at least one value")) else Ok values.

Definition parsePositiveDuration (path : string) (value : Duration) : result Duration :=
  if value <=? 0 then Err (EText (path +:+ " must be positive")) else Ok value.

(** [if ... { return fmt.Errorf(...) }]. *)
Definition refuse (bad : bool) (message : string) : result unit := if bad then Err (EText message) else Ok tt.
Definition required (path value : string) : result unit :=
  refuse (TrimSpace value =? "")%string (path +:+ " is required").
Definition positive_count (path : string) (value : Z) : result unit :=
  refuse (value <=? 0) (path +:+ " must be positive").

(** ** Validation *)

Definition validateServer (c : Config) : result unit :=
  let s := cfg_Server c in
  let? _ := required "server.http_addr" (server_HTTPAddr s) in
  let? _ := parsePositiveDuration "server.http_read_header_timeout" (server_HTTPReadHeaderTimeout s) in
  let? _ := parsePositiveDuration "server.http_read_timeout" (server_HTTPReadTimeout s) in
  let? _ := parsePositiveDuration "server.http_write_timeout" (server_HTTPWriteTimeout s) in
  let? _ := parsePositiveDuration "server.http_idle_timeout" (server_HTTPIdleTimeout s) in
  let? _ := positive_count "server.http_max_header_bytes" (server_HTTPMaxHeaderBytes s) in
  positive_count "server.max_request_body_bytes" (server_MaxRequestBodyBytes s).

Definition validateDatabase (c : Config) : result unit := required "database.url" (database_URL (cfg_Database c)).

Definition validateStorage (c : Config) : result unit :=
  let s3 := storage_S3 (cfg_Storage c) in
  let? _ := required "storage.s3.endpoint" (s3_Endpoint s3) in
  let? _ := required "storage.s3.bucket" (s3_Bucket s3) in
  let? _ := required "storage.s3.access_key" (s3_AccessKey s3) in
  required "storage.s3.secret_key" (s3_SecretKey s3).

Definition validateAuth (c : Config) : result unit :=
  required "auth.token_hash_secret" (auth_TokenHashSecret (cfg_Auth c)).

Definition validateRegistry (c : Config) : result unit :=
  positive_count "registry.max_artifact_size_bytes" (registry_MaxArtifactSizeBytes (cfg_Registry c)).

Definition one_of (value : string) (values : list string) : bool := existsb (String.eqb value) values.

Definition validateBuf (c : Config) : result unit :=
  let b := cfg_Buf c in
  let? _ := required "buf.binary_path" (bufcfg_BinaryPath b) in
  let? _ := parsePositiveDuration "buf.build_timeout" (bufcfg_BuildTimeout b) in
  let? _ := parsePositiveDuration "buf.lint_timeout" (bufcfg_LintTimeout b) in
  let? _ := refuse (negb (one_of (bufcfg_LintMode b) [BufLintModeDisabled; BufLintModeWarn; BufLintModeEnforce]))
              "buf.lint_mode must be one of disabled, warn, enforce" in
  positive_count "buf.max_report_bytes" (bufcfg_MaxReportBytes b).

Definition validateBreaking (c : Config) : result unit :=
  let b := cfg_Breaking c in
  let? _ := positive_count "breaking.max_report_bytes" (breaking_MaxReportBytes b) in
  let? _ := positive_count "breaking.max_changes" (breaking_MaxChanges b) in
  required "breaking.default_against" (breaking_DefaultAgainst b).

Definition validateGovernance (c : Config) : result unit :=
  if negb (governance_Enabled (cfg_Governance c)) then Ok tt else
  let? _ := parseStringList "governance.production_environments"
              (governance_ProductionEnvironments (cfg_Governance c)) in
  Ok tt.

Definition validateOutboxPublisher (c : Config) : result unit :=
  let o := cfg_OutboxPublisher c in
  let? _ := positive_count "outbox_publisher.batch_size" (outbox_BatchSize o) in
  let? _ := parsePositiveDuration "outbox_publisher.poll_interval" (outbox_PollInterval o) in
  let? _ := parsePositiveDuration "outbox_publisher.lease_duration" (outbox_LeaseDuration o) in
  let? _ := positive_count "outbox_publisher.max_attempts" (outbox_MaxAttempts o) in
  let? initialBackoff := parsePositiveDuration "outbox_publisher.initial_backoff" (outbox_InitialRetryBackoff o) in
  let? maxBackoff := parsePositiveDuration "outbox_publisher.max_backoff" (outbox_MaxRetryBackoff o) in
  refuse (maxBackoff <? initialBackoff)
    "outbox_publisher.initial_backoff must be less than or equal to outbox_publisher.max_backoff".

Definition validateUI (c : Config) : result unit :=
  let basePath := TrimSpace (ui_BasePath (cfg_UI c)) in
  let staticPath := TrimSpace (ui_StaticPath (cfg_UI c)) in
  let? _ := refuse (negb (HasPrefix basePath "/")) "ui.base_path must start with /" in
  let? _ := refuse (negb (HasPrefix staticPath "/")) "ui.static_path must start with /" in
  let? _ := refuse (staticPath =? basePath)%string "ui.static_path must be under ui.base_path" in
  let basePrefix := TrimRight basePath "/" in
  refuse (negb (basePrefix =? "")%string && negb (HasPrefix staticPath (basePrefix +:+ "/")))
    "ui.static_path must be under ui.base_path".

Definition validateLog (c : Config) : result unit :=
  let? _ := refuse (negb (one_of (TrimSpace (log_Level (cfg_Log c))) [LogLevelDebug; LogLevelInfo; LogLevelWarn; LogLevelError]))
              "log.level must be one of debug, info, warn, error" in
  refuse (negb (one_of (TrimSpace (log_Format (cfg_Log c))) [LogFormatJSON; LogFormatText]))
    "log.format must be one of json, text".

Definition Config_Validate (c : Config) : result unit :=
  let? _ := validateServer c in
  let? _ := validateStorage c in
  let? _ := validateAuth c in
  let? _ := validateRegistry c in
  let? _ := validateBuf c in
  let? _ := validateBreaking c in
  let? _ := validateGovernance c in
  let? _ := validateOutboxPublisher c in
  let? _ := validateUI c in
  let? _ := validateLog c in
  validateDatabase c.

(** ** The typed configuration

    The other parts have the fields of the configuration, under a type of their
    own in the code. *)

Record RuntimeGovernanceConfig := mkRuntimeGovernanceConfig {
  rgov_Enabled : bool;
  rgov_ProductionEnvironments : list string;
  rgov_AllowMaintainerApproval : bool;
  rgov_ActorOverrideEnabled : bool }.

Record RuntimeConfig := mkRuntimeConfig {
  rt_Server : ServerConfig;
  rt_Database : DatabaseConfig;
  rt_Storage : StorageConfig;
  rt_Auth : AuthConfig;
  rt_Registry : RegistryConfig;
  rt_Buf : BufConfig;
  rt_Breaking : BreakingConfig;
  rt_Governance : RuntimeGovernanceConfig;
  rt_OutboxPublisher : OutboxPublisherConfig;
  rt_UI : UIConfig;
  rt_Log : LogConfig }.

Definition Runtime (c : Config) : result RuntimeConfig :=
  let? _ := Config_Validate c in
  let g := cfg_Governance c in
  let? productionEnvironments :=
    (if governance_Enabled g || negb (TrimSpace (governance_ProductionEnvironments g) =? "")%string
     then parseStringList "governance.production_environments" (governance_ProductionEnvironments g)
     else Ok []) in
  let b := cfg_Breaking c in
  Ok (mkRuntimeConfig (cfg_Server c) (cfg_Database c) (cfg_Storage c) (cfg_Auth c) (cfg_Registry c) (cfg_Buf c)
        (mkBreakingConfig (breaking_MaxReportBytes b) (breaking_MaxChanges b) (TrimSpace (breaking_DefaultAgainst b)))
        (mkRuntimeGovernanceConfig (governance_Enabled g) productionEnvironments (governance_AllowMaintainerApproval g)
           (governance_ActorOverrideEnabled g))
        (cfg_OutboxPublisher c)
        (mkUIConfig (ui_Enabled (cfg_UI c)) (normalizePath (ui_BasePath (cfg_UI c)))
           (normalizePath (ui_StaticPath (cfg_UI c))))
        (mkLogConfig (TrimSpace (log_Level (cfg_Log c))) (TrimSpace (log_Format (cfg_Log c))))).

(** ** What the typed configuration guarantees *)

(** A list of names as it is parsed: not empty, each name trimmed and not empty,
    and the names of the text in their order. *)
Definition names_of (value : string) (names : list string) : Prop :=
  names <> [] /\ Forall (fun n => n <> "" /\ TrimSpace n = n) names
  /\ names = List.filter (fun v => negb (v =? "")%string) (map TrimSpace (split_byte "," value)).

Lemma parseStringList_Ok path value names : parseStringList path value = Ok names <-> names_of value names.
Proof.
  unfold parseStringList, names_of. set (l := List.filter _ _).
  assert (Forall (fun n => n <> "" /\ TrimSpace n = n) l) as Hl.
  { apply List.Forall_forall. intros n (Hin & Hn)%filter_In. apply in_map_iff in Hin as (x & <- & _).
    split; [|apply TrimSpace_idem]. apply negb_true_iff in Hn. by apply String.eqb_neq. }
  destruct l as [|n l']; cbn; [naive_solver|]. split; [intros [= <-]; done|]. by intros (_ & _ & ->).
Qed.

Definition blank (s : string) : Prop := TrimSpace s = "".

(** What [Validate] asks of each part of the configuration. *)
Definition valid_server (s : ServerConfig) : Prop :=
  ~ blank (server_HTTPAddr s)
  /\ Forall (fun z => 0 < z) [server_HTTPReadHeaderTimeout s; server_HTTPReadTimeout s; server_HTTPWriteTimeout s;
                              server_HTTPIdleTimeout s; server_HTTPMaxHeaderBytes s; server_MaxRequestBodyBytes s].
Definition valid_storage (s : S3Config) : Prop :=
  Forall (fun x => ~ blank x) [s3_Endpoint s; s3_Bucket s; s3_AccessKey s; s3_SecretKey s].
Definition valid_buf (b : BufConfig) : Prop :=
  ~ blank (bufcfg_BinaryPath b)
  /\ Forall (fun z => 0 < z) [bufcfg_BuildTimeout b; bufcfg_LintTimeout b; bufcfg_MaxReportBytes b]
  /\ bufcfg_LintMode b ∈ [BufLintModeDisabled; BufLintModeWarn; BufLintModeEnforce].
Definition valid_breaking (b : BreakingConfig) : Prop :=
  0 < breaking_MaxReportBytes b /\ 0 < breaking_MaxChanges b /\ ~ blank (breaking_DefaultAgainst b).
Definition valid_outbox (o : OutboxPublisherConfig) : Prop :=
  Forall (fun z => 0 < z) [outbox_BatchSize o; outbox_PollInterval o; outbox_LeaseDuration o; outbox_MaxAttempts o;
                           outbox_InitialRetryBackoff o; outbox_MaxRetryBackoff o]
  /\ outbox_InitialRetryBackoff o <= outbox_MaxRetryBackoff o.
Definition valid_paths (base static : string) : Prop :=
  HasPrefix base "/" = true /\ HasPrefix static "/" = true /\ static <> base
  /\ (TrimRight base "/" = "" \/ HasPrefix static (TrimRight base "/" +:+ "/") = true).
Definition valid_log (l : LogConfig) : Prop :=
  TrimSpace (log_Level l) ∈ [LogLevelDebug; LogLevelInfo; LogLevelWarn; LogLevelError]
  /\ TrimSpace (log_Format l) ∈ [LogFormatJSON; LogFormatText].

Record valid (c : Config) : Prop := mkValid {
  va_server : valid_server (cfg_Server c);
  va_database : ~ blank (database_URL (cfg_Database c));
  va_storage : valid_storage (storage_S3 (cfg_Storage c));
  va_auth : ~ blank (auth_TokenHashSecret (cfg_Auth c));
  va_registry : 0 < registry_MaxArtifactSizeBytes (cfg_Registry c);
  va_buf : valid_buf (cfg_Buf c);
  va_breaking : valid_breaking (cfg_Breaking c);
  va_governance : governance_Enabled (cfg_Governance c) = true ->
    exists names, names_of (governance_ProductionEnvironments (cfg_Governance c)) names;
  va_outbox : valid_outbox (cfg_OutboxPublisher c);
  va_ui : valid_paths (TrimSpace (ui_BasePath (cfg_UI c))) (TrimSpace (ui_StaticPath (cfg_UI c)));
  va_log : valid_log (cfg_Log c) }.

(** Each check passes exactly when what it asks holds. *)
Lemma bind_unit (m : result unit) (k : result unit) : result_bind m (fun _ => k) = Ok tt <-> m = Ok tt /\ k = Ok tt.
Proof. destruct m as [[]|e]; cbn; naive_solver. Qed.
Lemma bind_duration path v (k : Duration -> result unit) :
  result_bind (parsePositiveDuration path v) k = Ok tt <-> 0 < v /\ k v = Ok tt.
Proof.
  unfold parsePositiveDuration. destruct (v <=? 0) eqn:E; cbn; [apply Z.leb_le in E|apply Z.leb_gt in E]; [|naive_solver].
  split; [done|lia].
Qed.
Lemma refuse_Ok b message : refuse b message = Ok tt <-> b = false.
Proof. destruct b; cbn; naive_solver. Qed.
Lemma required_Ok path v : required path v = Ok tt <-> ~ blank v.
Proof. unfold required, blank. by rewrite refuse_Ok, String.eqb_neq. Qed.
Lemma positive_count_Ok path v : positive_count path v = Ok tt <-> 0 < v.
Proof. unfold positive_count. by rewrite refuse_Ok, Z.leb_gt. Qed.
Lemma one_of_Ok v l : negb (one_of v l) = false <-> v ∈ l.
Proof.
  rewrite negb_false_iff. unfold one_of. rewrite existsb_exists, list_elem_of_In. setoid_rewrite String.eqb_eq. naive_solver.
Qed.

Ltac checks :=
  rewrite ?bind_unit, ?bind_duration, ?required_Ok, ?positive_count_Ok, ?refuse_Ok, ?one_of_Ok,
    ?Forall_cons, ?Forall_nil, ?Z.ltb_ge.

Lemma validateServer_Ok c : validateServer c = Ok tt <-> valid_server (cfg_Server c).
Proof. unfold validateServer, valid_server. repeat progress checks. tauto. Qed.
Lemma validateStorage_Ok c : validateStorage c = Ok tt <-> valid_storage (storage_S3 (cfg_Storage c)).
Proof. unfold validateStorage, valid_storage. repeat progress checks. tauto. Qed.
Lemma validateBuf_Ok c : validateBuf c = Ok tt <-> valid_buf (cfg_Buf c).
Proof. unfold validateBuf, valid_buf. repeat progress checks. tauto. Qed.
Lemma validateBreaking_Ok c : validateBreaking c = Ok tt <-> valid_breaking (cfg_Breaking c).
Proof. unfold validateBreaking, valid_breaking. repeat progress checks. tauto. Qed.
Lemma validateOutboxPublisher_Ok c : validateOutboxPublisher c = Ok tt <-> valid_outbox (cfg_OutboxPublisher c).
Proof. unfold validateOutboxPublisher, valid_outbox. repeat progress checks. tauto. Qed.
Lemma validateLog_Ok c : validateLog c = Ok tt <-> valid_log (cfg_Log c).
Proof. unfold validateLog, valid_log. by repeat progress checks. Qed.
Lemma validateUI_Ok c :
  validateUI c = Ok tt <-> valid_paths (TrimSpace (ui_BasePath (cfg_UI c))) (TrimSpace (ui_StaticPath (cfg_UI c))).
Proof.
  unfold validateUI, valid_paths. repeat progress checks.
  rewrite !negb_false_iff, andb_false_iff, !negb_false_iff, String.eqb_neq, String.eqb_eq. tauto.
Qed.
Lemma validateGovernance_Ok c :
  validateGovernance c = Ok tt <->
  (governance_Enabled (cfg_Governance c) = true ->
   exists names, names_of (governance_ProductionEnvironments (cfg_Governance c)) names).
Proof.
  unfold validateGovernance. destruct (governance_Enabled _); cbn; [|naive_solver].
  setoid_rewrite <- (parseStringList_Ok "governance.production_environments").
  destruct (parseStringList _ _); cbn; naive_solver.
Qed.

Lemma Validate_Ok c : Config_Validate c = Ok tt <-> valid c.
Proof.
  unfold Config_Validate. rewrite !bind_unit, validateServer_Ok, validateStorage_Ok, validateBuf_Ok, validateBreaking_Ok,
    validateOutboxPublisher_Ok, validateLog_Ok, validateUI_Ok, validateGovernance_Ok.
  unfold validateAuth, validateRegistry, validateDatabase. rewrite !required_Ok, positive_count_Ok.
  split; [intros H; constructor; tauto|]. intros []. tauto.
Qed.

(** ** Paths *)

Lemma TrimRight_app_l b y cutset : TrimRight y cutset <> "" -> TrimRight (b +:+ y) cutset = b +:+ TrimRight y cutset.
Proof.
  intros Hy. induction b as [|a b IH]; [done|]. cbn. rewrite IH.
  destruct (b +:+ TrimRight y cutset) eqn:E; [|done]. destruct b; [|done]. by rewrite <- E in Hy.
Qed.
Lemma TrimRight_app_r b y cutset : TrimRight y cutset = "" -> TrimRight (b +:+ y) cutset = TrimRight b cutset.
Proof. intros Hy. induction b as [|a b IH]; [done|]. cbn. by rewrite IH. Qed.
Lemma TrimRight_idem s cutset : TrimRight (TrimRight s cutset) cutset = TrimRight s cutset.
Proof.
  induction s as [|a s IH]; [done|]. cbn. destruct (TrimRight s cutset) as [|b t] eqn:E.
  - destruct (string_mem a cutset) eqn:M; [done|]. cbn. by rewrite M.
  - change (TrimRight (String a (String b t)) cutset) with
      (match TrimRight (String b t) cutset with
       | "" => if string_mem a cutset then "" else String a "" | t => String a t end).
    by rewrite IH.
Qed.

(** A path that starts with a slash and, unless it is the root, ends with none. *)
Definition normal (p : string) : Prop := HasPrefix p "/" = true /\ (p = "/" \/ TrimRight p "/" = p).

Lemma HasPrefix_cons s c : HasPrefix s (String c "") = true -> exists t, s = String c t.
Proof.
  intros H. apply HasPrefix_split in H. cbn in H. destruct s as [|a s]; [done|]. cbn in H. injection H as ->. by exists s.
Qed.

Lemma HasPrefix_slash_TrimRight s : HasPrefix s "/" = true -> TrimRight s "/" = "" \/ HasPrefix (TrimRight s "/") "/" = true.
Proof.
  intros [t ->]%HasPrefix_cons. cbn [TrimRight]. by destruct (TrimRight t "/"); [left|right].
Qed.

Lemma normalizePath_normal value : HasPrefix (TrimSpace value) "/" = true -> normal (normalizePath value).
Proof.
  intros H. unfold normalizePath. destruct (HasPrefix_slash_TrimRight _ H) as [->|H']; [by split; [|left]|].
  destruct (TrimRight (TrimSpace value) "/") as [|a t] eqn:E; [done|]. cbn [String.eqb]. split; [done|].
  right. by rewrite <- E, TrimRight_idem.
Qed.

(** The path that a value stands for: what is left of it without the white space
    around it and the slashes at its end, or the root when nothing is. *)
Definition slashes (s : string) : Prop := forallb_string (fun a => Ascii.eqb a "/") s = true.
Definition path_value (value p : string) : Prop := exists rest, slashes rest
  /\ (TrimSpace value = rest /\ p = "/"
      \/ TrimSpace value = p +:+ rest /\ p <> "" /\ forall q, p <> q +:+ "/").

Lemma TrimRight_slashes s :
  exists rest, slashes rest /\ s = TrimRight s "/" +:+ rest /\ forall q, TrimRight s "/" <> q +:+ "/".
Proof.
  induction s as [|a s (rest & Hr & Hs & Hq)]; [exists ""; split_and!; [done|done|by intros []]|].
  cbn [TrimRight]. destruct (TrimRight s "/") as [|b t].
  - cbn in Hs. subst rest. cbn [string_mem]. destruct (Ascii.eqb_spec a "/") as [->|Ha]; cbn [orb].
    + exists (String "/" s). split_and!; [exact Hr|done|by intros []].
    + exists s. split_and!; [done|done|]. intros [|c [|d q]]; cbn; congruence.
  - exists rest. split_and!; [done|cbn; by rewrite Hs at 1|]. intros [|c q]; cbn; [congruence|]. intros [= _ E]. by apply (Hq q).
Qed.

Lemma normalizePath_value value : path_value value (normalizePath value).
Proof.
  destruct (TrimRight_slashes (TrimSpace value)) as (rest & Hr & Hs & Hq). exists rest. split; [done|].
  unfold normalizePath. destruct (TrimRight (TrimSpace value) "/") as [|a t]; [by left|]. by right.
Qed.

(** The static path is the base path or lies under it. *)
Definition under (base static : string) : Prop := base = "/" \/ HasPrefix (static +:+ "/") (base +:+ "/") = true.

Lemma normalizePath_under base static :
  valid_paths (TrimSpace base) (TrimSpace static) -> under (normalizePath base) (normalizePath static).
Proof.
  intros (_ & _ & _ & H). unfold normalizePath. destruct (TrimRight (TrimSpace base) "/") as [|a b] eqn:Eb; [by left|].
  destruct H as [|H]; [done|]. right. cbn [String.eqb]. set (s := TrimSpace static) in *.
  apply HasPrefix_split in H. set (x := drop_string _ s) in H. clearbody x s. subst s.
  rewrite string_app_assoc.
  assert (En : TrimRight (String a b) "/" = String a b) by (by rewrite <- Eb, TrimRight_idem).
  destruct (TrimRight ("/" +:+ x) "/") as [|c t] eqn:Ex.
  - rewrite TrimRight_app_r, En by done. cbn [String.eqb]. pose proof (HasPrefix_app (String a b +:+ "/") "") as Hp.
    by rewrite string_app_nil_r in Hp.
  - rewrite TrimRight_app_l by (by rewrite Ex). rewrite Ex.
    assert (Ec : c = "/"%char).
    { cbn in Ex. destruct (TrimRight x "/"); [done|]. by injection Ex as <-. }
    subst c. cbn [String.eqb String.append]. 
    change (HasPrefix ((String a b +:+ ("/" +:+ t)) +:+ "/") (String a b +:+ "/") = true).
    rewrite <- string_app_assoc, string_app_assoc. apply HasPrefix_app.
Qed.

(** ** What the server starts with *)

(** The configuration as its parts get it. *)
Record typed (c : Config) (rc : RuntimeConfig) : Prop := mkTyped {
  ty_server : rt_Server rc = cfg_Server c;
  ty_database : rt_Database rc = cfg_Database c;
  ty_storage : rt_Storage rc = cfg_Storage c;
  ty_auth : rt_Auth rc = cfg_Auth c;
  ty_registry : rt_Registry rc = cfg_Registry c;
  ty_buf : rt_Buf rc = cfg_Buf c;
  ty_breaking : breaking_MaxReportBytes (rt_Breaking rc) = breaking_MaxReportBytes (cfg_Breaking c)
    /\ breaking_MaxChanges (rt_Breaking rc) = breaking_MaxChanges (cfg_Breaking c)
    /\ breaking_DefaultAgainst (rt_Breaking rc) = TrimSpace (breaking_DefaultAgainst (cfg_Breaking c));
  ty_governance : rgov_Enabled (rt_Governance rc) = governance_Enabled (cfg_Governance c)
    /\ rgov_AllowMaintainerApproval (rt_Governance rc) = governance_AllowMaintainerApproval (cfg_Governance c)
    /\ rgov_ActorOverrideEnabled (rt_Governance rc) = governance_ActorOverrideEnabled (cfg_Governance c);
  ty_environments : if bool_decide (rgov_ProductionEnvironments (rt_Governance rc) = [])
    then governance_Enabled (cfg_Governance c) = false /\ blank (governance_ProductionEnvironments (cfg_Governance c))
    else names_of (governance_ProductionEnvironments (cfg_Governance c)) (rgov_ProductionEnvironments (rt_Governance rc));
  ty_outbox : rt_OutboxPublisher rc = cfg_OutboxPublisher c;
  ty_ui : ui_Enabled (rt_UI rc) = ui_Enabled (cfg_UI c) /\ normal (ui_BasePath (rt_UI rc))
    /\ normal (ui_StaticPath (rt_UI rc)) /\ under (ui_BasePath (rt_UI rc)) (ui_StaticPath (rt_UI rc));
  ty_paths : path_value (ui_BasePath (cfg_UI c)) (ui_BasePath (rt_UI rc))
    /\ path_value (ui_StaticPath (cfg_UI c)) (ui_StaticPath (rt_UI rc));
  ty_log : log_Level (rt_Log rc) = TrimSpace (log_Level (cfg_Log c))
    /\ log_Format (rt_Log rc) = TrimSpace (log_Format (cfg_Log c)) }.

(** The configurations the server starts with; a list of environments is parsed
    even when governance is off. *)
Definition accepted (c : Config) : Prop :=
  valid c /\ (blank (governance_ProductionEnvironments (cfg_Governance c))
              \/ exists names, names_of (governance_ProductionEnvironments (cfg_Governance c)) names).

Lemma Runtime_Ok c : accepted c -> exists rc, Runtime c = Ok rc /\ typed c rc.
Proof.
  intros [Hv He]. unfold Runtime. rewrite (proj2 (Validate_Ok c) Hv). cbn [result_bind].
  pose proof (va_governance _ Hv) as Hg. destruct (va_ui _ Hv) as (Hb & Hs & _).
  set (g := cfg_Governance c) in *.
  assert (exists names, (if governance_Enabled g || negb (TrimSpace (governance_ProductionEnvironments g) =? "")%string
            then parseStringList "governance.production_environments" (governance_ProductionEnvironments g) else Ok []) = Ok names
          /\ (if bool_decide (names = []) then governance_Enabled g = false /\ blank (governance_ProductionEnvironments g)
              else names_of (governance_ProductionEnvironments g) names)) as (names & -> & Hn).
  { assert (Hp : forall l, names_of (governance_ProductionEnvironments g) l ->
      parseStringList "governance.production_environments" (governance_ProductionEnvironments g) = Ok l /\ bool_decide (l = []) = false).
    { intros l Hl. split; [by apply parseStringList_Ok|]. apply bool_decide_eq_false. apply Hl. }
    destruct (governance_Enabled g) eqn:Eg; cbn [orb].
    - destruct (Hg eq_refl) as [l Hl]. destruct (Hp l Hl) as [El Nl]. exists l. by rewrite Nl.
    - unfold blank in *. destruct (TrimSpace _ =? "")%string eqn:Eb; cbn [negb].
      + apply String.eqb_eq in Eb. by exists [].
      + apply String.eqb_neq in Eb. destruct He as [|[l Hl]]; [done|]. destruct (Hp l Hl) as [El Nl]. exists l. by rewrite Nl. }
  cbn [result_bind]. eexists. split; [done|]. constructor; try done.
  - cbn. split_and!; [done|by apply normalizePath_normal..|apply normalizePath_under, (va_ui _ Hv)].
  - split; apply normalizePath_value.
Qed.

Lemma runtime_accepted c :
  match Runtime c with Ok rc => accepted c /\ typed c rc | Err _ => ~ accepted c end.
Proof.
  destruct (Runtime c) as [rc|e] eqn:E.
  - assert (accepted c) as Ha; [|split; [done|]; destruct (Runtime_Ok c Ha) as (rc' & E' & H); congruence].
    unfold Runtime in E. destruct (Config_Validate c) as [[]|] eqn:Ev; [|done]. apply Validate_Ok in Ev. split; [done|].
    cbn [result_bind] in E. destruct (TrimSpace (governance_ProductionEnvironments (cfg_Governance c)) =? "")%string eqn:Eb.
    { left. by apply String.eqb_eq in Eb. }
    right. rewrite orb_true_r in E.
    destruct (parseStringList _ _) as [l|] eqn:Ep; [|done]. apply parseStringList_Ok in Ep. by exists l.
  - intros Ha. destruct (Runtime_Ok c Ha) as (rc & E' & _). congruence.
Qed.

(** C37: The server starts exactly with the configurations that are accepted, and its
    parts get the values of the configuration: the texts without the white space
    around them, the environments of the list, and the paths of the pages without
    the slashes at their end. *)
Theorem Runtime_correct c :
  match Runtime c with
  | Ok rc => accepted c /\ typed c rc
  | Err _ => ~ accepted c
  end.
Proof. apply runtime_accepted. Qed.

(** ** Examples *)

Definition example_config : Config :=
  mkConfig (cfg_Server Defaults) (mkDatabaseConfig "postgres://db")
    (mkStorageConfig (mkS3Config "http://s3" "us-east-1" "artifacts" "key" "secret" true)) (mkAuthConfig "pepper" "")
    (cfg_Registry Defaults) (cfg_Buf Defaults) (cfg_Breaking Defaults) (cfg_Governance Defaults)
    (cfg_OutboxPublisher Defaults) (mkUIConfig true " /ui/ " "/ui/static//") (cfg_Log Defaults).

Example runtime_config :
  match Runtime example_config with
  | Ok rc => ui_BasePath (rt_UI rc) = "/ui" /\ ui_StaticPath (rt_UI rc) = "/ui/static"
             /\ rgov_ProductionEnvironments (rt_Governance rc) = ["production"; "prod"]
  | Err _ => False
  end.
Proof. vm_compute. done. Qed.
Example missing_secret : Runtime Defaults = Err (EText "storage.s3.endpoint is required").
Proof. reflexivity. Qed.

(** ** The environment and the keys of the file *)

Inductive envValueKind := envString | envBool | envInt | envInt64 | envDuration.
Record envBinding := mkEnvBinding { env_name : string; env_path : string; env_kind : envValueKind }.

Definition envBindings : list envBinding :=
  [mkEnvBinding "PROTORADAR_SERVER_HTTP_ADDR" "server.http_addr" envString;
   mkEnvBinding "PROTORADAR_SERVER_HTTP_READ_HEADER_TIMEOUT" "server.http_read_header_timeout" envDuration;
   mkEnvBinding "PROTORADAR_SERVER_HTTP_READ_TIMEOUT" "server.http_read_timeout" envDuration;
   mkEnvBinding "PROTORADAR_SERVER_HTTP_WRITE_TIMEOUT" "server.http_write_timeout" envDuration;
   mkEnvBinding "PROTORADAR_SERVER_HTTP_IDLE_TIMEOUT" "server.http_idle_timeout" envDuration;
   mkEnvBinding "PROTORADAR_SERVER_HTTP_MAX_HEADER_BYTES" "server.http_max_header_bytes" envInt;
   mkEnvBinding "PROTORADAR_SERVER_MAX_REQUEST_BODY_BYTES" "server.max_request_body_bytes" envInt64;
   mkEnvBinding "PROTORADAR_DATABASE_URL" "database.url" envString;
   mkEnvBinding "PROTORADAR_STORAGE_S3_ENDPOINT" "storage.s3.endpoint" envString;
   mkEnvBinding "PROTORADAR_STORAGE_S3_REGION" "storage.s3.region" envString;
   mkEnvBinding "PROTORADAR_STORAGE_S3_BUCKET" "storage.s3.bucket" envString;
   mkEnvBinding "PROTORADAR_STORAGE_S3_ACCESS_KEY" "storage.s3.access_key" envString;
   mkEnvBinding "PROTORADAR_STORAGE_S3_SECRET_KEY" "storage.s3.secret_key" envString;
   mkEnvBinding "PROTORADAR_STORAGE_S3_USE_PATH_STYLE" "storage.s3.use_path_style" envBool;
   mkEnvBinding "PROTORADAR_AUTH_TOKEN_HASH_SECRET" "auth.token_hash_secret" envString;
   mkEnvBinding "PROTORADAR_AUTH_BOOTSTRAP_TOKEN" "auth.bootstrap_token" envString;
   mkEnvBinding "PROTORADAR_REGISTRY_MAX_ARTIFACT_SIZE_BYTES" "registry.max_artifact_size_bytes" envInt64;
   mkEnvBinding "PROTORADAR_BUF_BINARY_PATH" "buf.binary_path" envString;
   mkEnvBinding "PROTORADAR_BUF_BUILD_TIMEOUT" "buf.build_timeout" envDuration;
   mkEnvBinding "PROTORADAR_BUF_LINT_TIMEOUT" "buf.lint_timeout" envDuration;
   mkEnvBinding "PROTORADAR_BUF_LINT_MODE" "buf.lint_mode" envString;
   mkEnvBinding "PROTORADAR_BUF_REQUIRE_CONFIG" "buf.require_config" envBool;
   mkEnvBinding "PROTORADAR_BUF_MAX_REPORT_BYTES" "buf.max_report_bytes" envInt;
   mkEnvBinding "PROTORADAR_BREAKING_MAX_REPORT_BYTES" "breaking.max_report_bytes" envInt;
   mkEnvBinding "PROTORADAR_BREAKING_MAX_CHANGES" "breaking.max_changes" envInt;
   mkEnvBinding "PROTORADAR_BREAKING_DEFAULT_AGAINST" "breaking.default_against" envString;
   mkEnvBinding "PROTORADAR_GOVERNANCE_ENABLED" "governance.enabled" envBool;
   mkEnvBinding "PROTORADAR_GOVERNANCE_PRODUCTION_ENVIRONMENTS" "governance.production_environments" envString;
   mkEnvBinding "PROTORADAR_GOVERNANCE_ALLOW_MAINTAINER_APPROVAL" "governance.allow_maintainer_approval" envBool;
   mkEnvBinding "PROTORADAR_GOVERNANCE_ACTOR_OVERRIDE_ENABLED" "governance.actor_override_enabled" envBool;
   mkEnvBinding "PROTORADAR_OUTBOX_PUBLISHER_ENABLED" "outbox_publisher.enabled" envBool;
   mkEnvBinding "PROTORADAR_OUTBOX_PUBLISHER_BATCH_SIZE" "outbox_publisher.batch_size" envInt;
   mkEnvBinding "PROTORADAR_OUTBOX_PUBLISHER_POLL_INTERVAL" "outbox_publisher.poll_interval" envDuration;
   mkEnvBinding "PROTORADAR_OUTBOX_PUBLISHER_LEASE_DURATION" "outbox_publisher.lease_duration" envDuration;
   mkEnvBinding "PROTORADAR_OUTBOX_PUBLISHER_MAX_ATTEMPTS" "outbox_publisher.max_attempts" envInt;
   mkEnvBinding "PROTORADAR_OUTBOX_PUBLISHER_INITIAL_BACKOFF" "outbox_publisher.initial_backoff" envDuration;
   mkEnvBinding "PROTORADAR_OUTBOX_PUBLISHER_MAX_BACKOFF" "outbox_publisher.max_backoff" envDuration;
   mkEnvBinding "PROTORADAR_UI_ENABLED" "ui.enabled" envBool;
   mkEnvBinding "PROTORADAR_UI_BASE_PATH" "ui.base_path" envString;
   mkEnvBinding "PROTORADAR_UI_STATIC_PATH" "ui.static_path" envString;
   mkEnvBinding "PROTORADAR_LOG_LEVEL" "log.level" envString;
   mkEnvBinding "PROTORADAR_LOG_FORMAT" "log.format" envString].

Definition envPathForName (name : string) : string :=
  match List.find (fun b => env_name b =? name)%string envBindings with Some b => env_path b | None => "" end.

Definition supported_keys : list string :=
  ["server"; "server.http_addr"; "server.http_read_header_timeout";
   "server.http_read_timeout"; "server.http_write_timeout"; "server.http_idle_timeout";
   "server.http_max_header_bytes"; "server.max_request_body_bytes"; "database";
   "database.url"; "storage"; "storage.s3";
   "storage.s3.endpoint"; "storage.s3.region"; "storage.s3.bucket";
   "storage.s3.access_key"; "storage.s3.secret_key"; "storage.s3.use_path_style";
   "auth"; "auth.token_hash_secret"; "auth.bootstrap_token";
   "registry"; "registry.max_artifact_size_bytes"; "buf";
   "buf.binary_path"; "buf.build_timeout"; "buf.lint_timeout";
   "buf.lint_mode"; "buf.require_config"; "buf.max_report_bytes";
   "breaking"; "breaking.max_report_bytes"; "breaking.max_changes";
   "breaking.default_against"; "governance"; "governance.enabled";
   "governance.production_environments"; "governance.allow_maintainer_approval"; "governance.actor_override_enabled";
   "outbox_publisher"; "outbox_publisher.enabled"; "outbox_publisher.batch_size";
   "outbox_publisher.poll_interval"; "outbox_publisher.lease_duration"; "outbox_publisher.max_attempts";
   "outbox_publisher.initial_backoff"; "outbox_publisher.max_backoff"; "ui";
   "ui.enabled"; "ui.base_path"; "ui.static_path";
   "log"; "log.level"; "log.format"].
Definition supportedYAMLKey (key : string) : bool := one_of key supported_keys.

Fixpoint rejectUnknownYAMLKeys (keys : list string) : result unit :=
  match keys with
  | [] => Ok tt
  | key :: rest =>
      if supportedYAMLKey key then rejectUnknownYAMLKeys rest
      else Err (EText (key +:+ " is not a supported config field"))
  end.

(** The name of a variable is the path in capitals, with the prefix. *)
Definition upper1 (a : ascii) : ascii :=
  if (97 <=? byte a) && (byte a <=? 122) then byte_char (byte a - 32) else if Ascii.eqb a "." then "_" else a.
Fixpoint upper (s : string) : string := match s with "" => "" | String a s' => String (upper1 a) (upper s') end.

(** Every field that a variable sets is one that a file may set, under the same
    path; a variable has one path and a path one variable, and every field of a
    file has its variable. *)
Theorem env_agrees_with_file :
  Forall (fun b => supportedYAMLKey (env_path b) = true /\ env_name b = "PROTORADAR_" +:+ upper (env_path b)
                   /\ envPathForName (env_name b) = env_path b) envBindings
  /\ NoDup (map env_path envBindings) /\ NoDup (map env_name envBindings)
  /\ Forall (fun k => k ∈ map env_path envBindings
                      \/ Exists (fun b => HasPrefix (env_path b) (k +:+ ".") = true) envBindings) supported_keys.
Proof.
  repeat apply conj; apply (bool_decide_unpack _); vm_compute; exact I.
Qed.

Lemma rejectUnknownYAMLKeys_Ok keys : rejectUnknownYAMLKeys keys = Ok tt <-> Forall (fun k => k ∈ supported_keys) keys.
Proof.
  induction keys as [|k keys IH]; [by split|]. cbn [rejectUnknownYAMLKeys]. rewrite Forall_cons, <- IH, <- one_of_Ok.
  fold (supportedYAMLKey k). by destruct (supportedYAMLKey k); cbn [negb]; [split; [|intros [_ ?]]|split; [|intros [? _]]].
Qed.
