(* ===== verification/Bootstrap.v ===== *)
(** * The server

    [app/bootstrap/server.go] and [app/bootstrap/http.go]: the parts are made from
    the typed configuration, and the web pages are mounted beside the interface of
    the API.

    The pool, the listener and the goroutine of the publisher are in [Lifecycle], the
    log and the metrics in [Observability]: an observer that only logs does nothing
    here, and a ping of the pool is a statement that reads nothing. *)

From S2P Require Import Prelude Errors GoStrings Edition JsonScan Domain Json Effects Postgres Outbox Events Tables World GovernanceStore UseCase CatalogStore DescriptorStore JsonDecode Rfc3339 DependencyStore DependencyGraph RuntimeStore RuntimeInventory AuditLog Identity Policy Approval ApprovalSafety ApprovalInvariant Owners Archive Storage Registry RegistrySafety RegistryOperations RuntimeSafety RegistryInvariant RuntimeInvariant ServerPolicy BufDescriptor GitLabLink HttpDto HttpServer HttpSafety HttpInvariant Config.
From S2P Require BufWorkflow.

Open Scope string_scope.
Open Scope Z_scope.

(** ** The parts *)

Definition outbox_options (cfg : RuntimeConfig) : PublisherOptions :=
  let o := rt_OutboxPublisher cfg in
  Outbox.mkOptions (outbox_Enabled o) (outbox_BatchSize o) (outbox_PollInterval o) (outbox_LeaseDuration o)
    (outbox_MaxAttempts o) (outbox_InitialRetryBackoff o) (outbox_MaxRetryBackoff o) 0 true.

Definition policy_config (cfg : RuntimeConfig) : PolicyConfig :=
  let g := rt_Governance cfg in
  mkPolicyConfig (rgov_Enabled g) (rgov_ProductionEnvironments g) (rgov_AllowMaintainerApproval g).

(** The workflow of publications and that of breaking checks: they differ in the
    size of their reports. *)
Definition buf_settings (cfg : RuntimeConfig) (maxReportBytes : Z) : BufWorkflow.Config :=
  let b := rt_Buf cfg in
  BufWorkflow.mkConfig (bufcfg_BinaryPath b) (bufcfg_BuildTimeout b) (bufcfg_LintTimeout b) (bufcfg_LintMode b)
    (bufcfg_RequireConfig b) maxReportBytes.
Definition publish_workflow (cfg : RuntimeConfig) : BufWorkflow.Config :=
  BufWorkflow.newWorkflow (buf_settings cfg (bufcfg_MaxReportBytes (rt_Buf cfg))).
Definition breaking_workflow (cfg : RuntimeConfig) : BufWorkflow.Config :=
  BufWorkflow.newWorkflow (buf_settings cfg (breaking_MaxReportBytes (rt_Breaking cfg))).

Definition registry_options (cfg : RuntimeConfig) : Registry.Options :=
  Registry.mkOptions (registry_MaxArtifactSizeBytes (rt_Registry cfg)) (registry_MaxArtifactSizeBytes (rt_Registry cfg))
    (auth_TokenHashSecret (rt_Auth cfg)) (bufcfg_RequireConfig (rt_Buf cfg)) (bufcfg_LintMode (rt_Buf cfg))
    (breaking_MaxChanges (rt_Breaking cfg)) (breaking_DefaultAgainst (rt_Breaking cfg)) true true.

(** [identityTokenUsageLogger]: it writes to the log. *)
Definition identityTokenUsageLogger : APITokenID -> error -> M World unit := fun _ _ => ret tt.

(** The text of the metrics: what is counted is in [Observability], beside the state of
    the registry. *)
Class Monitoring := { metrics_text : Registry -> string }.

Section Bootstrap.
Context `{PG : !Postgres} `{ENV : !Env} `{CR : !Crypto} `{SYS : !OS} `{STORE : !ArtifactStore} `{HOST : !Host}.
Context `{URL : !NetURL} `{MR : !MultipartReader} `{UC : !Unicode} `{PB : !Protobuf} `{RUN : !BufWorkflow.CommandRunner} `{MON : !Monitoring}.

(** A check that fails has no result. *)
Definition buf_breaking (cfg : RuntimeConfig) (input : BufBreakingCheckInput) : M FS BufBreakingCheckResult :=
  let! (result, err) := BufWorkflow.Workflow_CheckBreaking (breaking_workflow cfg) input in
  match err with Some e => fail e | None => ret result end.

Definition registry_service (cfg : RuntimeConfig) : Service :=
  mkService true true true (Some (BufWorkflow.Inspect (publish_workflow cfg))) (Some (buf_breaking cfg))
    (registry_options cfg).

Definition pool_Ping : M World unit := exec (T := Database) (ret tt).

Definition api_options (cfg : RuntimeConfig) : ServerOptions :=
  mkServerOptions (auth_BootstrapToken (rt_Auth cfg))
    (Some (fun req => on_db (Authenticate (auth_TokenHashSecret (rt_Auth cfg)) identityTokenUsageLogger req)))
    (Some CommunityAuthorizer) (Some CommunityCapabilityChecker) Info true true
    (rgov_ActorOverrideEnabled (rt_Governance cfg)) (Some (on_db pool_Ping)) [] (Some metrics_text)
    (server_MaxRequestBodyBytes (rt_Server cfg)).
Definition api_server (cfg : RuntimeConfig) : Server := NewServer (registry_service cfg) (api_options cfg).

#[local] Existing Instance CommunityAuditSink.
#[local] Existing Instance DefaultPolicyEvaluator.

Definition serve_api (cfg : RuntimeConfig) (r : HttpRequest) : Registry -> HttpResponse * Registry :=
  ServeHTTP (policy_config cfg) (api_server cfg) r.

(** ** [NewHTTPHandler]

    The pages, given as a handler, take the paths of their base path; when that is
    the root they take all of them. *)

Fixpoint starts_with (prefix path : list string) : bool :=
  match prefix, path with
  | [], _ => true
  | x :: prefix', y :: path' => (x =? y)%string && starts_with prefix' path'
  | _, [] => false
  end.

Definition NewHTTPHandler (cfg : RuntimeConfig) (webHandler : HttpRequest -> Registry -> HttpResponse * Registry)
    (r : HttpRequest) : Registry -> HttpResponse * Registry :=
  if negb (ui_Enabled (rt_UI cfg)) then serve_api cfg r else
  let basePath := TrimRight (ui_BasePath (rt_UI cfg)) "/" in
  if (basePath =? "")%string then webHandler r else
  if starts_with (drop 1 (split_byte "/" basePath)) (http_Path r) then webHandler r else serve_api cfg r.
End Bootstrap.

(** ** What the server promises *)

Section Promises.
Context `{PG : !Postgres} `{ENV : !Env} `{CR : !Crypto} `{SYS : !OS} `{STORE : !ArtifactStore} `{LAWS : !ArtifactStoreLaws}
  `{HOST : !Host}.
Context `{URL : !NetURL} `{MR : !MultipartReader} `{UC : !Unicode} `{PB : !Protobuf} `{RUN : !BufWorkflow.CommandRunner} `{MON : !Monitoring}.
Variable cfg : RuntimeConfig.
#[local] Existing Instance CommunityAuditSink.
#[local] Existing Instance DefaultPolicyEvaluator.

Lemma auth_reads req : preserves unchanged (srv_auth (api_server cfg) req).
Proof. apply unchanged_on_db, Authenticate_use. intros id e w. reflexivity. Qed.
Lemma ping_reads : preserves unchanged (on_db pool_Ping).
Proof. apply unchanged_read, same_db_exec. done. Qed.
Lemma checks_read c m :
  c ∈ srv_readinessChecks (api_server cfg) -> readiness_Check c = Some m -> preserves unchanged m.
Proof. cbn. intros ->%list_elem_of_singleton [= <-]. apply ping_reads. Qed.

(** C34: A request that only asks leaves what it asks about as it is: modules, versions,
    reports, governance, the inventory and the objects; only the time at which a
    token was last used may change. *)
Theorem reading_requests_change_nothing r s :
  http_Method r = "GET" \/ http_Method r = "HEAD" -> unchanged s (serve_api cfg r s).2.
Proof. apply safe_requests; [apply auth_reads|apply checks_read]. Qed.

(** What a request must show to act. *)
Inductive credentials (r : HttpRequest) (s : Registry) : Prop :=
  | token_shown raw (row : APIToken) method pattern (action : Action) resource (handler : Handler) values principal :
      Bearer (mkAuthRequest (http_Authorization r) "") = Some raw ->
      row ∈ db_tokens (w_db (rg_world s)) ->
      token_TokenHash row = hmac_sha256_hex (auth_TokenHashSecret (rt_Auth cfg)) raw ->
      (forall t, token_ExpiresAt row = Some t -> env_now (S (w_tick (rg_world s))) < t) ->
      principal_Subject principal = token_subject (scanToken row) ->
      (method, pattern, action, resource, handler) ∈ protected_routes (policy_config cfg) (api_server cfg) ->
      match_pattern pattern (http_Path r) = Some values -> method_matches method (http_Method r) = true ->
      @Authorize CommunityAuthorizer principal action
        (resource (ContextWithPrincipal (mkRequestContext None values) principal)) = Ok tt ->
      credentials r s
  | bootstrap_shown :
      http_Method r = "POST" -> http_Path r = ["api"; "v1"; "tokens"] ->
      bearerToken (http_Authorization r) = Some (auth_BootstrapToken (rt_Auth cfg)) ->
      auth_BootstrapToken (rt_Auth cfg) <> "" ->
      credentials r s.

(** C5: A request that is served carries a token whose keyed hash is stored and that
    has not expired, with a principal that may do what the route does, or creates a
    token and shows the token of the configuration. Every other request changes
    nothing and gets an answer that holds no data, or the metrics. *)
Theorem only_credentials_act r s :
  let out := serve_api cfg r s in
  credentials r s \/ unchanged s out.2 /\ public_answer r out.1.
Proof.
  cbv zeta. destruct (unadmitted_requests (policy_config cfg) (api_server cfg) auth_reads checks_read r s) as [H|H];
    [left|by right]. destruct H as [method pattern action resource handler values principal s' Hin Hp Hm Ha _ Hau|].
  - cbn in Ha. unfold on_db, zoom in Ha.
    destruct (Authenticate _ _ _ (rg_world s)) as [x w'] eqn:E. injection Ha as -> _.
    apply Authenticate_sound in E as (raw & row & Hb & Hrow & Hh & Hexp & _ & Hsub & _). by eapply token_shown.
  - by apply bootstrap_shown.
Qed.

(** C35: Whatever fails, the answer is one of a fixed list of documents: nothing of the
    error, of the state or of the request is in it; only the readiness probe
    reports which of its checks failed. *)
Theorem failures_are_documents r s :
  (serve_api cfg r s).1 ∈ error_documents \/ http_Status (serve_api cfg r s).1 < StatusBadRequest
  \/ http_Path r = ["readyz"].
Proof. destruct (documented_requests (policy_config cfg) (api_server cfg) r s) as [[H|H]|H]; auto. Qed.

Context `{HONEST : !HonestFaults} `{HL : !HostLaws}.

(** The requests that were served, one after the other. *)
Definition after_requests (rs : list HttpRequest) (s : Registry) : Registry :=
  fold_left (fun s r => (serve_api cfg r s).2) rs s.

(** C6: Over any sequence of requests that are served one after the other, and however
    each of them ends (any statement, upload or deletion may fail), what the parts
    rely on holds together: artifacts have the keys of their versions, versions their
    modules, usages their deployments, owners their modules, and requests for
    approval the status of their requirements. Artifacts have their objects as long
    as no commit was applied without being acknowledged: the clean-up after such a
    commit deletes the objects of the published version. *)
Theorem requests_keep_the_service rs s : service_ok s -> service_ok (after_requests rs s).
Proof. apply requests_ok; [apply auth_reads|apply checks_read]. Qed.
End Promises.

(** ** A configuration that is accepted is used as it is *)

Section Configured.
Context `{PG : !Postgres} `{ENV : !Env} `{CR : !Crypto} `{SYS : !OS} `{STORE : !ArtifactStore} `{HOST : !Host}.
Context `{URL : !NetURL} `{MR : !MultipartReader} `{UC : !Unicode} `{PB : !Protobuf} `{RUN : !BufWorkflow.CommandRunner} `{MON : !Monitoring}.

Lemma or_default_positive v d : 0 < v -> or_default v d = v.
Proof. intros H. unfold or_default. destruct (v <=? 0) eqn:E; [lia|done]. Qed.

Lemma not_blank_nonempty s : ~ blank s -> (s =? "")%string = false.
Proof. intros H. apply String.eqb_neq. by intros ->. Qed.

Lemma buf_defaults_unused c cfg n :
  valid_buf (cfg_Buf c) -> typed c cfg -> 0 < n -> BufWorkflow.newWorkflow (buf_settings cfg n) = buf_settings cfg n.
Proof.
  intros (Hp & Hz & Hm) T Hn. unfold BufWorkflow.newWorkflow, buf_settings. cbn. rewrite (ty_buf _ _ T).
  rewrite !Forall_cons in Hz. destruct Hz as (H1 & H2 & _). rewrite (not_blank_nonempty _ Hp).
  assert (E : forall z, 0 < z -> (z <=? 0) = false) by lia. rewrite !E by done.
  destruct (bufcfg_LintMode (cfg_Buf c) =? "")%string eqn:El; [|done].
  apply String.eqb_eq in El. rewrite El in Hm. by revert Hm; rewrite !elem_of_cons, elem_of_nil; intros [|[|[|[]]]].
Qed.

(** The parts of a server that starts never fall back to a default of their own:
    the workflows of [buf], the publisher of the outbox and the policy run with
    the values of the configuration, the limits of archives and of bodies are
    positive, and the API is beside the pages unless these have the root. *)
Theorem configuration_is_used c cfg (H : Runtime c = Ok cfg) :
  (let b := rt_Buf cfg in
   let workflow := BufWorkflow.mkConfig (bufcfg_BinaryPath b) (bufcfg_BuildTimeout b) (bufcfg_LintTimeout b)
                     (bufcfg_LintMode b) (bufcfg_RequireConfig b) in
   publish_workflow cfg = workflow (bufcfg_MaxReportBytes b)
   /\ breaking_workflow cfg = workflow (breaking_MaxReportBytes (rt_Breaking cfg)))
  /\ normalizePublisherOptions (outbox_options cfg)
     = (let o := rt_OutboxPublisher cfg in
        Outbox.mkOptions (outbox_Enabled o) (outbox_BatchSize o) (outbox_PollInterval o) (outbox_LeaseDuration o)
          (outbox_MaxAttempts o) (outbox_InitialRetryBackoff o) (outbox_MaxRetryBackoff o) 4096 true)
  /\ 0 < MaxArtifactSizeBytes (registry_options cfg)
  /\ limitRequestBody (api_server cfg) = Some (server_MaxRequestBodyBytes (rt_Server cfg))
  /\ (config_Enabled (policy_config cfg) = true -> config_ProductionEnvironments (policy_config cfg) <> [])
  /\ (ui_BasePath (rt_UI cfg) <> "/" -> forall webHandler r,
        starts_with (drop 1 (split_byte "/" (ui_BasePath (rt_UI cfg)))) (http_Path r) = false ->
        NewHTTPHandler cfg webHandler r = serve_api cfg r).
Proof.
  pose proof (runtime_accepted c) as Ha. rewrite H in Ha. destruct Ha as [[Hv He] T].
  destruct (va_breaking _ Hv) as (B1 & B2 & _). destruct (va_outbox _ Hv) as [O1 O2].
  rewrite !Forall_cons in O1. destruct O1 as (P1 & P2 & P3 & P4 & P5 & P6 & _).
  destruct (ty_breaking _ _ T) as (E1 & _ & _). destruct (va_server _ Hv) as [_ S1]. rewrite !Forall_cons in S1.
  split; [split|split_and!].
  - apply (buf_defaults_unused c); [apply Hv|done|]. rewrite (ty_buf _ _ T). destruct (va_buf _ Hv) as (_ & Hz & _).
    rewrite !Forall_cons in Hz. tauto.
  - apply (buf_defaults_unused c); [apply Hv|done|]. by rewrite E1.
  - unfold normalizePublisherOptions, outbox_options. cbn [opt_Enabled opt_BatchSize opt_PollInterval opt_LeaseDuration
      opt_MaxAttempts opt_InitialRetryBackoff opt_MaxRetryBackoff opt_ErrorMessageMaxLength opt_Observer].
    rewrite (ty_outbox _ _ T), !or_default_positive by done. destruct (_ <? _) eqn:E; [lia|done].
  - cbn. rewrite (ty_registry _ _ T). apply Hv.
  - unfold limitRequestBody. cbn. rewrite (ty_server _ _ T). destruct (_ <=? 0) eqn:E; [|done]. lia.
  - cbn. destruct (ty_governance _ _ T) as (-> & _). intros Hg. pose proof (ty_environments _ _ T) as Hn.
    destruct (bool_decide _) eqn:E; [destruct Hn as [Hn _]; congruence|]. by apply bool_decide_eq_false in E.
  - intros Hroot webHandler r Hs. destruct (ty_ui _ _ T) as (_ & [_ [?|En]] & _); [done|].
    unfold NewHTTPHandler. destruct (negb _); [done|]. rewrite En.
    destruct (_ =? "")%string eqn:E; [|by rewrite Hs]. apply String.eqb_eq in E.
    destruct (ty_ui _ _ T) as (_ & [Hp _] & _). by rewrite E in Hp.
Qed.

(** With the pages at the root, which is accepted, no request reaches the API. *)
Theorem pages_at_the_root_hide_the_api cfg webHandler r :
  ui_Enabled (rt_UI cfg) = true -> ui_BasePath (rt_UI cfg) = "/" -> NewHTTPHandler cfg webHandler r = webHandler r.
Proof. intros E B. unfold NewHTTPHandler. by rewrite E, B. Qed.
End Configured.

(** ** A server at work *)

Module BootstrapExamples.
#[local] Existing Instance RegistryExamples.pg.
#[local] Existing Instance RegistryExamples.crypto.
#[local] Existing Instance RegistryExamples.calm_os.
#[local] Existing Instance RegistryExamples.store.
#[local] Existing Instance RegistryExamples.store_laws.
#[local] Existing Instance RegistryExamples.host.
#[local] Existing Instance RegistryExamples.host_laws.
#[local] Existing Instance RegistryExamples.calm_env.
#[local] Existing Instance RegistryExamples.calm_faults.
#[local] Existing Instance example_unicode.
#[local] Existing Instance ProtoExamples.example_protobuf.
#[local] Existing Instance CommunityAuditSink.
#[local] Existing Instance DefaultPolicyEvaluator.
#[local] Instance no_url : NetURL := {| url_Parse := fun _ => None |}.
(** The body is the archive, under the version the content type names. *)
#[local] Instance plain_form : MultipartReader := {|
  ReadForm := fun contentType _ limit body =>
    inl (mkMultipartForm [("version", contentType)] [("artifact", mkMultipartFile "a.tar.gz" body)]) |}.
#[local] Instance no_metrics : Monitoring := {| metrics_text := fun _ => "" |}.
(** A [buf] that accepts everything. *)
#[local] Instance calm_buf : BufWorkflow.CommandRunner := {|
  BufWorkflow.runner_Run := fun _ => ret (BufWorkflow.mkCommandResult "image" "" 0);
  BufWorkflow.cmdCtx_Err := fun _ _ => None |}.

Definition cfg : RuntimeConfig :=
  match Runtime (mkConfig (cfg_Server Defaults) (mkDatabaseConfig "postgres://db")
                   (mkStorageConfig (mkS3Config "http://s3" "us-east-1" "artifacts" "key" "secret" true))
                   (mkAuthConfig "pepper" "root") (cfg_Registry Defaults) (cfg_Buf Defaults) (cfg_Breaking Defaults)
                   (cfg_Governance Defaults) (cfg_OutboxPublisher Defaults) (cfg_UI Defaults) (cfg_Log Defaults))
  with Ok cfg => cfg | Err _ => mkRuntimeConfig (cfg_Server Defaults) (cfg_Database Defaults) (cfg_Storage Defaults)
    (cfg_Auth Defaults) (cfg_Registry Defaults) (cfg_Buf Defaults) (cfg_Breaking Defaults)
    (mkRuntimeGovernanceConfig true [] true false) (cfg_OutboxPublisher Defaults) (cfg_UI Defaults) (cfg_Log Defaults) end.

Definition quoted (s : string) : string := String quote_char (s +:+ String quote_char "").
Definition request (method : string) (path : list string) (token contentType body : string) : HttpRequest :=
  mkHttpRequest method path [] true (if (token =? "")%string then "" else "Bearer " +:+ token) "" "" contentType (len body) body.
Definition new_token : HttpRequest :=
  request "POST" ["api"; "v1"; "tokens"] "root" "" ("{" +:+ quoted "name" +:+ ":" +:+ quoted "ci" +:+ "}").
Definition new_module (token : string) : HttpRequest :=
  request "POST" ["api"; "v1"; "modules"] token "" ("{" +:+ quoted "name" +:+ ":" +:+ quoted "users" +:+ "}").
Definition get_module (name token : string) : HttpRequest := request "GET" ["api"; "v1"; "modules"; name] token "" "".
Definition publish (token version : string) : HttpRequest :=
  request "POST" ["api"; "v1"; "modules"; "users"; "versions"] token version "syntax".

(** The token that the first request makes. *)
Definition start : Registry := mkRegistry (mkWorld empty_db false 1) (mkFS ∅ 0) (mkBucket ∅ 0) [].
Definition token : string := unary 1.
Definition history : list HttpRequest :=
  [new_token; new_module "ci"; new_module token; publish token "v1"; publish token "v1"; get_module "users" token;
   get_module "none" token].

Fixpoint statuses (rs : list HttpRequest) (s : Registry) : list Z :=
  match rs with
  | [] => []
  | r :: rest => let '(x, s') := serve_api cfg r s in http_Status x :: statuses rest s'
  end.

(** A token is made and used: the module is created, its version is published
    once, and what does not exist is not found. *)
Example session : statuses history start = [201; 401; 201; 201; 409; 200; 404].
Proof. vm_compute. reflexivity. Qed.
Example an_error :
  http_ResponseBody (serve_api cfg (get_module "none" token) (after_requests cfg history start)).1
  = "{" +:+ quoted "error" +:+ ":{" +:+ quoted "code" +:+ ":" +:+ quoted "not_found" +:+ "," +:+ quoted "message" +:+ ":"
    +:+ quoted "Requested resource was not found." +:+ "}}" +:+ String (byte_char 10) "".
Proof. vm_compute. reflexivity. Qed.

Lemma start_ok : service_ok start.
Proof.
  split_and!.
  - split; [done|]. split; cbn; set_solver.
  - split; constructor; cbn; try constructor; set_solver.
  - split; [split; [done|]|split; cbn; try constructor; set_solver]. split; cbn; try constructor; set_solver.
Qed.

Lemma requests_keep_the_service_witness :
  service_ok (after_requests cfg history start) /\ statuses history start = [201; 401; 201; 201; 409; 200; 404].
Proof. split; [exact (requests_keep_the_service cfg history start start_ok)|vm_compute; reflexivity]. Defined.

Lemma reading_requests_change_nothing_witness :
  unchanged (after_requests cfg history start)
    (serve_api cfg (get_module "users" token) (after_requests cfg history start)).2
  /\ http_Status (serve_api cfg (get_module "users" token) (after_requests cfg history start)).1 = 200.
Proof.
  split; [|vm_compute; reflexivity].
  exact (reading_requests_change_nothing cfg (get_module "users" token) (after_requests cfg history start) (or_introl eq_refl)).
Defined.

Lemma configuration_is_used_witness :
  exists c cfg, Runtime c = Ok cfg /\ limitRequestBody (api_server cfg) = Some (110 * 1024 * 1024)
    /\ publish_workflow cfg = buf_settings cfg (16 * 1024).
Proof.
  destruct (Runtime example_config) as [cfg'|e] eqn:E; [|vm_compute in E; discriminate E].
  exists example_config, cfg'. split; [exact E|].
  destruct (configuration_is_used example_config cfg' E) as ((H1 & _) & _ & _ & H4 & _). rewrite H4. split; [|rewrite H1].
  all: vm_compute in E; injection E as <-; reflexivity.
Defined.
End BootstrapExamples.
