(* ===== verification/ApiTypes.v ===== *)
(** * The types of the API client

    [cli/api/client.go], its types: the bodies it sends, as the JSON of their
    fields, and the bodies it reads, as records with their decoders. *)

From S2P Require Import Prelude Errors GoStrings JsonScan Domain Json JsonDecode Rfc3339.

Open Scope string_scope.
Open Scope Z_scope.

(** [time.UnmarshalJSON]. It reads the text between the quotes as it is written;
    a text with escapes, which no server of this program writes, is read here with
    its escapes resolved. *)
Definition decode_time : decoder time := fun v old =>
  match v with VNull => Some old | VString s => parse_RFC3339 s | _ => None end.

(** A field of a struct, its setter made from [eta]. *)
Notation json_field name eta proj d := (field name proj ltac:(setter eta proj) d) (only parsing).

Record CreateModuleRequest := mkApiCreateModuleRequest {
  apCMR_Name : string; apCMR_Description : string; apCMR_RepositoryURL : string }.
Definition CreateModuleRequest_json (r : CreateModuleRequest) : json :=
  JObject [("name", JString (apCMR_Name r)); ("description", JString (apCMR_Description r));
    ("repository_url", JString (apCMR_RepositoryURL r))].

Record Module_ := mkApiModule {
  apM_ID : string; apM_Name : string; apM_Description : string; apM_RepositoryURL : string; apM_CreatedAt : time;
  apM_UpdatedAt : time }.
Definition Module_zero : Module_ := mkApiModule "" "" "" "" 0 0.
Definition eta_Module (r : Module_) : Module_ :=
  mkApiModule (apM_ID r) (apM_Name r) (apM_Description r) (apM_RepositoryURL r) (apM_CreatedAt r) (apM_UpdatedAt r).
Definition Module_fields : fields Module_ :=
  [json_field "id" eta_Module apM_ID decode_string; json_field "name" eta_Module apM_Name decode_string;
   json_field "description" eta_Module apM_Description decode_string;
   json_field "repository_url" eta_Module apM_RepositoryURL decode_string;
   json_field "created_at" eta_Module apM_CreatedAt decode_time;
   json_field "updated_at" eta_Module apM_UpdatedAt decode_time].
Definition decode_Module : decoder Module_ := decode_struct false Module_fields.

Record ListModulesResponse := mkApiListModulesResponse {
  apLMR_Modules : slice Module_ }.
Definition ListModulesResponse_zero : ListModulesResponse := mkApiListModulesResponse nil_slice.
Definition eta_ListModulesResponse (r : ListModulesResponse) : ListModulesResponse :=
  mkApiListModulesResponse (apLMR_Modules r).
Definition ListModulesResponse_fields : fields ListModulesResponse :=
  [json_field "modules" eta_ListModulesResponse apLMR_Modules (decode_slice Module_zero decode_Module)].
Definition decode_ListModulesResponse : decoder ListModulesResponse := decode_struct false
    ListModulesResponse_fields.

Record ModuleVersion := mkApiModuleVersion {
  apMV_ID : string; apMV_ModuleID : string; apMV_Version : string; apMV_Digest : string; apMV_Status : string;
  apMV_CreatedAt : time; apMV_PublishedAt : option time; apMV_DeprecatedAt : option time;
  apMV_DeprecatedBy : string; apMV_DeprecationReason : string }.
Definition ModuleVersion_zero : ModuleVersion := mkApiModuleVersion "" "" "" "" "" 0 None None "" "".
Definition eta_ModuleVersion (r : ModuleVersion) : ModuleVersion :=
  mkApiModuleVersion (apMV_ID r) (apMV_ModuleID r) (apMV_Version r) (apMV_Digest r) (apMV_Status r)
    (apMV_CreatedAt r) (apMV_PublishedAt r) (apMV_DeprecatedAt r) (apMV_DeprecatedBy r)
    (apMV_DeprecationReason r).
Definition ModuleVersion_fields : fields ModuleVersion :=
  [json_field "id" eta_ModuleVersion apMV_ID decode_string;
   json_field "module_id" eta_ModuleVersion apMV_ModuleID decode_string;
   json_field "version" eta_ModuleVersion apMV_Version decode_string;
   json_field "digest" eta_ModuleVersion apMV_Digest decode_string;
   json_field "status" eta_ModuleVersion apMV_Status decode_string;
   json_field "created_at" eta_ModuleVersion apMV_CreatedAt decode_time;
   json_field "published_at" eta_ModuleVersion apMV_PublishedAt (decode_pointer 0 decode_time);
   json_field "deprecated_at" eta_ModuleVersion apMV_DeprecatedAt (decode_pointer 0 decode_time);
   json_field "deprecated_by" eta_ModuleVersion apMV_DeprecatedBy decode_string;
   json_field "deprecation_reason" eta_ModuleVersion apMV_DeprecationReason decode_string].
Definition decode_ModuleVersion : decoder ModuleVersion := decode_struct false ModuleVersion_fields.

Record ListModuleVersionsResponse := mkApiListModuleVersionsResponse {
  apLMVR_Versions : slice ModuleVersion }.
Definition ListModuleVersionsResponse_zero : ListModuleVersionsResponse := mkApiListModuleVersionsResponse
    nil_slice.
Definition eta_ListModuleVersionsResponse (r : ListModuleVersionsResponse) : ListModuleVersionsResponse :=
  mkApiListModuleVersionsResponse (apLMVR_Versions r).
Definition ListModuleVersionsResponse_fields : fields ListModuleVersionsResponse :=
  [json_field "versions" eta_ListModuleVersionsResponse apLMVR_Versions (decode_slice ModuleVersion_zero
    decode_ModuleVersion)].
Definition decode_ListModuleVersionsResponse : decoder ListModuleVersionsResponse := decode_struct false
    ListModuleVersionsResponse_fields.

Record DeprecateModuleVersionRequest := mkApiDeprecateModuleVersionRequest {
  apDMVR_Reason : string }.
Definition DeprecateModuleVersionRequest_json (r : DeprecateModuleVersionRequest) : json :=
  JObject [("reason", JString (apDMVR_Reason r))].

Record Artifact := mkApiArtifact {
  apA_ID : string; apA_ModuleVersionID : string; apA_Kind : string; apA_StorageKey : string;
  apA_ChecksumSHA256 : string; apA_SizeBytes : Z; apA_CreatedAt : time }.
Definition Artifact_zero : Artifact := mkApiArtifact "" "" "" "" "" 0 0.
Definition eta_Artifact (r : Artifact) : Artifact :=
  mkApiArtifact (apA_ID r) (apA_ModuleVersionID r) (apA_Kind r) (apA_StorageKey r) (apA_ChecksumSHA256 r)
    (apA_SizeBytes r) (apA_CreatedAt r).
Definition Artifact_fields : fields Artifact :=
  [json_field "id" eta_Artifact apA_ID decode_string;
   json_field "module_version_id" eta_Artifact apA_ModuleVersionID decode_string;
   json_field "kind" eta_Artifact apA_Kind decode_string;
   json_field "storage_key" eta_Artifact apA_StorageKey decode_string;
   json_field "checksum_sha256" eta_Artifact apA_ChecksumSHA256 decode_string;
   json_field "size_bytes" eta_Artifact apA_SizeBytes decode_int64;
   json_field "created_at" eta_Artifact apA_CreatedAt decode_time].
Definition decode_Artifact : decoder Artifact := decode_struct false Artifact_fields.

Record ArtifactSummary := mkApiArtifactSummary {
  apAS_Kind : string; apAS_ChecksumSHA256 : string; apAS_SizeBytes : Z }.
Definition ArtifactSummary_zero : ArtifactSummary := mkApiArtifactSummary "" "" 0.
Definition eta_ArtifactSummary (r : ArtifactSummary) : ArtifactSummary :=
  mkApiArtifactSummary (apAS_Kind r) (apAS_ChecksumSHA256 r) (apAS_SizeBytes r).
Definition ArtifactSummary_fields : fields ArtifactSummary :=
  [json_field "kind" eta_ArtifactSummary apAS_Kind decode_string;
   json_field "checksum_sha256" eta_ArtifactSummary apAS_ChecksumSHA256 decode_string;
   json_field "size_bytes" eta_ArtifactSummary apAS_SizeBytes decode_int64].
Definition decode_ArtifactSummary : decoder ArtifactSummary := decode_struct false ArtifactSummary_fields.

Record BufInfo := mkApiBufInfo {
  apBI_ConfigPresent : bool; apBI_LockPresent : bool; apBI_LintStatus : string; apBI_LintReport : string }.
Definition BufInfo_zero : BufInfo := mkApiBufInfo false false "" "".
Definition eta_BufInfo (r : BufInfo) : BufInfo :=
  mkApiBufInfo (apBI_ConfigPresent r) (apBI_LockPresent r) (apBI_LintStatus r) (apBI_LintReport r).
Definition BufInfo_fields : fields BufInfo :=
  [json_field "config_present" eta_BufInfo apBI_ConfigPresent decode_bool;
   json_field "lock_present" eta_BufInfo apBI_LockPresent decode_bool;
   json_field "lint_status" eta_BufInfo apBI_LintStatus decode_string;
   json_field "lint_report" eta_BufInfo apBI_LintReport decode_string].
Definition decode_BufInfo : decoder BufInfo := decode_struct false BufInfo_fields.

Record MetadataSummary := mkApiMetadataSummary {
  apMS_Files : Z; apMS_Packages : Z; apMS_Services : Z; apMS_Methods : Z; apMS_Messages : Z; apMS_Fields : Z;
  apMS_Enums : Z; apMS_EnumValues : Z }.
Definition MetadataSummary_zero : MetadataSummary := mkApiMetadataSummary 0 0 0 0 0 0 0 0.
Definition eta_MetadataSummary (r : MetadataSummary) : MetadataSummary :=
  mkApiMetadataSummary (apMS_Files r) (apMS_Packages r) (apMS_Services r) (apMS_Methods r) (apMS_Messages r)
    (apMS_Fields r) (apMS_Enums r) (apMS_EnumValues r).
Definition MetadataSummary_fields : fields MetadataSummary :=
  [json_field "files" eta_MetadataSummary apMS_Files decode_int64;
   json_field "packages" eta_MetadataSummary apMS_Packages decode_int64;
   json_field "services" eta_MetadataSummary apMS_Services decode_int64;
   json_field "methods" eta_MetadataSummary apMS_Methods decode_int64;
   json_field "messages" eta_MetadataSummary apMS_Messages decode_int64;
   json_field "fields" eta_MetadataSummary apMS_Fields decode_int64;
   json_field "enums" eta_MetadataSummary apMS_Enums decode_int64;
   json_field "enum_values" eta_MetadataSummary apMS_EnumValues decode_int64].
Definition decode_MetadataSummary : decoder MetadataSummary := decode_struct false MetadataSummary_fields.

Record PublishModuleVersionResponse := mkApiPublishModuleVersionResponse {
  apPMVR_Module : string; apPMVR_Version : string; apPMVR_Status : string; apPMVR_SourceArtifact : ArtifactSummary;
  apPMVR_BufImageArtifact : ArtifactSummary; apPMVR_Buf : BufInfo; apPMVR_MetadataSummary : MetadataSummary;
  apPMVR_CreatedAt : time }.
Definition PublishModuleVersionResponse_zero : PublishModuleVersionResponse :=
    mkApiPublishModuleVersionResponse "" "" "" ArtifactSummary_zero ArtifactSummary_zero BufInfo_zero
    MetadataSummary_zero 0.
Definition eta_PublishModuleVersionResponse (r : PublishModuleVersionResponse) : PublishModuleVersionResponse :=
  mkApiPublishModuleVersionResponse (apPMVR_Module r) (apPMVR_Version r) (apPMVR_Status r)
    (apPMVR_SourceArtifact r) (apPMVR_BufImageArtifact r) (apPMVR_Buf r) (apPMVR_MetadataSummary r)
    (apPMVR_CreatedAt r).
Definition PublishModuleVersionResponse_fields : fields PublishModuleVersionResponse :=
  [json_field "module" eta_PublishModuleVersionResponse apPMVR_Module decode_string;
   json_field "version" eta_PublishModuleVersionResponse apPMVR_Version decode_string;
   json_field "status" eta_PublishModuleVersionResponse apPMVR_Status decode_string;
   json_field "source_artifact" eta_PublishModuleVersionResponse apPMVR_SourceArtifact decode_ArtifactSummary;
   json_field "buf_image_artifact" eta_PublishModuleVersionResponse apPMVR_BufImageArtifact decode_ArtifactSummary;
   json_field "buf" eta_PublishModuleVersionResponse apPMVR_Buf decode_BufInfo;
   json_field "metadata_summary" eta_PublishModuleVersionResponse apPMVR_MetadataSummary decode_MetadataSummary;
   json_field "created_at" eta_PublishModuleVersionResponse apPMVR_CreatedAt decode_time].
Definition decode_PublishModuleVersionResponse : decoder PublishModuleVersionResponse := decode_struct false
    PublishModuleVersionResponse_fields.

Record BreakingChange := mkApiBreakingChange {
  apBC_Category : string; apBC_FilePath : string; apBC_PackageName : string; apBC_Symbol : string;
  apBC_RuleID : string; apBC_Message : string; apBC_Severity : string }.
Definition BreakingChange_zero : BreakingChange := mkApiBreakingChange "" "" "" "" "" "" "".
Definition eta_BreakingChange (r : BreakingChange) : BreakingChange :=
  mkApiBreakingChange (apBC_Category r) (apBC_FilePath r) (apBC_PackageName r) (apBC_Symbol r) (apBC_RuleID r)
    (apBC_Message r) (apBC_Severity r).
Definition BreakingChange_fields : fields BreakingChange :=
  [json_field "category" eta_BreakingChange apBC_Category decode_string;
   json_field "file_path" eta_BreakingChange apBC_FilePath decode_string;
   json_field "package_name" eta_BreakingChange apBC_PackageName decode_string;
   json_field "symbol" eta_BreakingChange apBC_Symbol decode_string;
   json_field "rule_id" eta_BreakingChange apBC_RuleID decode_string;
   json_field "message" eta_BreakingChange apBC_Message decode_string;
   json_field "severity" eta_BreakingChange apBC_Severity decode_string].
Definition decode_BreakingChange : decoder BreakingChange := decode_struct false BreakingChange_fields.

Record BreakingReport := mkApiBreakingReport {
  apBR_ID : string; apBR_Module : string; apBR_Against : string; apBR_TargetRef : string; apBR_Status : string;
  apBR_ChangeCount : Z; apBR_Changes : slice BreakingChange; apBR_HumanSummary : string; apBR_CreatedAt : time }.
Definition BreakingReport_zero : BreakingReport := mkApiBreakingReport "" "" "" "" "" 0 nil_slice "" 0.
Definition eta_BreakingReport (r : BreakingReport) : BreakingReport :=
  mkApiBreakingReport (apBR_ID r) (apBR_Module r) (apBR_Against r) (apBR_TargetRef r) (apBR_Status r)
    (apBR_ChangeCount r) (apBR_Changes r) (apBR_HumanSummary r) (apBR_CreatedAt r).
Definition BreakingReport_fields : fields BreakingReport :=
  [json_field "id" eta_BreakingReport apBR_ID decode_string;
   json_field "module" eta_BreakingReport apBR_Module decode_string;
   json_field "against" eta_BreakingReport apBR_Against decode_string;
   json_field "target_ref" eta_BreakingReport apBR_TargetRef decode_string;
   json_field "status" eta_BreakingReport apBR_Status decode_string;
   json_field "change_count" eta_BreakingReport apBR_ChangeCount decode_int64;
   json_field "changes" eta_BreakingReport apBR_Changes (decode_slice BreakingChange_zero decode_BreakingChange);
   json_field "human_summary" eta_BreakingReport apBR_HumanSummary decode_string;
   json_field "created_at" eta_BreakingReport apBR_CreatedAt decode_time].
Definition decode_BreakingReport : decoder BreakingReport := decode_struct false BreakingReport_fields.

Record LinkModuleGitLabProjectRequest := mkApiLinkModuleGitLabProjectRequest {
  apLMGLPR_GitLabBaseURL : string; apLMGLPR_GitLabProjectID : Z; apLMGLPR_GitLabProjectPath : string }.
Definition LinkModuleGitLabProjectRequest_json (r : LinkModuleGitLabProjectRequest) : json :=
  JObject [("gitlab_base_url", JString (apLMGLPR_GitLabBaseURL r)); ("gitlab_project_id", JInt
    (apLMGLPR_GitLabProjectID r)); ("gitlab_project_path", JString (apLMGLPR_GitLabProjectPath r))].

Record ModuleGitLabProject := mkApiModuleGitLabProject {
  apMGLP_Module : string; apMGLP_GitLabBaseURL : string; apMGLP_GitLabProjectID : Z;
  apMGLP_GitLabProjectPath : string; apMGLP_CreatedAt : time; apMGLP_UpdatedAt : time }.
Definition ModuleGitLabProject_zero : ModuleGitLabProject := mkApiModuleGitLabProject "" "" 0 "" 0 0.
Definition eta_ModuleGitLabProject (r : ModuleGitLabProject) : ModuleGitLabProject :=
  mkApiModuleGitLabProject (apMGLP_Module r) (apMGLP_GitLabBaseURL r) (apMGLP_GitLabProjectID r)
    (apMGLP_GitLabProjectPath r) (apMGLP_CreatedAt r) (apMGLP_UpdatedAt r).
Definition ModuleGitLabProject_fields : fields ModuleGitLabProject :=
  [json_field "module" eta_ModuleGitLabProject apMGLP_Module decode_string;
   json_field "gitlab_base_url" eta_ModuleGitLabProject apMGLP_GitLabBaseURL decode_string;
   json_field "gitlab_project_id" eta_ModuleGitLabProject apMGLP_GitLabProjectID decode_int64;
   json_field "gitlab_project_path" eta_ModuleGitLabProject apMGLP_GitLabProjectPath decode_string;
   json_field "created_at" eta_ModuleGitLabProject apMGLP_CreatedAt decode_time;
   json_field "updated_at" eta_ModuleGitLabProject apMGLP_UpdatedAt decode_time].
Definition decode_ModuleGitLabProject : decoder ModuleGitLabProject := decode_struct false
    ModuleGitLabProject_fields.

Record DependencyModule := mkApiDependencyModule {
  apDM_Module : string; apDM_LatestVersion : string; apDM_DependencySources : slice string;
  apDM_Reasons : slice string }.
Definition DependencyModule_zero : DependencyModule := mkApiDependencyModule "" "" nil_slice nil_slice.
Definition eta_DependencyModule (r : DependencyModule) : DependencyModule :=
  mkApiDependencyModule (apDM_Module r) (apDM_LatestVersion r) (apDM_DependencySources r) (apDM_Reasons r).
Definition DependencyModule_fields : fields DependencyModule :=
  [json_field "module" eta_DependencyModule apDM_Module decode_string;
   json_field "latest_version" eta_DependencyModule apDM_LatestVersion decode_string;
   json_field "dependency_sources" eta_DependencyModule apDM_DependencySources (decode_slice "" decode_string);
   json_field "reasons" eta_DependencyModule apDM_Reasons (decode_slice "" decode_string)].
Definition decode_DependencyModule : decoder DependencyModule := decode_struct false DependencyModule_fields.

Record UnresolvedDependency := mkApiUnresolvedDependency {
  apUD_Module : string; apUD_Version : string; apUD_Source : string; apUD_ImportPath : string;
  apUD_ReferencedSymbol : string; apUD_Reason : string }.
Definition UnresolvedDependency_zero : UnresolvedDependency := mkApiUnresolvedDependency "" "" "" "" "" "".
Definition eta_UnresolvedDependency (r : UnresolvedDependency) : UnresolvedDependency :=
  mkApiUnresolvedDependency (apUD_Module r) (apUD_Version r) (apUD_Source r) (apUD_ImportPath r)
    (apUD_ReferencedSymbol r) (apUD_Reason r).
Definition UnresolvedDependency_fields : fields UnresolvedDependency :=
  [json_field "module" eta_UnresolvedDependency apUD_Module decode_string;
   json_field "version" eta_UnresolvedDependency apUD_Version decode_string;
   json_field "source" eta_UnresolvedDependency apUD_Source decode_string;
   json_field "import_path" eta_UnresolvedDependency apUD_ImportPath decode_string;
   json_field "referenced_symbol" eta_UnresolvedDependency apUD_ReferencedSymbol decode_string;
   json_field "reason" eta_UnresolvedDependency apUD_Reason decode_string].
Definition decode_UnresolvedDependency : decoder UnresolvedDependency := decode_struct false
    UnresolvedDependency_fields.

Record ModuleDependencyGraph := mkApiModuleDependencyGraph {
  apMDG_Module : string; apMDG_Upstream : slice DependencyModule; apMDG_Downstream : slice DependencyModule;
  apMDG_Unresolved : slice UnresolvedDependency }.
Definition ModuleDependencyGraph_zero : ModuleDependencyGraph := mkApiModuleDependencyGraph "" nil_slice
    nil_slice nil_slice.
Definition eta_ModuleDependencyGraph (r : ModuleDependencyGraph) : ModuleDependencyGraph :=
  mkApiModuleDependencyGraph (apMDG_Module r) (apMDG_Upstream r) (apMDG_Downstream r) (apMDG_Unresolved r).
Definition ModuleDependencyGraph_fields : fields ModuleDependencyGraph :=
  [json_field "module" eta_ModuleDependencyGraph apMDG_Module decode_string;
   json_field "upstream" eta_ModuleDependencyGraph apMDG_Upstream (decode_slice DependencyModule_zero
    decode_DependencyModule);
   json_field "downstream" eta_ModuleDependencyGraph apMDG_Downstream (decode_slice DependencyModule_zero
    decode_DependencyModule);
   json_field "unresolved" eta_ModuleDependencyGraph apMDG_Unresolved (decode_slice UnresolvedDependency_zero
    decode_UnresolvedDependency)].
Definition decode_ModuleDependencyGraph : decoder ModuleDependencyGraph := decode_struct false
    ModuleDependencyGraph_fields.

Record AffectedModules := mkApiAffectedModules {
  apAM_Module : string; apAM_AffectedModules : slice DependencyModule }.
Definition AffectedModules_zero : AffectedModules := mkApiAffectedModules "" nil_slice.
Definition eta_AffectedModules (r : AffectedModules) : AffectedModules :=
  mkApiAffectedModules (apAM_Module r) (apAM_AffectedModules r).
Definition AffectedModules_fields : fields AffectedModules :=
  [json_field "module" eta_AffectedModules apAM_Module decode_string;
   json_field "affected_modules" eta_AffectedModules apAM_AffectedModules (decode_slice DependencyModule_zero
    decode_DependencyModule)].
Definition decode_AffectedModules : decoder AffectedModules := decode_struct false AffectedModules_fields.

Record RuntimeImpact := mkApiRuntimeImpact {
  apRI_ServiceName : string; apRI_Environment : string; apRI_UsedModule : string; apRI_UsedVersion : string;
  apRI_GitCommit : string; apRI_BuildVersion : string; apRI_ReportedAt : time; apRI_ImpactStatus : string;
  apRI_Reason : string; apRI_DriftStatus : string; apRI_DriftReason : string }.
Definition RuntimeImpact_zero : RuntimeImpact := mkApiRuntimeImpact "" "" "" "" "" "" 0 "" "" "" "".
Definition eta_RuntimeImpact (r : RuntimeImpact) : RuntimeImpact :=
  mkApiRuntimeImpact (apRI_ServiceName r) (apRI_Environment r) (apRI_UsedModule r) (apRI_UsedVersion r)
    (apRI_GitCommit r) (apRI_BuildVersion r) (apRI_ReportedAt r) (apRI_ImpactStatus r) (apRI_Reason r)
    (apRI_DriftStatus r) (apRI_DriftReason r).
Definition RuntimeImpact_fields : fields RuntimeImpact :=
  [json_field "service_name" eta_RuntimeImpact apRI_ServiceName decode_string;
   json_field "environment" eta_RuntimeImpact apRI_Environment decode_string;
   json_field "used_module" eta_RuntimeImpact apRI_UsedModule decode_string;
   json_field "used_version" eta_RuntimeImpact apRI_UsedVersion decode_string;
   json_field "git_commit" eta_RuntimeImpact apRI_GitCommit decode_string;
   json_field "build_version" eta_RuntimeImpact apRI_BuildVersion decode_string;
   json_field "reported_at" eta_RuntimeImpact apRI_ReportedAt decode_time;
   json_field "impact_status" eta_RuntimeImpact apRI_ImpactStatus decode_string;
   json_field "reason" eta_RuntimeImpact apRI_Reason decode_string;
   json_field "drift_status" eta_RuntimeImpact apRI_DriftStatus decode_string;
   json_field "drift_reason" eta_RuntimeImpact apRI_DriftReason decode_string].
Definition decode_RuntimeImpact : decoder RuntimeImpact := decode_struct false RuntimeImpact_fields.

Record BreakingReportRuntimeImpact := mkApiBreakingReportRuntimeImpact {
  apBRRI_ReportID : string; apBRRI_Impacts : slice RuntimeImpact }.
Definition BreakingReportRuntimeImpact_zero : BreakingReportRuntimeImpact := mkApiBreakingReportRuntimeImpact
    "" nil_slice.
Definition eta_BreakingReportRuntimeImpact (r : BreakingReportRuntimeImpact) : BreakingReportRuntimeImpact :=
  mkApiBreakingReportRuntimeImpact (apBRRI_ReportID r) (apBRRI_Impacts r).
Definition BreakingReportRuntimeImpact_fields : fields BreakingReportRuntimeImpact :=
  [json_field "report_id" eta_BreakingReportRuntimeImpact apBRRI_ReportID decode_string;
   json_field "impacts" eta_BreakingReportRuntimeImpact apBRRI_Impacts (decode_slice RuntimeImpact_zero
    decode_RuntimeImpact)].
Definition decode_BreakingReportRuntimeImpact : decoder BreakingReportRuntimeImpact := decode_struct false
    BreakingReportRuntimeImpact_fields.

Record AddModuleOwnerRequest := mkApiAddModuleOwnerRequest {
  apAMOR_SubjectType : string; apAMOR_Subject : string; apAMOR_Role : string; apAMOR_Actor : string }.
Definition AddModuleOwnerRequest_json (r : AddModuleOwnerRequest) : json :=
  JObject ([("subject_type", JString (apAMOR_SubjectType r)); ("subject", JString (apAMOR_Subject r));
    ("role", JString (apAMOR_Role r))] ++ omitempty "actor" (apAMOR_Actor r))%list.

Record ModuleOwner := mkApiModuleOwner {
  apMO_ID : string; apMO_ModuleID : string; apMO_ModuleName : string; apMO_SubjectType : string;
  apMO_Subject : string; apMO_Role : string; apMO_CreatedAt : time; apMO_UpdatedAt : time }.
Definition ModuleOwner_zero : ModuleOwner := mkApiModuleOwner "" "" "" "" "" "" 0 0.
Definition eta_ModuleOwner (r : ModuleOwner) : ModuleOwner :=
  mkApiModuleOwner (apMO_ID r) (apMO_ModuleID r) (apMO_ModuleName r) (apMO_SubjectType r) (apMO_Subject r)
    (apMO_Role r) (apMO_CreatedAt r) (apMO_UpdatedAt r).
Definition ModuleOwner_fields : fields ModuleOwner :=
  [json_field "id" eta_ModuleOwner apMO_ID decode_string;
   json_field "module_id" eta_ModuleOwner apMO_ModuleID decode_string;
   json_field "module_name" eta_ModuleOwner apMO_ModuleName decode_string;
   json_field "subject_type" eta_ModuleOwner apMO_SubjectType decode_string;
   json_field "subject" eta_ModuleOwner apMO_Subject decode_string;
   json_field "role" eta_ModuleOwner apMO_Role decode_string;
   json_field "created_at" eta_ModuleOwner apMO_CreatedAt decode_time;
   json_field "updated_at" eta_ModuleOwner apMO_UpdatedAt decode_time].
Definition decode_ModuleOwner : decoder ModuleOwner := decode_struct false ModuleOwner_fields.

Record ListModuleOwnersResponse := mkApiListModuleOwnersResponse {
  apLMOR_Module : string; apLMOR_Owners : slice ModuleOwner }.
Definition ListModuleOwnersResponse_zero : ListModuleOwnersResponse := mkApiListModuleOwnersResponse "" nil_slice.
Definition eta_ListModuleOwnersResponse (r : ListModuleOwnersResponse) : ListModuleOwnersResponse :=
  mkApiListModuleOwnersResponse (apLMOR_Module r) (apLMOR_Owners r).
Definition ListModuleOwnersResponse_fields : fields ListModuleOwnersResponse :=
  [json_field "module" eta_ListModuleOwnersResponse apLMOR_Module decode_string;
   json_field "owners" eta_ListModuleOwnersResponse apLMOR_Owners (decode_slice ModuleOwner_zero
    decode_ModuleOwner)].
Definition decode_ListModuleOwnersResponse : decoder ListModuleOwnersResponse := decode_struct false
    ListModuleOwnersResponse_fields.

Record CreateApprovalRequestRequest := mkApiCreateApprovalRequestRequest {
  apCARR_Actor : string }.
Definition CreateApprovalRequestRequest_json (r : CreateApprovalRequestRequest) : json :=
  JObject (omitempty "actor" (apCARR_Actor r))%list.

Record ApprovalDecisionRequest := mkApiApprovalDecisionRequest {
  apADR_Actor : string; apADR_Comment : string }.
Definition ApprovalDecisionRequest_json (r : ApprovalDecisionRequest) : json :=
  JObject (omitempty "actor" (apADR_Actor r) ++ omitempty "comment" (apADR_Comment r))%list.

Record ApprovalRequirement := mkApiApprovalRequirement {
  apARx_ID : string; apARx_ApprovalRequestID : string; apARx_RequirementType : string;
  apARx_TargetModuleID : string; apARx_TargetModuleName : string; apARx_RequiredRole : string;
  apARx_Status : string; apARx_Reason : string; apARx_CreatedAt : time; apARx_UpdatedAt : time }.
Definition ApprovalRequirement_zero : ApprovalRequirement := mkApiApprovalRequirement "" "" "" "" "" "" "" "" 0 0.
Definition eta_ApprovalRequirement (r : ApprovalRequirement) : ApprovalRequirement :=
  mkApiApprovalRequirement (apARx_ID r) (apARx_ApprovalRequestID r) (apARx_RequirementType r)
    (apARx_TargetModuleID r) (apARx_TargetModuleName r) (apARx_RequiredRole r) (apARx_Status r) (apARx_Reason
    r) (apARx_CreatedAt r) (apARx_UpdatedAt r).
Definition ApprovalRequirement_fields : fields ApprovalRequirement :=
  [json_field "id" eta_ApprovalRequirement apARx_ID decode_string;
   json_field "approval_request_id" eta_ApprovalRequirement apARx_ApprovalRequestID decode_string;
   json_field "requirement_type" eta_ApprovalRequirement apARx_RequirementType decode_string;
   json_field "target_module_id" eta_ApprovalRequirement apARx_TargetModuleID decode_string;
   json_field "target_module_name" eta_ApprovalRequirement apARx_TargetModuleName decode_string;
   json_field "required_role" eta_ApprovalRequirement apARx_RequiredRole decode_string;
   json_field "status" eta_ApprovalRequirement apARx_Status decode_string;
   json_field "reason" eta_ApprovalRequirement apARx_Reason decode_string;
   json_field "created_at" eta_ApprovalRequirement apARx_CreatedAt decode_time;
   json_field "updated_at" eta_ApprovalRequirement apARx_UpdatedAt decode_time].
Definition decode_ApprovalRequirement : decoder ApprovalRequirement := decode_struct false
    ApprovalRequirement_fields.

Record ApprovalDecision := mkApiApprovalDecision {
  apAD_ID : string; apAD_ApprovalRequestID : string; apAD_RequirementID : string; apAD_Decision : string;
  apAD_DecidedBy : string; apAD_Comment : string; apAD_CreatedAt : time }.
Definition ApprovalDecision_zero : ApprovalDecision := mkApiApprovalDecision "" "" "" "" "" "" 0.
Definition eta_ApprovalDecision (r : ApprovalDecision) : ApprovalDecision :=
  mkApiApprovalDecision (apAD_ID r) (apAD_ApprovalRequestID r) (apAD_RequirementID r) (apAD_Decision r)
    (apAD_DecidedBy r) (apAD_Comment r) (apAD_CreatedAt r).
Definition ApprovalDecision_fields : fields ApprovalDecision :=
  [json_field "id" eta_ApprovalDecision apAD_ID decode_string;
   json_field "approval_request_id" eta_ApprovalDecision apAD_ApprovalRequestID decode_string;
   json_field "requirement_id" eta_ApprovalDecision apAD_RequirementID decode_string;
   json_field "decision" eta_ApprovalDecision apAD_Decision decode_string;
   json_field "decided_by" eta_ApprovalDecision apAD_DecidedBy decode_string;
   json_field "comment" eta_ApprovalDecision apAD_Comment decode_string;
   json_field "created_at" eta_ApprovalDecision apAD_CreatedAt decode_time].
Definition decode_ApprovalDecision : decoder ApprovalDecision := decode_struct false ApprovalDecision_fields.

Record ApprovalRequest := mkApiApprovalRequest {
  apAR_ID : string; apAR_ModuleID : string; apAR_ModuleName : string; apAR_BreakingReportID : string;
  apAR_TargetRef : string; apAR_Status : string; apAR_RequiredApprovals : Z; apAR_ReceivedApprovals : Z;
  apAR_Requirements : slice ApprovalRequirement; apAR_Decisions : slice ApprovalDecision; apAR_CreatedAt : time;
  apAR_UpdatedAt : time }.
Definition ApprovalRequest_zero : ApprovalRequest := mkApiApprovalRequest "" "" "" "" "" "" 0 0 nil_slice
    nil_slice 0 0.
Definition eta_ApprovalRequest (r : ApprovalRequest) : ApprovalRequest :=
  mkApiApprovalRequest (apAR_ID r) (apAR_ModuleID r) (apAR_ModuleName r) (apAR_BreakingReportID r)
    (apAR_TargetRef r) (apAR_Status r) (apAR_RequiredApprovals r) (apAR_ReceivedApprovals r)
    (apAR_Requirements r) (apAR_Decisions r) (apAR_CreatedAt r) (apAR_UpdatedAt r).
Definition ApprovalRequest_fields : fields ApprovalRequest :=
  [json_field "id" eta_ApprovalRequest apAR_ID decode_string;
   json_field "module_id" eta_ApprovalRequest apAR_ModuleID decode_string;
   json_field "module_name" eta_ApprovalRequest apAR_ModuleName decode_string;
   json_field "breaking_report_id" eta_ApprovalRequest apAR_BreakingReportID decode_string;
   json_field "target_ref" eta_ApprovalRequest apAR_TargetRef decode_string;
   json_field "status" eta_ApprovalRequest apAR_Status decode_string;
   json_field "required_approvals" eta_ApprovalRequest apAR_RequiredApprovals decode_int64;
   json_field "received_approvals" eta_ApprovalRequest apAR_ReceivedApprovals decode_int64;
   json_field "requirements" eta_ApprovalRequest apAR_Requirements (decode_slice ApprovalRequirement_zero
    decode_ApprovalRequirement);
   json_field "decisions" eta_ApprovalRequest apAR_Decisions (decode_slice ApprovalDecision_zero
    decode_ApprovalDecision);
   json_field "created_at" eta_ApprovalRequest apAR_CreatedAt decode_time;
   json_field "updated_at" eta_ApprovalRequest apAR_UpdatedAt decode_time].
Definition decode_ApprovalRequest : decoder ApprovalRequest := decode_struct false ApprovalRequest_fields.

Record RuntimeModuleRequest := mkApiRuntimeModuleRequest {
  apRMR_Module : string; apRMR_Version : string }.
Definition RuntimeModuleRequest_json (r : RuntimeModuleRequest) : json :=
  JObject [("module", JString (apRMR_Module r)); ("version", JString (apRMR_Version r))].

Record ReportRuntimeInventoryRequest := mkApiReportRuntimeInventoryRequest {
  apRRIR_ServiceName : string; apRRIR_Environment : string; apRRIR_GitCommit : string; apRRIR_BuildVersion : string;
  apRRIR_Modules : list RuntimeModuleRequest }.
Definition ReportRuntimeInventoryRequest_json (r : ReportRuntimeInventoryRequest) : json :=
  JObject [("service_name", JString (apRRIR_ServiceName r)); ("environment", JString (apRRIR_Environment r));
    ("git_commit", JString (apRRIR_GitCommit r)); ("build_version", JString (apRRIR_BuildVersion r));
    ("modules", JArray (map RuntimeModuleRequest_json (apRRIR_Modules r)))].

Record RuntimeModuleUsage := mkApiRuntimeModuleUsage {
  apRMU_Module : string; apRMU_Version : string; apRMU_LatestVersion : string; apRMU_DriftStatus : string;
  apRMU_DriftReason : string }.
Definition RuntimeModuleUsage_zero : RuntimeModuleUsage := mkApiRuntimeModuleUsage "" "" "" "" "".
Definition eta_RuntimeModuleUsage (r : RuntimeModuleUsage) : RuntimeModuleUsage :=
  mkApiRuntimeModuleUsage (apRMU_Module r) (apRMU_Version r) (apRMU_LatestVersion r) (apRMU_DriftStatus r)
    (apRMU_DriftReason r).
Definition RuntimeModuleUsage_fields : fields RuntimeModuleUsage :=
  [json_field "module" eta_RuntimeModuleUsage apRMU_Module decode_string;
   json_field "version" eta_RuntimeModuleUsage apRMU_Version decode_string;
   json_field "latest_version" eta_RuntimeModuleUsage apRMU_LatestVersion decode_string;
   json_field "drift_status" eta_RuntimeModuleUsage apRMU_DriftStatus decode_string;
   json_field "drift_reason" eta_RuntimeModuleUsage apRMU_DriftReason decode_string].
Definition decode_RuntimeModuleUsage : decoder RuntimeModuleUsage := decode_struct false RuntimeModuleUsage_fields.

Record ReportRuntimeInventoryResponse := mkApiReportRuntimeInventoryResponse {
  apRRIRx_DeploymentID : string; apRRIRx_ServiceName : string; apRRIRx_Environment : string;
  apRRIRx_GitCommit : string; apRRIRx_BuildVersion : string; apRRIRx_ReportedAt : time;
  apRRIRx_Usages : slice RuntimeModuleUsage }.
Definition ReportRuntimeInventoryResponse_zero : ReportRuntimeInventoryResponse :=
    mkApiReportRuntimeInventoryResponse "" "" "" "" "" 0 nil_slice.
Definition eta_ReportRuntimeInventoryResponse (r : ReportRuntimeInventoryResponse) :
    ReportRuntimeInventoryResponse :=
  mkApiReportRuntimeInventoryResponse (apRRIRx_DeploymentID r) (apRRIRx_ServiceName r) (apRRIRx_Environment r)
    (apRRIRx_GitCommit r) (apRRIRx_BuildVersion r) (apRRIRx_ReportedAt r) (apRRIRx_Usages r).
Definition ReportRuntimeInventoryResponse_fields : fields ReportRuntimeInventoryResponse :=
  [json_field "deployment_id" eta_ReportRuntimeInventoryResponse apRRIRx_DeploymentID decode_string;
   json_field "service_name" eta_ReportRuntimeInventoryResponse apRRIRx_ServiceName decode_string;
   json_field "environment" eta_ReportRuntimeInventoryResponse apRRIRx_Environment decode_string;
   json_field "git_commit" eta_ReportRuntimeInventoryResponse apRRIRx_GitCommit decode_string;
   json_field "build_version" eta_ReportRuntimeInventoryResponse apRRIRx_BuildVersion decode_string;
   json_field "reported_at" eta_ReportRuntimeInventoryResponse apRRIRx_ReportedAt decode_time;
   json_field "usages" eta_ReportRuntimeInventoryResponse apRRIRx_Usages (decode_slice RuntimeModuleUsage_zero
    decode_RuntimeModuleUsage)].
Definition decode_ReportRuntimeInventoryResponse : decoder ReportRuntimeInventoryResponse := decode_struct
    false ReportRuntimeInventoryResponse_fields.

Record CapabilityStatus := mkApiCapabilityStatus {
  apCS_Name : string; apCS_Enabled : bool }.
Definition CapabilityStatus_zero : CapabilityStatus := mkApiCapabilityStatus "" false.
Definition eta_CapabilityStatus (r : CapabilityStatus) : CapabilityStatus :=
  mkApiCapabilityStatus (apCS_Name r) (apCS_Enabled r).
Definition CapabilityStatus_fields : fields CapabilityStatus :=
  [json_field "name" eta_CapabilityStatus apCS_Name decode_string;
   json_field "enabled" eta_CapabilityStatus apCS_Enabled decode_bool].
Definition decode_CapabilityStatus : decoder CapabilityStatus := decode_struct false CapabilityStatus_fields.

Record EditionResponse := mkApiEditionResponse {
  apER_Edition : string; apER_Version : string; apER_Commit : string; apER_BuildDate : string;
  apER_Capabilities : slice CapabilityStatus }.
Definition EditionResponse_zero : EditionResponse := mkApiEditionResponse "" "" "" "" nil_slice.
Definition eta_EditionResponse (r : EditionResponse) : EditionResponse :=
  mkApiEditionResponse (apER_Edition r) (apER_Version r) (apER_Commit r) (apER_BuildDate r) (apER_Capabilities r).
Definition EditionResponse_fields : fields EditionResponse :=
  [json_field "edition" eta_EditionResponse apER_Edition decode_string;
   json_field "version" eta_EditionResponse apER_Version decode_string;
   json_field "commit" eta_EditionResponse apER_Commit decode_string;
   json_field "build_date" eta_EditionResponse apER_BuildDate decode_string;
   json_field "capabilities" eta_EditionResponse apER_Capabilities (decode_slice CapabilityStatus_zero
    decode_CapabilityStatus)].
Definition decode_EditionResponse : decoder EditionResponse := decode_struct false EditionResponse_fields.

