(* ===== verification/ApiReads.v ===== *)
(** * What the client reads

    The documents of the server ([transport/http/*_dto.go]) as the client decodes
    them ([cli/api/client.go]): for every answer the client reads, the value it
    gets holds the fields of what the use case returned, with the bytes of a text
    that are not UTF-8 replaced, as JSON does. *)

From S2P Require Import Prelude Errors GoStrings JsonScan Domain Json Effects CatalogStore JsonDecode Rfc3339 TimeRoundTrip Edition DependencyStore DependencyGraph RuntimeStore RuntimeInventory Registry HttpDto ApiTypes.

Open Scope string_scope.
Open Scope Z_scope.

(** ** Documents that can be sent *)

(** The integers are of 64 bits, the times have a text, and there is no raw part. *)
Fixpoint sendable (v : json) : bool :=
  match v with
  | JInt z => (int64_min <=? z) && (z <=? int64_max)
  | JTime t => is_ok (format_time t)
  | JRaw _ => false
  | JArray l => forallb sendable l
  | JObject fields => forallb (fun f => sendable (snd f)) fields
  | _ => true
  end.

Lemma forallb_Forall_impl {A} (P : A -> Prop) (p : A -> bool) (q : A -> bool) l :
  Forall (fun x => p x = true -> q x = true) l -> forallb p l = true -> forallb q l = true.
Proof. induction 1 as [|x l Hx _ IH]; cbn; [done|]. intros [H1 H2]%andb_true_iff. by rewrite Hx, IH. Qed.

Lemma sendable_no_raw v : sendable v = true -> no_raw v = true.
Proof.
  induction v as [s|z|b|t|t|l IH|l IH] using json_ind'; cbn; try done;
    apply (forallb_Forall_impl (fun _ => True)); exact IH.
Qed.

Lemma result_mapM_Ok {A B} (f : A -> result B) l :
  Forall (fun x => exists y, f x = Ok y) l -> exists ys, result_mapM f l = Ok ys.
Proof.
  induction 1 as [|x l [y Hy] _ [ys IH]]; cbn; [by eexists|]. rewrite Hy, IH. by eexists.
Qed.

Lemma sendable_Marshal v : sendable v = true -> exists text, Marshal v = Ok text.
Proof.
  induction v as [s|z|b|t|t|l IH|l IH] using json_ind'; intros H;
    [eexists; reflexivity..| |done| |].
  - cbn in *. destruct (format_time t) as [x|]; [by eexists|done].
  - rewrite Marshal_array. destruct (result_mapM_Ok Marshal l) as [ys ->]; [|by eexists].
    cbn in H. rewrite forallb_forall in H. rewrite Forall_forall in IH |- *. intros x Hx.
    apply IH; [done|]. by apply H, list_elem_of_In.
  - rewrite Marshal_object. destruct (result_mapM_Ok marshal_field l) as [ys ->]; [|by eexists].
    cbn in H. rewrite forallb_forall in H. rewrite Forall_forall in IH |- *. intros x Hx.
    destruct (IH x Hx) as [y Hy]; [by apply (H x), list_elem_of_In|]. unfold marshal_field. rewrite Hy. by eexists.
Qed.

(** ** Texts of ASCII *)

Definition ascii_text (s : string) : bool := forallb_string (fun a => byte a <? 128) s.

Lemma encode_ascii a : byte a <? 128 = true -> encode_rune (byte a) = String a "".
Proof. destruct a as [[] [] [] [] [] [] [] []]; intros H; by try discriminate H. Qed.

Lemma clean_ascii s : ascii_text s = true -> clean s = s.
Proof.
  unfold clean, ascii_text. induction s as [|a s IH]; [done|]. cbn [forallb_string]. intros [Ha Hs]%andb_true_iff.
  cbn [runes]. rewrite Ha. cbn [encode_runes fold_right]. fold (encode_runes (runes s)).
  rewrite encode_ascii, IH by done. done.
Qed.

Lemma ascii_app s t : ascii_text (s +:+ t) = ascii_text s && ascii_text t.
Proof. apply forallb_string_app. Qed.
Lemma ascii_all_digits s : all_digits s -> ascii_text s = true.
Proof. apply forallb_string_impl. intros a. unfold is_digit. lia. Qed.

Lemma ascii_digits n z : ascii_text (digits n z) = true.
Proof.
  revert z. induction n as [|n IH]; intros z; [done|]. cbn [digits]. rewrite ascii_app, IH.
  assert (H : 0 <= z mod 10 < 10) by by apply Z.mod_pos_bound. revert H. generalize (z mod 10). intros d H.
  assert (Hd : d = 0 \/ d = 1 \/ d = 2 \/ d = 3 \/ d = 4 \/ d = 5 \/ d = 6 \/ d = 7 \/ d = 8 \/ d = 9) by lia.
  repeat destruct Hd as [->|Hd]; try reflexivity. by subst.
Qed.
Lemma ascii_fraction n : 0 <= n -> ascii_text (fraction n) = true.
Proof.
  intros H. unfold fraction. destruct (n =? 0); [done|]. rewrite ascii_app.
  by rewrite (ascii_all_digits _ (trim_all_digits _ (proj1 (digits_all 9 n H)))).
Qed.

Lemma ascii_time t text : format_time t = Ok text -> ascii_text text = true.
Proof.
  unfold format_time. destruct (civil _) as [[year month] day]. destruct (_ || _); [done|]. intros H.
  apply (f_equal (fun r => if r is Ok x then x else "")) in H. cbv beta iota in H. subst text.
  repeat rewrite ascii_app. rewrite !ascii_digits, ascii_fraction by (by apply Z.mod_pos_bound). done.
Qed.

(** ** Decoding a document *)

Definition document (fields : list (string * json)) : list (string * jvalue) :=
  map (fun f => (clean (fst f), value_of (snd f))) fields.
(** The members of a document, decoded into the fields of a struct. *)
Definition fill {T} (strict : bool) (fs : fields T) (doc : list (string * json)) (t : T) : option T :=
  decode_members strict fs (document doc) t.

Lemma fill_struct {T} strict (fs : fields T) doc t : decode_struct strict fs (value_of (JObject doc)) t = fill strict fs doc t.
Proof. done. Qed.
Lemma fill_field {T} strict (fs : fields T) name v rest d t t' :
  find_field fs (clean name) = Some d -> d (value_of v) t = Some t' -> fill strict fs ((name, v) :: rest) t = fill strict fs rest t'.
Proof. intros H1 H2. unfold fill. cbn [document map fst snd decode_members]. by rewrite H1, H2. Qed.
Lemma fill_other {T} (fs : fields T) name v rest t :
  find_field fs (clean name) = None -> fill false fs ((name, v) :: rest) t = fill false fs rest t.
Proof. intros H. unfold fill. cbn [document map fst snd decode_members]. by rewrite H. Qed.
Lemma fill_app {T} strict (fs : fields T) doc rest t t' :
  fill strict fs doc t = Some t' -> fill strict fs (doc ++ rest) t = fill strict fs rest t'.
Proof.
  revert t. induction doc as [|[name v] doc IH]; intros t H; [by injection H as ->|].
  unfold fill in *. cbn [app document map fst snd decode_members] in *.
  destruct (find_field fs (clean name)); [|by destruct strict; [|apply IH]]. destruct (d _ t); [by apply IH|done].
Qed.
(** A field that is left out when it is empty. *)
Lemma fill_omitempty {T} strict (fs : fields T) name s rest d t t' :
  find_field fs (clean name) = Some d -> d (VString (clean s)) t = Some t' -> (s = "" -> t = t') ->
  fill strict fs (omitempty name s ++ rest) t = fill strict fs rest t'.
Proof.
  intros H1 H2 H3. apply fill_app. unfold omitempty. destruct (String.eqb_spec s ""); [by rewrite H3|].
  erewrite fill_field; [done|exact H1|exact H2].
Qed.
Lemma fill_omitted {T} (fs : fields T) name doc rest t :
  find_field fs (clean name) = None -> (forall f, f ∈ doc -> fst f = name) -> fill false fs (doc ++ rest) t = fill false fs rest t.
Proof.
  intros H Hn. apply fill_app. induction doc as [|[n v] doc IH]; [done|].
  rewrite (fill_other fs n); [apply IH; intros f Hf; apply Hn; by constructor|].
  pose proof (Hn (n, v) ltac:(constructor)) as E. cbn in E. by subst n.
Qed.
Lemma omitempty_name name s f : f ∈ omitempty name s -> fst f = name.
Proof. unfold omitempty. destruct (_ =? _)%string; intros H; [by apply elem_of_nil in H|by apply list_elem_of_singleton in H as ->]. Qed.
Lemma omit_empty_name name l f : f ∈ omit_empty name l -> fst f = name.
Proof. destruct l; intros H; [by apply elem_of_nil in H|by apply list_elem_of_singleton in H as ->]. Qed.

(** ** Decoding a value *)

Lemma read_string s old : decode_string (value_of (JString s)) old = Some (clean s).
Proof. done. Qed.
Lemma read_bool b old : decode_bool (value_of (JBool b)) old = Some b.
Proof. done. Qed.
Lemma read_int z old : sendable (JInt z) = true -> decode_int64 (value_of (JInt z)) old = Some z.
Proof. cbn. intros H. by rewrite parse_int_itoa, H. Qed.
Lemma read_time t old : sendable (JTime t) = true -> decode_time (value_of (JTime t)) old = Some t.
Proof.
  cbn. destruct (format_time t) as [text|] eqn:E; [|done]. intros _. cbn [decode_time].
  rewrite clean_ascii by by eapply ascii_time. by apply format_time_parsed.
Qed.
Lemma read_pointer_time t : sendable (JTime t) = true -> decode_pointer 0 decode_time (value_of (JTime t)) None = Some (Some t).
Proof.
  intros H. pose proof (read_time t 0 H) as E. unfold decode_pointer. cbn in H, E |- *.
  destruct (format_time t); [|done]. cbn in *. by rewrite E.
Qed.

(** The values that the items of a slice show. *)
Definition shown_slice {A B} (view : A -> B) (l : list A) : slice B := mkSlice (map view l) (length l).
Lemma slice_items_shown {A B} (view : A -> B) l : slice_items (shown_slice view l) = map view l.
Proof. unfold slice_items, shown_slice. cbn. rewrite <- (length_map view l). apply firstn_all. Qed.

Definition reads {A B} (d : decoder B) (zero : B) (doc : A -> json) (view : A -> B) : Prop :=
  forall a, sendable (doc a) = true -> d (value_of (doc a)) zero = Some (view a).

Lemma read_slice {A B} (d : decoder B) zero (doc : A -> json) view l :
  reads d zero doc view -> sendable (JArray (map doc l)) = true ->
  decode_slice zero d (value_of (JArray (map doc l))) nil_slice = Some (shown_slice view l).
Proof.
  intros Hd H. cbn [sendable] in H. cbn [value_of].
  assert (Hi : decode_items zero d (map value_of (map doc l)) [] = Some (map view l)).
  { induction l as [|a l IH]; [done|]. cbn in H. apply andb_true_iff in H as [H1 H2].
    cbn [map decode_items head default tail]. rewrite (Hd a H1), IH by done. done. }
  destruct l as [|a l]; [done|]. unfold decode_slice. cbn [map] in *. cbn [slice_array nil_slice]. rewrite Hi.
  cbn. unfold shown_slice. by rewrite !length_map.
Qed.
Lemma sendable_object l : sendable (JObject l) = forallb (fun f => sendable (snd f)) l.
Proof. done. Qed.

(** The parts of a document that can be sent can be sent. *)
Ltac sent_parts H :=
  rewrite sendable_object in H; repeat (cbn [forallb snd] in H || rewrite forallb_app in H);
  rewrite ?andb_true_iff in H; destruct_and? H.

Lemma fill_known {T A} strict (fs : fields T) key name (get : T -> A) set (d : decoder A) v rest t a :
  find_field fs (clean key) = Some (field name get set d).2 -> d (value_of v) (get t) = Some a ->
  fill strict fs ((key, v) :: rest) t = fill strict fs rest (set a t).
Proof. intros H1 H2. eapply fill_field; [exact H1|]. unfold field. cbn [snd]. by rewrite H2. Qed.
Lemma fill_known_text {T} strict (fs : fields T) key name (get : T -> string) set s rest t :
  find_field fs (clean key) = Some (field name get set decode_string).2 -> (s = "" -> t = set (clean s) t) ->
  fill strict fs (omitempty key s ++ rest) t = fill strict fs rest (set (clean s) t).
Proof. intros H1 H2. eapply fill_omitempty; [exact H1| |exact H2]. done. Qed.
Lemma fill_known_time {T} strict (fs : fields T) key name (get : T -> option time) set v rest t :
  find_field fs (clean key) = Some (field name get set (decode_pointer 0 decode_time)).2 -> get t = None ->
  forallb (fun f => sendable (snd f)) (omit_nil key JTime v) = true -> (v = None -> t = set v t) ->
  fill strict fs (omit_nil key JTime v ++ rest) t = fill strict fs rest (set v t).
Proof.
  intros H1 H2 H3 H4. destruct v as [u|]; [|by rewrite <- H4]. cbn [omit_nil forallb app] in *.
  apply andb_true_iff in H3 as [H3 _]. erewrite fill_known; [reflexivity|exact H1|]. rewrite H2. by apply read_pointer_time.
Qed.
Lemma fill_known_int {T} strict (fs : fields T) key name (get : T -> Z) set z rest t :
  find_field fs (clean key) = Some (field name get set decode_int64).2 ->
  forallb (fun f => sendable (snd f)) (omit_zero key z) = true -> (z = 0 -> t = set z t) ->
  fill strict fs (omit_zero key z ++ rest) t = fill strict fs rest (set z t).
Proof.
  intros H1 H2 H3. unfold omit_zero in *. destruct (Z.eqb_spec z 0); [by rewrite <- H3|]. cbn [forallb app] in *.
  apply andb_true_iff in H2 as [H2 _]. erewrite fill_known; [reflexivity|exact H1|]. by apply read_int.
Qed.
Lemma read_strings l : decode_slice "" decode_string (value_of (JStrings l)) nil_slice = Some (shown_slice clean l).
Proof. apply (read_slice decode_string "" JString clean); [done|]. cbn. by induction l. Qed.

Create HintDb client_reads.

(** The members of a document, one after the other. *)
Ltac read_value :=
  lazymatch goal with
  | |- _ (value_of (JString _)) _ = _ => apply read_string
  | |- _ (value_of (JBool _)) _ = _ => apply read_bool
  | |- _ (value_of (JInt _)) _ = _ => apply read_int; assumption
  | |- _ (value_of (JTime _)) _ = _ => apply read_time; assumption
  | |- _ (value_of (JStrings _)) _ = _ => apply read_strings
  | |- _ (value_of (JArray (map ?doc _))) _ = _ =>
      eapply (read_slice _ _ doc); [solve [eauto 1 with client_reads nocore]|assumption]
  | |- _ (value_of (?doc _)) _ = _ =>
      let H := fresh in
      eassert (reads _ _ doc _) as H by solve [eauto 1 with client_reads nocore]; apply H; assumption
  end.
Ltac read_step :=
  lazymatch goal with
  | |- fill _ _ ((_, _) :: _) _ = _ =>
      first [erewrite fill_known; [|reflexivity|read_value]|rewrite fill_other by reflexivity]
  | |- fill _ _ (omitempty _ _ ++ _) _ = _ =>
      first [erewrite fill_known_text; [|reflexivity|intros ->; reflexivity]
            |erewrite fill_omitted; [| |apply omitempty_name]; [|reflexivity]]
  | |- fill _ _ (omitempty ?name ?s) _ = _ => rewrite <- (app_nil_r (omitempty name s))
  | |- fill _ _ (omit_nil _ _ _ ++ _) _ = _ =>
      erewrite fill_known_time; [|reflexivity|reflexivity|assumption|intros ->; reflexivity]
  | |- fill _ _ (omit_zero _ _ ++ _) _ = _ => erewrite fill_known_int; [|reflexivity|assumption|intros ->; reflexivity]
  | |- fill _ _ (omit_empty _ _ ++ _) _ = _ => erewrite fill_omitted; [| |apply omit_empty_name]; [|reflexivity]
  end;
  lazymatch goal with |- fill ?st ?fs ?doc ?t = ?r => let t' := eval cbn in t in change (fill st fs doc t' = r) end.
Ltac read_document H :=
  sent_parts H; rewrite fill_struct; repeat (cbn [app]; read_step); reflexivity.

(** ** The documents *)

Definition show_module (m : Domain.Module_) : ApiTypes.Module_ :=
  mkApiModule (clean (module_ID m)) (clean (module_Name m)) (clean (module_Description m)) (clean
    (module_RepositoryURL m)) (module_CreatedAt m) (module_UpdatedAt m).
Lemma read_module : reads decode_Module Module_zero moduleResponse show_module.
Proof. intros m H. unfold decode_Module, moduleResponse, moduleDTO in *. read_document H. Qed.
#[export] Hint Resolve read_module : client_reads.

Definition show_modules (l : list Domain.Module_) : ApiTypes.ListModulesResponse :=
  mkApiListModulesResponse (shown_slice show_module l).
Lemma read_modules : reads decode_ListModulesResponse ListModulesResponse_zero (fun l => listModulesResponse (map moduleResponse l)) show_modules.
Proof. intros l H. unfold decode_ListModulesResponse, listModulesResponse in *. read_document H. Qed.
#[export] Hint Resolve read_modules : client_reads.

Definition show_version (v : Domain.ModuleVersion) : ApiTypes.ModuleVersion :=
  mkApiModuleVersion (clean (version_ID v)) (clean (version_ModuleID v)) (clean (version_Version v)) (clean
    (version_Digest v)) (clean (version_Status v)) (version_CreatedAt v) (version_PublishedAt v)
    (version_DeprecatedAt v) (clean (version_DeprecatedBy v)) (clean (version_DeprecationReason v)).
Lemma read_version : reads decode_ModuleVersion ModuleVersion_zero moduleVersionResponse show_version.
Proof. intros v H. unfold decode_ModuleVersion, moduleVersionResponse, moduleVersionDTO in *. read_document H. Qed.
#[export] Hint Resolve read_version : client_reads.

Definition show_versions (l : list Domain.ModuleVersion) : ApiTypes.ListModuleVersionsResponse :=
  mkApiListModuleVersionsResponse (shown_slice show_version l).
Lemma read_versions : reads decode_ListModuleVersionsResponse ListModuleVersionsResponse_zero (fun l => listModuleVersionsResponse (map moduleVersionResponse l)) show_versions.
Proof. intros l H. unfold decode_ListModuleVersionsResponse, listModuleVersionsResponse in *. read_document H. Qed.
#[export] Hint Resolve read_versions : client_reads.

Definition show_artifact (a : Domain.Artifact) : ApiTypes.ArtifactSummary :=
  mkApiArtifactSummary (clean (artifact_Kind a)) (clean (artifact_ChecksumSHA256 a)) (artifact_SizeBytes a).
Lemma read_artifact : reads decode_ArtifactSummary ArtifactSummary_zero artifactSummaryResponse show_artifact.
Proof. intros a H. unfold decode_ArtifactSummary, artifactSummaryResponse, artifactSummaryDTO in *. read_document H. Qed.
#[export] Hint Resolve read_artifact : client_reads.

Definition show_buf (config : BufConfigInfo) (lint : BufLintResult) : ApiTypes.BufInfo :=
  mkApiBufInfo (buf_YAMLPresent config) (buf_LockPresent config) (clean (if (lint_Status lint =? "")%string
    then BufLintStatusNotRun else lint_Status lint)) (clean (lint_Report lint)).
Lemma read_buf (config : BufConfigInfo) : reads decode_BufInfo BufInfo_zero (bufInfoResponse config) (show_buf config).
Proof. intros lint H. unfold decode_BufInfo, bufInfoResponse, bufInfoDTO in *. read_document H. Qed.
#[export] Hint Resolve read_buf : client_reads.

Definition show_summary (s : DescriptorMetadataSummary) : ApiTypes.MetadataSummary :=
  mkApiMetadataSummary (summary_FileCount s) (summary_PackageCount s) (summary_ServiceCount s)
    (summary_MethodCount s) (summary_MessageCount s) (summary_FieldCount s) (summary_EnumCount s)
    (summary_EnumValueCount s).
Lemma read_summary : reads decode_MetadataSummary MetadataSummary_zero metadataSummaryResponse show_summary.
Proof. intros s H. unfold decode_MetadataSummary, metadataSummaryResponse, metadataSummaryDTO in *. read_document H. Qed.
#[export] Hint Resolve read_summary : client_reads.

Definition show_change (c : Domain.BreakingChange) : ApiTypes.BreakingChange :=
  mkApiBreakingChange (clean (change_Category c)) (clean (change_FilePath c)) (clean (change_PackageName c))
    (clean (change_Symbol c)) (clean (change_RuleID c)) (clean (change_Message c)) (clean (change_Severity c)).
Lemma read_change : reads decode_BreakingChange BreakingChange_zero breakingChangeResponse show_change.
Proof. intros c H. unfold decode_BreakingChange, breakingChangeResponse, breakingChangeDTO in *. read_document H. Qed.
#[export] Hint Resolve read_change : client_reads.

Definition show_report (report : Domain.BreakingReport) (changes : list Domain.BreakingChange) : ApiTypes.BreakingReport :=
  mkApiBreakingReport (clean (report_ID report)) (clean (report_ModuleName report)) (clean (report_BaseVersion
    report)) (clean (report_TargetRef report)) (clean (report_Status report)) (report_ChangeCount report) (shown_slice
    show_change changes) (clean (report_HumanSummary report)) (report_CreatedAt report).
Lemma read_report (report : Domain.BreakingReport) : reads decode_BreakingReport BreakingReport_zero (breakingReportResponse report) (show_report report).
Proof. intros changes H. unfold decode_BreakingReport, breakingReportResponse, breakingReportDTO in *. read_document H. Qed.
#[export] Hint Resolve read_report : client_reads.

Definition show_project (p : Domain.ModuleGitLabProject) : ApiTypes.ModuleGitLabProject :=
  mkApiModuleGitLabProject (clean (gitlab_ModuleName p)) (clean (gitlab_BaseURL p)) (gitlab_ProjectID p)
    (clean (gitlab_ProjectPath p)) (gitlab_CreatedAt p) (gitlab_UpdatedAt p).
Lemma read_project : reads decode_ModuleGitLabProject ModuleGitLabProject_zero moduleGitLabProjectResponse show_project.
Proof. intros p H. unfold decode_ModuleGitLabProject, moduleGitLabProjectResponse, moduleGitLabProjectDTO in *. read_document H. Qed.
#[export] Hint Resolve read_project : client_reads.

Definition show_group (g : dependency_group) : ApiTypes.DependencyModule :=
  mkApiDependencyModule (clean (group_end g).1) (clean (group_end g).2) (shown_slice clean (stringSetValues
    (group_sources g))) (shown_slice clean (stringSetValues (group_reasons g))).
Lemma read_group : reads decode_DependencyModule DependencyModule_zero (fun g => dependencyModuleDTO (group_end g).1 (group_end g).2 (stringSetValues (group_sources g))
                    (stringSetValues (group_reasons g))) show_group.
Proof. intros g H. unfold decode_DependencyModule, dependencyModuleDTO in *. read_document H. Qed.
#[export] Hint Resolve read_group : client_reads.

Definition show_affected (a : AffectedModule) : ApiTypes.DependencyModule :=
  mkApiDependencyModule (clean (affected_ModuleName a)) (clean (affected_LatestVersion a)) (shown_slice clean
    (affected_DependencySources a)) (shown_slice clean (affected_Reasons a)).
Lemma read_affected : reads decode_DependencyModule DependencyModule_zero (fun item => dependencyModuleDTO (affected_ModuleName item) (affected_LatestVersion item)
                    (affected_DependencySources item) (affected_Reasons item)) show_affected.
Proof. intros a H. unfold decode_DependencyModule, dependencyModuleDTO in *. read_document H. Qed.
#[export] Hint Resolve read_affected : client_reads.

Definition show_unresolved (u : UnresolvedProtoDependency) : ApiTypes.UnresolvedDependency :=
  mkApiUnresolvedDependency (clean (unresolved_ModuleName u)) (clean (unresolved_Version u)) (clean
    (unresolved_Source u)) (clean (unresolved_ImportPath u)) (clean (unresolved_ReferencedSymbol u)) (clean
    (unresolved_Reason u)).
Lemma read_unresolved : reads decode_UnresolvedDependency UnresolvedDependency_zero (fun item => unresolvedDependencyDTO (unresolved_ModuleName item) (unresolved_Version item)
                    (unresolved_Source item) (unresolved_ImportPath item) (unresolved_ReferencedSymbol item)
                    (unresolved_Reason item)) show_unresolved.
Proof. intros u H. unfold decode_UnresolvedDependency, unresolvedDependencyDTO in *. read_document H. Qed.
#[export] Hint Resolve read_unresolved : client_reads.

Definition show_graph (g : ModuleDependencyGraphResponse) : ApiTypes.ModuleDependencyGraph :=
  mkApiModuleDependencyGraph (clean (module_Name (graph_Module g))) (shown_slice show_group (fold_left
    (group_dependency true) (graph_Upstream g) [])) (shown_slice show_group (fold_left (group_dependency false)
    (graph_Downstream g) [])) (shown_slice show_unresolved (graph_Unresolved g)).
Lemma read_graph : reads decode_ModuleDependencyGraph ModuleDependencyGraph_zero moduleDependencyGraphResponse show_graph.
Proof. intros g H. unfold decode_ModuleDependencyGraph, moduleDependencyGraphResponse, moduleDependencyGraphDTO, dependencyModuleResponses,
  unresolvedDependencyResponses in *. read_document H. Qed.
#[export] Hint Resolve read_graph : client_reads.

Definition show_affected_modules (r : Domain.Module_ * list AffectedModule) : ApiTypes.AffectedModules :=
  mkApiAffectedModules (clean (module_Name r.1)) (shown_slice show_affected r.2).
Lemma read_affected_modules : reads decode_AffectedModules AffectedModules_zero affectedModulesResponse show_affected_modules.
Proof. intros r H. unfold decode_AffectedModules, affectedModulesResponse, affectedModulesDTO, affectedModuleResponses in *. read_document H. Qed.
#[export] Hint Resolve read_affected_modules : client_reads.

Definition show_impact (i : Domain.RuntimeImpact) : ApiTypes.RuntimeImpact :=
  mkApiRuntimeImpact (clean (impact_ServiceName i)) (clean (impact_Environment i)) (clean (impact_UsedModule
    i)) (clean (impact_UsedVersion i)) (clean (impact_GitCommit i)) (clean (impact_BuildVersion i))
    (impact_ReportedAt i) (clean (impact_ImpactStatus i)) (clean (impact_Reason i)) (clean (impact_DriftStatus
    i)) (clean (impact_DriftReason i)).
Lemma read_impact : reads decode_RuntimeImpact RuntimeImpact_zero (fun impact =>
      runtimeImpactDTO (impact_ServiceName impact) (impact_Environment impact) (impact_UsedModule impact)
        (impact_UsedVersion impact) (impact_GitCommit impact) (impact_BuildVersion impact) (impact_ReportedAt impact)
        (impact_ImpactStatus impact) (impact_Reason impact) (impact_DriftStatus impact) (impact_DriftReason impact)) show_impact.
Proof. intros i H. unfold decode_RuntimeImpact, runtimeImpactDTO in *. read_document H. Qed.
#[export] Hint Resolve read_impact : client_reads.

Definition show_impacts (reportID : string) (l : list Domain.RuntimeImpact) : ApiTypes.BreakingReportRuntimeImpact :=
  mkApiBreakingReportRuntimeImpact (clean reportID) (shown_slice show_impact l).
Lemma read_impacts (reportID : string) : reads decode_BreakingReportRuntimeImpact BreakingReportRuntimeImpact_zero (breakingReportRuntimeImpactResponse reportID) (show_impacts reportID).
Proof. intros l H. unfold decode_BreakingReportRuntimeImpact, breakingReportRuntimeImpactResponse, breakingReportRuntimeImpactDTO in *. read_document H. Qed.
#[export] Hint Resolve read_impacts : client_reads.

Definition show_owner (o : Domain.ModuleOwner) : ApiTypes.ModuleOwner :=
  mkApiModuleOwner (clean (owner_ID o)) (clean (owner_ModuleID o)) (clean (owner_ModuleName o)) (clean
    (owner_SubjectType o)) (clean (owner_Subject o)) (clean (owner_Role o)) (owner_CreatedAt o) (owner_UpdatedAt
    o).
Lemma read_owner : reads decode_ModuleOwner ModuleOwner_zero moduleOwnerResponse show_owner.
Proof. intros o H. unfold decode_ModuleOwner, moduleOwnerResponse, moduleOwnerDTO in *. read_document H. Qed.
#[export] Hint Resolve read_owner : client_reads.

Definition show_owners (module : string) (l : list Domain.ModuleOwner) : ApiTypes.ListModuleOwnersResponse :=
  mkApiListModuleOwnersResponse (clean module) (shown_slice show_owner l).
Lemma read_owners (module : string) : reads decode_ListModuleOwnersResponse ListModuleOwnersResponse_zero (moduleOwnersResponse module) (show_owners module).
Proof. intros l H. unfold decode_ListModuleOwnersResponse, moduleOwnersResponse, listModuleOwnersResponse in *. read_document H. Qed.
#[export] Hint Resolve read_owners : client_reads.

Definition show_requirement (r : Domain.ApprovalRequirement) : ApiTypes.ApprovalRequirement :=
  mkApiApprovalRequirement (clean (requirement_ID r)) (clean (requirement_ApprovalRequestID r)) (clean
    (requirement_RequirementType r)) (clean (default "" (requirement_TargetModuleID r))) (clean
    (requirement_TargetModuleName r)) (clean (requirement_RequiredRole r)) (clean (requirement_Status r)) (clean
    (requirement_Reason r)) (requirement_CreatedAt r) (requirement_UpdatedAt r).
Lemma read_requirement : reads decode_ApprovalRequirement ApprovalRequirement_zero approvalRequirementResponse show_requirement.
Proof. intros r H. unfold decode_ApprovalRequirement, approvalRequirementResponse, approvalRequirementDTO in *. read_document H. Qed.
#[export] Hint Resolve read_requirement : client_reads.

Definition show_decision (d : Domain.ApprovalDecision) : ApiTypes.ApprovalDecision :=
  mkApiApprovalDecision (clean (decision_ID d)) (clean (decision_ApprovalRequestID d)) (clean
    (decision_RequirementID d)) (clean (decision_Decision d)) (clean (decision_DecidedBy d)) (clean
    (decision_Comment d)) (decision_CreatedAt d).
Lemma read_decision : reads decode_ApprovalDecision ApprovalDecision_zero approvalDecisionResponse show_decision.
Proof. intros d H. unfold decode_ApprovalDecision, approvalDecisionResponse, approvalDecisionDTO in *. read_document H. Qed.
#[export] Hint Resolve read_decision : client_reads.

Definition show_request (r : Domain.ApprovalRequest) : ApiTypes.ApprovalRequest :=
  mkApiApprovalRequest (clean (request_ID r)) (clean (request_ModuleID r)) (clean (request_ModuleName r))
    (clean (default "" (request_BreakingReportID r))) (clean (request_TargetRef r)) (clean (request_Status r))
    (request_RequiredApprovals r) (request_ReceivedApprovals r) (shown_slice show_requirement (request_Requirements
    r)) (shown_slice show_decision (request_Decisions r)) (request_CreatedAt r) (request_UpdatedAt r).
Lemma read_request : reads decode_ApprovalRequest ApprovalRequest_zero approvalRequestResponse show_request.
Proof. intros r H. unfold decode_ApprovalRequest, approvalRequestResponse, approvalRequestDTO in *. read_document H. Qed.
#[export] Hint Resolve read_request : client_reads.

Definition show_usage (u : RuntimeModuleUsageOutput) : ApiTypes.RuntimeModuleUsage :=
  mkApiRuntimeModuleUsage (clean (usageOutput_Module u)) (clean (usageOutput_Version u)) (clean
    (usageOutput_LatestVersion u)) (clean (usageOutput_DriftStatus u)) (clean (usageOutput_DriftReason u)).
Lemma read_usage : reads decode_RuntimeModuleUsage RuntimeModuleUsage_zero (fun usage => runtimeModuleUsageDTO (usageOutput_Module usage) (usageOutput_Version usage)
                        (usageOutput_LatestVersion usage) (usageOutput_DriftStatus usage)
                        (usageOutput_DriftReason usage)) show_usage.
Proof. intros u H. unfold decode_RuntimeModuleUsage, runtimeModuleUsageDTO in *. read_document H. Qed.
#[export] Hint Resolve read_usage : client_reads.

Definition show_deployment (o : ReportRuntimeInventoryOutput) : ApiTypes.ReportRuntimeInventoryResponse :=
  mkApiReportRuntimeInventoryResponse (clean (reportOutput_DeploymentID o)) (clean (reportOutput_ServiceName
    o)) (clean (reportOutput_Environment o)) (clean (reportOutput_GitCommit o)) (clean
    (reportOutput_BuildVersion o)) (reportOutput_ReportedAt o) (shown_slice show_usage (reportOutput_Usages o)).
Lemma read_deployment : reads decode_ReportRuntimeInventoryResponse ReportRuntimeInventoryResponse_zero reportRuntimeInventoryResponse show_deployment.
Proof. intros o H. unfold decode_ReportRuntimeInventoryResponse, reportRuntimeInventoryResponse, reportRuntimeInventoryDTO in *. read_document H. Qed.
#[export] Hint Resolve read_deployment : client_reads.

Definition show_capability (s : Edition.CapabilityStatus) : ApiTypes.CapabilityStatus :=
  mkApiCapabilityStatus (clean (status_Capability s)) (status_Enabled s).
Lemma read_capability : reads decode_CapabilityStatus CapabilityStatus_zero (fun status => capabilityStatusDTO (status_Capability status) (status_Enabled status)) show_capability.
Proof. intros s H. unfold decode_CapabilityStatus, capabilityStatusDTO in *. read_document H. Qed.
#[export] Hint Resolve read_capability : client_reads.

Definition show_edition (e : Edition.Edition) : ApiTypes.EditionResponse :=
  mkApiEditionResponse (clean (edition_Name e)) (clean (build_Version (edition_Version e))) (clean
    (build_Commit (edition_Version e))) (clean (build_BuildDate (edition_Version e))) (shown_slice show_capability
    (edition_Capabilities e)).
Lemma read_edition : reads decode_EditionResponse EditionResponse_zero editionDTO show_edition.
Proof. intros e H. unfold decode_EditionResponse, editionDTO, editionResponse in *. read_document H. Qed.
#[export] Hint Resolve read_edition : client_reads.

(** The document that [publishModuleVersion] answers with. *)
Definition published_document (module : string) (response : Registry.PublishModuleVersionResponse) : json :=
  let version := resp_Version response in
  publishModuleVersionResponse module (version_Version version) (version_Status version)
    (artifactSummaryResponse (resp_SourceArtifact response)) (artifactSummaryResponse (resp_BufImageArtifact response))
    (bufInfoResponse (resp_BufConfig response) (resp_LintResult response))
    (metadataSummaryResponse (resp_MetadataSummary response)) (version_CreatedAt version).

Definition show_published (module : string) (r : Registry.PublishModuleVersionResponse) : ApiTypes.PublishModuleVersionResponse :=
  mkApiPublishModuleVersionResponse (clean module) (clean (version_Version (resp_Version r))) (clean
    (version_Status (resp_Version r))) (show_artifact (resp_SourceArtifact r)) (show_artifact
    (resp_BufImageArtifact r)) (show_buf (resp_BufConfig r) (resp_LintResult r)) (show_summary
    (resp_MetadataSummary r)) (version_CreatedAt (resp_Version r)).
Lemma read_published (module : string) : reads decode_PublishModuleVersionResponse PublishModuleVersionResponse_zero (published_document module) (show_published module).
Proof. intros r H. unfold decode_PublishModuleVersionResponse, published_document, publishModuleVersionResponse in *. read_document H. Qed.
#[export] Hint Resolve read_published : client_reads.

(** ** The texts *)

Definition depth_at_most (n : nat) (v : json) : Prop := (depth v <= n)%nat.
Definition fields_at_most (n : nat) (fields : list (string * json)) : Prop := Forall (fun f => depth_at_most n (snd f)) fields.

Lemma depth_object n fields : fields_at_most n fields -> depth_at_most (S n) (JObject fields).
Proof.
  intros H. unfold depth_at_most. cbn. apply le_n_S, list_max_le, List.Forall_map. apply List.Forall_forall.
  intros f Hf%list_elem_of_In. exact (proj1 (Forall_forall _ _) H f Hf).
Qed.
Lemma depth_array {A} n (doc : A -> json) l : (forall a, depth_at_most n (doc a)) -> depth_at_most (S n) (JArray (map doc l)).
Proof.
  intros H. unfold depth_at_most. cbn. apply le_n_S, list_max_le, List.Forall_map, List.Forall_map, List.Forall_forall. intros a _. apply H.
Qed.
Lemma depth_strings n l : depth_at_most (S n) (JStrings l).
Proof. apply depth_array. intros s. apply Nat.le_0_l. Qed.
Lemma depth_omitempty n name s : fields_at_most n (omitempty name s).
Proof. unfold omitempty. destruct (_ =? _)%string; first [apply Forall_nil_2|apply Forall_singleton, Nat.le_0_l]. Qed.
Lemma depth_omit_zero n name z : fields_at_most n (omit_zero name z).
Proof. unfold omit_zero. destruct (_ =? _); first [apply Forall_nil_2|apply Forall_singleton, Nat.le_0_l]. Qed.
Lemma depth_omit_time n name t : fields_at_most n (omit_nil name JTime t).
Proof. destruct t; first [apply Forall_nil_2|apply Forall_singleton, Nat.le_0_l]. Qed.
Lemma depth_omit_strings n name l : fields_at_most (S n) (omit_empty name (map JString l)).
Proof.
  destruct l as [|x l]; [apply Forall_nil_2|]. apply Forall_cons; split; [|apply Forall_nil_2].
  apply (depth_array n JString (x :: l)). intros s. apply Nat.le_0_l.
Qed.

Create HintDb client_documents.
#[local] Hint Unfold moduleResponse moduleDTO listModulesResponse moduleVersionResponse moduleVersionDTO
  listModuleVersionsResponse artifactSummaryResponse artifactSummaryDTO bufInfoResponse bufInfoDTO metadataSummaryResponse
  metadataSummaryDTO breakingChangeResponse breakingChangeDTO breakingReportResponse breakingReportDTO
  moduleGitLabProjectResponse moduleGitLabProjectDTO dependencyModuleDTO unresolvedDependencyDTO
  moduleDependencyGraphResponse moduleDependencyGraphDTO dependencyModuleResponses unresolvedDependencyResponses
  affectedModulesResponse affectedModulesDTO affectedModuleResponses runtimeImpactDTO breakingReportRuntimeImpactResponse
  breakingReportRuntimeImpactDTO moduleOwnerResponse moduleOwnerDTO moduleOwnersResponse listModuleOwnersResponse
  approvalRequirementResponse approvalRequirementDTO approvalDecisionResponse approvalDecisionDTO approvalRequestResponse
  approvalRequestDTO runtimeModuleUsageDTO reportRuntimeInventoryResponse reportRuntimeInventoryDTO capabilityStatusDTO
  editionDTO editionResponse published_document publishModuleVersionResponse : client_documents.

Ltac shallow :=
  lazymatch goal with
  | |- Forall _ (_ ++ _) => apply Forall_app; split; shallow
  | |- depth_at_most _ (JString _) => apply Nat.le_0_l
  | |- depth_at_most _ (JInt _) => apply Nat.le_0_l
  | |- depth_at_most _ (JBool _) => apply Nat.le_0_l
  | |- depth_at_most _ (JTime _) => apply Nat.le_0_l
  | |- depth_at_most _ (JStrings _) => apply depth_strings
  | |- depth_at_most _ (JArray (map _ _)) => apply depth_array; intros ?; shallow
  | |- depth_at_most _ (JObject _) => apply depth_object; shallow
  | |- depth_at_most _ _ => progress autounfold with client_documents; cbv beta zeta; shallow
  | |- fields_at_most _ (_ ++ _) => apply Forall_app; split; shallow
  | |- fields_at_most _ (_ :: _) => apply Forall_cons; split; [cbn [snd]; shallow|shallow]
  | |- Forall _ (_ :: _) => apply Forall_cons; split; [cbn [snd]; shallow|shallow]
  | |- Forall _ (omitempty _ _) => apply depth_omitempty
  | |- fields_at_most _ (omitempty _ _) => apply depth_omitempty
  | |- Forall _ (omit_zero _ _) => apply depth_omit_zero
  | |- fields_at_most _ (omit_zero _ _) => apply depth_omit_zero
  | |- Forall _ (omit_nil _ _ _) => apply depth_omit_time
  | |- fields_at_most _ (omit_nil _ _ _) => apply depth_omit_time
  | |- Forall _ (omit_empty _ _) => apply depth_omit_strings
  | |- fields_at_most _ (omit_empty _ _) => apply depth_omit_strings
  | |- Forall _ [] => apply Forall_nil_2
  | |- fields_at_most _ [] => apply Forall_nil_2
  end.

(** The text of a document, as a client that reads it gets it. *)
Lemma read_text {A B} (d : decoder B) zero (doc : A -> json) view a text rest :
  reads d zero doc view -> sendable (doc a) = true -> depth_at_most 10 (doc a) -> Marshal (doc a) = Ok text ->
  (exists fields, doc a = JObject fields) -> decode_text None d (text +:+ rest) zero = inl (view a).
Proof.
  intros Hr Hs Hd Hm [fields E]. pose proof (Hr a Hs) as H. pose proof (sendable_no_raw _ Hs) as Hn.
  rewrite E in Hn, Hd, Hm, H. rewrite (Decode_Marshal d fields text rest zero Hn), H; [done| |exact Hm].
  unfold depth_at_most in Hd. unfold max_depth. lia.
Qed.

(** Every document the client reads: the decoder and what it shows. *)
Record ClientDocument (A B : Type) := mkClientDocument {
  doc_json : A -> json;
  doc_decoder : decoder B;
  doc_zero : B;
  doc_view : A -> B }.
Arguments mkClientDocument {A B}.
Arguments doc_json {A B}.
Arguments doc_decoder {A B}.
Arguments doc_zero {A B}.
Arguments doc_view {A B}.

Definition module_document := mkClientDocument moduleResponse decode_Module Module_zero show_module.
Definition modules_document :=
  mkClientDocument (fun l => listModulesResponse (map moduleResponse l)) decode_ListModulesResponse ListModulesResponse_zero
    show_modules.
Definition version_document := mkClientDocument moduleVersionResponse decode_ModuleVersion ModuleVersion_zero show_version.
Definition versions_document :=
  mkClientDocument (fun l => listModuleVersionsResponse (map moduleVersionResponse l)) decode_ListModuleVersionsResponse
    ListModuleVersionsResponse_zero show_versions.
Definition publication_document (module : string) :=
  mkClientDocument (published_document module) decode_PublishModuleVersionResponse PublishModuleVersionResponse_zero
    (show_published module).
Definition report_document :=
  mkClientDocument (fun r => breakingReportResponse r.1 r.2) decode_BreakingReport BreakingReport_zero
    (fun r => show_report r.1 r.2).
Definition project_document :=
  mkClientDocument moduleGitLabProjectResponse decode_ModuleGitLabProject ModuleGitLabProject_zero show_project.
Definition graph_document :=
  mkClientDocument moduleDependencyGraphResponse decode_ModuleDependencyGraph ModuleDependencyGraph_zero show_graph.
Definition affected_document :=
  mkClientDocument affectedModulesResponse decode_AffectedModules AffectedModules_zero show_affected_modules.
Definition impacts_document (reportID : string) :=
  mkClientDocument (breakingReportRuntimeImpactResponse reportID) decode_BreakingReportRuntimeImpact
    BreakingReportRuntimeImpact_zero (show_impacts reportID).
Definition owner_document := mkClientDocument moduleOwnerResponse decode_ModuleOwner ModuleOwner_zero show_owner.
Definition owners_document (module : string) :=
  mkClientDocument (moduleOwnersResponse module) decode_ListModuleOwnersResponse ListModuleOwnersResponse_zero
    (show_owners module).
Definition request_document := mkClientDocument approvalRequestResponse decode_ApprovalRequest ApprovalRequest_zero show_request.
Definition deployment_document :=
  mkClientDocument reportRuntimeInventoryResponse decode_ReportRuntimeInventoryResponse ReportRuntimeInventoryResponse_zero
    show_deployment.
Definition edition_document := mkClientDocument editionDTO decode_EditionResponse EditionResponse_zero show_edition.

(** What it takes for a client to read the answers of an operation. *)
Definition readable {A B} (D : ClientDocument A B) : Prop :=
  reads (doc_decoder D) (doc_zero D) (doc_json D) (doc_view D)
  /\ forall a, depth_at_most 10 (doc_json D a) /\ exists fields, doc_json D a = JObject fields.

Ltac readable_document D lem := split; [exact lem|intros ?; unfold D; cbn [doc_json]; split; [shallow|eexists; reflexivity]].

Lemma readable_module : readable module_document.
Proof. readable_document module_document read_module. Qed.
Lemma readable_modules : readable modules_document.
Proof. readable_document modules_document read_modules. Qed.
Lemma readable_version : readable version_document.
Proof. readable_document version_document read_version. Qed.
Lemma readable_versions : readable versions_document.
Proof. readable_document versions_document read_versions. Qed.
Lemma readable_publication m : readable (publication_document m).
Proof. readable_document publication_document (read_published m). Qed.
Lemma readable_report : readable report_document.
Proof. split; [intros [r l]; exact (read_report r l)|]. intros [r l]. split; [cbn; shallow|eexists; reflexivity]. Qed.
Lemma readable_project : readable project_document.
Proof. readable_document project_document read_project. Qed.
Lemma readable_graph : readable graph_document.
Proof. readable_document graph_document read_graph. Qed.
Lemma readable_affected : readable affected_document.
Proof. readable_document affected_document read_affected_modules. Qed.
Lemma readable_impacts r : readable (impacts_document r).
Proof. readable_document impacts_document (read_impacts r). Qed.
Lemma readable_owner : readable owner_document.
Proof. readable_document owner_document read_owner. Qed.
Lemma readable_owners m : readable (owners_document m).
Proof. readable_document owners_document (read_owners m). Qed.
Lemma readable_request : readable request_document.
Proof. readable_document request_document read_request. Qed.
Lemma readable_deployment : readable deployment_document.
Proof. readable_document deployment_document read_deployment. Qed.
Lemma readable_edition : readable edition_document.
Proof. readable_document edition_document read_edition. Qed.
