(* ===== verification/ApiClient.v ===== *)
(** * The API client

    [cli/api/client.go]: the requests of the command line, and what it makes of
    the responses. The client talks through a transport, which answers a request or
    fails; [net/url] gives the path of the server's address, and [mime/multipart]
    writes a form. *)

From S2P Require Import Prelude Errors GoStrings JsonScan Domain Json Effects JsonDecode Rfc3339 Archive Urls HttpServer ApiTypes.

Open Scope string_scope.
Open Scope Z_scope.

(** ** Errors *)

Inductive ApiErrorKind := ApiUnauthorized | ApiConflict | ApiForbidden | ApiNotFound | ApiTooLarge.

(** [Error]; the text of the status is not kept. *)
Record ApiError := mkApiError {
  apiError_StatusCode : Z;
  apiError_Code : string;
  apiError_Body : string }.

Definition ApiError_Unwrap (err : ApiError) : option ApiErrorKind :=
  let code := apiError_StatusCode err in
  if code =? StatusUnauthorized then Some ApiUnauthorized else
  if code =? StatusConflict then Some ApiConflict else
  if code =? StatusForbidden then Some ApiForbidden else
  if code =? StatusNotFound then Some ApiNotFound else
  if code =? StatusRequestEntityTooLarge then Some ApiTooLarge else None.

(** How a call fails: the request cannot be made, the transport fails, the server
    refuses, or its answer cannot be read. *)
Inductive ClientError :=
| NotRequested
| NotAnswered (err : error)
| Refused (err : ApiError)
| Unreadable.

(** A call with the transport's state. *)
Definition Call (S A : Type) : Type := S -> (A + ClientError) * S.

(** ** Reading a response *)

(** [json.Unmarshal]: after the value there is only white space. *)
Definition strict_step (st : state) (c : ascii) : state :=
  match st with Finished _ => if is_json_space c then st else Bad | _ => step st c end.
Fixpoint strict_scan (st : state) (s : string) : state :=
  match s with
  | "" => st
  | String c s' => strict_scan (strict_step st c) s'
  end.
Definition Unmarshal {T} (d : decoder T) (text : string) (zero : T) : option T :=
  match at_end (strict_scan (BeginValue []) text) with Some v => d v zero | None => None end.

(** The two forms of the body of an error. *)
Record structured := mkStructured { structured_Code : string; structured_Message : string }.
Definition eta_structured (r : structured) : structured := mkStructured (structured_Code r) (structured_Message r).
Definition decode_structured : decoder structured :=
  decode_struct false
    [("error", decode_struct false [json_field "code" eta_structured structured_Code decode_string;
                                    json_field "message" eta_structured structured_Message decode_string])].
Definition decode_legacy : decoder string := decode_struct false [("error", decode_string)].

Definition parseErrorBody (body : string) : string * string :=
  let text := TrimSpace body in
  if (text =? "")%string then ("", "") else
  let legacy :=
    match Unmarshal decode_legacy body "" with
    | Some message => if (message =? "")%string then ("", text) else ("", message)
    | None => ("", text)
    end in
  match Unmarshal decode_structured body (mkStructured "" "") with
  | Some s => if (structured_Message s =? "")%string then legacy else (structured_Code s, structured_Message s)
  | None => legacy
  end.

Definition readLimitedResponseBody (body : string) : string := substring 0 1024 body.

Record Client := mkClient {
  client_baseURL : string;
  client_token : string }.

Definition NewClient (serverURL token : string) : Client := mkClient (TrimRight serverURL "/") token.

Definition responseError (client : Client) (res : HttpResponse) : ApiError :=
  let '(code, text) := parseErrorBody (readLimitedResponseBody (http_ResponseBody res)) in
  let text := if (client_token client =? "")%string then text else ReplaceAll text (client_token client) "[redacted]" in
  mkApiError (http_Status res) code text.

Definition succeeded (res : HttpResponse) : bool := negb ((http_Status res <? 200) || (300 <=? http_Status res)).

(** ** Paths *)

(** The path of the address of the server, as it is written; [None] for an address
    that cannot be parsed. *)
Class URLBase := { url_Base : string -> option string }.

(** [url.JoinPath]: the path is joined with that of the address; a path with a bad
    escape leaves that of the address. *)
Definition JoinPath `{!URLBase} (base path : string) : option (list string) :=
  match url_Base base with
  | None => None
  | Some prefix =>
      match unescape_all (path_segments (prefix +:+ "/" +:+ path)) with
      | Some segments => Some segments
      | None => unescape_all (path_segments prefix)
      end
  end.

(** [mime/multipart.Writer]: the content type and the body of a form with values
    and one file: its field, its name and its content. *)
Class MultipartWriter := { WriteForm : list (string * string) -> string * string * string -> string * string }.

(** The length the transport reports is not kept. *)
Record ArtifactDownload := mkArtifactDownload {
  download_Body : string;
  download_ContentType : string;
  download_Digest : string;
  download_ChecksumSHA256 : string }.

(** ** The calls *)

Section Client.
Context `{BASE : !URLBase} `{MW : !MultipartWriter} {S : Type}.
Variable Do : HttpRequest -> S -> result HttpResponse * S.
Variable client : Client.

Definition newRequest (method path contentType body : string) (query : list (string * string)) : option HttpRequest :=
  match JoinPath (client_baseURL client) path with
  | None => None
  | Some segments =>
      Some (mkHttpRequest method segments query true
              (if (client_token client =? "")%string then "" else "Bearer " +:+ client_token client) "" "" contentType
              (len body) body)
  end.

(** The request is sent and its answer is used, when it is not an error. *)
Definition send {A} (req : option HttpRequest) (use : HttpResponse -> A + ClientError) : Call S A := fun s =>
  match req with
  | None => (inr NotRequested, s)
  | Some req =>
      match Do req s with
      | (Err err, s') => (inr (NotAnswered err), s')
      | (Ok res, s') => (if succeeded res then use res else inr (Refused (responseError client res)), s')
      end
  end.

Definition doJSON {T} (req : option HttpRequest) (d : decoder T) (zero : T) : Call S T :=
  send req (fun res => match decode_text None d (http_ResponseBody res) zero with
                       | inl t => inl t
                       | inr _ => inr Unreadable
                       end).
Definition doNoContent (req : option HttpRequest) : Call S unit := send req (fun _ => inl tt).

(** The body of [json.Encoder.Encode]. *)
Definition with_encoded {T} (body : json) (k : string -> Call S T) : Call S T :=
  match Marshal body with Ok text => k (text +:+ String (byte_char 10) "") | Err _ => fun s => (inr NotRequested, s) end.
Definition postJSON {T} (method path : string) (body : json) (d : decoder T) (zero : T) : Call S T :=
  with_encoded body (fun text => doJSON (newRequest method path "application/json" text []) d zero).
Definition getJSON {T} (path : string) (d : decoder T) (zero : T) : Call S T :=
  doJSON (newRequest "GET" path "" "" []) d zero.
Definition map_call {A B} (f : A -> B) (c : Call S A) : Call S B := fun s =>
  match c s with (inl a, s') => (inl (f a), s') | (inr e, s') => (inr e, s') end.

Definition CheckAuth : Call S unit := doNoContent (newRequest "GET" "/api/v1/modules" "" "" []).

Definition GetEdition : Call S EditionResponse := getJSON "/api/v1/edition" decode_EditionResponse EditionResponse_zero.

Definition CreateModule (req : CreateModuleRequest) : Call S Module_ :=
  postJSON "POST" "/api/v1/modules" (CreateModuleRequest_json req) decode_Module Module_zero.

Definition ListModules : Call S (list Module_) :=
  map_call (fun r => slice_items (apLMR_Modules r))
    (getJSON "/api/v1/modules" decode_ListModulesResponse ListModulesResponse_zero).

Definition ListModuleVersions (module : string) : Call S (list ModuleVersion) :=
  map_call (fun r => slice_items (apLMVR_Versions r))
    (getJSON ("/api/v1/modules/" +:+ module +:+ "/versions") decode_ListModuleVersionsResponse
       ListModuleVersionsResponse_zero).

Definition PublishModuleVersion (module version artifactName artifact : string) : Call S PublishModuleVersionResponse :=
  let '(contentType, body) := WriteForm [("version", version)] ("artifact", artifactName, artifact) in
  doJSON (newRequest "POST" ("/api/v1/modules/" +:+ module +:+ "/versions") contentType body [])
    decode_PublishModuleVersionResponse PublishModuleVersionResponse_zero.

Definition DeprecateModuleVersion (module version : string) (req : DeprecateModuleVersionRequest) : Call S ModuleVersion :=
  postJSON "POST" ("/api/v1/modules/" +:+ module +:+ "/versions/" +:+ version +:+ "/deprecate")
    (DeprecateModuleVersionRequest_json req) decode_ModuleVersion ModuleVersion_zero.

Definition CheckBreaking (module against targetRef artifactName artifact : string) : Call S BreakingReport :=
  let values := (("against", against)
                 :: (if negb (TrimSpace targetRef =? "")%string then [("target_ref", targetRef)] else []))%list in
  let '(contentType, body) := WriteForm values ("artifact", artifactName, artifact) in
  doJSON (newRequest "POST" ("/api/v1/modules/" +:+ module +:+ "/breaking-checks") contentType body [])
    decode_BreakingReport BreakingReport_zero.

Definition LinkModuleGitLabProject (module : string) (req : LinkModuleGitLabProjectRequest) : Call S ModuleGitLabProject :=
  postJSON "PUT" ("/api/v1/modules/" +:+ module +:+ "/gitlab-project") (LinkModuleGitLabProjectRequest_json req)
    decode_ModuleGitLabProject ModuleGitLabProject_zero.

Definition GetModuleDependencies (module : string) : Call S ModuleDependencyGraph :=
  getJSON ("/api/v1/modules/" +:+ module +:+ "/dependencies") decode_ModuleDependencyGraph ModuleDependencyGraph_zero.

Definition GetAffectedModules (module : string) : Call S AffectedModules :=
  getJSON ("/api/v1/modules/" +:+ module +:+ "/affected") decode_AffectedModules AffectedModules_zero.

Definition GetBreakingReportRuntimeImpact (reportID : string) : Call S BreakingReportRuntimeImpact :=
  getJSON ("/api/v1/breaking-reports/" +:+ reportID +:+ "/runtime-impact") decode_BreakingReportRuntimeImpact
    BreakingReportRuntimeImpact_zero.

Definition ListModuleOwners (module : string) : Call S ListModuleOwnersResponse :=
  getJSON ("/api/v1/modules/" +:+ module +:+ "/owners") decode_ListModuleOwnersResponse ListModuleOwnersResponse_zero.

Definition AddModuleOwner (module : string) (request : AddModuleOwnerRequest) : Call S ModuleOwner :=
  postJSON "POST" ("/api/v1/modules/" +:+ module +:+ "/owners") (AddModuleOwnerRequest_json request) decode_ModuleOwner
    ModuleOwner_zero.

Definition RemoveModuleOwner (module ownerID actor : string) : Call S unit :=
  let query := if negb (TrimSpace actor =? "")%string then [("actor", TrimSpace actor)] else [] in
  doNoContent (newRequest "DELETE" ("/api/v1/modules/" +:+ module +:+ "/owners/" +:+ ownerID) "" "" query).

Definition CreateApprovalRequest (reportID : string) (request : CreateApprovalRequestRequest) : Call S ApprovalRequest :=
  postJSON "POST" ("/api/v1/breaking-reports/" +:+ reportID +:+ "/approval-request")
    (CreateApprovalRequestRequest_json request) decode_ApprovalRequest ApprovalRequest_zero.

Definition GetApprovalStatus (reportID : string) : Call S ApprovalRequest :=
  getJSON ("/api/v1/breaking-reports/" +:+ reportID +:+ "/approval-status") decode_ApprovalRequest ApprovalRequest_zero.

Definition recordApprovalDecision (requestID requirementID action : string) (request : ApprovalDecisionRequest)
    : Call S ApprovalRequest :=
  postJSON "POST" ("/api/v1/approval-requests/" +:+ requestID +:+ "/requirements/" +:+ requirementID +:+ "/" +:+ action)
    (ApprovalDecisionRequest_json request) decode_ApprovalRequest ApprovalRequest_zero.
Definition ApproveRequirement (requestID requirementID : string) (request : ApprovalDecisionRequest) :=
  recordApprovalDecision requestID requirementID "approve" request.
Definition RejectRequirement (requestID requirementID : string) (request : ApprovalDecisionRequest) :=
  recordApprovalDecision requestID requirementID "reject" request.

Definition ReportRuntimeInventory (request : ReportRuntimeInventoryRequest) : Call S ReportRuntimeInventoryResponse :=
  postJSON "POST" "/api/v1/runtime/reports" (ReportRuntimeInventoryRequest_json request)
    decode_ReportRuntimeInventoryResponse ReportRuntimeInventoryResponse_zero.

Definition Header_Get (res : HttpResponse) (name : string) : string := first_value name (http_Headers res).
Definition DownloadArtifact (module version : string) : Call S ArtifactDownload :=
  send (newRequest "GET" ("/api/v1/modules/" +:+ module +:+ "/versions/" +:+ version +:+ "/artifact") "" "" [])
    (fun res => inl (mkArtifactDownload (http_ResponseBody res) (Header_Get res "Content-Type")
                       (Header_Get res "X-ProtoRadar-Digest") (Header_Get res "X-ProtoRadar-Checksum-SHA256"))).
End Client.
