(* ===== verification/ApiCalls.v ===== *)
(** * The client and the server

    The client ([cli/api/client.go]) against the server ([transport/http]): what
    the server reads of the requests the client writes, where it routes them, and
    what the client makes of its answers. A call of the client is the operation
    of the service it names. *)

From S2P Require Import Prelude Errors GoStrings Edition JsonScan Domain Json Effects Postgres Outbox Events Tables World GovernanceStore UseCase CatalogStore JsonDecode Rfc3339 DependencyStore DependencyGraph RuntimeStore RuntimeInventory AuditLog Identity Policy Approval Owners Archive Urls Storage Registry RegistrySafety RegistryOperations GitLabLink HttpDto HttpServer ApiTypes ApiReads.
From S2P Require ApiClient Config Bootstrap BufDescriptor RegistryInvariant ServerPolicy.

Open Scope string_scope.
Open Scope Z_scope.

(** ** The bodies of the requests *)

(** What the server reads of a body: texts without the bytes that are not UTF-8. *)
Definition sent_module (r : CreateModuleRequest) : createModuleRequest :=
  mkCreateModuleBody (clean (apCMR_Name r)) (clean (apCMR_Description r)) (clean (apCMR_RepositoryURL r)).
Definition sent_link (r : LinkModuleGitLabProjectRequest) : linkModuleGitLabProjectRequest :=
  mkLinkBody (clean (apLMGLPR_GitLabBaseURL r)) (apLMGLPR_GitLabProjectID r) (clean (apLMGLPR_GitLabProjectPath r)).
Definition sent_deprecation (r : DeprecateModuleVersionRequest) : deprecateModuleVersionRequest :=
  mkDeprecateBody (clean (apDMVR_Reason r)).
Definition sent_owner (r : AddModuleOwnerRequest) : addModuleOwnerRequest :=
  mkAddOwnerBody (clean (apAMOR_SubjectType r)) (clean (apAMOR_Subject r)) (clean (apAMOR_Role r)) (clean (apAMOR_Actor r)).
Definition sent_approval (r : CreateApprovalRequestRequest) : createApprovalRequestRequest :=
  mkApprovalBody (clean (apCARR_Actor r)) "".
Definition sent_decision (r : ApprovalDecisionRequest) : approvalDecisionRequest :=
  mkDecisionBody (clean (apADR_Actor r)) (clean (apADR_Comment r)).
Definition sent_reported (m : RuntimeModuleRequest) : reportedRuntimeModuleRequest :=
  mkReportedModuleBody (clean (apRMR_Module m)) (clean (apRMR_Version m)).
Definition sent_report (r : ReportRuntimeInventoryRequest) : reportRuntimeInventoryRequest :=
  mkReportBody (clean (apRRIR_ServiceName r)) (clean (apRRIR_Environment r)) (clean (apRRIR_GitCommit r))
    (clean (apRRIR_BuildVersion r)) (shown_slice sent_reported (apRRIR_Modules r)).

Lemma reads_module : reads (decode_struct true createModuleRequest_fields) createModuleRequest_zero
  CreateModuleRequest_json sent_module.
Proof. intros r H. unfold CreateModuleRequest_json in *. read_document H. Qed.
Lemma reads_link : reads (decode_struct true linkModuleGitLabProjectRequest_fields) linkModuleGitLabProjectRequest_zero
  LinkModuleGitLabProjectRequest_json sent_link.
Proof. intros r H. unfold LinkModuleGitLabProjectRequest_json in *. read_document H. Qed.
Lemma reads_deprecation : reads (decode_struct true deprecateModuleVersionRequest_fields)
  deprecateModuleVersionRequest_zero DeprecateModuleVersionRequest_json sent_deprecation.
Proof. intros r H. unfold DeprecateModuleVersionRequest_json in *. read_document H. Qed.
Lemma reads_owner : reads (decode_struct true addModuleOwnerRequest_fields) addModuleOwnerRequest_zero
  AddModuleOwnerRequest_json sent_owner.
Proof. intros r H. unfold AddModuleOwnerRequest_json in *. read_document H. Qed.
Lemma reads_approval : reads (decode_struct true createApprovalRequestRequest_fields) createApprovalRequestRequest_zero
  CreateApprovalRequestRequest_json sent_approval.
Proof. intros r H. unfold CreateApprovalRequestRequest_json in *. read_document H. Qed.
Lemma reads_decision : reads (decode_struct true approvalDecisionRequest_fields) approvalDecisionRequest_zero
  ApprovalDecisionRequest_json sent_decision.
Proof. intros r H. unfold ApprovalDecisionRequest_json in *. read_document H. Qed.
Lemma reads_reported : reads (decode_struct true reportedRuntimeModuleRequest_fields) reportedRuntimeModuleRequest_zero
  RuntimeModuleRequest_json sent_reported.
Proof. intros r H. unfold RuntimeModuleRequest_json in *. read_document H. Qed.
#[local] Hint Resolve reads_reported : client_reads.
Lemma reads_report : reads (decode_struct true reportRuntimeInventoryRequest_fields) reportRuntimeInventoryRequest_zero
  ReportRuntimeInventoryRequest_json sent_report.
Proof. intros r H. unfold ReportRuntimeInventoryRequest_json in *. read_document H. Qed.

(** ** Paths *)

(** A segment that the client can put into a path as it is. *)
Definition plain_segment (s : string) : bool :=
  negb (s =? "")%string && negb (s =? ".")%string && negb (s =? "..")%string
  && forallb_string (fun a => negb (Ascii.eqb a slash) && negb (Ascii.eqb a "%")) s.

Lemma plain_segment_spec s :
  plain_segment s = true -> safe_elem s /\ plain_elem s /\ PathUnescape s = Some s.
Proof.
  unfold plain_segment. rewrite !andb_true_iff, !negb_true_iff, !String.eqb_neq. intros [[[H1 H2] H3] H].
  split; [done|]. split.
  - revert H. apply forallb_string_impl. intros a. by rewrite andb_true_iff; intros [? _].
  - clear H1 H2 H3. induction s as [|a s IH]; [done|]. cbn in H |- *. apply andb_true_iff in H as [[_ Ha]%andb_true_iff H].
    apply negb_true_iff in Ha as ->. by rewrite (IH H).
Qed.

(** Every identifier of the database is plain, and every module name; a version
    need not be. *)
Lemma plain_segment_intro s :
  s <> "" -> s <> "." -> s <> ".." ->
  forallb_string (fun a => negb (Ascii.eqb a slash) && negb (Ascii.eqb a "%")) s = true -> plain_segment s = true.
Proof. unfold plain_segment. intros H1%String.eqb_neq H2%String.eqb_neq H3%String.eqb_neq ->. by rewrite H1, H2, H3. Qed.
Lemma identifier_plain `{PG : !Postgres} s c : uuid_canon s = Some c -> plain_segment c = true.
Proof.
  intros H. pose proof (uuid_canon_bytes s c H) as Hb. apply uuid_canon_idem in H. apply plain_segment_intro.
  - intros ->. by rewrite uuid_canon_empty in H.
  - by intros ->.
  - by intros ->.
  - revert Hb. apply forallb_string_impl. intros a. unfold uuid_byte. intros Ha.
    apply andb_true_iff; split; apply negb_true_iff, Ascii.eqb_neq; intros ->; done.
Qed.
Lemma module_name_plain value name : NewModuleName value = Ok name -> plain_segment name = true.
Proof.
  intros [Hne H]%NewModuleName_fixed%NewModuleName_byte_exact. apply plain_segment_intro; [done|by intros ->..|].
  revert H. apply forallb_string_impl. intros a Ha.
  apply andb_true_iff; split; apply negb_true_iff, Ascii.eqb_neq; intros ->; done.
Qed.

Lemma plain_segments segs :
  forallb plain_segment segs = true ->
  Forall safe_elem segs /\ Forall plain_elem segs /\ unescape_all segs = Some segs.
Proof.
  induction segs as [|s segs IH]; [done|]. cbn. intros [(H1 & H2 & H3)%plain_segment_spec H]%andb_true_iff.
  destruct (IH H) as (G1 & G2 & G3). rewrite H3, G3. by split_and!; [constructor|constructor|].
Qed.

(** The last element of a path that ends in a slash is empty. *)
Lemma HasSuffix_slash s : HasSuffix s "/" = true -> last (split_byte slash s) = Some "".
Proof.
  unfold HasSuffix. intros [_ H%String.eqb_eq]%andb_true_iff.
  rewrite <- (take_drop_string (String.length s - String.length "/") s), H.
  change "/" with (String slash ""). rewrite split_byte_app. apply last_snoc.
Qed.
Lemma path_of segs :
  segs <> [] -> forallb plain_segment segs = true ->
  path_segments ("" +:+ "/" +:+ "/" +:+ strings_Join "/" segs) = segs.
Proof.
  intros Hne H. destruct (plain_segments segs H) as (Hs & Hp & _). unfold path_segments.
  set (p := "" +:+ _). assert (E : split_byte slash p = "" :: "" :: segs).
  { change p with ("" +:+ String slash ("" +:+ String slash (strings_Join "/" segs))).
    by rewrite !split_byte_app, split_join. }
  change (split_byte "/" p) with (split_byte slash p). rewrite E. unfold clean_elems.
  change (fold_left (clean_step true) ("" :: "" :: segs) []) with (fold_left (clean_step true) segs []).
  rewrite clean_fold_safe, app_nil_r, rev_involutive by done.
  destruct (HasSuffix p "/") eqn:Es; [exfalso|apply app_nil_r].
  apply HasSuffix_slash in Es. rewrite E in Es. destruct segs as [|x segs]; [done|].
  rewrite !last_cons_cons in Es. apply last_Some_elem_of in Es. rewrite Forall_forall in Hs. by destruct (Hs _ Es).
Qed.

Section Calls.
Context `{PG : !Postgres} `{ENV : !Env} `{CR : !Crypto} `{SYS : !OS} `{STORE : !ArtifactStore} `{HOST : !Host}.
Context `{URL : !NetURL} `{MR : !MultipartReader} `{POL : !PolicyEvaluator} `{AUD : !AuditSink World}
  `{PRO : !ApprovalProviders World}.
Context `{BASE : !ApiClient.URLBase} `{MW : !ApiClient.MultipartWriter}.
Variables (policyConfig : PolicyConfig) (server : Server) (client : ApiClient.Client) (principal : Principal).

(** The transport: the server handles the request, and its answer comes back. *)
Definition over (r : HttpRequest) (s : Registry) : result HttpResponse * Registry :=
  let '(response, s') := ServeHTTP policyConfig server r s in (Ok response, s').

(** The client has a token, and the address of the server has no path. *)
Definition connected : Prop :=
  ApiClient.url_Base (ApiClient.client_baseURL client) = Some "" /\ ApiClient.client_token client <> "".
(** The server knows the token, and its principal may do what the community edition
    allows; [s0] is the state after the token was looked up. *)
Definition admitted (s s0 : Registry) : Prop :=
  srv_auth server (mkAuthRequest ("Bearer " +:+ ApiClient.client_token client) "") s = (Ok principal, s0)
  /\ Principal_IsZero principal = false
  /\ forall action resource,
       communityActionAllowed action = true -> @Authorize (srv_authorizer server) principal action resource = Ok tt.

Definition request (method : string) (segs : list string) (contentType body : string) (query : list (string * string))
    : HttpRequest :=
  mkHttpRequest method segs query true ("Bearer " +:+ ApiClient.client_token client) "" "" contentType (len body) body.

Lemma newRequest_plain method segs contentType body query :
  connected -> segs <> [] -> forallb plain_segment segs = true ->
  ApiClient.newRequest client method ("/" +:+ strings_Join "/" segs) contentType body query
  = Some (request method segs contentType body query).
Proof.
  intros [Hb Ht] Hne H. unfold ApiClient.newRequest, ApiClient.JoinPath. rewrite Hb, path_of by done.
  destruct (plain_segments segs H) as (_ & _ & ->). apply String.eqb_neq in Ht as ->. done.
Qed.

(** ** Routes *)

Lemma admitted_call r s s0 method pattern action resource handler values :
  find_route (routes policyConfig server) r = Some (mkRoute method pattern (protected server action resource handler), values) ->
  communityActionAllowed action = true -> http_Authorization r = "Bearer " +:+ ApiClient.client_token client ->
  admitted s s0 -> ServeHTTP policyConfig server r s = handler (mkRequestContext (Some principal) values) r s0.
Proof.
  intros Hr Hact Ha (Hs & Hz & Hz'). unfold ServeHTTP. rewrite Hr. cbn [route_Handler]. unfold protected, requireBearer.
  rewrite Ha, Hs. unfold requireAuthorization, PrincipalFromContext. cbn [ContextWithPrincipal rc_Principal rc_PathValues].
  by rewrite Hz, (Hz' action _ Hact).
Qed.

Definition ctx_of (values : list (string * string)) : RequestContext := mkRequestContext (Some principal) values.

(** The route of a request is found by computation, once its segments are known
    not to be empty. *)
Ltac route_found :=
  lazy [find_route match_pattern method_matches routes protected_routes app map api api_module api_report api_request
        http_Path http_Method route_Pattern route_Method request String.eqb Ascii.eqb Bool.eqb orb andb fmap option_fmap
        option_map]; reflexivity.

(** ** Answers *)

(** The status, the code and the message of the answer to an error. *)
Definition usecase_answer (err : error) : Z * string * string :=
  match List.find (fun c => existsb (errors_Is err) (fst c)) usecase_errors with
  | Some (_, a) => a
  | None => (StatusInternalServerError, "internal_error", "Internal server error.")
  end.
Definition redacted (text : string) : string := ReplaceAll text (ApiClient.client_token client) "[redacted]".
Definition refusal (a : Z * string * string) : ApiClient.ApiError :=
  let '(status, code, message) := a in ApiClient.mkApiError status code (redacted message).

(** What the client gets of an operation. *)
Definition heard {A B} (view : A -> B) (m : M Registry A) (s : Registry) : (B + ApiClient.ClientError) * Registry :=
  match m s with
  | (Ok a, s') => (inl (view a), s')
  | (Err err, s') => (inr (ApiClient.Refused (refusal (usecase_answer err))), s')
  end.

(** The documents of the errors are understood. *)
Definition understood (a : Z * string * string) : bool :=
  let '(status, code, message) := a in
  let response := writeError status code message in
  negb (ApiClient.succeeded response)
  && bool_decide (ApiClient.parseErrorBody (ApiClient.readLimitedResponseBody (http_ResponseBody response)) = (code, message)).
Lemma answers_understood : forallb understood (map snd usecase_errors) = true.
Proof. vm_compute. reflexivity. Qed.
Lemma answer_understood err : understood (usecase_answer err) = true.
Proof.
  unfold usecase_answer. destruct (List.find _ _) as [[errs a]|] eqn:E; [|vm_compute; reflexivity].
  apply List.find_some in E as [E _]. pose proof answers_understood as H. rewrite forallb_forall in H.
  apply H, in_map_iff. by exists (errs, a).
Qed.
Lemma writeUsecaseError_answer err :
  writeUsecaseError err = let '(status, code, message) := usecase_answer err in writeError status code message.
Proof. unfold writeUsecaseError, usecase_answer. by destruct (List.find _ _) as [[errs [[status code] message]]|]. Qed.

Lemma refused_answer {A} status code message (use : HttpResponse -> A + ApiClient.ClientError) :
  connected -> understood (status, code, message) = true ->
  (if ApiClient.succeeded (writeError status code message) then use (writeError status code message)
   else inr (ApiClient.Refused (ApiClient.responseError client (writeError status code message))))
  = inr (ApiClient.Refused (refusal (status, code, message))).
Proof.
  intros [_ Ht] H. unfold understood in H. apply andb_true_iff in H as [H1%negb_true_iff H2%bool_decide_eq_true_1]. rewrite H1.
  unfold ApiClient.responseError. rewrite H2. apply String.eqb_neq in Ht as ->. done.
Qed.
Lemma refused {A} err (use : HttpResponse -> A + ApiClient.ClientError) :
  connected ->
  (if ApiClient.succeeded (writeUsecaseError err) then use (writeUsecaseError err)
   else inr (ApiClient.Refused (ApiClient.responseError client (writeUsecaseError err))))
  = inr (ApiClient.Refused (refusal (usecase_answer err))).
Proof.
  intros Hc. rewrite writeUsecaseError_answer. pose proof (answer_understood err) as H.
  destruct (usecase_answer err) as [[status code] message]. by apply refused_answer.
Qed.

Lemma heard_send {A B} (m : M Registry A) (ok : A -> HttpResponse) (use : HttpResponse -> B + ApiClient.ClientError) view r s s0 :
  connected -> ServeHTTP policyConfig server r s = answer m ok s0 ->
  (forall a s', m s0 = (Ok a, s') -> ApiClient.succeeded (ok a) = true /\ use (ok a) = inl (view a)) ->
  ApiClient.send over client (Some r) use s = heard view m s0.
Proof.
  intros Hc Hs Hok. unfold ApiClient.send, over. rewrite Hs. unfold answer, heard.
  destruct (m s0) as [[a|err] s'] eqn:E; [|by rewrite refused].
  destruct (Hok a s' eq_refl) as [-> ->]. done.
Qed.

Definition speakable {A} (m : M Registry A) (doc : A -> json) (s0 : Registry) : Prop :=
  forall a s', m s0 = (Ok a, s') -> sendable (doc a) = true.

Lemma heard_json {A B} (D : ClientDocument A B) status (m : M Registry A) r s s0 :
  readable D -> 200 <= status < 300 -> connected ->
  ServeHTTP policyConfig server r s = answer m (fun a => writeJSON status (doc_json D a)) s0 ->
  speakable m (doc_json D) s0 ->
  ApiClient.doJSON over client (Some r) (doc_decoder D) (doc_zero D) s = heard (doc_view D) m s0.
Proof.
  intros [Hr Hd] Hst Hc Hs Hdoc. apply (heard_send m _ _ (doc_view D) r s s0 Hc Hs). intros a s' E.
  specialize (Hdoc a s' E). destruct (Hd a) as [Hdepth Hobj]. destruct (sendable_Marshal _ Hdoc) as [text Em].
  split; [unfold ApiClient.succeeded, writeJSON; cbn [http_Status]; lia|].
  unfold writeJSON. rewrite Em. cbn [http_ResponseBody].
  by rewrite (read_text _ _ _ _ a text _ Hr Hdoc Hdepth Em Hobj).
Qed.

(** ** Bodies *)

Definition body_text (doc : json) : string :=
  match Marshal doc with Ok text => text +:+ String (byte_char 10) "" | Err _ => "" end.
Definition within (limit : option Z) (body : string) : Prop :=
  match limit with Some n => len body <= n | None => True end.

Lemma substring_all n s : (String.length s <= n)%nat -> substring 0 n s = s.
Proof. revert n. induction s as [|a s IH]; intros [|n] H; cbn in *; try done; try lia. by rewrite IH by lia. Qed.
Lemma decode_within {T} limit (d : decoder T) body zero :
  within limit body -> decode_text limit d body zero = decode_text None d body zero.
Proof.
  destruct limit as [n|]; [|done]. cbn. intros H. unfold decode_text. cbv zeta.
  replace (n <? len body) with false by lia. rewrite substring_all; [done|]. unfold len in H. lia.
Qed.

Lemma body_decoded {A B} limit (fs : fields B) zero (doc : A -> json) view a r :
  reads (decode_struct true fs) zero doc view -> sendable (doc a) = true -> depth_at_most 10 (doc a) ->
  (exists fields, doc a = JObject fields) -> within limit (body_text (doc a)) -> http_Body r = body_text (doc a) ->
  decodeJSON limit r fs zero = inl (view a).
Proof.
  intros Hr Hs Hd Ho Hl Hb. unfold decodeJSON. rewrite Hb, decode_within by done. unfold body_text.
  destruct (sendable_Marshal _ Hs) as [text Em]. rewrite Em. by apply (read_text _ _ _ _ a text _ Hr Hs Hd Em Ho).
Qed.

Lemma with_encoded_text {T} doc (k : string -> ApiClient.Call Registry T) :
  sendable doc = true -> ApiClient.with_encoded doc k = k (body_text doc).
Proof. intros H. unfold ApiClient.with_encoded, body_text. by destruct (sendable_Marshal _ H) as [text ->]. Qed.

(** ** One call *)

Lemma get_call {A B} (D : ClientDocument A B) path segs pattern action resource handler values m s s0 :
  connected -> admitted s s0 -> path = "/" +:+ strings_Join "/" segs -> segs <> [] ->
  forallb plain_segment segs = true ->
  find_route (routes policyConfig server) (request "GET" segs "" "" [])
  = Some (mkRoute "GET" pattern (protected server action resource handler), values) ->
  communityActionAllowed action = true ->
  (forall r, handler (ctx_of values) r s0 = answer m (fun a => writeJSON StatusOK (doc_json D a)) s0) ->
  readable D -> speakable m (doc_json D) s0 ->
  ApiClient.getJSON over client path (doc_decoder D) (doc_zero D) s = heard (doc_view D) m s0.
Proof.
  intros Hc Ha -> Hne Hp Hr Hact Hh HD Hs. unfold ApiClient.getJSON. rewrite newRequest_plain by done.
  apply (heard_json D StatusOK); [done|done|done| |done].
  rewrite (admitted_call _ s s0 _ _ _ _ _ _ Hr Hact); [apply Hh|done|done].
Qed.

Lemma post_call {A B} (D : ClientDocument A B) method path segs doc pattern action resource handler values status m s s0 :
  connected -> admitted s s0 -> path = "/" +:+ strings_Join "/" segs -> segs <> [] ->
  forallb plain_segment segs = true -> sendable doc = true ->
  find_route (routes policyConfig server) (request method segs "application/json" (body_text doc) [])
  = Some (mkRoute method pattern (protected server action resource handler), values) ->
  communityActionAllowed action = true ->
  handler (ctx_of values) (request method segs "application/json" (body_text doc) []) s0
  = answer m (fun a => writeJSON status (doc_json D a)) s0 ->
  200 <= status < 300 -> readable D -> speakable m (doc_json D) s0 ->
  ApiClient.postJSON over client method path doc (doc_decoder D) (doc_zero D) s = heard (doc_view D) m s0.
Proof.
  intros Hc Ha -> Hne Hp Hd Hr Hact Hh Hst HD Hs. unfold ApiClient.postJSON. rewrite with_encoded_text by done.
  rewrite newRequest_plain by done. apply (heard_json D status); [done|done|done| |done].
  by rewrite (admitted_call _ s s0 _ _ _ _ _ _ Hr Hact).
Qed.

Lemma heard_map {A B C} (f : B -> C) (c : ApiClient.Call Registry B) (view : A -> B) m s s0 :
  c s = heard view m s0 -> ApiClient.map_call f c s = heard (fun a => f (view a)) m s0.
Proof. intros H. unfold ApiClient.map_call. rewrite H. unfold heard. by destruct (m s0) as [[a|e] s']. Qed.

(** An operation of an actor that the server resolves. *)
Definition as_actor {A} (requested : string) (k : string -> M Registry A) : M Registry A :=
  match resolveGovernanceActor server (ctx_of []) requested with
  | Ok actor => k actor
  | Err err => fail err
  end.
Lemma with_actor_answer {A} values requested (k : string -> M Registry A) ok s :
  with_actor server (ctx_of values) requested (fun actor => answer (k actor) ok) s = answer (as_actor requested k) ok s.
Proof.
  unfold with_actor, as_actor. change (resolveGovernanceActor server (ctx_of values)) with (resolveGovernanceActor server (ctx_of [])).
  by destruct (resolveGovernanceActor _ _ _).
Qed.

Lemma with_body_read {A B} (fs : fields B) zero (doc : A -> json) view a r k s :
  reads (decode_struct true fs) zero doc view -> sendable (doc a) = true -> depth_at_most 10 (doc a) ->
  (exists fields, doc a = JObject fields) -> within (limitRequestBody server) (body_text (doc a)) ->
  http_Body r = body_text (doc a) -> with_body server fs zero r k s = k (view a) s.
Proof. intros. unfold with_body. by erewrite body_decoded. Qed.
Lemma with_optional_body_read {A B} (fs : fields B) zero (doc : A -> json) view a r k s :
  reads (decode_struct true fs) zero doc view -> sendable (doc a) = true -> depth_at_most 10 (doc a) ->
  (exists fields, doc a = JObject fields) -> within (limitRequestBody server) (body_text (doc a)) ->
  http_Body r = body_text (doc a) -> http_ContentLength r = len (body_text (doc a)) ->
  with_optional_body server fs zero r k s = k (view a) s.
Proof.
  intros Hr Hs ??? Hb Hl. unfold with_optional_body. replace (http_ContentLength r =? 0) with false; [by eapply with_body_read|].
  symmetry. apply Z.eqb_neq. rewrite Hl. unfold body_text. destruct (sendable_Marshal _ Hs) as [text ->].
  unfold len. rewrite length_string_app. cbn. lia.
Qed.
Lemma with_unlimited_body_read {A B} (fs : fields B) zero (doc : A -> json) view a r k s :
  reads (decode_struct true fs) zero doc view -> sendable (doc a) = true -> depth_at_most 10 (doc a) ->
  (exists fields, doc a = JObject fields) -> http_Body r = body_text (doc a) ->
  with_unlimited_body fs zero r k s = k (view a) s.
Proof. intros. unfold with_unlimited_body. by erewrite (body_decoded None). Qed.

(** ** The calls *)

(** The form that the client writes is read back: its values, and its file with
    the content that was put into it. *)
Definition form_read (values : list (string * string)) (name content : string) (file : MultipartFile) : Prop :=
  let '(contentType, body) := ApiClient.WriteForm values ("artifact", name, content) in
  ReadForm contentType (32 * 2 ^ 20) (limitRequestBody server) body = inl (mkMultipartForm values [("artifact", file)])
  /\ multipart_Content file = content.

Ltac plain_path :=
  lazymatch goal with
  | |- _ = "/" +:+ strings_Join "/" _ => reflexivity
  | |- _ <> [] => done
  | |- forallb plain_segment _ = true =>
      cbn [forallb]; repeat match goal with H : plain_segment _ = true |- _ => rewrite H; clear H end; reflexivity
  end.
(** A segment that is known to be plain is not empty. *)
Ltac open_segments :=
  repeat match goal with H : plain_segment ?x = true |- _ => is_var x; destruct x as [|? x]; [discriminate H|] end.

Let svc : Service := srv_registry server.

(** What a call needs of its arguments and of the server: the arguments that
    are put into the path, the part of the server that has to be switched on, and
    that the body or the form is one the server can read. *)
Record Conditions := mkConditions { path_arguments : list string; part_enabled : bool; body_read : Prop }.

(** The operation a call of the client names, with the texts of its body as JSON
    carries them: the document it is answered with, and what the client shows of
    its result. *)
Inductive reading_calls : forall A B : Type, ApiClient.Call Registry B -> (A -> json) -> M Registry A -> (A -> B) -> Conditions -> Prop :=
| calls_GetEdition :
    reading_calls _ _ (ApiClient.GetEdition over client) editionDTO
      (ret (NewCommunityEdition (srv_buildInfo server) (Some (srv_capabilities server)))) show_edition
      (mkConditions [] true True)
| calls_ListModules :
    reading_calls _ _ (ApiClient.ListModules over client) (doc_json modules_document) (on_db (ListModules 100 0)) (map show_module)
      (mkConditions [] true True)
| calls_ListModuleVersions module :
    reading_calls _ _ (ApiClient.ListModuleVersions over client module) (doc_json versions_document)
      (on_db (ListModuleVersions module 100 0)) (map show_version)
      (mkConditions [module] true True)
| calls_GetModuleDependencies module :
    reading_calls _ _ (ApiClient.GetModuleDependencies over client module) moduleDependencyGraphResponse
      (on_db (GetModuleDependencyGraph svc module)) show_graph
      (mkConditions [module] true True)
| calls_GetAffectedModules module :
    reading_calls _ _ (ApiClient.GetAffectedModules over client module) affectedModulesResponse
      (on_db (Registry_ListAffectedModules svc module)) show_affected_modules
      (mkConditions [module] true True)
| calls_GetBreakingReportRuntimeImpact reportID :
    reading_calls _ _ (ApiClient.GetBreakingReportRuntimeImpact over client reportID)
      (breakingReportRuntimeImpactResponse reportID)
      (on_db (GetBreakingReportRuntimeImpact (NewBreakingReportID reportID) 100 0)) (show_impacts reportID)
      (mkConditions [reportID] (srv_runtime server) True)
| calls_ListModuleOwners module :
    reading_calls _ _ (ApiClient.ListModuleOwners over client module) (moduleOwnersResponse module)
      (on_db (ListModuleOwners (mkListModuleOwnersInput module))) (show_owners module)
      (mkConditions [module] (srv_governance server) True)
| calls_GetApprovalStatus reportID :
    reading_calls _ _ (ApiClient.GetApprovalStatus over client reportID) approvalRequestResponse
      (on_db (GetApprovalStatusForBreakingReport (mkStatusInput reportID))) show_request
      (mkConditions [reportID] (srv_governance server) True).
(** The calls with a body. *)
Inductive sending_calls : forall A B : Type, ApiClient.Call Registry B -> (A -> json) -> M Registry A -> (A -> B) -> Conditions -> Prop :=
| calls_CreateModule req :
    sending_calls _ _ (ApiClient.CreateModule over client req) moduleResponse
      (on_db (CreateModule (mkCreateModuleRequest (clean (apCMR_Name req)) (clean (apCMR_Description req))
                              (clean (apCMR_RepositoryURL req))))) show_module
      (mkConditions [] true True)
| calls_DeprecateModuleVersion module version req :
    sending_calls _ _ (ApiClient.DeprecateModuleVersion over client module version req) moduleVersionResponse
      (on_db (DeprecateModuleVersion (mkDeprecateInput module version (principal_Subject principal)
                                        (clean (apDMVR_Reason req))))) show_version
      (mkConditions [module; version] true (within (limitRequestBody server) (body_text (DeprecateModuleVersionRequest_json req))))
| calls_LinkModuleGitLabProject module req :
    sending_calls _ _ (ApiClient.LinkModuleGitLabProject over client module req) moduleGitLabProjectResponse
      (on_db (LinkModuleGitLabProject (mkLinkInput module (clean (apLMGLPR_GitLabBaseURL req))
                                         (apLMGLPR_GitLabProjectID req) (clean (apLMGLPR_GitLabProjectPath req))))) show_project
      (mkConditions [module] true (sendable (LinkModuleGitLabProjectRequest_json req) = true))
| calls_AddModuleOwner module req :
    sending_calls _ _ (ApiClient.AddModuleOwner over client module req) moduleOwnerResponse
      (as_actor (clean (apAMOR_Actor req)) (fun actor =>
         on_db (AddModuleOwner (mkAddModuleOwnerInput module (clean (apAMOR_SubjectType req)) (clean (apAMOR_Subject req))
                                  (clean (apAMOR_Role req)) actor)))) show_owner
      (mkConditions [module] (srv_governance server) (within (limitRequestBody server) (body_text (AddModuleOwnerRequest_json req))))
| calls_CreateApprovalRequest reportID req :
    sending_calls _ _ (ApiClient.CreateApprovalRequest over client reportID req) approvalRequestResponse
      (as_actor (clean (apCARR_Actor req)) (fun actor =>
         on_db (CreateApprovalRequestForBreakingReport policyConfig (mkCreateInput reportID actor "")))) show_request
      (mkConditions [reportID] (srv_governance server) (within (limitRequestBody server) (body_text (CreateApprovalRequestRequest_json req))))
| calls_ApproveRequirement requestID requirementID req :
    sending_calls _ _ (ApiClient.ApproveRequirement over client requestID requirementID req) approvalRequestResponse
      (as_actor (clean (apADR_Actor req)) (fun actor =>
         on_db (ApproveRequirement policyConfig (mkDecisionInput requestID requirementID actor (clean (apADR_Comment req))))))
      show_request
      (mkConditions [requestID; requirementID] (srv_governance server) (within (limitRequestBody server) (body_text (ApprovalDecisionRequest_json req))))
| calls_RejectRequirement requestID requirementID req :
    sending_calls _ _ (ApiClient.RejectRequirement over client requestID requirementID req) approvalRequestResponse
      (as_actor (clean (apADR_Actor req)) (fun actor =>
         on_db (RejectRequirement policyConfig (mkDecisionInput requestID requirementID actor (clean (apADR_Comment req))))))
      show_request
      (mkConditions [requestID; requirementID] (srv_governance server) (within (limitRequestBody server) (body_text (ApprovalDecisionRequest_json req))))
| calls_ReportRuntimeInventory req :
    sending_calls _ _ (ApiClient.ReportRuntimeInventory over client req) reportRuntimeInventoryResponse
      (on_db (ReportRuntimeInventory
         (mkReportInput (clean (apRRIR_ServiceName req)) (clean (apRRIR_Environment req)) (clean (apRRIR_GitCommit req))
            (clean (apRRIR_BuildVersion req)) None
            (map (fun m => mkReportedModuleInput (clean (apRMR_Module m)) (clean (apRMR_Version m))) (apRRIR_Modules req)))))
      show_deployment
      (mkConditions [] (srv_runtime server) (within (limitRequestBody server) (body_text (ReportRuntimeInventoryRequest_json req)))).
(** The calls with a form, and those whose answer is not JSON. *)
Inductive other_calls : forall A B : Type, ApiClient.Call Registry B -> (A -> json) -> M Registry A -> (A -> B) -> Conditions -> Prop :=
| calls_CheckAuth :
    other_calls _ _ (ApiClient.CheckAuth over client) (fun _ => JObject []) (on_db (ListModules 100 0)) (fun _ => tt)
      (mkConditions [] true True)
| calls_RemoveModuleOwner module ownerID actor :
    other_calls _ _ (ApiClient.RemoveModuleOwner over client module ownerID actor) (fun _ => JObject [])
      (as_actor (TrimSpace actor) (fun actor => on_db (RemoveModuleOwner (mkRemoveModuleOwnerInput module ownerID actor))))
      (fun _ => tt)
      (mkConditions [module; ownerID] (srv_governance server) True)
| calls_PublishModuleVersion module version artifactName artifact file :
    other_calls _ _ (ApiClient.PublishModuleVersion over client module version artifactName artifact)
      (published_document module)
      (PublishModuleVersion svc (mkPublishRequest module (TrimSpace version) (file_reader file))) (show_published module)
      (mkConditions [module] true (form_read [("version", version)] artifactName artifact file))
| calls_CheckBreaking module against targetRef artifactName artifact file :
    other_calls _ _ (ApiClient.CheckBreaking over client module against targetRef artifactName artifact)
      (doc_json report_document)
      (CheckBreaking svc (mkCheckBreakingRequest module (TrimSpace against) (TrimSpace targetRef) (file_reader file)
                            (len artifact))) (doc_view report_document)
      (mkConditions [module] true (form_read (("against", against) :: if negb (TrimSpace targetRef =? "")%string then [("target_ref", targetRef)] else []) artifactName artifact file))
| calls_DownloadArtifact module version :
    other_calls _ _ (ApiClient.DownloadArtifact over client module version) (fun _ => JObject [])
      (let! v := on_db (GetModuleVersion module version) in
       let! r := DownloadArtifact module version in ret (v, r))
      (fun '(v, (object, artifact)) =>
         ApiClient.mkArtifactDownload (match object_Body object with Ok body => body | Err _ => "" end)
           (if (object_ContentType object =? "")%string then "application/octet-stream" else object_ContentType object)
           (version_Digest v) (artifact_ChecksumSHA256 artifact))
      (mkConditions [module; version] true True).
Inductive calls (A B : Type) (call : ApiClient.Call Registry B) (doc : A -> json) (m : M Registry A) (view : A -> B)
    (c : Conditions) : Prop :=
| calls_reading : reading_calls A B call doc m view c -> calls A B call doc m view c
| calls_sending : sending_calls A B call doc m view c -> calls A B call doc m view c
| calls_other : other_calls A B call doc m view c -> calls A B call doc m view c.

(** The handler of a request that reads nothing of its body. *)
Ltac handled :=
  intros r;
  repeat match goal with
  | H : srv_runtime server = true |- _ => unfold with_runtime; rewrite ?H; clear H
  | H : srv_governance server = true |- _ => unfold with_governance; rewrite ?H; clear H
  end.
Ltac get_with segs D lem Hc Ha Hs :=
  refine (get_call D _ segs _ _ _ _ _ _ _ _ Hc Ha _ _ _ _ _ _ lem Hs); [plain_path..|open_segments; route_found|reflexivity|].
Ltac post_with segs D lem st Hc Ha Hs :=
  refine (post_call D _ _ segs _ _ _ _ _ _ st _ _ _ Hc Ha _ _ _ _ _ _ _ _ lem Hs);
    [plain_path..| |open_segments; route_found|reflexivity| |done].

(** A request without a body, or with a form, and what is made of its answer. *)
Lemma plain_call {A B} method path segs contentType body query (use : HttpResponse -> B + ApiClient.ClientError)
    (ok : A -> HttpResponse) view pattern action resource handler values m s s0 :
  connected -> admitted s s0 -> path = "/" +:+ strings_Join "/" segs -> segs <> [] ->
  forallb plain_segment segs = true ->
  find_route (routes policyConfig server) (request method segs contentType body query)
  = Some (mkRoute method pattern (protected server action resource handler), values) ->
  communityActionAllowed action = true ->
  handler (ctx_of values) (request method segs contentType body query) s0 = answer m ok s0 ->
  (forall a s', m s0 = (Ok a, s') -> ApiClient.succeeded (ok a) = true /\ use (ok a) = inl (view a)) ->
  ApiClient.send over client (ApiClient.newRequest client method path contentType body query) use s = heard view m s0.
Proof.
  intros Hc Ha -> Hne Hp Hr Hact Hh Hok. rewrite newRequest_plain by done. apply (heard_send m ok); [done| |done].
  by rewrite (admitted_call _ s s0 _ _ _ _ _ _ Hr Hact).
Qed.

Lemma sendable_strings req : sendable (CreateModuleRequest_json req) = true.
Proof. done. Qed.
Lemma sendable_omitempty n s : forallb (fun f => sendable (snd f)) (omitempty n s) = true.
Proof. unfold omitempty. by destruct (_ =? _)%string. Qed.
Lemma sendable_owner req : sendable (AddModuleOwnerRequest_json req) = true.
Proof. unfold AddModuleOwnerRequest_json. rewrite sendable_object, forallb_app. cbn [forallb snd]. by rewrite sendable_omitempty. Qed.
Lemma sendable_approval req : sendable (CreateApprovalRequestRequest_json req) = true.
Proof. apply sendable_omitempty. Qed.
Lemma sendable_decision req : sendable (ApprovalDecisionRequest_json req) = true.
Proof. unfold ApprovalDecisionRequest_json. by rewrite sendable_object, forallb_app, !sendable_omitempty. Qed.
Lemma sendable_report req : sendable (ReportRuntimeInventoryRequest_json req) = true.
Proof. cbn. rewrite andb_true_r. by induction (apRRIR_Modules req). Qed.

#[local] Hint Unfold CreateModuleRequest_json LinkModuleGitLabProjectRequest_json DeprecateModuleVersionRequest_json
  AddModuleOwnerRequest_json CreateApprovalRequestRequest_json ApprovalDecisionRequest_json
  ReportRuntimeInventoryRequest_json RuntimeModuleRequest_json : client_documents.

(** The body of a request is read. *)
Ltac body_with req reads :=
  lazymatch goal with
  | |- with_unlimited_body _ _ _ _ _ = _ => rewrite (with_unlimited_body_read _ _ _ _ req _ _ _ reads)
  | |- with_optional_body _ _ _ _ _ _ = _ => rewrite (with_optional_body_read _ _ _ _ req _ _ _ reads)
  | |- with_body _ _ _ _ _ _ = _ => rewrite (with_body_read _ _ _ _ req _ _ _ reads)
  end; [|first [done|apply sendable_owner|apply sendable_approval|apply sendable_decision|apply sendable_report]
        |shallow|by eexists|done..].

(** Governance and the runtime inventory are switched on. *)
Ltac switched :=
  repeat match goal with
  | H : srv_runtime server = true |- _ => unfold with_runtime; rewrite H; clear H
  | H : srv_governance server = true |- _ => unfold with_governance; rewrite H; clear H
  end.
Ltac conditions :=
  cbn [path_arguments part_enabled body_read] in *;
  repeat match goal with H : Forall _ (_ :: _) |- _ => apply Forall_cons in H as [? H] end.
Definition as_named A B (call : ApiClient.Call Registry B) (doc : A -> json) (m : M Registry A) (view : A -> B)
    (c : Conditions) : Prop :=
  Forall (fun argument => plain_segment argument = true) (path_arguments c) -> part_enabled c = true -> body_read c ->
  forall s s0, connected -> admitted s s0 -> speakable m doc s0 -> call s = heard view m s0.

Lemma reading_as_named A B call doc m view c : reading_calls A B call doc m view c -> as_named A B call doc m view c.
Proof.
  intros H. destruct H; intros Hpath Hpart Hbody s s0 Hc Ha Hs; conditions.
  - get_with ["api"; "v1"; "edition"] edition_document readable_edition Hc Ha Hs. reflexivity.
  - unfold ApiClient.ListModules. rewrite (heard_map _ _ show_modules (on_db (ListModules 100 0)) s s0).
    + unfold heard. destruct (on_db _ s0) as [[a|e] s']; [|done]. do 2 f_equal. apply slice_items_shown.
    + get_with ["api"; "v1"; "modules"] modules_document readable_modules Hc Ha Hs. reflexivity.
  - unfold ApiClient.ListModuleVersions. rewrite (heard_map _ _ show_versions (on_db (ListModuleVersions module 100 0)) s s0).
    + unfold heard. destruct (on_db _ s0) as [[a|e] s']; [|done]. do 2 f_equal. apply slice_items_shown.
    + get_with ["api"; "v1"; "modules"; module; "versions"] versions_document readable_versions Hc Ha Hs. reflexivity.
  - get_with ["api"; "v1"; "modules"; module; "dependencies"] graph_document readable_graph Hc Ha Hs. reflexivity.
  - get_with ["api"; "v1"; "modules"; module; "affected"] affected_document readable_affected Hc Ha Hs. reflexivity.
  - get_with ["api"; "v1"; "breaking-reports"; reportID; "runtime-impact"] (impacts_document reportID)
      (readable_impacts reportID) Hc Ha Hs. intros r. unfold getBreakingReportRuntimeImpact. switched. reflexivity.
  - get_with ["api"; "v1"; "modules"; module; "owners"] (owners_document module) (readable_owners module) Hc Ha Hs.
    intros r. unfold listModuleOwners. switched. reflexivity.
  - get_with ["api"; "v1"; "breaking-reports"; reportID; "approval-status"] request_document readable_request Hc Ha Hs.
    intros r. unfold getApprovalStatus. switched. reflexivity.
Qed.

Lemma sending_as_named A B call doc m view c : sending_calls A B call doc m view c -> as_named A B call doc m view c.
Proof.
  intros H. destruct H; intros Hpath Hpart Hbody s s0 Hc Ha Hs; conditions.
  - post_with ["api"; "v1"; "modules"] module_document readable_module StatusCreated Hc Ha Hs; [done|].
    unfold createModule. by body_with req reads_module.
  - post_with ["api"; "v1"; "modules"; module; "versions"; version; "deprecate"] version_document readable_version
      StatusOK Hc Ha Hs; [done|].
    unfold deprecateModuleVersion. body_with req reads_deprecation. destruct Ha as (_ & Hz & _).
    unfold PrincipalFromContext. cbn [ctx_of rc_Principal]. rewrite Hz. apply orb_false_iff in Hz as [-> _]. reflexivity.
  - post_with ["api"; "v1"; "modules"; module; "gitlab-project"] project_document readable_project StatusOK Hc Ha Hs; [done|].
    unfold linkModuleGitLabProject. by body_with req reads_link.
  - post_with ["api"; "v1"; "modules"; module; "owners"] owner_document readable_owner StatusCreated Hc Ha Hs;
      [apply sendable_owner|].
    unfold addModuleOwner. switched. body_with req reads_owner. apply with_actor_answer.
  - post_with ["api"; "v1"; "breaking-reports"; reportID; "approval-request"] request_document readable_request
      StatusCreated Hc Ha Hs; [apply sendable_approval|].
    unfold createApprovalRequest. switched. body_with req reads_approval. apply with_actor_answer.
  - post_with ["api"; "v1"; "approval-requests"; requestID; "requirements"; requirementID; "approve"] request_document
      readable_request StatusOK Hc Ha Hs; [apply sendable_decision|].
    unfold approveRequirement, recordApprovalDecision. switched. body_with req reads_decision. apply with_actor_answer.
  - post_with ["api"; "v1"; "approval-requests"; requestID; "requirements"; requirementID; "reject"] request_document
      readable_request StatusOK Hc Ha Hs; [apply sendable_decision|].
    unfold rejectRequirement, recordApprovalDecision. switched. body_with req reads_decision. apply with_actor_answer.
  - post_with ["api"; "v1"; "runtime"; "reports"] deployment_document readable_deployment StatusCreated Hc Ha Hs;
      [apply sendable_report|].
    unfold reportRuntimeInventory. switched. body_with req reads_report. unfold sent_report.
    cbn [rr_ServiceName rr_Environment rr_GitCommit rr_BuildVersion rr_Modules]. rewrite slice_items_shown, map_map.
    reflexivity.
Qed.

(** A form with its file is read, and its answer is a document. *)
Lemma with_artifact_read values name content file contentType body segs method k s :
  ApiClient.WriteForm values ("artifact", name, content) = (contentType, body) -> form_read values name content file ->
  with_artifact server (request method segs contentType body []) k s
  = k (mkMultipartForm values [("artifact", file)]) file s.
Proof.
  unfold form_read. intros ->. intros [H _]. unfold with_artifact, ParseMultipartForm.
  cbn [request http_ContentType http_Body http_QueryValid http_Query]. by rewrite H.
Qed.

Lemma use_document {A B} (D : ClientDocument A B) status a :
  readable D -> 200 <= status < 300 -> sendable (doc_json D a) = true ->
  ApiClient.succeeded (writeJSON status (doc_json D a)) = true
  /\ match decode_text None (doc_decoder D) (http_ResponseBody (writeJSON status (doc_json D a))) (doc_zero D) with
     | inl t => inl t
     | inr _ => inr ApiClient.Unreadable
     end = inl (doc_view D a).
Proof.
  intros [Hr Hd] Hst Hs. destruct (Hd a) as [Hdepth Hobj]. destruct (sendable_Marshal _ Hs) as [text Em].
  split; [unfold ApiClient.succeeded, writeJSON; cbn [http_Status]; lia|].
  unfold writeJSON. rewrite Em. cbn [http_ResponseBody].
  by rewrite (read_text _ _ _ _ a text _ Hr Hs Hdepth Em Hobj).
Qed.

Lemma form_content values name content file : form_read values name content file -> multipart_Content file = content.
Proof. unfold form_read. destruct (ApiClient.WriteForm _ _). by intros [_ H]. Qed.
Lemma form_target_ref against targetRef files :
  TrimSpace (FormValue (mkMultipartForm (("against", against)
    :: if negb (TrimSpace targetRef =? "")%string then [("target_ref", targetRef)] else []) files) "target_ref")
  = TrimSpace targetRef.
Proof. destruct (TrimSpace targetRef =? "")%string eqn:E; cbn; [by apply String.eqb_eq in E as ->|done]. Qed.

(** The answer to the download of an artifact. *)
Definition download_response (module version : string) (a : Domain.ModuleVersion * (ArtifactObject * Domain.Artifact)) : HttpResponse :=
  let '(v, (object, artifact)) := a in
  mkHttpResponse StatusOK
    ([("Content-Type", if (object_ContentType object =? "")%string then "application/octet-stream"
                       else object_ContentType object);
      ("Content-Disposition", "attachment; filename=" +:+ String quote_char "" +:+ module +:+ "-" +:+ version
         +:+ ".tar.gz" +:+ String quote_char "");
      ("X-ProtoRadar-Digest", version_Digest v)]
     ++ (if (artifact_ChecksumSHA256 artifact =? "")%string then []
         else [("X-ProtoRadar-Checksum-SHA256", artifact_ChecksumSHA256 artifact)]))%list
    (match object_Body object with Ok body => body | Err _ => "" end).
Lemma downloadArtifact_answer module version r s :
  downloadArtifact (ctx_of [("module", module); ("version", version)]) r s
  = answer (let! v := on_db (GetModuleVersion module version) in let! r := DownloadArtifact module version in ret (v, r))
      (download_response module version) s.
Proof.
  unfold downloadArtifact. change (PathValue _ "module") with module. change (PathValue _ "version") with version.
  unfold answer, bind. destruct (on_db _ s) as [[v|e] s1]; [|done].
  destruct (DownloadArtifact module version s1) as [[[object artifact]|e] s2]; done.
Qed.

Lemma other_as_named A B call doc m view c : other_calls A B call doc m view c -> as_named A B call doc m view c.
Proof.
  intros H. destruct H; intros Hpath Hpart Hbody s s0 Hc Ha Hs; conditions.
  - refine (plain_call "GET" _ ["api"; "v1"; "modules"] _ _ _ _ _ (fun _ => tt) _ _ _ _ _ _ s s0 Hc Ha _ _ _ _ _ _ _);
      [plain_path..|route_found|reflexivity|reflexivity|done].
  - refine (plain_call "DELETE" _ ["api"; "v1"; "modules"; module; "owners"; ownerID] _ _ _ _ _ (fun _ => tt) _ _ _ _ _ _
      s s0 Hc Ha _ _ _ _ _ _ _); [plain_path..|open_segments; route_found|reflexivity| |].
    + unfold removeModuleOwner. switched. erewrite <- with_actor_answer. unfold Query_Get. cbn [http_Query request].
      unfold first_value. destruct (TrimSpace actor =? "")%string eqn:E; cbn; [apply String.eqb_eq in E as ->|]; reflexivity.
    + done.
  - unfold ApiClient.PublishModuleVersion.
    destruct (ApiClient.WriteForm _ _) as [contentType body] eqn:E.
    refine (plain_call "POST" _ ["api"; "v1"; "modules"; module; "versions"] _ _ _ _
      (fun r => writeJSON StatusCreated (published_document module r)) (show_published module) _ _ _ _ _ _
      s s0 Hc Ha _ _ _ _ _ _ _); [plain_path..|open_segments; route_found|reflexivity| |].
    + unfold publishModuleVersion. rewrite (with_artifact_read _ _ _ _ _ _ _ _ _ _ E Hbody). reflexivity.
    + intros a s' Em. apply (use_document (publication_document module) StatusCreated a (readable_publication module)); [done|].
      by eapply Hs.
  - unfold ApiClient.CheckBreaking.
    destruct (ApiClient.WriteForm _ _) as [contentType body] eqn:E.
    refine (plain_call "POST" _ ["api"; "v1"; "modules"; module; "breaking-checks"] _ _ _ _
      (fun r => writeJSON StatusOK (breakingReportResponse r.1 r.2)) (fun r => show_report r.1 r.2) _ _ _ _ _ _
      s s0 Hc Ha _ _ _ _ _ _ _); [plain_path..|open_segments; route_found|reflexivity| |].
    + unfold createBreakingCheck. match goal with H : form_read _ _ _ _ |- _ =>
        rewrite (with_artifact_read _ _ _ _ _ _ _ _ _ _ E H), (form_content _ _ _ _ H) end.
      rewrite form_target_ref. reflexivity.
    + intros a s' Em. apply (use_document report_document StatusOK a readable_report); [done|]. by eapply Hs.
  - refine (plain_call "GET" _ ["api"; "v1"; "modules"; module; "versions"; version; "artifact"] _ _ _ _
      (download_response module version) _ _ _ _ _ _ _ s s0 Hc Ha _ _ _ _ _ _ _); [plain_path..|open_segments; route_found|reflexivity| |].
    + apply downloadArtifact_answer.
    + intros [v [object artifact]] s' _. split; [done|]. unfold download_response, ApiClient.Header_Get, first_value.
      destruct (artifact_ChecksumSHA256 artifact =? "")%string eqn:E; [apply String.eqb_eq in E|]; cbn; [by rewrite E|done].
Qed.

(** C18: a call of the client is the operation it names.  When the address of the
    server has no path and the server knows the client's token, every call of the
    API client whose path arguments are plain (not empty, no dots alone, no slash
    and no percent sign), which asks for a part of the server that is switched on
    and whose body or form the server can read, returns what the operation of the
    service returns, each field as JSON carries it, or the status, the code and the
    message of its error, and leaves the server as that operation does, as long as
    the result can be written. *)
Theorem calls_are_operations A B (call : ApiClient.Call Registry B) (doc : A -> json) (m : M Registry A) (view : A -> B)
    (c : Conditions) s s0 (Hconnected : connected) (Hcall : calls A B call doc m view c)
    (Hpath : Forall (fun argument => plain_segment argument = true) (path_arguments c))
    (Hpart : part_enabled c = true) (Hbody : body_read c)
    (Hadmitted : admitted s s0) (Hresult : speakable m doc s0) :
  call s = heard view m s0.
Proof.
  destruct Hcall as [H|H|H];
    [apply reading_as_named in H|apply sending_as_named in H|apply other_as_named in H]; by apply H.
Qed.

(** Without a token that the server knows, every call is refused with 401. *)
Lemma unauthenticated {A} s s1 err method path segs contentType body query (use : HttpResponse -> A + ApiClient.ClientError)
    pattern action resource handler values :
  connected -> srv_auth server (mkAuthRequest ("Bearer " +:+ ApiClient.client_token client) "") s = (Err err, s1) ->
  path = "/" +:+ strings_Join "/" segs -> segs <> [] -> forallb plain_segment segs = true ->
  find_route (routes policyConfig server) (request method segs contentType body query)
  = Some (mkRoute method pattern (protected server action resource handler), values) ->
  ApiClient.send over client (ApiClient.newRequest client method path contentType body query) use s
  = (inr (ApiClient.Refused (refusal (StatusUnauthorized, "unauthorized", "Authentication is required."))), s1).
Proof.
  intros Hc Hs -> Hne Hp Hr. rewrite newRequest_plain by done. unfold ApiClient.send, over, ServeHTTP. rewrite Hr.
  cbn [route_Handler]. unfold protected, requireBearer. cbn [request http_Authorization]. rewrite Hs.
  unfold writeUnauthorized. by rewrite refused_answer by (done || by vm_compute).
Qed.
End Calls.

(** ** A client at work *)

Module CallExamples.
#[local] Existing Instance RegistryInvariant.RegistryExamples.pg.
#[local] Existing Instance RegistryInvariant.RegistryExamples.crypto.
#[local] Existing Instance RegistryInvariant.RegistryExamples.calm_os.
#[local] Existing Instance RegistryInvariant.RegistryExamples.store.
#[local] Existing Instance RegistryInvariant.RegistryExamples.host.
#[local] Existing Instance RegistryInvariant.RegistryExamples.calm_env.
#[local] Existing Instance example_unicode.
#[local] Existing Instance BufDescriptor.ProtoExamples.example_protobuf.
#[local] Existing Instance CommunityAuditSink.
#[local] Existing Instance DefaultPolicyEvaluator.
#[local] Existing Instance ServerPolicy.server_providers.
#[local] Existing Instance Bootstrap.BootstrapExamples.no_url.
#[local] Existing Instance Bootstrap.BootstrapExamples.plain_form.
#[local] Existing Instance Bootstrap.BootstrapExamples.calm_buf.
#[local] Existing Instance Bootstrap.BootstrapExamples.no_metrics.
#[local] Instance at_the_root : ApiClient.URLBase := {| ApiClient.url_Base := fun _ => Some "" |}.
(** A form whose content type is its first value and whose body is its file. *)
#[local] Instance plain_writer : ApiClient.MultipartWriter := {|
  ApiClient.WriteForm := fun values file => (default "" (snd <$> head values), file.2) |}.

Definition cfg : Config.RuntimeConfig := Bootstrap.BootstrapExamples.cfg.
Definition policy : PolicyConfig := Bootstrap.policy_config cfg.
Definition server : Server := Bootstrap.api_server cfg.
Definition client : ApiClient.Client := ApiClient.NewClient "http://registry/" Bootstrap.BootstrapExamples.token.
Definition before : Registry := Bootstrap.after_requests cfg Bootstrap.BootstrapExamples.history Bootstrap.BootstrapExamples.start.
Definition authenticated : result Principal * Registry :=
  srv_auth server (mkAuthRequest ("Bearer " +:+ ApiClient.client_token client) "") before.
Definition principal : Principal :=
  match authenticated.1 with Ok p => p | Err _ => mkPrincipal "" "" "" [] ∅ end.

Definition publish : ApiClient.Call Registry PublishModuleVersionResponse :=
  ApiClient.PublishModuleVersion (over policy server) client "users" "v2" "a.tar.gz" "syntax".
Definition publication : M Registry Registry.PublishModuleVersionResponse :=
  PublishModuleVersion (srv_registry server)
    (mkPublishRequest "users" (TrimSpace "v2") (file_reader (mkMultipartFile "a.tar.gz" "syntax"))).

Lemma speakable_check {A} (m : M Registry A) (doc : A -> json) s :
  match m s with (Ok a, _) => sendable (doc a) | (Err _, _) => true end = true -> speakable m doc s.
Proof. intros H a s' E. by rewrite E in H. Qed.

(** A second version is published, and what the client shows is what was made. *)
Lemma calls_are_operations_witness :
  publish before = heard client (show_published "users") publication authenticated.2
  /\ match (publish before).1 with
     | inl r => (apPMVR_Module r, apPMVR_Version r, apPMVR_Status r) = ("users", "v2", "published")
     | inr _ => False
     end.
Proof.
  split; [|vm_compute; reflexivity].
  refine (calls_are_operations policy server client principal _ _ publish (published_document "users") publication
            (show_published "users") _ before authenticated.2 _ _ _ _ _ _ _).
  - split; [reflexivity|vm_compute; discriminate].
  - apply calls_other. exact (calls_PublishModuleVersion policy server client principal "users" "v2" "a.tar.gz" "syntax"
      (mkMultipartFile "a.tar.gz" "syntax")).
  - by constructor.
  - reflexivity.
  - exact (conj eq_refl eq_refl).
  - split_and!; [vm_compute; reflexivity|vm_compute; reflexivity|].
    intros action resource E. change (srv_authorizer server) with CommunityAuthorizer. unfold Authorize, CommunityAuthorizer.
    rewrite E. assert (Principal_IsZero principal = false) as -> by (vm_compute; reflexivity). reflexivity.
  - apply speakable_check. vm_compute. reflexivity.
Defined.
End CallExamples.
