(* ===== verification/Packing.v ===== *)
(** * Packing and unpacking sources on the command line

    [cli/artifact.go]: [push] packs the sources below a directory into an archive,
    and [pull] unpacks the archive of a version into a directory. What is pulled
    into a new directory are exactly the sources that were packed. *)

From S2P Require Import Prelude Errors GoStrings Domain Effects Json Archive Postgres Outbox Events Tables World GovernanceStore UseCase CatalogStore Storage Registry.

Open Scope string_scope.
Open Scope Z_scope.

(** ** Paths *)

Definition not_exist : error := EExternal "file does not exist".

(** [filepath.Ext]: from the last dot of the last element. *)
Definition filepath_Ext (s : string) : string :=
  let parts := split_byte "." (List.last (split_byte slash s) "") in
  match parts with _ :: _ :: _ => "." +:+ List.last parts "" | _ => "" end.

(** It differs from the check of the server: a backslash is accepted. *)
Definition safeArchivePath (path : string) : bool :=
  if (path =? "")%string || HasPrefix path "/" || filepath_IsAbs path then false else
  let clean := filepath_Clean path in
  if (clean =? ".")%string || (clean =? "..")%string || HasPrefix clean "../" then false else (clean =? path)%string.

Definition shouldIncludeSourceFile (name : string) : bool :=
  (name =? "buf.yaml")%string || (name =? "buf.lock")%string || (filepath_Ext name =? ".proto")%string.
Definition shouldSkipArchiveDir (name : string) : bool :=
  existsb (String.eqb name) [".git"; "node_modules"; "tmp"; "dist"; "build"; "generated"; "vendor"].

(** ** What the commands ask of the file system *)

(** The entries of a directory, in the order of their names. *)
Definition child_name (p q : path) : option string :=
  match List.rev q.2 with
  | x :: up => if bool_decide (q.1 = p.1 /\ List.rev up = p.2) then Some x else None
  | [] => None
  end.
Definition dir_entries (nodes : gmap path node) (p : path) : list (string * node) :=
  omap (fun x => pair x <$> nodes !! (p.1, p.2 ++ [x])%list)
    (sort_Strings (omap (fun '(q, _) => child_name p q) (map_to_list nodes))).

Section Files.
Context `{SYS : !OS}.

Definition os_Stat (s : string) : M FS node := os_op (fun fs =>
  if (s =? "")%string then (Err not_exist, fs_nodes fs) else
  at_real (follow (fs_nodes fs) (parse s)) (fs_nodes fs) (fun q =>
    (match lookup_node fs q with Some n => Ok n | None => Err not_exist end, fs_nodes fs))).
Definition os_ReadDir (p : path) : M FS (list (string * node)) := os_op (fun fs =>
  at_real (follow (fs_nodes fs) p) (fs_nodes fs) (fun q =>
    (match lookup_node fs q with
     | Some NDir => Ok (dir_entries (fs_nodes fs) q)
     | Some _ => Err not_a_directory
     | None => Err not_exist
     end, fs_nodes fs))).
Definition Lstat (p : path) : M FS node :=
  let! info := os_Lstat p in
  match info with Some n => ret n | None => fail not_exist end.
(** [os.Open] of a file, and its content when it is read. *)
Definition os_Open (p : path) : M FS string := os_op (fun fs =>
  at_real (follow (fs_nodes fs) p) (fs_nodes fs) (fun q =>
    (match lookup_node fs q with
     | Some (NFile content) => Ok content
     | Some _ => Err (EExternal "read error")
     | None => Err not_exist
     end, fs_nodes fs))).
Definition os_Read : M FS unit := os_op (fun fs => (Ok tt, fs_nodes fs)).
End Files.

(** What [archive/tar] and [compress/gzip] make of the entries. *)
Class ArchiveWriter := { write_archive : list Entry -> string }.

Record ArtifactPackage := mkArtifactPackage {
  pkg_Body : string;
  pkg_ChecksumSHA256 : string;
  pkg_SizeBytes : Z;
  pkg_FileCount : Z }.

(** ** [createArtifact] *)

(** The entry of a file. *)
Definition packed (name content : string) : Entry := mkEntry (mkHeader name TypeReg (len content)) content.

(** The entries written so far, and how many are protobuf files. *)
Definition Packed : Type := list Entry * Z.

(** The text of [%q]. *)
Class Quoting := { strconv_Quote : string -> string }.

Section Create.
Context `{SYS : !OS} `{HOST : !Host} `{TAR : !ArchiveWriter} `{QUOTE : !Quoting}.

Definition requireRegularRootFile (root name : string) : M FS unit :=
  let path := filepath_Join root name in
  let! info := os_Lstat (parse path) in
  match info with
  | None => fail (EText (name +:+ " is required at the root of --path"))
  | Some (NSymlink _) => fail (EText ("unsafe symlink path " +:+ strconv_Quote path))
  | Some NDir => fail (EText (name +:+ " must be a regular file"))
  | Some (NFile _) => ret tt
  end.

(** [addFileToArchive] and [copyAndClose]: the error of the copy is joined with
    that of closing the file. *)
Definition addFileToArchive (st : Packed) (path name : string) : M FS Packed :=
  let! content := os_Open (parse path) in
  let! copied := try os_Read in
  let! closed := try file_Close in
  match copied, closed with
  | Err e, Err e' => fail (EJoin e e')
  | Err e, Ok _ | Ok _, Err e => fail e
  | Ok _, Ok _ => ret (st.1 ++ [packed name content], st.2)%list
  end.

Definition skip_dir (root path : string) : bool :=
  shouldSkipArchiveDir (List.last (parse path).2 "") && negb (path =? root)%string.
(** The function [filepath.WalkDir] calls: whether the directory is skipped, and
    what is packed. *)
Definition visit (root path : string) (entry : node) (st : Packed) : M FS (bool * Packed) :=
  match entry with
  | NDir => ret (skip_dir root path, st)
  | NSymlink _ => fail (EText ("unsafe symlink path " +:+ strconv_Quote path))
  | NFile _ =>
      let! info := Lstat (parse path) in
      match info with
      | NFile _ =>
          let! name := lift (filepath_Rel root path) in
          if negb (safeArchivePath name) then fail (EText ("unsafe archive path " +:+ strconv_Quote name)) else
          if negb (shouldIncludeSourceFile name) then ret (false, st) else
          let! st := addFileToArchive st path name in
          ret (false, (st.1, if (filepath_Ext name =? ".proto")%string then st.2 + 1 else st.2))
      | _ => ret (false, st)
      end
  end.

(** [filepath.WalkDir]: a directory is visited, then what is in it, in the order
    of the names. [depth] bounds how deep the directories are. *)
Fixpoint walkEntries (walk : string -> node -> Packed -> M FS Packed) (entries : list (string * node)) (st : Packed)
    : M FS Packed :=
  match entries with
  | [] => ret st
  | (name, entry) :: rest => let! st := walk name entry st in walkEntries walk rest st
  end.
Fixpoint walkDir (root : string) (depth : nat) (path : string) (entry : node) (st : Packed) : M FS Packed :=
  let! (skip, st) := visit root path entry st in
  match entry with
  | NDir =>
      if skip then ret st else
      let! entries := os_ReadDir (parse path) in
      walkEntries (fun name entry st =>
        match depth with
        | O => fail (EExternal "directories too deep")
        | S depth' => walkDir root depth' (filepath_Join path name) entry st
        end) entries st
  | _ => ret st
  end.

Definition max_depth (fs : FS) : nat := foldr (fun q n => Nat.max (length q.1.2) n) O (map_to_list (fs_nodes fs)).
Definition WalkDir (root : string) (st : Packed) : M FS Packed :=
  let! entry := Lstat (parse root) in
  fun fs => walkDir root (max_depth fs) root entry st fs.

Definition createArtifact (root : string) : M FS ArtifactPackage :=
  let! info := os_Stat root in
  match info with
  | NDir =>
      let! _ := requireRegularRootFile root "buf.yaml" in
      let! (entries, fileCount) := WalkDir root ([], 0) in
      if fileCount =? 0 then fail (EText "no .proto files found") else
      let body := write_archive entries in
      ret (mkArtifactPackage body (sha256_hex body) (len body) fileCount)
  | _ => fail (EText (root +:+ " is not a directory"))
  end.
End Create.

(** ** [extractArtifact] *)

Section Pull.
Context `{SYS : !OS} `{QUOTE : !Quoting}.

Definition ensureOutputDir (outputDir : string) (force : bool) : M FS unit :=
  let! info := try (os_Stat outputDir) in
  match info with
  | Ok NDir =>
      let! entries := os_ReadDir (parse outputDir) in
      match entries with
      | _ :: _ => if force then ret tt else fail (EText (outputDir +:+ " is not empty; use --force to overwrite"))
      | [] => ret tt
      end
  | Ok _ => fail (EText (outputDir +:+ " exists and is not a directory"))
  | Err e =>
      if bool_decide (e = not_exist) then
        if (outputDir =? "")%string then fail not_exist else os_MkdirAll (parse outputDir)
      else fail e
  end.

Definition pullEntry (outputDir : string) (entry : Entry) : M FS unit :=
  let header := entry_Header entry in
  if negb (header_Typeflag header =? TypeReg) then ret tt else
  if negb (safeArchivePath (header_Name header)) then fail (EText ("unsafe artifact path " +:+ strconv_Quote (header_Name header))) else
  let target := filepath_Join outputDir (header_Name header) in
  if negb (insideDir outputDir target) then fail (EText ("unsafe artifact path " +:+ strconv_Quote (header_Name header))) else
  let! _ := os_MkdirAll (path_dir (parse target)) in
  let! file := os_OpenTrunc (parse target) in
  let! copied := try (io_CopyN file (entry_Body entry) (header_Size header)) in
  let! closed := try file_Close in
  match copied with
  | Err copyErr => fail copyErr
  | Ok _ => lift closed
  end.

Fixpoint pullLoop (outputDir : string) (archive : list Entry) (ending : ArchiveEnd) : M FS unit :=
  match archive with
  | [] => match ending with EndEOF => ret tt | EndError err => fail err end
  | entry :: archive' => let! _ := pullEntry outputDir entry in pullLoop outputDir archive' ending
  end.

Definition extractArtifact (gzip : result (list Entry * ArchiveEnd)) (outputDir : string) (force : bool) : M FS unit :=
  let! _ := ensureOutputDir outputDir force in
  let! (archive, ending) := lift gzip in
  pullLoop outputDir archive ending.
End Pull.

(** ** Lemmas on paths *)

Lemma safeArchivePath_true s : safeArchivePath s = true <-> Forall safe_elem (split_byte slash s).
Proof.
  unfold safeArchivePath, filepath_IsAbs. split.
  - destruct (s =? "")%string; [done|]. destruct (HasPrefix s "/") eqn:E1; [done|]. cbn [orb].
    destruct (_ || _ || _) eqn:E2; [done|]. apply orb_false_iff in E2 as [[E2 E3]%orb_false_iff E4].
    intros E5%String.eqb_eq. rewrite E5 in *. apply String.eqb_neq in E2, E3. by apply clean_path_safe.
  - intros H. unfold filepath_Clean. rewrite (parse_safe s H), (render_split s H), String.eqb_refl.
    assert (Hne : forall t, t = "" \/ t = "." \/ t = ".." -> (s =? t)%string = false).
    { intros t Ht. apply String.eqb_neq. intros ->.
      destruct Ht as [->|[->| ->]]; inversion H as [|? ? (? & ? & ?)]; by subst. }
    assert (H1 : HasPrefix s "/" = false) by (pose proof (parse_safe s H) as E; by injection E).
    assert (H2 : HasPrefix s "../" = false).
    { apply not_true_is_false. intros (cs & E)%split_head_dots. rewrite E in H.
      inversion H as [|? ? (_ & _ & Hx)]. done. }
    rewrite !Hne, H1, H2 by auto. done.
Qed.

Lemma rel_join root path rel :
  parse path = ((parse root).1, (parse root).2 ++ rel)%list -> rel <> [] ->
  filepath_Rel root path = Ok (strings_Join "/" rel).
Proof.
  intros E Hne. unfold filepath_Rel. rewrite E. destruct (parse root) as [r e]. cbn [fst snd].
  rewrite Bool.eqb_reflx. cbn [negb]. rewrite rel_elems_app. by destruct rel.
Qed.

Lemma child_name_spec p q x : child_name p q = Some x <-> q = (p.1, p.2 ++ [x])%list.
Proof.
  unfold child_name. destruct q as [r l]. cbn [fst snd]. destruct (List.rev l) as [|y up] eqn:E.
  - split; [done|]. intros [= -> ->]. by rewrite rev_app_distr in E.
  - assert (l = (List.rev up ++ [y])%list) as -> 
      by (apply (f_equal (@List.rev _)) in E; rewrite rev_involutive in E; exact E).
    case_bool_decide as Hb; split; intros H.
    + destruct Hb as [-> Hup]. injection H as ->. rewrite <- Hup. reflexivity.
    + injection H as -> H. apply app_inj_tail in H as [_ ->]. reflexivity.
    + discriminate H.
    + injection H as -> H. apply app_inj_tail in H as [H _]. by destruct Hb.
Qed.

Lemma dir_entries_in nodes p x d : (x, d) ∈ dir_entries nodes p <-> nodes !! (p.1, p.2 ++ [x])%list = Some d.
Proof.
  unfold dir_entries. rewrite list_elem_of_omap. split.
  - intros (y & _ & H). destruct (nodes !! _) as [n|] eqn:E; [|done]. by injection H as -> ->.
  - intros H. exists x. split; [|by rewrite H]. rewrite sort_Strings_perm. apply list_elem_of_omap.
    exists ((p.1, p.2 ++ [x])%list, d). split; [by apply elem_of_map_to_list|]. by apply child_name_spec.
Qed.
Lemma dir_entries_NoDup nodes p : NoDup (map fst (dir_entries nodes p)).
Proof.
  assert (H : NoDup (sort_Strings (omap (fun '(q, _) => child_name p q) (map_to_list nodes)))).
  { rewrite sort_Strings_perm. pose proof (NoDup_fst_map_to_list nodes) as H. revert H.
    induction (map_to_list nodes) as [|[q n] l IH]; [constructor|]. cbn. intros H. inversion H as [|? ? Hq Hl]; subst.
    destruct (child_name p q) as [x|] eqn:E; [|by apply IH]. constructor; [|by apply IH].
    rewrite list_elem_of_omap. intros ((q' & n') & Hin & E'). apply Hq, list_elem_of_fmap.
    exists (q', n'). split; [|done]. apply child_name_spec in E, E'. by subst. }
  unfold dir_entries. induction H as [|x l Hx H IH]; [constructor|]. cbn.
  destruct (nodes !! _) as [n|]; [|done]. cbn. constructor; [|done].
  rewrite list_elem_of_fmap. intros ((y & n') & -> & Hin). apply list_elem_of_omap in Hin as (z & Hz & E).
  destruct (nodes !! (p.1, (p.2 ++ [z])%list)); [|done]. cbn in E. injection E as -> _. done.
Qed.

(** ** The sources below a directory *)

(** A name of a file: it is neither empty nor made of dots, and holds neither a
    slash nor a zero byte. *)
Definition plain_name (x : string) : Prop := safe_elem x /\ plain_elem x /\ no_byte "000"%char x = true.
Definition named (nodes : gmap path node) (base : path) : Prop :=
  forall rel x d, nodes !! at_path base (rel ++ [x]) = Some d -> plain_name x.

Definition skips (rel : list string) : bool :=
  match rel with [] => false | _ => shouldSkipArchiveDir (List.last rel "") end.

(** From [rel], where [d] is, the walk comes to [rel'], where [d'] is. *)
Inductive visited (nodes : gmap path node) (base : path) : list string -> node -> list string -> node -> Prop :=
| visited_here rel d : visited nodes base rel d rel d
| visited_down rel x d rel' d' :
    skips rel = false -> nodes !! at_path base (rel ++ [x]) = Some d ->
    visited nodes base (rel ++ [x]) d rel' d' -> visited nodes base rel NDir rel' d'.

Definition name_of (rel : list string) : string := strings_Join "/" rel.
(** The sources of a directory: its files that are not below a skipped directory
    and have a name that is packed. *)
Definition source (nodes : gmap path node) (base : path) (rel : list string) (content : string) : Prop :=
  visited nodes base [] NDir rel (NFile content) /\ shouldIncludeSourceFile (name_of rel) = true.

Lemma visited_prefix nodes base rel d rel' d' :
  visited nodes base rel d rel' d' -> exists more, rel' = (rel ++ more)%list.
Proof.
  induction 1 as [rel d|rel x d rel' d' _ _ _ (more & ->)]; [by exists []; rewrite app_nil_r|].
  exists ([x] ++ more)%list. by rewrite app_assoc.
Qed.
Lemma visited_named nodes base rel d rel' d' :
  named nodes base -> visited nodes base rel d rel' d' -> Forall plain_name rel -> Forall plain_name rel'.
Proof.
  intros Hn. induction 1 as [|rel x d rel' d' _ Hx _ IH]; [done|]. intros H. apply IH, Forall_app_2; [done|].
  constructor; [by apply (Hn rel x d)|done].
Qed.
Lemma visited_at nodes base rel d rel' d' :
  visited nodes base rel d rel' d' -> rel' = rel /\ d' = d \/ nodes !! at_path base rel' = Some d'.
Proof.
  induction 1 as [|rel x d rel' d' _ Hx _ IH]; [by left|]. right. destruct IH as [[-> ->]|IH]; done.
Qed.

Lemma name_of_split rel : rel <> [] -> Forall plain_name rel -> split_byte slash (name_of rel) = rel.
Proof. intros Hne H. apply split_join; [done|]. eapply Forall_impl; [exact H|]. by intros x (_ & ? & _). Qed.
Lemma name_of_safe rel : rel <> [] -> Forall plain_name rel -> Forall safe_elem (split_byte slash (name_of rel)).
Proof. intros Hne H. rewrite name_of_split by done. eapply Forall_impl; [exact H|]. by intros x (? & _). Qed.
Lemma name_of_inj rel1 rel2 :
  rel1 <> [] -> rel2 <> [] -> Forall plain_name rel1 -> Forall plain_name rel2 -> name_of rel1 = name_of rel2 -> rel1 = rel2.
Proof. intros H1 H2 P1 P2 E. rewrite <- (name_of_split rel1), <- (name_of_split rel2) by done. by rewrite E. Qed.

Definition entry_name (e : Entry) : string := header_Name (entry_Header e).
Definition is_proto (e : Entry) : bool := (filepath_Ext (entry_name e) =? ".proto")%string.
Definition protos (es : list Entry) : Z := Z.of_nat (length (List.filter is_proto es)).

Section Walk.
Context `{SYS : !OS} `{HOST : !Host} `{TAR : !ArchiveWriter} `{QUOTE : !Quoting}.
(** The directory [root] is [base], links followed. *)
Variables (nodes : gmap path node) (root : string) (base : path).
Hypothesis Hnamed : named nodes base.

(** The entries [es] are the files that the walk comes to from [rel], each once. *)
Definition reached (rel : list string) (d : node) (e : Entry) : Prop :=
  exists rel' c, visited nodes base rel d rel' (NFile c) /\ shouldIncludeSourceFile (name_of rel') = true
    /\ e = packed (name_of rel') c.
Definition packs (rel : list string) (d : node) (es : list Entry) : Prop :=
  NoDup (map entry_name es) /\ forall e, e ∈ es <-> reached rel d e.

(** What a part of the walk adds. *)
Definition adds (st st' : Packed) (es : list Entry) : Prop :=
  st'.1 = (st.1 ++ es)%list /\ st'.2 = st.2 + protos es.
Lemma adds_nil st : adds st st [].
Proof. split; [by rewrite app_nil_r|]. unfold protos. cbn. lia. Qed.
Lemma adds_app st1 st2 st3 es1 es2 : adds st1 st2 es1 -> adds st2 st3 es2 -> adds st1 st3 (es1 ++ es2).
Proof.
  intros [H1 H2] [H3 H4]. split; [by rewrite H3, H1, app_assoc|]. rewrite H4, H2. unfold protos.
  rewrite List.filter_app, length_app. lia.
Qed.

Lemma os_op_kept {A} (f : FS -> result A * gmap path node) fs a fs' :
  (forall fs, (f fs).2 = fs_nodes fs) -> os_op f fs = (Ok a, fs') -> fs_nodes fs' = fs_nodes fs /\ (f fs).1 = Ok a.
Proof.
  intros Hf H. apply os_op_Ok in H. specialize (Hf fs). rewrite H in Hf. cbn in Hf. by rewrite H.
Qed.

Lemma at_real_kept {A : Type} real fs (f : FS -> path -> result A) a fs' :
  os_op (fun fs => at_real (real fs) (fs_nodes fs) (fun q => (f fs q, fs_nodes fs))) fs = (Ok a, fs') ->
  fs_nodes fs' = fs_nodes fs /\ exists q, real fs = Some q /\ f fs q = Ok a.
Proof.
  intros H. apply os_op_kept in H as [E H]; [|intros g; by destruct (real g)]. split; [done|].
  destruct (real fs) as [q|]; [|done]. by exists q.
Qed.

Lemma os_Lstat_Ok p n fs fs' : os_Lstat p fs = (Ok n, fs') ->
  fs_nodes fs' = fs_nodes fs /\ exists q, follow_dir (fs_nodes fs) p = Some q /\ lookup_node fs q = n.
Proof.
  intros H. apply (at_real_kept (fun fs => follow_dir (fs_nodes fs) p) fs (fun fs q => Ok (lookup_node fs q))) in H
    as (E & q & Hq & H). split; [done|]. exists q. by injection H.
Qed.
Lemma Lstat_Ok p n fs fs' : Lstat p fs = (Ok n, fs') ->
  fs_nodes fs' = fs_nodes fs /\ exists q, follow_dir (fs_nodes fs) p = Some q /\ lookup_node fs q = Some n.
Proof.
  intros (info & f1 & (E1 & q & Hq & H1)%os_Lstat_Ok & H)%bind_Ok.
  destruct info; [|done]. injection H as <- <-. split; [done|]. by exists q.
Qed.
Lemma os_Open_Ok p c fs fs' : os_Open p fs = (Ok c, fs') ->
  fs_nodes fs' = fs_nodes fs /\ exists q, follow (fs_nodes fs) p = Some q /\ lookup_node fs q = Some (NFile c).
Proof.
  intros H. eapply (at_real_kept (fun fs => follow (fs_nodes fs) p) fs (fun fs q => match lookup_node fs q with
    | Some (NFile content) => Ok content | Some _ => Err _ | None => Err _ end)) in H as (E & q & Hq & H).
  split; [done|]. exists q. split; [done|]. destruct (lookup_node fs q) as [[]|]; congruence.
Qed.
Lemma os_ReadDir_Ok p l fs fs' : os_ReadDir p fs = (Ok l, fs') ->
  fs_nodes fs' = fs_nodes fs /\ exists q, follow (fs_nodes fs) p = Some q /\ lookup_node fs q = Some NDir
    /\ l = dir_entries (fs_nodes fs) q.
Proof.
  intros H. eapply (at_real_kept (fun fs => follow (fs_nodes fs) p) fs (fun fs q => match lookup_node fs q with
    | Some NDir => Ok (dir_entries (fs_nodes fs) q) | Some _ => Err _ | None => Err _ end)) in H as (E & q & Hq & H).
  split; [done|]. exists q. split; [done|]. destruct (lookup_node fs q) as [[]|]; try done. by injection H as <-.
Qed.
Lemma os_Stat_Ok s n fs fs' : os_Stat s fs = (Ok n, fs') ->
  s <> "" /\ fs_nodes fs' = fs_nodes fs /\ exists q, follow (fs_nodes fs) (parse s) = Some q /\ lookup_node fs q = Some n.
Proof.
  unfold os_Stat. destruct (String.eqb_spec s "") as [->|Hs].
  { intros H. by apply os_op_Ok in H. }
  intros H. split; [done|]. eapply (at_real_kept (fun fs => follow (fs_nodes fs) (parse s)) fs (fun fs q => match lookup_node fs q with
    | Some n => Ok n | None => Err _ end)) in H as (E & q & Hq & H).
  split; [done|]. exists q. split; [done|]. destruct (lookup_node fs q); congruence.
Qed.

Lemma addFileToArchive_Ok st path name fs st' fs' :
  addFileToArchive st path name fs = (Ok st', fs') ->
  exists c, fs_nodes fs' = fs_nodes fs
    /\ (exists q, follow (fs_nodes fs) (parse path) = Some q /\ lookup_node fs q = Some (NFile c))
    /\ st' = (st.1 ++ [packed name c], st.2)%list.
Proof.
  unfold addFileToArchive. intros (c & f1 & (E1 & H1)%os_Open_Ok & H)%bind_Ok.
  apply bind_Ok in H as (copied & f2 & H2%try_Ok_inv & H). apply bind_Ok in H as (closed & f3 & H3%try_Ok_inv & H).
  destruct copied as [[]|], closed as [[]|]; [|done..]. injection H as <- <-.
  apply os_op_kept in H2 as [E2 _], H3 as [E3 _]; [|done..]. exists c. split; [congruence|]. by split.
Qed.

Lemma at_path_nonempty rel : rel <> [] -> (at_path base rel).2 <> [].
Proof. intros Hne H. apply app_eq_nil in H as [_ H]. done. Qed.

(** [entry] stands at [path], which is below the root by the names [rel]; it may be
    a link, which is not followed. *)
Record stands (path : string) (rel : list string) (entry : node) : Prop := mkStands {
  st_parse : parse path = at_path (parse root) rel;
  st_root : rel = [] -> path = root;
  st_plain : Forall plain_name rel;
  st_dir : rel = [] -> entry = NDir;
  st_real : follow_dir nodes (parse path) = Some (at_path base rel);
  st_lookup : forall fs, fs_nodes fs = nodes -> lookup_node fs (at_path base rel) = Some entry }.

Lemma stands_follow path rel entry :
  stands path rel entry -> (forall t, entry <> NSymlink t) -> follow nodes (parse path) = Some (at_path base rel).
Proof.
  intros [_ _ _ _ Hr Hl] Hn. apply (follow_dir_follow _ _ _ Hr). intros (t & Ht).
  specialize (Hl (mkFS nodes 0) eq_refl). unfold lookup_node in Hl. cbn [fs_nodes] in Hl. rewrite Ht in Hl.
  by injection Hl as <-; destruct (Hn t).
Qed.

Lemma visit_Ok path rel entry st fs skip st' fs' :
  stands path rel entry -> fs_nodes fs = nodes ->
  visit root path entry st fs = (Ok (skip, st'), fs') ->
  fs_nodes fs' = fs_nodes fs
  /\ match entry with
     | NDir => skip = skips rel /\ st' = st
     | NFile c =>
         exists es, adds st st' es /\ es = if shouldIncludeSourceFile (name_of rel) then [packed (name_of rel) c] else []
     | NSymlink _ => False
     end.
Proof.
  intros S Hfs H. pose proof S as [Hp Hr Hpl Hd Hreal Hl]. destruct entry as [|c|]; [| |done].
  - injection H as <- <- <-. split; [done|]. split; [|done]. unfold skips, skip_dir. destruct rel as [|x rel].
    + rewrite (Hr eq_refl), String.eqb_refl. cbn. by rewrite andb_false_r.
    + replace (path =? root)%string with false.
      * rewrite andb_true_r, Hp. f_equal. cbn [snd at_path]. destruct (exists_last (l := x :: rel)) as (l & y & ->); [done|].
        by rewrite app_assoc, !List.last_last.
      * symmetry. apply String.eqb_neq. intros ->. destruct (parse root) as [r b]. unfold at_path in Hp. cbn in Hp.
        injection Hp as Hp. apply (f_equal length) in Hp. rewrite length_app in Hp. cbn in Hp. lia.
  - assert (Hne : rel <> []) by (intros ->; by specialize (Hd eq_refl)).
    unfold visit in H. apply bind_Ok in H as (info & f1 & (E1 & q & Hq & H1)%Lstat_Ok & H).
    rewrite Hfs, Hreal in Hq. injection Hq as <-. rewrite (Hl fs Hfs) in H1. injection H1 as <-.
    apply bind_Ok in H as (name & f2 & H2 & H). apply lift_Ok in H2 as [H2 ->].
    rewrite (rel_join root path rel) in H2 by done. injection H2 as <-. fold (name_of rel) in H.
    destruct (safeArchivePath (name_of rel)); [|done]. cbn [negb] in H.
    destruct (shouldIncludeSourceFile (name_of rel)) eqn:Ei; cbn [negb] in H.
    + apply bind_Ok in H as (st1 & f3 & (c' & E3 & (q & Hq & Hc) & ->)%addFileToArchive_Ok & H). injection H as <- <- <-.
      split; [congruence|]. exists [packed (name_of rel) c]. split; [|done].
      assert (c' = c) as ->.
      { rewrite E1, Hfs, (stands_follow _ _ _ S) in Hq by done. injection Hq as <-.
        rewrite (Hl f1) in Hc by congruence. by injection Hc. }
      split; [done|]. unfold protos. cbn [List.filter snd fst is_proto entry_name packed entry_Header header_Name].
      unfold is_proto. cbn [entry_name packed entry_Header header_Name].
      change (entry_name (packed (name_of rel) c)) with (name_of rel).
      destruct (filepath_Ext (name_of rel) =? ".proto")%string; cbn; lia.
    + injection H as <- <- <-. split; [done|]. exists []. split; [apply adds_nil|done].
Qed.

(** What the walk packs below several entries of one directory. *)
Lemma packs_dir rel l es :
  skips rel = false -> Forall plain_name rel -> NoDup (map fst l) ->
  (forall x d, (x, d) ∈ l <-> nodes !! at_path base (rel ++ [x]) = Some d) ->
  NoDup (map entry_name es) /\ (forall e, e ∈ es <-> exists x d, (x, d) ∈ l /\ reached (rel ++ [x]) d e) ->
  packs rel NDir es.
Proof.
  intros Hs Hpl Hnd Hl [H1 H2]. split; [done|]. intros e. rewrite H2. split.
  - intros (x & d & Hx%Hl & rel' & c & Hv & Hi & ->). exists rel', c. split; [|done]. by eapply visited_down.
  - intros (rel' & c & Hv & Hi & ->). inversion Hv as [|? x d ? ? _ Hx Hv']; subst.
    exists x, d. split; [by apply Hl|]. by exists rel', c.
Qed.

Lemma reached_name rel x d e :
  Forall plain_name rel -> plain_name x -> reached (rel ++ [x]) d e ->
  exists more, Forall plain_name (rel ++ [x] ++ more) /\ entry_name e = name_of (rel ++ [x] ++ more).
Proof.
  intros Hpl Hx (rel' & c & Hv & _ & ->). pose proof (visited_prefix _ _ _ _ _ _ Hv) as (more & ->).
  exists more. rewrite app_assoc. split; [|done].
  eapply visited_named; [exact Hnamed|exact Hv|]. apply Forall_app_2; [done|by constructor].
Qed.
Lemma reached_apart rel x1 d1 e1 x2 d2 e2 :
  Forall plain_name rel -> plain_name x1 -> plain_name x2 ->
  reached (rel ++ [x1]) d1 e1 -> reached (rel ++ [x2]) d2 e2 -> entry_name e1 = entry_name e2 -> x1 = x2.
Proof.
  intros Hpl P1 P2 H1 H2 E. apply reached_name in H1 as (m1 & Q1 & E1), H2 as (m2 & Q2 & E2); [|done..].
  rewrite E1, E2 in E. apply name_of_inj in E; [|by destruct rel|by destruct rel|done|done].
  apply app_inv_head in E. by injection E.
Qed.

(** What is packed by a part of the walk that succeeds. *)
Definition walks (m : Packed -> M FS Packed) (rel : list string) (d : node) : Prop :=
  forall st fs st' fs', fs_nodes fs = nodes -> m st fs = (Ok st', fs') ->
    fs_nodes fs' = nodes /\ exists es, adds st st' es /\ packs rel d es.

Lemma walkEntries_Ok walk rel l st fs st' fs' :
  Forall plain_name rel -> NoDup (map fst l) -> (forall x d, (x, d) ∈ l -> plain_name x) ->
  (forall x d, (x, d) ∈ l -> walks (walk x d) (rel ++ [x]) d) ->
  fs_nodes fs = nodes -> walkEntries walk l st fs = (Ok st', fs') ->
  fs_nodes fs' = nodes
  /\ exists es, adds st st' es /\ NoDup (map entry_name es)
     /\ forall e, e ∈ es <-> exists x d, (x, d) ∈ l /\ reached (rel ++ [x]) d e.
Proof.
  intros Hpl. revert st fs. induction l as [|[x d] l IH]; intros st fs Hnd Hx Hw Hfs H; cbn [walkEntries] in H.
  - injection H as <- <-. split; [done|]. exists []. split; [apply adds_nil|]. split; [constructor|].
    intros e. split; [by intros ?%elem_of_nil|]. by intros (? & ? & ?%elem_of_nil & _).
  - inversion Hnd as [|? ? Hout Hnd']; subst. apply bind_Ok in H as (st1 & f1 & H1 & H).
    apply (Hw x d) in H1 as (E1 & es1 & A1 & N1 & P1); [|by left|done].
    apply IH in H as (E2 & es2 & A2 & N2 & P2); [|done|intros; eapply Hx; by right|intros; apply Hw; by right|done].
    split; [done|]. exists (es1 ++ es2)%list. split; [by eapply adds_app|].
    assert (P : forall e, e ∈ (es1 ++ es2)%list <-> exists x0 d0, (x0, d0) ∈ (x, d) :: l /\ reached (rel ++ [x0]) d0 e).
    { intros e. rewrite elem_of_app, P1, P2. split.
      - intros [H'|(y & dy & Hy & H')]; [exists x, d; split; [by left|done]|exists y, dy; split; [by right|done]].
      - intros (y & dy & [[= -> ->]|Hy]%elem_of_cons & H'); [by left|right]. by exists y, dy. }
    split; [|exact P]. rewrite map_app. apply NoDup_app. split; [done|]. split; [|done].
    intros n (e1 & -> & He1)%list_elem_of_fmap (e2 & E & He2)%list_elem_of_fmap.
    apply P1 in He1. apply P2 in He2 as (y & dy & Hy & He2). apply Hout, list_elem_of_fmap. exists (y, dy). split; [|done].
    cbn. eapply (reached_apart rel x d e1 y dy e2); try done; [by eapply Hx; left|by eapply Hx; right].
Qed.

Definition deep (depth : nat) (rel : list string) : Prop :=
  forall q n, nodes !! q = Some n -> (length q.2 <= depth + length rel)%nat.

(** A file, or a directory whose entries are walked. *)
Lemma packs_file rel c :
  rel <> [] -> packs rel (NFile c) (if shouldIncludeSourceFile (name_of rel) then [packed (name_of rel) c] else []).
Proof.
  intros Hne. split; [case_match; [apply NoDup_singleton|apply NoDup_nil_2]|]. intros e. split.
  - destruct (shouldIncludeSourceFile (name_of rel)) eqn:E; [|by intros ?%elem_of_nil].
    intros ->%list_elem_of_singleton. exists rel, c. split; [apply visited_here|done].
  - intros (rel' & c' & Hv & Hi & ->). inversion Hv; subst. rewrite Hi. by left.
Qed.
Lemma packs_skipped rel : skips rel = true -> packs rel NDir [].
Proof.
  intros Hs. split; [constructor|]. intros e. split; [by intros ?%elem_of_nil|].
  intros (rel' & c & Hv & _). inversion Hv; congruence.
Qed.

Lemma entries_in rel x d : (x, d) ∈ dir_entries nodes (at_path base rel) <-> nodes !! at_path base (rel ++ [x]) = Some d.
Proof. rewrite dir_entries_in. unfold at_path. cbn [fst snd]. by rewrite app_assoc. Qed.

Lemma at_path_app p l1 l2 : at_path (at_path p l1) l2 = at_path p (l1 ++ l2).
Proof. unfold at_path. cbn [fst snd]. by rewrite app_assoc. Qed.

(** Where the walk is: [entry] stands at [path], and nothing is deeper than [depth]
    directories below it. *)
Record walked_to (depth : nat) (path : string) (rel : list string) (entry : node) : Prop := mkWalkedTo {
  wt_nonempty : path <> "";
  wt_deep : deep depth rel;
  wt_stands : stands path rel entry }.

Lemma walked_to_child depth path rel x d :
  walked_to depth path rel NDir -> (x, d) ∈ dir_entries nodes (at_path base rel) ->
  exists depth', depth = S depth' /\ walked_to depth' (filepath_Join path x) (rel ++ [x]) d.
Proof.
  intros [Hne Hd S] Hx%entries_in. pose proof (stands_follow _ _ _ S ltac:(done)) as Hf. destruct S as [Hp Hr Hpl Hdir Hreal Hl].
  pose proof (Hd _ _ Hx) as Hlen. cbn [snd at_path] in Hlen. rewrite !length_app in Hlen. cbn in Hlen.
  destruct depth as [|depth]; [lia|]. exists depth. split; [done|].
  assert (Px : plain_name x) by by eapply Hnamed.
  assert (Ps : split_byte slash x = [x]) by (apply split_byte_none, Px).
  assert (Hp' : parse (filepath_Join path x) = at_path (parse path) [x]).
  { rewrite parse_join, Ps; [done|done|]. rewrite Ps. constructor; [apply Px|done]. }
  constructor.
  - intros E. rewrite E in Hp'. apply (f_equal snd) in Hp'. symmetry in Hp'. by apply app_eq_nil in Hp' as [_ ?].
  - intros q n Hq. specialize (Hd q n Hq). rewrite length_app. cbn. lia.
  - constructor; [by rewrite Hp', Hp, at_path_app|by destruct rel|apply Forall_app_2; [done|by constructor]|by destruct rel| |].
    + rewrite Hp', follow_dir_snoc, Hf. unfold at_path. rewrite clean_step_safe by apply Px. cbn [rev fst snd].
      by rewrite rev_involutive, app_assoc.
    + intros fs0 <-. unfold lookup_node, node_at.
      destruct (at_path base (rel ++ [x])).2 eqn:E; [|done]. exfalso. eapply at_path_nonempty; [|exact E]. by destruct rel.
Qed.

(** One step of the walk, whatever its bound. *)
Lemma walkDir_step depth path entry st : walkDir root depth path entry st = (let! (skip, st) := visit root path entry st in
  match entry with
  | NDir => if skip then ret st else
      let! entries := os_ReadDir (parse path) in
      walkEntries (fun name entry st => match depth with
        | O => fail (EExternal "directories too deep")
        | S depth' => walkDir root depth' (filepath_Join path name) entry st end) entries st
  | _ => ret st
  end).
Proof. by destruct depth. Qed.

Lemma walkDir_Ok depth path rel entry : walked_to depth path rel entry -> walks (walkDir root depth path entry) rel entry.
Proof.
  revert path rel entry. induction depth as [depth IH] using lt_wf_ind.
  intros path rel entry W st fs st' fs' Hfs H. pose proof W as [Hne Hd S].
  pose proof S as [Hp Hr Hpl Hdir Hreal Hl].
  rewrite walkDir_step in H. apply bind_Ok in H as ([skip st1] & f1 & Hv & H).
  destruct (visit_Ok path rel entry st fs skip st1 f1 S Hfs Hv) as [E1 Hv']. clear Hv.
  assert (F1 : fs_nodes f1 = nodes) by congruence.
  destruct entry as [|c|]; [| |done].
  - destruct Hv' as [-> ->]. destruct (skips rel) eqn:Es.
    { injection H as <- <-. split; [done|]. exists []. split; [apply adds_nil|by apply packs_skipped]. }
    apply bind_Ok in H as (entries & f2 & (E2 & q & Hq & _ & ->)%os_ReadDir_Ok & H).
    rewrite F1, (stands_follow _ _ _ S) in Hq by done. injection Hq as <-. rewrite F1 in H.
    apply walkEntries_Ok with (rel := rel) in H as (E3 & es & A & N & P); [|done|apply dir_entries_NoDup| | |congruence].
    + split; [done|]. exists es. split; [done|].
      apply (packs_dir rel (dir_entries nodes (at_path base rel))); try done; [apply dir_entries_NoDup|apply entries_in].
    + intros x d Hx%entries_in. by eapply Hnamed.
    + intros x d Hx. destruct (walked_to_child _ _ _ x d W Hx) as (depth' & -> & W'). apply IH; [lia|done].
  - injection H as <- <-. destruct Hv' as (es & A & ->). split; [done|]. eexists. split; [exact A|].
    apply packs_file. intros ->. by specialize (Hdir eq_refl).
Qed.

Lemma walkEntries_ext walk1 walk2 l st fs : fs_nodes fs = nodes ->
  (forall x d st fs, (x, d) ∈ l -> fs_nodes fs = nodes ->
     walk1 x d st fs = walk2 x d st fs /\ forall st' fs', walk2 x d st fs = (Ok st', fs') -> fs_nodes fs' = nodes) ->
  walkEntries walk1 l st fs = walkEntries walk2 l st fs.
Proof.
  revert st fs. induction l as [|[x d] l IH]; intros st fs Hfs H; cbn [walkEntries]; [done|]. unfold bind.
  destruct (H x d st fs) as [-> Hk]; [by left|done|]. destruct (walk2 x d st fs) as [[st1|e] f1]; [|done].
  apply IH; [by eapply Hk|]. intros y dy s f Hy. apply H. by right.
Qed.

(** A larger bound changes nothing: it is never used up. *)
Lemma walkDir_enough depth path rel entry st fs : walked_to depth path rel entry -> fs_nodes fs = nodes ->
  walkDir root (S depth) path entry st fs = walkDir root depth path entry st fs.
Proof.
  revert path rel entry st fs. induction depth as [depth IH] using lt_wf_ind.
  intros path rel entry st fs W Hfs. pose proof W as [Hne Hd S]. pose proof S as [Hp Hr Hpl Hdir Hreal Hl].
  rewrite (walkDir_step depth), (walkDir_step (Datatypes.S depth)). unfold bind at 1 3.
  destruct (visit root path entry st fs) as [[[skip st1]|e] f1] eqn:Hv; [|done].
  destruct (visit_Ok path rel entry st fs skip st1 f1 S Hfs Hv) as [E1 _].
  assert (F1 : fs_nodes f1 = nodes) by congruence. destruct entry as [|c|]; [|done..]. destruct skip; [done|].
  unfold bind. destruct (os_ReadDir (parse path) f1) as [[entries|e] f2] eqn:Hrd; [|done].
  apply os_ReadDir_Ok in Hrd as (E2 & q & Hq & _ & ->). rewrite F1, (stands_follow _ _ _ S) in Hq by done.
  injection Hq as <-. rewrite F1.
  apply walkEntries_ext; [congruence|]. intros x d st2 f3 Hx F3.
  destruct (walked_to_child _ _ _ x d W Hx) as (depth' & -> & W'). split; [by apply (IH depth' ltac:(lia) _ _ _ _ _ W')|].
  intros st3 f4 H4. by destruct (walkDir_Ok _ _ _ _ W' _ _ _ _ F3 H4).
Qed.
End Walk.

Lemma max_depth_deep fs : deep (fs_nodes fs) (max_depth fs) [].
Proof.
  intros q n Hq. cbn. rewrite Nat.add_0_r. unfold max_depth. apply elem_of_map_to_list in Hq. revert Hq.
  induction (map_to_list (fs_nodes fs)) as [|[q' n'] l IH]; [by intros ?%elem_of_nil|].
  intros [[= -> ->]|H%IH]%elem_of_cons; cbn; lia.
Qed.

Section Create.
Context `{SYS : !OS} `{HOST : !Host} `{TAR : !ArchiveWriter} `{QUOTE : !Quoting}.

Lemma requireRegularRootFile_nodes root name fs u fs' :
  requireRegularRootFile root name fs = (Ok u, fs') -> fs_nodes fs' = fs_nodes fs.
Proof.
  intros (info & f1 & (E1 & _)%os_Lstat_Ok & H)%bind_Ok.
  destruct info as [[]|]; try done. by injection H as _ <-.
Qed.

(** What a successful packing of the directory [base] holds. *)
Definition packed_sources (nodes : gmap path node) (base : path) (es : list Entry) : Prop :=
  NoDup (map entry_name es)
  /\ forall e, e ∈ es <-> exists rel c, source nodes base rel c /\ e = packed (name_of rel) c.

Lemma createArtifact_Ok root base fs pkg fs' :
  follow (fs_nodes fs) (parse root) = Some base -> named (fs_nodes fs) base -> createArtifact root fs = (Ok pkg, fs') ->
  root <> "" /\ lookup_node fs base = Some NDir /\ fs_nodes fs' = fs_nodes fs
  /\ exists es, packed_sources (fs_nodes fs) base es /\ 0 < protos es
     /\ pkg = mkArtifactPackage (write_archive es) (sha256_hex (write_archive es)) (len (write_archive es)) (protos es).
Proof.
  intros Hbase Hn H. unfold createArtifact in H. apply bind_Ok in H as (info & f1 & (Hroot & E1 & q & Hq & L)%os_Stat_Ok & H).
  rewrite Hbase in Hq. injection Hq as <-. split; [done|]. destruct info as [| |]; try done. split; [done|].
  apply bind_Ok in H as (u & f2 & E2%requireRegularRootFile_nodes & H).
  apply bind_Ok in H as ([es count] & f3 & Hw & H). apply bind_Ok in Hw as (entry & f4 & (E4 & q & Hq & Hl)%Lstat_Ok & Hw).
  rewrite E2, E1 in Hq. unfold lookup_node in Hl. rewrite E2, E1 in Hl.
  assert (F : fs_nodes f4 = fs_nodes fs) by congruence.
  assert (entry = NDir /\ q = base) as [-> ->].
  { assert (Hd : (forall t, entry <> NSymlink t) -> q = base /\ entry = NDir).
    { intros Ht. rewrite (follow_dir_follow _ _ _ Hq) in Hbase by (intros (t & E); rewrite Hl in E; injection E as ->; by destruct (Ht t)).
      injection Hbase as <-. unfold lookup_node in L. rewrite L in Hl. by injection Hl as <-. }
    destruct entry as [|c|t]; [by destruct Hd|by destruct Hd|]. by destruct (max_depth f4). }
  apply (walkDir_Ok (fs_nodes fs) root base Hn _ root []) in Hw as (E3 & es' & [A1 A2] & N & P).
  - destruct (count =? 0) eqn:Ec; [done|]. injection H as <- <-. split; [done|]. exists es'.
    cbn [fst snd app] in A1, A2. subst es count. split; [|split; [unfold protos in *; lia|by rewrite Z.add_0_l]].
    split; [done|]. intros e. rewrite P. split.
    + intros (rel & c & Hv & Hi & ->). by exists rel, c.
    + intros (rel & c & [Hv Hi] & ->). by exists rel, c.
  - constructor; [done| |].
    + intros p m Hp. rewrite <- F in Hp. by apply (max_depth_deep f4 p m).
    + constructor; rewrite ?at_path_nil; try done. intros g Hg. unfold lookup_node in *. by rewrite Hg.
  - exact F.
Qed.
End Create.

(** A file below a directory. *)
Definition portable (e : Entry) : Prop :=
  exists rel c, rel <> [] /\ Forall plain_name rel /\ e = packed (name_of rel) c.
Definition rel_of (e : Entry) : list string := split_byte slash (entry_name e).

Lemma portable_rel e : portable e -> rel_of e <> [] /\ Forall plain_name (rel_of e) /\ e = packed (name_of (rel_of e)) (entry_Body e).
Proof.
  intros (rel & c & Hne & Hpl & ->). unfold rel_of. cbn [entry_name packed entry_Header header_Name entry_Body].
  change (entry_name (packed (name_of rel) c)) with (name_of rel). by rewrite name_of_split.
Qed.

(** What is written is read back: [archive/tar] and [compress/gzip]. *)
Class ArchiveWriterLaws `{HOST : !Host} `{TAR : !ArchiveWriter} : Prop := {
  archive_read : forall es, Forall portable es -> open_archive (write_archive es) = Ok (es, EndEOF) }.

(** The sources of a directory are files of a tree: none is below another. *)
Lemma app_self {A} (l m : list A) : l = (l ++ m)%list -> m = [].
Proof. intros E. rewrite <- (app_nil_r l) in E at 1. by apply app_inv_head in E. Qed.

Lemma visited_cases nodes base rel d rel' d' :
  visited nodes base rel d rel' d' ->
  (rel' = rel /\ d' = d)
  \/ exists x dx, d = NDir /\ nodes !! at_path base (rel ++ [x]) = Some dx /\ visited nodes base (rel ++ [x]) dx rel' d'.
Proof. destruct 1 as [|rel x dx rel' d' _ Hx Hv]; [by left|]. right. by exists x, dx. Qed.

Lemma visited_between nodes base l rel d d' more :
  visited nodes base rel d (rel ++ l ++ more) d' -> more <> [] ->
  d = NDir /\ (l = [] \/ nodes !! at_path base (rel ++ l) = Some NDir).
Proof.
  revert rel d. induction l as [|x l IH]; intros rel d H Hm.
  - destruct (visited_cases _ _ _ _ _ _ H) as [[E _]|(? & ? & -> & _)]; [|auto]. by symmetry in E; apply app_self in E.
  - destruct (visited_cases _ _ _ _ _ _ H) as [[E _]|(y & dy & -> & Hy & Hv)]; [by symmetry in E; apply app_self in E|].
    split; [done|]. right. pose proof (visited_prefix _ _ _ _ _ _ Hv) as (more' & E). rewrite <- app_assoc in E.
    apply app_inv_head in E. injection E as -> _.
    replace (rel ++ (y :: l) ++ more)%list with ((rel ++ [y]) ++ l ++ more)%list in Hv by by rewrite <- app_assoc.
    destruct (IH _ _ Hv Hm) as [-> Hl].
    destruct Hl as [->|Hl]; [done|]. by rewrite <- app_assoc in Hl.
Qed.
Lemma source_nonempty nodes base rel c : source nodes base rel c -> rel <> [].
Proof.
  intros [H _] ->. destruct (visited_cases _ _ _ _ _ _ H) as [[_ E]|(x & d & _ & _ & Hv)]; [done|].
  apply visited_prefix in Hv as (? & ?). done.
Qed.
Lemma source_apart nodes base rel c more c' :
  source nodes base rel c -> source nodes base (rel ++ more) c' -> more = [].
Proof.
  intros H1 H2. pose proof (source_nonempty _ _ _ _ H1) as Hne. destruct more as [|x more]; [done|]. exfalso.
  destruct H1 as [H1 _], H2 as [H2 _]. destruct (visited_at _ _ _ _ _ _ H1) as [[_ ?]|L1]; [done|].
  destruct (visited_between nodes base rel [] NDir _ (x :: more) H2) as [_ [E|L2]]; [done|done|].
  cbn [app] in L2. congruence.
Qed.

(** ** Pulling into a directory *)

Section PullProofs.
Context `{SYS : !OS} `{QUOTE : !Quoting}.

Definition faulty : Prop := exists n e, os_fault n = Some e.
Lemma os_op_cases {A} (f : FS -> result A * gmap path node) fs :
  match os_op f fs with
  | (Ok a, fs') => f fs = (Ok a, fs_nodes fs')
  | (Err e, fs') => (f fs = (Err e, fs_nodes fs')) \/ (faulty /\ fs_nodes fs' = fs_nodes fs)
  end.
Proof.
  unfold os_op. destruct (os_fault (fs_tick fs)) as [e|] eqn:E; [right; split; [by exists (fs_tick fs), e|done]|].
  destruct (f fs) as [[a|e] nodes]; [done|by left].
Qed.

(** The directory [q] is there, or can be made where [q] leads. *)
Definition mkdirable (nodes : gmap path node) (q : path) : Prop :=
  exists d, follow nodes q = Some d
    /\ (node_at nodes d = Some NDir \/ (node_at nodes d = None /\ follow_dir nodes q = Some d)).
(** Only missing directories are made, where the paths of [l] lead. *)
Definition made (l : list path) (nodes nodes' : gmap path node) : Prop :=
  same_links nodes nodes'
  /\ forall p, nodes' !! p = nodes !! p
       \/ ((exists q, q ∈ l /\ follow nodes q = Some p) /\ nodes !! p = None /\ nodes' !! p = Some NDir).

Lemma made_refl l nodes : made l nodes nodes.
Proof. split; [done|]. intros p. by left. Qed.

Lemma made_trans l nodes1 nodes2 nodes3 : made l nodes1 nodes2 -> made l nodes2 nodes3 -> made l nodes1 nodes3.
Proof.
  intros [S1 M1] [S2 M2]. split; [by etrans|]. intros p. destruct (M2 p) as [E2|((q & Hq & Hf) & E2 & E3)].
  - rewrite E2. apply M1.
  - right. split; [exists q; by rewrite (follow_links _ _ _ S1)|]. split; [|done].
    destruct (M1 p) as [E1|(_ & _ & E1)]; [by rewrite <- E1|congruence].
Qed.

Lemma made_sub l l' nodes nodes' : (forall q, q ∈ l -> q ∈ l') -> made l nodes nodes' -> made l' nodes nodes'.
Proof. intros Hl [S M]. split; [done|]. intros p. destruct (M p) as [E|((q & Hq & Hf) & E)]; [by left|right]. split; [exists q; auto|done]. Qed.

Lemma made_node l nodes nodes' d : made l nodes nodes' -> node_at nodes' d = node_at nodes d \/ node_at nodes' d = Some NDir.
Proof. intros [_ M]. unfold node_at. destruct d.2; [by left|]. destruct (M d) as [E|(_ & _ & E)]; [by left|by right]. Qed.

Lemma made_mkdirable l nodes nodes' q : made l nodes nodes' -> mkdirable nodes q -> mkdirable nodes' q.
Proof.
  intros M (d & Hf & Hd). pose proof (made_node _ _ _ d M) as Hn. destruct M as [S _]. exists d.
  rewrite <- (follow_links _ _ _ S), <- (follow_dir_links _ _ _ S). split; [done|].
  destruct Hn as [E|E]; [by rewrite E|by left].
Qed.

Lemma mkdir_one_made p fs :
  mkdirable (fs_nodes fs) p ->
  let '(r, fs') := mkdir_one p fs in
  made [p] (fs_nodes fs) (fs_nodes fs') /\ match r with Ok _ => True | Err _ => faulty end.
Proof.
  intros (d & Hf & Hd). destruct (mkdir_one p fs) as [r f1] eqn:E. apply os_op_nodes in E as [(e & Fe & -> & E)|[_ E]].
  { rewrite E. split; [apply made_refl|by exists (fs_tick fs), e]. }
  cbv beta zeta in E. rewrite Hf in E. cbn [at_real] in E. unfold lookup_node in E. destruct Hd as [El|[El Hl]]; rewrite El in E.
  { injection E as <- <-. split; [apply made_refl|done]. }
  rewrite bool_decide_eq_true_2 in E by done. injection E as <- <-. split; [|done].
  split; [by apply same_links_insert; [apply node_None_no_link|]|].
  intros q. destruct (decide (q = d)) as [->|Hq]; [right|left; by apply lookup_insert_ne].
  rewrite lookup_insert_eq. split; [exists p; split; [by left|done]|]. split; [by apply node_None|done].
Qed.

Lemma mkdir_all_cases l fs :
  (forall q, q ∈ l -> mkdirable (fs_nodes fs) q) ->
  let '(r, fs') := forM l mkdir_one fs in
  made l (fs_nodes fs) (fs_nodes fs') /\ match r with Ok _ => True | Err _ => faulty end.
Proof.
  revert fs. induction l as [|p l IH]; intros fs H; cbn [forM]; [split; [apply made_refl|done]|].
  unfold bind. pose proof (mkdir_one_made p fs (H p ltac:(by left))) as Hc.
  destruct (mkdir_one p fs) as [[u|e] f1]; destruct Hc as [M1 Hr].
  - assert (H1 : forall q, q ∈ l -> mkdirable (fs_nodes f1) q) by (intros q Hq; eapply made_mkdirable; [exact M1|apply H; by right]).
    specialize (IH f1 H1). destruct (forM l mkdir_one f1) as [r fs']. destruct IH as [M2 Hr2]. split; [|done].
    eapply made_trans; (eapply made_sub; [|eassumption]); [intros q ->%list_elem_of_singleton; by left|intros q Hq; by right].
  - split; [|done]. eapply made_sub; [|exact M1]. intros q ->%list_elem_of_singleton. by left.
Qed.

Lemma MkdirAll_cases p fs :
  (forall q, q ∈ prefixes p -> mkdirable (fs_nodes fs) q) ->
  let '(r, fs') := os_MkdirAll p fs in
  made (prefixes p) (fs_nodes fs) (fs_nodes fs') /\ match r with Ok _ => True | Err _ => faulty end.
Proof. apply mkdir_all_cases. Qed.

Lemma elem_of_prefixes p q : q ∈ prefixes p <-> q.1 = p.1 /\ q.2 <> [] /\ exists more, p.2 = (q.2 ++ more)%list.
Proof.
  unfold prefixes. rewrite list_elem_of_In, in_map_iff. split.
  - intros (n & <- & Hn%in_seq). cbn. split; [done|]. split; [destruct p.2, n; cbn in *; try lia; done|].
    exists (drop n p.2). symmetry. apply firstn_skipn.
  - intros (E1 & Hne & more & E2). exists (length q.2). split; [|rewrite in_seq, E2, length_app; destruct q.2; cbn in *; [done|lia]].
    rewrite E2, <- E1. rewrite firstn_app, firstn_all, Nat.sub_diag, app_nil_r. by destruct q.
Qed.

Lemma io_CopyN_whole p c fs :
  match io_CopyN p c (len c) fs with
  | (Ok _, fs') => fs_nodes fs' = <[p := NFile c]> (fs_nodes fs)
  | (Err _, _) => faulty
  end.
Proof.
  unfold io_CopyN. replace (first_bytes (len c) c) with c by (unfold first_bytes; by rewrite Z.leb_refl).
  destruct (os_fault (fs_tick fs)) as [e|] eqn:E; [by exists (fs_tick fs), e|]. by rewrite Z.ltb_irrefl.
Qed.

(** The directory [out] is [base], links followed. *)
Variables (out : string) (base : path).
Hypothesis Hout : out <> "".

Lemma pullEntry_cases rel c fs :
  rel <> [] -> Forall plain_name rel ->
  (forall q, q ∈ prefixes (at_path (parse out) (removelast rel)) ->
     mkdirable (fs_nodes fs) q /\ follow (fs_nodes fs) q <> Some (at_path base rel)) ->
  follow (fs_nodes fs) (at_path (parse out) rel) = Some (at_path base rel) ->
  (fs_nodes fs !! at_path base rel = None \/ exists c', fs_nodes fs !! at_path base rel = Some (NFile c')) ->
  match pullEntry out (packed (name_of rel) c) fs with
  | (Ok _, fs') => exists nodes, made (prefixes (at_path (parse out) (removelast rel))) (fs_nodes fs) nodes
                     /\ fs_nodes fs' = <[at_path base rel := NFile c]> nodes
  | (Err _, _) => faulty
  end.
Proof using Hout.
  intros Hne Hpl Hd Hf Ht. pose proof (name_of_safe rel Hne Hpl) as Hs.
  assert (Hp : parse (filepath_Join out (name_of rel)) = at_path (parse out) rel)
    by (rewrite parse_join, name_of_split by done; done).
  unfold pullEntry. cbn [packed entry_Header header_Typeflag header_Name header_Size entry_Body].
  rewrite Z.eqb_refl. cbn [negb]. rewrite (proj2 (safeArchivePath_true _) Hs), insideDir_join by done. cbn [negb].
  rewrite Hp, path_dir_at by done. unfold bind at 1.
  pose proof (MkdirAll_cases (at_path (parse out) (removelast rel)) fs (fun q Hq => proj1 (Hd q Hq))) as Hm.
  destruct (os_MkdirAll _ fs) as [[u|e] f1]; destruct Hm as [M Hfy]; [|done].
  assert (E1 : fs_nodes f1 !! at_path base rel = fs_nodes fs !! at_path base rel).
  { destruct M as [_ M]. destruct (M (at_path base rel)) as [E|((q & Hq & E) & _)]; [done|]. by destruct (Hd q Hq) as [_ []]. }
  assert (L : node_at (fs_nodes f1) (at_path base rel) = fs_nodes fs !! at_path base rel).
  { rewrite <- E1. unfold node_at. destruct (at_path base rel).2 eqn:E; [|done]. apply app_eq_nil in E as [_ E]. done. }
  unfold bind at 1. destruct (os_OpenTrunc (at_path (parse out) rel) f1) as [r f2] eqn:Ho.
  apply os_op_nodes in Ho as [(e & Fe & -> & _)|[_ Ho]]; [by exists (fs_tick f1), e|].
  cbv beta zeta in Ho. rewrite <- (follow_links _ _ _ (proj1 M)), Hf in Ho. cbn [at_real] in Ho. unfold lookup_node in Ho.
  assert (r = Ok (at_path base rel) /\ fs_nodes f2 = <[at_path base rel := NFile ""]> (fs_nodes f1)) as [-> E2].
  { rewrite L in Ho. by destruct Ht as [E|(c' & E)]; rewrite E in Ho; injection Ho as <- <-. }
  rewrite bind_try. pose proof (io_CopyN_whole (at_path base rel) c f2) as Hc.
  destruct (io_CopyN (at_path base rel) c (len c) f2) as [[u3|e] f3].
  - rewrite bind_try. pose proof (os_op_cases (fun fs => (Ok tt, fs_nodes fs)) f3) as Hcl. fold file_Close in Hcl.
    destruct (file_Close f3) as [[u4|e] f4]; cbn [lift].
    + exists (fs_nodes f1). split; [done|]. injection Hcl as _ <-. by rewrite Hc, E2, insert_insert_eq.
    + by destruct Hcl as [?|[? _]].
  - rewrite bind_try. by destruct (file_Close f3) as [? ?].
Qed.

(** *** Several entries *)

(** Entries whose files do not stand in each other's way. *)
Definition tree (es : list Entry) : Prop :=
  Forall portable es /\ NoDup (map entry_name es)
  /\ forall e1 e2 more, e1 ∈ es -> e2 ∈ es -> rel_of e2 = (rel_of e1 ++ more)%list -> more = [].

(** The directories on the way to [out] are there or can be made, and none of them
    is below it. *)
Definition way_free (nodes : gmap path node) : Prop :=
  forall q, q ∈ prefixes (parse out) -> mkdirable nodes q /\ forall rel, rel <> [] -> follow nodes q <> Some (at_path base rel).

(** Below the directory there are the files of [dn], and directories on the way to
    the files of [es]. *)
Record holds (es dn : list Entry) (nodes : gmap path node) : Prop := {
  holds_at : follow nodes (parse out) = Some base;
  holds_way : way_free nodes;
  holds_below : forall rel, rel <> [] ->
    nodes !! at_path base rel = None
    \/ (nodes !! at_path base rel = Some NDir /\ exists e more, e ∈ es /\ more <> [] /\ rel_of e = (rel ++ more)%list)
    \/ (exists e, e ∈ dn /\ rel = rel_of e);
  holds_done : forall e, e ∈ dn -> nodes !! at_path base (rel_of e) = Some (NFile (entry_Body e)) }.

Lemma way_free_made l nodes nodes' : made l nodes nodes' -> way_free nodes -> way_free nodes'.
Proof.
  intros M H q Hq. destruct (H q Hq) as [H1 H2]. split; [by apply (made_mkdirable _ _ _ _ M)|].
  by rewrite <- (follow_links _ _ _ (proj1 M)).
Qed.

(** There are no links below the directory. *)
Lemma holds_no_link es dn nodes l : holds es dn nodes -> l <> [] -> ~ is_link nodes (at_path base l).
Proof.
  intros [_ _ H2 H3] Hl (t & Ht). unfold node_at in Ht. destruct (at_path base l).2 eqn:E.
  { discriminate Ht. }
  destruct (H2 l Hl) as [E'|[[E' _]|(e & He & ->)]]; [congruence..|]. rewrite (H3 e He) in Ht. discriminate Ht.
Qed.
Lemma holds_follow es dn nodes rel :
  holds es dn nodes -> Forall safe_elem rel -> follow nodes (at_path (parse out) rel) = Some (at_path base rel).
Proof.
  intros H Hs. apply follow_below; [apply H|done|]. intros l Hl _. by eapply holds_no_link.
Qed.
Lemma plain_safe rel : Forall plain_name rel -> Forall safe_elem rel.
Proof. intros H. eapply Forall_impl; [exact H|]. by intros x (? & _). Qed.

Lemma at_path_inj rel1 rel2 : at_path base rel1 = at_path base rel2 -> rel1 = rel2.
Proof. intros [= E]. by apply app_inv_head in E. Qed.
(** A path on the way to a file is above the directory, or leads down to the file. *)
Lemma prefix_of_dir p rel q :
  rel <> [] -> q ∈ prefixes (at_path p (removelast rel)) ->
  q ∈ prefixes p \/ exists l more, l <> [] /\ more <> [] /\ rel = (l ++ more)%list /\ q = at_path p l.
Proof.
  intros Hne (E1 & Hq & more & E2)%elem_of_prefixes. cbn [at_path fst snd] in E1, E2.
  destruct (exists_last Hne) as (up & x & ->). rewrite removelast_last in E2.
  destruct (decide (length q.2 <= length p.2)%nat) as [Hl|Hl].
  - left. apply elem_of_prefixes. split; [done|]. split; [done|]. exists (drop (length q.2) p.2).
    apply (f_equal (firstn (length q.2))) in E2. rewrite take_app_le, take_app_length in E2 by done.
    rewrite <- E2 at 1. symmetry. apply firstn_skipn.
  - right. exists (drop (length p.2) q.2), (more ++ [x])%list.
    assert (E : q.2 = (p.2 ++ drop (length p.2) q.2)%list).
    { pose proof (f_equal (firstn (length p.2)) E2) as E3. rewrite take_app_length, take_app_le in E3 by lia.
      rewrite E3 at 1. symmetry. apply firstn_skipn. }
    split; [intros E'; rewrite E', app_nil_r in E; rewrite E in Hl; lia|].
    split; [by destruct more|]. split.
    + rewrite E in E2 at 1. rewrite <- app_assoc in E2. apply app_inv_head in E2. rewrite E2 at 1. by rewrite app_assoc.
    + destruct q as [r l]. cbn [fst snd] in *. unfold at_path. by rewrite <- E1, <- E.
Qed.

(** The directories on the way to a file that is not there yet. *)
Lemma holds_dirs es dn e nodes :
  tree es -> e ∈ es -> (forall e', e' ∈ dn -> e' ∈ es /\ entry_name e' <> entry_name e) -> holds es dn nodes ->
  rel_of e <> [] -> Forall plain_name (rel_of e) ->
  forall q, q ∈ prefixes (at_path (parse out) (removelast (rel_of e))) ->
    mkdirable nodes q /\ follow nodes q <> Some (at_path base (rel_of e)).
Proof.
  intros (_ & _ & Hap) He Hdn Hh Hne Hpl q [Hq|(l & more & Hl & Hm & E & ->)]%prefix_of_dir; [| |done].
  { destruct (holds_way _ _ _ Hh q Hq) as [? H]. split; [done|by apply H]. }
  assert (Hs : Forall safe_elem l) by (rewrite E in Hpl; by apply plain_safe, Forall_app in Hpl as [? _]).
  pose proof (holds_follow _ _ _ l Hh Hs) as Hf. split.
  - exists (at_path base l). split; [done|]. unfold node_at.
    destruct (at_path base l).2 eqn:El; [by left|]. destruct (holds_below _ _ _ Hh l Hl) as [H|[[H _]|(e' & He' & ->)]].
    + right. split; [done|]. apply follow_dir_below; [apply Hh|done..|]. intros l' more' Hl' _ _. by eapply holds_no_link.
    + by left.
    + exfalso. apply Hm, (Hap e' e); [by apply Hdn|done|done].
  - rewrite Hf. intros [= E']. apply app_inv_head in E'. rewrite E in E'. by apply app_self in E'.
Qed.

Lemma pullEntry_holds es dn e fs :
  tree es -> e ∈ es -> (forall e', e' ∈ dn -> e' ∈ es /\ entry_name e' <> entry_name e) -> holds es dn (fs_nodes fs) ->
  match pullEntry out e fs with
  | (Ok _, fs') => holds es (dn ++ [e]) (fs_nodes fs')
  | (Err _, _) => faulty
  end.
Proof using Hout.
  intros Htree He Hdn Hh. pose proof Htree as (Hport & _ & Hap). pose proof Hh as [H0 H1 H2 H3]. rewrite Forall_forall in Hport.
  destruct (portable_rel e (Hport e He)) as (Hne & Hpl & Ee).
  pose proof (pullEntry_cases (rel_of e) (entry_Body e) fs Hne Hpl) as Hc. rewrite <- Ee in Hc.
  assert (Ht : fs_nodes fs !! at_path base (rel_of e) = None
               \/ exists c', fs_nodes fs !! at_path base (rel_of e) = Some (NFile c')).
  { destruct (H2 (rel_of e) Hne) as [?|[[_ (e' & more & He' & Hm & E)]|(e' & He' & E)]]; [by left| |].
    - exfalso. by apply Hm, (Hap e e').
    - right. rewrite E. eexists. by apply H3. }
  specialize (Hc (holds_dirs es dn e _ Htree He Hdn Hh Hne Hpl) (holds_follow _ _ _ _ Hh (plain_safe _ Hpl)) Ht).
  destruct (pullEntry out e fs) as [[u|err] fs']; [|done]. destruct Hc as (mid & M & ->).
  assert (S : same_links mid (<[at_path base (rel_of e) := NFile (entry_Body e)]> mid)).
  { apply same_links_insert; [|done]. intros Hl. apply (is_link_same _ _ _ (proj1 M)) in Hl. by eapply holds_no_link. }
  assert (Hn : forall d, (forall l, l <> [] -> d <> at_path base l) ->
    node_at (<[at_path base (rel_of e) := NFile (entry_Body e)]> mid) d = node_at mid d).
  { intros d Hd. unfold node_at. destruct d.2; [done|]. apply lookup_insert_ne. intros <-. by apply (Hd (rel_of e)). }
  split.
  - by rewrite <- (follow_links _ _ _ S), <- (follow_links _ _ _ (proj1 M)).
  - intros q Hq. destruct (way_free_made _ _ _ M H1 q Hq) as [(d & Hf & Hd) Hb].
    rewrite <- (follow_links _ _ _ S). split; [|done]. exists d.
    rewrite <- (follow_links _ _ _ S), <- (follow_dir_links _ _ _ S), Hn; [done|].
    intros l Hl ->. by apply (Hb l Hl).
  - intros rel Hrel. destruct (decide (rel = rel_of e)) as [->|Hd].
    { right; right. exists e. split; [|done]. apply elem_of_app. right. by left. }
    rewrite lookup_insert_ne by by intros ?%at_path_inj.
    destruct (proj2 M (at_path base rel)) as [->|((q & Hq & Hf) & _ & E)].
    + destruct (H2 rel Hrel) as [?|[?|(e' & He' & ->)]]; [by left|by right; left|].
      right; right. exists e'. split; [|done]. apply elem_of_app. by left.
    + right; left. split; [done|]. apply prefix_of_dir in Hq as [Hq|(l & more & _ & Hm & E' & ->)];
        [by destruct (proj2 (H1 q Hq) rel Hrel)| |done].
      rewrite (holds_follow _ _ _ l Hh) in Hf by (rewrite E' in Hpl; by apply plain_safe, Forall_app in Hpl as [? _]).
      injection Hf as Hf%app_inv_head. subst l. by exists e, more.
  - intros e' [He'|He'%list_elem_of_singleton]%elem_of_app; [|subst e'; by rewrite lookup_insert_eq].
    pose proof (H3 e' He') as L. destruct (Hdn e' He') as [Hin Hnm].
    rewrite lookup_insert_ne.
    + destruct (proj2 M (at_path base (rel_of e'))) as [->|(_ & E & _)]; [done|congruence].
    + intros E%at_path_inj. apply Hnm. unfold rel_of in E. by apply split_byte_inj in E.
Qed.

Lemma pullLoop_holds es rest dn fs :
  tree es -> es = (dn ++ rest)%list -> holds es dn (fs_nodes fs) ->
  match pullLoop out rest EndEOF fs with
  | (Ok _, fs') => holds es es (fs_nodes fs')
  | (Err _, _) => faulty
  end.
Proof using Hout.
  intros Ht. revert dn fs. induction rest as [|e rest IH]; intros dn fs E H; cbn [pullLoop].
  { rewrite app_nil_r in E. by subst dn. }
  assert (Hin : e ∈ es) by (rewrite E; apply elem_of_app; right; by left).
  assert (Hdn : forall e', e' ∈ dn -> e' ∈ es /\ entry_name e' <> entry_name e).
  { intros e' He'. split; [rewrite E; apply elem_of_app; by left|]. destruct Ht as (_ & Hn & _).
    rewrite E, map_app in Hn. apply NoDup_app in Hn as (_ & Hn & _). intros Eq. apply (Hn (entry_name e')).
    - apply list_elem_of_fmap. by exists e'.
    - rewrite Eq. cbn. by left. }
  unfold bind. pose proof (pullEntry_holds es dn e fs Ht Hin Hdn H) as He.
  destruct (pullEntry out e fs) as [[u|err] f1]; [|done].
  apply (IH (dn ++ [e])%list); [by rewrite <- app_assoc|done].
Qed.

(** The directory is there with nothing in it, or can be made. *)
Record fresh (nodes : gmap path node) : Prop := {
  fresh_at : follow nodes (parse out) = Some base;
  fresh_way : way_free nodes;
  fresh_below : forall rel, rel <> [] -> nodes !! at_path base rel = None }.

Lemma fresh_made nodes nodes' : fresh nodes -> made (prefixes (parse out)) nodes nodes' -> fresh nodes'.
Proof.
  intros [H0 H1 H2] M. split; [by rewrite <- (follow_links _ _ _ (proj1 M))|by apply (way_free_made _ _ _ M)|].
  intros rel Hrel. destruct (proj2 M (at_path base rel)) as [->|((q & Hq & Hf) & _)]; [by apply H2|].
  by destruct (proj2 (H1 q Hq) rel Hrel).
Qed.

(** The directory itself is there or missing. *)
Lemma fresh_node nodes : fresh nodes -> node_at nodes base = Some NDir \/ node_at nodes base = None.
Proof.
  intros [H0 H1 _]. destruct (decide ((parse out).2 = [])) as [E|E].
  - destruct (parse out) as [r l]. cbn [snd] in E. subst l. rewrite follow_root in H0. injection H0 as <-. by left.
  - destruct (H1 (parse out)) as [(d & Hf & Hd) _].
    { apply elem_of_prefixes. split; [done|]. split; [done|]. exists []. by rewrite app_nil_r. }
    rewrite H0 in Hf. injection Hf as <-. destruct Hd as [?|[? _]]; auto.
Qed.

Lemma ensureOutputDir_fresh force fs :
  fresh (fs_nodes fs) ->
  match ensureOutputDir out force fs with
  | (Ok _, fs') => fresh (fs_nodes fs')
  | (Err _, _) => faulty
  end.
Proof using Hout.
  intros Hf. unfold ensureOutputDir. rewrite bind_try. apply String.eqb_neq in Hout as Hout'.
  assert (Hm : forall f1, fresh (fs_nodes f1) -> match os_MkdirAll (parse out) f1 with (Ok _, fs') => fresh (fs_nodes fs') | (Err _, _) => faulty end).
  { intros f1 Hf1. pose proof (MkdirAll_cases (parse out) f1 (fun q Hq => proj1 (fresh_way _ Hf1 q Hq))) as H.
    destruct (os_MkdirAll (parse out) f1) as [[u|e] f2]; destruct H as [M H]; [|done]. by apply (fresh_made (fs_nodes f1)). }
  destruct (os_Stat out fs) as [r f1] eqn:Hs. apply os_op_nodes in Hs as [(e & Fe & -> & E1)|[_ Hs]].
  { case_bool_decide; [rewrite Hout'; apply Hm; by rewrite E1|by exists (fs_tick fs), e]. }
  cbv beta in Hs. rewrite Hout', (fresh_at _ Hf) in Hs. cbn [at_real] in Hs. unfold lookup_node in Hs.
  destruct (fresh_node _ Hf) as [E|E]; rewrite E in Hs; injection Hs as <- E1.
  2: { rewrite bool_decide_eq_true_2, Hout' by done. apply Hm. by rewrite <- E1. }
  unfold bind. destruct (os_ReadDir (parse out) f1) as [r f2] eqn:Hr.
  apply os_op_nodes in Hr as [(e & Fe & -> & _)|[_ Hr]]; [by exists (fs_tick f1), e|].
  cbv beta in Hr. rewrite <- E1, (fresh_at _ Hf) in Hr. cbn [at_real] in Hr. unfold lookup_node in Hr. rewrite <- E1, E in Hr.
  assert (E0 : dir_entries (fs_nodes fs) base = []).
  { destruct (dir_entries (fs_nodes fs) base) as [|[x d] l'] eqn:El; [done|].
    assert (Hx : (x, d) ∈ dir_entries (fs_nodes fs) base) by (rewrite El; by left).
    apply dir_entries_in in Hx. change (fs_nodes fs !! at_path base [x] = Some d) in Hx.
    by rewrite (fresh_below _ Hf [x]) in Hx. }
  rewrite E0 in Hr. injection Hr as <- E2. cbn. by rewrite <- E2.
Qed.

Lemma fresh_holds es nodes : fresh nodes -> holds es [] nodes.
Proof. intros [H0 H1 H2]. split; [done|done|by left; apply H2|by intros e ?%elem_of_nil]. Qed.

Lemma extractArtifact_holds es force fs :
  tree es -> fresh (fs_nodes fs) ->
  match extractArtifact (Ok (es, EndEOF)) out force fs with
  | (Ok _, fs') => holds es es (fs_nodes fs')
  | (Err _, _) => faulty
  end.
Proof using Hout.
  intros Ht Hf. unfold extractArtifact, bind at 1. pose proof (ensureOutputDir_fresh force fs Hf) as He.
  destruct (ensureOutputDir out force fs) as [[u|e] f1]; [|done]. cbn [lift bind].
  apply (pullLoop_holds es es [] f1 Ht eq_refl). by apply fresh_holds.
Qed.
End PullProofs.

Lemma packed_tree nodes base es : named nodes base -> packed_sources nodes base es -> tree es.
Proof.
  intros Hn [Hnd Hes].
  assert (Hp : forall e, e ∈ es -> exists rel c, source nodes base rel c /\ rel_of e = rel /\ Forall plain_name rel
                /\ e = packed (name_of rel) c).
  { intros e (rel & c & Hs & ->)%Hes. exists rel, c. pose proof (source_nonempty _ _ _ _ Hs).
    assert (Forall plain_name rel) by (eapply visited_named; [exact Hn|apply Hs|constructor]).
    split; [done|]. split; [|done]. by apply name_of_split. }
  split; [|split; [done|]].
  - apply Forall_forall. intros e (rel & c & Hs & _ & Hpl & ->)%Hp. exists rel, c.
    split; [exact (source_nonempty _ _ _ _ Hs)|by split].
  - intros e1 e2 more (r1 & c1 & H1 & E1 & _)%Hp (r2 & c2 & H2 & E2 & _)%Hp E. rewrite E1, E2 in E. rewrite E in H2.
    exact (source_apart _ _ _ _ _ _ H1 H2).
Qed.

(** *** What is pulled is what was pushed *)

(** C10: [pull] restores what [push] packed. When the directory [root] is packed
    (into an archive with its checksum, its size and the number of its protobuf
    files, of which there is one at least), and the archive is pulled into a new or
    empty directory, there are then below it exactly the sources of [root], each
    with its content: the files [buf.yaml], [buf.lock] and [*.proto] that are not
    below a skipped directory. The pull fails only when an operation of its system
    does. Both directories may be reached through links: [from] and [to] are where
    [root] and [out] lead. *)
Theorem pull_restores_push `{HOST : !Host} `{TAR : !ArchiveWriter} `{QUOTE : !Quoting} `{LAWS : !ArchiveWriterLaws}
    (pusher puller : OS) (root out : string) (from to : path) (force : bool) (fs fs1 fs2 : FS) (pkg : ArtifactPackage)
    (Hroot : follow (fs_nodes fs) (parse root) = Some from)
    (Hnamed : named (fs_nodes fs) from) (Hout : out <> "") (Hfresh : fresh out to (fs_nodes fs2))
    (Hpushed : createArtifact (SYS := pusher) root fs = (Ok pkg, fs1)) :
  (fs_nodes fs1 = fs_nodes fs /\ pkg_ChecksumSHA256 pkg = sha256_hex (pkg_Body pkg)
   /\ pkg_SizeBytes pkg = len (pkg_Body pkg) /\ 0 < pkg_FileCount pkg)
  /\ match extractArtifact (SYS := puller) (open_archive (pkg_Body pkg)) out force fs2 with
     | (Ok _, fs3) => forall rel content,
         rel <> [] /\ fs_nodes fs3 !! at_path to rel = Some (NFile content)
         <-> source (fs_nodes fs) from rel content
     | (Err _, _) => exists n e, os_fault n = Some e
     end.
Proof.
  apply (createArtifact_Ok (SYS := pusher) _ _ _ _ _ Hroot Hnamed) in Hpushed as (_ & _ & E & es & Hes & Hpos & ->). cbn.
  pose proof (packed_tree _ _ _ Hnamed Hes) as Ht. split; [done|]. rewrite archive_read by apply Ht.
  pose proof (extractArtifact_holds (SYS := puller) out to Hout es force fs2 Ht Hfresh) as Hx.
  destruct (extractArtifact (SYS := puller) (Ok (es, EndEOF)) out force fs2) as [[u|e] fs3]; [|exact Hx].
  destruct Hx as [_ _ Hb Hd]. intros rel content.
  assert (Hsrc : forall e, e ∈ es -> source (fs_nodes fs) from (rel_of e) (entry_Body e)).
  { intros e (r & c & Hs & ->)%Hes. cbn [entry_Body packed].
    replace (rel_of (packed (name_of r) c)) with r; [done|]. symmetry. apply name_of_split; [exact (source_nonempty _ _ _ _ Hs)|].
    eapply visited_named; [exact Hnamed|apply Hs|constructor]. }
  split.
  - intros [Hne L]. destruct (Hb rel Hne) as [L'|[[L' _]|(e & He & ->)]]; [congruence|congruence|].
    rewrite (Hd e He) in L. injection L as <-. by apply Hsrc.
  - intros Hs. pose proof (source_nonempty _ _ _ _ Hs) as Hne. split; [done|].
    assert (He : packed (name_of rel) content ∈ es) by (apply Hes; by exists rel, content).
    pose proof (Hd _ He) as L. replace (rel_of (packed (name_of rel) content)) with rel in L; [done|].
    symmetry. apply name_of_split; [done|]. eapply visited_named; [exact Hnamed|apply Hs|constructor].
Qed.

(** ** Examples *)

Module PackingExamples.
#[local] Instance calm : OS := { os_fault _ := None; os_written _ := O }.

(** An archive as text: every byte of a name or a body stands after a mark. *)
Fixpoint marked (s : string) : string := match s with "" => "0" | String a s' => String "1" (String a (marked s')) end.
Fixpoint unmark (s : string) : option (string * string) :=
  match s with
  | String "1" (String a s') => match unmark s' with Some (x, rest) => Some (String a x, rest) | None => None end
  | String "0" rest => Some ("", rest)
  | _ => None
  end.
Fixpoint unmark_all (fuel : nat) (s : string) : list Entry :=
  match fuel with
  | O => []
  | S fuel' =>
      match unmark s with
      | Some (name, s1) => match unmark s1 with Some (body, s2) => packed name body :: unmark_all fuel' s2 | None => [] end
      | None => []
      end
  end.
#[local] Instance quoting : Quoting := { strconv_Quote s := marked s }.
#[local] Instance tar : ArchiveWriter :=
  { write_archive es := foldr (fun e s => marked (entry_name e) +:+ marked (entry_Body e) +:+ s) "" es }.
#[local] Instance host : Host := {|
  sha256_hex := fun s => s; open_archive := fun s => Ok (unmark_all (String.length s) s, EndEOF);
  temp_dir := fun pattern n => ""; removed_before_failure := fun _ _ => false; request_Err := fun _ => None;
  rand_token := fun n => Ok "" |}.

Lemma unmark_marked s t : unmark (marked s +:+ t) = Some (s, t).
Proof. induction s as [|a s IH]; [done|]. cbn. by rewrite IH. Qed.
#[local] Instance laws : ArchiveWriterLaws.
Proof.
  split. intros es H. cbn [open_archive host write_archive tar]. f_equal. f_equal.
  assert (Hf : forall n, (length es <= n)%nat ->
    unmark_all n (foldr (fun e s => marked (entry_name e) +:+ marked (entry_Body e) +:+ s) "" es) = es).
  { induction H as [|e es He H IH]; intros n Hn; [by destruct n|]. cbn [foldr]. destruct n as [|n]; [cbn in Hn; lia|].
    cbn [unmark_all]. rewrite !unmark_marked, IH by (cbn in Hn; lia). f_equal.
    destruct He as (rel & c & _ & _ & ->). reflexivity. }
  apply Hf. clear. induction es as [|e es IH]; [cbn; lia|]. cbn [foldr length].
  rewrite !length_string_app. destruct (entry_name e); cbn; lia.
Qed.

Definition here (rel : list string) : path := (true, rel).
Definition sources : FS := mkFS (list_to_map
  [(here ["src"], NDir); (here ["src"; "buf.yaml"], NFile "v1"); (here ["src"; "a"], NDir);
   (here ["src"; "a"; "b.proto"], NFile "syntax"); (here ["src"; "a"; "notes.md"], NFile "-");
   (here ["src"; "vendor"], NDir); (here ["src"; "vendor"; "c.proto"], NFile "old")]) 0.
Definition elsewhere : FS := mkFS {[here ["home"] := NDir]} 0.
Definition pushed : ArtifactPackage :=
  if (createArtifact "/src" sources).1 is Ok pkg then pkg else mkArtifactPackage "" "" 0 0.
Definition pulled : FS := (extractArtifact (open_archive (pkg_Body pushed)) "/home/out/" false elsewhere).2.

Example pulled_files :
  pkg_FileCount pushed = 1
  /\ map_to_list (fs_nodes pulled)
     ≡ₚ [(here ["home"], NDir); (here ["home"; "out"], NDir); (here ["home"; "out"; "buf.yaml"], NFile "v1");
         (here ["home"; "out"; "a"], NDir); (here ["home"; "out"; "a"; "b.proto"], NFile "syntax")].
Proof. split; [vm_compute; reflexivity|]. apply (bool_decide_unpack _). vm_compute. exact I. Qed.

Lemma sources_named : named (fs_nodes sources) (here ["src"]).
Proof.
  assert (P : Forall (fun x => plain_name x) ["src"; "buf.yaml"; "a"; "b.proto"; "notes.md"; "vendor"; "c.proto"])
    by (repeat apply Forall_cons_2; try apply Forall_nil_2; repeat split; done).
  intros rel x d Hx%elem_of_list_to_map_2. rewrite Forall_forall in P. apply P.
  assert (Hl : forall q, q = at_path (here ["src"]) (rel ++ [x]) -> List.last q.2 "" = x).
  { intros q ->. cbn [at_path snd]. by rewrite app_assoc, List.last_last. }
  rewrite !elem_of_cons, elem_of_nil in Hx.
  repeat (destruct Hx as [Hx|Hx];
    [apply (f_equal fst) in Hx; symmetry in Hx; apply Hl in Hx; cbn in Hx; subst x; rewrite !elem_of_cons; tauto|]).
  done.
Qed.
Lemma elsewhere_fresh : fresh "/home/out/" (here ["home"; "out"]) (fs_nodes elsewhere).
Proof.
  split.
  - vm_compute. reflexivity.
  - intros q Hq. change (prefixes (parse "/home/out/")) with [here ["home"]; here ["home"; "out"]] in Hq.
    rewrite !elem_of_cons, elem_of_nil in Hq. destruct Hq as [->|[->|[]]].
    + split; [|intros rel _; by vm_compute]. exists (here ["home"]). split; [vm_compute; reflexivity|left; vm_compute; reflexivity].
    + split; [|intros rel Hrel; replace (follow _ _) with (Some (here ["home"; "out"])) by (vm_compute; reflexivity); intros [= <-]; done].
      exists (here ["home"; "out"]). split; [vm_compute; reflexivity|right; split; vm_compute; reflexivity].
  - intros rel Hrel. cbn [elsewhere fs_nodes]. apply lookup_singleton_ne. intros [= E].
Qed.
Lemma pull_restores_push_witness :
  fs_nodes pulled !! here ["home"; "out"; "a"; "b.proto"] = Some (NFile "syntax")
  <-> source (fs_nodes sources) (here ["src"]) ["a"; "b.proto"] "syntax".
Proof.
  assert (E : createArtifact "/src" sources = (Ok pushed, (createArtifact "/src" sources).2)) by (vm_compute; reflexivity).
  assert (R : (extractArtifact (open_archive (pkg_Body pushed)) "/home/out/" false elsewhere).1 = Ok tt) by (vm_compute; reflexivity).
  pose proof (pull_restores_push calm calm "/src" "/home/out/" (here ["src"]) (here ["home"; "out"]) false sources _ elsewhere pushed
    eq_refl sources_named
    ltac:(discriminate) elsewhere_fresh E) as [_ H].
  unfold pulled. destruct (extractArtifact (open_archive (pkg_Body pushed)) "/home/out/" false elsewhere) as [r fs3].
  cbn [fst] in R. rewrite R in H. specialize (H ["a"; "b.proto"] "syntax"). cbn [snd]. rewrite <- H.
  split; [intros L; split; [discriminate|exact L]|intros [_ L]; exact L].
Defined.
End PackingExamples.
