(* ===== verification/Flags.v ===== *)
(** * Flags of the command line

    [cli/flags.go], and what the commands use of package [flag]: the arguments are
    reordered, the flags first, and then parsed. Flags and names can stand in any
    order. *)

From S2P Require Import Prelude GoStrings Urls Json.

Open Scope string_scope.
Open Scope Z_scope.

(** ** [flagsFirst] *)

(** [strings.TrimLeft(arg, "-")] up to the first equals sign. *)
Fixpoint trim_dashes (s : string) : string :=
  match s with String a s' => if Ascii.eqb a "-" then trim_dashes s' else s | "" => "" end.
Definition flag_word (arg : string) : string := (cut_byte "=" (trim_dashes arg)).1.
Definition dashed (arg : string) : bool := HasPrefix arg "-".
Definition takes_no_value (boolFlags : list string) (arg : string) : bool :=
  Contains arg "=" || existsb (String.eqb (flag_word arg)) boolFlags.

(** The flags with their values, and the other arguments. *)
Fixpoint split_flags (boolFlags : list string) (args : list string) : list string * list string :=
  match args with
  | [] => ([], [])
  | arg :: rest =>
      if negb (dashed arg) || (arg =? "-")%string then
        let '(flags, positional) := split_flags boolFlags rest in (flags, arg :: positional)
      else
        match rest with
        | value :: rest' =>
            if takes_no_value boolFlags arg || dashed value then
              let '(flags, positional) := split_flags boolFlags rest in (arg :: flags, positional)
            else
              let '(flags, positional) := split_flags boolFlags rest' in (arg :: value :: flags, positional)
        | [] => ([arg], [])
        end
  end.
Definition flagsFirst (args boolFlags : list string) : list string :=
  let '(flags, positional) := split_flags boolFlags args in (flags ++ positional)%list.

(** ** [flag.FlagSet] *)

Inductive FlagKind := StringFlag | BoolFlag.
Definition FlagSet : Type := list (string * FlagKind).

(** The flags that are set, in order, and the arguments after them. *)
Record Parsed := mkParsed { fs_actual : list (string * string); fs_args : list string }.

Inductive FlagError := BadSyntax | NotDefined | InvalidBoolean | NeedsArgument | HelpRequested.

Definition strconv_ParseBool (s : string) : option bool :=
  if existsb (String.eqb s) ["1"; "t"; "T"; "TRUE"; "true"; "True"] then Some true else
  if existsb (String.eqb s) ["0"; "f"; "F"; "FALSE"; "false"; "False"] then Some false else None.

Definition lookup_flag (formal : FlagSet) (name : string) : option FlagKind :=
  snd <$> List.find (fun f => (f.1 =? name)%string) formal.

(** The name of a flag without its dashes, and the value that stands in it; [None]
    when the argument is not a flag, or is two dashes. *)
Inductive FlagWord := NotAFlag | Terminator | Malformed | Named (name : string) (value : option string).
Definition read_flag (s : string) : FlagWord :=
  match s with
  | String "-" (String a s') =>
      let body := if Ascii.eqb a "-" then s' else String a s' in
      if Ascii.eqb a "-" && (s' =? "")%string then Terminator else
      if (body =? "")%string || HasPrefix body "-" || HasPrefix body "=" then Malformed else
      if no_byte "=" body then Named body None
      else let '(name, value) := cut_byte "=" body in Named name (Some value)
  | _ => NotAFlag
  end.

Definition set_flag (name value : string) (r : Parsed + FlagError) : Parsed + FlagError :=
  match r with inl p => inl (mkParsed ((name, value) :: fs_actual p) (fs_args p)) | inr e => inr e end.

Fixpoint Parse (formal : FlagSet) (args : list string) : Parsed + FlagError :=
  match args with
  | [] => inl (mkParsed [] [])
  | s :: rest =>
      match read_flag s with
      | NotAFlag => inl (mkParsed [] args)
      | Terminator => inl (mkParsed [] rest)
      | Malformed => inr BadSyntax
      | Named name value =>
          match lookup_flag formal name with
          | None => inr (if (name =? "help")%string || (name =? "h")%string then HelpRequested else NotDefined)
          | Some BoolFlag =>
              match strconv_ParseBool (default "true" value) with
              | Some b => set_flag name (if b then "true" else "false") (Parse formal rest)
              | None => inr InvalidBoolean
              end
          | Some StringFlag =>
              match value, rest with
              | Some v, _ => set_flag name v (Parse formal rest)
              | None, v :: rest' => set_flag name v (Parse formal rest')
              | None, [] => inr NeedsArgument
              end
          end
      end
  end.

(** The value of a flag: that of the last time it is set. *)
Definition flag_values (p : Parsed) (name : string) : list string :=
  map snd (List.filter (fun f => (f.1 =? name)%string) (fs_actual p)).
Definition flag_value (p : Parsed) (name fallback : string) : string := List.last (flag_values p name) fallback.
Definition flagProvided (p : Parsed) (name : string) : bool := existsb (fun f => (f.1 =? name)%string) (fs_actual p).
Definition NArg (p : Parsed) : Z := Z.of_nat (length (fs_args p)).
Definition Arg (p : Parsed) (i : nat) : string := nth i (fs_args p) "".

(** ** Flags in any order *)

Lemma Contains_byte c s : Contains s (String c "") = negb (no_byte c s).
Proof.
  unfold no_byte. induction s as [|a s IH]; [done|]. cbn [Contains HasPrefix forallb_string]. rewrite IH, andb_true_r, Ascii.eqb_sym.
  by destruct (Ascii.eqb a c), (forallb_string _ s).
Qed.

(** What a user writes: a name, [--flag=value], [--flag value] or [--flag]. *)
Inductive Item :=
| Word (s : string)
| Assigned (double : bool) (name value : string)
| Valued (double : bool) (name value : string)
| Switched (double : bool) (name : string).

Definition dashes (double : bool) : string := if double then "--" else "-".
Definition written (i : Item) : list string :=
  match i with
  | Word s => [s]
  | Assigned d name value => [dashes d +:+ name +:+ "=" +:+ value]
  | Valued d name value => [dashes d +:+ name; value]
  | Switched d name => [dashes d +:+ name]
  end.
Definition words (items : list Item) : list string := flat_map (fun i => match i with Word s => [s] | _ => [] end) items.
Definition settings (items : list Item) : list (string * string) :=
  flat_map (fun i => match i with
    | Word _ => []
    | Assigned _ name value | Valued _ name value => [(name, value)]
    | Switched _ name => [(name, "true")]
    end) items.

Section AnyOrder.
Variables (formal : FlagSet) (boolFlags : list string).

Definition plain_flag (name : string) : Prop := name <> "" /\ dashed name = false /\ no_byte "=" name = true.
(** A word and a separate value do not begin with a dash. *)
Definition well_written (i : Item) : Prop :=
  match i with
  | Word s => dashed s = false
  | Assigned _ name value => plain_flag name /\ lookup_flag formal name = Some StringFlag
  | Valued _ name value =>
      plain_flag name /\ lookup_flag formal name = Some StringFlag /\ ~ In name boolFlags /\ dashed value = false
  | Switched _ name => plain_flag name /\ lookup_flag formal name = Some BoolFlag /\ In name boolFlags
  end.

Lemma dashed_dashes d s : dashed (dashes d +:+ s) = true.
Proof. by destruct d. Qed.
Lemma HasPrefix_one a c s : HasPrefix (String a s) (String c "") = Ascii.eqb c a.
Proof. cbn. destruct s; cbn; by rewrite andb_true_r. Qed.
Lemma plain_flag_inv name : plain_flag name ->
  exists a s, name = String a s /\ Ascii.eqb a "-" = false /\ Ascii.eqb a "=" = false /\ no_byte "=" name = true.
Proof.
  intros (Hne & Hd & He). destruct name as [|a s]; [done|]. exists a, s. unfold dashed in Hd.
  rewrite HasPrefix_one, Ascii.eqb_sym in Hd. split; [done|]. split; [done|]. split; [|done].
  unfold no_byte in He. cbn in He. apply andb_true_iff in He as [He _]. by apply negb_true_iff in He.
Qed.

Lemma trim_dashes_name d name rest : plain_flag name -> trim_dashes (dashes d +:+ name +:+ rest) = name +:+ rest.
Proof.
  intros (a & s & -> & Ha & _)%plain_flag_inv.
  destruct d; cbn [dashes String.append trim_dashes]; change (Ascii.eqb "-" "-") with true; cbn iota; by rewrite Ha.
Qed.
Lemma read_flag_body d name rest :
  plain_flag name -> read_flag (dashes d +:+ name +:+ rest)
  = if no_byte "=" (name +:+ rest) then Named (name +:+ rest) None
    else let '(n, v) := cut_byte "=" (name +:+ rest) in Named n (Some v).
Proof.
  intros (a & s & -> & Ha & Hq & _)%plain_flag_inv.
  assert (H1 : HasPrefix (String a s +:+ rest) "-" = false) by (cbn [String.append]; by rewrite HasPrefix_one, Ascii.eqb_sym).
  assert (H2 : HasPrefix (String a s +:+ rest) "=" = false) by (cbn [String.append]; by rewrite HasPrefix_one, Ascii.eqb_sym).
  destruct d; cbn [dashes String.append read_flag] in *.
  - change (Ascii.eqb "-" "-") with true. cbn iota. change ((String a (s +:+ rest) =? "")%string) with false.
    cbn [andb orb]. by rewrite H1, H2.
  - rewrite Ha. cbn [andb]. change ((String a (s +:+ rest) =? "")%string) with false. cbn [orb]. by rewrite H1, H2.
Qed.
Lemma read_flag_name d name : plain_flag name -> read_flag (dashes d +:+ name) = Named name None.
Proof.
  intros H. pose proof (read_flag_body d name "" H) as E. rewrite string_app_nil_r in E. rewrite E.
  destruct H as (_ & _ & He). by rewrite He.
Qed.
Lemma read_flag_assigned d name value :
  plain_flag name -> read_flag (dashes d +:+ name +:+ "=" +:+ value) = Named name (Some value).
Proof.
  intros H. rewrite (read_flag_body d name ("=" +:+ value) H). destruct H as (_ & _ & He).
  change ("=" +:+ value) with (String "=" value). rewrite cut_once by exact He.
  unfold no_byte in *. rewrite forallb_string_app, He. reflexivity.
Qed.

Lemma takes_no_value_assigned d name value : takes_no_value boolFlags (dashes d +:+ name +:+ "=" +:+ value) = true.
Proof.
  unfold takes_no_value. rewrite Contains_byte. unfold no_byte.
  rewrite !forallb_string_app. destruct d; cbn; by rewrite ?andb_false_r.
Qed.
Lemma takes_no_value_name d name :
  plain_flag name -> takes_no_value boolFlags (dashes d +:+ name) = existsb (String.eqb name) boolFlags.
Proof.
  intros H. unfold takes_no_value. rewrite Contains_byte. unfold flag_word.
  rewrite <- (string_app_nil_r name) at 1 2. rewrite trim_dashes_name by done. rewrite string_app_nil_r.
  destruct H as (_ & _ & He). rewrite cut_none by exact He. cbn [fst]. unfold no_byte in *.
  rewrite forallb_string_app, He. by destruct d.
Qed.

Lemma split_flags_items items :
  Forall well_written items ->
  split_flags boolFlags (flat_map written items)
  = (flat_map (fun i => match i with Word _ => [] | _ => written i end) items, words items).
Proof.
  induction 1 as [|i items Hi H IH]; [done|]. cbn [flat_map words].
  destruct i as [s|d name value|d name value|d name]; cbn [written well_written app] in *.
  - cbn [split_flags]. rewrite Hi. cbn [negb orb]. rewrite IH. reflexivity.
  - assert (Hn : (dashes d +:+ name +:+ "=" +:+ value =? "-")%string = false).
    { apply String.eqb_neq. destruct Hi as ((Hne & _) & _). destruct d, name; done. }
    cbn [split_flags]. rewrite dashed_dashes, Hn. cbn [negb orb].
    rewrite takes_no_value_assigned. cbn [orb].
    destruct (flat_map written items) eqn:E; [|by rewrite IH].
    unfold words in IH. injection IH as H1 H2. by rewrite <- H1, <- H2.
  - destruct Hi as (Hp & _ & Hb & Hv).
    assert (Hn : (dashes d +:+ name =? "-")%string = false).
    { apply String.eqb_neq. destruct Hp as (Hne & Hd & _). destruct d, name; done. }
    cbn [split_flags]. rewrite dashed_dashes, Hn. cbn [negb orb].
    rewrite (takes_no_value_name d name Hp), Hv.
    replace (existsb (String.eqb name) boolFlags) with false; [cbn [orb]; by rewrite IH|].
    symmetry. apply not_true_is_false. intros (x & Hx & ->%String.eqb_eq)%existsb_exists. done.
  - destruct Hi as (Hp & _ & Hb).
    assert (Hn : (dashes d +:+ name =? "-")%string = false).
    { apply String.eqb_neq. destruct Hp as (Hne & Hd & _). destruct d, name; done. }
    cbn [split_flags]. rewrite dashed_dashes, Hn. cbn [negb orb].
    rewrite (takes_no_value_name d name Hp).
    replace (existsb (String.eqb name) boolFlags) with true; [cbn [orb]|].
    + destruct (flat_map written items) eqn:E; [|by rewrite IH].
    unfold words in IH. injection IH as H1 H2. by rewrite <- H1, <- H2.
    + symmetry. apply existsb_exists. exists name. by rewrite String.eqb_refl.
Qed.

Definition with_settings (l : list (string * string)) (p : Parsed) : Parsed := mkParsed (l ++ fs_actual p)%list (fs_args p).
Lemma Parse_flags items rest p :
  Forall well_written items -> Parse formal rest = inl p ->
  Parse formal (flat_map (fun i => match i with Word _ => [] | _ => written i end) items ++ rest)
  = inl (with_settings (settings items) p).
Proof.
  intros H Hr. induction H as [|i items Hi H IH]; [by destruct p|].
  destruct i as [s|d name value|d name value|d name]; cbn [flat_map settings written well_written app] in *.
  - exact IH.
  - destruct Hi as (Hp & Hl). cbn [Parse]. rewrite read_flag_assigned, Hl, IH by done. reflexivity.
  - destruct Hi as (Hp & Hl & _). cbn [Parse]. rewrite read_flag_name, Hl, IH by done. reflexivity.
  - destruct Hi as (Hp & Hl & _). cbn [Parse]. rewrite read_flag_name, Hl, IH by done. reflexivity.
Qed.
Lemma Parse_words items : Forall well_written items -> Parse formal (words items) = inl (mkParsed [] (words items)).
Proof.
  intros H. assert (Hw : Forall (fun s => dashed s = false) (words items)).
  { induction H as [|i items Hi H IH]; [by constructor|]. destruct i; cbn [words flat_map app] in *; [by constructor|done..]. }
  destruct (words items) as [|s l]; [done|]. inversion Hw as [|? ? Hs _]; subst. cbn [Parse].
  replace (read_flag s) with NotAFlag; [done|]. destruct s as [|a s]; [done|]. unfold dashed in Hs. rewrite HasPrefix_one in Hs.
  unfold read_flag. destruct (Ascii.eqb_spec "-" a) as [<-|Hne]; [done|].
  destruct a as [[] [] [] [] [] [] [] []]; try done.
Qed.
End AnyOrder.

(** Flags and names can stand in any order. What a user writes, names, flags with
    a value in the same or in the next argument, and switches, one dash or two, is
    parsed to the settings of its flags in their order and the names in theirs,
    however they are mixed; so two ways to write the same settings and names mean
    the same. A name and a separate value must not begin with a dash, and every switch
    must be listed as one. *)
Theorem parse_any_order (formal : FlagSet) (boolFlags : list string) (items : list Item)
    (H : Forall (well_written formal boolFlags) items) :
  Parse formal (flagsFirst (flat_map written items) boolFlags) = inl (mkParsed (settings items) (words items)).
Proof.
  unfold flagsFirst. rewrite (split_flags_items formal) by done.
  rewrite (Parse_flags formal boolFlags items (words items) (mkParsed [] (words items)) H); [|by apply (Parse_words formal boolFlags)].
  unfold with_settings. cbn [fs_actual fs_args]. by rewrite app_nil_r.
Qed.

(** ** Examples *)

Module FlagExamples.
Definition formal : FlagSet := [("request-id", StringFlag); ("comment", StringFlag); ("force", BoolFlag)].
Definition items : list Item :=
  [Word "req-1"; Valued true "comment" "ok then"; Assigned false "request-id" "a=b"; Switched true "force"; Word "more"].

Lemma items_well_written : Forall (well_written formal ["force"]) items.
Proof. repeat first [apply Forall_nil_2|apply Forall_cons_2]; cbn; intuition; by try split_and!. Qed.

Lemma parse_any_order_witness :
  Parse formal (flagsFirst ["req-1"; "--comment"; "ok then"; "-request-id=a=b"; "--force"; "more"] ["force"])
  = inl (mkParsed [("comment", "ok then"); ("request-id", "a=b"); ("force", "true")] ["req-1"; "more"]).
Proof. exact (parse_any_order formal ["force"] items items_well_written). Defined.

(** A value that begins with a dash is taken for a flag: the name after it is
    taken for its value, and the flags after that are not parsed. *)
Theorem dashed_value_ends_the_flags :
  Parse formal (flagsFirst ["--comment"; "-1"; "req-1"; "--request-id"; "r"] ["force"])
  = inl (mkParsed [("comment", "-1")] ["req-1"; "--request-id"; "r"]).
Proof. reflexivity. Qed.
End FlagExamples.
