(* ===== verification/Shell.v ===== *)
(** * What the commands stand on

    [cli/client.go], [cli/config/config.go], [cli/errors.go] and
    [cmd/protoradar/main.go]: the state of a command, its errors and its exit code,
    the stored credentials and the client made from them. *)

From S2P Require Import Prelude Errors GoStrings JsonScan Domain Json Effects JsonDecode Archive Urls Packing HttpServer ApiTypes ApiClient Flags.

Open Scope string_scope.
Open Scope Z_scope.

(** ** The environment of a command *)

(** Environment variables, the directory of the user's configuration, and the texts of
    durations. *)
Class Environ := {
  os_LookupEnv : string -> option string;
  os_UserConfigDir : result string;
  time_ParseDuration : string -> option Z;
  Duration_String : Z -> string }.
Definition os_Getenv `{!Environ} (name : string) : string := default "" (os_LookupEnv name).

Definition newline : string := String (byte_char 10) "".
Definition tab : string := String (byte_char 9) "".

(** What is printed, the files, and what the transport talks to. *)
Record Shell (S : Type) := mkShell { sh_Out : string; sh_FS : FS; sh_Remote : S }.
Arguments mkShell {S}. Arguments sh_Out {S}. Arguments sh_FS {S}. Arguments sh_Remote {S}.

(** An error of a command: its own text, the error of a call or of the system
    below its text, a flag that is refused, or an exit code. *)
Inductive CliError :=
| Failed (text : string)
| FailedCall (prefix : string) (err : ClientError)
| FailedWith (prefix : string) (err : error)
| BadFlags (err : FlagError)
| ExitError (code : Z) (err : option CliError).

(** [main.run]. *)
Definition exit_code {A} (r : A + CliError) : Z :=
  match r with
  | inl _ => 0
  | inr (ExitError code _) => if code =? 0 then 2 else code
  | inr _ => 2
  end.

Definition Cmd (S A : Type) : Type := Shell S -> (A + CliError) * Shell S.

Section Monad.
Context {S : Type}.
Definition cret {A} (a : A) : Cmd S A := fun s => (inl a, s).
Definition cfail {A} (e : CliError) : Cmd S A := fun s => (inr e, s).
Definition cbind {A B} (m : Cmd S A) (k : A -> Cmd S B) : Cmd S B := fun s =>
  match m s with (inl a, s') => k a s' | (inr e, s') => (inr e, s') end.
Definition clift {A} (r : A + CliError) : Cmd S A := fun s => (r, s).
(** [fmt.Fprint] to the output. *)
Definition print (text : string) : Cmd S unit := fun s => (inl tt, mkShell (sh_Out s +:+ text) (sh_FS s) (sh_Remote s)).
Definition println (text : string) : Cmd S unit := print (text +:+ newline).
(** An operation on the files. *)
Definition on_files {A} (wrap : error -> CliError) (m : M FS A) : Cmd S A := fun s =>
  let '(r, fs) := m (sh_FS s) in
  (match r with Ok a => inl a | Err e => inr (wrap e) end, mkShell (sh_Out s) fs (sh_Remote s)).
(** A call of the API, and what its error becomes. *)
Definition call {A} (wrap : ClientError -> CliError) (c : Call S A) : Cmd S A := fun s =>
  let '(r, remote) := c (sh_Remote s) in
  (match r with inl a => inl a | inr e => inr (wrap e) end, mkShell (sh_Out s) (sh_FS s) remote).
(** What an error of another part becomes. *)
Definition rewrap {A} (wrap : CliError -> CliError) (m : Cmd S A) : Cmd S A := fun s =>
  match m s with (inl a, s') => (inl a, s') | (inr e, s') => (inr (wrap e), s') end.
End Monad.

Declare Scope cli_scope.
Notation "'let$' x ':=' m 'in' k" := (cbind m (fun x => k))
  (at level 10, x pattern, m at level 100, k at level 200) : cli_scope.
Open Scope cli_scope.

Definition exit_with (code : Z) (e : CliError) : CliError := ExitError code (Some e).
Definition plainly (e : ClientError) : CliError := FailedCall "" e.
Definition failed_with (prefix : string) (e : error) : CliError := FailedWith prefix e.

(** [errors.Is(err, api.ErrX)]. *)
Definition is_api (kind : ApiErrorKind) (e : ClientError) : bool :=
  match e, kind with
  | Refused a, _ =>
      match ApiError_Unwrap a, kind with
      | Some ApiUnauthorized, ApiUnauthorized | Some ApiConflict, ApiConflict | Some ApiForbidden, ApiForbidden
      | Some ApiNotFound, ApiNotFound | Some ApiTooLarge, ApiTooLarge => true
      | _, _ => false
      end
  | _, _ => false
  end.
(** The first of the texts whose kind of error it is. *)
Definition explained (texts : list (ApiErrorKind * string)) (otherwise : ClientError -> CliError) (e : ClientError) : CliError :=
  match List.find (fun t => is_api t.1 e) texts with Some (_, text) => Failed text | None => otherwise e end.

(** ** [config.go] *)

Record Config := mkCliConfig { cli_ServerURL : string; cli_Token : string; cli_HTTPTimeout : Z }.
Definition eta_Config (c : Config) : Config := mkCliConfig (cli_ServerURL c) (cli_Token c) (cli_HTTPTimeout c).
Definition set_ServerURL : string -> Config -> Config := ltac:(setter eta_Config cli_ServerURL).
Definition set_Token : string -> Config -> Config := ltac:(setter eta_Config cli_Token).
Definition set_HTTPTimeout : Z -> Config -> Config := ltac:(setter eta_Config cli_HTTPTimeout).

Definition timeout_field : string := "cli.http_timeout".
Definition DefaultHTTPTimeout : Z := 30 * 1000000000.

Section CliConfig.
Context `{ENVIRON : !Environ} `{QUOTE : !Quoting}.

Definition ParsePositiveDuration (path value : string) : result Z :=
  match time_ParseDuration value with
  | None => Err (EText (path +:+ " must be a valid duration"))
  | Some d => if d <=? 0 then Err (EText (path +:+ " must be positive")) else Ok d
  end.

Definition quotes : string := String quote_char "'".
(** A line of the file. *)
Definition parse_line (number : Z) (cfg : Config) (rawLine : string) : result Config :=
  let line := TrimSpace rawLine in
  if (line =? "")%string || HasPrefix line "#" then Ok cfg else
  match Cut line ":" with
  | None => Err (EText ("config line " +:+ itoa number +:+ " must use key: value syntax"))
  | Some (key, value) =>
      let value := Trim (TrimSpace value) quotes in
      let key := TrimSpace key in
      if (key =? "server_url")%string then Ok (set_ServerURL value cfg) else
      if (key =? "token")%string then Ok (set_Token value cfg) else
      if (key =? "http_timeout")%string then
        let? d := ParsePositiveDuration timeout_field value in Ok (set_HTTPTimeout d cfg)
      else Err (EText (key +:+ " is not a supported CLI config field"))
  end.
Fixpoint parse_lines (number : Z) (cfg : Config) (lines : list string) : result Config :=
  match lines with
  | [] => Ok cfg
  | line :: rest => let? cfg := parse_line number cfg line in parse_lines (number + 1) cfg rest
  end.
Definition parse_config (body : string) : result Config :=
  parse_lines 1 (mkCliConfig "" "" 0) (split_byte (byte_char 10) body).

Definition ApplyEnv (cfg : Config) : result Config :=
  let cfg := match os_LookupEnv "PROTORADAR_SERVER_URL" with Some v => set_ServerURL v cfg | None => cfg end in
  let cfg := match os_LookupEnv "PROTORADAR_TOKEN" with Some v => set_Token v cfg | None => cfg end in
  match os_LookupEnv "PROTORADAR_CLI_HTTP_TIMEOUT" with
  | Some v => let? d := ParsePositiveDuration timeout_field v in Ok (set_HTTPTimeout d cfg)
  | None => Ok cfg
  end.

Definition HTTPTimeoutDuration (cfg : Config) : result Z :=
  if cli_HTTPTimeout cfg =? 0 then Ok DefaultHTTPTimeout else
  if cli_HTTPTimeout cfg <? 0 then Err (EText "cli.http_timeout must be positive") else Ok (cli_HTTPTimeout cfg).

Definition DefaultPath : result string :=
  let? dir := os_UserConfigDir in Ok (filepath_Join (filepath_Join dir "protoradar") "config.yaml").

Context `{SYS : !OS}.

(** [os.ReadFile]; a file that is not there is empty. *)
Definition Load (path : string) : M FS Config :=
  let! body := try (os_Open (parse path)) in
  match body with
  | Ok content => lift (let? cfg := parse_config content in ApplyEnv cfg)
  | Err e => if bool_decide (e = not_exist) then lift (let? cfg := parse_config "" in ApplyEnv cfg) else fail e
  end.

(** [os.WriteFile], and the writes of [Save]. *)
Definition write_file (path content : string) : M FS unit :=
  let! file := os_OpenTrunc (parse path) in
  io_CopyN file content (len content).

Definition config_text (cfg : Config) : string :=
  "server_url: " +:+ strconv_Quote (cli_ServerURL cfg) +:+ newline
  +:+ "token: " +:+ strconv_Quote (cli_Token cfg) +:+ newline
  +:+ (if cli_HTTPTimeout cfg =? 0 then ""
       else "http_timeout: " +:+ strconv_Quote (Duration_String (cli_HTTPTimeout cfg)) +:+ newline).
Definition Save (path : string) (cfg : Config) : M FS unit :=
  let! _ := os_MkdirAll (path_dir (parse path)) in
  let! file := os_OpenTrunc (parse path) in
  let! _ := os_Read in
  io_CopyN file (config_text cfg) (len (config_text cfg)).
End CliConfig.

(** ** [client.go] *)

Section ShellClient.
Context `{ENVIRON : !Environ} `{QUOTE : !Quoting} `{SYS : !OS} `{URL : !NetURL} {S : Type}.
Variable ConfigPath : string.

Definition configPath : result string := if (ConfigPath =? "")%string then DefaultPath else Ok ConfigPath.

Definition validateServerURL (value : string) : option string :=
  match url_Parse value with
  | None => Some "parse"
  | Some (scheme, host) =>
      if negb (scheme =? "http")%string && negb (scheme =? "https")%string then Some "server URL must use http or https" else
      if (host =? "")%string then Some "server URL must include a host" else None
  end.

Definition newAPIClientFromConfig (cfg : Config) : Client + CliError :=
  if (TrimSpace (cli_ServerURL cfg) =? "")%string then inr (Failed "server_url is not configured; run protoradar login") else
  if (TrimSpace (cli_Token cfg) =? "")%string then inr (Failed "token is not configured; run protoradar login") else
  match validateServerURL (cli_ServerURL cfg) with
  | Some text => inr (Failed text)
  | None => inl (NewClient (cli_ServerURL cfg) (cli_Token cfg))
  end.

Definition plain_error (e : error) : CliError := FailedWith "" e.
Definition from_result {A} (r : result A) : A + CliError := match r with Ok a => inl a | Err e => inr (plain_error e) end.

(** The stored credentials and the timeout of the transport, which is not used
    further. *)
Definition load_config : Cmd S Config :=
  let$ path := clift (from_result configPath) in
  let$ cfg := on_files plain_error (Load path) in
  let$ _ := clift (from_result (HTTPTimeoutDuration cfg)) in
  cret cfg.
Definition app_client : Cmd S Client :=
  let$ cfg := load_config in clift (newAPIClientFromConfig cfg).
End ShellClient.
