(* ===== verification/CliHelp.v ===== *)
(** * The help of the commands

    [cli/help.go]: what asks for help, and the text of each topic. *)

From S2P Require Import Prelude GoStrings JsonScan Shell.

Open Scope string_scope.

Definition isHelp (arg : string) : bool := existsb (String.eqb arg) ["-h"; "--help"; "help"].
Definition hasHelp (args : list string) : bool := match args with arg :: _ => isHelp arg | [] => false end.

Definition q : string := String quote_char "".
Definition lines (l : list string) : string := strings_Join newline l +:+ newline.

Definition commandHelp (topic : string) : string :=
  if existsb (String.eqb topic) ["login"] then lines ["Usage:";
      "  protoradar login --server <url> --token <token>";
      "";
      "Stores credentials for later CLI commands. The token is never printed."] else
  if existsb (String.eqb topic) ["module"] then lines ["Usage:";
      "  protoradar module <create|list|link-gitlab|dependencies|affected|owners|version> [flags]"] else
  if existsb (String.eqb topic) ["module create"] then lines ["Usage:";
      "  protoradar module create <module> [--description <text>] [--repository-url <url>]";
      "";
      "Example:";
      "  protoradar module create user-api --description " +:+ q +:+ "User API contracts" +:+ q] else
  if existsb (String.eqb topic) ["module link-gitlab"] then lines ["Usage:";
      "  protoradar module link-gitlab <module> --project-id <id> --project-path <path> --gitlab-base-url <url>"] else
  if existsb (String.eqb topic) ["module dependencies"] then lines ["Usage:";
      "  protoradar module dependencies <module>";
      "";
      "Shows direct upstream, downstream, and unresolved protobuf dependencies."] else
  if existsb (String.eqb topic) ["module affected"] then lines ["Usage:";
      "  protoradar module affected <module>";
      "";
      "Shows direct downstream modules currently known to depend on the module."] else
  if existsb (String.eqb topic) ["module owners"] then lines ["Usage:";
      "  protoradar module owners <list|add|remove> [flags]"] else
  if existsb (String.eqb topic) ["module owners list"] then lines ["Usage:";
      "  protoradar module owners list <module>"] else
  if existsb (String.eqb topic) ["module owners add"] then lines ["Usage:";
      "  protoradar module owners add <module> --subject-type user|team --subject <name> --role owner|maintainer [--actor <actor>]";
      "";
      "--actor is deprecated and only works when server actor override is enabled. Omit it to use the authenticated principal."] else
  if existsb (String.eqb topic) ["module owners remove"] then lines ["Usage:";
      "  protoradar module owners remove <module> --owner-id <id> [--actor <actor>]";
      "";
      "--actor is deprecated and only works when server actor override is enabled. Omit it to use the authenticated principal."] else
  if existsb (String.eqb topic) ["module version"] then lines ["Usage:";
      "  protoradar module version <deprecate> [flags]"] else
  if existsb (String.eqb topic) ["module version deprecate"] then lines ["Usage:";
      "  protoradar module version deprecate <module> <version> [--reason <text>]";
      "";
      "The server records the authenticated principal as deprecated_by."] else
  if existsb (String.eqb topic) ["list"] then lines ["Usage:";
      "  protoradar list";
      "  protoradar module list"] else
  if existsb (String.eqb topic) ["push"] then lines ["Usage:";
      "  protoradar push <module> --version <version> --path <buf-workspace>"] else
  if existsb (String.eqb topic) ["pull"] then lines ["Usage:";
      "  protoradar pull <module> --version <version> --output <directory> [--force]"] else
  if existsb (String.eqb topic) ["check-breaking"] then lines ["Usage:";
      "  protoradar check-breaking <module> --path <buf-workspace> [--against latest|<version>] [--target-ref <ref>] [--report-file <path>]";
      "";
      "Exit codes:";
      "  0 no breaking changes";
      "  1 breaking changes found";
      "  2 input, auth, network, server, config, or internal error"] else
  if existsb (String.eqb topic) ["gitlab"] then lines ["Usage:";
      "  protoradar gitlab mr-check [flags]"] else
  if existsb (String.eqb topic) ["gitlab mr-check"] then lines ["Usage:";
      "  protoradar gitlab mr-check --module <module> --path <buf-workspace> --gitlab-base-url <url> --project-id <id> --merge-request-iid <iid> --commit-sha <sha> --gitlab-token <token>";
      "";
      "In GitLab CI, PROTORADAR_SERVER_URL, PROTORADAR_TOKEN, PROTORADAR_GITLAB_TOKEN, and GITLAB_TOKEN are supported.";
      "Exit code 1 means breaking changes were found, not a tool failure.";
      "--governance-actor is deprecated and only works when server actor override is enabled. Omit it to use the authenticated ProtoRadar principal."] else
  if existsb (String.eqb topic) ["runtime"] then lines ["Usage:";
      "  protoradar runtime report [--from-file <path>] [--module <module@version>]..."] else
  if existsb (String.eqb topic) ["edition"] then lines ["Usage:";
      "  protoradar edition"] else
  if existsb (String.eqb topic) ["runtime report"] then lines ["Usage:";
      "  protoradar runtime report --service <service> --environment <env> --git-commit <sha> --build-version <version> --module <module@version>";
      "  protoradar runtime report --from-file protoradar-runtime.yaml";
      "";
      "Drift statuses such as behind_latest or unknown_version are successful inventory results and exit 0."] else
  if existsb (String.eqb topic) ["approvals"] then lines ["Usage:";
      "  protoradar approvals <request|status|approve|reject> [flags]"] else
  if existsb (String.eqb topic) ["approvals request"] then lines ["Usage:";
      "  protoradar approvals request --report-id <breaking_report_id> [--actor <actor>]";
      "";
      "--actor is deprecated and only works when server actor override is enabled. Omit it to use the authenticated principal."] else
  if existsb (String.eqb topic) ["approvals status"] then lines ["Usage:";
      "  protoradar approvals status --report-id <breaking_report_id>"] else
  if existsb (String.eqb topic) ["approvals approve"] then lines ["Usage:";
      "  protoradar approvals approve <requirement_id> --request-id <approval_request_id> [--actor <actor>] [--comment <comment>]";
      "";
      "--actor is deprecated and only works when server actor override is enabled. Omit it to use the authenticated principal."] else
  if existsb (String.eqb topic) ["approvals reject"] then lines ["Usage:";
      "  protoradar approvals reject <requirement_id> --request-id <approval_request_id> [--actor <actor>] [--comment <comment>]";
      "";
      "--actor is deprecated and only works when server actor override is enabled. Omit it to use the authenticated principal."] else
  lines ["ProtoRadar CLI";
      "";
      "Usage:";
      "  protoradar <command> [flags]";
      "";
      "Commands:";
      "  login                  Store server URL and API token.";
      "  version                Print version, commit, and build date.";
      "  edition                Print server edition and capabilities.";
      "  module create          Create a protobuf module.";
      "  module list            List modules. Alias: protoradar list.";
      "  module link-gitlab     Link a module to a GitLab project.";
      "  module dependencies    Show direct upstream/downstream protobuf dependencies.";
      "  module affected        Show direct downstream modules affected by a module.";
      "  module owners          Manage module owners and maintainers.";
      "  module version         Manage module version lifecycle.";
      "  push                   Publish a Buf-compatible module version.";
      "  pull                   Download a published source artifact.";
      "  check-breaking         Run a server-side breaking-change check.";
      "  gitlab mr-check        Run GitLab MR bot check/comment/status flow.";
      "  runtime report         Report deployed module versions.";
      "  approvals              Request, inspect, approve, or reject governance approvals.";
      "";
      "Authentication:";
      "  Use protoradar login, or set PROTORADAR_SERVER_URL and PROTORADAR_TOKEN in CI.";
      "";
      "Exit codes:";
      "  0 success or no breaking changes";
      "  1 breaking changes found by check-breaking or gitlab mr-check";
      "  2 invalid input, auth, network, server, config, or internal error";
      "";
      "Examples:";
      "  protoradar login --server http://localhost:8080 --token <token>";
      "  protoradar edition";
      "  protoradar module create user-api --description " +:+ q +:+ "User API contracts" +:+ q;
      "  protoradar push user-api --version v1.0.0 --path examples/repos/user-api";
      "  protoradar check-breaking user-api --path . --against latest"].
