(* ===== verification/CliOutput.v ===== *)
(** * What the commands print

    [cli/render.go], the texts of [cli/breaking_commands.go], [governance.go],
    [runtime.go], [edition_command.go] and [artifact_commands.go]. *)

From S2P Require Import Prelude Errors GoStrings JsonScan Domain Json Effects JsonDecode Rfc3339 Edition WebViews HttpServer ApiTypes ApiClient Packing Flags Shell.
From S2P Require MergeRequestCheck.

Open Scope string_scope.
Open Scope Z_scope.

Definition line (s : string) : string := s +:+ newline.
Definition concat (l : list string) : string := strings_Join "" l.
Definition unless (b : bool) (s : string) : string := if b then "" else s.
Definition empty (s : string) : bool := (s =? "")%string.
Definition first_nonempty (s t : string) : string := if empty s then t else s.

(** [timeFormat], in UTC. *)
Definition format_seconds (t : time) : string :=
  let '(year, month, day) := civil (t / nanos_per_day) in
  let secs := (t mod nanos_per_day) / 1000000000 in
  year_text year +:+ "-" +:+ digits 2 month +:+ "-" +:+ digits 2 day +:+ "T" +:+ digits 2 (secs / 3600) +:+ ":"
  +:+ digits 2 ((secs / 60) mod 60) +:+ ":" +:+ digits 2 (secs mod 60) +:+ "Z".

Definition writeOutputLine (label value : string) : string := unless (blank value) (line (label +:+ ": " +:+ value)).
Definition writeFallbackLine (label value : string) : string := unless (blank value) (line ("   " +:+ label +:+ ": " +:+ value)).

(** ** [render.go] *)

Definition printDependencyModules (modules : list DependencyModule) (emptyMessage : string) : string :=
  match modules with
  | [] => line emptyMessage
  | _ =>
      concat (map (fun module =>
        line ("- " +:+ apDM_Module module +:+ "@" +:+ first_nonempty (TrimSpace (apDM_LatestVersion module)) "unknown")
        +:+ (match slice_items (apDM_DependencySources module) with
             | [] => "" | sources => line ("  sources: " +:+ strings_Join ", " sources) end)
        +:+ concat (map (writeOutputLine "  reason") (slice_items (apDM_Reasons module)))) modules)
  end.
Definition no_downstream : string := "No downstream modules are currently known to depend on this module.".

Definition printModuleDependencies (graph : ModuleDependencyGraph) : string :=
  line ("Module: " +:+ apMDG_Module graph) +:+ newline
  +:+ line "Downstream consumers:" +:+ printDependencyModules (slice_items (apMDG_Downstream graph)) no_downstream +:+ newline
  +:+ line "Upstream dependencies:"
  +:+ printDependencyModules (slice_items (apMDG_Upstream graph)) "No upstream dependencies are currently known for this module."
  +:+ match slice_items (apMDG_Unresolved graph) with
      | [] => ""
      | unresolved =>
          newline +:+ line "Unresolved dependencies:"
          +:+ concat (map (fun dependency =>
                line ("- " +:+ first_nonempty (TrimSpace (apUD_ImportPath dependency))
                                 (first_nonempty (TrimSpace (apUD_ReferencedSymbol dependency)) "(unknown dependency)"))
                +:+ writeOutputLine "  reason" (apUD_Reason dependency)) unresolved)
      end.

Definition printAffectedModules (affected : AffectedModules) : string :=
  line ("Module: " +:+ apAM_Module affected) +:+ newline +:+ line "Affected modules:"
  +:+ printDependencyModules (slice_items (apAM_AffectedModules affected)) no_downstream.

(** ** Breaking reports *)

Definition fallback_change (index : nat) (change : BreakingChange) : string :=
  line (itoa (Z.of_nat index + 1) +:+ ". "
        +:+ (if blank (apBC_FilePath change) then "(unknown file)" else apBC_FilePath change))
  +:+ writeFallbackLine "Rule" (apBC_RuleID change) +:+ writeFallbackLine "Symbol" (apBC_Symbol change)
  +:+ writeFallbackLine "Package" (apBC_PackageName change) +:+ writeFallbackLine "Category" (apBC_Category change)
  +:+ writeFallbackLine "Severity" (apBC_Severity change) +:+ writeFallbackLine "Message" (apBC_Message change).
Definition fallbackBreakingSummary (report : BreakingReport) : string :=
  line "ProtoRadar Breaking Change Report" +:+ newline
  +:+ unless (empty (apBR_Module report)) (line ("Module: " +:+ apBR_Module report))
  +:+ unless (empty (apBR_Against report)) (line ("Against: " +:+ apBR_Against report))
  +:+ line ("Target: " +:+ (if blank (apBR_TargetRef report) then "local" else apBR_TargetRef report))
  +:+ line ("Status: " +:+ apBR_Status report) +:+ line ("Changes: " +:+ itoa (apBR_ChangeCount report))
  +:+ (if (apBR_Status report =? "breaking")%string then
         newline +:+ line "Breaking changes:" +:+ concat (imap fallback_change (slice_items (apBR_Changes report)))
         +:+ newline +:+ "Result: breaking changes found."
       else newline +:+ line "No breaking changes found." +:+ newline +:+ "Result: no breaking changes found.").

(** ** Governance *)

Section Quoted.
Context `{QUOTE : !Quoting}.

Definition printModuleOwners (response : ListModuleOwnersResponse) : string :=
  match slice_items (apLMOR_Owners response) with
  | [] => line "No owners or maintainers configured for this module."
  | owners =>
      line (strings_Join tab ["OWNER ID"; "SUBJECT TYPE"; "SUBJECT"; "ROLE"])
      +:+ concat (map (fun owner => line (strings_Join tab
            [apMO_ID owner; apMO_SubjectType owner; apMO_Subject owner; apMO_Role owner])) owners)
  end.

Definition printRequirement (requirement : ApprovalRequirement) : string :=
  line ("- " +:+ apARx_ID requirement +:+ " [" +:+ apARx_RequirementType requirement +:+ "] target="
        +:+ first_nonempty (apARx_TargetModuleName requirement) (apARx_TargetModuleID requirement)
        +:+ " role=" +:+ apARx_RequiredRole requirement +:+ " status=" +:+ apARx_Status requirement
        +:+ unless (blank (apARx_Reason requirement)) (" reason=" +:+ strconv_Quote (apARx_Reason requirement))).
Definition printDecision (decision : ApprovalDecision) : string :=
  line ("- " +:+ apAD_ID decision +:+ " requirement=" +:+ apAD_RequirementID decision +:+ " decision="
        +:+ apAD_Decision decision +:+ " decided_by=" +:+ apAD_DecidedBy decision
        +:+ unless (blank (apAD_Comment decision)) (" comment=" +:+ strconv_Quote (apAD_Comment decision))).
Definition printApprovalRequest (request : ApprovalRequest) : string :=
  line ("Approval request: " +:+ apAR_ID request) +:+ line ("Status: " +:+ apAR_Status request)
  +:+ unless (empty (apAR_ModuleName request)) (line ("Module: " +:+ apAR_ModuleName request))
  +:+ unless (empty (apAR_BreakingReportID request)) (line ("Breaking report: " +:+ apAR_BreakingReportID request))
  +:+ line ("Approvals: " +:+ itoa (apAR_ReceivedApprovals request) +:+ "/" +:+ itoa (apAR_RequiredApprovals request))
  +:+ match slice_items (apAR_Requirements request) with
      | [] => line "Requirements: none"
      | requirements => line "Requirements:" +:+ concat (map printRequirement requirements)
      end
  +:+ match slice_items (apAR_Decisions request) with
      | [] => ""
      | decisions => line "Decisions:" +:+ concat (map printDecision decisions)
      end.
End Quoted.

(** ** The other answers *)

Definition runtimeStatusText (usage : RuntimeModuleUsage) : string :=
  let status := apRMU_DriftStatus usage in
  if (status =? "up_to_date")%string then "up to date" else
  if (status =? "behind_latest")%string then
    if empty (apRMU_LatestVersion usage) then "behind latest"
    else "behind latest (latest: " +:+ apRMU_LatestVersion usage +:+ ")" else
  if (status =? "unknown_version")%string then
    if empty (apRMU_DriftReason usage) then "unknown version"
    else "unknown version (" +:+ apRMU_DriftReason usage +:+ ")" else
  if (status =? "deprecated_version")%string then "deprecated version" else status.
Definition printRuntimeReport (response : ReportRuntimeInventoryResponse) : string :=
  line "Runtime inventory reported" +:+ line ("Service: " +:+ apRRIRx_ServiceName response)
  +:+ line ("Environment: " +:+ apRRIRx_Environment response) +:+ line ("Build: " +:+ apRRIRx_BuildVersion response)
  +:+ line ("Commit: " +:+ apRRIRx_GitCommit response) +:+ newline +:+ line "Modules:"
  +:+ concat (map (fun usage =>
        line ("- " +:+ apRMU_Module usage +:+ "@" +:+ apRMU_Version usage
              +:+ unless (empty (runtimeStatusText usage)) (" - " +:+ runtimeStatusText usage))) (slice_items (apRRIRx_Usages response))).

Definition capability_names (enabled : bool) (response : EditionResponse) : list string :=
  map (fun c => TrimSpace (apCS_Name c))
    (List.filter (fun c => negb (blank (apCS_Name c)) && Bool.eqb (apCS_Enabled c) enabled) (slice_items (apER_Capabilities response))).
Definition printCapabilities (title : string) (names : list string) : string :=
  match names with [] => "" | _ => newline +:+ line title +:+ concat (map (fun name => line ("- " +:+ name)) names) end.
Definition printEdition (response : EditionResponse) : string :=
  line ("Edition: " +:+ apER_Edition response) +:+ line ("Version: " +:+ apER_Version response)
  +:+ writeOutputLine "Commit" (apER_Commit response) +:+ writeOutputLine "Build date" (apER_BuildDate response)
  +:+ printCapabilities "Enabled capabilities:" (capability_names true response)
  +:+ printCapabilities "Unavailable enterprise capabilities:" (capability_names false response).

(** The text of [push]: what the answer leaves out is what was sent. *)
Definition printPublished (module version checksum : string) (size : Z) (response : PublishModuleVersionResponse) : string :=
  let source := apPMVR_SourceArtifact response in
  let image := apPMVR_BufImageArtifact response in
  let m := apPMVR_MetadataSummary response in
  line ("Published " +:+ first_nonempty (apPMVR_Module response) module +:+ " " +:+ first_nonempty (apPMVR_Version response) version)
  +:+ line ("Source checksum SHA-256: " +:+ first_nonempty (apAS_ChecksumSHA256 source) checksum)
  +:+ line ("Source size: " +:+ itoa (if apAS_SizeBytes source =? 0 then size else apAS_SizeBytes source) +:+ " bytes")
  +:+ unless (empty (apAS_ChecksumSHA256 image) && (apAS_SizeBytes image <=? 0))
        (line ("Buf image checksum SHA-256: " +:+ apAS_ChecksumSHA256 image)
         +:+ line ("Buf image size: " +:+ itoa (apAS_SizeBytes image) +:+ " bytes"))
  +:+ unless (empty (apBI_LintStatus (apPMVR_Buf response))) (line ("Lint status: " +:+ apBI_LintStatus (apPMVR_Buf response)))
  +:+ unless ((apMS_Files m <=? 0) && (apMS_Services m <=? 0) && (apMS_Messages m <=? 0) && (apMS_Enums m <=? 0))
        (line ("Metadata: files=" +:+ itoa (apMS_Files m) +:+ " packages=" +:+ itoa (apMS_Packages m)
               +:+ " services=" +:+ itoa (apMS_Services m) +:+ " methods=" +:+ itoa (apMS_Methods m)
               +:+ " messages=" +:+ itoa (apMS_Messages m) +:+ " fields=" +:+ itoa (apMS_Fields m)
               +:+ " enums=" +:+ itoa (apMS_Enums m) +:+ " enum_values=" +:+ itoa (apMS_EnumValues m))).

Definition writeMRCheckResult (module : string) (result : MergeRequestCheck.Result) : string :=
  let code := MergeRequestCheck.res_ExitCode result in
  (if code =? MergeRequestCheck.ExitCodePassed then line ("ProtoRadar MR check passed for " +:+ module) else
   if code =? MergeRequestCheck.ExitCodeBreaking then line ("ProtoRadar MR check found breaking changes for " +:+ module)
   else line ("ProtoRadar MR check failed for " +:+ module))
  +:+ unless (empty (MergeRequestCheck.res_CommentAction result))
        (line ("Merge request comment " +:+ MergeRequestCheck.res_CommentAction result)).
