(* ===== verification/Commands.v ===== *)
(** * The commands

    [cli/app.go], [cli/module_commands.go], [cli/artifact_commands.go],
    [cli/breaking_commands.go], [cli/auth_commands.go], [cli/edition_command.go],
    [cli/version_command.go], [cli/governance.go] and [cli/runtime.go]: each command
    reads its flags, makes a client from the stored credentials, calls the API and
    prints the answer. *)

From S2P Require Import Prelude Errors GoStrings JsonScan Domain Json Effects JsonDecode Archive Urls Storage Registry Packing WebViews HttpServer ApiTypes ApiClient Flags Shell CliHelp CliOutput.
From S2P Require Edition.

Open Scope string_scope.
Open Scope Z_scope.

(** [strconv.ParseInt(s, 10, 64)]. *)
Definition strconv_ParseInt64 (s : string) : option Z :=
  let unsigned := match s with String a s' => if Ascii.eqb a "+" && negb (HasPrefix s' "-") then s' else s | "" => s end in
  match parse_int unsigned with
  | Some z => if (int64_min <=? z) && (z <=? int64_max) then Some z else None
  | None => None
  end.

Definition string_flags (names : list string) : FlagSet := map (fun name => (name, StringFlag)) names.

(** ** [runtime.go]: the report *)

Record runtimeReportFile := mkRuntimeReportFile {
  file_ServiceName : string; file_Environment : string; file_GitCommit : string; file_BuildVersion : string;
  file_Modules : slice RuntimeModuleRequest }.
Definition eta_file (r : runtimeReportFile) : runtimeReportFile :=
  mkRuntimeReportFile (file_ServiceName r) (file_Environment r) (file_GitCommit r) (file_BuildVersion r) (file_Modules r).
Definition eta_file_module (r : RuntimeModuleRequest) : RuntimeModuleRequest :=
  mkApiRuntimeModuleRequest (apRMR_Module r) (apRMR_Version r).
Definition decode_report_file : decoder runtimeReportFile := decode_struct false
  [json_field "service_name" eta_file file_ServiceName decode_string;
   json_field "environment" eta_file file_Environment decode_string;
   json_field "git_commit" eta_file file_GitCommit decode_string;
   json_field "build_version" eta_file file_BuildVersion decode_string;
   json_field "modules" eta_file file_Modules
     (decode_slice (mkApiRuntimeModuleRequest "" "")
        (decode_struct false [json_field "module" eta_file_module apRMR_Module decode_string;
                              json_field "version" eta_file_module apRMR_Version decode_string]))].

(** [yaml.Unmarshal] into an empty report: what it filled in, and whether it
    succeeded. *)
Class YAML := { yaml_Unmarshal : string -> runtimeReportFile * bool }.

Definition request_empty : ReportRuntimeInventoryRequest := mkApiReportRuntimeInventoryRequest "" "" "" "" [].
Definition file_request (file : runtimeReportFile) : ReportRuntimeInventoryRequest :=
  mkApiReportRuntimeInventoryRequest (file_ServiceName file) (file_Environment file) (file_GitCommit file)
    (file_BuildVersion file) (slice_items (file_Modules file)).

Section Report.
Context `{ENVIRON : !Environ}.

Fixpoint firstEnv (names : list string) : string :=
  match names with
  | [] => ""
  | name :: rest => let value := TrimSpace (os_Getenv name) in if empty value then firstEnv rest else value
  end.
Definition or_env (value : string) (names : list string) : string := if blank value then firstEnv names else value.
Definition applyRuntimeReportDefaults (r : ReportRuntimeInventoryRequest) : ReportRuntimeInventoryRequest :=
  mkApiReportRuntimeInventoryRequest (or_env (apRRIR_ServiceName r) ["PROTORADAR_SERVICE"; "CI_PROJECT_NAME"])
    (or_env (apRRIR_Environment r) ["PROTORADAR_ENVIRONMENT"; "CI_ENVIRONMENT_NAME"])
    (or_env (apRRIR_GitCommit r) ["CI_COMMIT_SHA"])
    (or_env (apRRIR_BuildVersion r) ["PROTORADAR_BUILD_VERSION"; "CI_COMMIT_TAG"; "CI_COMMIT_SHORT_SHA"])
    (apRRIR_Modules r).
End Report.

Section ModuleFlags.
Context `{QUOTE : !Quoting}.

Definition invalid_module_flag (value : string) : CliError :=
  Failed ("invalid --module " +:+ strconv_Quote value +:+ "; expected module@version").
Definition parseRuntimeModuleFlag (value : string) : RuntimeModuleRequest + CliError :=
  match Cut (TrimSpace value) "@" with
  | None => inr (invalid_module_flag value)
  | Some (module, version) =>
      if Contains version "@" || blank module || blank version then inr (invalid_module_flag value) else
      if negb (TrimSpace module =? module)%string || negb (TrimSpace version =? version)%string then inr (invalid_module_flag value)
      else inl (mkApiRuntimeModuleRequest module version)
  end.
Fixpoint parse_module_flags (values : list string) : list RuntimeModuleRequest + CliError :=
  match values with
  | [] => inl []
  | value :: rest =>
      match parseRuntimeModuleFlag value with
      | inr e => inr e
      | inl module => match parse_module_flags rest with inl modules => inl (module :: modules) | inr e => inr e end
      end
  end.
End ModuleFlags.

Definition validateRuntimeReportRequest (r : ReportRuntimeInventoryRequest) : option string :=
  if blank (apRRIR_ServiceName r)
  then Some "runtime report requires --service, PROTORADAR_SERVICE, CI_PROJECT_NAME or service_name in --from-file" else
  if blank (apRRIR_Environment r)
  then Some "runtime report requires --environment, PROTORADAR_ENVIRONMENT, CI_ENVIRONMENT_NAME or environment in --from-file" else
  if blank (apRRIR_GitCommit r)
  then Some "runtime report requires --git-commit, CI_COMMIT_SHA or git_commit in --from-file" else
  if blank (apRRIR_BuildVersion r)
  then Some "runtime report requires --build-version, PROTORADAR_BUILD_VERSION, CI_COMMIT_TAG, CI_COMMIT_SHORT_SHA or build_version in --from-file" else
  match apRRIR_Modules r with
  | [] => Some "runtime report requires at least one --module or modules in --from-file"
  | modules =>
      if existsb (fun m => blank (apRMR_Module m) || blank (apRMR_Version m)) modules
      then Some "runtime report modules require module and version" else None
  end.

(** The flags that are set replace the fields of the report. *)
Definition flag_or (p : Parsed) (name old : string) : string := if flagProvided p name then flag_value p name old else old.
Definition override (p : Parsed) (modules : list RuntimeModuleRequest) (r : ReportRuntimeInventoryRequest)
    : ReportRuntimeInventoryRequest :=
  mkApiReportRuntimeInventoryRequest (flag_or p "service" (apRRIR_ServiceName r)) (flag_or p "environment" (apRRIR_Environment r))
    (flag_or p "git-commit" (apRRIR_GitCommit r)) (flag_or p "build-version" (apRRIR_BuildVersion r))
    (match modules with [] => apRRIR_Modules r | _ => modules end).
Definition report_request `{QUOTE : !Quoting} (p : Parsed) (r : ReportRuntimeInventoryRequest) : ReportRuntimeInventoryRequest + CliError :=
  match parse_module_flags (flag_values p "module") with
  | inr e => inr (exit_with 2 e)
  | inl modules =>
      let r := override p modules r in
      match validateRuntimeReportRequest r with Some text => inr (exit_with 2 (Failed text)) | None => inl r end
  end.

(** ** [governance.go]: its checks *)

Definition validSubjectType (value : string) : bool := existsb (String.eqb (TrimSpace value)) ["user"; "team"].
Definition validOwnerRole (value : string) : bool := existsb (String.eqb (TrimSpace value)) ["owner"; "maintainer"].
Definition optionalActor (p : Parsed) (name : string) : string :=
  if flagProvided p name then TrimSpace (flag_value p name "") else "".
Definition isGovernanceActorForbidden (e : ClientError) : bool :=
  match e with
  | Refused a => (apiError_StatusCode a =? 403) && Contains (apiError_Body a) "Governance actor is not allowed"
  | _ => false
  end.
Definition governanceCommandError (command : string) (actorProvided : bool) (e : ClientError) : CliError :=
  if actorProvided && isGovernanceActorForbidden e
  then FailedCall (command +:+ " failed: server rejected the provided --actor; omit --actor so the server uses the authenticated principal, or enable server actor override for migration compatibility") e
  else FailedCall (command +:+ " failed") e.

(** ** The commands *)

Section Commands.
Context `{ENVIRON : !Environ} `{QUOTE : !Quoting} `{SYS : !OS} `{HOST : !Host} `{TAR : !ArchiveWriter} `{URL : !NetURL} `{BASE : !URLBase}
  `{MW : !MultipartWriter} `{YAML_ : !YAML} {S : Type}.
Variable Do : HttpRequest -> S -> result HttpResponse * S.
Variable ConfigPath : string.

Definition Command : Type := list string -> Cmd S unit.
Definition client_ : Cmd S Client := app_client ConfigPath.
Definition printHelp (topic : string) : Cmd S unit := print (commandHelp (TrimSpace topic)).
(** The flags of a command, wherever they stand. *)
Definition parse_flags (formal : FlagSet) (boolFlags args : list string) : Cmd S Parsed :=
  clift (match Parse formal (flagsFirst args boolFlags) with inl p => inl p | inr e => inr (BadFlags e) end).
Definition require (cond : bool) (text : string) : Cmd S unit := if cond then cret tt else cfail (Failed text).
(** A command without a request for help. *)
Definition unless_help (topic : string) (k : Command) : Command := fun args =>
  if hasHelp args then printHelp topic else k args.
Definition failed (command : string) (e : ClientError) : CliError := FailedCall (command +:+ " failed") e.

Definition createModule : Command := unless_help "module create" (fun args =>
  let$ p := parse_flags (string_flags ["description"; "repository-url"]) [] args in
  let$ _ := require (NArg p =? 1) "module create requires a module name" in
  let$ client := client_ in
  let$ module := call (explained [(ApiConflict, "module " +:+ strconv_Quote (Arg p 0) +:+ " already exists")] plainly)
    (CreateModule Do client (mkApiCreateModuleRequest (Arg p 0) (flag_value p "description" "") (flag_value p "repository-url" ""))) in
  println ("Created module " +:+ apM_Name module)).

(** A flag, or else a variable of the environment. *)
Definition flag_or_env (p : Parsed) (name env : string) : string :=
  let value := TrimSpace (flag_value p name "") in if empty value then TrimSpace (os_Getenv env) else value.
Definition linkModuleGitLab : Command := unless_help "module link-gitlab" (fun args =>
  let$ p := parse_flags (string_flags ["project-id"; "project-path"; "gitlab-base-url"]) [] args in
  let$ _ := require (NArg p =? 1) "module link-gitlab requires a module name" in
  let projectID := flag_or_env p "project-id" "CI_PROJECT_ID" in
  let projectPath := flag_or_env p "project-path" "CI_PROJECT_PATH" in
  let baseURL := flag_or_env p "gitlab-base-url" "CI_SERVER_URL" in
  let$ _ := require (negb (empty projectID)) "module link-gitlab requires --project-id" in
  let$ id := match strconv_ParseInt64 projectID with
    | Some id => if id <=? 0 then cfail (Failed "module link-gitlab requires --project-id greater than zero") else cret id
    | None => cfail (Failed "module link-gitlab requires --project-id greater than zero")
    end in
  let$ _ := require (negb (empty projectPath)) "module link-gitlab requires --project-path" in
  let$ _ := require (negb (empty baseURL)) "module link-gitlab requires --gitlab-base-url" in
  let$ _ := match validateServerURL baseURL with
    | Some text => cfail (Failed ("invalid GitLab base URL: " +:+ text)) | None => cret tt end in
  let$ client := client_ in
  let$ mapping := call (explained [(ApiUnauthorized, "module link-gitlab failed: unauthorized");
                                   (ApiNotFound, "module " +:+ strconv_Quote (Arg p 0) +:+ " was not found");
                                   (ApiConflict, "GitLab project " +:+ projectPath +:+ " (" +:+ itoa id +:+ ") is already linked to another module")]
                                  (failed "module link-gitlab"))
    (LinkModuleGitLabProject Do client (Arg p 0) (mkApiLinkModuleGitLabProjectRequest baseURL id projectPath)) in
  let shown := if apMGLP_GitLabProjectID mapping =? 0 then id else apMGLP_GitLabProjectID mapping in
  println ("Linked module " +:+ first_nonempty (apMGLP_Module mapping) (Arg p 0) +:+ " to GitLab project "
           +:+ first_nonempty (apMGLP_GitLabProjectPath mapping) projectPath +:+ " (" +:+ itoa shown +:+ ")")).

Definition moduleDependencies : Command := unless_help "module dependencies" (fun args =>
  let$ p := parse_flags [] [] args in
  let$ _ := require (NArg p =? 1) "module dependencies requires a module name" in
  let$ client := client_ in
  let$ graph := call (explained [(ApiUnauthorized, "module dependencies failed: unauthorized");
                                 (ApiNotFound, "module " +:+ strconv_Quote (Arg p 0) +:+ " was not found")] (failed "module dependencies"))
    (GetModuleDependencies Do client (Arg p 0)) in
  print (printModuleDependencies graph)).

Definition moduleAffected : Command := unless_help "module affected" (fun args =>
  let$ p := parse_flags [] [] args in
  let$ _ := require (NArg p =? 1) "module affected requires a module name" in
  let$ client := client_ in
  let$ affected := call (explained [(ApiUnauthorized, "module affected failed: unauthorized");
                                    (ApiNotFound, "module " +:+ strconv_Quote (Arg p 0) +:+ " was not found")] (failed "module affected"))
    (GetAffectedModules Do client (Arg p 0)) in
  print (printAffectedModules affected)).

Definition deprecateModuleVersion : Command := unless_help "module version deprecate" (fun args =>
  let$ p := parse_flags (string_flags ["reason"]) [] args in
  let$ _ := require (NArg p =? 2) "module version deprecate requires a module name and version" in
  let$ client := client_ in
  let$ version := call (explained [(ApiUnauthorized, "module version deprecate failed: unauthorized");
                                   (ApiForbidden, "module version deprecate failed: forbidden");
                                   (ApiNotFound, "module version " +:+ Arg p 0 +:+ " " +:+ Arg p 1 +:+ " was not found")] (failed "module version deprecate"))
    (DeprecateModuleVersion Do client (Arg p 0) (Arg p 1) (mkApiDeprecateModuleVersionRequest (flag_value p "reason" ""))) in
  let deprecatedAt := match apMV_DeprecatedAt version with
                      | Some t => if t =? 0 then "" else format_seconds t | None => "" end in
  print (line ("Deprecated " +:+ Arg p 0 +:+ " " +:+ apMV_Version version) +:+ line ("Deprecated at: " +:+ deprecatedAt)
         +:+ line ("Deprecated by: " +:+ apMV_DeprecatedBy version) +:+ line ("Reason: " +:+ apMV_DeprecationReason version))).

(** A failure to list the versions of a module is not shown. *)
Fixpoint list_rows (client : Client) (modules : list Module_) : Cmd S unit :=
  match modules with
  | [] => cret tt
  | module :: rest => fun s =>
      let '(versions, remote) := ListModuleVersions Do client (apM_Name module) (sh_Remote s) in
      let latest := match versions with inl (v :: _) => apMV_Version v | _ => "" end in
      let updated := if apM_UpdatedAt module =? 0 then "" else format_seconds (apM_UpdatedAt module) in
      cbind (println (strings_Join tab [apM_Name module; latest; updated])) (fun _ => list_rows client rest)
        (mkShell (sh_Out s) (sh_FS s) remote)
  end.
Definition list_ : Command := unless_help "list" (fun args =>
  let$ _ := require (match args with [] => true | _ => false end) "list does not accept arguments" in
  let$ client := client_ in
  let$ modules := call plainly (ListModules Do client) in
  let$ _ := println (strings_Join tab ["MODULE"; "LATEST VERSION"; "UPDATED"]) in
  list_rows client modules).

(** *** Archives *)

Definition createArtifact_ (path : string) : Cmd S ArtifactPackage := on_files plain_error (createArtifact path).

Definition push : Command := unless_help "push" (fun args =>
  let$ p := parse_flags (string_flags ["version"; "path"]) [] args in
  let$ _ := require (NArg p =? 1) "push requires a module name" in
  let version := flag_value p "version" "" in
  let path := flag_value p "path" "" in
  let$ _ := require (negb (blank version)) "push requires --version" in
  let$ _ := require (negb (blank path)) "push requires --path" in
  let$ artifact := createArtifact_ path in
  let$ client := client_ in
  let$ response := call (explained [(ApiConflict, "module " +:+ Arg p 0 +:+ " version " +:+ version +:+ " already exists"); (ApiNotFound, "module " +:+ strconv_Quote (Arg p 0) +:+ " was not found")] plainly)
    (PublishModuleVersion Do client (Arg p 0) version "artifact.tar.gz" (pkg_Body artifact)) in
  print (printPublished (Arg p 0) version (pkg_ChecksumSHA256 artifact) (pkg_SizeBytes artifact) response)).

Definition pull : Command := unless_help "pull" (fun args =>
  let$ p := parse_flags (string_flags ["version"; "output"] ++ [("force", BoolFlag)])%list ["force"] args in
  let$ _ := require (NArg p =? 1) "pull requires a module name" in
  let version := flag_value p "version" "" in
  let output := flag_value p "output" "" in
  let$ _ := require (negb (blank version)) "pull requires --version" in
  let$ _ := require (negb (blank output)) "pull requires --output" in
  let$ client := client_ in
  let$ artifact := call (explained [(ApiNotFound, "artifact for " +:+ Arg p 0 +:+ " " +:+ version +:+ " was not found")] plainly)
    (DownloadArtifact Do client (Arg p 0) version) in
  let$ _ := on_files plain_error
    (extractArtifact (open_archive (download_Body artifact)) output (flag_value p "force" "false" =? "true")%string) in
  println ("Pulled " +:+ Arg p 0 +:+ " " +:+ version +:+ " to " +:+ output)).

Definition checkBreaking : Command := unless_help "check-breaking" (fun args =>
  let$ p := parse_flags (string_flags ["path"; "against"; "target-ref"; "report-file"]) [] args in
  let$ _ := require (NArg p =? 1) "check-breaking requires a module name" in
  let path := flag_value p "path" "" in
  let against := flag_value p "against" "latest" in
  let reportFile := TrimSpace (flag_value p "report-file" "") in
  let$ _ := require (negb (blank path)) "check-breaking requires --path" in
  let$ _ := require (negb (blank against)) "check-breaking requires --against" in
  let$ artifact := createArtifact_ path in
  let$ client := client_ in
  let$ report := call (explained [(ApiUnauthorized, "check-breaking failed: unauthorized");
                                  (ApiNotFound, "check-breaking failed: module or baseline was not found");
                                  (ApiConflict, "check-breaking failed: baseline is not Buf-compatible");
                                  (ApiTooLarge, "check-breaking failed: artifact too large")] (failed "check-breaking"))
    (CheckBreaking Do client (Arg p 0) (TrimSpace against) (TrimSpace (flag_value p "target-ref" "")) "source.tar.gz"
       (pkg_Body artifact)) in
  let summary := first_nonempty (TrimSpace (apBR_HumanSummary report)) (fallbackBreakingSummary report) in
  let$ _ := (if empty reportFile then cret tt
             else on_files (failed_with "write report file") (write_file reportFile (line summary))) in
  let$ _ := println summary in
  if (apBR_Status report =? "breaking")%string then cfail (ExitError 1 None) else cret tt).

(** *** Credentials and the edition *)

Definition login : Command := unless_help "login" (fun args =>
  let$ p := parse_flags (string_flags ["server"; "token"]) [] args in
  let serverURL := flag_value p "server" "" in
  let token := flag_value p "token" "" in
  let$ _ := require (negb (blank serverURL)) "login requires --server" in
  let$ _ := require (negb (blank token)) "login requires --token" in
  let$ _ := match validateServerURL serverURL with Some text => cfail (Failed text) | None => cret tt end in
  let$ cfg := load_config ConfigPath in
  let$ _ := call (failed "login") (CheckAuth Do (NewClient serverURL token)) in
  let$ path := clift (from_result (configPath ConfigPath)) in
  let$ _ := on_files plain_error (Save path (mkCliConfig serverURL token (cli_HTTPTimeout cfg))) in
  println ("Logged in to " +:+ TrimRight serverURL "/")).

Definition edition : Cmd S unit :=
  let$ client := rewrap (exit_with 2) client_ in
  let$ response := call (fun e => exit_with 2 (failed "edition" e)) (GetEdition Do client) in
  print (printEdition response).

Definition version : Cmd S unit :=
  print (line ("version: " +:+ Edition.build_Version Edition.Info) +:+ line ("commit: " +:+ Edition.build_Commit Edition.Info)
         +:+ line ("build_date: " +:+ Edition.build_BuildDate Edition.Info)).

(** *** Governance *)

Definition moduleOwnersList : Command := unless_help "module owners list" (fun args =>
  let$ p := parse_flags [] [] args in
  let$ _ := require (NArg p =? 1) "module owners list requires a module name" in
  let$ client := client_ in
  let$ response := call (failed "module owners list") (ListModuleOwners Do client (Arg p 0)) in
  print (printModuleOwners response)).

Definition governance_error (command : string) (p : Parsed) : ClientError -> CliError :=
  governanceCommandError command (flagProvided p "actor").
Definition moduleOwnersAdd : Command := unless_help "module owners add" (fun args =>
  let$ p := parse_flags (string_flags ["subject-type"; "subject"; "role"; "actor"]) [] args in
  let subjectType := flag_value p "subject-type" "" in
  let subject := flag_value p "subject" "" in
  let role := flag_value p "role" "" in
  let$ _ := require (NArg p =? 1) "module owners add requires a module name" in
  let$ _ := require (validSubjectType subjectType) "module owners add requires --subject-type user|team" in
  let$ _ := require (negb (blank subject)) "module owners add requires --subject" in
  let$ _ := require (validOwnerRole role) "module owners add requires --role owner|maintainer" in
  let$ client := client_ in
  let$ owner := call (governance_error "module owners add" p)
    (AddModuleOwner Do client (Arg p 0)
       (mkApiAddModuleOwnerRequest (TrimSpace subjectType) (TrimSpace subject) (TrimSpace role) (optionalActor p "actor"))) in
  println ("Added " +:+ apMO_SubjectType owner +:+ " " +:+ apMO_Subject owner +:+ " as " +:+ apMO_Role owner +:+ " for "
           +:+ apMO_ModuleName owner +:+ " (owner_id=" +:+ apMO_ID owner +:+ ")")).
Definition moduleOwnersRemove : Command := unless_help "module owners remove" (fun args =>
  let$ p := parse_flags (string_flags ["owner-id"; "actor"]) [] args in
  let ownerID := TrimSpace (flag_value p "owner-id" "") in
  let$ _ := require (NArg p =? 1) "module owners remove requires a module name" in
  let$ _ := require (negb (empty ownerID)) "module owners remove requires --owner-id" in
  let$ client := client_ in
  let$ _ := call (governance_error "module owners remove" p) (RemoveModuleOwner Do client (Arg p 0) ownerID (optionalActor p "actor")) in
  println ("Removed owner " +:+ ownerID +:+ " from " +:+ Arg p 0)).

Definition approvalsRequest : Command := unless_help "approvals request" (fun args =>
  let$ p := parse_flags (string_flags ["report-id"; "actor"]) [] args in
  let reportID := TrimSpace (flag_value p "report-id" "") in
  let$ _ := require (negb (empty reportID)) "approvals request requires --report-id" in
  let$ client := client_ in
  let$ request := call (governance_error "approvals request" p)
    (CreateApprovalRequest Do client reportID (mkApiCreateApprovalRequestRequest (optionalActor p "actor"))) in
  print (printApprovalRequest request)).
Definition approvalsStatus : Command := unless_help "approvals status" (fun args =>
  let$ p := parse_flags (string_flags ["report-id"]) [] args in
  let reportID := TrimSpace (flag_value p "report-id" "") in
  let$ _ := require (negb (empty reportID)) "approvals status requires --report-id" in
  let$ client := client_ in
  let$ request := call (failed "approvals status") (GetApprovalStatus Do client reportID) in
  print (printApprovalRequest request)).
Definition approvalsDecide (approve : bool) : Command :=
  let command := if approve then "approvals approve" else "approvals reject" in
  unless_help command (fun args =>
  let$ p := parse_flags (string_flags ["request-id"; "actor"; "comment"]) [] args in
  let requestID := TrimSpace (flag_value p "request-id" "") in
  let$ _ := require (NArg p =? 1) (command +:+ " requires a requirement id") in
  let$ _ := require (negb (empty requestID)) (command +:+ " requires --request-id") in
  let$ client := client_ in
  let input := mkApiApprovalDecisionRequest (optionalActor p "actor") (TrimSpace (flag_value p "comment" "")) in
  let$ request := call (governance_error command p)
    (if approve then ApproveRequirement Do client requestID (Arg p 0) input
     else RejectRequirement Do client requestID (Arg p 0) input) in
  print (printApprovalRequest request)).

(** *** Runtime reports *)

Definition runtimeReportRequest (path : string) : Cmd S ReportRuntimeInventoryRequest :=
  if blank path then cret request_empty else
  let$ body := on_files (failed_with "read runtime report file") (os_Open (parse (TrimSpace path))) in
  match yaml_Unmarshal body with
  | (file, true) => cret (file_request file)
  | (file, false) =>
      match Unmarshal decode_report_file body file with
      | Some file => cret (file_request file)
      | None => cfail (FailedWith "parse runtime report file" (EExternal "json"))
      end
  end.
Definition runtimeReport : Command := unless_help "runtime report" (fun args =>
  let$ p := parse_flags (string_flags ["service"; "environment"; "git-commit"; "build-version"; "from-file"; "module"]) [] args in
  let$ _ := require (NArg p =? 0) "runtime report does not accept positional arguments" in
  let$ request := rewrap (exit_with 2) (runtimeReportRequest (flag_value p "from-file" "")) in
  let$ request := clift (report_request p (applyRuntimeReportDefaults request)) in
  let$ client := rewrap (exit_with 2) client_ in
  let$ response := call (fun e => exit_with 2 (explained [(ApiUnauthorized, "runtime report failed: unauthorized")]
                                                  (failed "runtime report") e)) (ReportRuntimeInventory Do client request) in
  print (printRuntimeReport response)).

(** *** [App.Run] *)

(** A command with subcommands. *)
Definition subcommands (topic missing : string) (commands : list (string * Command)) : Command := fun args =>
  match args with
  | [] => cfail (Failed missing)
  | arg :: rest =>
      if isHelp arg then printHelp topic else
      match List.find (fun c => (c.1 =? arg)%string) commands with
      | Some (_, command) => command rest
      | None => cfail (Failed ("unknown " +:+ topic +:+ " subcommand " +:+ strconv_Quote arg))
      end
  end.

Definition moduleVersion : Command :=
  subcommands "module version" "module version requires a subcommand" [("deprecate", deprecateModuleVersion)].
Definition moduleOwners : Command :=
  subcommands "module owners" "module owners requires a subcommand"
    [("list", moduleOwnersList); ("add", moduleOwnersAdd); ("remove", moduleOwnersRemove)].
Definition module : Command :=
  subcommands "module" "module requires a subcommand"
    [("create", createModule); ("list", list_); ("link-gitlab", linkModuleGitLab); ("dependencies", moduleDependencies);
     ("affected", moduleAffected); ("owners", moduleOwners); ("version", moduleVersion)].
Definition approvals : Command :=
  subcommands "approvals" "approvals requires a subcommand"
    [("request", approvalsRequest); ("status", approvalsStatus); ("approve", approvalsDecide true);
     ("reject", approvalsDecide false)].
Definition runtime : Command := subcommands "runtime" "runtime requires a subcommand" [("report", runtimeReport)].

Definition usage : string := "usage: protoradar <login|version|module|push|check-breaking|gitlab|pull|list|runtime|approvals>".

(** [mrCheck] is the command [gitlab mr-check]. *)
Variable mrCheck : Command.
Definition gitlab : Command := subcommands "gitlab" "gitlab requires a subcommand" [("mr-check", mrCheck)].
Definition app_commands : list (string * Command) :=
  [("help", fun args => printHelp (match args with [] => "root" | _ => strings_Join " " args end));
   ("login", login); ("version", fun _ => version); ("edition", fun _ => edition); ("module", module); ("push", push);
   ("check-breaking", checkBreaking); ("gitlab", gitlab); ("pull", pull); ("list", list_); ("runtime", runtime);
   ("approvals", approvals)].
Definition Run : Command := fun args =>
  match args with
  | [] => cfail (Failed usage)
  | arg :: rest =>
      if isHelp arg then printHelp "root" else
      match List.find (fun c => (c.1 =? arg)%string) app_commands with
      | Some (_, command) => command rest
      | None => cfail (Failed ("unknown command " +:+ strconv_Quote arg))
      end
  end.
End Commands.
