(* ===== verification/GitLabApi.v ===== *)
(** * The client of the GitLab API

    [infrastructure/gitlabapi/client.go]: its requests, and what it makes of the
    answers. The transport is a parameter, as for the API client of the registry. *)

From S2P Require Import Prelude Errors GoStrings JsonScan Domain Json Effects JsonDecode Rfc3339 Archive Urls GitLabReport HttpServer ApiTypes ApiClient.

Open Scope string_scope.
Open Scope Z_scope.

Record GitLabRequest := mkGitLabRequest {
  gl_Method : string;
  gl_Path : list string;
  gl_PrivateToken : string;                  (* empty when the header is not set *)
  gl_ContentType : string;
  gl_Body : string }.
Record GitLabResponse := mkGitLabResponse {
  gl_StatusCode : Z;
  gl_Status : string;
  gl_ResponseBody : string }.

Inductive GitLabErrorKind := GitLabUnauthorized | GitLabForbidden | GitLabNotFound | GitLabServer.
Record GitLabError := mkGitLabError { glerr_StatusCode : Z; glerr_Status : string; glerr_Body : string }.
Definition GitLabError_Error (err : GitLabError) : string :=
  if (glerr_Body err =? "")%string then "gitlab returned " +:+ glerr_Status err
  else "gitlab returned " +:+ glerr_Status err +:+ ": " +:+ glerr_Body err.
Definition GitLabError_Unwrap (err : GitLabError) : option GitLabErrorKind :=
  let code := glerr_StatusCode err in
  if code =? StatusUnauthorized then Some GitLabUnauthorized else
  if code =? StatusForbidden then Some GitLabForbidden else
  if code =? StatusNotFound then Some GitLabNotFound else
  if 500 <=? code then Some GitLabServer else None.

Record GitLabApiClient := mkGitLabApiClient { gl_baseURL : string; gl_token : string }.
Definition NewGitLabClient (baseURL token : string) : GitLabApiClient := mkGitLabApiClient (TrimRight baseURL "/") token.

(** ** The types of the answers *)

Record MergeRequest := mkMergeRequest {
  mr_ProjectID : Z; mr_IID : Z; mr_Title : string; mr_SourceBranch : string; mr_TargetBranch : string;
  mr_WebURL : string; mr_SHA : string }.
Definition MergeRequest_zero : MergeRequest := mkMergeRequest 0 0 "" "" "" "" "".
Definition eta_MergeRequest (r : MergeRequest) : MergeRequest :=
  mkMergeRequest (mr_ProjectID r) (mr_IID r) (mr_Title r) (mr_SourceBranch r) (mr_TargetBranch r) (mr_WebURL r) (mr_SHA r).
Definition decode_mergeRequest : decoder MergeRequest := decode_struct false
  [json_field "project_id" eta_MergeRequest mr_ProjectID decode_int64; json_field "iid" eta_MergeRequest mr_IID decode_int64;
   json_field "title" eta_MergeRequest mr_Title decode_string;
   json_field "source_branch" eta_MergeRequest mr_SourceBranch decode_string;
   json_field "target_branch" eta_MergeRequest mr_TargetBranch decode_string;
   json_field "web_url" eta_MergeRequest mr_WebURL decode_string; json_field "sha" eta_MergeRequest mr_SHA decode_string].
(** [toIntegration]: the project is the one that was asked for, when the answer does
    not name it. *)
Definition mergeRequest_toIntegration (fallbackProjectID : Z) (r : MergeRequest) : MergeRequest :=
  mkMergeRequest (if mr_ProjectID r =? 0 then fallbackProjectID else mr_ProjectID r) (mr_IID r) (mr_Title r)
    (mr_SourceBranch r) (mr_TargetBranch r) (mr_WebURL r) (mr_SHA r).

Definition author_zero : MergeRequestNoteAuthor := mkMergeRequestNoteAuthor "" "".
Definition eta_author (r : MergeRequestNoteAuthor) : MergeRequestNoteAuthor :=
  mkMergeRequestNoteAuthor (author_Username r) (author_Name r).
Definition note_zero : MergeRequestNote := mkMergeRequestNote 0 "" 0 0 author_zero.
Definition eta_note (r : MergeRequestNote) : MergeRequestNote :=
  mkMergeRequestNote (note_ID r) (note_Body r) (note_CreatedAt r) (note_UpdatedAt r) (note_Author r).
Definition decode_note : decoder MergeRequestNote := decode_struct false
  [json_field "id" eta_note note_ID decode_int64; json_field "body" eta_note note_Body decode_string;
   json_field "created_at" eta_note note_CreatedAt decode_time; json_field "updated_at" eta_note note_UpdatedAt decode_time;
   json_field "author" eta_note note_Author (decode_struct false
     [json_field "username" eta_author author_Username decode_string;
      json_field "name" eta_author author_Name decode_string])].

(** ** [url.Values.Encode]: in the order of the keys *)

Definition encode_value (v : string * string) : string := QueryEscape v.1 +:+ "=" +:+ QueryEscape v.2.
Definition encode_values (values : list (string * string)) : string := strings_Join "&" (map encode_value values).

Section GitLabCalls.
Context `{BASE : !URLBase} {S : Type}.
Variable Do : GitLabRequest -> S -> result GitLabResponse * S.
Variable client : GitLabApiClient.

Definition mergeRequestPath (projectID mergeRequestIID : Z) : string :=
  "/api/v4/projects/" +:+ itoa projectID +:+ "/merge_requests/" +:+ itoa mergeRequestIID.

Definition gitlab_responseError (res : GitLabResponse) : GitLabError :=
  let text := TrimSpace (readLimitedResponseBody (gl_ResponseBody res)) in
  let text := if (gl_token client =? "")%string then text else ReplaceAll text (gl_token client) "[redacted]" in
  mkGitLabError (gl_StatusCode res) (gl_Status res) text.

Definition gitlab_send {T} (method path contentType body : string) (d : decoder T) (zero : T) : M S T := fun s =>
  match JoinPath (gl_baseURL client) path with
  | None => (Err (EExternal "parse"), s)
  | Some segments =>
      match Do (mkGitLabRequest method segments (gl_token client) contentType body) s with
      | (Err err, s') => (Err (EWrap (EText "gitlab request failed") err), s')
      | (Ok res, s') =>
          (if (gl_StatusCode res <? 200) || (300 <=? gl_StatusCode res)
           then Err (EText (GitLabError_Error (gitlab_responseError res)))
           else match decode_text None d (gl_ResponseBody res) zero with
                | inl t => Ok t
                | inr _ => Err (EWrap (EText "gitlab invalid json") (EExternal "json"))
                end, s')
      end
  end.

Definition GetMergeRequest (projectID mergeRequestIID : Z) : M S MergeRequest :=
  let! response := gitlab_send "GET" (mergeRequestPath projectID mergeRequestIID) "" "" decode_mergeRequest MergeRequest_zero in
  ret (mergeRequest_toIntegration projectID response).

Definition ListMergeRequestNotes (projectID mergeRequestIID : Z) : M S (list MergeRequestNote) :=
  let! response := gitlab_send "GET" (mergeRequestPath projectID mergeRequestIID +:+ "/notes") "" ""
                     (decode_slice note_zero decode_note) nil_slice in
  ret (slice_items response).

(** The body of [json.Encoder.Encode]. *)
Definition note_request (body : string) : result string :=
  let? text := Marshal (JObject [("body", JString body)]) in Ok (text +:+ String (byte_char 10) "").
Definition CreateMergeRequestNote (projectID mergeRequestIID : Z) (body : string) : M S MergeRequestNote :=
  let! text := lift (note_request body) in
  gitlab_send "POST" (mergeRequestPath projectID mergeRequestIID +:+ "/notes") "application/json" text decode_note note_zero.
Definition UpdateMergeRequestNote (projectID mergeRequestIID noteID : Z) (body : string) : M S MergeRequestNote :=
  let! text := lift (note_request body) in
  gitlab_send "PUT" (mergeRequestPath projectID mergeRequestIID +:+ "/notes/" +:+ itoa noteID) "application/json" text
    decode_note note_zero.

Definition set_when (key value : string) : list (string * string) :=
  if (TrimSpace value =? "")%string then [] else [(key, value)].
Definition SetCommitStatus (projectID : Z) (sha : string) (status : CommitStatus) : M S unit :=
  let params := (set_when "description" (cs_Description status) ++ set_when "name" (cs_Name status)
                 ++ [("state", cs_State status)] ++ set_when "target_url" (cs_TargetURL status))%list in
  gitlab_send "POST" ("/api/v4/projects/" +:+ itoa projectID +:+ "/statuses/" +:+ TrimSpace sha)
    "application/x-www-form-urlencoded" (encode_values params) (decode_struct false []) tt.
End GitLabCalls.
