(* ===== verification/MrCommand.v ===== *)
(** * The check of a merge request on the command line

    [cli/gitlab_mr.go]: the flags and the variables of the job make the input of the
    runner, the API client and that of GitLab are its clients, and its verdict is the
    exit code. *)

From S2P Require Import Prelude Errors GoStrings JsonScan Domain Json Effects JsonDecode Archive Urls Storage Registry Packing WebViews HttpServer ApiTypes ApiClient Flags Shell CliHelp CliOutput Commands.
From S2P Require GitLabReport MergeRequestCheck GitLabApi.

Open Scope string_scope.
Open Scope Z_scope.

Import (notations) Shell.

Module mrcheck := MergeRequestCheck.mrcheck.

(** ** The clients of the runner *)

(** The text of an error of a call; that of the status is not kept. *)
Definition as_error (e : ClientError) : error :=
  match e with
  | NotRequested => EExternal "request"
  | NotAnswered err => EWrap (EText "request failed") err
  | Refused a =>
      EText ("server returned " +:+ itoa (apiError_StatusCode a)
             +:+ (if empty (apiError_Body a) then "" else ": " +:+ apiError_Body a))
  | Unreadable => EExternal "json"
  end.

Definition breaking_change (change : BreakingChange) : mrcheck.BreakingChange :=
  mrcheck.mkBreakingChange (apBC_Category change) (apBC_FilePath change) (apBC_PackageName change) (apBC_Symbol change)
    (apBC_RuleID change) (apBC_Message change) (apBC_Severity change).
Definition breaking_report (report : BreakingReport) : mrcheck.BreakingReport :=
  mrcheck.mkBreakingReport (apBR_ID report) (apBR_Module report) (apBR_Against report) (apBR_TargetRef report)
    (apBR_Status report) (apBR_ChangeCount report) (map breaking_change (slice_items (apBR_Changes report)))
    (apBR_HumanSummary report) (apBR_CreatedAt report).
Definition affected_module (item : DependencyModule) : mrcheck.AffectedModule :=
  mrcheck.mkAffectedModule (apDM_Module item) (apDM_LatestVersion item) (slice_items (apDM_DependencySources item))
    (slice_items (apDM_Reasons item)).
Definition runtime_impact (item : RuntimeImpact) : mrcheck.RuntimeImpact :=
  mrcheck.mkRuntimeImpact (apRI_ServiceName item) (apRI_Environment item) (apRI_UsedModule item) (apRI_UsedVersion item)
    (apRI_BuildVersion item) (apRI_GitCommit item) (apRI_DriftStatus item) (apRI_DriftReason item).
Definition governanceStatusFromAPI (request : ApprovalRequest) : mrcheck.GovernanceStatus :=
  mrcheck.mkGovernanceStatus (apAR_ID request) (apAR_Status request)
    (map (fun r => mrcheck.mkGovernanceRequirement (apARx_RequirementType r) (apARx_TargetModuleName r) (apARx_Status r)
                     (apARx_Reason r)) (slice_items (apAR_Requirements request)))
    (map (fun d => mrcheck.mkGovernanceDecision (apAD_Decision d) (apAD_DecidedBy d) (apAD_Comment d))
       (slice_items (apAR_Decisions request)))
    (apAR_RequiredApprovals request) (apAR_ReceivedApprovals request).

Section Adapters.
Context `{BASE : !URLBase} `{MW : !MultipartWriter} {S : Type}.
Variable Do : HttpRequest -> S -> result HttpResponse * S.
Variable DoGitLab : GitLabApi.GitLabRequest -> S -> result GitLabApi.GitLabResponse * S.

Definition remote {A} (c : Call S A) : M (Shell S) A := fun s =>
  let '(r, w) := c (sh_Remote s) in
  (match r with inl a => Ok a | inr e => Err (as_error e) end, mkShell (sh_Out s) (sh_FS s) w).
Definition on_gitlab {A} (m : M S A) : M (Shell S) A := fun s =>
  let '(r, w) := m (sh_Remote s) in (r, mkShell (sh_Out s) (sh_FS s) w).
Definition mapped {A B} (f : A -> B) (m : M (Shell S) A) : M (Shell S) B := let! a := m in ret (f a).

Definition approval_status (client : Client) (reportID : string) : M (Shell S) mrcheck.GovernanceStatus := fun s =>
  let '(r, w) := GetApprovalStatus Do client reportID (sh_Remote s) in
  (match r with
   | inl request => Ok (governanceStatusFromAPI request)
   | inr e => Err (if is_api ApiNotFound e then EGovernanceNotFound else as_error e)
   end, mkShell (sh_Out s) (sh_FS s) w).
Definition governance_client (client : Client) : MergeRequestCheck.GovernanceClient (Shell S) :=
  MergeRequestCheck.mkGovernanceClient (approval_status client)
    (fun reportID actor => mapped governanceStatusFromAPI
       (remote (CreateApprovalRequest Do client reportID (mkApiCreateApprovalRequestRequest (TrimSpace actor))))).
Definition gitlab_client (client : GitLabApi.GitLabApiClient) : MergeRequestCheck.GitLabClient (Shell S) :=
  MergeRequestCheck.mkGitLabClient
    (fun project iid => on_gitlab (GitLabApi.ListMergeRequestNotes DoGitLab client project iid))
    (fun project iid body => on_gitlab (GitLabApi.CreateMergeRequestNote DoGitLab client project iid body))
    (fun project iid note body => on_gitlab (GitLabApi.UpdateMergeRequestNote DoGitLab client project iid note body))
    (fun project sha status => on_gitlab (GitLabApi.SetCommitStatus DoGitLab client project sha status)).
Definition mr_runner (client : Client) (baseURL token : string) : MergeRequestCheck.Runner (Shell S) :=
  MergeRequestCheck.mkRunner
    (Some (fun module against targetRef artifactName artifact =>
       mapped breaking_report (remote (CheckBreaking Do client module against targetRef artifactName artifact))))
    (Some (fun module => mapped (fun a => map affected_module (slice_items (apAM_AffectedModules a)))
       (remote (GetAffectedModules Do client module))))
    (Some (fun reportID => mapped (fun i => map runtime_impact (slice_items (apBRRI_Impacts i)))
       (remote (GetBreakingReportRuntimeImpact Do client reportID))))
    (Some (governance_client client)) (Some (gitlab_client (GitLabApi.NewGitLabClient baseURL token))).
End Adapters.

(** ** The input *)

Record gitLabMRCheckValues := mkMRCheckValues {
  val_Module : string; val_Path : string; val_Against : string; val_TargetRef : string; val_GitLabBaseURL : string;
  val_ProjectID : string; val_MergeRequestIID : string; val_CommitSHA : string; val_GitLabToken : string;
  val_StatusEnabled : bool; val_StatusName : string; val_StatusTargetURL : string }.
Record gitLabMRCheckInput := mkMRCheckInput {
  inp_Module : string; inp_Path : string; inp_Against : string; inp_TargetRef : string; inp_GitLabBaseURL : string;
  inp_ProjectID : Z; inp_MergeRequestIID : Z; inp_CommitSHA : string; inp_GitLabToken : string;
  inp_StatusEnabled : bool; inp_StatusName : string; inp_StatusTargetURL : string }.

Definition parsePositiveInt64 (value name : string) : result Z :=
  let refused := Err (EText ("gitlab mr-check requires " +:+ name +:+ " greater than zero")) in
  match strconv_ParseInt64 (TrimSpace value) with Some z => if z <=? 0 then refused else Ok z | None => refused end.
Definition required (value name : string) : result unit :=
  if blank value then Err (EText ("gitlab mr-check requires " +:+ name)) else Ok tt.

Definition resolveGitLabMRCheckInput `{URL : !NetURL} (v : gitLabMRCheckValues) : result gitLabMRCheckInput :=
  let? _ := required (val_Module v) "--module" in
  let? _ := required (val_Path v) "--path" in
  let? _ := required (val_Against v) "--against" in
  let? _ := required (val_GitLabBaseURL v) "--gitlab-base-url" in
  let? _ := match validateServerURL (TrimSpace (val_GitLabBaseURL v)) with
    | Some text => Err (EText ("invalid GitLab base URL: " +:+ text)) | None => Ok tt end in
  let? _ := required (val_ProjectID v) "--project-id" in
  let? projectID := parsePositiveInt64 (val_ProjectID v) "--project-id" in
  let? _ := required (val_MergeRequestIID v) "--merge-request-iid" in
  let? mergeRequestIID := parsePositiveInt64 (val_MergeRequestIID v) "--merge-request-iid" in
  let? _ := required (val_CommitSHA v) "--commit-sha" in
  let? _ := required (val_GitLabToken v) "--gitlab-token, PROTORADAR_GITLAB_TOKEN, or GITLAB_TOKEN" in
  Ok (mkMRCheckInput (TrimSpace (val_Module v)) (TrimSpace (val_Path v)) (TrimSpace (val_Against v))
        (first_nonempty (TrimSpace (val_TargetRef v)) (TrimSpace (val_CommitSHA v))) (TrimSpace (val_GitLabBaseURL v))
        projectID mergeRequestIID (TrimSpace (val_CommitSHA v)) (TrimSpace (val_GitLabToken v)) (val_StatusEnabled v)
        (first_nonempty (TrimSpace (val_StatusName v)) MergeRequestCheck.DefaultStatusName) (TrimSpace (val_StatusTargetURL v))).

(** ** The command *)

Definition mr_flags : FlagSet :=
  (string_flags ["module"; "path"; "against"; "target-ref"; "gitlab-base-url"; "project-id"; "merge-request-iid";
                 "commit-sha"; "gitlab-token"; "status-name"; "status-target-url"; "report-file"; "governance-actor"]
   ++ [("status", BoolFlag); ("governance", BoolFlag)])%list.

Section MrCheck.
Context `{ENVIRON : !Environ} `{QUOTE : !Quoting} `{SYS : !OS} `{HOST : !Host} `{TAR : !ArchiveWriter} `{URL : !NetURL} `{BASE : !URLBase}
  `{MW : !MultipartWriter} `{UC : !Unicode} {S : Type}.
Variable Do : HttpRequest -> S -> result HttpResponse * S.
Variable DoGitLab : GitLabApi.GitLabRequest -> S -> result GitLabApi.GitLabResponse * S.
Variable ConfigPath : string.

Definition envDefault (name fallback : string) : string :=
  let value := TrimSpace (os_Getenv name) in if empty value then fallback else value.
Definition gitLabTokenEnvDefault : string :=
  first_nonempty (envDefault "PROTORADAR_GITLAB_TOKEN" "") (envDefault "GITLAB_TOKEN" "").

Definition mr_values (p : Parsed) : gitLabMRCheckValues :=
  mkMRCheckValues (flag_value p "module" (envDefault "PROTORADAR_MODULE" ""))
    (flag_value p "path" (envDefault "PROTORADAR_PROTO_PATH" "."))
    (flag_value p "against" (envDefault "PROTORADAR_AGAINST" "latest"))
    (flag_value p "target-ref" (envDefault "CI_COMMIT_SHA" ""))
    (flag_value p "gitlab-base-url" (envDefault "CI_SERVER_URL" "")) (flag_value p "project-id" (envDefault "CI_PROJECT_ID" ""))
    (flag_value p "merge-request-iid" (envDefault "CI_MERGE_REQUEST_IID" ""))
    (flag_value p "commit-sha" (envDefault "CI_COMMIT_SHA" "")) (flag_value p "gitlab-token" gitLabTokenEnvDefault)
    (flag_value p "status" "true" =? "true")%string (flag_value p "status-name" MergeRequestCheck.DefaultStatusName)
    (flag_value p "status-target-url" (envDefault "CI_JOB_URL" "")).

Definition mr_input (p : Parsed) (input : gitLabMRCheckInput) (artifact : ArtifactPackage) : MergeRequestCheck.Input :=
  MergeRequestCheck.mkInput (inp_Module input) (inp_Against input) (inp_TargetRef input) "source.tar.gz" (pkg_Body artifact)
    (inp_ProjectID input) (inp_MergeRequestIID input) (inp_CommitSHA input) (inp_StatusEnabled input) (inp_StatusName input)
    (inp_StatusTargetURL input) 0 (flag_value p "governance" "false" =? "true")%string (optionalActor p "governance-actor").

Definition run_check (runner : MergeRequestCheck.Runner (Shell S)) (input : MergeRequestCheck.Input)
    : Cmd S (MergeRequestCheck.Result * option error) := fun s =>
  match MergeRequestCheck.Run runner input s with (Ok r, s') => (inl r, s') | (Err e, s') => (inr (plain_error e), s') end.

Definition conclude (module : string) (result : MergeRequestCheck.Result) (runErr : option error) : Cmd S unit :=
  match runErr with
  | Some err => cfail (ExitError MergeRequestCheck.ExitCodeError (Some (plain_error err)))
  | None =>
      let$ _ := print (writeMRCheckResult module result) in
      let code := MergeRequestCheck.res_ExitCode result in
      if code =? MergeRequestCheck.ExitCodeBreaking then cfail (ExitError MergeRequestCheck.ExitCodeBreaking None) else
      if code =? MergeRequestCheck.ExitCodeError
      then cfail (ExitError MergeRequestCheck.ExitCodeError (Some (Failed "gitlab mr-check failed"))) else cret tt
  end.

Definition gitlabMRCheck : Command (S := S) := unless_help "gitlab mr-check" (fun args =>
  let$ p := parse_flags mr_flags ["status"] args in
  let$ _ := require (NArg p =? 0) "gitlab mr-check does not accept positional arguments" in
  let$ input := clift (from_result (resolveGitLabMRCheckInput (mr_values p))) in
  let$ artifact := createArtifact_ (inp_Path input) in
  let$ client := client_ ConfigPath in
  let$ (result, runErr) := run_check (mr_runner Do DoGitLab client (inp_GitLabBaseURL input) (inp_GitLabToken input))
                             (mr_input p input artifact) in
  let reportFile := TrimSpace (flag_value p "report-file" "") in
  let markdown := MergeRequestCheck.res_Markdown result in
  let$ _ := (if empty reportFile || blank markdown then cret tt
             else rewrap (exit_with MergeRequestCheck.ExitCodeError)
                    (on_files (failed_with "write report file") (write_file reportFile (line markdown)))) in
  conclude (inp_Module input) result runErr).
End MrCheck.
