(* ===== verification/CliVerdict.v ===== *)
(** * The exit codes of the commands

    What the process of [cmd/protoradar/main.go] tells its caller: a command fails
    with the exit code 2; 1 is the verdict of [check-breaking] and of
    [gitlab mr-check], and only theirs. *)

From S2P Require Import Prelude Errors GoStrings JsonScan Domain Json Effects JsonDecode Archive Urls Storage Registry Packing WebViews HttpServer ApiTypes ApiClient Flags Shell CliHelp CliOutput Commands MrCommand.
From S2P Require GitLabReport MergeRequestCheck GitLabApi.

Open Scope string_scope.
Open Scope Z_scope.

Import (notations) Shell.

(** ** Commands that only fail with the exit code 2 *)

Definition fails_with_2 (e : CliError) : Prop := exit_code (A := unit) (inr e) = 2.
Definition plain {S A} (m : Cmd S A) : Prop := forall s e s', m s = (inr e, s') -> fails_with_2 e.
(** Two is what a part of a command ends with, unless it goes on. *)
Definition went_on {S A B} (m : Cmd S A) (k : A -> Cmd S B) (s : Shell S) (r : B + CliError) (s' : Shell S) : Prop :=
  exit_code r = 2 \/ exists a s1, m s = (inl a, s1) /\ k a s1 = (r, s').

Create HintDb cli.

Section Plain.
Context {S : Type}.

Lemma went_on_bind {A B} (m : Cmd S A) (k : A -> Cmd S B) s r s' :
  plain m -> cbind m k s = (r, s') -> went_on m k s r s'.
Proof.
  intros Hm H. unfold cbind in H. destruct (m s) as [[a|e] s1] eqn:E; [right; by exists a, s1|].
  left. injection H as <- <-. exact (Hm s e s1 E).
Qed.
Lemma plain_cbind {A B} (m : Cmd S A) (k : A -> Cmd S B) : plain m -> (forall a, plain (k a)) -> plain (cbind m k).
Proof. intros Hm Hk s e s' [H|(a & s1 & _ & H)]%went_on_bind; [done|by eapply Hk|done]. Qed.
Lemma plain_cret {A} (a : A) : plain (S := S) (cret a).
Proof. by intros s e s' [=]. Qed.
Lemma plain_fail {A} e : fails_with_2 e -> plain (S := S) (A := A) (cfail e).
Proof. by intros H s e' s' [= <- _]. Qed.
Lemma plain_lift {A} (r : A + CliError) : (forall e, r = inr e -> fails_with_2 e) -> plain (S := S) (clift r).
Proof. intros H s e s' [= ? _]. by apply H. Qed.
Lemma plain_print text : plain (S := S) (print text).
Proof. by intros s e s' [=]. Qed.
Lemma plain_files {A} wrap (m : M FS A) : (forall e, fails_with_2 (wrap e)) -> plain (S := S) (on_files wrap m).
Proof. intros H s e s'. unfold on_files. destruct (m (sh_FS s)) as [[a|x] fs]; intros [=]. by subst e. Qed.
Lemma plain_remote_call {A} wrap (c : Call S A) : (forall e, fails_with_2 (wrap e)) -> plain (call wrap c).
Proof. intros H s e s'. unfold call. destruct (c (sh_Remote s)) as [[a|x] w]; intros [=]. by subst e. Qed.
Lemma plain_rewrap {A} (m : Cmd S A) : plain (rewrap (exit_with 2) m).
Proof. intros s e s'. unfold rewrap. destruct (m s) as [[a|x] s1]; intros [=]. by subst e. Qed.
Lemma plain_if {A} (b : bool) (m1 m2 : Cmd S A) : plain m1 -> plain m2 -> plain (if b then m1 else m2).
Proof. by destruct b. Qed.

Lemma explained_2 texts otherwise : (forall e, fails_with_2 (otherwise e)) -> forall e, fails_with_2 (explained texts otherwise e).
Proof. intros H e. unfold explained. by destruct (List.find _ texts) as [[]|]. Qed.
Lemma plain_result {A} (r : result A) : plain (S := S) (clift (from_result r)).
Proof. apply plain_lift. intros err. destruct r; by intros [= <-]. Qed.
Lemma governance_2 command p e : fails_with_2 (governance_error command p e).
Proof. unfold governance_error, governanceCommandError. by destruct (_ && _). Qed.
End Plain.

#[export] Hint Resolve plain_cbind plain_cret plain_fail plain_print plain_files plain_remote_call plain_rewrap plain_if
  explained_2 plain_result governance_2 plain_lift : cli.
#[export] Hint Extern 1 (fails_with_2 _) => reflexivity : cli.

(** The steps of a command one after the other. *)
Ltac plain_steps := repeat first
  [ solve [auto with cli nocore]
  | apply plain_cbind; [|intros ?]
  | progress (unfold println, printHelp, require)
  | match goal with
    | |- plain (match ?x with _ => _ end) => destruct x
    | |- forall _, _ => intros ?
    end ].
(** The parts of a command that goes on. *)
Ltac go_on H := apply went_on_bind in H as [H|(?a & ?s1 & ?Hm & H)].

Section Commands.
Context `{ENVIRON : !Environ} `{QUOTE : !Quoting} `{SYS : !OS} `{HOST : !Host} `{TAR : !ArchiveWriter} `{URL : !NetURL}
  `{BASE : !URLBase} `{MW : !MultipartWriter} `{YAML_ : !YAML} {S : Type}.
Variable Do : HttpRequest -> S -> result HttpResponse * S.
Variable ConfigPath : string.

Lemma plain_client : plain (S := S) (client_ ConfigPath).
Proof.
  unfold client_, app_client, load_config. plain_steps. apply plain_lift. intros e. unfold newAPIClientFromConfig.
  destruct (String.eqb _ _); [by intros [= <-]|]. destruct (String.eqb _ _); [by intros [= <-]|].
  destruct (validateServerURL _); by intros [= <-].
Qed.
Lemma plain_load : plain (S := S) (load_config ConfigPath).
Proof. unfold load_config. plain_steps. Qed.
Lemma plain_flags formal boolFlags args : plain (S := S) (parse_flags formal boolFlags args).
Proof. apply plain_lift. intros e. destruct (Parse _ _); by intros [= <-]. Qed.
Lemma plain_archive path : plain (S := S) (createArtifact_ path).
Proof. apply plain_files. done. Qed.
Lemma plain_unless_help topic (k : Command) args : plain (k args) -> plain (S := S) (unless_help topic k args).
Proof. intros H. unfold unless_help. destruct (hasHelp args); [apply plain_print|done]. Qed.
Lemma plain_subcommands topic missing (commands : list (string * Command)) args :
  (forall c, c ∈ commands -> forall args, plain (c.2 args)) -> plain (S := S) (subcommands topic missing commands args).
Proof.
  intros H. unfold subcommands. destruct args as [|arg rest]; [by apply plain_fail|].
  destruct (isHelp arg); [apply plain_print|].
  destruct (List.find _ commands) as [[name command]|] eqn:E; [|by apply plain_fail].
  apply find_some in E as [Hc _]. rewrite <- list_elem_of_In in Hc. exact (H _ Hc rest).
Qed.
End Commands.
#[export] Hint Resolve plain_client plain_load plain_flags plain_archive : cli.

(** ** The verdict of a check *)

Section Verdicts.
Context `{ENVIRON : !Environ} `{QUOTE : !Quoting} `{SYS : !OS} `{HOST : !Host} `{TAR : !ArchiveWriter} `{URL : !NetURL}
  `{BASE : !URLBase} `{MW : !MultipartWriter} `{YAML_ : !YAML} `{UC : !Unicode} {S : Type}.
Variable Do : HttpRequest -> S -> result HttpResponse * S.
Variable DoGitLab : GitLabApi.GitLabRequest -> S -> result GitLabApi.GitLabResponse * S.
Variable ConfigPath : string.

Ltac plain_command f := unfold f; apply plain_unless_help; plain_steps.

Lemma plain_rows client modules : plain (list_rows Do client modules).
Proof.
  induction modules as [|module rest IH]; [apply plain_cret|]. intros s e s'. cbn [list_rows].
  destruct (ListModuleVersions Do client (apM_Name module) (sh_Remote s)) as [versions w].
  apply plain_cbind; [apply plain_print|done].
Qed.
Lemma plain_createModule args : plain (createModule Do ConfigPath args). Proof. plain_command (@createModule). Qed.
Lemma plain_list args : plain (list_ Do ConfigPath args).
Proof. plain_command (@list_). apply plain_rows. Qed.
Lemma plain_link args : plain (linkModuleGitLab Do ConfigPath args). Proof. plain_command (@linkModuleGitLab). Qed.
Lemma plain_dependencies args : plain (moduleDependencies Do ConfigPath args). Proof. plain_command (@moduleDependencies). Qed.
Lemma plain_affected args : plain (moduleAffected Do ConfigPath args). Proof. plain_command (@moduleAffected). Qed.
Lemma plain_deprecate args : plain (deprecateModuleVersion Do ConfigPath args). Proof. plain_command (@deprecateModuleVersion). Qed.
Lemma plain_push args : plain (push Do ConfigPath args). Proof. plain_command (@push). Qed.
Lemma plain_pull args : plain (pull Do ConfigPath args). Proof. plain_command (@pull). Qed.
Lemma plain_login args : plain (login Do ConfigPath args). Proof. plain_command (@login). Qed.
Lemma plain_edition : plain (edition Do ConfigPath). Proof. unfold edition. plain_steps. Qed.
Lemma plain_owners_list args : plain (moduleOwnersList Do ConfigPath args). Proof. plain_command (@moduleOwnersList). Qed.
Lemma plain_owners_add args : plain (moduleOwnersAdd Do ConfigPath args). Proof. plain_command (@moduleOwnersAdd). Qed.
Lemma plain_owners_remove args : plain (moduleOwnersRemove Do ConfigPath args). Proof. plain_command (@moduleOwnersRemove). Qed.
Lemma plain_request args : plain (approvalsRequest Do ConfigPath args). Proof. plain_command (@approvalsRequest). Qed.
Lemma plain_status args : plain (approvalsStatus Do ConfigPath args). Proof. plain_command (@approvalsStatus). Qed.
Lemma plain_decide approve args : plain (approvalsDecide Do ConfigPath approve args). Proof. plain_command (@approvalsDecide). Qed.
Lemma plain_report_request p request : plain (S := S) (clift (report_request p request)).
Proof.
  apply plain_lift. intros err. unfold report_request. destruct (parse_module_flags _) as [modules|e']; [|by intros [= <-]].
  cbv zeta. destruct (validateRuntimeReportRequest _); by intros [= <-].
Qed.
Lemma plain_report args : plain (runtimeReport Do ConfigPath args).
Proof. plain_command (@runtimeReport). apply plain_report_request. Qed.

(** *** The two checks *)

(** [check-breaking] compared what is in the directory of [--path] with the baseline
    of [--against]. *)
Definition breaking_checked (args : list string) (s s' : Shell S) (breaking : bool) : Prop :=
  exists p client pkg fs report,
    Parse (string_flags ["path"; "against"; "target-ref"; "report-file"]) (flagsFirst args []) = inl p
    /\ createArtifact (flag_value p "path" "") (sh_FS s) = (Ok pkg, fs)
    /\ CheckBreaking Do client (Arg p 0) (TrimSpace (flag_value p "against" "latest")) (TrimSpace (flag_value p "target-ref" ""))
         "source.tar.gz" (pkg_Body pkg) (sh_Remote s) = (inl report, sh_Remote s')
    /\ (apBR_Status report =? "breaking")%string = breaking.

(** [gitlab mr-check] ran its check, and accepts the merge request or not. *)
Definition merge_checked (args : list string) (s s' : Shell S) (accepted : bool) : Prop :=
  exists p input pkg fs client res s1 s2,
    Parse mr_flags (flagsFirst args ["status"]) = inl p
    /\ resolveGitLabMRCheckInput (mr_values p) = Ok input
    /\ createArtifact (inp_Path input) (sh_FS s) = (Ok pkg, fs)
    /\ let runner := mr_runner Do DoGitLab client (inp_GitLabBaseURL input) (inp_GitLabToken input) in
       MergeRequestCheck.Run runner (mr_input p input pkg) s1 = (Ok (res, None), s2)
       /\ sh_Remote s1 = sh_Remote s /\ sh_Remote s2 = sh_Remote s'
       /\ exists report governance w0 w1 w2 w3,
           MergeRequestCheck.check_breaking runner (mr_input p input pkg) w0 = (Ok report, w1)
           /\ MergeRequestCheck.fetchGovernanceStatus runner (mr_input p input pkg) report w2 = (Ok governance, w3)
           /\ MergeRequestCheck.accepted (mr_input p input pkg) report governance = accepted.

Lemma parse_flags_Ok formal boolFlags args (s s1 : Shell S) p : parse_flags formal boolFlags args s = (inl p, s1) ->
  Parse formal (flagsFirst args boolFlags) = inl p /\ s1 = s.
Proof. unfold parse_flags, clift. destruct (Parse _ _); by intros [= -> ->]. Qed.
Lemma require_Ok cond text (s s1 : Shell S) u : require cond text s = (inl u, s1) -> s1 = s.
Proof. unfold require. destruct cond; by intros [= _ ->]. Qed.
Lemma on_files_Ok {A} wrap (m : M FS A) (s s1 : Shell S) a : on_files wrap m s = (inl a, s1) ->
  exists fs, m (sh_FS s) = (Ok a, fs) /\ sh_Remote s1 = sh_Remote s.
Proof. unfold on_files. destruct (m (sh_FS s)) as [[b|e] fs]; intros [=]; subst. by exists fs. Qed.
Lemma call_Ok {A} wrap (c : Call S A) (s s1 : Shell S) a : call wrap c s = (inl a, s1) ->
  c (sh_Remote s) = (inl a, sh_Remote s1).
Proof. unfold call. destruct (c (sh_Remote s)) as [[b|e] w]; intros [=]; by subst. Qed.
Lemma bind_remote {A B} (m : Cmd S A) (k : A -> Cmd S B) :
  (forall s, sh_Remote (m s).2 = sh_Remote s) -> (forall a s, sh_Remote (k a s).2 = sh_Remote s) ->
  forall s, sh_Remote (cbind m k s).2 = sh_Remote s.
Proof. intros Hm Hk s. unfold cbind. specialize (Hm s). destruct (m s) as [[a|e] s1]; [|done]. by rewrite Hk. Qed.
Lemma client_remote s : sh_Remote (client_ (S := S) ConfigPath s).2 = sh_Remote s.
Proof.
  revert s. unfold client_, app_client, load_config. repeat (apply bind_remote; [|intros ?]); intros s; try done.
  unfold on_files. by destruct (Load a (sh_FS s)).
Qed.
Lemma client_Ok s s1 client : client_ (S := S) ConfigPath s = (inl client, s1) -> sh_Remote s1 = sh_Remote s.
Proof. intros E. by rewrite <- (client_remote s), E. Qed.

Lemma checkBreaking_verdict args s r s' : hasHelp args = false -> checkBreaking Do ConfigPath args s = (r, s') ->
  exit_code r = 2 \/ exists breaking, breaking_checked args s s' breaking /\ exit_code r = (if breaking then 1 else 0).
Proof.
  intros Hh H. unfold checkBreaking, unless_help in H. rewrite Hh in H.
  apply went_on_bind in H as [H|(p & s1 & [Hp ->]%parse_flags_Ok & H)]; [by left| |auto with cli].
  do 3 (apply went_on_bind in H as [H|([] & s1 & ->%require_Ok & H)]; [by left| |plain_steps]).
  apply went_on_bind in H as [H|(pkg & s1 & (fs & Hpkg & R1)%on_files_Ok & H)]; [by left| |auto with cli].
  apply went_on_bind in H as [H|(client & s2 & R2%client_Ok & H)]; [by left| |auto with cli].
  apply went_on_bind in H as [H|(report & s3 & Hc%call_Ok & H)]; [by left| |plain_steps].
  cbv zeta in H. apply went_on_bind in H as [H|([] & s4 & Hw & H)]; [by left| |plain_steps].
  assert (R4 : sh_Remote s4 = sh_Remote s3).
  { destruct (empty _); [by injection Hw as ->|]. by apply on_files_Ok in Hw as (? & _ & ?). }
  cbv [cbind println print] in H. right. exists (apBR_Status report =? "breaking")%string.
  split; [|by destruct (_ =? _)%string; injection H as <- _].
  exists p, client, pkg, fs, report. split_and!; [done..| |done]. rewrite <- R1, <- R2, Hc, <- R4.
  by destruct (_ =? _)%string; injection H as _ <-.
Qed.

Lemma conclude_verdict module result runErr (s s' : Shell S) r : conclude module result runErr s = (r, s') ->
  sh_Remote s' = sh_Remote s
  /\ (exit_code r = 2
      \/ runErr = None /\ (MergeRequestCheck.res_ExitCode result = MergeRequestCheck.ExitCodeBreaking /\ exit_code r = 1
                          \/ MergeRequestCheck.res_ExitCode result <> MergeRequestCheck.ExitCodeBreaking /\ exit_code r = 0)).
Proof.
  unfold conclude. destruct runErr as [err|]; [intros [= <- <-]; by split; [|left]|]. cbv [cbind print].
  destruct (Z.eqb_spec (MergeRequestCheck.res_ExitCode result) MergeRequestCheck.ExitCodeBreaking) as [E|E];
    [intros [= <- <-]; split; [done|right; by split; [|left]]|].
  destruct (_ =? _); intros [= <- <-]; (split; [done|]); [by left|right; by split; [|right]].
Qed.

Lemma mrCheck_verdict args s r s' : hasHelp args = false -> gitlabMRCheck Do DoGitLab ConfigPath args s = (r, s') ->
  exit_code r = 2 \/ exists accepted, merge_checked args s s' accepted /\ exit_code r = (if accepted then 0 else 1).
Proof.
  intros Hh H. unfold gitlabMRCheck, unless_help in H. rewrite Hh in H.
  apply went_on_bind in H as [H|(p & s1 & [Hp ->]%parse_flags_Ok & H)]; [by left| |auto with cli].
  apply went_on_bind in H as [H|([] & s1 & ->%require_Ok & H)]; [by left| |plain_steps].
  apply went_on_bind in H as [H|(input & s1 & Hi & H)]; [by left| |auto with cli].
  assert (resolveGitLabMRCheckInput (mr_values p) = Ok input /\ s1 = s) as [Hin ->].
  { unfold clift, from_result in Hi. destruct (resolveGitLabMRCheckInput _); [by injection Hi as -> ->|done]. }
  apply went_on_bind in H as [H|(pkg & s1 & (fs & Hpkg & R1)%on_files_Ok & H)]; [by left| |auto with cli].
  apply went_on_bind in H as [H|(client & s2 & R2%client_Ok & H)]; [by left| |auto with cli].
  apply went_on_bind in H as [H|([result runErr] & s3 & HR & H)]; [by left| |].
  2: { intros x e y. unfold run_check. destruct (MergeRequestCheck.Run _ _ _) as [[a|e'] z]; [done|].
     intros [= <-]. reflexivity. }
  apply went_on_bind in H as [H|([] & s4 & Hw & H)]; [by left| |plain_steps].
  assert (R4 : sh_Remote s4 = sh_Remote s3).
  { destruct (_ || _); [by injection Hw as <-|]. unfold rewrap, on_files in Hw.
    destruct (write_file _ _ (sh_FS s3)) as [[u|e] fs']; [by injection Hw as _ <-|done]. }
  apply conclude_verdict in H as [R5 [H|[-> H]]]; [by left|right].
  unfold run_check in HR.
  destruct (MergeRequestCheck.Run (mr_runner Do DoGitLab client (inp_GitLabBaseURL input) (inp_GitLabToken input))
    (mr_input p input pkg) s2) as [[[res err]|e] s5] eqn:E; [|done]. injection HR as -> -> ->.
  destruct (MergeRequestCheck.Run_reported _ _ _ _ _ E) as (report & governance & w0 & w1 & w2 & w3 & Hc & Hg & Hcode).
  exists (MergeRequestCheck.accepted (mr_input p input pkg) report governance). split.
  - exists p, input, pkg, fs, client, result, s2, s3. split_and!; [done..|]. split; [exact E|].
    split; [congruence|]. split; [congruence|]. by exists report, governance, w0, w1, w2, w3.
  - rewrite Hcode in H. destruct (MergeRequestCheck.accepted _ _ _); destruct H as [[H1 H2]|[H1 H2]]; done.
Qed.

Lemma plain_exit {A} (m : Cmd S A) s : plain m -> exit_code (m s).1 = 0 \/ exit_code (m s).1 = 2.
Proof. intros H. destruct (m s) as [[a|e] s'] eqn:E; [by left|right; exact (H _ _ _ E)]. Qed.

(** *** The other commands *)

Ltac each_command := intros c Hc ?; repeat (apply elem_of_cons in Hc as [->|Hc]; [cbn [snd]|]); [..|by apply elem_of_nil in Hc].

Lemma plain_module args : plain (module Do ConfigPath args).
Proof.
  apply plain_subcommands. each_command; [apply plain_createModule|apply plain_list|apply plain_link|apply plain_dependencies
    |apply plain_affected| |]; apply plain_subcommands; each_command;
    [apply plain_owners_list|apply plain_owners_add|apply plain_owners_remove|apply plain_deprecate].
Qed.
Lemma plain_approvals args : plain (approvals Do ConfigPath args).
Proof.
  apply plain_subcommands. each_command; [apply plain_request|apply plain_status|apply plain_decide..].
Qed.
Lemma plain_runtime args : plain (runtime Do ConfigPath args).
Proof. apply plain_subcommands. each_command. apply plain_report. Qed.

Definition cli_Run : Command := Run Do ConfigPath (gitlabMRCheck Do DoGitLab ConfigPath).

(** [protoradar help] takes a topic and shows the help of the root. *)
Lemma help_ignores_its_topic topics s : cli_Run ("help" :: topics) s = cli_Run ["help"] s.
Proof. reflexivity. Qed.

(** A command that is not one of the two checks. *)
Definition checks (args : list string) : bool :=
  match args with
  | command :: rest =>
      (command =? "check-breaking")%string && negb (hasHelp rest)
      || (command =? "gitlab")%string && match rest with
                                         | sub :: rest' => (sub =? "mr-check")%string && negb (hasHelp rest')
                                         | [] => false
                                         end
  | [] => false
  end.

Lemma checks_inv args : checks args = true ->
  (exists rest, args = "check-breaking" :: rest) \/ exists rest, args = "gitlab" :: "mr-check" :: rest.
Proof.
  destruct args as [|command rest]; [done|]. cbn [checks]. rewrite orb_true_iff, !andb_true_iff, !String.eqb_eq.
  intros [[-> _]|[-> H]]; [by left; exists rest|right]. destruct rest as [|sub rest]; [done|].
  apply andb_true_iff in H as [->%String.eqb_eq _]. by exists rest.
Qed.
Lemma exit_code_0 (r : unit + CliError) : exit_code r = 0 <-> r = inl tt.
Proof.
  destruct r as [[]|e]; [done|]. split; [|done]. destruct e as [| | | |code err]; try done. cbn. by destruct (Z.eqb_spec code 0).
Qed.

Lemma plain_other args s : checks args = false -> exit_code (cli_Run args s).1 = 0 \/ exit_code (cli_Run args s).1 = 2.
Proof.
  intros Hc. unfold cli_Run, Run. destruct args as [|arg rest]; [by right|].
  destruct (isHelp arg); [apply plain_exit, plain_print|].
  destruct (List.find _ _) as [[name command]|] eqn:E; [|by right].
  apply find_some in E as [Hin Hname]. apply String.eqb_eq in Hname. cbn [fst] in Hname. subst name.
  unfold app_commands in Hin. rewrite <- list_elem_of_In in Hin.
  repeat (apply elem_of_cons in Hin as [[= -> ->]|Hin]).
  all: try by apply elem_of_nil in Hin.
  all: try (apply plain_exit; first [apply plain_print|apply plain_login|apply plain_edition|apply plain_module|apply plain_push
    |apply plain_pull|apply plain_list|apply plain_runtime|apply plain_approvals]).
  - apply plain_exit. unfold checkBreaking, unless_help. cbn in Hc. rewrite orb_false_r in Hc. apply negb_false_iff in Hc.
    rewrite Hc. apply plain_print.
  - apply plain_exit. unfold gitlab, subcommands. destruct rest as [|sub rest]; [by apply plain_fail|].
    destruct (isHelp sub); [apply plain_print|]. cbn [List.find fst]. rewrite String.eqb_sym.
    destruct (String.eqb_spec sub "mr-check") as [->|]; [|by apply plain_fail]. cbn in Hc. apply negb_false_iff in Hc.
    unfold gitlabMRCheck, unless_help. rewrite Hc. apply plain_print.
Qed.

(** C20: the exit code is the verdict. A command exits with 0 exactly when it has no
    error and with 1 or 2 otherwise, and only the two checks ever exit with 1. Unless
    it fails with 2, [check-breaking] compared what it packed from the directory of
    [--path] with the baseline of [--against], and exits with 1 exactly when the
    report is breaking; [gitlab mr-check] made its check and exits with 1 exactly
    when the merge request is not accepted. *)
Theorem exit_codes_are_verdicts (args : list string) (s : Shell S) :
  let '(r, s') := cli_Run args s in
  (exit_code r = 0 <-> r = inl tt)
  /\ (exit_code r = 0 \/ exit_code r = 2 \/ exit_code r = 1 /\ checks args = true)
  /\ (forall rest, args = "check-breaking" :: rest -> checks args = true ->
      exit_code r = 2 \/ exists breaking, breaking_checked rest s s' breaking /\ exit_code r = (if breaking then 1 else 0))
  /\ (forall rest, args = "gitlab" :: "mr-check" :: rest -> checks args = true ->
      exit_code r = 2 \/ exists accepted, merge_checked rest s s' accepted /\ exit_code r = (if accepted then 0 else 1)).
Proof.
  destruct (cli_Run args s) as [r s'] eqn:E. split; [apply exit_code_0|].
  assert (H1 : forall rest, args = "check-breaking" :: rest -> checks args = true ->
      exit_code r = 2 \/ exists breaking, breaking_checked rest s s' breaking /\ exit_code r = (if breaking then 1 else 0)).
  { intros rest -> Hc. cbn in Hc. rewrite orb_false_r in Hc. apply negb_true_iff in Hc. by apply checkBreaking_verdict. }
  assert (H2 : forall rest, args = "gitlab" :: "mr-check" :: rest -> checks args = true ->
      exit_code r = 2 \/ exists accepted, merge_checked rest s s' accepted /\ exit_code r = (if accepted then 0 else 1)).
  { intros rest -> Hc. cbn in Hc. apply negb_true_iff in Hc. by apply mrCheck_verdict. }
  split; [|by split].
  destruct (checks args) eqn:Hc; [|pose proof (plain_other args s Hc) as H; rewrite E in H; destruct H; auto].
  destruct (checks_inv args Hc) as [(rest & ->)|(rest & ->)].
  - destruct (H1 rest eq_refl eq_refl) as [H|([] & _ & H)]; auto.
  - destruct (H2 rest eq_refl eq_refl) as [H|([] & _ & H)]; auto.
Qed.
End Verdicts.
