(* ===== verification/Observability.v ===== *)
(** * What the server counts and logs

    [transport/http/observability.go]: the identifiers of requests, the log of the
    requests, the metrics and their text. They are added around the routes of
    [HttpServer] and change nothing of what these do.

    Floating-point numbers are a parameter. The counts of publications, checks and
    reports are operations here; that the handlers call them is not modelled. *)

From S2P Require Import Prelude Errors GoStrings Edition JsonScan Domain Json Effects Postgres Outbox Events Tables World GovernanceStore UseCase CatalogStore DependencyStore AuditLog Identity Policy Approval Archive Storage Registry RegistrySafety RegistryOperations GitLabLink HttpDto HttpServer Packing Flags Shell CliOutput.

Open Scope string_scope.
Open Scope Z_scope.

(** [float64], its addition and [%g], and the seconds of a duration. *)
Class Float64 := {
  float64 : Type;
  float_zero : float64;
  float_add : float64 -> float64 -> float64;
  float_g : float64 -> string;
  Duration_Seconds : Z -> float64 }.

(** ** [Metrics] *)

Record labelKey := mkLabelKey { label_Method : string; label_Route : string; label_Status : string }.
#[global] Instance labelKey_eq_dec : EqDecision labelKey.
Proof. solve_decision. Defined.
#[global] Program Instance labelKey_countable : Countable labelKey :=
  inj_countable' (fun k => (label_Method k, label_Route k, label_Status k)) (fun '(m, r, s) => mkLabelKey m r s) _.
Next Obligation. by intros []. Qed.

Section Metrics.
Context `{FLOAT : !Float64} `{QUOTE : !Quoting}.

Record durationMetric := mkDurationMetric { duration_Count : Z; duration_Sum : float64 }.
Definition no_duration : durationMetric := mkDurationMetric 0 float_zero.

Record Metrics := mkMetrics {
  met_inFlight : Z;
  met_httpRequests : gmap labelKey Z;
  met_httpDuration : gmap labelKey durationMetric;
  met_publishTotal : gmap string Z;
  met_publishDuration : durationMetric;
  met_breakingChecksTotal : gmap string Z;
  met_breakingCheckDuration : durationMetric;
  met_runtimeReportsTotal : gmap string Z;
  met_artifactStreamErrorsTotal : Z;
  met_outboxClaimedTotal : Z;
  met_outboxDispatchTotal : gmap string Z;
  met_outboxDispatchDuration : durationMetric;
  met_outboxErrorsTotal : gmap string Z;
  met_outboxPendingTotal : Z;
  met_outboxProcessingTotal : Z;
  met_outboxFailedTotal : Z;
  met_outboxDeadTotal : Z;
  met_dependencyEdgesTotal : Z;
  met_unresolvedDependencyTotal : Z }.
Definition eta_Metrics (m : Metrics) : Metrics :=
  mkMetrics (met_inFlight m) (met_httpRequests m) (met_httpDuration m) (met_publishTotal m) (met_publishDuration m)
    (met_breakingChecksTotal m) (met_breakingCheckDuration m) (met_runtimeReportsTotal m) (met_artifactStreamErrorsTotal m)
    (met_outboxClaimedTotal m) (met_outboxDispatchTotal m) (met_outboxDispatchDuration m) (met_outboxErrorsTotal m)
    (met_outboxPendingTotal m) (met_outboxProcessingTotal m) (met_outboxFailedTotal m) (met_outboxDeadTotal m)
    (met_dependencyEdgesTotal m) (met_unresolvedDependencyTotal m).
Definition set_inFlight : Z -> Metrics -> Metrics := ltac:(setter eta_Metrics met_inFlight).
Definition set_httpRequests : gmap labelKey Z -> Metrics -> Metrics := ltac:(setter eta_Metrics met_httpRequests).
Definition set_httpDuration : gmap labelKey durationMetric -> Metrics -> Metrics := ltac:(setter eta_Metrics met_httpDuration).
Definition set_publishTotal : gmap string Z -> Metrics -> Metrics := ltac:(setter eta_Metrics met_publishTotal).
Definition set_publishDuration : durationMetric -> Metrics -> Metrics := ltac:(setter eta_Metrics met_publishDuration).
Definition set_breakingChecksTotal : gmap string Z -> Metrics -> Metrics := ltac:(setter eta_Metrics met_breakingChecksTotal).
Definition set_breakingCheckDuration : durationMetric -> Metrics -> Metrics :=
  ltac:(setter eta_Metrics met_breakingCheckDuration).
Definition set_runtimeReportsTotal : gmap string Z -> Metrics -> Metrics := ltac:(setter eta_Metrics met_runtimeReportsTotal).
Definition set_artifactStreamErrorsTotal : Z -> Metrics -> Metrics := ltac:(setter eta_Metrics met_artifactStreamErrorsTotal).
Definition set_outboxClaimedTotal : Z -> Metrics -> Metrics := ltac:(setter eta_Metrics met_outboxClaimedTotal).
Definition set_outboxDispatchTotal : gmap string Z -> Metrics -> Metrics := ltac:(setter eta_Metrics met_outboxDispatchTotal).
Definition set_outboxDispatchDuration : durationMetric -> Metrics -> Metrics :=
  ltac:(setter eta_Metrics met_outboxDispatchDuration).
Definition set_outboxErrorsTotal : gmap string Z -> Metrics -> Metrics := ltac:(setter eta_Metrics met_outboxErrorsTotal).
Definition set_outboxPendingTotal : Z -> Metrics -> Metrics := ltac:(setter eta_Metrics met_outboxPendingTotal).
Definition set_outboxProcessingTotal : Z -> Metrics -> Metrics := ltac:(setter eta_Metrics met_outboxProcessingTotal).
Definition set_outboxFailedTotal : Z -> Metrics -> Metrics := ltac:(setter eta_Metrics met_outboxFailedTotal).
Definition set_outboxDeadTotal : Z -> Metrics -> Metrics := ltac:(setter eta_Metrics met_outboxDeadTotal).
Definition set_dependencyEdgesTotal : Z -> Metrics -> Metrics := ltac:(setter eta_Metrics met_dependencyEdgesTotal).
Definition set_unresolvedDependencyTotal : Z -> Metrics -> Metrics := ltac:(setter eta_Metrics met_unresolvedDependencyTotal).

Definition NewMetrics : Metrics :=
  mkMetrics 0 ∅ ∅ ∅ no_duration ∅ no_duration ∅ 0 0 ∅ no_duration ∅ 0 0 0 0 0 0.

(** [uint64]. *)
Definition u64 (n : Z) : Z := n mod 2 ^ 64.
(** [counts[key]++], and what is counted with its duration. *)
Definition increment `{Countable K} (key : K) (counts : gmap K Z) : gmap K Z :=
  <[key := u64 (default 0 (counts !! key) + 1)]> counts.
Definition observe (d : durationMetric) (seconds : float64) : durationMetric :=
  mkDurationMetric (u64 (duration_Count d + 1)) (float_add (duration_Sum d) seconds).

Definition IncInFlight (m : Metrics) : Metrics := set_inFlight (wrap64 (met_inFlight m + 1)) m.
Definition DecInFlight (m : Metrics) : Metrics := set_inFlight (wrap64 (met_inFlight m - 1)) m.

Definition RecordHTTPRequest (method route status : string) (seconds : float64) (m : Metrics) : Metrics :=
  let key := mkLabelKey method route status in
  let m := set_httpRequests (increment key (met_httpRequests m)) m in
  set_httpDuration (<[key := observe (default no_duration (met_httpDuration m !! key)) seconds]> (met_httpDuration m)) m.
Definition RecordPublish (status : string) (seconds : float64) (m : Metrics) : Metrics :=
  set_publishDuration (observe (met_publishDuration m) seconds) (set_publishTotal (increment status (met_publishTotal m)) m).
Definition RecordBreakingCheck (status : string) (seconds : float64) (m : Metrics) : Metrics :=
  set_breakingCheckDuration (observe (met_breakingCheckDuration m) seconds)
    (set_breakingChecksTotal (increment status (met_breakingChecksTotal m)) m).
Definition RecordRuntimeReport (status : string) (m : Metrics) : Metrics :=
  set_runtimeReportsTotal (increment status (met_runtimeReportsTotal m)) m.
Definition RecordArtifactStreamError (m : Metrics) : Metrics :=
  set_artifactStreamErrorsTotal (u64 (met_artifactStreamErrorsTotal m + 1)) m.
Definition SetDependencyTotals (edges unresolved : Z) (m : Metrics) : Metrics :=
  set_unresolvedDependencyTotal unresolved (set_dependencyEdgesTotal edges m).

(** The observer of the publisher of the outbox. *)
Definition RecordClaimed (count : Z) (m : Metrics) : Metrics :=
  if count <=? 0 then m else set_outboxClaimedTotal (u64 (met_outboxClaimedTotal m + count)) m.
Definition RecordDispatch (status : string) (duration : Z) (m : Metrics) : Metrics :=
  set_outboxDispatchDuration (observe (met_outboxDispatchDuration m) (Duration_Seconds duration))
    (set_outboxDispatchTotal (increment status (met_outboxDispatchTotal m)) m).
Definition RecordError (status : string) (m : Metrics) : Metrics :=
  set_outboxErrorsTotal (increment status (met_outboxErrorsTotal m)) m.
Definition SetOutboxStats (pending processing failed dead : Z) (m : Metrics) : Metrics :=
  set_outboxDeadTotal dead (set_outboxFailedTotal failed (set_outboxProcessingTotal processing (set_outboxPendingTotal pending m))).

(** ** [WritePrometheus] *)

Definition label_le (x y : labelKey) : bool :=
  if negb (label_Method x =? label_Method y)%string then String.leb (label_Method x) (label_Method y) else
  if negb (label_Route x =? label_Route y)%string then String.leb (label_Route x) (label_Route y)
  else String.leb (label_Status x) (label_Status y).
Definition sortedLabelKeys {A} (values : gmap labelKey A) : list labelKey := sort_by label_le (map_to_list values).*1.

Definition heading (name help kind : string) : string :=
  line ("# HELP " +:+ name +:+ " " +:+ help) +:+ line ("# TYPE " +:+ name +:+ " " +:+ kind).
Definition labels (key : labelKey) : string :=
  "{method=" +:+ strconv_Quote (label_Method key) +:+ ",route=" +:+ strconv_Quote (label_Route key)
  +:+ ",status=" +:+ strconv_Quote (label_Status key) +:+ "} ".
Definition request_lines (m : Metrics) : string :=
  concat (map (fun key => line ("protoradar_http_requests_total" +:+ labels key
                                +:+ itoa (default 0 (met_httpRequests m !! key)))) (sortedLabelKeys (met_httpRequests m))).
Definition duration_lines (m : Metrics) : string :=
  concat (map (fun key =>
    let duration := default no_duration (met_httpDuration m !! key) in
    line ("protoradar_http_request_duration_seconds_sum" +:+ labels key +:+ float_g (duration_Sum duration))
    +:+ line ("protoradar_http_request_duration_seconds_count" +:+ labels key +:+ itoa (duration_Count duration)))
    (sortedLabelKeys (met_httpDuration m))).
Definition writeStatusCounters (name help : string) (values : gmap string Z) : string :=
  heading name help "counter"
  +:+ concat (map (fun status => line (name +:+ "{status=" +:+ strconv_Quote status +:+ "} "
                                       +:+ itoa (default 0 (values !! status)))) (sort_Strings (map_to_list values).*1)).
Definition writeDuration (name help : string) (value : durationMetric) : string :=
  heading name help "summary" +:+ line (name +:+ "_sum " +:+ float_g (duration_Sum value))
  +:+ line (name +:+ "_count " +:+ itoa (duration_Count value)).
Definition write_single (name help kind : string) (value : Z) : string :=
  heading name help kind +:+ line (name +:+ " " +:+ itoa value).
Definition writeGauge (name help : string) (value : Z) : string := write_single name help "gauge" value.

Definition WritePrometheus (m : Metrics) : string :=
  heading "protoradar_http_requests_total" "Total HTTP requests." "counter" +:+ request_lines m
  +:+ heading "protoradar_http_request_duration_seconds" "HTTP request duration in seconds." "summary" +:+ duration_lines m
  +:+ writeGauge "protoradar_http_in_flight_requests" "Current in-flight HTTP requests." (met_inFlight m)
  +:+ writeStatusCounters "protoradar_publish_total" "Total publish requests." (met_publishTotal m)
  +:+ writeDuration "protoradar_publish_duration_seconds" "Publish duration in seconds." (met_publishDuration m)
  +:+ writeStatusCounters "protoradar_breaking_checks_total" "Total breaking-check requests." (met_breakingChecksTotal m)
  +:+ writeDuration "protoradar_breaking_check_duration_seconds" "Breaking-check duration in seconds."
        (met_breakingCheckDuration m)
  +:+ writeStatusCounters "protoradar_runtime_reports_total" "Total runtime inventory report requests."
        (met_runtimeReportsTotal m)
  +:+ write_single "protoradar_artifact_stream_errors_total"
        "Total artifact download stream copy errors after response headers were written." "counter"
        (met_artifactStreamErrorsTotal m)
  +:+ write_single "protoradar_outbox_claimed_total" "Total outbox records claimed." "counter" (met_outboxClaimedTotal m)
  +:+ writeStatusCounters "protoradar_outbox_dispatch_total" "Total outbox dispatch attempts." (met_outboxDispatchTotal m)
  +:+ writeDuration "protoradar_outbox_dispatch_duration_seconds" "Outbox dispatch duration in seconds."
        (met_outboxDispatchDuration m)
  +:+ writeStatusCounters "protoradar_outbox_errors_total" "Total outbox publisher errors." (met_outboxErrorsTotal m)
  +:+ writeGauge "protoradar_outbox_pending_total" "Current pending outbox records." (met_outboxPendingTotal m)
  +:+ writeGauge "protoradar_outbox_processing_total" "Current processing outbox records." (met_outboxProcessingTotal m)
  +:+ writeGauge "protoradar_outbox_failed_total" "Current failed outbox records." (met_outboxFailedTotal m)
  +:+ writeGauge "protoradar_outbox_dead_total" "Current dead outbox records." (met_outboxDeadTotal m)
  +:+ writeGauge "protoradar_dependency_edges_total" "Latest observed dependency edge count." (met_dependencyEdgesTotal m)
  +:+ writeGauge "protoradar_unresolved_dependencies_total" "Latest observed unresolved dependency count."
        (met_unresolvedDependencyTotal m).
End Metrics.

(** ** The logger *)

Inductive LogLevel := LevelDebug | LevelInfo | LevelWarn | LevelError.
Inductive LogFormat := JSONHandler | TextHandler.
Definition NewLogger (level format : string) : result (LogLevel * LogFormat) :=
  let level := TrimSpace level in
  let format := TrimSpace format in
  let among (text : string) (choices : list string) := existsb (String.eqb text) choices in
  let? slogLevel :=
    (if among level ["debug"] then Ok LevelDebug else if among level [""; "info"] then Ok LevelInfo else
     if among level ["warn"] then Ok LevelWarn else if among level ["error"] then Ok LevelError
     else Err (EText "log.level must be one of debug, info, warn, error")) in
  if among format [""; "json"] then Ok (slogLevel, JSONHandler) else
  if among format ["text"] then Ok (slogLevel, TextHandler) else Err (EText "log.format must be one of json, text").

(** A line [http_request] of the log. *)
Record RequestLine := mkRequestLine {
  line_Method : string; line_Route : string; line_Status : Z; line_DurationMicros : Z; line_RequestID : string;
  line_RemoteAddr : string }.

(** ** Identifiers of requests *)

Definition hex_digit (n : Z) : ascii := ascii_of_nat (Z.to_nat (if n <? 10 then 48 + n else 87 + n)).
Fixpoint hex_EncodeToString (s : string) : string :=
  match s with
  | String a s' => String (hex_digit (byte a / 16)) (String (hex_digit (byte a mod 16)) (hex_EncodeToString s'))
  | "" => ""
  end.
(** [strconv.FormatInt(n, 36)]: the digits of a 64-bit integer, at most 13. *)
Fixpoint base36 (fuel : nat) (n : Z) (rest : string) : string :=
  let rest := String (hex_digit (n mod 36)) rest in
  match fuel with
  | S fuel' => if n / 36 =? 0 then rest else base36 fuel' (n / 36) rest
  | O => rest
  end.
Definition FormatInt36 (n : Z) : string := if n <? 0 then "-" +:+ base36 64 (- n) "" else base36 64 n "".

(** What the random source gives, and the clock in nanoseconds. *)
Definition newRequestID (random : option string) (nanos : Z) : string :=
  match random with Some bytes => hex_EncodeToString bytes | None => FormatInt36 nanos end.

(** ** The middleware *)

Section Middleware.
Context `{PG : !Postgres} `{ENV : !Env} `{CR : !Crypto} `{SYS : !OS} `{STORE : !ArtifactStore} `{HOST : !Host}.
Context `{URL : !NetURL} `{MR : !MultipartReader} `{POL : !PolicyEvaluator} `{AUD : !AuditSink World}
  `{PRO : !ApprovalProviders World} `{FLOAT : !Float64} `{QUOTE : !Quoting}.
Variables (policyConfig : PolicyConfig) (server : Server).
(** Whether the server has a logger and metrics. *)
Variables (logger metrics : bool).

(** A request, the random bytes and the clock when it comes, and the time it takes. *)
Record Incoming := mkIncoming {
  in_Request : HttpRequest;
  in_Random : option string;
  in_Now : Z;
  in_Took : Z }.

Record Observed := mkObserved { ob_Registry : Registry; ob_Metrics : Metrics; ob_Log : list RequestLine }.
Definition on_metrics (f : Metrics -> Metrics) (o : Observed) : Observed :=
  mkObserved (ob_Registry o) (f (ob_Metrics o)) (ob_Log o).

(** What a handler leaves: its answer, and the pattern the routes set in the request. *)
Definition ObservedHandler : Type := Incoming -> string -> Observed -> (HttpResponse * string) * Observed.

Definition segment_text (s : segment) : string := match s with Lit s => s | Wild name => "{" +:+ name +:+ "}" end.
Definition route_text (route : Route) : string :=
  route_Method route +:+ " /" +:+ strings_Join "/" (map segment_text (route_Pattern route)).
Definition matched_pattern (r : HttpRequest) : string :=
  match find_route (routes policyConfig server) r with Some (route, _) => route_text route | None => "" end.

Definition with_metrics (m : Metrics) : Server :=
  mkServer (srv_registry server) (srv_auth server) (srv_authorizer server) (srv_capabilities server) (srv_buildInfo server)
    (srv_runtime server) (srv_governance server) (srv_actorOverridePolicy server) (srv_bootstrapToken server)
    (srv_readinessChecks server) (if metrics then Some (fun _ => WritePrometheus m) else None) (srv_maxRequestBodyBytes server).
Definition mux : ObservedHandler := fun r _ o =>
  let '(response, registry) := ServeHTTP policyConfig (with_metrics (ob_Metrics o)) (in_Request r) (ob_Registry o) in
  ((response, matched_pattern (in_Request r)), mkObserved registry (ob_Metrics o) (ob_Log o)).

Definition routeTemplate (r : HttpRequest) (pattern : string) : string :=
  let pattern := TrimSpace pattern in
  if empty pattern then "unknown" else
  match Cut pattern " " with
  | Some (method, route) => if (method =? http_Method r)%string then route else pattern
  | None => pattern
  end.

Definition withHTTPMetrics (next : ObservedHandler) : ObservedHandler := fun r requestID o =>
  if negb metrics then next r requestID o else
  let '((response, pattern), o) := next r requestID (on_metrics IncInFlight o) in
  let record := RecordHTTPRequest (http_Method (in_Request r)) (routeTemplate (in_Request r) pattern)
                  (itoa (http_Status response)) (Duration_Seconds (in_Took r)) in
  ((response, pattern), on_metrics DecInFlight (on_metrics record o)).

Definition withRequestLogging (next : ObservedHandler) : ObservedHandler := fun r requestID o =>
  if negb logger then next r requestID o else
  let '((response, pattern), o) := next r requestID o in
  ((response, pattern),
   mkObserved (ob_Registry o) (ob_Metrics o)
     (ob_Log o ++ [mkRequestLine (http_Method (in_Request r)) (routeTemplate (in_Request r) pattern) (http_Status response)
                     (in_Took r / 1000) requestID (http_RemoteAddr (in_Request r))])%list).

Definition withRequestID (next : ObservedHandler) : Incoming -> Observed -> HttpResponse * Observed := fun r o =>
  let header := TrimSpace (http_RequestID (in_Request r)) in
  let requestID := if empty header then newRequestID (in_Random r) (in_Now r) else header in
  let '((response, _), o) := next r requestID o in
  (mkHttpResponse (http_Status response) (("X-Request-Id", requestID) :: http_Headers response) (http_ResponseBody response), o).

(** [Server.Handler]. *)
Definition Observed_Handler : Incoming -> Observed -> HttpResponse * Observed :=
  withRequestID (withRequestLogging (withHTTPMetrics mux)).
End Middleware.

(** ** The middleware only adds *)

Section Observed.
Context `{PG : !Postgres} `{ENV : !Env} `{CR : !Crypto} `{SYS : !OS} `{STORE : !ArtifactStore} `{HOST : !Host}.
Context `{URL : !NetURL} `{MR : !MultipartReader} `{POL : !PolicyEvaluator} `{AUD : !AuditSink World}
  `{PRO : !ApprovalProviders World} `{FLOAT : !Float64} `{QUOTE : !Quoting}.
Variables (policyConfig : PolicyConfig) (server : Server).

(** With its log and its metrics, the server answers as its routes do, under the
    identifier of the request, and leaves the state as they do; it writes one line
    of the log, and counts the request with the status of its answer. *)
Theorem observed_requests (r : Incoming) (o : Observed) :
  let '(response, o') := Observed_Handler policyConfig server true true r o in
  let routed := ServeHTTP policyConfig (with_metrics server true (IncInFlight (ob_Metrics o))) (in_Request r) (ob_Registry o) in
  let route := routeTemplate (in_Request r) (matched_pattern policyConfig server (in_Request r)) in
  exists requestID,
    response = mkHttpResponse (http_Status routed.1) (("X-Request-Id", requestID) :: http_Headers routed.1)
                 (http_ResponseBody routed.1)
    /\ (TrimSpace (http_RequestID (in_Request r)) <> "" -> requestID = TrimSpace (http_RequestID (in_Request r)))
    /\ ob_Registry o' = routed.2
    /\ ob_Log o' = (ob_Log o ++ [mkRequestLine (http_Method (in_Request r)) route (http_Status routed.1) (in_Took r / 1000)
                                   requestID (http_RemoteAddr (in_Request r))])%list
    /\ ob_Metrics o' = DecInFlight (RecordHTTPRequest (http_Method (in_Request r)) route (itoa (http_Status routed.1))
                                      (Duration_Seconds (in_Took r)) (IncInFlight (ob_Metrics o))).
Proof.
  unfold Observed_Handler, withRequestID, withRequestLogging, withHTTPMetrics, mux. cbn [negb].
  cbn [on_metrics ob_Metrics ob_Registry ob_Log].
  destruct (ServeHTTP _ _ _ _) as [res reg]. cbn [fst snd ob_Metrics ob_Registry ob_Log on_metrics].
  eexists. split; [done|]. split; [|done]. intros Hne. unfold empty. by apply String.eqb_neq in Hne as ->.
Qed.
End Observed.

(** ** Requests that overlap *)

Section Overlap.
Context `{FLOAT : !Float64}.

(** What the requests do to the metrics, each action at once: one comes, one is
    recorded, one is done. *)
Inductive action := Came | Recorded (key : labelKey) (seconds : float64) | Gone.
Definition act (m : Metrics) (a : action) : Metrics :=
  match a with
  | Came => IncInFlight m
  | Recorded key seconds => RecordHTTPRequest (label_Method key) (label_Route key) (label_Status key) seconds m
  | Gone => DecInFlight m
  end.
Definition actions (l : list action) : Metrics := fold_left act l NewMetrics.

Definition recorded (key : labelKey) (l : list action) : list float64 :=
  omap (fun a => match a with Recorded k s => if bool_decide (k = key) then Some s else None | _ => None end) l.
Definition came (l : list action) : Z := Z.of_nat (length (List.filter (fun a => if a is Came then true else false) l)).
Definition gone (l : list action) : Z := Z.of_nat (length (List.filter (fun a => if a is Gone then true else false) l)).

Lemma wrap64_add_l a b : wrap64 (wrap64 a + b) = wrap64 (a + b).
Proof.
  unfold wrap64. f_equal. replace ((a + 2 ^ 63) mod 2 ^ 64 - 2 ^ 63 + b + 2 ^ 63) with ((a + 2 ^ 63) mod 2 ^ 64 + b) by lia.
  rewrite Zplus_mod_idemp_l. f_equal. lia.
Qed.

Lemma actions_snoc l a : actions (l ++ [a]) = act (actions l) a.
Proof. apply fold_left_app. Qed.
Lemma RecordHTTP_requests key seconds m :
  met_httpRequests (act m (Recorded key seconds)) = increment key (met_httpRequests m)
  /\ met_httpDuration (act m (Recorded key seconds))
     = <[key := observe (default no_duration (met_httpDuration m !! key)) seconds]> (met_httpDuration m)
  /\ met_inFlight (act m (Recorded key seconds)) = met_inFlight m.
Proof. by destruct key. Qed.

(** What the metrics show, however the requests overlap: a label is there when a
    request was recorded under it, with their number (of 64 bits) and the sum of
    their times, and as many requests are in flight as came and are not gone. *)
Theorem requests_are_counted (l : list action) (key : labelKey) :
  let m := actions l in
  met_httpRequests m !! key
  = (match recorded key l with [] => None | times => Some (u64 (Z.of_nat (length times))) end)
  /\ met_httpDuration m !! key
     = (match recorded key l with [] => None
        | times => Some (mkDurationMetric (u64 (Z.of_nat (length times))) (fold_left float_add times float_zero)) end)
  /\ met_inFlight m = wrap64 (came l - gone l).
Proof.
  induction l as [|a l IH] using rev_ind; [done|]. cbv zeta in *. rewrite actions_snoc.
  destruct IH as (IH1 & IH2 & IH3). unfold recorded, came, gone in *. rewrite omap_app, !List.filter_app, !length_app.
  destruct a as [|k s|]; cbn [List.filter omap list_omap length]; rewrite ?app_nil_r.
  - split; [done|]. split; [done|]. cbn. rewrite IH3, wrap64_add_l. f_equal. lia.
  - destruct (RecordHTTP_requests k s (actions l)) as (-> & -> & ->).
    split; [|split; [|rewrite IH3; f_equal; lia]].
    + unfold increment. destruct (decide (k = key)) as [->|Hne].
      * rewrite lookup_insert_eq, bool_decide_eq_true_2, IH1 by done.
        destruct (omap _ l) as [|t ts]; [done|]. cbn [from_option id app]. f_equal. unfold u64. cbn [length].
        rewrite length_app. cbn [length]. rewrite Zplus_mod_idemp_l. f_equal. lia.
      * rewrite lookup_insert_ne, bool_decide_eq_false_2, app_nil_r by done. exact IH1.
    + destruct (decide (k = key)) as [->|Hne].
      * rewrite lookup_insert_eq, bool_decide_eq_true_2, IH2 by done.
        destruct (omap _ l) as [|t ts]; [done|]. cbn [from_option id app]. f_equal. unfold observe. cbn [duration_Count duration_Sum].
        rewrite app_comm_cons, fold_left_app. cbn [fold_left]. f_equal. unfold u64. cbn [length].
        rewrite length_app. cbn [length]. rewrite Zplus_mod_idemp_l. f_equal. lia.
      * rewrite lookup_insert_ne, bool_decide_eq_false_2, app_nil_r by done. exact IH2.
  - split; [done|]. split; [done|]. cbn. rewrite IH3, <- Z.add_opp_r, wrap64_add_l. f_equal. lia.
Qed.
End Overlap.

(** ** The order of the labels *)

Lemma label_le_total x y : label_le x y = false -> label_le y x = true.
Proof.
  unfold label_le. rewrite (String.eqb_sym (label_Method y)), (String.eqb_sym (label_Route y)).
  destruct (label_Method x =? label_Method y)%string, (label_Route x =? label_Route y)%string; cbn [negb]; apply leb_false_true.
Qed.
Lemma label_le_trans x y z : label_le x y = true -> label_le y z = true -> label_le x z = true.
Proof.
  destruct x as [m1 r1 s1], y as [m2 r2 s2], z as [m3 r3 s3]. unfold label_le. cbn [label_Method label_Route label_Status].
  destruct (String.eqb_spec m1 m2) as [->|H1], (String.eqb_spec m2 m3) as [->|H2]; cbn [negb].
  - destruct (String.eqb_spec m3 m3); [|done]. cbn [negb].
    destruct (String.eqb_spec r1 r2) as [->|H3], (String.eqb_spec r2 r3) as [->|H4]; cbn [negb].
    + destruct (String.eqb_spec r3 r3); [|done]. cbn [negb]. apply leb_trans.
    + by destruct (String.eqb_spec r2 r3).
    + by destruct (String.eqb_spec r1 r3).
    + intros H5 H6. destruct (String.eqb_spec r1 r3) as [->|]; [|by apply (leb_trans _ r2)].
      by destruct H4; apply String.leb_antisym.
  - by destruct (String.eqb_spec m2 m3).
  - by destruct (String.eqb_spec m1 m3).
  - intros H5 H6. destruct (String.eqb_spec m1 m3) as [->|]; [|by apply (leb_trans _ m2)].
    by destruct H2; apply String.leb_antisym.
Qed.

(** The text has one line for each label, in the order of the labels. *)
Theorem sortedLabelKeys_correct {A} (values : gmap labelKey A) :
  StronglySorted (fun x y => label_le x y = true) (sortedLabelKeys values)
  /\ NoDup (sortedLabelKeys values) /\ forall key, key ∈ sortedLabelKeys values <-> is_Some (values !! key).
Proof.
  unfold sortedLabelKeys. split; [apply sort_by_StronglySorted; [apply label_le_total|apply label_le_trans]|].
  rewrite sort_by_perm. split; [apply NoDup_fst_map_to_list|]. intros key. rewrite elem_of_sort_by.
  rewrite list_elem_of_fmap. split.
  - intros ([k v] & -> & H%elem_of_map_to_list). by exists v.
  - intros [v H]. exists (key, v). split; [done|]. by apply elem_of_map_to_list.
Qed.
