(* ===== verification/Lifecycle.v ===== *)
(** * The life of the server

    [app/bootstrap/server.go] and [cmd/protoradar-server/main.go]: what is opened
    when the server starts is closed when it does not, and how it stops. The
    process, the goroutine that listens, the requests, the goroutine of the
    publisher and the signal are interleaved: each step is one of theirs, and a
    [select] takes any case that is ready.

    The pool, the listener, migrations, the object store and the templates are given
    by what they return. [pgxpool.Pool.Close] refuses connections from its start and
    returns when all connections in use were given back: a request may hold
    connections, and the process waits for them without a limit. *)

From S2P Require Import Prelude Errors GoStrings Json Effects Outbox Policy Registry HttpServer Config Bootstrap Packing Flags CliOutput Observability.

Open Scope string_scope.
Open Scope Z_scope.

(** ** [NewServer] *)

(** What the parts that are not modelled return. *)
Record StartUp := mkStartUp {
  up_Pool : result unit;                        (* [pgxpool.New] *)
  up_Ping : result unit;
  up_Migrations : option (result unit);         (* [postgres.RunMigrations], when there is a directory *)
  up_ArtifactStore : result unit;
  up_Pages : result unit }.                     (* [web.NewServer] *)

(** Whether the pool is open. *)
Definition Starting (A : Type) : Type := M bool A.
Definition open_pool : Starting unit := fun _ => (Ok tt, true).
Definition close_pool : Starting unit := fun _ => (Ok tt, false).
(** [if err != nil { pool.Close(); return nil, err }]. *)
Definition or_close {A} (r : result A) : Starting A :=
  match r with Ok a => ret a | Err e => let! _ := close_pool in fail e end.

Definition openDatabase (up : StartUp) : Starting unit :=
  match up_Pool up with
  | Err e => fail e
  | Ok _ =>
      let! _ := open_pool in
      let! _ := or_close (up_Ping up) in
      match up_Migrations up with Some migrations => or_close migrations | None => ret tt end
  end.

(** The settings of [http.Server]. *)
Record HTTPServer := mkHTTPServer {
  hs_Addr : string; hs_ReadHeaderTimeout : Z; hs_ReadTimeout : Z; hs_WriteTimeout : Z; hs_IdleTimeout : Z;
  hs_MaxHeaderBytes : Z }.
Definition newHTTPServer (cfg : RuntimeConfig) : HTTPServer :=
  let s := rt_Server cfg in
  mkHTTPServer (server_HTTPAddr s) (server_HTTPReadHeaderTimeout s) (server_HTTPReadTimeout s) (server_HTTPWriteTimeout s)
    (server_HTTPIdleTimeout s) (server_HTTPMaxHeaderBytes s).

(** The server, and whether the goroutine of the publisher was started. *)
Record Started := mkStarted { st_HTTPServer : HTTPServer; st_Publisher : bool }.

Definition NewServer_ (cfg : RuntimeConfig) (up : StartUp) : Starting Started :=
  let! _ := openDatabase up in
  let! _ := or_close (NewLogger (log_Level (rt_Log cfg)) (log_Format (rt_Log cfg))) in
  let! _ := or_close (up_ArtifactStore up) in
  let! _ := or_close (match up_Pages up with
    | Err e => if ui_Enabled (rt_UI cfg) then Err (EWrap (EText "create web ui") e) else Ok tt
    | Ok _ => Ok tt
    end) in
  ret (mkStarted (newHTTPServer cfg) (outbox_Enabled (rt_OutboxPublisher cfg))).

(** ** The process *)

(** How [ListenAndServe] returns: it always has an error. *)
Inductive ServeEnd := ServerClosed | ServeFailed (err : error).

(** The goroutine of the publisher, and whether its channel is closed. *)
Inductive PublisherState := NoPublisher | Publishing | Stopped.

(** The pool of connections, from which a pool that is being closed gives no more. *)
Inductive PoolState := PoolOpen | PoolClosing | PoolClosed.

(** Where [runServer] is: in its [select], in [Shutdown], before [Close], in the
    [select] of [waitOutboxShutdown], before the pool is closed, in [Pool.Close], at
    its end. *)
Inductive Main := Selecting | ShuttingDown | Closing | WaitingPublisher | ClosingPool | AwaitingConnections | Exited.

#[global] Instance Main_eq_dec : EqDecision Main.
Proof. solve_decision. Defined.

Record Process := mkProcess {
  pr_Signal : bool;                (* the context of the signals is done *)
  pr_Accepting : bool;             (* the listener is open *)
  pr_Shutdown : bool;              (* [Shutdown] was called *)
  pr_Listening : bool;             (* [ListenAndServe] has not returned *)
  pr_ErrCh : option ServeEnd;      (* the channel of capacity 1 *)
  pr_Serving : list nat;           (* the connections of the pool that each request holds *)
  pr_Publisher : PublisherState;
  pr_Cancelled : bool;             (* [outboxCancel] was called *)
  pr_Pool : PoolState;
  pr_Main : Main;
  pr_ExitCode : Z;
  pr_Stderr : list error }.
Definition eta_Process (p : Process) : Process :=
  mkProcess (pr_Signal p) (pr_Accepting p) (pr_Shutdown p) (pr_Listening p) (pr_ErrCh p) (pr_Serving p) (pr_Publisher p)
    (pr_Cancelled p) (pr_Pool p) (pr_Main p) (pr_ExitCode p) (pr_Stderr p).
Definition set_Signal : bool -> Process -> Process := ltac:(setter eta_Process pr_Signal).
Definition set_Accepting : bool -> Process -> Process := ltac:(setter eta_Process pr_Accepting).
Definition set_Shutdown : bool -> Process -> Process := ltac:(setter eta_Process pr_Shutdown).
Definition set_Listening : bool -> Process -> Process := ltac:(setter eta_Process pr_Listening).
Definition set_ErrCh : option ServeEnd -> Process -> Process := ltac:(setter eta_Process pr_ErrCh).
Definition set_Serving : list nat -> Process -> Process := ltac:(setter eta_Process pr_Serving).
Definition set_Publisher : PublisherState -> Process -> Process := ltac:(setter eta_Process pr_Publisher).
Definition set_Cancelled : bool -> Process -> Process := ltac:(setter eta_Process pr_Cancelled).
Definition set_Pool : PoolState -> Process -> Process := ltac:(setter eta_Process pr_Pool).
Definition set_Main : Main -> Process -> Process := ltac:(setter eta_Process pr_Main).
Definition set_ExitCode : Z -> Process -> Process := ltac:(setter eta_Process pr_ExitCode).
Definition set_Stderr : list error -> Process -> Process := ltac:(setter eta_Process pr_Stderr).

(** The connections in use. The publisher has its own, which it has given back when
    it stops. *)
Definition held (p : Process) : nat := sum_list (pr_Serving p).

(** [runServer] on a server that was started. *)
Definition run_process (publisher : bool) : Process :=
  mkProcess false true false true None [] (if publisher then Publishing else NoPublisher) false PoolOpen Selecting 0 [].

(** [fmt.Fprintln(stderr, err); exitCode = 1]. *)
Definition complain (err : error) (p : Process) : Process := set_ExitCode 1 (set_Stderr (pr_Stderr p ++ [err]) p).

Definition outboxShutdownTimeout : Z := 5 * 1000000000.
Definition shutdown_timed_out : error := EText "outbox publisher shutdown timed out after 5s".

(** [case err := <-errCh]. *)
Definition received (e : ServeEnd) (p : Process) : Process :=
  let p := set_Main Closing (set_ErrCh None p) in
  match e with ServerClosed => p | ServeFailed err => complain err p end.
(** The start of [Server.Close]: what it waits for. *)
Definition begin_close (p : Process) : Process :=
  match pr_Publisher p with
  | NoPublisher => set_Main ClosingPool p
  | _ => set_Main WaitingPublisher (set_Cancelled true p)
  end.

(** [run]: what is wrong before the server runs ends the process with 1. *)
Definition server_run (loadConfig : string -> result Config) (newServer : RuntimeConfig -> result Started) (args : list string)
    : Z + Process :=
  match Parse [("config", StringFlag)] args with
  | inr _ => inl 1
  | inl p =>
      match (let? rawConfig := loadConfig (flag_value p "config" "") in
             let? runtimeConfig := Runtime rawConfig in newServer runtimeConfig) with
      | Err _ => inl 1
      | Ok server => inr (run_process (st_Publisher server))
      end
  end.

(** *** The steps of [runServer] *)

Inductive main_step : Process -> Process -> Prop :=
| select_signal p : pr_Main p = Selecting -> pr_Signal p = true ->
    main_step p (set_Main ShuttingDown (set_Shutdown true (set_Accepting false p)))
| select_served p e : pr_Main p = Selecting -> pr_ErrCh p = Some e -> main_step p (received e p)
| shutdown_done p : pr_Main p = ShuttingDown -> pr_Serving p = [] -> main_step p (set_Main Closing p)
| shutdown_failed p err : pr_Main p = ShuttingDown -> main_step p (set_Main Closing (complain err p))
| close_begins p : pr_Main p = Closing -> main_step p (begin_close p)
| publisher_done p : pr_Main p = WaitingPublisher -> pr_Publisher p = Stopped -> main_step p (set_Main ClosingPool p)
| publisher_timeout p : pr_Main p = WaitingPublisher -> main_step p (set_Main Exited (complain shutdown_timed_out p))
| pool_closes p : pr_Main p = ClosingPool -> main_step p (set_Main AwaitingConnections (set_Pool PoolClosing p))
| pool_closed p : pr_Main p = AwaitingConnections -> held p = 0%nat -> main_step p (set_Main Exited (set_Pool PoolClosed p)).

(** *** The steps around it *)

(** A request comes on a new connection, or on one that is kept alive after the
    listener failed. *)
Inductive env_step : Process -> Process -> Prop :=
| signal_comes p : env_step p (set_Signal true p)
| request_comes p : pr_Shutdown p = false -> env_step p (set_Serving (0%nat :: pr_Serving p) p)
| connection_acquired p before n after : pr_Serving p = (before ++ n :: after)%list -> pr_Pool p = PoolOpen ->
    env_step p (set_Serving (before ++ S n :: after)%list p)
| connection_released p before n after : pr_Serving p = (before ++ S n :: after)%list ->
    env_step p (set_Serving (before ++ n :: after)%list p)
| request_ends p before after : pr_Serving p = (before ++ 0%nat :: after)%list ->
    env_step p (set_Serving (before ++ after)%list p)
| listener_fails p err : pr_Listening p = true -> pr_Accepting p = true ->
    env_step p (set_ErrCh (Some (ServeFailed err)) (set_Listening false (set_Accepting false p)))
| listener_closed p : pr_Listening p = true -> pr_Accepting p = false ->
    env_step p (set_ErrCh (Some ServerClosed) (set_Listening false p))
| publisher_stops p : pr_Publisher p = Publishing -> pr_Signal p || pr_Cancelled p = true ->
    env_step p (set_Publisher Stopped p).

Inductive reachable (publisher : bool) : Process -> Prop :=
| started_process : reachable publisher (run_process publisher)
| main_goes p p' : reachable publisher p -> main_step p p' -> reachable publisher p'
| env_goes p p' : reachable publisher p -> env_step p p' -> reachable publisher p'.

(** ** An orderly stop *)

Definition rank (m : Main) : nat :=
  match m with
  | Selecting => 6 | ShuttingDown => 5 | Closing => 4 | WaitingPublisher => 3 | ClosingPool => 2 | AwaitingConnections => 1
  | Exited => 0
  end.
Definition stopping (m : Main) : bool := match m with Selecting | ShuttingDown => false | _ => true end.

(** What holds in every state. *)
Record sound (p : Process) : Prop := mkSound {
  sound_pool : pr_Pool p <> PoolOpen ->
    (pr_Main p = AwaitingConnections \/ pr_Main p = Exited) /\ pr_Publisher p <> Publishing;
  sound_awaiting : pr_Main p = AwaitingConnections -> pr_Pool p = PoolClosing;
  sound_closed : pr_Pool p = PoolClosed -> pr_Main p = Exited /\ held p = 0%nat;
  sound_closing : pr_Main p = ClosingPool -> pr_Publisher p <> Publishing;
  sound_exit : pr_Main p = Exited -> pr_Pool p = PoolClosed \/ pr_ExitCode p = 1;
  sound_code : (pr_ExitCode p = 0 /\ pr_Stderr p = []) \/ (pr_ExitCode p = 1 /\ pr_Stderr p <> []);
  sound_listening : pr_Listening p = true -> pr_ErrCh p = None;
  sound_select : pr_Main p = Selecting ->
    match pr_ErrCh p with None => pr_Accepting p = true | Some e => e <> ServerClosed end;
  sound_refusing : pr_Main p = ShuttingDown -> pr_Accepting p = false /\ pr_Shutdown p = true;
  sound_drained : pr_ExitCode p = 0 -> stopping (pr_Main p) = true ->
    pr_Accepting p = false /\ pr_Shutdown p = true /\ pr_Serving p = [] }.

Lemma complain_code err p : (pr_ExitCode (complain err p) = 0 /\ pr_Stderr (complain err p) = [])
  \/ (pr_ExitCode (complain err p) = 1 /\ pr_Stderr (complain err p) <> []).
Proof. right. split; [done|]. cbn. by destruct (pr_Stderr p). Qed.

Ltac process_cases p :=
  destruct p as [signal accepting shut listening errCh serving publisher' cancelled pool main code stderr];
  unfold held in *; cbn in *.

Lemma main_step_sound p p' : main_step p p' -> sound p -> sound p'.
Proof.
  intros H [I1 IA IC I2 I3 I4 IL I5 I6 I7].
  destruct H as [p Hm Hs|p e Hm He|p Hm Hs|p err Hm|p Hm|p Hm Hp|p Hm|p Hm|p Hm Hn];
    try (pose proof (complain_code err p) as Hc); try (pose proof (complain_code shutdown_timed_out p) as Hc);
    try destruct e as [|err]; process_cases p; subst main.
  - constructor; cbn; solve [intuition congruence].
  - rewrite He in I5. by destruct (I5 eq_refl).
  - constructor; cbn; try solve [intuition congruence]. right. split; [done|]. by destruct stderr.
  - constructor; cbn; solve [intuition congruence].
  - constructor; cbn; solve [intuition congruence].
  - unfold begin_close. cbn. destruct publisher'; constructor; cbn; solve [intuition congruence].
  - constructor; cbn; solve [intuition congruence].
  - constructor; cbn; solve [intuition congruence].
  - constructor; cbn; solve [intuition congruence].
  - constructor; cbn; solve [intuition congruence].
Qed.

(** Only a request that gets a connection makes the connections in use more. *)
Lemma sum_list_at before n after : sum_list (before ++ n :: after) = (sum_list before + n + sum_list after)%nat.
Proof. rewrite sum_list_with_app. cbn. lia. Qed.

(** Requests that come to their end hold no connection of a closed pool. *)
Lemma serving_sound p l :
  sound p -> (pr_Pool p = PoolClosed -> sum_list l = 0%nat) ->
  (pr_ExitCode p = 0 -> stopping (pr_Main p) = true -> l = []) -> sound (set_Serving l p).
Proof.
  intros [I1 IA IC I2 I3 I4 IL I5 I6 I7] Hp Hd. process_cases p. constructor; cbn; try done; unfold held; cbn.
  - intros E. split; [by apply IC|by apply Hp].
  - intros E1 E2. destruct (I7 E1 E2) as (A & B & _). by rewrite (Hd E1 E2).
Qed.

Lemma env_step_sound p p' : env_step p p' -> sound p -> sound p'.
Proof.
  intros H Hp. pose proof Hp as [I1 IA IC I2 I3 I4 IL I5 I6 I7].
  destruct H as [p|p Ha|p before n after Hs Ho|p before n after Hs|p before after Hs|p err Hl Ha|p Hl Ha|p Hq Hs].
  - process_cases p. constructor; cbn; solve [intuition congruence].
  - apply serving_sound; [done| |].
    + intros E. destruct (IC E) as [_ E']. exact E'.
    + intros E1 E2. destruct (I7 E1 E2) as (_ & E & _). congruence.
  - apply serving_sound; [done|congruence|].
    intros E1 E2. destruct (I7 E1 E2) as (_ & _ & E). rewrite E in Hs. by destruct before.
  - apply serving_sound; [done| |].
    + intros E. destruct (IC E) as [_ E']. unfold held in E'. rewrite Hs in E'. rewrite sum_list_at in *. lia.
    + intros E1 E2. destruct (I7 E1 E2) as (_ & _ & E). rewrite E in Hs. by destruct before.
  - apply serving_sound; [done| |].
    + intros E. destruct (IC E) as [_ E']. unfold held in E'. rewrite Hs, sum_list_at in E'. rewrite sum_list_with_app. lia.
    + intros E1 E2. destruct (I7 E1 E2) as (_ & _ & E). rewrite E in Hs. by destruct before.
  - process_cases p. constructor; cbn; try solve [intuition congruence].
  - process_cases p. constructor; cbn; try solve [intuition congruence].
    intros Hm. specialize (I5 Hm). rewrite (IL Hl) in I5. congruence.
  - process_cases p. constructor; cbn; solve [intuition congruence].
Qed.
Lemma reachable_sound publisher p : reachable publisher p -> sound p.
Proof.
  induction 1 as [|p p' _ IH H|p p' _ IH H]; [|by eapply main_step_sound|by eapply env_step_sound].
  constructor; cbn; try done. by left.
Qed.

Lemma main_step_rank p p' : main_step p p' -> (rank (pr_Main p') < rank (pr_Main p))%nat.
Proof.
  intros H. destruct H as [p Hm Hs|p e Hm He|p Hm Hs|p err Hm|p Hm|p Hm Hp|p Hm|p Hm|p Hm Hn]; rewrite Hm;
    unfold begin_close; destruct (pr_Publisher p); try destruct e; cbn; lia.
Qed.
Lemma main_step_serving p p' : main_step p p' -> pr_Serving p' = pr_Serving p.
Proof.
  intros H. destruct H as [p Hm Hs|p e Hm He|p Hm Hs|p err Hm|p Hm|p Hm Hp|p Hm|p Hm|p Hm Hn]; try done; [by destruct e|].
  unfold begin_close. by destruct (pr_Publisher p).
Qed.
Lemma env_step_main p p' : env_step p p' -> pr_Main p' = pr_Main p.
Proof. by destruct 1. Qed.

(** The process waits for the connections that requests hold. *)
Definition waiting (p : Process) : Prop := pr_Main p = AwaitingConnections /\ held p <> 0%nat.

#[global] Instance waiting_dec p : Decision (waiting p).
Proof. unfold waiting. apply _. Defined.

(** While it does, no request gets another connection. *)
Lemma waiting_held p p' : sound p -> pr_Main p = AwaitingConnections -> env_step p p' -> (held p' <= held p)%nat.
Proof.
  intros Hp Hm H. apply (sound_awaiting _ Hp) in Hm. unfold held.
  destruct H as [p|p Ha|p before n after Hs Ho|p before n after Hs|p before after Hs|p err Hl Ha|p Hl Ha|p Hq Hs]; cbn; try lia.
  - congruence.
  - rewrite Hs, !sum_list_at. lia.
  - rewrite Hs, sum_list_at, sum_list_with_app. lia.
Qed.

(** A connection that is held can be given back. *)
Lemma release_possible p : held p <> 0%nat -> exists p', env_step p p' /\ (held p' < held p)%nat.
Proof.
  unfold held. intros H. assert (exists before n after, pr_Serving p = (before ++ S n :: after)%list) as (before & n & after & E).
  { induction (pr_Serving p) as [|[|n] l IH]; [done| |by exists [], n, l].
    destruct IH as (before & n & after & ->); [exact H|]. by exists (0%nat :: before), n, after. }
  exists (set_Serving (before ++ n :: after)%list p). split; [by apply connection_released|]. cbn. rewrite E, !sum_list_at. lia.
Qed.

(** [runServer] can go on once the signal has come, or serving has ended, until it
    has ended or waits for the connections of requests. *)
Lemma main_step_possible p : pr_Main p <> Exited -> ~ waiting p ->
  pr_Signal p = true \/ pr_ErrCh p <> None \/ pr_Main p <> Selecting ->
  exists p', main_step p p' /\ pr_Main p' <> Selecting.
Proof.
  intros Hm Hw H. destruct (pr_Main p) eqn:E; [| | | | | |done].
  - destruct H as [H|[H|H]]; [|destruct (pr_ErrCh p) as [e|] eqn:Ee; [|done]|done].
    + eexists. split; [by apply select_signal|done].
    + eexists. split; [by apply (select_served _ e)|by destruct e].
  - eexists. split; [by apply (shutdown_failed _ not_exist)|done].
  - eexists. split; [by apply close_begins|]. unfold begin_close. by destruct (pr_Publisher p).
  - eexists. split; [by apply publisher_timeout|done].
  - eexists. split; [by apply pool_closes|done].
  - eexists. split; [apply pool_closed; [done|]|done]. destruct (decide (held p = 0%nat)); [done|]. by destruct Hw.
Qed.

(** Without the world around it, [runServer] comes to its end or to that wait. *)
Lemma stop_goes_on p : pr_Signal p = true \/ pr_ErrCh p <> None \/ pr_Main p <> Selecting ->
  exists p', rtc main_step p p' /\ (pr_Main p' = Exited \/ waiting p').
Proof.
  remember (rank (pr_Main p)) as n eqn:E. revert p E. induction n as [n IH] using lt_wf_ind. intros p -> H.
  destruct (decide (pr_Main p = Exited)) as [He|He]; [exists p; split; [done|by left]|].
  destruct (decide (waiting p)) as [Hw|Hw]; [exists p; split; [done|by right]|].
  destruct (main_step_possible p He Hw H) as (p1 & H1 & Hm).
  destruct (IH (rank (pr_Main p1)) (main_step_rank _ _ H1) p1 eq_refl) as (p' & Hp' & Hx); [by right; right|].
  exists p'. split; [|done]. by eapply rtc_l.
Qed.

(** When the requests give their connections back, it comes to its end. *)
Lemma waiting_ends p : waiting p -> exists p', rtc (fun p p' => main_step p p' \/ env_step p p') p p' /\ pr_Main p' = Exited.
Proof.
  remember (held p) as n eqn:E. revert p E. induction n as [n IH] using lt_wf_ind. intros p -> [Hm Hh].
  destruct (release_possible p Hh) as (p1 & H1 & Hlt). pose proof (env_step_main _ _ H1) as Hm1. rewrite Hm in Hm1.
  destruct (decide (held p1 = 0%nat)) as [E|E].
  - exists (set_Main Exited (set_Pool PoolClosed p1)). split; [|done].
    eapply rtc_l; [by right|]. apply rtc_once. left. by apply pool_closed.
  - destruct (IH (held p1) Hlt p1 eq_refl) as (p' & Hp' & Hx); [done|]. exists p'. split; [|done]. by eapply rtc_l; [right|].
Qed.

(** C40: the server stops in order. The pool is closed only after the goroutine of
    the publisher has ended, and is closed to its end only when no request holds a
    connection. A process that ends with 0 wrote no error, serves no request, accepts
    none and has closed its pool; otherwise it ends with 1 and wrote its errors. Once
    the signal has come or serving has failed, at most six steps of [runServer], each
    of which can be made whatever the requests and the publisher do, lead to the end
    of the process or, after an error, to the wait for the connections that requests
    still hold: no request gets another connection then, and the process ends when
    they are given back. *)
Theorem server_stops_in_order (publisher : bool) (p : Process) (H : reachable publisher p) :
  (pr_Pool p <> PoolOpen ->
     (pr_Main p = AwaitingConnections \/ pr_Main p = Exited) /\ pr_Publisher p <> Publishing)
  /\ (pr_Pool p = PoolClosed -> pr_Main p = Exited /\ held p = 0%nat)
  /\ (pr_Main p = Exited ->
      pr_ExitCode p = 0 /\ pr_Stderr p = [] /\ pr_Pool p = PoolClosed /\ pr_Accepting p = false /\ pr_Serving p = []
      \/ pr_ExitCode p = 1 /\ pr_Stderr p <> [])
  /\ (pr_Signal p = true \/ pr_ErrCh p <> None \/ pr_Main p <> Selecting ->
      (pr_Main p = Exited \/ waiting p \/ exists p', main_step p p')
      /\ exists p', rtc main_step p p' /\ (pr_Main p' = Exited \/ waiting p'))
  /\ (rank (pr_Main p) <= 6)%nat
  /\ (forall p', main_step p p' -> (rank (pr_Main p') < rank (pr_Main p))%nat)
  /\ (forall p', env_step p p' -> pr_Main p' = pr_Main p)
  /\ (waiting p -> pr_ExitCode p = 1
      /\ (forall p', env_step p p' -> (held p' <= held p)%nat)
      /\ exists p', rtc (fun p p' => main_step p p' \/ env_step p p') p p' /\ pr_Main p' = Exited).
Proof.
  pose proof (reachable_sound publisher p H) as Hp. pose proof Hp as [I1 IA IC I2 I3 I4 IL I5 I6 I7].
  split_and!; [done|done| | |by destruct (pr_Main p); cbn; lia|apply main_step_rank|apply env_step_main|].
  - intros E. destruct I4 as [[Hc Hs]|[Hc Hs]]; [left|by right].
    rewrite E in I7. destruct (I7 Hc eq_refl) as (Ha & _ & Hn). destruct (I3 E) as [Hq|Hq]; [|congruence]. done.
  - intros Hs. split; [|by apply stop_goes_on]. destruct (decide (pr_Main p = Exited)) as [He|He]; [by left|right].
    destruct (decide (waiting p)) as [Hw|Hw]; [by left|right].
    destruct (main_step_possible p He Hw Hs) as (p' & H1 & _). by exists p'.
  - intros Hw. split_and!; [|intros p' Hs; by eapply waiting_held; [..|exact Hs]; [|apply Hw]|by apply waiting_ends].
    destruct Hw as [Hm Hh]. destruct I4 as [[Hc _]|[Hc _]]; [|done]. rewrite Hm in I7. destruct (I7 Hc eq_refl) as (_ & _ & E).
    unfold held in Hh. by rewrite E in Hh.
Qed.

(** A stop on a signal, with a publisher and a request that is served to its end. *)
Module LifeExamples.
Definition at_end : Process := mkProcess true false true true None [] Stopped true PoolClosed Exited 0 [].
Lemma at_end_reachable : reachable true at_end.
Proof.
  eapply main_goes; [|refine (pool_closed (mkProcess true false true true None [] Stopped true PoolClosing AwaitingConnections 0 []) eq_refl eq_refl)].
  eapply main_goes; [|refine (pool_closes (mkProcess true false true true None [] Stopped true PoolOpen ClosingPool 0 []) eq_refl)].
  eapply main_goes; [|refine (publisher_done (mkProcess true false true true None [] Stopped true PoolOpen WaitingPublisher 0 []) eq_refl eq_refl)].
  eapply env_goes; [|refine (publisher_stops (mkProcess true false true true None [] Publishing true PoolOpen WaitingPublisher 0 []) eq_refl eq_refl)].
  eapply main_goes; [|refine (close_begins (mkProcess true false true true None [] Publishing false PoolOpen Closing 0 []) eq_refl)].
  eapply main_goes; [|refine (shutdown_done (mkProcess true false true true None [] Publishing false PoolOpen ShuttingDown 0 []) eq_refl eq_refl)].
  eapply env_goes; [|refine (request_ends (mkProcess true false true true None [0%nat] Publishing false PoolOpen ShuttingDown 0 []) [] [] eq_refl)].
  eapply env_goes; [|refine (connection_released (mkProcess true false true true None [1%nat] Publishing false PoolOpen ShuttingDown 0 []) [] 0 [] eq_refl)].
  eapply main_goes; [|refine (select_signal (mkProcess true true false true None [1%nat] Publishing false PoolOpen Selecting 0 []) eq_refl eq_refl)].
  eapply env_goes; [|refine (signal_comes (mkProcess false true false true None [1%nat] Publishing false PoolOpen Selecting 0 []))].
  eapply env_goes; [|refine (connection_acquired (mkProcess false true false true None [0%nat] Publishing false PoolOpen Selecting 0 []) [] 0 [] eq_refl eq_refl)].
  eapply env_goes; [|refine (request_comes (run_process true) eq_refl)].
  apply started_process.
Qed.
Lemma server_stops_in_order_witness :
  reachable true at_end /\ pr_Pool at_end = PoolClosed /\ pr_Serving at_end = [].
Proof.
  split; [exact at_end_reachable|].
  destruct (server_stops_in_order true at_end at_end_reachable) as (_ & _ & H & _).
  destruct (H eq_refl) as [(_ & _ & Hp & _ & Hs)|[Hc _]]; [by split|discriminate Hc].
Defined.

(** A shutdown that runs out of time closes the pool under the requests: those that
    need a connection get none, and the process does not end before those that hold
    one have ended. *)
Definition late : error := EText "context deadline exceeded".
Example pool_closed_under_requests :
  exists p, reachable false p /\ waiting p /\ pr_Serving p = [1; 0]%nat /\ pr_Pool p = PoolClosing
    /\ forall p', ~ main_step p p'.
Proof.
  exists (mkProcess true false true true None [1; 0]%nat NoPublisher false PoolClosing AwaitingConnections 1 [late]).
  split; [|split; [done|split; [done|split; [done|]]]].
  - eapply main_goes; [|refine (pool_closes (mkProcess true false true true None [1; 0]%nat NoPublisher false PoolOpen ClosingPool 1 [late]) eq_refl)].
    eapply main_goes; [|refine (close_begins (mkProcess true false true true None [1; 0]%nat NoPublisher false PoolOpen Closing 1 [late]) eq_refl)].
    eapply main_goes; [|refine (shutdown_failed (mkProcess true false true true None [1; 0]%nat NoPublisher false PoolOpen ShuttingDown 0 []) late eq_refl)].
    eapply main_goes; [|refine (select_signal (mkProcess true true false true None [1; 0]%nat NoPublisher false PoolOpen Selecting 0 []) eq_refl eq_refl)].
    eapply env_goes; [|refine (signal_comes (mkProcess false true false true None [1; 0]%nat NoPublisher false PoolOpen Selecting 0 []))].
    eapply env_goes; [|refine (connection_acquired (mkProcess false true false true None [0; 0]%nat NoPublisher false PoolOpen Selecting 0 []) [] 0 [0%nat] eq_refl eq_refl)].
    eapply env_goes; [|refine (request_comes (mkProcess false true false true None [0%nat] NoPublisher false PoolOpen Selecting 0 []) eq_refl)].
    eapply env_goes; [|refine (request_comes (run_process false) eq_refl)].
    apply started_process.
  - intros p' H. inversion H; subst; cbn in *; discriminate.
Qed.
End LifeExamples.

(** ** The start *)

(** A server that does not start leaves no pool open; one that starts has its pool,
    and the publisher when it is enabled. *)
Theorem start_releases_the_pool (cfg : RuntimeConfig) (up : StartUp) :
  match NewServer_ cfg up false with
  | (Ok s, pool) => pool = true /\ s = mkStarted (newHTTPServer cfg) (outbox_Enabled (rt_OutboxPublisher cfg))
  | (Err _, pool) => pool = false
  end.
Proof.
  destruct up as [[] [] [[]|] [] []]; unfold NewServer_, openDatabase, or_close, bind; cbn; try done;
    destruct (NewLogger _ _); try done; by destruct (ui_Enabled _).
Qed.
