(* ===== verification/Migrations.v ===== *)
(** * Migrations

    [repository/postgres/migrations.go]: the two files of each migration are made one
    file of [goose], which applies them and is not modelled. *)

From S2P Require Import Prelude Errors GoStrings Json Effects Archive Packing.

Open Scope string_scope.

(** A directory: the names of its files and what reading a file gives. *)
Record MigrationsFS := mkMigrationsFS { mig_Names : list string; mig_ReadFile : string -> result string }.

(** [strings.TrimSuffix]. *)
Definition TrimSuffix (s suffix : string) : string :=
  if HasSuffix s suffix then take_string (String.length s - String.length suffix) s else s.

(** [fs.Glob(migrations, "*.up.sql")] and [sort.Strings]. *)
Definition upFiles (migrations : MigrationsFS) : list string :=
  sort_Strings (List.filter (fun name => HasSuffix name ".up.sql" && no_byte "/" name) (mig_Names migrations)).

Definition combinedName (upName : string) : string := TrimSuffix upName ".up.sql" +:+ ".sql".
Definition downName (upName : string) : string := TrimSuffix upName ".up.sql" +:+ ".down.sql".
Definition two_newlines : string := String (byte_char 10) (String (byte_char 10) "").

(** The texts of a migration: the way up, and the way down when there is one. *)
Definition combined (migrations : MigrationsFS) (upName : string) : result string :=
  match mig_ReadFile migrations upName with
  | Err err => Err (EWrap (EText ("read up migration " +:+ upName)) err)
  | Ok upBody =>
      match mig_ReadFile migrations (downName upName) with
      | Ok downBody => Ok (upBody +:+ two_newlines +:+ downBody)
      | Err err => if errors_Is err not_exist then Ok upBody
                   else Err (EWrap (EText ("read down migration " +:+ downName upName)) err)
      end
  end.

Definition gooseMigrationFS : Type := gmap string string.
Fixpoint add_migrations (migrations : MigrationsFS) (ups : list string) (files : gooseMigrationFS) : result gooseMigrationFS :=
  match ups with
  | [] => Ok files
  | upName :: rest =>
      let? text := combined migrations upName in
      add_migrations migrations rest (<[combinedName upName := text]> files)
  end.
Definition newGooseMigrationFS (migrations : MigrationsFS) : result gooseMigrationFS :=
  add_migrations migrations (upFiles migrations) ∅.

(** [gooseMigrationFS.Open]: the directory, or a file. *)
Inductive MigrationEntry := migrationDir (names : list string) | migrationFile (name content : string).
Definition sortedMigrationNames (files : gooseMigrationFS) : list string := sort_Strings (map_to_list files).*1.
Definition migration_Open (files : gooseMigrationFS) (name : string) : result MigrationEntry :=
  let clean := filepath_Clean name in
  let cleanName := if HasPrefix clean "./" then drop_string 2 clean else clean in
  if (cleanName =? ".")%string then Ok (migrationDir (sortedMigrationNames files)) else
  match files !! cleanName with Some content => Ok (migrationFile cleanName content) | None => Err not_exist end.

(** [goose]: its set-up and its version table, and the migrations that are applied. *)
Class Goose := {
  goose_NewStore : result unit;
  goose_NewProvider : gooseMigrationFS -> result unit;
  goose_GetDBVersion : result unit;
  goose_Up : gooseMigrationFS -> result unit;
  sqlDB_Close : result unit }.

(** The error of the run, joined with that of closing its handle. *)
Definition RunMigrations `{!Goose} (pool : bool) (migrations : option MigrationsFS) : result unit :=
  if negb pool then Err (EText "postgres migrations: pool is nil") else
  match migrations with
  | None => Err (EText "postgres migrations: migrations filesystem is nil")
  | Some migrations =>
      match newGooseMigrationFS migrations with
      | Err err => Err (EWrap (EText "prepare postgres migrations") err)
      | Ok files =>
          if bool_decide (files = ∅) then Ok tt else
          let wrap (text : string) (r : result unit) := match r with Ok _ => Ok tt | Err err => Err (EWrap (EText text) err) end in
          let run :=
            let? _ := wrap "create postgres migration store" goose_NewStore in
            let? _ := wrap "create postgres migration provider" (goose_NewProvider files) in
            let? _ := wrap "initialize postgres migration state" goose_GetDBVersion in
            wrap "run postgres migrations" (goose_Up files) in
          match run, wrap "close postgres migration sql handle" sqlDB_Close with
          | Err err, Err closeErr => Err (EJoin err closeErr)
          | Err err, Ok _ | Ok _, Err err => Err err
          | Ok _, Ok _ => Ok tt
          end
      end
  end.

(** ** What [goose] is given *)

Lemma HasSuffix_spec s suffix : HasSuffix s suffix = true -> s = TrimSuffix s suffix +:+ suffix.
Proof.
  intros H. unfold TrimSuffix. rewrite H. unfold HasSuffix in H. apply andb_true_iff in H as [_ H%String.eqb_eq].
  rewrite <- (take_drop_string (String.length s - String.length suffix) s) at 1. by rewrite H.
Qed.
Lemma HasSuffix_app s suffix : HasSuffix (s +:+ suffix) suffix = true.
Proof.
  unfold HasSuffix. rewrite length_string_app. apply andb_true_iff. split; [apply Nat.leb_le; lia|].
  replace (String.length s + String.length suffix - String.length suffix)%nat with (String.length s) by lia.
  rewrite drop_string_app. apply String.eqb_refl.
Qed.
Lemma TrimSuffix_app s suffix : TrimSuffix (s +:+ suffix) suffix = s.
Proof.
  unfold TrimSuffix. rewrite HasSuffix_app, length_string_app.
  replace (String.length s + String.length suffix - String.length suffix)%nat with (String.length s) by lia.
  apply take_string_app.
Qed.

Lemma add_migrations_spec migrations ups files out :
  Forall (fun up => HasSuffix up ".up.sql" = true) ups -> add_migrations migrations ups files = Ok out ->
  forall v, if bool_decide (v +:+ ".up.sql" ∈ ups)
            then exists text, combined migrations (v +:+ ".up.sql") = Ok text /\ out !! (v +:+ ".sql") = Some text
            else out !! (v +:+ ".sql") = files !! (v +:+ ".sql").
Proof.
  intros Hs. revert files. induction Hs as [|up ups Hup Hs IH]; intros files H v; cbn [add_migrations] in H.
  - injection H as ->. by rewrite bool_decide_eq_false_2 by apply not_elem_of_nil.
  - destruct (combined migrations up) as [text|] eqn:E; [|done]. cbn in H. specialize (IH _ H v).
    destruct (decide (v +:+ ".up.sql" ∈ ups)) as [Hv|Hv].
    + rewrite bool_decide_eq_true_2 in IH by done. rewrite bool_decide_eq_true_2; [done|by right].
    + rewrite bool_decide_eq_false_2 in IH by done. destruct (decide (v +:+ ".up.sql" = up)) as [<-|Hne].
      * rewrite bool_decide_eq_true_2 by left. exists text. split; [done|]. rewrite IH. unfold combinedName.
        rewrite TrimSuffix_app. apply lookup_insert_eq.
      * rewrite bool_decide_eq_false_2 by (rewrite elem_of_cons; tauto). rewrite IH. apply lookup_insert_ne.
        unfold combinedName. intros Hc. apply Hne. rewrite (HasSuffix_spec up ".up.sql" Hup). f_equal.
        apply (f_equal (fun s => TrimSuffix s ".sql")) in Hc. by rewrite !TrimSuffix_app in Hc.
Qed.

(** [goose] is given a file for each way up, with the way down after it when there is
    one; the names keep the versions of the files. *)
Theorem migrations_are_combined (migrations : MigrationsFS) (files : gooseMigrationFS) (v : string)
    (H : newGooseMigrationFS migrations = Ok files) :
  if bool_decide (v +:+ ".up.sql" ∈ upFiles migrations)
  then exists text, combined migrations (v +:+ ".up.sql") = Ok text /\ files !! (v +:+ ".sql") = Some text
  else files !! (v +:+ ".sql") = None.
Proof.
  pose proof (add_migrations_spec migrations (upFiles migrations) ∅ files) as Hs.
  rewrite <- (lookup_empty (M := gmap string) (A := string) (v +:+ ".sql")). apply Hs; [|exact H].
  apply Forall_forall. intros up Hup. unfold upFiles in Hup. rewrite sort_Strings_perm in Hup.
  apply elem_of_filter_bool in Hup as [_ Hup]. by apply andb_true_iff in Hup as [Hup _].
Qed.
